(* ===== verification/_CoqProject ===== *)
-Q . S2P
Prelude.v
Types.v
Machine.v
EvList.v
Local.v
Sample.v
Write.v
Repair.v
Read.v
LList.v
Dump.v
Restore.v
StatConfig.v
Stats.v
Chain.v
Api.v
StationApi.v
Init.v
Temp.v
EventApi.v
Group.v
EventSpec.v
PutSpec.v
EventField.v
Station.v
StationSpec.v
Attach.v
Fix.v
FixChain.v
FixStat.v
FixAtt.v
Crash.v
AttachCrash.v
Attachment.v
SysConfig.v
Select.v
Conductor.v
Wake.v
Create.v
Start.v
Started.v
Process.v
ProcessSpec.v
AddStations.v
OpenConfig.v
Wire.v
Client.v
Server.v
Session.v
RemoteSpec.v
ServerEvents.v
NoShare.v
NoShareSpec.v
Fifo.v
FifoSpec.v
Delivery.v
Distribute.v
Round.v
