(* ===== verification/Prelude.v ===== *)
(** * A verification of the ET (Event Transfer) system

    ET moves fixed-size events through a chain of stations that live in one shared memory.  All
    events start in the input list of the first station, GrandCentral.  A user process attaches to
    a station, reads events from its input list and puts them into its output list; the ET system
    process moves them from there to the input list of the next stations, and at the end of the
    chain back to GrandCentral.  Processes may die at any point, and the ET system then repairs the
    lists and returns the events that the dead process had read.  The code is src/src/libsrc; this
    library models the code that works on the shared memory.

    The files, in the order of their dependencies:
    - Prelude: tactics, 64-bit counters, the stable order of a list by priority;
    - Types: the constants of et.h and et_private.h and their structures as Records, with one
      update function [set_<prefix>_<field>] for each field;
    - Machine: the monad in which every function that works on the shared memory is written,
      loads and stores, pointer translation, condition variables, weakest preconditions;
    - EvList: the locks of et_readwrite.c, and what it means that a list of the shared memory is
      the representation of a mathematical list of events ([list_rep], [out_rep]);
    - Local: rules for the functions that use one station, its lists and the events;
    - Sample: a concrete ET system, on which the theorems are instantiated;
    - Write, Read, Dump: et_station_write, et_station_nwrite, et_station_read, et_station_nread,
      et_station_nread_group, et_station_dump, et_station_ndump (et_readwrite.c);
    - Repair: et_mutex_locked and the et_repair functions (et_readwrite.c);
    - Group: the theorem about et_station_nread_group;
    - LList: et_llist_read, et_llist_write, et_llist_write_gc (et_readwrite.c), with which the
      conductor threads of the ET system process move events;
    - Restore: et_restore, et_flush_events, et_restore_events (et_readwrite.c);
    - StatConfig: et_statconfig.c;
    - Stats: rules for the functions that use several stations and the system structure;
    - Chain: station_insert, station_remove, station_find (et_station.c), and what it means that the
      links of the stations are the representation of a list of groups ([station_chain]);
    - Api: the frame of the functions of the user interface, which check the id, ask a remote system
      or take the lock of the memory; et_alive (et_local.c), et_mem_unlock (et_common.c);
    - StationApi: the functions that get and set one value of a station (et_station.c);
    - Init: et_init.c;
    - Temp: the files of temporary events (et_mem.c), and what it means that a computation leaves the
      shared memory as it is ([quiet]);
    - EventApi: et_event_new, et_events_new, et_events_new_group, et_event_get, et_events_get,
      et_event_put, et_events_put, et_event_dump, et_events_dump (et_event.c);
    - EventSpec, PutSpec: the theorems about them;
    - EventField: the functions that get and set an element of an event (et_event.c);
    - Station: et_station_create_at, et_station_create, et_station_remove, et_station_attach,
      et_station_detach, et_station_setposition, et_station_getposition (et_station.c);
    - StationSpec, Attach: the theorems about them; [system_ok] is the invariant of the stations,
      [attach_ok] that of the attachments;
    - Fix: the et_fix functions and et_sys_heartmonitor (et_system.c), which clean up after a process
      that died;
    - FixChain, FixStat, FixAtt: what they do to the chain, the stations and the attachments, and the
      theorem about crashes while the chain is changed;
    - Crash, AttachCrash: partial triples, which say what every memory between two stores looks like,
      and the theorem about crashes in et_station_attach;
    - Attachment: et_attachment.c;
    - SysConfig: et_sysconfig.c and et_system_config_check (et_system.c);
    - Select: et_condition, shellSort, and how many events the stations of a parallel group get
      (et_system.c);
    - Conductor: et_conductor (et_system.c);
    - Wake: triples for runs in which other processes wake up the one that waits;
    - Create: the theorem about et_station_create_at, which waits for the conductor to start;
    - Start, Started: how et_system_start fills the shared memory (et_system.c), and the theorem that
      it establishes all invariants;
    - Process: how a process gets and gives up its place, the heartbeats and the watch over them, closing
      and killing (et_local.c, et_common.c), et_system_close and et_sys_heartbeat (et_system.c);
    - ProcessSpec: the theorems about opening and closing;
    - AddStations: et_add_stations (et_system.c), and what et_system_close does to this thread;
    - OpenConfig: et_openconfig.c, codanetIsDottedDecimal and codanetGetBroadcastAddrs (etCommonNetwork.c);
    - Wire: integers and strings as bytes in network order;
    - Client: the requests of et_remote.c as conversations over a connection, for every behaviour of the
      network;
    - Server: the commands of the server about stations, attachments and the system (et_server.c), for
      one client;
    - Session: the server's loop over the commands, and a client and its server together;
    - RemoteSpec: [networked], the requests of a client as an instance of the class Remote, and the
      theorem that a remote client gets what a local one would get;
    - ServerEvents: the commands of the server that get, make, put and dump events for clients on its own
      node (et_command_loop_system of et_server.c);
    - NoShare: the functions for events, etn_alive and the closing functions of et_noshare.c, for processes
      that share the memory but not its mutexes;
    - NoShareSpec: the theorem that such a process gets and gives back events as its server does;
    - Fifo: et_fifo.c, which uses the system as a fifo whose entries are arrays of events;
    - FifoSpec: the theorems about opening a fifo, new entries, and the buffers of an entry;
    - Delivery, Distribute, Round: the theorem about a turn of the conductor's loop; [delivery] is
      the invariant while it hands out the events, Distribute has a lemma for each part of the code.

    ** The model

    A C function becomes a definition of the same name.  Pointers to events are addresses: the
    events are a finite map keyed by their address in the ET system process, and a process whose
    mapping of the memory differs by [id_offset] uses the address plus this offset, translated by
    ET_PEVENT2USR and ET_PEVENT2ET as in the code.  Pointers to stations, attachments and processes
    are their numbers.  An int is a [Z]; the statistics counters are reduced modulo 2^64.  A mutex
    is its locked flag.  Every assignment to the shared memory is one [store], in program order, so
    that a run with a budget of k stores is the run of a process that dies just before its store
    number k+1.  A wait on a condition variable takes the next wake-up of the context, which holds
    the status of the wait and the effect of the other processes; without one the process stays
    blocked.  Debug messages and memory allocation in the private memory of a process are not part
    of the state.

    ** The theorems

    Each operation on a list has a theorem that describes its result in terms of the mathematical
    list before and after, for every input that satisfies the invariant of the list, errors
    included; weakest preconditions imply that the operation returns.  The theorems named crash_repair
    say that when a process dies after any number of stores, the repair function makes the list
    well formed again and loses or duplicates no event of it.
    conductor_round_spec says that every event that a conductor takes arrives in exactly one input
    list, and in which; it uses what is known about the sort, the equal cues and the round robin, and leaves
    out round-robin groups behind the next group, where the code puts an event twice (rrobin_spec).
    The theorems of EventSpec and PutSpec say which events a user process gets, makes, puts and dumps,
    in what state they and the lists then are, and what is left behind when a step fails;
    et_events_get_put_spec is the whole way of events through a process.
    The theorems of Chain relate the linked lists of stations to a list of groups on which inserting,
    removing and finding are simple functions; those of StationSpec and Attach lift them to the
    functions of the user interface and say that the invariants are kept.  StationApi has one theorem
    for all getters and one for all setters, with the descriptions of the calls as data.
    FixStat.chain_op_crash_cleanup and AttachCrash.et_station_attach_crash_cleanup say that a process
    may die anywhere while it changes the chain of stations or attaches to an active station: the
    clean-up of the ET system brings back the invariants, with the change done or undone.
    Create.et_station_create_at_spec is about two threads: the process that makes a station waits until
    the conductor of the station has started.  Started.et_system_start_spec says that a start establishes
    the invariants from any contents of the memory.
    The theorems of StatConfig, SysConfig and OpenConfig say that the values of a configuration stay within
    their bounds whatever is set, and when the checks accept it; open_config_invariant tells exactly which
    calls write behind an array instead.
    ProcessSpec.open_close_process says that closing undoes opening, et_close_strands what becomes of a
    process that closes a system while it has an attachment (no call does anything for it any more), and
    AddStations.et_system_close_strands_thread what becomes of the thread that adds stations.  RemoteSpec.remote_transparency relates the
    calls of a remote client that its [request] lists to those of its server: the client's conversation, run against the server's
    loop, is the same computation on the shared memory, with the result put through the network; that
    a value of its type survives the network is part of the theorem.
    NoShareSpec.noshare_transparency says what the functions for events of a process without the mutexes
    return and leave in the memory when the server's call does this or that, for every way to wait;
    noshare_data_roundtrip says that the data pointers of the events, which
    such a process sets for itself, are again those of the ET system when it has given the events back.
    The theorems of FifoSpec are about whole entries: what a producer has after it opened a fifo and asked for
    an entry, on every branch, and that the ids of an entry never share a buffer.

    ** Bounds and fuel

    Loops over a list run as long as its count says, as in the code.  The loop of
    et_repair_inputlist has no bound in the code; its fuel is the number of events that exist, and
    a walk that is longer has met an event twice.  Loops that wait are bounded by the number of
    wake-ups of the context.  Walks along the chain of stations have the number of the stations that
    exist as fuel, the walk of the round robin twice that number, since it starts in the middle; a
    longer walk goes in a circle.  The endless loop of a conductor is cut after a number of turns, that of et_sys_heartmonitor is
    given turn by turn.  The walks of the et_fix functions are bounded by the number of stations,
    which wp_fix_chain and wp_in_chain_of show to be enough for every memory a crash may leave.
    shellSort and the equal-cue algorithm have the number of stations as fuel, which their theorems
    show to be enough.  The loop of the server over the commands of a client has the length of what the
    client wrote as fuel, since each turn reads at least four bytes.  The rounds of three seconds in which the
    server waits for events on behalf of a client are bounded by the wake-ups of the context, like all waits.

    ** Not modelled

    What code outside of this library does is a parameter: the class Remote has the functions that ask
    a remote system, RemoteEvents those
    for events, Os the operating system, Kernel the system calls for files, Cpu the bytes of a short in
    memory, Selector the selection functions of the users.

    A conversation assumes that the network carries what was written, and that the server works off all of
    it whenever the client waits; how the threads of several clients interleave is not part of the model.
    Not modelled are etr_open and the requests about events (et_remote.c), the server's commands that
    send events over the network and those for data about the whole system, which are parameters of its
    loop, the threads that accept connections (et_server.c), etn_open and etn_wait_for_alive (et_noshare.c),
    et_remoteclient.c, et_network.c, et_bridge.c, the fifo of a remote user, the Java interface, the file and
    the mapping behind the shared memory, the start of threads, et_look and et_wait_for_system, and the examples.  et_station_nwriteNoPri and et_restore_in are never called. *)
From stdpp Require Import base list numbers.
From Stdlib Require Import ZArith Lia.

(** ** Notations *)

Declare Scope et_scope.
Delimit Scope et_scope with et.

(** ** Tactics *)

(** Splits conjunctions and existentials of the context. *)
Ltac split_hyps :=
  repeat match goal with
  | H : _ /\ _ |- _ => destruct H
  | H : exists _, _ |- _ => destruct H
  end.

(** Turns the boolean comparisons of the context and the goal into propositions. *)
Ltac zbool :=
  repeat match goal with
  | H : (_ =? _)%Z = true |- _ => apply Z.eqb_eq in H
  | H : (_ =? _)%Z = false |- _ => apply Z.eqb_neq in H
  | H : (_ <? _)%Z = true |- _ => apply Z.ltb_lt in H
  | H : (_ <? _)%Z = false |- _ => apply Z.ltb_ge in H
  | H : (_ <=? _)%Z = true |- _ => apply Z.leb_le in H
  | H : (_ <=? _)%Z = false |- _ => apply Z.leb_gt in H
  end.

(** Case analysis on a comparison of two integers occurring in the goal. *)
Ltac zcase :=
  match goal with
  | |- context [(?a =? ?b)%Z] => destruct (Z.eqb_spec a b)
  | |- context [(?a <? ?b)%Z] => destruct (Z.ltb_spec a b)
  | |- context [(?a <=? ?b)%Z] => destruct (Z.leb_spec a b)
  end.

(** ** Unsigned 64-bit arithmetic *)

Definition u64 (z : Z) : Z := (z mod 2 ^ 64)%Z.

Lemma u64_range z : (0 <= u64 z < 2 ^ 64)%Z.
Proof. apply Z.mod_pos_bound. lia. Qed.

Lemma u64_small z : (0 <= z < 2 ^ 64)%Z -> u64 z = z.
Proof. apply Z.mod_small. Qed.

(** ** Stable partition of a list by a priority *)

Section priority.
Context {A : Type} (h : A -> bool).

Definition highs (l : list A) : list A := List.filter h l.
Definition lows (l : list A) : list A := List.filter (fun a => negb (h a)) l.

(** The elements of high priority, then the others, each in their original order. *)
Definition pri_sort (l : list A) : list A := highs l ++ lows l.

(** A list is in priority order when no element of high priority follows one of low priority. *)
Definition pri_sorted (l : list A) : Prop := pri_sort l = l.

Definition all_high (l : list A) : Prop := Forall (fun a => h a = true) l.
Definition all_low (l : list A) : Prop := Forall (fun a => h a = false) l.

Lemma highs_app l k : highs (l ++ k) = highs l ++ highs k.
Proof. apply List.filter_app. Qed.

Lemma lows_app l k : lows (l ++ k) = lows l ++ lows k.
Proof. apply List.filter_app. Qed.

Lemma highs_high l : all_high l -> highs l = l.
Proof. induction 1 as [|a l E _ IH]; simpl; [done|]. by rewrite E, IH. Qed.

Lemma highs_low l : all_low l -> highs l = [].
Proof. induction 1 as [|a l E _ IH]; simpl; [done|]. by rewrite E. Qed.

Lemma lows_low l : all_low l -> lows l = l.
Proof. induction 1 as [|a l E _ IH]; simpl; [done|]. by rewrite E, IH. Qed.

Lemma lows_high l : all_high l -> lows l = [].
Proof. induction 1 as [|a l E _ IH]; simpl; [done|]. by rewrite E. Qed.

Lemma all_high_highs l : all_high (highs l).
Proof. unfold all_high, highs. apply List.Forall_forall. intros x. rewrite List.filter_In. tauto. Qed.

Lemma all_low_lows l : all_low (lows l).
Proof.
  unfold all_low, lows. apply List.Forall_forall. intros x. rewrite List.filter_In.
  intros [_ E]. by destruct (h x).
Qed.

Lemma pri_sorted_intro hs ls : all_high hs -> all_low ls -> pri_sorted (hs ++ ls).
Proof.
  intros Hh Hl. unfold pri_sorted, pri_sort. rewrite highs_app, lows_app.
  by rewrite (highs_high hs), (highs_low ls), (lows_high hs), (lows_low ls), app_nil_r.
Qed.

Lemma pri_sort_sorted l : pri_sorted (pri_sort l).
Proof. apply pri_sorted_intro; [apply all_high_highs | apply all_low_lows]. Qed.

Lemma pri_sorted_inv l : pri_sorted l -> l = highs l ++ lows l.
Proof. done. Qed.

Lemma pri_sorted_lookup_high l i b : pri_sorted l -> highs l !! i = Some b -> l !! i = Some b.
Proof. intros S E. rewrite <- S. by apply lookup_app_l_Some. Qed.

Lemma pri_sort_perm l : pri_sort l ≡ₚ l.
Proof.
  unfold pri_sort, highs, lows. induction l as [|a l IH]; simpl; [done|].
  destruct (h a); simpl; [by rewrite IH|]. by rewrite <- Permutation_middle, IH.
Qed.

Lemma pri_sort_length l : length (pri_sort l) = length l.
Proof. by rewrite pri_sort_perm. Qed.

Lemma highs_pri_sort l : highs (pri_sort l) = highs l.
Proof.
  unfold pri_sort. rewrite highs_app, (highs_high (highs l)), (highs_low (lows l)), app_nil_r;
    auto using all_high_highs, all_low_lows.
Qed.

Lemma lows_pri_sort l : lows (pri_sort l) = lows l.
Proof.
  unfold pri_sort. rewrite lows_app, (lows_high (highs l)), (lows_low (lows l));
    auto using all_high_highs, all_low_lows.
Qed.

Lemma pri_sort_app_l l k : pri_sort (pri_sort l ++ k) = pri_sort (l ++ k).
Proof.
  unfold pri_sort at 1 3. by rewrite !highs_app, !lows_app, highs_pri_sort, lows_pri_sort.
Qed.

(** Adding one element to a list in priority order. *)
Lemma pri_sort_snoc_high l x :
  h x = true -> pri_sort (l ++ [x]) = highs l ++ x :: lows l.
Proof.
  intros E. unfold pri_sort. rewrite highs_app, lows_app. simpl. rewrite E. simpl.
  by rewrite app_nil_r, <- app_assoc.
Qed.

Lemma pri_sort_snoc_low l x :
  pri_sorted l -> h x = false -> pri_sort (l ++ [x]) = l ++ [x].
Proof.
  intros S E. unfold pri_sort. rewrite highs_app, lows_app. simpl. rewrite E. simpl.
  rewrite app_nil_r, app_assoc. f_equal. exact S.
Qed.
End priority.

Arguments highs {A} h l.
Arguments lows {A} h l.
Arguments pri_sort {A} h l.
Arguments pri_sorted {A} h l.
Arguments all_high {A} h l.
Arguments all_low {A} h l.

(** ** Sums *)

Definition sumZ (l : list Z) : Z := foldr Z.add 0%Z l.

Lemma sumZ_app l k : sumZ (l ++ k) = (sumZ l + sumZ k)%Z.
Proof. induction l as [|x l IH]; simpl; [done|]. rewrite IH. lia. Qed.

Lemma sumZ_perm l k : l ≡ₚ k -> sumZ l = sumZ k.
Proof. induction 1; simpl; lia. Qed.

#[export] Instance sumZ_proper : Proper ((≡ₚ) ==> (=)) sumZ.
Proof. exact sumZ_perm. Qed.

(** The sum of [f 0], ..., [f (n-1)]. *)
Definition sum_upto (n : nat) (f : nat -> Z) : Z := sumZ (map f (seq 0 n)).

Lemma sum_upto_S n f : sum_upto (S n) f = (sum_upto n f + f n)%Z.
Proof. unfold sum_upto. rewrite seq_S, map_app, sumZ_app. simpl. lia. Qed.

Lemma sum_upto_ext n f g : (forall i, (i < n)%nat -> f i = g i) -> sum_upto n f = sum_upto n g.
Proof. induction n as [|n IH]; intros H; [done|]. rewrite !sum_upto_S, IH by auto. by rewrite H by lia. Qed.

Lemma sum_upto_add n f g : sum_upto n (fun i => f i + g i)%Z = (sum_upto n f + sum_upto n g)%Z.
Proof. induction n as [|n IH]; [done|]. rewrite !sum_upto_S, IH. lia. Qed.
