(* ===== verification/Types.v ===== *)
(** * The data of the ET system

    Constants of et.h and et_private.h and the structures that live in the shared memory, as
    Records with the fields of the C structures; one update function per field.  A C [int] is a
    [Z]; the 64-bit statistics counters are reduced modulo 2^64 where the code adds to them. *)
From stdpp Require Import base gmap strings list.
From S2P Require Import Prelude.
Open Scope Z_scope.

(** ** Constants *)

Definition ET_STATION_CUE : Z := 10.
Definition ET_STATION_PRESCALE : Z := 1.
Definition ET_SYSTEM_EVENTS : Z := 300.
Definition ET_SYSTEM_NTEMPS : Z := 300.
Definition ET_SYSTEM_ESIZE : Z := 1000.
Definition ET_SYSTEM_NSTATS : Z := 200.
Definition ET_UDP_PORT : Z := 11111.
Definition ET_SERVER_PORT : Z := 11111.
Definition ET_MAXADDRESSES : Z := 10.
Definition ET_IPADDRSTRLEN : Z := 16.
Definition ET_MAXHOSTNAMELEN : Z := 256.
Definition ET_EVENT_GROUPS_MAX : Z := 5000.
Definition ET_STATION_SELECT_INTS : Z := 6.
Definition ET_FILENAME_LENGTH : Z := 100.
Definition ET_FUNCNAME_LENGTH : Z := 48.
Definition ET_STATNAME_LENGTH : Z := 48.
Definition ET_GRANDCENTRAL : Z := 0.
Definition ET_STATION_UNUSED : Z := 0.
Definition ET_STATION_CREATING : Z := 1.
Definition ET_STATION_IDLE : Z := 2.
Definition ET_STATION_ACTIVE : Z := 3.
Definition ET_STATION_USER_MULTI : Z := 0.
Definition ET_STATION_USER_SINGLE : Z := 1.
Definition ET_STATION_NONBLOCKING : Z := 0.
Definition ET_STATION_BLOCKING : Z := 1.
Definition ET_STATION_SELECT_ALL : Z := 1.
Definition ET_STATION_SELECT_MATCH : Z := 2.
Definition ET_STATION_SELECT_USER : Z := 3.
Definition ET_STATION_SELECT_RROBIN : Z := 4.
Definition ET_STATION_SELECT_EQUALCUE : Z := 5.
Definition ET_STATION_RESTORE_OUT : Z := 0.
Definition ET_STATION_RESTORE_IN : Z := 1.
Definition ET_STATION_RESTORE_GC : Z := 2.
Definition ET_STATION_RESTORE_REDIST : Z := 3.
Definition ET_STATION_SERIAL : Z := 0.
Definition ET_STATION_PARALLEL : Z := 1.
Definition ET_STATION_PARALLEL_HEAD : Z := 2.
Definition ET_OK : Z := 0.
Definition ET_ERROR : Z := (-1).
Definition ET_ERROR_TOOMANY : Z := (-2).
Definition ET_ERROR_EXISTS : Z := (-3).
Definition ET_ERROR_WAKEUP : Z := (-4).
Definition ET_ERROR_TIMEOUT : Z := (-5).
Definition ET_ERROR_EMPTY : Z := (-6).
Definition ET_ERROR_BUSY : Z := (-7).
Definition ET_ERROR_DEAD : Z := (-8).
Definition ET_ERROR_READ : Z := (-9).
Definition ET_ERROR_WRITE : Z := (-10).
Definition ET_ERROR_REMOTE : Z := (-11).
Definition ET_ERROR_NOMEM : Z := (-14).
Definition ET_ERROR_BADARG : Z := (-15).
Definition ET_ERROR_CLOSED : Z := (-18).
Definition ET_LOW : Z := 0.
Definition ET_HIGH : Z := 1.
Definition ET_SYS : Z := (-1).
Definition ET_END : Z := (-1).
Definition ET_NEWHEAD : Z := (-2).
Definition ET_EVENT_TEMP : Z := 1.
Definition ET_EVENT_NORMAL : Z := 0.
Definition ET_EVENT_NEW : Z := 1.
Definition ET_EVENT_USED : Z := 0.
Definition ET_SLEEP : Z := 0.
Definition ET_TIMED : Z := 1.
Definition ET_ASYNC : Z := 2.
Definition ET_WAIT_MASK : Z := 3.
Definition ET_REMOTE : Z := 0.
Definition ET_LOCAL : Z := 1.
Definition ET_LOCAL_NOSHARE : Z := 2.
Definition ET_DATA_OK : Z := 0.
Definition ET_DATA_CORRUPT : Z := 1.
Definition ET_DATA_POSSIBLY_CORRUPT : Z := 2.
Definition ET_ENDIAN_BIG : Z := 0.
Definition ET_ENDIAN_LITTLE : Z := 1.
Definition ET_ENDIAN_LOCAL : Z := 2.
Definition ET_ENDIAN_NOTLOCAL : Z := 3.
Definition ET_ENDIAN_SWITCH : Z := 4.
Definition ET_DEBUG_NONE : Z := 0.
Definition ET_DEBUG_SEVERE : Z := 1.
Definition ET_DEBUG_ERROR : Z := 2.
Definition ET_DEBUG_WARN : Z := 3.
Definition ET_DEBUG_INFO : Z := 4.
Definition ET_NOSWAP : Z := 0.
Definition ET_SWAP : Z := 1.
Definition ET_LANG_C : Z := 0.
Definition ET_LANG_CPP : Z := 1.
Definition ET_LANG_JAVA : Z := 2.
Definition ET_ATTACHMENTS_MAX : Z := 100.
Definition ET_ATT_UNUSED : Z := 0.
Definition ET_ATT_ACTIVE : Z := 1.
Definition ET_ATT_CONTINUE : Z := 0.
Definition ET_ATT_QUIT : Z := 1.
Definition ET_ATT_UNBLOCKED : Z := 0.
Definition ET_ATT_BLOCKED : Z := 1.
Definition ET_ATT_NOSLEEP : Z := 0.
Definition ET_ATT_SLEEP : Z := 1.
Definition ET_PROC_CLOSED : Z := 0.
Definition ET_PROC_OPEN : Z := 1.
Definition ET_PROC_ETDEAD : Z := 0.
Definition ET_PROC_ETOK : Z := 1.
Definition ET_STRUCT_NEW : Z := 0.
Definition ET_STRUCT_OK : Z := 1.
Definition ET_THREAD_KEEP : Z := 0.
Definition ET_THREAD_KILL : Z := 1.
Definition ET_MUTEX_UNLOCKED : Z := 0.
Definition ET_MUTEX_LOCKED : Z := 1.
Definition ET_FIX_READ : Z := 0.
Definition ET_FIX_DUMP : Z := 1.
Definition ET_PROCESSES_MAX : Z := 100.

(** ** Structures *)

(** struct et_event_t (et.h): one event header in shared memory.  Pointers are addresses. *)
Record et_event := mkEvent {
  ev_next : Z; ev_tempdata : Z; ev_pdata : Z; ev_data : Z; ev_length : Z; ev_memsize : Z;
  ev_pointer : Z; ev_modify : Z; ev_priority : Z; ev_owner : Z; ev_temp : Z; ev_age : Z;
  ev_datastatus : Z; ev_byteorder : Z; ev_group : Z; ev_place : Z; ev_control : list Z;
  ev_filename : string
}.

(** struct et_list_t: the input or output list of a station.  The mutex is its locked flag, the condition variable the number of times it was signalled. *)
Record et_list := mkList {
  l_cnt : Z; l_lasthigh : Z; l_events_try : Z; l_events_in : Z; l_events_out : Z; l_firstevent :
  Z; l_lastevent : Z; l_mutex : bool; l_cread : nat
}.

(** struct et_fix, with its et_fixin and et_fixout members flattened. *)
Record et_fix := mkFix {
  fix_in_first : Z; fix_in_eventsin : Z; fix_in_start : Z; fix_in_cnt : Z; fix_in_num : Z;
  fix_in_call : Z; fix_out_start : Z; fix_out_cnt : Z; fix_out_num : Z
}.

(** struct et_stat_config_t.  The select words are an array of ET_STATION_SELECT_INTS ints. *)
Record et_stat_config := mkStatConfig {
  sc_init : Z; sc_flow_mode : Z; sc_user_mode : Z; sc_restore_mode : Z; sc_block_mode : Z;
  sc_prescale : Z; sc_cue : Z; sc_select_mode : Z; sc_select : list Z; sc_fname : string; sc_lib
  : string; sc_classs : string
}.

(** struct et_stat_data_t, without the handle of the user library and its selection function. *)
Record et_stat_data := mkStatData {
  sd_status : Z; sd_pid_create : Z; sd_nattachments : Z; sd_att : gmap Z Z
}.

(** struct et_station_t.  The transfer mutex is its locked flag. *)
Record et_station := mkStation {
  st_num : Z; st_conductor : Z; st_next : Z; st_prev : Z; st_nextparallel : Z; st_prevparallel :
  Z; st_waslast : Z; st_name : string; st_mutex : bool; st_fix : et_fix; st_data : et_stat_data;
  st_config : et_stat_config; st_list_in : et_list; st_list_out : et_list
}.

(** struct et_proc, without its two thread ids. *)
Record et_proc := mkProc {
  pr_num : Z; pr_att : gmap Z Z; pr_time : Z; pr_nattachments : Z; pr_status : Z; pr_et_status :
  Z; pr_heartbeat : Z; pr_pid : Z
}.

(** struct et_attach. *)
Record et_attach := mkAttach {
  at_num : Z; at_proc : Z; at_stat : Z; at_status : Z; at_blocked : Z; at_quit : Z; at_sleep :
  Z; at_events_put : Z; at_events_get : Z; at_events_dump : Z; at_events_make : Z; at_pid : Z;
  at_host : string; at_interface : string
}.

(** struct et_sys_config_t, without the network address lists netinfo and bcastaddrs. *)
Record et_sys_config := mkSysConfig {
  cf_event_size : Z; cf_init : Z; cf_nevents : Z; cf_ntemps : Z; cf_nstations : Z; cf_nprocesses
  : Z; cf_nattachments : Z; cf_groupCount : Z; cf_groups : list Z; cf_filename : string; cf_port
  : Z; cf_serverport : Z; cf_tcpSendBufSize : Z; cf_tcpRecvBufSize : Z; cf_tcpNoDelay : Z;
  cf_mcastaddrs : list string
}.

(** struct et_system_t, without thread ids, socket descriptors and the condition variables of station creation.  Mutexes are locked flags. *)
Record et_system := mkSystem {
  sys_version : Z; sys_nselects : Z; sys_bitInfo : Z; sys_asthread : Z; sys_heartbeat : Z;
  sys_hz : Z; sys_nstations : Z; sys_ntemps : Z; sys_nprocesses : Z; sys_nattachments : Z;
  sys_port : Z; sys_statAdd : Z; sys_statDone : Z; sys_stat_head : Z; sys_stat_tail : Z;
  sys_mainpid : Z; sys_mutex : bool; sys_stat_mutex : bool; sys_statadd_mutex : bool; sys_host :
  string; sys_proc : gmap Z et_proc; sys_attach : gmap Z et_attach; sys_config : et_sys_config
}.

(** The shared memory that et_id_t points to: the system structure, the station array (indexed by station id), the histogram, and the events (keyed by their address in the space of the ET system process); with the read-write lock sharedMemlock of the calling process (the number of readers, or -1 for the writer). *)
Record et_mem := mkMem {
  m_sys : et_system; m_stats : gmap Z et_station; m_histogram : gmap Z Z; m_events : gmap Z
  et_event; m_rwlock : Z
}.

(** struct et_id_t, the private data of a process about the ET system: the fields that the modelled code reads, without the pointers into the shared memory (the model passes [et_mem]) and the socket of a remote connection. *)
Record et_id := mkId {
  id_lang : Z; id_init : Z; id_alive : Z; id_closed : Z; id_proc : Z; id_cleanup : Z; id_debug :
  Z; id_nevents : Z; id_group : Z; id_share : Z; id_esize : Z; id_offset : Z; id_locality : Z;
  id_port : Z; id_ethost : string; id_localAddr : string
}.

(** Field updates: [set_f v x] is the assignment [x->f = v]. *)

Definition set_ev_next (v : Z) (x : et_event) : et_event := mkEvent v (ev_tempdata x) (ev_pdata
  x) (ev_data x) (ev_length x) (ev_memsize x) (ev_pointer x) (ev_modify x) (ev_priority x)
  (ev_owner x) (ev_temp x) (ev_age x) (ev_datastatus x) (ev_byteorder x) (ev_group x) (ev_place
  x) (ev_control x) (ev_filename x).
Definition set_ev_tempdata (v : Z) (x : et_event) : et_event := mkEvent (ev_next x) v (ev_pdata
  x) (ev_data x) (ev_length x) (ev_memsize x) (ev_pointer x) (ev_modify x) (ev_priority x)
  (ev_owner x) (ev_temp x) (ev_age x) (ev_datastatus x) (ev_byteorder x) (ev_group x) (ev_place
  x) (ev_control x) (ev_filename x).
Definition set_ev_pdata (v : Z) (x : et_event) : et_event := mkEvent (ev_next x) (ev_tempdata x)
  v (ev_data x) (ev_length x) (ev_memsize x) (ev_pointer x) (ev_modify x) (ev_priority x)
  (ev_owner x) (ev_temp x) (ev_age x) (ev_datastatus x) (ev_byteorder x) (ev_group x) (ev_place
  x) (ev_control x) (ev_filename x).
Definition set_ev_data (v : Z) (x : et_event) : et_event := mkEvent (ev_next x) (ev_tempdata x)
  (ev_pdata x) v (ev_length x) (ev_memsize x) (ev_pointer x) (ev_modify x) (ev_priority x)
  (ev_owner x) (ev_temp x) (ev_age x) (ev_datastatus x) (ev_byteorder x) (ev_group x) (ev_place
  x) (ev_control x) (ev_filename x).
Definition set_ev_length (v : Z) (x : et_event) : et_event := mkEvent (ev_next x) (ev_tempdata
  x) (ev_pdata x) (ev_data x) v (ev_memsize x) (ev_pointer x) (ev_modify x) (ev_priority x)
  (ev_owner x) (ev_temp x) (ev_age x) (ev_datastatus x) (ev_byteorder x) (ev_group x) (ev_place
  x) (ev_control x) (ev_filename x).
Definition set_ev_memsize (v : Z) (x : et_event) : et_event := mkEvent (ev_next x) (ev_tempdata
  x) (ev_pdata x) (ev_data x) (ev_length x) v (ev_pointer x) (ev_modify x) (ev_priority x)
  (ev_owner x) (ev_temp x) (ev_age x) (ev_datastatus x) (ev_byteorder x) (ev_group x) (ev_place
  x) (ev_control x) (ev_filename x).
Definition set_ev_pointer (v : Z) (x : et_event) : et_event := mkEvent (ev_next x) (ev_tempdata
  x) (ev_pdata x) (ev_data x) (ev_length x) (ev_memsize x) v (ev_modify x) (ev_priority x)
  (ev_owner x) (ev_temp x) (ev_age x) (ev_datastatus x) (ev_byteorder x) (ev_group x) (ev_place
  x) (ev_control x) (ev_filename x).
Definition set_ev_modify (v : Z) (x : et_event) : et_event := mkEvent (ev_next x) (ev_tempdata
  x) (ev_pdata x) (ev_data x) (ev_length x) (ev_memsize x) (ev_pointer x) v (ev_priority x)
  (ev_owner x) (ev_temp x) (ev_age x) (ev_datastatus x) (ev_byteorder x) (ev_group x) (ev_place
  x) (ev_control x) (ev_filename x).
Definition set_ev_priority (v : Z) (x : et_event) : et_event := mkEvent (ev_next x) (ev_tempdata
  x) (ev_pdata x) (ev_data x) (ev_length x) (ev_memsize x) (ev_pointer x) (ev_modify x) v
  (ev_owner x) (ev_temp x) (ev_age x) (ev_datastatus x) (ev_byteorder x) (ev_group x) (ev_place
  x) (ev_control x) (ev_filename x).
Definition set_ev_owner (v : Z) (x : et_event) : et_event := mkEvent (ev_next x) (ev_tempdata x)
  (ev_pdata x) (ev_data x) (ev_length x) (ev_memsize x) (ev_pointer x) (ev_modify x)
  (ev_priority x) v (ev_temp x) (ev_age x) (ev_datastatus x) (ev_byteorder x) (ev_group x)
  (ev_place x) (ev_control x) (ev_filename x).
Definition set_ev_temp (v : Z) (x : et_event) : et_event := mkEvent (ev_next x) (ev_tempdata x)
  (ev_pdata x) (ev_data x) (ev_length x) (ev_memsize x) (ev_pointer x) (ev_modify x)
  (ev_priority x) (ev_owner x) v (ev_age x) (ev_datastatus x) (ev_byteorder x) (ev_group x)
  (ev_place x) (ev_control x) (ev_filename x).
Definition set_ev_age (v : Z) (x : et_event) : et_event := mkEvent (ev_next x) (ev_tempdata x)
  (ev_pdata x) (ev_data x) (ev_length x) (ev_memsize x) (ev_pointer x) (ev_modify x)
  (ev_priority x) (ev_owner x) (ev_temp x) v (ev_datastatus x) (ev_byteorder x) (ev_group x)
  (ev_place x) (ev_control x) (ev_filename x).
Definition set_ev_datastatus (v : Z) (x : et_event) : et_event := mkEvent (ev_next x)
  (ev_tempdata x) (ev_pdata x) (ev_data x) (ev_length x) (ev_memsize x) (ev_pointer x)
  (ev_modify x) (ev_priority x) (ev_owner x) (ev_temp x) (ev_age x) v (ev_byteorder x) (ev_group
  x) (ev_place x) (ev_control x) (ev_filename x).
Definition set_ev_byteorder (v : Z) (x : et_event) : et_event := mkEvent (ev_next x)
  (ev_tempdata x) (ev_pdata x) (ev_data x) (ev_length x) (ev_memsize x) (ev_pointer x)
  (ev_modify x) (ev_priority x) (ev_owner x) (ev_temp x) (ev_age x) (ev_datastatus x) v
  (ev_group x) (ev_place x) (ev_control x) (ev_filename x).
Definition set_ev_group (v : Z) (x : et_event) : et_event := mkEvent (ev_next x) (ev_tempdata x)
  (ev_pdata x) (ev_data x) (ev_length x) (ev_memsize x) (ev_pointer x) (ev_modify x)
  (ev_priority x) (ev_owner x) (ev_temp x) (ev_age x) (ev_datastatus x) (ev_byteorder x) v
  (ev_place x) (ev_control x) (ev_filename x).
Definition set_ev_place (v : Z) (x : et_event) : et_event := mkEvent (ev_next x) (ev_tempdata x)
  (ev_pdata x) (ev_data x) (ev_length x) (ev_memsize x) (ev_pointer x) (ev_modify x)
  (ev_priority x) (ev_owner x) (ev_temp x) (ev_age x) (ev_datastatus x) (ev_byteorder x)
  (ev_group x) v (ev_control x) (ev_filename x).
Definition set_ev_control (v : list Z) (x : et_event) : et_event := mkEvent (ev_next x)
  (ev_tempdata x) (ev_pdata x) (ev_data x) (ev_length x) (ev_memsize x) (ev_pointer x)
  (ev_modify x) (ev_priority x) (ev_owner x) (ev_temp x) (ev_age x) (ev_datastatus x)
  (ev_byteorder x) (ev_group x) (ev_place x) v (ev_filename x).
Definition set_ev_filename (v : string) (x : et_event) : et_event := mkEvent (ev_next x)
  (ev_tempdata x) (ev_pdata x) (ev_data x) (ev_length x) (ev_memsize x) (ev_pointer x)
  (ev_modify x) (ev_priority x) (ev_owner x) (ev_temp x) (ev_age x) (ev_datastatus x)
  (ev_byteorder x) (ev_group x) (ev_place x) (ev_control x) v.

Definition set_l_cnt (v : Z) (x : et_list) : et_list := mkList v (l_lasthigh x) (l_events_try x)
  (l_events_in x) (l_events_out x) (l_firstevent x) (l_lastevent x) (l_mutex x) (l_cread x).
Definition set_l_lasthigh (v : Z) (x : et_list) : et_list := mkList (l_cnt x) v (l_events_try x)
  (l_events_in x) (l_events_out x) (l_firstevent x) (l_lastevent x) (l_mutex x) (l_cread x).
Definition set_l_events_try (v : Z) (x : et_list) : et_list := mkList (l_cnt x) (l_lasthigh x) v
  (l_events_in x) (l_events_out x) (l_firstevent x) (l_lastevent x) (l_mutex x) (l_cread x).
Definition set_l_events_in (v : Z) (x : et_list) : et_list := mkList (l_cnt x) (l_lasthigh x)
  (l_events_try x) v (l_events_out x) (l_firstevent x) (l_lastevent x) (l_mutex x) (l_cread x).
Definition set_l_events_out (v : Z) (x : et_list) : et_list := mkList (l_cnt x) (l_lasthigh x)
  (l_events_try x) (l_events_in x) v (l_firstevent x) (l_lastevent x) (l_mutex x) (l_cread x).
Definition set_l_firstevent (v : Z) (x : et_list) : et_list := mkList (l_cnt x) (l_lasthigh x)
  (l_events_try x) (l_events_in x) (l_events_out x) v (l_lastevent x) (l_mutex x) (l_cread x).
Definition set_l_lastevent (v : Z) (x : et_list) : et_list := mkList (l_cnt x) (l_lasthigh x)
  (l_events_try x) (l_events_in x) (l_events_out x) (l_firstevent x) v (l_mutex x) (l_cread x).
Definition set_l_mutex (v : bool) (x : et_list) : et_list := mkList (l_cnt x) (l_lasthigh x)
  (l_events_try x) (l_events_in x) (l_events_out x) (l_firstevent x) (l_lastevent x) v (l_cread
  x).
Definition set_l_cread (v : nat) (x : et_list) : et_list := mkList (l_cnt x) (l_lasthigh x)
  (l_events_try x) (l_events_in x) (l_events_out x) (l_firstevent x) (l_lastevent x) (l_mutex x)
  v.

Definition set_fix_in_first (v : Z) (x : et_fix) : et_fix := mkFix v (fix_in_eventsin x)
  (fix_in_start x) (fix_in_cnt x) (fix_in_num x) (fix_in_call x) (fix_out_start x) (fix_out_cnt
  x) (fix_out_num x).
Definition set_fix_in_eventsin (v : Z) (x : et_fix) : et_fix := mkFix (fix_in_first x) v
  (fix_in_start x) (fix_in_cnt x) (fix_in_num x) (fix_in_call x) (fix_out_start x) (fix_out_cnt
  x) (fix_out_num x).
Definition set_fix_in_start (v : Z) (x : et_fix) : et_fix := mkFix (fix_in_first x)
  (fix_in_eventsin x) v (fix_in_cnt x) (fix_in_num x) (fix_in_call x) (fix_out_start x)
  (fix_out_cnt x) (fix_out_num x).
Definition set_fix_in_cnt (v : Z) (x : et_fix) : et_fix := mkFix (fix_in_first x)
  (fix_in_eventsin x) (fix_in_start x) v (fix_in_num x) (fix_in_call x) (fix_out_start x)
  (fix_out_cnt x) (fix_out_num x).
Definition set_fix_in_num (v : Z) (x : et_fix) : et_fix := mkFix (fix_in_first x)
  (fix_in_eventsin x) (fix_in_start x) (fix_in_cnt x) v (fix_in_call x) (fix_out_start x)
  (fix_out_cnt x) (fix_out_num x).
Definition set_fix_in_call (v : Z) (x : et_fix) : et_fix := mkFix (fix_in_first x)
  (fix_in_eventsin x) (fix_in_start x) (fix_in_cnt x) (fix_in_num x) v (fix_out_start x)
  (fix_out_cnt x) (fix_out_num x).
Definition set_fix_out_start (v : Z) (x : et_fix) : et_fix := mkFix (fix_in_first x)
  (fix_in_eventsin x) (fix_in_start x) (fix_in_cnt x) (fix_in_num x) (fix_in_call x) v
  (fix_out_cnt x) (fix_out_num x).
Definition set_fix_out_cnt (v : Z) (x : et_fix) : et_fix := mkFix (fix_in_first x)
  (fix_in_eventsin x) (fix_in_start x) (fix_in_cnt x) (fix_in_num x) (fix_in_call x)
  (fix_out_start x) v (fix_out_num x).
Definition set_fix_out_num (v : Z) (x : et_fix) : et_fix := mkFix (fix_in_first x)
  (fix_in_eventsin x) (fix_in_start x) (fix_in_cnt x) (fix_in_num x) (fix_in_call x)
  (fix_out_start x) (fix_out_cnt x) v.

Definition set_sc_init (v : Z) (x : et_stat_config) : et_stat_config := mkStatConfig v
  (sc_flow_mode x) (sc_user_mode x) (sc_restore_mode x) (sc_block_mode x) (sc_prescale x)
  (sc_cue x) (sc_select_mode x) (sc_select x) (sc_fname x) (sc_lib x) (sc_classs x).
Definition set_sc_flow_mode (v : Z) (x : et_stat_config) : et_stat_config := mkStatConfig
  (sc_init x) v (sc_user_mode x) (sc_restore_mode x) (sc_block_mode x) (sc_prescale x) (sc_cue
  x) (sc_select_mode x) (sc_select x) (sc_fname x) (sc_lib x) (sc_classs x).
Definition set_sc_user_mode (v : Z) (x : et_stat_config) : et_stat_config := mkStatConfig
  (sc_init x) (sc_flow_mode x) v (sc_restore_mode x) (sc_block_mode x) (sc_prescale x) (sc_cue
  x) (sc_select_mode x) (sc_select x) (sc_fname x) (sc_lib x) (sc_classs x).
Definition set_sc_restore_mode (v : Z) (x : et_stat_config) : et_stat_config := mkStatConfig
  (sc_init x) (sc_flow_mode x) (sc_user_mode x) v (sc_block_mode x) (sc_prescale x) (sc_cue x)
  (sc_select_mode x) (sc_select x) (sc_fname x) (sc_lib x) (sc_classs x).
Definition set_sc_block_mode (v : Z) (x : et_stat_config) : et_stat_config := mkStatConfig
  (sc_init x) (sc_flow_mode x) (sc_user_mode x) (sc_restore_mode x) v (sc_prescale x) (sc_cue x)
  (sc_select_mode x) (sc_select x) (sc_fname x) (sc_lib x) (sc_classs x).
Definition set_sc_prescale (v : Z) (x : et_stat_config) : et_stat_config := mkStatConfig
  (sc_init x) (sc_flow_mode x) (sc_user_mode x) (sc_restore_mode x) (sc_block_mode x) v (sc_cue
  x) (sc_select_mode x) (sc_select x) (sc_fname x) (sc_lib x) (sc_classs x).
Definition set_sc_cue (v : Z) (x : et_stat_config) : et_stat_config := mkStatConfig (sc_init x)
  (sc_flow_mode x) (sc_user_mode x) (sc_restore_mode x) (sc_block_mode x) (sc_prescale x) v
  (sc_select_mode x) (sc_select x) (sc_fname x) (sc_lib x) (sc_classs x).
Definition set_sc_select_mode (v : Z) (x : et_stat_config) : et_stat_config := mkStatConfig
  (sc_init x) (sc_flow_mode x) (sc_user_mode x) (sc_restore_mode x) (sc_block_mode x)
  (sc_prescale x) (sc_cue x) v (sc_select x) (sc_fname x) (sc_lib x) (sc_classs x).
Definition set_sc_select (v : list Z) (x : et_stat_config) : et_stat_config := mkStatConfig
  (sc_init x) (sc_flow_mode x) (sc_user_mode x) (sc_restore_mode x) (sc_block_mode x)
  (sc_prescale x) (sc_cue x) (sc_select_mode x) v (sc_fname x) (sc_lib x) (sc_classs x).
Definition set_sc_fname (v : string) (x : et_stat_config) : et_stat_config := mkStatConfig
  (sc_init x) (sc_flow_mode x) (sc_user_mode x) (sc_restore_mode x) (sc_block_mode x)
  (sc_prescale x) (sc_cue x) (sc_select_mode x) (sc_select x) v (sc_lib x) (sc_classs x).
Definition set_sc_lib (v : string) (x : et_stat_config) : et_stat_config := mkStatConfig
  (sc_init x) (sc_flow_mode x) (sc_user_mode x) (sc_restore_mode x) (sc_block_mode x)
  (sc_prescale x) (sc_cue x) (sc_select_mode x) (sc_select x) (sc_fname x) v (sc_classs x).
Definition set_sc_classs (v : string) (x : et_stat_config) : et_stat_config := mkStatConfig
  (sc_init x) (sc_flow_mode x) (sc_user_mode x) (sc_restore_mode x) (sc_block_mode x)
  (sc_prescale x) (sc_cue x) (sc_select_mode x) (sc_select x) (sc_fname x) (sc_lib x) v.

Definition set_sd_status (v : Z) (x : et_stat_data) : et_stat_data := mkStatData v
  (sd_pid_create x) (sd_nattachments x) (sd_att x).
Definition set_sd_pid_create (v : Z) (x : et_stat_data) : et_stat_data := mkStatData (sd_status
  x) v (sd_nattachments x) (sd_att x).
Definition set_sd_nattachments (v : Z) (x : et_stat_data) : et_stat_data := mkStatData
  (sd_status x) (sd_pid_create x) v (sd_att x).
Definition set_sd_att (v : gmap Z Z) (x : et_stat_data) : et_stat_data := mkStatData (sd_status
  x) (sd_pid_create x) (sd_nattachments x) v.

Definition set_st_num (v : Z) (x : et_station) : et_station := mkStation v (st_conductor x)
  (st_next x) (st_prev x) (st_nextparallel x) (st_prevparallel x) (st_waslast x) (st_name x)
  (st_mutex x) (st_fix x) (st_data x) (st_config x) (st_list_in x) (st_list_out x).
Definition set_st_conductor (v : Z) (x : et_station) : et_station := mkStation (st_num x) v
  (st_next x) (st_prev x) (st_nextparallel x) (st_prevparallel x) (st_waslast x) (st_name x)
  (st_mutex x) (st_fix x) (st_data x) (st_config x) (st_list_in x) (st_list_out x).
Definition set_st_next (v : Z) (x : et_station) : et_station := mkStation (st_num x)
  (st_conductor x) v (st_prev x) (st_nextparallel x) (st_prevparallel x) (st_waslast x) (st_name
  x) (st_mutex x) (st_fix x) (st_data x) (st_config x) (st_list_in x) (st_list_out x).
Definition set_st_prev (v : Z) (x : et_station) : et_station := mkStation (st_num x)
  (st_conductor x) (st_next x) v (st_nextparallel x) (st_prevparallel x) (st_waslast x) (st_name
  x) (st_mutex x) (st_fix x) (st_data x) (st_config x) (st_list_in x) (st_list_out x).
Definition set_st_nextparallel (v : Z) (x : et_station) : et_station := mkStation (st_num x)
  (st_conductor x) (st_next x) (st_prev x) v (st_prevparallel x) (st_waslast x) (st_name x)
  (st_mutex x) (st_fix x) (st_data x) (st_config x) (st_list_in x) (st_list_out x).
Definition set_st_prevparallel (v : Z) (x : et_station) : et_station := mkStation (st_num x)
  (st_conductor x) (st_next x) (st_prev x) (st_nextparallel x) v (st_waslast x) (st_name x)
  (st_mutex x) (st_fix x) (st_data x) (st_config x) (st_list_in x) (st_list_out x).
Definition set_st_waslast (v : Z) (x : et_station) : et_station := mkStation (st_num x)
  (st_conductor x) (st_next x) (st_prev x) (st_nextparallel x) (st_prevparallel x) v (st_name x)
  (st_mutex x) (st_fix x) (st_data x) (st_config x) (st_list_in x) (st_list_out x).
Definition set_st_name (v : string) (x : et_station) : et_station := mkStation (st_num x)
  (st_conductor x) (st_next x) (st_prev x) (st_nextparallel x) (st_prevparallel x) (st_waslast
  x) v (st_mutex x) (st_fix x) (st_data x) (st_config x) (st_list_in x) (st_list_out x).
Definition set_st_mutex (v : bool) (x : et_station) : et_station := mkStation (st_num x)
  (st_conductor x) (st_next x) (st_prev x) (st_nextparallel x) (st_prevparallel x) (st_waslast
  x) (st_name x) v (st_fix x) (st_data x) (st_config x) (st_list_in x) (st_list_out x).
Definition set_st_fix (v : et_fix) (x : et_station) : et_station := mkStation (st_num x)
  (st_conductor x) (st_next x) (st_prev x) (st_nextparallel x) (st_prevparallel x) (st_waslast
  x) (st_name x) (st_mutex x) v (st_data x) (st_config x) (st_list_in x) (st_list_out x).
Definition set_st_data (v : et_stat_data) (x : et_station) : et_station := mkStation (st_num x)
  (st_conductor x) (st_next x) (st_prev x) (st_nextparallel x) (st_prevparallel x) (st_waslast
  x) (st_name x) (st_mutex x) (st_fix x) v (st_config x) (st_list_in x) (st_list_out x).
Definition set_st_config (v : et_stat_config) (x : et_station) : et_station := mkStation (st_num
  x) (st_conductor x) (st_next x) (st_prev x) (st_nextparallel x) (st_prevparallel x)
  (st_waslast x) (st_name x) (st_mutex x) (st_fix x) (st_data x) v (st_list_in x) (st_list_out
  x).
Definition set_st_list_in (v : et_list) (x : et_station) : et_station := mkStation (st_num x)
  (st_conductor x) (st_next x) (st_prev x) (st_nextparallel x) (st_prevparallel x) (st_waslast
  x) (st_name x) (st_mutex x) (st_fix x) (st_data x) (st_config x) v (st_list_out x).
Definition set_st_list_out (v : et_list) (x : et_station) : et_station := mkStation (st_num x)
  (st_conductor x) (st_next x) (st_prev x) (st_nextparallel x) (st_prevparallel x) (st_waslast
  x) (st_name x) (st_mutex x) (st_fix x) (st_data x) (st_config x) (st_list_in x) v.

Definition set_pr_num (v : Z) (x : et_proc) : et_proc := mkProc v (pr_att x) (pr_time x)
  (pr_nattachments x) (pr_status x) (pr_et_status x) (pr_heartbeat x) (pr_pid x).
Definition set_pr_att (v : gmap Z Z) (x : et_proc) : et_proc := mkProc (pr_num x) v (pr_time x)
  (pr_nattachments x) (pr_status x) (pr_et_status x) (pr_heartbeat x) (pr_pid x).
Definition set_pr_time (v : Z) (x : et_proc) : et_proc := mkProc (pr_num x) (pr_att x) v
  (pr_nattachments x) (pr_status x) (pr_et_status x) (pr_heartbeat x) (pr_pid x).
Definition set_pr_nattachments (v : Z) (x : et_proc) : et_proc := mkProc (pr_num x) (pr_att x)
  (pr_time x) v (pr_status x) (pr_et_status x) (pr_heartbeat x) (pr_pid x).
Definition set_pr_status (v : Z) (x : et_proc) : et_proc := mkProc (pr_num x) (pr_att x)
  (pr_time x) (pr_nattachments x) v (pr_et_status x) (pr_heartbeat x) (pr_pid x).
Definition set_pr_et_status (v : Z) (x : et_proc) : et_proc := mkProc (pr_num x) (pr_att x)
  (pr_time x) (pr_nattachments x) (pr_status x) v (pr_heartbeat x) (pr_pid x).
Definition set_pr_heartbeat (v : Z) (x : et_proc) : et_proc := mkProc (pr_num x) (pr_att x)
  (pr_time x) (pr_nattachments x) (pr_status x) (pr_et_status x) v (pr_pid x).
Definition set_pr_pid (v : Z) (x : et_proc) : et_proc := mkProc (pr_num x) (pr_att x) (pr_time
  x) (pr_nattachments x) (pr_status x) (pr_et_status x) (pr_heartbeat x) v.

Definition set_at_num (v : Z) (x : et_attach) : et_attach := mkAttach v (at_proc x) (at_stat x)
  (at_status x) (at_blocked x) (at_quit x) (at_sleep x) (at_events_put x) (at_events_get x)
  (at_events_dump x) (at_events_make x) (at_pid x) (at_host x) (at_interface x).
Definition set_at_proc (v : Z) (x : et_attach) : et_attach := mkAttach (at_num x) v (at_stat x)
  (at_status x) (at_blocked x) (at_quit x) (at_sleep x) (at_events_put x) (at_events_get x)
  (at_events_dump x) (at_events_make x) (at_pid x) (at_host x) (at_interface x).
Definition set_at_stat (v : Z) (x : et_attach) : et_attach := mkAttach (at_num x) (at_proc x) v
  (at_status x) (at_blocked x) (at_quit x) (at_sleep x) (at_events_put x) (at_events_get x)
  (at_events_dump x) (at_events_make x) (at_pid x) (at_host x) (at_interface x).
Definition set_at_status (v : Z) (x : et_attach) : et_attach := mkAttach (at_num x) (at_proc x)
  (at_stat x) v (at_blocked x) (at_quit x) (at_sleep x) (at_events_put x) (at_events_get x)
  (at_events_dump x) (at_events_make x) (at_pid x) (at_host x) (at_interface x).
Definition set_at_blocked (v : Z) (x : et_attach) : et_attach := mkAttach (at_num x) (at_proc x)
  (at_stat x) (at_status x) v (at_quit x) (at_sleep x) (at_events_put x) (at_events_get x)
  (at_events_dump x) (at_events_make x) (at_pid x) (at_host x) (at_interface x).
Definition set_at_quit (v : Z) (x : et_attach) : et_attach := mkAttach (at_num x) (at_proc x)
  (at_stat x) (at_status x) (at_blocked x) v (at_sleep x) (at_events_put x) (at_events_get x)
  (at_events_dump x) (at_events_make x) (at_pid x) (at_host x) (at_interface x).
Definition set_at_sleep (v : Z) (x : et_attach) : et_attach := mkAttach (at_num x) (at_proc x)
  (at_stat x) (at_status x) (at_blocked x) (at_quit x) v (at_events_put x) (at_events_get x)
  (at_events_dump x) (at_events_make x) (at_pid x) (at_host x) (at_interface x).
Definition set_at_events_put (v : Z) (x : et_attach) : et_attach := mkAttach (at_num x) (at_proc
  x) (at_stat x) (at_status x) (at_blocked x) (at_quit x) (at_sleep x) v (at_events_get x)
  (at_events_dump x) (at_events_make x) (at_pid x) (at_host x) (at_interface x).
Definition set_at_events_get (v : Z) (x : et_attach) : et_attach := mkAttach (at_num x) (at_proc
  x) (at_stat x) (at_status x) (at_blocked x) (at_quit x) (at_sleep x) (at_events_put x) v
  (at_events_dump x) (at_events_make x) (at_pid x) (at_host x) (at_interface x).
Definition set_at_events_dump (v : Z) (x : et_attach) : et_attach := mkAttach (at_num x)
  (at_proc x) (at_stat x) (at_status x) (at_blocked x) (at_quit x) (at_sleep x) (at_events_put
  x) (at_events_get x) v (at_events_make x) (at_pid x) (at_host x) (at_interface x).
Definition set_at_events_make (v : Z) (x : et_attach) : et_attach := mkAttach (at_num x)
  (at_proc x) (at_stat x) (at_status x) (at_blocked x) (at_quit x) (at_sleep x) (at_events_put
  x) (at_events_get x) (at_events_dump x) v (at_pid x) (at_host x) (at_interface x).
Definition set_at_pid (v : Z) (x : et_attach) : et_attach := mkAttach (at_num x) (at_proc x)
  (at_stat x) (at_status x) (at_blocked x) (at_quit x) (at_sleep x) (at_events_put x)
  (at_events_get x) (at_events_dump x) (at_events_make x) v (at_host x) (at_interface x).
Definition set_at_host (v : string) (x : et_attach) : et_attach := mkAttach (at_num x) (at_proc
  x) (at_stat x) (at_status x) (at_blocked x) (at_quit x) (at_sleep x) (at_events_put x)
  (at_events_get x) (at_events_dump x) (at_events_make x) (at_pid x) v (at_interface x).
Definition set_at_interface (v : string) (x : et_attach) : et_attach := mkAttach (at_num x)
  (at_proc x) (at_stat x) (at_status x) (at_blocked x) (at_quit x) (at_sleep x) (at_events_put
  x) (at_events_get x) (at_events_dump x) (at_events_make x) (at_pid x) (at_host x) v.

Definition set_cf_event_size (v : Z) (x : et_sys_config) : et_sys_config := mkSysConfig v
  (cf_init x) (cf_nevents x) (cf_ntemps x) (cf_nstations x) (cf_nprocesses x) (cf_nattachments
  x) (cf_groupCount x) (cf_groups x) (cf_filename x) (cf_port x) (cf_serverport x)
  (cf_tcpSendBufSize x) (cf_tcpRecvBufSize x) (cf_tcpNoDelay x) (cf_mcastaddrs x).
Definition set_cf_init (v : Z) (x : et_sys_config) : et_sys_config := mkSysConfig (cf_event_size
  x) v (cf_nevents x) (cf_ntemps x) (cf_nstations x) (cf_nprocesses x) (cf_nattachments x)
  (cf_groupCount x) (cf_groups x) (cf_filename x) (cf_port x) (cf_serverport x)
  (cf_tcpSendBufSize x) (cf_tcpRecvBufSize x) (cf_tcpNoDelay x) (cf_mcastaddrs x).
Definition set_cf_nevents (v : Z) (x : et_sys_config) : et_sys_config := mkSysConfig
  (cf_event_size x) (cf_init x) v (cf_ntemps x) (cf_nstations x) (cf_nprocesses x)
  (cf_nattachments x) (cf_groupCount x) (cf_groups x) (cf_filename x) (cf_port x) (cf_serverport
  x) (cf_tcpSendBufSize x) (cf_tcpRecvBufSize x) (cf_tcpNoDelay x) (cf_mcastaddrs x).
Definition set_cf_ntemps (v : Z) (x : et_sys_config) : et_sys_config := mkSysConfig
  (cf_event_size x) (cf_init x) (cf_nevents x) v (cf_nstations x) (cf_nprocesses x)
  (cf_nattachments x) (cf_groupCount x) (cf_groups x) (cf_filename x) (cf_port x) (cf_serverport
  x) (cf_tcpSendBufSize x) (cf_tcpRecvBufSize x) (cf_tcpNoDelay x) (cf_mcastaddrs x).
Definition set_cf_nstations (v : Z) (x : et_sys_config) : et_sys_config := mkSysConfig
  (cf_event_size x) (cf_init x) (cf_nevents x) (cf_ntemps x) v (cf_nprocesses x)
  (cf_nattachments x) (cf_groupCount x) (cf_groups x) (cf_filename x) (cf_port x) (cf_serverport
  x) (cf_tcpSendBufSize x) (cf_tcpRecvBufSize x) (cf_tcpNoDelay x) (cf_mcastaddrs x).
Definition set_cf_nprocesses (v : Z) (x : et_sys_config) : et_sys_config := mkSysConfig
  (cf_event_size x) (cf_init x) (cf_nevents x) (cf_ntemps x) (cf_nstations x) v (cf_nattachments
  x) (cf_groupCount x) (cf_groups x) (cf_filename x) (cf_port x) (cf_serverport x)
  (cf_tcpSendBufSize x) (cf_tcpRecvBufSize x) (cf_tcpNoDelay x) (cf_mcastaddrs x).
Definition set_cf_nattachments (v : Z) (x : et_sys_config) : et_sys_config := mkSysConfig
  (cf_event_size x) (cf_init x) (cf_nevents x) (cf_ntemps x) (cf_nstations x) (cf_nprocesses x)
  v (cf_groupCount x) (cf_groups x) (cf_filename x) (cf_port x) (cf_serverport x)
  (cf_tcpSendBufSize x) (cf_tcpRecvBufSize x) (cf_tcpNoDelay x) (cf_mcastaddrs x).
Definition set_cf_groupCount (v : Z) (x : et_sys_config) : et_sys_config := mkSysConfig
  (cf_event_size x) (cf_init x) (cf_nevents x) (cf_ntemps x) (cf_nstations x) (cf_nprocesses x)
  (cf_nattachments x) v (cf_groups x) (cf_filename x) (cf_port x) (cf_serverport x)
  (cf_tcpSendBufSize x) (cf_tcpRecvBufSize x) (cf_tcpNoDelay x) (cf_mcastaddrs x).
Definition set_cf_groups (v : list Z) (x : et_sys_config) : et_sys_config := mkSysConfig
  (cf_event_size x) (cf_init x) (cf_nevents x) (cf_ntemps x) (cf_nstations x) (cf_nprocesses x)
  (cf_nattachments x) (cf_groupCount x) v (cf_filename x) (cf_port x) (cf_serverport x)
  (cf_tcpSendBufSize x) (cf_tcpRecvBufSize x) (cf_tcpNoDelay x) (cf_mcastaddrs x).
Definition set_cf_filename (v : string) (x : et_sys_config) : et_sys_config := mkSysConfig
  (cf_event_size x) (cf_init x) (cf_nevents x) (cf_ntemps x) (cf_nstations x) (cf_nprocesses x)
  (cf_nattachments x) (cf_groupCount x) (cf_groups x) v (cf_port x) (cf_serverport x)
  (cf_tcpSendBufSize x) (cf_tcpRecvBufSize x) (cf_tcpNoDelay x) (cf_mcastaddrs x).
Definition set_cf_port (v : Z) (x : et_sys_config) : et_sys_config := mkSysConfig (cf_event_size
  x) (cf_init x) (cf_nevents x) (cf_ntemps x) (cf_nstations x) (cf_nprocesses x)
  (cf_nattachments x) (cf_groupCount x) (cf_groups x) (cf_filename x) v (cf_serverport x)
  (cf_tcpSendBufSize x) (cf_tcpRecvBufSize x) (cf_tcpNoDelay x) (cf_mcastaddrs x).
Definition set_cf_serverport (v : Z) (x : et_sys_config) : et_sys_config := mkSysConfig
  (cf_event_size x) (cf_init x) (cf_nevents x) (cf_ntemps x) (cf_nstations x) (cf_nprocesses x)
  (cf_nattachments x) (cf_groupCount x) (cf_groups x) (cf_filename x) (cf_port x) v
  (cf_tcpSendBufSize x) (cf_tcpRecvBufSize x) (cf_tcpNoDelay x) (cf_mcastaddrs x).
Definition set_cf_tcpSendBufSize (v : Z) (x : et_sys_config) : et_sys_config := mkSysConfig
  (cf_event_size x) (cf_init x) (cf_nevents x) (cf_ntemps x) (cf_nstations x) (cf_nprocesses x)
  (cf_nattachments x) (cf_groupCount x) (cf_groups x) (cf_filename x) (cf_port x) (cf_serverport
  x) v (cf_tcpRecvBufSize x) (cf_tcpNoDelay x) (cf_mcastaddrs x).
Definition set_cf_tcpRecvBufSize (v : Z) (x : et_sys_config) : et_sys_config := mkSysConfig
  (cf_event_size x) (cf_init x) (cf_nevents x) (cf_ntemps x) (cf_nstations x) (cf_nprocesses x)
  (cf_nattachments x) (cf_groupCount x) (cf_groups x) (cf_filename x) (cf_port x) (cf_serverport
  x) (cf_tcpSendBufSize x) v (cf_tcpNoDelay x) (cf_mcastaddrs x).
Definition set_cf_tcpNoDelay (v : Z) (x : et_sys_config) : et_sys_config := mkSysConfig
  (cf_event_size x) (cf_init x) (cf_nevents x) (cf_ntemps x) (cf_nstations x) (cf_nprocesses x)
  (cf_nattachments x) (cf_groupCount x) (cf_groups x) (cf_filename x) (cf_port x) (cf_serverport
  x) (cf_tcpSendBufSize x) (cf_tcpRecvBufSize x) v (cf_mcastaddrs x).
Definition set_cf_mcastaddrs (v : list string) (x : et_sys_config) : et_sys_config :=
  mkSysConfig (cf_event_size x) (cf_init x) (cf_nevents x) (cf_ntemps x) (cf_nstations x)
  (cf_nprocesses x) (cf_nattachments x) (cf_groupCount x) (cf_groups x) (cf_filename x) (cf_port
  x) (cf_serverport x) (cf_tcpSendBufSize x) (cf_tcpRecvBufSize x) (cf_tcpNoDelay x) v.

Definition set_sys_version (v : Z) (x : et_system) : et_system := mkSystem v (sys_nselects x)
  (sys_bitInfo x) (sys_asthread x) (sys_heartbeat x) (sys_hz x) (sys_nstations x) (sys_ntemps x)
  (sys_nprocesses x) (sys_nattachments x) (sys_port x) (sys_statAdd x) (sys_statDone x)
  (sys_stat_head x) (sys_stat_tail x) (sys_mainpid x) (sys_mutex x) (sys_stat_mutex x)
  (sys_statadd_mutex x) (sys_host x) (sys_proc x) (sys_attach x) (sys_config x).
Definition set_sys_nselects (v : Z) (x : et_system) : et_system := mkSystem (sys_version x) v
  (sys_bitInfo x) (sys_asthread x) (sys_heartbeat x) (sys_hz x) (sys_nstations x) (sys_ntemps x)
  (sys_nprocesses x) (sys_nattachments x) (sys_port x) (sys_statAdd x) (sys_statDone x)
  (sys_stat_head x) (sys_stat_tail x) (sys_mainpid x) (sys_mutex x) (sys_stat_mutex x)
  (sys_statadd_mutex x) (sys_host x) (sys_proc x) (sys_attach x) (sys_config x).
Definition set_sys_bitInfo (v : Z) (x : et_system) : et_system := mkSystem (sys_version x)
  (sys_nselects x) v (sys_asthread x) (sys_heartbeat x) (sys_hz x) (sys_nstations x) (sys_ntemps
  x) (sys_nprocesses x) (sys_nattachments x) (sys_port x) (sys_statAdd x) (sys_statDone x)
  (sys_stat_head x) (sys_stat_tail x) (sys_mainpid x) (sys_mutex x) (sys_stat_mutex x)
  (sys_statadd_mutex x) (sys_host x) (sys_proc x) (sys_attach x) (sys_config x).
Definition set_sys_asthread (v : Z) (x : et_system) : et_system := mkSystem (sys_version x)
  (sys_nselects x) (sys_bitInfo x) v (sys_heartbeat x) (sys_hz x) (sys_nstations x) (sys_ntemps
  x) (sys_nprocesses x) (sys_nattachments x) (sys_port x) (sys_statAdd x) (sys_statDone x)
  (sys_stat_head x) (sys_stat_tail x) (sys_mainpid x) (sys_mutex x) (sys_stat_mutex x)
  (sys_statadd_mutex x) (sys_host x) (sys_proc x) (sys_attach x) (sys_config x).
Definition set_sys_heartbeat (v : Z) (x : et_system) : et_system := mkSystem (sys_version x)
  (sys_nselects x) (sys_bitInfo x) (sys_asthread x) v (sys_hz x) (sys_nstations x) (sys_ntemps
  x) (sys_nprocesses x) (sys_nattachments x) (sys_port x) (sys_statAdd x) (sys_statDone x)
  (sys_stat_head x) (sys_stat_tail x) (sys_mainpid x) (sys_mutex x) (sys_stat_mutex x)
  (sys_statadd_mutex x) (sys_host x) (sys_proc x) (sys_attach x) (sys_config x).
Definition set_sys_hz (v : Z) (x : et_system) : et_system := mkSystem (sys_version x)
  (sys_nselects x) (sys_bitInfo x) (sys_asthread x) (sys_heartbeat x) v (sys_nstations x)
  (sys_ntemps x) (sys_nprocesses x) (sys_nattachments x) (sys_port x) (sys_statAdd x)
  (sys_statDone x) (sys_stat_head x) (sys_stat_tail x) (sys_mainpid x) (sys_mutex x)
  (sys_stat_mutex x) (sys_statadd_mutex x) (sys_host x) (sys_proc x) (sys_attach x) (sys_config
  x).
Definition set_sys_nstations (v : Z) (x : et_system) : et_system := mkSystem (sys_version x)
  (sys_nselects x) (sys_bitInfo x) (sys_asthread x) (sys_heartbeat x) (sys_hz x) v (sys_ntemps
  x) (sys_nprocesses x) (sys_nattachments x) (sys_port x) (sys_statAdd x) (sys_statDone x)
  (sys_stat_head x) (sys_stat_tail x) (sys_mainpid x) (sys_mutex x) (sys_stat_mutex x)
  (sys_statadd_mutex x) (sys_host x) (sys_proc x) (sys_attach x) (sys_config x).
Definition set_sys_ntemps (v : Z) (x : et_system) : et_system := mkSystem (sys_version x)
  (sys_nselects x) (sys_bitInfo x) (sys_asthread x) (sys_heartbeat x) (sys_hz x) (sys_nstations
  x) v (sys_nprocesses x) (sys_nattachments x) (sys_port x) (sys_statAdd x) (sys_statDone x)
  (sys_stat_head x) (sys_stat_tail x) (sys_mainpid x) (sys_mutex x) (sys_stat_mutex x)
  (sys_statadd_mutex x) (sys_host x) (sys_proc x) (sys_attach x) (sys_config x).
Definition set_sys_nprocesses (v : Z) (x : et_system) : et_system := mkSystem (sys_version x)
  (sys_nselects x) (sys_bitInfo x) (sys_asthread x) (sys_heartbeat x) (sys_hz x) (sys_nstations
  x) (sys_ntemps x) v (sys_nattachments x) (sys_port x) (sys_statAdd x) (sys_statDone x)
  (sys_stat_head x) (sys_stat_tail x) (sys_mainpid x) (sys_mutex x) (sys_stat_mutex x)
  (sys_statadd_mutex x) (sys_host x) (sys_proc x) (sys_attach x) (sys_config x).
Definition set_sys_nattachments (v : Z) (x : et_system) : et_system := mkSystem (sys_version x)
  (sys_nselects x) (sys_bitInfo x) (sys_asthread x) (sys_heartbeat x) (sys_hz x) (sys_nstations
  x) (sys_ntemps x) (sys_nprocesses x) v (sys_port x) (sys_statAdd x) (sys_statDone x)
  (sys_stat_head x) (sys_stat_tail x) (sys_mainpid x) (sys_mutex x) (sys_stat_mutex x)
  (sys_statadd_mutex x) (sys_host x) (sys_proc x) (sys_attach x) (sys_config x).
Definition set_sys_port (v : Z) (x : et_system) : et_system := mkSystem (sys_version x)
  (sys_nselects x) (sys_bitInfo x) (sys_asthread x) (sys_heartbeat x) (sys_hz x) (sys_nstations
  x) (sys_ntemps x) (sys_nprocesses x) (sys_nattachments x) v (sys_statAdd x) (sys_statDone x)
  (sys_stat_head x) (sys_stat_tail x) (sys_mainpid x) (sys_mutex x) (sys_stat_mutex x)
  (sys_statadd_mutex x) (sys_host x) (sys_proc x) (sys_attach x) (sys_config x).
Definition set_sys_statAdd (v : Z) (x : et_system) : et_system := mkSystem (sys_version x)
  (sys_nselects x) (sys_bitInfo x) (sys_asthread x) (sys_heartbeat x) (sys_hz x) (sys_nstations
  x) (sys_ntemps x) (sys_nprocesses x) (sys_nattachments x) (sys_port x) v (sys_statDone x)
  (sys_stat_head x) (sys_stat_tail x) (sys_mainpid x) (sys_mutex x) (sys_stat_mutex x)
  (sys_statadd_mutex x) (sys_host x) (sys_proc x) (sys_attach x) (sys_config x).
Definition set_sys_statDone (v : Z) (x : et_system) : et_system := mkSystem (sys_version x)
  (sys_nselects x) (sys_bitInfo x) (sys_asthread x) (sys_heartbeat x) (sys_hz x) (sys_nstations
  x) (sys_ntemps x) (sys_nprocesses x) (sys_nattachments x) (sys_port x) (sys_statAdd x) v
  (sys_stat_head x) (sys_stat_tail x) (sys_mainpid x) (sys_mutex x) (sys_stat_mutex x)
  (sys_statadd_mutex x) (sys_host x) (sys_proc x) (sys_attach x) (sys_config x).
Definition set_sys_stat_head (v : Z) (x : et_system) : et_system := mkSystem (sys_version x)
  (sys_nselects x) (sys_bitInfo x) (sys_asthread x) (sys_heartbeat x) (sys_hz x) (sys_nstations
  x) (sys_ntemps x) (sys_nprocesses x) (sys_nattachments x) (sys_port x) (sys_statAdd x)
  (sys_statDone x) v (sys_stat_tail x) (sys_mainpid x) (sys_mutex x) (sys_stat_mutex x)
  (sys_statadd_mutex x) (sys_host x) (sys_proc x) (sys_attach x) (sys_config x).
Definition set_sys_stat_tail (v : Z) (x : et_system) : et_system := mkSystem (sys_version x)
  (sys_nselects x) (sys_bitInfo x) (sys_asthread x) (sys_heartbeat x) (sys_hz x) (sys_nstations
  x) (sys_ntemps x) (sys_nprocesses x) (sys_nattachments x) (sys_port x) (sys_statAdd x)
  (sys_statDone x) (sys_stat_head x) v (sys_mainpid x) (sys_mutex x) (sys_stat_mutex x)
  (sys_statadd_mutex x) (sys_host x) (sys_proc x) (sys_attach x) (sys_config x).
Definition set_sys_mainpid (v : Z) (x : et_system) : et_system := mkSystem (sys_version x)
  (sys_nselects x) (sys_bitInfo x) (sys_asthread x) (sys_heartbeat x) (sys_hz x) (sys_nstations
  x) (sys_ntemps x) (sys_nprocesses x) (sys_nattachments x) (sys_port x) (sys_statAdd x)
  (sys_statDone x) (sys_stat_head x) (sys_stat_tail x) v (sys_mutex x) (sys_stat_mutex x)
  (sys_statadd_mutex x) (sys_host x) (sys_proc x) (sys_attach x) (sys_config x).
Definition set_sys_mutex (v : bool) (x : et_system) : et_system := mkSystem (sys_version x)
  (sys_nselects x) (sys_bitInfo x) (sys_asthread x) (sys_heartbeat x) (sys_hz x) (sys_nstations
  x) (sys_ntemps x) (sys_nprocesses x) (sys_nattachments x) (sys_port x) (sys_statAdd x)
  (sys_statDone x) (sys_stat_head x) (sys_stat_tail x) (sys_mainpid x) v (sys_stat_mutex x)
  (sys_statadd_mutex x) (sys_host x) (sys_proc x) (sys_attach x) (sys_config x).
Definition set_sys_stat_mutex (v : bool) (x : et_system) : et_system := mkSystem (sys_version x)
  (sys_nselects x) (sys_bitInfo x) (sys_asthread x) (sys_heartbeat x) (sys_hz x) (sys_nstations
  x) (sys_ntemps x) (sys_nprocesses x) (sys_nattachments x) (sys_port x) (sys_statAdd x)
  (sys_statDone x) (sys_stat_head x) (sys_stat_tail x) (sys_mainpid x) (sys_mutex x) v
  (sys_statadd_mutex x) (sys_host x) (sys_proc x) (sys_attach x) (sys_config x).
Definition set_sys_statadd_mutex (v : bool) (x : et_system) : et_system := mkSystem (sys_version
  x) (sys_nselects x) (sys_bitInfo x) (sys_asthread x) (sys_heartbeat x) (sys_hz x)
  (sys_nstations x) (sys_ntemps x) (sys_nprocesses x) (sys_nattachments x) (sys_port x)
  (sys_statAdd x) (sys_statDone x) (sys_stat_head x) (sys_stat_tail x) (sys_mainpid x)
  (sys_mutex x) (sys_stat_mutex x) v (sys_host x) (sys_proc x) (sys_attach x) (sys_config x).
Definition set_sys_host (v : string) (x : et_system) : et_system := mkSystem (sys_version x)
  (sys_nselects x) (sys_bitInfo x) (sys_asthread x) (sys_heartbeat x) (sys_hz x) (sys_nstations
  x) (sys_ntemps x) (sys_nprocesses x) (sys_nattachments x) (sys_port x) (sys_statAdd x)
  (sys_statDone x) (sys_stat_head x) (sys_stat_tail x) (sys_mainpid x) (sys_mutex x)
  (sys_stat_mutex x) (sys_statadd_mutex x) v (sys_proc x) (sys_attach x) (sys_config x).
Definition set_sys_proc (v : gmap Z et_proc) (x : et_system) : et_system := mkSystem
  (sys_version x) (sys_nselects x) (sys_bitInfo x) (sys_asthread x) (sys_heartbeat x) (sys_hz x)
  (sys_nstations x) (sys_ntemps x) (sys_nprocesses x) (sys_nattachments x) (sys_port x)
  (sys_statAdd x) (sys_statDone x) (sys_stat_head x) (sys_stat_tail x) (sys_mainpid x)
  (sys_mutex x) (sys_stat_mutex x) (sys_statadd_mutex x) (sys_host x) v (sys_attach x)
  (sys_config x).
Definition set_sys_attach (v : gmap Z et_attach) (x : et_system) : et_system := mkSystem
  (sys_version x) (sys_nselects x) (sys_bitInfo x) (sys_asthread x) (sys_heartbeat x) (sys_hz x)
  (sys_nstations x) (sys_ntemps x) (sys_nprocesses x) (sys_nattachments x) (sys_port x)
  (sys_statAdd x) (sys_statDone x) (sys_stat_head x) (sys_stat_tail x) (sys_mainpid x)
  (sys_mutex x) (sys_stat_mutex x) (sys_statadd_mutex x) (sys_host x) (sys_proc x) v (sys_config
  x).
Definition set_sys_config (v : et_sys_config) (x : et_system) : et_system := mkSystem
  (sys_version x) (sys_nselects x) (sys_bitInfo x) (sys_asthread x) (sys_heartbeat x) (sys_hz x)
  (sys_nstations x) (sys_ntemps x) (sys_nprocesses x) (sys_nattachments x) (sys_port x)
  (sys_statAdd x) (sys_statDone x) (sys_stat_head x) (sys_stat_tail x) (sys_mainpid x)
  (sys_mutex x) (sys_stat_mutex x) (sys_statadd_mutex x) (sys_host x) (sys_proc x) (sys_attach
  x) v.

Definition set_m_sys (v : et_system) (x : et_mem) : et_mem := mkMem v (m_stats x) (m_histogram
  x) (m_events x) (m_rwlock x).
Definition set_m_stats (v : gmap Z et_station) (x : et_mem) : et_mem := mkMem (m_sys x) v
  (m_histogram x) (m_events x) (m_rwlock x).
Definition set_m_histogram (v : gmap Z Z) (x : et_mem) : et_mem := mkMem (m_sys x) (m_stats x) v
  (m_events x) (m_rwlock x).
Definition set_m_events (v : gmap Z et_event) (x : et_mem) : et_mem := mkMem (m_sys x) (m_stats
  x) (m_histogram x) v (m_rwlock x).
Definition set_m_rwlock (v : Z) (x : et_mem) : et_mem := mkMem (m_sys x) (m_stats x)
  (m_histogram x) (m_events x) v.

Definition set_id_lang (v : Z) (x : et_id) : et_id := mkId v (id_init x) (id_alive x) (id_closed
  x) (id_proc x) (id_cleanup x) (id_debug x) (id_nevents x) (id_group x) (id_share x) (id_esize
  x) (id_offset x) (id_locality x) (id_port x) (id_ethost x) (id_localAddr x).
Definition set_id_init (v : Z) (x : et_id) : et_id := mkId (id_lang x) v (id_alive x) (id_closed
  x) (id_proc x) (id_cleanup x) (id_debug x) (id_nevents x) (id_group x) (id_share x) (id_esize
  x) (id_offset x) (id_locality x) (id_port x) (id_ethost x) (id_localAddr x).
Definition set_id_alive (v : Z) (x : et_id) : et_id := mkId (id_lang x) (id_init x) v (id_closed
  x) (id_proc x) (id_cleanup x) (id_debug x) (id_nevents x) (id_group x) (id_share x) (id_esize
  x) (id_offset x) (id_locality x) (id_port x) (id_ethost x) (id_localAddr x).
Definition set_id_closed (v : Z) (x : et_id) : et_id := mkId (id_lang x) (id_init x) (id_alive
  x) v (id_proc x) (id_cleanup x) (id_debug x) (id_nevents x) (id_group x) (id_share x)
  (id_esize x) (id_offset x) (id_locality x) (id_port x) (id_ethost x) (id_localAddr x).
Definition set_id_proc (v : Z) (x : et_id) : et_id := mkId (id_lang x) (id_init x) (id_alive x)
  (id_closed x) v (id_cleanup x) (id_debug x) (id_nevents x) (id_group x) (id_share x) (id_esize
  x) (id_offset x) (id_locality x) (id_port x) (id_ethost x) (id_localAddr x).
Definition set_id_cleanup (v : Z) (x : et_id) : et_id := mkId (id_lang x) (id_init x) (id_alive
  x) (id_closed x) (id_proc x) v (id_debug x) (id_nevents x) (id_group x) (id_share x) (id_esize
  x) (id_offset x) (id_locality x) (id_port x) (id_ethost x) (id_localAddr x).
Definition set_id_debug (v : Z) (x : et_id) : et_id := mkId (id_lang x) (id_init x) (id_alive x)
  (id_closed x) (id_proc x) (id_cleanup x) v (id_nevents x) (id_group x) (id_share x) (id_esize
  x) (id_offset x) (id_locality x) (id_port x) (id_ethost x) (id_localAddr x).
Definition set_id_nevents (v : Z) (x : et_id) : et_id := mkId (id_lang x) (id_init x) (id_alive
  x) (id_closed x) (id_proc x) (id_cleanup x) (id_debug x) v (id_group x) (id_share x) (id_esize
  x) (id_offset x) (id_locality x) (id_port x) (id_ethost x) (id_localAddr x).
Definition set_id_group (v : Z) (x : et_id) : et_id := mkId (id_lang x) (id_init x) (id_alive x)
  (id_closed x) (id_proc x) (id_cleanup x) (id_debug x) (id_nevents x) v (id_share x) (id_esize
  x) (id_offset x) (id_locality x) (id_port x) (id_ethost x) (id_localAddr x).
Definition set_id_share (v : Z) (x : et_id) : et_id := mkId (id_lang x) (id_init x) (id_alive x)
  (id_closed x) (id_proc x) (id_cleanup x) (id_debug x) (id_nevents x) (id_group x) v (id_esize
  x) (id_offset x) (id_locality x) (id_port x) (id_ethost x) (id_localAddr x).
Definition set_id_esize (v : Z) (x : et_id) : et_id := mkId (id_lang x) (id_init x) (id_alive x)
  (id_closed x) (id_proc x) (id_cleanup x) (id_debug x) (id_nevents x) (id_group x) (id_share x)
  v (id_offset x) (id_locality x) (id_port x) (id_ethost x) (id_localAddr x).
Definition set_id_offset (v : Z) (x : et_id) : et_id := mkId (id_lang x) (id_init x) (id_alive
  x) (id_closed x) (id_proc x) (id_cleanup x) (id_debug x) (id_nevents x) (id_group x) (id_share
  x) (id_esize x) v (id_locality x) (id_port x) (id_ethost x) (id_localAddr x).
Definition set_id_locality (v : Z) (x : et_id) : et_id := mkId (id_lang x) (id_init x) (id_alive
  x) (id_closed x) (id_proc x) (id_cleanup x) (id_debug x) (id_nevents x) (id_group x) (id_share
  x) (id_esize x) (id_offset x) v (id_port x) (id_ethost x) (id_localAddr x).
Definition set_id_port (v : Z) (x : et_id) : et_id := mkId (id_lang x) (id_init x) (id_alive x)
  (id_closed x) (id_proc x) (id_cleanup x) (id_debug x) (id_nevents x) (id_group x) (id_share x)
  (id_esize x) (id_offset x) (id_locality x) v (id_ethost x) (id_localAddr x).
Definition set_id_ethost (v : string) (x : et_id) : et_id := mkId (id_lang x) (id_init x)
  (id_alive x) (id_closed x) (id_proc x) (id_cleanup x) (id_debug x) (id_nevents x) (id_group x)
  (id_share x) (id_esize x) (id_offset x) (id_locality x) (id_port x) v (id_localAddr x).
Definition set_id_localAddr (v : string) (x : et_id) : et_id := mkId (id_lang x) (id_init x)
  (id_alive x) (id_closed x) (id_proc x) (id_cleanup x) (id_debug x) (id_nevents x) (id_group x)
  (id_share x) (id_esize x) (id_offset x) (id_locality x) (id_port x) (id_ethost x) v.

(** The null pointer. *)
Definition NULL : Z := 0.

(** All constants, for case analyses by arithmetic. *)
Create HintDb et_consts.
#[export] Hint Unfold ET_UDP_PORT ET_SERVER_PORT ET_MAXADDRESSES ET_IPADDRSTRLEN ET_MAXHOSTNAMELEN
  ET_DEBUG_NONE ET_DEBUG_SEVERE ET_DEBUG_ERROR ET_DEBUG_WARN ET_DEBUG_INFO ET_STATION_CUE ET_STATION_PRESCALE ET_SYSTEM_EVENTS ET_SYSTEM_NTEMPS
  ET_SYSTEM_ESIZE ET_SYSTEM_NSTATS ET_EVENT_GROUPS_MAX ET_STATION_SELECT_INTS ET_FILENAME_LENGTH
  ET_FUNCNAME_LENGTH ET_STATNAME_LENGTH ET_GRANDCENTRAL ET_STATION_UNUSED ET_STATION_CREATING
  ET_STATION_IDLE ET_STATION_ACTIVE ET_STATION_USER_MULTI ET_STATION_USER_SINGLE
  ET_STATION_NONBLOCKING ET_STATION_BLOCKING ET_STATION_SELECT_ALL ET_STATION_SELECT_MATCH
  ET_STATION_SELECT_USER ET_STATION_SELECT_RROBIN ET_STATION_SELECT_EQUALCUE
  ET_STATION_RESTORE_OUT ET_STATION_RESTORE_IN ET_STATION_RESTORE_GC ET_STATION_RESTORE_REDIST
  ET_STATION_SERIAL ET_STATION_PARALLEL ET_STATION_PARALLEL_HEAD ET_OK ET_ERROR ET_ERROR_TOOMANY
  ET_ERROR_EXISTS ET_ERROR_WAKEUP ET_ERROR_TIMEOUT ET_ERROR_EMPTY ET_ERROR_BUSY ET_ERROR_DEAD
  ET_ERROR_READ ET_ERROR_WRITE ET_ERROR_REMOTE ET_ERROR_NOMEM ET_ERROR_BADARG ET_ERROR_CLOSED
  ET_LOW ET_HIGH ET_SYS ET_END ET_NEWHEAD ET_EVENT_TEMP ET_EVENT_NORMAL ET_EVENT_NEW
  ET_EVENT_USED ET_SLEEP ET_TIMED ET_ASYNC ET_WAIT_MASK ET_REMOTE ET_LOCAL ET_LOCAL_NOSHARE
  ET_DATA_OK ET_DATA_CORRUPT ET_DATA_POSSIBLY_CORRUPT ET_ENDIAN_BIG ET_ENDIAN_LITTLE
  ET_ENDIAN_LOCAL ET_ENDIAN_NOTLOCAL ET_ENDIAN_SWITCH ET_NOSWAP ET_SWAP ET_ATTACHMENTS_MAX
  ET_ATT_UNUSED ET_ATT_ACTIVE ET_ATT_CONTINUE ET_ATT_QUIT ET_ATT_UNBLOCKED ET_ATT_BLOCKED
  ET_ATT_NOSLEEP ET_ATT_SLEEP ET_PROC_CLOSED ET_PROC_OPEN ET_PROC_ETDEAD ET_PROC_ETOK
  ET_STRUCT_NEW ET_STRUCT_OK ET_THREAD_KEEP ET_THREAD_KILL ET_MUTEX_UNLOCKED ET_MUTEX_LOCKED
  ET_FIX_READ ET_FIX_DUMP ET_PROCESSES_MAX ET_LANG_C ET_LANG_CPP ET_LANG_JAVA NULL : et_consts.

(** [lia] with the constants unfolded. *)
Ltac etlia := autounfold with et_consts in *; lia.
