(* ===== verification/Machine.v ===== *)
(** * The machine: a state monad over the shared memory

    The C functions are translated into the monad [M]: state passing over [et_mem] with these
    outcomes: a normal return, a crash of the calling process, a wait that is never woken up, a
    loop that runs out of its fuel, and an access outside of the allocated objects.

    Every assignment to the shared memory is one [store], in program order.  The context holds a
    budget of stores: when it is used up the process dies and leaves the memory as it is.  It also
    holds what the other processes do while this one waits on a condition variable. *)
From stdpp Require Import base gmap strings list.
From S2P Require Import Prelude Types.
Open Scope Z_scope.

(** ** The monad *)

(** One return of pthread_cond_wait: its status and what the other processes did to the memory. *)
Record wakeup := mkWake { wk_status : Z; wk_env : et_mem -> et_mem }.

(** [cx_crash]: the number of stores left before the process dies ([None]: it does not die);
    [cx_wakes]: the wake-ups that the waits of the process will see. *)
Record ctx := mkCtx { cx_crash : option nat; cx_wakes : list wakeup }.

Inductive outcome (A : Type) :=
| Ok (a : A) (x : ctx) (m : et_mem)
| Crashed (m : et_mem)
| Blocked (m : et_mem)
| Diverged
| Fault.
Arguments Ok {A}. Arguments Crashed {A}. Arguments Blocked {A}.
Arguments Diverged {A}. Arguments Fault {A}.

Definition M (A : Type) : Type := ctx -> et_mem -> outcome A.

Definition ret {A} (a : A) : M A := fun x m => Ok a x m.
Definition bind {A B} (c : M A) (f : A -> M B) : M B := fun x m =>
  match c x m with
  | Ok a x' m' => f a x' m'
  | Crashed m' => Crashed m'
  | Blocked m' => Blocked m'
  | Diverged => Diverged
  | Fault => Fault
  end.
Definition fault {A} : M A := fun _ _ => Fault.
Definition diverge {A} : M A := fun _ _ => Diverged.
Definition block {A} : M A := fun _ m => Blocked m.
Definition getm : M et_mem := fun x m => Ok m x m.

(** One assignment to the shared memory. *)
Definition store (f : et_mem -> et_mem) : M unit := fun x m =>
  match cx_crash x with
  | Some O => Crashed m
  | Some (S k) => Ok tt (mkCtx (Some k) (cx_wakes x)) (f m)
  | None => Ok tt x (f m)
  end.

Notation "'let*' x ':=' c 'in' k" := (bind c (fun x => k))
  (at level 10, x pattern, c at level 100, k at level 200) : et_scope.
Notation "c ';;;' k" := (bind c (fun _ => k))
  (at level 190, right associativity) : et_scope.
Open Scope et_scope.

Definition when (b : bool) (c : M unit) : M unit := if b then c else ret tt.

Definition of_option {A} (o : option A) : M A :=
  match o with Some a => ret a | None => fault end.

(** A run without crash and without wake-ups. *)
Definition run {A} (c : M A) (m : et_mem) : outcome A := c (mkCtx None []) m.
(** A run of a process that dies after [k] stores. *)
Definition run_crash {A} (k : nat) (c : M A) (m : et_mem) : outcome A := c (mkCtx (Some k) []) m.
(** A run in which the waits see the given wake-ups. *)
Definition run_wakes {A} (w : list wakeup) (c : M A) (m : et_mem) : outcome A := c (mkCtx None w) m.

(** ** Loads and stores *)

(** The two lists of a station. *)
Inductive lptr := LIn (s : Z) | LOut (s : Z).
Definition lstat (pl : lptr) : Z := match pl with LIn s => s | LOut s => s end.
Definition st_list (pl : lptr) (S : et_station) : et_list :=
  match pl with LIn _ => st_list_in S | LOut _ => st_list_out S end.
Definition set_st_list (pl : lptr) (L : et_list) (S : et_station) : et_station :=
  match pl with LIn _ => set_st_list_in L S | LOut _ => set_st_list_out L S end.

Definition upd_stat (s : Z) (f : et_station -> et_station) (m : et_mem) : et_mem :=
  set_m_stats (alter f s (m_stats m)) m.
Definition upd_ev (a : Z) (f : et_event -> et_event) (m : et_mem) : et_mem :=
  set_m_events (alter f a (m_events m)) m.
Definition upd_list (pl : lptr) (f : et_list -> et_list) : et_mem -> et_mem :=
  upd_stat (lstat pl) (fun S => set_st_list pl (f (st_list pl S)) S).
Definition upd_sys (f : et_system -> et_system) (m : et_mem) : et_mem :=
  set_m_sys (f (m_sys m)) m.

Definition ld_stat (s : Z) : M et_station :=
  let* m := getm in of_option (m_stats m !! s).
Definition str_stat (s : Z) (f : et_station -> et_station) : M unit :=
  let* _ := ld_stat s in store (upd_stat s f).
Definition ld_list (pl : lptr) : M et_list :=
  let* ps := ld_stat (lstat pl) in ret (st_list pl ps).
Definition str_list (pl : lptr) (f : et_list -> et_list) : M unit :=
  let* _ := ld_stat (lstat pl) in store (upd_list pl f).
Definition str_fix (s : Z) (f : et_fix -> et_fix) : M unit :=
  str_stat s (fun S => set_st_fix (f (st_fix S)) S).

(** Pointers to events: [offset] is the distance between the addresses of the shared memory in the
    running process and in the ET system process (et_private.h, macros ET_PEVENT2USR and
    ET_PEVENT2ET). *)
Definition ET_PEVENT2USR (p offset : Z) : Z := p + offset.
Definition ET_PEVENT2ET (p offset : Z) : Z := p - offset.

(** Access through the pointer [p] of a process whose mapping has this [offset]. *)
Definition ld_ev (offset p : Z) : M et_event :=
  let* m := getm in of_option (m_events m !! (p - offset)).
Definition str_ev (offset p : Z) (f : et_event -> et_event) : M unit :=
  let* _ := ld_ev offset p in store (upd_ev (p - offset) f).

Definition ld_sys : M et_system := let* m := getm in ret (m_sys m).
Definition str_sys (f : et_system -> et_system) : M unit := store (upd_sys f).

Definition str_hist (i : Z) : M unit :=
  store (fun m => set_m_histogram (<[i := default 0 (m_histogram m !! i) + 1]> (m_histogram m)) m).

Definition ld_attach (att : Z) : M et_attach :=
  let* y := ld_sys in of_option (sys_attach y !! att).
Definition str_attach (att : Z) (f : et_attach -> et_attach) : M unit :=
  let* _ := ld_attach att in
  str_sys (fun y => set_sys_attach (alter f att (sys_attach y)) y).

(** ** Waiting *)

(** pthread_cond_wait and pthread_cond_timedwait: the mutex of the list is released, the other
    processes run, and it is taken again.  A process that is never woken up stays blocked. *)
Definition cond_wait (pl : lptr) : M Z := fun x m =>
  match cx_wakes x with
  | [] => Blocked (upd_list pl (set_l_mutex false) m)
  | k :: w =>
      Ok (wk_status k) (mkCtx (cx_crash x) w)
        (upd_list pl (set_l_mutex true) (wk_env k (upd_list pl (set_l_mutex false) m)))
  end.

(** err_abort: the process ends and leaves the memory as it is. *)
Definition err_abort {A} : M A := fun _ m => Crashed m.

(** A loop that waits at most once per iteration: the wake-ups bound its iterations. *)
Definition with_wakes {A} (c : nat -> M A) : M A := fun x m => c (S (length (cx_wakes x))) x m.

(** nanosleep: the other processes may run. *)
Definition nanosleep : M unit := fun x m =>
  match cx_wakes x with
  | [] => Ok tt x m
  | k :: w => Ok tt (mkCtx (cx_crash x) w) (wk_env k m)
  end.

(** ** Runs step by step *)

Lemma bind_ok {A B} (c : M A) (f : A -> M B) x m a x' m' :
  c x m = Ok a x' m' -> bind c f x m = f a x' m'.
Proof. intros E. unfold bind. by rewrite E. Qed.

Lemma store_ok f x m : cx_crash x = None -> store f x m = Ok tt x (f m).
Proof. intros E. unfold store. by rewrite E. Qed.

Lemma ld_list_ok pl x m ps :
  m_stats m !! lstat pl = Some ps -> ld_list pl x m = Ok (st_list pl ps) x m.
Proof. intros E. unfold ld_list, ld_stat, bind, getm, of_option. by rewrite E. Qed.

Lemma str_list_ok pl f x m ps :
  cx_crash x = None -> m_stats m !! lstat pl = Some ps -> str_list pl f x m = Ok tt x (upd_list pl f m).
Proof.
  intros C E. unfold str_list, ld_stat, bind, getm, of_option. rewrite E. by apply store_ok.
Qed.

Definition upd_attach (att : Z) (f : et_attach -> et_attach) : et_mem -> et_mem :=
  upd_sys (fun y => set_sys_attach (alter f att (sys_attach y)) y).

Lemma ld_attach_ok att x m a :
  sys_attach (m_sys m) !! att = Some a -> ld_attach att x m = Ok a x m.
Proof. intros E. unfold ld_attach, ld_sys, bind, getm, ret, of_option. by rewrite E. Qed.

Lemma str_attach_ok att f x m a :
  cx_crash x = None -> sys_attach (m_sys m) !! att = Some a ->
  str_attach att f x m = Ok tt x (upd_attach att f m).
Proof.
  intros C E. unfold str_attach. erewrite bind_ok by (by apply ld_attach_ok). by apply store_ok.
Qed.

Lemma cond_wait_ok pl x m k w :
  cx_wakes x = k :: w ->
  cond_wait pl x m = Ok (wk_status k) (mkCtx (cx_crash x) w)
    (upd_list pl (set_l_mutex true) (wk_env k (upd_list pl (set_l_mutex false) m))).
Proof. intros E. unfold cond_wait. by rewrite E. Qed.

(** ** Weakest preconditions

    [wp c Q C m]: run from [m] with no other process interfering and any budget of stores, [c]
    returns normally in a state that satisfies [Q], or the process dies (only if it has a budget)
    in a state that satisfies [C].  It neither waits forever, nor diverges, nor leaves the
    allocated objects. *)
Definition wp {A} (c : M A) (Q : A -> et_mem -> Prop) (C : et_mem -> Prop) (m : et_mem) : Prop :=
  forall x, cx_wakes x = [] ->
    match c x m with
    | Ok a x' m' => cx_wakes x' = [] /\ (cx_crash x = None -> cx_crash x' = None) /\ Q a m'
    | Crashed m' => cx_crash x <> None /\ C m'
    | _ => False
    end.

Lemma wp_ret {A} (a : A) Q C m : Q a m -> wp (ret a) Q C m.
Proof. intros H x. simpl. auto. Qed.

Lemma wp_bind {A B} (c : M A) (f : A -> M B) Q C m :
  wp c (fun a m' => wp (f a) Q C m') C m -> wp (bind c f) Q C m.
Proof.
  intros H x Hx. specialize (H x Hx). unfold bind. destruct (c x m) as [a x' m'|m'|m'| |]; try done.
  destruct H as (W & E & H). specialize (H x' W).
  destruct (f a x' m') as [b x'' m''|m''|m''| |]; try done.
  - destruct H as (? & ? & ?). auto.
  - destruct H as [N ?]. split; [|done]. intros X. auto.
Qed.

Lemma wp_mono {A} (c : M A) (Q Q' : A -> et_mem -> Prop) (C C' : et_mem -> Prop) m :
  wp c Q C m -> (forall a m', Q a m' -> Q' a m') -> (forall m', C m' -> C' m') -> wp c Q' C' m.
Proof.
  intros H HQ HC x Hx. specialize (H x Hx). destruct (c x m); try done.
  - destruct H as (? & ? & ?). auto.
  - destruct H. auto.
Qed.

Lemma wp_assoc {A B D} (c : M A) (f : A -> M B) (g : B -> M D) Q C m :
  wp (bind (bind c f) g) Q C m -> wp (bind c (fun a => bind (f a) g)) Q C m.
Proof.
  intros H x Hx. specialize (H x Hx). unfold bind in *. by destruct (c x m).
Qed.

Lemma wp_getm Q C m : Q m m -> wp getm Q C m.
Proof. intros H x. simpl. auto. Qed.

Lemma wp_store f (Q : unit -> et_mem -> Prop) (C : et_mem -> Prop) m :
  C m -> Q tt (f m) -> wp (store f) Q C m.
Proof.
  intros HC HQ x Hx. unfold store.
  destruct (cx_crash x) as [[|k]|] eqn:E; simpl; repeat split; solve [congruence | done].
Qed.

Lemma wp_of_option {A} (o : option A) a (Q : A -> et_mem -> Prop) C m :
  o = Some a -> Q a m -> wp (of_option o) Q C m.
Proof. intros ->. apply wp_ret. Qed.

Lemma wp_when (b : bool) c (Q : unit -> et_mem -> Prop) C m :
  (if b then wp c Q C m else Q tt m) -> wp (when b c) Q C m.
Proof. destruct b; [done | apply wp_ret]. Qed.

Lemma wp_nanosleep (Q : unit -> et_mem -> Prop) C m : Q tt m -> wp nanosleep Q C m.
Proof. intros H x Hx. unfold nanosleep. rewrite Hx. auto. Qed.

Lemma wp_with_wakes {A} (c : nat -> M A) Q C m : wp (c 1%nat) Q C m -> wp (with_wakes c) Q C m.
Proof. intros H x Hx. unfold with_wakes. rewrite Hx. by apply H. Qed.

(** What a weakest precondition says about the two kinds of runs. *)
Lemma wp_run {A} (c : M A) Q C m :
  wp c Q C m -> exists a x m', run c m = Ok a x m' /\ Q a m'.
Proof.
  intros H. specialize (H (mkCtx None []) eq_refl). unfold run.
  destruct (c _ m) as [a x m'|m'|m'| |]; try done.
  - destruct H as (? & ? & ?). eauto.
  - by destruct H as [[] _].
Qed.

Lemma wp_crash {A} (c : M A) Q C m k :
  wp c Q C m ->
  (exists a x m', run_crash k c m = Ok a x m' /\ Q a m') \/
  (exists m', run_crash k c m = Crashed m' /\ C m').
Proof.
  intros H. specialize (H (mkCtx (Some k) []) eq_refl). unfold run_crash.
  destruct (c _ m) as [a x m'|m'|m'| |]; try done.
  - left. destruct H as (? & ? & ?). eauto 6.
  - right. destruct H. eauto.
Qed.
