(* ===== verification/EvList.v ===== *)
(** * Event lists in the shared memory

    The locks of et_readwrite.c and the representation of an event list: a chain of [next]
    pointers between the first and the last event, of length [cnt].  The last event's [next] is
    not part of it: the code never resets it. *)
From stdpp Require Import base gmap strings list.
From S2P Require Import Prelude Types Machine.
Open Scope Z_scope.

(** ** Locks *)

Definition et_llist_lock (pl : lptr) : M unit :=
  let* L := ld_list pl in
  if l_mutex L then block else str_list pl (set_l_mutex true).

Definition et_llist_unlock (pl : lptr) : M unit := str_list pl (set_l_mutex false).

Definition et_station_lock : M unit :=
  let* y := ld_sys in
  if sys_stat_mutex y then block else str_sys (set_sys_stat_mutex true).

Definition et_station_unlock : M unit := str_sys (set_sys_stat_mutex false).

Definition et_system_lock : M unit :=
  let* y := ld_sys in
  if sys_mutex y then block else str_sys (set_sys_mutex true).

Definition et_system_unlock : M unit := str_sys (set_sys_mutex false).

Definition et_transfer_lock (s : Z) : M unit :=
  let* ps := ld_stat s in
  if st_mutex ps then block else str_stat s (set_st_mutex true).

Definition et_transfer_unlock (s : Z) : M unit := str_stat s (set_st_mutex false).

(** pthread_cond_signal and pthread_cond_broadcast on the list's condition variable. *)
Definition signal_cread (pl : lptr) : M unit :=
  str_list pl (fun L => set_l_cread (Datatypes.S (l_cread L)) L).

(** ** Chains of events *)

Definition nxt (evs : gmap Z et_event) (a : Z) : option Z := ev_next <$> evs !! a.
Definition owner (evs : gmap Z et_event) (a : Z) : option Z := ev_owner <$> evs !! a.
Definition hi (evs : gmap Z et_event) (a : Z) : bool :=
  match evs !! a with Some e => ev_priority e =? ET_HIGH | None => false end.

Fixpoint chain (evs : gmap Z et_event) (l : list Z) : Prop :=
  match l with
  | [] => True
  | a :: l' => is_Some (nxt evs a) /\ chain evs l' /\
               match l' with [] => True | b :: _ => nxt evs a = Some b end
  end.

Lemma nxt_insert_eq evs a e : nxt (<[a := e]> evs) a = Some (ev_next e).
Proof. unfold nxt. by rewrite lookup_insert_eq. Qed.

Lemma nxt_insert_ne evs a b e : a <> b -> nxt (<[a := e]> evs) b = nxt evs b.
Proof. intros N. unfold nxt. by rewrite lookup_insert_ne. Qed.

Lemma chain_ext evs evs' l :
  (forall a, a ∈ l -> nxt evs' a = nxt evs a) -> chain evs l -> chain evs' l.
Proof.
  induction l as [|a l IH]; simpl; [done|]. intros E (H1 & H2 & H3).
  rewrite E by set_solver. split; [done|]. split; [apply IH; [|done]; set_solver|].
  by destruct l.
Qed.

Lemma chain_app evs l k :
  chain evs (l ++ k) <->
  chain evs l /\ chain evs k /\
  (forall a b, last l = Some a -> head k = Some b -> nxt evs a = Some b).
Proof.
  induction l as [|a l IH]; simpl.
  - split; [intros H; do 2 (split; [done|]); by intros | by intros (_ & ? & _)].
  - rewrite IH. destruct l as [|b l]; simpl.
    + split.
      * intros (H1 & (_ & H2 & _) & H3). split; [done|]. split; [done|].
        intros x y [= <-] E. destruct k; simpl in *; congruence.
      * intros ((H1 & _ & _) & H2 & H3). split; [done|]. split.
        { split; [done|]. split; [done|]. by intros. }
        destruct k; [done|]. by apply H3.
    + tauto.
Qed.

Lemma chain_in evs l a : chain evs l -> a ∈ l -> is_Some (evs !! a).
Proof.
  induction l as [|b l IH]; simpl; [set_solver|]. intros (H1 & H2 & _) Hin.
  apply elem_of_cons in Hin as [->|?]; [|by apply IH].
  by apply fmap_is_Some in H1.
Qed.

Lemma chain_singleton evs a : is_Some (evs !! a) -> chain evs [a].
Proof. intros [e E]. simpl. unfold nxt. rewrite E. split; [by eexists|done]. Qed.

(** Following [next] along a chain. *)
Lemma chain_next evs l1 a b l2 : chain evs (l1 ++ a :: b :: l2) -> nxt evs a = Some b.
Proof. rewrite chain_app. simpl. tauto. Qed.

(** Appending, pushing in front and inserting in the middle. *)
Lemma chain_snoc evs l a x e :
  chain evs (l ++ [a]) -> evs !! a = Some e -> is_Some (evs !! x) -> NoDup (l ++ [a; x]) ->
  chain (<[a := set_ev_next x e]> evs) (l ++ [a; x]).
Proof.
  intros H E X N. change (l ++ [a; x]) with (l ++ [a] ++ [x]). rewrite app_assoc.
  apply NoDup_app in N as (_ & N1 & N2).
  rewrite chain_app in H. destruct H as (H1 & H2 & H3).
  rewrite !chain_app. split; [split; [|split]|split].
  - apply chain_ext with evs; [|done]. intros b Hb. apply nxt_insert_ne. intros ->.
    apply (N1 b Hb). set_solver.
  - apply chain_singleton. rewrite lookup_insert_eq. by eexists.
  - intros b c Hb [= <-]. rewrite nxt_insert_ne; [by apply H3|]. intros ->.
    apply (N1 b); [|set_solver]. by apply last_Some_elem_of.
  - apply chain_singleton. rewrite lookup_insert_is_Some'. by right.
  - intros b c Hb Hc. rewrite last_snoc in Hb. simplify_eq/=.
    by rewrite nxt_insert_eq.
Qed.

Lemma chain_cons evs x b l e :
  chain evs (b :: l) -> evs !! x = Some e -> x ∉ b :: l ->
  chain (<[x := set_ev_next b e]> evs) (x :: b :: l).
Proof.
  intros H E N. change (x :: b :: l) with ([x] ++ b :: l). apply chain_app. split; [|split].
  - apply chain_singleton. rewrite lookup_insert_eq. by eexists.
  - apply chain_ext with evs; [|done]. intros c Hc. apply nxt_insert_ne. by intros ->.
  - intros c d [= <-] [= <-]. by rewrite nxt_insert_eq.
Qed.

Lemma chain_insert evs l1 a x b l2 ea ex :
  chain evs (l1 ++ a :: b :: l2) -> evs !! a = Some ea -> evs !! x = Some ex ->
  NoDup (l1 ++ a :: b :: l2) -> x ∉ l1 ++ a :: b :: l2 ->
  chain (<[a := set_ev_next x ea]> (<[x := set_ev_next b ex]> evs)) (l1 ++ a :: x :: b :: l2).
Proof.
  intros H Ea Ex N X.
  assert (x <> a) by set_solver.
  assert (H' : chain evs ((l1 ++ [a]) ++ b :: l2)) by by rewrite <- app_assoc.
  apply chain_app in H' as (H1 & H2 & _).
  replace (l1 ++ a :: x :: b :: l2) with ((l1 ++ [a; x]) ++ b :: l2) by by rewrite <- app_assoc.
  apply NoDup_app in N as (N0 & N1 & N2). apply NoDup_cons in N2 as [N2 N3].
  apply chain_app. split; [|split].
  - rewrite (insert_insert_ne evs a x) by done.
    assert (C : chain (<[a:=set_ev_next x ea]> evs) (l1 ++ [a; x])).
    { apply chain_snoc; [done|done|by eexists|].
      apply NoDup_app. split; [done|]. split; [|apply NoDup_cons; split; [set_solver|apply NoDup_singleton]].
      intros c Hc. specialize (N1 c Hc). set_solver. }
    change (l1 ++ [a; x]) with (l1 ++ [a] ++ [x]) in *. rewrite app_assoc in *.
    apply chain_app in C as (C1 & C2 & C3). apply chain_app. split; [|split].
    + apply chain_ext with (<[a:=set_ev_next x ea]> evs); [|done].
      intros c Hc. apply nxt_insert_ne. intros ->. set_solver.
    + apply chain_singleton. rewrite lookup_insert_eq. by eexists.
    + intros c d Hc [= <-]. rewrite last_snoc in Hc. simplify_eq.
      rewrite nxt_insert_ne by done. by rewrite nxt_insert_eq.
  - apply chain_ext with evs; [|done]. intros c Hc.
    rewrite !nxt_insert_ne; [done| |]; intros ->; set_solver.
  - intros c d Hc [= <-]. change [a; x] with ([a] ++ [x]) in Hc. rewrite app_assoc, last_snoc in Hc.
    simplify_eq. rewrite nxt_insert_ne by done. by rewrite nxt_insert_eq.
Qed.

(** ** What list operations leave unchanged in an event *)

(** An event without its link and its owner. *)
Definition ev_core (e : et_event) : et_event := set_ev_next 0 (set_ev_owner 0 e).

(** The same events exist, and they differ at most in their links and owners. *)
Definition same_core (evs evs' : gmap Z et_event) : Prop := ev_core <$> evs = ev_core <$> evs'.

#[export] Instance same_core_equiv : Equivalence same_core.
Proof. unfold same_core. split; repeat intro; congruence. Qed.

Lemma same_core_lookup evs evs' a :
  same_core evs evs' -> ev_core <$> evs !! a = ev_core <$> evs' !! a.
Proof. intros H. by rewrite <- !lookup_fmap, H. Qed.

Lemma same_core_is_Some evs evs' a :
  same_core evs evs' -> is_Some (evs !! a) -> is_Some (evs' !! a).
Proof.
  intros H [e E]. apply (same_core_lookup _ _ a) in H. rewrite E in H.
  by destruct (evs' !! a).
Qed.

Lemma same_core_insert evs a e e' :
  evs !! a = Some e -> ev_core e' = ev_core e -> same_core evs (<[a := e']> evs).
Proof.
  intros E C. unfold same_core. rewrite fmap_insert, C, insert_id; [done|].
  by rewrite lookup_fmap, E.
Qed.

Lemma same_core_hi evs evs' a : same_core evs evs' -> hi evs a = hi evs' a.
Proof.
  intros H. apply (same_core_lookup _ _ a) in H. unfold hi.
  destruct (evs !! a) as [e|], (evs' !! a) as [e'|]; simpl in H; try done.
  assert (ev_priority (ev_core e) = ev_priority (ev_core e')) as X by congruence.
  cbn in X. by rewrite X.
Qed.

(** ** Representation of a list *)

(** The list structure [L] holds the events [l], in this order; all belong to the system. *)
Record list_rep (evs : gmap Z et_event) (L : et_list) (l : list Z) : Prop := mkListRep {
  lr_cnt : l_cnt L = Z.of_nat (length l);
  lr_chain : chain evs l;
  lr_nodup : NoDup l;
  lr_first : forall a, head l = Some a -> l_firstevent L = a;
  lr_last : forall a, last l = Some a -> l_lastevent L = a;
  lr_owner : Forall (fun a => owner evs a = Some ET_SYS) l
}.

(** An output list is moreover in priority order and counts its events of high priority. *)
Record out_rep (evs : gmap Z et_event) (L : et_list) (l : list Z) : Prop := mkOutRep {
  or_list : list_rep evs L l;
  or_sorted : pri_sorted (hi evs) l;
  or_lasthigh : l_lasthigh L = Z.of_nat (length (highs (hi evs) l))
}.

(** Every event has one of the two priorities and none is at the null address. *)
Record ev_ok (evs : gmap Z et_event) : Prop := mkEvOk {
  eo_prio : forall a e, evs !! a = Some e -> ev_priority e = ET_LOW \/ ev_priority e = ET_HIGH;
  eo_null : evs !! 0 = None
}.

Lemma same_core_ev_ok evs evs' : same_core evs evs' -> ev_ok evs -> ev_ok evs'.
Proof.
  intros H [H1 H2]. split.
  - intros a e E. apply (same_core_lookup _ _ a) in H. rewrite E in H.
    destruct (evs !! a) as [e0|] eqn:E0; simpl in H; [|done].
    assert (ev_priority (ev_core e0) = ev_priority (ev_core e)) as X by congruence.
    cbn in X. rewrite <- X. by apply (H1 a).
  - apply (same_core_lookup _ _ 0) in H. rewrite H2 in H. by destruct (evs' !! 0).
Qed.

Lemma hi_low evs a e : evs !! a = Some e -> ev_priority e = ET_LOW -> hi evs a = false.
Proof. intros E P. unfold hi. by rewrite E, P. Qed.

Lemma hi_high evs a e : evs !! a = Some e -> ev_priority e = ET_HIGH -> hi evs a = true.
Proof. intros E P. unfold hi. by rewrite E, P. Qed.

Lemma list_rep_nil evs L l : list_rep evs L l -> l_cnt L = 0 <-> l = [].
Proof. intros [E]. rewrite E. destruct l; simpl; split; try done; lia. Qed.

Lemma list_rep_empty evs L : l_cnt L = 0 -> list_rep evs L [].
Proof. intros E. split; simpl; try done. apply NoDup_nil_2. Qed.

Lemma owner_insert evs a b e :
  owner (<[a := e]> evs) b = if decide (a = b) then Some (ev_owner e) else owner evs b.
Proof. unfold owner. rewrite lookup_insert. by case_decide. Qed.

(** Lists are not affected by changes to events outside of them. *)
Lemma list_rep_frame evs evs' L l :
  (forall a, a ∈ l -> evs' !! a = evs !! a) -> list_rep evs L l -> list_rep evs' L l.
Proof.
  intros E [H1 H2 H3 H4 H5 H6]. split; auto.
  - apply chain_ext with evs; [|done]. intros a Ha. unfold nxt. by rewrite E.
  - apply List.Forall_forall. intros a Ha. rewrite List.Forall_forall in H6.
    unfold owner. rewrite E; [by apply H6|]. by apply list_elem_of_In.
Qed.

Lemma filter_ext_in' (f g : Z -> bool) l :
  (forall a, a ∈ l -> f a = g a) -> List.filter f l = List.filter g l.
Proof. intros E. apply List.filter_ext_in. intros a Ha. apply E. by apply list_elem_of_In. Qed.

Lemma highs_ext (f g : Z -> bool) l : (forall a, a ∈ l -> f a = g a) -> highs f l = highs g l.
Proof. apply filter_ext_in'. Qed.

Lemma lows_ext (f g : Z -> bool) l : (forall a, a ∈ l -> f a = g a) -> lows f l = lows g l.
Proof. intros E. apply filter_ext_in'. intros a Ha. by rewrite E. Qed.

Lemma pri_sort_ext (f g : Z -> bool) l :
  (forall a, a ∈ l -> f a = g a) -> pri_sort f l = pri_sort g l.
Proof. intros E. unfold pri_sort. by rewrite (highs_ext f g), (lows_ext f g). Qed.

(** ** Adding one event to an output list *)

(** The chain part of a representation: enough to walk from the first to the last event. *)
Record walk (evs : gmap Z et_event) (L : et_list) (l : list Z) : Prop := mkWalk {
  wk_chain : chain evs l;
  wk_nodup : NoDup l;
  wk_first : head l = Some (l_firstevent L);
  wk_last : last l = Some (l_lastevent L)
}.

Lemma list_rep_walk evs L l : list_rep evs L l -> l <> [] -> walk evs L l.
Proof.
  intros [H1 H2 H3 H4 H5 H6] N. split; auto.
  - destruct l as [|a l]; [done|]. simpl. f_equal. symmetry. by apply H4.
  - destruct (last l) as [a|] eqn:E; [f_equal; symmetry; by apply H5|]. by apply last_None in E.
Qed.

Lemma walk_list_rep evs L l :
  walk evs L l -> l_cnt L = Z.of_nat (length l) ->
  Forall (fun a => owner evs a = Some ET_SYS) l -> list_rep evs L l.
Proof. intros [H1 H2 H3 H4] C O. split; auto; congruence. Qed.

Lemma pri_sort_in {A} (h : A -> bool) l a : a ∈ pri_sort h l <-> a ∈ l.
Proof. by rewrite (pri_sort_perm h l). Qed.

Lemma pri_sort_snoc_NoDup (h : Z -> bool) l x :
  NoDup l -> x ∉ l -> NoDup (pri_sort h (l ++ [x])).
Proof.
  intros N X. rewrite pri_sort_perm. apply NoDup_app. split; [done|]. split; [|apply NoDup_singleton].
  set_solver.
Qed.

Lemma out_rep_add evs evs' lo lo' l x :
  out_rep evs lo l -> x ∉ l -> same_core evs evs' ->
  walk evs' lo' (pri_sort (hi evs) (l ++ [x])) ->
  (forall a, a ∈ l -> owner evs' a = owner evs a) -> owner evs' x = Some ET_SYS ->
  l_cnt lo' = l_cnt lo + 1 ->
  l_lasthigh lo' = l_lasthigh lo + (if hi evs x then 1 else 0) ->
  out_rep evs' lo' (pri_sort (hi evs) (l ++ [x])).
Proof.
  intros [[H1 H2 H3 H4 H5 H6] S C] X E W O Ox Cn Lh.
  assert (Hhi : forall a, hi evs' a = hi evs a) by (intros a; symmetry; by apply same_core_hi).
  split.
  - apply walk_list_rep; [done| |].
    + rewrite Cn, H1, pri_sort_length, length_app. simpl. lia.
    + apply List.Forall_forall. intros a Ha. apply list_elem_of_In in Ha.
      apply pri_sort_in, elem_of_app in Ha as [Ha|Ha].
      * rewrite O by done. rewrite List.Forall_forall in H6. apply H6. by apply list_elem_of_In.
      * apply list_elem_of_singleton in Ha. by subst.
  - unfold pri_sorted. rewrite (pri_sort_ext (hi evs') (hi evs)) by auto. apply pri_sort_sorted.
  - rewrite Lh, C, (highs_ext (hi evs') (hi evs)) by auto.
    rewrite highs_pri_sort, highs_app, length_app. simpl. destruct (hi evs x); simpl; lia.
Qed.

(** Changing an event without changing the walk: outside of it, its last event, or a change that
    keeps the link. *)
Lemma chain_set_last evs l a e' :
  chain evs l -> NoDup l -> last l = Some a -> chain (<[a := e']> evs) l.
Proof.
  intros H N E. apply last_Some in E as [k ->]. apply chain_app in H as (H1 & _ & H3).
  apply NoDup_app in N as (_ & N & _).
  assert (forall c, c ∈ k -> c <> a) by (intros c Hc ->; apply (N a Hc); set_solver).
  apply chain_app. split; [|split].
  - apply chain_ext with evs; [|done]. intros c Hc. rewrite nxt_insert_ne; [done|]. naive_solver.
  - apply chain_singleton. rewrite lookup_insert_eq. by eexists.
  - intros c d Hc Hd. rewrite nxt_insert_ne; [by apply H3|].
    intros ->. apply last_Some_elem_of in Hc. naive_solver.
Qed.

Lemma walk_ext evs evs' L L' l :
  walk evs L l -> (forall a, a ∈ l -> nxt evs' a = nxt evs a) ->
  l_firstevent L' = l_firstevent L -> l_lastevent L' = l_lastevent L -> walk evs' L' l.
Proof.
  intros [H1 H2 H3 H4] E F G. split; [by apply chain_ext with evs|done|congruence|congruence].
Qed.

Lemma walk_list evs L L' l :
  walk evs L l -> l_firstevent L' = l_firstevent L -> l_lastevent L' = l_lastevent L -> walk evs L' l.
Proof. intros W F G. by apply walk_ext with evs L. Qed.

Lemma walk_set_last evs L L' l e' :
  walk evs L l -> l_firstevent L' = l_firstevent L -> l_lastevent L' = l_lastevent L ->
  walk (<[l_lastevent L := e']> evs) L' l.
Proof.
  intros [H1 H2 H3 H4] F G. split; [by apply chain_set_last|done|congruence|congruence].
Qed.

Lemma walk_owner evs L l a e v :
  walk evs L l -> evs !! a = Some e -> walk (<[a := set_ev_owner v e]> evs) L l.
Proof.
  intros W E. apply walk_ext with evs L; try done. intros b _.
  destruct (decide (a = b)) as [<-|]; [|by apply nxt_insert_ne].
  rewrite nxt_insert_eq. unfold nxt. by rewrite E.
Qed.

(** The three places where an event is linked in. *)
Lemma walk_snoc evs L L' l x e :
  walk evs L l -> evs !! l_lastevent L = Some e -> is_Some (evs !! x) -> x ∉ l ->
  l_firstevent L' = l_firstevent L -> l_lastevent L' = x ->
  walk (<[l_lastevent L := set_ev_next x e]> evs) L' (l ++ [x]).
Proof.
  intros [H1 H2 H3 H4] E X N F G. apply last_Some in H4 as [k Hk].
  assert (NoDup (l ++ [x])).
  { apply NoDup_app. split; [done|]. split; [|apply NoDup_singleton]. set_solver. }
  split; [|done| |].
  - rewrite Hk in *. rewrite <- app_assoc in *. simpl in *. by apply chain_snoc.
  - destruct l; simpl in *; congruence.
  - rewrite last_snoc. congruence.
Qed.

Lemma walk_cons evs L L' l x e :
  walk evs L l -> evs !! x = Some e -> x ∉ l ->
  l_firstevent L' = x -> l_lastevent L' = l_lastevent L ->
  walk (<[x := set_ev_next (l_firstevent L) e]> evs) L' (x :: l).
Proof.
  intros [H1 H2 H3 H4] E X F G. destruct l as [|b l]; [done|]. simpl in H3.
  injection H3 as ->. split.
  - by apply chain_cons.
  - by apply NoDup_cons.
  - simpl. congruence.
  - simpl in *. destruct l; congruence.
Qed.

Lemma walk_insert evs L L' l1 a b l2 x ea ex :
  walk evs L (l1 ++ a :: b :: l2) -> evs !! a = Some ea -> evs !! x = Some ex ->
  x ∉ l1 ++ a :: b :: l2 ->
  l_firstevent L' = l_firstevent L -> l_lastevent L' = l_lastevent L ->
  walk (<[a := set_ev_next x ea]> (<[x := set_ev_next b ex]> evs)) L' (l1 ++ a :: x :: b :: l2).
Proof.
  intros [H1 H2 H3 H4] Ea Ex X F G. split.
  - by apply chain_insert.
  - replace (l1 ++ a :: x :: b :: l2) with ((l1 ++ [a]) ++ [x] ++ b :: l2) by by rewrite <- app_assoc.
    rewrite (Permutation_app_comm [x]), app_assoc. apply NoDup_app. split.
    + by rewrite <- app_assoc.
    + split; [|apply NoDup_singleton]. intros c Hc. rewrite <- app_assoc in Hc. set_solver.
  - destruct l1; simpl in *; congruence.
  - rewrite last_app_cons in *. simpl in *. destruct l2; simpl in *; congruence.
Qed.

(** ** Changing the owner of several events *)

Fixpoint set_owners (v : Z) (l : list Z) (evs : gmap Z et_event) : gmap Z et_event :=
  match l with
  | [] => evs
  | a :: l' => set_owners v l' (alter (set_ev_owner v) a evs)
  end.

Lemma set_owners_lookup v l evs b :
  set_owners v l evs !! b = if decide (b ∈ l) then set_ev_owner v <$> evs !! b else evs !! b.
Proof.
  revert evs. induction l as [|a l IH]; intros evs; simpl.
  { destruct (decide (b ∈ [])); [set_solver|done]. }
  rewrite IH. destruct (decide (b = a)) as [->|N].
  - rewrite lookup_alter_eq, (decide_True (P := a ∈ a :: l)) by set_solver.
    destruct (evs !! a) as [e|]; simpl; [|by case_decide]. case_decide; [|done]. done.
  - rewrite lookup_alter_ne by done. case_decide as D; case_decide as D'; try done; set_solver.
Qed.

Lemma set_owners_nxt v l evs b : nxt (set_owners v l evs) b = nxt evs b.
Proof. unfold nxt. rewrite set_owners_lookup. case_decide; [|done]. by destruct (evs !! b). Qed.

Lemma set_owners_hi v l evs b : hi (set_owners v l evs) b = hi evs b.
Proof. unfold hi. rewrite set_owners_lookup. case_decide; [|done]. by destruct (evs !! b). Qed.

Lemma set_owners_owner v l evs b :
  owner (set_owners v l evs) b =
    if decide (b ∈ l) then (fun _ => v) <$> evs !! b else owner evs b.
Proof. unfold owner. rewrite set_owners_lookup. case_decide; [|done]. by destruct (evs !! b). Qed.

Lemma set_owners_core v l evs : same_core evs (set_owners v l evs).
Proof.
  apply map_eq. intros b. rewrite !lookup_fmap, set_owners_lookup. case_decide; [|done].
  by destruct (evs !! b).
Qed.

Lemma alter_owner_insert v a e (evs : gmap Z et_event) :
  evs !! a = Some e -> alter (set_ev_owner v) a evs = <[a := set_ev_owner v e]> evs.
Proof.
  intros E. apply map_eq. intros b. destruct (decide (a = b)) as [<-|N].
  - by rewrite lookup_alter_eq, lookup_insert_eq, E.
  - by rewrite lookup_alter_ne, lookup_insert_ne.
Qed.

Lemma set_owners_chain v l k evs : chain evs k -> chain (set_owners v l evs) k.
Proof. apply chain_ext. intros a _. apply set_owners_nxt. Qed.

Lemma set_owners_walk v l k evs L : walk evs L k -> walk (set_owners v l evs) L k.
Proof. intros W. apply walk_ext with evs L; [done| |done|done]. intros. apply set_owners_nxt. Qed.

(** A walk all of whose events are given back to the system is a list. *)
Lemma set_owners_list_rep evs L L' l :
  walk evs L l -> l_firstevent L' = l_firstevent L -> l_lastevent L' = l_lastevent L ->
  l_cnt L' = Z.of_nat (length l) -> list_rep (set_owners ET_SYS l evs) L' l.
Proof.
  intros W F La Cn. apply walk_list_rep; [|done|].
  - apply walk_list with L; [by apply set_owners_walk|done|done].
  - apply List.Forall_forall. intros a Ha. apply list_elem_of_In in Ha.
    rewrite set_owners_owner, decide_True by done.
    by destruct (chain_in _ _ _ (wk_chain _ _ _ W) Ha) as [e ->].
Qed.

(** The events of a list are some of those that exist. *)
Lemma chain_size evs l : chain evs l -> NoDup l -> (length l <= size evs)%nat.
Proof.
  intros H N. rewrite <- (size_list_to_set (C := gset Z) l) by done. rewrite <- size_dom.
  apply subseteq_size. intros a Ha. apply elem_of_list_to_set in Ha.
  by apply elem_of_dom, (chain_in _ _ _ H).
Qed.

Lemma chain_drop evs l n : chain evs l -> chain evs (drop n l).
Proof. rewrite <- (take_drop n l) at 1. rewrite chain_app. tauto. Qed.

(** Taking the first [n > 0] events off a list: [b] is the last of them. *)
Lemma list_rep_drop evs L L' l n b v :
  list_rep evs L l -> take n l <> [] -> last (take n l) = Some b -> nxt evs b = Some v ->
  l_firstevent L' = v -> l_lastevent L' = l_lastevent L -> l_cnt L' = l_cnt L - Z.of_nat (length (take n l)) ->
  forall att, list_rep (set_owners att (take n l) evs) L' (drop n l).
Proof.
  intros [H1 H2 H3 H4 H5 H6] Ne Lb Nx F La Cn att. rewrite <- (take_drop n l) in H2, H3, H5, H6.
  apply chain_app in H2 as (_ & H2 & Hl). apply NoDup_app in H3 as (_ & Hd & H3).
  apply List.Forall_app in H6 as [_ H6]. split.
  - rewrite Cn, H1. rewrite <- (take_drop n l) at 1. rewrite length_app. lia.
  - by apply set_owners_chain.
  - done.
  - intros a Ha. specialize (Hl _ _ Lb Ha). congruence.
  - intros a Ha. rewrite La. apply H5. rewrite last_app, Ha. done.
  - apply List.Forall_forall. intros a Ha. rewrite List.Forall_forall in H6.
    rewrite set_owners_owner, decide_False; [by apply H6|].
    intros X. apply (Hd a X). by apply list_elem_of_In.
Qed.

Lemma set_owners_app v l k evs :
  set_owners v (l ++ k) evs = set_owners v k (set_owners v l evs).
Proof. revert evs. induction l as [|a l IH]; intros evs; simpl; [done|]. apply IH. Qed.

Lemma set_owners_take_S v l k a e evs :
  l !! k = Some a -> set_owners v (take k l) evs !! a = Some e ->
  set_owners v (take (S k) l) evs = <[a := set_ev_owner v e]> (set_owners v (take k l) evs).
Proof.
  intros Ha E. rewrite (take_S_r _ _ a) by done. rewrite set_owners_app. simpl.
  by apply alter_owner_insert.
Qed.

Lemma chain_lookup evs l k a b :
  chain evs l -> l !! k = Some a -> l !! S k = Some b -> nxt evs a = Some b.
Proof.
  revert k. induction l as [|c l IH]; intros k H Ha Hb; [done|].
  destruct H as (_ & H & Hn). destruct k as [|k]; simpl in *.
  - destruct l; simplify_eq/=. done.
  - by apply (IH k).
Qed.

Lemma nxt_lookup evs a b : nxt evs a = Some b -> exists e, evs !! a = Some e /\ ev_next e = b.
Proof. unfold nxt. destruct (evs !! a) as [e|]; simpl; [|done]. intros [= <-]. eauto. Qed.
