(* ===== verification/Local.v ===== *)
(** * Symbolic execution on one station

    The read and write operations touch one station (its two lists and its repair information)
    and the events.  [lview] displays exactly these parts of the memory; the rules below run one
    primitive operation on such a view and give the next view. *)
From stdpp Require Import base gmap strings list.
From S2P Require Import Prelude Types Machine EvList.
Open Scope Z_scope.

Definition lview (m : et_mem) (s : Z) (ps : et_station) (li lo : et_list) (fx : et_fix)
    (evs : gmap Z et_event) : et_mem :=
  set_m_events evs
    (set_m_stats (<[s := set_st_list_in li (set_st_list_out lo (set_st_fix fx ps))]> (m_stats m)) m).

Lemma lview_intro m s ps :
  m_stats m !! s = Some ps ->
  m = lview m s ps (st_list_in ps) (st_list_out ps) (st_fix ps) (m_events m).
Proof.
  intros E. unfold lview. destruct m as [y st h e r]. cbn in *.
  rewrite insert_id; [done|]. rewrite E. by destruct ps.
Qed.

Lemma wp_lview m s ps {A} (c : M A) (Q : A -> et_mem -> Prop) C :
  m_stats m !! s = Some ps ->
  wp c Q C (lview m s ps (st_list_in ps) (st_list_out ps) (st_fix ps) (m_events m)) -> wp c Q C m.
Proof. intros E H. rewrite (lview_intro m s ps) at 1 by done. done. Qed.

Section rules.
Context (m : et_mem) (s : Z) (ps : et_station).
Context (li lo : et_list) (fx : et_fix) (evs : gmap Z et_event).
Abbreviation V := (lview m s ps).

Lemma lview_stat :
  m_stats (V li lo fx evs) !! s = Some (set_st_list_in li (set_st_list_out lo (set_st_fix fx ps))).
Proof. cbn. by rewrite lookup_insert_eq. Qed.

Lemma lview_upd f li' lo' fx' :
  f (set_st_list_in li (set_st_list_out lo (set_st_fix fx ps))) =
    set_st_list_in li' (set_st_list_out lo' (set_st_fix fx' ps)) ->
  upd_stat s f (V li lo fx evs) = V li' lo' fx' evs.
Proof.
  intros E. unfold upd_stat, lview, set_m_stats, set_m_events. cbn. f_equal.
  apply map_eq. intros i. destruct (decide (i = s)) as [->|N].
  - rewrite lookup_alter_eq, !lookup_insert_eq. simpl. by rewrite E.
  - by rewrite lookup_alter_ne, !lookup_insert_ne by done.
Qed.

Lemma wp_ld_stat (Q : et_station -> et_mem -> Prop) C :
  Q (set_st_list_in li (set_st_list_out lo (set_st_fix fx ps))) (V li lo fx evs) ->
  wp (ld_stat s) Q C (V li lo fx evs).
Proof.
  intros H. unfold ld_stat. apply wp_bind, wp_getm. eapply wp_of_option; [apply lview_stat|done].
Qed.

Lemma wp_ld_list_in (Q : et_list -> et_mem -> Prop) C :
  Q li (V li lo fx evs) -> wp (ld_list (LIn s)) Q C (V li lo fx evs).
Proof. intros H. unfold ld_list. apply wp_bind, wp_ld_stat, wp_ret. done. Qed.

Lemma wp_ld_list_out (Q : et_list -> et_mem -> Prop) C :
  Q lo (V li lo fx evs) -> wp (ld_list (LOut s)) Q C (V li lo fx evs).
Proof. intros H. unfold ld_list. apply wp_bind, wp_ld_stat, wp_ret. done. Qed.

Lemma wp_str_list_in f (Q : unit -> et_mem -> Prop) (C : et_mem -> Prop) :
  C (V li lo fx evs) -> Q tt (V (f li) lo fx evs) ->
  wp (str_list (LIn s) f) Q C (V li lo fx evs).
Proof.
  intros HC HQ. unfold str_list. apply wp_bind, wp_ld_stat, wp_store; [done|].
  unfold upd_list. cbn [lstat]. by erewrite lview_upd.
Qed.

Lemma wp_str_list_out f (Q : unit -> et_mem -> Prop) (C : et_mem -> Prop) :
  C (V li lo fx evs) -> Q tt (V li (f lo) fx evs) ->
  wp (str_list (LOut s) f) Q C (V li lo fx evs).
Proof.
  intros HC HQ. unfold str_list. apply wp_bind, wp_ld_stat, wp_store; [done|].
  unfold upd_list. cbn [lstat]. by erewrite lview_upd.
Qed.

Lemma wp_str_fix f (Q : unit -> et_mem -> Prop) (C : et_mem -> Prop) :
  C (V li lo fx evs) -> Q tt (V li lo (f fx) evs) ->
  wp (str_fix s f) Q C (V li lo fx evs).
Proof.
  intros HC HQ. unfold str_fix, str_stat. apply wp_bind, wp_ld_stat, wp_store; [done|].
  by erewrite lview_upd.
Qed.

Lemma wp_ld_ev off p e (Q : et_event -> et_mem -> Prop) C :
  evs !! (p - off) = Some e -> Q e (V li lo fx evs) -> wp (ld_ev off p) Q C (V li lo fx evs).
Proof. intros E H. unfold ld_ev. apply wp_bind, wp_getm. by eapply wp_of_option. Qed.

Lemma wp_str_ev off p e f (Q : unit -> et_mem -> Prop) (C : et_mem -> Prop) :
  evs !! (p - off) = Some e -> C (V li lo fx evs) ->
  Q tt (V li lo fx (<[p - off := f e]> evs)) ->
  wp (str_ev off p f) Q C (V li lo fx evs).
Proof.
  intros E HC HQ. unfold str_ev. apply wp_bind. eapply wp_ld_ev; [done|].
  apply wp_store; [done|]. unfold upd_ev. cbn.
  replace (alter f (p - off) evs) with (<[p - off := f e]> evs); [done|].
  apply map_eq. intros i. destruct (decide (p - off = i)) as [<-|N].
  - by rewrite lookup_insert_eq, lookup_alter_eq, E.
  - by rewrite lookup_insert_ne, lookup_alter_ne.
Qed.

Lemma wp_ld_sys (Q : et_system -> et_mem -> Prop) C :
  Q (m_sys m) (V li lo fx evs) -> wp ld_sys Q C (V li lo fx evs).
Proof. intros H. unfold ld_sys. apply wp_bind, wp_getm, wp_ret. done. Qed.

Lemma wp_lock_out (Q : unit -> et_mem -> Prop) (C : et_mem -> Prop) :
  l_mutex lo = false -> C (V li lo fx evs) -> Q tt (V li (set_l_mutex true lo) fx evs) ->
  wp (et_llist_lock (LOut s)) Q C (V li lo fx evs).
Proof.
  intros E HC HQ. unfold et_llist_lock. apply wp_bind, wp_ld_list_out. rewrite E.
  by apply wp_str_list_out.
Qed.

Lemma wp_lock_in (Q : unit -> et_mem -> Prop) (C : et_mem -> Prop) :
  l_mutex li = false -> C (V li lo fx evs) -> Q tt (V (set_l_mutex true li) lo fx evs) ->
  wp (et_llist_lock (LIn s)) Q C (V li lo fx evs).
Proof.
  intros E HC HQ. unfold et_llist_lock. apply wp_bind, wp_ld_list_in. rewrite E.
  by apply wp_str_list_in.
Qed.

Lemma wp_ld_attach att a (Q : et_attach -> et_mem -> Prop) C :
  sys_attach (m_sys m) !! att = Some a -> Q a (V li lo fx evs) ->
  wp (ld_attach att) Q C (V li lo fx evs).
Proof.
  intros E H. unfold ld_attach. apply wp_bind, wp_ld_sys. by eapply wp_of_option.
Qed.

(** A store outside of the view. *)
Lemma wp_str_hist i (Q : unit -> et_mem -> Prop) (C : et_mem -> Prop) :
  C (V li lo fx evs) ->
  Q tt (lview (set_m_histogram (<[i := default 0 (m_histogram m !! i) + 1]> (m_histogram m)) m)
          s ps li lo fx evs) ->
  wp (str_hist i) Q C (V li lo fx evs).
Proof. intros HC HQ. unfold str_hist. by apply wp_store. Qed.
End rules.

(** One step of symbolic execution.  A store leaves its crash condition as the first goal. *)
Ltac wstep :=
  lazymatch goal with
  | |- wp (bind _ _) _ _ _ => apply wp_bind
  | |- wp (ret _) _ _ _ => apply wp_ret
  | |- wp (ld_stat _) _ _ _ => apply wp_ld_stat
  | |- wp (ld_list (LIn _)) _ _ _ => apply wp_ld_list_in
  | |- wp (ld_list (LOut _)) _ _ _ => apply wp_ld_list_out
  | |- wp (str_list (LIn _) _) _ _ _ => apply wp_str_list_in
  | |- wp (str_list (LOut _) _) _ _ _ => apply wp_str_list_out
  | |- wp (et_llist_unlock _) _ _ _ => unfold et_llist_unlock
  | |- wp (signal_cread _) _ _ _ => unfold signal_cread
  | |- wp (str_fix _ _) _ _ _ => apply wp_str_fix
  | |- wp (ld_ev _ _) _ _ _ => eapply wp_ld_ev
  | |- wp (str_ev _ _ _) _ _ _ => eapply wp_str_ev
  | |- wp ld_sys _ _ _ => apply wp_ld_sys
  | |- wp (when _ _) _ _ _ => apply wp_when
  end.
