(* ===== verification/Sample.v ===== *)
(** * A small concrete ET system

    The memory on which the theorems of the other files are instantiated: a system of eight events
    with GrandCentral and three user stations, mapped by the user process at an offset of 4096. *)
From stdpp Require Import base gmap strings list.
From S2P Require Import Prelude Types Machine EvList Local.
Open Scope Z_scope.

Definition off0 : Z := 4096.

Definition event0 (next priority owner place : Z) : et_event :=
  mkEvent next 0 0 0 0 1000 0 0 priority owner ET_EVENT_NORMAL ET_EVENT_USED ET_DATA_OK 0 1 place
    [] EmptyString.

Definition list0 (cnt lasthigh first last : Z) : et_list :=
  mkList cnt lasthigh 0 0 0 first last false 0.

Definition fix0 : et_fix := mkFix 0 0 0 0 0 0 0 0 0.

Definition config0 : et_stat_config :=
  mkStatConfig ET_STRUCT_OK ET_STATION_SERIAL ET_STATION_USER_MULTI ET_STATION_RESTORE_OUT
    ET_STATION_BLOCKING 1 10 ET_STATION_SELECT_ALL [-1; -1; -1; -1; -1; -1] EmptyString
    EmptyString EmptyString.

Definition station0 (num next prev : Z) (name : string) (li lo : et_list) : et_station :=
  mkStation num 0 next prev (-1) (-1) 0 name false fix0
    (mkStatData ET_STATION_ACTIVE 77 0 ∅) config0 li lo.

Definition sysconfig0 : et_sys_config :=
  mkSysConfig 1000 ET_STRUCT_OK 8 8 4 4 4 1 [8] EmptyString 0 0 0 0 0 [].

Definition proc0 (num : Z) : et_proc := mkProc num ∅ 0 0 ET_PROC_OPEN ET_PROC_ETOK 0 77.

Definition attach0 (num stat : Z) : et_attach :=
  mkAttach num 0 stat ET_ATT_ACTIVE ET_ATT_UNBLOCKED ET_ATT_CONTINUE ET_ATT_NOSLEEP 0 0 0 0 77
    EmptyString EmptyString.

Definition system0 : et_system :=
  mkSystem 16 6 0 0 0 100 4 0 1 1 0 0 0 0 3 77 false false false EmptyString
    {[0 := proc0 0]} {[0 := attach0 0 1; 1 := attach0 1 2]} sysconfig0.

(** The input list of station 1 holds 200 (high), 100, its output list 300 (high), 400; the
    attachment 0 holds 500 (high) and 600; the rest is in GrandCentral. *)
Definition mem0 : et_mem :=
  mkMem system0
    {[ 0 := station0 0 1 (-1) "GRAND_CENTRAL" (list0 2 0 700 800) (list0 0 0 0 0);
       1 := station0 1 2 0 "A" (list0 2 0 200 100) (list0 2 1 300 400);
       2 := station0 2 3 1 "B" (list0 0 0 0 0) (list0 0 0 0 0);
       3 := station0 3 (-1) 2 "C" (list0 0 0 0 0) (list0 0 0 0 0) ]}
    ∅
    {[ 100 := event0 0 ET_LOW ET_SYS 0;    200 := event0 100 ET_HIGH ET_SYS 1;
       300 := event0 400 ET_HIGH ET_SYS 2; 400 := event0 0 ET_LOW ET_SYS 3;
       500 := event0 0 ET_HIGH 0 4;        600 := event0 0 ET_LOW 0 5;
       700 := event0 800 ET_LOW ET_SYS 6;  800 := event0 0 ET_LOW ET_SYS 7 ]} 0.

Definition id0 : et_id := mkId ET_LANG_C ET_STRUCT_OK 1 0 0 0 0 8 1 0 1000 off0 ET_LOCAL 11111 "host" EmptyString.

(** The station records of [mem0]. *)
Definition stat0 (s : Z) : et_station :=
  default (station0 0 0 0 EmptyString (list0 0 0 0 0) (list0 0 0 0 0)) (m_stats mem0 !! s).

(** Decides closed goals about [mem0]. *)
Ltac by_eval := first [ vm_compute; solve [ reflexivity | congruence | lia | done ]
                      | apply (bool_decide_unpack _); vm_compute; exact I ].

Lemma mem0_ev_ok : ev_ok (m_events mem0).
Proof.
  split; [|by_eval].
  assert (H : map_Forall (fun _ e => ev_priority e = ET_LOW \/ ev_priority e = ET_HIGH)
    (m_events mem0)) by by_eval.
  intros a e E. exact (H a e E).
Qed.

Lemma mem0_stat s : s = 0 \/ s = 1 \/ s = 2 \/ s = 3 -> m_stats mem0 !! s = Some (stat0 s).
Proof. intros [->|[->|[->| ->]]]; reflexivity. Qed.

Lemma mem0_list_rep_intro L l a z :
  l_cnt L = Z.of_nat (length l) -> chain (m_events mem0) l -> NoDup l -> head l = Some a ->
  last l = Some z -> l_firstevent L = a -> l_lastevent L = z ->
  Forall (fun a => owner (m_events mem0) a = Some ET_SYS) l -> list_rep (m_events mem0) L l.
Proof. intros. split; congruence. Qed.

Lemma chain_bool (evs : gmap Z et_event) l :
  (fix go l := match l with
     | [] => true
     | a :: l' => bool_decide (is_Some (nxt evs a)) && go l' &&
                  match l' with [] => true | b :: _ => bool_decide (nxt evs a = Some b) end
     end) l = true -> chain evs l.
Proof.
  induction l as [|a l IH]; [done|]. intros H. apply andb_true_iff in H as [H H3].
  apply andb_true_iff in H as [H1 H2]. apply bool_decide_eq_true in H1.
  split; [done|]. split; [by apply IH|]. destruct l; [done|]. by apply bool_decide_eq_true in H3.
Qed.

Ltac sample_rep :=
  eapply mem0_list_rep_intro;
    [reflexivity|apply chain_bool; vm_compute; reflexivity|by_eval|reflexivity|reflexivity
    |reflexivity|reflexivity|by_eval].

Lemma mem0_out1 : out_rep (m_events mem0) (st_list_out (stat0 1)) [300; 400].
Proof. split; [sample_rep|reflexivity|reflexivity]. Qed.

Lemma mem0_in1 : list_rep (m_events mem0) (st_list_in (stat0 1)) [200; 100].
Proof. sample_rep. Qed.

Lemma mem0_gc : list_rep (m_events mem0) (st_list_in (stat0 0)) [700; 800].
Proof. sample_rep. Qed.
