(* ===== verification/Write.v ===== *)
(** * Writing events into a station's output list

    et_station_write and et_station_nwrite of et_readwrite.c.  An array of event pointers with its
    count is a list. *)
From stdpp Require Import base gmap strings list.
From S2P Require Import Prelude Types Machine EvList Local Sample.
Open Scope Z_scope.

(** Following [next] [n] times with user-space pointers. *)
Fixpoint follow (off : Z) (n : nat) (p : Z) : M Z :=
  match n with
  | O => ret p
  | S n' => let* e := ld_ev off p in follow off n' (ET_PEVENT2USR (ev_next e) off)
  end.

(** Linking one event into a non-empty list; [L] is the list and [e] the event before. *)
Definition write_link (off : Z) (pl : lptr) (pe : Z) (L : et_list) (e : et_event) : M unit :=
  let pe_ET := ET_PEVENT2ET pe off in
  if ev_priority e =? ET_LOW then
    let pe_last_USR := ET_PEVENT2USR (l_lastevent L) off in
    str_ev off pe_last_USR (set_ev_next pe_ET) ;;;
    str_list pl (set_l_lastevent pe_ET)
  else
    let* (pe_lasthigh, pe_last_USR) :=
      (if l_lasthigh L =? 0 then ret (NULL, NULL)
       else
         let* p := follow off (Z.to_nat (l_lasthigh L - 1)) (ET_PEVENT2USR (l_firstevent L) off) in
         ret (p, ET_PEVENT2USR (l_lastevent L) off)) in
    (if pe_lasthigh =? NULL then
       str_ev off pe (set_ev_next (l_firstevent L)) ;;;
       str_list pl (set_l_firstevent pe_ET)
     else if pe_lasthigh =? pe_last_USR then
       str_ev off pe_last_USR (set_ev_next pe_ET) ;;;
       str_list pl (set_l_lastevent pe_ET)
     else
       let* eh := ld_ev off pe_lasthigh in
       str_ev off pe (set_ev_next (ev_next eh)) ;;;
       str_ev off pe_lasthigh (set_ev_next pe_ET)) ;;;
    str_list pl (fun L => set_l_lasthigh (l_lasthigh L + 1) L).

Definition et_station_write (id : et_id) (stat_id pe : Z) : M Z :=
  let pl := LOut stat_id in
  let off := id_offset id in
  et_llist_lock pl ;;;
  let* y := ld_sys in
  let* L := ld_list pl in
  if cf_nevents (sys_config y) <=? l_cnt L then
    et_llist_unlock pl ;;; ret ET_ERROR
  else
    let pe_ET := ET_PEVENT2ET pe off in
    when (l_cnt L =? 0) (str_list pl (set_l_firstevent NULL)) ;;;
    str_fix stat_id (set_fix_out_cnt (l_cnt L)) ;;;
    str_fix stat_id (set_fix_out_num 1) ;;;
    str_fix stat_id (fun x => set_fix_out_start (fix_out_start x + 1) x) ;;;
    let* e := ld_ev off pe in
    (if l_cnt L =? 0 then
       str_list pl (set_l_firstevent pe_ET) ;;;
       str_list pl (set_l_lastevent pe_ET) ;;;
       when (ev_priority e =? ET_HIGH) (str_list pl (set_l_lasthigh 1))
     else write_link off pl pe L e) ;;;
    str_ev off pe (set_ev_owner ET_SYS) ;;;
    str_list pl (fun L => set_l_cnt (l_cnt L + 1) L) ;;;
    str_fix stat_id (fun x => set_fix_out_start (fix_out_start x - 1) x) ;;;
    et_llist_unlock pl ;;;
    signal_cread pl ;;;
    ret ET_OK.

(** One iteration of the loop of et_station_nwrite; the locals are [pe_last_USR] and
    [pe_lasthigh]. *)
Definition nwrite_body (off : Z) (pl : lptr) (pe pe_last_USR pe_lasthigh : Z) : M (Z * Z) :=
  let pe_ET := ET_PEVENT2ET pe off in
  let* e := ld_ev off pe in
  let* locals :=
    (if ev_priority e =? ET_LOW then
       str_ev off pe_last_USR (set_ev_next pe_ET) ;;;
       str_list pl (set_l_lastevent pe_ET) ;;;
       ret (pe, pe_lasthigh)
     else
       let* last' :=
         (if pe_lasthigh =? NULL then
            let* L := ld_list pl in
            str_ev off pe (set_ev_next (l_firstevent L)) ;;;
            str_list pl (set_l_firstevent pe_ET) ;;;
            ret pe_last_USR
          else if pe_lasthigh =? pe_last_USR then
            str_ev off pe_last_USR (set_ev_next pe_ET) ;;;
            str_list pl (set_l_lastevent pe_ET) ;;;
            ret pe
          else
            let* eh := ld_ev off pe_lasthigh in
            str_ev off pe (set_ev_next (ev_next eh)) ;;;
            str_ev off pe_lasthigh (set_ev_next pe_ET) ;;;
            ret pe_last_USR) in
       str_list pl (fun L => set_l_lasthigh (l_lasthigh L + 1) L) ;;;
       ret (last', pe)) in
  str_ev off pe (set_ev_owner ET_SYS) ;;;
  str_list pl (fun L => set_l_cnt (l_cnt L + 1) L) ;;;
  ret locals.

Fixpoint nwrite_loop (off : Z) (pl : lptr) (pes : list Z) (pe_last_USR pe_lasthigh : Z) : M unit :=
  match pes with
  | [] => ret tt
  | pe :: pes' =>
      let* (last', high') := nwrite_body off pl pe pe_last_USR pe_lasthigh in
      nwrite_loop off pl pes' last' high'
  end.

Definition et_station_nwrite (id : et_id) (stat_id : Z) (pes : list Z) : M Z :=
  let pl := LOut stat_id in
  let off := id_offset id in
  let num := Z.of_nat (length pes) in
  match pes with
  | [] => ret ET_OK
  | pe0 :: pes' =>
    et_llist_lock pl ;;;
    let* y := ld_sys in
    let* L := ld_list pl in
    if cf_nevents (sys_config y) - l_cnt L <? num then
      et_llist_unlock pl ;;; ret ET_ERROR
    else
      when (l_cnt L =? 0) (str_list pl (set_l_firstevent NULL)) ;;;
      str_fix stat_id (set_fix_out_cnt (l_cnt L)) ;;;
      str_fix stat_id (set_fix_out_num num) ;;;
      str_fix stat_id (fun x => set_fix_out_start (fix_out_start x + 1) x) ;;;
      let* (rest, pe_lasthigh) :=
        (if l_cnt L =? 0 then
           let pe_ET := ET_PEVENT2ET pe0 off in
           str_list pl (set_l_firstevent pe_ET) ;;;
           str_list pl (set_l_lastevent pe_ET) ;;;
           str_ev off pe0 (set_ev_owner ET_SYS) ;;;
           let* e0 := ld_ev off pe0 in
           let high := ev_priority e0 =? ET_HIGH in
           when high (str_list pl (set_l_lasthigh 1)) ;;;
           str_list pl (fun L => set_l_cnt (l_cnt L + 1) L) ;;;
           ret (pes', if high then pe0 else NULL)
         else if l_lasthigh L =? 0 then ret (pes, NULL)
         else
           let* p := follow off (Z.to_nat (l_lasthigh L - 1)) (ET_PEVENT2USR (l_firstevent L) off) in
           ret (pes, p)) in
      let* L := ld_list pl in
      nwrite_loop off pl rest (ET_PEVENT2USR (l_lastevent L) off) pe_lasthigh ;;;
      str_fix stat_id (fun x => set_fix_out_start (fix_out_start x - 1) x) ;;;
      et_llist_unlock pl ;;;
      signal_cread pl ;;;
      ret ET_OK
  end.

(** ** Correctness *)

(** The user-space pointer to the last event of high priority, as the code computes it. *)
Definition lh_ptr (off : Z) (evs : gmap Z et_event) (l : list Z) : Z :=
  match last (highs (hi evs) l) with Some a => a + off | None => NULL end.

(** The fields of a list that reading and writing events does not change. *)
Definition same_stats (L L' : et_list) : Prop :=
  l_events_try L' = l_events_try L /\ l_events_in L' = l_events_in L /\
  l_events_out L' = l_events_out L /\ l_mutex L' = l_mutex L /\ l_cread L' = l_cread L.

(** Nothing but the links and owners of the events [l] changed. *)
Definition frame (l : list Z) (evs evs' : gmap Z et_event) : Prop :=
  same_core evs evs' /\ forall a, a ∉ l -> evs' !! a = evs !! a.

Lemma frame_refl l evs : frame l evs evs.
Proof. split; [reflexivity|done]. Qed.

Lemma frame_trans l l' k evs evs' evs'' :
  l ⊆ k -> l' ⊆ k -> frame l evs evs' -> frame l' evs' evs'' -> frame k evs evs''.
Proof.
  intros S S' [C F] [C' F']. split; [by transitivity evs'|].
  intros a Ha. rewrite F', F; set_solver.
Qed.

Lemma frame_insert l evs a e e' :
  evs !! a = Some e -> a ∈ l -> ev_core e' = ev_core e -> frame l evs (<[a := e']> evs).
Proof.
  intros E I C. split; [by eapply same_core_insert|]. intros b Hb. apply lookup_insert_ne. set_solver.
Qed.

Lemma frame_lookup l evs evs' a :
  frame l evs evs' -> is_Some (evs !! a) -> is_Some (evs' !! a).
Proof. intros [C _]. by apply same_core_is_Some. Qed.

Section write_correct.
Context (m : et_mem) (s : Z) (ps : et_station) (li : et_list) (off : Z).
Abbreviation V := (lview m s ps li).

Lemma wp_follow (C : et_mem -> Prop) lo fx evs l n a b (Q : Z -> et_mem -> Prop) :
  chain evs l -> l !! n = Some b -> head l = Some a ->
  Q (b + off) (V lo fx evs) ->
  wp (follow off n (a + off)) Q C (V lo fx evs).
Proof.
  revert l a. induction n as [|n IH]; intros l a H Hn Ha HQ; simpl.
  - destruct l; simplify_eq/=. by apply wp_ret.
  - destruct l as [|a' [|c l]]; simplify_eq/=.
    destruct H as ([v Hv] & H & E). unfold nxt in E.
    destruct (evs !! a) as [e|] eqn:Ee; [|done]. simplify_eq/=.
    wstep. eapply wp_ld_ev; [by rewrite Z.add_simpl_r|].
    by eapply (IH (ev_next e :: l)).
Qed.

Lemma owner_next evs a b e v :
  evs !! a = Some e -> owner (<[a := set_ev_next v e]> evs) b = owner evs b.
Proof.
  intros E. rewrite owner_insert. case_decide; [subst|done]. unfold owner. by rewrite E.
Qed.

(** The code's three tests in terms of the contents of the list. *)
Lemma lh_ptr_null evs l :
  evs !! (0 - off) = None -> chain evs l -> lh_ptr off evs l = NULL <-> highs (hi evs) l = [].
Proof.
  intros N H. unfold lh_ptr. destruct (last (highs (hi evs) l)) as [a|] eqn:E.
  - split; [|intros X; by rewrite X in E]. intros X.
    apply last_Some_elem_of in E. apply list_elem_of_In, List.filter_In in E as [E _].
    apply list_elem_of_In in E. apply (chain_in _ _ _ H) in E as [e E].
    replace a with (0 - off) in E by (unfold NULL in *; lia). congruence.
  - split; [|done]. intros _. by apply last_None.
Qed.

Lemma lh_ptr_last evs lo l :
  pri_sorted (hi evs) l -> NoDup l -> last l = Some (l_lastevent lo) -> highs (hi evs) l <> [] ->
  lh_ptr off evs l = l_lastevent lo + off <-> lows (hi evs) l = [].
Proof.
  intros S N E H. unfold lh_ptr. rewrite (pri_sorted_inv _ _ S) in E, N.
  destruct (last (highs (hi evs) l)) as [a|] eqn:Ea; [|by apply last_None in Ea].
  split.
  - intros X. assert (a = l_lastevent lo) as -> by lia.
    destruct (lows (hi evs) l) as [|b k] eqn:Eb; [done|]. exfalso.
    apply NoDup_app in N as (_ & N & _). apply (N (l_lastevent lo)).
    + by apply last_Some_elem_of.
    + rewrite last_app_cons in E. by apply last_Some_elem_of.
  - intros X. rewrite X, app_nil_r in E. congruence.
Qed.

Lemma lh_ptr_low evs l x :
  hi evs x = false -> lh_ptr off evs (pri_sort (hi evs) (l ++ [x])) = lh_ptr off evs l.
Proof.
  intros H. unfold lh_ptr. rewrite highs_pri_sort, highs_app. simpl. by rewrite H, app_nil_r.
Qed.

Lemma lh_ptr_high evs l x :
  hi evs x = true -> lh_ptr off evs (pri_sort (hi evs) (l ++ [x])) = x + off.
Proof.
  intros H. unfold lh_ptr. rewrite highs_pri_sort, highs_app. simpl. by rewrite H, last_snoc.
Qed.

(** The memory after each of the three ways to link in [x]. *)
Lemma link_snoc evs lo l x el :
  walk evs lo l -> x ∉ l -> is_Some (evs !! x) -> evs !! l_lastevent lo = Some el ->
  let evs' := <[l_lastevent lo := set_ev_next x el]> evs in
  walk evs' lo l /\ walk evs' (set_l_lastevent x lo) (l ++ [x]) /\ frame (x :: l) evs evs' /\
  (forall a, owner evs' a = owner evs a).
Proof.
  intros W X Ex El evs'. split; [by apply walk_set_last|]. split; [by apply walk_snoc|].
  split; [|intros a; by apply owner_next]. apply frame_insert with el; [done| |done].
  destruct W as [_ _ _ W]. apply last_Some_elem_of in W. set_solver.
Qed.

Lemma link_front evs lo l x ex :
  walk evs lo l -> x ∉ l -> evs !! x = Some ex ->
  let evs' := <[x := set_ev_next (l_firstevent lo) ex]> evs in
  walk evs' lo l /\ walk evs' (set_l_firstevent x lo) (x :: l) /\ frame (x :: l) evs evs' /\
  (forall a, owner evs' a = owner evs a).
Proof.
  intros W X Ex evs'. split; [|split; [by apply walk_cons|split]].
  - apply walk_ext with evs lo; [done| |done|done]. intros a Ha. apply nxt_insert_ne. set_solver.
  - apply frame_insert with ex; [done|set_solver|done].
  - intros a. by apply owner_next.
Qed.

Lemma link_mid evs lo l1 a b l2 x ea ex :
  walk evs lo (l1 ++ a :: b :: l2) -> x ∉ l1 ++ a :: b :: l2 ->
  evs !! a = Some ea -> evs !! x = Some ex ->
  let evs1 := <[x := set_ev_next b ex]> evs in
  let evs2 := <[a := set_ev_next x ea]> evs1 in
  walk evs1 lo (l1 ++ a :: b :: l2) /\ walk evs2 lo (l1 ++ a :: x :: b :: l2) /\
  evs1 !! a = Some ea /\
  frame (x :: l1 ++ a :: b :: l2) evs evs1 /\ frame (x :: l1 ++ a :: b :: l2) evs evs2 /\
  (forall c, owner evs1 c = owner evs c) /\ (forall c, owner evs2 c = owner evs c).
Proof.
  intros W X Ea Ex evs1 evs2. assert (x <> a) by set_solver.
  assert (E1 : evs1 !! a = Some ea) by (unfold evs1; by rewrite lookup_insert_ne).
  assert (F1 : frame (x :: l1 ++ a :: b :: l2) evs evs1)
    by (apply frame_insert with ex; [done|set_solver|done]).
  assert (O1 : forall c, owner evs1 c = owner evs c) by (intros c; by apply owner_next).
  split; [|split; [|split; [done|split; [done|split; [|split; [done|]]]]]].
  - apply walk_ext with evs lo; [done| |done|done]. intros c Hc. apply nxt_insert_ne. set_solver.
  - by apply walk_insert with lo.
  - eapply frame_trans with (l' := [a]); [| |exact F1|]; [set_solver|set_solver|].
    apply frame_insert with ea; [done|set_solver|done].
  - intros c. unfold evs2. by rewrite owner_next.
Qed.

(** [evs'] and [lo'] are a state while [x] is being added to [l]: not yet or already linked in. *)
Record mid evs lo l x evs' lo' (l' : list Z) : Prop := mkMid {
  md_list : l' = l \/ l' = pri_sort (hi evs) (l ++ [x]);
  md_walk : walk evs' lo' l';
  md_cnt : l_cnt lo' = l_cnt lo;
  md_stats : same_stats lo lo';
  md_frame : frame (x :: l) evs evs';
  md_owner : forall a, a ∉ l' -> owner evs' a = owner evs a
}.

(** [x] is linked in, but not yet counted. *)
Record linked evs lo l x evs' lo' : Prop := mkLinked {
  lk_mid : mid evs lo l x evs' lo' (pri_sort (hi evs) (l ++ [x]));
  lk_owner : forall a, a ∈ l -> owner evs' a = owner evs a
}.

Section add.
Context (lo : et_list) (fx : et_fix) (evs : gmap Z et_event) (l : list Z) (x : Z).
Context (ex : et_event) (C : et_mem -> Prop).
Hypothesis R : out_rep evs lo l.
Hypothesis Ne : l <> [].
Hypothesis X : x ∉ l.
Hypothesis Ex : evs !! x = Some ex.
Hypothesis HC : forall lo' evs' l', mid evs lo l x evs' lo' l' -> C (V lo' fx evs').

Lemma add_walk : walk evs lo l.
Proof. apply list_rep_walk; [apply R|done]. Qed.

Lemma add_start : C (V lo fx evs).
Proof. eapply HC. split; [by left|apply add_walk|done|done|apply frame_refl|done]. Qed.

Lemma last_valid : exists el, evs !! l_lastevent lo = Some el.
Proof.
  pose proof add_walk as W.
  apply (chain_in _ _ _ (wk_chain _ _ _ W)), last_Some_elem_of, W.
Qed.

(** Append to the end. *)
Lemma wp_link_snoc (Q : unit -> et_mem -> Prop) :
  pri_sort (hi evs) (l ++ [x]) = l ++ [x] ->
  (forall lo' evs', linked evs lo l x evs' lo' -> l_lasthigh lo' = l_lasthigh lo ->
    l_lastevent lo' = x -> Q tt (V lo' fx evs')) ->
  wp (str_ev off (l_lastevent lo + off) (set_ev_next x) ;;;
      str_list (LOut s) (set_l_lastevent x)) Q C (V lo fx evs).
Proof.
  intros Srt HQ. destruct last_valid as [el El].
  destruct (link_snoc evs lo l x el) as (W1 & W2 & F & O); try done; [apply add_walk|].
  wstep. eapply wp_str_ev; rewrite ?Z.add_simpl_r; [done|apply add_start|].
  wstep; [eapply HC; split; [left; reflexivity|done..]|].
  apply HQ; [|done|done]. split; [split; try done|done]; [by right|by rewrite Srt].
Qed.

(** Put in front. *)
Lemma wp_link_front (Q : unit -> et_mem -> Prop) :
  pri_sort (hi evs) (l ++ [x]) = x :: l ->
  (forall lo' evs', linked evs lo l x evs' lo' -> l_lasthigh lo' = l_lasthigh lo ->
    l_lastevent lo' = l_lastevent lo -> Q tt (V lo' fx evs')) ->
  wp (str_ev off (x + off) (set_ev_next (l_firstevent lo)) ;;;
      str_list (LOut s) (set_l_firstevent x)) Q C (V lo fx evs).
Proof.
  intros Srt HQ.
  destruct (link_front evs lo l x ex) as (W1 & W2 & F & O); try done; [apply add_walk|].
  wstep. eapply wp_str_ev; rewrite ?Z.add_simpl_r; [done|apply add_start|].
  wstep; [eapply HC; split; [left; reflexivity|done..]|].
  apply HQ; [|done|done]. split; [split; try done|done]; [by right|by rewrite Srt].
Qed.

(** Insert between the events of high and those of low priority. *)
Lemma wp_link_mid (Q : unit -> et_mem -> Prop) l1 a b l2 ea :
  l = l1 ++ a :: b :: l2 -> evs !! a = Some ea ->
  pri_sort (hi evs) (l ++ [x]) = l1 ++ a :: x :: b :: l2 ->
  (forall lo' evs', linked evs lo l x evs' lo' -> l_lasthigh lo' = l_lasthigh lo ->
    l_lastevent lo' = l_lastevent lo -> Q tt (V lo' fx evs')) ->
  wp (str_ev off (x + off) (set_ev_next b) ;;;
      str_ev off (a + off) (set_ev_next x)) Q C (V lo fx evs).
Proof.
  intros El Ea Srt HQ.
  destruct (link_mid evs lo l1 a b l2 x ea ex) as (W1 & W2 & Ea1 & F1 & F2 & O1 & O);
    rewrite <- ?El; try done; [apply add_walk|].
  rewrite <- El in W1, F1, F2.
  wstep. eapply wp_str_ev; rewrite ?Z.add_simpl_r; [done|apply add_start|].
  eapply wp_str_ev; rewrite ?Z.add_simpl_r; [done| |].
  { eapply HC; split; [left; reflexivity|done..]. }
  apply HQ; [|done|done]. split; [split; try done|done]; [by right|by rewrite Srt].
Qed.

(** Set the owner and count. *)
Lemma wp_link_tail lo1 evs1 {B} (k : M B) (Q : B -> et_mem -> Prop) :
  linked evs lo l x evs1 lo1 ->
  l_lasthigh lo1 = l_lasthigh lo + (if hi evs x then 1 else 0) ->
  (forall lo' evs', out_rep evs' lo' (pri_sort (hi evs) (l ++ [x])) -> same_stats lo lo' ->
    l_lastevent lo' = l_lastevent lo1 -> frame (x :: l) evs evs' ->
    wp k Q C (V lo' fx evs')) ->
  wp (str_ev off (x + off) (set_ev_owner ET_SYS) ;;;
      str_list (LOut s) (fun L => set_l_cnt (l_cnt L + 1) L) ;;; k) Q C (V lo1 fx evs1).
Proof.
  intros [Md O] Lh HQ. pose proof Md as [_ W Cn St F Ow].
  destruct (frame_lookup _ _ _ x F) as [e1 E1]; [by eexists|].
  assert (F2 : frame (x :: l) evs (<[x:=set_ev_owner ET_SYS e1]> evs1)).
  { eapply (frame_trans (x :: l) [x]); [set_solver|set_solver|done|].
    eapply frame_insert; [done|set_solver|done]. }
  wstep. eapply wp_str_ev; rewrite ?Z.add_simpl_r; [done|by eapply HC|].
  wstep. wstep.
  { eapply HC. split; [by right|by apply walk_owner|done|done|done|].
    intros a Ha. rewrite owner_insert. case_decide; [subst a|by apply Ow].
    exfalso. apply Ha, pri_sort_in. set_solver. }
  apply HQ; [|done|done|done]. apply out_rep_add with lo; try done; cbn.
  - by destruct F2.
  - by eapply walk_list; [apply walk_owner|..].
  - intros a Ha. rewrite owner_insert. case_decide; [by subst|]. by apply O.
  - by rewrite owner_insert, decide_True.
  - by rewrite Cn.
Qed.

Lemma linked_lasthigh lo' evs' v :
  linked evs lo l x evs' lo' -> linked evs lo l x evs' (set_l_lasthigh v lo').
Proof.
  intros [[H1 H2 H3 H4 H5 H6] O]. split; [split; try done|done]. by apply walk_list with lo'.
Qed.
End add.

(** The three ways to add an event of high priority, by the code's tests. *)
Inductive high_view evs lo l x : Prop :=
| hv_front : lh_ptr off evs l = NULL -> highs (hi evs) l = [] ->
    pri_sort (hi evs) (l ++ [x]) = x :: l -> high_view evs lo l x
| hv_end : lh_ptr off evs l <> NULL -> lh_ptr off evs l = l_lastevent lo + off ->
    pri_sort (hi evs) (l ++ [x]) = l ++ [x] -> high_view evs lo l x
| hv_mid l1 a b l2 ea : lh_ptr off evs l <> NULL -> lh_ptr off evs l <> l_lastevent lo + off ->
    lh_ptr off evs l = a + off -> l = l1 ++ a :: b :: l2 -> evs !! a = Some ea -> ev_next ea = b ->
    pri_sort (hi evs) (l ++ [x]) = l1 ++ a :: x :: b :: l2 -> high_view evs lo l x.

Lemma high_viewP evs lo l x :
  out_rep evs lo l -> l <> [] -> evs !! (0 - off) = None -> hi evs x = true ->
  high_view evs lo l x.
Proof.
  intros R Ne Nu Hx. pose proof (list_rep_walk _ _ _ (or_list _ _ _ R) Ne) as W.
  pose proof (pri_sort_snoc_high (hi evs) l x Hx) as Srt.
  pose proof (pri_sorted_inv _ _ (or_sorted _ _ _ R)) as El.
  destruct (highs (hi evs) l) as [|h0 hs] eqn:E.
  { apply hv_front; [|done|]; [by apply lh_ptr_null; [|apply W|]|]. rewrite Srt. simpl. by f_equal. }
  rewrite <- E in *. assert (Hh : highs (hi evs) l <> []) by (by rewrite E).
  assert (lh_ptr off evs l <> NULL) by (intros X'; by apply lh_ptr_null in X'; [| |apply W]).
  destruct (lows (hi evs) l) as [|b l2] eqn:E2.
  { apply hv_end; [done| |].
    - by apply lh_ptr_last; [apply R|apply W|apply W|done|].
    - rewrite Srt. rewrite app_nil_r in El. by rewrite <- El. }
  destruct (exists_last Hh) as (l1 & a & E1). rewrite E1 in El, Srt.
  rewrite <- app_assoc in El, Srt. simpl in El, Srt.
  assert (a ∈ l) as Ha by (rewrite El; set_solver).
  destruct (chain_in _ _ _ (wk_chain _ _ _ W) Ha) as [ea Ea].
  apply (hv_mid _ _ _ _ l1 a b l2 ea); try done.
  - intros X'. by apply lh_ptr_last in X'; [rewrite E2 in X'|apply R|apply W|apply W|].
  - unfold lh_ptr. by rewrite E1, last_snoc.
  - pose proof (wk_chain _ _ _ W) as Hc. rewrite El in Hc. apply chain_next in Hc.
    unfold nxt in Hc. rewrite Ea in Hc. by simplify_eq/=.
Qed.

Lemma wp_nwrite_body lo fx evs l x (Q : Z * Z -> et_mem -> Prop) (C : et_mem -> Prop) :
  out_rep evs lo l -> l <> [] -> x ∉ l -> ev_ok evs -> evs !! (0 - off) = None ->
  is_Some (evs !! x) ->
  (forall lo' evs' l', mid evs lo l x evs' lo' l' -> C (V lo' fx evs')) ->
  (forall lo' evs', out_rep evs' lo' (pri_sort (hi evs) (l ++ [x])) -> same_stats lo lo' ->
    frame (x :: l) evs evs' ->
    Q (l_lastevent lo' + off, lh_ptr off evs (pri_sort (hi evs) (l ++ [x]))) (V lo' fx evs')) ->
  wp (nwrite_body off (LOut s) (x + off) (l_lastevent lo + off) (lh_ptr off evs l)) Q C
    (V lo fx evs).
Proof.
  intros R Ne X OK Nu [ex Ex] HC HQ. unfold nwrite_body, ET_PEVENT2ET. rewrite Z.add_simpl_r.
  wstep. eapply wp_ld_ev; [by rewrite Z.add_simpl_r|]. wstep.
  destruct (ev_priority ex =? ET_LOW) eqn:P; zbool.
  - pose proof (hi_low _ _ _ Ex P) as Hx. rewrite lh_ptr_low in HQ by done.
    apply wp_assoc, wp_bind. apply (wp_link_snoc lo fx evs l x ex); try done.
    { apply pri_sort_snoc_low; [apply R|done]. }
    intros lo1 evs1 Lk Lh La. wstep. apply (wp_link_tail lo fx evs l x ex); try done.
    { rewrite Hx. lia. }
    intros lo2 evs2 R2 St La2 F2. wstep. specialize (HQ _ _ R2 St F2). by rewrite La2, La in HQ.
  - assert (ev_priority ex = ET_HIGH) as Ph by (destruct (eo_prio _ OK _ _ Ex); done).
    pose proof (hi_high _ _ _ Ex Ph) as Hx. rewrite lh_ptr_high in HQ by done.
    assert (Htail : forall lo1 evs1 last', linked evs lo l x evs1 lo1 ->
      l_lasthigh lo1 = l_lasthigh lo -> last' = l_lastevent lo1 + off ->
      wp (str_list (LOut s) (fun L => set_l_lasthigh (l_lasthigh L + 1) L) ;;; ret (last', x + off))
        (fun a m' => wp (str_ev off (x + off) (set_ev_owner ET_SYS) ;;;
           str_list (LOut s) (fun L => set_l_cnt (l_cnt L + 1) L) ;;; ret a) Q C m')
        C (V lo1 fx evs1)).
    { intros lo1 evs1 last' Lk Lh ->. wstep. wstep; [by eapply HC; apply Lk|]. wstep.
      apply (wp_link_tail lo fx evs l x ex); try done; [by apply linked_lasthigh|by rewrite Hx, <- Lh|].
      intros lo2 evs2 R2 St La2 F2. wstep. specialize (HQ _ _ R2 St F2). by rewrite La2 in HQ. }
    destruct (high_viewP _ _ _ x R Ne Nu Hx)
      as [T Th Srt|T T2 Srt|l1 a b l2 ea T T2 T3 El Ea Nx Srt].
    + rewrite T. simpl. wstep. wstep. wstep. apply wp_assoc, wp_bind.
      apply (wp_link_front lo fx evs l x ex); try done.
      intros lo1 evs1 Lk Lh La. wstep. apply Htail; [done|done|congruence].
    + rewrite (proj2 (Z.eqb_neq _ _) T), (proj2 (Z.eqb_eq _ _) T2). wstep. apply wp_assoc, wp_bind.
      apply (wp_link_snoc lo fx evs l x ex); try done.
      intros lo1 evs1 Lk Lh La. wstep. apply Htail; [done|done|congruence].
    + rewrite (proj2 (Z.eqb_neq _ _) T), (proj2 (Z.eqb_neq _ _) T2), T3. wstep. wstep.
      eapply wp_ld_ev; [by rewrite Z.add_simpl_r|]. rewrite Nx. apply wp_assoc, wp_bind.
      apply (wp_link_mid lo fx evs l x ex) with (l1:=l1) (l2:=l2) (ea:=ea); try done.
      intros lo1 evs1 Lk Lh La. wstep. apply Htail; [done|done|congruence].
Qed.
End write_correct.

(** ** What a process leaves behind when it dies in the middle of a write *)

(** The output list under repair holds [l]; [n0] and [num] are the recorded number of events in
    the list before the write and the number to be written. *)
Inductive wip_shape (n0 num : Z) (lo : et_list) (evs : gmap Z et_event) : list Z -> Prop :=
| ws_none : n0 = 0 -> 1 <= num -> l_cnt lo = 0 -> l_firstevent lo = NULL -> l_lasthigh lo = 0 ->
    wip_shape n0 num lo evs []
| ws_first x : n0 = 0 -> 1 <= num -> l_cnt lo = 0 -> l_firstevent lo = x -> is_Some (evs !! x) ->
    wip_shape n0 num lo evs [x]
| ws_walk l : 0 < l_cnt lo < n0 + num -> walk evs lo l -> Z.of_nat (length l) <= n0 + num ->
    wip_shape n0 num lo evs l
| ws_full l : l_cnt lo = n0 + num -> 0 < l_cnt lo -> out_rep evs lo l -> wip_shape n0 num lo evs l.

Record wip (n0 num : Z) (lo : et_list) (fx : et_fix) (evs : gmap Z et_event) (l : list Z) : Prop := mkWip {
  wip_mutex : l_mutex lo = true;
  wip_start : fix_out_start fx = 1;
  wip_cnt : fix_out_cnt fx = n0;
  wip_num : fix_out_num fx = num;
  wip_sh : wip_shape n0 num lo evs l
}.

(** A crash state of a write of [xs] to a list that held [l0]: for some prefix of [xs] (as far as
    the write got), either the list is intact or its repair is pending. *)
Definition write_crash (m : et_mem) (s : Z) (ps : et_station) (l0 xs : list Z) (m' : et_mem) : Prop :=
  exists lo fx evs k,
    m' = lview m s ps (st_list_in ps) lo fx evs /\ (k <= length xs)%nat /\
    frame (l0 ++ xs) (m_events m) evs /\
    let l := pri_sort (hi (m_events m)) (l0 ++ take k xs) in
    (forall a, a ∉ l -> owner evs a = owner (m_events m) a) /\
    ((out_rep evs lo l /\ fix_out_start fx = 0) \/
    wip (Z.of_nat (length l0)) (Z.of_nat (length xs)) lo fx evs l).

(** The result of a complete write. *)
Definition written (m : et_mem) (s : Z) (ps : et_station) (l0 xs : list Z) (m' : et_mem) : Prop :=
  exists lo fx evs,
    m' = lview m s ps (st_list_in ps) lo fx evs /\
    out_rep evs lo (pri_sort (hi (m_events m)) (l0 ++ xs)) /\
    fix_out_start fx = 0 /\ l_mutex lo = false /\
    l_cread lo = S (l_cread (st_list_out ps)) /\
    frame (l0 ++ xs) (m_events m) evs.

(** What a caller of a write must guarantee: [s] is a station whose output list holds [l0] and is
    not in use; [xs] are other, distinct events. *)
Record write_pre (m : et_mem) (s : Z) (ps : et_station) (off : Z) (l0 xs : list Z) : Prop := mkWritePre {
  wr_stat : m_stats m !! s = Some ps;
  wr_out : out_rep (m_events m) (st_list_out ps) l0;
  wr_mutex : l_mutex (st_list_out ps) = false;
  wr_start : fix_out_start (st_fix ps) = 0;
  wr_ev : ev_ok (m_events m);
  wr_null : m_events m !! (0 - off) = None;
  wr_nodup : NoDup xs;
  wr_disj : forall x, x ∈ xs -> x ∉ l0;
  wr_dom : forall x, x ∈ xs -> is_Some (m_events m !! x)
}.

Lemma frame_hi l evs evs' a : frame l evs evs' -> hi evs' a = hi evs a.
Proof. intros [C _]. symmetry. by apply same_core_hi. Qed.

Lemma frame_ev_ok l evs evs' : frame l evs evs' -> ev_ok evs -> ev_ok evs'.
Proof. intros [C _]. by apply same_core_ev_ok. Qed.

Lemma frame_none l evs evs' a : frame l evs evs' -> evs !! a = None -> evs' !! a = None.
Proof.
  intros [C _] N. apply (same_core_lookup _ _ a) in C. rewrite N in C. by destruct (evs' !! a).
Qed.

Section nwrite_correct.
Context (m : et_mem) (s : Z) (ps : et_station) (off : Z) (l0 xs : list Z).
Hypothesis P : write_pre m s ps off l0 xs.
Abbreviation V := (lview m s ps (st_list_in ps)).
Abbreviation h := (hi (m_events m)).
Abbreviation C := (write_crash m s ps l0 xs).
Abbreviation at_ k := (pri_sort h (l0 ++ take k xs)).

Lemma at_length k : (k <= length xs)%nat -> length (at_ k) = (length l0 + k)%nat.
Proof. intros K. rewrite pri_sort_length, length_app, length_take. lia. Qed.

Lemma at_S k x : xs !! k = Some x -> pri_sort h (at_ k ++ [x]) = at_ (S k).
Proof. intros E. by rewrite pri_sort_app_l, <- app_assoc, (take_S_r _ _ x). Qed.

Lemma at_notin k x : xs !! k = Some x -> x ∉ at_ k.
Proof.
  intros E. rewrite pri_sort_in, elem_of_app. intros [H|H].
  - apply (wr_disj _ _ _ _ _ _ P x); [|done]. by apply list_elem_of_lookup_2 in E.
  - apply elem_of_take in H as (i & Hi & L).
    pose proof (NoDup_lookup _ _ _ _ (wr_nodup _ _ _ _ _ _ P) E Hi). lia.
Qed.

Lemma at_subset k : at_ k ⊆ l0 ++ xs.
Proof.
  intros a. rewrite pri_sort_in, !elem_of_app. intros [H|H]; [by left|right].
  apply elem_of_take in H as (i & Hi & _). by apply list_elem_of_lookup_2 in Hi.
Qed.

(** The state between two iterations, [k] events being written. *)
Record loop_inv (k : nat) lo fx evs : Prop := mkLoopInv {
  li_k : (k <= length xs)%nat;
  li_rep : out_rep evs lo (at_ k);
  li_mutex : l_mutex lo = true;
  li_cread : l_cread lo = l_cread (st_list_out ps);
  li_start : fix_out_start fx = 1;
  li_cnt : fix_out_cnt fx = Z.of_nat (length l0);
  li_num : fix_out_num fx = Z.of_nat (length xs);
  li_frame : frame (l0 ++ xs) (m_events m) evs;
  li_owner : forall a, a ∉ at_ k -> owner evs a = owner (m_events m) a
}.

Lemma frame_owner l evs evs' a : frame l evs evs' -> a ∉ l -> owner evs' a = owner evs a.
Proof. intros [_ F] Ha. unfold owner. by rewrite F. Qed.

(** The events that are not linked in at step [k] are not linked in before. *)
Lemma at_S_notin k x a : xs !! k = Some x -> a ∉ at_ (S k) -> a ∉ x :: at_ k.
Proof.
  intros E. rewrite <- (at_S _ x) by done. rewrite pri_sort_in. set_solver.
Qed.

Lemma loop_step k x lo fx evs lo' evs' :
  loop_inv k lo fx evs -> xs !! k = Some x -> same_stats lo lo' ->
  out_rep evs' lo' (pri_sort (hi evs) (at_ k ++ [x])) -> frame (x :: at_ k) evs evs' ->
  loop_inv (S k) lo' fx evs'.
Proof.
  intros [H1 H2 H3 H4 H5 H6 H7 H8 H9] E (S1 & S2 & S3 & S4 & S5) R F.
  apply lookup_lt_Some in E as L. split; try done; try congruence.
  - rewrite <- (at_S _ x) by done.
    by rewrite <- (pri_sort_ext (hi evs)) by (intros; by eapply frame_hi).
  - apply (frame_trans (l0 ++ xs) (x :: at_ k) _ _ evs); try done.
    intros a Ha. apply elem_of_cons in Ha as [->|Ha]; [|by apply (at_subset k)].
    apply elem_of_app. right. by apply list_elem_of_lookup_2 in E.
  - intros a Ha. pose proof (at_S_notin _ _ _ E Ha) as Ha'.
    rewrite (frame_owner _ _ _ _ F Ha'). apply H9. set_solver.
Qed.

Lemma mid_crash k x lo fx evs lo' evs' l' :
  loop_inv k lo fx evs -> at_ k <> [] -> xs !! k = Some x ->
  mid evs lo (at_ k) x evs' lo' l' -> C (V lo' fx evs').
Proof.
  intros [H1 H2 H3 H4 H5 H6 H7 H8 H9] Ne E [M1 M2 M3 (S1 & S2 & S3 & S4 & S5) M5 M6].
  apply lookup_lt_Some in E as L.
  assert (Hl : exists j, (j = k \/ j = S k) /\ l' = at_ j).
  { destruct M1 as [->| ->]; [by exists k; auto|]. exists (S k). split; [by right|].
    rewrite <- (at_S _ x) by done. apply pri_sort_ext. intros. by eapply frame_hi. }
  destruct Hl as (j & Hj & ->). exists lo', fx, evs', j. split; [done|]. split; [lia|]. split.
  { apply (frame_trans (l0 ++ xs) (x :: at_ k) _ _ evs); try done.
    intros a Ha. apply elem_of_cons in Ha as [->|Ha]; [|by apply (at_subset k)].
    apply elem_of_app. right. by apply list_elem_of_lookup_2 in E. }
  split.
  { intros a Ha. rewrite M6, H9; [done| |done]. destruct Hj as [->| ->]; [done|].
    pose proof (at_S_notin _ _ _ E Ha). set_solver. }
  right. split; [congruence|done..|]. apply ws_walk; [|done|].
  - rewrite M3, (lr_cnt _ _ _ (or_list _ _ _ H2)), at_length by done.
    destruct (at_ k) eqn:Q; [done|]. assert (length (at_ k) <> O) by (by rewrite Q).
    rewrite at_length in * by done. lia.
  - rewrite at_length by lia. lia.
Qed.

Lemma loop_full k lo fx evs :
  loop_inv k lo fx evs -> at_ k <> [] -> k = length xs -> C (V lo fx evs).
Proof.
  intros [H1 H2 H3 H4 H5 H6 H7 H8 H9] Ne ->. exists lo, fx, evs, (length xs).
  split; [done|]. split; [done|]. split; [done|]. split; [done|]. right. split; try done.
  pose proof (lr_cnt _ _ _ (or_list _ _ _ H2)) as Hc. rewrite at_length in Hc by done.
  assert (length (at_ (length xs)) <> O) by (by destruct (at_ (length xs))).
  rewrite at_length in * by done.
  apply ws_full; [lia|lia|done].
Qed.

Lemma lh_ptr_frame l evs evs' k : frame l evs evs' -> lh_ptr off evs k = lh_ptr off evs' k.
Proof.
  intros F. unfold lh_ptr. rewrite (highs_ext (hi evs) (hi evs')); [done|].
  intros. symmetry. by eapply frame_hi.
Qed.

Lemma wp_nwrite_loop n : forall k lo fx evs (Q : unit -> et_mem -> Prop),
  (length xs - k)%nat = n ->
  loop_inv k lo fx evs -> at_ k <> [] ->
  (forall lo' evs', loop_inv (length xs) lo' fx evs' -> Q tt (V lo' fx evs')) ->
  wp (nwrite_loop off (LOut s) (map (fun x => x + off) (drop k xs)) (l_lastevent lo + off)
        (lh_ptr off evs (at_ k))) Q C (V lo fx evs).
Proof.
  induction n as [|n IH]; intros k lo fx evs Q En I Ne HQ; pose proof (li_k _ _ _ _ I) as Hk.
  - replace k with (length xs) in * by lia. rewrite drop_all. simpl. wstep. by apply HQ.
  - destruct (lookup_lt_is_Some_2 xs k ltac:(lia)) as [x E].
    rewrite (drop_S _ x) by done. cbn [map nwrite_loop]. wstep.
    pose proof (li_frame _ _ _ _ I) as F.
    apply wp_nwrite_body; try done.
    + apply I.
    + by apply at_notin.
    + by eapply frame_ev_ok; [|apply P].
    + by eapply frame_none; [|apply P].
    + eapply frame_lookup; [done|]. apply P. by apply list_elem_of_lookup_2 in E.
    + intros lo' evs' l' Hm. by eapply mid_crash.
    + intros lo' evs' R St F'.
      pose proof (loop_step k x _ _ _ _ _ I E St R F') as I'.
      rewrite (lh_ptr_frame _ _ _ _ F').
      assert (X : pri_sort (hi evs) (at_ k ++ [x]) = at_ (S k)).
      { rewrite <- (at_S _ x) by done. apply pri_sort_ext. intros. by eapply frame_hi. }
      rewrite X. apply IH; [lia|done| |done].
      intros Y. apply (f_equal length) in Y. rewrite at_length in Y by (apply I'). simpl in Y. lia.
Qed.

(** Crash states before and after the critical stores. *)
Lemma at_0 : at_ 0 = l0.
Proof. rewrite take_0, app_nil_r. apply P. Qed.

Lemma idle_crash lo fx :
  out_rep (m_events m) lo l0 -> fix_out_start fx = 0 -> C (V lo fx (m_events m)).
Proof.
  intros R St. exists lo, fx, (m_events m), 0%nat. split; [done|]. split; [lia|].
  split; [apply frame_refl|]. split; [done|]. left. by rewrite at_0.
Qed.

Lemma wip_crash k lo fx evs :
  (k <= length xs)%nat -> frame (l0 ++ xs) (m_events m) evs ->
  (forall a, a ∉ at_ k -> owner evs a = owner (m_events m) a) ->
  wip (Z.of_nat (length l0)) (Z.of_nat (length xs)) lo fx evs (at_ k) -> C (V lo fx evs).
Proof.
  intros K F O W. exists lo, fx, evs, k. split; [done|]. split; [done|]. split; [done|].
  split; [done|]. by right.
Qed.

Lemma done_crash lo fx evs :
  frame (l0 ++ xs) (m_events m) evs ->
  (forall a, a ∉ at_ (length xs) -> owner evs a = owner (m_events m) a) ->
  out_rep evs lo (at_ (length xs)) -> fix_out_start fx = 0 ->
  C (V lo fx evs).
Proof.
  intros F O R St. exists lo, fx, evs, (length xs). split; [done|]. split; [done|]. split; [done|].
  split; [done|]. by left.
Qed.

(** The end of a write: from the last event to the signal. *)
Lemma wp_finish lo fx evs (Q : Z -> et_mem -> Prop) :
  xs <> [] -> loop_inv (length xs) lo fx evs ->
  (forall m', written m s ps l0 xs m' -> Q ET_OK m') ->
  wp (str_fix s (fun x => set_fix_out_start (fix_out_start x - 1) x) ;;;
      et_llist_unlock (LOut s) ;;; signal_cread (LOut s) ;;; ret ET_OK) Q C (V lo fx evs).
Proof.
  intros Ne I HQ. pose proof I as [H1 H2 H3 H4 H5 H6 H7 H8 H9].
  assert (at_ (length xs) <> []) as Ne'.
  { intros X. apply (f_equal length) in X. rewrite at_length in X by done.
    apply Ne, nil_length_inv. simpl in X. lia. }
  assert (R' : forall b c, out_rep evs (set_l_cread c (set_l_mutex b lo)) (at_ (length xs))).
  { intros b c. by destruct H2 as [[] ? ?]. }
  wstep. wstep; [by eapply loop_full|].
  wstep. wstep. wstep; [apply done_crash; [done|done|done|cbn; lia]|].
  wstep. wstep. wstep; [apply done_crash; [done|done|by destruct H2 as [[] ? ?]|cbn; lia]|].
  wstep. apply HQ. eexists _, _, _. split; [done|]. split.
  { rewrite firstn_all in R'. apply (R' false). }
  split; [cbn; lia|]. split; [done|]. split; [|done]. cbn. by rewrite H4.
Qed.

(** The first event of an empty list. *)
Section first.
Context (x0 : Z) (fx : et_fix).
Hypothesis E : xs !! 0%nat = Some x0.
Hypothesis El0 : l0 = [].
Hypothesis H1 : fix_out_start fx = 1.
Hypothesis H2 : fix_out_cnt fx = 0.
Hypothesis H3 : fix_out_num fx = Z.of_nat (length xs).

Lemma at_1 : at_ 1 = [x0].
Proof.
  rewrite <- (at_S 0 x0), at_0, El0 by done. simpl. unfold pri_sort. simpl. by destruct (h x0).
Qed.

Lemma len_pos : (1 <= length xs)%nat.
Proof. apply lookup_lt_Some in E. lia. Qed.

Lemma none_crash lo :
  l_cnt lo = 0 -> l_mutex lo = true -> l_firstevent lo = NULL -> l_lasthigh lo = 0 ->
  C (V lo fx (m_events m)).
Proof.
  intros Cn Mx Fi Lh. pose proof len_pos. apply (wip_crash 0); [lia|apply frame_refl|done|]. rewrite at_0, El0.
  split; try done. apply ws_none; try done. lia.
Qed.

Lemma first_crash lo evs :
  l_cnt lo = 0 -> l_firstevent lo = x0 -> l_mutex lo = true ->
  frame (l0 ++ xs) (m_events m) evs ->
  (forall a, a <> x0 -> owner evs a = owner (m_events m) a) -> C (V lo fx evs).
Proof.
  intros Cn Fi Mx F O. pose proof len_pos. apply (wip_crash 1); [done|done| |].
  { intros a Ha. apply O. rewrite at_1 in Ha. set_solver. }
  rewrite at_1, El0.
  split; try done. apply ws_first; try done; [simpl; lia|].
  eapply frame_lookup; [done|]. apply P. by apply list_elem_of_lookup_2 in E.
Qed.

Lemma first_inv lo e :
  m_events m !! x0 = Some e ->
  l_cnt lo = 1 -> l_firstevent lo = x0 -> l_lastevent lo = x0 -> l_mutex lo = true ->
  l_cread lo = l_cread (st_list_out ps) -> l_lasthigh lo = (if h x0 then 1 else 0) ->
  loop_inv 1 lo fx (<[x0:=set_ev_owner ET_SYS e]> (m_events m)).
Proof.
  intros Ee K1 K2 K3 K4 K5 K6. set (evs := <[x0:=_]> _).
  assert (F : frame (l0 ++ xs) (m_events m) evs).
  { apply frame_insert with e; [done| |done]. apply list_elem_of_lookup_2 in E. set_solver. }
  assert (Hh : hi evs x0 = h x0) by by eapply frame_hi.
  split; try done; [apply len_pos| |by rewrite El0|].
  2:{ intros a. rewrite at_1. intros Ha. unfold evs. rewrite owner_insert, decide_False; [done|].
      set_solver. }
  rewrite at_1.
  split; [split|..]; try done; try (intros; simplify_eq/=; done).
  - apply chain_singleton. unfold evs. rewrite lookup_insert_eq. by eexists.
  - apply NoDup_singleton.
  - apply Forall_singleton. unfold evs. by rewrite owner_insert, decide_True.
  - unfold pri_sorted, pri_sort. simpl. by destruct (hi evs x0).
  - simpl. rewrite Hh, K6. by destruct (h x0).
Qed.
End first.

(** The first event of an empty list in et_station_nwrite, up to the loop. *)
Lemma wp_first_event x0 lo fx (Q : list Z * Z -> et_mem -> Prop) pes :
  xs !! 0%nat = Some x0 -> l0 = [] -> l_cnt lo = 0 -> l_lasthigh lo = 0 -> l_mutex lo = true ->
  l_firstevent lo = NULL -> l_cread lo = l_cread (st_list_out ps) ->
  fix_out_start fx = 1 -> fix_out_cnt fx = 0 -> fix_out_num fx = Z.of_nat (length xs) ->
  (forall lo' evs', loop_inv 1 lo' fx evs' ->
     Q (pes, if h x0 then x0 + off else NULL) (V lo' fx evs')) ->
  wp (let pe_ET := ET_PEVENT2ET (x0 + off) off in
      str_list (LOut s) (set_l_firstevent pe_ET) ;;;
      str_list (LOut s) (set_l_lastevent pe_ET) ;;;
      str_ev off (x0 + off) (set_ev_owner ET_SYS) ;;;
      let* e0 := ld_ev off (x0 + off) in
      let high := ev_priority e0 =? ET_HIGH in
      when high (str_list (LOut s) (set_l_lasthigh 1)) ;;;
      str_list (LOut s) (fun L => set_l_cnt (l_cnt L + 1) L) ;;;
      ret (pes, if high then x0 + off else NULL)) Q C (V lo fx (m_events m)).
Proof.
  intros E El0 Cn Lh Mx Fi Cr H1 H2 H3 HQ. cbv zeta. unfold ET_PEVENT2ET. rewrite Z.add_simpl_r.
  pose proof (list_elem_of_lookup_2 _ _ _ E) as Ix.
  destruct (wr_dom _ _ _ _ _ _ P x0 Ix) as [e0 E0].
  assert (F1 : frame (l0 ++ xs) (m_events m) (<[x0:=set_ev_owner ET_SYS e0]> (m_events m))).
  { apply frame_insert with e0; [done|set_solver|done]. }
  assert (O1 : forall a, a <> x0 ->
    owner (<[x0:=set_ev_owner ET_SYS e0]> (m_events m)) a = owner (m_events m) a).
  { intros a Na. rewrite owner_insert, decide_False; done. }
  wstep. wstep; [by apply (none_crash x0)|].
  wstep. wstep; [apply (first_crash x0); try done; apply frame_refl|].
  wstep. eapply wp_str_ev; rewrite ?Z.add_simpl_r;
    [done|apply (first_crash x0); try done; apply frame_refl|].
  wstep. eapply wp_ld_ev; [rewrite Z.add_simpl_r; apply lookup_insert_eq|].
  cbn [ev_priority set_ev_owner].
  assert (Hp : h x0 = (ev_priority e0 =? ET_HIGH)) by (unfold hi; by rewrite E0).
  wstep. rewrite <- Hp. wstep. destruct (h x0) eqn:Hx.
  - wstep; [by apply (first_crash x0)|]. wstep. wstep; [by apply (first_crash x0)|]. wstep.
    apply HQ, first_inv; cbn; try done; [lia|by rewrite Hx].
  - wstep. wstep; [by apply (first_crash x0)|]. wstep.
    apply HQ, first_inv; cbn; try done; [lia|by rewrite Hx].
Qed.

(** Preparing the repair information; the list is still [l0]. *)
Lemma wp_prepare_fix num lo {B} (k : M B) (Q : B -> et_mem -> Prop) :
  out_rep (m_events m) lo l0 -> l_mutex lo = true -> num = Z.of_nat (length xs) ->
  l_cread lo = l_cread (st_list_out ps) ->
  (forall lo' fx', out_rep (m_events m) lo' l0 -> l_mutex lo' = true ->
    l_cread lo' = l_cread (st_list_out ps) ->
    (l0 = [] -> l_firstevent lo' = NULL) -> (l0 <> [] -> lo' = lo) ->
    fix_out_start fx' = 1 -> fix_out_cnt fx' = Z.of_nat (length l0) -> fix_out_num fx' = num ->
    wp k Q C (V lo' fx' (m_events m))) ->
  wp (when (l_cnt lo =? 0) (str_list (LOut s) (set_l_firstevent NULL)) ;;;
      str_fix s (set_fix_out_cnt (l_cnt lo)) ;;;
      str_fix s (set_fix_out_num num) ;;;
      str_fix s (fun x => set_fix_out_start (fix_out_start x + 1) x) ;;; k) Q C
    (V lo (st_fix ps) (m_events m)).
Proof.
  intros R Mx Hn Cr HQ. pose proof (wr_start _ _ _ _ _ _ P) as St.
  pose proof (lr_cnt _ _ _ (or_list _ _ _ R)) as Cn.
  assert (Hk : forall lo', out_rep (m_events m) lo' l0 -> l_mutex lo' = true ->
    l_cread lo' = l_cread (st_list_out ps) ->
    (l0 = [] -> l_firstevent lo' = NULL) -> (l0 <> [] -> lo' = lo) ->
    wp (str_fix s (set_fix_out_cnt (l_cnt lo)) ;;;
        str_fix s (set_fix_out_num num) ;;;
        str_fix s (fun x => set_fix_out_start (fix_out_start x + 1) x) ;;; k) Q C
      (V lo' (st_fix ps) (m_events m))).
  { intros lo' R' Mx' Cr' Fi Eq. do 3 (wstep; wstep; [by apply idle_crash|]).
    apply HQ; try done; cbn; lia. }
  wstep. wstep. destruct (l_cnt lo =? 0) eqn:E; zbool.
  - assert (l0 = []) as El0 by (by eapply list_rep_nil; [apply R|]).
    wstep; [by apply idle_crash|]. apply Hk; try done.
    rewrite El0 in *. destruct R as [_ ? L]. split; [by apply list_rep_empty|done|done].
  - apply Hk; try done. intros X. rewrite X in Cn. done.
Qed.

Lemma head_first evs lo l : list_rep evs lo l -> l <> [] -> head l = Some (l_firstevent lo).
Proof. intros H N. by apply list_rep_walk in H as [_ _ ? _]. Qed.

Lemma wp_view {B} (c : M B) (Q : B -> et_mem -> Prop) :
  wp c Q C (V (st_list_out ps) (st_fix ps) (m_events m)) -> wp c Q C m.
Proof. intros H. rewrite (lview_intro m s ps) at 2 by apply P. done. Qed.

(** Writing when there is room for the events. *)
Lemma wp_nwrite_room id (Q : Z -> et_mem -> Prop) :
  id_offset id = off -> xs <> [] ->
  Z.of_nat (length xs) <= cf_nevents (sys_config (m_sys m)) - Z.of_nat (length l0) ->
  (forall m', written m s ps l0 xs m' -> Q ET_OK m') ->
  wp (et_station_nwrite id s (map (fun x => x + off) xs)) Q C m.
Proof.
  intros Off Ne Room HQ.
  assert (exists x0 xs', xs = x0 :: xs') as (x0 & xs' & Exs) by (destruct xs; eauto; done).
  apply wp_view.
  pose proof (wr_out _ _ _ _ _ _ P) as R. pose proof (lr_cnt _ _ _ (or_list _ _ _ R)) as Cn.
  pose proof (wr_start _ _ _ _ _ _ P) as St.
  assert (Hpes : map (fun x => x + off) xs = (x0 + off) :: map (fun x => x + off) xs')
    by by rewrite Exs.
  assert (Hlen : length ((x0 + off) :: map (fun x => x + off) xs') = length xs)
    by (rewrite Exs; simpl; by rewrite length_map).
  rewrite Hpes. unfold et_station_nwrite. rewrite Hlen, Off. cbv zeta.
  wstep. apply wp_lock_out; [apply P|by apply idle_crash|].
  wstep. wstep. wstep. wstep. cbn [l_cnt set_l_mutex].
  destruct (_ <? _) eqn:T; zbool; [lia|]. clear T.
  apply (wp_prepare_fix _ (set_l_mutex true (st_list_out ps))); try done.
  { by destruct R as [[] ? ?]. }
  intros lo fx R' Mx Cr Fi Eq H1 H2 H3. wstep.
  assert (Ex0 : xs !! 0%nat = Some x0) by by rewrite Exs.
  destruct (l_cnt (st_list_out ps) =? 0) eqn:T; zbool.
  - assert (l0 = []) as El0 by (by eapply list_rep_nil; [apply R|]).
    eapply (wp_first_event x0); try done; try (destruct R' as [[] ? ?]); try done.
    { rewrite El0 in *. done. } { rewrite El0 in *. done. } { by apply Fi. } { by rewrite El0 in H2. }
    intros lo' evs' I. cbv beta iota. wstep. wstep. wstep.
    pose proof (at_1 x0 Ex0 El0) as Hp.
    replace (map (fun x => x + off) xs') with (map (fun x => x + off) (drop 1 xs)) by (by rewrite Exs).
    replace (if h x0 then x0 + off else NULL) with (lh_ptr off evs' (at_ 1)).
    2:{ rewrite Hp. unfold lh_ptr. simpl.
        rewrite (frame_hi _ _ _ x0 (li_frame _ _ _ _ I)). by destruct (h x0). }
    eapply wp_nwrite_loop; [done|done|by rewrite Hp|]. intros lo2 evs2 I2. by apply wp_finish.
  - assert (l0 <> []) as Nl0 by (intros X; rewrite X in Cn; done).
    rewrite (Eq Nl0) in *. cbn [l_lasthigh l_firstevent set_l_mutex].
    assert (I : loop_inv 0 (set_l_mutex true (st_list_out ps)) fx (m_events m)).
    { split; try done; [lia|by rewrite at_0]. }
    assert (Hgo : forall p, p = lh_ptr off (m_events m) l0 ->
      wp (let* L := ld_list (LOut s) in
          nwrite_loop off (LOut s) (map (fun x => x + off) xs) (ET_PEVENT2USR (l_lastevent L) off) p ;;;
          str_fix s (fun x => set_fix_out_start (fix_out_start x - 1) x) ;;;
          et_llist_unlock (LOut s) ;;; signal_cread (LOut s) ;;; ret ET_OK) Q C
        (V (set_l_mutex true (st_list_out ps)) fx (m_events m))).
    { intros p ->. wstep. wstep. wstep. unfold ET_PEVENT2USR.
      replace (lh_ptr off (m_events m) l0) with (lh_ptr off (m_events m) (at_ 0)) by (by rewrite at_0).
      replace (map (fun x => x + off) xs) with (map (fun x => x + off) (drop 0 xs)) by (by rewrite drop_0).
      eapply wp_nwrite_loop; [done|done|by rewrite at_0|]. intros lo2 evs2 I2. by apply wp_finish. }
    change (x0 + off :: map (fun x => x + off) xs') with (map (fun x => x + off) (x0 :: xs')).
    rewrite <- Exs. rewrite (or_lasthigh _ _ _ R).
    destruct (_ =? 0) eqn:T2; zbool.
    + wstep. apply Hgo. symmetry. apply lh_ptr_null; [apply P|apply R|].
      apply nil_length_inv. lia.
    + wstep. destruct (last (highs h l0)) as [b|] eqn:Eb.
      2:{ apply last_None in Eb. by rewrite Eb in T2. }
      unfold ET_PEVENT2USR.
      eapply (wp_follow m s ps _ off _ _ _ _ l0 _ (l_firstevent (st_list_out ps)) b).
      * apply R.
      * rewrite last_lookup in Eb.
        replace (Z.to_nat _) with (pred (length (highs h l0))) by lia.
        eapply pri_sorted_lookup_high; [apply R|done].
      * by eapply head_first; [apply R|].
      * wstep. apply Hgo. unfold lh_ptr. by rewrite Eb.
Qed.

(** Not enough room: the list is only locked and unlocked. *)
Lemma wp_full {B} (k : M B) (Q : B -> et_mem -> Prop) :
  wp k Q C m ->
  wp (et_llist_unlock (LOut s) ;;; k) Q C
    (V (set_l_mutex true (st_list_out ps)) (st_fix ps) (m_events m)).
Proof.
  intros HQ. pose proof (wr_start _ _ _ _ _ _ P) as St.
  pose proof (wr_out _ _ _ _ _ _ P) as R.
  wstep. wstep. wstep. { apply idle_crash; [by destruct R as [[] ? ?]|done]. }
  replace (set_l_mutex false _) with (st_list_out ps).
  2:{ pose proof (wr_mutex _ _ _ _ _ _ P). destruct (st_list_out ps). simpl in *. by subst. }
  rewrite <- lview_intro; [done|apply P].
Qed.

Lemma wp_nwrite_full id (Q : Z -> et_mem -> Prop) :
  id_offset id = off -> xs <> [] ->
  cf_nevents (sys_config (m_sys m)) - Z.of_nat (length l0) < Z.of_nat (length xs) ->
  Q ET_ERROR m ->
  wp (et_station_nwrite id s (map (fun x => x + off) xs)) Q C m.
Proof.
  intros Off Ne Room HQ. apply wp_view.
  pose proof (wr_out _ _ _ _ _ _ P) as R. pose proof (lr_cnt _ _ _ (or_list _ _ _ R)) as Cn.
  unfold et_station_nwrite. destruct (map (fun x => x + off) xs) as [|p0 ps'] eqn:E.
  { by apply map_eq_nil in E. }
  apply (f_equal length) in E. rewrite length_map in E. rewrite <- E.
  wstep. apply wp_lock_out; [apply P|by apply idle_crash; [|apply P]|].
  wstep. wstep. wstep. wstep. cbn [l_cnt set_l_mutex].
  destruct (_ <? _) eqn:T; zbool; [|lia]. apply wp_full. by apply wp_ret.
Qed.

(** The single write, with the same guarantees. *)
Lemma wp_write_full id x (Q : Z -> et_mem -> Prop) :
  cf_nevents (sys_config (m_sys m)) <= Z.of_nat (length l0) ->
  Q ET_ERROR m -> wp (et_station_write id s x) Q C m.
Proof.
  intros Room HQ. apply wp_view.
  pose proof (wr_out _ _ _ _ _ _ P) as R. pose proof (lr_cnt _ _ _ (or_list _ _ _ R)) as Cn.
  unfold et_station_write. cbv zeta. wstep. apply wp_lock_out; [apply P|by apply idle_crash; [|apply P]|].
  wstep. wstep. wstep. wstep. cbn [l_cnt set_l_mutex].
  destruct (_ <=? _) eqn:T; zbool; [|lia]. apply wp_full. by apply wp_ret.
Qed.


Lemma wp_write_link lo fx evs e x (Q : unit -> et_mem -> Prop) (C' : et_mem -> Prop) :
  evs = m_events m -> out_rep evs lo l0 -> l0 <> [] -> x ∈ xs -> evs !! x = Some e ->
  (forall lo' evs' l', mid evs lo l0 x evs' lo' l' -> C' (V lo' fx evs')) ->
  (forall lo' evs', linked evs lo l0 x evs' lo' ->
    l_lasthigh lo' = l_lasthigh lo + (if h x then 1 else 0) -> Q tt (V lo' fx evs')) ->
  wp (write_link off (LOut s) (x + off) lo e) Q C' (V lo fx evs).
Proof.
  intros -> R Ne Ix Ex HC HQ. unfold write_link, ET_PEVENT2ET, ET_PEVENT2USR. rewrite Z.add_simpl_r.
  assert (X : x ∉ l0) by by apply P.
  destruct (ev_priority e =? ET_LOW) eqn:Pe; zbool.
  { pose proof (hi_low _ _ _ Ex Pe) as Hx.
    apply (wp_link_snoc m s ps _ off lo fx (m_events m) l0 x e); try done.
    { apply pri_sort_snoc_low; [apply R|done]. }
    intros lo1 evs1 Lk Lh La. apply HQ; [done|]. rewrite Hx. lia. }
  assert (ev_priority e = ET_HIGH) as Ph by (destruct (eo_prio _ (wr_ev _ _ _ _ _ _ P) _ _ Ex); done).
  pose proof (hi_high _ _ _ Ex Ph) as Hx.
  assert (Htail : forall lo1 evs1, linked (m_events m) lo l0 x evs1 lo1 -> l_lasthigh lo1 = l_lasthigh lo ->
    wp (str_list (LOut s) (fun L => set_l_lasthigh (l_lasthigh L + 1) L)) Q C' (V lo1 fx evs1)).
  { intros lo1 evs1 Lk Lh. wstep; [by eapply HC; apply Lk|].
    apply HQ; [by apply linked_lasthigh|]. cbn. by rewrite Hx, Lh. }
  pose proof (wr_null _ _ _ _ _ _ P) as Nu.
  destruct (high_viewP off (m_events m) lo l0 x R Ne Nu Hx)
    as [T Th Srt|T T2 Srt|l1 a b l2 ea T T2 T3 El Ea Nx Srt]; rewrite (or_lasthigh _ _ _ R).
  { rewrite Th. simpl. wstep. wstep. wstep.
    apply (wp_link_front m s ps _ off lo fx (m_events m) l0 x e); try done.
    intros lo1 evs1 Lk Lh _. by apply Htail. }
  all: wstep; destruct (Z.of_nat _ =? 0) eqn:Z0; zbool;
    [exfalso; apply T, lh_ptr_null; [done|apply R|apply nil_length_inv; lia]|].
  all: destruct (last (highs h l0)) as [p|] eqn:Ep; [|apply last_None in Ep; by rewrite Ep in Z0].
  all: assert (Lp : lh_ptr off (m_events m) l0 = p + off) by (unfold lh_ptr; by rewrite Ep); rewrite Lp in *.
  all: wstep; eapply (wp_follow m s ps _ off _ _ _ _ l0 _ (l_firstevent lo) p);
    [apply R| |by eapply head_first; [apply R|]|].
  1,3: rewrite last_lookup in Ep; eapply pri_sorted_lookup_high; [apply R|rewrite <- Ep; f_equal; lia].
  - wstep. wstep. rewrite (proj2 (Z.eqb_neq _ _) T), (proj2 (Z.eqb_eq _ _) T2).
    apply (wp_link_snoc m s ps _ off lo fx (m_events m) l0 x e); try done.
    intros lo1 evs1 Lk Lh La. by apply Htail.
  - wstep. wstep. rewrite (proj2 (Z.eqb_neq _ _) T), (proj2 (Z.eqb_neq _ _) T2), T3. wstep.
    eapply wp_ld_ev; [by rewrite Z.add_simpl_r|]. rewrite Nx.
    apply (wp_link_mid m s ps _ off lo fx (m_events m) l0 x e) with (l1:=l1) (l2:=l2) (ea:=ea); try done.
    intros lo1 evs1 Lk Lh La. by apply Htail.
Qed.

Lemma wp_write_room id x (Q : Z -> et_mem -> Prop) :
  id_offset id = off -> xs = [x] ->
  Z.of_nat (length l0) < cf_nevents (sys_config (m_sys m)) ->
  (forall m', written m s ps l0 xs m' -> Q ET_OK m') ->
  wp (et_station_write id s (x + off)) Q C m.
Proof.
  intros Off Exs Room HQ. apply wp_view. assert (Nxs : xs <> []) by by rewrite Exs.
  pose proof (wr_out _ _ _ _ _ _ P) as R. pose proof (lr_cnt _ _ _ (or_list _ _ _ R)) as Cn.
  pose proof (wr_start _ _ _ _ _ _ P) as St.
  assert (Ix : x ∈ xs) by (rewrite Exs; set_solver). assert (Ex0 : xs !! 0%nat = Some x) by by rewrite Exs.
  assert (Len : length xs = 1%nat) by by rewrite Exs.
  destruct (wr_dom _ _ _ _ _ _ P x Ix) as [e E].
  unfold et_station_write. rewrite Off. cbv zeta.
  wstep. apply wp_lock_out; [apply P|by apply idle_crash|].
  wstep. wstep. wstep. wstep. cbn [l_cnt set_l_mutex].
  destruct (_ <=? _) eqn:T; zbool; [lia|]. clear T.
  apply (wp_prepare_fix 1 (set_l_mutex true (st_list_out ps))); try done; [by destruct R as [[] ? ?]|lia|].
  intros lo fx R' Mx Cr Fi Eq H1 H2 H3. wstep. eapply wp_ld_ev; [rewrite Z.add_simpl_r; exact E|].
  assert (I : loop_inv 0 lo fx (m_events m)).
  { split; try done; [lia|by rewrite at_0|lia]. }
  assert (Hp : h x = (ev_priority e =? ET_HIGH)) by (unfold hi; by rewrite E).
  wstep. destruct (l_cnt (st_list_out ps) =? 0) eqn:T; zbool.
  - assert (l0 = []) as El0 by (by eapply list_rep_nil; [apply R|]).
    assert (fix_out_cnt fx = 0) by (by rewrite H2, El0). assert (l_cnt lo = 0 /\ l_lasthigh lo = 0) as [Lc Lh].
    { rewrite El0 in R'. by destruct R' as [[] ? ?]. }
    assert (H3' : fix_out_num fx = Z.of_nat (length xs)) by lia.
    unfold ET_PEVENT2ET. rewrite Z.add_simpl_r.
    assert (Htail : forall lo1, l_cnt lo1 = 0 -> l_firstevent lo1 = x -> l_lastevent lo1 = x ->
      l_mutex lo1 = true -> l_cread lo1 = l_cread (st_list_out ps) ->
      l_lasthigh lo1 = (if h x then 1 else 0) ->
      wp (str_ev off (x + off) (set_ev_owner ET_SYS) ;;;
          str_list (LOut s) (fun L => set_l_cnt (l_cnt L + 1) L) ;;;
          str_fix s (fun x => set_fix_out_start (fix_out_start x - 1) x) ;;;
          et_llist_unlock (LOut s) ;;; signal_cread (LOut s) ;;; ret ET_OK) Q C
        (V lo1 fx (m_events m))).
    { intros lo1 K1 K2 K3 K4 K5 K6. wstep. eapply wp_str_ev; rewrite ?Z.add_simpl_r;
        [done|apply (first_crash x); try done; apply frame_refl|].
      wstep. wstep.
      { apply (first_crash x); try done; [apply frame_insert with e; [done|set_solver|done]|].
        intros a Na. rewrite owner_insert, decide_False; done. }
      apply wp_finish; try done. rewrite Len. apply first_inv; cbn; try done. lia. }
    wstep. wstep; [apply (none_crash x); try done; by apply Fi|].
    wstep. wstep; [apply (first_crash x); try done; apply frame_refl|].
    wstep. rewrite <- Hp. destruct (h x) eqn:Hx.
    + wstep; [apply (first_crash x); try done; apply frame_refl|]. by apply Htail.
    + by apply Htail.
  - assert (l0 <> []) as Nl0 by (intros X; rewrite X in Cn; done).
    rewrite <- (Eq Nl0) in *.
    assert (HC : forall lo' evs' l', mid (m_events m) lo l0 x evs' lo' l' -> C (V lo' fx evs')).
    { intros lo' evs' l' Hm. eapply (mid_crash 0); try done; by rewrite at_0. }
    apply (wp_write_link _ _ (m_events m)); try done. intros lo1 evs1 Lk Lh.
    apply (wp_link_tail m s ps _ off lo fx (m_events m) l0 x e); try done; [by apply P|].
    intros lo2 evs2 R2 St2 La2 F2. apply wp_finish; try done. rewrite Len.
    eapply (loop_step 0); try done; by rewrite at_0.
Qed.
End nwrite_correct.

(** ** The specifications of the two writes *)

(** What a call of et_station_nwrite does, by the code's three cases: nothing to write, too many
    events, or a complete write. *)
Definition nwrite_result (m : et_mem) (s : Z) (ps : et_station) (l0 xs : list Z) (status : Z)
    (m' : et_mem) : Prop :=
  (xs = [] /\ status = ET_OK /\ m' = m) \/
  (xs <> [] /\ cf_nevents (sys_config (m_sys m)) - Z.of_nat (length l0) < Z.of_nat (length xs) /\
    status = ET_ERROR /\ m' = m) \/
  (xs <> [] /\ Z.of_nat (length xs) <= cf_nevents (sys_config (m_sys m)) - Z.of_nat (length l0) /\
    status = ET_OK /\ written m s ps l0 xs m').

Lemma wp_nwrite m s ps off l0 xs id :
  write_pre m s ps off l0 xs -> id_offset id = off ->
  wp (et_station_nwrite id s (map (fun x => x + off) xs)) (nwrite_result m s ps l0 xs)
    (write_crash m s ps l0 xs) m.
Proof.
  intros P Off. destruct (decide (xs = [])) as [->|Ne]; [apply wp_ret; by left|].
  destruct (decide (Z.of_nat (length xs) <= cf_nevents (sys_config (m_sys m)) - Z.of_nat (length l0))).
  - apply wp_nwrite_room; auto. intros m' W. right. right. auto.
  - eapply wp_nwrite_full; [done|done|done|lia|]. right. left. repeat split; auto. lia.
Qed.

Definition write_result (m : et_mem) (s : Z) (ps : et_station) (l0 : list Z) (x status : Z)
    (m' : et_mem) : Prop :=
  (cf_nevents (sys_config (m_sys m)) <= Z.of_nat (length l0) /\ status = ET_ERROR /\ m' = m) \/
  (Z.of_nat (length l0) < cf_nevents (sys_config (m_sys m)) /\ status = ET_OK /\
    written m s ps l0 [x] m').

Lemma wp_write m s ps off l0 x id :
  write_pre m s ps off l0 [x] -> id_offset id = off ->
  wp (et_station_write id s (x + off)) (write_result m s ps l0 x) (write_crash m s ps l0 [x]) m.
Proof.
  intros P Off. destruct (decide (Z.of_nat (length l0) < cf_nevents (sys_config (m_sys m)))).
  - eapply wp_write_room; [done|done|done|done|]. intros m' W. right. auto.
  - eapply wp_write_full; [done|lia|]. left. repeat split; auto. lia.
Qed.

(** C26: et_station_nwrite always returns: without events it does nothing; when the output list has no
    room for all events it returns ET_ERROR and changes nothing; otherwise the output list then
    holds its events followed by the new ones, stably sorted with those of high priority first, its
    counters agree with it, all its events belong to the system, the condition variable was
    signalled once, and nothing else changed but links and owners of these events. *)
Theorem et_station_nwrite_spec m s ps off l0 xs id :
  write_pre m s ps off l0 xs -> id_offset id = off ->
  exists status x m', run (et_station_nwrite id s (map (fun a => a + off) xs)) m = Ok status x m' /\
    nwrite_result m s ps l0 xs status m'.
Proof. intros P Off. by eapply wp_run, wp_nwrite. Qed.

(** Et_station_write returns ET_ERROR and changes nothing when the list already holds all the
    events of the system, and otherwise inserts its event like et_station_nwrite: before the events
    of low priority if it has high priority, at the end if not. *)
Theorem et_station_write_spec m s ps off l0 x id :
  write_pre m s ps off l0 [x] -> id_offset id = off ->
  exists status c m', run (et_station_write id s (x + off)) m = Ok status c m' /\
    write_result m s ps l0 x status m'.
Proof. intros P Off. by eapply wp_run, wp_write. Qed.

Lemma write_pre0 xs :
  xs = [] \/ xs = [500; 600] \/ xs = [600] -> write_pre mem0 1 (stat0 1) off0 [300; 400] xs.
Proof.
  intros Hxs. split; try by_eval; try exact mem0_out1; try exact mem0_ev_ok;
    destruct Hxs as [->|[->| ->]]; try by_eval;
    apply List.Forall_forall || (intros x Hx; revert x Hx; apply Forall_forall); by_eval.
Qed.

Lemma et_station_nwrite_spec_witness :
  exists status x m', run (et_station_nwrite id0 1 (map (fun a => a + off0) [500; 600])) mem0 = Ok status x m' /\
    nwrite_result mem0 1 (stat0 1) [300; 400] [500; 600] status m'.
Proof. apply (et_station_nwrite_spec mem0 1 (stat0 1) off0); [apply write_pre0; auto|reflexivity]. Defined.

Lemma et_station_write_spec_witness :
  exists status c m', run (et_station_write id0 1 (600 + off0)) mem0 = Ok status c m' /\
    write_result mem0 1 (stat0 1) [300; 400] 600 status m'.
Proof. apply (et_station_write_spec mem0 1 (stat0 1) off0); [apply write_pre0; auto|reflexivity]. Defined.
