(* ===== verification/Repair.v ===== *)
(** * Repairing lists after the death of a process

    The et_repair functions of et_readwrite.c: what the ET system does when a process died while
    it held the mutex of a list.  Main result: whenever a writer dies in et_station_write or
    et_station_nwrite, et_repair_station makes the output list usable again, with a prefix of the
    events that were to be written. *)
From stdpp Require Import base gmap strings list.
From S2P Require Import Prelude Types Machine EvList Local Sample Write.
Open Scope Z_scope.

(** A mutex somewhere in the shared memory. *)
Record mptr := mkMptr { mx_ld : M bool; mx_str : bool -> M unit }.

Definition list_mutex (pl : lptr) : mptr :=
  mkMptr (let* L := ld_list pl in ret (l_mutex L)) (fun b => str_list pl (set_l_mutex b)).

Fixpoint mutex_locked_loop (n : nat) (pmutex : mptr) : M Z :=
  match n with
  | O => ret ET_MUTEX_LOCKED
  | S n' =>
      let* b := mx_ld pmutex in
      if b then nanosleep ;;; mutex_locked_loop n' pmutex
      else mx_str pmutex true ;;; mx_str pmutex false ;;; ret ET_MUTEX_UNLOCKED
  end.

Definition et_mutex_locked (pmutex : mptr) : M Z := mutex_locked_loop 40 pmutex.
Arguments et_mutex_locked : simpl never.

(** The for loop of et_repair_outputlist; the result is count, lasthigh and error. *)
Fixpoint repair_out_loop (off : Z) (n : nat) (pe pe_last_USR count lasthigh : Z) : M (Z * Z * Z) :=
  match n with
  | O => ret (count, lasthigh, ET_ERROR)
  | S n' =>
      str_ev off pe (set_ev_owner (-1)) ;;;
      let* e := ld_ev off pe in
      let count := count + 1 in
      let lasthigh := if ev_priority e =? ET_HIGH then lasthigh + 1 else lasthigh in
      if pe =? pe_last_USR then ret (count, lasthigh, ET_OK)
      else repair_out_loop off n' (ET_PEVENT2USR (ev_next e) off) pe_last_USR count lasthigh
  end.

Definition et_repair_outputlist (id : et_id) (stat_id : Z) : M Z :=
  let pl := LOut stat_id in
  let off := id_offset id in
  let* ps := ld_stat stat_id in
  let L := st_list_out ps in
  let start := fix_out_start (st_fix ps) in
  let cnt := fix_out_cnt (st_fix ps) in
  let num := fix_out_num (st_fix ps) in
  if start =? 0 then ret ET_OK
  else if l_cnt L =? cnt + num then str_fix stat_id (set_fix_out_start 0) ;;; ret ET_OK
  else if (l_cnt L =? 0) && (l_firstevent L =? NULL) then
    str_fix stat_id (set_fix_out_start 0) ;;; ret ET_OK
  else
    when ((l_cnt L =? 0) && negb (l_firstevent L =? NULL))
      (str_list pl (fun L => set_l_lastevent (l_firstevent L) L)) ;;;
    let* L := ld_list pl in
    let* (count, lasthigh, error) :=
      repair_out_loop off (Z.to_nat (cnt + num)) (ET_PEVENT2USR (l_firstevent L) off)
        (ET_PEVENT2USR (l_lastevent L) off) 0 0 in
    str_list pl (set_l_cnt count) ;;;
    str_list pl (set_l_lasthigh lasthigh) ;;;
    str_fix stat_id (set_fix_out_start 0) ;;;
    signal_cread pl ;;;
    ret error.

(** The do loop of et_repair_inputlist.  It has no bound of its own; [n] is the number of events
    that exist, and a walk that is longer has met an event twice and never ends. *)
Fixpoint repair_in_loop (off : Z) (n : nat) (pe pe_last_USR count : Z) : M Z :=
  match n with
  | O => diverge
  | S n' =>
      let count := count + 1 in
      str_ev off pe (set_ev_owner ET_SYS) ;;;
      if pe =? pe_last_USR then ret count
      else
        let* e := ld_ev off pe in
        repair_in_loop off n' (ET_PEVENT2USR (ev_next e) off) pe_last_USR count
  end.

Definition et_repair_inputlist (id : et_id) (stat_id : Z) : M Z :=
  let pl := LIn stat_id in
  let off := id_offset id in
  let* ps := ld_stat stat_id in
  let L := st_list_in ps in
  let first := fix_in_first (st_fix ps) in
  let cnt := fix_in_cnt (st_fix ps) in
  let num := fix_in_num (st_fix ps) in
  if first =? NULL then ret ET_OK
  else if l_cnt L =? cnt - num then str_fix stat_id (set_fix_in_first NULL) ;;; ret ET_OK
  else
    str_list pl (set_l_firstevent first) ;;;
    let* m := getm in
    let* count :=
      repair_in_loop off (size (m_events m)) (ET_PEVENT2USR first off)
        (ET_PEVENT2USR (l_lastevent L) off) 0 in
    str_list pl (set_l_cnt count) ;;;
    str_fix stat_id (set_fix_in_first NULL) ;;;
    ret ET_OK.

Fixpoint repair_gc_loop (off : Z) (n : nat) (pe pe_last_USR count : Z) : M (Z * Z) :=
  match n with
  | O => ret (count, ET_ERROR)
  | S n' =>
      str_ev off pe (set_ev_owner ET_SYS) ;;;
      let count := count + 1 in
      if pe =? pe_last_USR then ret (count, ET_OK)
      else
        let* e := ld_ev off pe in
        repair_gc_loop off n' (ET_PEVENT2USR (ev_next e) off) pe_last_USR count
  end.

Definition et_repair_gcinputlist (id : et_id) : M Z :=
  let pl := LIn ET_GRANDCENTRAL in
  let off := id_offset id in
  let* ps := ld_stat ET_GRANDCENTRAL in
  let L := st_list_in ps in
  let start := fix_in_start (st_fix ps) in
  let cnt := fix_in_cnt (st_fix ps) in
  let num := fix_in_num (st_fix ps) in
  let eventsin := fix_in_eventsin (st_fix ps) in
  let str_start := str_fix ET_GRANDCENTRAL (set_fix_in_start 0) in
  if start =? 0 then ret ET_OK
  else if l_cnt L =? cnt + num then str_start ;;; ret ET_OK
  else if (l_cnt L =? 0) && (l_firstevent L =? NULL) then str_start ;;; ret ET_OK
  else
    when ((l_cnt L =? 0) && negb (l_firstevent L =? NULL))
      (str_list pl (fun L => set_l_lastevent (l_firstevent L) L)) ;;;
    let* L := ld_list pl in
    let* (count, error) :=
      repair_gc_loop off (Z.to_nat (cnt + num)) (ET_PEVENT2USR (l_firstevent L) off)
        (ET_PEVENT2USR (l_lastevent L) off) 0 in
    str_list pl (set_l_cnt count) ;;;
    let* L := ld_list pl in
    when (eventsin =? l_events_in L)
      (str_list pl (fun L => set_l_events_in (u64 (l_events_in L + count - cnt)) L)) ;;;
    str_start ;;;
    ret error.

Definition et_repair_station (id : et_id) (stat_id : Z) : M Z :=
  let pl := LIn stat_id in
  let* locked := et_mutex_locked (list_mutex pl) in
  if locked =? ET_MUTEX_LOCKED then
    let* status := et_repair_inputlist id stat_id in
    if status =? ET_ERROR then ret status
    else et_llist_unlock pl ;;; ret ET_OK
  else
    let pl := LOut stat_id in
    let* locked := et_mutex_locked (list_mutex pl) in
    if locked =? ET_MUTEX_LOCKED then
      let* status := et_repair_outputlist id stat_id in
      if status =? ET_ERROR then ret status
      else et_llist_unlock pl ;;; ret ET_OK
    else ret ET_OK.

Definition et_repair_gc (id : et_id) : M Z :=
  let pl := LIn ET_GRANDCENTRAL in
  let* locked := et_mutex_locked (list_mutex pl) in
  if locked =? ET_MUTEX_LOCKED then
    let* ps := ld_stat ET_GRANDCENTRAL in
    let* status :=
      (if fix_in_call (st_fix ps) =? ET_FIX_DUMP then et_repair_gcinputlist id
       else et_repair_inputlist id ET_GRANDCENTRAL) in
    if status =? ET_ERROR then ret status
    else et_llist_unlock pl ;;; ret ET_OK
  else ret ET_OK.

(** ** Correctness *)

Section repair.
Context (m : et_mem) (s : Z) (ps : et_station) (off : Z).
Abbreviation V := (lview m s ps).
Abbreviation nocrash := (fun _ : et_mem => True).

(** An unlocked mutex is found unlocked, a locked one locked; nothing changes. *)
Lemma wp_mutex_free_in li lo fx evs (Q : Z -> et_mem -> Prop) :
  l_mutex li = false -> Q ET_MUTEX_UNLOCKED (V li lo fx evs) ->
  wp (et_mutex_locked (list_mutex (LIn s))) Q nocrash (V li lo fx evs).
Proof.
  intros E HQ. unfold et_mutex_locked. change 40%nat with (S 39). cbn [mutex_locked_loop list_mutex mx_ld mx_str].
  wstep. wstep. wstep. wstep. rewrite E. wstep. wstep; [done|]. wstep. wstep; [done|]. wstep.
  replace (set_l_mutex false _) with li; [done|]. destruct li; simpl in *; by subst.
Qed.

Lemma wp_mutex_free_out li lo fx evs (Q : Z -> et_mem -> Prop) :
  l_mutex lo = false -> Q ET_MUTEX_UNLOCKED (V li lo fx evs) ->
  wp (et_mutex_locked (list_mutex (LOut s))) Q nocrash (V li lo fx evs).
Proof.
  intros E HQ. unfold et_mutex_locked. change 40%nat with (S 39). cbn [mutex_locked_loop list_mutex mx_ld mx_str].
  wstep. wstep. wstep. wstep. rewrite E. wstep. wstep; [done|]. wstep. wstep; [done|]. wstep.
  replace (set_l_mutex false _) with lo; [done|]. destruct lo; simpl in *; by subst.
Qed.

Lemma wp_mutex_held_out n li lo fx evs (Q : Z -> et_mem -> Prop) :
  l_mutex lo = true -> Q ET_MUTEX_LOCKED (V li lo fx evs) ->
  wp (mutex_locked_loop n (list_mutex (LOut s))) Q nocrash (V li lo fx evs).
Proof.
  intros E HQ. induction n as [|n IH]; cbn [mutex_locked_loop list_mutex mx_ld]; [by wstep|].
  wstep. wstep. wstep. wstep. rewrite E. wstep. apply wp_nanosleep. apply IH.
Qed.

Lemma wp_mutex_held_in n li lo fx evs (Q : Z -> et_mem -> Prop) :
  l_mutex li = true -> Q ET_MUTEX_LOCKED (V li lo fx evs) ->
  wp (mutex_locked_loop n (list_mutex (LIn s))) Q nocrash (V li lo fx evs).
Proof.
  intros E HQ. induction n as [|n IH]; cbn [mutex_locked_loop list_mutex mx_ld]; [by wstep|].
  wstep. wstep. wstep. wstep. rewrite E. wstep. apply wp_nanosleep. apply IH.
Qed.

Lemma wp_repair_out_loop li lo fx z l : forall n a count lasthigh evs (Q : Z * Z * Z -> et_mem -> Prop),
  chain evs (a :: l) -> NoDup (a :: l) -> last (a :: l) = Some z -> (length (a :: l) <= n)%nat ->
  Q (count + Z.of_nat (length (a :: l)),
     lasthigh + Z.of_nat (length (highs (hi evs) (a :: l))), ET_OK)
    (V li lo fx (set_owners ET_SYS (a :: l) evs)) ->
  wp (repair_out_loop off n (a + off) (z + off) count lasthigh) Q nocrash (V li lo fx evs).
Proof.
  induction l as [|b l IH]; intros n a count lasthigh evs Q H N La Hn HQ;
    (destruct n as [|n]; [simpl in Hn; lia|]); cbn [repair_out_loop];
    destruct (chain_in _ _ a H ltac:(set_solver)) as [e E];
    (wstep; eapply wp_str_ev; rewrite ?Z.add_simpl_r; [done|done|]);
    (wstep; eapply wp_ld_ev; [rewrite Z.add_simpl_r; apply lookup_insert_eq|]);
    cbn [ev_next ev_priority set_ev_owner];
    replace (if ev_priority e =? ET_HIGH then lasthigh + 1 else lasthigh)
      with (lasthigh + if hi evs a then 1 else 0)
      by (unfold hi; rewrite E; destruct (ev_priority e =? ET_HIGH); lia).
  - simpl in La. simplify_eq. rewrite Z.eqb_refl. wstep. simpl in HQ.
    rewrite (alter_owner_insert _ _ e) in HQ by done. destruct (hi evs z); exact HQ.
  - assert (a <> z).
    { intros ->. apply NoDup_cons in N as [N _]. apply N, last_Some_elem_of. done. }
    rewrite (proj2 (Z.eqb_neq _ _)) by lia.
    destruct H as (_ & H & Nx). unfold nxt in Nx. rewrite E in Nx.
    simpl in Nx. injection Nx as Nx. unfold ET_PEVENT2USR. rewrite Nx.
    apply NoDup_cons in N as [_ N].
    rewrite <- (alter_owner_insert _ _ e) by done.
    apply IH; [by apply (set_owners_chain ET_SYS [a])|done|done|simpl in *; lia|].
    rewrite (highs_ext _ (hi evs)) by (intros c _; apply (set_owners_hi ET_SYS [a])).
    revert HQ. simpl. clear. destruct (hi evs a); simpl;
      (match goal with |- Q (?x, ?y, _) _ -> Q (?x', ?y', _) _ =>
        replace x' with x by lia; replace y' with y by lia end); done.
Qed.

Lemma set_owners_frame v l k evs : l ⊆ k -> frame k evs (set_owners v l evs).
Proof.
  intros S. split; [apply set_owners_core|]. intros a Ha. rewrite set_owners_lookup.
  rewrite decide_False; [done|]. set_solver.
Qed.

(** The walk that counts the events again. *)
Lemma wp_repair_out_walk li lo fx evs l (Q : Z -> et_mem -> Prop) :
  walk evs lo l -> pri_sorted (hi evs) l -> l_mutex lo = true ->
  Z.of_nat (length l) <= fix_out_cnt fx + fix_out_num fx ->
  (forall lo' evs', out_rep evs' lo' l -> l_mutex lo' = true -> frame l evs evs' ->
    Q ET_OK (V li lo' (set_fix_out_start 0 fx) evs')) ->
  wp (let* (count, lasthigh, error) :=
        repair_out_loop off (Z.to_nat (fix_out_cnt fx + fix_out_num fx)) (l_firstevent lo + off)
          (l_lastevent lo + off) 0 0 in
      str_list (LOut s) (set_l_cnt count) ;;;
      str_list (LOut s) (set_l_lasthigh lasthigh) ;;;
      str_fix s (set_fix_out_start 0) ;;;
      signal_cread (LOut s) ;;; ret error) Q nocrash (V li lo fx evs).
Proof.
  intros W S Mx Len HQ. wstep.
  destruct l as [|a l]; [by destruct W|]. pose proof W as [W1 W2 W3 W4]. injection W3 as Ha.
  rewrite <- Ha in *. eapply wp_repair_out_loop; [exact W1|exact W2|exact W4|lia|].
  rewrite !Z.add_0_l. do 3 (wstep; wstep; [done|]). wstep. wstep. wstep; [done|]. wstep. apply HQ; [|done|by apply set_owners_frame].
  split; [by apply set_owners_list_rep with lo|..].
  - unfold pri_sorted. rewrite (pri_sort_ext _ (hi evs)); [done|]. intros. apply set_owners_hi.
  - rewrite (highs_ext (hi (set_owners _ _ _)) (hi evs)); [done|]. intros. apply set_owners_hi.
Qed.

Lemma wp_repair_outputlist id n0 num li lo fx evs l (Q : Z -> et_mem -> Prop) :
  id_offset id = off -> wip n0 num lo fx evs l -> 0 <= n0 -> evs !! 0 = None ->
  pri_sorted (hi evs) l ->
  (forall lo' evs', out_rep evs' lo' l -> l_mutex lo' = true -> frame l evs evs' ->
    Q ET_OK (V li lo' (set_fix_out_start 0 fx) evs')) ->
  wp (et_repair_outputlist id s) Q nocrash (V li lo fx evs).
Proof.
  intros Off [Mx St Cn Nu Sh] N0 Null S HQ. unfold et_repair_outputlist. cbv zeta.
  wstep. wstep. cbn [st_fix st_list_out set_st_list_in set_st_list_out set_st_fix].
  rewrite Off, St, Cn, Nu. simpl.
  destruct Sh as [E1 N1 E2 E3 Lh|x E1 E2 E3 E4 Ex|l E1 W E3|l E1 E2 R].
  - destruct (_ =? _) eqn:T; zbool; [lia|]. rewrite E2, E3, Z.eqb_refl. simpl.
    wstep. wstep; [done|]. wstep. apply HQ; [|done|apply frame_refl].
    split; [by apply list_rep_empty|done|done].
  - destruct (_ =? _) eqn:T; zbool; [lia|]. rewrite E3.
    assert (l_firstevent lo <> NULL) as Nx.
    { intros X. destruct Ex as [e Ex]. unfold NULL in X. congruence. }
    rewrite (proj2 (Z.eqb_neq _ _) Nx). simpl. wstep. wstep; [done|]. wstep. wstep.
    rewrite <- Cn, <- Nu.
    apply (wp_repair_out_walk _ (set_l_lastevent (l_firstevent lo) lo) _ _ [x]); try done; [|simpl; lia].
    rewrite E4. split; [by apply chain_singleton|apply NoDup_singleton|simpl; congruence..].
  - destruct (_ =? _) eqn:T; zbool; [lia|]. rewrite (proj2 (Z.eqb_neq (l_cnt lo) 0)) by lia.
    simpl. wstep. wstep. wstep. wstep. rewrite <- Cn, <- Nu. apply (wp_repair_out_walk _ _ _ _ l); try done. lia.
  - rewrite E1, Z.eqb_refl. wstep. wstep; [done|]. wstep. apply HQ; [done|done|apply frame_refl].
Qed.
End repair.

(** After a repair the list holds, in priority order, what it held before and the first [k] events
    of the interrupted write; the list can be used again, and all other events still have their
    owner. *)
Definition repaired (m : et_mem) (s : Z) (ps : et_station) (l0 xs : list Z) (m' : et_mem) : Prop :=
  exists lo fx evs k,
    m' = lview m s ps (st_list_in ps) lo fx evs /\ (k <= length xs)%nat /\
    let l := pri_sort (hi (m_events m)) (l0 ++ take k xs) in
    out_rep evs lo l /\ l_mutex lo = false /\ fix_out_start fx = 0 /\
    frame (l0 ++ xs) (m_events m) evs /\
    (forall a, a ∉ l -> owner evs a = owner (m_events m) a).

Section crash.
Context (m : et_mem) (s : Z) (ps : et_station) (l0 xs : list Z).
Hypothesis Null : m_events m !! 0 = None.
Hypothesis Mi : l_mutex (st_list_in ps) = false.
Abbreviation V := (lview m s ps (st_list_in ps)).

Lemma wp_repair_station id m' :
  write_crash m s ps l0 xs m' ->
  wp (et_repair_station id s) (fun a m'' => a = ET_OK /\ repaired m s ps l0 xs m'')
    (fun _ => True) m'.
Proof.
  intros (lo & fx & evs & k & -> & K & F & O & H). unfold et_repair_station. cbv zeta.
  wstep. apply wp_mutex_free_in; [done|]. cbn. wstep.
  destruct (l_mutex lo) eqn:Mx.
  2:{ apply wp_mutex_free_out; [done|]. cbn. wstep. split; [done|].
      destruct H as [[R St]|[? _ _ _ _]]; [|congruence]. by exists lo, fx, evs, k. }
  apply wp_mutex_held_out; [done|]. cbn. wstep. destruct H as [[R St]|W].
  { unfold et_repair_outputlist. cbv zeta. wstep. wstep. cbn. rewrite St. simpl. wstep.
    cbn. wstep. wstep. wstep; [done|]. wstep. split; [done|].
    exists (set_l_mutex false lo), fx, evs, k. split; [done|]. split; [done|].
    split; [by destruct R as [[] ? ?]|done]. }
  set (l := pri_sort _ _) in *.
  eapply (wp_repair_outputlist m s ps (id_offset id)); [done|exact W|lia|eapply frame_none; [exact F|done]| |].
  { unfold pri_sorted. rewrite (pri_sort_ext _ (hi (m_events m))); [apply pri_sort_sorted|].
    intros. by eapply frame_hi. }
  intros lo' evs' R' Mx' F'. cbn. wstep. wstep. wstep; [done|]. wstep. split; [done|].
  assert (Sub : l ⊆ l0 ++ xs).
  { intros a. unfold l. rewrite pri_sort_in, !elem_of_app. intros [?|Ha]; [by left|right].
    by apply elem_of_take in Ha as (i & Hi & _); apply list_elem_of_lookup_2 in Hi. }
  eexists _, _, evs', k. split; [done|]. split; [done|]. fold l.
  split; [by destruct R' as [[] ? ?]|]. split; [done|]. split; [done|]. split.
  - by apply (frame_trans (l0 ++ xs) l _ _ evs).
  - intros a Ha. by rewrite (frame_owner _ _ _ _ F' Ha), O.
Qed.
End crash.

(** C27: whenever a process dies in et_station_nwrite, after any number of stores, et_repair_station
    terminates with ET_OK and the output list is again a list in priority order that holds its old
    events and a prefix of the new ones, unlocked and with no repair pending; an event that is not
    in the list still has the owner it had before the call, so none is lost or in two places. *)
Theorem et_station_nwrite_crash_repair m s ps off l0 xs id sysid k m' :
  write_pre m s ps off l0 xs -> id_offset id = off -> l_mutex (st_list_in ps) = false ->
  run_crash k (et_station_nwrite id s (map (fun a => a + off) xs)) m = Crashed m' ->
  exists x m'', run (et_repair_station sysid s) m' = Ok ET_OK x m'' /\ repaired m s ps l0 xs m''.
Proof.
  intros P Off Mi Cr. destruct (wp_crash _ _ _ _ k (wp_nwrite _ _ _ _ _ _ _ P Off))
    as [(a & x & m1 & E & _)|(m1 & E & H)]; rewrite Cr in E; [done|]. injection E as <-.
  apply (wp_repair_station m s ps l0 xs) with (id := sysid) in H; [|apply (wr_ev _ _ _ _ _ _ P)|done].
  apply wp_run in H as (a & x & m'' & E & -> & Rp). eauto.
Qed.

(** The same for et_station_write. *)
Theorem et_station_write_crash_repair m s ps off l0 y id sysid k m' :
  write_pre m s ps off l0 [y] -> id_offset id = off -> l_mutex (st_list_in ps) = false ->
  run_crash k (et_station_write id s (y + off)) m = Crashed m' ->
  exists x m'', run (et_repair_station sysid s) m' = Ok ET_OK x m'' /\ repaired m s ps l0 [y] m''.
Proof.
  intros P Off Mi Cr. destruct (wp_crash _ _ _ _ k (wp_write _ _ _ _ _ _ _ P Off))
    as [(a & x & m1 & E & _)|(m1 & E & H)]; rewrite Cr in E; [done|]. injection E as <-.
  apply (wp_repair_station m s ps l0 [y]) with (id := sysid) in H; [|apply (wr_ev _ _ _ _ _ _ P)|done].
  apply wp_run in H as (a & x & m'' & E & -> & Rp). eauto.
Qed.

Lemma et_station_nwrite_crash_repair_witness :
  exists m', run_crash 9 (et_station_nwrite id0 1 (map (fun a => a + off0) [500; 600])) mem0 = Crashed m' /\
  exists x m'', run (et_repair_station id0 1) m' = Ok ET_OK x m'' /\
    repaired mem0 1 (stat0 1) [300; 400] [500; 600] m''.
Proof.
  eexists. split; [vm_compute; reflexivity|].
  apply (et_station_nwrite_crash_repair mem0 1 (stat0 1) off0 _ _ id0 id0 9);
    [apply write_pre0; auto|reflexivity|reflexivity|vm_compute; reflexivity].
Defined.

Lemma et_station_write_crash_repair_witness :
  exists m', run_crash 6 (et_station_write id0 1 (600 + off0)) mem0 = Crashed m' /\
  exists x m'', run (et_repair_station id0 1) m' = Ok ET_OK x m'' /\
    repaired mem0 1 (stat0 1) [300; 400] [600] m''.
Proof.
  eexists. split; [vm_compute; reflexivity|].
  apply (et_station_write_crash_repair mem0 1 (stat0 1) off0 _ _ id0 id0 6);
    [apply write_pre0; auto|reflexivity|reflexivity|vm_compute; reflexivity].
Defined.
