(* ===== verification/Read.v ===== *)
(** * Reading events from a station's input list

    et_station_read, et_station_nread and et_station_nread_group of et_readwrite.c.  A read returns
    its status and the events it filled into the caller's array. *)
From stdpp Require Import base gmap strings list.
From S2P Require Import Prelude Types Machine EvList Local Sample Write Repair.
Open Scope Z_scope.

Definition ETIMEDOUT : Z := 110.

(** The end of a wait that was told to quit. *)
Definition quit_read (pl : lptr) (att : Z) : M (option Z) :=
  et_llist_unlock pl ;;;
  str_attach att (set_at_quit ET_ATT_CONTINUE) ;;;
  ret (Some ET_ERROR_WAKEUP).

(** while (pl->cnt < 1 || !scanList) of the mode ET_SLEEP; [scanList] is true except when
    et_station_nread_group looks for its group again.  The result is the status to return, if any. *)
Fixpoint sleep_loop (pl : lptr) (att : Z) (scanList : bool) (n : nat) : M (option Z) :=
  match n with
  | O => diverge
  | S n' =>
    let* L := ld_list pl in
    if (l_cnt L <? 1) || negb scanList then
      str_attach att (set_at_blocked ET_ATT_BLOCKED) ;;;
      let* status := cond_wait pl in
      str_attach att (set_at_blocked ET_ATT_UNBLOCKED) ;;;
      if negb (status =? 0) then err_abort
      else
        let* a := ld_attach att in
        if at_quit a =? ET_ATT_QUIT then quit_read pl att
        else sleep_loop pl att true n'
    else ret None
  end.

(** The same loop of the mode ET_TIMED. *)
Fixpoint timed_loop (pl : lptr) (att : Z) (scanList : bool) (n : nat) : M (option Z) :=
  match n with
  | O => diverge
  | S n' =>
    let* L := ld_list pl in
    if (l_cnt L <? 1) || negb scanList then
      str_attach att (set_at_blocked ET_ATT_BLOCKED) ;;;
      let* status := cond_wait pl in
      str_attach att (set_at_blocked ET_ATT_UNBLOCKED) ;;;
      if status =? ETIMEDOUT then et_llist_unlock pl ;;; ret (Some ET_ERROR_TIMEOUT)
      else if negb (status =? 0) then ret (Some ET_ERROR)
      else
        let* a := ld_attach att in
        if at_quit a =? ET_ATT_QUIT then quit_read pl att
        else timed_loop pl att true n'
    else ret None
  end.

(** The mode ET_ASYNC. *)
Definition async_begin (stat_id : Z) (att : Z) : M (option Z) :=
  let pl := LIn stat_id in
  let* L := ld_list pl in
  if l_mutex L then ret (Some ET_ERROR_BUSY)
  else
    str_list pl (set_l_mutex true) ;;;
    let* a := ld_attach att in
    if at_quit a =? ET_ATT_QUIT then quit_read pl att
    else
      let* L := ld_list pl in
      when (stat_id =? ET_GRANDCENTRAL) (str_hist (l_cnt L)) ;;;
      if l_cnt L <? 1 then et_llist_unlock pl ;;; ret (Some ET_ERROR_EMPTY)
      else ret None.

(** From the lock to the test for events, in the three modes. *)
Definition read_begin (stat_id mode att : Z) (scanList : bool) : M (option Z) :=
  let pl := LIn stat_id in
  if mode =? ET_SLEEP then
    et_llist_lock pl ;;;
    let* L := ld_list pl in
    when ((stat_id =? ET_GRANDCENTRAL) && scanList) (str_hist (l_cnt L)) ;;;
    with_wakes (sleep_loop pl att scanList)
  else if mode =? ET_TIMED then
    et_llist_lock pl ;;;
    let* L := ld_list pl in
    when ((stat_id =? ET_GRANDCENTRAL) && scanList) (str_hist (l_cnt L)) ;;;
    with_wakes (timed_loop pl att scanList)
  else if mode =? ET_ASYNC then async_begin stat_id att
  else ret (Some ET_ERROR).

(** The part of et_station_read after the mode: taking the first event. *)
Definition read_take (id : et_id) (stat_id att : Z) : M (Z * list Z) :=
  let pl := LIn stat_id in
  let off := id_offset id in
  let* L := ld_list pl in
  str_fix stat_id (set_fix_in_cnt (l_cnt L)) ;;;
  str_fix stat_id (set_fix_in_num 1) ;;;
  str_fix stat_id (set_fix_in_call ET_FIX_READ) ;;;
  str_fix stat_id (set_fix_in_first (l_firstevent L)) ;;;
  let pe := ET_PEVENT2USR (l_firstevent L) off in
  let* e := ld_ev off pe in
  str_list pl (set_l_firstevent (ev_next e)) ;;;
  str_ev off pe (set_ev_owner att) ;;;
  str_list pl (fun L => set_l_cnt (l_cnt L - 1) L) ;;;
  str_fix stat_id (set_fix_in_first NULL) ;;;
  et_llist_unlock pl ;;;
  ret (ET_OK, [pe]).

Definition et_station_read (id : et_id) (stat_id mode att : Z) : M (Z * list Z) :=
  let* r := read_begin stat_id mode att true in
  match r with
  | Some status => ret (status, [])
  | None => read_take id stat_id att
  end.

(** for (i=1; i < num; i++): [pe] is pe[i-1]; the result is pe[1..num-1] and the last event. *)
Fixpoint nread_loop (off att : Z) (n : nat) (pe : Z) : M (list Z * Z) :=
  match n with
  | O => ret ([], pe)
  | S n' =>
      let* e := ld_ev off pe in
      let pe' := ET_PEVENT2USR (ev_next e) off in
      str_ev off pe' (set_ev_owner att) ;;;
      let* (pes, last) := nread_loop off att n' pe' in
      ret (pe' :: pes, last)
  end.

(** The part of et_station_nread after the mode. *)
Definition nread_take (id : et_id) (stat_id att num : Z) : M (Z * list Z) :=
  let pl := LIn stat_id in
  let off := id_offset id in
  let* L := ld_list pl in
  let num := if l_cnt L <? num then l_cnt L else num in
  str_fix stat_id (set_fix_in_num num) ;;;
  str_fix stat_id (set_fix_in_cnt (l_cnt L)) ;;;
  str_fix stat_id (set_fix_in_call ET_FIX_READ) ;;;
  str_fix stat_id (set_fix_in_first (l_firstevent L)) ;;;
  let pe0 := ET_PEVENT2USR (l_firstevent L) off in
  str_ev off pe0 (set_ev_owner att) ;;;
  let* (pes, last) := nread_loop off att (Z.to_nat (num - 1)) pe0 in
  let* e := ld_ev off last in
  str_list pl (set_l_firstevent (ev_next e)) ;;;
  str_list pl (fun L => set_l_cnt (l_cnt L - num) L) ;;;
  str_fix stat_id (set_fix_in_first NULL) ;;;
  et_llist_unlock pl ;;;
  ret (ET_OK, pe0 :: pes).

Definition et_station_nread (id : et_id) (stat_id mode att num : Z) : M (Z * list Z) :=
  if num <? 1 then ret (ET_OK, [])
  else
    let* r := read_begin stat_id mode att true in
    match r with
    | Some status => ret (status, [])
    | None => nread_take id stat_id att num
    end.

(** for (i=0; i < pl->cnt; i++) of et_station_nread_group, with its locals [pev], [prev], [index];
    the result is the events taken. *)
Fixpoint group_loop (off : Z) (pl : lptr) (att group num : Z) (n : nat) (pev prev index : Z) :
    M (list Z) :=
  match n with
  | O => ret []
  | S n' =>
    let* e := ld_ev off pev in
    if negb (ev_group e =? group) then
      group_loop off pl att group num n' (ET_PEVENT2USR (ev_next e) off) pev index
    else
      let index := index + 1 in
      str_ev off pev (set_ev_owner att) ;;;
      (if prev =? NULL then str_list pl (set_l_firstevent (ev_next e))
       else str_ev off prev (set_ev_next (ev_next e))) ;;;
      let* L := ld_list pl in
      when (l_lastevent L =? ET_PEVENT2ET pev off)
        (str_list pl (set_l_lastevent (ET_PEVENT2ET prev off))) ;;;
      if num <=? index then ret [pev]
      else
        let* e := ld_ev off pev in
        let* pes := group_loop off pl att group num n' (ET_PEVENT2USR (ev_next e) off) prev index in
        ret (pev :: pes)
  end.

(** One pass of the do loop of et_station_nread_group: the status to return, or the events taken
    and the new value of num. *)
Definition group_pass (id : et_id) (stat_id mode att num group : Z) (scanList : bool) :
    M (Z + list Z * Z) :=
  let pl := LIn stat_id in
  let off := id_offset id in
  let* r := read_begin stat_id mode att scanList in
  match r with
  | Some status => ret (inl status)
  | None =>
    let* L := ld_list pl in
    let num := if l_cnt L <? num then l_cnt L else num in
    str_fix stat_id (set_fix_in_num num) ;;;
    str_fix stat_id (set_fix_in_cnt (l_cnt L)) ;;;
    str_fix stat_id (set_fix_in_call ET_FIX_READ) ;;;
    str_fix stat_id (set_fix_in_first (l_firstevent L)) ;;;
    let* pes :=
      group_loop off pl att group num (Z.to_nat (l_cnt L)) (ET_PEVENT2USR (l_firstevent L) off)
        NULL 0 in
    str_list pl (fun L => set_l_cnt (l_cnt L - Z.of_nat (length pes)) L) ;;;
    str_fix stat_id (set_fix_in_first NULL) ;;;
    et_llist_unlock pl ;;;
    ret (inr (pes, num))
  end.

Fixpoint group_passes (id : et_id) (stat_id mode att num group : Z) (scanList : bool) (n : nat) :
    M (Z * list Z) :=
  match n with
  | O => diverge
  | S n' =>
    let* r := group_pass id stat_id mode att num group scanList in
    match r with
    | inl status => ret (status, [])
    | inr (pes, num) =>
      if (length pes =? 0)%nat && negb (mode =? ET_ASYNC)
      then group_passes id stat_id mode att num group false n'
      else ret (ET_OK, pes)
    end
  end.

Definition et_station_nread_group (id : et_id) (stat_id mode att num group : Z) : M (Z * list Z) :=
  if num <? 1 then ret (ET_OK, [])
  else with_wakes (group_passes id stat_id mode att num group true).

(** ** Correctness *)

(** The condition under which the start of a read does not return early. *)
Definition may_read (m : et_mem) (mode att : Z) : Prop :=
  mode = ET_SLEEP \/ mode = ET_TIMED \/
  (mode = ET_ASYNC /\ exists a, sys_attach (m_sys m) !! att = Some a /\ at_quit a <> ET_ATT_QUIT).

(** What a reader must find: [s] is a station whose input list holds [l], is not in use and needs no
    repair. *)
Record read_pre (m : et_mem) (s : Z) (ps : et_station) (l : list Z) : Prop := mkReadPre {
  rd_stat : m_stats m !! s = Some ps;
  rd_in : list_rep (m_events m) (st_list_in ps) l;
  rd_mutex : l_mutex (st_list_in ps) = false;
  rd_first : fix_in_first (st_fix ps) = NULL;
  rd_null : m_events m !! 0 = None
}.

(** Either nothing or the first [n] events were taken from [l]; those that were taken belong to
    [att], and all others outside of the list to whom they belonged before. *)
Definition taken (m : et_mem) (l : list Z) (att : Z) (n : nat) (evs : gmap Z et_event)
    (l' : list Z) : Prop :=
  (l' = l \/ l' = drop n l) /\
  forall a, a ∉ l' -> owner evs a = if decide (a ∈ l) then Some att else owner (m_events m) a.

(** A read in progress: its repair is pending. *)
Record rip (l : list Z) (n : nat) (li : et_list) (fx : et_fix) (evs : gmap Z et_event)
    (l' : list Z) : Prop := mkRip {
  rip_mutex : l_mutex li = true;
  rip_first : head l = Some (fix_in_first fx);
  rip_cnt : fix_in_cnt fx = Z.of_nat (length l);
  rip_num : fix_in_num fx = Z.of_nat n;
  rip_sh : (l' = l /\ l_cnt li = Z.of_nat (length l) /\ chain evs l /\ last l = Some (l_lastevent li))
           \/ (l' = drop n l /\ l_cnt li = Z.of_nat (length l) - Z.of_nat n /\ list_rep evs li l')
}.

(** A crash state of a read of [n] events. *)
Definition read_crash (m : et_mem) (s : Z) (ps : et_station) (l : list Z) (att : Z) (n : nat)
    (m' : et_mem) : Prop :=
  exists hg li fx evs l',
    m' = lview (set_m_histogram hg m) s ps li (st_list_out ps) fx evs /\
    frame l (m_events m) evs /\ taken m l att n evs l' /\
    ((list_rep evs li l' /\ fix_in_first fx = NULL) \/ rip l n li fx evs l').

(** The result of a complete read: the first [n] events belong to [att], the others are left. *)
Definition have_read (m : et_mem) (s : Z) (ps : et_station) (l : list Z) (att : Z) (n : nat)
    (m' : et_mem) : Prop :=
  exists hg li fx,
    let evs := set_owners att (take n l) (m_events m) in
    m' = lview (set_m_histogram hg m) s ps li (st_list_out ps) fx evs /\
    list_rep evs li (drop n l) /\ l_mutex li = false /\ fix_in_first fx = NULL /\
    l_lasthigh li = l_lasthigh (st_list_in ps) /\ l_events_in li = l_events_in (st_list_in ps) /\
    fix_in_start fx = fix_in_start (st_fix ps) /\ fix_out_start fx = fix_out_start (st_fix ps).

Section read_correct.
Context (m : et_mem) (s : Z) (ps : et_station) (off : Z) (l : list Z) (att : Z) (n : nat).
Hypothesis P : read_pre m s ps l.
Hypothesis Hn : (1 <= n <= length l)%nat.
Abbreviation V hg := (lview (set_m_histogram hg m) s ps).
Abbreviation lo := (st_list_out ps).
Abbreviation C := (read_crash m s ps l att n).
Abbreviation E k := (set_owners att (take k l) (m_events m)).

Lemma read_head : head l = Some (l_firstevent (st_list_in ps)).
Proof. apply head_first with (m_events m); [apply P|]. intros X. rewrite X in Hn. simpl in Hn. lia. Qed.

Lemma read_last : last l = Some (l_lastevent (st_list_in ps)).
Proof.
  apply (wk_last (m_events m)), list_rep_walk; [apply P|].
  intros X. rewrite X in Hn. simpl in Hn. lia.
Qed.

Lemma taken_0 : taken m l att n (m_events m) l.
Proof. split; [by left|]. intros a Ha. by rewrite decide_False. Qed.

Lemma taken_k k : taken m l att n (E k) l.
Proof.
  split; [by left|]. intros a Ha. rewrite set_owners_owner, (decide_False (P := a ∈ l)) by done.
  rewrite decide_False; [done|].
  intros X. apply elem_of_take in X as (i & X & _). by apply list_elem_of_lookup_2 in X.
Qed.

Lemma taken_n : taken m l att n (E n) (drop n l).
Proof.
  split; [by right|]. intros a Ha. rewrite set_owners_owner.
  assert (a ∈ l <-> a ∈ take n l) as Hl by (rewrite <- (take_drop n l) at 1; set_solver).
  case_decide as D; case_decide as D'; try tauto.
  destruct (chain_in _ _ _ (lr_chain _ _ _ (rd_in _ _ _ _ P)) D') as [e ->]. done.
Qed.

Lemma E_frame k : frame l (m_events m) (E k).
Proof.
  apply set_owners_frame. intros a Ha. apply elem_of_take in Ha as (i & Ha & _).
  by apply list_elem_of_lookup_2 in Ha.
Qed.

(** Crash states: nothing done, in progress, done. *)
Lemma read_idle_crash hg li fx :
  list_rep (m_events m) li l -> fix_in_first fx = NULL -> C (V hg li lo fx (m_events m)).
Proof.
  intros R F. exists hg, li, fx, (m_events m), l. split; [done|]. split; [apply frame_refl|].
  split; [apply taken_0|]. by left.
Qed.

Lemma read_pending_crash hg li fx k :
  l_mutex li = true -> head l = Some (fix_in_first fx) -> fix_in_cnt fx = Z.of_nat (length l) ->
  fix_in_num fx = Z.of_nat n -> l_cnt li = Z.of_nat (length l) ->
  l_lastevent li = l_lastevent (st_list_in ps) -> C (V hg li lo fx (E k)).
Proof.
  intros Mx F Cn Nu Lc La. exists hg, li, fx, (E k), l. split; [done|]. split; [apply E_frame|].
  split; [apply taken_k|]. right. split; try done. left. split; [done|]. split; [done|].
  split; [apply set_owners_chain, P|]. rewrite La. apply read_last.
Qed.

Lemma read_done_crash hg li fx :
  list_rep (E n) li (drop n l) ->
  fix_in_first fx = NULL \/
    (l_mutex li = true /\ head l = Some (fix_in_first fx) /\ fix_in_cnt fx = Z.of_nat (length l) /\
     fix_in_num fx = Z.of_nat n) -> C (V hg li lo fx (E n)).
Proof.
  intros R F. exists hg, li, fx, (E n), (drop n l). split; [done|]. split; [apply E_frame|].
  split; [apply taken_n|]. destruct F as [F|(Mx & F & Cn & Nu)]; [by left|right].
  split; try done. right. split; [done|]. split; [|done].
  rewrite (lr_cnt _ _ _ R), length_drop. lia.
Qed.

Lemma read_list_mutex b : list_rep (m_events m) (set_l_mutex b (st_list_in ps)) l.
Proof. by destruct (rd_in _ _ _ _ P). Qed.

Lemma wp_view_in {B} (c : M B) (Q : B -> et_mem -> Prop) C' :
  wp c Q C' (V (m_histogram m) (st_list_in ps) lo (st_fix ps) (m_events m)) -> wp c Q C' m.
Proof.
  intros H. rewrite (lview_intro m s ps) at 1 by apply P.
  replace (lview m) with (lview (set_m_histogram (m_histogram m) m)) by (by destruct m). done.
Qed.

(** With events in the list, the start of a read only takes the lock. *)
Lemma wp_read_begin mode (Q : option Z -> et_mem -> Prop) scanList :
  may_read m mode att -> scanList = true ->
  (forall hg, Q None (V hg (set_l_mutex true (st_list_in ps)) lo (st_fix ps) (m_events m))) ->
  wp (read_begin s mode att scanList) Q C m.
Proof.
  intros Mo -> HQ. apply wp_view_in. pose proof (rd_mutex _ _ _ _ P) as Mx.
  pose proof (rd_first _ _ _ _ P) as F. pose proof (lr_cnt _ _ _ (rd_in _ _ _ _ P)) as Cn.
  assert (Hc : forall hg b, C (V hg (set_l_mutex b (st_list_in ps)) lo (st_fix ps) (m_events m)))
    by (intros; apply read_idle_crash; [apply read_list_mutex|done]).
  assert (Hi : forall hg, C (V hg (st_list_in ps) lo (st_fix ps) (m_events m)))
    by (intros; apply read_idle_crash; [apply P|done]).
  assert (L1 : (l_cnt (st_list_in ps) <? 1) = false) by (apply Z.ltb_ge; lia).
  unfold read_begin, async_begin. destruct Mo as [->|[->|(-> & a & Ea & Qu)]]; cbn [Z.eqb ET_SLEEP ET_TIMED ET_ASYNC Pos.eqb].
  - wstep. apply wp_lock_in; [done|done|]. wstep. wstep. wstep. wstep.
    destruct (_ && _); [apply wp_str_hist; [done|]|]; apply wp_with_wakes; cbn [sleep_loop];
      wstep; wstep; cbn [l_cnt set_l_mutex]; rewrite L1; cbn [orb negb]; wstep; apply HQ.
  - wstep. apply wp_lock_in; [done|done|]. wstep. wstep. wstep. wstep.
    destruct (_ && _); [apply wp_str_hist; [done|]|]; apply wp_with_wakes; cbn [timed_loop];
      wstep; wstep; cbn [l_cnt set_l_mutex]; rewrite L1; cbn [orb negb]; wstep; apply HQ.
  - wstep. wstep. rewrite Mx. wstep. wstep; [done|]. wstep. eapply wp_ld_attach; [done|].
    rewrite (proj2 (Z.eqb_neq _ _) Qu). wstep. wstep. wstep. wstep. cbn [l_cnt set_l_mutex].
    destruct (_ =? _); [apply wp_str_hist; [done|]|]; rewrite L1; cbn [orb negb]; wstep; apply HQ.
Qed.
Lemma E_valid k a : a ∈ l -> exists e, E k !! a = Some e.
Proof.
  intros Ha. apply (chain_in _ l); [|done]. apply set_owners_chain, P.
Qed.

Lemma E_0 : E 0 = m_events m.
Proof. done. Qed.

Lemma nread_loop_step k x x' : l !! k = Some x -> l !! S k = Some x' ->
  exists e e', E (S k) !! x = Some e /\ ev_next e = x' /\ E (S k) !! x' = Some e' /\
    E (S (S k)) = <[x' := set_ev_owner att e']> (E (S k)).
Proof.
  intros Hx Hx'. assert (H : nxt (E (S k)) x = Some x').
  { rewrite set_owners_nxt. eapply chain_lookup; [apply P|done|done]. }
  apply nxt_lookup in H as (e & Ee & En).
  destruct (E_valid (S k) x') as [e' Ee']; [by eapply list_elem_of_lookup_2|].
  exists e, e'. repeat split; try done. by apply set_owners_take_S.
Qed.

Lemma wp_nread_loop (C' : et_mem -> Prop) hg li fx j : forall k x y (Q : list Z * Z -> et_mem -> Prop),
  l !! k = Some x -> l !! (k + j)%nat = Some y ->
  (forall i, C' (V hg li lo fx (E i))) ->
  Q (map (fun a => a + off) (take j (drop (S k) l)), y + off) (V hg li lo fx (E (S k + j))) ->
  wp (nread_loop off att j (x + off)) Q C' (V hg li lo fx (E (S k))).
Proof.
  induction j as [|j IH]; intros k x y Q Hx Hy HC HQ; cbn [nread_loop].
  { rewrite Nat.add_0_r in *. simplify_eq. by wstep. }
  destruct (lookup_lt_is_Some_2 l (S k)) as [x' Hx'].
  { apply lookup_lt_Some in Hy. lia. }
  destruct (nread_loop_step _ _ _ Hx Hx') as (e & e' & E1 & <- & E2 & E3).
  wstep. eapply wp_ld_ev; [by rewrite Z.add_simpl_r|]. unfold ET_PEVENT2USR.
  wstep. eapply wp_str_ev; rewrite ?Z.add_simpl_r; [done|apply HC|]. rewrite <- E3.
  wstep. apply (IH (S k) _ y); [done|by replace (S k + j)%nat with (k + S j)%nat by lia|done|].
  wstep. rewrite (drop_S l _ (S k)) in HQ by done. simpl in HQ. cbn.
  by replace (S (k + j))%nat with (k + S j)%nat by lia.
Qed.

(** The end of a read: [b] is the last event taken and [v] its link. *)
Lemma wp_read_count hg li fx b v num (r : Z * list Z) (Q : Z * list Z -> et_mem -> Prop) :
  last (take n l) = Some b -> nxt (m_events m) b = Some v -> num = Z.of_nat n ->
  li = set_l_firstevent v (set_l_mutex true (st_list_in ps)) ->
  head l = Some (fix_in_first fx) -> fix_in_cnt fx = Z.of_nat (length l) ->
  fix_in_num fx = Z.of_nat n ->
  fix_in_start fx = fix_in_start (st_fix ps) -> fix_out_start fx = fix_out_start (st_fix ps) ->
  (forall m', have_read m s ps l att n m' -> Q r m') ->
  wp (str_list (LIn s) (fun L => set_l_cnt (l_cnt L - num) L) ;;;
      str_fix s (set_fix_in_first NULL) ;;;
      et_llist_unlock (LIn s) ;;; ret r) Q C (V hg li lo fx (E n)).
Proof.
  intros Lb Nx -> -> F Cn Nu Fi Fo HQ. pose proof (lr_cnt _ _ _ (rd_in _ _ _ _ P)) as Lc.
  assert (Tn : length (take n l) = n) by (rewrite length_take; lia).
  assert (R : forall b1, list_rep (E n) (set_l_mutex b1 (set_l_cnt (l_cnt (st_list_in ps) - Z.of_nat n)
    (set_l_firstevent v (st_list_in ps)))) (drop n l)).
  { intros b1. apply (list_rep_drop _ (st_list_in ps) _ l n b v); try done; [apply P| |cbn; by rewrite Tn].
    intros X. rewrite X in Tn. simpl in Tn. lia. }
  wstep. wstep; [by apply read_pending_crash|]. cbn [l_cnt set_l_firstevent set_l_mutex].
  wstep. wstep; [apply read_done_crash; [apply (R true)|by right]|].
  wstep. wstep. wstep; [apply read_done_crash; [apply (R true)|by left]|]. wstep.
  apply HQ. eexists hg, _, _. cbv zeta. split; [done|]. split; [apply (R false)|]. done.
Qed.

(** The repair information and the first event. *)
Lemma wp_nread_take id num hg :
  id_offset id = off -> n = Z.to_nat (Z.min num (Z.of_nat (length l))) ->
  wp (nread_take id s att num)
    (fun r m' => r = (ET_OK, map (fun a => a + off) (take n l)) /\ have_read m s ps l att n m') C
    (V hg (set_l_mutex true (st_list_in ps)) lo (st_fix ps) (m_events m)).
Proof.
  intros Off En. pose proof (lr_cnt _ _ _ (rd_in _ _ _ _ P)) as Lc.
  pose proof (rd_first _ _ _ _ P) as F0. pose proof read_head as Hh.
  unfold nread_take. rewrite Off. wstep. wstep.
  cbn [l_cnt l_firstevent set_l_mutex]. cbv zeta. rewrite Lc.
  replace (if Z.of_nat (length l) <? num then Z.of_nat (length l) else num) with (Z.of_nat n)
    by (destruct (_ <? _) eqn:T; zbool; lia).
  do 4 (wstep; wstep; [by apply read_idle_crash; [apply read_list_mutex|]|]).
  destruct (E_valid 0 (l_firstevent (st_list_in ps))) as [e Ee].
  { destruct l; simplify_eq/=. set_solver. }
  wstep. unfold ET_PEVENT2USR. rewrite <- E_0. eapply wp_str_ev; rewrite ?Z.add_simpl_r;
    [exact Ee|by apply read_pending_crash|].
  rewrite <- (set_owners_take_S _ _ 0) by (done || by rewrite <- head_lookup).
  destruct (lookup_lt_is_Some_2 l (n - 1)) as [b Hb]; [lia|].
  wstep. apply (wp_nread_loop _ _ _ _ (Z.to_nat (Z.of_nat n - 1)) 0 (l_firstevent (st_list_in ps)) b).
  - by rewrite <- head_lookup.
  - rewrite <- Hb. f_equal. lia.
  - intros i. by apply read_pending_crash.
  - replace (1 + Z.to_nat (Z.of_nat n - 1))%nat with n by lia. cbv beta iota.
    destruct (E_valid n b) as [eb Eb]; [by eapply list_elem_of_lookup_2|].
    wstep. eapply wp_ld_ev; [rewrite Z.add_simpl_r; exact Eb|].
    assert (Nb : nxt (m_events m) b = Some (ev_next eb)).
    { rewrite <- (set_owners_nxt att (take n l)). unfold nxt. by rewrite Eb. }
    wstep. wstep; [by apply read_pending_crash|]. eapply wp_read_count; try done.
    { rewrite last_lookup, length_take, lookup_take_lt by lia. rewrite <- Hb. f_equal. lia. }
    intros m' H. split; [|done]. f_equal.
    replace (take n l) with (l_firstevent (st_list_in ps) :: take (Z.to_nat (Z.of_nat n - 1)) (drop 1 l));
      [done|]. clear - Hh Hn. destruct l as [|a k]; simplify_eq/=. destruct n as [|n']; [lia|].
    simpl. rewrite drop_0. do 2 f_equal. lia.
Qed.

Lemma wp_nread id mode num :
  id_offset id = off -> may_read m mode att -> n = Z.to_nat (Z.min num (Z.of_nat (length l))) ->
  wp (et_station_nread id s mode att num)
    (fun r m' => r = (ET_OK, map (fun a => a + off) (take n l)) /\ have_read m s ps l att n m') C m.
Proof.
  intros Off Mo En. unfold et_station_nread. destruct (num <? 1) eqn:T; zbool; [lia|].
  wstep. apply wp_read_begin; [done|done|]. intros hg. by apply wp_nread_take.
Qed.

Lemma wp_read_take id hg :
  id_offset id = off -> n = 1%nat ->
  wp (read_take id s att)
    (fun r m' => r = (ET_OK, map (fun a => a + off) (take n l)) /\ have_read m s ps l att n m') C
    (V hg (set_l_mutex true (st_list_in ps)) lo (st_fix ps) (m_events m)).
Proof.
  intros Off En. pose proof (lr_cnt _ _ _ (rd_in _ _ _ _ P)) as Lc.
  pose proof (rd_first _ _ _ _ P) as F0. pose proof read_head as Hh.
  unfold read_take. rewrite Off. wstep. wstep.
  cbn [l_cnt l_firstevent set_l_mutex]. cbv zeta. rewrite Lc.
  do 4 (wstep; wstep; [by apply read_idle_crash; [apply read_list_mutex|]|]).
  destruct (E_valid 0 (l_firstevent (st_list_in ps))) as [e Ee].
  { destruct l; simplify_eq/=. set_solver. }
  assert (Tk : take n l = [l_firstevent (st_list_in ps)]) by (rewrite En; by destruct l; simplify_eq/=).
  wstep. unfold ET_PEVENT2USR. rewrite <- E_0. eapply wp_ld_ev; [rewrite Z.add_simpl_r; exact Ee|].
  wstep. wstep; [apply read_pending_crash; try done; by rewrite En|].
  wstep. eapply wp_str_ev; rewrite ?Z.add_simpl_r;
    [exact Ee|apply read_pending_crash; try done; by rewrite En|].
  rewrite <- (set_owners_take_S _ _ 0) by (done || by rewrite <- head_lookup).
  replace (set_owners att (take 1 l) (m_events m)) with (E n) by by rewrite En.
  eapply wp_read_count; try done; [by rewrite Tk| |by rewrite En|by rewrite En|].
  { simpl in Ee. unfold nxt. by rewrite Ee. }
  intros m' H. by rewrite Tk.
Qed.

Lemma wp_read id mode :
  id_offset id = off -> may_read m mode att -> n = 1%nat ->
  wp (et_station_read id s mode att)
    (fun r m' => r = (ET_OK, map (fun a => a + off) (take n l)) /\ have_read m s ps l att n m') C m.
Proof.
  intros Off Mo En. unfold et_station_read.
  wstep. apply wp_read_begin; [done|done|]. intros hg. by apply wp_read_take.
Qed.
End read_correct.

(** ** Repairing an input list *)

Section repair_in.
Context (m : et_mem) (s : Z) (ps : et_station) (off : Z).
Abbreviation V := (lview m s ps).

Lemma wp_repair_in_loop li lo fx z l : forall k a count evs (Q : Z -> et_mem -> Prop),
  chain evs (a :: l) -> NoDup (a :: l) -> last (a :: l) = Some z -> (length (a :: l) <= k)%nat ->
  Q (count + Z.of_nat (length (a :: l))) (V li lo fx (set_owners ET_SYS (a :: l) evs)) ->
  wp (repair_in_loop off k (a + off) (z + off) count) Q (fun _ => True) (V li lo fx evs).
Proof.
  induction l as [|b l IH]; intros k a count evs Q H N La Hk HQ;
    (destruct k as [|k]; [simpl in Hk; lia|]); cbn [repair_in_loop];
    destruct (chain_in _ _ a H ltac:(set_solver)) as [e E];
    (wstep; eapply wp_str_ev; rewrite ?Z.add_simpl_r; [done|done|]).
  - simpl in La, HQ. simplify_eq. rewrite Z.eqb_refl. wstep.
    by rewrite (alter_owner_insert _ _ e) in HQ.
  - assert (a <> z).
    { intros ->. apply NoDup_cons in N as [N _]. apply N, last_Some_elem_of. done. }
    rewrite (proj2 (Z.eqb_neq _ _)) by lia.
    wstep. eapply wp_ld_ev; [rewrite Z.add_simpl_r; apply lookup_insert_eq|].
    destruct H as (_ & H & Nx). unfold nxt in Nx. rewrite E in Nx.
    simpl in Nx. injection Nx as Nx. unfold ET_PEVENT2USR. cbn [ev_next set_ev_owner]. rewrite Nx.
    apply NoDup_cons in N as [_ N]. rewrite <- (alter_owner_insert _ _ e) by done.
    apply IH; [by apply (set_owners_chain ET_SYS [a])|done|done|simpl in *; lia|].
    simpl. replace (count + 1 + Z.of_nat (S (length l))) with (count + Z.of_nat (S (S (length l)))) by lia.
    done.
Qed.

(** The walk of et_repair_inputlist from the recorded first event. *)
Lemma wp_repair_inputlist id li lo fx evs l (Q : Z -> et_mem -> Prop) :
  id_offset id = off -> fix_in_first fx <> NULL -> l_cnt li <> fix_in_cnt fx - fix_in_num fx ->
  chain evs l -> NoDup l -> head l = Some (fix_in_first fx) -> last l = Some (l_lastevent li) ->
  (forall li', list_rep (set_owners ET_SYS l evs) li' l -> l_mutex li' = l_mutex li ->
    Q ET_OK (V li' lo (set_fix_in_first NULL fx) (set_owners ET_SYS l evs))) ->
  wp (et_repair_inputlist id s) Q (fun _ => True) (V li lo fx evs).
Proof.
  intros Off F Cn Ch Nd Hh La HQ. unfold et_repair_inputlist. cbv zeta.
  wstep. wstep. cbn [st_fix st_list_in set_st_list_in set_st_list_out set_st_fix]. rewrite Off.
  rewrite (proj2 (Z.eqb_neq _ _) F), (proj2 (Z.eqb_neq _ _) Cn).
  wstep. wstep; [done|]. wstep. apply wp_getm. wstep. unfold ET_PEVENT2USR.
  destruct l as [|a l]; [done|]. injection Hh as Ha. rewrite <- Ha.
  eapply wp_repair_in_loop; [exact Ch|exact Nd|exact La|by apply chain_size|].
  wstep. wstep; [done|]. wstep. wstep; [done|]. wstep. apply HQ; [|done].
  apply (set_owners_list_rep _ (set_l_firstevent a li)); try done.
Qed.
End repair_in.

(** After the repair of an interrupted read of [n] events: all [l] events are in the list again, or
    the first [n] were taken completely and belong to the reader. *)
Definition read_repaired (m : et_mem) (s : Z) (ps : et_station) (l : list Z) (att : Z) (n : nat)
    (m' : et_mem) : Prop :=
  exists hg li fx evs l',
    m' = lview (set_m_histogram hg m) s ps li (st_list_out ps) fx evs /\
    frame l (m_events m) evs /\ taken m l att n evs l' /\
    list_rep evs li l' /\ l_mutex li = false /\ fix_in_first fx = NULL.

Lemma taken_owners m l att n evs : NoDup l ->
  taken m l att n evs l -> taken m l att n (set_owners ET_SYS l evs) l.
Proof.
  intros N [_ O]. split; [by left|]. intros a Ha. rewrite set_owners_owner, decide_False by done.
  by apply O.
Qed.

Lemma wp_repair_read m s ps l att n id m' :
  read_pre m s ps l -> (1 <= n <= length l)%nat -> l_mutex (st_list_out ps) = false ->
  read_crash m s ps l att n m' ->
  wp (et_repair_station id s) (fun a m'' => a = ET_OK /\ read_repaired m s ps l att n m'')
    (fun _ => True) m'.
Proof.
  intros P Hn Mo (hg & li & fx & evs & l' & -> & F & T & H). unfold et_repair_station. cbv zeta.
  wstep. destruct (l_mutex li) eqn:Mx.
  2:{ apply wp_mutex_free_in; [done|]. cbn. wstep. apply wp_mutex_free_out; [done|]. cbn. wstep.
      split; [done|]. destruct H as [[R Fi]|[? _ _ _ _]]; [|congruence].
      by exists hg, li, fx, evs, l'. }
  apply wp_mutex_held_in; [done|]. cbn. wstep. destruct H as [[R Fi]|[_ Fi Cn Nu Sh]].
  { unfold et_repair_inputlist. cbv zeta. wstep. wstep. cbn. rewrite Fi. simpl. wstep. cbn.
    wstep. wstep. wstep; [done|]. wstep. split; [done|].
    exists hg, (set_l_mutex false li), fx, evs, l'. split; [done|]. split; [done|]. split; [done|].
    split; [by destruct R|done]. }
  assert (fix_in_first fx <> NULL) as Nf.
  { intros X. apply head_Some_elem_of in Fi.
    pose proof (chain_in _ _ _ (lr_chain _ _ _ (rd_in _ _ _ _ P)) Fi) as [e Ee].
    rewrite X in Ee. pose proof (rd_null _ _ _ _ P). unfold NULL in Ee. congruence. }
  destruct Sh as [(-> & Lc & Ch & La)|(-> & Lc & R)].
  - apply (wp_repair_inputlist _ _ _ (id_offset id) id _ _ _ _ l); try done; [lia|apply P|].
    intros li' R' Mx'. cbn. wstep. wstep. wstep; [done|]. wstep. split; [done|].
    eexists hg, _, _, _, l. split; [done|]. split; [|split].
    + apply (frame_trans l l _ _ evs); [done|done|done|by apply set_owners_frame].
    + apply taken_owners; [apply P|done].
    + split; [by destruct R'|done].
  - unfold et_repair_inputlist. cbv zeta. wstep. wstep. cbn [st_fix st_list_in set_st_list_in set_st_list_out set_st_fix].
    rewrite (proj2 (Z.eqb_neq _ _) Nf), Lc, Cn, Nu, Z.eqb_refl.
    wstep. wstep; [done|]. wstep. cbn. wstep. wstep. wstep; [done|]. wstep. split; [done|].
    eexists hg, _, _, evs, (drop n l). split; [done|]. split; [done|]. split; [done|].
    split; [by destruct R|done].
Qed.

(** ** Waiting for events *)

(** What the other processes see while a reader waits: its attachment is blocked, and the list is
    not locked. *)
Definition waiting (s att : Z) (L : et_list) (m : et_mem) : et_mem :=
  upd_list (LIn s) (set_l_mutex false)
    (upd_attach att (set_at_blocked ET_ATT_BLOCKED)
      (let m := upd_list (LIn s) (set_l_mutex true) m in
       if s =? ET_GRANDCENTRAL
       then set_m_histogram (<[l_cnt L := default 0 (m_histogram m !! l_cnt L) + 1]> (m_histogram m)) m
       else m)).

(** The state in which a reader goes on after the others left [m]. *)
Definition woken (s att : Z) (m : et_mem) : et_mem :=
  upd_attach att (set_at_blocked ET_ATT_UNBLOCKED) (upd_list (LIn s) (set_l_mutex true) m).

Lemma lookup_upd_list_in s f m ps :
  m_stats m !! s = Some ps ->
  m_stats (upd_list (LIn s) f m) !! s = Some (set_st_list_in (f (st_list_in ps)) ps).
Proof. intros E. cbn. by rewrite lookup_alter_eq, E. Qed.

Lemma upd_list_view s f m ps :
  m_stats m !! s = Some ps ->
  upd_list (LIn s) f m =
    lview m s ps (f (st_list_in ps)) (st_list_out ps) (st_fix ps) (m_events m).
Proof.
  intros E. rewrite (lview_intro m s ps) at 1 by done. unfold upd_list. cbn [lstat].
  by erewrite lview_upd.
Qed.

Section wait.
Context (s att : Z) (ps : et_station) (a : et_attach) (x : ctx) (k : wakeup) (w : list wakeup).
Hypothesis Hx : cx_crash x = None.
Hypothesis Hw : cx_wakes x = k :: w.

(** One iteration of the two loops, up to the test of the status. *)
Lemma wait_ok {A} (f : Z -> M A) m m1 a1 ps1 :
  sys_attach (m_sys m) !! att = Some a ->
  m1 = wk_env k (upd_list (LIn s) (set_l_mutex false) (upd_attach att (set_at_blocked ET_ATT_BLOCKED) m)) ->
  sys_attach (m_sys m1) !! att = Some a1 -> m_stats m1 !! s = Some ps1 ->
  (str_attach att (set_at_blocked ET_ATT_BLOCKED) ;;;
   let* status := cond_wait (LIn s) in
   str_attach att (set_at_blocked ET_ATT_UNBLOCKED) ;;; f status) x m =
  f (wk_status k) (mkCtx None w) (woken s att m1).
Proof.
  intros Ea -> Ea1 Es1. erewrite bind_ok by (by eapply str_attach_ok).
  erewrite bind_ok by (by apply cond_wait_ok). rewrite Hx.
  erewrite bind_ok; [done|]. by eapply str_attach_ok.
Qed.

Context (mode : Z) (m m1 : et_mem) (a1 : et_attach) (ps1 : et_station).
Hypothesis Hs : m_stats m !! s = Some ps.
Hypothesis Hm : l_mutex (st_list_in ps) = false.
Hypothesis Hc : l_cnt (st_list_in ps) < 1.
Hypothesis Ha : sys_attach (m_sys m) !! att = Some a.
Hypothesis Hm1 : m1 = wk_env k (waiting s att (st_list_in ps) m).
Hypothesis Ha1 : sys_attach (m_sys m1) !! att = Some a1.
Hypothesis Hs1 : m_stats m1 !! s = Some ps1.

(** Up to the loop. *)
Lemma lock_ok {A} (f : nat -> M A) r :
  (forall m0 n, sys_attach (m_sys m0) !! att = Some a ->
    m_stats m0 !! s = Some (set_st_list_in (set_l_mutex true (st_list_in ps)) ps) ->
    m1 = wk_env k (upd_list (LIn s) (set_l_mutex false)
           (upd_attach att (set_at_blocked ET_ATT_BLOCKED) m0)) ->
    (1 <= n)%nat -> f (S n) x m0 = r) ->
  (et_llist_lock (LIn s) ;;;
   let* L := ld_list (LIn s) in
   when ((s =? ET_GRANDCENTRAL) && true) (str_hist (l_cnt L)) ;;;
   with_wakes f) x m = r.
Proof.
  intros Hf. pose proof (lookup_upd_list_in s (set_l_mutex true) m ps Hs) as Hs'.
  erewrite bind_ok.
  2:{ unfold et_llist_lock. erewrite bind_ok by (by apply ld_list_ok). cbn [st_list].
      rewrite Hm. by eapply str_list_ok. }
  erewrite bind_ok by (by apply ld_list_ok). cbn [st_list st_list_in set_st_list_in l_cnt set_l_mutex].
  rewrite andb_true_r. unfold waiting in Hm1. destruct (s =? ET_GRANDCENTRAL); cbn [when].
  - erewrite bind_ok by (by apply store_ok). unfold with_wakes. rewrite Hw. cbn [length].
    apply Hf; [done|done|done|lia].
  - erewrite bind_ok by done. unfold with_wakes. rewrite Hw. cbn [length].
    apply Hf; [done|done|done|lia].
Qed.

(** Woken up with events in the list and not told to quit. *)
Lemma read_begin_woken :
  mode = ET_SLEEP \/ mode = ET_TIMED -> wk_status k = 0 -> at_quit a1 <> ET_ATT_QUIT ->
  1 <= l_cnt (st_list_in ps1) ->
  read_begin s mode att true x m = Ok None (mkCtx None w) (woken s att m1).
Proof.
  intros Mo St Qu Cn. unfold read_begin.
  assert (Cn' : (l_cnt (set_l_mutex true (st_list_in ps1)) <? 1) = false) by (apply Z.ltb_ge; done).
  destruct Mo as [->| ->]; cbn [Z.eqb ET_SLEEP ET_TIMED Pos.eqb]; apply lock_ok;
    intros m0 [|n] Ha0 Hs0 E1 Hn; (lia || cbn [sleep_loop timed_loop]);
    (erewrite bind_ok by (by apply ld_list_ok)); cbn [st_list st_list_in set_st_list_in l_cnt set_l_mutex];
    rewrite (proj2 (Z.ltb_lt _ _) Hc); cbn [orb]; (erewrite wait_ok by done);
    rewrite St; cbn [Z.eqb negb ETIMEDOUT];
    (erewrite bind_ok by (apply ld_attach_ok; cbn; by rewrite lookup_alter_eq, Ha1));
    cbn [at_quit set_at_blocked]; rewrite (proj2 (Z.eqb_neq _ _) Qu);
    (erewrite bind_ok by (apply ld_list_ok; by apply lookup_upd_list_in));
    cbn [st_list st_list_in set_st_list_in]; rewrite Cn'; done.
Qed.

(** The wait fails with another status than a timeout: the lock is not released. *)
Lemma read_begin_timed_error :
  mode = ET_TIMED -> wk_status k <> 0 -> wk_status k <> ETIMEDOUT ->
  read_begin s mode att true x m = Ok (Some ET_ERROR) (mkCtx None w) (woken s att m1).
Proof.
  intros -> S0 St. unfold read_begin. cbn [Z.eqb ET_SLEEP ET_TIMED Pos.eqb]. apply lock_ok.
  intros m0 [|n] Ha0 Hs0 E1 Hn; [lia|]. cbn [timed_loop].
  erewrite bind_ok by (by apply ld_list_ok). cbn [st_list st_list_in set_st_list_in l_cnt set_l_mutex].
  rewrite (proj2 (Z.ltb_lt _ _) Hc). cbn [orb]. erewrite wait_ok by done.
  by rewrite (proj2 (Z.eqb_neq _ _) S0), (proj2 (Z.eqb_neq _ _) St).
Qed.

Lemma read_begin_timeout :
  mode = ET_TIMED -> wk_status k = ETIMEDOUT ->
  read_begin s mode att true x m =
    Ok (Some ET_ERROR_TIMEOUT) (mkCtx None w)
      (upd_list (LIn s) (set_l_mutex false) (woken s att m1)).
Proof.
  intros -> St. unfold read_begin. cbn [Z.eqb ET_SLEEP ET_TIMED Pos.eqb]. apply lock_ok.
  intros m0 [|n] Ha0 Hs0 E1 Hn; [lia|]. cbn [timed_loop].
  erewrite bind_ok by (by apply ld_list_ok). cbn [st_list st_list_in set_st_list_in l_cnt set_l_mutex].
  rewrite (proj2 (Z.ltb_lt _ _) Hc). cbn [orb]. erewrite wait_ok by done.
  rewrite St. cbn [Z.eqb ETIMEDOUT Pos.eqb]. erewrite bind_ok; [done|].
  eapply str_list_ok; [done|]. by apply lookup_upd_list_in.
Qed.
End wait.

Lemma async_begin_empty m s ps a att x :
  cx_crash x = None -> m_stats m !! s = Some ps -> sys_attach (m_sys m) !! att = Some a ->
  at_quit a <> ET_ATT_QUIT -> s <> ET_GRANDCENTRAL -> l_mutex (st_list_in ps) = false ->
  l_cnt (st_list_in ps) < 1 -> async_begin s att x m = Ok (Some ET_ERROR_EMPTY) x m.
Proof.
  intros Hx Hs Ha Qu Ng Mx Cn. unfold async_begin.
  erewrite bind_ok by (by apply ld_list_ok). cbn [st_list]. rewrite Mx.
  erewrite bind_ok by (by eapply str_list_ok). erewrite bind_ok by (by apply ld_attach_ok).
  rewrite (proj2 (Z.eqb_neq _ _) Qu).
  erewrite bind_ok by (apply ld_list_ok; by apply lookup_upd_list_in).
  rewrite (proj2 (Z.eqb_neq _ _) Ng). cbn [when st_list st_list_in set_st_list_in l_cnt set_l_mutex].
  erewrite bind_ok by done. rewrite (proj2 (Z.ltb_lt _ _) Cn).
  erewrite bind_ok by (eapply str_list_ok; [done|by apply lookup_upd_list_in]).
  unfold ret. f_equal. rewrite (upd_list_view _ _ _ _ Hs). unfold upd_list. cbn [lstat].
  erewrite lview_upd by done. etransitivity; [|symmetry; by apply lview_intro].
  f_equal. destruct (st_list_in ps). simpl in *. by subst.
Qed.

(** What a look at a list in mode ET_ASYNC counts. *)
Definition looked (s : Z) (L : et_list) (m : et_mem) : et_mem :=
  if s =? ET_GRANDCENTRAL then set_m_histogram (<[l_cnt L := default 0 (m_histogram m !! l_cnt L) + 1]> (m_histogram m)) m else m.

(** A list is locked and unlocked again, with a change [g] that does not look at the stations in between. *)
Lemma unlocked_again s ps m g :
  m_stats m !! s = Some ps -> l_mutex (st_list_in ps) = false ->
  (forall k m, g (set_m_stats k m) = set_m_stats k (g m)) -> m_stats (g m) = m_stats m ->
  upd_list (LIn s) (set_l_mutex false) (g (upd_list (LIn s) (set_l_mutex true) m)) = g m.
Proof.
  intros E Mx G1 G2. unfold upd_list, upd_stat. cbn [lstat]. rewrite G1. cbn [m_stats set_m_stats].
  replace (alter _ s (alter _ s (m_stats m))) with (m_stats (g m)); [by destruct (g m)|]. rewrite G2.
  apply map_eq. intros t. destruct (decide (s = t)) as [<-|N]; [|by rewrite !lookup_alter_ne].
  rewrite !lookup_alter_eq, E. cbn. f_equal. destruct ps as [? ? ? ? ? ? ? ? ? ? ? ? [] ?]. cbn in *. by subst.
Qed.

Lemma async_begin_quit m s ps a att x :
  cx_crash x = None -> m_stats m !! s = Some ps -> sys_attach (m_sys m) !! att = Some a ->
  at_quit a = ET_ATT_QUIT -> l_mutex (st_list_in ps) = false ->
  async_begin s att x m = Ok (Some ET_ERROR_WAKEUP) x (upd_attach att (set_at_quit ET_ATT_CONTINUE) m).
Proof.
  intros Hx Hs Ha Qu Mx. unfold async_begin, quit_read.
  erewrite bind_ok by (by apply ld_list_ok). cbn [st_list]. rewrite Mx.
  erewrite bind_ok by (by eapply str_list_ok). erewrite bind_ok by (by apply ld_attach_ok). rewrite Qu, Z.eqb_refl.
  erewrite bind_ok by (eapply str_list_ok; [done|by apply lookup_upd_list_in]).
  rewrite (unlocked_again s ps m (fun m => m)) by done. erewrite bind_ok; [done|]. by eapply str_attach_ok.
Qed.

Lemma async_begin_none m s ps a att x :
  cx_crash x = None -> m_stats m !! s = Some ps -> sys_attach (m_sys m) !! att = Some a ->
  at_quit a <> ET_ATT_QUIT -> l_mutex (st_list_in ps) = false ->
  l_cnt (st_list_in ps) < 1 -> async_begin s att x m = Ok (Some ET_ERROR_EMPTY) x (looked s (st_list_in ps) m).
Proof.
  intros Hx Hs Ha Qu Mx Cn. unfold async_begin.
  erewrite bind_ok by (by apply ld_list_ok). cbn [st_list]. rewrite Mx.
  erewrite bind_ok by (by eapply str_list_ok). erewrite bind_ok by (by apply ld_attach_ok).
  rewrite (proj2 (Z.eqb_neq _ _) Qu).
  erewrite bind_ok by (apply ld_list_ok; by apply lookup_upd_list_in).
  cbn [when st_list st_list_in set_st_list_in l_cnt set_l_mutex].
  erewrite (bind_ok _ _ _ _ tt x (looked s (st_list_in ps) (upd_list (LIn s) (set_l_mutex true) m))).
  2:{ unfold looked. destruct (s =? ET_GRANDCENTRAL); cbn [when]; [|done]. unfold str_hist. by rewrite store_ok. }
  rewrite (proj2 (Z.ltb_lt _ _) Cn). erewrite bind_ok.
  2:{ eapply str_list_ok; [done|]. unfold looked. destruct (s =? ET_GRANDCENTRAL); by apply lookup_upd_list_in. }
  unfold ret. f_equal. apply (unlocked_again s ps m (looked s (st_list_in ps))); [done|done| |];
    unfold looked; by destruct (s =? ET_GRANDCENTRAL).
Qed.

(** A reader for whom there is nothing, and whom nobody wakes up. *)
Lemma read_begin_blocked m s ps a att mode :
  m_stats m !! s = Some ps -> l_mutex (st_list_in ps) = false -> l_cnt (st_list_in ps) < 1 ->
  sys_attach (m_sys m) !! att = Some a -> mode = ET_SLEEP \/ mode = ET_TIMED ->
  read_begin s mode att true (mkCtx None []) m = Blocked (waiting s att (st_list_in ps) m).
Proof.
  intros Hs Hm Hc Ha Mo. pose proof (lookup_upd_list_in s (set_l_mutex true) m ps Hs) as Hs'.
  assert (X : forall f : nat -> M (option Z),
    (forall m0, sys_attach (m_sys m0) !! att = Some a -> m_stats m0 !! s = Some (set_st_list_in (set_l_mutex true (st_list_in ps)) ps) ->
       f 1%nat (mkCtx None []) m0 = Blocked (upd_list (LIn s) (set_l_mutex false) (upd_attach att (set_at_blocked ET_ATT_BLOCKED) m0))) ->
    (et_llist_lock (LIn s) ;;; let* L := ld_list (LIn s) in
     when ((s =? ET_GRANDCENTRAL) && true) (str_hist (l_cnt L)) ;;; with_wakes f) (mkCtx None []) m =
      Blocked (waiting s att (st_list_in ps) m)).
  { intros f Hf. erewrite bind_ok.
    2:{ unfold et_llist_lock. erewrite bind_ok by (by apply ld_list_ok). cbn [st_list]. rewrite Hm. by eapply str_list_ok. }
    erewrite bind_ok by (by apply ld_list_ok). cbn [st_list st_list_in set_st_list_in l_cnt set_l_mutex]. rewrite andb_true_r.
    unfold waiting. destruct (s =? ET_GRANDCENTRAL); cbn [when].
    - erewrite bind_ok by (by apply store_ok). by apply Hf.
    - erewrite bind_ok by done. by apply Hf. }
  unfold read_begin. destruct Mo as [->| ->]; cbn [Z.eqb ET_SLEEP ET_TIMED Pos.eqb]; apply X; intros m0 Ha0 Hs0;
    cbn [sleep_loop timed_loop]; (erewrite bind_ok by (by apply ld_list_ok)); cbn [st_list st_list_in set_st_list_in l_cnt set_l_mutex];
    rewrite (proj2 (Z.ltb_lt _ _) Hc); cbn [orb]; (erewrite bind_ok by (by eapply str_attach_ok)); done.
Qed.

Lemma quit_read_ok s att x m ps a :
  cx_crash x = None -> m_stats m !! s = Some ps -> sys_attach (m_sys m) !! att = Some a ->
  quit_read (LIn s) att x m =
    Ok (Some ET_ERROR_WAKEUP) x (upd_attach att (set_at_quit ET_ATT_CONTINUE) (upd_list (LIn s) (set_l_mutex false) m)).
Proof.
  intros Hx Hs Ha. unfold quit_read. erewrite bind_ok by (by eapply str_list_ok). erewrite bind_ok; [done|]. by eapply str_attach_ok.
Qed.

(** Told to quit while it waits. *)
Lemma read_begin_quit m s ps a att mode k w m1 a1 ps1 :
  m_stats m !! s = Some ps -> l_mutex (st_list_in ps) = false -> l_cnt (st_list_in ps) < 1 ->
  sys_attach (m_sys m) !! att = Some a -> m1 = wk_env k (waiting s att (st_list_in ps) m) ->
  sys_attach (m_sys m1) !! att = Some a1 -> m_stats m1 !! s = Some ps1 ->
  mode = ET_SLEEP \/ mode = ET_TIMED -> wk_status k = 0 -> at_quit a1 = ET_ATT_QUIT ->
  read_begin s mode att true (mkCtx None (k :: w)) m =
    Ok (Some ET_ERROR_WAKEUP) (mkCtx None w)
      (upd_attach att (set_at_quit ET_ATT_CONTINUE) (upd_list (LIn s) (set_l_mutex false) (woken s att m1))).
Proof.
  intros Hs Hm Hc Ha Em Ha1 Hs1 Mo St Qu. unfold read_begin.
  destruct Mo as [->| ->]; cbn [Z.eqb ET_SLEEP ET_TIMED Pos.eqb];
    (eapply (lock_ok s att ps a (mkCtx None (k :: w)) k w eq_refl eq_refl m m1 Hs Hm Ha Em));
    intros m0 [|n] Ha0 Hs0 E1 Hn; (lia || cbn [sleep_loop timed_loop]);
    (erewrite bind_ok by (by apply ld_list_ok)); cbn [st_list st_list_in set_st_list_in l_cnt set_l_mutex];
    rewrite (proj2 (Z.ltb_lt _ _) Hc); cbn [orb]; (erewrite (wait_ok s att a _ k w) by done);
    rewrite St; cbn [Z.eqb negb ETIMEDOUT];
    (erewrite bind_ok by (apply ld_attach_ok; cbn; by rewrite lookup_alter_eq, Ha1));
    cbn [at_quit set_at_blocked]; rewrite Qu, Z.eqb_refl;
    (eapply quit_read_ok; [done|by apply lookup_upd_list_in|cbn; by rewrite lookup_alter_eq, Ha1]).
Qed.

(** ** The specifications of the reads *)

(** The outcome of et_station_nread when nobody wakes the reader up; [l] are the events of the list. *)
Definition nread_outcome (m : et_mem) (s : Z) (ps : et_station) (l : list Z) (att : Z) (a : et_attach) (mode num off : Z)
    (o : outcome (Z * list Z)) : Prop :=
  let same status m' := o = Ok (status, []) (mkCtx None []) m' in
  let n := Z.to_nat (Z.min num (Z.of_nat (length l))) in
  if num <? 1 then same ET_OK m
  else if negb ((mode =? ET_SLEEP) || (mode =? ET_TIMED) || (mode =? ET_ASYNC)) then same ET_ERROR m
  else if (mode =? ET_ASYNC) && (at_quit a =? ET_ATT_QUIT)
  then same ET_ERROR_WAKEUP (upd_attach att (set_at_quit ET_ATT_CONTINUE) m)
  else
    match l with
    | [] => if mode =? ET_ASYNC then same ET_ERROR_EMPTY (looked s (st_list_in ps) m)
            else o = Blocked (waiting s att (st_list_in ps) m)
    | _ => exists x m', o = Ok (ET_OK, map (fun a => a + off) (take n l)) x m' /\ have_read m s ps l att n m'
    end.

(** What it does when it waits and is woken up by [k], which tells it to quit or is the end of its time;
    [m1] is the memory that it finds. *)
Definition nread_ended (s att mode : Z) (k : wakeup) (a1 : et_attach) (m1 : et_mem) (o : outcome (Z * list Z)) : Prop :=
  let unlocked := upd_list (LIn s) (set_l_mutex false) (woken s att m1) in
  (wk_status k = 0 -> at_quit a1 = ET_ATT_QUIT ->
     o = Ok (ET_ERROR_WAKEUP, []) (mkCtx None []) (upd_attach att (set_at_quit ET_ATT_CONTINUE) unlocked)) /\
  (mode = ET_TIMED -> wk_status k = ETIMEDOUT -> o = Ok (ET_ERROR_TIMEOUT, []) (mkCtx None []) unlocked).

Lemma empty_cnt m s ps : read_pre m s ps [] -> l_cnt (st_list_in ps) < 1.
Proof. intros P. rewrite (lr_cnt _ _ _ (rd_in _ _ _ _ P)). cbn. lia. Qed.

Lemma nread_begun s mode att num id m x r y m' : 1 <= num -> read_begin s mode att true x m = Ok (Some r) y m' ->
  et_station_nread id s mode att num x m = Ok (r, []) y m'.
Proof. intros Hn E. unfold et_station_nread. rewrite (proj2 (Z.ltb_ge _ _) Hn). by erewrite bind_ok by exact E. Qed.

Lemma nread_all m s ps l att a mode num id : read_pre m s ps l -> sys_attach (m_sys m) !! att = Some a ->
  nread_outcome m s ps l att a mode num (id_offset id) (run (et_station_nread id s mode att num) m).
Proof.
  intros P Ha. unfold nread_outcome. destruct (num <? 1) eqn:N; [unfold run, et_station_nread; by rewrite N|]. apply Z.ltb_ge in N.
  destruct (negb _) eqn:B.
  { apply negb_true_iff, orb_false_iff in B as [[B1 B2]%orb_false_iff B3]. apply nread_begun; [done|].
    unfold read_begin. by rewrite B1, B2, B3. }
  destruct (_ && _) eqn:Q.
  { apply andb_true_iff in Q as [Mo%Z.eqb_eq Qu%Z.eqb_eq]. subst mode. apply nread_begun; [done|].
    eapply async_begin_quit; [done|apply P|done|done|apply P]. }
  destruct l as [|b l'].
  - pose proof (empty_cnt _ _ _ P) as Hc. destruct (Z.eqb_spec mode ET_ASYNC) as [->|Na].
    + cbn [andb] in Q. apply nread_begun; [done|].
      eapply async_begin_none; [done|apply P|exact Ha|by apply Z.eqb_neq|apply P|done].
    + unfold run, et_station_nread. rewrite (proj2 (Z.ltb_ge _ _) N). unfold bind at 1.
      rewrite (read_begin_blocked m s ps a att mode); [done|apply P|apply P|done|done|].
      apply negb_false_iff, orb_true_iff in B as [B|B]; [|done]. apply orb_true_iff in B as [B%Z.eqb_eq|B%Z.eqb_eq]; auto.
  - assert (Mo : may_read m mode att).
    { apply negb_false_iff, orb_true_iff in B as [B|B%Z.eqb_eq].
      - apply orb_true_iff in B as [B%Z.eqb_eq|B%Z.eqb_eq]; [by left|by right; left].
      - subst mode. right; right. split; [done|]. exists a. split; [done|]. by apply Z.eqb_neq. }
    edestruct (wp_run _ _ _ _ (wp_nread m s ps (id_offset id) (b :: l') att (Z.to_nat (Z.min num (Z.of_nat (length (b :: l'))))) P ltac:(cbn [length]; lia)
      id mode num eq_refl Mo eq_refl)) as ([] & x & m' & E & [= -> ->] & H'). by exists x, m'.
Qed.

Lemma nread_waited m s ps att a mode num id k m1 a1 ps1 :
  read_pre m s ps [] -> sys_attach (m_sys m) !! att = Some a -> 1 <= num -> mode = ET_SLEEP \/ mode = ET_TIMED -> m1 = wk_env k (waiting s att (st_list_in ps) m) ->
  sys_attach (m_sys m1) !! att = Some a1 -> m_stats m1 !! s = Some ps1 ->
  nread_ended s att mode k a1 m1 (run_wakes [k] (et_station_nread id s mode att num) m).
Proof.
  intros P Ha Hn Mo Em Ha1 Hs1. pose proof (empty_cnt _ _ _ P) as Hc. destruct P as [Hs R Mx Fi Nu]. split.
  - intros St Qu. apply nread_begun; [done|]. by eapply (read_begin_quit m s ps a att mode k [] m1 a1 ps1).
  - intros Mt St. apply nread_begun; [done|]. by eapply (read_begin_timeout s att ps a (mkCtx None [k]) k [] eq_refl eq_refl mode m m1 a1 ps1).
Qed.

Lemma nread_locked m s ps att num id :
  m_stats m !! s = Some ps -> 1 <= num ->
  let locked := upd_list (LIn s) (set_l_mutex true) m in
  run (et_station_nread id s ET_ASYNC att num) locked = Ok (ET_ERROR_BUSY, []) (mkCtx None []) locked /\
  run (et_station_nread id s ET_SLEEP att num) locked = Blocked locked /\
  run (et_station_nread id s ET_TIMED att num) locked = Blocked locked.
Proof.
  intros Hs Hn locked. pose proof (lookup_upd_list_in s (set_l_mutex true) m ps Hs) as Hs'. fold locked in Hs'.
  unfold run, et_station_nread. rewrite (proj2 (Z.ltb_ge _ _) Hn). unfold read_begin, async_begin, et_llist_lock.
  cbn [Z.eqb ET_SLEEP ET_TIMED ET_ASYNC Pos.eqb]. split_and!; unfold bind at 1;
    [erewrite bind_ok by (by apply ld_list_ok); done|..];
    (unfold bind at 1; erewrite bind_ok by (by apply ld_list_ok); done).
Qed.


(** The same for the single read. *)
Theorem et_station_read_spec m s ps l att mode id :
  read_pre m s ps l -> may_read m mode att -> l <> [] ->
  exists x m', run (et_station_read id s mode att) m =
      Ok (ET_OK, map (fun a => a + id_offset id) (take 1 l)) x m' /\
    have_read m s ps l att 1 m'.
Proof.
  intros P Mo Ne. assert (length l <> O) by by destruct l.
  edestruct (wp_run _ _ _ _ (wp_read m s ps (id_offset id) l att 1 P ltac:(lia) id mode eq_refl Mo eq_refl))
    as ([] & x & m' & E & [= -> ->] & H'). eauto.
Qed.

(** C29: whenever a reader dies in et_station_nread, after any number of stores, et_repair_station
    terminates with ET_OK and the input list is consistent, unlocked and in its old order again: it
    holds either all its events, or all but the first [n], and these all belong to the reader. *)
Theorem et_station_nread_crash_repair m s ps l att mode num id sysid k m' :
  read_pre m s ps l -> may_read m mode att -> 1 <= num -> l <> [] ->
  l_mutex (st_list_out ps) = false ->
  run_crash k (et_station_nread id s mode att num) m = Crashed m' ->
  exists x m'', run (et_repair_station sysid s) m' = Ok ET_OK x m'' /\
    read_repaired m s ps l att (Z.to_nat (Z.min num (Z.of_nat (length l)))) m''.
Proof.
  intros P Mo Hnum Ne Mx Cr. assert (length l <> O) by by destruct l.
  set (n := Z.to_nat _). assert (Hn : (1 <= n <= length l)%nat) by lia.
  destruct (wp_crash _ _ _ _ k (wp_nread m s ps (id_offset id) l att n P Hn id mode num eq_refl Mo eq_refl))
    as [(a & x & m1 & E & _)|(m1 & E & H')]; rewrite Cr in E; [done|]. injection E as <-.
  apply wp_repair_read with (id := sysid) in H'; [|done..].
  apply wp_run in H' as (a & x & m'' & E & -> & Rp). eauto.
Qed.

(** C30: a reader that waits in et_station_nread, in mode ET_SLEEP or ET_TIMED, is not woken up in
    vain: when it is woken up, was not told to quit and other processes have put the events [l] into
    the list while it did not hold the lock, it returns the first of them. *)
Theorem et_station_nread_woken m s ps a att mode num id k m1 ps1 a1 l :
  m_stats m !! s = Some ps -> l_mutex (st_list_in ps) = false -> l_cnt (st_list_in ps) < 1 ->
  sys_attach (m_sys m) !! att = Some a -> mode = ET_SLEEP \/ mode = ET_TIMED ->
  wk_status k = 0 -> m1 = wk_env k (waiting s att (st_list_in ps) m) ->
  sys_attach (m_sys m1) !! att = Some a1 -> at_quit a1 <> ET_ATT_QUIT ->
  read_pre m1 s ps1 l -> l <> [] -> 1 <= num ->
  let n := Z.to_nat (Z.min num (Z.of_nat (length l))) in
  exists x m', run_wakes [k] (et_station_nread id s mode att num) m =
      Ok (ET_OK, map (fun a => a + id_offset id) (take n l)) x m' /\
    have_read (upd_attach att (set_at_blocked ET_ATT_UNBLOCKED) m1) s ps1 l att n m'.
Proof.
  intros Hs Hm Hc Ha Mo St Em Ha1 Qu P1 Ne Hnum n. assert (length l <> O) by by destruct l.
  assert (P2 : read_pre (upd_attach att (set_at_blocked ET_ATT_UNBLOCKED) m1) s ps1 l)
    by (by destruct P1).
  unfold run_wakes, et_station_nread. destruct (num <? 1) eqn:T; zbool; [lia|].
  erewrite bind_ok.
  2:{ eapply (read_begin_woken s att ps a (mkCtx None [k]) k [] eq_refl eq_refl mode m m1 a1 ps1);
        try done; [apply P1|]. rewrite (lr_cnt _ _ _ (rd_in _ _ _ _ P1)). lia. }
  set (m2 := upd_attach att (set_at_blocked ET_ATT_UNBLOCKED) m1) in *.
  replace (woken s att m1) with (lview (set_m_histogram (m_histogram m2) m2) s ps1
    (set_l_mutex true (st_list_in ps1)) (st_list_out ps1) (st_fix ps1) (m_events m2)).
  2:{ replace (set_m_histogram _ _) with m2 by (by destruct m2).
      rewrite <- (upd_list_view s (set_l_mutex true)) by apply P1. done. }
  pose proof (wp_nread_take m2 s ps1 (id_offset id) l att n P2 ltac:(lia) id num (m_histogram m2)
    eq_refl eq_refl (mkCtx None []) eq_refl) as W.
  destruct (nread_take _ _ _ _ _ _) as [r x m'|m'|m'| |]; try done.
  - destruct W as (_ & _ & -> & W). eauto.
  - by destruct W as [[] _].
Qed.

(** The error returns of et_station_nread leave the list as it was and the process without its
    lock: nothing to read, a bad mode, and in mode ET_ASYNC a list in use or an empty list. *)
Theorem et_station_nread_errors m s ps a att num id :
  m_stats m !! s = Some ps -> sys_attach (m_sys m) !! att = Some a -> at_quit a <> ET_ATT_QUIT ->
  (num < 1 -> forall mode, run (et_station_nread id s mode att num) m = Ok (ET_OK, []) (mkCtx None []) m) /\
  (1 <= num -> forall mode, mode <> ET_SLEEP -> mode <> ET_TIMED -> mode <> ET_ASYNC ->
    run (et_station_nread id s mode att num) m = Ok (ET_ERROR, []) (mkCtx None []) m) /\
  (1 <= num -> l_mutex (st_list_in ps) = true ->
    run (et_station_nread id s ET_ASYNC att num) m = Ok (ET_ERROR_BUSY, []) (mkCtx None []) m) /\
  (1 <= num -> s <> ET_GRANDCENTRAL -> l_mutex (st_list_in ps) = false -> l_cnt (st_list_in ps) < 1 ->
    run (et_station_nread id s ET_ASYNC att num) m = Ok (ET_ERROR_EMPTY, []) (mkCtx None []) m).
Proof.
  intros Hs Ha Qu. unfold run, et_station_nread, read_begin, async_begin.
  split; [|split; [|split]].
  - intros T mode. by rewrite (proj2 (Z.ltb_lt _ _) T).
  - intros T mode M1 M2 M3. rewrite (proj2 (Z.ltb_ge _ _) T).
    by rewrite (proj2 (Z.eqb_neq _ _) M1), (proj2 (Z.eqb_neq _ _) M2), (proj2 (Z.eqb_neq _ _) M3).
  - intros T Mx. rewrite (proj2 (Z.ltb_ge _ _) T). cbn [Z.eqb ET_SLEEP ET_TIMED ET_ASYNC Pos.eqb].
    erewrite bind_ok; [|by erewrite bind_ok by (by apply ld_list_ok); cbn [st_list]; rewrite Mx]. done.
  - intros T Ng Mx Cn. rewrite (proj2 (Z.ltb_ge _ _) T). cbn [Z.eqb ET_SLEEP ET_TIMED ET_ASYNC Pos.eqb].
    by erewrite bind_ok by (by eapply async_begin_empty).
Qed.

(** When the timed wait of et_station_nread fails with a status other than a timeout, it
    returns ET_ERROR and the mutex of the input list stays locked. *)
Theorem et_station_nread_timed_leak m s ps a att num id k m1 ps1 a1 :
  m_stats m !! s = Some ps -> l_mutex (st_list_in ps) = false -> l_cnt (st_list_in ps) < 1 ->
  sys_attach (m_sys m) !! att = Some a -> 1 <= num ->
  m1 = wk_env k (waiting s att (st_list_in ps) m) ->
  m_stats m1 !! s = Some ps1 -> sys_attach (m_sys m1) !! att = Some a1 ->
  wk_status k <> 0 -> wk_status k <> ETIMEDOUT ->
  exists x m', run_wakes [k] (et_station_nread id s ET_TIMED att num) m = Ok (ET_ERROR, []) x m' /\
    exists ps', m_stats m' !! s = Some ps' /\ l_mutex (st_list_in ps') = true.
Proof.
  intros Hs Hm Hc Ha Hnum Em Hs1 Ha1 S0 St. unfold run_wakes, et_station_nread.
  destruct (num <? 1) eqn:T; zbool; [lia|].
  erewrite bind_ok by (by eapply read_begin_timed_error). eexists _, _. split; [done|].
  eexists. split; [by apply lookup_upd_list_in|]. done.
Qed.

(** ** Instances *)

Lemma read_pre0 : read_pre mem0 1 (stat0 1) [200; 100].
Proof. split; try by_eval. apply mem0_in1. Qed.

Lemma may_read0 : may_read mem0 ET_ASYNC 0.
Proof. right. right. split; [done|]. exists (attach0 0 1). split; [reflexivity|by_eval]. Qed.


Lemma et_station_read_spec_witness :
  exists x m', run (et_station_read id0 1 ET_SLEEP 0) mem0 = Ok (ET_OK, [4296]) x m' /\
    have_read mem0 1 (stat0 1) [200; 100] 0 1 m'.
Proof.
  apply (et_station_read_spec mem0 1 (stat0 1) [200; 100] 0 ET_SLEEP id0);
    [apply read_pre0|by left|done].
Defined.

Lemma et_station_nread_crash_repair_witness :
  exists m', run_crash 8 (et_station_nread id0 1 ET_ASYNC 0 2) mem0 = Crashed m' /\
  exists x m'', run (et_repair_station id0 1) m' = Ok ET_OK x m'' /\
    read_repaired mem0 1 (stat0 1) [200; 100] 0 2 m''.
Proof.
  eexists. split; [vm_compute; reflexivity|].
  apply (et_station_nread_crash_repair mem0 1 (stat0 1) [200; 100] 0 ET_ASYNC 2 id0 id0 8);
    [apply read_pre0|apply may_read0|lia|done|reflexivity|vm_compute; reflexivity].
Defined.

(** Another process moves the input list of station 1 to station 2. *)
Definition wake0 (status : Z) : wakeup :=
  mkWake status (fun m =>
    upd_list (LIn 2) (fun L => set_l_cnt 2 (set_l_firstevent 200 (set_l_lastevent 100 L)))
      (upd_list (LIn 1) (set_l_cnt 0) m)).

Lemma et_station_nread_woken_witness :
  exists m1 ps1, m1 = wk_env (wake0 0) (waiting 2 1 (st_list_in (stat0 2)) mem0) /\
  exists x m', run_wakes [wake0 0] (et_station_nread id0 2 ET_SLEEP 1 5) mem0 =
      Ok (ET_OK, [4296; 4196]) x m' /\
    have_read (upd_attach 1 (set_at_blocked ET_ATT_UNBLOCKED) m1) 2 ps1 [200; 100] 1 2 m'.
Proof.
  set (m1 := wk_env (wake0 0) (waiting 2 1 (st_list_in (stat0 2)) mem0)).
  set (ps1 := set_st_list_in (list0 2 0 200 100) (stat0 2)).
  exists m1, ps1. split; [done|].
  apply (et_station_nread_woken mem0 2 (stat0 2) (attach0 1 2) 1 ET_SLEEP 5 id0 (wake0 0) m1 ps1
    (set_at_blocked ET_ATT_BLOCKED (attach0 1 2)) [200; 100]);
    try by_eval.
  split; try by_eval. apply mem0_list_rep_intro with 200 100; try by_eval.
Defined.

Lemma et_station_nread_errors_witness :
  run (et_station_nread id0 2 ET_ASYNC 1 5) mem0 = Ok (ET_ERROR_EMPTY, []) (mkCtx None []) mem0.
Proof.
  apply (et_station_nread_errors mem0 2 (stat0 2) (attach0 1 2) 1 5 id0); by_eval.
Defined.

Lemma et_station_nread_timed_leak_witness :
  exists x m', run_wakes [wake0 22] (et_station_nread id0 2 ET_TIMED 1 5) mem0 = Ok (ET_ERROR, []) x m' /\
    exists ps', m_stats m' !! 2 = Some ps' /\ l_mutex (st_list_in ps') = true.
Proof.
  apply (et_station_nread_timed_leak mem0 2 (stat0 2) (attach0 1 2) 1 5 id0 (wake0 22)
    (wk_env (wake0 22) (waiting 2 1 (st_list_in (stat0 2)) mem0))
    (set_st_list_in (list0 2 0 200 100) (stat0 2)) (set_at_blocked ET_ATT_BLOCKED (attach0 1 2)));
    by_eval.
Defined.
