(* ===== verification/LList.v ===== *)
(** * Moving events between lists in the ET system process

    et_llist_read, et_llist_write_gc and et_llist_write of et_readwrite.c.  They run in the process
    that owns the memory (offset 0) with the lock of the list held by their caller. *)
From stdpp Require Import base gmap strings list.
From S2P Require Import Prelude Types Machine EvList Local Sample Write.
Open Scope Z_scope.

(** pe[0] is [pe], pe[i] = pe[i-1]->next for n more events. *)
Fixpoint llist_follow (n : nat) (pe : Z) : M (list Z) :=
  match n with
  | O => ret [pe]
  | S n' =>
      let* e := ld_ev 0 pe in
      let* pes := llist_follow n' (ev_next e) in
      ret (pe :: pes)
  end.

Definition et_llist_read (pl : lptr) : M (Z * list Z) :=
  let* L := ld_list pl in
  let cnt := l_cnt L in
  if cnt =? 0 then ret (ET_ERROR, [])
  else
    let* pes := llist_follow (Z.to_nat (cnt - 1)) (l_firstevent L) in
    str_list pl (set_l_firstevent NULL) ;;;
    str_list pl (set_l_cnt 0) ;;;
    str_list pl (set_l_lasthigh 0) ;;;
    str_list pl (fun L => set_l_events_out (u64 (l_events_out L + cnt)) L) ;;;
    ret (cnt, pes).

(** pe[i-1]->next = pe[i] for the events after [a]. *)
Fixpoint link_loop (a : Z) (pes : list Z) : M unit :=
  match pes with
  | [] => ret tt
  | b :: pes' => str_ev 0 a (set_ev_next b) ;;; link_loop b pes'
  end.

(** Adding [pe0 :: pes'] at the end of the list [L]; the same code in et_llist_write_gc and
    et_llist_write. *)
Definition llist_append (pl : lptr) (L : et_list) (pe0 : Z) (pes' : list Z) : M unit :=
  (if l_cnt L =? 0 then str_list pl (set_l_firstevent pe0)
   else str_ev 0 (l_lastevent L) (set_ev_next pe0)) ;;;
  link_loop pe0 pes' ;;;
  str_list pl (set_l_lastevent (List.last (pe0 :: pes') pe0)).

Definition et_llist_write_gc (pes : list Z) : M Z :=
  let pl := LIn ET_GRANDCENTRAL in
  let num := Z.of_nat (length pes) in
  let* y := ld_sys in
  let* L := ld_list pl in
  if cf_nevents (sys_config y) - l_cnt L <? num then ret ET_ERROR
  else
    match pes with
    | [] => fault
    | pe0 :: pes' =>
      llist_append pl L pe0 pes' ;;;
      str_list pl (fun L => set_l_events_in (u64 (l_events_in L + num)) L) ;;;
      str_list pl (fun L => set_l_cnt (l_cnt L + num) L) ;;;
      ret ET_OK
    end.

(** for (i=0; i < pl->cnt; i++): the locals pe_lasthigh, pevent and high_cnt. *)
Fixpoint find_lasthigh (n : nat) (pe_lasthigh pevent high_cnt : Z) : M (Z * Z * Z) :=
  match n with
  | O => ret (pe_lasthigh, pevent, high_cnt)
  | S n' =>
      let* e := ld_ev 0 pevent in
      if ev_priority e =? ET_HIGH then find_lasthigh n' pevent (ev_next e) (high_cnt + 1)
      else ret (pe_lasthigh, pevent, high_cnt)
  end.

(** Adds the events of high priority after [a]; the result is the last of them and the rest. *)
Fixpoint link_highs (a pevent : Z) (pes : list Z) : M (Z * list Z) :=
  match pes with
  | [] => ret (a, [])
  | b :: pes' =>
      let* e := ld_ev 0 b in
      if negb (ev_priority e =? ET_HIGH) then ret (a, pes)
      else
        str_ev 0 a (set_ev_next b) ;;;
        str_ev 0 b (set_ev_next pevent) ;;;
        link_highs b pevent pes'
  end.

(** The branch with events of high priority; [L] is the list, [pe0 :: pes'] the events. *)
Definition llist_write_high (pl : lptr) (L : et_list) (pe0 : Z) (pes' : list Z) : M unit :=
  let* (pe_lasthigh, pevent, high_cnt) := find_lasthigh (Z.to_nat (l_cnt L)) NULL (l_firstevent L) 0 in
  (if negb (pe_lasthigh =? NULL) then
     let* eh := ld_ev 0 pe_lasthigh in
     str_ev 0 pe0 (set_ev_next (ev_next eh)) ;;;
     str_ev 0 pe_lasthigh (set_ev_next pe0)
   else
     str_ev 0 pe0 (set_ev_next (l_firstevent L)) ;;;
     str_list pl (set_l_firstevent pe0)) ;;;
  let* (lasthigh, rest) := link_highs pe0 pevent pes' in
  when (high_cnt =? l_cnt L) (str_list pl (set_l_lastevent lasthigh)) ;;;
  match rest with
  | [] => ret tt
  | b :: rest' =>
      link_loop b rest' ;;;
      let* L := ld_list pl in
      str_ev 0 (l_lastevent L) (set_ev_next b) ;;;
      str_list pl (set_l_lastevent (List.last rest b))
  end.

Definition et_llist_write (pl : lptr) (pes : list Z) : M Z :=
  let* y := ld_sys in
  let* L := ld_list pl in
  let nevents_max := cf_nevents (sys_config y) in
  let num := Z.of_nat (length pes) in
  let num := if nevents_max - l_cnt L <? num then nevents_max - l_cnt L else num in
  match take (Z.to_nat num) pes with
  | [] => fault
  | pe0 :: pes' =>
    let* e0 := ld_ev 0 pe0 in
    (if (ev_priority e0 =? ET_LOW) || (l_cnt L =? 0) then
       llist_append pl L pe0 pes'
     else llist_write_high pl L pe0 pes') ;;;
    str_list pl (fun L => set_l_events_in (u64 (l_events_in L + num)) L) ;;;
    str_list pl (fun L => set_l_cnt (l_cnt L + num) L) ;;;
    ret num
  end.

(** ** Correctness *)

(** Only links of the events [k] changed. *)
Definition relinked (k : list Z) (evs evs' : gmap Z et_event) : Prop :=
  frame k evs evs' /\ forall a, owner evs' a = owner evs a.

Lemma relinked_refl k evs : relinked k evs evs.
Proof. split; [apply frame_refl|done]. Qed.

Lemma relinked_trans k1 k2 k evs evs' evs'' :
  k1 ⊆ k -> k2 ⊆ k -> relinked k1 evs evs' -> relinked k2 evs' evs'' -> relinked k evs evs''.
Proof.
  intros S1 S2 [F O] [F' O']. split; [by apply (frame_trans k1 k2 _ _ evs')|].
  intros a. by rewrite O'.
Qed.

Lemma relinked_next k evs a e v :
  evs !! a = Some e -> a ∈ k -> relinked k evs (<[a := set_ev_next v e]> evs).
Proof.
  intros E Ha. split; [by apply frame_insert with e|]. intros b. by apply owner_next.
Qed.

Lemma relinked_nxt k evs evs' a : relinked k evs evs' -> a ∉ k -> nxt evs' a = nxt evs a.
Proof. intros [[_ F] _] Ha. unfold nxt. by rewrite F. Qed.

Lemma relinked_valid k evs evs' a : relinked k evs evs' -> is_Some (evs !! a) -> is_Some (evs' !! a).
Proof. intros [F _]. by apply frame_lookup with k. Qed.

Lemma relinked_chain k evs evs' l :
  relinked k evs evs' -> (forall a, a ∈ l -> a ∉ k) -> chain evs l -> chain evs' l.
Proof. intros R D. apply chain_ext. intros a Ha. eapply relinked_nxt; [done|auto]. Qed.

(** Inserting [x] after [a]; [g] is the event after [a], or anything if there is none. *)
Lemma chain_put evs l1 a l2 x g ea ex :
  chain evs (l1 ++ a :: l2) -> NoDup (l1 ++ a :: l2) -> x ∉ l1 ++ a :: l2 ->
  evs !! a = Some ea -> evs !! x = Some ex -> (forall b, head l2 = Some b -> g = b) ->
  chain (<[x := set_ev_next g ex]> (<[a := set_ev_next x ea]> evs)) (l1 ++ a :: x :: l2).
Proof.
  intros H N X Ea Ex G. assert (x <> a) by set_solver. destruct l2 as [|b l2].
  - apply chain_set_last with (a := x); [apply chain_snoc; try done| |by rewrite last_app_cons].
    + change [a; x] with ([a] ++ [x]). rewrite app_assoc. apply NoDup_app.
      split; [done|]. split; [set_solver|apply NoDup_singleton].
    + change [a; x] with ([a] ++ [x]). rewrite app_assoc. apply NoDup_app.
      split; [done|]. split; [set_solver|apply NoDup_singleton].
  - rewrite (G b eq_refl), insert_insert_ne by done. by apply chain_insert.
Qed.

(** Joining two chains, the second one built after the first one was linked to it. *)
Lemma chain_join k evs evs' l1 l2 a b e :
  chain evs l1 -> NoDup l1 -> last l1 = Some a -> evs !! a = Some e ->
  relinked k (<[a := set_ev_next b e]> evs) evs' -> (forall c, c ∈ l1 -> c ∉ k) ->
  chain evs' l2 -> head l2 = Some b -> chain evs' (l1 ++ l2).
Proof.
  intros H N La E R D H2 Hb. apply chain_app. split; [|split; [done|]].
  - eapply relinked_chain; [exact R|done|]. by apply chain_set_last.
  - intros c d Hc Hd. simplify_eq. rewrite (relinked_nxt _ _ _ a R).
    + by rewrite nxt_insert_eq.
    + apply D. by apply last_Some_elem_of.
Qed.

Lemma list_last_default (l : list Z) d : List.last l d = default d (last l).
Proof.
  induction l as [|a l IH]; [done|]. rewrite last_cons. simpl. destruct l as [|b l]; [done|].
  rewrite IH. destruct (last (b :: l)) eqn:E; [done|]. by apply last_None in E.
Qed.

Section llist.
Context (m : et_mem) (s : Z) (ps : et_station) (li lo : et_list) (fx : et_fix).
Abbreviation V := (lview m s ps).
Abbreviation nocrash := (fun _ : et_mem => True).

Lemma wp_ld_ev0 li' evs p e (Q : et_event -> et_mem -> Prop) :
  evs !! p = Some e -> Q e (V li' lo fx evs) -> wp (ld_ev 0 p) Q nocrash (V li' lo fx evs).
Proof. intros E H. eapply wp_ld_ev; [by rewrite Z.sub_0_r|done]. Qed.

Lemma wp_str_ev0 li' evs p e f (Q : unit -> et_mem -> Prop) :
  evs !! p = Some e -> Q tt (V li' lo fx (<[p := f e]> evs)) ->
  wp (str_ev 0 p f) Q nocrash (V li' lo fx evs).
Proof. intros E H. eapply wp_str_ev; rewrite ?Z.sub_0_r; done. Qed.

Lemma wp_link_loop li' pes : forall a evs (Q : unit -> et_mem -> Prop),
  NoDup (a :: pes) -> (forall x, x ∈ a :: pes -> is_Some (evs !! x)) ->
  (forall evs', relinked (a :: pes) evs evs' -> chain evs' (a :: pes) -> Q tt (V li' lo fx evs')) ->
  wp (link_loop a pes) Q nocrash (V li' lo fx evs).
Proof.
  induction pes as [|b pes IH]; intros a evs Q N Va HQ; cbn [link_loop].
  { wstep. apply HQ; [apply relinked_refl|]. apply chain_singleton, Va. set_solver. }
  destruct (Va a) as [ea Ea]; [set_solver|].
  wstep. eapply wp_str_ev0; [done|]. pose proof (relinked_next (a :: b :: pes) _ _ _ b Ea ltac:(set_solver)) as R1.
  apply NoDup_cons in N as [Na N]. apply IH; [done| |].
  { intros x Hx. eapply relinked_valid; [exact R1|]. apply Va. set_solver. }
  intros evs' R2 Ch. apply HQ; [by eapply (relinked_trans (a :: b :: pes) (b :: pes)); [| |exact R1|exact R2]; set_solver|].
  split; [|split; [done|]].
  - rewrite (relinked_nxt _ _ _ _ R2) by done. by rewrite nxt_insert_eq.
  - rewrite (relinked_nxt _ _ _ _ R2) by done. by rewrite nxt_insert_eq.
Qed.

Lemma wp_find_lasthigh li' W : forall H evs lh pv hc (Q : Z * Z * Z -> et_mem -> Prop),
  chain evs (H ++ W) -> all_high (hi evs) H -> all_low (hi evs) W ->
  (forall a, head (H ++ W) = Some a -> pv = a) ->
  (forall pv', (forall a, head W = Some a -> pv' = a) ->
    Q (default lh (last H), pv', hc + Z.of_nat (length H)) (V li' lo fx evs)) ->
  wp (find_lasthigh (length (H ++ W)) lh pv hc) Q nocrash (V li' lo fx evs).
Proof.
  induction H as [|a H IH]; intros evs lh pv hc Q Ch Hh Hl Hd HQ.
  - specialize (HQ pv Hd). simpl in HQ. rewrite Z.add_0_r in HQ.
    destruct W as [|b W]; cbn [app length find_lasthigh]; [by wstep|].
    rewrite (Hd b eq_refl) in *. destruct (chain_in _ _ b Ch ltac:(set_solver)) as [e E].
    wstep. eapply wp_ld_ev0; [done|]. apply Forall_cons in Hl as [Hb _]. unfold hi in Hb.
    rewrite E in Hb. rewrite Hb. by wstep.
  - cbn [app length find_lasthigh] in *. rewrite (Hd a eq_refl) in *.
    destruct (chain_in _ _ a Ch ltac:(set_solver)) as [e E].
    wstep. eapply wp_ld_ev0; [done|]. apply Forall_cons in Hh as [Ha Hh]. unfold hi in Ha.
    rewrite E in Ha. rewrite Ha. destruct Ch as (_ & Ch & Nx). apply IH; try done.
    + intros b Hb. destruct (H ++ W); [done|]. simplify_eq/=. unfold nxt in Nx. rewrite E in Nx.
      by simplify_eq/=.
    + intros pv' Hpv. specialize (HQ pv' Hpv). cbn [length] in HQ.
      replace (hc + 1 + Z.of_nat (length H)) with (hc + Z.of_nat (S (length H))) by lia.
      destruct H as [|c H]; [done|]. simpl in *. by destruct (last (c :: H)) eqn:La; [|by apply last_None in La].
Qed.

Lemma wp_link_highs li' W g ls hs : forall l1 a evs (Q : Z * list Z -> et_mem -> Prop),
  chain evs (l1 ++ a :: W) -> NoDup (l1 ++ a :: W) -> NoDup hs ->
  (forall x, x ∈ hs -> x ∉ l1 ++ a :: W) ->
  (forall x, x ∈ hs ++ ls -> is_Some (evs !! x)) -> (forall b, head W = Some b -> g = b) ->
  all_high (hi evs) hs -> all_low (hi evs) ls ->
  (forall evs', relinked (l1 ++ a :: W ++ hs) evs evs' -> chain evs' (l1 ++ a :: hs ++ W) ->
    Q (default a (last hs), ls) (V li' lo fx evs')) ->
  wp (link_highs a g (hs ++ ls)) Q nocrash (V li' lo fx evs).
Proof.
  induction hs as [|b hs IH]; intros l1 a evs Q Ch N Nh D Va G Hh Hl HQ.
  - specialize (HQ evs (relinked_refl _ _) Ch). simpl in HQ. simpl.
    destruct ls as [|c ls]; cbn [link_highs]; [by wstep|].
    destruct (Va c) as [e E]; [set_solver|]. wstep. eapply wp_ld_ev0; [done|].
    apply Forall_cons in Hl as [Hc _]. unfold hi in Hc. rewrite E in Hc. rewrite Hc. simpl. by wstep.
  - cbn [app link_highs]. destruct (Va b) as [e E]; [set_solver|].
    wstep. eapply wp_ld_ev0; [done|]. apply Forall_cons in Hh as [Hb Hh].
    assert (Pb : (ev_priority e =? ET_HIGH) = true) by (unfold hi in Hb; by rewrite E in Hb).
    rewrite Pb. cbn [negb]. destruct (chain_in _ _ a Ch ltac:(set_solver)) as [ea Ea].
    assert (Nab : b <> a) by set_solver.
    wstep. eapply wp_str_ev0; [done|]. wstep. eapply wp_str_ev0; [by rewrite lookup_insert_ne|].
    set (evs1 := <[b := _]> _).
    assert (R1 : relinked [a; b] evs evs1).
    { apply (relinked_trans [a] [b] _ evs (<[a := set_ev_next b ea]> evs)); [set_solver|set_solver|..].
      - apply relinked_next; [done|set_solver].
      - apply relinked_next; [by rewrite lookup_insert_ne|set_solver]. }
    assert (Hext : forall x, hi evs1 x = hi evs x) by (intros x; eapply frame_hi, R1).
    apply NoDup_cons in Nh as [Nb Nh].
    replace (l1 ++ a :: W) with ((l1 ++ [a]) ++ W) in * by by rewrite <- app_assoc.
    apply (IH (l1 ++ [a]) b evs1).
    + replace ((l1 ++ [a]) ++ b :: W) with (l1 ++ a :: b :: W) by by rewrite <- app_assoc.
      rewrite <- app_assoc in Ch, N, D. apply chain_put; try done. apply D. set_solver.
    + apply NoDup_app in N as (N1 & N2 & N3). apply NoDup_app. split; [done|]. split.
      * intros x Hx. specialize (N2 x Hx). specialize (D b). set_solver.
      * apply NoDup_cons. split; [|done]. specialize (D b). set_solver.
    + done.
    + intros x Hx. specialize (D x). set_solver.
    + intros x Hx. eapply relinked_valid; [exact R1|]. apply Va. set_solver.
    + done.
    + eapply Forall_impl; [exact Hh|]. intros x. by rewrite Hext.
    + eapply Forall_impl; [exact Hl|]. intros x. by rewrite Hext.
    + intros evs' R2 Ch2.
      replace (l1 ++ a :: W ++ b :: hs) with ((l1 ++ [a]) ++ W ++ b :: hs) in HQ by by rewrite <- app_assoc.
      replace (l1 ++ a :: (b :: hs) ++ W) with ((l1 ++ [a]) ++ b :: hs ++ W) in HQ by by rewrite <- app_assoc.
      replace (default a (last (b :: hs))) with (default b (last hs)) in HQ
        by (rewrite last_cons; by destruct (last hs)).
      apply HQ; [|done]. eapply relinked_trans; [| |exact R1|exact R2]; set_solver.
Qed.
(** The counters at the end of a write. *)
Lemma wp_llist_count li' evs evs' (l pes k : list Z) num r (Q : Z -> et_mem -> Prop) :
  relinked k evs evs' -> walk evs' li' pes -> l_cnt li' = Z.of_nat (length l) ->
  num = Z.of_nat (length pes) - Z.of_nat (length l) ->
  Forall (fun a => owner evs a = Some ET_SYS) pes ->
  (forall li2, list_rep evs' li2 pes -> 
    li2 = set_l_cnt (l_cnt li' + num) (set_l_events_in (u64 (l_events_in li' + num)) li') ->
    Q r (V li2 lo fx evs')) ->
  wp (str_list (LIn s) (fun L => set_l_events_in (u64 (l_events_in L + num)) L) ;;;
      str_list (LIn s) (fun L => set_l_cnt (l_cnt L + num) L) ;;; ret r) Q nocrash (V li' lo fx evs').
Proof.
  intros R W Cn Hn O HQ. wstep. wstep; [done|]. wstep. wstep; [done|]. wstep. apply HQ; [|done].
  apply walk_list_rep; [by apply walk_list with li'|cbn; lia|].
  eapply Forall_impl; [exact O|]. intros a Ha. by rewrite (proj2 R).
Qed.

(** Appending events at the end of a list. *)
Lemma wp_llist_append (Q : unit -> et_mem -> Prop) evs (l : list Z) pe0 pes :
  list_rep evs li l -> NoDup (l ++ pe0 :: pes) ->
  (forall x, x ∈ pe0 :: pes -> is_Some (evs !! x)) ->
  (forall evs' f la, relinked (l ++ pe0 :: pes) evs evs' ->
    walk evs' (set_l_lastevent la (set_l_firstevent f li)) (l ++ pe0 :: pes) ->
    Q tt (V (set_l_lastevent la (set_l_firstevent f li)) lo fx evs')) ->
  wp (llist_append (LIn s) li pe0 pes) Q nocrash (V li lo fx evs).
Proof.
  intros R N Va HQ. unfold llist_append. pose proof N as N'. apply NoDup_app in N' as (_ & D & Np).
  assert (La : last (l ++ pe0 :: pes) = Some (List.last (pe0 :: pes) pe0)).
  { rewrite list_last_default, last_app. by destruct (last (pe0 :: pes)) eqn:E; [|apply last_None in E]. }
  wstep. destruct (l_cnt li =? 0) eqn:T; zbool.
  - assert (l = []) as -> by by eapply list_rep_nil.
    wstep; [done|]. wstep. apply wp_link_loop; [done|done|]. intros evs' R' Ch.
    wstep; [done|]. apply HQ; [done|]. split; [done|done|done|exact La].
  - assert (l <> []) as Nl by (intros X; by apply T, (list_rep_nil _ _ _ R)).
    pose proof (list_rep_walk _ _ _ R Nl) as [W1 W2 W3 W4].
    destruct (chain_in _ _ (l_lastevent li) W1) as [e E]; [by apply last_Some_elem_of|].
    eapply wp_str_ev0; [done|]. wstep.
    assert (R1 : relinked l evs (<[l_lastevent li := set_ev_next pe0 e]> evs)).
    { apply relinked_next; [done|]. by apply last_Some_elem_of. }
    apply wp_link_loop; [done|intros x Hx; eapply relinked_valid; [exact R1|by apply Va]|].
    intros evs' R' Ch. wstep; [done|].
    replace (set_l_lastevent (List.last (pe0 :: pes) pe0) li) with
      (set_l_lastevent (List.last (pe0 :: pes) pe0) (set_l_firstevent (l_firstevent li) li))
      by (by destruct li).
    apply HQ.
    + eapply relinked_trans; [| |exact R1|exact R']; set_solver.
    + split; [|done| |exact La].
      * eapply chain_join; [exact W1|exact W2|exact W4|exact E|exact R'|done|done|done].
      * cbn. by destruct l.
Qed.

(** The first event of high priority goes after those in the list. *)
Lemma wp_first_high {B} (k : M B) (Q : B -> et_mem -> Prop) evs H W x :
  walk evs li (H ++ W) -> x ∉ H ++ W -> is_Some (evs !! x) -> evs !! 0 = None ->
  (forall evs' f, relinked (x :: H ++ W) evs evs' -> chain evs' (H ++ x :: W) ->
    head (H ++ x :: W) = Some f -> wp k Q nocrash (V (set_l_firstevent f li) lo fx evs')) ->
  wp ((if negb (default NULL (last H) =? NULL) then
         let* eh := ld_ev 0 (default NULL (last H)) in
         str_ev 0 x (set_ev_next (ev_next eh)) ;;;
         str_ev 0 (default NULL (last H)) (set_ev_next x)
       else
         str_ev 0 x (set_ev_next (l_firstevent li)) ;;;
         str_list (LIn s) (set_l_firstevent x)) ;;; k) Q nocrash (V li lo fx evs).
Proof.
  intros [W1 W2 W3 W4] X [ex Ex] Null HQ. destruct (last H) as [a|] eqn:La; cbn [from_option id].
  - apply last_Some in La as [H' ->]. rewrite <- app_assoc in *. cbn [app] in *.
    destruct (chain_in _ _ a W1) as [ea Ea]; [set_solver|].
    assert (a <> NULL) as Na by (intros ->; unfold NULL in Ea; congruence).
    assert (x <> a) by set_solver.
    rewrite (proj2 (Z.eqb_neq _ _) Na). cbn [negb].
    wstep. wstep. eapply wp_ld_ev0; [done|].
    wstep. eapply wp_str_ev0; [done|]. eapply wp_str_ev0; [by rewrite lookup_insert_ne|].
    rewrite insert_insert_ne by done.
    replace li with (set_l_firstevent (l_firstevent li) li) by (by destruct li). apply HQ.
    + apply (relinked_trans [a] [x] _ evs (<[a := set_ev_next x ea]> evs)); [set_solver|set_solver|..].
      * apply relinked_next; [done|set_solver].
      * apply relinked_next; [by rewrite lookup_insert_ne|set_solver].
    + rewrite <- app_assoc. cbn [app]. apply chain_put; try done. intros b Hb.
      destruct W as [|c W]; [done|]. simplify_eq/=. apply chain_next in W1. unfold nxt in W1.
      rewrite Ea in W1. by simplify_eq/=.
    + rewrite <- app_assoc. destruct H'; simpl in *; congruence.
  - apply last_None in La as ->. cbn [app negb Z.eqb NULL] in *.
    wstep. wstep. eapply wp_str_ev0; [done|]. wstep; [done|]. apply HQ.
    + apply relinked_next; [done|set_solver].
    + destruct W as [|b W]; [done|]. simpl in W3. injection W3 as <-. by apply chain_cons.
    + done.
Qed.

(** The events of low priority are linked together and then appended. *)
Lemma wp_low_tail li' evs k ls (Q : unit -> et_mem -> Prop) :
  walk evs li' k -> NoDup (k ++ ls) -> (forall x, x ∈ ls -> is_Some (evs !! x)) ->
  (forall evs' la, relinked (k ++ ls) evs evs' -> walk evs' (set_l_lastevent la li') (k ++ ls) ->
    Q tt (V (set_l_lastevent la li') lo fx evs')) ->
  wp (match ls with
      | [] => ret tt
      | b :: rest' =>
          link_loop b rest' ;;;
          let* L := ld_list (LIn s) in
          str_ev 0 (l_lastevent L) (set_ev_next b) ;;;
          str_list (LIn s) (set_l_lastevent (List.last ls b))
      end) Q nocrash (V li' lo fx evs).
Proof.
  intros W N Va HQ. pose proof W as [W1 W2 W3 W4]. destruct ls as [|b ls].
  { wstep. replace li' with (set_l_lastevent (l_lastevent li') li') by (by destruct li').
    apply HQ; [apply relinked_refl|]. rewrite app_nil_r. by apply walk_list with li'. }
  pose proof N as N'. apply NoDup_app in N' as (_ & D & Nb).
  wstep. apply wp_link_loop; [done|done|]. intros evs1 R1 Ch1.
  wstep. wstep. assert (Ck : chain evs1 k) by (eapply relinked_chain; [exact R1|done|done]).
  destruct (chain_in _ _ (l_lastevent li') Ck) as [e E]; [by apply last_Some_elem_of|].
  wstep. eapply wp_str_ev0; [done|]. wstep; [done|].
  assert (R2 : relinked k evs1 (<[l_lastevent li' := set_ev_next b e]> evs1)).
  { apply relinked_next; [done|by apply last_Some_elem_of]. }
  apply HQ.
  - eapply relinked_trans; [| |exact R1|exact R2]; set_solver.
  - split; [|done| |].
    + eapply (chain_join []); [exact Ck|exact W2|exact W4|exact E|apply relinked_refl|set_solver| |done].
      eapply relinked_chain; [exact R2| |done]. intros c Hc Hk. by apply (D c).
    + cbn. rewrite head_app_Some. by left.
    + cbn [l_lastevent set_l_lastevent]. rewrite last_app, list_last_default.
      by destruct (last (b :: ls)) eqn:La; [|apply last_None in La].
Qed.

Lemma wp_llist_write_high evs l pe0 pes' hs ls (Q : unit -> et_mem -> Prop) :
  list_rep evs li l -> l <> [] -> pri_sorted (hi evs) l -> NoDup (l ++ pe0 :: pes') ->
  pes' = hs ++ ls -> all_high (hi evs) (pe0 :: hs) -> all_low (hi evs) ls ->
  (forall x, x ∈ pe0 :: pes' -> is_Some (evs !! x)) -> evs !! 0 = None ->
  (forall evs' f la, relinked (l ++ pe0 :: pes') evs evs' ->
    walk evs' (set_l_lastevent la (set_l_firstevent f li)) (pri_sort (hi evs) (l ++ pe0 :: pes')) ->
    Q tt (V (set_l_lastevent la (set_l_firstevent f li)) lo fx evs')) ->
  wp (llist_write_high (LIn s) li pe0 pes') Q nocrash (V li lo fx evs).
Proof.
  intros R Ne So N -> Hh Hl Va Null HQ. pose proof (list_rep_walk _ _ _ R Ne) as Wk.
  pose proof (pri_sorted_inv _ _ So) as El. set (H := highs (hi evs) l) in *. set (W := lows (hi evs) l) in *.
  assert (Srt : pri_sort (hi evs) (l ++ pe0 :: hs ++ ls) = (H ++ pe0 :: hs ++ W) ++ ls).
  { unfold pri_sort. change (pe0 :: hs ++ ls) with ((pe0 :: hs) ++ ls).
    rewrite !highs_app, !lows_app, (highs_high _ _ Hh), (highs_low _ _ Hl), (lows_high _ _ Hh), (lows_low _ _ Hl).
    fold H W. rewrite app_nil_r. cbn [app]. rewrite <- !app_assoc. cbn [app]. by rewrite <- app_assoc. }
  assert (Ah : all_high (hi evs) H) by apply all_high_highs.
  assert (Al : all_low (hi evs) W) by apply all_low_lows.
  rewrite Srt in HQ. clear Srt So. clearbody H W. rewrite El in *. clear El.
  assert (N1 : NoDup ((H ++ pe0 :: hs ++ W) ++ ls)).
  { assert (Pm : (H ++ pe0 :: hs ++ W) ++ ls ≡ₚ (H ++ W) ++ pe0 :: hs ++ ls) by solve_Permutation.
    by rewrite Pm. }
  pose proof N1 as N2. apply NoDup_app in N2 as (N2 & _ & _).
  assert (N3 : NoDup (H ++ pe0 :: W) /\ NoDup hs /\ forall x, x ∈ hs -> x ∉ H ++ pe0 :: W).
  { assert (Pm : H ++ pe0 :: hs ++ W ≡ₚ (H ++ pe0 :: W) ++ hs) by solve_Permutation.
    rewrite Pm in N2. apply NoDup_app in N2 as (? & N3 & ?). split; [done|]. split; [done|].
    intros x Hx Hx'. by apply (N3 x). }
  unfold llist_write_high. wstep. rewrite (lr_cnt _ _ _ R), Nat2Z.id.
  apply wp_find_lasthigh; [apply Wk|done|done| |].
  { intros a Ha. pose proof (wk_first _ _ _ Wk). congruence. }
  intros pv Hpv. apply (wp_first_high _ _ _ H W); [done| |apply Va; set_solver|done|].
  { intros X. apply NoDup_app in N as (_ & N & _). apply (N pe0 X). set_solver. }
  intros evs1 f R1 Ch1 Hf. wstep. destruct N3 as (N3 & N4 & N5).
  assert (Hext : forall x, hi evs1 x = hi evs x) by (intros x; eapply frame_hi, R1).
  apply (wp_link_highs _ W pv ls hs H pe0 evs1); try done.
  { intros x Hx. eapply relinked_valid; [exact R1|]. apply Va. set_solver. }
  { apply Forall_cons in Hh as [_ Hh]. eapply Forall_impl; [exact Hh|]. intros x. by rewrite Hext. }
  { eapply Forall_impl; [exact Hl|]. intros x. by rewrite Hext. }
  intros evs2 R2 Ch2.
  assert (Hw : exists la,
    (if 0 + Z.of_nat (length H) =? Z.of_nat (length (H ++ W))
     then set_l_lastevent (default pe0 (last hs)) (set_l_firstevent f li)
     else set_l_firstevent f li) = set_l_lastevent la (set_l_firstevent f li) /\
    last (H ++ pe0 :: hs ++ W) = Some la).
  { rewrite length_app. pose proof (wk_last _ _ _ Wk) as Lw. destruct W as [|w W].
    - rewrite (proj2 (Z.eqb_eq _ _)) by (simpl; lia). eexists. split; [done|].
      rewrite app_nil_r, last_app, last_cons. by destruct (last hs).
    - rewrite (proj2 (Z.eqb_neq _ _)) by (simpl; lia). exists (l_lastevent li).
      split; [by destruct li|]. rewrite app_comm_cons, app_assoc, last_app, last_cons.
      rewrite last_app, last_cons in Lw. by destruct (last W). }
  destruct Hw as (la & Ela & Hla).
  assert (Wk2 : walk evs2 (set_l_lastevent la (set_l_firstevent f li)) (H ++ pe0 :: hs ++ W)).
  { split; [done|done| |done]. destruct H; simpl in *; congruence. }
  assert (Htail : wp (match ls with
      | [] => ret tt
      | b :: rest' =>
          link_loop b rest' ;;;
          let* L := ld_list (LIn s) in
          str_ev 0 (l_lastevent L) (set_ev_next b) ;;;
          str_list (LIn s) (set_l_lastevent (List.last ls b))
      end) Q nocrash (V (set_l_lastevent la (set_l_firstevent f li)) lo fx evs2)).
  { apply (wp_low_tail _ _ (H ++ pe0 :: hs ++ W)); [done|done| |].
    { intros x Hx. eapply relinked_valid; [exact R2|]. eapply relinked_valid; [exact R1|].
      apply Va. set_solver. }
    intros evs3 la' R3 Wk3. apply (HQ evs3 f la'); [|done].
    eapply (relinked_trans (pe0 :: H ++ W) ((H ++ pe0 :: hs ++ W) ++ ls)); [| |exact R1|]; [set_solver|set_solver|].
    eapply relinked_trans; [| |exact R2|exact R3]; set_solver. }
  wstep. wstep. destruct (_ =? _); rewrite <- Ela in Htail; [wstep; done|done].
Qed.

Lemma wp_llist_follow li' evs l : forall a (Q : list Z -> et_mem -> Prop),
  chain evs (a :: l) -> Q (a :: l) (V li' lo fx evs) ->
  wp (llist_follow (length l) a) Q nocrash (V li' lo fx evs).
Proof.
  induction l as [|b l IH]; intros a Q Ch HQ; cbn [length llist_follow]; [by wstep|].
  destruct Ch as (_ & Ch & Nx). apply nxt_lookup in Nx as (e & E & <-).
  wstep. eapply wp_ld_ev0; [done|]. wstep. apply IH; [done|]. by wstep.
Qed.
End llist.

Lemma pri_sorted_take {A} (h : A -> bool) n l : pri_sorted h l -> pri_sorted h (take n l).
Proof.
  intros S. rewrite (pri_sorted_inv _ _ S), take_app.
  apply pri_sorted_intro; apply Forall_take; [apply all_high_highs|apply all_low_lows].
Qed.

(** What the caller of et_llist_write guarantees: [s] is a station with the events [l] in its input
    list, and [pes] are other events of the system, both in priority order. *)
Record move_pre (m : et_mem) (s : Z) (ps : et_station) (l pes : list Z) : Prop := mkMovePre {
  mv_stat : m_stats m !! s = Some ps;
  mv_in : list_rep (m_events m) (st_list_in ps) l;
  mv_null : m_events m !! 0 = None;
  mv_nodup : NoDup (l ++ pes);
  mv_owner : Forall (fun a => owner (m_events m) a = Some ET_SYS) pes
}.

(** The list of [s] then holds [l'], the counter of the events put in is increased by [num], and
    nothing but links of events changed. *)
Definition moved (m : et_mem) (s : Z) (ps : et_station) (k l' : list Z) (num : Z) (m' : et_mem) : Prop :=
  exists f la evs,
    let li := st_list_in ps in
    let li' := set_l_cnt (l_cnt li + num) (set_l_events_in (u64 (l_events_in li + num))
                 (set_l_lastevent la (set_l_firstevent f li))) in
    m' = lview m s ps li' (st_list_out ps) (st_fix ps) evs /\
    list_rep evs li' l' /\ relinked k (m_events m) evs.

Section write.
Context (m : et_mem) (s : Z) (ps : et_station) (l pes : list Z).
Hypothesis P : move_pre m s ps l pes.
Abbreviation V := (lview m s ps).

Lemma move_valid x : x ∈ pes -> exists e, m_events m !! x = Some e.
Proof.
  intros Hx. pose proof (mv_owner _ _ _ _ _ P) as O. rewrite List.Forall_forall in O.
  apply list_elem_of_In, O in Hx. unfold owner in Hx.
  destruct (m_events m !! x) as [e|]; [by exists e|done].
Qed.

Lemma move_owner : Forall (fun a => owner (m_events m) a = Some ET_SYS) (l ++ pes).
Proof. apply Forall_app. split; [apply P|apply P]. Qed.

(** The end of a write of [pes1], a part of [pes]; the list holds [k], in the order of the write. *)
Lemma wp_llist_finish pes1 k r evs' f la num (Q : Z -> et_mem -> Prop) :
  k ≡ₚ l ++ pes1 -> pes1 ⊆ pes -> relinked (l ++ pes1) (m_events m) evs' ->
  walk evs' (set_l_lastevent la (set_l_firstevent f (st_list_in ps))) k ->
  num = Z.of_nat (length pes1) -> (forall m', moved m s ps (l ++ pes) k num m' -> Q r m') ->
  wp (str_list (LIn s) (fun L => set_l_events_in (u64 (l_events_in L + num)) L) ;;;
      str_list (LIn s) (fun L => set_l_cnt (l_cnt L + num) L) ;;; ret r) Q (fun _ => True)
    (V (set_l_lastevent la (set_l_firstevent f (st_list_in ps))) (st_list_out ps) (st_fix ps) evs').
Proof.
  intros Pm Sub R W -> HQ.
  eapply (wp_llist_count m s ps _ _ _ (m_events m) evs' l k); [exact R|exact W|apply P| | |].
  - rewrite Pm, length_app. lia.
  - rewrite Pm. apply Forall_app. split; [apply P|]. apply List.Forall_forall. intros a Ha.
    pose proof (mv_owner _ _ _ _ _ P) as O. rewrite List.Forall_forall in O.
    apply O, list_elem_of_In, Sub. by apply list_elem_of_In.
  - intros li2 L2 ->. apply HQ. exists f, la, evs'. cbv zeta. split; [done|]. split; [done|].
    eapply relinked_trans; [|reflexivity|exact R|apply relinked_refl]. set_solver.
Qed.

Lemma move_disj x : x ∈ pes -> x ∉ l.
Proof.
  pose proof (mv_nodup _ _ _ _ _ P) as N. apply NoDup_app in N as (_ & N & _).
  intros Hx Hl. by apply (N x).
Qed.

(** The events of a low first event, or into an empty list, are already in order. *)
Lemma append_sorted pe0 pes' e0 :
  m_events m !! pe0 = Some e0 -> pri_sorted (hi (m_events m)) l ->
  pri_sorted (hi (m_events m)) (pe0 :: pes') ->
  (ev_priority e0 =? ET_LOW) || (l_cnt (st_list_in ps) =? 0) = true ->
  pri_sort (hi (m_events m)) (l ++ pe0 :: pes') = l ++ pe0 :: pes'.
Proof.
  intros E0 Sl Sp T. apply orb_true_iff in T as [T|T]; zbool.
  - pose proof (hi_low _ _ _ E0 T) as Lo. pose proof (pri_sorted_inv _ _ Sp) as Ep.
    assert (Hh : highs (hi (m_events m)) (pe0 :: pes') = []).
    { destruct (highs _ _) as [|b k] eqn:Eb; [done|]. injection Ep as -> _.
      pose proof (all_high_highs (hi (m_events m)) (b :: pes')) as Ab. rewrite Eb in Ab.
      apply Forall_cons in Ab as [Ab _]. congruence. }
    unfold pri_sort. rewrite highs_app, lows_app, Hh, app_nil_r.
    rewrite (pri_sorted_inv _ _ Sl) at 3. rewrite <- app_assoc. do 2 f_equal.
    rewrite Hh in Ep. simpl in Ep. by rewrite Ep at 2.
  - assert (l = []) as -> by (by eapply list_rep_nil; [apply P|]). exact Sp.
Qed.

(** Writing [pe0 :: pes'], as many events as there is room for. *)
Lemma wp_llist_write_events pe0 pes' e0 num (Q : Z -> et_mem -> Prop) :
  let pes1 := pe0 :: pes' in
  pri_sorted (hi (m_events m)) l -> pri_sorted (hi (m_events m)) pes1 -> ev_ok (m_events m) ->
  pes1 ⊆ pes -> NoDup (l ++ pes1) -> num = Z.of_nat (length pes1) ->
  m_events m !! pe0 = Some e0 ->
  (forall m', moved m s ps (l ++ pes) (pri_sort (hi (m_events m)) (l ++ pes1)) num m' -> Q num m') ->
  wp ((if (ev_priority e0 =? ET_LOW) || (l_cnt (st_list_in ps) =? 0)
       then llist_append (LIn s) (st_list_in ps) pe0 pes'
       else llist_write_high (LIn s) (st_list_in ps) pe0 pes') ;;;
      str_list (LIn s) (fun L => set_l_events_in (u64 (l_events_in L + num)) L) ;;;
      str_list (LIn s) (fun L => set_l_cnt (l_cnt L + num) L) ;;; ret num) Q (fun _ => True)
    (V (st_list_in ps) (st_list_out ps) (st_fix ps) (m_events m)).
Proof.
  intros pes1 Sl Sp Ok Sub Nd Hn E0 HQ.
  assert (Va : forall x, x ∈ pes1 -> is_Some (m_events m !! x))
    by (intros x Hx; destruct (move_valid x) as [e ->]; [by apply Sub|done]).
  wstep. destruct (_ || _) eqn:T.
  - pose proof (append_sorted _ _ _ E0 Sl Sp T) as Srt. fold pes1 in Srt. rewrite Srt in HQ.
    eapply wp_llist_append; [apply P|exact Nd|exact Va|]. intros evs' f la R W.
    by apply (wp_llist_finish pes1 (l ++ pes1)).
  - apply orb_false_iff in T as [T1 T2]; zbool.
    assert (hi (m_events m) pe0 = true) as Hp.
    { eapply hi_high; [done|]. by destruct (eo_prio _ Ok _ _ E0). }
    pose proof (pri_sorted_inv _ _ Sp) as Ep. unfold pes1 in Ep. cbn in Ep. rewrite Hp in Ep.
    cbn in Ep. injection Ep as Ep.
    eapply (wp_llist_write_high _ _ _ _ _ _ _ l pe0 pes'); [apply P| |exact Sl|exact Nd|exact Ep| | | | |].
    + intros ->. apply T2. by rewrite (lr_cnt _ _ _ (mv_in _ _ _ _ _ P)).
    + apply Forall_cons. split; [done|apply all_high_highs].
    + apply all_low_lows.
    + exact Va.
    + apply P.
    + intros evs' f la R W. apply (wp_llist_finish pes1 (pri_sort (hi (m_events m)) (l ++ pes1)));
        [apply pri_sort_perm|done..].
Qed.

Lemma wp_llist_write pes1 :
  let room := cf_nevents (sys_config (m_sys m)) - Z.of_nat (length l) in
  pri_sorted (hi (m_events m)) l -> pri_sorted (hi (m_events m)) pes -> ev_ok (m_events m) ->
  1 <= room -> pes <> [] -> pes1 = take (Z.to_nat room) pes ->
  wp (et_llist_write (LIn s) pes)
    (fun r m' => r = Z.of_nat (length pes1) /\
       moved m s ps (l ++ pes) (pri_sort (hi (m_events m)) (l ++ pes1)) r m') (fun _ => True) m.
Proof.
  intros room Sl Sp Ok Rm Ne E1. pose proof (lr_cnt _ _ _ (mv_in _ _ _ _ _ P)) as Cn.
  apply (wp_lview m s ps); [apply P|]. unfold et_llist_write.
  wstep. wstep. wstep. wstep. cbv zeta. rewrite Cn. fold room.
  set (num := if room <? _ then _ else _).
  assert (Hn : num = Z.of_nat (length pes1) /\ take (Z.to_nat num) pes = pes1).
  { rewrite E1, length_take. unfold num. destruct (room <? _) eqn:T; zbool.
    - split; [lia|done].
    - split; [lia|]. rewrite !take_ge by lia. done. }
  destruct Hn as [Hn ->]. clearbody num.
  destruct pes1 as [|pe0 pes'].
  { apply (f_equal length) in E1. rewrite length_take in E1. destruct pes; [done|]. simpl in E1. lia. }
  assert (Sub : pe0 :: pes' ⊆ pes) by (rewrite E1; apply subseteq_take).
  destruct (move_valid pe0) as [e0 E0]; [apply Sub; set_solver|].
  wstep. eapply wp_ld_ev0; [done|]. rewrite <- Cn.
  apply wp_llist_write_events; try done.
  - rewrite E1. by apply pri_sorted_take.
  - pose proof (mv_nodup _ _ _ _ _ P) as N. apply NoDup_app in N as (N1 & N2 & N3). apply NoDup_app.
    split; [done|]. split; [set_solver|]. rewrite E1.
    rewrite <- (take_drop (Z.to_nat room) pes) in N3. by apply NoDup_app in N3 as (N3 & _ & _).
Qed.

Lemma wp_llist_write_gc pe0 pes' :
  s = ET_GRANDCENTRAL -> pes = pe0 :: pes' ->
  Z.of_nat (length pes) <= cf_nevents (sys_config (m_sys m)) - Z.of_nat (length l) ->
  wp (et_llist_write_gc (pe0 :: pes'))
    (fun r m' => r = ET_OK /\ moved m s ps (l ++ pes) (l ++ pes) (Z.of_nat (length pes)) m')
    (fun _ => True) m.
Proof.
  intros Es E Rm. pose proof (lr_cnt _ _ _ (mv_in _ _ _ _ _ P)) as Cn.
  apply (wp_lview m s ps); [apply P|]. unfold et_llist_write_gc. rewrite <- Es, <- E.
  wstep. wstep. wstep. wstep. rewrite Cn. destruct (_ <? _) eqn:T; zbool; [lia|]. wstep.
  eapply wp_llist_append; [apply P|rewrite <- E; apply P| |].
  { intros x Hx. rewrite <- E in Hx. destruct (move_valid x Hx) as [e ->]. done. }
  rewrite <- E. intros evs' f la R W. apply (wp_llist_finish pes (l ++ pes)); try done.
Qed.
End write.

(** ** The specifications *)

(** C31: et_llist_write returns the number of events for which there is room, and the input list
    then holds its old events and that many of the new ones, stably sorted with those of high
    priority first: the branches of the code agree with one stable sort.  The owners, the other
    lists and all data of the events are as before. *)
Theorem et_llist_write_spec m s ps l pes :
  let room := cf_nevents (sys_config (m_sys m)) - Z.of_nat (length l) in
  let pes1 := take (Z.to_nat room) pes in
  move_pre m s ps l pes -> ev_ok (m_events m) ->
  pri_sorted (hi (m_events m)) l -> pri_sorted (hi (m_events m)) pes ->
  1 <= room -> pes <> [] ->
  exists x m', run (et_llist_write (LIn s) pes) m = Ok (Z.of_nat (length pes1)) x m' /\
    moved m s ps (l ++ pes) (pri_sort (hi (m_events m)) (l ++ pes1)) (Z.of_nat (length pes1)) m'.
Proof.
  intros room pes1 P Ok Sl Sp Rm Ne.
  destruct (wp_run _ _ _ _ (wp_llist_write m s ps l pes P pes1 Sl Sp Ok Rm Ne eq_refl))
    as (r & x & m' & E & -> & H). eauto.
Qed.

(** Et_llist_write_gc appends all events to GrandCentral's input list in their order whatever
    their priority, or returns ET_ERROR and changes nothing if there is no room for all of them. *)
Theorem et_llist_write_gc_spec m ps l pe0 pes' :
  let pes := pe0 :: pes' in
  move_pre m ET_GRANDCENTRAL ps l pes ->
  let room := cf_nevents (sys_config (m_sys m)) - Z.of_nat (length l) in
  (Z.of_nat (length pes) <= room ->
    exists x m', run (et_llist_write_gc pes) m = Ok ET_OK x m' /\
      moved m ET_GRANDCENTRAL ps (l ++ pes) (l ++ pes) (Z.of_nat (length pes)) m') /\
  (room < Z.of_nat (length pes) ->
    exists x, run (et_llist_write_gc pes) m = Ok ET_ERROR x m).
Proof.
  intros pes P room. split; intros Rm.
  - destruct (wp_run _ _ _ _ (wp_llist_write_gc m _ ps l pes P pe0 pes' eq_refl eq_refl Rm))
      as (r & x & m' & E & -> & H). eauto.
  - eexists. unfold run, et_llist_write_gc. erewrite bind_ok by done.
    erewrite bind_ok by (apply ld_list_ok, P). cbn [st_list].
    rewrite (lr_cnt _ _ _ (mv_in _ _ _ _ _ P)). apply Z.ltb_lt in Rm. unfold room in Rm.
    by rewrite Rm.
Qed.

(** Taking all events off an output list. *)
Lemma wp_llist_read m s ps l :
  m_stats m !! s = Some ps -> list_rep (m_events m) (st_list_out ps) l -> l <> [] ->
  wp (et_llist_read (LOut s)) (fun r m' => r = (Z.of_nat (length l), l) /\
    m' = lview m s ps (st_list_in ps) (set_l_events_out (u64 (l_events_out (st_list_out ps) +
      Z.of_nat (length l))) (set_l_lasthigh 0 (set_l_cnt 0 (set_l_firstevent NULL (st_list_out ps)))))
      (st_fix ps) (m_events m)) (fun _ => True) m.
Proof.
  intros Hs R Ne. pose proof (lr_cnt _ _ _ R) as Cn. pose proof (list_rep_walk _ _ _ R Ne) as [W1 _ W3 _].
  destruct l as [|a l]; [done|]. injection W3 as Ha. apply (wp_lview m s ps); [done|]. unfold et_llist_read. wstep. wstep. rewrite Cn.
  rewrite (proj2 (Z.eqb_neq _ _)) by (simpl; lia). wstep. rewrite <- Ha.
  replace (Z.to_nat _) with (length l) by (simpl; lia). apply wp_llist_follow; [done|].
  do 4 (wstep; wstep; [done|]). by wstep.
Qed.

(** Et_llist_read takes all events off a list in their order and leaves an empty list; on an
    empty list it returns ET_ERROR and changes nothing. *)
Theorem et_llist_read_spec m s ps l :
  m_stats m !! s = Some ps -> list_rep (m_events m) (st_list_out ps) l ->
  (l = [] -> exists x, run (et_llist_read (LOut s)) m = Ok (ET_ERROR, []) x m) /\
  (l <> [] -> exists x m', run (et_llist_read (LOut s)) m = Ok (Z.of_nat (length l), l) x m' /\
     let lo := st_list_out ps in
     m' = upd_list (LOut s) (fun _ => set_l_events_out (u64 (l_events_out lo + Z.of_nat (length l)))
            (set_l_lasthigh 0 (set_l_cnt 0 (set_l_firstevent NULL lo)))) m).
Proof.
  intros Hs R. pose proof (lr_cnt _ _ _ R) as Cn. split.
  - intros ->. eexists. unfold run, et_llist_read. erewrite bind_ok by (by apply ld_list_ok).
    cbn [st_list]. by rewrite Cn.
  - intros Ne. pose proof (wp_llist_read m s ps _ Hs R Ne) as H.
    apply wp_run in H as (r & x & m' & E & -> & ->). eexists _, _. split; [done|]. cbv zeta.
    rewrite (lview_intro m s ps) at 3 by done. unfold upd_list. cbn [lstat]. by erewrite lview_upd.
Qed.

Lemma move_pre0 : move_pre mem0 1 (stat0 1) [200; 100] [300; 400].
Proof. split; try by_eval. apply mem0_in1. Qed.

Lemma et_llist_write_spec_witness :
  exists x m', run (et_llist_write (LIn 1) [300; 400]) mem0 = Ok 2 x m' /\
    moved mem0 1 (stat0 1) ([200; 100] ++ [300; 400]) [200; 300; 100; 400] 2 m'.
Proof.
  apply (et_llist_write_spec mem0 1 (stat0 1) [200; 100] [300; 400]);
    [apply move_pre0|apply mem0_ev_ok|reflexivity|reflexivity|by_eval|done].
Defined.

Lemma et_llist_write_gc_spec_witness :
  exists x m', run (et_llist_write_gc [100; 300]) mem0 = Ok ET_OK x m' /\
    moved mem0 0 (stat0 0) ([700; 800] ++ [100; 300]) [700; 800; 100; 300] 2 m'.
Proof.
  apply (et_llist_write_gc_spec mem0 (stat0 0) [700; 800] 100 [300]); [|by_eval].
  split; try by_eval. apply mem0_gc.
Defined.

Lemma et_llist_read_spec_witness :
  exists x m', run (et_llist_read (LOut 1)) mem0 = Ok (2, [300; 400]) x m'.
Proof.
  destruct (et_llist_read_spec mem0 1 (stat0 1) [300; 400] eq_refl (or_list _ _ _ mem0_out1)) as [_ H].
  destruct (H ltac:(done)) as (x & m' & E & _). by exists x, m'.
Defined.
