(* ===== verification/Dump.v ===== *)
(** * Dumping events into GrandCentral

    et_station_dump and et_station_ndump of et_readwrite.c: user processes write events directly
    into GrandCentral's input list, in their order and whatever their priority. *)
From stdpp Require Import base gmap strings list.
From S2P Require Import Prelude Types Machine EvList Local Sample Write Repair.
Open Scope Z_scope.

Definition et_station_dump (id : et_id) (pe : Z) : M Z :=
  let pl := LIn ET_GRANDCENTRAL in
  let off := id_offset id in
  let pe_ET := ET_PEVENT2ET pe off in
  et_llist_lock pl ;;;
  let* y := ld_sys in
  let* L := ld_list pl in
  if cf_nevents (sys_config y) <=? l_cnt L then et_llist_unlock pl ;;; ret ET_ERROR
  else
    when (l_cnt L =? 0) (str_list pl (set_l_firstevent NULL)) ;;;
    str_fix ET_GRANDCENTRAL (set_fix_in_eventsin (l_events_in L)) ;;;
    str_fix ET_GRANDCENTRAL (set_fix_in_cnt (l_cnt L)) ;;;
    str_fix ET_GRANDCENTRAL (set_fix_in_num 1) ;;;
    str_fix ET_GRANDCENTRAL (set_fix_in_call ET_FIX_DUMP) ;;;
    str_fix ET_GRANDCENTRAL (fun x => set_fix_in_start (fix_in_start x + 1) x) ;;;
    (if l_cnt L =? 0 then str_list pl (set_l_firstevent pe_ET)
     else str_ev off (ET_PEVENT2USR (l_lastevent L) off) (set_ev_next pe_ET)) ;;;
    str_list pl (set_l_lastevent pe_ET) ;;;
    str_ev off pe (set_ev_owner ET_SYS) ;;;
    str_list pl (fun L => set_l_cnt (l_cnt L + 1) L) ;;;
    str_list pl (fun L => set_l_events_in (u64 (l_events_in L + 1)) L) ;;;
    str_fix ET_GRANDCENTRAL (fun x => set_fix_in_start (fix_in_start x - 1) x) ;;;
    et_llist_unlock pl ;;;
    signal_cread pl ;;;
    ret ET_OK.

(** The for loop of et_station_ndump, with its local [pe_last]. *)
Fixpoint ndump_loop (off : Z) (pl : lptr) (pe_last : Z) (pes : list Z) : M unit :=
  match pes with
  | [] => ret tt
  | pe :: pes' =>
      let pe_ET := ET_PEVENT2ET pe off in
      str_ev off pe_last (set_ev_next pe_ET) ;;;
      str_list pl (set_l_lastevent pe_ET) ;;;
      str_ev off pe (set_ev_owner ET_SYS) ;;;
      str_list pl (fun L => set_l_cnt (l_cnt L + 1) L) ;;;
      ndump_loop off pl pe pes'
  end.

Definition et_station_ndump (id : et_id) (pes : list Z) : M Z :=
  let pl := LIn ET_GRANDCENTRAL in
  let off := id_offset id in
  let num := Z.of_nat (length pes) in
  match pes with
  | [] => ret ET_OK
  | pe0 :: pes' =>
    et_llist_lock pl ;;;
    let* y := ld_sys in
    let* L := ld_list pl in
    if cf_nevents (sys_config y) - l_cnt L <? num then et_llist_unlock pl ;;; ret ET_ERROR
    else
      when (l_cnt L =? 0) (str_list pl (set_l_firstevent NULL)) ;;;
      str_fix ET_GRANDCENTRAL (set_fix_in_eventsin (l_events_in L)) ;;;
      str_fix ET_GRANDCENTRAL (set_fix_in_cnt (l_cnt L)) ;;;
      str_fix ET_GRANDCENTRAL (set_fix_in_num num) ;;;
      str_fix ET_GRANDCENTRAL (set_fix_in_call ET_FIX_DUMP) ;;;
      str_fix ET_GRANDCENTRAL (fun x => set_fix_in_start (fix_in_start x + 1) x) ;;;
      let* rest :=
        (if l_cnt L =? 0 then
           let pe_ET := ET_PEVENT2ET pe0 off in
           str_list pl (set_l_firstevent pe_ET) ;;;
           str_list pl (set_l_lastevent pe_ET) ;;;
           str_ev off pe0 (set_ev_owner ET_SYS) ;;;
           str_list pl (fun L => set_l_cnt (l_cnt L + 1) L) ;;;
           ret pes'
         else ret pes) in
      let* L := ld_list pl in
      ndump_loop off pl (ET_PEVENT2USR (l_lastevent L) off) rest ;;;
      str_fix ET_GRANDCENTRAL (fun x => set_fix_in_start (fix_in_start x - 1) x) ;;;
      et_llist_unlock pl ;;;
      signal_cread pl ;;;
      ret ET_OK
  end.

(** ** Correctness *)

(** What a caller must guarantee: GrandCentral's input list holds [l0] and is not in use; [xs] are
    other, distinct events. *)
Record dump_pre (m : et_mem) (ps : et_station) (off : Z) (l0 xs : list Z) : Prop := mkDumpPre {
  dp_stat : m_stats m !! ET_GRANDCENTRAL = Some ps;
  dp_in : list_rep (m_events m) (st_list_in ps) l0;
  dp_mutex : l_mutex (st_list_in ps) = false;
  dp_start : fix_in_start (st_fix ps) = 0;
  dp_first : fix_in_first (st_fix ps) = NULL;
  dp_null : m_events m !! 0 = None;
  dp_nodup : NoDup xs;
  dp_disj : forall x, x ∈ xs -> x ∉ l0;
  dp_dom : forall x, x ∈ xs -> is_Some (m_events m !! x)
}.

(** A list during a dump: its repair is pending. *)
Inductive dip_shape (n0 num : Z) (li : et_list) (evs : gmap Z et_event) : list Z -> Prop :=
| ds_none : n0 = 0 -> 1 <= num -> l_cnt li = 0 -> l_firstevent li = NULL -> dip_shape n0 num li evs []
| ds_first x : n0 = 0 -> 1 <= num -> l_cnt li = 0 -> l_firstevent li = x -> is_Some (evs !! x) ->
    dip_shape n0 num li evs [x]
| ds_walk l : 0 < l_cnt li < n0 + num -> walk evs li l -> Z.of_nat (length l) <= n0 + num ->
    dip_shape n0 num li evs l
| ds_full l : l_cnt li = n0 + num -> list_rep evs li l -> dip_shape n0 num li evs l.

Record dip (n0 num : Z) (li : et_list) (fx : et_fix) (evs : gmap Z et_event) (l : list Z) : Prop := mkDip {
  dip_mutex : l_mutex li = true;
  dip_start : fix_in_start fx = 1;
  dip_cnt : fix_in_cnt fx = n0;
  dip_num : fix_in_num fx = num;
  dip_call : fix_in_call fx = ET_FIX_DUMP;
  dip_sh : dip_shape n0 num li evs l
}.

Definition dump_crash (m : et_mem) (ps : et_station) (l0 xs : list Z) (m' : et_mem) : Prop :=
  exists li fx evs k,
    m' = lview m ET_GRANDCENTRAL ps li (st_list_out ps) fx evs /\ (k <= length xs)%nat /\
    frame (l0 ++ xs) (m_events m) evs /\
    let l := l0 ++ take k xs in
    (forall a, a ∉ l -> owner evs a = owner (m_events m) a) /\
    ((list_rep evs li l /\ fix_in_start fx = 0 /\ fix_in_first fx = NULL) \/
     dip (Z.of_nat (length l0)) (Z.of_nat (length xs)) li fx evs l).

(** The result of a complete dump; [ein] is the counter of the events put into the list. *)
Definition dumped (m : et_mem) (ps : et_station) (l0 xs : list Z) (ein : Z) (m' : et_mem) : Prop :=
  exists li fx evs,
    m' = lview m ET_GRANDCENTRAL ps li (st_list_out ps) fx evs /\ list_rep evs li (l0 ++ xs) /\
    fix_in_start fx = 0 /\ fix_in_first fx = NULL /\ l_mutex li = false /\
    l_cread li = S (l_cread (st_list_in ps)) /\
    l_events_in li = ein /\
    frame (l0 ++ xs) (m_events m) evs.

Section dump.
Context (m : et_mem) (ps : et_station) (off : Z) (l0 xs : list Z) (ein : Z).
Hypothesis P : dump_pre m ps off l0 xs.
Abbreviation GC := ET_GRANDCENTRAL.
Abbreviation V li := (lview m GC ps li (st_list_out ps)).
Abbreviation C := (dump_crash m ps l0 xs).
Abbreviation at_ k := (l0 ++ take k xs).

Lemma dat_length k : (k <= length xs)%nat -> length (at_ k) = (length l0 + k)%nat.
Proof. intros K. rewrite length_app, length_take. lia. Qed.

Lemma dat_S k x : xs !! k = Some x -> at_ k ++ [x] = at_ (S k).
Proof. intros E. by rewrite <- app_assoc, (take_S_r _ _ x). Qed.

Lemma dat_notin k x : xs !! k = Some x -> x ∉ at_ k.
Proof.
  intros E. rewrite elem_of_app. intros [H|H].
  - apply (dp_disj _ _ _ _ _ P x); [|done]. by apply list_elem_of_lookup_2 in E.
  - apply elem_of_take in H as (i & Hi & L).
    pose proof (NoDup_lookup _ _ _ _ (dp_nodup _ _ _ _ _ P) E Hi). lia.
Qed.

Lemma dat_subset k : at_ k ⊆ l0 ++ xs.
Proof.
  intros a. rewrite !elem_of_app. intros [H|H]; [by left|right].
  apply elem_of_take in H as (i & Hi & _). by apply list_elem_of_lookup_2 in Hi.
Qed.

(** The state between two iterations. *)
Record dinv (k : nat) li fx evs : Prop := mkDinv {
  di_k : (k <= length xs)%nat;
  di_rep : list_rep evs li (at_ k);
  di_mutex : l_mutex li = true;
  di_cread : l_cread li = l_cread (st_list_in ps);
  di_ein : l_events_in li = ein;
  di_start : fix_in_start fx = 1;
  di_cnt : fix_in_cnt fx = Z.of_nat (length l0);
  di_num : fix_in_num fx = Z.of_nat (length xs);
  di_call : fix_in_call fx = ET_FIX_DUMP;
  di_first : fix_in_first fx = NULL;
  di_frame : frame (l0 ++ xs) (m_events m) evs;
  di_owner : forall a, a ∉ at_ k -> owner evs a = owner (m_events m) a
}.

Lemma dip_crash k li fx evs :
  (k <= length xs)%nat -> frame (l0 ++ xs) (m_events m) evs ->
  (forall a, a ∉ at_ k -> owner evs a = owner (m_events m) a) ->
  dip (Z.of_nat (length l0)) (Z.of_nat (length xs)) li fx evs (at_ k) -> C (V li fx evs).
Proof. intros K F O W. exists li, fx, evs, k. split; [done|]. split; [done|]. split; [done|]. split; [done|]. by right. Qed.

Lemma dump_idle_crash k li fx evs :
  (k <= length xs)%nat -> frame (l0 ++ xs) (m_events m) evs ->
  (forall a, a ∉ at_ k -> owner evs a = owner (m_events m) a) ->
  list_rep evs li (at_ k) -> fix_in_start fx = 0 -> fix_in_first fx = NULL -> C (V li fx evs).
Proof. intros K F O R St Fi. exists li, fx, evs, k. split; [done|]. split; [done|]. split; [done|]. split; [done|]. by left. Qed.

Lemma dinv_crash k li fx evs : dinv k li fx evs -> at_ k <> [] -> C (V li fx evs).
Proof.
  intros [H1 H2 H3 H4 H4' H5 H6 H7 H8 H9 H10 H11] Ne. apply (dip_crash k); try done. split; try done.
  pose proof (lr_cnt _ _ _ H2) as Cn. rewrite dat_length in Cn by done.
  assert (length (at_ k) <> O) as Nz by (by destruct (at_ k)). rewrite dat_length in Nz by done.
  destruct (decide (k = length xs)) as [->|Nk].
  - apply ds_full; [lia|done].
  - apply ds_walk; [lia|by apply list_rep_walk|rewrite dat_length by done; lia].
Qed.

(** One event: from the link to the count. *)
Lemma wp_dump_one {B} (kont : M B) (Q : B -> et_mem -> Prop) k x li fx evs :
  dinv k li fx evs -> at_ k <> [] -> xs !! k = Some x ->
  (forall li' evs', dinv (S k) li' fx evs' -> l_lastevent li' = x -> wp kont Q C (V li' fx evs')) ->
  wp (str_ev off (l_lastevent li + off) (set_ev_next x) ;;;
      str_list (LIn GC) (set_l_lastevent x) ;;;
      str_ev off (x + off) (set_ev_owner ET_SYS) ;;;
      str_list (LIn GC) (fun L => set_l_cnt (l_cnt L + 1) L) ;;; kont) Q C (V li fx evs).
Proof.
  intros I Ne Ex HQ. pose proof I as [H1 H2 H3 H4 H4' H5 H6 H7 H8 H9 H10 H11].
  pose proof (list_rep_walk _ _ _ H2 Ne) as W. pose proof (lookup_lt_Some _ _ _ Ex) as Lk.
  destruct (chain_in _ _ (l_lastevent li) (wk_chain _ _ _ W)) as [el El]; [by apply last_Some_elem_of, W|].
  destruct (frame_lookup _ _ _ x H10) as [ex Exx]; [apply P; by apply list_elem_of_lookup_2 in Ex|].
  assert (Ix : x ∈ l0 ++ xs) by (apply elem_of_app; right; by apply list_elem_of_lookup_2 in Ex).
  assert (Cn : 0 < l_cnt li < Z.of_nat (length l0) + Z.of_nat (length xs)).
  { pose proof (lr_cnt _ _ _ H2) as Cn. assert (length (at_ k) <> O) as Nz by (by destruct (at_ k)).
    rewrite dat_length in * by done. lia. }
  destruct (link_snoc evs li (at_ k) x el) as (W1 & W2 & F & O); [done|by apply dat_notin|done|done|].
  rewrite (dat_S k x) in W2 by done. set (evs1 := <[l_lastevent li := _]> evs) in *.
  assert (F1 : frame (l0 ++ xs) (m_events m) evs1).
  { apply (frame_trans (l0 ++ xs) (x :: at_ k) _ _ evs); try done.
    intros a Ha. apply elem_of_cons in Ha as [->|Ha]; [done|by apply (dat_subset k)]. }
  assert (O1 : forall a, a ∉ at_ k -> owner evs1 a = owner (m_events m) a) by (intros a Ha; rewrite O; auto).
  assert (Hin : forall a, a ∉ at_ (S k) -> (a ∉ at_ k) /\ a <> x).
  { intros a. rewrite <- (dat_S k x) by done. set_solver. }
  destruct (frame_lookup _ _ _ x F) as [e1 E1]; [done|].
  assert (F2 : frame (l0 ++ xs) (m_events m) (<[x := set_ev_owner ET_SYS e1]> evs1)).
  { eapply (frame_trans (l0 ++ xs) [x]); [done|set_solver|exact F1|]. eapply frame_insert; [done|set_solver|done]. }
  assert (O2 : forall a, a ∉ at_ (S k) -> owner (<[x := set_ev_owner ET_SYS e1]> evs1) a = owner (m_events m) a).
  { intros a Ha. destruct (Hin a Ha). rewrite owner_insert, decide_False by done. by apply O1. }
  wstep. eapply wp_str_ev; rewrite ?Z.add_simpl_r; [exact El|by eapply dinv_crash|]. fold evs1.
  wstep. wstep.
  { apply (dip_crash k); try done. split; try done. apply ds_walk; [done|done|rewrite dat_length by done; lia]. }
  wstep. eapply wp_str_ev; rewrite ?Z.add_simpl_r; [exact E1| |].
  { apply (dip_crash (S k)); [done|done|intros a Ha; apply O1, Hin; done|].
    split; try done. apply ds_walk; [done|done|rewrite dat_length by done; lia]. }
  wstep. wstep.
  { apply (dip_crash (S k)); [done|done|done|]. split; try done.
    apply ds_walk; [done|by apply walk_owner|rewrite dat_length by done; lia]. }
  apply HQ; [|done]. split; try done.
  apply walk_list_rep.
  - eapply walk_list; [by apply walk_owner|done|done].
  - cbn. rewrite (lr_cnt _ _ _ H2), !dat_length by lia. lia.
  - rewrite <- (dat_S k x) by done. apply Forall_app. split.
    + eapply Forall_impl; [apply H2|]. intros a Ha. cbn in Ha. rewrite owner_insert.
      case_decide; [done|]. by rewrite O.
    + apply Forall_singleton. by rewrite owner_insert, decide_True.
Qed.

(** The end of a dump. *)
Lemma wp_dump_finish li fx evs (Q : Z -> et_mem -> Prop) :
  xs <> [] -> dinv (length xs) li fx evs ->
  (forall m', dumped m ps l0 xs ein m' -> Q ET_OK m') ->
  wp (str_fix GC (fun x => set_fix_in_start (fix_in_start x - 1) x) ;;;
      et_llist_unlock (LIn GC) ;;; signal_cread (LIn GC) ;;; ret ET_OK) Q C (V li fx evs).
Proof.
  intros Ne I HQ. pose proof I as [H1 H2 H3 H4 H4' H5 H6 H7 H8 H9 H10 H11].
  assert (Ne' : at_ (length xs) <> []).
  { intros X. apply (f_equal length) in X. rewrite dat_length in X by done.
    apply Ne, nil_length_inv. simpl in X. lia. }
  assert (R : forall b c, list_rep evs (set_l_cread c (set_l_mutex b li)) (at_ (length xs)))
    by (intros b c; by destruct H2).
  wstep. wstep; [by eapply dinv_crash|].
  wstep. wstep. wstep; [by apply (dump_idle_crash (length xs)); try done; cbn; lia|].
  wstep. wstep. wstep; [apply (dump_idle_crash (length xs)); try done; [by destruct H2|cbn; lia]|].
  wstep. apply HQ. eexists _, _, _. split; [done|]. split.
  { rewrite firstn_all in R. apply (R false). }
  split; [cbn; lia|]. split; [done|]. split; [done|]. split; [cbn; by rewrite H4|]. done.
Qed.

Lemma wp_ndump_loop n : forall k li fx evs (Q : unit -> et_mem -> Prop),
  (length xs - k)%nat = n -> dinv k li fx evs -> at_ k <> [] ->
  (forall li' evs', dinv (length xs) li' fx evs' -> Q tt (V li' fx evs')) ->
  wp (ndump_loop off (LIn GC) (l_lastevent li + off) (map (fun x => x + off) (drop k xs))) Q C (V li fx evs).
Proof.
  induction n as [|n IH]; intros k li fx evs Q En I Ne HQ; pose proof (di_k _ _ _ _ I) as Hk.
  - replace k with (length xs) in * by lia. rewrite drop_all. simpl. wstep. by apply HQ.
  - destruct (lookup_lt_is_Some_2 xs k ltac:(lia)) as [x E].
    rewrite (drop_S _ x) by done. cbn [map ndump_loop]. unfold ET_PEVENT2ET. rewrite Z.add_simpl_r.
    apply (wp_dump_one _ _ k x); try done. intros li' evs' I' La. rewrite <- La.
    apply IH; [lia|done| |done]. intros X. apply (f_equal length) in X.
    rewrite dat_length in X by apply I'. simpl in X. lia.
Qed.

(** Preparing the repair information. *)
Lemma wp_dump_prepare num {B} (k : M B) (Q : B -> et_mem -> Prop) :
  num = Z.of_nat (length xs) ->
  let li := set_l_mutex true (st_list_in ps) in
  (forall li' fx', list_rep (m_events m) li' l0 -> l_mutex li' = true ->
    l_cread li' = l_cread (st_list_in ps) -> l_events_in li' = l_events_in (st_list_in ps) ->
    (l0 = [] -> l_firstevent li' = NULL) -> (l0 <> [] -> li' = li) ->
    fix_in_start fx' = 1 -> fix_in_cnt fx' = Z.of_nat (length l0) -> fix_in_num fx' = num ->
    fix_in_call fx' = ET_FIX_DUMP -> fix_in_first fx' = NULL -> wp k Q C (V li' fx' (m_events m))) ->
  wp (when (l_cnt li =? 0) (str_list (LIn GC) (set_l_firstevent NULL)) ;;;
      str_fix GC (set_fix_in_eventsin (l_events_in li)) ;;;
      str_fix GC (set_fix_in_cnt (l_cnt li)) ;;;
      str_fix GC (set_fix_in_num num) ;;;
      str_fix GC (set_fix_in_call ET_FIX_DUMP) ;;;
      str_fix GC (fun x => set_fix_in_start (fix_in_start x + 1) x) ;;; k) Q C
    (V li (st_fix ps) (m_events m)).
Proof.
  intros Hn li HQ. pose proof (dp_start _ _ _ _ _ P) as St. pose proof (dp_first _ _ _ _ _ P) as Fi.
  pose proof (lr_cnt _ _ _ (dp_in _ _ _ _ _ P)) as Cn.
  assert (A0 : at_ 0 = l0) by by rewrite take_0, app_nil_r.
  assert (R : list_rep (m_events m) li l0) by by destruct (dp_in _ _ _ _ _ P).
  assert (Hc : forall li' fx', list_rep (m_events m) li' l0 -> fix_in_start fx' = 0 ->
    fix_in_first fx' = NULL -> C (V li' fx' (m_events m))).
  { intros. apply (dump_idle_crash 0); rewrite ?A0; try done; try lia; apply frame_refl. }
  assert (Hk : forall li', list_rep (m_events m) li' l0 -> l_mutex li' = true ->
    l_cread li' = l_cread (st_list_in ps) -> l_events_in li' = l_events_in (st_list_in ps) ->
    (l0 = [] -> l_firstevent li' = NULL) -> (l0 <> [] -> li' = li) ->
    wp (str_fix GC (set_fix_in_eventsin (l_events_in li)) ;;;
        str_fix GC (set_fix_in_cnt (l_cnt li)) ;;;
        str_fix GC (set_fix_in_num num) ;;;
        str_fix GC (set_fix_in_call ET_FIX_DUMP) ;;;
        str_fix GC (fun x => set_fix_in_start (fix_in_start x + 1) x) ;;; k) Q C
      (V li' (st_fix ps) (m_events m))).
  { intros li' R' Mx' Cr' Ei' F' Eq. do 5 (wstep; wstep; [by apply Hc|]). apply HQ; try done; cbn; lia. }
  wstep. wstep. destruct (l_cnt li =? 0) eqn:E; zbool.
  - assert (l0 = []) as El0 by (by eapply list_rep_nil; [apply R|]).
    wstep; [by apply Hc|]. apply Hk; try done. rewrite El0 in *. by apply list_rep_empty.
  - apply Hk; try done. intros X. rewrite X in Cn. done.
Qed.

(** The first event of an empty list. *)
Lemma wp_dump_first {B} (kont : M B) (Q : B -> et_mem -> Prop) x0 li fx :
  xs !! 0%nat = Some x0 -> l0 = [] -> l_cnt li = 0 -> l_mutex li = true -> l_firstevent li = NULL ->
  l_cread li = l_cread (st_list_in ps) -> l_events_in li = ein ->
  fix_in_start fx = 1 -> fix_in_cnt fx = 0 -> fix_in_num fx = Z.of_nat (length xs) ->
  fix_in_call fx = ET_FIX_DUMP -> fix_in_first fx = NULL ->
  (forall li' evs', dinv 1 li' fx evs' -> wp kont Q C (V li' fx evs')) ->
  wp (str_list (LIn GC) (set_l_firstevent x0) ;;;
      str_list (LIn GC) (set_l_lastevent x0) ;;;
      str_ev off (x0 + off) (set_ev_owner ET_SYS) ;;;
      str_list (LIn GC) (fun L => set_l_cnt (l_cnt L + 1) L) ;;; kont) Q C (V li fx (m_events m)).
Proof.
  intros Ex El0 Cn Mx Fi Cr Ei H1 H2 H3 H4 H5 HQ. pose proof (lookup_lt_Some _ _ _ Ex) as Lk.
  assert (A0 : at_ 0 = []) by (by rewrite take_0, app_nil_r).
  assert (A1 : at_ 1 = [x0]) by (by rewrite <- (dat_S 0 x0), A0).
  pose proof (list_elem_of_lookup_2 _ _ _ Ex) as Ix.
  destruct (dp_dom _ _ _ _ _ P x0 Ix) as [e0 E0].
  set (evs1 := <[x0 := set_ev_owner ET_SYS e0]> (m_events m)).
  assert (F1 : frame (l0 ++ xs) (m_events m) evs1) by (apply frame_insert with e0; [done|set_solver|done]).
  assert (O1 : forall a, a ∉ at_ 1 -> owner evs1 a = owner (m_events m) a).
  { intros a Ha. rewrite A1 in Ha. unfold evs1. rewrite owner_insert, decide_False; [done|set_solver]. }
  assert (Hf : forall li' evs, l_cnt li' = 0 -> l_firstevent li' = x0 -> l_mutex li' = true ->
    frame (l0 ++ xs) (m_events m) evs -> (forall a, a ∉ at_ 1 -> owner evs a = owner (m_events m) a) ->
    C (V li' fx evs)).
  { intros li' evs L1 L2 L3 F O. apply (dip_crash 1); try done. rewrite A1, El0.
    split; try done. apply ds_first; try done; [simpl; lia|].
    eapply frame_lookup; [exact F|]. by rewrite E0. }
  wstep. wstep.
  { apply (dip_crash 0); [lia|apply frame_refl|done|]. rewrite A0, El0. split; try done.
    apply ds_none; try done. simpl. lia. }
  wstep. wstep; [by apply Hf; try done; apply frame_refl|].
  wstep. eapply wp_str_ev; rewrite ?Z.add_simpl_r; [exact E0|apply Hf; try done; apply frame_refl|]. fold evs1.
  wstep. wstep; [by apply Hf|]. apply HQ. split; try done; try (rewrite El0; done).
  rewrite A1. apply walk_list_rep; [|cbn; lia|].
  - split; [|apply NoDup_singleton|done|done]. apply chain_singleton. unfold evs1.
    by rewrite lookup_insert_eq.
  - apply Forall_singleton. unfold evs1. by rewrite owner_insert, decide_True.
Qed.
End dump.

Section ndump.
Context (m : et_mem) (ps : et_station) (off : Z) (l0 xs : list Z).
Hypothesis P : dump_pre m ps off l0 xs.
Abbreviation GC := ET_GRANDCENTRAL.
Abbreviation C := (dump_crash m ps l0 xs).

Lemma dump_start_crash li :
  list_rep (m_events m) li l0 -> C (lview m GC ps li (st_list_out ps) (st_fix ps) (m_events m)).
Proof.
  intros R. exists li, (st_fix ps), (m_events m), 0%nat. split; [done|]. split; [lia|].
  split; [apply frame_refl|]. rewrite take_0, app_nil_r. split; [done|]. left. split; [done|].
  split; apply P.
Qed.

(** The start of both functions, and their return when there is no room. *)
Lemma wp_dump_lock {A} (c : et_system -> et_list -> M A) (Q : A -> et_mem -> Prop) :
  wp (c (m_sys m) (set_l_mutex true (st_list_in ps))) Q C
    (lview m GC ps (set_l_mutex true (st_list_in ps)) (st_list_out ps) (st_fix ps) (m_events m)) ->
  wp (et_llist_lock (LIn GC) ;;; let* y := ld_sys in let* L := ld_list (LIn GC) in c y L) Q C m.
Proof.
  intros H. apply (wp_lview m GC ps); [apply P|]. wstep. apply wp_lock_in; [apply P| |].
  - apply dump_start_crash, P.
  - wstep. wstep. wstep. wstep. exact H.
Qed.

Lemma wp_dump_full (Q : Z -> et_mem -> Prop) :
  Q ET_ERROR m ->
  wp (et_llist_unlock (LIn GC) ;;; ret ET_ERROR) Q C
    (lview m GC ps (set_l_mutex true (st_list_in ps)) (st_list_out ps) (st_fix ps) (m_events m)).
Proof.
  intros HQ. wstep. wstep. wstep.
  { apply dump_start_crash. by destruct (dp_in _ _ _ _ _ P). }
  wstep. replace (set_l_mutex false _) with (st_list_in ps).
  2:{ pose proof (dp_mutex _ _ _ _ _ P). destruct (st_list_in ps). simpl in *. by subst. }
  by rewrite <- lview_intro by apply P.
Qed.

Definition ndump_result (status : Z) (m' : et_mem) : Prop :=
  (xs = [] /\ status = ET_OK /\ m' = m) \/
  (xs <> [] /\ cf_nevents (sys_config (m_sys m)) - Z.of_nat (length l0) < Z.of_nat (length xs) /\
    status = ET_ERROR /\ m' = m) \/
  (xs <> [] /\ Z.of_nat (length xs) <= cf_nevents (sys_config (m_sys m)) - Z.of_nat (length l0) /\
    status = ET_OK /\ dumped m ps l0 xs (l_events_in (st_list_in ps)) m').

Lemma wp_ndump id :
  id_offset id = off ->
  wp (et_station_ndump id (map (fun x => x + off) xs)) ndump_result C m.
Proof.
  intros Off. destruct (decide (xs = [])) as [->|Ne]; [apply wp_ret; by left|].
  assert (exists x0 xs', xs = x0 :: xs') as (x0 & xs' & Exs) by (destruct xs; eauto; done).
  pose proof (lr_cnt _ _ _ (dp_in _ _ _ _ _ P)) as Cn.
  assert (Hpes : map (fun x => x + off) xs = (x0 + off) :: map (fun x => x + off) xs') by by rewrite Exs.
  assert (Ex0 : xs !! 0%nat = Some x0) by by rewrite Exs.
  assert (Hlen : length ((x0 + off) :: map (fun x => x + off) xs') = length xs)
    by (rewrite Exs; simpl; by rewrite length_map).
  rewrite Hpes. unfold et_station_ndump. rewrite Hlen, Off. cbv zeta. apply wp_dump_lock.
  cbn [l_cnt set_l_mutex]. rewrite Cn. destruct (_ <? _) eqn:T; zbool.
  { apply wp_dump_full. right. left. repeat split; auto. }
  rewrite <- Cn. apply (wp_dump_prepare m ps off l0 xs P); [done|].
  intros li fx R' Mx Cr Ei Fi Eq H1 H2 H3 H4 H5. cbn [l_cnt set_l_mutex].
  assert (Hfin : forall li' fx' evs', dinv m ps l0 xs (l_events_in (st_list_in ps)) (length xs) li' fx' evs' ->
    wp (str_fix GC (fun x => set_fix_in_start (fix_in_start x - 1) x) ;;;
        et_llist_unlock (LIn GC) ;;; signal_cread (LIn GC) ;;; ret ET_OK) ndump_result C
      (lview m GC ps li' (st_list_out ps) fx' evs')).
  { intros li' fx' evs' I. eapply (wp_dump_finish m ps l0 xs); [done|exact I|].
    intros m' D. right. right. auto. }
  assert (Hloop : forall k pes li' fx' evs', dinv m ps l0 xs (l_events_in (st_list_in ps)) k li' fx' evs' ->
    l0 ++ take k xs <> [] -> pes = map (fun x => x + off) (drop k xs) ->
    wp (let* L := ld_list (LIn GC) in
        ndump_loop off (LIn GC) (ET_PEVENT2USR (l_lastevent L) off) pes ;;;
        str_fix GC (fun x => set_fix_in_start (fix_in_start x - 1) x) ;;;
        et_llist_unlock (LIn GC) ;;; signal_cread (LIn GC) ;;; ret ET_OK) ndump_result C
      (lview m GC ps li' (st_list_out ps) fx' evs')).
  { intros k pes li' fx' evs' I Nk ->. wstep. wstep. wstep.
    eapply (wp_ndump_loop m ps off l0 xs _ P); [done|exact I|done|].
    intros li2 evs2 I2. by eapply Hfin. }
  wstep. destruct (l_cnt (st_list_in ps) =? 0) eqn:T2; zbool.
  - assert (l0 = []) as El0 by (by eapply list_rep_nil; [apply P|]).
    unfold ET_PEVENT2ET. rewrite Z.add_simpl_r.
    apply (wp_dump_first m ps off l0 xs (l_events_in (st_list_in ps)) P _ _ x0); try done.
    { rewrite El0 in R'. by destruct R'. } { by apply Fi. } { by rewrite El0 in H2. }
    intros li' evs' I. wstep. apply (Hloop 1%nat); [done| |by rewrite Exs].
    rewrite Exs. intros X. by apply app_eq_nil in X as [_ X].
  - assert (l0 <> []) as Nl0 by (intros X; rewrite X in Cn; done).
    wstep. apply (Hloop 0%nat); [|by rewrite take_0, app_nil_r|by rewrite <- Hpes].
    split; try done; rewrite ?take_0, ?app_nil_r; try done; try lia; apply frame_refl.
Qed.

Definition dump_result (status : Z) (m' : et_mem) : Prop :=
  (cf_nevents (sys_config (m_sys m)) <= Z.of_nat (length l0) /\ status = ET_ERROR /\ m' = m) \/
  (Z.of_nat (length l0) < cf_nevents (sys_config (m_sys m)) /\ status = ET_OK /\
    dumped m ps l0 xs (u64 (l_events_in (st_list_in ps) + 1)) m').

Lemma wp_dump id x :
  id_offset id = off -> xs = [x] -> wp (et_station_dump id (x + off)) dump_result C m.
Proof.
  intros Off Exs. pose proof (lr_cnt _ _ _ (dp_in _ _ _ _ _ P)) as Cn.
  assert (Ex0 : xs !! 0%nat = Some x) by by rewrite Exs. assert (Len : length xs = 1%nat) by by rewrite Exs.
  unfold et_station_dump. rewrite Off. cbv zeta. apply wp_dump_lock.
  cbn [l_cnt set_l_mutex]. rewrite Cn. destruct (_ <=? _) eqn:T; zbool.
  { apply wp_dump_full. left. auto. }
  rewrite <- Cn. apply (wp_dump_prepare m ps off l0 xs P); [by rewrite Len|].
  intros li fx R' Mx Cr Ei Fi Eq H1 H2 H3 H4 H5. cbn [l_cnt set_l_mutex].
  unfold ET_PEVENT2ET. rewrite Z.add_simpl_r.
  assert (Hfin : forall li' evs', dinv m ps l0 xs (l_events_in (st_list_in ps)) 1 li' fx evs' ->
    wp (str_list (LIn GC) (fun L => set_l_events_in (u64 (l_events_in L + 1)) L) ;;;
        str_fix GC (fun x => set_fix_in_start (fix_in_start x - 1) x) ;;;
        et_llist_unlock (LIn GC) ;;; signal_cread (LIn GC) ;;; ret ET_OK) dump_result C
      (lview m GC ps li' (st_list_out ps) fx evs')).
  { intros li' evs' I. wstep. wstep.
    { eapply dinv_crash; [exact I|]. rewrite Exs. intros X. by apply app_eq_nil in X as [_ X]. }
    apply (wp_dump_finish m ps l0 xs (u64 (l_events_in (st_list_in ps) + 1))); [by rewrite Exs| |].
    - rewrite Len. destruct I as [J1 J2 J3 J4 J5 J6 J7 J8 J9 J10 J11 J12].
      split; try done; [by destruct J2|]. cbn. by rewrite J5.
    - intros m' D. right. auto. }
  destruct (l_cnt (st_list_in ps) =? 0) eqn:T2; zbool.
  - assert (l0 = []) as El0 by (by eapply list_rep_nil; [apply P|]).
    apply (wp_dump_first m ps off l0 xs (l_events_in (st_list_in ps)) P _ _ x); try done.
    { rewrite El0 in R'. by destruct R'. } { by apply Fi. } { by rewrite El0 in H2. } { by rewrite Len. }
  - assert (l0 <> []) as Nl0 by (intros X; rewrite X in Cn; done).
    rewrite <- (Eq Nl0) in *. replace (l_lastevent (set_l_mutex true (st_list_in ps))) with (l_lastevent li)
      by (by rewrite (Eq Nl0)).
    apply (wp_dump_one m ps off l0 xs (l_events_in (st_list_in ps)) P _ _ 0 x); try done.
    + split; rewrite ?Len, ?take_0, ?app_nil_r; try done; try lia; apply frame_refl.
    + by rewrite take_0, app_nil_r.
    + intros li' evs' I _. by apply Hfin.
Qed.
End ndump.

(** ** Repair *)

Section repair_gc.
Context (m : et_mem) (ps : et_station) (off : Z).
Abbreviation GC := ET_GRANDCENTRAL.
Abbreviation V := (lview m GC ps).

Lemma wp_repair_gc_loop li lo fx z l : forall n a count evs (Q : Z * Z -> et_mem -> Prop),
  chain evs (a :: l) -> NoDup (a :: l) -> last (a :: l) = Some z -> (length (a :: l) <= n)%nat ->
  Q (count + Z.of_nat (length (a :: l)), ET_OK) (V li lo fx (set_owners ET_SYS (a :: l) evs)) ->
  wp (repair_gc_loop off n (a + off) (z + off) count) Q (fun _ => True) (V li lo fx evs).
Proof.
  induction l as [|b l IH]; intros n a count evs Q H N La Hn HQ;
    (destruct n as [|n]; [simpl in Hn; lia|]); cbn [repair_gc_loop];
    destruct (chain_in _ _ a H ltac:(set_solver)) as [e E];
    (wstep; eapply wp_str_ev; rewrite ?Z.add_simpl_r; [done|done|]).
  - simpl in La, HQ. simplify_eq. rewrite Z.eqb_refl. wstep.
    by rewrite (alter_owner_insert _ _ e) in HQ.
  - assert (a <> z).
    { intros ->. apply NoDup_cons in N as [N _]. apply N, last_Some_elem_of. done. }
    rewrite (proj2 (Z.eqb_neq _ _)) by lia.
    wstep. eapply wp_ld_ev; [rewrite Z.add_simpl_r; apply lookup_insert_eq|].
    destruct H as (_ & H & Nx). unfold nxt in Nx. rewrite E in Nx.
    simpl in Nx. injection Nx as Nx. unfold ET_PEVENT2USR. cbn [ev_next set_ev_owner]. rewrite Nx.
    apply NoDup_cons in N as [_ N]. rewrite <- (alter_owner_insert _ _ e) by done.
    apply IH; [by apply (set_owners_chain ET_SYS [a])|done|done|simpl in *; lia|].
    simpl. by replace (count + 1 + Z.of_nat (S (length l))) with (count + Z.of_nat (S (S (length l)))) by lia.
Qed.

Lemma wp_repair_gc_walk li lo fx evs l eventsin (Q : Z -> et_mem -> Prop) :
  walk evs li l -> l_mutex li = true -> Z.of_nat (length l) <= fix_in_cnt fx + fix_in_num fx ->
  (forall li' evs', list_rep evs' li' l -> l_mutex li' = true -> frame l evs evs' ->
    Q ET_OK (V li' lo (set_fix_in_start 0 fx) evs')) ->
  wp (let* (count, error) :=
        repair_gc_loop off (Z.to_nat (fix_in_cnt fx + fix_in_num fx)) (l_firstevent li + off)
          (l_lastevent li + off) 0 in
      str_list (LIn GC) (set_l_cnt count) ;;;
      let* L := ld_list (LIn GC) in
      when (eventsin =? l_events_in L)
        (str_list (LIn GC) (fun L => set_l_events_in (u64 (l_events_in L + count - fix_in_cnt fx)) L)) ;;;
      str_fix GC (set_fix_in_start 0) ;;;
      ret error) Q (fun _ => True) (V li lo fx evs).
Proof.
  intros W Mx Len HQ. wstep. destruct l as [|a l]; [by destruct W|].
  pose proof W as [W1 W2 W3 W4]. injection W3 as Ha. rewrite <- Ha.
  eapply wp_repair_gc_loop; [exact W1|exact W2|exact W4|lia|]. rewrite Z.add_0_l.
  assert (F : frame (a :: l) evs (set_owners ET_SYS (a :: l) evs)) by by apply set_owners_frame.
  wstep. wstep; [done|]. wstep. wstep. wstep. wstep. destruct (eventsin =? _).
  - wstep; [done|]. wstep. wstep; [done|]. wstep. apply HQ; [|done|done].
    by apply set_owners_list_rep with li.
  - wstep. wstep; [done|]. wstep. apply HQ; [|done|done]. by apply set_owners_list_rep with li.
Qed.

Lemma wp_repair_gcinputlist id n0 num li lo fx evs l (Q : Z -> et_mem -> Prop) :
  id_offset id = off -> dip n0 num li fx evs l -> 0 <= n0 -> evs !! 0 = None ->
  (forall li' evs', list_rep evs' li' l -> l_mutex li' = true -> frame l evs evs' ->
    Q ET_OK (V li' lo (set_fix_in_start 0 fx) evs')) ->
  wp (et_repair_gcinputlist id) Q (fun _ => True) (V li lo fx evs).
Proof.
  intros Off [Mx St Cn Nu Ca Sh] N0 Null HQ. unfold et_repair_gcinputlist. cbv zeta.
  wstep. wstep. cbn [st_fix st_list_in set_st_list_in set_st_list_out set_st_fix].
  rewrite Off, St, Cn, Nu. simpl.
  destruct Sh as [E1 N1 E2 E3|x E1 E2 E3 E4 Ex|l E1 W E3|l E1 R].
  - destruct (_ =? _) eqn:T; zbool; [lia|]. rewrite E2, E3, Z.eqb_refl. simpl.
    wstep. wstep; [done|]. wstep. apply HQ; [by apply list_rep_empty|done|apply frame_refl].
  - destruct (_ =? _) eqn:T; zbool; [lia|]. rewrite E3.
    assert (l_firstevent li <> NULL) as Nx.
    { intros X. destruct Ex as [e Ex]. unfold NULL in X. congruence. }
    rewrite (proj2 (Z.eqb_neq _ _) Nx). simpl. wstep. wstep; [done|]. wstep. wstep.
    rewrite <- Cn, <- Nu.
    apply (wp_repair_gc_walk (set_l_lastevent (l_firstevent li) li) _ _ _ [x]); try done; [|simpl; lia].
    rewrite E4. split; [by apply chain_singleton|apply NoDup_singleton|simpl; congruence..].
  - destruct (_ =? _) eqn:T; zbool; [lia|]. rewrite (proj2 (Z.eqb_neq (l_cnt li) 0)) by lia.
    simpl. wstep. wstep. wstep. wstep. rewrite <- Cn, <- Nu.
    apply (wp_repair_gc_walk _ _ _ _ l); try done. lia.
  - rewrite E1, Z.eqb_refl. wstep. wstep; [done|]. wstep. apply HQ; [done|done|apply frame_refl].
Qed.
End repair_gc.

(** After a repair GrandCentral holds its old events and the first [k] events of the interrupted
    dump, in this order; all other events have the owner they had. *)
Definition gc_repaired (m : et_mem) (ps : et_station) (l0 xs : list Z) (m' : et_mem) : Prop :=
  exists li fx evs k,
    m' = lview m ET_GRANDCENTRAL ps li (st_list_out ps) fx evs /\ (k <= length xs)%nat /\
    let l := l0 ++ take k xs in
    list_rep evs li l /\ l_mutex li = false /\ fix_in_start fx = 0 /\
    frame (l0 ++ xs) (m_events m) evs /\
    (forall a, a ∉ l -> owner evs a = owner (m_events m) a).

Lemma wp_repair_gc m ps off l0 xs id m' :
  dump_pre m ps off l0 xs -> dump_crash m ps l0 xs m' ->
  wp (et_repair_gc id) (fun a m'' => a = ET_OK /\ gc_repaired m ps l0 xs m'') (fun _ => True) m'.
Proof.
  intros P (li & fx & evs & k & -> & K & F & O & H). unfold et_repair_gc. cbv zeta.
  wstep. destruct (l_mutex li) eqn:Mx.
  2:{ apply wp_mutex_free_in; [done|]. cbn. wstep. split; [done|].
      destruct H as [(R & St & _)|[? _ _ _ _ _]]; [|congruence]. by exists li, fx, evs, k. }
  apply wp_mutex_held_in; [done|]. cbn. wstep. wstep. cbn [st_fix set_st_list_in set_st_list_out set_st_fix].
  destruct H as [(R & St & Fi)|W].
  - wstep. assert (Hend : wp (et_llist_unlock (LIn ET_GRANDCENTRAL) ;;; ret ET_OK)
      (fun a m'' => a = ET_OK /\ gc_repaired m ps l0 xs m'') (fun _ => True)
      (lview m ET_GRANDCENTRAL ps li (st_list_out ps) fx evs)).
    { wstep. wstep. wstep; [done|]. wstep. split; [done|].
      exists (set_l_mutex false li), fx, evs, k. split; [done|]. split; [done|].
      split; [by destruct R|done]. }
    destruct (_ =? _).
    + unfold et_repair_gcinputlist. cbv zeta. wstep. wstep. cbn. rewrite St. simpl. wstep. exact Hend.
    + unfold et_repair_inputlist. cbv zeta. wstep. wstep. cbn. rewrite Fi. simpl. wstep. exact Hend.
  - rewrite (dip_call _ _ _ _ _ _ W), Z.eqb_refl. wstep.
    eapply (wp_repair_gcinputlist m ps (id_offset id));
      [done|exact W|lia|by eapply frame_none; [exact F|apply P]|].
    intros li' evs' R' Mx' F'. cbn. wstep. wstep. wstep; [done|]. wstep. split; [done|].
    eexists _, _, evs', k. split; [done|]. split; [done|]. split; [by destruct R'|]. split; [done|].
    split; [done|]. split.
    + eapply (frame_trans (l0 ++ xs) (l0 ++ take k xs) _ _ evs); try done. apply dat_subset.
    + intros a Ha. by rewrite (frame_owner _ _ _ _ F' Ha), O.
Qed.

(** ** The specifications *)

(** Et_station_ndump appends the events in their order to GrandCentral's input list, gives them
    to the system and signals the readers; it returns ET_ERROR and changes nothing when there is no
    room for all of them.  Contrary to et_station_dump it does not count them in events_in. *)
Theorem et_station_ndump_spec m ps l0 xs id :
  dump_pre m ps (id_offset id) l0 xs ->
  exists status x m', run (et_station_ndump id (map (fun a => a + id_offset id) xs)) m = Ok status x m' /\
    ndump_result m ps l0 xs status m'.
Proof. intros P. by eapply wp_run, wp_ndump. Qed.

(** Et_station_dump appends its event to GrandCentral's input list and counts it in events_in,
    or returns ET_ERROR and changes nothing when the list is full. *)
Theorem et_station_dump_spec m ps l0 y id :
  dump_pre m ps (id_offset id) l0 [y] ->
  exists status x m', run (et_station_dump id (y + id_offset id)) m = Ok status x m' /\
    dump_result m ps l0 [y] status m'.
Proof. intros P. by eapply wp_run, wp_dump. Qed.

(** C32: whenever a process dies in et_station_ndump, after any number of stores, et_repair_gc
    terminates with ET_OK and GrandCentral's input list is consistent and unlocked again: it holds
    its old events followed by a prefix of the dumped ones; the others keep their owner. *)
Theorem et_station_ndump_crash_repair m ps l0 xs id sysid k m' :
  dump_pre m ps (id_offset id) l0 xs ->
  run_crash k (et_station_ndump id (map (fun a => a + id_offset id) xs)) m = Crashed m' ->
  exists x m'', run (et_repair_gc sysid) m' = Ok ET_OK x m'' /\ gc_repaired m ps l0 xs m''.
Proof.
  intros P Cr. destruct (wp_crash _ _ _ _ k (wp_ndump m ps _ l0 xs P id eq_refl))
    as [(a & x & m1 & E & _)|(m1 & E & H)]; rewrite Cr in E; [done|]. injection E as <-.
  apply wp_repair_gc with (off := id_offset id) (id := sysid) in H; [|done].
  apply wp_run in H as (a & x & m'' & E & -> & Rp). eauto.
Qed.

Lemma dump_pre0 xs : xs = [500; 600] \/ xs = [600] -> dump_pre mem0 (stat0 0) off0 [700; 800] xs.
Proof.
  intros Hxs. split; try by_eval; try exact mem0_gc; destruct Hxs as [->| ->]; try by_eval;
    (intros x Hx; revert x Hx; apply Forall_forall); by_eval.
Qed.

Lemma et_station_ndump_spec_witness :
  exists status x m', run (et_station_ndump id0 [4596; 4696]) mem0 = Ok status x m' /\
    ndump_result mem0 (stat0 0) [700; 800] [500; 600] status m'.
Proof. apply (et_station_ndump_spec mem0 (stat0 0) [700; 800] [500; 600] id0). apply dump_pre0. auto. Defined.

Lemma et_station_dump_spec_witness :
  exists status x m', run (et_station_dump id0 4696) mem0 = Ok status x m' /\
    dump_result mem0 (stat0 0) [700; 800] [600] status m'.
Proof. apply (et_station_dump_spec mem0 (stat0 0) [700; 800] 600 id0). apply dump_pre0. auto. Defined.

Lemma et_station_ndump_crash_repair_witness :
  exists m', run_crash 9 (et_station_ndump id0 [4596; 4696]) mem0 = Crashed m' /\
  exists x m'', run (et_repair_gc id0) m' = Ok ET_OK x m'' /\
    gc_repaired mem0 (stat0 0) [700; 800] [500; 600] m''.
Proof.
  eexists. split; [vm_compute; reflexivity|].
  apply (et_station_ndump_crash_repair mem0 (stat0 0) [700; 800] [500; 600] id0 id0 9);
    [apply dump_pre0; auto|vm_compute; reflexivity].
Defined.
