(* ===== verification/Restore.v ===== *)
(** * Restoring the events of a detached attachment

    et_restore, et_flush_events and et_restore_events of et_readwrite.c: the events that a process
    read and did not put back are returned to the system, by the station's restore mode.

    The backing files of temporary events (unlink, munmap, et_temp_remove) are not part of the
    shared memory; of these calls only the counter ntemps is modelled. *)
From stdpp Require Import base gmap strings list sorting.
From S2P Require Import Prelude Types Machine EvList Local Sample Write Repair Read LList Dump.
Open Scope Z_scope.

(** for (i=0; i < pl->cnt; i++) of et_restore: the locals plasthigh, pfirstlow and high_cnt. *)
Fixpoint restore_find (off : Z) (n : nat) (plasthigh pfirstlow high_cnt : Z) : M (Z * Z * Z) :=
  match n with
  | O => ret (plasthigh, pfirstlow, high_cnt)
  | S n' =>
      let* e := ld_ev off pfirstlow in
      if ev_priority e =? ET_HIGH
      then restore_find off n' pfirstlow (ET_PEVENT2USR (ev_next e) off) (high_cnt + 1)
      else ret (plasthigh, pfirstlow, high_cnt)
  end.

(** pe[i]->owner = ET_SYS. *)
Fixpoint restore_own (off : Z) (pes : list Z) : M unit :=
  match pes with
  | [] => ret tt
  | pe :: pes' => str_ev off pe (set_ev_owner ET_SYS) ;;; restore_own off pes'
  end.

(** pe[i-1]->next = ET_PEVENT2ET(pe[i], id->offset) for the events after [a]. *)
Fixpoint restore_link (off a : Z) (pes : list Z) : M unit :=
  match pes with
  | [] => ret tt
  | b :: pes' => str_ev off a (set_ev_next (ET_PEVENT2ET b off)) ;;; restore_link off b pes'
  end.

(** The events of high priority after [a]: each one's next becomes [pfirst]. *)
Fixpoint restore_highs (off a pfirst : Z) (pes : list Z) : M (Z * list Z) :=
  match pes with
  | [] => ret (a, [])
  | b :: pes' =>
      let* e := ld_ev off b in
      if negb (ev_priority e =? ET_HIGH) then ret (a, pes)
      else
        str_ev off a (set_ev_next (ET_PEVENT2ET b off)) ;;;
        str_ev off b (set_ev_next pfirst) ;;;
        restore_highs off b pfirst pes'
  end.

(** Only events of low priority are added to a list that is not empty. *)
Definition restore_low (off : Z) (pl : lptr) (L : et_list) (pe0 : Z) (pes' : list Z)
    (plasthigh pfirstlow : Z) : M unit :=
  let pe0_ET := ET_PEVENT2ET pe0 off in
  let pe_last := List.last (pe0 :: pes') pe0 in
  let plast := ET_PEVENT2USR (l_lastevent L) off in
  restore_link off pe0 pes' ;;;
  if pfirstlow =? NULL then
    str_ev off plast (set_ev_next pe0_ET) ;;;
    str_list pl (set_l_lastevent (ET_PEVENT2ET pe_last off))
  else
    (if negb (plasthigh =? NULL) then str_ev off plasthigh (set_ev_next pe0_ET)
     else str_list pl (set_l_firstevent pe0_ET)) ;;;
    str_ev off pe_last (set_ev_next (ET_PEVENT2ET pfirstlow off)).

(** Events of high priority, and perhaps others, are added to a list that is not empty. *)
Definition restore_high (off : Z) (pl : lptr) (L : et_list) (pe0 : Z) (pes' : list Z)
    (plasthigh pfirstlow : Z) : M unit :=
  let plast := ET_PEVENT2USR (l_lastevent L) off in
  let pfirst := l_firstevent L in
  str_ev off pe0 (set_ev_next pfirst) ;;;
  str_list pl (set_l_firstevent (ET_PEVENT2ET pe0 off)) ;;;
  let* (lasthigh, rest) := restore_highs off pe0 pfirst pes' in
  match rest with
  | [] => ret tt
  | b :: rest' =>
      let pe_last := List.last rest b in
      restore_link off b rest' ;;;
      if pfirstlow =? NULL then
        str_ev off plast (set_ev_next (ET_PEVENT2ET b off)) ;;;
        str_list pl (set_l_lastevent (ET_PEVENT2ET pe_last off))
      else
        str_ev off (if negb (plasthigh =? NULL) then plasthigh else lasthigh)
          (set_ev_next (ET_PEVENT2ET b off)) ;;;
        str_ev off pe_last (set_ev_next (ET_PEVENT2ET pfirstlow off))
  end.

(** The result is the status and *numwritten. *)
Definition et_restore (id : et_id) (pl : lptr) (pes : list Z) : M (Z * Z) :=
  let off := id_offset id in
  et_llist_lock pl ;;;
  let* y := ld_sys in
  let* L := ld_list pl in
  let nevents_max := cf_nevents (sys_config y) in
  if nevents_max <=? l_cnt L then et_llist_unlock pl ;;; ret (ET_ERROR, 0)
  else
    let num := Z.of_nat (length pes) in
    let num := if nevents_max - l_cnt L <? num then nevents_max - l_cnt L else num in
    let* (plasthigh, pfirstlow) :=
      (if negb (l_cnt L =? 0) then
         let* (plasthigh, pfirstlow, high_cnt) :=
           restore_find off (Z.to_nat (l_cnt L)) NULL (ET_PEVENT2USR (l_firstevent L) off) 0 in
         ret (plasthigh, if high_cnt =? l_cnt L then NULL else pfirstlow)
       else ret (NULL, NULL)) in
    let pes := take (Z.to_nat num) pes in
    restore_own off pes ;;;
    match pes with
    | [] => fault
    | pe0 :: pes' =>
      let* e0 := ld_ev off pe0 in
      (if l_cnt L =? 0 then
         restore_link off pe0 pes' ;;;
         str_list pl (set_l_firstevent (ET_PEVENT2ET pe0 off)) ;;;
         str_list pl (set_l_lastevent (ET_PEVENT2ET (List.last pes pe0) off))
       else if ev_priority e0 =? ET_LOW then restore_low off pl L pe0 pes' plasthigh pfirstlow
       else restore_high off pl L pe0 pes' plasthigh pfirstlow) ;;;
      str_list pl (fun L => set_l_cnt (l_cnt L + num) L) ;;;
      et_llist_unlock pl ;;;
      signal_cread pl ;;;
      ret (ET_OK, num)
    end.

(** while (firstParallel->prevparallel > -1); [n] bounds the stations of a parallel group, and a
    longer walk never ends.  The result is the head of the group. *)
Fixpoint first_parallel (n : nat) (s : Z) : M Z :=
  match n with
  | O => diverge
  | S n' =>
      let* ps := ld_stat s in
      if -1 <? st_prevparallel ps then first_parallel n' (st_prevparallel ps) else ret s
  end.

(** The station before the group of [stat_id] in the main list: id->grandcentral + prev. *)
Definition prev_of_group (stat_id : Z) : M Z :=
  let* m := getm in
  let* first := first_parallel (S (size (m_stats m))) stat_id in
  let* ps := ld_stat first in
  ret (st_prev ps).

Definition et_flush_events (id : et_id) (att stat_id : Z) : M unit :=
  let* y := ld_sys in
  let nevents_max := cf_nevents (sys_config y) in
  if stat_id =? ET_GRANDCENTRAL then ret tt
  else
    let* (status, pes) := et_station_nread id stat_id ET_ASYNC att nevents_max in
    if status <? 0 then ret tt
    else
      let* ps := ld_stat stat_id in
      if sc_restore_mode (st_config ps) =? ET_STATION_RESTORE_REDIST then
        let* prev := prev_of_group stat_id in
        let* _ := et_restore id (LOut prev) pes in
        ret tt
      else
        let* _ := et_station_nwrite id stat_id pes in
        ret tt.

(** The event array id->events, by increasing address. *)
Definition events_array (m : et_mem) : list Z := merge_sort Z.le (map_to_list (m_events m)).*1.

(** The loop over the event array: the new and the used events of [att]; the used ones are given to
    the system at once. *)
Fixpoint restore_scan (off att : Z) (pes : list Z) : M (list Z * list Z) :=
  match pes with
  | [] => ret ([], [])
  | pe :: pes' =>
      let* e := ld_ev off pe in
      if ev_owner e =? att then
        if ev_age e =? ET_EVENT_NEW then
          let* (new, used) := restore_scan off att pes' in ret (pe :: new, used)
        else
          str_ev off pe (set_ev_owner ET_SYS) ;;;
          let* (new, used) := restore_scan off att pes' in ret (new, pe :: used)
      else restore_scan off att pes'
  end.

(** Reading a field of several events. *)
Fixpoint ld_evs (off : Z) (pes : list Z) : M (list et_event) :=
  match pes with
  | [] => ret []
  | pe :: pes' =>
      let* e := ld_ev off pe in
      let* es := ld_evs off pes' in
      ret (e :: es)
  end.

(** High priority events first. *)
Definition restore_order (off : Z) (pes : list Z) : M (list Z) :=
  let* es := ld_evs off pes in
  ret (map fst (pri_sort (fun pe => ev_priority (snd pe) =? ET_HIGH) (zip pes es))).

(** id->sys->ntemps-- for each temporary event. *)
Fixpoint remove_temps (off : Z) (pes : list Z) : M unit :=
  match pes with
  | [] => ret tt
  | pe :: pes' =>
      let* e := ld_ev off pe in
      when (ev_temp e =? ET_EVENT_TEMP) (str_sys (fun y => set_sys_ntemps (sys_ntemps y - 1) y)) ;;;
      remove_temps off pes'
  end.

Fixpoint mark_corrupt (off : Z) (pes : list Z) : M unit :=
  match pes with
  | [] => ret tt
  | pe :: pes' =>
      str_ev off pe (set_ev_datastatus ET_DATA_POSSIBLY_CORRUPT) ;;; mark_corrupt off pes'
  end.

(** Returning the used events, by the restore mode. *)
Definition restore_used (id : et_id) (stat_id mode : Z) (ordered : list Z) : M Z :=
  let off := id_offset id in
  let* ps := ld_stat stat_id in
  if (mode =? ET_STATION_RESTORE_GC) || (stat_id =? ET_GRANDCENTRAL) then
    remove_temps off ordered ;;;
    et_station_ndump id ordered
  else if (mode =? ET_STATION_RESTORE_OUT) ||
          ((mode =? ET_STATION_RESTORE_IN) && (sd_nattachments (st_data ps) =? 0)) then
    mark_corrupt off ordered ;;;
    et_station_nwrite id stat_id ordered
  else if mode =? ET_STATION_RESTORE_IN then
    mark_corrupt off ordered ;;;
    let* (status, num_written) := et_restore id (LIn stat_id) ordered in
    if num_written <? Z.of_nat (length ordered)
    then et_station_nwrite id stat_id (drop (Z.to_nat num_written) ordered)
    else ret status
  else if mode =? ET_STATION_RESTORE_REDIST then
    mark_corrupt off ordered ;;;
    let* prev := prev_of_group stat_id in
    let* (status, _) := et_restore id (LOut prev) ordered in
    ret status
  else ret ET_ERROR.

Definition et_restore_events (id : et_id) (att stat_id : Z) : M Z :=
  let off := id_offset id in
  let* ps := ld_stat stat_id in
  let mode := sc_restore_mode (st_config ps) in
  let* m := getm in
  let* (new, used) := restore_scan off att (map (fun a => ET_PEVENT2USR a off) (events_array m)) in
  match new, used with
  | [], [] => ret ET_OK
  | _, _ =>
    let* ordered := restore_order off used in
    let* status :=
      (match new with
       | [] => ret ET_OK
       | _ => remove_temps off new ;;; et_station_ndump id new
       end) in
    match ordered with
    | [] => ret status
    | _ => restore_used id stat_id mode ordered
    end
  end.
