(* ===== verification/StatConfig.v ===== *)
(** * Station configurations

    et_statconfig.c: the configuration object that a user fills before creating a station, and the
    checks that the system makes on it.  A handle that may be NULL is an option; a setter returns
    its status and the object afterwards; a getter has an argument telling whether the pointer for
    the result is not NULL. *)
From stdpp Require Import base gmap strings list.
From S2P Require Import Prelude Types Machine Sample.
Open Scope Z_scope.

Definition strlen (s : string) : Z := Z.of_nat (String.length s).

(** The frame that all setters share: a good handle, a good value, one assignment. *)
Definition sc_set {V} (valid : V -> bool) (upd : V -> et_stat_config -> et_stat_config)
    (sconfig : option et_stat_config) (val : V) : Z * option et_stat_config :=
  match sconfig with
  | None => (ET_ERROR, sconfig)
  | Some sc =>
      if negb (sc_init sc =? ET_STRUCT_OK) then (ET_ERROR, sconfig)
      else if negb (valid val) then (ET_ERROR, sconfig)
      else (ET_OK, Some (upd val sc))
  end.

(** The frame that all getters share. *)
Definition sc_get {V} (get : et_stat_config -> V) (sconfig : option et_stat_config)
    (val_given : bool) : Z * option V :=
  match sconfig with
  | None => (ET_ERROR, None)
  | Some sc =>
      if negb (sc_init sc =? ET_STRUCT_OK) || negb val_given then (ET_ERROR, None)
      else (ET_OK, Some (get sc))
  end.

(** [malloc_ok]: the allocation succeeded. *)
Definition et_station_config_init (malloc_ok : bool) : Z * option et_stat_config :=
  if negb malloc_ok then (ET_ERROR, None)
  else
    (ET_OK, Some (mkStatConfig ET_STRUCT_OK ET_STATION_SERIAL ET_STATION_USER_MULTI
       ET_STATION_RESTORE_OUT ET_STATION_BLOCKING ET_STATION_PRESCALE ET_STATION_CUE
       ET_STATION_SELECT_ALL (replicate (Z.to_nat ET_STATION_SELECT_INTS) (-1))
       EmptyString EmptyString EmptyString)).

Definition valid_block (val : Z) : bool :=
  negb (negb (val =? ET_STATION_NONBLOCKING) && negb (val =? ET_STATION_BLOCKING)).
Definition valid_flow (val : Z) : bool :=
  negb (negb (val =? ET_STATION_SERIAL) && negb (val =? ET_STATION_PARALLEL)).
Definition valid_select (val : Z) : bool :=
  negb (negb (val =? ET_STATION_SELECT_ALL) && negb (val =? ET_STATION_SELECT_MATCH) &&
        negb (val =? ET_STATION_SELECT_USER) && negb (val =? ET_STATION_SELECT_RROBIN) &&
        negb (val =? ET_STATION_SELECT_EQUALCUE)).
Definition valid_restore (val : Z) : bool :=
  negb (negb (val =? ET_STATION_RESTORE_OUT) && negb (val =? ET_STATION_RESTORE_IN) &&
        negb (val =? ET_STATION_RESTORE_GC) && negb (val =? ET_STATION_RESTORE_REDIST)).
(** A string argument: not NULL and not longer than the field. *)
Definition valid_string (max : Z) (val : option string) : bool :=
  match val with None => false | Some s => negb (max - 1 <? strlen s) end.
Definition set_string (upd : string -> et_stat_config -> et_stat_config) (val : option string)
    (sc : et_stat_config) : et_stat_config :=
  match val with None => sc | Some s => upd s sc end.

Definition et_station_config_setblock := sc_set valid_block set_sc_block_mode.
Definition et_station_config_getblock := sc_get sc_block_mode.
Definition et_station_config_setflow := sc_set valid_flow set_sc_flow_mode.
Definition et_station_config_getflow := sc_get sc_flow_mode.
Definition et_station_config_setselect := sc_set valid_select set_sc_select_mode.
Definition et_station_config_getselect := sc_get sc_select_mode.
Definition et_station_config_setuser := sc_set (fun val => negb (val <? 0)) set_sc_user_mode.
Definition et_station_config_getuser := sc_get sc_user_mode.
Definition et_station_config_setrestore := sc_set valid_restore set_sc_restore_mode.
Definition et_station_config_getrestore := sc_get sc_restore_mode.
Definition et_station_config_setcue := sc_set (fun val => negb (val <? 1)) set_sc_cue.
Definition et_station_config_getcue := sc_get sc_cue.
Definition et_station_config_setprescale := sc_set (fun val => negb (val <? 1)) set_sc_prescale.
Definition et_station_config_getprescale := sc_get sc_prescale.
(** [val] has at least ET_STATION_SELECT_INTS elements. *)
Definition et_station_config_setselectwords :=
  sc_set (fun _ => true) (fun val => set_sc_select (take (Z.to_nat ET_STATION_SELECT_INTS) val)).
Definition et_station_config_getselectwords := sc_get sc_select.
Definition et_station_config_setfunction :=
  sc_set (valid_string ET_FUNCNAME_LENGTH) (set_string set_sc_fname).
Definition et_station_config_getfunction := sc_get sc_fname.
Definition et_station_config_setlib := sc_set (valid_string ET_FILENAME_LENGTH) (set_string set_sc_lib).
Definition et_station_config_getlib := sc_get sc_lib.
Definition et_station_config_setclass :=
  sc_set (valid_string ET_FILENAME_LENGTH) (set_string set_sc_classs).
Definition et_station_config_getclass := sc_get sc_classs.

(** The status and the configuration afterwards: the check may reduce the cue. *)
Definition et_station_config_check (sys : et_system) (sc : et_stat_config) : Z * et_stat_config :=
  let rr_or_eq := (sc_select_mode sc =? ET_STATION_SELECT_RROBIN) ||
                  (sc_select_mode sc =? ET_STATION_SELECT_EQUALCUE) in
  if negb (valid_flow (sc_flow_mode sc)) then (ET_ERROR, sc)
  else if negb (valid_restore (sc_restore_mode sc)) then (ET_ERROR, sc)
  else if (sc_user_mode sc <? 0) || (cf_nattachments (sys_config sys) <? sc_user_mode sc)
  then (ET_ERROR, sc)
  else if negb (valid_select (sc_select_mode sc)) then (ET_ERROR, sc)
  else if (sc_select_mode sc =? ET_STATION_SELECT_USER) &&
          ((strlen (sc_lib sc) <? 4) || (strlen (sc_fname sc) <? 1)) then (ET_ERROR, sc)
  else if rr_or_eq &&
          ((sc_flow_mode sc =? ET_STATION_SERIAL) ||
           (sc_block_mode sc =? ET_STATION_NONBLOCKING) ||
           (sc_restore_mode sc =? ET_STATION_RESTORE_IN) ||
           negb (sc_prescale sc =? 1)) then (ET_ERROR, sc)
  else if (sc_restore_mode sc =? ET_STATION_RESTORE_REDIST) &&
          negb (sc_flow_mode sc =? ET_STATION_PARALLEL) then (ET_ERROR, sc)
  else if negb (valid_block (sc_block_mode sc)) then (ET_ERROR, sc)
  else if sc_block_mode sc =? ET_STATION_BLOCKING then
    if sc_prescale sc <? 1 then (ET_ERROR, sc) else (ET_OK, sc)
  else if sc_cue sc <? 1 then (ET_ERROR, sc)
  else if cf_nevents (sys_config sys) <? sc_cue sc
  then (ET_OK, set_sc_cue (cf_nevents (sys_config sys)) sc)
  else (ET_OK, sc).

(** 1 if the station with [config] may join a parallel group with [group], 0 if not. *)
Definition et_station_compare_parallel (group config : et_stat_config) : Z :=
  let rr c := sc_select_mode c =? ET_STATION_SELECT_RROBIN in
  let eq c := sc_select_mode c =? ET_STATION_SELECT_EQUALCUE in
  if negb (sc_flow_mode group =? sc_flow_mode config) then 0
  else if (rr group && negb (rr config)) || (eq group && negb (eq config)) then 0
  else if (rr group || eq group) &&
          (negb (sc_block_mode group =? sc_block_mode config) ||
           negb (sc_prescale group =? sc_prescale config)) then 0
  else if (negb (rr group) && negb (eq group)) && (rr config || eq config) then 0
  else 1.

(** ** Correctness *)

(** The calls that change a configuration. *)
Inductive sc_op :=
| SetBlock (val : Z) | SetFlow (val : Z) | SetSelect (val : Z) | SetUser (val : Z)
| SetRestore (val : Z) | SetCue (val : Z) | SetPrescale (val : Z) | SetSelectwords (val : list Z)
| SetFunction (val : option string) | SetLib (val : option string) | SetClass (val : option string).

Definition sc_run (op : sc_op) (sc : option et_stat_config) : Z * option et_stat_config :=
  match op with
  | SetBlock v => et_station_config_setblock sc v
  | SetFlow v => et_station_config_setflow sc v
  | SetSelect v => et_station_config_setselect sc v
  | SetUser v => et_station_config_setuser sc v
  | SetRestore v => et_station_config_setrestore sc v
  | SetCue v => et_station_config_setcue sc v
  | SetPrescale v => et_station_config_setprescale sc v
  | SetSelectwords v => et_station_config_setselectwords sc v
  | SetFunction v => et_station_config_setfunction sc v
  | SetLib v => et_station_config_setlib sc v
  | SetClass v => et_station_config_setclass sc v
  end.

Definition sc_runs (ops : list sc_op) (sc : option et_stat_config) : option et_stat_config :=
  foldl (fun sc op => snd (sc_run op sc)) sc ops.

(** Every field holds one of its values, and the strings fit into their buffers. *)
Record sc_ok (sc : et_stat_config) : Prop := mkScOk {
  sk_init : sc_init sc = ET_STRUCT_OK;
  sk_flow : valid_flow (sc_flow_mode sc) = true;
  sk_user : 0 <= sc_user_mode sc;
  sk_restore : valid_restore (sc_restore_mode sc) = true;
  sk_block : valid_block (sc_block_mode sc) = true;
  sk_prescale : 1 <= sc_prescale sc;
  sk_cue : 1 <= sc_cue sc;
  sk_select : valid_select (sc_select_mode sc) = true;
  sk_fname : strlen (sc_fname sc) < ET_FUNCNAME_LENGTH;
  sk_lib : strlen (sc_lib sc) < ET_FILENAME_LENGTH;
  sk_class : strlen (sc_classs sc) < ET_FILENAME_LENGTH
}.

Lemma sc_set_some {V} valid upd sc (v : V) :
  sc_init sc = ET_STRUCT_OK ->
  sc_set valid upd (Some sc) v =
    (if valid v then ET_OK else ET_ERROR, Some (if valid v then upd v sc else sc)).
Proof. intros E. unfold sc_set. rewrite E. simpl. by destruct (valid v). Qed.

Lemma valid_string_some max val : valid_string max val = true -> exists s, val = Some s /\ strlen s < max.
Proof.
  destruct val as [s|]; simpl; [|done]. rewrite negb_true_iff. intros H; zbool. exists s. split; [done|lia].
Qed.

(** A setter keeps the invariant when its update does for the values it accepts. *)
Lemma sc_set_ok {V} valid upd sc (v : V) :
  sc_ok sc -> (valid v = true -> sc_ok (upd v sc)) ->
  exists sc', snd (sc_set valid upd (Some sc) v) = Some sc' /\ sc_ok sc'.
Proof.
  intros H Hu. rewrite sc_set_some by apply H. cbn [snd]. destruct (valid v); eauto.
Qed.

Lemma sc_op_ok op sc : sc_ok sc -> exists sc', snd (sc_run op (Some sc)) = Some sc' /\ sc_ok sc'.
Proof.
  intros H. pose proof H as [H1 H2 H3 H4 H5 H6 H7 H8 H9 H10 H11].
  destruct op as [v|v|v|v|v|v|v|v|v|v|v]; apply sc_set_ok; try done; intros E;
    try (apply valid_string_some in E as (str & -> & E)); rewrite ?negb_true_iff in E; zbool;
    split; cbn; done || lia.
Qed.

Lemma sc_runs_ok ops sc :
  sc_ok sc -> exists sc', sc_runs ops (Some sc) = Some sc' /\ sc_ok sc'.
Proof.
  revert sc. induction ops as [|op ops IH]; intros sc H; [by exists sc|].
  destruct (sc_op_ok op sc H) as (sc' & E & H'). unfold sc_runs. simpl. rewrite E. by apply IH.
Qed.

Lemma init_ok : exists sc, snd (et_station_config_init true) = Some sc /\ sc_ok sc.
Proof. eexists. split; [reflexivity|]. by split. Qed.

(** What et_station_config_check promises about an accepted configuration. *)
Record sc_accepted (sys : et_system) (sc : et_stat_config) : Prop := mkScAccepted {
  sa_flow : valid_flow (sc_flow_mode sc) = true;
  sa_restore : valid_restore (sc_restore_mode sc) = true;
  sa_block : valid_block (sc_block_mode sc) = true;
  sa_select : valid_select (sc_select_mode sc) = true;
  sa_user : 0 <= sc_user_mode sc <= cf_nattachments (sys_config sys);
  sa_lib : sc_select_mode sc = ET_STATION_SELECT_USER -> 4 <= strlen (sc_lib sc) /\ 1 <= strlen (sc_fname sc);
  sa_group : sc_select_mode sc = ET_STATION_SELECT_RROBIN \/ sc_select_mode sc = ET_STATION_SELECT_EQUALCUE ->
    sc_flow_mode sc = ET_STATION_PARALLEL /\ sc_block_mode sc = ET_STATION_BLOCKING /\
    sc_restore_mode sc <> ET_STATION_RESTORE_IN /\ sc_prescale sc = 1;
  sa_redist : sc_restore_mode sc = ET_STATION_RESTORE_REDIST -> sc_flow_mode sc = ET_STATION_PARALLEL;
  sa_prescale : sc_block_mode sc = ET_STATION_BLOCKING -> 1 <= sc_prescale sc;
  sa_cue : sc_block_mode sc = ET_STATION_NONBLOCKING -> 1 <= sc_cue sc
}.

Lemma valid_flow_iff v : valid_flow v = true <-> v = ET_STATION_SERIAL \/ v = ET_STATION_PARALLEL.
Proof. unfold valid_flow. repeat zcase; simpl; split; intros; try done; destruct_or?; auto; congruence. Qed.

Lemma valid_block_iff v : valid_block v = true <-> v = ET_STATION_NONBLOCKING \/ v = ET_STATION_BLOCKING.
Proof. unfold valid_block. repeat zcase; simpl; split; intros; try done; destruct_or?; auto; congruence. Qed.

(** Turns the boolean conditions of the context into propositions. *)
Ltac bprop :=
  repeat match goal with
  | H : negb _ = true |- _ => apply negb_true_iff in H
  | H : negb _ = false |- _ => apply negb_false_iff in H
  | H : _ && _ = true |- _ => apply andb_true_iff in H as [? ?]
  | H : _ || _ = false |- _ => apply orb_false_iff in H as [? ?]
  | H : _ || _ = true |- _ => apply orb_true_iff in H
  | H : _ && _ = false |- _ => apply andb_false_iff in H
  end; zbool.

Ltac sc_contra :=
  pose proof (eq_refl : (ET_STATION_SERIAL =? ET_STATION_PARALLEL) = false);
  pose proof (eq_refl : (ET_STATION_NONBLOCKING =? ET_STATION_BLOCKING) = false);
  repeat (bprop; match goal with H : _ \/ _ |- _ => destruct H end); bprop; intuition (congruence || lia).

(** The two outcomes of the check. *)
Ltac sc_refuse :=
  split_and!; [split; [done|intros []; exfalso; bprop; try congruence;
    repeat match goal with H : valid_block _ = true |- _ => apply valid_block_iff in H end; sc_contra]|by right|done].
Ltac sc_accept :=
  bprop;
  split_and!; [split; [intros _; split; try done;
    repeat match goal with H : valid_flow _ = true |- _ => apply valid_flow_iff in H
                         | H : valid_block _ = true |- _ => apply valid_block_iff in H end; sc_contra|done]|by left|];
  cbn [fst snd].

(** Whatever setters a user calls on a new station configuration, with whatever arguments, all
    its fields hold allowed values and its strings fit into their buffers. *)
Theorem station_config_invariant ops :
  exists sc, sc_runs ops (snd (et_station_config_init true)) = Some sc /\ sc_ok sc.
Proof. destruct init_ok as (sc & -> & H). by apply sc_runs_ok. Qed.

(** Et_station_config_check accepts exactly the consistent configurations, and changes nothing
    but an overlong cue of a nonblocking station, which it cuts down to the number of events. *)
Theorem et_station_config_check_spec sys sc :
  (fst (et_station_config_check sys sc) = ET_OK <-> sc_accepted sys sc) /\
  (fst (et_station_config_check sys sc) = ET_OK \/ fst (et_station_config_check sys sc) = ET_ERROR) /\
  snd (et_station_config_check sys sc) =
    (if (fst (et_station_config_check sys sc) =? ET_OK) && (sc_block_mode sc =? ET_STATION_NONBLOCKING)
     then set_sc_cue (Z.min (sc_cue sc) (cf_nevents (sys_config sys))) sc else sc).
Proof.
  unfold et_station_config_check. cbv zeta.
  repeat match goal with
  | |- (fst (if ?b then (ET_ERROR, sc) else _) = _ <-> _) /\ _ =>
      let E := fresh "E" in destruct b eqn:E; [solve [sc_refuse]|]
  end.
  destruct (sc_block_mode sc =? ET_STATION_BLOCKING) eqn:Eb.
  { destruct (sc_prescale sc <? 1) eqn:Ep; [by sc_refuse|]. sc_accept.
    bprop. by rewrite Eb. }
  destruct (sc_cue sc <? 1) eqn:Ec; [by sc_refuse|].
  assert (sc_block_mode sc = ET_STATION_NONBLOCKING) as Em.
  { bprop. match goal with H : valid_block _ = true |- _ => apply valid_block_iff in H end. tauto. }
  destruct (cf_nevents (sys_config sys) <? sc_cue sc) eqn:Ev; sc_accept; bprop; rewrite Em; simpl.
  - by rewrite Z.min_r by lia.
  - rewrite Z.min_l by lia. by destruct sc.
Qed.

(** The way a station shares the events of its group. *)
Definition shares (c : et_stat_config) : Z :=
  if sc_select_mode c =? ET_STATION_SELECT_RROBIN then 1
  else if sc_select_mode c =? ET_STATION_SELECT_EQUALCUE then 2 else 0.

Lemma compare_parallel_iff g c :
  et_station_compare_parallel g c = 1 <->
  sc_flow_mode g = sc_flow_mode c /\ shares g = shares c /\
  (shares g <> 0 -> sc_block_mode g = sc_block_mode c /\ sc_prescale g = sc_prescale c).
Proof.
  unfold et_station_compare_parallel, shares. cbv zeta.
  destruct (Z.eqb_spec (sc_flow_mode g) (sc_flow_mode c)); [|simpl; intuition congruence].
  assert (forall v, (v =? ET_STATION_SELECT_RROBIN) = true -> (v =? ET_STATION_SELECT_EQUALCUE) = false) as X.
  { intros v ->%Z.eqb_eq. done. }
  pose proof (X (sc_select_mode g)) as Xg. pose proof (X (sc_select_mode c)) as Xc. clear X.
  destruct (Z.eqb_spec (sc_block_mode g) (sc_block_mode c)), (Z.eqb_spec (sc_prescale g) (sc_prescale c)),
    (sc_select_mode g =? ET_STATION_SELECT_RROBIN), (sc_select_mode g =? ET_STATION_SELECT_EQUALCUE),
    (sc_select_mode c =? ET_STATION_SELECT_RROBIN), (sc_select_mode c =? ET_STATION_SELECT_EQUALCUE);
    try (discriminate (Xg eq_refl)); try (discriminate (Xc eq_refl)); clear Xg Xc;
    simpl; intuition (congruence || lia).
Qed.

(** What a station has to have in common with a station of the group: the flow mode; if one of them takes
    part in the round-robin or the equal-cue distribution, so must the other, with the same block mode and
    prescale factor. *)
Definition group_compatible (g c : et_stat_config) : Prop :=
  sc_flow_mode g = sc_flow_mode c /\
  (sc_select_mode g = ET_STATION_SELECT_RROBIN <-> sc_select_mode c = ET_STATION_SELECT_RROBIN) /\
  (sc_select_mode g = ET_STATION_SELECT_EQUALCUE <-> sc_select_mode c = ET_STATION_SELECT_EQUALCUE) /\
  (sc_select_mode g = ET_STATION_SELECT_RROBIN \/ sc_select_mode g = ET_STATION_SELECT_EQUALCUE ->
     sc_block_mode g = sc_block_mode c /\ sc_prescale g = sc_prescale c).

Lemma shares_cases c :
  (shares c = 1 /\ sc_select_mode c = ET_STATION_SELECT_RROBIN) \/
  (shares c = 2 /\ sc_select_mode c = ET_STATION_SELECT_EQUALCUE) \/
  (shares c = 0 /\ sc_select_mode c <> ET_STATION_SELECT_RROBIN /\ sc_select_mode c <> ET_STATION_SELECT_EQUALCUE).
Proof.
  unfold shares. destruct (Z.eqb_spec (sc_select_mode c) ET_STATION_SELECT_RROBIN); [by left|].
  destruct (Z.eqb_spec (sc_select_mode c) ET_STATION_SELECT_EQUALCUE); [by right; left|by right; right].
Qed.

Lemma compare_parallel_compatible g c : et_station_compare_parallel g c = 1 <-> group_compatible g c.
Proof.
  rewrite compare_parallel_iff. unfold group_compatible. assert (ET_STATION_SELECT_RROBIN <> ET_STATION_SELECT_EQUALCUE) by done.
  destruct (shares_cases g) as [[-> ?]|[[-> ?]|(-> & ? & ?)]], (shares_cases c) as [[-> ?]|[[-> ?]|(-> & ? & ?)]];
    intuition (congruence || lia).
Qed.

(** C33: a station may join a parallel group when it agrees with a station of the group in the flow mode,
    in whether it shares the events round-robin or by equal cues, and, if so, in the block mode and the
    prescale factor: the result is 1 exactly then, and 0 otherwise.  The stations of a group, each compared
    with its first one, are pairwise compatible, in both directions.  The first comment in the code asks
    for parallel stations; but only equality is tested, so that two serial stations are compatible too. *)
Theorem et_station_compare_parallel_equiv a b c :
  (group_compatible a b /\ et_station_compare_parallel a b = 1 \/
   ~ group_compatible a b /\ et_station_compare_parallel a b = 0) /\
  (et_station_compare_parallel a b = 1 -> et_station_compare_parallel a c = 1 ->
   et_station_compare_parallel b c = 1 /\ et_station_compare_parallel c b = 1) /\
  (sc_flow_mode a = ET_STATION_SERIAL -> et_station_compare_parallel a a = 1).
Proof.
  split_and!.
  - rewrite <- compare_parallel_compatible. assert (X : et_station_compare_parallel a b = 0 \/ et_station_compare_parallel a b = 1)
      by (unfold et_station_compare_parallel; repeat case_match; auto). destruct X as [->| ->]; [by right|by left].
  - rewrite !compare_parallel_iff. intuition congruence.
  - intros _. rewrite compare_parallel_iff. intuition congruence.
Qed.

Definition sconfig0 : et_stat_config := default (st_config (stat0 1)) (snd (et_station_config_init true)).

Lemma et_station_compare_parallel_equiv_witness :
  et_station_compare_parallel sconfig0 (st_config (stat0 1)) = 1 /\
  et_station_compare_parallel (st_config (stat0 1)) sconfig0 = 1.
Proof.
  apply (proj1 (proj2 (et_station_compare_parallel_equiv sconfig0 sconfig0 (st_config (stat0 1))))); by_eval.
Defined.
