(* ===== verification/Stats.v ===== *)
(** * Rules for the functions that use several stations

    Weakest preconditions of loads and stores of whole stations and of the system structure, and
    what a store to one station means for the fields of all stations. *)
From stdpp Require Import base gmap strings list.
From S2P Require Import Prelude Types Machine.
Open Scope Z_scope.

Section rules.
Context (C : et_mem -> Prop).

Lemma wps_ld_stat s ps (Q : et_station -> et_mem -> Prop) m :
  m_stats m !! s = Some ps -> Q ps m -> wp (ld_stat s) Q C m.
Proof. intros E H. unfold ld_stat. apply wp_bind, wp_getm. by eapply wp_of_option. Qed.

Lemma wps_str_stat s ps f (Q : unit -> et_mem -> Prop) m :
  m_stats m !! s = Some ps -> C m -> Q tt (upd_stat s f m) -> wp (str_stat s f) Q C m.
Proof. intros E HC H. unfold str_stat. apply wp_bind. eapply wps_ld_stat; [done|]. by apply wp_store. Qed.

Lemma wps_ld_sys (Q : et_system -> et_mem -> Prop) m : Q (m_sys m) m -> wp ld_sys Q C m.
Proof. intros H. unfold ld_sys. apply wp_bind, wp_getm. by apply wp_ret. Qed.

Lemma wps_str_sys f (Q : unit -> et_mem -> Prop) m :
  C m -> Q tt (upd_sys f m) -> wp (str_sys f) Q C m.
Proof. intros HC H. by apply wp_store. Qed.

Lemma wps_ld_list pl ps (Q : et_list -> et_mem -> Prop) m :
  m_stats m !! lstat pl = Some ps -> Q (st_list pl ps) m -> wp (ld_list pl) Q C m.
Proof. intros E H. unfold ld_list. apply wp_bind. eapply wps_ld_stat; [done|]. by apply wp_ret. Qed.

Lemma wps_str_list pl ps f (Q : unit -> et_mem -> Prop) m :
  m_stats m !! lstat pl = Some ps -> C m -> Q tt (upd_list pl f m) -> wp (str_list pl f) Q C m.
Proof. intros E HC H. unfold str_list. apply wp_bind. eapply wps_ld_stat; [done|]. by apply wp_store. Qed.
End rules.

(** ** Lookups after a store *)

Lemma upd_stat_eq s f m ps : m_stats m !! s = Some ps -> m_stats (upd_stat s f m) !! s = Some (f ps).
Proof. intros E. simpl. by rewrite lookup_alter_eq, E. Qed.

Lemma upd_stat_ne s s' f m : s <> s' -> m_stats (upd_stat s f m) !! s' = m_stats m !! s'.
Proof. intros N. simpl. by rewrite lookup_alter_ne. Qed.

Lemma upd_stat_ext s f g m ps :
  m_stats m !! s = Some ps -> f ps = g ps -> upd_stat s f m = upd_stat s g m.
Proof.
  intros E H. unfold upd_stat. f_equal. apply map_eq. intros i. destruct (decide (s = i)) as [<-|N].
  - by rewrite !lookup_alter_eq, E; simpl; rewrite H.
  - by rewrite !lookup_alter_ne.
Qed.

Lemma upd_stat_compose s f g m : upd_stat s f (upd_stat s g m) = upd_stat s (fun ps => f (g ps)) m.
Proof.
  unfold upd_stat, set_m_stats. cbn. f_equal. apply map_eq. intros i. destruct (decide (s = i)) as [<-|N].
  - rewrite !lookup_alter_eq. by destruct (m_stats m !! s).
  - by rewrite !lookup_alter_ne.
Qed.

Lemma upd_stat_id s f m ps : m_stats m !! s = Some ps -> f ps = ps -> upd_stat s f m = m.
Proof.
  intros E H. unfold upd_stat, set_m_stats. destruct m as [y st h e r]. cbn in *. f_equal. apply alter_id. congruence.
Qed.

Lemma upd_sys_stats f m : m_stats (upd_sys f m) = m_stats m.
Proof. done. Qed.

(** A field of a station, by the number of the station. *)
Definition stf (f : et_station -> Z) (m : et_mem) (s : Z) : Z :=
  match m_stats m !! s with Some ps => f ps | None => -1 end.

Lemma stf_lookup f m s ps : m_stats m !! s = Some ps -> stf f m s = f ps.
Proof. unfold stf. by intros ->. Qed.

(** The store changes the field to [v]. *)
Lemma stf_eq f s g m v :
  is_Some (m_stats m !! s) -> (forall ps, f (g ps) = v) -> stf f (upd_stat s g m) s = v.
Proof. intros [ps E] H. unfold stf. rewrite (upd_stat_eq s g m ps E). apply H. Qed.

Lemma stf_ne f s g m a : s <> a -> stf f (upd_stat s g m) a = stf f m a.
Proof. intros N. unfold stf. by rewrite upd_stat_ne. Qed.

(** The store does not change the field of any station. *)
Lemma stf_same f s g m a : (forall ps, f (g ps) = f ps) -> stf f (upd_stat s g m) a = stf f m a.
Proof.
  intros H. unfold stf. destruct (decide (s = a)) as [<-|N]; [|by rewrite upd_stat_ne].
  destruct (m_stats m !! s) as [ps|] eqn:E; [by rewrite (upd_stat_eq s g m ps E)|].
  simpl. by rewrite lookup_alter_eq, E.
Qed.

Lemma stf_sys f g m a : stf f (upd_sys g m) a = stf f m a.
Proof. done. Qed.

Lemma is_Some_upd_stat s g m a : is_Some (m_stats m !! a) -> is_Some (m_stats (upd_stat s g m) !! a).
Proof.
  intros [ps E]. destruct (decide (s = a)) as [<-|N].
  - rewrite (upd_stat_eq s g m ps E). eauto.
  - rewrite upd_stat_ne by done. eauto.
Qed.
