(* ===== verification/Chain.v ===== *)
(** * The chain of stations

    station_remove, station_insert and station_find of et_station.c.  The main linked list goes from
    GrandCentral through the fields next and prev; the members of a group of parallel stations hang
    on the head of their group through nextparallel and prevparallel. *)
From stdpp Require Import base gmap strings list.
From S2P Require Import Prelude Types Machine EvList Sample StatConfig Stats.
Open Scope Z_scope.

(** The main list loses the station [ps] with number [stat_id]. *)
Definition remove_main (stat_id : Z) (ps : et_station) : M unit :=
  let* y := ld_sys in
  let* previous := ld_stat (st_prev ps) in
  (if sys_stat_tail y =? stat_id then str_sys (set_sys_stat_tail (st_num previous))
   else str_stat (st_next ps) (set_st_prev (st_num previous))) ;;;
  str_stat (st_prev ps) (set_st_next (st_next ps)).

(** The next parallel station takes the place of the head [ps] in the main list. *)
Definition remove_head (stat_id : Z) (ps : et_station) : M unit :=
  let np := st_nextparallel ps in
  str_stat np (set_st_prev (st_prev ps)) ;;;
  str_stat np (set_st_next (st_next ps)) ;;;
  str_stat np (set_st_prevparallel (-1)) ;;;
  let* y := ld_sys in
  (if sys_stat_tail y =? stat_id then
     let* nextparallel := ld_stat np in
     str_sys (set_sys_stat_tail (st_num nextparallel))
   else str_stat (st_next ps) (set_st_prev np)) ;;;
  str_stat (st_prev ps) (set_st_next np).

(** A station that is not the head of its group leaves the group. *)
Definition remove_member (ps : et_station) : M unit :=
  let* previous := ld_stat (st_prevparallel ps) in
  when (-1 <? st_nextparallel ps)
    (str_stat (st_nextparallel ps) (set_st_prevparallel (st_num previous))) ;;;
  str_stat (st_prevparallel ps) (set_st_nextparallel (st_nextparallel ps)) ;;;
  when (st_waslast ps =? 1) (str_stat (st_prevparallel ps) (set_st_waslast 1)).

Definition station_remove (stat_id : Z) : M unit :=
  let* ps := ld_stat stat_id in
  if sc_flow_mode (st_config ps) =? ET_STATION_PARALLEL then
    if -1 <? st_prev ps then
      if st_nextparallel ps <? 0 then remove_main stat_id ps else remove_head stat_id ps
    else remove_member ps
  else remove_main stat_id ps.

(** ps is put at the end of the main list, after [previous]. *)
Definition insert_end (ps previous : Z) : M unit :=
  let* p := ld_stat previous in
  str_stat ps (set_st_prev (st_num p)) ;;;
  let* s := ld_stat ps in
  str_sys (set_sys_stat_tail (st_num s)) ;;;
  str_stat previous (set_st_next (st_num s)).

(** ps is put into the main list between [previous] and [next]. *)
Definition insert_between (ps previous next : Z) : M unit :=
  str_stat ps (set_st_next next) ;;;
  let* p := ld_stat previous in
  str_stat ps (set_st_prev (st_num p)) ;;;
  let* s := ld_stat ps in
  str_stat next (set_st_prev (st_num s)) ;;;
  str_stat previous (set_st_next (st_num s)).

(** The inner loop: the place in the group whose current station is [parallelStation]; [n] bounds
    the stations that exist, and a longer walk never ends. *)
Fixpoint insert_parallel (n : nat) (ps parallelStation counter parallelposition : Z) : M Z :=
  match n with
  | O => diverge
  | S n' =>
    let* q := ld_stat parallelStation in
    let nextparallel := st_nextparallel q in
    if (counter =? parallelposition) || (nextparallel <? 0) then
      str_stat ps (set_st_nextparallel nextparallel) ;;;
      str_stat ps (set_st_prevparallel (st_num q)) ;;;
      let* s := ld_stat ps in
      when (-1 <? nextparallel) (str_stat nextparallel (set_st_prevparallel (st_num s))) ;;;
      str_stat parallelStation (set_st_nextparallel (st_num s)) ;;;
      ret ET_OK
    else insert_parallel n' ps nextparallel (counter + 1) parallelposition
  end.

(** The outer loop, with the station [previous] and the value of [counter]. *)
Fixpoint insert_loop (n : nat) (ps previous counter position parallelposition : Z) : M Z :=
  match n with
  | O => diverge
  | S n' =>
    let* p := ld_stat previous in
    let next := st_next p in
    if next <? 0 then insert_end ps previous ;;; ret ET_OK
    else if counter =? position then
      let* s := ld_stat ps in
      let* pnext := ld_stat next in
      if (sc_flow_mode (st_config s) =? ET_STATION_PARALLEL) &&
         (sc_flow_mode (st_config pnext) =? ET_STATION_PARALLEL) &&
         negb (parallelposition =? ET_NEWHEAD) then
        if et_station_compare_parallel (st_config pnext) (st_config s) =? 0 then ret ET_ERROR
        else if parallelposition =? 0 then ret ET_ERROR
        else
          let* m := getm in
          insert_parallel (S (size (m_stats m))) ps next 1 parallelposition
      else insert_between ps previous next ;;; ret ET_OK
    else insert_loop n' ps next (counter + 1) position parallelposition
  end.

Definition station_insert (ps position parallelposition : Z) : M Z :=
  let* y := ld_sys in
  if sys_nstations y <? 3 then insert_end ps ET_GRANDCENTRAL ;;; ret ET_OK
  else
    let* m := getm in
    insert_loop (S (size (m_stats m))) ps ET_GRANDCENTRAL 1 position parallelposition.

(** The inner loop of station_find: the position of [ps] behind [parallelStation] in its group. *)
Fixpoint find_parallel (n : nat) (ps parallelStation currentParallel : Z) : M (option Z) :=
  match n with
  | O => diverge
  | S n' =>
    let* q := ld_stat parallelStation in
    let nextparallel := st_nextparallel q in
    if nextparallel <? 0 then ret None
    else if nextparallel =? ps then ret (Some currentParallel)
    else find_parallel n' ps nextparallel (currentParallel + 1)
  end.

(** The status, the position and the position in the group. *)
Fixpoint find_loop (n : nat) (ps previous currentPosition : Z) : M (Z * Z * Z) :=
  match n with
  | O => diverge
  | S n' =>
    let* p := ld_stat previous in
    let next := st_next p in
    if next <? 0 then ret (ET_ERROR, 0, 0)
    else
      let* pnext := ld_stat next in
      if next =? ps then ret (ET_OK, currentPosition, 0)
      else
        let* m := getm in
        let* r :=
          (if sc_flow_mode (st_config pnext) =? ET_STATION_PARALLEL
           then find_parallel (S (size (m_stats m))) ps next 1 else ret None) in
        match r with
        | Some parallelposition => ret (ET_OK, currentPosition, parallelposition)
        | None => find_loop n' ps next (currentPosition + 1)
        end
  end.

Definition station_find (ps : Z) : M (Z * Z * Z) :=
  if ps =? ET_GRANDCENTRAL then ret (ET_OK, 0, 0)
  else
    let* y := ld_sys in
    if sys_nstations y <? 2 then ret (ET_ERROR, 0, 0)
    else
      let* m := getm in
      find_loop (S (size (m_stats m))) ps ET_GRANDCENTRAL 1.

(** ** Doubly linked lists *)

(** The stations [l] are linked by [nx] and [pv] between [p] and [q]. *)
Fixpoint dll (nx pv : Z -> Z) (p : Z) (l : list Z) (q : Z) : Prop :=
  match l with
  | [] => True
  | a :: l' => pv a = p /\ nx a = hd q l' /\ dll nx pv a l' q
  end.

Lemma last_cons_default (a p : Z) l : List.last (a :: l) p = List.last l a.
Proof. revert a p. induction l as [|b l IH]; intros a p; [done|]. change (List.last (b :: l) p = List.last (b :: l) a). by rewrite (IH b p), (IH b a). Qed.

Lemma last_in (b p : Z) l : List.last (b :: l) p ∈ b :: l.
Proof.
  revert b p. induction l as [|c l IH]; intros b p; [by left|].
  rewrite last_cons_default. right. apply IH.
Qed.

Lemma list_last_app (l1 : list Z) a l2 p : List.last (l1 ++ a :: l2) p = List.last l2 a.
Proof.
  revert p. induction l1 as [|b l1 IH]; intros p; [apply last_cons_default|].
  change ((b :: l1) ++ a :: l2) with (b :: (l1 ++ a :: l2)). by rewrite last_cons_default, IH.
Qed.

Lemma dll_app nx pv p l1 l2 q :
  dll nx pv p (l1 ++ l2) q <-> dll nx pv p l1 (hd q l2) /\ dll nx pv (List.last l1 p) l2 q.
Proof.
  revert p. induction l1 as [|a l1 IH]; intros p; [simpl; tauto|].
  rewrite last_cons_default. simpl.
  assert (hd q (l1 ++ l2) = hd (hd q l2) l1) as -> by (by destruct l1).
  rewrite IH. tauto.
Qed.

Lemma dll_ext nx pv nx' pv' p l q :
  dll nx pv p l q -> (forall a, a ∈ l -> nx' a = nx a /\ pv' a = pv a) -> dll nx' pv' p l q.
Proof.
  revert p. induction l as [|a l IH]; intros p; simpl; [done|].
  intros (H1 & H2 & H3) E. destruct (E a) as [-> ->]; [set_solver|].
  split_and!; [done..|]. apply IH; set_solver.
Qed.

(** A list with a new successor. *)
Lemma dll_last nx pv nx' pv' p l a q q' :
  dll nx pv p (l ++ [a]) q -> a ∉ l -> nx' a = q' -> pv' a = pv a ->
  (forall b, b ∈ l -> nx' b = nx b /\ pv' b = pv b) -> dll nx' pv' p (l ++ [a]) q'.
Proof.
  rewrite !dll_app. simpl. intros (H1 & H2 & H3 & _) N E1 E2 E.
  split_and!; [by apply (dll_ext nx pv)|congruence|done|done].
Qed.

(** A list with a new predecessor. *)
Lemma dll_head nx pv nx' pv' p p' a l q :
  dll nx pv p (a :: l) q -> a ∉ l -> nx' a = nx a -> pv' a = p' ->
  (forall b, b ∈ l -> nx' b = nx b /\ pv' b = pv b) -> dll nx' pv' p' (a :: l) q.
Proof.
  simpl. intros (H1 & H2 & H3) N E1 E2 E. split_and!; [done|congruence|]. by apply (dll_ext nx pv).
Qed.

(** Insertion of [s] behind [x]. *)
Lemma dll_insert nx pv nx' pv' p l1 x l2 s q :
  dll nx pv p (l1 ++ x :: l2) q -> NoDup (l1 ++ x :: l2) ->
  nx' x = s -> pv' x = pv x -> nx' s = hd q l2 -> pv' s = x ->
  (forall n, n ∈ l2 -> nx' n = nx n) ->
  (forall n l, l2 = n :: l -> pv' n = s /\ forall b, b ∈ l -> pv' b = pv b) ->
  (forall b, b ∈ l1 -> nx' b = nx b /\ pv' b = pv b) ->
  dll nx' pv' p (l1 ++ x :: s :: l2) q.
Proof.
  intros D N Ex1 Ex2 Es1 Es2 E2 E2' E1.
  change (x :: l2) with ([x] ++ l2) in *. change (x :: s :: l2) with ([x] ++ (s :: l2)).
  rewrite app_assoc in *. apply NoDup_app in N as (N1 & N2 & N3).
  apply dll_app in D as [D1 D2]. apply dll_app. rewrite List.last_last in *. split.
  - apply (dll_last nx pv _ _ _ _ _ (hd q l2)); auto.
    apply NoDup_app in N1 as (_ & N1 & _). intros X. apply (N1 x X). by left.
  - cbn [dll]. split_and!; [done..|]. destruct l2 as [|n l2]; [done|].
    destruct (E2' n l2 eq_refl) as [Y1 Y2]. apply NoDup_cons in N3 as [N3 N4].
    apply (dll_head nx pv nx' pv' x); [done|done|apply E2; by left|done|].
    intros b Hb. split; [apply E2; by right|auto].
Qed.

(** ** The chain as a list of groups *)

(** The head of a group and its other members; a serial station is a group of its own. *)
Abbreviation group := (Z * list Z)%type.
Definition group_members (g : group) : list Z := fst g :: snd g.
Definition members (gs : list group) : list Z := concat (map group_members gs).

Definition parallel (m : et_mem) (s : Z) : Prop :=
  exists ps, m_stats m !! s = Some ps /\ sc_flow_mode (st_config ps) = ET_STATION_PARALLEL.
Definition compatible (m : et_mem) (h s : Z) : Prop :=
  exists ph ps, m_stats m !! h = Some ph /\ m_stats m !! s = Some ps /\
    et_station_compare_parallel (st_config ph) (st_config ps) = 1.

(** The links of one group. *)
Record group_ok (m : et_mem) (g : group) : Prop := mkGroupOk {
  gr_dll : dll (stf st_nextparallel m) (stf st_prevparallel m) (-1) (group_members g) (-1);
  gr_prev : forall s, s ∈ snd g -> stf st_prev m s = -1;
  gr_head : snd g <> [] -> parallel m (fst g);
  gr_parallel : forall s, s ∈ snd g -> parallel m s /\ compatible m (fst g) s
}.

Definition heads (gs : list group) : list Z := map fst gs.

Record station_chain (m : et_mem) (gs : list group) : Prop := mkChain {
  ch_nodup : NoDup (members gs);
  ch_stat : forall s, s ∈ members gs -> 0 <= s /\ exists ps, m_stats m !! s = Some ps /\ st_num ps = s;
  ch_gc : exists gs', gs = (ET_GRANDCENTRAL, []) :: gs';
  ch_main : dll (stf st_next m) (stf st_prev m) (-1) (heads gs) (-1);
  ch_tail : sys_stat_tail (m_sys m) = List.last (heads gs) (-1);
  ch_groups : forall g, g ∈ gs -> group_ok m g
}.

(** A station [s] that is in no list and may be inserted: its links that the insertion does not set
    are -1.  When [e] holds the insertion is at the end of the main list. *)
Record detached (e : Prop) (m : et_mem) (gs : list group) (s : Z) (ps : et_station) : Prop := mkDetached {
  fr_not : s ∉ members gs;
  fr_stat : m_stats m !! s = Some ps;
  fr_num : st_num ps = s;
  fr_nonneg : 0 <= s;
  fr_next : e -> st_next ps = -1;
  fr_prev : parallel m s -> st_prev ps = -1;
  fr_nextparallel : st_nextparallel ps = -1;
  fr_prevparallel : st_prevparallel ps = -1
}.

(** It may be inserted anywhere. *)
Abbreviation fresh := (detached True).

Lemma detached_weaken (e e' : Prop) m gs s ps : (e' -> e) -> detached e m gs s ps -> detached e' m gs s ps.
Proof. intros E [? ? ? ? ? ? ? ?]. split; auto. Qed.

(** A station without its links, and a memory without the links of its stations. *)
Definition unlinked (ps : et_station) : et_station :=
  set_st_next 0 (set_st_prev 0 (set_st_nextparallel 0 (set_st_prevparallel 0 (set_st_waslast 0 ps)))).
Definition unlinked_mem (m : et_mem) : et_mem :=
  set_m_stats (unlinked <$> m_stats m) (upd_sys (set_sys_stat_tail 0) m).

Lemma unlinked_upd_stat s g m :
  (forall ps, unlinked (g ps) = unlinked ps) -> unlinked_mem (upd_stat s g m) = unlinked_mem m.
Proof.
  intros H. unfold unlinked_mem, upd_stat, upd_sys, set_m_stats, set_m_sys. cbn [m_stats m_sys m_histogram m_events m_rwlock].
  f_equal. apply map_eq. intros a.
  rewrite !lookup_fmap. destruct (decide (s = a)) as [<-|N].
  - rewrite lookup_alter_eq. destruct (m_stats m !! s); simpl; [by rewrite H|done].
  - by rewrite lookup_alter_ne.
Qed.

Lemma unlinked_upd_tail v m : unlinked_mem (upd_sys (set_sys_stat_tail v) m) = unlinked_mem m.
Proof. done. Qed.

(** The same configuration and number. *)
Lemma unlinked_lookup m m' s ps :
  unlinked_mem m' = unlinked_mem m -> m_stats m !! s = Some ps ->
  exists ps', m_stats m' !! s = Some ps' /\ st_num ps' = st_num ps /\ st_config ps' = st_config ps.
Proof.
  intros E H. assert (unlinked <$> m_stats m' !! s = Some (unlinked ps)) as X.
  { rewrite <- lookup_fmap. change (unlinked <$> m_stats m') with (m_stats (unlinked_mem m')).
    rewrite E. simpl. by rewrite lookup_fmap, H. }
  destruct (m_stats m' !! s) as [ps'|] eqn:F; simpl in X; [|done]. injection X as X1 X2 X3.
  exists ps'. auto.
Qed.

Lemma parallel_unlinked m m' s : unlinked_mem m' = unlinked_mem m -> parallel m s -> parallel m' s.
Proof.
  intros E (ps & H & F). destruct (unlinked_lookup m m' s ps E H) as (ps' & H' & _ & C).
  exists ps'. by rewrite C.
Qed.

Lemma compatible_unlinked m m' h s :
  unlinked_mem m' = unlinked_mem m -> compatible m h s -> compatible m' h s.
Proof.
  intros E (ph & ps & Hh & Hs & F).
  destruct (unlinked_lookup m m' h ph E Hh) as (ph' & Hh' & _ & Ch).
  destruct (unlinked_lookup m m' s ps E Hs) as (ps' & Hs' & _ & Cs).
  exists ph', ps'. by rewrite Ch, Cs.
Qed.

Lemma group_ok_ext m m' g :
  unlinked_mem m' = unlinked_mem m ->
  (forall a, a ∈ group_members g ->
     stf st_nextparallel m' a = stf st_nextparallel m a /\
     stf st_prevparallel m' a = stf st_prevparallel m a) ->
  (forall a, a ∈ snd g -> stf st_prev m' a = stf st_prev m a) ->
  group_ok m g -> group_ok m' g.
Proof.
  intros U E1 E2 [H1 H2 H3 H4]. split.
  - by apply (dll_ext _ _ _ _ _ _ _ H1).
  - intros a Ha. rewrite E2 by done. auto.
  - intros N. apply (parallel_unlinked m); auto.
  - intros a Ha. destruct (H4 a Ha). split; [by apply (parallel_unlinked m)|by apply (compatible_unlinked m)].
Qed.

Lemma chain_stat_ext m m' gs :
  unlinked_mem m' = unlinked_mem m ->
  (forall s, s ∈ members gs -> 0 <= s /\ exists ps, m_stats m !! s = Some ps /\ st_num ps = s) ->
  (forall s, s ∈ members gs -> 0 <= s /\ exists ps, m_stats m' !! s = Some ps /\ st_num ps = s).
Proof.
  intros U H s Hs. destruct (H s Hs) as (? & ps & E & N). split; [done|].
  destruct (unlinked_lookup m m' s ps U E) as (ps' & ? & ? & ?). exists ps'. split; congruence.
Qed.

Lemma members_app gs gs' : members (gs ++ gs') = members gs ++ members gs'.
Proof. unfold members. by rewrite map_app, concat_app. Qed.

Lemma members_cons g gs : members (g :: gs) = group_members g ++ members gs.
Proof. done. Qed.

Lemma heads_app gs gs' : heads (gs ++ gs') = heads gs ++ heads gs'.
Proof. apply map_app. Qed.

Lemma elem_of_members a g gs : g ∈ gs -> a ∈ group_members g -> a ∈ members gs.
Proof.
  intros (l1 & l2 & ->)%list_elem_of_split H. rewrite members_app, members_cons.
  rewrite !elem_of_app. auto.
Qed.

Lemma elem_of_members_snd a g gs : g ∈ gs -> a ∈ snd g -> a ∈ members gs.
Proof. intros H Ha. apply (elem_of_members a g); [done|]. by right. Qed.

Lemma elem_of_heads a gs : a ∈ heads gs -> a ∈ members gs.
Proof.
  unfold heads. intros (g & -> & H)%list_elem_of_fmap. apply (elem_of_members _ g); [done|by left].
Qed.

(** Solves the lookups of fields after stores to stations. *)
Ltac stf_side :=
  first [ reflexivity | done | solve [repeat first [apply is_Some_upd_stat | rewrite upd_sys_stats]; eauto using mk_is_Some] | congruence | set_solver ].
Ltac stf :=
  repeat first
    [ rewrite stf_sys
    | match goal with
      | |- context [stf ?f (upd_stat ?s ?g ?m) ?a] =>
          first [ rewrite (stf_same f s g m a) by (intros; reflexivity)
                | match g with _ ?v => rewrite (stf_eq f s g m v) by stf_side end
                | rewrite (stf_ne f s g m a) by stf_side ]
      end ].

Lemma detached_stf e m gs s ps : detached e m gs s ps ->
  stf st_nextparallel m s = -1 /\ stf st_prevparallel m s = -1.
Proof. intros [? E ? ? ? ? ? ?]. rewrite !(stf_lookup _ m s ps E). auto. Qed.

(** A new group of one station. *)
Lemma group_ok_single m s :
  stf st_nextparallel m s = -1 -> stf st_prevparallel m s = -1 -> group_ok m (s, []).
Proof. intros H1 H2. split; simpl; set_solver. Qed.

Lemma chain_last m gs : station_chain m gs -> exists gs0 g, gs = gs0 ++ [g].
Proof. intros H. destruct (ch_gc m gs H) as [gs' ->]. edestruct @exists_last as (gs0 & g & E); [|by exists gs0, g]. done. Qed.

Lemma heads_not_snd gs g a h :
  NoDup (members gs) -> g ∈ gs -> a ∈ snd g -> h ∈ heads gs -> a <> h.
Proof.
  intros N Hg Ha Hh ->. induction gs as [|g' gs IH]; [by apply elem_of_nil in Hg|].
  rewrite members_cons in N. apply NoDup_app in N as (N1 & N2 & N3).
  unfold group_members in *. apply NoDup_cons in N1 as [N0 N1].
  cbn [heads map] in Hh. fold (heads gs) in Hh.
  apply elem_of_cons in Hg as [->|Hg]; apply elem_of_cons in Hh as [->|Hh].
  - done.
  - apply (N2 h); [by right|by apply elem_of_heads].
  - apply (N2 (fst g')); [by left|by apply (elem_of_members_snd _ g)].
  - auto.
Qed.

Lemma heads_NoDup gs : NoDup (members gs) -> NoDup (heads gs).
Proof.
  induction gs as [|g gs IH]; [constructor|]. rewrite members_cons.
  intros (N1 & N2 & N3)%NoDup_app. constructor; [|auto].
  intros X%elem_of_heads. apply (N2 (fst g)); [by left|done].
Qed.

(** ** What a crash leaves *)

(** The stations [l] are linked by [nx] up to [q]. *)
Fixpoint linked (nx : Z -> Z) (l : list Z) (q : Z) : Prop :=
  match l with
  | [] => True
  | a :: l' => nx a = hd q l' /\ linked nx l' q
  end.

Lemma dll_linked nx pv p l q : dll nx pv p l q -> linked nx l q.
Proof. revert p. induction l as [|a l IH]; intros p; simpl; [done|]. intros (_ & ? & ?). eauto. Qed.

Lemma linked_ext nx nx' l q : linked nx l q -> (forall a, a ∈ l -> nx' a = nx a) -> linked nx' l q.
Proof.
  induction l as [|a l IH]; simpl; [done|]. intros [H1 H2] E. rewrite E by by left.
  split; [done|]. apply IH; [done|]. intros b Hb. apply E. by right.
Qed.

(** The chain by its fields next and nextparallel only, which are the last ones that are set when a
    station is put in or taken out. *)
Record forward_chain (m : et_mem) (gs : list group) : Prop := mkForward {
  fw_nodup : NoDup (members gs);
  fw_stat : forall s, s ∈ members gs -> 0 <= s /\ exists ps, m_stats m !! s = Some ps /\ st_num ps = s;
  fw_gc : exists gs', gs = (ET_GRANDCENTRAL, []) :: gs';
  fw_links : stf st_prev m ET_GRANDCENTRAL = -1 /\ stf st_prevparallel m ET_GRANDCENTRAL = -1;
  fw_main : linked (stf st_next m) (heads gs) (-1);
  fw_parallel : forall g, g ∈ gs -> linked (stf st_nextparallel m) (group_members g) (-1);
  fw_groups : forall g, g ∈ gs -> (snd g <> [] -> parallel m (fst g)) /\
    forall s, s ∈ snd g -> parallel m s /\ compatible m (fst g) s
}.

Lemma chain_forward m gs : station_chain m gs -> forward_chain m gs.
Proof.
  intros [H1 H2 [gs' H3] H4 H5 H6]. assert (G : group_ok m (ET_GRANDCENTRAL, [])) by (apply H6; rewrite H3; by left).
  split; try done.
  - by exists gs'.
  - rewrite H3 in H4. simpl in H4. split; [tauto|]. apply gr_dll in G. simpl in G. tauto.
  - by eapply dll_linked.
  - intros g Hg. eapply dll_linked. by apply gr_dll, H6.
  - intros g Hg. split; apply (H6 g Hg).
Qed.

(** The memory after a crash in a function on the chain: it still has the groups [gs], and nothing
    but links changed. *)
Definition chain_left (m : et_mem) (gs : list group) (m' : et_mem) : Prop :=
  forward_chain m' gs /\ unlinked_mem m' = unlinked_mem m.

Lemma chain_left_refl m gs : station_chain m gs -> chain_left m gs m.
Proof. intros H. split; [by apply chain_forward|done]. Qed.

Lemma chain_left_ext m gs m1 m2 :
  chain_left m gs m1 -> unlinked_mem m2 = unlinked_mem m1 ->
  stf st_prev m2 ET_GRANDCENTRAL = stf st_prev m1 ET_GRANDCENTRAL ->
  stf st_prevparallel m2 ET_GRANDCENTRAL = stf st_prevparallel m1 ET_GRANDCENTRAL ->
  (forall a, a ∈ heads gs -> stf st_next m2 a = stf st_next m1 a) ->
  (forall a, a ∈ members gs -> stf st_nextparallel m2 a = stf st_nextparallel m1 a) -> chain_left m gs m2.
Proof.
  intros [[H1 H2 H3 H4 H5 H6 H7] U] U2 P1 P2 Hn Hp. split; [|congruence]. split; try done.
  - intros s Hs. destruct (H2 s Hs) as (? & ps & E & N). split; [done|].
    destruct (unlinked_lookup m1 m2 s ps U2 E) as (ps' & ? & ? & ?). exists ps'. split; congruence.
  - by rewrite P1, P2.
  - by apply (linked_ext (stf st_next m1)).
  - intros g Hg. apply (linked_ext (stf st_nextparallel m1)); [by apply H6|]. intros a Ha. by apply Hp, (elem_of_members a g).
  - intros g Hg. destruct (H7 g Hg) as [X Y]. split; [intros Z1; apply (parallel_unlinked m1); auto|].
    intros s Hs. destruct (Y s Hs). split; [by apply (parallel_unlinked m1)|by apply (compatible_unlinked m1)].
Qed.

Section crash.
Context (m : et_mem) (gs : list group).

Lemma chain_left_prev m1 s v : chain_left m gs m1 -> s <> ET_GRANDCENTRAL -> chain_left m gs (upd_stat s (set_st_prev v) m1).
Proof. intros H N. apply (chain_left_ext _ _ m1); [done|by rewrite unlinked_upd_stat|..]; intros; stf; done. Qed.
Lemma chain_left_prevparallel m1 s v :
  chain_left m gs m1 -> s <> ET_GRANDCENTRAL -> chain_left m gs (upd_stat s (set_st_prevparallel v) m1).
Proof. intros H N. apply (chain_left_ext _ _ m1); [done|by rewrite unlinked_upd_stat|..]; intros; stf; done. Qed.
Lemma chain_left_next m1 s v : chain_left m gs m1 -> s ∉ heads gs -> chain_left m gs (upd_stat s (set_st_next v) m1).
Proof. intros H N. apply (chain_left_ext _ _ m1); [done|by rewrite unlinked_upd_stat|..]; intros; stf; done. Qed.
Lemma chain_left_nextparallel m1 s v :
  chain_left m gs m1 -> s ∉ members gs -> chain_left m gs (upd_stat s (set_st_nextparallel v) m1).
Proof. intros H N. apply (chain_left_ext _ _ m1); [done|by rewrite unlinked_upd_stat|..]; intros; stf; done. Qed.
Lemma chain_left_tail m1 v : chain_left m gs m1 -> chain_left m gs (upd_sys (set_sys_stat_tail v) m1).
Proof. intros H. by apply (chain_left_ext _ _ m1). Qed.

Lemma head_not_gc gs1 p gs2 s : station_chain m gs -> heads gs = gs1 ++ p :: gs2 -> s ∈ gs2 -> s <> ET_GRANDCENTRAL.
Proof.
  intros H E Hs. destruct (ch_gc _ _ H) as [gs' G]. pose proof (heads_NoDup _ (ch_nodup _ _ H)) as N.
  rewrite E in N. assert (X : exists l, gs1 ++ [p] = ET_GRANDCENTRAL :: l).
  { rewrite G in E. destruct gs1 as [|q gs1]; cbn in E; injection E as <- _; by eexists. }
  destruct X as [l X]. change (p :: gs2) with ([p] ++ gs2) in N. rewrite app_assoc, X in N.
  intros ->. apply NoDup_app in N as (_ & N & _). apply (N ET_GRANDCENTRAL); [by left|done].
Qed.

Lemma outside_not_gc s : station_chain m gs -> s ∉ members gs -> s <> ET_GRANDCENTRAL.
Proof. intros H N ->. destruct (ch_gc _ _ H) as [gs' E]. apply N. rewrite E. by left. Qed.

Lemma member_not_gc g s : station_chain m gs -> g ∈ gs -> s ∈ snd g -> s <> ET_GRANDCENTRAL.
Proof.
  intros H Hg Hs ->. apply (heads_not_snd gs g ET_GRANDCENTRAL ET_GRANDCENTRAL (ch_nodup _ _ H) Hg Hs); [|done].
  destruct (ch_gc _ _ H) as [gs' ->]. by left.
Qed.
End crash.

Create HintDb crash.
#[export] Hint Resolve chain_left_refl chain_left_prev chain_left_prevparallel chain_left_next chain_left_nextparallel
  chain_left_tail outside_not_gc member_not_gc elem_of_heads : crash.
Ltac crash := solve [eauto 12 with crash].

(** The chain with a new group of one station, given its main list. *)
Lemma chain_add_group e m m' gs1 gs2 s ps :
  station_chain m (gs1 ++ gs2) -> detached e m (gs1 ++ gs2) s ps -> gs1 <> [] ->
  unlinked_mem m' = unlinked_mem m ->
  (forall a, stf st_nextparallel m' a = stf st_nextparallel m a /\
     stf st_prevparallel m' a = stf st_prevparallel m a) ->
  (forall a, a ∉ heads (gs1 ++ gs2) -> a <> s -> stf st_prev m' a = stf st_prev m a) ->
  dll (stf st_next m') (stf st_prev m') (-1) (heads (gs1 ++ (s, []) :: gs2)) (-1) ->
  sys_stat_tail (m_sys m') = List.last (heads (gs1 ++ (s, []) :: gs2)) (-1) ->
  station_chain m' (gs1 ++ (s, []) :: gs2).
Proof.
  intros H F Ne U E1 E2 D T.
  assert (P : members (gs1 ++ (s, []) :: gs2) ≡ₚ s :: members (gs1 ++ gs2)).
  { rewrite !members_app, members_cons. unfold group_members. simpl. by rewrite Permutation_middle. }
  split; try done.
  - rewrite P. apply NoDup_cons. split; [apply F|apply H].
  - intros a. rewrite P. intros [->|Ha]%elem_of_cons.
    + split; [apply F|]. destruct (unlinked_lookup m m' s ps U (fr_stat _ _ _ _ _ F)) as (ps' & ? & ? & ?).
      exists ps'. pose proof (fr_num _ _ _ _ _ F). split; congruence.
    + by apply (chain_stat_ext m m' _ U (ch_stat _ _ H)).
  - destruct (ch_gc _ _ H) as [gs' X]. destruct gs1 as [|g gs1]; [done|]. injection X as -> X.
    by exists (gs1 ++ (s, []) :: gs2).
  - intros g Hg. rewrite elem_of_app, elem_of_cons in Hg.
    assert (g = (s, []) \/ g ∈ gs1 ++ gs2) as [->|Hg'] by (rewrite elem_of_app; tauto).
    + destruct (E1 s) as [X1 X2]. apply group_ok_single; rewrite ?X1, ?X2; apply (detached_stf _ _ _ _ _ F).
    + apply (group_ok_ext m); [done|auto| |by apply (ch_groups _ _ H)].
      intros a Ha. apply E2.
      * intros X. by apply (heads_not_snd _ g a a (ch_nodup _ _ H)) in X.
      * intros ->. apply (fr_not _ _ _ _ _ F). by apply (elem_of_members_snd _ g).
Qed.

Lemma wp_insert_end m gs s ps :
  station_chain m gs -> fresh m gs s ps ->
  wp (insert_end s (List.last (heads gs) (-1)))
    (fun _ m' => station_chain m' (gs ++ [(s, [])]) /\ unlinked_mem m' = unlinked_mem m) (chain_left m gs) m.
Proof.
  intros H F. destruct (chain_last m gs H) as (gs0 & [p ms] & E).
  assert (p ∈ members gs) as Hp.
  { subst. rewrite members_app, members_cons. set_solver. }
  assert (List.last (heads gs) (-1) = p) as ->.
  { subst. unfold heads. rewrite map_app. simpl. apply List.last_last. }
  destruct (ch_stat m gs H p Hp) as (Hp0 & pp & Ep & Np).
  assert (s <> p) as Nsp by (intros ->; by apply (fr_not _ _ _ _ _ F)).
  pose proof (fr_stat _ _ _ _ _ F) as Es.
  pose proof (fr_not _ _ _ _ _ F) as Ns.
  unfold insert_end. apply wp_bind. eapply wps_ld_stat; [done|]. rewrite Np.
  apply wp_bind. eapply wps_str_stat; [apply F|crash|].
  apply wp_bind. eapply wps_ld_stat; [apply upd_stat_eq, F|].
  replace (st_num (set_st_prev p ps)) with s by (symmetry; apply F).
  apply wp_bind. eapply wps_str_sys; [crash|].
  eapply wps_str_stat; [rewrite upd_sys_stats, upd_stat_ne; done|crash|].
  set (m' := upd_stat p _ _). assert (unlinked_mem m' = unlinked_mem m) as U.
  { unfold m'. rewrite unlinked_upd_stat by done. rewrite unlinked_upd_tail. by rewrite unlinked_upd_stat. }
  split; [|done]. apply (chain_add_group True m m' gs [] s ps); rewrite ?app_nil_r; try done.
  - by subst gs; destruct gs0.
  - intros a. unfold m'. stf. done.
  - intros a _ Na. unfold m'. stf. done.
  - subst gs. rewrite heads_app in *. simpl. rewrite heads_app.
    pose proof (ch_main _ _ H) as D. rewrite heads_app in D. simpl in *.
    assert (Nb : forall b, b ∈ heads gs0 -> b <> p /\ b <> s).
    { pose proof (heads_NoDup _ (ch_nodup _ _ H)) as N. rewrite heads_app in N.
      apply NoDup_app in N as (_ & N & _). intros b Hb. split.
      - intros ->. apply (N p Hb). by left.
      - intros ->. apply (fr_not _ _ _ _ _ F). rewrite members_app, elem_of_app.
        left. by apply elem_of_heads. }
    apply dll_app. rewrite List.last_last. split.
    + apply (dll_last _ _ _ _ _ _ _ _ _ D); unfold m'; stf; try done.
      * intros X. by apply Nb in X as [].
      * intros b []%Nb. stf. done.
    + simpl. split_and!; [|..|done]; unfold m'; stf; try done. rewrite (stf_lookup _ _ _ _ Es). by apply F.
  - rewrite heads_app. simpl. by rewrite List.last_last.
Qed.

Lemma wp_insert_between e m gs1 p ms n ns gs2 s ps :
  station_chain m (gs1 ++ (p, ms) :: (n, ns) :: gs2) -> detached e m (gs1 ++ (p, ms) :: (n, ns) :: gs2) s ps ->
  wp (insert_between s p n)
    (fun _ m' => station_chain m' (gs1 ++ (p, ms) :: (s, []) :: (n, ns) :: gs2) /\
       unlinked_mem m' = unlinked_mem m) (chain_left m (gs1 ++ (p, ms) :: (n, ns) :: gs2)) m.
Proof.
  set (gs := gs1 ++ (p, ms) :: (n, ns) :: gs2). intros H F.
  assert (Hh : heads gs = heads gs1 ++ p :: n :: heads gs2) by (unfold gs; by rewrite heads_app).
  assert (Hm : forall a, a ∈ heads gs -> a ∈ members gs) by (intros; by apply elem_of_heads).
  rewrite Hh in Hm. 
  destruct (ch_stat _ _ H p) as (Hp0 & pp & Ep & Np); [apply Hm; set_solver|].
  destruct (ch_stat _ _ H n) as (Hn0 & pn & En & Nn); [apply Hm; set_solver|].
  pose proof (fr_stat _ _ _ _ _ F) as Es. pose proof (fr_not _ _ _ _ _ F) as Ns.
  assert (Nsh : forall a, a ∈ heads gs -> a <> s) by (intros a Ha ->; by apply Ns, elem_of_heads).
  assert (s ∉ heads gs) as Nsh' by (intros X; by apply (Nsh s)).
  pose proof (heads_NoDup _ (ch_nodup _ _ H)) as N. rewrite Hh in N, Nsh.
  assert (p <> s /\ n <> s) as [Np' Nn'] by (split; apply Nsh; set_solver).
  apply NoDup_app in N as N'. destruct N' as (_ & N1 & N2).
  apply NoDup_cons in N2 as [N2 N3]. apply NoDup_cons in N3 as [N3 N4].
  assert (p <> n) as Npn by set_solver.
  assert (n <> ET_GRANDCENTRAL) as Ngc by (eapply (head_not_gc _ gs); [done|by rewrite Hh|by left]).
  fold gs. unfold insert_between. apply wp_bind. eapply wps_str_stat; [done|crash|].
  apply wp_bind. eapply wps_ld_stat; [by rewrite upd_stat_ne|]. rewrite Np.
  apply wp_bind. eapply wps_str_stat; [by apply upd_stat_eq|crash|].
  apply wp_bind. eapply wps_ld_stat; [by apply upd_stat_eq, upd_stat_eq|].
  replace (st_num _) with s by (symmetry; apply F).
  apply wp_bind. eapply wps_str_stat; [by rewrite !upd_stat_ne|crash|].
  eapply wps_str_stat; [by rewrite !upd_stat_ne|crash|].
  set (m' := upd_stat p _ _). assert (unlinked_mem m' = unlinked_mem m) as U.
  { unfold m'. by rewrite !unlinked_upd_stat. }
  split; [|done]. unfold gs in *. replace (gs1 ++ (p, ms) :: (s, []) :: (n, ns) :: gs2) with
    ((gs1 ++ [(p, ms)]) ++ (s, []) :: (n, ns) :: gs2) by (by rewrite <- app_assoc).
  replace (gs1 ++ (p, ms) :: (n, ns) :: gs2) with
    ((gs1 ++ [(p, ms)]) ++ (n, ns) :: gs2) in * by (by rewrite <- app_assoc).
  assert (Hh' : heads ((gs1 ++ [(p, ms)]) ++ (s, []) :: (n, ns) :: gs2) = heads gs1 ++ p :: s :: n :: heads gs2).
  { unfold heads. by rewrite !map_app, <- app_assoc. }
  apply (chain_add_group e m m' _ _ s ps); try done.
  - by destruct gs1.
  - intros a. unfold m'. stf. done.
  - intros a Ha Na. assert (a <> n) by (intros ->; apply Ha; rewrite Hh; set_solver). unfold m'. stf. done.
  - pose proof (ch_main _ _ H) as D. rewrite Hh in D. rewrite Hh'.
    apply (dll_insert _ _ _ _ _ _ _ _ _ _ D); try done; unfold m'; stf; try done.
    + intros b Hb. assert (b <> p /\ b <> s) as [] by set_solver. stf. done.
    + intros b l [= <- <-]. stf. split; [done|]. intros b Hb. assert (b <> n) by set_solver.
      assert (b <> s) by set_solver. stf. done.
    + intros b Hb. assert (b <> n /\ b <> s /\ b <> p) as (? & ? & ?) by set_solver. stf. done.
  - unfold m'. simpl. rewrite (ch_tail _ _ H), Hh, Hh'. by rewrite !list_last_app.
Qed.

(** ** Insertion into a group *)

Lemma NoDup_members_group gs g : NoDup (members gs) -> g ∈ gs -> NoDup (group_members g).
Proof.
  intros N (l1 & l2 & ->)%list_elem_of_split. rewrite members_app, members_cons in N.
  apply NoDup_app in N as (_ & _ & N). by apply NoDup_app in N as (N & _).
Qed.

(** The members of a group are in no other group. *)
Lemma members_disjoint gs1 g gs2 g' a :
  NoDup (members (gs1 ++ g :: gs2)) -> a ∈ group_members g -> g' ∈ gs1 ++ gs2 ->
  a ∉ group_members g'.
Proof.
  rewrite members_app, members_cons. intros (N1 & N2 & N3)%NoDup_app Ha Hg Ha'.
  apply NoDup_app in N3 as (N3 & N4 & N5). apply elem_of_app in Hg as [Hg|Hg].
  - apply (N2 a); [by apply (elem_of_members a g')|]. apply elem_of_app. by left.
  - apply (N4 a); [done|]. by apply (elem_of_members a g').
Qed.

(** The chain with [s] behind [a] in the group of [h], given the links of the group. *)
Lemma chain_add_member e m m' gs1 h ms ms' gs2 s ps :
  station_chain m (gs1 ++ (h, ms) :: gs2) -> detached e m (gs1 ++ (h, ms) :: gs2) s ps ->
  gs1 <> [] -> ms' ≡ₚ s :: ms ->
  unlinked_mem m' = unlinked_mem m -> sys_stat_tail (m_sys m') = sys_stat_tail (m_sys m) ->
  parallel m h -> parallel m s -> compatible m h s ->
  (forall a, stf st_next m' a = stf st_next m a /\ stf st_prev m' a = stf st_prev m a) ->
  (forall a, a ∉ h :: ms -> a <> s -> stf st_nextparallel m' a = stf st_nextparallel m a /\
     stf st_prevparallel m' a = stf st_prevparallel m a) ->
  dll (stf st_nextparallel m') (stf st_prevparallel m') (-1) (h :: ms') (-1) ->
  station_chain m' (gs1 ++ (h, ms') :: gs2).
Proof.
  intros H F Ne Pm U T Ph Ps Cs E1 E2 D.
  assert (P : members (gs1 ++ (h, ms') :: gs2) ≡ₚ s :: members (gs1 ++ (h, ms) :: gs2)).
  { rewrite !members_app, !members_cons. unfold group_members. simpl. rewrite Pm. simpl.
    solve_Permutation. }
  assert (Hh : heads (gs1 ++ (h, ms') :: gs2) = heads (gs1 ++ (h, ms) :: gs2)) by (by rewrite !heads_app).
  split; rewrite ?Hh.
  - rewrite P. apply NoDup_cons. split; [apply F|apply H].
  - intros a. rewrite P. intros [->|Ha]%elem_of_cons.
    + split; [apply F|]. destruct (unlinked_lookup m m' s ps U (fr_stat _ _ _ _ _ F)) as (ps' & ? & ? & ?).
      exists ps'. pose proof (fr_num _ _ _ _ _ F). split; congruence.
    + by apply (chain_stat_ext m m' _ U (ch_stat _ _ H)).
  - destruct (ch_gc _ _ H) as [gs' X]. destruct gs1 as [|g gs1]; [done|]. injection X as -> X.
    by eexists.
  - apply (dll_ext _ _ _ _ _ _ _ (ch_main _ _ H)). intros a _. apply E1.
  - rewrite T. apply H.
  - intros g Hg. assert (g = (h, ms') \/ g ∈ gs1 ++ gs2) as [->|Hg'].
    { rewrite elem_of_app, elem_of_cons in Hg. rewrite elem_of_app. tauto. }
    + assert (group_ok m (h, ms)) as [G1 G2 G3 G4] by (apply (ch_groups _ _ H); set_solver).
      split; cbn [fst snd] in *; [done|..].
      * intros a. rewrite Pm. intros [->|Ha]%elem_of_cons; destruct (E1 s) as [_ X].
        -- rewrite X, (stf_lookup _ _ _ _ (fr_stat _ _ _ _ _ F)). by apply F.
        -- destruct (E1 a) as [_ ->]. auto.
      * intros _. by apply (parallel_unlinked m).
      * intros a. rewrite Pm. intros Ha.
        assert (parallel m a /\ compatible m h a) as [].
        { apply elem_of_cons in Ha as [->|Ha]; [done|auto]. }
        split; [by apply (parallel_unlinked m)|by apply (compatible_unlinked m)].
    + assert (g ∈ gs1 ++ (h, ms) :: gs2) as Hg2 by (rewrite elem_of_app, elem_of_cons; rewrite elem_of_app in Hg'; tauto).
      apply (group_ok_ext m); [done|..|by apply (ch_groups _ _ H)].
      * intros a Ha. apply E2.
        -- intros X. by apply (members_disjoint gs1 (h, ms) gs2 g a (ch_nodup _ _ H)).
        -- intros ->. apply (fr_not _ _ _ _ _ F). by apply (elem_of_members s g).
      * intros a _. apply E1.
Qed.

(** The members of a group with [s] at the parallel position: the head has position 0, and a
    position that is too large, or ET_END, is the end. *)
Definition group_insert (s parallelposition : Z) (ms : list Z) : list Z :=
  let k := if (1 <=? parallelposition) && (parallelposition <=? Z.of_nat (length ms))
           then Z.to_nat (parallelposition - 1) else length ms in
  take k ms ++ s :: drop k ms.

Lemma group_insert_perm s pp ms : group_insert s pp ms ≡ₚ s :: ms.
Proof.
  unfold group_insert. generalize (if (1 <=? pp) && (pp <=? Z.of_nat (length ms)) then Z.to_nat (pp - 1) else length ms). intros k.
  rewrite <- Permutation_middle. by rewrite take_drop.
Qed.

(** The place that the loop finds behind [l1 ++ [a]]. *)
Lemma group_insert_at s pp h ms l1 a l2 :
  h :: ms = l1 ++ a :: l2 -> Z.of_nat (length l1) + 1 = pp \/ l2 = [] /\ ~ 1 <= pp <= Z.of_nat (length l1) ->
  h :: group_insert s pp ms = l1 ++ a :: s :: l2.
Proof.
  intros E H.
  assert (L : length ms = (length l1 + length l2)%nat).
  { apply (f_equal length) in E. rewrite length_app in E. simpl in E. lia. }
  assert (K : h :: take (length l1) ms ++ s :: drop (length l1) ms = l1 ++ a :: s :: l2).
  { change (take (S (length l1)) (h :: ms) ++ s :: drop (S (length l1)) (h :: ms) = l1 ++ a :: s :: l2).
    rewrite E. change (a :: l2) with ([a] ++ l2). change (a :: s :: l2) with ([a] ++ s :: l2).
    rewrite !app_assoc. assert (S (length l1) = length (l1 ++ [a])) as -> by (rewrite length_app; simpl; lia).
    by rewrite take_app_length, drop_app_length. }
  rewrite <- K. unfold group_insert.
  destruct H as [<-|[-> H]]; simpl in *.
  - destruct (Z.leb_spec 1 (Z.of_nat (length l1) + 1)); [|lia].
    destruct (Z.leb_spec (Z.of_nat (length l1) + 1) (Z.of_nat (length ms))); simpl.
    + by replace (Z.to_nat (Z.of_nat (length l1) + 1 - 1)) with (length l1) by lia.
    + by replace (length ms) with (length l1) by lia.
  - rewrite Nat.add_0_r in L. rewrite L.
    destruct (Z.leb_spec 1 pp), (Z.leb_spec pp (Z.of_nat (length l1))); simpl; try done; lia.
Qed.

Section insert_parallel.
Context (e : Prop) (m : et_mem) (gs1 : list group) (h : Z) (ms : list Z) (gs2 : list group) (s : Z)
  (ps : et_station).
Context (H : station_chain m (gs1 ++ (h, ms) :: gs2)) (F : detached e m (gs1 ++ (h, ms) :: gs2) s ps).
Context (Ne : gs1 <> []) (Ph : parallel m h) (Ps : parallel m s) (Cs : compatible m h s).

Lemma group_mem_stat a : a ∈ h :: ms ->
  (0 <= a /\ a <> s) /\ exists pa, m_stats m !! a = Some pa /\ st_num pa = a.
Proof.
  intros Ha. assert (a ∈ members (gs1 ++ (h, ms) :: gs2)) as X.
  { apply (elem_of_members a (h, ms)); [set_solver|done]. }
  destruct (ch_stat _ _ H a X) as (? & ?). split_and!; [done| |done].
  intros ->. by apply (fr_not _ _ _ _ _ F).
Qed.

Lemma group_links : dll (stf st_nextparallel m) (stf st_prevparallel m) (-1) (h :: ms) (-1).
Proof. apply (gr_dll _ _ (ch_groups _ _ H (h, ms) ltac:(set_solver))). Qed.

Lemma group_nodup : NoDup (h :: ms).
Proof. apply (NoDup_members_group _ (h, ms) (ch_nodup _ _ H)). set_solver. Qed.

(** The links after the stores of insert_parallel behind [a]. *)
Lemma member_inserted l1 a l2 ms' v (m' := upd_stat a (set_st_nextparallel s)
    (match l2 with [] => fun m0 : et_mem => m0 | n :: _ => upd_stat n (set_st_prevparallel s) end
      (upd_stat s (set_st_prevparallel a) (upd_stat s (set_st_nextparallel v) m)))) :
  h :: ms = l1 ++ a :: l2 -> v = hd (-1) l2 -> h :: ms' = l1 ++ a :: s :: l2 -> ms' ≡ₚ s :: ms ->
  station_chain m' (gs1 ++ (h, ms') :: gs2) /\ unlinked_mem m' = unlinked_mem m.
Proof.
  intros E -> E' Pm.
  assert (unlinked_mem m' = unlinked_mem m) as U.
  { unfold m'. rewrite unlinked_upd_stat by done. destruct l2; by rewrite !unlinked_upd_stat. }
  split; [|done].
  pose proof group_nodup as N. pose proof group_links as D. rewrite E in N, D.
  pose proof (fr_stat _ _ _ _ _ F) as Es.
  assert (Hs : forall b, b ∈ l1 ++ a :: l2 -> b <> s).
  { intros b. rewrite <- E. apply group_mem_stat. }
  destruct (group_mem_stat a) as ((_ & Nas) & pa & Ea & _); [rewrite E; set_solver|].
  apply NoDup_app in N as N'. destruct N' as (_ & N1 & N2). apply NoDup_cons in N2 as [N2 N3].
  apply (chain_add_member e m m' gs1 h ms ms' gs2 s ps); try done.
  - unfold m'. by destruct l2.
  - intros b. unfold m'. destruct l2; stf; done.
  - intros b Hb Nb. rewrite E in Hb. unfold m'.
    destruct l2 as [|n l2]; [|assert (b <> n) by set_solver]; assert (b <> a) by set_solver; stf; done.
  - rewrite E'. destruct l2 as [|n l2].
    + apply (dll_insert _ _ _ _ _ _ _ _ _ _ D); try done; unfold m'; stf; try done; [set_solver|].
      intros b Hb. assert (b <> a) by set_solver. assert (b <> s) by (apply Hs; set_solver). stf. done.
    + destruct (group_mem_stat n) as ((_ & Nns) & pn & En & _); [rewrite E; set_solver|].
      apply NoDup_cons in N3 as [N3 N4]. assert (n <> a) by set_solver.
      apply (dll_insert _ _ _ _ _ _ _ _ _ _ D); try done; unfold m'; stf; try done.
      * intros b Hb. assert (b <> a) by set_solver. assert (b <> s) by (apply Hs; set_solver). stf. done.
      * intros b l [= <- <-]. stf. split; [done|]. intros b Hb. assert (b <> n) by set_solver.
        assert (b <> s) by (apply Hs; set_solver). stf. done.
      * intros b Hb. assert (b <> a) by set_solver. assert (b <> n) by set_solver.
        assert (b <> s) by (apply Hs; set_solver). stf. done.
Qed.

Lemma wp_insert_parallel n l1 a l2 pp :
  h :: ms = l1 ++ a :: l2 -> (length l2 < n)%nat -> ~ 1 <= pp <= Z.of_nat (length l1) ->
  wp (insert_parallel n s a (Z.of_nat (length l1) + 1) pp)
    (fun st m' => st = ET_OK /\ station_chain m' (gs1 ++ (h, group_insert s pp ms) :: gs2) /\
       unlinked_mem m' = unlinked_mem m) (chain_left m (gs1 ++ (h, ms) :: gs2)) m.
Proof.
  revert l1 a l2. induction n as [|n IH]; intros l1 a l2 E Ln Np; [lia|]. simpl.
  destruct (group_mem_stat a) as ((_ & Nas) & pa & Ea & Na); [rewrite E; set_solver|].
  pose proof (fr_stat _ _ _ _ _ F) as Es. pose proof (fr_num _ _ _ _ _ F) as Ns.
  assert (st_nextparallel pa = hd (-1) l2) as Hn.
  { pose proof group_links as D. rewrite E in D. apply dll_app in D as [_ (_ & D & _)].
    by rewrite (stf_lookup _ _ _ _ Ea) in D. }
  apply wp_bind. eapply wps_ld_stat; [done|]. rewrite Hn, Na.
  assert (Hl2 : l2 <> [] -> 0 <= hd (-1) l2 /\ hd (-1) l2 <> s /\ exists pn, m_stats m !! hd (-1) l2 = Some pn).
  { destruct l2 as [|b l2]; [done|]. intros _. simpl.
    destruct (group_mem_stat b) as ((? & ?) & pb & ? & _); [rewrite E; set_solver|]. eauto. }
  destruct ((_ =? pp) || _) eqn:B.
  - assert (h :: group_insert s pp ms = l1 ++ a :: s :: l2) as E'.
    { apply group_insert_at; [done|]. apply orb_true_iff in B as [B|B]; zbool; [by left|].
      right. split; [|done]. destruct l2; [done|]. destruct Hl2; [done|lia]. }
    assert (Fin : forall m0, m0 = upd_stat a (set_st_nextparallel s)
      (match l2 with [] => fun m0 : et_mem => m0 | n :: _ => upd_stat n (set_st_prevparallel s) end
      (upd_stat s (set_st_prevparallel a) (upd_stat s (set_st_nextparallel (hd (-1) l2)) m))) ->
      station_chain m0 (gs1 ++ (h, group_insert s pp ms) :: gs2) /\ unlinked_mem m0 = unlinked_mem m).
    { intros m0 ->. apply (member_inserted l1 a l2 (group_insert s pp ms) (hd (-1) l2)); [done|done|done|apply group_insert_perm]. }
    pose proof (fr_not _ _ _ _ _ F) as Nsm.
    apply wp_bind. eapply wps_str_stat; [done|crash|].
    apply wp_bind. eapply wps_str_stat; [by apply upd_stat_eq|crash|].
    apply wp_bind. eapply wps_ld_stat; [by apply upd_stat_eq, upd_stat_eq|].
    replace (st_num _) with s by done. apply wp_bind, wp_when.
    destruct l2 as [|b l2]; simpl in *.
    + apply wp_bind. eapply wps_str_stat; [by rewrite !upd_stat_ne|crash|]. apply wp_ret. auto.
    + destruct Hl2 as (? & ? & pn & ?); [done|]. destruct (Z.ltb_spec (-1) b); [|lia].
      assert (b <> ET_GRANDCENTRAL) by (eapply (member_not_gc _ _ (h, ms)); [done|set_solver|]; change (b ∈ tail (h :: ms)); rewrite E; destruct l1; set_solver).
      eapply wps_str_stat; [by rewrite !upd_stat_ne|crash|]. apply wp_bind.
      assert (b <> a).
      { pose proof group_nodup as N. rewrite E in N. apply NoDup_app in N as (_ & _ & N).
        apply NoDup_cons in N as [N _]. set_solver. }
      eapply wps_str_stat; [by rewrite !upd_stat_ne|crash|]. apply wp_ret. auto.
  - apply orb_false_iff in B as [B1 B2]. zbool. destruct l2 as [|b l2]; [simpl in B2; lia|]. simpl.
    replace (Z.of_nat (length l1) + 1 + 1) with (Z.of_nat (length (l1 ++ [a])) + 1)
      by (rewrite length_app; simpl; lia).
    apply (IH (l1 ++ [a]) b l2); [by rewrite <- app_assoc|simpl in Ln; lia|].
    rewrite length_app. simpl. lia.
Qed.
End insert_parallel.

(** ** The specification of station_insert *)

Definition flow_parallel (m : et_mem) (s : Z) : bool :=
  stf (fun ps => sc_flow_mode (st_config ps)) m s =? ET_STATION_PARALLEL.
Definition fits (m : et_mem) (h s : Z) : bool :=
  match m_stats m !! h, m_stats m !! s with
  | Some ph, Some ps => negb (et_station_compare_parallel (st_config ph) (st_config ps) =? 0)
  | _, _ => false
  end.

(** Where [s] goes: a position from 1 to the last one, any other position is the end.  A parallel
    station joins the parallel group at its position, unless it shall start a new one. *)
Definition chain_insert (m : et_mem) (s position pp : Z) (gs : list group) : option (list group) :=
  let i := Z.to_nat position in
  match (if 1 <=? position then gs !! i else None) with
  | None => Some (gs ++ [(s, [])])
  | Some (h, ms) =>
      if flow_parallel m s && flow_parallel m h && negb (pp =? ET_NEWHEAD) then
        if fits m h s && negb (pp =? 0)
        then Some (take i gs ++ (h, group_insert s pp ms) :: drop (S i) gs) else None
      else Some (take i gs ++ (s, []) :: drop i gs)
  end.

Definition insert_result (m : et_mem) (s position pp : Z) (gs : list group) (st : Z) (m' : et_mem) : Prop :=
  match chain_insert m s position pp gs with
  | Some gs' => st = ET_OK /\ station_chain m' gs' /\ unlinked_mem m' = unlinked_mem m
  | None => st = ET_ERROR /\ m' = m
  end.

Lemma chain_insert_at m s position pp gs1 h ms gs2 :
  position = Z.of_nat (length gs1) -> gs1 <> [] ->
  chain_insert m s position pp (gs1 ++ (h, ms) :: gs2) =
    (if flow_parallel m s && flow_parallel m h && negb (pp =? ET_NEWHEAD) then
       if fits m h s && negb (pp =? 0) then Some (gs1 ++ (h, group_insert s pp ms) :: gs2) else None
     else Some (gs1 ++ (s, []) :: (h, ms) :: gs2)).
Proof.
  intros -> N. unfold chain_insert. rewrite Nat2Z.id.
  destruct (Z.leb_spec 1 (Z.of_nat (length gs1))) as [_|X]; [|destruct gs1; simpl in *; [done|lia]].
  rewrite list_lookup_middle by done. rewrite take_app_length, drop_app_length.
  replace (drop (S (length gs1)) (gs1 ++ (h, ms) :: gs2)) with gs2; [done|].
  change ((h, ms) :: gs2) with ([(h, ms)] ++ gs2). rewrite app_assoc.
  replace (S (length gs1)) with (length (gs1 ++ [(h, ms)])) by (rewrite length_app; simpl; lia).
  by rewrite drop_app_length.
Qed.

Lemma chain_insert_end m s position pp gs :
  ~ 1 <= position < Z.of_nat (length gs) -> chain_insert m s position pp gs = Some (gs ++ [(s, [])]).
Proof.
  intros H. unfold chain_insert. destruct (Z.leb_spec 1 position); [|done].
  rewrite lookup_ge_None_2 by lia. done.
Qed.

Lemma length_members_le m gs : station_chain m gs -> (length (members gs) <= size (m_stats m))%nat.
Proof.
  intros H. rewrite <- (size_list_to_set (C := gset Z) (members gs)) by apply H.
  rewrite <- size_dom. apply subseteq_size. intros a Ha%elem_of_list_to_set.
  destruct (ch_stat _ _ H a Ha) as (_ & ps & E & _). by apply elem_of_dom_2 in E.
Qed.

Lemma length_heads_le gs : (length gs <= length (members gs))%nat.
Proof.
  induction gs as [|g gs IH]; [done|]. rewrite members_cons, length_app. simpl. lia.
Qed.

Lemma flow_parallel_iff m s : is_Some (m_stats m !! s) -> flow_parallel m s = true <-> parallel m s.
Proof.
  intros [ps E]. unfold flow_parallel, parallel. rewrite (stf_lookup _ _ _ _ E), Z.eqb_eq. split.
  - intros F. eauto.
  - intros (ps' & E' & F). congruence.
Qed.

Lemma compare_parallel_01 g c :
  et_station_compare_parallel g c = 0 \/ et_station_compare_parallel g c = 1.
Proof. unfold et_station_compare_parallel. repeat case_match; auto. Qed.

#[local] Arguments insert_parallel : simpl never.

Lemma wp_insert_loop (e : Prop) m gs s ps position pp n gs1 p ms gs2 :
  station_chain m gs -> detached e m gs s ps -> (~ 1 <= position < Z.of_nat (length gs) -> e) -> gs = gs1 ++ (p, ms) :: gs2 -> (length gs2 < n)%nat ->
  ~ 1 <= position <= Z.of_nat (length gs1) ->
  wp (insert_loop n s p (Z.of_nat (length gs1) + 1) position pp)
    (insert_result m s position pp gs) (chain_left m gs) m.
Proof.
  intros H F He. revert gs1 p ms gs2. induction n as [|n IH]; intros gs1 p ms gs2 E Ln Np; [lia|].
  cbn [insert_loop].
  assert (St : forall a, a ∈ heads gs -> 0 <= a /\ exists pa, m_stats m !! a = Some pa /\ st_num pa = a).
  { intros a Ha. by apply (ch_stat _ _ H), elem_of_heads. }
  assert (Hh : heads gs = heads gs1 ++ p :: heads gs2) by (subst; by rewrite heads_app).
  destruct (St p) as (_ & pp0 & Ep & Nump); [rewrite Hh; set_solver|].
  apply wp_bind. eapply wps_ld_stat; [done|].
  assert (st_next pp0 = hd (-1) (heads gs2)) as Hn.
  { pose proof (ch_main _ _ H) as D. rewrite Hh in D. apply dll_app in D as [_ (_ & D & _)].
    by rewrite (stf_lookup _ _ _ _ Ep) in D. }
  rewrite Hn. cbv zeta. unfold insert_result. destruct gs2 as [|[q ns] gs2]; simpl hd.
  - change (-1 <? 0) with true. cbv iota. rewrite chain_insert_end by (subst; rewrite length_app; simpl; lia).
    replace p with (List.last (heads gs) (-1)) by (rewrite Hh; apply list_last_app).
    apply wp_bind. eapply wp_mono; [apply (wp_insert_end m gs s ps H)| |done].
    { apply (detached_weaken e); [|done]. intros _. apply He. subst. rewrite length_app. simpl. lia. }
    intros [] m' [X1 X2]. by apply wp_ret.
  - destruct (St q) as (Hq & pq & Eq & Nq); [rewrite Hh; simpl; set_solver|].
    destruct (Z.ltb_spec q 0); [lia|].
    replace (gs1 ++ (p, ms) :: (q, ns) :: gs2) with ((gs1 ++ [(p, ms)]) ++ (q, ns) :: gs2) in E
      by (by rewrite <- app_assoc).
    assert (Lg : Z.of_nat (length gs1) + 1 = Z.of_nat (length (gs1 ++ [(p, ms)])))
      by (rewrite length_app; simpl; lia).
    destruct (Z.eqb_spec (Z.of_nat (length gs1) + 1) position) as [<-|Npos].
    + rewrite E, chain_insert_at by (done || by destruct gs1).
      pose proof (fr_stat _ _ _ _ _ F) as Es.
      apply wp_bind. eapply wps_ld_stat; [done|]. apply wp_bind. eapply wps_ld_stat; [done|].
      unfold flow_parallel at 1 2. rewrite (stf_lookup _ _ _ _ Es), (stf_lookup _ _ _ _ Eq).
      unfold fits. rewrite Eq, Es.
      destruct (_ && _ && _) eqn:B.
      * destruct (et_station_compare_parallel _ _ =? 0) eqn:C; simpl; [by apply wp_ret|].
        destruct (Z.eqb_spec pp 0) as [->|Npp]; simpl; [by apply wp_ret|].
        apply wp_bind, wp_getm. rewrite E in H, F.
        apply andb_true_iff in B as [B B3]. apply andb_true_iff in B as [B1 B2]. zbool.
        refine (wp_insert_parallel e m (gs1 ++ [(p, ms)]) q ns gs2 s ps H F _ _ _ _ _ [] q ns pp _ _ _); try done.
        -- by destruct gs1.
        -- by exists pq.
        -- by exists ps.
        -- exists pq, ps. split_and!; try done. destruct (compare_parallel_01 (st_config pq) (st_config ps)); congruence.
        -- pose proof (length_members_le _ _ H) as L. rewrite members_app, members_cons, !length_app in L.
           simpl in L. lia.
        -- simpl. lia.
      * apply wp_bind. rewrite E in H, F. rewrite <- app_assoc in H, F.
        eapply wp_mono; [by apply (wp_insert_between e m gs1 p ms q ns gs2 s ps)| |by rewrite <- app_assoc].
        intros [] m' [X1 X2]. apply wp_ret. by rewrite <- app_assoc.
    + rewrite Lg. apply (IH (gs1 ++ [(p, ms)]) q ns gs2); [done|simpl in Ln; lia|lia].
Qed.

Lemma wp_station_insert (e : Prop) m gs s ps position pp :
  station_chain m gs -> detached e m gs s ps -> (~ 1 <= position < Z.of_nat (length gs) -> e) ->
  sys_nstations (m_sys m) = Z.of_nat (length (members gs)) + 1 ->
  wp (station_insert s position pp) (insert_result m s position pp gs) (chain_left m gs) m.
Proof.
  intros H F He N. unfold station_insert.
  apply wp_bind, wps_ld_sys. rewrite N. destruct (ch_gc _ _ H) as [gs' E].
  pose proof (length_heads_le gs) as L. destruct (Z.ltb_spec (Z.of_nat (length (members gs)) + 1) 3).
  - assert (gs' = []) as ->.
    { rewrite E in *. destruct gs'; [done|]. simpl in *. lia. }
    unfold insert_result. rewrite chain_insert_end by (rewrite E; simpl; lia).
    replace ET_GRANDCENTRAL with (List.last (heads gs) (-1)) by (by rewrite E).
    apply wp_bind. eapply wp_mono; [apply (wp_insert_end m gs s ps H)| |done].
    { apply (detached_weaken e); [|done]. intros _. apply He. rewrite E. simpl. lia. }
    intros [] m' [X1 X2]. by apply wp_ret.
  - apply wp_bind, wp_getm. change 1 with (Z.of_nat (length (@nil (Z * list Z))) + 1).
    apply (wp_insert_loop e m gs s ps) with (ms := []) (gs2 := gs'); try done; [|simpl; lia].
    pose proof (length_members_le _ _ H). rewrite E in *. simpl in *. lia.
Qed.

(** C34: station_insert puts a fresh station into the chain at its position, into a parallel group
    or as a new group, or it returns ET_ERROR and changes nothing when the group does not accept the
    station. *)
Theorem station_insert_spec m gs s ps position pp :
  station_chain m gs -> fresh m gs s ps ->
  sys_nstations (m_sys m) = Z.of_nat (length (members gs)) + 1 ->
  exists st x m', run (station_insert s position pp) m = Ok st x m' /\
    insert_result m s position pp gs st m'.
Proof.
  intros H F N. by apply (wp_run _ _ (chain_left m gs)), (wp_station_insert True m gs s ps).
Qed.

(** ** Removal *)

(** Without [s] behind [x]. *)
Lemma dll_remove nx pv nx' pv' p l1 x s l2 q :
  dll nx pv p (l1 ++ x :: s :: l2) q -> NoDup (l1 ++ x :: s :: l2) ->
  nx' x = hd q l2 -> pv' x = pv x -> (forall n, n ∈ l2 -> nx' n = nx n) ->
  (forall n l, l2 = n :: l -> pv' n = x /\ forall b, b ∈ l -> pv' b = pv b) ->
  (forall b, b ∈ l1 -> nx' b = nx b /\ pv' b = pv b) ->
  dll nx' pv' p (l1 ++ x :: l2) q.
Proof.
  intros D N Ex1 Ex2 E2 E2' E1.
  change (x :: s :: l2) with ([x] ++ s :: l2) in *. change (x :: l2) with ([x] ++ l2).
  rewrite app_assoc in *. apply NoDup_app in N as (N1 & N2 & N3).
  apply dll_app in D as [D1 D2]. apply dll_app. rewrite List.last_last in *. split.
  - apply (dll_last nx pv _ _ _ _ _ s); auto.
    apply NoDup_app in N1 as (_ & N1 & _). intros X. apply (N1 x X). by left.
  - cbn [dll] in D2. destruct D2 as (_ & _ & D2). destruct l2 as [|n l2]; [done|].
    destruct (E2' n l2 eq_refl) as [Y1 Y2]. apply NoDup_cons in N3 as [_ N3]. apply NoDup_cons in N3 as [N3 N4].
    apply (dll_head nx pv nx' pv' s); [done|done|apply E2; by left|done|].
    intros b Hb. split; [apply E2; by right|auto].
Qed.

(** [n] in the place of [s] behind [x]. *)
Lemma dll_replace nx pv nx' pv' p l1 x s n l2 q :
  dll nx pv p (l1 ++ x :: s :: l2) q -> NoDup (l1 ++ x :: s :: l2) ->
  nx' x = n -> pv' x = pv x -> nx' n = nx s -> pv' n = x ->
  (forall b, b ∈ l2 -> nx' b = nx b) ->
  (forall b l, l2 = b :: l -> pv' b = n /\ forall b, b ∈ l -> pv' b = pv b) ->
  (forall b, b ∈ l1 -> nx' b = nx b /\ pv' b = pv b) ->
  dll nx' pv' p (l1 ++ x :: n :: l2) q.
Proof.
  intros D N Ex1 Ex2 En1 En2 E2 E2' E1.
  change (x :: s :: l2) with ([x] ++ s :: l2) in *. change (x :: n :: l2) with ([x] ++ n :: l2).
  rewrite app_assoc in *. apply NoDup_app in N as (N1 & N2 & N3).
  apply dll_app in D as [D1 D2]. apply dll_app. rewrite List.last_last in *. split.
  - apply (dll_last nx pv _ _ _ _ _ s); auto.
    apply NoDup_app in N1 as (_ & N1 & _). intros X. apply (N1 x X). by left.
  - cbn [dll] in *. destruct D2 as (_ & D3 & D2). split_and!; [done|congruence|].
    destruct l2 as [|b l2]; [done|].
    destruct (E2' b l2 eq_refl) as [Y1 Y2]. apply NoDup_cons in N3 as [_ N3]. apply NoDup_cons in N3 as [N3 N4].
    apply (dll_head nx pv nx' pv' s); [done|done|apply E2; by left|done|].
    intros c Hc. split; [apply E2; by right|auto].
Qed.

Fixpoint chain_remove (s : Z) (gs : list group) : list group :=
  match gs with
  | [] => []
  | (h, ms) :: gs' =>
      if h =? s then match ms with [] => gs' | n :: ms' => (n, ms') :: gs' end
      else (h, filter (fun a => a <> s) ms) :: chain_remove s gs'
  end.

Lemma filter_not_in (s : Z) (l : list Z) : s ∉ l -> filter (fun a => a <> s) l = l.
Proof.
  intros H. induction l as [|a l IH]; [done|]. rewrite filter_cons_True by set_solver.
  f_equal. apply IH. set_solver.
Qed.

Lemma chain_remove_skip s gs1 gs2 :
  s ∉ members gs1 -> chain_remove s (gs1 ++ gs2) = gs1 ++ chain_remove s gs2.
Proof.
  induction gs1 as [|[h ms] gs1 IH]; [done|]. rewrite members_cons. intros H. simpl.
  destruct (Z.eqb_spec h s) as [->|_]; [set_solver|]. rewrite filter_not_in by set_solver.
  f_equal. apply IH. set_solver.
Qed.

(** A chain with one station less, given its links. *)
Lemma chain_delete m m' gs gs' s :
  station_chain m gs -> unlinked_mem m' = unlinked_mem m -> members gs ≡ₚ s :: members gs' ->
  (exists gs0, gs' = (ET_GRANDCENTRAL, []) :: gs0) ->
  dll (stf st_next m') (stf st_prev m') (-1) (heads gs') (-1) ->
  sys_stat_tail (m_sys m') = List.last (heads gs') (-1) ->
  (forall g, g ∈ gs' -> group_ok m' g) -> station_chain m' gs'.
Proof.
  intros H U P G D T Gs. split; try done.
  - pose proof (ch_nodup _ _ H) as N. rewrite P in N. by apply NoDup_cons in N as [_ N].
  - intros a Ha. apply (chain_stat_ext m m' _ U (ch_stat _ _ H)). rewrite P. set_solver.
Qed.

Section remove.
Context (m : et_mem) (gs1 : list group) (p : Z) (pms : list Z) (h : Z) (ms : list Z)
  (gs2 : list group).
Abbreviation gs := (gs1 ++ (p, pms) :: (h, ms) :: gs2).
Context (H : station_chain m gs).

Lemma remove_heads : heads gs = heads gs1 ++ p :: h :: heads gs2.
Proof. by rewrite heads_app. Qed.

Lemma remove_stat a : a ∈ members gs -> 0 <= a /\ exists pa, m_stats m !! a = Some pa /\ st_num pa = a.
Proof. apply (ch_stat _ _ H). Qed.

Lemma remove_head_stat a : a ∈ heads gs -> 0 <= a /\ exists pa, m_stats m !! a = Some pa /\ st_num pa = a.
Proof. intros X. by apply remove_stat, elem_of_heads. Qed.

Lemma remove_links ph pp : m_stats m !! h = Some ph -> m_stats m !! p = Some pp ->
  st_prev ph = p /\ st_next ph = hd (-1) (heads gs2).
Proof.
  intros Eh Ep. pose proof (ch_main _ _ H) as D. rewrite remove_heads in D.
  apply dll_app in D as [_ (_ & _ & D1 & D2 & _)].
  rewrite (stf_lookup _ _ _ _ Eh) in D1. by rewrite (stf_lookup _ _ _ _ Eh) in D2.
Qed.

(** The other groups keep their links. *)
Lemma remove_other m' g :
  unlinked_mem m' = unlinked_mem m -> g ∈ gs1 ++ (p, pms) :: gs2 ->
  (forall a, a ∉ h :: ms -> stf st_nextparallel m' a = stf st_nextparallel m a /\
     stf st_prevparallel m' a = stf st_prevparallel m a) ->
  (forall a, a ∉ h :: ms -> a ∉ heads gs -> stf st_prev m' a = stf st_prev m a) ->
  group_ok m' g.
Proof.
  intros U Hg E1 E2.
  assert (X : forall a, a ∈ group_members g -> a ∉ h :: ms).
  { intros a Ha Hm. pose proof (ch_nodup _ _ H) as N.
    change (gs1 ++ (p, pms) :: (h, ms) :: gs2) with (gs1 ++ [(p, pms)] ++ (h, ms) :: gs2) in N.
    rewrite app_assoc in N. apply (members_disjoint _ (h, ms) gs2 g a N); [done| |done].
    by rewrite <- app_assoc. }
  apply (group_ok_ext m); [done|auto| |].
  - intros a Ha. apply E2; [apply X; by right|].
    intros Y. apply (heads_not_snd gs g a a); [apply H| |done|done|done].
    revert Hg. rewrite !elem_of_app, !elem_of_cons. tauto.
  - apply (ch_groups _ _ H). revert Hg. rewrite !elem_of_app, !elem_of_cons. tauto.
Qed.

Lemma remove_gc gs0 : exists gs', gs1 ++ (p, pms) :: gs0 = (ET_GRANDCENTRAL, []) :: gs'.
Proof.
  destruct (ch_gc _ _ H) as [gs' X]. destruct gs1 as [|g gs1']; simplify_eq/=; by eexists.
Qed.

(** Removing a group of one station from the main list. *)
Lemma wp_remove_main ph : ms = [] -> m_stats m !! h = Some ph ->
  wp (remove_main h ph) (fun _ m' => (station_chain m' (gs1 ++ (p, pms) :: gs2) /\ unlinked_mem m' = unlinked_mem m) /\
      m_stats m' !! h = Some ph) (chain_left m gs) m.
Proof.
  intros Em Eh.
  destruct (remove_head_stat p) as (Hp & pp & Ep & Np); [rewrite remove_heads; set_solver|].
  destruct (remove_links ph pp Eh Ep) as [Hpv Hn]. unfold remove_main. rewrite Hpv.
  pose proof (heads_NoDup _ (ch_nodup _ _ H)) as N. pose proof (ch_main _ _ H) as D.
  rewrite remove_heads in N, D.
  assert (Hu : forall m', unlinked_mem m' = unlinked_mem m ->
     dll (stf st_next m') (stf st_prev m') (-1) (heads gs1 ++ p :: heads gs2) (-1) ->
     sys_stat_tail (m_sys m') = List.last (heads gs1 ++ p :: heads gs2) (-1) ->
     (forall a, stf st_nextparallel m' a = stf st_nextparallel m a /\
        stf st_prevparallel m' a = stf st_prevparallel m a) ->
     (forall a, a ∉ heads gs -> stf st_prev m' a = stf st_prev m a) ->
     station_chain m' (gs1 ++ (p, pms) :: gs2)).
  { intros m' U D' T' E1 E2. apply (chain_delete m m' gs _ h H U); [|apply remove_gc|..].
    - subst ms. rewrite !members_app, !members_cons. unfold group_members. simpl. solve_Permutation.
    - by rewrite heads_app.
    - by rewrite heads_app.
    - intros g Hg. apply (remove_other m' g U Hg); auto. }
  apply wp_bind, wps_ld_sys. apply wp_bind. eapply wps_ld_stat; [done|].
  rewrite Np, (ch_tail _ _ H), remove_heads, list_last_app, last_cons_default, Hn.
  apply NoDup_app in N as N'. destruct N' as (_ & N1 & N2).
  apply NoDup_cons in N2 as [N2 N3]. apply NoDup_cons in N3 as [N3 N4].
  apply wp_bind. destruct (Z.eqb_spec (List.last (heads gs2) h) h) as [El|El].
  - assert (heads gs2 = []) as Eg.
    { destruct (heads gs2) as [|b l] eqn:X; [done|]. exfalso. apply N3. rewrite <- El. apply last_in. }
    apply wps_str_sys; [crash|]. eapply wps_str_stat; [done|crash|].
    set (m' := upd_stat p _ _). assert (unlinked_mem m' = unlinked_mem m) as U.
    { unfold m'. by rewrite unlinked_upd_stat, unlinked_upd_tail. }
    split; [split; [|done]|unfold m'; by rewrite ?upd_stat_ne, ?upd_sys_stats, ?upd_stat_ne by set_solver]. apply Hu; try done.
    + rewrite Eg in *. apply (dll_remove _ _ _ _ _ _ _ _ _ _ D N); unfold m'; stf; try done.
      * by rewrite Eg.
      * set_solver.
      * intros b Hb. assert (b <> p) by set_solver. stf. done.
    + rewrite Eg, list_last_app. done.
    + intros a. unfold m'. stf. done.
    + intros a Ha. unfold m'. stf. done.
  - destruct (heads gs2) as [|b l] eqn:X; [done|]. simpl hd.
    destruct (remove_head_stat b) as (Hb & pb & Eb & Nb); [rewrite remove_heads, X; set_solver|].
    assert (p <> b) by set_solver.
    assert (b <> ET_GRANDCENTRAL) by (apply (head_not_gc m gs (heads gs1 ++ [p]) h (b :: l)); [done|by rewrite remove_heads, X, <- app_assoc|by left]).
    eapply wps_str_stat; [done|crash|]. eapply wps_str_stat; [by rewrite upd_stat_ne|crash|].
    set (m' := upd_stat p _ _). assert (unlinked_mem m' = unlinked_mem m) as U.
    { unfold m'. by rewrite !unlinked_upd_stat. }
    split; [split; [|done]|unfold m'; by rewrite ?upd_stat_ne, ?upd_sys_stats, ?upd_stat_ne by set_solver]. apply Hu; try done.
    + apply NoDup_cons in N4 as [N4 N5].
      apply (dll_remove _ _ _ _ _ _ _ _ _ _ D N); unfold m'; stf; try done.
      * intros c Hc. assert (c <> p) by set_solver. stf. done.
      * intros c l' [= <- <-]. stf. split; [done|]. intros c Hc. assert (c <> b) by set_solver. stf. done.
      * intros c Hc. assert (c <> p) by set_solver. assert (c <> b) by set_solver. stf. done.
    + unfold m'. cbn [upd_stat set_m_stats m_sys]. rewrite (ch_tail _ _ H), remove_heads, X, !list_last_app, !last_cons_default. done.
    + intros a. unfold m'. stf. done.
    + intros a Ha. rewrite remove_heads, X in Ha. assert (a <> b) by set_solver. unfold m'. stf. done.
Qed.
End remove.

Lemma compatible_trans m a b c : compatible m a b -> compatible m a c -> compatible m b c.
Proof.
  intros (pa & pb & Ea & Eb & C1) (pa' & pc & Ea' & Ec & C2). simplify_eq.
  exists pb, pc. split_and!; [done..|]. rewrite compare_parallel_iff in *. intuition congruence.
Qed.

(** The next member of the group becomes its head. *)
Section remove_head.
Context (m : et_mem) (gs1 : list group) (p : Z) (pms : list Z) (h n : Z) (ns : list Z)
  (gs2 : list group).
Abbreviation gs := (gs1 ++ (p, pms) :: (h, n :: ns) :: gs2).
Context (H : station_chain m gs).

Lemma wp_remove_head ph : m_stats m !! h = Some ph ->
  wp (remove_head h ph)
    (fun _ m' => station_chain m' (gs1 ++ (p, pms) :: (n, ns) :: gs2) /\ unlinked_mem m' = unlinked_mem m)
    (chain_left m gs) m.
Proof.
  intros Eh. pose proof (ch_groups _ _ H (h, n :: ns) ltac:(set_solver)) as [G1 G2 G3 G4].
  destruct (remove_head_stat m gs1 p pms h (n :: ns) gs2 H p) as (Hp & pp & Ep & Np); [rewrite (remove_heads gs1 p pms h (n :: ns) gs2); set_solver|].
  destruct (remove_links m gs1 p pms h (n :: ns) gs2 H ph pp Eh Ep) as [Hpv Hn]. unfold remove_head. rewrite Hpv, Hn.
  cbn [fst snd] in *. unfold group_members in G1; cbn [fst snd] in G1.
  destruct G1 as (_ & G11 & G12). rewrite (stf_lookup _ _ _ _ Eh) in G11. simpl in G11. rewrite G11.
  destruct (remove_stat m gs1 p pms h (n :: ns) gs2 H n) as (Hn0 & pn & En & Nn).
  { apply (elem_of_members n (h, n :: ns)); [set_solver|]. right. by left. }
  assert (Nh : forall a, a ∈ n :: ns -> a ∉ heads gs).
  { intros a Ha X. by apply (heads_not_snd gs (h, n :: ns) a a (ch_nodup _ _ H)); [set_solver|..]. }
  assert (Nn' : NoDup (h :: n :: ns)).
  { apply (NoDup_members_group gs (h, n :: ns)); [apply H|set_solver]. }
  pose proof (heads_NoDup _ (ch_nodup _ _ H)) as N. pose proof (ch_main _ _ H) as D.
  rewrite (remove_heads gs1 p pms h (n :: ns) gs2) in N, D. pose proof (Nh n) as Nn2. rewrite (remove_heads gs1 p pms h (n :: ns) gs2) in Nn2.
  assert (Nn1 : forall a, a ∈ heads gs1 ++ p :: h :: heads gs2 -> a <> n) by set_solver.
  assert (p <> n) as Npn by set_solver.
  assert (Hu : forall m', unlinked_mem m' = unlinked_mem m ->
     dll (stf st_next m') (stf st_prev m') (-1) (heads gs1 ++ p :: n :: heads gs2) (-1) ->
     sys_stat_tail (m_sys m') = List.last (heads gs1 ++ p :: n :: heads gs2) (-1) ->
     (forall a, stf st_nextparallel m' a = stf st_nextparallel m a) ->
     (forall a, stf st_prevparallel m' a = if decide (a = n) then -1 else stf st_prevparallel m a) ->
     (forall a, a <> n -> a ∉ heads gs -> stf st_prev m' a = stf st_prev m a) ->
     station_chain m' (gs1 ++ (p, pms) :: (n, ns) :: gs2)).
  { intros m' U D' T' E1 E2 E3. apply (chain_delete m m' gs _ h H U); [|apply (remove_gc m gs1 p pms h (n :: ns) gs2 H)|..].
    - rewrite !members_app, !members_cons. unfold group_members. simpl. solve_Permutation.
    - by rewrite heads_app.
    - by rewrite heads_app.
    - intros g Hg. assert (g = (n, ns) \/ g ∈ gs1 ++ (p, pms) :: gs2) as [->|Hg'].
      { revert Hg. rewrite !elem_of_app, !elem_of_cons. tauto. }
      + apply NoDup_cons in Nn' as [_ Nn']. apply NoDup_cons in Nn' as [Nn' _].
        split; unfold group_members; cbn [fst snd] in *.
        * apply (dll_head (stf st_nextparallel m) (stf st_prevparallel m) _ _ h); [exact G12|done|apply E1| |].
          -- rewrite E2. by destruct (decide _).
          -- intros b Hb. rewrite E1, E2. destruct (decide (b = n)) as [->|]; done.
        * intros a Ha. rewrite E3; [apply G2; by right|set_solver|apply Nh; by right].
        * intros _. apply (parallel_unlinked m); [done|]. apply G4. by left.
        * intros a Ha. destruct (G4 a) as [Pa Ca]; [by right|]. destruct (G4 n) as [Pn Cn]; [by left|].
          split; [by apply (parallel_unlinked m)|]. apply (compatible_unlinked m); [done|].
          by apply (compatible_trans m h n a).
      + apply (remove_other m gs1 p pms h (n :: ns) gs2 H m' g U Hg'); intros a Ha; [rewrite E1, E2|apply E3; set_solver].
        destruct (decide (a = n)) as [->|]; [set_solver|done]. }
  assert (n <> ET_GRANDCENTRAL) as Ngc by (apply (member_not_gc m gs (h, n :: ns)); [done|set_solver|by left]).
  assert (n ∉ heads gs) as Nnh by (apply Nh; by left).
  apply wp_bind. eapply wps_str_stat; [done|crash|].
  apply wp_bind. eapply wps_str_stat; [by apply upd_stat_eq|crash|].
  apply wp_bind. eapply wps_str_stat; [by apply upd_stat_eq, upd_stat_eq|crash|].
  apply wp_bind, wps_ld_sys. cbn [upd_stat set_m_stats m_sys].
  rewrite (ch_tail _ _ H), (remove_heads gs1 p pms h (n :: ns) gs2), list_last_app, last_cons_default.
  apply NoDup_app in N as N'. destruct N' as (_ & N1 & N2).
  apply NoDup_cons in N2 as [N2 N3]. apply NoDup_cons in N3 as [N3 N4].
  apply wp_bind. destruct (Z.eqb_spec (List.last (heads gs2) h) h) as [El|El].
  - assert (heads gs2 = []) as Eg.
    { destruct (heads gs2) as [|b l] eqn:X; [done|]. exfalso. apply N3. rewrite <- El. apply last_in. }
    apply wp_bind. eapply wps_ld_stat; [by apply upd_stat_eq, upd_stat_eq, upd_stat_eq|].
    replace (st_num _) with n by done.
    apply wps_str_sys; [crash|]. eapply wps_str_stat; [by rewrite upd_sys_stats, !upd_stat_ne|crash|].
    set (m' := upd_stat p _ _). assert (unlinked_mem m' = unlinked_mem m) as U.
    { unfold m'. by rewrite unlinked_upd_stat, unlinked_upd_tail, !unlinked_upd_stat. }
    split; [|done]. rewrite Eg in *. apply Hu; try done.
    + apply (dll_replace _ _ _ _ _ _ _ _ _ _ _ D N); unfold m'; stf; try done.
      * by rewrite (stf_lookup _ _ _ _ Eh), Hn, Eg.
      * set_solver.
      * intros b Hb. assert (b <> p /\ b <> n) as [] by set_solver. stf. done.
    + by rewrite list_last_app.
    + intros a. unfold m'. stf. done.
    + intros a. unfold m'. destruct (decide (a = n)) as [->|]; stf; done.
    + intros a ? Ha. unfold m'. stf. done.
  - destruct (heads gs2) as [|b l] eqn:X; [done|]. simpl hd in *.
    destruct (remove_head_stat m gs1 p pms h (n :: ns) gs2 H b) as (Hb & pb & Eb & Nb); [rewrite (remove_heads gs1 p pms h (n :: ns) gs2), X; set_solver|].
    assert (p <> b) by set_solver. assert (n <> b) by set_solver.
    assert (b <> ET_GRANDCENTRAL) by (apply (head_not_gc m gs (heads gs1 ++ [p]) h (b :: l)); [done|by rewrite (remove_heads gs1 p pms h (n :: ns) gs2), X, <- app_assoc|by left]).
    eapply wps_str_stat; [by rewrite !upd_stat_ne|crash|]. eapply wps_str_stat; [by rewrite !upd_stat_ne|crash|].
    set (m' := upd_stat p _ _). assert (unlinked_mem m' = unlinked_mem m) as U.
    { unfold m'. by rewrite !unlinked_upd_stat. }
    split; [|done]. apply Hu; try done.
    + apply NoDup_cons in N4 as [N4 N5].
      apply (dll_replace _ _ _ _ _ _ _ _ _ _ _ D N); unfold m'; stf; try done.
      * by rewrite (stf_lookup _ _ _ _ Eh), Hn.
      * intros c Hc. assert (c <> p /\ c <> n) as [] by set_solver. stf. done.
      * intros c l' [= <- <-]. stf. split; [done|]. intros c Hc. assert (c <> b /\ c <> n) as [] by set_solver. stf. done.
      * intros c Hc. assert (c <> p /\ c <> b /\ c <> n) as (? & ? & ?) by set_solver. stf. done.
    + unfold m'. cbn [upd_stat set_m_stats m_sys].
      by rewrite (ch_tail _ _ H), (remove_heads gs1 p pms h (n :: ns) gs2), X, !list_last_app, !last_cons_default.
    + intros a. unfold m'. stf. done.
    + intros a. unfold m'. destruct (decide (a = n)) as [->|]; stf; done.
    + intros a ? Ha. rewrite (remove_heads gs1 p pms h (n :: ns) gs2), X in Ha. assert (a <> b) by set_solver. unfold m'. stf. done.
Qed.
End remove_head.

(** The stores that take a member out of its group: [a] is before it, [k2] behind it. *)
Definition unlink_member (a : Z) (k2 : list Z) (m : et_mem) : et_mem :=
  upd_stat a (set_st_nextparallel (hd (-1) k2))
    (match k2 with [] => m | b :: _ => upd_stat b (set_st_prevparallel a) m end).

Section remove_member.
Context (m : et_mem) (gs1 : list group) (h : Z) (k1 : list Z) (s : Z) (k2 : list Z)
  (gs2 : list group) (l1 : list Z) (a : Z).
Abbreviation gs := (gs1 ++ (h, k1 ++ s :: k2) :: gs2).
Context (H : station_chain m gs) (El : h :: k1 = l1 ++ [a]).

Lemma member_eq : h :: k1 ++ s :: k2 = l1 ++ a :: s :: k2.
Proof. change (h :: k1 ++ s :: k2) with ((h :: k1) ++ s :: k2). by rewrite El, <- app_assoc. Qed.

Lemma member_eq' : h :: k1 ++ k2 = l1 ++ a :: k2.
Proof. change (h :: k1 ++ k2) with ((h :: k1) ++ k2). by rewrite El, <- app_assoc. Qed.

Lemma member_in : (h, k1 ++ s :: k2) ∈ gs.
Proof. set_solver. Qed.

Lemma member_stat b : b ∈ l1 ++ a :: s :: k2 -> 0 <= b /\ exists pb, m_stats m !! b = Some pb /\ st_num pb = b.
Proof.
  intros Hb. apply (ch_stat _ _ H), (elem_of_members b (h, k1 ++ s :: k2)); [apply member_in|].
  unfold group_members. cbn [fst snd]. by rewrite member_eq.
Qed.

Lemma member_dll : dll (stf st_nextparallel m) (stf st_prevparallel m) (-1) (l1 ++ a :: s :: k2) (-1).
Proof. rewrite <- member_eq. apply (gr_dll _ _ (ch_groups _ _ H _ member_in)). Qed.

Lemma member_nodup : NoDup (l1 ++ a :: s :: k2).
Proof. rewrite <- member_eq. apply (NoDup_members_group gs _ (ch_nodup _ _ H) member_in). Qed.

Lemma member_ne b : b ∈ l1 ++ k2 -> b <> a.
Proof.
  pose proof member_nodup as N. apply NoDup_app in N as (_ & N1 & N2).
  apply NoDup_cons in N2 as [N2 _]. set_solver.
Qed.

Lemma member_ne' b c k : k2 = b :: k -> c ∈ l1 ++ k -> c <> b.
Proof.
  intros E. pose proof member_nodup as N. rewrite E in N. apply NoDup_app in N as (_ & N1 & N2).
  apply NoDup_cons in N2 as [N2 N3]. apply NoDup_cons in N3 as [_ N3]. apply NoDup_cons in N3 as [N3 _].
  set_solver.
Qed.

(** What the stores do to the links of the group. *)
Lemma unlink_member_dll :
  dll (stf st_nextparallel (unlink_member a k2 m)) (stf st_prevparallel (unlink_member a k2 m)) (-1)
    (l1 ++ a :: k2) (-1).
Proof.
  destruct (member_stat a) as (_ & pa & Ea & _); [set_solver|].
  apply (dll_remove _ _ _ _ _ _ _ _ _ _ member_dll member_nodup); unfold unlink_member.
  - destruct k2; stf; done.
  - pose proof member_ne as Na. destruct k2 as [|b k]; [stf; done|].
    assert (a <> b) by (intros <-; apply (Na a); set_solver). stf. done.
  - intros b Hb. pose proof (member_ne b). destruct k2; [set_solver|]. assert (b <> a) by set_solver. stf. done.
  - intros b k E. destruct (member_stat b) as (_ & pb & Eb & _); [rewrite E; set_solver|].
    assert (a <> b) by (intros <-; apply (member_ne a); rewrite ?E; set_solver).
    pose proof (fun c => member_ne' b c k E) as Nc. rewrite E. simpl hd. stf. split; [done|]. intros c Hc.
    assert (c <> b) by set_solver. stf. done.
  - intros b Hb. pose proof (member_ne b) as Nb. assert (b <> a) by set_solver.
    pose proof (member_ne' ) as Nc. destruct k2 as [|c k]; [stf; done|].
    assert (b <> c) by (apply (Nc c b k); set_solver). stf. done.
Qed.

Lemma unlink_member_other b : b ∉ h :: k1 ++ s :: k2 ->
  stf st_nextparallel (unlink_member a k2 m) b = stf st_nextparallel m b /\
  stf st_prevparallel (unlink_member a k2 m) b = stf st_prevparallel m b.
Proof.
  rewrite member_eq. intros Hb. assert (b <> a) by set_solver. unfold unlink_member.
  destruct k2 as [|c k]; [|assert (b <> c) by set_solver]; stf; done.
Qed.

Lemma unlink_member_main b :
  stf st_next (unlink_member a k2 m) b = stf st_next m b /\
  stf st_prev (unlink_member a k2 m) b = stf st_prev m b.
Proof. unfold unlink_member. destruct k2; stf; done. Qed.

Lemma unlink_member_unlinked : unlinked_mem (unlink_member a k2 m) = unlinked_mem m.
Proof. unfold unlink_member. rewrite unlinked_upd_stat by done. destruct k2; [done|]. by rewrite unlinked_upd_stat. Qed.

(** The chain after the stores, with or without the last one. *)
Lemma member_removed m' :
  m' = unlink_member a k2 m \/ m' = upd_stat a (set_st_waslast 1) (unlink_member a k2 m) ->
  station_chain m' (gs1 ++ (h, k1 ++ k2) :: gs2) /\ unlinked_mem m' = unlinked_mem m.
Proof.
  intros Hm'.
  assert (Hsame : forall f b, (forall ps, f (set_st_waslast 1 ps) = f ps) ->
    stf f m' b = stf f (unlink_member a k2 m) b).
  { intros f b Hf. destruct Hm' as [->| ->]; [done|]. by rewrite stf_same. }
  assert (U : unlinked_mem m' = unlinked_mem m).
  { rewrite <- unlink_member_unlinked. destruct Hm' as [->| ->]; [done|]. by rewrite unlinked_upd_stat. }
  assert (T : sys_stat_tail (m_sys m') = sys_stat_tail (m_sys m)).
  { unfold unlink_member in Hm'. by destruct Hm' as [->| ->], k2. }
  assert (Hh : heads (gs1 ++ (h, k1 ++ k2) :: gs2) = heads gs) by (by rewrite !heads_app).
  pose proof (ch_groups _ _ H _ member_in) as [_ G2 G3 G4]. cbn [fst snd] in *.
  split; [|done]. apply (chain_delete m m' gs _ s H U); rewrite ?Hh.
  - rewrite !members_app, !members_cons. unfold group_members. simpl. solve_Permutation.
  - destruct (ch_gc _ _ H) as [gs' X]. destruct gs1 as [|g gs1']; [|simplify_eq/=; by eexists].
    simplify_eq/=. by destruct k1.
  - apply (dll_ext _ _ _ _ _ _ _ (ch_main _ _ H)). intros b _. rewrite !Hsame by done.
    apply unlink_member_main.
  - rewrite T. apply H.
  - intros g Hg. assert (g = (h, k1 ++ k2) \/ g ∈ gs1 ++ gs2) as [->|Hg'].
    { revert Hg. rewrite !elem_of_app, !elem_of_cons. tauto. }
    + assert (Sub : forall b, b ∈ k1 ++ k2 -> b ∈ k1 ++ s :: k2) by set_solver.
      split; unfold group_members; cbn [fst snd].
      * rewrite member_eq'. apply (dll_ext _ _ _ _ _ _ _ unlink_member_dll). intros b _. by rewrite !Hsame.
      * intros b Hb. rewrite Hsame by done. destruct (unlink_member_main b) as [_ ->]. auto.
      * intros _. apply (parallel_unlinked m); [done|]. apply G3. by destruct k1.
      * intros b Hb. destruct (G4 b) as [P C]; [auto|].
        split; [by apply (parallel_unlinked m)|by apply (compatible_unlinked m)].
    + apply (group_ok_ext m); [done|..].
      * intros b Hb. rewrite !Hsame by done. apply unlink_member_other. intros X.
        by apply (members_disjoint gs1 (h, k1 ++ s :: k2) gs2 g b (ch_nodup _ _ H)).
      * intros b _. rewrite Hsame by done. apply unlink_member_main.
      * apply (ch_groups _ _ H). revert Hg'. rewrite !elem_of_app, !elem_of_cons. tauto.
Qed.

(** A member that is not the head leaves its group. *)
Lemma wp_remove_member ps : m_stats m !! s = Some ps ->
  wp (remove_member ps)
    (fun _ m' => station_chain m' (gs1 ++ (h, k1 ++ k2) :: gs2) /\ unlinked_mem m' = unlinked_mem m)
    (fun m' => chain_left m gs m' \/ chain_left m (gs1 ++ (h, k1 ++ k2) :: gs2) m') m.
Proof.
  intros Es. pose proof member_removed as Fin. pose proof member_dll as G1.
  destruct (member_stat a) as (Ha & pa & Ea & Na); [set_solver|].
  assert (st_prevparallel ps = a /\ st_nextparallel ps = hd (-1) k2) as [Hpp Hnp].
  { apply dll_app in G1 as [_ (_ & _ & D1 & D2 & _)]. rewrite (stf_lookup _ _ _ _ Es) in D1.
    by rewrite (stf_lookup _ _ _ _ Es) in D2. }
  unfold remove_member. rewrite Hpp, Hnp. apply wp_bind. eapply wps_ld_stat; [done|]. rewrite Na.
  set (m1 := match k2 with [] => m | b :: _ => upd_stat b (set_st_prevparallel a) m end).
  assert (is_Some (m_stats m1 !! a)) as [pa1 Ea1].
  { unfold m1. destruct k2; [by exists pa|]. apply is_Some_upd_stat. by exists pa. }
  assert (Ngc : forall b, b ∈ k2 -> b <> ET_GRANDCENTRAL).
  { intros b Hb. apply (member_not_gc m gs _ b H member_in). simpl. set_solver. }
  assert (Left1 : chain_left m gs m1).
  { unfold m1. clear - H Ngc. destruct k2; [crash|]. apply chain_left_prevparallel; [crash|]. apply Ngc. by left. }
  assert (Rest : wp (str_stat a (set_st_nextparallel (hd (-1) k2));;;
      when (st_waslast ps =? 1) (str_stat a (set_st_waslast 1)))
    (fun _ m' => station_chain m' (gs1 ++ (h, k1 ++ k2) :: gs2) /\ unlinked_mem m' = unlinked_mem m)
    (fun m' => chain_left m gs m' \/ chain_left m (gs1 ++ (h, k1 ++ k2) :: gs2) m') m1).
  { apply wp_bind. eapply wps_str_stat; [done|left; exact Left1|]. fold (unlink_member a k2 m). apply wp_when.
    destruct (st_waslast ps =? 1); [|by apply Fin; left].
    eapply wps_str_stat; [by apply upd_stat_eq| |apply Fin; by right].
    right. destruct (Fin (unlink_member a k2 m)) as [X1 X2]; [by left|]. split; [by apply chain_forward|done]. }
  pose proof member_stat as St.
  apply wp_bind, wp_when. destruct k2 as [|b k]; [done|]. simpl hd in *.
  destruct (St b) as (? & pb & Eb & ?); [set_solver|]. destruct (Z.ltb_spec (-1) b); [|lia].
  eapply wps_str_stat; [done|left; by apply chain_left_refl|]. exact Rest.
Qed.
End remove_member.

Lemma elem_of_members_inv a gs : a ∈ members gs ->
  exists gs1 g gs2, gs = gs1 ++ g :: gs2 /\ a ∈ group_members g.
Proof.
  induction gs as [|g gs IH]; [set_solver|]. rewrite members_cons. intros [Ha|Ha]%elem_of_app.
  - by exists [], g, gs.
  - destruct (IH Ha) as (gs1 & g' & gs2 & -> & ?). by exists (g :: gs1), g', gs2.
Qed.

Lemma chain_remove_absent s gs : s ∉ members gs -> chain_remove s gs = gs.
Proof. intros N. rewrite <- (app_nil_r gs), chain_remove_skip by done. done. Qed.

Lemma filter_middle (s : Z) k1 k2 :
  NoDup (k1 ++ s :: k2) -> filter (fun a => a <> s) (k1 ++ s :: k2) = k1 ++ k2.
Proof.
  intros (_ & N1 & N2)%NoDup_app. apply NoDup_cons in N2 as [N2 _].
  rewrite filter_app, filter_cons_False by tauto.
  by rewrite !filter_not_in by set_solver.
Qed.

(** The two ways in which a station is in the chain. *)
Lemma chain_remove_cases m gs s : station_chain m gs -> s ∈ members gs -> s <> ET_GRANDCENTRAL ->
  (exists gs1 p pms ms gs2, gs = gs1 ++ (p, pms) :: (s, ms) :: gs2 /\
     chain_remove s gs = gs1 ++ (p, pms) :: match ms with [] => gs2 | n :: ns => (n, ns) :: gs2 end) \/
  (exists gs1 h k1 k2 gs2, gs = gs1 ++ (h, k1 ++ s :: k2) :: gs2 /\
     chain_remove s gs = gs1 ++ (h, k1 ++ k2) :: gs2).
Proof.
  intros H (gs1 & [h ms] & gs2 & -> & Hs)%elem_of_members_inv Ns.
  pose proof (ch_nodup _ _ H) as N. rewrite members_app, members_cons in N.
  apply NoDup_app in N as (_ & N1 & N). apply NoDup_app in N as (N2 & N3 & _).
  assert (s ∉ members gs1). { intros X. apply (N1 s X). rewrite elem_of_app. auto. }
  rewrite chain_remove_skip by done. simpl. unfold group_members in *. simpl in *.
  destruct (Z.eqb_spec h s) as [->|Nh].
  - left. destruct gs1 as [|[p pms] gs1 _] using rev_ind.
    { destruct (ch_gc _ _ H) as [gs' X]. by simplify_eq/=. }
    exists gs1, p, pms, ms, gs2. by rewrite <- !app_assoc.
  - right. apply elem_of_cons in Hs as [->|Hs]; [done|].
    apply list_elem_of_split in Hs as (k1 & k2 & ->). apply NoDup_cons in N2 as [_ N2].
    exists gs1, h, k1, k2, gs2. split; [done|]. rewrite filter_middle by done.
    rewrite chain_remove_absent; [done|]. apply N3. set_solver.
Qed.

Lemma wp_station_remove m gs s :
  station_chain m gs -> s ∈ members gs -> s <> ET_GRANDCENTRAL ->
  wp (station_remove s) (fun _ m' => station_chain m' (chain_remove s gs) /\ unlinked_mem m' = unlinked_mem m)
    (fun m' => chain_left m gs m' \/ chain_left m (chain_remove s gs) m') m.
Proof.
  intros H Hs Ns.
  destruct (ch_stat _ _ H s Hs) as (Hs0 & ps & Es & _).
  unfold station_remove. apply wp_bind. eapply wps_ld_stat; [done|].
  destruct (chain_remove_cases m gs s H Hs Ns)
    as [(gs1 & p & pms & ms & gs2 & -> & ->)|(gs1 & h & k1 & k2 & gs2 & -> & ->)].
  - destruct (remove_head_stat m gs1 p pms s ms gs2 H p) as (Hp & pp & Ep & _); [rewrite remove_heads; set_solver|].
    destruct (remove_links m gs1 p pms s ms gs2 H ps pp Es Ep) as [-> _].
    pose proof (ch_groups _ _ H (s, ms) ltac:(set_solver)) as [G1 G2 G3 _].
    destruct ms as [|n ns].
    + assert (Main : wp (remove_main s ps) (fun _ m' => station_chain m' (gs1 ++ (p, pms) :: gs2) /\
        unlinked_mem m' = unlinked_mem m)
        (fun m' => chain_left m (gs1 ++ (p, pms) :: (s, []) :: gs2) m' \/ chain_left m (gs1 ++ (p, pms) :: gs2) m') m)
        by (eapply wp_mono; [by apply (wp_remove_main m gs1 p pms s [] gs2 H ps)|by intros ? ? [? _]|auto]).
      destruct (_ =? ET_STATION_PARALLEL); [|done]. destruct (Z.ltb_spec (-1) p); [|lia].
      destruct G1 as (_ & G1 & _). rewrite (stf_lookup _ _ _ _ Es) in G1. simpl in G1. by rewrite G1.
    + destruct G3 as (ps' & Es' & F); [done|]. simpl in Es'. rewrite Es in Es'. injection Es' as <-. rewrite F.
      destruct (Z.ltb_spec (-1) p); [|lia].
      destruct G1 as (_ & G1 & _). rewrite (stf_lookup _ _ _ _ Es) in G1. simpl in G1. rewrite G1.
      destruct (ch_stat _ _ H n) as (Hn & _).
      { apply (elem_of_members n (s, n :: ns)); [set_solver|]. right. by left. }
      change (ET_STATION_PARALLEL =? ET_STATION_PARALLEL) with true. cbv iota.
      destruct (Z.ltb_spec n 0); [lia|]. eapply wp_mono; [by apply (wp_remove_head m gs1 p pms s n ns gs2 H)|done|auto].
  - pose proof (ch_groups _ _ H (h, k1 ++ s :: k2) ltac:(set_solver)) as [_ G2 _ G4].
    destruct (G4 s) as [(ps' & Es' & F) _]; [set_solver|]. rewrite Es in Es'. injection Es' as <-.
    specialize (G2 s). rewrite (stf_lookup _ _ _ _ Es) in G2. rewrite F, G2 by set_solver.
    edestruct (@exists_last Z (h :: k1)) as (l1 & a & El); [done|].
    by apply (wp_remove_member m gs1 h k1 s k2 gs2 l1 a H El).
Qed.

(** C35: station_remove takes a station other than GrandCentral out of the chain: its group ends, or
    the next parallel station becomes its head, or a member of a group leaves it. *)
Theorem station_remove_spec m gs s :
  station_chain m gs -> s ∈ members gs -> s <> ET_GRANDCENTRAL ->
  exists x m', run (station_remove s) m = Ok tt x m' /\
    station_chain m' (chain_remove s gs) /\ unlinked_mem m' = unlinked_mem m.
Proof.
  intros H Hs Ns. destruct (wp_run _ _ _ _ (wp_station_remove m gs s H Hs Ns)) as ([] & x & m' & ? & ?). eauto.
Qed.

(** A group of one leaves the main list, and the station itself keeps its links. *)
Lemma wp_station_remove_alone m gs s ps :
  station_chain m gs -> (s, []) ∈ gs -> s <> ET_GRANDCENTRAL -> m_stats m !! s = Some ps ->
  wp (station_remove s) (fun _ m' => (station_chain m' (chain_remove s gs) /\ unlinked_mem m' = unlinked_mem m) /\
    m_stats m' !! s = Some ps) (fun _ => True) m.
Proof.
  intros H Hg Ns Es. pose proof (ch_groups _ _ H (s, []) Hg) as [G1 _ _ _].
  unfold station_remove. apply wp_bind. eapply wps_ld_stat; [done|].
  assert (exists gs1 p pms gs2, gs = gs1 ++ (p, pms) :: (s, []) :: gs2 /\ chain_remove s gs = gs1 ++ (p, pms) :: gs2)
    as (gs1 & p & pms & gs2 & -> & ->).
  { destruct (chain_remove_cases m gs s H) as [(gs1 & p & pms & ms & gs2 & -> & ->)|(gs1 & h & k1 & k2 & gs2 & -> & _)]; [|done|..].
    - apply (elem_of_members s (s, [])); [done|by left].
    - assert ((s, ms) = (s, []) \/ (s, []) ∈ gs1 ++ (p, pms) :: gs2) as [[= ->]|X].
      { revert Hg. rewrite !elem_of_app, !elem_of_cons. intuition congruence. }
      + by exists gs1, p, pms, gs2.
      + exfalso. pose proof (ch_nodup _ _ H) as N.
        change (gs1 ++ (p, pms) :: (s, ms) :: gs2) with (gs1 ++ [(p, pms)] ++ (s, ms) :: gs2) in N.
        rewrite app_assoc in N. apply (members_disjoint _ (s, ms) gs2 (s, []) s N); [by left| |by left].
        by rewrite <- app_assoc.
    - exfalso. pose proof (ch_nodup _ _ H) as N.
      assert ((s, []) = (h, k1 ++ s :: k2) \/ (s, []) ∈ gs1 ++ gs2) as [[= -> X]|X].
      { revert Hg. rewrite !elem_of_app, !elem_of_cons. intuition congruence. }
      + by destruct k1.
      + apply (members_disjoint _ (h, k1 ++ s :: k2) gs2 (s, []) s N); [|done|by left].
        right. simpl. set_solver. }
  assert (Main : wp (remove_main s ps) (fun _ m' => (station_chain m' (gs1 ++ (p, pms) :: gs2) /\
    unlinked_mem m' = unlinked_mem m) /\ m_stats m' !! s = Some ps) (fun _ => True) m)
    by (eapply wp_mono; [by apply (wp_remove_main m gs1 p pms s [] gs2 H ps)|done|done]).
  destruct (remove_head_stat m gs1 p pms s [] gs2 H p) as (Hp & pp & Ep & _); [rewrite remove_heads; set_solver|].
  destruct (remove_links m gs1 p pms s [] gs2 H ps pp Es Ep) as [-> _].
  destruct (_ =? ET_STATION_PARALLEL); [|done]. destruct (Z.ltb_spec (-1) p); [|lia].
  destruct G1 as (_ & G1 & _). rewrite (stf_lookup _ _ _ _ Es) in G1. simpl in G1. by rewrite G1.
Qed.

Lemma chain_remove_perm m gs s :
  station_chain m gs -> s ∈ members gs -> s <> ET_GRANDCENTRAL -> s :: members (chain_remove s gs) ≡ₚ members gs.
Proof.
  intros H Hs Ns. destruct (chain_remove_cases m gs s H Hs Ns)
    as [(gs1 & p & pms & ms & gs2 & -> & ->)|(gs1 & h & k1 & k2 & gs2 & -> & ->)].
  - destruct ms; rewrite !members_app, !members_cons; unfold group_members; simpl; solve_Permutation.
  - rewrite !members_app, !members_cons. unfold group_members. simpl. solve_Permutation.
Qed.

(** ** Positions *)

Fixpoint member_pos (s : Z) (ms : list Z) (j : Z) : option Z :=
  match ms with
  | [] => None
  | a :: ms' => if a =? s then Some j else member_pos s ms' (j + 1)
  end.

(** The position of [s] in the chain and in its group. *)
Fixpoint chain_find (s : Z) (gs : list group) (i : Z) : option (Z * Z) :=
  match gs with
  | [] => None
  | (h, ms) :: gs' =>
      if h =? s then Some (i, 0)
      else match member_pos s ms 1 with Some j => Some (i, j) | None => chain_find s gs' (i + 1) end
  end.

Definition find_result (s : Z) (gs : list group) (i : Z) : Z * Z * Z :=
  match chain_find s gs i with Some (i, j) => (ET_OK, i, j) | None => (ET_ERROR, 0, 0) end.

Lemma wp_find_parallel m gs g s n l1 a l2 j :
  station_chain m gs -> g ∈ gs -> group_members g = l1 ++ a :: l2 -> (length l2 < n)%nat ->
  wp (find_parallel n s a j) (fun r m' => r = member_pos s l2 j /\ m' = m) (fun _ => True) m.
Proof.
  intros H Hg. revert l1 a l2 j. induction n as [|n IH]; intros l1 a l2 j E L; [lia|]. cbn [find_parallel].
  assert (St : forall b, b ∈ a :: l2 -> 0 <= b /\ exists pb, m_stats m !! b = Some pb /\ st_num pb = b).
  { intros b Hb. apply (ch_stat _ _ H), (elem_of_members b g); [done|]. rewrite E. set_solver. }
  destruct (St a) as (_ & pa & Ea & _); [by left|].
  apply wp_bind. eapply wps_ld_stat; [done|].
  pose proof (gr_dll _ _ (ch_groups _ _ H g Hg)) as D. rewrite E in D.
  apply dll_app in D as [_ (_ & D & _)]. rewrite (stf_lookup _ _ _ _ Ea) in D. rewrite D.
  destruct l2 as [|b l2]; simpl; [by apply wp_ret|].
  destruct (St b) as (Hb & _); [set_solver|]. destruct (Z.ltb_spec b 0); [lia|].
  destruct (b =? s); [by apply wp_ret|].
  apply (IH (l1 ++ [a]) b l2); [by rewrite <- app_assoc|simpl in L; lia].
Qed.

Lemma wp_find_loop m gs s n gs1 g gs2 i :
  station_chain m gs -> gs = gs1 ++ g :: gs2 -> (length gs2 < n)%nat ->
  wp (find_loop n s (fst g) i) (fun r m' => r = find_result s gs2 i /\ m' = m) (fun _ => True) m.
Proof.
  intros H. revert gs1 g gs2 i. induction n as [|n IH]; intros gs1 g gs2 i E L; [lia|]. cbn [find_loop].
  assert (Hh : heads gs = heads gs1 ++ fst g :: heads gs2) by (subst; by rewrite heads_app).
  assert (St : forall a, a ∈ heads gs -> 0 <= a /\ exists pa, m_stats m !! a = Some pa /\ st_num pa = a).
  { intros a Ha. by apply (ch_stat _ _ H), elem_of_heads. }
  destruct (St (fst g)) as (_ & p & Ep & _); [rewrite Hh; set_solver|].
  apply wp_bind. eapply wps_ld_stat; [done|].
  pose proof (ch_main _ _ H) as D. rewrite Hh in D.
  apply dll_app in D as [_ (_ & D & _)]. rewrite (stf_lookup _ _ _ _ Ep) in D. rewrite D.
  destruct gs2 as [|[h ms] gs2]; simpl; [by apply wp_ret|].
  destruct (St h) as (Hh0 & ph & Eh & _); [rewrite Hh; simpl; set_solver|].
  destruct (Z.ltb_spec h 0); [lia|].
  apply wp_bind. eapply wps_ld_stat; [done|].
  unfold find_result. cbn [chain_find]. destruct (h =? s); [by apply wp_ret|].
  assert (Hg : (h, ms) ∈ gs) by (subst; set_solver).
  apply wp_bind, wp_getm. apply wp_bind.
  assert (X : wp (if sc_flow_mode (st_config ph) =? ET_STATION_PARALLEL
      then find_parallel (S (size (m_stats m))) s h 1 else ret None)
    (fun r m' => r = member_pos s ms 1 /\ m' = m) (fun _ => True) m).
  { destruct (Z.eqb_spec (sc_flow_mode (st_config ph)) ET_STATION_PARALLEL) as [_|F].
    - apply (wp_find_parallel m gs (h, ms) s _ []); [done|done|done|].
      pose proof (length_members_le _ _ H) as Lm. rewrite E, members_app, !members_cons, !length_app in Lm.
      simpl in Lm. lia.
    - apply wp_ret. split; [|done]. destruct ms; [done|]. exfalso.
      destruct (gr_head _ _ (ch_groups _ _ H _ Hg)) as (ph' & Eh' & F'); [done|]. simpl in Eh'. congruence. }
  eapply wp_mono; [exact X| |done]. intros r m' [-> ->].
  destruct (member_pos s ms 1); [by apply wp_ret|].
  apply (IH (gs1 ++ [g]) (h, ms) gs2); [by rewrite <- app_assoc|simpl in L; lia].
Qed.

Lemma wp_station_find m gs s :
  station_chain m gs -> sys_nstations (m_sys m) = Z.of_nat (length (members gs)) ->
  wp (station_find s) (fun r m' => r = find_result s gs 0 /\ m' = m) (fun _ => True) m.
Proof.
  intros H N. destruct (ch_gc _ _ H) as [gs' E]. unfold station_find.
  assert (R : find_result s gs 0 = if s =? ET_GRANDCENTRAL then (ET_OK, 0, 0) else find_result s gs' 1).
  { rewrite E. unfold find_result. cbn [chain_find]. rewrite Z.eqb_sym. by destruct (_ =? _). }
  rewrite R. destruct (Z.eqb_spec s ET_GRANDCENTRAL) as [->|Ns]; [by apply wp_ret|].
  apply wp_bind, wps_ld_sys. rewrite N. pose proof (length_heads_le gs) as L.
  pose proof (length_members_le _ _ H) as Lm.
  assert (length gs = S (length gs')) as Lg by (by rewrite E).
  destruct (Z.ltb_spec (Z.of_nat (length (members gs))) 2).
  - destruct gs'; simpl in Lg; [by apply wp_ret|lia].
  - apply wp_bind, wp_getm. apply (wp_find_loop m gs s _ [] (ET_GRANDCENTRAL, []) gs'); [done|done|].
    lia.
Qed.

Lemma chain_find_at s gs1 ms gs2 i :
  s ∉ members gs1 -> chain_find s (gs1 ++ (s, ms) :: gs2) i = Some (i + Z.of_nat (length gs1), 0).
Proof.
  revert i. induction gs1 as [|[h k] gs1 IH]; intros i N; simpl.
  - rewrite Z.eqb_refl. do 2 f_equal. lia.
  - rewrite members_cons in N. unfold group_members in N. simpl in N.
    destruct (Z.eqb_spec h s) as [->|]; [set_solver|].
    assert (forall j, member_pos s k j = None) as ->.
    { assert (s ∉ k) as Nk by set_solver. clear -Nk. induction k as [|a k IH]; intros j; [done|]. simpl.
      destruct (Z.eqb_spec a s) as [->|]; [set_solver|]. apply IH. set_solver. }
    rewrite IH by set_solver. do 2 f_equal. lia.
Qed.

Lemma member_pos_in s ms j : s ∈ ms -> exists k, member_pos s ms j = Some k /\ j <= k.
Proof.
  revert j. induction ms as [|a ms IH]; intros j H; [set_solver|]. simpl.
  destruct (Z.eqb_spec a s) as [->|]; [exists j; split; [done|lia]|].
  destruct (IH (j + 1)) as (k & E & ?); [set_solver|]. exists k. split; [done|lia].
Qed.

Lemma chain_find_in s gs1 h ms gs2 i :
  s ∉ members gs1 -> h <> s -> s ∈ ms ->
  exists j, chain_find s (gs1 ++ (h, ms) :: gs2) i = Some (i + Z.of_nat (length gs1), j) /\ 1 <= j.
Proof.
  revert i. induction gs1 as [|[h' k] gs1 IH]; intros i N Nh Hs; simpl.
  - destruct (Z.eqb_spec h s); [done|]. destruct (member_pos_in s ms 1 Hs) as (j & -> & Hj).
    exists j. split; [do 2 f_equal; lia|done].
  - rewrite members_cons in N. unfold group_members in N. simpl in N.
    destruct (Z.eqb_spec h' s) as [->|]; [set_solver|].
    destruct (member_pos s k 1) eqn:E.
    { exfalso. assert (s ∉ k) as Nk by set_solver. clear -Nk E. revert E. generalize 1.
      induction k as [|a k IH]; intros j; [done|]. simpl.
      destruct (Z.eqb_spec a s) as [->|]; [set_solver|]. apply IH. set_solver. }
    destruct (IH (i + 1)) as (j & -> & Hj); [set_solver|done|done|].
    exists j. split; [do 2 f_equal; lia|done].
Qed.

(** C36: station_find returns the position of a station in the chain and in its group, or ET_ERROR
    for a station that is in no list; it terminates and changes nothing. *)
Theorem station_find_spec m gs s :
  station_chain m gs -> sys_nstations (m_sys m) = Z.of_nat (length (members gs)) ->
  exists x, run (station_find s) m = Ok (find_result s gs 0) x m.
Proof.
  intros H N. destruct (wp_run _ _ _ _ (wp_station_find m gs s H N)) as (a & x & m' & R & -> & ->). eauto.
Qed.

Lemma chain_insert_find m gs s position pp gs' :
  s ∉ members gs -> chain_insert m s position pp gs = Some gs' ->
  members gs' ≡ₚ s :: members gs /\ exists j, 0 <= j /\
    chain_find s gs' 0 = Some (if (1 <=? position) && (position <? Z.of_nat (length gs)) then position
                               else Z.of_nat (length gs), j).
Proof.
  intros Ns. destruct (decide (1 <= position < Z.of_nat (length gs))) as [R|R].
  - destruct (Z.leb_spec 1 position); [|lia]. destruct (Z.ltb_spec position (Z.of_nat (length gs))); [|lia].
    destruct (lookup_lt_is_Some_2 gs (Z.to_nat position)) as [[h ms] Eh]; [lia|].
    apply list_elem_of_split_length in Eh as (gs1 & gs2 & -> & Lg).
    rewrite chain_insert_at by (lia || (destruct gs1; simpl in *; [lia|done])).
    rewrite members_app, members_cons in Ns. unfold group_members in Ns. simpl in Ns.
    assert (Np : position = 0 + Z.of_nat (length gs1)) by lia. simpl.
    destruct (_ && _ && _); [destruct (_ && _); [|done]|]; intros [= <-];
      rewrite !members_app, !members_cons; unfold group_members; cbn [fst snd].
    + split; [rewrite group_insert_perm; solve_Permutation|].
      destruct (chain_find_in s gs1 h (group_insert s pp ms) gs2 0) as (j & E & Hj); [set_solver|set_solver| |].
      { rewrite group_insert_perm. set_solver. }
      exists j. split; [lia|]. by rewrite E, Np.
    + split; [simpl; solve_Permutation|]. exists 0. split; [done|].
      rewrite chain_find_at by set_solver. by rewrite Np.
  - rewrite chain_insert_end by done. intros [= <-].
    assert ((1 <=? position) && (position <? Z.of_nat (length gs)) = false) as ->.
    { destruct (Z.leb_spec 1 position), (Z.ltb_spec position (Z.of_nat (length gs))); simpl; lia || done. }
    rewrite members_app. unfold members at 2. simpl. split; [solve_Permutation|].
    exists 0. split; [done|]. by rewrite chain_find_at.
Qed.

(** A station is found at the position at which it was inserted; one whose position is not
    taken yet is found at the end of the chain. *)
Theorem station_insert_find m gs s ps position pp gs' :
  station_chain m gs -> fresh m gs s ps ->
  sys_nstations (m_sys m) = Z.of_nat (length (members gs)) + 1 ->
  chain_insert m s position pp gs = Some gs' ->
  exists x m' j,
    run (let* _ := station_insert s position pp in station_find s) m =
      Ok (ET_OK, if (1 <=? position) && (position <? Z.of_nat (length gs)) then position
                 else Z.of_nat (length gs), j) x m' /\ 0 <= j.
Proof.
  intros H F N E.
  assert (P : members gs' ≡ₚ s :: members gs /\ exists j, 0 <= j /\
    chain_find s gs' 0 = Some (if (1 <=? position) && (position <? Z.of_nat (length gs)) then position
                 else Z.of_nat (length gs), j)).
  { by apply (chain_insert_find m gs s position pp gs'); [apply F|]. }
  destruct P as (P & j & Hj & Fd).
  assert (W : wp (let* _ := station_insert s position pp in station_find s)
    (fun r m' => r = find_result s gs' 0) (fun _ => True) m).
  { apply wp_bind. eapply wp_mono; [by apply (wp_station_insert True m gs s ps)| |done].
    intros st m'. unfold insert_result. rewrite E. intros (-> & H' & U).
    eapply wp_mono; [apply (wp_station_find m' gs' s H')|by intros r ? [-> _]|done].
    assert (sys_nstations (m_sys m') = sys_nstations (m_sys m)) as ->.
    { change (sys_nstations (m_sys (unlinked_mem m')) = sys_nstations (m_sys m)). by rewrite U. }
    rewrite N, P. simpl. lia. }
  destruct (wp_run _ _ _ _ W) as (r & x & m' & R & ->). exists x, m', j.
  unfold find_result in R. rewrite Fd in R. done.
Qed.

(** ** Memories with the same links *)

(** What the chain depends on. *)
Definition links (ps : et_station) : Z * Z * Z * Z * Z * et_stat_config :=
  (st_num ps, st_next ps, st_prev ps, st_nextparallel ps, st_prevparallel ps, st_config ps).

(** The memories agree on the chain: a coarser equivalence than equality. *)
Definition same_links (m m' : et_mem) : Prop :=
  links <$> m_stats m = links <$> m_stats m' /\ sys_stat_tail (m_sys m) = sys_stat_tail (m_sys m').

#[export] Instance same_links_equiv : Equivalence same_links.
Proof.
  split; unfold same_links.
  - done.
  - intros m m' [-> ->]. done.
  - intros m1 m2 m3 [-> ->] [-> ->]. done.
Qed.

Lemma same_links_lookup m m' s ps :
  same_links m m' -> m_stats m !! s = Some ps -> exists ps', m_stats m' !! s = Some ps' /\ links ps' = links ps.
Proof.
  intros [H _] E. assert (links <$> m_stats m' !! s = Some (links ps)) as X.
  { rewrite <- lookup_fmap, <- H, lookup_fmap, E. done. }
  destruct (m_stats m' !! s) as [ps'|]; [|done]. injection X as X. exists ps'. split; [done|].
  unfold links. congruence.
Qed.

Lemma same_links_stf f m m' s :
  (forall ps ps', links ps = links ps' -> f ps = f ps') -> same_links m m' -> stf f m' s = stf f m s.
Proof.
  intros Hf H. unfold stf. destruct (m_stats m !! s) as [ps|] eqn:E.
  - destruct (same_links_lookup m m' s ps H E) as (ps' & -> & L). by apply Hf.
  - destruct (m_stats m' !! s) as [ps'|] eqn:E'; [|done].
    symmetry in H. destruct (same_links_lookup m' m s ps' H E') as (? & ? & _). congruence.
Qed.

Lemma same_links_chain m m' gs : same_links m m' -> station_chain m gs -> station_chain m' gs.
Proof.
  intros L [H1 H2 H3 H4 H5 H6].
  assert (S : forall f s, (forall ps ps', links ps = links ps' -> f ps = f ps') -> stf f m' s = stf f m s)
    by (intros; by apply same_links_stf).
  assert (Sn : forall s, stf st_next m' s = stf st_next m s) by (intros; apply S; unfold links; congruence).
  assert (Sp : forall s, stf st_prev m' s = stf st_prev m s) by (intros; apply S; unfold links; congruence).
  assert (Snp : forall s, stf st_nextparallel m' s = stf st_nextparallel m s) by (intros; apply S; unfold links; congruence).
  assert (Spp : forall s, stf st_prevparallel m' s = stf st_prevparallel m s) by (intros; apply S; unfold links; congruence).
  assert (P : forall s, parallel m s -> parallel m' s).
  { intros s (ps & E & F). destruct (same_links_lookup m m' s ps L E) as (ps' & E' & X).
    exists ps'. split; [done|]. unfold links in X. congruence. }
  split; try done.
  - intros s Hs. destruct (H2 s Hs) as (? & ps & E & N). split; [done|].
    destruct (same_links_lookup m m' s ps L E) as (ps' & E' & X). exists ps'. unfold links in X. split; congruence.
  - apply (dll_ext _ _ _ _ _ _ _ H4). auto.
  - destruct L as [_ <-]. done.
  - intros g Hg. destruct (H6 g Hg) as [G1 G2 G3 G4]. split; [|intros; rewrite Sp; auto|auto|].
    + apply (dll_ext _ _ _ _ _ _ _ G1). auto.
    + intros s Hs. destruct (G4 s Hs) as [Pm (ph & ps & Eh & Es & C)]. split; [auto|].
      destruct (same_links_lookup m m' _ ph L Eh) as (ph' & Eh' & Xh).
      destruct (same_links_lookup m m' _ ps L Es) as (ps' & Es' & Xs).
      exists ph', ps'. split_and!; [done..|]. unfold links in *. congruence.
Qed.

#[export] Instance station_chain_proper : Proper (same_links ==> eq ==> iff) station_chain.
Proof.
  intros m m' L gs gs' <-. split; apply same_links_chain; [done|by symmetry].
Qed.

(** Stores that leave the links. *)
Lemma same_links_upd_stat s f m : (forall ps, links (f ps) = links ps) -> same_links (upd_stat s f m) m.
Proof.
  intros H. split; [|done]. apply map_eq. intros i. rewrite !lookup_fmap. cbn.
  destruct (decide (s = i)) as [<-|N]; [|by rewrite lookup_alter_ne].
  rewrite lookup_alter_eq. destruct (m_stats m !! s); simpl; [by rewrite H|done].
Qed.

Lemma same_links_upd_sys f m : sys_stat_tail (f (m_sys m)) = sys_stat_tail (m_sys m) -> same_links (upd_sys f m) m.
Proof. intros H. by split. Qed.

(** ** A concrete chain *)

(** Station 1 heads a parallel group with station 2, station 3 is serial, station 4 is fresh. *)
Definition chain0_station (num next prev np pp flow : Z) : et_station :=
  set_st_nextparallel np (set_st_prevparallel pp
    (set_st_config (set_sc_flow_mode flow config0) (station0 num next prev "S" (list0 0 0 0 0) (list0 0 0 0 0)))).

Definition chain0 : et_mem :=
  set_m_stats
    {[ 0 := chain0_station 0 1 (-1) (-1) (-1) ET_STATION_SERIAL;
       1 := chain0_station 1 3 0 2 (-1) ET_STATION_PARALLEL;
       2 := chain0_station 2 (-1) (-1) (-1) 1 ET_STATION_PARALLEL;
       3 := chain0_station 3 (-1) 1 (-1) (-1) ET_STATION_SERIAL;
       4 := chain0_station 4 (-1) (-1) (-1) (-1) ET_STATION_PARALLEL ]}
    (upd_sys (set_sys_nstations 5) mem0).

Definition groups0 : list (Z * list Z) := [(0, []); (1, [2]); (3, [])].

Ltac each_elem :=
  repeat match goal with
  | H : _ ∈ _ :: _ |- _ => apply elem_of_cons in H as [->|H]
  | H : _ ∈ [] |- _ => by apply elem_of_nil in H
  end.

Lemma chain0_ok : station_chain chain0 groups0.
Proof.
  split.
  - by_eval.
  - intros s Hs. change (s ∈ [0; 1; 2; 3]) in Hs.
    each_elem; (split; [lia|eexists; split; reflexivity]).
  - by eexists.
  - vm_compute. repeat split.
  - done.
  - intros g Hg. unfold groups0 in Hg. each_elem.
    + apply group_ok_single; reflexivity.
    + split.
      * vm_compute. repeat split.
      * simpl. intros s Hs. each_elem. reflexivity.
      * intros _. eexists. split; reflexivity.
      * simpl. intros s Hs. each_elem. split; [eexists; split; reflexivity|].
        do 2 eexists. split_and!; reflexivity.
    + apply group_ok_single; reflexivity.
Qed.

Lemma chain0_fresh : detached True chain0 groups0 4 (chain0_station 4 (-1) (-1) (-1) (-1) ET_STATION_PARALLEL).
Proof. split; try done. by_eval. Qed.

(** Station 4 joins the group of stations 1 and 2 between them. *)
Lemma station_insert_spec_witness :
  exists st x m', run (station_insert 4 1 1) chain0 = Ok st x m' /\
    insert_result chain0 4 1 1 groups0 st m'.
Proof. apply (station_insert_spec chain0 groups0 4 _ 1 1 chain0_ok chain0_fresh). reflexivity. Defined.

(** The head of the group leaves the chain. *)
Lemma station_remove_spec_witness :
  exists x m', run (station_remove 1) chain0 = Ok tt x m' /\
    station_chain m' (chain_remove 1 groups0) /\ unlinked_mem m' = unlinked_mem chain0.
Proof. apply (station_remove_spec chain0 groups0 1 chain0_ok); by_eval. Defined.

Lemma station_find_spec_witness :
  exists x, run (station_find 2) (upd_sys (set_sys_nstations 4) chain0) =
    Ok (find_result 2 groups0 0) x (upd_sys (set_sys_nstations 4) chain0).
Proof.
  apply (station_find_spec (upd_sys (set_sys_nstations 4) chain0) groups0 2); [|reflexivity].
  rewrite same_links_upd_sys by done. apply chain0_ok.
Defined.

Lemma station_insert_find_witness :
  exists x m' j, run (let* _ := station_insert 4 1 1 in station_find 4) chain0 = Ok (ET_OK, 1, j) x m' /\ 0 <= j.
Proof.
  apply (station_insert_find chain0 groups0 4 _ 1 1 _ chain0_ok chain0_fresh eq_refl eq_refl).
Defined.
