(* ===== verification/Api.v ===== *)
(** * The frame of the functions that users call

    Every function of the interface first looks where the ET system is: the remote clients of
    et_remoteclient.c and et_noshare.c, which talk to the network, are a typeclass here, and the
    theorems are about processes on the same node.  Then it asks whether the system is alive
    (et_alive of et_common.c, etl_alive of et_local.c), takes the read-write lock that protects
    the process from unmapping the memory, and checks that et_close was not called. *)
From stdpp Require Import base gmap strings list.
From S2P Require Import Prelude Types Machine EvList Sample StatConfig Stats.
Open Scope Z_scope.

(** ** The remote clients

    The functions with the prefixes etr_ and etn_ that the interface calls.  A result that the C
    function stores through a pointer is an option: nothing when it stores nothing. *)
Class Remote := {
  etr_alive : et_id -> M Z;
  etn_alive : et_id -> M Z;
  etr_station_create_at : et_id -> string -> et_stat_config -> Z -> Z -> M (Z * option Z);
  etr_station_remove : et_id -> Z -> M Z;
  etr_station_attach : et_id -> Z -> M (Z * option Z);
  etr_station_detach : et_id -> Z -> M Z;
  etr_station_setposition : et_id -> Z -> Z -> Z -> M Z;
  etr_station_getposition : et_id -> Z -> M (Z * option Z * option Z);
  etr_station_isattached : et_id -> Z -> Z -> M Z;
  etr_station_exists : et_id -> string -> M (Z * option Z);
  etr_station_getattachments : et_id -> Z -> M (Z * option Z);
  etr_station_getstatus : et_id -> Z -> M (Z * option Z);
  etr_station_getinputcount : et_id -> Z -> M (Z * option Z);
  etr_station_getoutputcount : et_id -> Z -> M (Z * option Z);
  etr_station_getblock : et_id -> Z -> M (Z * option Z);
  etr_station_setblock : et_id -> Z -> Z -> M Z;
  etr_station_getuser : et_id -> Z -> M (Z * option Z);
  etr_station_setuser : et_id -> Z -> Z -> M Z;
  etr_station_getrestore : et_id -> Z -> M (Z * option Z);
  etr_station_setrestore : et_id -> Z -> Z -> M Z;
  etr_station_getprescale : et_id -> Z -> M (Z * option Z);
  etr_station_setprescale : et_id -> Z -> Z -> M Z;
  etr_station_getcue : et_id -> Z -> M (Z * option Z);
  etr_station_setcue : et_id -> Z -> Z -> M Z;
  etr_station_getselectwords : et_id -> Z -> M (Z * option (list Z));
  etr_station_setselectwords : et_id -> Z -> list Z -> M Z;
  etr_station_getselect : et_id -> Z -> M (Z * option Z);
  etr_station_getlib : et_id -> Z -> M (Z * option string);
  etr_station_getclass : et_id -> Z -> M (Z * option string);
  etr_station_getfunction : et_id -> Z -> M (Z * option string);
  etr_system_gettemps : et_id -> M (Z * option Z);
  etr_system_gettempsmax : et_id -> M (Z * option Z);
  etr_system_getstations : et_id -> M (Z * option Z);
  etr_system_getstationsmax : et_id -> M (Z * option Z);
  etr_system_getprocs : et_id -> M (Z * option Z);
  etr_system_getprocsmax : et_id -> M (Z * option Z);
  etr_system_getattachments : et_id -> M (Z * option Z);
  etr_system_getattsmax : et_id -> M (Z * option Z);
  etr_system_getheartbeat : et_id -> M (Z * option Z);
  etr_system_getpid : et_id -> M (Z * option Z);
  etr_system_getgroupcount : et_id -> M (Z * option Z);
  etr_wakeup_attachment : et_id -> Z -> M Z;
  etr_wakeup_all : et_id -> Z -> M Z;
  etr_attach_geteventsput : et_id -> Z -> M (Z * option Z);
  etr_attach_geteventsget : et_id -> Z -> M (Z * option Z);
  etr_attach_geteventsdump : et_id -> Z -> M (Z * option Z);
  etr_attach_geteventsmake : et_id -> Z -> M (Z * option Z)
}.

(** A client without a network: every request fails. *)
Definition no_value {A} : M (Z * option A) := ret (ET_ERROR_REMOTE, None).
#[export] Instance no_remote : Remote := {|
  etr_alive := fun _ => ret 0;
  etn_alive := fun _ => ret 0;
  etr_station_create_at := fun _ _ _ _ _ => no_value;
  etr_station_remove := fun _ _ => ret ET_ERROR_REMOTE;
  etr_station_attach := fun _ _ => no_value;
  etr_station_detach := fun _ _ => ret ET_ERROR_REMOTE;
  etr_station_setposition := fun _ _ _ _ => ret ET_ERROR_REMOTE;
  etr_station_getposition := fun _ _ => ret (ET_ERROR_REMOTE, None, None);
  etr_station_isattached := fun _ _ _ => ret ET_ERROR_REMOTE;
  etr_station_exists := fun _ _ => no_value;
  etr_station_getattachments := fun _ _ => no_value;
  etr_station_getstatus := fun _ _ => no_value;
  etr_station_getinputcount := fun _ _ => no_value;
  etr_station_getoutputcount := fun _ _ => no_value;
  etr_station_getblock := fun _ _ => no_value;
  etr_station_setblock := fun _ _ _ => ret ET_ERROR_REMOTE;
  etr_station_getuser := fun _ _ => no_value;
  etr_station_setuser := fun _ _ _ => ret ET_ERROR_REMOTE;
  etr_station_getrestore := fun _ _ => no_value;
  etr_station_setrestore := fun _ _ _ => ret ET_ERROR_REMOTE;
  etr_station_getprescale := fun _ _ => no_value;
  etr_station_setprescale := fun _ _ _ => ret ET_ERROR_REMOTE;
  etr_station_getcue := fun _ _ => no_value;
  etr_station_setcue := fun _ _ _ => ret ET_ERROR_REMOTE;
  etr_station_getselectwords := fun _ _ => no_value;
  etr_station_setselectwords := fun _ _ _ => ret ET_ERROR_REMOTE;
  etr_station_getselect := fun _ _ => no_value;
  etr_station_getlib := fun _ _ => no_value;
  etr_station_getclass := fun _ _ => no_value;
  etr_station_getfunction := fun _ _ => no_value;
  etr_system_gettemps := fun _ => no_value;
  etr_system_gettempsmax := fun _ => no_value;
  etr_system_getstations := fun _ => no_value;
  etr_system_getstationsmax := fun _ => no_value;
  etr_system_getprocs := fun _ => no_value;
  etr_system_getprocsmax := fun _ => no_value;
  etr_system_getattachments := fun _ => no_value;
  etr_system_getattsmax := fun _ => no_value;
  etr_system_getheartbeat := fun _ => no_value;
  etr_system_getpid := fun _ => no_value;
  etr_system_getgroupcount := fun _ => no_value;
  etr_wakeup_attachment := fun _ _ => ret ET_ERROR_REMOTE;
  etr_wakeup_all := fun _ _ => ret ET_ERROR_REMOTE;
  etr_attach_geteventsput := fun _ _ => no_value;
  etr_attach_geteventsget := fun _ _ => no_value;
  etr_attach_geteventsdump := fun _ _ => no_value;
  etr_attach_geteventsmake := fun _ _ => no_value
|}.

(** ** The read-write lock of the process *)

Definition et_memRead_lock : M unit :=
  let* m := getm in
  if m_rwlock m <? 0 then block else store (set_m_rwlock (m_rwlock m + 1)).

Definition et_memWrite_lock : M unit :=
  let* m := getm in
  if negb (m_rwlock m =? 0) then block else store (set_m_rwlock (-1)).

Definition et_mem_unlock : M unit :=
  let* m := getm in
  store (set_m_rwlock (if m_rwlock m <? 0 then 0 else m_rwlock m - 1)).

(** ** Is the system alive? *)

Definition etl_alive (id : et_id) : M Z :=
  when (negb (id_cleanup id =? 1)) et_system_lock ;;;
  let alive := id_alive id in
  when (negb (id_cleanup id =? 1)) et_system_unlock ;;;
  ret alive.

Section api.
Context `{R0 : Remote}.

Definition et_alive (id : et_id) : M Z :=
  if id_locality id =? ET_REMOTE then etr_alive id
  else if id_locality id =? ET_LOCAL_NOSHARE then etn_alive id
  else etl_alive id.

(** The locked part of a function: [err] makes its result from an error. *)
Definition locked_call {A} (id : et_id) (err : Z -> A) (body : M A) : M A :=
  et_memRead_lock ;;;
  if negb (id_closed id =? 0) then et_mem_unlock ;;; ret (err ET_ERROR_CLOSED)
  else
    let* r := body in
    et_mem_unlock ;;;
    ret r.

Definition alive_call {A} (id : et_id) (err : Z -> A) (body : M A) : M A :=
  let* alive := et_alive id in
  if alive =? 0 then ret (err ET_ERROR_DEAD) else locked_call id err body.
End api.

(** ** Correctness of the frame *)

Lemma set_m_rwlock_back k m : set_m_rwlock (m_rwlock m) (set_m_rwlock k m) = m.
Proof. by destruct m. Qed.

Lemma upd_sys_mutex_id m : sys_mutex (m_sys m) = false ->
  upd_sys (set_sys_mutex false) (upd_sys (set_sys_mutex true) m) = m.
Proof. destruct m as [[]]. simpl. by intros ->. Qed.

Lemma upd_sys_stat_mutex_id m : sys_stat_mutex (m_sys m) = false ->
  upd_sys (set_sys_stat_mutex false) (upd_sys (set_sys_stat_mutex true) m) = m.
Proof. destruct m as [[]]. simpl. by intros ->. Qed.

(** The process runs on the node of the system and nobody holds the locks it takes first. *)
Record local_call (id : et_id) (m : et_mem) : Prop := mkLocalCall {
  lc_local : id_locality id = ET_LOCAL;
  lc_mutex : sys_mutex (m_sys m) = false;
  lc_rwlock : 0 <= m_rwlock m
}.

(** What happens before the body of a function runs. *)
Definition call_error (id : et_id) : option Z :=
  if id_alive id =? 0 then Some ET_ERROR_DEAD
  else if negb (id_closed id =? 0) then Some ET_ERROR_CLOSED else None.

Section frame.
Context `{R0 : Remote} (id : et_id) (m : et_mem) (L : local_call id m).

Lemma wp_etl_alive (Q : Z -> et_mem -> Prop) (C : et_mem -> Prop) :
  C m -> C (upd_sys (set_sys_mutex true) m) -> Q (id_alive id) m -> wp (etl_alive id) Q C m.
Proof.
  intros C1 C2 HQ. unfold etl_alive. apply wp_bind, wp_when.
  assert (E : wp (let alive := id_alive id in when (negb (id_cleanup id =? 1)) et_system_unlock ;;; ret alive)
    Q C (if negb (id_cleanup id =? 1) then upd_sys (set_sys_mutex true) m else m)).
  { apply wp_bind, wp_when. destruct (negb _); [|by apply wp_ret].
    apply wps_str_sys; [done|]. apply wp_ret. by rewrite upd_sys_mutex_id by apply L. }
  destruct (negb _); [|done]. unfold et_system_lock. apply wp_bind, wps_ld_sys.
  rewrite (lc_mutex _ _ L). by apply wps_str_sys.
Qed.

Lemma wp_locked_call {A} (err : Z -> A) (body : M A) (Q : A -> et_mem -> Prop) :
  (if negb (id_closed id =? 0) then Q (err ET_ERROR_CLOSED) m
   else wp body (fun r m' => m_rwlock m' = m_rwlock m + 1 /\ Q r (set_m_rwlock (m_rwlock m) m'))
          (fun _ => True) (set_m_rwlock (m_rwlock m + 1) m)) ->
  wp (locked_call id err body) Q (fun _ => True) m.
Proof.
  intros HQ. unfold locked_call, et_memRead_lock, et_mem_unlock. pose proof (lc_rwlock _ _ L) as R.
  apply wp_bind, wp_bind, wp_getm. destruct (Z.ltb_spec (m_rwlock m) 0); [lia|].
  apply wp_store; [done|]. destruct (negb _).
  - apply wp_bind, wp_bind, wp_getm. apply wp_store; [done|]. apply wp_ret. simpl.
    destruct (Z.ltb_spec (m_rwlock m + 1) 0); [lia|]. rewrite Z.add_simpl_r. by rewrite set_m_rwlock_back.
  - apply wp_bind. eapply wp_mono; [exact HQ| |done]. intros r m' [K H'].
    apply wp_bind, wp_bind, wp_getm. apply wp_store; [done|]. apply wp_ret. rewrite K.
    destruct (Z.ltb_spec (m_rwlock m + 1) 0); [lia|]. by rewrite Z.add_simpl_r.
Qed.
Lemma wp_alive_call {A} (err : Z -> A) (body : M A) (Q : A -> et_mem -> Prop) :
  match call_error id with
  | Some e => Q (err e) m
  | None => wp body (fun r m' => m_rwlock m' = m_rwlock m + 1 /\ Q r (set_m_rwlock (m_rwlock m) m'))
              (fun _ => True) (set_m_rwlock (m_rwlock m + 1) m)
  end -> wp (alive_call id err body) Q (fun _ => True) m.
Proof.
  intros HQ. unfold alive_call, et_alive. rewrite (lc_local _ _ L).
  change (ET_LOCAL =? ET_REMOTE) with false. change (ET_LOCAL =? ET_LOCAL_NOSHARE) with false. cbv iota.
  apply wp_bind, wp_etl_alive; [done..|]. unfold call_error in HQ.
  destruct (id_alive id =? 0); [by apply wp_ret|].
  by apply wp_locked_call; destruct (negb _).
Qed.

(** A body that does not change the memory. *)
Lemma wp_alive_call_read {A} (err : Z -> A) (body : M A) r :
  (call_error id = None ->
   wp body (fun r' m' => r' = r /\ m' = set_m_rwlock (m_rwlock m + 1) m) (fun _ => True) (set_m_rwlock (m_rwlock m + 1) m)) ->
  wp (alive_call id err body)
    (fun r' m' => r' = match call_error id with Some e => err e | None => r end /\ m' = m) (fun _ => True) m.
Proof.
  intros Hb. apply wp_alive_call. destruct (call_error id); [done|].
  eapply wp_mono; [by apply Hb| |done]. intros r' m' [-> ->]. split_and!; [done|done|].
  by rewrite set_m_rwlock_back.
Qed.
End frame.
