(* ===== verification/StationApi.v ===== *)
(** * Information about stations and their dynamic configuration

    The functions of et_station.c that read a field of a station (et_station_getblock and the like,
    et_station_exists, et_station_isattached) and those that change the configuration of a station
    while the system runs (et_station_setblock and the like). *)
From stdpp Require Import base gmap strings list.
From S2P Require Import Prelude Types Machine EvList Sample StatConfig Stats Api.
Open Scope Z_scope.

Section station_api.
Context `{R0 : Remote}.

(** ** Reading *)

Definition bad_station (y : et_system) (stat_id : Z) : bool :=
  (stat_id <? 0) || (cf_nstations (sys_config y) <=? stat_id).

(** The frame of the functions that read one value of a station: [remote] is the remote client's
    function, [refuse] the stations for which they return an error, [given] tells whether the
    pointer for the value is not NULL, [read] reads the value. *)
Definition station_read {A} (remote : et_id -> Z -> M (Z * option A)) (refuse : et_station -> bool)
    (read : Z -> M A) (id : et_id) (stat_id : Z) (given : bool) : M (Z * option A) :=
  if id_locality id =? ET_REMOTE then remote id stat_id
  else
    alive_call id (fun e => (e, None))
      (let* y := ld_sys in
       if bad_station y stat_id then ret (ET_ERROR, None)
       else
         let* ps := ld_stat stat_id in
         if refuse ps then ret (ET_ERROR, None)
         else if given then let* v := read stat_id in ret (ET_OK, Some v)
         else ret (ET_OK, None)).

Definition any_station (ps : et_station) : bool := false.
Definition unused (ps : et_station) : bool := sd_status (st_data ps) =? ET_STATION_UNUSED.
(** Neither the name of a library nor that of a function exists without a user's selection. *)
Definition no_user_select (ps : et_station) : bool :=
  unused ps || negb (sc_select_mode (st_config ps) =? ET_STATION_SELECT_USER).

Definition get_field {A} (get : et_station -> A) (stat_id : Z) : M A :=
  let* ps := ld_stat stat_id in ret (get ps).

(** *cnt = ps->list_in.cnt under the mutex of the list. *)
Definition read_locked_cnt (stat_id : Z) : M Z :=
  et_llist_lock (LIn stat_id) ;;;
  let* L := ld_list (LIn stat_id) in
  let cnt := l_cnt L in
  et_llist_unlock (LIn stat_id) ;;;
  ret cnt.

Definition et_station_getattachments :=
  station_read etr_station_getattachments unused (get_field (fun ps => sd_nattachments (st_data ps))).
Definition et_station_getstatus :=
  station_read etr_station_getstatus any_station (get_field (fun ps => sd_status (st_data ps))).
Definition et_station_getinputcount :=
  station_read etr_station_getinputcount any_station (get_field (fun ps => l_cnt (st_list_in ps))).
Definition et_station_getinputcount_rt :=
  station_read etr_station_getinputcount any_station read_locked_cnt.
Definition et_station_getoutputcount :=
  station_read etr_station_getoutputcount any_station (get_field (fun ps => l_cnt (st_list_out ps))).
Definition et_station_getblock :=
  station_read etr_station_getblock unused (get_field (fun ps => sc_block_mode (st_config ps))).
Definition et_station_getuser :=
  station_read etr_station_getuser unused (get_field (fun ps => sc_user_mode (st_config ps))).
Definition et_station_getrestore :=
  station_read etr_station_getrestore unused (get_field (fun ps => sc_restore_mode (st_config ps))).
Definition et_station_getprescale :=
  station_read etr_station_getprescale unused (get_field (fun ps => sc_prescale (st_config ps))).
Definition et_station_getcue :=
  station_read etr_station_getcue unused (get_field (fun ps => sc_cue (st_config ps))).
Definition et_station_getselectwords :=
  station_read etr_station_getselectwords unused (get_field (fun ps => sc_select (st_config ps))).
Definition et_station_getselect :=
  station_read etr_station_getselect unused (get_field (fun ps => sc_select_mode (st_config ps))).

Definition et_station_getlib (id : et_id) (stat_id : Z) (given : bool) : M (Z * option string) :=
  if id_lang id =? ET_LANG_JAVA then ret (ET_ERROR, None)
  else station_read etr_station_getlib no_user_select (get_field (fun ps => sc_lib (st_config ps))) id stat_id given.
Definition et_station_getclass (id : et_id) (stat_id : Z) (given : bool) : M (Z * option string) :=
  if negb (id_lang id =? ET_LANG_JAVA) then ret (ET_ERROR, None)
  else station_read etr_station_getclass no_user_select (get_field (fun ps => sc_classs (st_config ps))) id stat_id given.
Definition et_station_getfunction (id : et_id) (stat_id : Z) (given : bool) : M (Z * option string) :=
  if id_lang id =? ET_LANG_JAVA then ret (ET_ERROR, None)
  else station_read etr_station_getfunction no_user_select (get_field (fun ps => sc_fname (st_config ps))) id stat_id given.

(** 1 if attached, 0 if not. *)
Definition et_station_isattached (id : et_id) (stat_id att : Z) : M Z :=
  if id_locality id =? ET_REMOTE then etr_station_isattached id stat_id att
  else
    alive_call id (fun e => e)
      (let* y := ld_sys in
       if bad_station y stat_id then ret ET_ERROR
       else if (att <? 0) || (cf_nattachments (sys_config y) <=? att) then ret ET_ERROR
       else
         let* ps := ld_stat stat_id in
         ret (if default (-1) (sd_att (st_data ps) !! att) =? att then 1 else 0)).

(** for (num=0; num < nstations; num++): the first station in use with this name. *)
Fixpoint exists_loop (n : nat) (num : Z) (stat_name : string) : M (option Z) :=
  match n with
  | O => ret None
  | S n' =>
      let* ps := ld_stat num in
      if negb (sd_status (st_data ps) =? ET_STATION_UNUSED) && String.eqb (st_name ps) stat_name
      then ret (Some num)
      else exists_loop n' (num + 1) stat_name
  end.

(** 1 and the station's id if it exists, or 0; a name that is NULL is [None]. *)
Definition et_station_exists (id : et_id) (given : bool) (stat_name : option string) : M (Z * option Z) :=
  match stat_name with
  | None => ret (ET_ERROR_BADARG, None)
  | Some name =>
      if id_locality id =? ET_REMOTE then etr_station_exists id name
      else
        alive_call id (fun e => (e, None))
          (let* y := ld_sys in
           let* r := exists_loop (Z.to_nat (cf_nstations (sys_config y))) 0 name in
           match r with
           | Some num => ret (1, if given then Some num else None)
           | None => ret (0, None)
           end)
  end.

Definition et_station_name_to_id (id : et_id) (given : bool) (stat_name : option string) : M (Z * option Z) :=
  let* (status, num) := et_station_exists id given stat_name in
  if status <? 0 then ret (status, num)
  else if status =? 1 then ret (ET_OK, num)
  else ret (ET_ERROR, num).

(** ** Changing the configuration *)

(** ps->config.f = val. *)
Definition str_config (stat_id : Z) (f : et_stat_config -> et_stat_config) : M unit :=
  str_stat stat_id (fun S => set_st_config (f (st_config S)) S).

(** The frame of the setters: [valid] is the test of the value before everything else, [refuse] the
    test inside, with the system and the station's configuration; [change] makes the assignment. *)
Definition station_change {V} (remote : et_id -> Z -> V -> M Z) (valid : V -> bool)
    (refuse : et_system -> et_stat_config -> V -> bool) (change : Z -> V -> M unit)
    (id : et_id) (stat_id : Z) (val : V) : M Z :=
  if stat_id =? ET_GRANDCENTRAL then ret ET_ERROR
  else if negb (valid val) then ret ET_ERROR
  else if negb (id_locality id =? ET_LOCAL) then remote id stat_id val
  else
    alive_call id (fun e => e)
      (let* y := ld_sys in
       if bad_station y stat_id then ret ET_ERROR
       else
         let* ps := ld_stat stat_id in
         if refuse y (st_config ps) val then ret ET_ERROR
         else
           et_station_lock ;;;
           change stat_id val ;;;
           et_station_unlock ;;;
           ret ET_OK).

(** The events of the station's group are shared among its stations. *)
Definition shared_group (sc : et_stat_config) : bool :=
  (sc_select_mode sc =? ET_STATION_SELECT_RROBIN) || (sc_select_mode sc =? ET_STATION_SELECT_EQUALCUE).

(** An assignment under the mutex of the input list. *)
Definition with_list_in (change : Z -> M unit) (stat_id : Z) : M unit :=
  et_llist_lock (LIn stat_id) ;;;
  change stat_id ;;;
  et_llist_unlock (LIn stat_id).

Definition et_station_setblock :=
  station_change etr_station_setblock valid_block
    (fun _ sc block => shared_group sc && (block =? ET_STATION_NONBLOCKING))
    (fun stat_id block => str_config stat_id (set_sc_block_mode block)).
Definition et_station_setuser :=
  station_change etr_station_setuser (fun user => negb (user <? 0)) (fun _ _ _ => false)
    (fun stat_id user => str_config stat_id (set_sc_user_mode user)).
Definition et_station_setrestore :=
  station_change etr_station_setrestore
    (fun restore => negb (negb (restore =? ET_STATION_RESTORE_OUT) && negb (restore =? ET_STATION_RESTORE_IN) &&
                          negb (restore =? ET_STATION_RESTORE_GC)))
    (fun _ sc restore => shared_group sc && (restore =? ET_STATION_RESTORE_IN))
    (fun stat_id restore => str_config stat_id (set_sc_restore_mode restore)).
Definition et_station_setprescale :=
  station_change etr_station_setprescale (fun prescale => negb (prescale <? 1))
    (fun _ sc prescale => shared_group sc && negb (prescale =? 1))
    (fun stat_id prescale => with_list_in (fun s => str_config s (set_sc_prescale prescale)) stat_id).
Definition et_station_setcue :=
  station_change etr_station_setcue (fun _ => true)
    (fun y _ cue => (cue <? 1) || (cf_nevents (sys_config y) <? cue))
    (fun stat_id cue => with_list_in (fun s => str_config s (set_sc_cue cue)) stat_id).

(** for (i=0; i < ET_STATION_SELECT_INTS; i++) ps->config.select[i] = select[i]; [n] iterations
    from [i] on. *)
Fixpoint select_loop (n : nat) (stat_id : Z) (i : nat) (select : list Z) : M unit :=
  match n with
  | O => ret tt
  | S n' =>
      let* v := of_option (select !! i) in
      str_config stat_id (fun sc => set_sc_select (<[i := v]> (sc_select sc)) sc) ;;;
      select_loop n' stat_id (S i) select
  end.

Definition et_station_setselectwords :=
  station_change etr_station_setselectwords (fun _ => true) (fun _ _ _ => false)
    (fun stat_id select =>
       with_list_in (fun s => select_loop (Z.to_nat ET_STATION_SELECT_INTS) s 0 select) stat_id).

(** ** Correctness *)

(** Every station id of the system has a station. *)
Definition stations_exist (m : et_mem) : Prop :=
  forall s, 0 <= s < cf_nstations (sys_config (m_sys m)) -> is_Some (m_stats m !! s).

Lemma not_bad_station y s : bad_station y s = false <-> 0 <= s < cf_nstations (sys_config y).
Proof. unfold bad_station. rewrite orb_false_iff, Z.ltb_ge, Z.leb_gt. lia. Qed.

(** The result of reading a value. *)
Definition read_result {A} (refuse : et_station -> bool) (get : et_station -> A) (id : et_id)
    (m : et_mem) (stat_id : Z) (given : bool) : Z * option A :=
  match call_error id with
  | Some e => (e, None)
  | None =>
      if bad_station (m_sys m) stat_id then (ET_ERROR, None)
      else match m_stats m !! stat_id with
           | None => (ET_ERROR, None)
           | Some ps => if refuse ps then (ET_ERROR, None) else (ET_OK, if given then Some (get ps) else None)
           end
  end.

(** [read] gives the value of [get] and leaves the memory as it is. *)
Definition reads {A} (read : Z -> M A) (get : et_station -> A) (s : Z) (ps : et_station) : Prop :=
  forall m, m_stats m !! s = Some ps -> wp (read s) (fun v m' => v = get ps /\ m' = m) (fun _ => True) m.

Lemma get_field_reads {A} (get : et_station -> A) s ps : reads (get_field get) get s ps.
Proof. intros m E. unfold get_field. apply wp_bind. eapply wps_ld_stat; [done|]. by apply wp_ret. Qed.

Lemma wp_station_read {A} remote refuse read (get : et_station -> A) id m stat_id given :
  local_call id m -> stations_exist m ->
  (forall ps, m_stats m !! stat_id = Some ps -> reads read get stat_id ps) ->
  wp (station_read remote refuse read id stat_id given)
    (fun r m' => r = read_result refuse get id m stat_id given /\ m' = m) (fun _ => True) m.
Proof.
  intros L S Hr. unfold station_read. rewrite (lc_local _ _ L). change (ET_LOCAL =? ET_REMOTE) with false.
  cbv iota. unfold read_result. eapply wp_mono.
  - apply (wp_alive_call_read id m L _ _ (if bad_station (m_sys m) stat_id then (ET_ERROR, None)
      else match m_stats m !! stat_id with
           | None => (ET_ERROR, None)
           | Some ps => if refuse ps then (ET_ERROR, None) else (ET_OK, if given then Some (get ps) else None)
           end)).
    intros _. apply wp_bind, wps_ld_sys. cbn [m_sys set_m_rwlock].
    destruct (bad_station (m_sys m) stat_id) eqn:B; [by apply wp_ret|].
    apply not_bad_station, S in B as [ps E]. rewrite E.
    apply wp_bind. eapply wps_ld_stat; [done|]. destruct (refuse ps); [by apply wp_ret|].
    destruct given; [|by apply wp_ret]. apply wp_bind.
    eapply wp_mono; [by apply (Hr ps)| |done]. intros v m' [-> ->]. by apply wp_ret.
  - intros r m' [-> ->]. by destruct (call_error id).
  - done.
Qed.

(** What et_station_config_check demands of a configuration, but for the number of users. *)
Record config_consistent (sc : et_stat_config) : Prop := mkConfigConsistent {
  cc_flow : valid_flow (sc_flow_mode sc) = true;
  cc_restore : valid_restore (sc_restore_mode sc) = true;
  cc_block : valid_block (sc_block_mode sc) = true;
  cc_select : valid_select (sc_select_mode sc) = true;
  cc_user : 0 <= sc_user_mode sc;
  cc_prescale : 1 <= sc_prescale sc;
  cc_cue : 1 <= sc_cue sc;
  cc_words : length (sc_select sc) = Z.to_nat ET_STATION_SELECT_INTS;
  cc_group : shared_group sc = true ->
    sc_flow_mode sc = ET_STATION_PARALLEL /\ sc_block_mode sc = ET_STATION_BLOCKING /\
    sc_restore_mode sc <> ET_STATION_RESTORE_IN /\ sc_prescale sc = 1;
  cc_redist : sc_restore_mode sc = ET_STATION_RESTORE_REDIST -> sc_flow_mode sc = ET_STATION_PARALLEL
}.

(** The calls that change the configuration of a station. *)
Inductive setting :=
| StBlock (block : Z) | StUser (user : Z) | StRestore (restore : Z) | StPrescale (prescale : Z)
| StCue (cue : Z) | StSelectwords (select : list Z).

Definition set_call (op : setting) (id : et_id) (s : Z) : M Z :=
  match op with
  | StBlock v => et_station_setblock id s v
  | StUser v => et_station_setuser id s v
  | StRestore v => et_station_setrestore id s v
  | StPrescale v => et_station_setprescale id s v
  | StCue v => et_station_setcue id s v
  | StSelectwords v => et_station_setselectwords id s v
  end.

(** The new configuration, if the call accepts its value for a station with the old one. *)
Definition setting_update (op : setting) (y : et_system) (sc : et_stat_config) : option et_stat_config :=
  match op with
  | StBlock v =>
      if valid_block v && negb (shared_group sc && (v =? ET_STATION_NONBLOCKING))
      then Some (set_sc_block_mode v sc) else None
  | StUser v => if 0 <=? v then Some (set_sc_user_mode v sc) else None
  | StRestore v =>
      if valid_restore v && negb (v =? ET_STATION_RESTORE_REDIST) && negb (shared_group sc && (v =? ET_STATION_RESTORE_IN))
      then Some (set_sc_restore_mode v sc) else None
  | StPrescale v =>
      if (1 <=? v) && negb (shared_group sc && negb (v =? 1)) then Some (set_sc_prescale v sc) else None
  | StCue v => if (1 <=? v) && (v <=? cf_nevents (sys_config y)) then Some (set_sc_cue v sc) else None
  | StSelectwords v =>
      Some (set_sc_select (list_inserts 0 (take (Z.to_nat ET_STATION_SELECT_INTS) v) (sc_select sc)) sc)
  end.

(** The result of a setter: an error without any change, or the new configuration. *)
Definition set_result (op : setting) (id : et_id) (s : Z) (m : et_mem) (st : Z) (m' : et_mem) : Prop :=
  match call_error id, m_stats m !! s with
  | None, Some ps =>
      match setting_update op (m_sys m) (st_config ps) with
      | Some sc =>
          if (s =? ET_GRANDCENTRAL) || bad_station (m_sys m) s then st <> ET_OK /\ m' = m
          else st = ET_OK /\ m' = upd_stat s (set_st_config sc) m
      | None => st <> ET_OK /\ m' = m
      end
  | _, _ => st <> ET_OK /\ m' = m
  end.

Lemma setting_consistent op y sc sc' :
  config_consistent sc -> setting_update op y sc = Some sc' -> config_consistent sc'.
Proof.
  intros [H1 H2 H3 H4 H5 H6 H7 H8 H9 H10] E.
  assert (Hs : forall sc1, sc_select_mode sc1 = sc_select_mode sc -> shared_group sc1 = shared_group sc).
  { intros sc1 X. unfold shared_group. by rewrite X. }
  destruct op as [v|v|v|v|v|v]; simpl in E;
    try (destruct (_ && _) eqn:B; [|done]); try (destruct (0 <=? v) eqn:B; [|done]); injection E as <-;
    bprop; (split; cbn; try done; try (intros G; rewrite Hs in G by done; pose proof (H9 G) as (X1 & X2 & X3 & X4);
      rewrite G in *; bprop; split_and!; try done)).
  - apply valid_block_iff in H. destruct H as [->| ->]; [|done]. by destruct H0.
  - intros ->. by destruct H0.
  - destruct H0 as [?|X]; [done|]. by bprop.
  - by rewrite length_inserts.
Qed.

(** The locks that the setters take are free. *)
Record station_unlocked (s : Z) (m : et_mem) : Prop := mkStationUnlocked {
  su_mutex : sys_stat_mutex (m_sys m) = false;
  su_list : forall ps, m_stats m !! s = Some ps -> l_mutex (st_list_in ps) = false
}.

(** [change] assigns to the configuration of the station and leaves everything else. *)
Definition changes (change : Z -> M unit) (f : et_stat_config -> et_stat_config) : Prop :=
  forall s m ps, m_stats m !! s = Some ps -> l_mutex (st_list_in ps) = false ->
    wp (change s) (fun _ m' => m' = upd_stat s (set_st_config (f (st_config ps))) m) (fun _ => True) m.

Lemma str_config_changes f : changes (fun s => str_config s f) f.
Proof.
  intros s m ps E _. unfold str_config. eapply wps_str_stat; [done..|]. by eapply upd_stat_ext.
Qed.

Lemma with_list_in_changes change f : 
  (forall s m ps, m_stats m !! s = Some ps ->
    wp (change s) (fun _ m' => m' = upd_stat s (set_st_config (f (st_config ps))) m) (fun _ => True) m) ->
  changes (with_list_in change) f.
Proof.
  intros H s m ps E F. unfold with_list_in, et_llist_lock. do 2 apply wp_bind.
  eapply (wps_ld_list _ (LIn s)); [done|]. cbn [st_list]. rewrite F. eapply (wps_str_list _ (LIn s)); [done..|].
  apply wp_bind. eapply wp_mono; [apply H; exact (upd_stat_eq s _ _ ps E)| |done].
  intros [] m' ->. unfold et_llist_unlock, upd_list. cbn [lstat st_list set_st_list].
  eapply (wps_str_list _ (LIn s)); [by do 2 (eapply upd_stat_eq)|done|].
  unfold upd_list. cbn [lstat st_list set_st_list]. rewrite !upd_stat_compose. eapply upd_stat_ext; [done|].
  destruct ps as [? ? ? ? ? ? ? ? ? ? ? ? [] ?]. cbn in *. by rewrite F.
Qed.

Lemma wp_select_loop n select s i m ps :
  m_stats m !! s = Some ps -> (i + n <= length select)%nat ->
  wp (select_loop n s i select) (fun _ m' => m' = upd_stat s (set_st_config
      (set_sc_select (list_inserts i (take n (drop i select)) (sc_select (st_config ps))) (st_config ps))) m)
    (fun _ => True) m.
Proof.
  revert i m ps. induction n as [|n IH]; intros i m ps E Hl; simpl.
  - apply wp_ret. symmetry. eapply upd_stat_id; [done|]. by destruct ps as [? ? ? ? ? ? ? ? ? ? ? [] ? ?].
  - destruct (lookup_lt_is_Some_2 select i) as [v Ev]; [lia|].
    apply wp_bind. eapply wp_of_option; [done|].
    apply wp_bind. unfold str_config. eapply wps_str_stat; [done..|].
    eapply wp_mono; [eapply IH; [eapply upd_stat_eq, E|lia]| |done]. intros [] m' ->. cbn.
    rewrite upd_stat_compose. eapply upd_stat_ext; [done|]. cbn.
    rewrite (drop_S select v i Ev). cbn. by rewrite list_insert_inserts_lt by lia.
Qed.

Lemma wp_station_change {V} remote valid refuse (change : Z -> V -> M unit) upd id m s (v : V) :
  local_call id m -> stations_exist m -> station_unlocked s m -> changes (fun s => change s v) (upd v) ->
  wp (station_change remote valid refuse change id s v)
    (fun st m' => match call_error id, m_stats m !! s with
       | None, Some ps =>
           if (s =? ET_GRANDCENTRAL) || bad_station (m_sys m) s || negb (valid v) || refuse (m_sys m) (st_config ps) v
           then st <> ET_OK /\ m' = m
           else st = ET_OK /\ m' = upd_stat s (set_st_config (upd v (st_config ps))) m
       | _, _ => st <> ET_OK /\ m' = m
       end) (fun _ => True) m.
Proof.
  intros L S [U1 U2] Hc. unfold station_change.
  assert (Bad : forall st, st <> ET_OK -> (s =? ET_GRANDCENTRAL) || negb (valid v) = true ->
    match call_error id, m_stats m !! s with
    | None, Some ps =>
       if (s =? ET_GRANDCENTRAL) || bad_station (m_sys m) s || negb (valid v) || refuse (m_sys m) (st_config ps) v
       then st <> ET_OK /\ m = m
       else st = ET_OK /\ m = upd_stat s (set_st_config (upd v (st_config ps))) m
    | _, _ => st <> ET_OK /\ m = m
    end).
  { intros st N H. destruct (call_error id), (m_stats m !! s) as [ps|]; try done.
    destruct (s =? ET_GRANDCENTRAL), (valid v); try done; simpl; by rewrite ?orb_true_r. }
  destruct (s =? ET_GRANDCENTRAL) eqn:EG; [by apply wp_ret, Bad|].
  destruct (valid v) eqn:Ev; simpl; [|by apply wp_ret, Bad].
  rewrite (lc_local _ _ L). simpl. apply (wp_alive_call id m L). 
  destruct (call_error id) as [e|] eqn:Ee. 
  { split; [|done]. unfold call_error in Ee. repeat case_match; try done; by injection Ee as <-. }
  apply wp_bind, wps_ld_sys. cbn [m_sys set_m_rwlock].
  destruct (bad_station (m_sys m) s) eqn:B.
  { apply wp_ret. split_and!; [done|]. rewrite set_m_rwlock_back. by destruct (m_stats m !! s). }
  apply not_bad_station, S in B as [ps E]. rewrite E. simpl.
  apply wp_bind. eapply wps_ld_stat; [exact E|].
  destruct (refuse _ _ _); simpl.
  { apply wp_ret. split_and!; [done|done|]. by rewrite set_m_rwlock_back. }
  unfold et_station_lock. do 2 apply wp_bind. apply wps_ld_sys. cbn. rewrite U1.
  apply wps_str_sys; [done|]. apply wp_bind.
  eapply wp_mono; [eapply Hc; [exact E|by apply U2]| |done]. intros [] m' ->.
  unfold et_station_unlock. apply wp_bind, wps_str_sys; [done|]. apply wp_ret. split_and!; [done|done|].
  destruct m as [[]]. cbn in *. by subst.
Qed.

Lemma read_locked_cnt_reads s ps :
  l_mutex (st_list_in ps) = false -> reads read_locked_cnt (fun ps => l_cnt (st_list_in ps)) s ps.
Proof.
  intros F m E. unfold read_locked_cnt, et_llist_lock. do 2 apply wp_bind.
  eapply (wps_ld_list _ (LIn s)); [done|]. cbn [st_list]. rewrite F. eapply (wps_str_list _ (LIn s)); [done..|].
  apply wp_bind. eapply (wps_ld_list _ (LIn s)); [eapply upd_stat_eq, E|].
  apply wp_bind. unfold et_llist_unlock. eapply (wps_str_list _ (LIn s)); [eapply upd_stat_eq, E|done|].
  apply wp_ret. split; [done|]. unfold upd_list. cbn [lstat st_list set_st_list].
  rewrite upd_stat_compose. eapply upd_stat_id; [done|]. destruct ps as [? ? ? ? ? ? ? ? ? ? ? ? [] ?].
  cbn in *. by rewrite F.
Qed.

(** The calls that give the value of a field. *)
Inductive getting : Type -> Type :=
| GtAttachments : getting Z | GtStatus : getting Z | GtInputcount : getting Z | GtInputcountRt : getting Z
| GtOutputcount : getting Z | GtBlock : getting Z | GtUser : getting Z | GtRestore : getting Z
| GtPrescale : getting Z | GtCue : getting Z | GtSelectwords : getting (list Z) | GtSelect : getting Z.

Definition get_call {A} (q : getting A) : et_id -> Z -> bool -> M (Z * option A) :=
  match q with
  | GtAttachments => et_station_getattachments
  | GtStatus => et_station_getstatus
  | GtInputcount => et_station_getinputcount
  | GtInputcountRt => et_station_getinputcount_rt
  | GtOutputcount => et_station_getoutputcount
  | GtBlock => et_station_getblock
  | GtUser => et_station_getuser
  | GtRestore => et_station_getrestore
  | GtPrescale => et_station_getprescale
  | GtCue => et_station_getcue
  | GtSelectwords => et_station_getselectwords
  | GtSelect => et_station_getselect
  end.

(** The stations that have no such value, and the value. *)
Definition get_refuse {A} (q : getting A) : et_station -> bool :=
  match q with
  | GtStatus | GtInputcount | GtInputcountRt | GtOutputcount => any_station
  | _ => unused
  end.
Definition get_value {A} (q : getting A) (ps : et_station) : A :=
  match q with
  | GtAttachments => sd_nattachments (st_data ps)
  | GtStatus => sd_status (st_data ps)
  | GtInputcount | GtInputcountRt => l_cnt (st_list_in ps)
  | GtOutputcount => l_cnt (st_list_out ps)
  | GtBlock => sc_block_mode (st_config ps)
  | GtUser => sc_user_mode (st_config ps)
  | GtRestore => sc_restore_mode (st_config ps)
  | GtPrescale => sc_prescale (st_config ps)
  | GtCue => sc_cue (st_config ps)
  | GtSelectwords => sc_select (st_config ps)
  | GtSelect => sc_select_mode (st_config ps)
  end.

Lemma wp_get_call {A} (q : getting A) id m s given :
  local_call id m -> stations_exist m -> station_unlocked s m ->
  wp (get_call q id s given)
    (fun r m' => r = read_result (get_refuse q) (get_value q) id m s given /\ m' = m) (fun _ => True) m.
Proof.
  intros L S [_ U]. destruct q; apply wp_station_read; try done; intros ps E;
    (apply get_field_reads || by apply read_locked_cnt_reads, U).
Qed.

Definition words_given (op : setting) : Prop :=
  match op with StSelectwords v => (Z.to_nat ET_STATION_SELECT_INTS <= length v)%nat | _ => True end.

(** A setter that accepts what [setting_update] accepts. *)
Lemma wp_setter {V} remote valid refuse (change : Z -> V -> M unit) upd op id m s (v : V) :
  local_call id m -> stations_exist m -> station_unlocked s m -> changes (fun s => change s v) (upd v) ->
  (forall y sc, setting_update op y sc = if valid v && negb (refuse y sc v) then Some (upd v sc) else None) ->
  wp (station_change remote valid refuse change id s v) (set_result op id s m) (fun _ => True) m.
Proof.
  intros L S U Hc Hu. eapply wp_mono; [by eapply wp_station_change| |done].
  intros st m' H. unfold set_result. destruct (call_error id), (m_stats m !! s) as [ps|]; try done.
  rewrite Hu. destruct (valid v), (refuse _ _ _); simpl in *; rewrite ?orb_true_r, ?orb_false_r in H; done.
Qed.

Lemma select_words_changes v :
  (Z.to_nat ET_STATION_SELECT_INTS <= length v)%nat ->
  changes (with_list_in (fun s => select_loop (Z.to_nat ET_STATION_SELECT_INTS) s 0 v))
    (fun sc => set_sc_select (list_inserts 0 (take (Z.to_nat ET_STATION_SELECT_INTS) v) (sc_select sc)) sc).
Proof. intros W. apply with_list_in_changes. intros s m ps E. by apply wp_select_loop. Qed.

Lemma locked_config_changes f : changes (with_list_in (fun s => str_config s f)) f.
Proof.
  apply with_list_in_changes. intros s m ps E. unfold str_config.
  eapply wps_str_stat; [done..|]. by eapply upd_stat_ext.
Qed.

Lemma wp_set_call op id m s :
  local_call id m -> stations_exist m -> station_unlocked s m -> words_given op ->
  wp (set_call op id s) (set_result op id s m) (fun _ => True) m.
Proof.
  intros L S U W. destruct op as [v|v|v|v|v|v]; cbn [set_call words_given] in *.
  - apply (wp_setter _ _ _ _ (fun v => set_sc_block_mode v)); try done. apply str_config_changes.
  - apply (wp_setter _ _ _ _ (fun v => set_sc_user_mode v)); try done; [apply str_config_changes|].
    intros y sc. cbn. by rewrite Z.leb_antisym, andb_true_r.
  - apply (wp_setter _ _ _ _ (fun v => set_sc_restore_mode v)); try done; [apply str_config_changes|].
    intros y sc. cbn. unfold valid_restore.
    destruct (v =? ET_STATION_RESTORE_OUT) eqn:E1, (v =? ET_STATION_RESTORE_IN) eqn:E2,
      (v =? ET_STATION_RESTORE_GC) eqn:E3, (v =? ET_STATION_RESTORE_REDIST) eqn:E4; bprop; subst; done.
  - apply (wp_setter _ _ _ _ (fun v => set_sc_prescale v)); try done; [apply locked_config_changes|].
    intros y sc. cbn. by rewrite Z.leb_antisym.
  - apply (wp_setter _ _ _ _ (fun v => set_sc_cue v)); try done; [apply locked_config_changes|].
    intros y sc. cbn. rewrite negb_orb. by rewrite <- !Z.leb_antisym.
  - apply (wp_setter _ _ _ _ (fun v sc => set_sc_select (list_inserts 0
      (take (Z.to_nat ET_STATION_SELECT_INTS) v) (sc_select sc)) sc)); try done. by apply select_words_changes.
Qed.

Definition configs_consistent (m : et_mem) : Prop :=
  forall s ps, m_stats m !! s = Some ps -> config_consistent (st_config ps).

Lemma set_result_consistent op id s m st m' :
  configs_consistent m -> set_result op id s m st m' -> configs_consistent m'.
Proof.
  intros H. unfold set_result. destruct (call_error id); [by intros [_ ->]|].
  destruct (m_stats m !! s) as [ps|] eqn:E; [|by intros [_ ->]].
  destruct (setting_update op (m_sys m) (st_config ps)) as [sc|] eqn:Eu; [|by intros [_ ->]].
  destruct (_ || _); [by intros [_ ->]|]. intros [_ ->] s' ps'.
  destruct (decide (s = s')) as [<-|N].
  - rewrite (upd_stat_eq s _ m ps E). intros [= <-]. cbn. eapply setting_consistent; [|done]. by eapply H.
  - rewrite upd_stat_ne by done. apply H.
Qed.

Lemma set_result_memory op id s m st m' :
  set_result op id s m st m' -> m' = m \/ exists sc, m' = upd_stat s (set_st_config sc) m.
Proof. unfold set_result. repeat case_match; intros [_ ->]; eauto. Qed.

(** The value that a setter set, read with the corresponding getter. *)
Definition read_back (op : setting) (id : et_id) (s : Z) : M (Z * option setting) :=
  match op with
  | StBlock _ => let* (st, v) := et_station_getblock id s true in ret (st, StBlock <$> v)
  | StUser _ => let* (st, v) := et_station_getuser id s true in ret (st, StUser <$> v)
  | StRestore _ => let* (st, v) := et_station_getrestore id s true in ret (st, StRestore <$> v)
  | StPrescale _ => let* (st, v) := et_station_getprescale id s true in ret (st, StPrescale <$> v)
  | StCue _ => let* (st, v) := et_station_getcue id s true in ret (st, StCue <$> v)
  | StSelectwords _ => let* (st, v) := et_station_getselectwords id s true in ret (st, StSelectwords <$> v)
  end.

Definition setting_of (op : setting) (sc : et_stat_config) : setting :=
  match op with
  | StBlock _ => StBlock (sc_block_mode sc)
  | StUser _ => StUser (sc_user_mode sc)
  | StRestore _ => StRestore (sc_restore_mode sc)
  | StPrescale _ => StPrescale (sc_prescale sc)
  | StCue _ => StCue (sc_cue sc)
  | StSelectwords _ => StSelectwords (sc_select sc)
  end.

Lemma read_result_map {A B} refuse (get : et_station -> A) (f : A -> B) id m s given :
  (let (st, v) := read_result refuse get id m s given in (st, f <$> v)) =
  read_result refuse (fun ps => f (get ps)) id m s given.
Proof. unfold read_result. by repeat case_match; simplify_eq/=. Qed.

Lemma wp_read_back op id m s :
  local_call id m -> stations_exist m -> station_unlocked s m ->
  wp (read_back op id s)
    (fun r m' => r = read_result unused (fun ps => setting_of op (st_config ps)) id m s true /\ m' = m)
    (fun _ => True) m.
Proof.
  intros L S U.
  assert (Hg : forall A (q : getting A) (f : A -> setting),
    wp (let* (st, v) := get_call q id s true in ret (st, f <$> v)) (fun r m' =>
      r = read_result (get_refuse q) (fun ps => f (get_value q ps)) id m s true /\ m' = m) (fun _ => True) m).
  { intros A q f. apply wp_bind. eapply wp_mono; [by apply wp_get_call| |done]. intros r m' [-> ->].
    rewrite <- (read_result_map _ (get_value q) f). destruct (read_result _ (get_value q) _ _ _ _). by apply wp_ret. }
  destruct op; [apply (Hg _ GtBlock)|apply (Hg _ GtUser)|apply (Hg _ GtRestore)|apply (Hg _ GtPrescale)
    |apply (Hg _ GtCue)|apply (Hg _ GtSelectwords)].
Qed.

Lemma setting_update_of op y sc sc' :
  match op with StSelectwords v => length v = Z.to_nat ET_STATION_SELECT_INTS | _ => True end ->
  config_consistent sc -> setting_update op y sc = Some sc' -> setting_of op sc' = op.
Proof.
  intros W H. destruct op as [v|v|v|v|v|v]; simpl;
    try (destruct (_ && _); [|done]); try (destruct (0 <=? v); [|done]); intros [= <-]; try done.
  cbn. rewrite take_ge by (by rewrite W). rewrite <- (app_nil_r v) at 1. rewrite list_inserts_0_l; [done|].
  by rewrite W, (cc_words _ H).
Qed.

Lemma upd_stat_local id s f m : local_call id m -> local_call id (upd_stat s f m).
Proof. intros [? ? ?]. by split. Qed.

Lemma upd_stat_exist s f m : stations_exist m -> stations_exist (upd_stat s f m).
Proof. intros H s' B. apply is_Some_upd_stat, H, B. Qed.

(** What the processes that use the system may do to a station's configuration keeps its locks. *)
Lemma upd_config_unlocked s sc m : station_unlocked s m -> station_unlocked s (upd_stat s (set_st_config sc) m).
Proof.
  intros [U1 U2]. split; [done|]. intros ps'. destruct (m_stats m !! s) as [ps|] eqn:E.
  - rewrite (upd_stat_eq s _ m ps E). intros [= <-]. exact (U2 ps eq_refl).
  - simpl. by rewrite lookup_alter_eq, E.
Qed.
End station_api.

(** ** The properties *)

(** Each function that gives a value of a station returns the value of the station's field, or
    ET_ERROR when there is no such station, or the error for a dead system or one that the process
    closed; it leaves the memory as it is, and it returns. *)
Theorem et_station_get_spec `{R0 : Remote} {A} (q : getting A) id m s given :
  local_call id m -> stations_exist m -> station_unlocked s m ->
  wp (get_call q id s given)
    (fun r m' => r = read_result (get_refuse q) (get_value q) id m s given /\ m' = m) (fun _ => True) m.
Proof. apply wp_get_call. Qed.

(** C37: each function that changes the configuration of a station changes only the field it is for,
    to a value that the configuration check accepts, or returns an error and changes nothing.  When all
    configurations are consistent before, they are consistent afterwards.  The values are those of the code:
    et_station_setrestore refuses ET_STATION_RESTORE_REDIST for every station, which its documentation
    lists among the values. *)
Theorem et_station_set_spec `{R0 : Remote} op id m s :
  local_call id m -> stations_exist m -> station_unlocked s m -> words_given op -> configs_consistent m ->
  wp (set_call op id s) (fun st m' => set_result op id s m st m' /\ configs_consistent m') (fun _ => True) m.
Proof.
  intros L S U W H. eapply wp_mono; [by apply wp_set_call| |done].
  intros st m' Hr. split; [done|]. by eapply set_result_consistent.
Qed.

(** A value that a setter accepts is the value that the getter returns afterwards. *)
Theorem et_station_set_get `{R0 : Remote} op id m s ps :
  local_call id m -> stations_exist m -> station_unlocked s m ->
  match op with StSelectwords v => length v = Z.to_nat ET_STATION_SELECT_INTS | _ => True end ->
  configs_consistent m -> m_stats m !! s = Some ps -> unused ps = false ->
  wp (let* st := set_call op id s in let* r := read_back op id s in ret (st, r))
    (fun r _ => fst r = ET_OK -> snd r = (ET_OK, Some op)) (fun _ => True) m.
Proof.
  intros L S U W H E Hu. apply wp_bind. eapply wp_mono; [apply wp_set_call; try done| |done].
  { destruct op; try done. simpl. by rewrite W. }
  intros st m' Hr. apply wp_bind. eapply wp_mono; [apply wp_read_back| |done].
  1-3: apply set_result_memory in Hr as [->|[sc ->]]; eauto using upd_stat_local, upd_stat_exist, upd_config_unlocked.
  intros r m'' [-> ->]. apply wp_ret. cbn [fst snd]. intros ->. unfold set_result in Hr. rewrite E in Hr.
  destruct (call_error id) eqn:Ee; [by destruct Hr|].
  destruct (setting_update op (m_sys m) (st_config ps)) as [sc|] eqn:Eu; [|by destruct Hr].
  destruct (s =? ET_GRANDCENTRAL); [by destruct Hr|].
  destruct (bad_station (m_sys m) s) eqn:B; [by destruct Hr|]. destruct Hr as [_ ->].
  unfold read_result. rewrite Ee. cbn [m_sys upd_stat set_m_stats]. rewrite B, (upd_stat_eq s _ m ps E).
  change (unused _) with (unused ps). rewrite Hu. cbn.
  erewrite setting_update_of; [done|done|by eapply H|done].
Qed.

Lemma mem0_local : local_call id0 mem0.
Proof. by split. Qed.
Lemma mem0_exist : stations_exist mem0.
Proof.
  intros s B. assert (s = 0 \/ s = 1 \/ s = 2 \/ s = 3) as H by (cbn in B; lia).
  rewrite (mem0_stat s H). eauto.
Qed.
Lemma mem0_unlocked s : s = 0 \/ s = 1 \/ s = 2 \/ s = 3 -> station_unlocked s mem0.
Proof.
  intros H. split; [done|]. intros ps. rewrite (mem0_stat s H). intros [= <-].
  by destruct H as [->|[->|[->| ->]]].
Qed.
Lemma mem0_consistent : configs_consistent mem0.
Proof.
  assert (H : map_Forall (fun _ ps => st_config ps = config0) (m_stats mem0)).
  { repeat (apply map_Forall_insert_2; [done|]). apply map_Forall_empty. }
  intros s ps E. rewrite (H s ps E). split; by_eval || (intros X; vm_compute in X; congruence).
Qed.

Lemma et_station_get_spec_witness :
  exists x, run (et_station_getinputcount_rt id0 1 true) mem0 = Ok (ET_OK, Some 2) x mem0.
Proof.
  destruct (wp_run _ _ _ _ (et_station_get_spec GtInputcountRt id0 mem0 1 true mem0_local mem0_exist
    (mem0_unlocked 1 (or_intror (or_introl eq_refl))))) as (r & x & m' & E & -> & ->).
  exists x. exact E.
Defined.

Lemma et_station_set_spec_witness :
  exists x m', run (et_station_setcue id0 1 7) mem0 = Ok ET_OK x m' /\
    m' = upd_stat 1 (set_st_config (set_sc_cue 7 config0)) mem0 /\ configs_consistent m'.
Proof.
  destruct (wp_run _ _ _ _ (et_station_set_spec (StCue 7) id0 mem0 1 mem0_local mem0_exist
    (mem0_unlocked 1 (or_intror (or_introl eq_refl))) I mem0_consistent)) as (st & x & m' & E & [-> ->] & H).
  eauto.
Defined.

Lemma et_station_set_get_witness :
  exists x m', run (let* st := et_station_setprescale id0 1 5 in
                    let* r := read_back (StPrescale 5) id0 1 in ret (st, r)) mem0 =
    Ok (ET_OK, (ET_OK, Some (StPrescale 5))) x m'.
Proof.
  destruct (wp_run _ _ _ _ (et_station_set_get (StPrescale 5) id0 mem0 1 (stat0 1) mem0_local mem0_exist
    (mem0_unlocked 1 (or_intror (or_introl eq_refl))) I mem0_consistent eq_refl eq_refl))
    as ([st r] & x & m' & E & H).
  assert (st = ET_OK) as ->.
  { pose proof (f_equal (fun o => match o with Ok r _ _ => fst r | _ => 1 end) E) as X.
    vm_compute in X. exact (eq_sym X). }
  specialize (H eq_refl). cbn in H. subst r. eauto.
Defined.
