(* ===== verification/Init.v ===== *)
(** * Initialisation of the shared structures

    et_init.c: the functions that set a structure of the shared memory to its initial state, used
    when the system starts and whenever a station, an attachment or an event is made anew, and those
    that reset the statistics.  Each assignment is a store of its own, in the order of the code. *)
From stdpp Require Import base gmap strings list.
From S2P Require Import Prelude Types Machine EvList Sample StatConfig Stats.
Open Scope Z_scope.

(** ** Sequences of assignments *)

(** Assignments to one station, one after the other. *)
Fixpoint str_stats (s : Z) (fs : list (et_station -> et_station)) : M unit :=
  match fs with
  | [] => ret tt
  | f :: fs' => str_stat s f ;;; str_stats s fs'
  end.

(** Assignments to one attachment. *)
Fixpoint str_attachs (att : Z) (fs : list (et_attach -> et_attach)) : M unit :=
  match fs with
  | [] => ret tt
  | f :: fs' => str_attach att f ;;; str_attachs att fs'
  end.

Definition ld_proc (id : Z) : M et_proc :=
  let* y := ld_sys in of_option (sys_proc y !! id).
Definition str_proc (id : Z) (f : et_proc -> et_proc) : M unit :=
  let* _ := ld_proc id in
  str_sys (fun y => set_sys_proc (alter f id (sys_proc y)) y).
Fixpoint str_procs (id : Z) (fs : list (et_proc -> et_proc)) : M unit :=
  match fs with
  | [] => ret tt
  | f :: fs' => str_proc id f ;;; str_procs id fs'
  end.

Definition str_evs (offset p : Z) (fs : list (et_event -> et_event)) : M unit :=
  foldr (fun f c => str_ev offset p f ;;; c) (ret tt) fs.

Definition in_config (f : et_stat_config -> et_stat_config) (S : et_station) : et_station :=
  set_st_config (f (st_config S)) S.
Definition in_data (f : et_stat_data -> et_stat_data) (S : et_station) : et_station :=
  set_st_data (f (st_data S)) S.
Definition in_fix (f : et_fix -> et_fix) (S : et_station) : et_station :=
  set_st_fix (f (st_fix S)) S.

(** The numbers from 0 on. *)
Definition upto (n : Z) : list Z := map Z.of_nat (seq 0 (Z.to_nat n)).

(** ** Processes and attachments *)

Definition et_init_process (id : Z) : M unit :=
  str_procs id
    ([set_pr_time 0; set_pr_num (-1); set_pr_nattachments 0; set_pr_et_status ET_PROC_ETDEAD;
      set_pr_heartbeat 0; set_pr_pid (-1)] ++
     map (fun i p => set_pr_att (<[i := -1]> (pr_att p)) p) (upto ET_ATTACHMENTS_MAX) ++
     [set_pr_status ET_PROC_CLOSED]).

Definition et_init_attachment (id : Z) : M unit :=
  str_attachs id
    [set_at_num (-1); set_at_proc (-1); set_at_stat (-1); set_at_blocked ET_ATT_UNBLOCKED;
     set_at_quit ET_ATT_CONTINUE; set_at_sleep ET_ATT_NOSLEEP; set_at_events_put 0;
     set_at_events_get 0; set_at_events_dump 0; set_at_events_make 0; set_at_pid (-1);
     set_at_host "CANNOT_FIND_HOST"; set_at_interface EmptyString; set_at_status ET_ATT_UNUSED].

(** ** Lists and stations *)

Definition init_llist_stores : list (et_list -> et_list) :=
  [set_l_cnt 0; set_l_lasthigh 0; set_l_events_try 0; set_l_events_in 0; set_l_events_out 0;
   set_l_firstevent NULL; set_l_lastevent NULL].

Definition in_list (pl : lptr) (f : et_list -> et_list) (S : et_station) : et_station :=
  set_st_list pl (f (st_list pl S)) S.

Definition et_init_llist (pl : lptr) : M unit := str_stats (lstat pl) (map (in_list pl) init_llist_stores).

(** config.select[i] = -1 and data.att[i] = -1. *)
Definition init_select : list (et_station -> et_station) :=
  map (fun i => in_config (fun c => set_sc_select (<[i := -1]> (sc_select c)) c))
    (seq 0 (Z.to_nat ET_STATION_SELECT_INTS)).
Definition init_att : list (et_station -> et_station) :=
  map (fun i => in_data (fun d => set_sd_att (<[i := -1]> (sd_att d)) d)) (upto ET_ATTACHMENTS_MAX).

Definition et_init_station (ps : Z) : M unit :=
  str_stats ps
    [set_st_num (-1); set_st_next (-1); set_st_prev (-1); set_st_nextparallel (-1);
     set_st_prevparallel (-1); set_st_waslast 0; set_st_name EmptyString;
     set_st_conductor ET_THREAD_KEEP] ;;;
  str_stats ps (map in_config
    [set_sc_flow_mode ET_STATION_SERIAL; set_sc_user_mode ET_STATION_USER_MULTI;
     set_sc_restore_mode ET_STATION_RESTORE_OUT; set_sc_block_mode ET_STATION_BLOCKING;
     set_sc_select_mode ET_STATION_SELECT_ALL; set_sc_cue ET_STATION_CUE;
     set_sc_prescale ET_STATION_PRESCALE; set_sc_fname EmptyString; set_sc_lib EmptyString;
     set_sc_classs EmptyString]) ;;;
  str_stats ps init_select ;;;
  str_stats ps [in_config (set_sc_init ET_STRUCT_OK); in_data (set_sd_nattachments 0);
                in_data (set_sd_pid_create (-1))] ;;;
  str_stats ps init_att ;;;
  str_stats ps (map in_fix
    [set_fix_in_first NULL; set_fix_in_start 0; set_fix_in_cnt 0; set_fix_in_num 0;
     set_fix_in_call ET_FIX_READ; set_fix_in_eventsin 0; set_fix_out_start 0; set_fix_out_cnt 0;
     set_fix_out_num 0]) ;;;
  et_init_llist (LIn ps) ;;;
  et_init_llist (LOut ps) ;;;
  str_stats ps [in_data (set_sd_status ET_STATION_UNUSED)].

(** ** Events *)

(** [control0]: the control array filled with zeros by memset. *)
Definition control0 : list Z := replicate (Z.to_nat ET_STATION_SELECT_INTS) 0.

Definition et_init_event (offset pe : Z) : M unit :=
  str_evs offset pe
    [set_ev_owner ET_SYS; set_ev_next NULL; set_ev_tempdata NULL; set_ev_pdata NULL; set_ev_length 0;
     set_ev_memsize 0; set_ev_priority ET_LOW; set_ev_temp ET_EVENT_NORMAL; set_ev_age ET_EVENT_NEW;
     set_ev_datastatus ET_DATA_OK; set_ev_byteorder 67305985; set_ev_group 0; set_ev_pointer 0;
     set_ev_modify 0; set_ev_control control0].

(** It keeps the owner and the group. *)
Definition et_init_event_ (offset pe : Z) : M unit :=
  let* e := ld_ev offset pe in
  let group := ev_group e in
  let owner := ev_owner e in
  et_init_event offset pe ;;;
  str_evs offset pe [set_ev_owner owner; set_ev_group group].

(** ** Statistics *)

Definition str_histogram (i v : Z) : M unit :=
  store (fun m => set_m_histogram (<[i := v]> (m_histogram m)) m).
Definition et_init_histogram (id : et_id) : M unit :=
  foldr (fun i c => str_histogram i 0 ;;; c) (ret tt) (upto (id_nevents id + 1)).

Definition et_init_stats_att (id : Z) : M unit :=
  str_attachs id [set_at_events_put 0; set_at_events_get 0; set_at_events_dump 0; set_at_events_make 0].
Definition et_init_stats_allatts : M unit :=
  foldr (fun i c => et_init_stats_att i ;;; c) (ret tt) (upto ET_ATTACHMENTS_MAX).

Definition et_init_stats_station (ps : Z) : M unit :=
  str_stats ps (map (in_list (LIn ps)) [set_l_events_try 0; set_l_events_out 0; set_l_events_in 0] ++
                map (in_list (LOut ps)) [set_l_events_try 0; set_l_events_out 0; set_l_events_in 0]).
Definition et_init_stats_allstations : M unit :=
  let* y := ld_sys in
  foldr (fun i c => et_init_stats_station i ;;; c) (ret tt) (upto (cf_nstations (sys_config y))).

Definition et_init_stats_all (id : et_id) : M unit :=
  et_init_stats_allatts ;;;
  et_init_stats_allstations ;;;
  et_init_histogram id.

(** ** Correctness *)

(** The effect of a sequence of assignments. *)
Definition stores {A} (fs : list (A -> A)) (a : A) : A := foldl (fun x f => f x) a fs.

Lemma wp_str_stats s fs ps (Q : unit -> et_mem -> Prop) m :
  m_stats m !! s = Some ps -> Q tt (upd_stat s (stores fs) m) -> wp (str_stats s fs) Q (fun _ => True) m.
Proof.
  revert ps m. induction fs as [|f fs IH]; intros ps m E H; simpl.
  - apply wp_ret. by rewrite <- (upd_stat_id s (stores []) m ps E eq_refl).
  - apply wp_bind. eapply wps_str_stat; [done..|]. eapply IH; [by apply upd_stat_eq|].
    by rewrite upd_stat_compose.
Qed.

(** What et_init_station leaves of a station: its mutexes and the signals of its lists. *)
Definition init_station (ps : et_station) : et_station :=
  let att := foldl (fun a i => <[i := -1]> a) (sd_att (st_data ps)) (upto ET_ATTACHMENTS_MAX) in
  mkStation (-1) ET_THREAD_KEEP (-1) (-1) (-1) (-1) 0 EmptyString (st_mutex ps)
    (mkFix NULL 0 0 0 0 ET_FIX_READ 0 0 0) (mkStatData ET_STATION_UNUSED (-1) 0 att)
    (mkStatConfig ET_STRUCT_OK ET_STATION_SERIAL ET_STATION_USER_MULTI ET_STATION_RESTORE_OUT
       ET_STATION_BLOCKING ET_STATION_PRESCALE ET_STATION_CUE ET_STATION_SELECT_ALL
       (list_inserts 0 (replicate (Z.to_nat ET_STATION_SELECT_INTS) (-1)) (sc_select (st_config ps)))
       EmptyString EmptyString EmptyString)
    (mkList 0 0 0 0 0 NULL NULL (l_mutex (st_list_in ps)) (l_cread (st_list_in ps)))
    (mkList 0 0 0 0 0 NULL NULL (l_mutex (st_list_out ps)) (l_cread (st_list_out ps))).

Lemma stores_app {A} (fs gs : list (A -> A)) a : stores (fs ++ gs) a = stores gs (stores fs a).
Proof. apply foldl_app. Qed.

(** Assignments to the array of attachments change only that array. *)
Lemma stores_init_att l ps :
  stores (map (fun i => in_data (fun d => set_sd_att (<[i := -1]> (sd_att d)) d)) l) ps =
  in_data (set_sd_att (foldl (fun a i => <[i := -1]> a) (sd_att (st_data ps)) l)) ps.
Proof.
  revert ps. unfold stores. induction l as [|i l IH]; intros ps; simpl; [by destruct ps as [? ? ? ? ? ? ? ? ? ? [] ? ? ?]|].
  by rewrite IH.
Qed.

Lemma wp_init_station s ps (Q : unit -> et_mem -> Prop) m :
  m_stats m !! s = Some ps -> length (sc_select (st_config ps)) = Z.to_nat ET_STATION_SELECT_INTS ->
  Q tt (upd_stat s init_station m) -> wp (et_init_station s) Q (fun _ => True) m.
Proof.
  intros E W H. unfold et_init_station, et_init_llist.
  repeat (apply wp_bind; eapply wp_str_stats; [repeat (exact E || eapply upd_stat_eq)|]).
  eapply wp_str_stats; [repeat (exact E || eapply upd_stat_eq)|].
  rewrite !upd_stat_compose. erewrite upd_stat_ext; [exact H|done|].
  cbv beta. unfold init_att. rewrite stores_init_att. unfold init_select, init_station.
  destruct ps as [? ? ? ? ? ? ? ? ? [] [] [? ? ? ? ? ? ? ? ws ? ? ?] [] []]. cbn in W.
  do 7 (destruct ws as [|? ws]; [try discriminate W|]); [|discriminate W]. reflexivity.
Qed.

Lemma upd_attach_compose att f g m : upd_attach att f (upd_attach att g m) = upd_attach att (fun a => f (g a)) m.
Proof.
  unfold upd_attach, upd_sys, set_m_sys. cbn. f_equal. unfold set_sys_attach. cbn. f_equal.
  apply map_eq. intros i. destruct (decide (att = i)) as [<-|N].
  - rewrite !lookup_alter_eq. by destruct (sys_attach (m_sys m) !! att).
  - by rewrite !lookup_alter_ne.
Qed.

Lemma upd_attach_eq att f m a :
  sys_attach (m_sys m) !! att = Some a -> sys_attach (m_sys (upd_attach att f m)) !! att = Some (f a).
Proof. intros E. cbn. by rewrite lookup_alter_eq, E. Qed.

Lemma wps_str_attach att f a (Q : unit -> et_mem -> Prop) (C : et_mem -> Prop) m :
  sys_attach (m_sys m) !! att = Some a -> C m -> Q tt (upd_attach att f m) -> wp (str_attach att f) Q C m.
Proof.
  intros E HC H. unfold str_attach, ld_attach. apply wp_bind, wp_bind, wps_ld_sys.
  eapply wp_of_option; [done|]. by apply wps_str_sys.
Qed.

Lemma wp_str_attachs att fs a (Q : unit -> et_mem -> Prop) m :
  sys_attach (m_sys m) !! att = Some a -> Q tt (upd_attach att (stores fs) m) ->
  wp (str_attachs att fs) Q (fun _ => True) m.
Proof.
  revert a m. induction fs as [|f fs IH]; intros a m E H; simpl.
  - apply wp_ret. unfold upd_attach, upd_sys in H. rewrite alter_id in H by done. by destruct m as [[]].
  - apply wp_bind. eapply wps_str_attach; [done..|]. eapply IH; [by apply upd_attach_eq|].
    by rewrite upd_attach_compose.
Qed.

(** What et_init_attachment makes of an attachment. *)
Definition init_attach : et_attach :=
  mkAttach (-1) (-1) (-1) ET_ATT_UNUSED ET_ATT_UNBLOCKED ET_ATT_CONTINUE ET_ATT_NOSLEEP 0 0 0 0 (-1)
    "CANNOT_FIND_HOST" EmptyString.

Lemma wp_init_attachment att a (Q : unit -> et_mem -> Prop) m :
  sys_attach (m_sys m) !! att = Some a -> Q tt (upd_attach att (fun _ => init_attach) m) ->
  wp (et_init_attachment att) Q (fun _ => True) m.
Proof.
  intros E H. unfold et_init_attachment. eapply wp_str_attachs; [done|].
  replace (upd_attach att _ m) with (upd_attach att (fun _ => init_attach) m); [done|].
  unfold upd_attach, upd_sys. by do 2 f_equal.
Qed.
