(* ===== verification/Temp.v ===== *)
(** * Files of temporary events

    et_temp_create, et_temp_attach and et_temp_remove of et_mem.c: the data of an event that is
    larger than the events of the system is in a file of its own, which the processes map into their
    memory.  The system calls are a typeclass; what the code relies on is that they return and leave
    the shared memory of the ET system alone. *)
From stdpp Require Import base gmap strings list.
From S2P Require Import Prelude Types Machine EvList.
Open Scope Z_scope.

(** The system calls: the flag of [sys_open] tells whether O_CREAT and O_EXCL are set; [sys_mmap]
    maps so many bytes of a file descriptor; [gettimeofday] gives seconds and microseconds. *)
Class Kernel := {
  sys_unlink : string -> M Z;
  sys_open : string -> bool -> M Z;
  sys_ftruncate : Z -> Z -> M Z;
  sys_mmap : Z -> Z -> M Z;
  sys_munmap : Z -> Z -> M Z;
  sys_close : Z -> M Z;
  gettimeofday : M (Z * Z)
}.

Section temp.
Context `{F0 : Kernel}.

Definition et_temp_create (name : string) (size : Z) : M Z :=
  sys_unlink name ;;;
  let* fd := sys_open name true in
  if fd <? 0 then ret NULL
  else
    let* st := sys_ftruncate fd size in
    if st <? 0 then sys_close fd ;;; sys_unlink name ;;; ret NULL
    else
      let* pmem := sys_mmap size fd in
      if pmem =? NULL then sys_close fd ;;; sys_unlink name ;;; ret NULL
      else sys_close fd ;;; ret pmem.

Definition et_temp_attach (name : string) (size : Z) : M Z :=
  let* fd := sys_open name false in
  if fd <? 0 then ret NULL
  else
    let* pdata := sys_mmap size fd in
    if pdata =? NULL then sys_close fd ;;; ret NULL
    else sys_close fd ;;; ret pdata.

Definition et_temp_remove (name : string) (pmem size : Z) : M Z :=
  let* st := sys_munmap pmem size in
  if st <? 0 then ret ET_ERROR
  else
    let* st := sys_unlink name in
    if st <? 0 then ret ET_ERROR else ret ET_OK.
End temp.

(** ** The effect on the shared memory *)

(** A computation that returns and leaves the shared memory as it is. *)
Definition quiet {A} (c : M A) : Prop := forall m, wp c (fun _ m' => m' = m) (fun _ => False) m.

Lemma quiet_ret {A} (a : A) : quiet (ret a).
Proof. intros m. by apply wp_ret. Qed.

Lemma quiet_bind {A B} (c : M A) (f : A -> M B) : quiet c -> (forall a, quiet (f a)) -> quiet (bind c f).
Proof. intros Hc Hf m. apply wp_bind. eapply wp_mono; [apply Hc| |done]. intros a m' ->. apply Hf. Qed.

Lemma quiet_if {A} (b : bool) (c d : M A) : quiet c -> quiet d -> quiet (if b then c else d).
Proof. by destruct b. Qed.

(** The rule for a quiet computation. *)
Lemma wp_quiet {A} (c : M A) (Q : A -> et_mem -> Prop) (C : et_mem -> Prop) m :
  quiet c -> (forall a, Q a m) -> wp c Q C m.
Proof. intros H HQ. eapply wp_mono; [apply H| |done]. intros a m' ->. apply HQ. Qed.

(** The same, with what is known of the result. *)
Lemma wp_quiet_result {A} (c : M A) (Q : A -> et_mem -> Prop) (C : et_mem -> Prop) m :
  quiet c -> (forall a x m1 x' m1', c x m1 = Ok a x' m1' -> Q a m) -> wp c Q C m.
Proof.
  intros H HQ x Hx. specialize (H m x Hx). destruct (c x m) as [a x' m'|m'|m'| |] eqn:E; try done; [|by destruct H].
  destruct H as (? & ? & ->). split_and!; [done..|]. by eapply HQ.
Qed.

Class QuietKernel `{Kernel} : Prop := {
  quiet_unlink n : quiet (sys_unlink n);
  quiet_open n b : quiet (sys_open n b);
  quiet_ftruncate fd size : quiet (sys_ftruncate fd size);
  quiet_mmap size fd : quiet (sys_mmap size fd);
  quiet_munmap p size : quiet (sys_munmap p size);
  quiet_close fd : quiet (sys_close fd);
  quiet_gettimeofday : quiet gettimeofday
}.

Create HintDb quiet.
#[export] Hint Resolve quiet_ret quiet_bind quiet_if quiet_unlink quiet_open quiet_ftruncate quiet_mmap
  quiet_munmap quiet_close quiet_gettimeofday : quiet.

Section quiet_temp.
Context `{QuietKernel}.

Lemma quiet_temp_create name size : quiet (et_temp_create name size).
Proof. unfold et_temp_create. auto 20 with quiet. Qed.

Lemma quiet_temp_attach name size : quiet (et_temp_attach name size).
Proof. unfold et_temp_attach. auto 20 with quiet. Qed.

Lemma quiet_temp_remove name pmem size : quiet (et_temp_remove name pmem size).
Proof. unfold et_temp_remove. auto 20 with quiet. Qed.
End quiet_temp.
#[export] Hint Resolve quiet_temp_create quiet_temp_attach quiet_temp_remove : quiet.

(** ** An example *)

(** A file system in which everything works, for the concrete inputs of the theorems. *)
Definition files0 : Kernel := {|
  sys_unlink _ := ret 0; sys_open _ _ := ret 3; sys_ftruncate _ _ := ret 0; sys_mmap _ _ := ret 65536;
  sys_munmap _ _ := ret 0; sys_close _ := ret 0;
  gettimeofday := ret (1000, 999999) |}.

Lemma quiet_files0 : QuietKernel (H := files0).
Proof. split; intros; apply quiet_ret. Qed.

(** mmap returns the address -1 when it fails, and not NULL. *)
Definition MAP_FAILED : Z := -1.
Definition files_no_mmap : Kernel := {|
  sys_unlink _ := ret 0; sys_open _ _ := ret 3; sys_ftruncate _ _ := ret 0; sys_mmap _ _ := ret MAP_FAILED;
  sys_munmap _ _ := ret (-1); sys_close _ := ret 0;
  gettimeofday := ret (1000, 999999) |}.

(** et_temp_create then returns that address as if it was the memory of the event. *)
Example temp_create_no_mmap name size m :
  run (et_temp_create (F0 := files_no_mmap) name size) m = Ok MAP_FAILED (mkCtx None []) m.
Proof. reflexivity. Qed.
