(* ===== verification/EventApi.v ===== *)
(** * Making, getting, putting and dumping events

    et_event.c: the functions with which an attachment makes new events, gets those of its station,
    and puts or dumps them.  They check their arguments, read or write with the operations of
    et_readwrite.c, set up the data of each event and count the events of the attachment.

    The array pe of the C functions is a list: of the events that were written to it, in the
    functions that fill it, or of the events to put or dump.  *nread is 0 where the code sets it to 0
    before anything else. *)
From stdpp Require Import base gmap strings list.
From S2P Require Import Prelude Types Machine EvList Write Read Dump Stats Api Init Temp.
Open Scope Z_scope.

Record timespec := mkTimespec { tv_sec : Z; tv_nsec : Z }.

(** The remote clients for events: those of et_remoteclient.c get the mode with all its flags, those
    of et_noshare.c only the way to wait. *)
Class RemoteEvents := {
  etr_event_new : et_id -> Z -> Z -> option timespec -> Z -> M (Z * list Z);
  etn_event_new : et_id -> Z -> Z -> option timespec -> Z -> M (Z * list Z);
  etr_events_new : et_id -> Z -> Z -> option timespec -> Z -> Z -> M (Z * list Z * Z);
  etn_events_new : et_id -> Z -> Z -> option timespec -> Z -> Z -> M (Z * list Z * Z);
  etr_events_new_group : et_id -> Z -> Z -> option timespec -> Z -> Z -> Z -> M (Z * list Z * Z);
  etn_events_new_group : et_id -> Z -> Z -> option timespec -> Z -> Z -> Z -> M (Z * list Z * Z);
  etr_event_get : et_id -> Z -> Z -> option timespec -> M (Z * list Z);
  etn_event_get : et_id -> Z -> Z -> option timespec -> M (Z * list Z);
  etr_events_get : et_id -> Z -> Z -> option timespec -> Z -> M (Z * list Z * Z);
  etn_events_get : et_id -> Z -> Z -> option timespec -> Z -> M (Z * list Z * Z);
  etr_event_put : et_id -> Z -> Z -> M Z;
  etn_event_put : et_id -> Z -> Z -> M Z;
  etr_events_put : et_id -> Z -> list Z -> M Z;
  etn_events_put : et_id -> Z -> list Z -> M Z;
  etr_event_dump : et_id -> Z -> Z -> M Z;
  etn_event_dump : et_id -> Z -> Z -> M Z;
  etr_events_dump : et_id -> Z -> list Z -> M Z;
  etn_events_dump : et_id -> Z -> list Z -> M Z
}.

(** A client without a network. *)
Definition no_remote_events : RemoteEvents := {|
  etr_event_new _ _ _ _ _ := ret (ET_ERROR_REMOTE, []);
  etn_event_new _ _ _ _ _ := ret (ET_ERROR_REMOTE, []);
  etr_events_new _ _ _ _ _ _ := ret (ET_ERROR_REMOTE, [], 0);
  etn_events_new _ _ _ _ _ _ := ret (ET_ERROR_REMOTE, [], 0);
  etr_events_new_group _ _ _ _ _ _ _ := ret (ET_ERROR_REMOTE, [], 0);
  etn_events_new_group _ _ _ _ _ _ _ := ret (ET_ERROR_REMOTE, [], 0);
  etr_event_get _ _ _ _ := ret (ET_ERROR_REMOTE, []);
  etn_event_get _ _ _ _ := ret (ET_ERROR_REMOTE, []);
  etr_events_get _ _ _ _ _ := ret (ET_ERROR_REMOTE, [], 0);
  etn_events_get _ _ _ _ _ := ret (ET_ERROR_REMOTE, [], 0);
  etr_event_put _ _ _ := ret ET_ERROR_REMOTE;
  etn_event_put _ _ _ := ret ET_ERROR_REMOTE;
  etr_events_put _ _ _ := ret ET_ERROR_REMOTE;
  etn_events_put _ _ _ := ret ET_ERROR_REMOTE;
  etr_event_dump _ _ _ := ret ET_ERROR_REMOTE;
  etn_event_dump _ _ _ := ret ET_ERROR_REMOTE;
  etr_events_dump _ _ _ := ret ET_ERROR_REMOTE;
  etn_events_dump _ _ _ := ret ET_ERROR_REMOTE
|}.

Definition ET_PDATA2USR (p offset : Z) : Z := p + offset.

(** ** Waiting *)

(** Neither the way to wait nor the time is one the functions accept. *)
Definition bad_wait (mode : Z) (deltatime : option timespec) : bool :=
  let wait := Z.land mode ET_WAIT_MASK in
  if negb (wait =? ET_SLEEP) && negb (wait =? ET_TIMED) && negb (wait =? ET_ASYNC) then true
  else if wait =? ET_TIMED then
    match deltatime with
    | None => true
    | Some d => (tv_sec d <? 0) || (tv_nsec d <? 0)
    end
  else false.

(** The point in time after [deltatime], from the seconds and microseconds of now. *)
Definition abs_time (deltatime : timespec) (now : Z * Z) : timespec :=
  let nsec_total := tv_nsec deltatime + 1000 * snd now in
  if 1000000000 <=? nsec_total
  then mkTimespec (tv_sec deltatime + fst now + 1) (nsec_total - 1000000000)
  else mkTimespec (tv_sec deltatime + fst now) nsec_total.

Section events.
Context `{R0 : Remote} `{R1 : RemoteEvents} `{K0 : Kernel}.

(** The calls of et_station_read and the like: the time to wait until does not matter to them but for
    the wake-ups that the wait sees. *)
Definition wait_until {A} (wait : Z) (deltatime : option timespec) (read : option timespec -> M A) : M A :=
  if negb (wait =? ET_TIMED) then read None
  else
    match deltatime with
    | None => fault
    | Some d => let* now := gettimeofday in read (Some (abs_time d now))
    end.

(** What a read that failed returns: the wake-up may come from the heartbeat thread that found the
    system dead. *)
Definition read_failed (id : et_id) (status : Z) : M Z :=
  if status =? ET_ERROR_WAKEUP then
    let* alive := et_alive id in
    ret (if alive =? 0 then ET_ERROR_DEAD else status)
  else ret status.

(** The body of a function, which ends with the status of a failed read or with its result. *)
Definition reading_call {A} (id : et_id) (err : Z -> A) (body : M (Z + A)) : M A :=
  let* r := alive_call id (fun e => inr (err e)) body in
  match r with
  | inl status => let* e := read_failed id status in ret (err e)
  | inr a => ret a
  end.

(** ** Making events *)

Definition et_event_make (id : et_id) (pe size : Z) : M Z :=
  let off := id_offset id in
  et_system_lock ;;;
  let* y := ld_sys in
  if cf_ntemps (sys_config y) <=? sys_ntemps y then et_system_unlock ;;; ret ET_ERROR_TOOMANY
  else
    str_sys (fun y => set_sys_ntemps (sys_ntemps y + 1) y) ;;;
    et_system_unlock ;;;
    let* e := ld_ev off pe in
    let* pdata := et_temp_create (ev_filename e) size in
    if pdata =? NULL then ret ET_ERROR
    else
      et_init_event_ off pe ;;;
      str_evs off pe [set_ev_temp ET_EVENT_TEMP; set_ev_pdata pdata; set_ev_length size; set_ev_memsize size] ;;;
      ret ET_OK.

(** while (sys->ntemps >= sys->config.ntemps && num_try < try_max): [n] is try_max - num_try; the result
    is num_try. *)
Fixpoint temps_wait (n : nat) (num_try : Z) : M Z :=
  match n with
  | O => ret num_try
  | S n' =>
      let* y := ld_sys in
      if cf_ntemps (sys_config y) <=? sys_ntemps y then nanosleep ;;; temps_wait n' (num_try + 1)
      else ret num_try
  end.

(** try_again: every turn but the first comes after another process gave a temporary event back while
    this one slept, so the wake-ups bound them. *)
Fixpoint try_again (n : nat) (id : et_id) (try_max pe size : Z) : M Z :=
  match n with
  | O => diverge
  | S n' =>
      let* status := et_event_make id pe size in
      if negb (status =? ET_OK) then
        if status =? ET_ERROR_TOOMANY then
          let* num_try := temps_wait (Z.to_nat try_max) 0 in
          if try_max <=? num_try then ret status else try_again n' id try_max pe size
        else ret status
      else ret ET_OK
  end.

Fixpoint make_loop (id : et_id) (try_max size : Z) (pes : list Z) : M Z :=
  match pes with
  | [] => ret ET_OK
  | pe :: pes' =>
      let* status := with_wakes (fun n => try_again n id try_max pe size) in
      if negb (status =? ET_OK) then ret status else make_loop id try_max size pes'
  end.

(** The loop for events that are not temporary. *)
Fixpoint plain_loop (off event_size size : Z) (pes : list Z) : M unit :=
  match pes with
  | [] => ret tt
  | pe :: pes' =>
      et_init_event_ off pe ;;;
      let* e := ld_ev off pe in
      str_evs off pe [set_ev_pdata (ET_PDATA2USR (ev_data e) off); set_ev_length size; set_ev_memsize event_size] ;;;
      plain_loop off event_size size pes'
  end.

(** From the read on: the events are made, and counted for the attachment. *)
Definition new_events (id : et_id) (att size : Z) (read : M (Z * list Z)) : M (Z + Z * list Z * Z) :=
  let* a := ld_attach att in
  if negb (at_status a =? ET_ATT_ACTIVE) then ret (inr (ET_ERROR, [], 0))
  else
    let* (status, pes) := read in
    if negb (status =? ET_OK) then ret (inl status)
    else
      let* y := ld_sys in
      let* status :=
        if cf_event_size (sys_config y) <? size
        then make_loop id (sys_hz y * 30) size pes
        else plain_loop (id_offset id) (cf_event_size (sys_config y)) size pes ;;; ret ET_OK in
      if negb (status =? ET_OK) then ret (inr (status, pes, 0))
      else
        let numread := Z.of_nat (length pes) in
        str_attach att (fun a => set_at_events_make (u64 (at_events_make a + numread)) a) ;;;
        ret (inr (ET_OK, pes, numread)).

(** No more temporary events are asked for than there may be. *)
Definition at_most_temps (y : et_system) (size num : Z) : Z :=
  if cf_event_size (sys_config y) <? size then
    if cf_ntemps (sys_config y) <? num then cf_ntemps (sys_config y) else num
  else num.

Definition no_events (e : Z) : Z * list Z * Z := (e, [], 0).

(** pe is NULL when it is not [given]. *)
Definition et_events_new_group (id : et_id) (att : Z) (given : bool) (mode : Z) (deltatime : option timespec)
    (size num group : Z) : M (Z * list Z * Z) :=
  if num =? 0 then ret (ET_OK, [], 0)
  else if (att <? 0) || negb given || (num <? 0) || (group <? 1) then ret (no_events ET_ERROR)
  else if bad_wait mode deltatime then ret (no_events ET_ERROR)
  else
    let wait := Z.land mode ET_WAIT_MASK in
    if id_locality id =? ET_REMOTE then etr_events_new_group id att mode deltatime size num group
    else if id_locality id =? ET_LOCAL_NOSHARE then etn_events_new_group id att wait deltatime size num group
    else
      reading_call id no_events
        (let* y := ld_sys in
         if cf_groupCount (sys_config y) <? group then ret (inr (no_events ET_ERROR))
         else
           new_events id att size
             (wait_until wait deltatime (fun _ =>
                et_station_nread_group id ET_GRANDCENTRAL wait att (at_most_temps y size num) group))).

Definition et_event_new_group (id : et_id) (att : Z) (given : bool) (mode : Z) (deltatime : option timespec)
    (size group : Z) : M (Z * list Z) :=
  let* (status, pes, nread) := et_events_new_group id att given mode deltatime size 1 group in
  ret (status, pes).

Definition et_events_new (id : et_id) (att : Z) (given : bool) (mode : Z) (deltatime : option timespec)
    (size num : Z) : M (Z * list Z * Z) :=
  if negb (id_group id =? 0) then et_events_new_group id att given mode deltatime size num (id_group id)
  else if num =? 0 then ret (ET_OK, [], 0)
  else if (att <? 0) || negb given || (num <? 0) then ret (no_events ET_ERROR)
  else if bad_wait mode deltatime then ret (no_events ET_ERROR)
  else
    let wait := Z.land mode ET_WAIT_MASK in
    if id_locality id =? ET_REMOTE then etr_events_new id att mode deltatime size num
    else if id_locality id =? ET_LOCAL_NOSHARE then etn_events_new id att wait deltatime size num
    else
      reading_call id no_events
        (let* y := ld_sys in
         new_events id att size
           (wait_until wait deltatime (fun _ =>
              et_station_nread id ET_GRANDCENTRAL wait att (at_most_temps y size num)))).

Definition et_event_new (id : et_id) (att : Z) (given : bool) (mode : Z) (deltatime : option timespec)
    (size : Z) : M (Z * list Z) :=
  if negb (id_group id =? 0) then et_event_new_group id att given mode deltatime size (id_group id)
  else if (att <? 0) || negb given then ret (ET_ERROR, [])
  else if bad_wait mode deltatime then ret (ET_ERROR, [])
  else
    let wait := Z.land mode ET_WAIT_MASK in
    if id_locality id =? ET_REMOTE then etr_event_new id att mode deltatime size
    else if id_locality id =? ET_LOCAL_NOSHARE then etn_event_new id att wait deltatime size
    else
      let* (status, pes, nread) :=
        reading_call id no_events
          (new_events id att size
             (wait_until wait deltatime (fun _ => et_station_read id ET_GRANDCENTRAL wait att))) in
      ret (status, pes).

(** ** Getting events *)

(** The loop that gives the process access to the data of the events; false if it cannot map a
    temporary event. *)
Fixpoint data_loop (off : Z) (pes : list Z) : M bool :=
  match pes with
  | [] => ret true
  | pe :: pes' =>
      let* e := ld_ev off pe in
      if negb (ev_temp e =? ET_EVENT_TEMP) then
        str_ev off pe (set_ev_pdata (ET_PDATA2USR (ev_data e) off)) ;;;
        data_loop off pes'
      else
        let* pdata := et_temp_attach (ev_filename e) (ev_memsize e) in
        if pdata =? NULL then ret false
        else
          str_ev off pe (set_ev_pdata pdata) ;;;
          data_loop off pes'
  end.

Definition get_events (id : et_id) (att : Z) (read : Z -> M (Z * list Z)) : M (Z + Z * list Z * Z) :=
  let* a := ld_attach att in
  if negb (at_status a =? ET_ATT_ACTIVE) then ret (inr (no_events ET_ERROR))
  else if at_stat a =? ET_GRANDCENTRAL then ret (inr (no_events ET_ERROR))
  else
    let* (status, pes) := read (at_stat a) in
    if negb (status =? ET_OK) then ret (inl status)
    else
      let* ok := data_loop (id_offset id) pes in
      if negb ok then ret (inr (ET_ERROR, pes, 0))
      else
        let numread := Z.of_nat (length pes) in
        str_attach att (fun a => set_at_events_get (u64 (at_events_get a + numread)) a) ;;;
        ret (inr (ET_OK, pes, numread)).

Definition et_event_get (id : et_id) (att : Z) (given : bool) (mode : Z) (deltatime : option timespec) :
    M (Z * list Z) :=
  if (att <? 0) || negb given then ret (ET_ERROR, [])
  else if bad_wait mode deltatime then ret (ET_ERROR, [])
  else
    let wait := Z.land mode ET_WAIT_MASK in
    if id_locality id =? ET_REMOTE then etr_event_get id att mode deltatime
    else if id_locality id =? ET_LOCAL_NOSHARE then etn_event_get id att wait deltatime
    else
      let* (status, pes, nread) :=
        reading_call id no_events
          (get_events id att (fun stat_id =>
             wait_until wait deltatime (fun _ => et_station_read id stat_id wait att))) in
      ret (status, pes).

Definition et_events_get (id : et_id) (att : Z) (given : bool) (mode : Z) (deltatime : option timespec)
    (num : Z) : M (Z * list Z * Z) :=
  if num =? 0 then ret (ET_OK, [], 0)
  else if (att <? 0) || negb given || (num <? 0) then ret (no_events ET_ERROR)
  else if bad_wait mode deltatime then ret (no_events ET_ERROR)
  else
    let wait := Z.land mode ET_WAIT_MASK in
    if id_locality id =? ET_REMOTE then etr_events_get id att mode deltatime num
    else if id_locality id =? ET_LOCAL_NOSHARE then etn_events_get id att wait deltatime num
    else
      reading_call id no_events
        (get_events id att (fun stat_id =>
           wait_until wait deltatime (fun _ => et_station_nread id stat_id wait att num))).

(** ** Putting events *)

(** pe is [None] when it is NULL. *)
Definition et_event_put (id : et_id) (att : Z) (pe : option Z) : M Z :=
  match pe with
  | None => ret ET_ERROR
  | Some pe =>
    if att <? 0 then ret ET_ERROR
    else if id_locality id =? ET_REMOTE then etr_event_put id att pe
    else if id_locality id =? ET_LOCAL_NOSHARE then etn_event_put id att pe
    else
      let off := id_offset id in
      alive_call id (fun e => e)
        (let* e := ld_ev off pe in
         if ev_memsize e <? ev_length e then ret ET_ERROR
         else if negb (ev_owner e =? att) then ret ET_ERROR
         else
           let* st := if ev_temp e =? ET_EVENT_TEMP then sys_munmap (ev_pdata e) (ev_memsize e) else ret 0 in
           if negb (st =? 0) then ret ET_ERROR
           else
             let* a := ld_attach att in
             let* e := ld_ev off pe in
             let ageOrig := ev_age e in
             str_ev off pe (set_ev_age ET_EVENT_USED) ;;;
             let* status := et_station_write id (at_stat a) pe in
             if negb (status =? ET_OK) then
               str_ev off pe (set_ev_age ageOrig) ;;;
               ret status
             else
               str_attach att (fun a => set_at_events_put (u64 (at_events_put a + 1)) a) ;;;
               ret ET_OK)
  end.

(** The first loop: no data are too long and all events belong to the attachment. *)
Fixpoint check_loop (off att : Z) (pes : list Z) : M bool :=
  match pes with
  | [] => ret true
  | pe :: pes' =>
      let* e := ld_ev off pe in
      if ev_memsize e <? ev_length e then ret false
      else if negb (ev_owner e =? att) then ret false
      else check_loop off att pes'
  end.

(** The second loop: temporary events are unmapped and the events become used ones. *)
Fixpoint use_loop (off : Z) (pes : list Z) : M bool :=
  match pes with
  | [] => ret true
  | pe :: pes' =>
      let* e := ld_ev off pe in
      let* st := if ev_temp e =? ET_EVENT_TEMP then sys_munmap (ev_pdata e) (ev_memsize e) else ret 0 in
      if negb (st =? 0) then ret false
      else
        str_ev off pe (fun e => set_ev_modify (ev_age e) e) ;;;
        str_ev off pe (set_ev_age ET_EVENT_USED) ;;;
        use_loop off pes'
  end.

(** The loop that undoes it. *)
Fixpoint undo_loop (off : Z) (pes : list Z) : M unit :=
  match pes with
  | [] => ret tt
  | pe :: pes' =>
      str_ev off pe (fun e => set_ev_age (ev_modify e) e) ;;;
      str_ev off pe (set_ev_modify 0) ;;;
      undo_loop off pes'
  end.

(** The array pe with num elements; it is not [given] when it is NULL. *)
Definition et_events_put (id : et_id) (att : Z) (given : bool) (pes : list Z) (num : Z) : M Z :=
  if num =? 0 then ret ET_OK
  else if (att <? 0) || negb given || (num <? 0) then ret ET_ERROR
  else if id_locality id =? ET_REMOTE then etr_events_put id att (take (Z.to_nat num) pes)
  else if id_locality id =? ET_LOCAL_NOSHARE then etn_events_put id att (take (Z.to_nat num) pes)
  else
    let off := id_offset id in
    alive_call id (fun e => e)
      (if Z.of_nat (length pes) <? num then fault
       else
         let pes := take (Z.to_nat num) pes in
         let* ok := check_loop off att pes in
         if negb ok then ret ET_ERROR
         else
           let* ok := use_loop off pes in
           if negb ok then ret ET_ERROR
           else
             let* a := ld_attach att in
             let* status := et_station_nwrite id (at_stat a) pes in
             if negb (status =? ET_OK) then undo_loop off pes ;;; ret status
             else
               str_attach att (fun a => set_at_events_put (u64 (at_events_put a + num)) a) ;;;
               ret ET_OK).

(** ** Dumping events *)

Definition et_event_dump (id : et_id) (att : Z) (pe : option Z) : M Z :=
  match pe with
  | None => ret ET_ERROR
  | Some pe =>
    if att <? 0 then ret ET_ERROR
    else if id_locality id =? ET_REMOTE then etr_event_dump id att pe
    else if id_locality id =? ET_LOCAL_NOSHARE then etn_event_dump id att pe
    else
      let off := id_offset id in
      alive_call id (fun e => e)
        (let* e := ld_ev off pe in
         if negb (ev_owner e =? att) then ret ET_ERROR
         else
           let temp := ev_temp e =? ET_EVENT_TEMP in
           let* st := if temp then et_temp_remove (ev_filename e) (ev_pdata e) (ev_memsize e) else ret ET_OK in
           if negb (st =? ET_OK) then ret ET_ERROR
           else
             let* status := et_station_dump id pe in
             if negb (status =? ET_OK) then
               str_ev off pe (set_ev_owner att) ;;;
               ret status
             else
               when temp
                 (et_system_lock ;;; str_sys (fun y => set_sys_ntemps (sys_ntemps y - 1) y) ;;; et_system_unlock) ;;;
               str_attach att (fun a => set_at_events_dump (u64 (at_events_dump a + 1)) a) ;;;
               ret ET_OK)
  end.

Fixpoint owner_loop (off att : Z) (pes : list Z) : M bool :=
  match pes with
  | [] => ret true
  | pe :: pes' =>
      let* e := ld_ev off pe in
      if negb (ev_owner e =? att) then ret false else owner_loop off att pes'
  end.

(** The loop that removes temporary events: their number, or nothing if one cannot be removed. *)
Fixpoint remove_loop (off : Z) (pes : list Z) (ntemps : Z) : M (option Z) :=
  match pes with
  | [] => ret (Some ntemps)
  | pe :: pes' =>
      let* e := ld_ev off pe in
      if ev_temp e =? ET_EVENT_TEMP then
        let* st := et_temp_remove (ev_filename e) (ev_pdata e) (ev_memsize e) in
        if negb (st =? ET_OK) then ret None else remove_loop off pes' (ntemps + 1)
      else remove_loop off pes' ntemps
  end.

Definition et_events_dump (id : et_id) (att : Z) (given : bool) (pes : list Z) (num : Z) : M Z :=
  if num =? 0 then ret ET_OK
  else if (att <? 0) || negb given || (num <? 0) then ret ET_ERROR
  else if id_locality id =? ET_REMOTE then etr_events_dump id att (take (Z.to_nat num) pes)
  else if id_locality id =? ET_LOCAL_NOSHARE then etn_events_dump id att (take (Z.to_nat num) pes)
  else
    let off := id_offset id in
    alive_call id (fun e => e)
      (if Z.of_nat (length pes) <? num then fault
       else
         let pes := take (Z.to_nat num) pes in
         let* ok := owner_loop off att pes in
         if negb ok then ret ET_ERROR
         else
           let* removed := remove_loop off pes 0 in
           match removed with
           | None => ret ET_ERROR
           | Some ntemps =>
               let* status := et_station_ndump id pes in
               if negb (status =? ET_OK) then ret status
               else
                 when (0 <? ntemps)
                   (et_system_lock ;;; str_sys (fun y => set_sys_ntemps (sys_ntemps y - ntemps) y) ;;; et_system_unlock) ;;;
                 str_attach att (fun a => set_at_events_dump (u64 (at_events_dump a + num)) a) ;;;
                 ret ET_OK
           end).
End events.
