(* ===== verification/Group.v ===== *)
(** * Reading events of one group

    The correctness of et_station_nread_group (et_readwrite.c), which unlinks the events of a group
    from anywhere in an input list: et_event.c uses it to give each producer events of its group. *)
From stdpp Require Import base gmap strings list.
From S2P Require Import Prelude Types Machine EvList Local Sample Write Repair Read.
Open Scope Z_scope.

(** ** The first events of a group *)

(** The first [n] elements of a list with a property, and the others. *)
Fixpoint pick (g : Z -> bool) (n : nat) (l : list Z) : list Z * list Z :=
  match n, l with
  | O, _ => ([], l)
  | _, [] => ([], [])
  | S n', a :: l' =>
      if g a then let (t, r) := pick g n' l' in (a :: t, r)
      else let (t, r) := pick g n l' in (t, a :: r)
  end.

Lemma pick_O g l : pick g 0 l = ([], l).
Proof. by destruct l. Qed.

Lemma pick_taken g n l : (pick g n l).1 = take n (List.filter g l).
Proof.
  revert n. induction l as [|a l IH]; intros [|n]; try done; simpl. destruct (g a).
  - specialize (IH n). destruct (pick g n l). simpl in *. by rewrite IH.
  - specialize (IH (S n)). destruct (pick g (S n) l). simpl in *. by rewrite IH.
Qed.

Lemma pick_rest g n l : (pick g n l).2 `sublist_of` l.
Proof.
  revert n. induction l as [|a l IH]; intros [|n]; try done; simpl. destruct (g a).
  - specialize (IH n). destruct (pick g n l). by apply sublist_cons.
  - specialize (IH (S n)). destruct (pick g (S n) l). by apply sublist_skip.
Qed.

Lemma pick_perm g n l : (pick g n l).1 ++ (pick g n l).2 ≡ₚ l.
Proof.
  revert n. induction l as [|a l IH]; intros [|n]; try done; simpl. destruct (g a).
  - specialize (IH n). destruct (pick g n l). simpl in *. by rewrite IH.
  - specialize (IH (S n)). destruct (pick g (S n) l) as [t r]. simpl in *.
    by rewrite <- Permutation_middle, IH.
Qed.

(** More than there are makes no difference. *)
Lemma pick_min g n l : pick g (Nat.min n (length l)) l = pick g n l.
Proof.
  assert (X : forall n k, (length l <= n)%nat -> (length l <= k)%nat -> pick g n l = pick g k l).
  { clear n. induction l as [|a l IH]; intros [|n] [|k]; simpl; try done; try lia. intros Hn Hk.
    rewrite (IH n k), (IH (S n) (S k)) by lia. done. }
  destruct (Nat.min_spec n (length l)) as [[_ ->]|[L ->]]; [done|]. apply X; lia.
Qed.

(** ** Unlinking an event *)

Lemma chain_unlink evs kept b a r eb v :
  chain evs (kept ++ b :: a :: r) -> evs !! b = Some eb -> nxt evs a = Some v ->
  NoDup (kept ++ b :: a :: r) -> chain (<[b := set_ev_next v eb]> evs) (kept ++ b :: r).
Proof.
  intros H Eb Nx N. apply NoDup_app in N as (_ & N1 & N2). apply NoDup_cons in N2 as [N2 _].
  apply chain_app in H as (H1 & H2 & H3). simpl in H2. destruct H2 as (_ & (_ & H4 & H5) & _).
  apply chain_app. split; [|split].
  - apply chain_ext with evs; [|done]. intros c Hc. apply nxt_insert_ne. intros ->. by apply (N1 c Hc), list_elem_of_here.
  - simpl. rewrite nxt_insert_eq. split; [by eexists|]. split.
    + apply chain_ext with evs; [|done]. intros c Hc. apply nxt_insert_ne. intros ->. apply N2. by right.
    + destruct r; [done|]. simpl. congruence.
  - intros c d Hc [= <-]. rewrite nxt_insert_ne; [by apply H3|]. intros ->.
    apply (N1 c); [by apply last_Some_elem_of|by left].
Qed.

Section group.
Context (m : et_mem) (s : Z) (ps : et_station) (off : Z) (l : list Z) (att group : Z).
Hypothesis N : NoDup l.
Hypothesis Null : m_events m !! (0 - off) = None.
Abbreviation V := (lview m s ps).
Abbreviation pl := (LIn s).
Abbreviation nc := (fun _ => True).
Definition in_group (evs : gmap Z et_event) (gr a : Z) : bool :=
  match evs !! a with Some e => ev_group e =? gr | None => false end.
Abbreviation g := (in_group (m_events m) group).

(** The list holds [k]; the links to its ends hold only while there are events. *)
Record holds (evs : gmap Z et_event) (L : et_list) (k : list Z) : Prop := mkHolds {
  hd_chain : chain evs k;
  hd_first : forall a, head k = Some a -> l_firstevent L = a;
  hd_last : forall a, last k = Some a -> l_lastevent L = a
}.

(** [t] was taken from the events of before. *)
Definition took (evs evs' : gmap Z et_event) (t : list Z) : Prop :=
  frame l evs evs' /\ forall a, owner evs' a = if decide (a ∈ t) then Some att else owner evs a.

Lemma took_nil evs : took evs evs [].
Proof. split; [apply frame_refl|]. intros a. by rewrite decide_False by set_solver. Qed.

(** The links of the list may change, and one more event is taken. *)
Lemma took_cons evs evs1 evs2 a t :
  took evs evs1 [a] -> took evs1 evs2 t -> took evs evs2 (a :: t).
Proof.
  intros [F1 O1] [F2 O2]. split; [by eapply frame_trans; [reflexivity|reflexivity|exact F1|exact F2]|].
  intros b. rewrite O2, O1. repeat case_decide; set_solver.
Qed.

(** One event is unlinked: what the code stores depends on the event before it. *)
Definition prev_ptr (kept : list Z) : Z := match last kept with Some b => b + off | None => NULL end.

(** The end of the list after the event [a] was unlinked. *)
Definition unlink_last (L : et_list) (kept : list Z) (a : Z) : et_list :=
  if l_lastevent L =? a then set_l_lastevent (prev_ptr kept - off) L else L.

Lemma prev_ptr_null evs kept r :
  frame l (m_events m) evs -> chain evs (kept ++ r) -> (prev_ptr kept =? NULL) = bool_decide (kept = []).
Proof.
  intros F H. unfold prev_ptr. destruct kept as [|b kept _] using rev_ind; [done|]. rewrite last_snoc.
  rewrite bool_decide_eq_false_2 by (by intros X%app_eq_nil; destruct X). apply Z.eqb_neq. intros X.
  assert (Hb : is_Some (evs !! b)) by (eapply chain_in; [exact H|set_solver]). revert Hb.
  replace b with (0 - off) by (unfold NULL in X; lia). rewrite (frame_none _ _ _ _ F Null). by intros [].
Qed.

Lemma unlink_last_holds evs evs' L L' kept a r :
  NoDup (kept ++ a :: r) -> holds evs L (kept ++ a :: r) -> chain evs' (kept ++ r) ->
  l_lastevent L' = l_lastevent L -> (forall c, head (kept ++ r) = Some c -> l_firstevent L' = c) ->
  holds evs' (unlink_last L' kept a) (kept ++ r).
Proof.
  intros Nd [_ _ Hl] Ch La Hf. unfold unlink_last. rewrite La. split; [done| |].
  - intros c Hc. destruct (_ =? a); by apply Hf.
  - intros c Hc. destruct r as [|d r].
    + rewrite (Hl a), Z.eqb_refl by (by rewrite last_app). rewrite app_nil_r in Hc. simpl.
      unfold prev_ptr. rewrite Hc. lia.
    + assert (Hd : last (kept ++ a :: d :: r) = Some c).
      { rewrite last_app in Hc |- *. by rewrite last_cons_cons. }
      specialize (Hl _ Hd). rewrite Hl. destruct (Z.eqb_spec c a) as [->|_]; [|simpl; congruence].
      exfalso. apply NoDup_app in Nd as (_ & _ & Nd). apply NoDup_cons in Nd as [Nd _]. apply Nd.
      rewrite last_app in Hd. rewrite last_cons_cons in Hd. destruct (last (d :: r)) eqn:E; [|by apply last_None in E].
      apply last_Some_elem_of. congruence.
Qed.

(** The stores that unlink the event [a] and give it to the attachment. *)
Lemma wp_unlink {B} (k : M B) (Q : B -> et_mem -> Prop) L lo fx evs kept a r e :
  NoDup (kept ++ a :: r) -> kept ++ a :: r ⊆ l -> holds evs L (kept ++ a :: r) ->
  frame l (m_events m) evs -> evs !! a = Some e ->
  (forall L' evs', holds evs' L' (kept ++ r) -> took evs evs' [a] ->
     nxt evs' a = Some (ev_next e) ->
     (exists f z, L' = set_l_firstevent f (set_l_lastevent z L)) ->
     wp k Q nc (V L' lo fx evs')) ->
  wp (str_ev off (a + off) (set_ev_owner att) ;;;
      (if prev_ptr kept =? NULL then str_list pl (set_l_firstevent (ev_next e))
       else str_ev off (prev_ptr kept) (set_ev_next (ev_next e))) ;;;
      let* L := ld_list pl in
      when (l_lastevent L =? ET_PEVENT2ET (a + off) off) (str_list pl (set_l_lastevent (ET_PEVENT2ET (prev_ptr kept) off))) ;;;
      k) Q nc (V L lo fx evs).
Proof.
  intros Nd Sub H F Ee Hk. pose proof (hd_chain _ _ _ H) as Ch.
  rewrite (prev_ptr_null evs kept (a :: r)) by done.
  wstep. eapply wp_str_ev; rewrite ?Z.add_simpl_r; [exact Ee|done|]. set (evs1 := <[a := set_ev_owner att e]> evs).
  assert (Ha : a ∈ l) by (apply Sub; set_solver).
  assert (T1 : took evs evs1 [a]).
  { split; [by eapply frame_insert|]. intros b. unfold evs1. rewrite owner_insert.
    case_decide; subst; [by rewrite decide_True by set_solver|by rewrite decide_False by set_solver]. }
  assert (Nx1 : forall b, nxt evs1 b = nxt evs b).
  { intros b. unfold evs1. destruct (decide (a = b)) as [<-|Nb]; [|by rewrite nxt_insert_ne].
    rewrite nxt_insert_eq. unfold nxt. by rewrite Ee. }
  assert (Nxa : nxt evs1 a = Some (ev_next e)) by (rewrite Nx1; unfold nxt; by rewrite Ee).
  assert (Ch1 : chain evs1 (kept ++ a :: r)) by (by eapply chain_ext; [intros b _; apply Nx1|]).
  assert (Hend : forall L1 evs2, l_lastevent L1 = l_lastevent L -> (exists f, L1 = set_l_firstevent f L) ->
    chain evs2 (kept ++ r) -> (forall c, head (kept ++ r) = Some c -> l_firstevent L1 = c) -> took evs evs2 [a] ->
    nxt evs2 a = Some (ev_next e) ->
    wp (let* L := ld_list pl in
        when (l_lastevent L =? a) (str_list pl (set_l_lastevent (prev_ptr kept - off))) ;;; k)
      Q nc (V L1 lo fx evs2)).
  { intros L1 evs2 La (f & E1) Ch2 Hf T2 Nx2. wstep. wstep. wstep. wstep.
    pose proof (unlink_last_holds evs evs2 L L1 kept a r Nd H Ch2 La Hf) as U. unfold unlink_last in U.
    destruct (l_lastevent L1 =? a); [wstep; [done|]|]; (apply Hk; [done|done|done|]); rewrite E1.
    - by exists f, (prev_ptr kept - off).
    - exists f, (l_lastevent L). by destruct L. }
  case_bool_decide as K; [subst kept|].
  - wstep. wstep; [done|]. apply Hend; try done; [by exists (ev_next e)| |].
    + destruct Ch1 as (_ & ? & _). done.
    + intros c Hc. simpl. destruct Ch1 as (_ & _ & X). destruct r; [done|]. simplify_eq/=. congruence.
  - destruct kept as [|b kept _] using rev_ind; [done|]. clear K.
    unfold prev_ptr in Hend |- *. rewrite last_snoc in Hend |- *. rewrite Z.add_simpl_r in Hend.
    assert (Lb : last (kept ++ [b]) = Some b) by apply last_snoc.
    rewrite <- app_assoc in Ch1, Nd. simpl in Ch1, Nd.
    assert (Ebs : is_Some (evs1 !! b)) by (eapply chain_in; [exact Ch1|set_solver]). destruct Ebs as [eb Eb].
    wstep. eapply wp_str_ev; rewrite ?Z.add_simpl_r; [exact Eb|done|].
    assert (Nab : a <> b).
    { intros ->. apply NoDup_app in Nd as (_ & _ & Nd). apply NoDup_cons in Nd as [Nd _]. set_solver. }
    apply (Hend L (<[b := set_ev_next (ev_next e) eb]> evs1)); [done|exists (l_firstevent L); by destruct L| | | |].
    + rewrite <- app_assoc. simpl. by eapply chain_unlink.
    + intros c Hc. apply (hd_first _ _ _ H). rewrite <- app_assoc in Hc |- *. by destruct kept.
    + destruct T1 as [F1 O1]. split.
      * eapply frame_trans; [reflexivity|reflexivity|exact F1|]. eapply frame_insert; [exact Eb| |done].
        apply Sub. rewrite <- app_assoc. set_solver.
      * intros c. by rewrite (owner_next _ _ _ _ _ Eb).
    + rewrite nxt_insert_ne by done. done.
Qed.

(** What the loop leaves: [t] was taken off a list that then holds [k]. *)
Definition grouped (evs : gmap Z et_event) (L : et_list) (t k : list Z) (L' : et_list) (evs' : gmap Z et_event) : Prop :=
  holds evs' L' k /\ took evs evs' t /\ exists f z, L' = set_l_firstevent f (set_l_lastevent z L).

Lemma in_group_frame evs gr a : frame l (m_events m) evs -> in_group evs gr a = in_group (m_events m) gr a.
Proof.
  intros [C _]. apply (same_core_lookup _ _ a) in C. unfold in_group.
  destruct (m_events m !! a) as [e|], (evs !! a) as [e'|]; simpl in C; try done.
  apply (inj Some) in C. assert (ev_group (ev_core e) = ev_group (ev_core e')) as X by congruence.
  cbn in X. by rewrite X.
Qed.

Lemma wp_group_loop num lo fx r : forall kept idx L evs pev (Q : list Z -> et_mem -> Prop),
  NoDup (kept ++ r) -> kept ++ r ⊆ l -> holds evs L (kept ++ r) -> frame l (m_events m) evs ->
  idx < num -> (forall a, head r = Some a -> pev = a + off) ->
  (forall L' evs', grouped evs L (pick g (Z.to_nat (num - idx)) r).1 (kept ++ (pick g (Z.to_nat (num - idx)) r).2) L' evs' ->
     Q (map (fun a => a + off) (pick g (Z.to_nat (num - idx)) r).1) (V L' lo fx evs')) ->
  wp (group_loop off pl att group num (length r) pev (prev_ptr kept) idx) Q nc (V L lo fx evs).
Proof.
  induction r as [|a r IH]; intros kept idx L evs pev Q Nd Sub H F Hidx Hp HQ; cbn [length group_loop].
  { wstep. replace (pick g (Z.to_nat (num - idx)) []) with (@nil Z, @nil Z) in HQ by by destruct (Z.to_nat _).
    apply (HQ L evs). split_and!; [done|apply took_nil|]. exists (l_firstevent L), (l_lastevent L). by destruct L. }
  rewrite (Hp a) by done. destruct (Z.to_nat (num - idx)) as [|n] eqn:En; [lia|].
  assert (Ea : is_Some (evs !! a)) by (eapply chain_in; [apply H|set_solver]). destruct Ea as [e Ee].
  assert (Hn : forall c evs' k, chain evs' (k ++ a :: r) \/ (forall x, head r = Some x -> nxt evs' a = Some x) ->
    nxt evs' a = Some c -> forall x, head r = Some x -> ET_PEVENT2USR c off = x + off).
  { intros c evs' k X Nx x Hx. unfold ET_PEVENT2USR. destruct X as [X|X].
    - destruct r as [|y r]; simplify_eq/=. apply chain_next in X. congruence.
    - specialize (X x Hx). congruence. }
  assert (Hg : (ev_group e =? group) = g a) by (rewrite <- (in_group_frame evs) by done; unfold in_group; by rewrite Ee).
  wstep. eapply wp_ld_ev; [rewrite Z.add_simpl_r; exact Ee|]. rewrite Hg. simpl in HQ. destruct (g a); cbn [negb].
  - apply (wp_unlink _ _ _ _ _ _ kept a r e); try done. intros L' evs' H' T' Nx' (f & z & EL).
    destruct (Z.leb_spec num (idx + 1)).
    + wstep. assert (n = O) as -> by lia. rewrite pick_O in HQ. apply HQ. split_and!; [done|done|by exists f, z].
    + assert (Ea' : is_Some (evs' !! a)) by (unfold nxt in Nx'; destruct (evs' !! a); [by eexists|done]).
      destruct Ea' as [e' Ee']. assert (ev_next e' = ev_next e) as Ne by (unfold nxt in Nx'; rewrite Ee' in Nx'; simpl in Nx'; congruence).
      wstep. eapply wp_ld_ev; [rewrite Z.add_simpl_r; exact Ee'|]. wstep.
      assert (Hs : kept ++ r ⊆ l) by set_solver.
      assert (Nd' : NoDup (kept ++ r)) by (eapply sublist_NoDup; [exact Nd|apply sublist_app; [done|by apply sublist_cons]]).
      assert (F' : frame l (m_events m) evs') by (eapply frame_trans; [reflexivity|reflexivity|exact F|apply T']).
      apply IH; try done; [|].
      * apply (Hn _ evs kept); [left; apply H|]. unfold nxt. rewrite Ee. simpl. by rewrite Ne.
      * replace (Z.to_nat (num - (idx + 1))) with n by lia. intros L2 evs2 (H2 & T2 & f2 & z2 & E2). wstep.
        destruct (pick g n r) as [t rest]. apply HQ. split_and!; [done|by eapply took_cons|].
        exists f2, z2. by rewrite E2, EL.
  - replace (a + off) with (prev_ptr (kept ++ [a])) by (unfold prev_ptr; by rewrite last_snoc).
    assert (Eq : forall k, (kept ++ [a]) ++ k = kept ++ a :: k) by (intros; by rewrite <- app_assoc).
    apply IH; rewrite ?Eq; try done.
    + apply (Hn _ evs kept); [left; apply H|]. unfold nxt. by rewrite Ee.
    + rewrite En. intros L2 evs2 G2. destruct (pick g (S n) r) as [t rest]. simpl in *. by apply HQ.
Qed.
End group.

(** ** The specification *)

(** The result of a read of a group: [t] belongs to [att] and the list holds [k]. *)
Definition have_group (m : et_mem) (s : Z) (ps : et_station) (l : list Z) (att : Z) (t k : list Z)
    (m' : et_mem) : Prop :=
  exists hg li fx evs,
    m' = lview (set_m_histogram hg m) s ps li (st_list_out ps) fx evs /\
    list_rep evs li k /\ l_mutex li = false /\ fix_in_first fx = NULL /\
    l_lasthigh li = l_lasthigh (st_list_in ps) /\ l_events_in li = l_events_in (st_list_in ps) /\
    took l att (m_events m) evs t.

Section spec.
Context (m : et_mem) (s : Z) (ps : et_station) (l : list Z) (att group : Z) (id : et_id).
Hypothesis P : read_pre m s ps l.
Hypothesis Null : m_events m !! (0 - id_offset id) = None.
Abbreviation V hg := (lview (set_m_histogram hg m) s ps).
Abbreviation lo := (st_list_out ps).
Abbreviation off := (id_offset id).
Abbreviation g := (in_group (m_events m) group).

(** The end of the pass. *)
Lemma wp_group_finish {B} (r : B) (Q : B -> et_mem -> Prop) hg L fx evs t k :
  t ++ k ≡ₚ l -> l_mutex L = true -> l_cnt L = Z.of_nat (length l) ->
  l_lasthigh L = l_lasthigh (st_list_in ps) -> l_events_in L = l_events_in (st_list_in ps) ->
  holds evs L k -> took l att (m_events m) evs t ->
  (forall m', have_group m s ps l att t k m' -> Q r m') ->
  wp (str_list (LIn s) (fun L => set_l_cnt (l_cnt L - Z.of_nat (length (map (fun a => a + off) t))) L) ;;;
      str_fix s (set_fix_in_first NULL) ;;;
      et_llist_unlock (LIn s) ;;; ret r) Q (fun _ => True) (V hg L lo fx evs).
Proof.
  intros Pm Mx Cn Lh Ei [H1 H2 H3] [F O] HQ. wstep. wstep; [done|]. wstep. wstep; [done|].
  wstep. wstep. wstep; [done|]. wstep. apply HQ. eexists hg, _, _, evs. split; [done|].
  assert (Nd : NoDup (t ++ k)) by (rewrite Pm; apply P). pose proof (rd_in _ _ _ _ P) as R.
  split_and!; try done.
  split; try done.
  - cbn. rewrite Cn, length_map, <- Pm, length_app. lia.
  - by apply NoDup_app in Nd as (_ & _ & Nd).
  - apply List.Forall_forall. intros a Ha%list_elem_of_In. rewrite O, decide_False.
    + pose proof (lr_owner _ _ _ R) as W. rewrite List.Forall_forall in W. apply W, list_elem_of_In.
      rewrite <- Pm. set_solver.
    + intros X. apply NoDup_app in Nd as (_ & Nd & _). by apply (Nd a).
Qed.

Lemma wp_group_pass mode num :
  may_read m mode att -> 1 <= num -> l <> [] ->
  wp (group_pass id s mode att num group true)
    (fun r m' => let (t, k) := pick g (Z.to_nat num) l in
       (exists num', r = inr (map (fun a => a + off) t, num')) /\ have_group m s ps l att t k m')
    (fun _ => True) m.
Proof.
  intros Mo Hnum Ne. pose proof (rd_in _ _ _ _ P) as R. pose proof (lr_cnt _ _ _ R) as Cn.
  assert (Hl : (1 <= 1 <= length l)%nat) by (destruct l; [done|simpl; lia]).
  unfold group_pass. apply wp_bind.
  eapply wp_mono with (C := read_crash m s ps l att 1); [|intros a m1 X; exact X|done].
  apply wp_read_begin; [done|done|done|done|]. intros hg. wstep. wstep. cbn [l_cnt l_firstevent set_l_mutex].
  do 4 (wstep; wstep; [done|]). wstep.
  set (fx := set_fix_in_first _ _). set (num' := if _ <? num then _ else _).
  assert (En : num' = Z.min (Z.of_nat (length l)) num) by (subst num'; rewrite Cn; destruct (Z.ltb_spec (Z.of_nat (length l)) num); lia).
  clearbody fx num'. assert (Hn1 : 0 < num') by lia.
  assert (Ep : pick g (Z.to_nat num') l = pick g (Z.to_nat num) l) by (rewrite <- (pick_min g (Z.to_nat num)); f_equal; lia).
  rewrite Cn, Nat2Z.id. rewrite <- Ep. pose proof (pick_perm g (Z.to_nat num') l) as Pm.
  apply (wp_group_loop (set_m_histogram hg m) s ps off l att group (lr_nodup _ _ _ R) Null num' lo fx l []); try done; try apply R.
  - split; apply R.
  - intros a Ha. unfold ET_PEVENT2USR. f_equal. by apply (lr_first _ _ _ R).
  - rewrite Z.sub_0_r. intros L' evs' (H' & T' & f & z & ->).
    change (m_events (set_m_histogram hg m)) with (m_events m) in *. destruct (pick g (Z.to_nat num') l) as [t k].
    apply (wp_group_finish _ _ hg _ _ evs' t k); try done. intros m' HG. split; [by eexists|done].
Qed.

Lemma wp_nread_group mode num :
  may_read m mode att -> 1 <= num -> l <> [] ->
  mode = ET_ASYNC \/ (exists a, a ∈ l /\ g a = true) ->
  wp (et_station_nread_group id s mode att num group)
    (fun r m' => let (t, k) := pick g (Z.to_nat num) l in
       r = (ET_OK, map (fun a => a + off) t) /\ have_group m s ps l att t k m') (fun _ => True) m.
Proof.
  intros Mo Hnum Ne Hm. unfold et_station_nread_group. destruct (Z.ltb_spec num 1); [lia|].
  apply wp_with_wakes. cbn [group_passes]. apply wp_bind. eapply wp_mono; [by apply wp_group_pass| |done].
  intros r m' H'. pose proof (pick_taken g (Z.to_nat num) l) as Pt.
  destruct (pick g (Z.to_nat num) l) as [t k]. destruct H' as ((num' & ->) & H'). simpl in Pt.
  rewrite length_map. destruct ((length t =? 0)%nat && negb (mode =? ET_ASYNC)) eqn:T; [|by apply wp_ret].
  exfalso. apply andb_true_iff in T as [T1 T2]. apply Nat.eqb_eq in T1. destruct Hm as [->|(a & Ha & Ga)]; [done|].
  apply (f_equal length) in Pt. rewrite length_take, T1 in Pt.
  assert (X : List.In a (List.filter g l)) by (apply List.filter_In; split; [by apply list_elem_of_In|done]).
  destruct (List.filter g l); [done|]. simpl in Pt. lia.
Qed.
End spec.

(** C7: et_station_nread_group with events in the list, at least one of them of the group unless it may
    return with nothing: it returns ET_OK and the first [num] events of the group in list order; they
    belong to the attachment, and the input list holds all other events in their old order, unlocked
    and in no need of repair. *)
Theorem et_station_nread_group_spec m s ps l att mode num group id :
  read_pre m s ps l -> m_events m !! (0 - id_offset id) = None -> may_read m mode att -> 1 <= num -> l <> [] ->
  mode = ET_ASYNC \/ (exists a, a ∈ l /\ in_group (m_events m) group a = true) ->
  exists t k x m', run (et_station_nread_group id s mode att num group) m =
      Ok (ET_OK, map (fun a => a + id_offset id) t) x m' /\
    t = take (Z.to_nat num) (List.filter (in_group (m_events m) group) l) /\
    t ++ k ≡ₚ l /\ k `sublist_of` l /\ have_group m s ps l att t k m'.
Proof.
  intros P Nu Mo Hnum Ne Hm. destruct (wp_run _ _ _ _ (wp_nread_group m s ps l att group id P Nu mode num Mo Hnum Ne Hm))
    as (r & x & m' & E & H). pose proof (pick_taken (in_group (m_events m) group) (Z.to_nat num) l) as Pt.
  pose proof (pick_perm (in_group (m_events m) group) (Z.to_nat num) l) as Pp.
  pose proof (pick_rest (in_group (m_events m) group) (Z.to_nat num) l) as Pr.
  destruct (pick _ _ l) as [t k]. destruct H as [-> H]. by exists t, k, x, m'.
Qed.

(** The second event of the list alone is of group 2. *)
Definition mem_groups : et_mem := upd_ev 100 (set_ev_group 2) mem0.

Lemma et_station_nread_group_spec_witness :
  exists k x m', run (et_station_nread_group id0 1 ET_SLEEP 0 3 2) mem_groups = Ok (ET_OK, [100 + off0]) x m' /\
    k ≡ₚ [200] /\ have_group mem_groups 1 (stat0 1) [200; 100] 0 [100] k m'.
Proof.
  destruct (et_station_nread_group_spec mem_groups 1 (stat0 1) [200; 100] 0 ET_SLEEP 3 2 id0)
    as (t & k & x & m' & E & Et & Pm & _ & H).
  - split; try by_eval. split; try by_eval; try (intros a [= <-]; reflexivity).
  - by_eval.
  - by left.
  - lia.
  - done.
  - right. exists 100. split; [set_solver|reflexivity].
  - assert (t = [100]) as -> by (rewrite Et; vm_compute; reflexivity).
    exists k, x, m'. split; [exact E|]. split; [|exact H].
    apply (Permutation_cons_inv (a := 100)). simpl in Pm. rewrite Pm. apply Permutation_swap.
Defined.
