(* ===== verification/EventSpec.v ===== *)
(** * The correctness of making and getting events

    et_events_new, et_events_new_group and et_events_get: the events that a read takes off an input
    list are set up and counted for the attachment.  The theorems put the specifications of the
    reads, the frame of the functions of the interface, and that of temporary events together. *)
From stdpp Require Import base gmap strings list.
From S2P Require Import Prelude Types Machine EvList Local Sample Write Repair Read Group Stats Api Init Temp EventApi.
Open Scope Z_scope.

(** ** Rules *)

Section rules.
Context (C : et_mem -> Prop).

Lemma wps_ld_attach att a (Q : et_attach -> et_mem -> Prop) m :
  sys_attach (m_sys m) !! att = Some a -> Q a m -> wp (ld_attach att) Q C m.
Proof. intros E H. unfold ld_attach. apply wp_bind, wps_ld_sys. by eapply wp_of_option. Qed.

Lemma wps_ld_ev off a e (Q : et_event -> et_mem -> Prop) m :
  m_events m !! a = Some e -> Q e m -> wp (ld_ev off (a + off)) Q C m.
Proof. intros E H. unfold ld_ev. apply wp_bind, wp_getm. eapply wp_of_option; [by rewrite Z.add_simpl_r|done]. Qed.

Lemma wps_str_ev off a e f (Q : unit -> et_mem -> Prop) m :
  m_events m !! a = Some e -> C m -> Q tt (set_m_events (<[a := f e]> (m_events m)) m) ->
  wp (str_ev off (a + off) f) Q C m.
Proof.
  intros E HC H. unfold str_ev. apply wp_bind. eapply wps_ld_ev; [done|]. apply wp_store; [done|].
  unfold upd_ev. rewrite Z.add_simpl_r. replace (alter f a (m_events m)) with (<[a := f e]> (m_events m)); [done|].
  apply map_eq. intros i. destruct (decide (a = i)) as [<-|Ne].
  - by rewrite lookup_insert_eq, lookup_alter_eq, E.
  - by rewrite lookup_insert_ne, lookup_alter_ne.
Qed.
End rules.

Abbreviation nc := (fun _ => True).

Lemma wp_str_evs off a fs : forall e (Q : unit -> et_mem -> Prop) m,
  m_events m !! a = Some e -> Q tt (set_m_events (<[a := stores fs e]> (m_events m)) m) ->
  wp (str_evs off (a + off) fs) Q nc m.
Proof.
  induction fs as [|f fs IH]; intros e Q m E H.
  - apply wp_ret. simpl in H. rewrite insert_id in H by done. by destruct m.
  - unfold str_evs in *. simpl. apply wp_bind. eapply wps_str_ev; [exact E|done|].
    apply (IH (f e)); [apply lookup_insert_eq|]. cbn [m_events set_m_events]. rewrite insert_insert_eq. exact H.
Qed.

(** What et_init_event_ makes of an event. *)
Definition init_event (e : et_event) : et_event :=
  mkEvent NULL NULL NULL (ev_data e) 0 0 0 0 ET_LOW (ev_owner e) ET_EVENT_NORMAL ET_EVENT_NEW ET_DATA_OK
    67305985 (ev_group e) (ev_place e) control0 (ev_filename e).

Lemma wp_init_event_ off a e (Q : unit -> et_mem -> Prop) m :
  m_events m !! a = Some e -> Q tt (set_m_events (<[a := init_event e]> (m_events m)) m) ->
  wp (et_init_event_ off (a + off)) Q nc m.
Proof.
  intros E H. unfold et_init_event_. apply wp_bind. eapply wps_ld_ev; [exact E|]. cbv zeta.
  apply wp_bind. unfold et_init_event. eapply wp_str_evs; [exact E|].
  eapply wp_str_evs; [apply lookup_insert_eq|]. cbn [m_events set_m_events]. rewrite insert_insert_eq. exact H.
Qed.

(** ** Changes of some events *)

(** The events [xs] are changed as [f] allows, all others are as before. *)
Definition changed (f : et_event -> et_event -> Prop) (xs : list Z) (evs evs' : gmap Z et_event) : Prop :=
  forall a, match evs !! a with
            | None => evs' !! a = None
            | Some e => exists e', evs' !! a = Some e' /\ if decide (a ∈ xs) then f e e' else e' = e
            end.

Lemma changed_nil f evs : changed f [] evs evs.
Proof. intros a. destruct (evs !! a) as [e|]; [|done]. exists e. split; [done|]. by rewrite decide_False by set_solver. Qed.

(** One more event; [f] does not see a change by [f]. *)
Lemma changed_cons (f : et_event -> et_event -> Prop) x xs evs e e' evs' :
  (forall e1 e2 e3, f e1 e2 -> f e2 e3 -> f e1 e3) ->
  evs !! x = Some e -> f e e' -> changed f xs (<[x := e']> evs) evs' -> changed f (x :: xs) evs evs'.
Proof.
  intros T E F H a. specialize (H a). destruct (decide (a = x)) as [->|N].
  - rewrite lookup_insert_eq in H. rewrite E. destruct H as (e2 & E2 & H). exists e2. split; [done|].
    rewrite decide_True by set_solver. case_decide; [by eapply T|congruence].
  - rewrite lookup_insert_ne in H by done. destruct (evs !! a) as [e1|]; [|done]. destruct H as (e2 & E2 & H).
    exists e2. split; [done|]. case_decide as D; case_decide as D'; try done; set_solver.
Qed.

Lemma changed_weaken (f g : et_event -> et_event -> Prop) xs evs evs' :
  (forall e e', f e e' -> g e e') -> changed f xs evs evs' -> changed g xs evs evs'.
Proof.
  intros I H a. specialize (H a). destruct (evs !! a) as [e|]; [|done]. destruct H as (e' & E & H).
  exists e'. split; [done|]. case_decide; auto.
Qed.

(** ** Access to the data *)

Section data.
Context `{K0 : Kernel} `{QK : !QuietKernel}.

(** The address [p] is where a mapping of this file was put. *)
Definition mapped_at (name : string) (size p : Z) : Prop :=
  p <> NULL /\ exists x m x' m', et_temp_attach name size x m = Ok p x' m'.

(** The file cannot be mapped; the answer of munmap. *)
Definition not_mapped (name : string) (size : Z) : Prop :=
  exists x m x' m', et_temp_attach name size x m = Ok NULL x' m'.
Definition munmap_says (st p size : Z) : Prop :=
  exists x m x' m', sys_munmap p size x m = Ok st x' m'.

(** The event [e] as a process with the mapping [off] gets it. *)
Definition with_data (off : Z) (e e' : et_event) : Prop :=
  exists p, e' = set_ev_pdata p e /\
    if decide (ev_temp e = ET_EVENT_TEMP) then mapped_at (ev_filename e) (ev_memsize e) p else p = ev_data e + off.

Lemma with_data_trans off e1 e2 e3 : with_data off e1 e2 -> with_data off e2 e3 -> with_data off e1 e3.
Proof. intros (p & -> & _) (q & -> & Hq). by exists q. Qed.

(** The result of the loop: with [ok] all events were done, else those before a temporary event. *)
Definition data_result (off : Z) (xs : list Z) (m : et_mem) (ok : bool) (m' : et_mem) : Prop :=
  exists ys, m' = set_m_events (m_events m') m /\ changed (with_data off) ys (m_events m) (m_events m') /\
    if ok then ys = xs
    else exists z zs e, xs = ys ++ z :: zs /\ m_events m !! z = Some e /\ ev_temp e = ET_EVENT_TEMP /\
        not_mapped (ev_filename e) (ev_memsize e).

Lemma data_result_cons off x xs e p m ok m' :
  m_events m !! x = Some e ->
  (if decide (ev_temp e = ET_EVENT_TEMP) then mapped_at (ev_filename e) (ev_memsize e) p else p = ev_data e + off) ->
  data_result off xs (set_m_events (<[x := set_ev_pdata p e]> (m_events m)) m) ok m' ->
  data_result off (x :: xs) m ok m'.
Proof.
  intros E Hp (ys & Em & Ch & H). exists (x :: ys). split; [by rewrite Em|]. split.
  - eapply changed_cons; [apply with_data_trans|exact E| |exact Ch]. by exists p.
  - destruct ok; [by rewrite H|]. destruct H as (z & zs & e1 & -> & Ez & T). exists z, zs.
    cbn [m_events set_m_events] in Ez. destruct (decide (x = z)) as [<-|N].
    + rewrite lookup_insert_eq in Ez. apply (inj Some) in Ez as <-. by exists e.
    + rewrite lookup_insert_ne in Ez by done. by exists e1.
Qed.

Lemma wp_data_loop off xs : forall m (Q : bool -> et_mem -> Prop),
  (forall x, x ∈ xs -> is_Some (m_events m !! x)) ->
  (forall ok m', data_result off xs m ok m' -> Q ok m') ->
  wp (data_loop off (map (fun x => x + off) xs)) Q nc m.
Proof.
  induction xs as [|x xs IH]; intros m Q D HQ; cbn [map data_loop].
  { apply wp_ret, HQ. exists []. split; [by destruct m|]. split; [apply changed_nil|done]. }
  destruct (D x) as [e E]; [set_solver|]. apply wp_bind. eapply wps_ld_ev; [exact E|].
  assert (Hnext : forall p,
    (if decide (ev_temp e = ET_EVENT_TEMP) then mapped_at (ev_filename e) (ev_memsize e) p else p = ev_data e + off) ->
    wp (str_ev off (x + off) (set_ev_pdata p) ;;; data_loop off (map (fun x => x + off) xs)) Q nc m).
  { intros p Hp. apply wp_bind. eapply wps_str_ev; [exact E|done|]. apply IH.
    - intros y Hy. cbn. rewrite lookup_insert_is_Some'. right. apply D. set_solver.
    - intros ok m' R. apply HQ. by eapply data_result_cons. }
  destruct (Z.eqb_spec (ev_temp e) ET_EVENT_TEMP) as [T|T]; cbn [negb]; [|apply Hnext; by rewrite decide_False].
  apply wp_bind, wp_quiet_result; [auto with quiet|]. intros p x0 m0 x1 m1 Ep.
  destruct (Z.eqb_spec p NULL); [|apply Hnext; rewrite decide_True by done; split; [done|by exists x0, m0, x1, m1]].
  subst p. apply wp_ret, HQ. exists []. split; [by destruct m|]. split; [apply changed_nil|]. exists x, xs, e.
  split_and!; [done..|by exists x0, m0, x1, m1].
Qed.
End data.

(** ** The frame of a function that reads *)

Section call.
Context `{R0 : Remote} (id : et_id) (m : et_mem) (L : local_call id m).

Lemma wp_reading_call {A} (err : Z -> A) (body : M (Z + A)) (Q : A -> et_mem -> Prop) :
  match call_error id with
  | Some e => Q (err e) m
  | None =>
      wp body
        (fun r m' => m_rwlock m' = m_rwlock m + 1 /\
           match r with
           | inl status => status <> ET_ERROR_WAKEUP /\ Q (err status) (set_m_rwlock (m_rwlock m) m')
           | inr a => Q a (set_m_rwlock (m_rwlock m) m')
           end) nc (set_m_rwlock (m_rwlock m + 1) m)
  end -> wp (reading_call id err body) Q nc m.
Proof.
  intros HQ. unfold reading_call. apply wp_bind.
  apply (wp_alive_call id m L (fun e => inr (err e)) body). destruct (call_error id); [by apply wp_ret|].
  eapply wp_mono; [exact HQ| |done]. intros [status|a] m' [K H']; (split; [done|]); [|by apply wp_ret].
  destruct H' as [N H']. unfold read_failed. rewrite (proj2 (Z.eqb_neq _ _) N). by apply wp_bind, wp_ret, wp_ret.
Qed.
End call.

Lemma have_read_rwlock k m s ps l att n m1 :
  have_read (set_m_rwlock k m) s ps l att n m1 -> have_read m s ps l att n (set_m_rwlock (m_rwlock m) m1).
Proof. intros (hg & li & fx & -> & H). exists hg, li, fx. split; [by destruct m|exact H]. Qed.

Lemma read_pre_rwlock k m s ps l : read_pre m s ps l -> read_pre (set_m_rwlock k m) s ps l.
Proof. intros [H1 H2 H3 H4 H5]. by split. Qed.

Lemma have_group_rwlock k m s ps l att t r m1 :
  have_group (set_m_rwlock k m) s ps l att t r m1 -> have_group m s ps l att t r (set_m_rwlock (m_rwlock m) m1).
Proof. intros (hg & li & fx & evs & -> & H). exists hg, li, fx, evs. split; [by destruct m|exact H]. Qed.

Lemma may_read_rwlock k m mode att : may_read m mode att -> may_read (set_m_rwlock k m) mode att.
Proof. done. Qed.

Lemma have_read_dom m s ps l att n m1 x :
  have_read m s ps l att n m1 -> is_Some (m_events m !! x) -> is_Some (m_events m1 !! x).
Proof.
  intros (hg & li & fx & -> & _) D. cbn. rewrite set_owners_lookup. case_decide; [by apply fmap_is_Some|done].
Qed.

Lemma have_read_sys m s ps l att n m1 : have_read m s ps l att n m1 -> m_sys m1 = m_sys m /\ m_rwlock m1 = m_rwlock m.
Proof. by intros (hg & li & fx & -> & _). Qed.

Lemma have_group_dom m s ps l att t r m1 x :
  have_group m s ps l att t r m1 -> is_Some (m_events m !! x) -> is_Some (m_events m1 !! x).
Proof. intros (hg & li & fx & evs & -> & H). cbn. destruct H as (_ & _ & _ & _ & _ & F & _). by eapply frame_lookup. Qed.

Lemma have_group_sys m s ps l att t r m1 : have_group m s ps l att t r m1 -> m_sys m1 = m_sys m /\ m_rwlock m1 = m_rwlock m.
Proof. by intros (hg & li & fx & evs & -> & _). Qed.

(** ** Getting events *)

(** The events [xs] were read and [m1] is the memory then: all of them can be used and were counted,
    or the data of one cannot be mapped.  Even then they belong to the attachment, although the
    caller is told that there are none. *)
Definition get_done `{K0 : Kernel} (off att : Z) (xs : list Z) (m1 : et_mem) (r : Z * list Z * Z) (m' : et_mem) : Prop :=
  exists ys evs, changed (with_data off) ys (m_events m1) evs /\
    ((r = (ET_OK, map (fun x => x + off) xs, Z.of_nat (length xs)) /\ ys = xs /\
      m' = upd_attach att (fun a => set_at_events_get (u64 (at_events_get a + Z.of_nat (length xs))) a) (set_m_events evs m1)) \/
     (r = (ET_ERROR, map (fun x => x + off) xs, 0) /\
      (exists z zs e, xs = ys ++ z :: zs /\ m_events m1 !! z = Some e /\ ev_temp e = ET_EVENT_TEMP /\
        not_mapped (ev_filename e) (ev_memsize e)) /\
      m' = set_m_events evs m1)).

Lemma get_done_rwlock `{K0 : Kernel} k off att xs m1 r m' :
  get_done off att xs m1 r m' -> get_done off att xs (set_m_rwlock k m1) r (set_m_rwlock k m').
Proof.
  intros (ys & evs & Ch & H). exists ys, evs. split; [done|].
  destruct H as [(? & ? & ->)|(? & ? & ->)]; [left|right]; (split; [done|split; [done|by destruct m1]]).
Qed.

Section get.
Context `{K0 : Kernel} `{QK : !QuietKernel}.

Lemma wp_wait_until {A} wait deltatime (read : option timespec -> M A) (Q : A -> et_mem -> Prop) m :
  (wait = ET_TIMED -> is_Some deltatime) -> (forall t, wp (read t) Q nc m) -> wp (wait_until wait deltatime read) Q nc m.
Proof.
  intros D H. unfold wait_until. destruct (Z.eqb_spec wait ET_TIMED) as [E|]; cbn [negb]; [|apply H].
  destruct (D E) as [d ->]. apply wp_bind, wp_quiet; [auto with quiet|]. intros now. apply H.
Qed.

Lemma bad_wait_timed mode deltatime :
  bad_wait mode deltatime = false -> Z.land mode ET_WAIT_MASK = ET_TIMED -> is_Some deltatime.
Proof. unfold bad_wait. intros H E. rewrite E in H. simpl in H. by destruct deltatime. Qed.

(** The body of the functions that get events, for any read. *)
Lemma wp_get_events id att a read xs (R : et_mem -> Prop) m :
  sys_attach (m_sys m) !! att = Some a -> at_status a = ET_ATT_ACTIVE -> at_stat a <> ET_GRANDCENTRAL ->
  wp (read (at_stat a)) (fun r m1 => r = (ET_OK, map (fun x => x + id_offset id) xs) /\ R m1) nc m ->
  (forall m1, R m1 -> m_sys m1 = m_sys m /\ m_rwlock m1 = m_rwlock m /\ forall x, x ∈ xs -> is_Some (m_events m1 !! x)) ->
  wp (get_events id att read)
    (fun r m' => m_rwlock m' = m_rwlock m /\
       exists m1 r', r = inr r' /\ R m1 /\ get_done (id_offset id) att xs m1 r' m') nc m.
Proof.
  intros Ea St Gc Hr HR. unfold get_events. apply wp_bind. eapply wps_ld_attach; [exact Ea|].
  rewrite St, Z.eqb_refl. cbn [negb]. rewrite (proj2 (Z.eqb_neq _ _) Gc). apply wp_bind.
  eapply wp_mono; [exact Hr| |done]. intros r m1 [-> Rm]. destruct (HR m1 Rm) as (Sy & Rw & D).
  change (ET_OK =? ET_OK) with true. cbn [negb]. apply wp_bind, wp_data_loop; [done|].
  intros ok m2 (ys & Em & Ch & H). destruct ok; cbn [negb].
  - subst ys. apply wp_bind. eapply wps_str_attach; [rewrite Em; cbn; rewrite Sy; exact Ea|done|]. apply wp_ret.
    rewrite length_map, Em. split; [done|]. eexists m1, _. split; [done|]. split; [done|].
    exists xs, (m_events m2). split; [done|]. by left.
  - apply wp_ret. rewrite Em. split; [done|]. eexists m1, _. split; [done|]. split; [done|].
    exists ys, (m_events m2). split; [done|]. by right.
Qed.
End get.

(** Why et_events_get returns before it reads; [None] if it reads. *)
Definition get_refused (id : et_id) (m : et_mem) (att : Z) (given : bool) (mode : Z) (deltatime : option timespec)
    (num : Z) : option Z :=
  if num =? 0 then Some ET_OK
  else if (att <? 0) || negb given || (num <? 0) || bad_wait mode deltatime then Some ET_ERROR
  else
    match call_error id, sys_attach (m_sys m) !! att with
    | Some e, _ => Some e
    | None, None => None
    | None, Some a =>
        if negb (at_status a =? ET_ATT_ACTIVE) || (at_stat a =? ET_GRANDCENTRAL) then Some ET_ERROR else None
    end.

Lemma set_rwlock_id m : set_m_rwlock (m_rwlock m) (set_m_rwlock (m_rwlock m + 1) m) = m.
Proof. by destruct m. Qed.

Section events_get.
Context `{R0 : Remote} `{R1 : RemoteEvents} `{K0 : Kernel} `{QK : !QuietKernel}.

Lemma wp_events_get_refused id m att given mode deltatime num e :
  local_call id m -> get_refused id m att given mode deltatime num = Some e ->
  wp (et_events_get id att given mode deltatime num) (fun r m' => r = (e, [], 0) /\ m' = m) nc m.
Proof.
  intros L E. unfold get_refused, et_events_get in *. destruct (num =? 0); [apply (inj Some) in E as <-; by apply wp_ret|].
  destruct ((att <? 0) || negb given || (num <? 0)); [apply (inj Some) in E as <-; by apply wp_ret|]. cbn [orb] in E.
  destruct (bad_wait mode deltatime); [apply (inj Some) in E as <-; by apply wp_ret|]. rewrite (lc_local _ _ L). cbn.
  apply (wp_reading_call id m L). destruct (call_error id) as [e'|]; [by apply (inj Some) in E as <-|].
  destruct (sys_attach (m_sys m) !! att) as [a|] eqn:Ea; [|done].
  unfold get_events. apply wp_bind. eapply wps_ld_attach; [exact Ea|].
  destruct (negb _); [|cbn [orb] in E; destruct (_ =? _); [|done]]; apply (inj Some) in E as <-; apply wp_ret;
    (split; [done|split; [done|apply set_rwlock_id]]).
Qed.

Lemma get_refused_none id m att given mode deltatime num :
  get_refused id m att given mode deltatime num = None -> is_Some (sys_attach (m_sys m) !! att) ->
  num <> 0 /\ (att <? 0) = false /\ given = true /\ (num <? 0) = false /\ bad_wait mode deltatime = false /\ call_error id = None /\
  exists a, sys_attach (m_sys m) !! att = Some a /\ at_status a = ET_ATT_ACTIVE /\ at_stat a <> ET_GRANDCENTRAL.
Proof.
  unfold get_refused. intros E [a Ea]. rewrite Ea in E. destruct (Z.eqb_spec num 0); [done|].
  destruct (att <? 0), given, (num <? 0), (bad_wait mode deltatime), (call_error id); try done. cbn [orb negb] in E.
  destruct (negb (at_status a =? ET_ATT_ACTIVE)) eqn:S; [done|]. cbn [orb] in E. destruct (Z.eqb_spec (at_stat a) ET_GRANDCENTRAL); [done|].
  apply negb_false_iff, Z.eqb_eq in S. split_and!; try done. by exists a.
Qed.

Lemma wp_events_get id m att given mode deltatime num a ps l :
  local_call id m -> sys_attach (m_sys m) !! att = Some a ->
  get_refused id m att given mode deltatime num = None ->
  read_pre m (at_stat a) ps l -> may_read m (Z.land mode ET_WAIT_MASK) att -> l <> [] ->
  let n := Z.to_nat (Z.min num (Z.of_nat (length l))) in
  wp (et_events_get id att given mode deltatime num)
    (fun r m' => exists m1, have_read m (at_stat a) ps l att n m1 /\ get_done (id_offset id) att (take n l) m1 r m') nc m.
Proof.
  intros L Ea Ref P Mo Ne n. destruct (get_refused_none _ _ _ _ _ _ _ Ref (ex_intro _ a Ea))
    as (N0 & A0 & -> & Nn & Bw & Ce & a' & Ea' & St & Gc). rewrite Ea in Ea'. apply (inj Some) in Ea' as <-.
  unfold et_events_get. rewrite (proj2 (Z.eqb_neq _ _) N0), A0, Nn, Bw, (lc_local _ _ L). cbn [orb negb].
  change (ET_LOCAL =? ET_REMOTE) with false. change (ET_LOCAL =? ET_LOCAL_NOSHARE) with false. cbv iota.
  apply (wp_reading_call id m L). rewrite Ce. set (m0 := set_m_rwlock (m_rwlock m + 1) m).
  assert (Hl : (1 <= n <= length l)%nat) by (apply Z.ltb_ge in Nn; assert (length l <> O) by (by destruct l); lia).
  eapply wp_mono; [apply (wp_get_events id att a _ (take n l) (have_read m0 (at_stat a) ps l att n) m0 Ea St Gc)| |done].
  - apply wp_wait_until; [by apply bad_wait_timed|]. intros _.
    eapply wp_mono; [eapply (wp_nread m0 (at_stat a) ps (id_offset id) l att n); try done; by apply read_pre_rwlock|done|done].
  - intros m1 Hr. destruct (have_read_sys _ _ _ _ _ _ _ Hr) as [Sy Rw]. split_and!; [done|done|].
    intros x Hx. apply (have_read_dom _ _ _ _ _ _ _ _ Hr). eapply chain_in; [apply (lr_chain _ _ _ (rd_in _ _ _ _ P))|].
    apply elem_of_take in Hx as (i & Hx & _). by eapply list_elem_of_lookup_2.
  - intros r m' (Rw & m1 & r' & -> & Hr & G). split; [done|].
    exists (set_m_rwlock (m_rwlock m) m1). split; [by apply have_read_rwlock in Hr|by apply get_done_rwlock].
Qed.
End events_get.

(** ** Making events *)

(** An event of the usual size, for a process with the mapping [off]. *)
Definition plain_event (off event_size size : Z) (e e' : et_event) : Prop :=
  e' = set_ev_memsize event_size (set_ev_length size (set_ev_pdata (ev_data e + off) (init_event e))).
(** A temporary event; its data are wherever its file was mapped. *)
Definition temp_event (size : Z) (e e' : et_event) : Prop :=
  exists p, p <> NULL /\
    e' = set_ev_memsize size (set_ev_length size (set_ev_pdata p (set_ev_temp ET_EVENT_TEMP (init_event e)))).

Lemma plain_event_trans off es size e1 e2 e3 :
  plain_event off es size e1 e2 -> plain_event off es size e2 e3 -> plain_event off es size e1 e3.
Proof. by intros -> ->. Qed.

Lemma temp_event_trans size e1 e2 e3 : temp_event size e1 e2 -> temp_event size e2 e3 -> temp_event size e1 e3.
Proof. intros (p & _ & ->) (q & Nq & ->). by exists q. Qed.

(** [k] more temporary events and other events. *)
Definition with_temps (k : Z) (evs : gmap Z et_event) (m : et_mem) : et_mem :=
  set_m_events evs (upd_sys (fun y => set_sys_ntemps (sys_ntemps y + k) y) m).

Lemma with_temps_0 m : with_temps 0 (m_events m) m = m.
Proof. destruct m as [[]]. unfold with_temps, upd_sys. cbn. unfold set_m_events, set_m_sys, set_sys_ntemps. cbn. by rewrite Z.add_0_r. Qed.

Lemma with_temps_add k j evs evs' m : with_temps k evs' (with_temps j evs m) = with_temps (j + k) evs' m.
Proof. destruct m as [[]]. unfold with_temps, upd_sys, set_m_events, set_m_sys, set_sys_ntemps. cbn. by rewrite Z.add_assoc. Qed.

(** The result of making [xs] temporary: all, or those before the one for which the maximum was
    reached, or for which there was no file; that one is counted but not made. *)
Definition make_result (size : Z) (xs : list Z) (m : et_mem) (status : Z) (m' : et_mem) : Prop :=
  exists ys k evs, m' = with_temps k evs m /\ changed (temp_event size) ys (m_events m) evs /\
    (k = 0 \/ sys_ntemps (m_sys m) + k <= cf_ntemps (sys_config (m_sys m))) /\
    ((status = ET_OK /\ ys = xs /\ k = Z.of_nat (length xs)) \/
     (exists z zs, xs = ys ++ z :: zs /\
        ((status = ET_ERROR_TOOMANY /\ k = Z.of_nat (length ys) /\
          cf_ntemps (sys_config (m_sys m)) <= sys_ntemps (m_sys m) + k) \/
         (status = ET_ERROR /\ k = Z.of_nat (length ys) + 1)))).

Section make.
Context `{K0 : Kernel} `{QK : !QuietKernel}.

Lemma wp_plain_loop off es size xs : forall m (Q : unit -> et_mem -> Prop),
  (forall x, x ∈ xs -> is_Some (m_events m !! x)) ->
  (forall evs, changed (plain_event off es size) xs (m_events m) evs -> Q tt (set_m_events evs m)) ->
  wp (plain_loop off es size (map (fun x => x + off) xs)) Q nc m.
Proof.
  induction xs as [|x xs IH]; intros m Q D HQ; cbn [map plain_loop].
  { apply wp_ret. specialize (HQ _ (changed_nil _ (m_events m))). by destruct m. }
  destruct (D x) as [e E]; [set_solver|]. apply wp_bind. eapply wp_init_event_; [exact E|].
  apply wp_bind. eapply wps_ld_ev; [apply lookup_insert_eq|]. apply wp_bind.
  eapply wp_str_evs; [apply lookup_insert_eq|]. cbn [m_events set_m_events]. rewrite insert_insert_eq. apply IH.
  - intros y Hy. cbn. rewrite lookup_insert_is_Some'. right. apply D. set_solver.
  - intros evs Ch. apply HQ. eapply changed_cons; [apply plain_event_trans|exact E| |exact Ch]. done.
Qed.

Lemma wp_temps_wait n : forall k (Q : Z -> et_mem -> Prop) m,
  cf_ntemps (sys_config (m_sys m)) <= sys_ntemps (m_sys m) -> Q (k + Z.of_nat n) m -> wp (temps_wait n k) Q nc m.
Proof.
  induction n as [|n IH]; intros k Q m F H; cbn [temps_wait].
  { apply wp_ret. by rewrite Z.add_0_r in H. }
  apply wp_bind, wps_ld_sys. destruct (Z.leb_spec (cf_ntemps (sys_config (m_sys m))) (sys_ntemps (m_sys m))); [|lia].
  apply wp_bind, wp_nanosleep. apply IH; [done|]. by replace (k + 1 + Z.of_nat n) with (k + Z.of_nat (S n)) by lia.
Qed.

Lemma wp_event_make id x e size m (Q : Z -> et_mem -> Prop) :
  sys_mutex (m_sys m) = false -> m_events m !! x = Some e ->
  (if cf_ntemps (sys_config (m_sys m)) <=? sys_ntemps (m_sys m) then Q ET_ERROR_TOOMANY m
   else Q ET_ERROR (with_temps 1 (m_events m) m) /\
        forall e', temp_event size e e' -> Q ET_OK (with_temps 1 (<[x := e']> (m_events m)) m)) ->
  wp (et_event_make id (x + id_offset id) size) Q nc m.
Proof.
  intros Mx E H. unfold et_event_make. apply wp_bind. unfold et_system_lock. apply wp_bind, wps_ld_sys. rewrite Mx.
  apply wps_str_sys; [done|]. apply wp_bind, wps_ld_sys. cbn [m_sys upd_sys set_m_sys sys_config sys_ntemps set_sys_mutex].
  destruct (_ <=? _).
  { apply wp_bind, wps_str_sys; [done|]. apply wp_ret. by rewrite upd_sys_mutex_id. }
  destruct H as [H1 H2]. apply wp_bind, wps_str_sys; [done|]. apply wp_bind, wps_str_sys; [done|].
  replace (upd_sys (set_sys_mutex false) _) with (with_temps 1 (m_events m) m) by (destruct m as [[]]; simpl in *; by subst).
  apply wp_bind. eapply wps_ld_ev; [exact E|]. apply wp_bind, wp_quiet; [auto with quiet|]. intros p.
  destruct (Z.eqb_spec p NULL); [by apply wp_ret|]. apply wp_bind. eapply wp_init_event_; [exact E|].
  apply wp_bind. eapply wp_str_evs; [apply lookup_insert_eq|]. apply wp_ret. cbn [m_events set_m_events]. rewrite insert_insert_eq.
  apply H2. by exists p.
Qed.

Lemma make_result_cons size x xs e e' m status m' :
  m_events m !! x = Some e -> temp_event size e e' -> sys_ntemps (m_sys m) < cf_ntemps (sys_config (m_sys m)) ->
  make_result size xs (with_temps 1 (<[x := e']> (m_events m)) m) status m' -> make_result size (x :: xs) m status m'.
Proof.
  intros E T Lt (ys & k & evs & -> & Ch & B & H). exists (x :: ys), (1 + k), evs.
  cbn in B, H. split; [by rewrite with_temps_add|]. split.
  { eapply changed_cons; [apply temp_event_trans|exact E|exact T|exact Ch]. }
  split; [right; destruct B; lia|]. destruct H as [(-> & -> & ->)|(z & zs & -> & H)].
  - left. split_and!; [done|done|simpl; lia].
  - right. exists z, zs. split; [done|]. cbn [length]. destruct H as [(-> & -> & F)|(-> & ->)]; [left|right]; split_and!; lia || done.
Qed.

Lemma wp_make_loop id try_max size xs : forall m (Q : Z -> et_mem -> Prop),
  sys_mutex (m_sys m) = false -> (forall x, x ∈ xs -> is_Some (m_events m !! x)) ->
  (forall status m', make_result size xs m status m' -> Q status m') ->
  wp (make_loop id try_max size (map (fun x => x + id_offset id) xs)) Q nc m.
Proof.
  induction xs as [|x xs IH]; intros m Q Mx D HQ; cbn [map make_loop].
  { apply wp_ret, HQ. exists [], 0, (m_events m). split; [by rewrite with_temps_0|]. split; [apply changed_nil|].
    split; [by left|]. by left. }
  destruct (D x) as [e E]; [set_solver|]. apply wp_bind, wp_with_wakes. cbn [try_again]. apply wp_bind.
  apply (wp_event_make id x e); [done|done|]. destruct (Z.leb_spec (cf_ntemps (sys_config (m_sys m))) (sys_ntemps (m_sys m))).
  - cbn. apply wp_bind, wp_temps_wait; [done|]. destruct (Z.leb_spec try_max (0 + Z.of_nat (Z.to_nat try_max))); [|lia].
    apply wp_ret. cbn. apply wp_ret, HQ. exists [], 0, (m_events m). split; [by rewrite with_temps_0|].
    split; [apply changed_nil|]. split; [by left|]. right. exists x, xs. split; [done|]. left. split_and!; [done|done|lia].
  - split.
    + cbn. apply wp_ret. cbn. apply wp_ret, HQ. exists [], 1, (m_events m). split; [done|]. split; [apply changed_nil|].
      split; [right; lia|]. right. exists x, xs. split; [done|]. by right.
    + intros e' T. cbn. apply wp_ret. cbn. apply IH; [done| |].
      * intros y Hy. cbn. rewrite lookup_insert_is_Some'. right. apply D. set_solver.
      * intros status m' R. apply HQ. by eapply make_result_cons.
Qed.
End make.

(** The events [xs] were read and [m1] is the memory then: they are made, and counted if all could be. *)
Definition new_done (off att size : Z) (xs : list Z) (m1 : et_mem) (r : Z * list Z * Z) (m' : et_mem) : Prop :=
  let es := cf_event_size (sys_config (m_sys m1)) in
  exists status m2,
    (if es <? size then make_result size xs m1 status m2
     else status = ET_OK /\ exists evs, changed (plain_event off es size) xs (m_events m1) evs /\ m2 = set_m_events evs m1) /\
    let n := Z.of_nat (length xs) in
    if status =? ET_OK then
      r = (ET_OK, map (fun x => x + off) xs, n) /\
      m' = upd_attach att (fun a => set_at_events_make (u64 (at_events_make a + n)) a) m2
    else r = (status, map (fun x => x + off) xs, 0) /\ m' = m2.

Lemma with_temps_rwlock k j evs m : set_m_rwlock k (with_temps j evs m) = with_temps j evs (set_m_rwlock k m).
Proof. by destruct m. Qed.

Lemma new_done_rwlock k off att size xs m1 r m' :
  new_done off att size xs m1 r m' -> new_done off att size xs (set_m_rwlock k m1) r (set_m_rwlock k m').
Proof.
  intros (status & m2 & H1 & H2). exists status, (set_m_rwlock k m2). split.
  - cbn [m_sys set_m_rwlock]. destruct (_ <? _).
    + destruct H1 as (ys & j & evs & -> & H1). exists ys, j, evs. split; [by rewrite with_temps_rwlock|exact H1].
    + destruct H1 as (-> & evs & Ch & ->). split; [done|]. exists evs. split; [done|]. by destruct m1.
  - destruct (status =? ET_OK); destruct H2 as [-> ->]; (split; [done|]); by destruct m2.
Qed.

Lemma make_result_sys size xs m status m' :
  make_result size xs m status m' ->
  m_rwlock m' = m_rwlock m /\ sys_attach (m_sys m') = sys_attach (m_sys m).
Proof. by intros (ys & k & evs & -> & _). Qed.

Section new.
Context `{R0 : Remote} `{R1 : RemoteEvents} `{K0 : Kernel} `{QK : !QuietKernel}.

Lemma wp_new_events id att size a read xs (R : et_mem -> Prop) m :
  sys_mutex (m_sys m) = false -> sys_attach (m_sys m) !! att = Some a -> at_status a = ET_ATT_ACTIVE ->
  wp read (fun r m1 => r = (ET_OK, map (fun x => x + id_offset id) xs) /\ R m1) nc m ->
  (forall m1, R m1 -> m_sys m1 = m_sys m /\ m_rwlock m1 = m_rwlock m /\ forall x, x ∈ xs -> is_Some (m_events m1 !! x)) ->
  wp (new_events id att size read)
    (fun r m' => m_rwlock m' = m_rwlock m /\
       exists m1 r', r = inr r' /\ R m1 /\ new_done (id_offset id) att size xs m1 r' m') nc m.
Proof.
  intros Mx Ea St Hr HR. unfold new_events. apply wp_bind. eapply wps_ld_attach; [exact Ea|].
  rewrite St, Z.eqb_refl. cbn [negb]. apply wp_bind. eapply wp_mono; [exact Hr| |done].
  intros r m1 [-> Rm]. destruct (HR m1 Rm) as (Sy & Rw & D).
  change (ET_OK =? ET_OK) with true. cbn [negb]. apply wp_bind, wps_ld_sys. rewrite length_map.
  set (es := cf_event_size (sys_config (m_sys m1))).
  assert (Hend : forall status m2,
    (if es <? size then make_result size xs m1 status m2
     else status = ET_OK /\ exists evs, changed (plain_event (id_offset id) es size) xs (m_events m1) evs /\ m2 = set_m_events evs m1) ->
    m_rwlock m2 = m_rwlock m1 -> sys_attach (m_sys m2) = sys_attach (m_sys m1) ->
    wp (if negb (status =? ET_OK) then ret (inr (status, map (fun x => x + id_offset id) xs, 0))
        else str_attach att (fun a => set_at_events_make (u64 (at_events_make a + Z.of_nat (length xs))) a) ;;;
             ret (inr (ET_OK, map (fun x => x + id_offset id) xs, Z.of_nat (length xs))))
      (fun r m' => m_rwlock m' = m_rwlock m /\
         exists m1 r', r = @inr Z _ r' /\ R m1 /\ new_done (id_offset id) att size xs m1 r' m') nc m2).
  { intros status m2 H2 Rw2 Sa2. destruct (status =? ET_OK) eqn:S; cbn [negb].
    - apply wp_bind. eapply wps_str_attach; [rewrite Sa2, Sy; exact Ea|done|]. apply wp_ret. split; [cbn; congruence|].
      eexists m1, _. split; [done|]. split; [done|]. exists status, m2. split; [exact H2|]. cbv zeta. by rewrite S.
    - apply wp_ret. split; [congruence|]. eexists m1, _. split; [done|]. split; [done|]. exists status, m2.
      split; [exact H2|]. cbv zeta. by rewrite S. }
  apply wp_bind. destruct (es <? size).
  - apply wp_make_loop; [by rewrite Sy|done|]. intros status m2 H2. destruct (make_result_sys _ _ _ _ _ H2).
    by apply Hend.
  - apply wp_bind, wp_plain_loop; [done|]. intros evs Ch. apply wp_ret, Hend; [|done..]. split; [done|]. by exists evs.
Qed.

(** Why the functions that make events return before they read. *)
Definition new_refused (id : et_id) (m : et_mem) (att : Z) (given : bool) (mode : Z) (deltatime : option timespec)
    (num : Z) : option Z :=
  if num =? 0 then Some ET_OK
  else if (att <? 0) || negb given || (num <? 0) || bad_wait mode deltatime then Some ET_ERROR
  else
    match call_error id, sys_attach (m_sys m) !! att with
    | Some e, _ => Some e
    | None, None => None
    | None, Some a => if negb (at_status a =? ET_ATT_ACTIVE) then Some ET_ERROR else None
    end.

Lemma wp_new_refused (C : et_mem -> Prop) id att size a (read : M (Z * list Z)) m (Q : Z + Z * list Z * Z -> et_mem -> Prop) :
  sys_attach (m_sys m) !! att = Some a -> negb (at_status a =? ET_ATT_ACTIVE) = true ->
  Q (inr (no_events ET_ERROR)) m -> wp (new_events id att size read) Q C m.
Proof. intros Ea St H. unfold new_events. apply wp_bind. eapply wps_ld_attach; [exact Ea|]. rewrite St. by apply wp_ret. Qed.

Lemma wp_events_new_refused id m att given mode deltatime size num e :
  local_call id m -> id_group id = 0 -> new_refused id m att given mode deltatime num = Some e ->
  wp (et_events_new id att given mode deltatime size num) (fun r m' => r = (e, [], 0) /\ m' = m) nc m.
Proof.
  intros L Gr E. unfold new_refused, et_events_new in *. rewrite Gr. cbn [Z.eqb negb].
  destruct (num =? 0); [apply (inj Some) in E as <-; by apply wp_ret|].
  destruct ((att <? 0) || negb given || (num <? 0)); [apply (inj Some) in E as <-; by apply wp_ret|]. cbn [orb] in E.
  destruct (bad_wait mode deltatime); [apply (inj Some) in E as <-; by apply wp_ret|]. rewrite (lc_local _ _ L). cbn.
  apply (wp_reading_call id m L). destruct (call_error id) as [e'|]; [by apply (inj Some) in E as <-|].
  destruct (sys_attach (m_sys m) !! att) as [a|] eqn:Ea; [|done].
  destruct (negb _) eqn:S; [|done]. apply (inj Some) in E as <-. apply wp_bind, wps_ld_sys.
  eapply wp_new_refused; [exact Ea|exact S|]. split; [done|split; [done|apply set_rwlock_id]].
Qed.

Lemma new_refused_none id m att given mode deltatime num a :
  new_refused id m att given mode deltatime num = None -> sys_attach (m_sys m) !! att = Some a ->
  num <> 0 /\ (att <? 0) = false /\ given = true /\ (num <? 0) = false /\ bad_wait mode deltatime = false /\ call_error id = None /\
  at_status a = ET_ATT_ACTIVE.
Proof.
  unfold new_refused. intros E Ea. rewrite Ea in E. destruct (Z.eqb_spec num 0); [done|].
  destruct (att <? 0), given, (num <? 0), (bad_wait mode deltatime), (call_error id); try done. cbn [orb negb] in E.
  destruct (negb (at_status a =? ET_ATT_ACTIVE)) eqn:S; [done|]. apply negb_false_iff, Z.eqb_eq in S. done.
Qed.

Lemma wp_events_new id m att given mode deltatime size num a ps l :
  local_call id m -> id_group id = 0 -> sys_attach (m_sys m) !! att = Some a ->
  new_refused id m att given mode deltatime num = None ->
  read_pre m ET_GRANDCENTRAL ps l -> may_read m (Z.land mode ET_WAIT_MASK) att -> l <> [] ->
  1 <= cf_ntemps (sys_config (m_sys m)) ->
  let n := Z.to_nat (Z.min (at_most_temps (m_sys m) size num) (Z.of_nat (length l))) in
  wp (et_events_new id att given mode deltatime size num)
    (fun r m' => exists m1, have_read m ET_GRANDCENTRAL ps l att n m1 /\ new_done (id_offset id) att size (take n l) m1 r m') nc m.
Proof.
  intros L Gr Ea Ref P Mo Ne Nt n. destruct (new_refused_none _ _ _ _ _ _ _ _ Ref Ea) as (N0 & A0 & -> & Nn & Bw & Ce & St).
  unfold et_events_new. rewrite Gr, (proj2 (Z.eqb_neq _ _) N0), A0, Nn, Bw, (lc_local _ _ L). cbn [orb negb].
  change (0 =? 0) with true. cbn [negb].
  change (ET_LOCAL =? ET_REMOTE) with false. change (ET_LOCAL =? ET_LOCAL_NOSHARE) with false. cbv iota.
  apply (wp_reading_call id m L). rewrite Ce. set (m0 := set_m_rwlock (m_rwlock m + 1) m).
  apply wp_bind, wps_ld_sys. change (m_sys m0) with (m_sys m).
  assert (Hl : (1 <= n <= length l)%nat).
  { apply Z.ltb_ge in Nn. assert (length l <> O) by (by destruct l). unfold n, at_most_temps. repeat zcase; lia. }
  eapply wp_mono; [apply (wp_new_events id att size a _ (take n l) (have_read m0 ET_GRANDCENTRAL ps l att n) m0 (lc_mutex _ _ L) Ea St)| |done].
  - apply wp_wait_until; [by apply bad_wait_timed|]. intros _.
    eapply wp_mono; [eapply (wp_nread m0 ET_GRANDCENTRAL ps (id_offset id) l att n); try done; by apply read_pre_rwlock|done|done].
  - intros m1 Hr. destruct (have_read_sys _ _ _ _ _ _ _ Hr) as [Sy Rw]. split_and!; [done|done|].
    intros x Hx. apply (have_read_dom _ _ _ _ _ _ _ _ Hr). eapply chain_in; [apply (lr_chain _ _ _ (rd_in _ _ _ _ P))|].
    apply elem_of_take in Hx as (i & Hx & _). by eapply list_elem_of_lookup_2.
  - intros r m' (Rw & m1 & r' & -> & Hr & G). split; [done|].
    exists (set_m_rwlock (m_rwlock m) m1). split; [by apply have_read_rwlock in Hr|by apply new_done_rwlock].
Qed.

(** The functions for a group of events: a group that the system does not have is refused too. *)
Definition group_refused (id : et_id) (m : et_mem) (group : Z) : bool :=
  (group <? 1) || (cf_groupCount (sys_config (m_sys m)) <? group).

Lemma wp_events_new_group id m att given mode deltatime size num group a ps l :
  local_call id m -> sys_attach (m_sys m) !! att = Some a ->
  new_refused id m att given mode deltatime num = None -> group_refused id m group = false ->
  read_pre m ET_GRANDCENTRAL ps l -> m_events m !! (0 - id_offset id) = None ->
  may_read m (Z.land mode ET_WAIT_MASK) att -> 1 <= cf_ntemps (sys_config (m_sys m)) ->
  (exists x, x ∈ l /\ in_group (m_events m) group x = true) ->
  let (t, k) := pick (in_group (m_events m) group) (Z.to_nat (at_most_temps (m_sys m) size num)) l in
  wp (et_events_new_group id att given mode deltatime size num group)
    (fun r m' => exists m1, have_group m ET_GRANDCENTRAL ps l att t k m1 /\ new_done (id_offset id) att size t m1 r m') nc m.
Proof.
  intros L Ea Ref Gr P Nu Mo Nt (x & Hx & Gx). destruct (new_refused_none _ _ _ _ _ _ _ _ Ref Ea) as (N0 & A0 & -> & Nn & Bw & Ce & St).
  apply orb_false_iff in Gr as [G1 G2].
  pose proof (pick_perm (in_group (m_events m) group) (Z.to_nat (at_most_temps (m_sys m) size num)) l) as Pm.
  destruct (pick _ _ l) as [t k] eqn:Pk. simpl in Pm.
  unfold et_events_new_group. rewrite (proj2 (Z.eqb_neq _ _) N0), A0, Nn, G1, Bw, (lc_local _ _ L). cbn [orb negb].
  change (ET_LOCAL =? ET_REMOTE) with false. change (ET_LOCAL =? ET_LOCAL_NOSHARE) with false. cbv iota.
  apply (wp_reading_call id m L). rewrite Ce. set (m0 := set_m_rwlock (m_rwlock m + 1) m).
  apply wp_bind, wps_ld_sys. change (m_sys m0) with (m_sys m). rewrite G2.
  assert (Hn : 1 <= at_most_temps (m_sys m) size num) by (apply Z.ltb_ge in Nn; unfold at_most_temps; repeat zcase; lia).
  eapply wp_mono; [apply (wp_new_events id att size a _ t (have_group m0 ET_GRANDCENTRAL ps l att t k) m0 (lc_mutex _ _ L) Ea St)| |done].
  - apply wp_wait_until; [by apply bad_wait_timed|]. intros _.
    eapply wp_mono; [apply (wp_nread_group m0 ET_GRANDCENTRAL ps l att group id); try done; [by apply read_pre_rwlock|intros ->; set_solver|right; by exists x]| |done].
    intros r m1. change (m_events m0) with (m_events m). rewrite Pk. done.
  - intros m1 Hr. destruct (have_group_sys _ _ _ _ _ _ _ _ Hr) as [Sy Rw]. split_and!; [done|done|].
    intros y Hy. apply (have_group_dom _ _ _ _ _ _ _ _ _ Hr). eapply chain_in; [apply (lr_chain _ _ _ (rd_in _ _ _ _ P))|].
    rewrite <- Pm. set_solver.
  - intros r m' (Rw & m1 & r' & -> & Hr & G). split; [done|].
    exists (set_m_rwlock (m_rwlock m) m1). split; [by apply have_group_rwlock in Hr|by apply new_done_rwlock].
Qed.
End new.

(** ** The specifications *)

Section specs.
Context `{R0 : Remote} `{R1 : RemoteEvents} `{K0 : Kernel} `{QK : !QuietKernel}.



(** Et_events_new_group, with events of its group in GrandCentral, makes the first of these, wherever
    they are in the list; GrandCentral keeps all others in their old order. *)
Theorem et_events_new_group_spec id m att given mode deltatime size num group a ps l :
  local_call id m -> sys_attach (m_sys m) !! att = Some a ->
  new_refused id m att given mode deltatime num = None -> group_refused id m group = false ->
  read_pre m ET_GRANDCENTRAL ps l -> m_events m !! (0 - id_offset id) = None ->
  may_read m (Z.land mode ET_WAIT_MASK) att -> 1 <= cf_ntemps (sys_config (m_sys m)) ->
  (exists x, x ∈ l /\ in_group (m_events m) group x = true) ->
  let n := Z.to_nat (at_most_temps (m_sys m) size num) in
  exists t k r x m' m1, run (et_events_new_group id att given mode deltatime size num group) m = Ok r x m' /\
    t = take n (List.filter (in_group (m_events m) group) l) /\ t ++ k ≡ₚ l /\ k `sublist_of` l /\
    have_group m ET_GRANDCENTRAL ps l att t k m1 /\ new_done (id_offset id) att size t m1 r m'.
Proof.
  intros L Ea Ref Gr P Nu Mo Nt Hx n.
  pose proof (wp_events_new_group id m att given mode deltatime size num group a ps l L Ea Ref Gr P Nu Mo Nt Hx) as H.
  pose proof (pick_taken (in_group (m_events m) group) n l) as Pt.
  pose proof (pick_perm (in_group (m_events m) group) n l) as Pp.
  pose proof (pick_rest (in_group (m_events m) group) n l) as Pr. fold n in H.
  destruct (pick _ _ l) as [t k]. apply wp_run in H as (r & x & m' & E & m1 & H1 & H2).
  by exists t, k, r, x, m', m1.
Qed.
End specs.

(** ** Concrete calls *)

Lemma local0 id : id_locality id = ET_LOCAL -> local_call id mem0.
Proof. intros E. split; [done|by_eval|by_eval]. Qed.

Lemma read_pre0_gc : read_pre mem0 0 (stat0 0) [700; 800].
Proof. split; try by_eval. exact mem0_gc. Qed.

(** The result of a run and the number of temporary events after it. *)
Definition outcome_of {A} (o : outcome A) : option (A * Z) :=
  match o with Ok r _ m => Some (r, sys_ntemps (m_sys m)) | _ => None end.

(** [id0] without a group of its own. *)
Definition id1 : et_id := set_id_group 0 id0.



Lemma et_events_new_group_spec_witness :
  exists x m' k m1, run (et_events_new_group (R1 := no_remote_events) (K0 := files0) id0 0 true ET_ASYNC None 10 2 1) mem0 =
      Ok (ET_OK, [700 + off0; 800 + off0], 2) x m' /\
    have_group mem0 0 (stat0 0) [700; 800] 0 [700; 800] k m1.
Proof.
  destruct (et_events_new_group_spec (R1 := no_remote_events) (K0 := files0) (QK := quiet_files0) id0 mem0 0 true ET_ASYNC None 10 2 1
    (attach0 0 1) (stat0 0) [700; 800] (local0 id0 eq_refl) eq_refl eq_refl eq_refl read_pre0_gc ltac:(by_eval)
    ltac:(right; right; split; [done|exists (attach0 0 1); split; [done|by_eval]]) ltac:(by_eval)
    ltac:(exists 700; split; [set_solver|reflexivity])) as (t & k & r & x & m' & m1 & E & Et & _ & _ & H & G).
  assert (t = [700; 800]) as -> by (rewrite Et; vm_compute; reflexivity).
  pose proof (f_equal outcome_of E) as X. replace (outcome_of (run _ _)) with (Some ((ET_OK, [700 + off0; 800 + off0], 2), 0)) in X
    by (vm_compute; reflexivity). injection X as <- _. exists x, m', k, m1. split; [exact E|exact H].
Defined.
