(* ===== verification/PutSpec.v ===== *)
(** * The correctness of putting and dumping events

    et_events_put and et_events_dump: an attachment can give back only events that belong to it; they
    then are in the output list of its station or in GrandCentral. *)
From stdpp Require Import base gmap strings list.
From S2P Require Import Prelude Types Machine EvList Local Sample Write Repair Read Group Dump Stats Api Init Temp EventApi EventSpec.
Open Scope Z_scope.

(** ** Events whose links, owners and priorities agree *)

Definition same_links (evs evs' : gmap Z et_event) : Prop :=
  forall a, (fun e => (ev_next e, ev_owner e, ev_priority e)) <$> evs !! a =
            (fun e => (ev_next e, ev_owner e, ev_priority e)) <$> evs' !! a.

Section links.
Context (evs evs' : gmap Z et_event) (H : same_links evs evs').

Lemma links_nxt a : nxt evs' a = nxt evs a.
Proof. specialize (H a). unfold nxt. destruct (evs !! a), (evs' !! a); simplify_eq/=; congruence. Qed.

Lemma links_owner a : owner evs' a = owner evs a.
Proof. specialize (H a). unfold owner. destruct (evs !! a), (evs' !! a); simplify_eq/=; congruence. Qed.

Lemma links_hi a : hi evs' a = hi evs a.
Proof. specialize (H a). unfold hi. destruct (evs !! a), (evs' !! a); simplify_eq/=; congruence. Qed.

Lemma links_is_Some a : is_Some (evs !! a) -> is_Some (evs' !! a).
Proof. specialize (H a). intros [e E]. rewrite E in H. destruct (evs' !! a); [by eexists|done]. Qed.

Lemma links_none a : evs !! a = None -> evs' !! a = None.
Proof. specialize (H a). intros E. rewrite E in H. by destruct (evs' !! a). Qed.

Lemma links_list_rep L l : list_rep evs L l -> list_rep evs' L l.
Proof.
  intros [H1 H2 H3 H4 H5 H6]. split; auto.
  - apply chain_ext with evs; [|done]. intros a _. apply links_nxt.
  - apply List.Forall_forall. intros a Ha. rewrite List.Forall_forall in H6. rewrite links_owner. auto.
Qed.

Lemma links_out_rep L l : out_rep evs L l -> out_rep evs' L l.
Proof.
  intros [H1 H2 H3]. split; [by apply links_list_rep| |].
  - unfold pri_sorted in *. rewrite <- (pri_sort_ext (hi evs)); [done|]. intros a _. by rewrite links_hi.
  - rewrite <- (highs_ext (hi evs)); [done|]. intros a _. by rewrite links_hi.
Qed.

Lemma links_ev_ok : ev_ok evs -> ev_ok evs'.
Proof.
  intros [H1 H2]. split; [|by apply links_none]. intros a e' E. specialize (H a). rewrite E in H.
  destruct (evs !! a) as [e|] eqn:Ee; [|done]. simplify_eq/=. specialize (H1 a e Ee). intuition congruence.
Qed.
End links.

Lemma write_pre_links m evs s ps off l0 xs :
  same_links (m_events m) evs -> write_pre m s ps off l0 xs -> write_pre (set_m_events evs m) s ps off l0 xs.
Proof.
  intros H [W1 W2 W3 W4 W5 W6 W7 W8 W9]. split; try done.
  - by apply (links_out_rep _ _ H).
  - by apply (links_ev_ok _ _ H).
  - by apply (links_none _ _ H).
  - intros x Hx. apply (links_is_Some _ _ H); auto.
Qed.

(** ** Putting *)

(** The event may be put by the attachment. *)
Definition may_put (att : Z) (evs : gmap Z et_event) (x : Z) : bool :=
  match evs !! x with
  | Some e => negb (ev_memsize e <? ev_length e) && (ev_owner e =? att)
  | None => false
  end.

Definition used_event (e : et_event) : et_event := set_ev_age ET_EVENT_USED (set_ev_modify (ev_age e) e).
Definition used (e e' : et_event) : Prop := e' = used_event e.
(** After an error only the field modify tells that the event was about to be put. *)
Definition unused_again (e e' : et_event) : Prop := e' = set_ev_modify 0 e.

Lemma changed_links f xs evs evs' :
  (forall e e', f e e' -> ev_next e' = ev_next e /\ ev_owner e' = ev_owner e /\ ev_priority e' = ev_priority e) ->
  changed f xs evs evs' -> same_links evs evs'.
Proof.
  intros Hf Ch a. specialize (Ch a). destruct (evs !! a) as [e|]; [|by rewrite Ch].
  destruct Ch as (e' & -> & Ch). simpl. destruct (decide (a ∈ xs)); [|by subst].
  by destruct (Hf _ _ Ch) as (-> & -> & ->).
Qed.

(** One more event that is not among the others. *)
Lemma changed_fresh (f : et_event -> et_event -> Prop) x xs evs e e' evs' :
  x ∉ xs -> evs !! x = Some e -> f e e' -> changed f xs (<[x := e']> evs) evs' -> changed f (x :: xs) evs evs'.
Proof.
  intros Nx E F H a. specialize (H a). destruct (decide (a = x)) as [->|N].
  - rewrite lookup_insert_eq in H. rewrite E. destruct H as (e2 & E2 & H). exists e2. split; [done|].
    rewrite decide_False in H by done. rewrite decide_True by set_solver. congruence.
  - rewrite lookup_insert_ne in H by done. destruct (evs !! a) as [e1|]; [|done]. destruct H as (e2 & E2 & H).
    exists e2. split; [done|]. case_decide as D; case_decide as D'; try done; set_solver.
Qed.

Lemma changed_lookup_ne f xs evs evs' a : a ∉ xs -> changed f xs evs evs' -> evs' !! a = evs !! a.
Proof.
  intros N H. specialize (H a). destruct (evs !! a); [|done]. destruct H as (e' & E & H).
  rewrite decide_False in H by done. congruence.
Qed.

Lemma wp_check_loop off att xs m (Q : bool -> et_mem -> Prop) :
  (forall x, x ∈ xs -> is_Some (m_events m !! x)) -> Q (forallb (may_put att (m_events m)) xs) m ->
  wp (check_loop off att (map (fun x => x + off) xs)) Q nc m.
Proof.
  induction xs as [|x xs IH]; intros D H; cbn [map check_loop]; [by apply wp_ret|].
  destruct (D x) as [e E]; [set_solver|]. apply wp_bind. eapply wps_ld_ev; [exact E|].
  simpl in H. unfold may_put at 1 in H. rewrite E in H.
  destruct (ev_memsize e <? ev_length e); [by apply wp_ret|]. destruct (ev_owner e =? att); [|by apply wp_ret].
  apply IH; [|exact H]. intros y Hy. apply D. set_solver.
Qed.

Section put.
Context `{K0 : Kernel} `{QK : !QuietKernel}.

(** The temporary events among [ys] were unmapped. *)
Definition unmapped (ys : list Z) (evs : gmap Z et_event) : Prop :=
  forall y e, y ∈ ys -> evs !! y = Some e -> ev_temp e = ET_EVENT_TEMP -> munmap_says 0 (ev_pdata e) (ev_memsize e).

(** The event [z] of the list is a temporary one that cannot be unmapped; [ys] are those before it. *)
Definition stuck (xs ys : list Z) (evs : gmap Z et_event) : Prop :=
  exists z zs e st, xs = ys ++ z :: zs /\ evs !! z = Some e /\ ev_temp e = ET_EVENT_TEMP /\
    munmap_says st (ev_pdata e) (ev_memsize e) /\ st <> 0.

(** The second loop: all events are used, or those before a temporary event that cannot be unmapped. *)
Definition use_result (xs : list Z) (m : et_mem) (ok : bool) (m' : et_mem) : Prop :=
  exists ys evs, m' = set_m_events evs m /\ changed used ys (m_events m) evs /\
    unmapped ys (m_events m) /\ if ok then ys = xs else stuck xs ys (m_events m).

Lemma wp_use_loop off xs : forall m (Q : bool -> et_mem -> Prop),
  NoDup xs -> (forall x, x ∈ xs -> is_Some (m_events m !! x)) ->
  (forall ok m', use_result xs m ok m' -> Q ok m') ->
  wp (use_loop off (map (fun x => x + off) xs)) Q nc m.
Proof.
  induction xs as [|x xs IH]; intros m Q Nd D HQ; cbn [map use_loop].
  { apply wp_ret, HQ. exists [], (m_events m). split_and!; [by destruct m|apply changed_nil|by intros y e Hy%elem_of_nil|done]. }
  apply NoDup_cons in Nd as [Nx Nd]. destruct (D x) as [e E]; [set_solver|]. apply wp_bind. eapply wps_ld_ev; [exact E|].
  assert (Hnext : (ev_temp e = ET_EVENT_TEMP -> munmap_says 0 (ev_pdata e) (ev_memsize e)) -> wp (str_ev off (x + off) (fun e => set_ev_modify (ev_age e) e) ;;;
    str_ev off (x + off) (set_ev_age ET_EVENT_USED) ;;; use_loop off (map (fun x => x + off) xs)) Q nc m).
  { intros Un. apply wp_bind. eapply wps_str_ev; [exact E|done|]. apply wp_bind.
    eapply wps_str_ev; [apply lookup_insert_eq|done|]. cbn [m_events set_m_events]. rewrite insert_insert_eq. apply IH; [done| |].
    - intros y Hy. cbn. rewrite lookup_insert_is_Some'. right. apply D. set_solver.
    - intros ok m' (ys & evs & -> & Ch & Uy & H). apply HQ. exists (x :: ys), evs. split; [done|].
      assert (Ny : x ∉ ys) by (destruct ok; [by subst|destruct H as (? & ? & ? & ? & -> & _); set_solver]).
      split; [by eapply changed_fresh|]. split.
      { intros y ey [->|Hy]%elem_of_cons Ey; [rewrite E in Ey; by injection Ey as <-|]. apply (Uy y); [done|].
        cbn [m_events set_m_events]. by rewrite lookup_insert_ne by set_solver. }
      destruct ok; [by subst|]. destruct H as (z & zs & e1 & st & -> & Ez & T). exists z, zs, e1, st.
      cbn [m_events set_m_events] in Ez. by rewrite lookup_insert_ne in Ez by set_solver. }
  apply wp_bind. destruct (Z.eqb_spec (ev_temp e) ET_EVENT_TEMP) as [T|T]; [|by apply wp_ret, Hnext].
  apply wp_quiet_result; [auto with quiet|]. intros st x0 m0 x1 m1 Es.
  assert (Sa : munmap_says st (ev_pdata e) (ev_memsize e)) by (by exists x0, m0, x1, m1).
  destruct (Z.eqb_spec st 0) as [->|Ns]; cbn [negb]; [by apply Hnext|].
  apply wp_ret, HQ. exists [], (m_events m). split_and!; [by destruct m|apply changed_nil|by intros y ey Hy%elem_of_nil|].
  by exists x, xs, e, st.
Qed.

Lemma wp_undo_loop off xs : forall m (Q : unit -> et_mem -> Prop),
  NoDup xs -> (forall x, x ∈ xs -> is_Some (m_events m !! x)) ->
  (forall evs, changed (fun e e' => e' = set_ev_modify 0 (set_ev_age (ev_modify e) e)) xs (m_events m) evs ->
     Q tt (set_m_events evs m)) ->
  wp (undo_loop off (map (fun x => x + off) xs)) Q nc m.
Proof.
  induction xs as [|x xs IH]; intros m Q Nd D HQ; cbn [map undo_loop].
  { apply wp_ret. specialize (HQ _ (changed_nil _ (m_events m))). by destruct m. }
  apply NoDup_cons in Nd as [Nx Nd]. destruct (D x) as [e E]; [set_solver|]. apply wp_bind.
  eapply wps_str_ev; [exact E|done|]. apply wp_bind.
  eapply wps_str_ev; [apply lookup_insert_eq|done|]. cbn [m_events set_m_events]. rewrite insert_insert_eq. apply IH; [done| |].
  - intros y Hy. cbn. rewrite lookup_insert_is_Some'. right. apply D. set_solver.
  - intros evs Ch. apply HQ. by eapply changed_fresh.
Qed.

Lemma undo_used xs evs evs1 evs2 :
  changed used xs evs evs1 ->
  changed (fun e e' => e' = set_ev_modify 0 (set_ev_age (ev_modify e) e)) xs evs1 evs2 ->
  changed unused_again xs evs evs2.
Proof.
  intros H1 H2 a. specialize (H1 a). specialize (H2 a). destruct (evs !! a) as [e|]; [|by rewrite H1 in H2].
  destruct H1 as (e1 & E1 & H1). rewrite E1 in H2. destruct H2 as (e2 & E2 & H2). exists e2. split; [done|].
  case_decide; [|congruence]. rewrite H2, H1. by destruct e.
Qed.
End put.

(** The result for events [xs] for a station whose output list held [l0]. *)
Definition put_done `{K0 : Kernel} (att s : Z) (ps : et_station) (l0 xs : list Z) (m : et_mem) (status : Z) (m' : et_mem) : Prop :=
  if forallb (may_put att (m_events m)) xs then
    exists ys evs, changed used ys (m_events m) evs /\ unmapped ys (m_events m) /\
    ((status = ET_ERROR /\ m' = set_m_events evs m /\ stuck xs ys (m_events m)) \/
     (ys = xs /\ status = ET_OK /\
        Z.of_nat (length xs) <= cf_nevents (sys_config (m_sys m)) - Z.of_nat (length l0) /\
        exists m2, written (set_m_events evs m) s ps l0 xs m2 /\
          m' = upd_attach att (fun a => set_at_events_put (u64 (at_events_put a + Z.of_nat (length xs))) a) m2) \/
     (ys = xs /\ status = ET_ERROR /\
        cf_nevents (sys_config (m_sys m)) - Z.of_nat (length l0) < Z.of_nat (length xs) /\
        exists evs', changed unused_again xs (m_events m) evs' /\ m' = set_m_events evs' m))
  else status = ET_ERROR /\ m' = m.

Lemma write_pre_rwlock k m s ps off l0 xs : write_pre m s ps off l0 xs -> write_pre (set_m_rwlock k m) s ps off l0 xs.
Proof. intros [W1 W2 W3 W4 W5 W6 W7 W8 W9]. by split. Qed.

Lemma written_rwlock k m s ps l0 xs m1 :
  written m s ps l0 xs m1 -> written (set_m_rwlock k m) s ps l0 xs (set_m_rwlock k m1).
Proof. intros (lo & fx & evs & -> & W). exists lo, fx, evs. split; [by destruct m|exact W]. Qed.

Lemma put_done_rwlock `{K0 : Kernel} k att s ps l0 xs m status m' :
  put_done att s ps l0 xs m status m' -> put_done att s ps l0 xs (set_m_rwlock k m) status (set_m_rwlock k m').
Proof.
  unfold put_done. change (m_events (set_m_rwlock k m)) with (m_events m). destruct (forallb _ xs).
  - intros (ys & evs & Ch & Uy & H). exists ys, evs. split; [done|]. split; [done|]. destruct H as [(-> & -> & H)|[(-> & -> & R & m2 & W & ->)|(-> & -> & R & evs' & Ch' & ->)]].
    + left. split; [done|]. split; [by destruct m|done].
    + right. left. split_and!; [done..|]. exists (set_m_rwlock k m2). split; [by apply (written_rwlock k) in W|by destruct m2].
    + right. right. split_and!; [done..|]. exists evs'. split; [done|by destruct m].
  - by intros [-> ->].
Qed.

Section events_put.
Context `{R0 : Remote} `{R1 : RemoteEvents} `{K0 : Kernel} `{QK : !QuietKernel}.

Lemma written_sys m s ps l0 xs m1 : written m s ps l0 xs m1 -> m_sys m1 = m_sys m /\ m_rwlock m1 = m_rwlock m.
Proof. by intros (lo & fx & evs & -> & _). Qed.

Lemma wp_put_body id m att xs a ps l0 :
  sys_attach (m_sys m) !! att = Some a -> write_pre m (at_stat a) ps (id_offset id) l0 xs -> xs <> [] ->
  wp (let* ok := check_loop (id_offset id) att (map (fun x => x + id_offset id) xs) in
      if negb ok then ret ET_ERROR
      else
        let* ok := use_loop (id_offset id) (map (fun x => x + id_offset id) xs) in
        if negb ok then ret ET_ERROR
        else
          let* a := ld_attach att in
          let* status := et_station_nwrite id (at_stat a) (map (fun x => x + id_offset id) xs) in
          if negb (status =? ET_OK) then undo_loop (id_offset id) (map (fun x => x + id_offset id) xs) ;;; ret status
          else
            str_attach att (fun a => set_at_events_put (u64 (at_events_put a + Z.of_nat (length xs))) a) ;;;
            ret ET_OK)
    (fun status m' => m_rwlock m' = m_rwlock m /\ put_done att (at_stat a) ps l0 xs m status m') nc m.
Proof.
  intros Ea W Ne. pose proof (wr_dom _ _ _ _ _ _ W) as D. pose proof (wr_nodup _ _ _ _ _ _ W) as Nd.
  apply wp_bind, wp_check_loop; [done|]. unfold put_done. destruct (forallb _ xs); cbn [negb]; [|by apply wp_ret].
  apply wp_bind, wp_use_loop; [done..|]. intros ok m2 (ys & evs & -> & Ch & Uy & H). destruct ok; cbn [negb].
  - subst ys. apply wp_bind. eapply wps_ld_attach; [exact Ea|]. apply wp_bind.
    assert (SL : same_links (m_events m) evs) by (eapply changed_links; [|exact Ch]; by intros e e' ->).
    pose proof (write_pre_links _ _ _ _ _ _ _ SL W) as W2.
    eapply wp_mono; [apply (wp_nwrite _ _ _ _ _ _ id W2 eq_refl)| |done].
    intros status m3 [(-> & _)|[(_ & Fu & -> & ->)|(_ & Ro & -> & Wr)]]; [done| |].
    + cbn [negb Z.eqb ET_OK ET_ERROR]. apply wp_bind, wp_undo_loop; [done|intros x Hx; by apply (links_is_Some _ _ SL); auto|].
      intros evs' Ch'. apply wp_ret. cbn [m_events set_m_events] in Ch'. split; [done|]. exists xs, evs. split; [done|]. split; [done|]. right. right.
      split_and!; [done|done|done|]. exists evs'. split; [by eapply undo_used|done].
    + cbn [negb Z.eqb ET_OK]. destruct (written_sys _ _ _ _ _ _ Wr) as [Sy Rw]. apply wp_bind.
      eapply wps_str_attach; [rewrite Sy; exact Ea|done|]. apply wp_ret. split; [done|].
      exists xs, evs. split; [done|]. split; [done|]. right. left. split_and!; [done|done|done|]. by exists m3.
  - apply wp_ret. split; [done|]. exists ys, evs. split; [done|]. split; [done|]. by left.
Qed.

(** Why et_events_put returns at once. *)
Definition put_refused (id : et_id) (att : Z) (given : bool) (num : Z) : option Z :=
  if num =? 0 then Some ET_OK
  else if (att <? 0) || negb given || (num <? 0) then Some ET_ERROR
  else call_error id.

Lemma wp_events_put_refused id m att given pes num e :
  local_call id m -> put_refused id att given num = Some e ->
  wp (et_events_put id att given pes num) (fun st m' => st = e /\ m' = m) nc m.
Proof.
  intros L E. unfold put_refused, et_events_put in *. destruct (num =? 0); [apply (inj Some) in E as <-; by apply wp_ret|].
  destruct (_ || _); [apply (inj Some) in E as <-; by apply wp_ret|]. rewrite (lc_local _ _ L). cbn.
  apply (wp_alive_call id m L). by rewrite E.
Qed.

Lemma wp_events_put id m att given xs pes a ps l0 :
  local_call id m -> put_refused id att given (Z.of_nat (length xs)) = None ->
  sys_attach (m_sys m) !! att = Some a -> write_pre m (at_stat a) ps (id_offset id) l0 xs ->
  wp (et_events_put id att given (map (fun x => x + id_offset id) xs ++ pes) (Z.of_nat (length xs)))
    (put_done att (at_stat a) ps l0 xs m) nc m.
Proof.
  intros L E Ea W. unfold put_refused, et_events_put in *. destruct (Z.eqb_spec (Z.of_nat (length xs)) 0); [done|].
  destruct (_ || _); [done|]. rewrite (lc_local _ _ L).
  change (ET_LOCAL =? ET_REMOTE) with false. change (ET_LOCAL =? ET_LOCAL_NOSHARE) with false. cbv iota.
  apply (wp_alive_call id m L). rewrite E. rewrite length_app, length_map.
  destruct (Z.ltb_spec (Z.of_nat (length xs + length pes)) (Z.of_nat (length xs))); [lia|].
  rewrite Nat2Z.id, take_app_le, take_ge by (rewrite length_map; lia).
  eapply wp_mono; [apply (wp_put_body id (set_m_rwlock (m_rwlock m + 1) m) att xs a ps l0 Ea (write_pre_rwlock _ _ _ _ _ _ _ W))| |done].
  - intros ->. done.
  - intros st m' [Rw X]. split; [done|]. apply (put_done_rwlock (m_rwlock m)) in X. by rewrite set_rwlock_id in X.
Qed.
End events_put.

(** ** Dumping *)

Definition owned (att : Z) (evs : gmap Z et_event) (x : Z) : bool :=
  match evs !! x with Some e => ev_owner e =? att | None => false end.
Definition is_temp (evs : gmap Z et_event) (x : Z) : bool :=
  match evs !! x with Some e => ev_temp e =? ET_EVENT_TEMP | None => false end.

Lemma wp_owner_loop off att xs m (Q : bool -> et_mem -> Prop) :
  (forall x, x ∈ xs -> is_Some (m_events m !! x)) -> Q (forallb (owned att (m_events m)) xs) m ->
  wp (owner_loop off att (map (fun x => x + off) xs)) Q nc m.
Proof.
  induction xs as [|x xs IH]; intros D H; cbn [map owner_loop]; [by apply wp_ret|].
  destruct (D x) as [e E]; [set_solver|]. apply wp_bind. eapply wps_ld_ev; [exact E|].
  simpl in H. unfold owned at 1 in H. rewrite E in H. destruct (ev_owner e =? att); [|by apply wp_ret].
  apply IH; [|exact H]. intros y Hy. apply D. set_solver.
Qed.

(** The result for events [xs], when GrandCentral held [l0]; the file of a temporary event may not be
    there to remove. *)
Definition dump_done (att : Z) (ps : et_station) (l0 xs : list Z) (m : et_mem) (status : Z) (m' : et_mem) : Prop :=
  if forallb (owned att (m_events m)) xs then
    let temps := List.filter (is_temp (m_events m)) xs in
    (status = ET_ERROR /\ m' = m /\ temps <> []) \/
    (status = ET_ERROR /\ m' = m /\ cf_nevents (sys_config (m_sys m)) - Z.of_nat (length l0) < Z.of_nat (length xs)) \/
    (status = ET_OK /\ exists m2, dumped m ps l0 xs (l_events_in (st_list_in ps)) m2 /\
       m' = upd_attach att (fun a => set_at_events_dump (u64 (at_events_dump a + Z.of_nat (length xs))) a)
              (with_temps (- Z.of_nat (length temps)) (m_events m2) m2))
  else status = ET_ERROR /\ m' = m.

Lemma dump_pre_rwlock k m ps off l0 xs : dump_pre m ps off l0 xs -> dump_pre (set_m_rwlock k m) ps off l0 xs.
Proof. intros [W1 W2 W3 W4 W5 W6 W7 W8 W9]. by split. Qed.

Lemma dumped_rwlock k m ps l0 xs ein m1 :
  dumped m ps l0 xs ein m1 -> dumped (set_m_rwlock k m) ps l0 xs ein (set_m_rwlock k m1).
Proof. intros (li & fx & evs & -> & W). exists li, fx, evs. split; [by destruct m|exact W]. Qed.

Lemma dump_done_rwlock k att ps l0 xs m status m' :
  dump_done att ps l0 xs m status m' -> dump_done att ps l0 xs (set_m_rwlock k m) status (set_m_rwlock k m').
Proof.
  unfold dump_done. change (m_events (set_m_rwlock k m)) with (m_events m). destruct (forallb _ xs).
  - intros [(-> & -> & H)|[(-> & -> & H)|(-> & m2 & W & ->)]]; [by left|by right; left|]. right. right. split; [done|].
    exists (set_m_rwlock k m2). split; [by apply dumped_rwlock|]. by destruct m2.
  - by intros [-> ->].
Qed.

Section events_dump.
Context `{R0 : Remote} `{R1 : RemoteEvents} `{K0 : Kernel} `{QK : !QuietKernel}.

Lemma wp_remove_loop off xs : forall n m (Q : option Z -> et_mem -> Prop),
  (forall x, x ∈ xs -> is_Some (m_events m !! x)) ->
  (List.filter (is_temp (m_events m)) xs <> [] -> Q None m) ->
  Q (Some (n + Z.of_nat (length (List.filter (is_temp (m_events m)) xs)))) m ->
  wp (remove_loop off (map (fun x => x + off) xs) n) Q nc m.
Proof.
  induction xs as [|x xs IH]; intros n m Q D HN HQ; cbn [map remove_loop].
  { apply wp_ret. simpl in HQ. by rewrite Z.add_0_r in HQ. }
  assert (D' : forall y, y ∈ xs -> is_Some (m_events m !! y)) by (intros y Hy; apply D; set_solver).
  destruct (D x) as [e E]; [set_solver|]. apply wp_bind. eapply wps_ld_ev; [exact E|].
  simpl in HN, HQ. unfold is_temp at 1 in HN. unfold is_temp at 1 in HQ. rewrite E in HN, HQ.
  destruct (ev_temp e =? ET_EVENT_TEMP); [|by apply IH].
  apply wp_bind, wp_quiet; [auto with quiet|]. intros st. destruct (st =? ET_OK); cbn [negb].
  - apply IH; [done|intros _; by apply HN|]. cbn [length] in HQ. by replace (n + 1 + Z.of_nat (length (List.filter (is_temp (m_events m)) xs)))
      with (n + Z.of_nat (S (length (List.filter (is_temp (m_events m)) xs)))) by lia.
  - apply wp_ret. by apply HN.
Qed.

Lemma dumped_sys m ps l0 xs ein m1 : dumped m ps l0 xs ein m1 -> m_sys m1 = m_sys m /\ m_rwlock m1 = m_rwlock m.
Proof. by intros (lo & fx & evs & -> & _). Qed.

Lemma wp_forget_dumped n m (Q : unit -> et_mem -> Prop) :
  sys_mutex (m_sys m) = false -> Q tt (with_temps (- n) (m_events m) m) ->
  wp (et_system_lock ;;; str_sys (fun y => set_sys_ntemps (sys_ntemps y - n) y) ;;; et_system_unlock) Q nc m.
Proof.
  intros Mx H. apply wp_bind. unfold et_system_lock. apply wp_bind, wps_ld_sys. rewrite Mx. apply wps_str_sys; [done|].
  apply wp_bind, wps_str_sys; [done|]. apply wps_str_sys; [done|].
  destruct m as [[]]. simpl in Mx. subst. exact H.
Qed.

Lemma wp_events_dump id m att given xs pes a ps l0 :
  local_call id m -> put_refused id att given (Z.of_nat (length xs)) = None ->
  sys_attach (m_sys m) !! att = Some a -> dump_pre m ps (id_offset id) l0 xs ->
  wp (et_events_dump id att given (map (fun x => x + id_offset id) xs ++ pes) (Z.of_nat (length xs)))
    (dump_done att ps l0 xs m) nc m.
Proof.
  intros L E Ea W. unfold put_refused, et_events_dump in *. destruct (Z.eqb_spec (Z.of_nat (length xs)) 0); [done|].
  destruct (_ || _); [done|]. rewrite (lc_local _ _ L).
  change (ET_LOCAL =? ET_REMOTE) with false. change (ET_LOCAL =? ET_LOCAL_NOSHARE) with false. cbv iota.
  apply (wp_alive_call id m L). rewrite E. rewrite length_app, length_map.
  destruct (Z.ltb_spec (Z.of_nat (length xs + length pes)) (Z.of_nat (length xs))); [lia|].
  rewrite Nat2Z.id, take_app_le, take_ge by (rewrite length_map; lia).
  set (m0 := set_m_rwlock (m_rwlock m + 1) m).
  assert (Hd : forall st m', m_rwlock m' = m_rwlock m0 -> dump_done att ps l0 xs m0 st m' ->
    m_rwlock m' = m_rwlock m + 1 /\ dump_done att ps l0 xs m st (set_m_rwlock (m_rwlock m) m')).
  { intros st m' Rw H'. split; [done|]. apply (dump_done_rwlock (m_rwlock m)) in H'. unfold m0 in H'. by rewrite set_rwlock_id in H'. }
  assert (W0 : dump_pre m0 ps (id_offset id) l0 xs) by by apply dump_pre_rwlock.
  pose proof (dp_dom _ _ _ _ _ W0) as D. apply wp_bind, wp_owner_loop; [done|].
  destruct (forallb _ xs) eqn:F; cbn [negb]; [|apply wp_ret, Hd; [done|unfold dump_done; by rewrite F]].
  assert (Hi : forall st m', (forallb (owned att (m_events m0)) xs = true -> dump_done att ps l0 xs m0 st m') ->
    m_rwlock m' = m_rwlock m0 -> m_rwlock m' = m_rwlock m + 1 /\ dump_done att ps l0 xs m st (set_m_rwlock (m_rwlock m) m')) by auto.
  unfold dump_done at 1 in Hi. rewrite F in Hi.
  apply wp_bind, wp_remove_loop; [done|intros Nt; apply wp_ret, Hi; [by left|done]|].
  apply wp_bind. eapply wp_mono; [apply (wp_ndump m0 ps (id_offset id) l0 xs W0 id eq_refl)| |done].
  intros status m3 [(-> & _)|[(_ & Fu & -> & ->)|(_ & Ro & -> & Du)]]; [done| |].
  { apply wp_ret, Hi; [|done]. right. left. done. }
  cbn [negb Z.eqb ET_OK]. destruct (dumped_sys _ _ _ _ _ _ Du) as [Sy Rw].
  set (k := 0 + Z.of_nat (length (List.filter (is_temp (m_events m0)) xs))).
  assert (Hend : wp (str_attach att (fun a => set_at_events_dump (u64 (at_events_dump a + Z.of_nat (length xs))) a) ;;; ret ET_OK)
    (fun st m' => m_rwlock m' = m_rwlock m + 1 /\ dump_done att ps l0 xs m st (set_m_rwlock (m_rwlock m) m')) nc
    (with_temps (- k) (m_events m3) m3)).
  { apply wp_bind. eapply wps_str_attach; [cbn; rewrite Sy; exact Ea|done|]. apply wp_ret, Hi; [|done].
    right. right. split; [done|]. by exists m3. }
  apply wp_bind, wp_when. destruct (Z.ltb_spec 0 k).
  - apply wp_forget_dumped; [rewrite Sy; apply (lc_mutex _ _ L)|exact Hend].
  - replace (with_temps (- k) (m_events m3) m3) with m3 in Hend; [exact Hend|].
    replace (- k) with 0 by lia. by rewrite with_temps_0.
Qed.
End events_dump.

(** ** What is got can be put *)

(** Changes that keep links, owners and priorities of the events [xs], and all else. *)
Lemma with_data_links `{K0 : Kernel} off e e' :
  with_data off e e' -> ev_next e' = ev_next e /\ ev_owner e' = ev_owner e /\ ev_priority e' = ev_priority e.
Proof. by intros (p & -> & _). Qed.

Lemma changed_dom f xs evs evs' x : changed f xs evs evs' -> is_Some (evs !! x) -> is_Some (evs' !! x).
Proof. intros H [e E]. specialize (H x). rewrite E in H. destruct H as (e' & -> & _). by eexists. Qed.

(** An output list is not affected by new owners of other events. *)
Lemma out_rep_owners evs L l v xs :
  (forall x, x ∈ xs -> x ∉ l) -> out_rep evs L l -> out_rep (set_owners v xs evs) L l.
Proof.
  intros Dj [H1 H2 H3]. assert (Hh : forall a, hi (set_owners v xs evs) a = hi evs a) by (intros; apply set_owners_hi).
  split.
  - eapply list_rep_frame; [|exact H1]. intros a Ha. rewrite set_owners_lookup, decide_False; [done|]. intros X. by apply (Dj a).
  - unfold pri_sorted in *. rewrite <- (pri_sort_ext (hi evs)); [done|]. intros a _. by rewrite Hh.
  - rewrite <- (highs_ext (hi evs)); [done|]. intros a _. by rewrite Hh.
Qed.

(** The events of a plain list of one's own can be used again after a read. *)
Lemma have_read_write_pre `{K0 : Kernel} m s ps l att n m1 off l0 evs :
  have_read m s ps l att n m1 -> write_pre m s ps off l0 (take n l) ->
  changed (with_data off) (take n l) (m_events m1) evs ->
  exists ps1, m_stats m1 !! s = Some ps1 /\ list_rep (m_events m1) (st_list_in ps1) (drop n l) /\
    write_pre (set_m_events evs m1) s ps1 off l0 (take n l).
Proof.
  intros (hg & li & fx & -> & R & Mx & Fi & _ & _ & _ & Fo) W Ch.
  eexists. split; [apply lview_stat|]. split; [exact R|].
  assert (SL : same_links (set_owners att (take n l) (m_events m)) evs) by (eapply changed_links; [apply with_data_links|exact Ch]).
  pose proof W as [W1 W2 W3 W4 W5 W6 W7 W8 W9]. split; try done.
  - apply lview_stat.
  - apply (links_out_rep _ _ SL), out_rep_owners; [exact W8|exact W2].
  - cbn. by rewrite Fo.
  - apply (links_ev_ok _ _ SL). by eapply same_core_ev_ok; [apply set_owners_core|].
  - apply (links_none _ _ SL). rewrite set_owners_lookup, W6. by case_decide.
  - intros x Hx. apply (links_is_Some _ _ SL). rewrite set_owners_lookup. case_decide; [apply fmap_is_Some|]; by apply W9.
Qed.

Lemma write_pre_sys f m s ps off l0 xs : write_pre m s ps off l0 xs -> write_pre (upd_sys f m) s ps off l0 xs.
Proof. intros [W1 W2 W3 W4 W5 W6 W7 W8 W9]. by split. Qed.

(** After getting, the attachment may put what it got. *)
Lemma got_may_put `{K0 : Kernel} m s ps l att n m1 off evs :
  have_read m s ps l att n m1 -> changed (with_data off) (take n l) (m_events m1) evs ->
  (forall x, x ∈ take n l -> exists e, m_events m !! x = Some e /\ ev_length e <= ev_memsize e) ->
  forallb (may_put att evs) (take n l) = true.
Proof.
  intros (hg & li & fx & -> & _) Ch D. apply List.forallb_forall. intros x Hx%list_elem_of_In.
  destruct (D x Hx) as (e & E & Le). specialize (Ch x). cbn in Ch. rewrite set_owners_lookup, decide_True, E in Ch by done.
  destruct Ch as (e' & E' & Ch). rewrite decide_True in Ch by done. destruct Ch as (p & -> & _).
  unfold may_put. rewrite E'. cbn. destruct (Z.ltb_spec (ev_memsize e) (ev_length e)); [lia|]. cbn. apply Z.eqb_refl.
Qed.

Section get_put.
Context `{R0 : Remote} `{R1 : RemoteEvents} `{K0 : Kernel} `{QK : !QuietKernel}.
Context (id : et_id) (m : et_mem) (att mode num : Z) (deltatime : option timespec) (a : et_attach) (ps : et_station) (l l0 : list Z).
Abbreviation s := (at_stat a).
Abbreviation n := (Z.to_nat (Z.min num (Z.of_nat (length l)))).
Abbreviation xs := (take n l).
Abbreviation off := (id_offset id).
Hypothesis L : local_call id m.
Hypothesis Ea : sys_attach (m_sys m) !! att = Some a.
Hypothesis Ref : get_refused id m att true mode deltatime num = None.
Hypothesis P : read_pre m s ps l.
Hypothesis Mo : may_read m (Z.land mode ET_WAIT_MASK) att.
Hypothesis Ne : l <> [].
Hypothesis W : write_pre m s ps off l0 xs.
Hypothesis Dj : forall x, x ∈ l -> x ∉ l0.
Hypothesis Ro : Z.of_nat (length xs) <= cf_nevents (sys_config (m_sys m)) - Z.of_nat (length l0).
Hypothesis Ev : forall x, x ∈ xs -> exists e, m_events m !! x = Some e /\ ev_length e <= ev_memsize e /\ ev_temp e <> ET_EVENT_TEMP.

(** No event is temporary, at any time. *)
Lemma not_temp mr evs z e :
  have_read m s ps l att n mr -> changed (with_data off) xs (m_events mr) evs -> z ∈ xs -> evs !! z = Some e ->
  ev_temp e <> ET_EVENT_TEMP.
Proof.
  intros (hg & li & fx & -> & _) Ch Hz E. destruct (Ev z Hz) as (e0 & E0 & _ & T). specialize (Ch z).
  cbn in Ch. rewrite set_owners_lookup, decide_True, E0 in Ch by done. destruct Ch as (e' & E' & Ch).
  rewrite decide_True in Ch by done. destruct Ch as (p & -> & _). rewrite E in E'. apply (inj Some) in E' as ->. exact T.
Qed.

Lemma got_temp mr z e :
  have_read m s ps l att n mr -> z ∈ xs -> m_events mr !! z = Some e -> ev_temp e <> ET_EVENT_TEMP.
Proof.
  intros (hg & li & fx & -> & _) Hz E. destruct (Ev z Hz) as (e0 & E0 & _ & T). cbn in E.
  rewrite set_owners_lookup, decide_True, E0 in E by done. by apply (inj Some) in E as <-.
Qed.

Abbreviation counted_get := (fun a => set_at_events_get (u64 (at_events_get a + Z.of_nat (length xs))) a).
Abbreviation counted_put := (fun a => set_at_events_put (u64 (at_events_put a + Z.of_nat (length xs))) a).

Lemma get_run : exists x1 mr evs,
  run (et_events_get id att true mode deltatime num) m =
    Ok (ET_OK, map (fun x => x + off) xs, Z.of_nat (length xs)) x1 (upd_attach att counted_get (set_m_events evs mr)) /\
  have_read m s ps l att n mr /\ changed (with_data off) xs (m_events mr) evs.
Proof.
  destruct (wp_run _ _ _ _ (wp_events_get id m att true mode deltatime num a ps l L Ea Ref P Mo Ne))
    as (r & x1 & m1 & E1 & mr & Hr & ys & evs & Ch & [(-> & -> & ->)|(_ & (z & zs & e & Exs & Ez & T & _) & _)]).
  - by exists x1, mr, evs.
  - exfalso. refine (got_temp mr z e Hr _ Ez T). rewrite Exs. set_solver.
Qed.

Lemma put_run mr evs :
  have_read m s ps l att n mr -> changed (with_data off) xs (m_events mr) evs ->
  exists x2 ps1 evs2 mw,
    run (et_events_put id att true (map (fun x => x + off) xs) (Z.of_nat (length xs))) (upd_attach att counted_get (set_m_events evs mr)) =
      Ok ET_OK x2 (upd_attach att counted_put mw) /\
    m_stats mr !! s = Some ps1 /\ list_rep (m_events mr) (st_list_in ps1) (drop n l) /\
    changed used xs evs evs2 /\ written (set_m_events evs2 (upd_attach att counted_get (set_m_events evs mr))) s ps1 l0 xs mw.
Proof.
  intros Hr Ch. destruct (have_read_write_pre _ _ _ _ _ _ _ _ _ _ Hr W Ch) as (ps1 & E1 & R1' & W1).
  destruct (have_read_sys _ _ _ _ _ _ _ Hr) as [Sy Rw]. set (m1 := upd_attach att counted_get (set_m_events evs mr)).
  destruct (get_refused_none _ _ _ _ _ _ _ Ref (ex_intro _ a Ea)) as (N0 & A0 & _ & Nn & _ & Ce & _).
  assert (Hl : length xs <> O) by (apply Z.ltb_ge in Nn; rewrite length_take; assert (length l <> O) by (by destruct l); lia).
  assert (L1 : local_call id m1).
  { destruct L as [L1 L2 L3]. split; [done|cbn; by rewrite Sy|cbn; by rewrite Rw]. }
  assert (Ref1 : put_refused id att true (Z.of_nat (length xs)) = None).
  { unfold put_refused. destruct (Z.eqb_spec (Z.of_nat (length xs)) 0); [lia|]. rewrite A0. cbn [orb negb].
    destruct (Z.ltb_spec (Z.of_nat (length xs)) 0); [lia|done]. }
  assert (Ea1 : sys_attach (m_sys m1) !! att = Some (counted_get a)) by (cbn; by rewrite Sy, lookup_alter_eq, Ea).
  destruct (wp_run _ _ _ _ (wp_events_put id m1 att true xs [] (counted_get a) ps1 l0 L1 Ref1 Ea1 (write_pre_sys _ _ _ _ _ _ _ W1)))
    as (st & x2 & m2 & E2 & D). rewrite app_nil_r in E2. unfold put_done in D. cbn [m_events m1 upd_attach upd_sys set_m_sys set_m_events] in D.
  rewrite (got_may_put m s ps l att n mr off evs Hr Ch) in D.
  2: { intros x Hx. destruct (Ev x Hx) as (e & ? & ? & _). by exists e. }
  destruct D as (ys & evs2 & Ch2 & _ & [(_ & _ & z & zs & e & st' & Exs & Ez & T & _)|[(-> & -> & _ & mw & Wr & ->)|(_ & _ & Fu & _)]]).
  - exfalso. refine (not_temp mr evs z e Hr Ch _ Ez T). rewrite Exs. set_solver.
  - by exists x2, ps1, evs2, mw.
  - exfalso. cbn in Fu. rewrite Sy in Fu. lia.
Qed.

Lemma get_put : exists x1 m1 x2 m2 ps2 a2,
  run (et_events_get id att true mode deltatime num) m =
    Ok (ET_OK, map (fun x => x + off) xs, Z.of_nat (length xs)) x1 m1 /\
  run (et_events_put id att true (map (fun x => x + off) xs) (Z.of_nat (length xs))) m1 = Ok ET_OK x2 m2 /\
  m_stats m2 !! s = Some ps2 /\
  list_rep (m_events m2) (st_list_in ps2) (drop n l) /\
  out_rep (m_events m2) (st_list_out ps2) (pri_sort (hi (m_events m)) (l0 ++ xs)) /\
  (forall s', s' <> s -> m_stats m2 !! s' = m_stats m !! s') /\
  sys_attach (m_sys m2) !! att = Some a2 /\
  at_events_get a2 = u64 (at_events_get a + Z.of_nat (length xs)) /\
  at_events_put a2 = u64 (at_events_put a + Z.of_nat (length xs)).
Proof.
  destruct get_run as (x1 & mr & evs & E1 & Hr & Ch). destruct (put_run mr evs Hr Ch) as (x2 & ps1 & evs2 & mw & E2 & Es & Rl & Ch2 & Wr).
  exists x1, (upd_attach att counted_get (set_m_events evs mr)), x2, (upd_attach att counted_put mw).
  destruct Wr as (lo & fx & evs3 & -> & Ro3 & _ & _ & _ & F3). eexists _, (counted_put (counted_get a)).
  split; [exact E1|]. split; [exact E2|]. split; [cbn; by rewrite lookup_insert_eq|].
  destruct Hr as (hg & li & fx' & -> & _). cbn [m_events set_m_events lview upd_attach upd_sys set_m_sys] in *.
  assert (Hh : forall b, hi evs2 b = hi (m_events m) b).
  { intros b. rewrite (links_hi evs evs2), (links_hi (set_owners att xs (m_events m)) evs); [apply set_owners_hi| |].
    - eapply changed_links; [apply with_data_links|exact Ch].
    - eapply changed_links; [|exact Ch2]. by intros e e' ->. }
  split_and!; [| | | |done|done].
  - eapply list_rep_frame; [|exact Rl]. intros b Hb. destruct F3 as [_ F3].
    assert (Nb : b ∉ xs).
    { pose proof (lr_nodup _ _ _ (rd_in _ _ _ _ P)) as Nd. rewrite <- (take_drop n l) in Nd.
      apply NoDup_app in Nd as (_ & Nd & _). intros X. by apply (Nd b). }
    rewrite F3, (changed_lookup_ne _ _ _ _ _ Nb Ch2), (changed_lookup_ne _ _ _ _ _ Nb Ch); [done|].
    intros X. apply elem_of_app in X as [X|X]; [|done]. apply (Dj b); [|done].
    rewrite <- (take_drop n l). set_solver.
  - cbn. rewrite (pri_sort_ext (hi evs2) (hi (m_events m))) in Ro3 by (intros b _; apply Hh). exact Ro3.
  - intros s' Ns. cbn. by rewrite !lookup_insert_ne.
  - cbn. by rewrite !lookup_alter_eq, Ea.
Qed.
End get_put.

Section specs.
Context `{R0 : Remote} `{R1 : RemoteEvents} `{K0 : Kernel} `{QK : !QuietKernel}.

(** C4: et_events_put either returns at once; or it returns ET_ERROR and changes nothing when one of the
    events does not belong to the attachment or has more data than memory; or it marks the events as
    used and writes them all to the output list of the station, where they are like after
    et_station_nwrite, and counts them.  When that list has no room they get their old age back.
    When a temporary event cannot be unmapped, it returns ET_ERROR and those before it stay marked. *)
Theorem et_events_put_spec id m att given xs pes :
  local_call id m ->
  match put_refused id att given (Z.of_nat (length xs)) with
  | Some e => exists x, run (et_events_put id att given (map (fun x => x + id_offset id) xs ++ pes) (Z.of_nat (length xs))) m = Ok e x m
  | None => forall a ps l0,
      sys_attach (m_sys m) !! att = Some a -> write_pre m (at_stat a) ps (id_offset id) l0 xs ->
      exists status x m', run (et_events_put id att given (map (fun x => x + id_offset id) xs ++ pes) (Z.of_nat (length xs))) m =
          Ok status x m' /\ put_done att (at_stat a) ps l0 xs m status m'
  end.
Proof.
  intros L. destruct (put_refused _ _ _ _) as [e|] eqn:Ref.
  - destruct (wp_run _ _ _ _ (wp_events_put_refused id m att given (map (fun x => x + id_offset id) xs ++ pes) _ e L Ref))
      as (r & x & m' & E & -> & ->). by exists x.
  - intros a ps l0 Ea W. eapply wp_run. by apply wp_events_put.
Qed.


(** C1: getting events of usual size and putting them all back succeeds when there is room in the output
    list: then the input list of the station holds the events that were not taken, and the output list
    those it held and the taken ones, in the order of their priorities; no other station changed, and
    the attachment's counters of got and put events grew by the number of events. *)
Theorem et_events_get_put_spec id m att mode deltatime num a ps l l0 :
  local_call id m -> sys_attach (m_sys m) !! att = Some a ->
  get_refused id m att true mode deltatime num = None ->
  read_pre m (at_stat a) ps l -> may_read m (Z.land mode ET_WAIT_MASK) att -> l <> [] ->
  let n := Z.to_nat (Z.min num (Z.of_nat (length l))) in
  let xs := take n l in
  write_pre m (at_stat a) ps (id_offset id) l0 xs -> (forall x, x ∈ l -> x ∉ l0) ->
  Z.of_nat (length xs) <= cf_nevents (sys_config (m_sys m)) - Z.of_nat (length l0) ->
  (forall x, x ∈ xs -> exists e, m_events m !! x = Some e /\ ev_length e <= ev_memsize e /\ ev_temp e <> ET_EVENT_TEMP) ->
  exists x1 m1 x2 m2 ps2 a2,
    run (et_events_get id att true mode deltatime num) m =
      Ok (ET_OK, map (fun x => x + id_offset id) xs, Z.of_nat (length xs)) x1 m1 /\
    run (et_events_put id att true (map (fun x => x + id_offset id) xs) (Z.of_nat (length xs))) m1 = Ok ET_OK x2 m2 /\
    m_stats m2 !! at_stat a = Some ps2 /\
    list_rep (m_events m2) (st_list_in ps2) (drop n l) /\
    out_rep (m_events m2) (st_list_out ps2) (pri_sort (hi (m_events m)) (l0 ++ xs)) /\
    (forall s, s <> at_stat a -> m_stats m2 !! s = m_stats m !! s) /\
    sys_attach (m_sys m2) !! att = Some a2 /\
    at_events_get a2 = u64 (at_events_get a + Z.of_nat (length xs)) /\
    at_events_put a2 = u64 (at_events_put a + Z.of_nat (length xs)).
Proof. intros L Ea Ref P Mo Ne n xs W Dj Ro Ev. by eapply get_put. Qed.
End specs.

(** ** Concrete calls *)

Lemma et_events_put_spec_witness :
  exists x m', run (et_events_put (R1 := no_remote_events) (K0 := files0) id0 0 true [500 + off0; 600 + off0] 2) mem0 =
      Ok ET_OK x m' /\
    put_done (K0 := files0) 0 1 (stat0 1) [300; 400] [500; 600] mem0 ET_OK m'.
Proof.
  destruct (et_events_put_spec (R1 := no_remote_events) (K0 := files0) (QK := quiet_files0) id0 mem0 0 true [500; 600] []
    (local0 id0 eq_refl) (attach0 0 1) (stat0 1) [300; 400] eq_refl (write_pre0 _ (or_intror (or_introl eq_refl)))) as (st & x & m' & E & H).
  pose proof (f_equal outcome_of E) as X. replace (outcome_of (run _ _)) with (Some (ET_OK, 0)) in X by (vm_compute; reflexivity).
  injection X as <- _. exists x, m'. split; [exact E|exact H].
Defined.


Lemma et_events_get_put_spec_witness :
  exists x1 m1 x2 m2 ps2 a2,
    run (et_events_get (R1 := no_remote_events) (K0 := files0) id0 0 true ET_SLEEP None 1) mem0 = Ok (ET_OK, [200 + off0], 1) x1 m1 /\
    run (et_events_put (R1 := no_remote_events) (K0 := files0) id0 0 true [200 + off0] 1) m1 = Ok ET_OK x2 m2 /\
    m_stats m2 !! 1 = Some ps2 /\
    list_rep (m_events m2) (st_list_in ps2) [100] /\
    out_rep (m_events m2) (st_list_out ps2) [300; 200; 400] /\
    (forall s, s <> 1 -> m_stats m2 !! s = m_stats mem0 !! s) /\
    sys_attach (m_sys m2) !! 0 = Some a2 /\ at_events_get a2 = 1 /\ at_events_put a2 = 1.
Proof.
  apply (et_events_get_put_spec (R1 := no_remote_events) (K0 := files0) (QK := quiet_files0) id0 mem0 0 ET_SLEEP None 1 (attach0 0 1)
    (stat0 1) [200; 100] [300; 400]).
  - by apply local0.
  - reflexivity.
  - reflexivity.
  - apply read_pre0.
  - by left.
  - done.
  - split; try by_eval; [apply mem0_out1|apply mem0_ev_ok| | ]; intros x Hx; change (x ∈ [200]) in Hx;
      apply list_elem_of_singleton in Hx as ->; by_eval.
  - intros x Hx. revert x Hx. apply Forall_forall. by_eval.
  - by_eval.
  - intros x Hx. change (x ∈ [200]) in Hx. apply list_elem_of_singleton in Hx as ->.
    eexists. split; [reflexivity|]. by_eval.
Defined.
