(* ===== verification/EventField.v ===== *)
(** * The elements of an event

    The functions of et_event.c that get and set one element of an event, and how the byte order of
    the data is stored.  A pointer to an event that may be NULL is an option. *)
From stdpp Require Import base gmap strings list.
From Stdlib Require Import ZArith Lia Btauto.
From S2P Require Import Prelude Types.
Open Scope Z_scope.

(** ** Words of 32 bits *)

Definition u32 (z : Z) : Z := z mod 2 ^ 32.
(** The int with the bits of an unsigned word. *)
Definition s32 (z : Z) : Z := if u32 z <? 2 ^ 31 then u32 z else u32 z - 2 ^ 32.

(** The macro of et.h. *)
Definition ET_SWAP32 (x : Z) : Z :=
  let x := u32 x in
  u32 (Z.lor (Z.lor (Z.lor (Z.shiftr x 24)
                           (Z.shiftr (Z.land x 16711680) 8))
                    (Z.shiftl (Z.land x 65280) 8))
             (u32 (Z.shiftl x 24))).

(** ** Getting and setting *)

Definition ev_get {V} (get : et_event -> V) (pe : option et_event) (given : bool) : Z * option V :=
  match pe with
  | Some e => if given then (ET_OK, Some (get e)) else (ET_ERROR, None)
  | None => (ET_ERROR, None)
  end.

Definition ev_set (refuse : et_event -> bool) (set : et_event -> et_event) (pe : option et_event) :
    Z * option et_event :=
  match pe with
  | Some e => if refuse e then (ET_ERROR, Some e) else (ET_OK, Some (set e))
  | None => (ET_ERROR, None)
  end.

Definition et_event_getgroup := ev_get ev_group.
Definition et_event_setpriority (pe : option et_event) (pri : Z) :=
  ev_set (fun _ => negb (pri =? ET_HIGH) && negb (pri =? ET_LOW)) (set_ev_priority pri) pe.
Definition et_event_getpriority := ev_get ev_priority.
Definition et_event_setlength (pe : option et_event) (len : Z) :=
  ev_set (fun e => ev_memsize e <? len) (set_ev_length len) pe.
Definition et_event_getlength := ev_get ev_length.
Definition et_event_getdata := ev_get ev_pdata.
Definition et_event_getcontrol := ev_get ev_control.

(** for (i=0; i < num; i++) pe->control[i] = con[i]: [n] iterations from [i] on; nothing if it reads
    outside of con or writes outside of control. *)
Fixpoint control_loop (n : nat) (i : nat) (con control : list Z) : option (list Z) :=
  match n with
  | O => Some control
  | S n' =>
      match con !! i, control !! i with
      | Some v, Some _ => control_loop n' (S i) con (<[i := v]> control)
      | _, _ => None
      end
  end.

Definition et_event_setcontrol (pe : option et_event) (con : option (list Z)) (num : Z) : option (Z * option et_event) :=
  match pe, con with
  | Some e, Some con =>
      if (num <? 1) || (ET_STATION_SELECT_INTS <? num) then Some (ET_ERROR, Some e)
      else
        match control_loop (Z.to_nat num) 0 con (ev_control e) with
        | None => None
        | Some control => Some (ET_OK, Some (set_ev_control control e))
        end
  | _, _ => Some (ET_ERROR, pe)
  end.

Definition et_event_setdatastatus (pe : option et_event) (datastatus : Z) :=
  ev_set (fun _ => negb (datastatus =? ET_DATA_OK) && negb (datastatus =? ET_DATA_CORRUPT) &&
                   negb (datastatus =? ET_DATA_POSSIBLY_CORRUPT)) (set_ev_datastatus datastatus) pe.
Definition et_event_getdatastatus := ev_get ev_datastatus.

(** ** Byte order *)

(** The two bytes of a short in memory. *)
Class Cpu := { short_bytes : Z -> Z * Z }.

Section byteorder.
Context `{Cpu}.

Definition etNetLocalByteOrder : Z * option Z :=
  let c := short_bytes 258 in
  if (fst c =? 1) && (snd c =? 2) then (ET_OK, Some ET_ENDIAN_BIG)
  else if (fst c =? 2) && (snd c =? 1) then (ET_OK, Some ET_ENDIAN_LITTLE)
  else (ET_ERROR, None).

(** 0x04030201 and 0x01020304. *)
Definition local_order : Z := 67305985.
Definition other_order : Z := 16909060.

Definition et_event_setendian (pe : option et_event) (endian : Z) : Z * option et_event :=
  match etNetLocalByteOrder with
  | (_, Some myendian) =>
      ev_set (fun _ => negb (endian =? ET_ENDIAN_BIG) && negb (endian =? ET_ENDIAN_LITTLE) &&
                       negb (endian =? ET_ENDIAN_LOCAL) && negb (endian =? ET_ENDIAN_NOTLOCAL) &&
                       negb (endian =? ET_ENDIAN_SWITCH))
        (fun e =>
           if (endian =? ET_ENDIAN_BIG) || (endian =? ET_ENDIAN_LITTLE)
           then set_ev_byteorder (if myendian =? endian then local_order else other_order) e
           else if endian =? ET_ENDIAN_LOCAL then set_ev_byteorder local_order e
           else if endian =? ET_ENDIAN_NOTLOCAL then set_ev_byteorder other_order e
           else set_ev_byteorder (s32 (ET_SWAP32 (ev_byteorder e))) e) pe
  | (err, None) => (err, pe)
  end.

Definition et_event_getendian (pe : option et_event) (given : bool) : Z * option Z :=
  match pe with
  | None => (ET_ERROR, None)
  | Some e =>
      if negb given then (ET_ERROR, None)
      else
        match etNetLocalByteOrder with
        | (_, Some myendian) =>
            let notmyendian := if myendian =? ET_ENDIAN_BIG then ET_ENDIAN_LITTLE else ET_ENDIAN_BIG in
            (ET_OK, Some (if ev_byteorder e =? local_order then myendian else notmyendian))
        | (err, None) => (err, None)
        end
  end.
End byteorder.

Definition et_event_needtoswap :=
  ev_get (fun e => if ev_byteorder e =? local_order then ET_NOSWAP else ET_SWAP).

(** ** Swapping bytes *)

Lemma u32_range z : 0 <= u32 z < 2 ^ 32.
Proof. apply Z.mod_pos_bound. lia. Qed.

Lemma u32_testbit z i : 0 <= i -> Z.testbit (u32 z) i = (i <? 32) && Z.testbit z i.
Proof.
  intros Hi. unfold u32. destruct (Z.ltb_spec i 32).
  - by rewrite Z.mod_pow2_bits_low.
  - by rewrite Z.mod_pow2_bits_high by lia.
Qed.

Lemma s32_u32 z : u32 (s32 z) = u32 z.
Proof.
  unfold s32. pose proof (u32_range z). destruct (_ <? _).
  - apply Z.mod_small. lia.
  - unfold u32 in *. rewrite <- (Z_mod_plus_full _ 1), Z.mul_1_l, Z.sub_add. apply Z.mod_small. lia.
Qed.

Lemma s32_small z : - 2 ^ 31 <= z < 2 ^ 31 -> s32 (u32 z) = z.
Proof.
  intros Hz. unfold s32, u32. rewrite Zmod_mod. destruct (Z.leb_spec 0 z).
  - rewrite Z.mod_small by lia. destruct (Z.ltb_spec z (2 ^ 31)); lia.
  - rewrite <- (Z_mod_plus_full z 1), Z.mod_small by lia. destruct (Z.ltb_spec (z + 1 * 2 ^ 32) (2 ^ 31)); lia.
Qed.

(** Bit [i] of a word whose bytes are swapped. *)
Definition swapped_bit (i : Z) : Z :=
  if i <? 8 then i + 24 else if i <? 16 then i + 8 else if i <? 24 then i - 8 else i - 24.

Lemma mask_testbit k i : 0 <= k -> 0 <= i ->
  Z.testbit (Z.shiftl (Z.ones 8) k) i = (k <=? i) && (i <? k + 8).
Proof.
  intros Hk Hi. destruct (Z.leb_spec k i).
  - rewrite Z.shiftl_spec by lia. destruct (Z.ltb_spec i (k + 8)).
    + by rewrite Z.ones_spec_low by lia.
    + by rewrite Z.ones_spec_high by lia.
  - by rewrite Z.shiftl_spec_low by lia.
Qed.

Lemma swap32_testbit x i : 0 <= i -> Z.testbit (ET_SWAP32 x) i = (i <? 32) && Z.testbit (u32 x) (swapped_bit i).
Proof.
  intros Hi. unfold ET_SWAP32. rewrite u32_testbit by done. destruct (Z.ltb_spec i 32); [|done]. cbn [andb].
  change 16711680 with (Z.shiftl (Z.ones 8) 16). change 65280 with (Z.shiftl (Z.ones 8) 8).
  rewrite !Z.lor_spec, u32_testbit, !Z.shiftr_spec, Z.land_spec, mask_testbit by lia.
  rewrite (Z.shiftl_spec (Z.land _ _) 8), (Z.shiftl_spec (u32 x) 24), Z.land_spec by lia.
  assert (Neg : forall k, k < 0 -> Z.testbit (u32 x) k = false) by (intros k Hk; by apply Z.testbit_neg_r).
  assert (High : forall k, 32 <= k -> Z.testbit (u32 x) k = false).
  { intros k Hk. rewrite u32_testbit by lia. destruct (Z.ltb_spec k 32); [lia|done]. }
  destruct (Z.ltb_spec (i - 8) 0).
  - rewrite (Z.testbit_neg_r _ (i - 8)), (Neg (i - 24)) by lia. unfold swapped_bit.
    destruct (Z.ltb_spec i 8); [|lia]. destruct (Z.leb_spec 16 (i + 8)); [lia|]. cbn [andb orb]. by rewrite !andb_false_r, !orb_false_r.
  - rewrite mask_testbit by lia. unfold swapped_bit. destruct (Z.ltb_spec i 8); [lia|]. rewrite (High (i + 24)) by lia.
    destruct (Z.leb_spec 16 (i + 8)), (Z.ltb_spec (i + 8) (16 + 8)), (Z.leb_spec 8 (i - 8)), (Z.ltb_spec (i - 8) (8 + 8)),
      (Z.ltb_spec i 16), (Z.ltb_spec i 24); try lia; cbn [andb orb]; rewrite ?andb_true_r, ?andb_false_r, ?orb_false_r; try done;
      destruct (Z.ltb_spec i 32); try lia; cbn [andb orb]; try done; by rewrite (Neg (i - 24)), orb_false_r by lia.
Qed.

Lemma swap32_range x : 0 <= ET_SWAP32 x < 2 ^ 32.
Proof. apply u32_range. Qed.

(** Swapping twice gives the word back. *)
Lemma swap32_swap32 x : ET_SWAP32 (ET_SWAP32 x) = u32 x.
Proof.
  apply Z.bits_inj'. intros i Hi. rewrite swap32_testbit by done.
  assert (u32 (ET_SWAP32 x) = ET_SWAP32 x) as -> by apply Z.mod_small, swap32_range.
  destruct (Z.ltb_spec i 32); cbn [andb].
  - assert (Hs : 0 <= swapped_bit i < 32 /\ swapped_bit (swapped_bit i) = i) by (unfold swapped_bit; repeat zcase; lia).
    rewrite swap32_testbit by lia. destruct Hs as [Hs ->]. destruct (Z.ltb_spec (swapped_bit i) 32); [done|lia].
  - rewrite u32_testbit by lia. by destruct (Z.ltb_spec i 32); [lia|].
Qed.

(** ** Well-formed events *)

(** What the users' functions rely on: the values that the fields of an event may have. *)
Record event_ok (e : et_event) : Prop := mkEventOk {
  ek_priority : ev_priority e = ET_LOW \/ ev_priority e = ET_HIGH;
  ek_length : 0 <= ev_length e <= ev_memsize e;
  ek_datastatus : ev_datastatus e = ET_DATA_OK \/ ev_datastatus e = ET_DATA_CORRUPT \/ ev_datastatus e = ET_DATA_POSSIBLY_CORRUPT;
  ek_byteorder : - 2 ^ 31 <= ev_byteorder e < 2 ^ 31;
  ek_control : length (ev_control e) = Z.to_nat ET_STATION_SELECT_INTS
}.

(** The calls that change an event, with any arguments but a len that is not a size_t. *)
Inductive ev_op :=
| SetPriority (pri : Z) | SetLength (len : Z) | SetControl (con : option (list Z)) (num : Z)
| SetDatastatus (datastatus : Z) | SetEndian (endian : Z).

Definition ev_run `{Cpu} (op : ev_op) (pe : option et_event) : option (Z * option et_event) :=
  match op with
  | SetPriority pri => Some (et_event_setpriority pe pri)
  | SetLength len => Some (et_event_setlength pe len)
  | SetControl con num => et_event_setcontrol pe con num
  | SetDatastatus datastatus => Some (et_event_setdatastatus pe datastatus)
  | SetEndian endian => Some (et_event_setendian pe endian)
  end.

(** The calls one after the other: what they return and the event at the end. *)
Fixpoint ev_runs `{Cpu} (ops : list ev_op) (pe : option et_event) : option (list Z * option et_event) :=
  match ops with
  | [] => Some ([], pe)
  | op :: ops => match ev_run op pe with
                 | Some (r, pe) => match ev_runs ops pe with Some (rs, pe) => Some (r :: rs, pe) | None => None end
                 | None => None
                 end
  end.

(** A call within the language: lengths are not negative, arrays as long as the caller says, unless he
    says what no call accepts. *)
Definition op_defined (op : ev_op) : Prop :=
  match op with
  | SetLength len => 0 <= len
  | SetControl (Some con) num => num <= Z.of_nat (length con) \/ ET_STATION_SELECT_INTS < num
  | _ => True
  end.

(** The calls that succeed, on an event with so much memory. *)
Definition accepted `{Cpu} (memsize : Z) (op : ev_op) : Prop :=
  match op with
  | SetPriority pri => pri = ET_LOW \/ pri = ET_HIGH
  | SetLength len => len <= memsize
  | SetControl con num => con <> None /\ 1 <= num <= ET_STATION_SELECT_INTS
  | SetDatastatus ds => ds = ET_DATA_OK \/ ds = ET_DATA_CORRUPT \/ ds = ET_DATA_POSSIBLY_CORRUPT
  | SetEndian en => snd etNetLocalByteOrder <> None /\
      (en = ET_ENDIAN_BIG \/ en = ET_ENDIAN_LITTLE \/ en = ET_ENDIAN_LOCAL \/ en = ET_ENDIAN_NOTLOCAL \/ en = ET_ENDIAN_SWITCH)
  end.

(** The status of a call, and the element that one that succeeded has set. *)
Definition op_status `{Cpu} (memsize : Z) (op : ev_op) (r : Z) : Prop :=
  (accepted memsize op /\ r = ET_OK) \/ (~ accepted memsize op /\ r = ET_ERROR).
Definition op_set `{Cpu} (op : ev_op) (e e' : et_event) : Prop :=
  match op with
  | SetPriority pri => e' = set_ev_priority pri e
  | SetLength len => e' = set_ev_length len e
  | SetControl con num => exists c, con = Some c /\
      e' = set_ev_control (take (Z.to_nat num) c ++ drop (Z.to_nat num) (ev_control e)) e
  | SetDatastatus ds => e' = set_ev_datastatus ds e
  | SetEndian en =>
      e' = set_ev_byteorder (if decide (en = ET_ENDIAN_SWITCH) then s32 (ET_SWAP32 (ev_byteorder e))
                             else if decide (en = ET_ENDIAN_LOCAL \/ snd etNetLocalByteOrder = Some en) then local_order
                             else other_order) e
  end.

Lemma s32_range z : - 2 ^ 31 <= s32 z < 2 ^ 31.
Proof. unfold s32. pose proof (u32_range z). destruct (Z.ltb_spec (u32 z) (2 ^ 31)); lia. Qed.

Lemma control_loop_ok n : forall i con control,
  (i + n <= length con)%nat -> (i + n <= length control)%nat ->
  control_loop n i con control = Some (take i control ++ take n (drop i con) ++ drop (i + n) control).
Proof.
  induction n as [|n IH]; intros i con control Hc Hn; cbn [control_loop].
  { by rewrite Nat.add_0_r, take_0, app_nil_l, take_drop. }
  destruct (lookup_lt_is_Some_2 con i) as [v Ev]; [lia|]. destruct (lookup_lt_is_Some_2 control i) as [w Ew]; [lia|]. rewrite Ev, Ew.
  rewrite IH by (rewrite ?length_insert; lia). f_equal. rewrite (drop_S con v i) by done. cbn [take].
  rewrite (take_S_r (<[i:=v]> control) i v) by (rewrite list_lookup_insert_eq; [done|lia]).
  rewrite take_insert_ge, drop_insert_lt by lia. rewrite <- app_assoc. cbn [app]. do 4 f_equal. lia.
Qed.

Lemma orb3 (a b c : bool) : (a || b || c = true) <-> a = true \/ b = true \/ c = true.
Proof. destruct a, b, c; naive_solver. Qed.

(** One call. *)
Lemma ev_run_spec `{Cpu} op e :
  event_ok e -> op_defined op ->
  exists r e', ev_run op (Some e) = Some (r, Some e') /\ event_ok e' /\ ev_memsize e' = ev_memsize e /\
    op_status (ev_memsize e) op r /\ (if decide (r = ET_OK) then op_set op e e' else e' = e).
Proof.
  intros Ok D. pose proof Ok as [H1 H2 H3 H4 H5]. unfold op_status.
  destruct op as [pri|len|con num|ds|en]; cbn [ev_run accepted op_set].
  - unfold et_event_setpriority, ev_set. destruct (_ && _) eqn:T.
    + apply andb_true_iff in T as [T1 T2]. zbool. exists ET_ERROR, e. split_and!; [done..|right; split; [naive_solver|done]|done].
    + exists ET_OK. eexists. assert (X : pri = ET_LOW \/ pri = ET_HIGH)
        by (apply andb_false_iff in T as [T|T]; apply negb_false_iff, Z.eqb_eq in T; auto).
      split_and!; [done|by split|done|by left|done].
  - unfold et_event_setlength, ev_set. destruct (Z.ltb_spec (ev_memsize e) len).
    + exists ET_ERROR, e. split_and!; [done..|right; split; [lia|done]|done].
    + exists ET_OK. eexists. split_and!; [done|by split|done|by left|done].
  - unfold et_event_setcontrol. destruct con as [con|].
    + destruct (_ || _) eqn:T.
      * exists ET_ERROR, e. split_and!; [done..|right; split; [|done]|done]. intros [_ N]. apply orb_true_iff in T as [T|T]; zbool; lia.
      * apply orb_false_iff in T as [T1 T2]. zbool. cbn in D. assert (L : (Z.to_nat num <= length con)%nat) by (destruct D; lia).
        rewrite control_loop_ok by (cbn; rewrite ?H5; lia). exists ET_OK. eexists. cbn [take drop app]. rewrite drop_0.
        split_and!; [done| |done|left; split; [split; [done|lia]|done]|by exists con].
        split; try done. change (length (take (Z.to_nat num) con ++ drop (Z.to_nat num) (ev_control e)) = Z.to_nat ET_STATION_SELECT_INTS).
        rewrite length_app, length_take, length_drop, H5. lia.
    + exists ET_ERROR, e. split_and!; [done..|right; split; [naive_solver|done]|done].
  - unfold et_event_setdatastatus, ev_set. destruct (_ && _) eqn:T.
    + apply andb_true_iff in T as [[T1 T2]%andb_true_iff T3]. zbool. exists ET_ERROR, e. split_and!; [done..|right; split; [naive_solver|done]|done].
    + exists ET_OK. eexists. assert (X : ds = ET_DATA_OK \/ ds = ET_DATA_CORRUPT \/ ds = ET_DATA_POSSIBLY_CORRUPT).
      { destruct (Z.eqb_spec ds ET_DATA_OK), (Z.eqb_spec ds ET_DATA_CORRUPT), (Z.eqb_spec ds ET_DATA_POSSIBLY_CORRUPT); auto; done. }
      split_and!; [done|by split|done|by left|done].
  - unfold et_event_setendian, ev_set. unfold etNetLocalByteOrder. destruct (_ && (snd _ =? 2)); [|destruct (_ && _)]; cbn [snd].
    1,2: destruct (Z.eqb_spec en ET_ENDIAN_BIG), (Z.eqb_spec en ET_ENDIAN_LITTLE), (Z.eqb_spec en ET_ENDIAN_LOCAL),
        (Z.eqb_spec en ET_ENDIAN_NOTLOCAL), (Z.eqb_spec en ET_ENDIAN_SWITCH); subst; try done; cbn [negb andb orb];
      try (exists ET_ERROR, e; split_and!; [done..|right; split; [naive_solver|done]|done]);
      (exists ET_OK; eexists; split_and!; [done| |done|left; split; [split; [done|tauto]|done]|done];
       split; try done; cbn; unfold local_order, other_order; repeat case_match; try lia; apply s32_range).
    exists ET_ERROR, e. split_and!; [done..|right; split; [naive_solver|done]|done].
Qed.

Section endian.
Context `{Cpu}.
(** The processor has one of the two byte orders. *)
Hypothesis Bytes : short_bytes 258 = (1, 2) \/ short_bytes 258 = (2, 1).

Lemma local_order_ok : exists me, etNetLocalByteOrder = (ET_OK, Some me) /\ (me = ET_ENDIAN_BIG \/ me = ET_ENDIAN_LITTLE).
Proof. unfold etNetLocalByteOrder. destruct Bytes as [-> | ->]; eexists; (split; [reflexivity|]); auto. Qed.

Definition opposite (endian : Z) : Z := if endian =? ET_ENDIAN_BIG then ET_ENDIAN_LITTLE else ET_ENDIAN_BIG.

(** The byte order that a call of et_event_setendian gives to an event with the order [old]. *)
Definition endian_result (me old endian : Z) : Z :=
  if endian =? ET_ENDIAN_LOCAL then me
  else if endian =? ET_ENDIAN_NOTLOCAL then opposite me
  else if endian =? ET_ENDIAN_SWITCH then opposite old
  else endian.

Lemma endian_roundtrip e endian :
  ev_byteorder e = local_order \/ ev_byteorder e = other_order ->
  endian = ET_ENDIAN_BIG \/ endian = ET_ENDIAN_LITTLE \/ endian = ET_ENDIAN_LOCAL \/ endian = ET_ENDIAN_NOTLOCAL \/
    endian = ET_ENDIAN_SWITCH ->
  exists me old e', etNetLocalByteOrder = (ET_OK, Some me) /\ et_event_getendian (Some e) true = (ET_OK, Some old) /\
    et_event_setendian (Some e) endian = (ET_OK, Some e') /\
    (ev_byteorder e' = local_order \/ ev_byteorder e' = other_order) /\
    et_event_getendian (Some e') true = (ET_OK, Some (endian_result me old endian)) /\
    et_event_needtoswap (Some e') true = (ET_OK, Some (if endian_result me old endian =? me then ET_NOSWAP else ET_SWAP)).
Proof.
  intros He Hn. destruct local_order_ok as (me & B & Hme). destruct e as [? ? ? ? ? ? ? ? ? ? ? ? ? bo ? ? ? ?]. cbn in He.
  unfold et_event_getendian, et_event_setendian, et_event_needtoswap, ev_get, ev_set. rewrite B. cbn [negb ev_byteorder].
  exists me. destruct He as [-> | ->], Hme as [-> | ->], Hn as [->|[->|[->|[->| ->]]]];
    (do 2 eexists; split_and!; [reflexivity|reflexivity|vm_compute; reflexivity|vm_compute; auto|reflexivity|reflexivity]).
Qed.
End endian.

(** From [e] to [e'] by the calls: those that succeeded set their element, the others nothing. *)
Fixpoint changes_of `{Cpu} (ops : list ev_op) (rs : list Z) (e e' : et_event) : Prop :=
  match ops, rs with
  | op :: ops, r :: rs => exists e1, (if decide (r = ET_OK) then op_set op e e1 else e1 = e) /\ changes_of ops rs e1 e'
  | _, _ => e' = e
  end.

(** ** The specifications *)

(** C6: any series of calls of the functions that set an element of an event returns, and keeps the
    event well formed: its priority and data status are among the values there are, it does not have
    more data than memory, the byte order is an int and the control array has its length.  The size of
    its memory never changes; each call succeeds exactly when its values are those the element may have,
    and then sets this element only, or returns ET_ERROR and changes nothing. *)
Theorem event_ok_invariant `{Cpu} ops e :
  event_ok e -> Forall op_defined ops ->
  exists rs e', ev_runs ops (Some e) = Some (rs, Some e') /\ event_ok e' /\ ev_memsize e' = ev_memsize e /\
    Forall2 (op_status (ev_memsize e)) ops rs /\ changes_of ops rs e e'.
Proof.
  intros Ok D. revert e Ok. induction D as [|op ops D1 D IH]; intros e Ok; cbn [ev_runs].
  { exists [], e. by split_and!. }
  destruct (ev_run_spec op e Ok D1) as (r & e1 & T & Ok1 & Ms & St & Un). rewrite T.
  destruct (IH e1 Ok1) as (rs & e' & -> & Ok' & Ms' & F & Ch). rewrite Ms in F.
  exists (r :: rs), e'. split_and!; [done|done|congruence|by constructor|]. by exists e1.
Qed.

(** After et_event_setendian, et_event_getendian gives the byte order that was set, that of the node
    or the opposite one for the symbolic values, and the opposite of the old one for
    ET_ENDIAN_SWITCH; et_event_needtoswap tells whether it differs from the node's. *)
Theorem et_event_setendian_getendian `{Cpu} e endian :
  short_bytes 258 = (1, 2) \/ short_bytes 258 = (2, 1) ->
  ev_byteorder e = local_order \/ ev_byteorder e = other_order ->
  endian = ET_ENDIAN_BIG \/ endian = ET_ENDIAN_LITTLE \/ endian = ET_ENDIAN_LOCAL \/ endian = ET_ENDIAN_NOTLOCAL \/
    endian = ET_ENDIAN_SWITCH ->
  exists me old e', etNetLocalByteOrder = (ET_OK, Some me) /\ et_event_getendian (Some e) true = (ET_OK, Some old) /\
    et_event_setendian (Some e) endian = (ET_OK, Some e') /\
    (ev_byteorder e' = local_order \/ ev_byteorder e' = other_order) /\
    et_event_getendian (Some e') true = (ET_OK, Some (endian_result me old endian)) /\
    et_event_needtoswap (Some e') true = (ET_OK, Some (if endian_result me old endian =? me then ET_NOSWAP else ET_SWAP)).
Proof. intros Hb. by apply endian_roundtrip. Qed.

(** Switching any byte order twice gives it back, even one that is not among the two. *)
Lemma setendian_switch_twice `{Cpu} e : 
  short_bytes 258 = (1, 2) \/ short_bytes 258 = (2, 1) -> - 2 ^ 31 <= ev_byteorder e < 2 ^ 31 ->
  exists e1, et_event_setendian (Some e) ET_ENDIAN_SWITCH = (ET_OK, Some e1) /\
    et_event_setendian (Some e1) ET_ENDIAN_SWITCH = (ET_OK, Some e).
Proof.
  intros Hb Hr. destruct (local_order_ok Hb) as (me & B & _). unfold et_event_setendian. rewrite B. unfold ev_set.
  eexists. split; [reflexivity|]. cbn. do 2 f_equal. unfold set_ev_byteorder. cbn.
  assert (X : s32 (ET_SWAP32 (s32 (ET_SWAP32 (ev_byteorder e)))) = ev_byteorder e).
  { assert (Y : forall z, ET_SWAP32 (s32 z) = ET_SWAP32 z) by (intros z; unfold ET_SWAP32; by rewrite s32_u32).
    rewrite Y, swap32_swap32. by apply s32_small. }
  rewrite X. by destruct e.
Qed.

(** ** Concrete calls *)

#[local] Instance cpu0 : Cpu := {| short_bytes z := (z mod 256, z / 256) |}.

Definition event1 : et_event :=
  mkEvent 0 0 0 0 10 1000 0 0 ET_LOW 0 ET_EVENT_NORMAL ET_EVENT_USED ET_DATA_OK local_order 1 0 (replicate 6 0) EmptyString.

Lemma event_ok1 : event_ok event1.
Proof. split; cbn; auto; unfold local_order; lia. Qed.

Lemma event_ok_invariant_witness :
  let ops := [SetLength 1001; SetControl (Some [1; 2]) 2; SetControl (Some []) 7; SetEndian ET_ENDIAN_SWITCH] in
  exists rs e', ev_runs ops (Some event1) = Some (rs, Some e') /\ event_ok e' /\ ev_memsize e' = ev_memsize event1 /\
    Forall2 (op_status 1000) ops rs /\ changes_of ops rs event1 e'.
Proof.
  intros ops. apply (event_ok_invariant ops event1 event_ok1). repeat constructor; cbn; unfold ET_STATION_SELECT_INTS; lia.
Defined.

Lemma et_event_setendian_getendian_witness :
  exists me old e', etNetLocalByteOrder = (ET_OK, Some me) /\ et_event_getendian (Some event1) true = (ET_OK, Some old) /\
    et_event_setendian (Some event1) ET_ENDIAN_BIG = (ET_OK, Some e') /\
    (ev_byteorder e' = local_order \/ ev_byteorder e' = other_order) /\
    et_event_getendian (Some e') true = (ET_OK, Some (endian_result me old ET_ENDIAN_BIG)) /\
    et_event_needtoswap (Some e') true = (ET_OK, Some (if endian_result me old ET_ENDIAN_BIG =? me then ET_NOSWAP else ET_SWAP)).
Proof. apply (et_event_setendian_getendian event1 ET_ENDIAN_BIG); [by right|by left|by left]. Defined.
