(* ===== verification/Station.v ===== *)
(** * Making, removing, moving and using stations

    The functions of et_station.c that change which stations exist, where they are in the chain and
    who is attached to them.  They compose the initialisation of a station, the chain and the
    recovery of events, and hold the station mutex and the transfer mutexes of all stations while
    they change the chain. *)
From stdpp Require Import base gmap strings list.
From S2P Require Import Prelude Types Machine EvList Sample StatConfig Stats Restore Chain Api StationApi Init.
Open Scope Z_scope.

(** What the functions ask the operating system: getpid and the name of the host, if it is found. *)
Class Os := { getpid : Z; etNetLocalHost : option string }.

(** ** The transfer mutexes of all stations *)

Fixpoint transfer_loop (n : nat) (f : Z -> M unit) (ps : Z) : M unit :=
  match n with
  | O => ret tt
  | S n' => f ps ;;; transfer_loop n' f (ps + 1)
  end.

Definition et_transfer_lock_all : M unit :=
  let* y := ld_sys in transfer_loop (Z.to_nat (cf_nstations (sys_config y))) et_transfer_lock 0.
Definition et_transfer_unlock_all : M unit :=
  let* y := ld_sys in transfer_loop (Z.to_nat (cf_nstations (sys_config y))) et_transfer_unlock 0.

Definition et_statadd_lock : M unit :=
  let* y := ld_sys in
  if sys_statadd_mutex y then block else str_sys (set_sys_statadd_mutex true).
Definition et_statadd_unlock : M unit := str_sys (set_sys_statadd_mutex false).

(** pthread_cond_wait(&sys->statdone, &sys->statadd_mutex). *)
Definition statdone_wait : M Z := fun x m =>
  match cx_wakes x with
  | [] => Blocked (upd_sys (set_sys_statadd_mutex false) m)
  | k :: w =>
      Ok (wk_status k) (mkCtx (cx_crash x) w)
        (upd_sys (set_sys_statadd_mutex true) (wk_env k (upd_sys (set_sys_statadd_mutex false) m)))
  end.

Section station.
Context `{R0 : Remote} `{O0 : Os}.

(** ** Creation *)

(** The configurations of the existing station and of the one to create are the same. *)
Definition same_config (c sc : et_stat_config) : bool :=
  (sc_flow_mode c =? sc_flow_mode sc) && (sc_user_mode c =? sc_user_mode sc) &&
  (sc_block_mode c =? sc_block_mode sc) && (sc_select_mode c =? sc_select_mode sc) &&
  (sc_restore_mode c =? sc_restore_mode sc) && (sc_prescale c =? sc_prescale sc) &&
  (sc_cue c =? sc_cue sc) &&
  forallb (fun p => fst p =? snd p) (combine (sc_select c) (sc_select sc)) &&
  negb (sc_select_mode c =? ET_STATION_SELECT_USER).

(** The first station from [i] on that is not used. *)
Fixpoint find_unused (n : nat) (i : Z) : M Z :=
  match n with
  | O => ret (-1)
  | S n' =>
      let* ps := ld_stat i in
      if sd_status (st_data ps) =? ET_STATION_UNUSED then ret i else find_unused n' (i + 1)
  end.

(** Until the thread that adds stations has started the conductor of the station. *)
Fixpoint statdone_loop (n : nat) : M unit :=
  match n with
  | O => diverge
  | S n' =>
      let* y := ld_sys in
      if sys_statDone y =? 1 then ret tt
      else
        let* status := statdone_wait in
        if negb (status =? 0) then err_abort else statdone_loop n'
  end.

(** The new station gets its number, name and configuration. *)
Definition create_setup (stat_name : string) (sc : et_stat_config) (this_station : Z) : M unit :=
  et_init_station this_station ;;;
  str_stats this_station
    [set_st_num this_station; set_st_name stat_name; set_st_config sc;
     in_data (set_sd_pid_create getpid); in_data (set_sd_status ET_STATION_CREATING)].

(** The thread that adds stations is told to start a conductor. *)
Definition create_conductor : M unit :=
  et_statadd_lock ;;;
  str_sys (set_sys_statAdd 1) ;;;
  str_sys (set_sys_statDone 0) ;;;
  with_wakes statdone_loop ;;;
  et_statadd_unlock.

Definition add_nstations (k : Z) : M unit :=
  let* y := ld_sys in str_sys (set_sys_nstations (sys_nstations y + k)).

(** The new station is put into the chain. *)
Definition create_insert (this_station position parallelposition : Z) : M (Z * option Z) :=
  let* ps := ld_stat this_station in
  if negb (sd_status (st_data ps) =? ET_STATION_IDLE) then
    add_nstations (-1) ;;;
    et_init_station this_station ;;;
    et_station_unlock ;;;
    ret (ET_ERROR, None)
  else
    et_transfer_lock_all ;;;
    let* st := station_insert this_station position parallelposition in
    if negb (st =? ET_OK) then
      et_transfer_unlock_all ;;;
      str_stat this_station (set_st_conductor ET_THREAD_KILL) ;;;
      signal_cread (LOut this_station) ;;;
      str_stat this_station (in_data (set_sd_status ET_STATION_UNUSED)) ;;;
      add_nstations (-1) ;;;
      et_station_unlock ;;;
      ret (ET_ERROR, None)
    else
      et_transfer_unlock_all ;;;
      et_station_unlock ;;;
      ret (ET_OK, Some this_station).

Definition create_new (stat_name : string) (sc : et_stat_config) (isGrandCentral : bool)
    (position parallelposition : Z) : M (Z * option Z) :=
  let* y := ld_sys in
  if cf_nstations (sys_config y) <=? sys_nstations y then
    et_station_unlock ;;; ret (ET_ERROR_TOOMANY, None)
  else
    add_nstations 1 ;;;
    let* this_station := find_unused (Z.to_nat (cf_nstations (sys_config y))) 0 in
    if this_station =? -1 then
      add_nstations (-1) ;;;
      et_station_unlock ;;;
      ret (ET_ERROR, None)
    else
      create_setup stat_name sc this_station ;;;
      if isGrandCentral then et_station_unlock ;;; ret (ET_OK, None)
      else
        create_conductor ;;;
        create_insert this_station position parallelposition.

(** The station of this name exists already. *)
Definition create_existing (id : et_id) (sc : et_stat_config) (num : Z) : M (Z * option Z) :=
  let* (_, status) := et_station_getstatus id num true in
  let* ps := ld_stat num in
  let same :=
    (match status with Some status => negb (status =? ET_STATION_CREATING) | None => true end) &&
    same_config (st_config ps) sc in
  et_station_unlock ;;;
  ret (if same then ET_OK else ET_ERROR_EXISTS, Some num).

(** [None] for the name is NULL, [None] for the configuration asks for the default one, whose
    allocation succeeds when [malloc_ok]. *)
Definition et_station_create_at (id : et_id) (stat_name : option string) (malloc_ok : bool)
    (sconfig : option et_stat_config) (position parallelposition : Z) : M (Z * option Z) :=
  match stat_name with
  | None => ret (ET_ERROR, None)
  | Some name =>
    if ET_STATNAME_LENGTH - 1 <? strlen name then ret (ET_ERROR, None)
    else if negb (position =? ET_END) && (position <? 0) then ret (ET_ERROR, None)
    else if negb (parallelposition =? ET_END) && negb (parallelposition =? ET_NEWHEAD) &&
            (parallelposition <? 0) then ret (ET_ERROR, None)
    else
      match (match sconfig with None => snd (et_station_config_init malloc_ok) | Some _ => sconfig end) with
      | None => ret (ET_ERROR, None)
      | Some sc =>
        let isGrandCentral := String.eqb "GRAND_CENTRAL" name in
        if negb (sc_init sc =? ET_STRUCT_OK) then ret (ET_ERROR, None)
        else if negb isGrandCentral && (position =? 0) then ret (ET_ERROR, None)
        else if negb (id_locality id =? ET_LOCAL)
        then etr_station_create_at id name sc position parallelposition
        else
          let* alive := et_alive id in
          if (alive =? 0) && negb isGrandCentral then ret (ET_ERROR_DEAD, None)
          else
            locked_call id (fun e => (e, None))
              (let* y := ld_sys in
               let (st, sc) := et_station_config_check y sc in
               if st =? ET_ERROR then ret (ET_ERROR, None)
               else
                 et_station_lock ;;;
                 let* (exists_, num) := et_station_exists id true (Some name) in
                 match (if exists_ =? 1 then num else None) with
                 | Some num => create_existing id sc num
                 | None => create_new name sc isGrandCentral position parallelposition
                 end)
      end
  end.

Definition et_station_create (id : et_id) (stat_name : option string) (malloc_ok : bool)
    (sconfig : option et_stat_config) : M (Z * option Z) :=
  et_station_create_at id stat_name malloc_ok sconfig ET_END ET_END.

(** ** Removal *)

Definition et_station_remove (id : et_id) (stat_id : Z) : M Z :=
  if stat_id <? 0 then ret ET_ERROR
  else if stat_id =? ET_GRANDCENTRAL then ret ET_ERROR
  else if negb (id_locality id =? ET_LOCAL) then etr_station_remove id stat_id
  else
    alive_call id (fun e => e)
      (let* y := ld_sys in
       if cf_nstations (sys_config y) <=? stat_id then ret ET_ERROR
       else
         et_station_lock ;;;
         let* ps := ld_stat stat_id in
         if 0 <? sd_nattachments (st_data ps) then et_station_unlock ;;; ret ET_ERROR
         else
           et_transfer_lock_all ;;;
           station_remove stat_id ;;;
           et_transfer_unlock stat_id ;;;
           let* pl := ld_list (LOut stat_id) in
           when (0 <? l_cnt pl) nanosleep ;;;
           et_transfer_lock stat_id ;;;
           str_stat stat_id (set_st_conductor ET_THREAD_KILL) ;;;
           signal_cread (LOut stat_id) ;;;
           str_stat stat_id (in_data (set_sd_status ET_STATION_UNUSED)) ;;;
           et_transfer_unlock_all ;;;
           add_nstations (-1) ;;;
           et_station_unlock ;;;
           ret ET_OK).

(** ** Attaching and detaching *)

(** The first attachment from [i] on that is not used. *)
Fixpoint find_attach (n : nat) (i : Z) : M Z :=
  match n with
  | O => ret (-1)
  | S n' =>
      let* a := ld_attach i in
      if at_num a =? -1 then ret i else find_attach n' (i + 1)
  end.

(** The attachment [my_index] of this process to the station. *)
Definition attach_setup (id : et_id) (stat_id my_index : Z) : M unit :=
  let* y := ld_sys in
  str_sys (set_sys_nattachments (sys_nattachments y + 1)) ;;;
  et_init_attachment my_index ;;;
  str_attachs my_index
    ([set_at_num my_index; set_at_proc (id_proc id); set_at_stat stat_id; set_at_status ET_ATT_ACTIVE;
      set_at_pid getpid] ++ match etNetLocalHost with Some host => [set_at_host host] | None => [] end) ;;;
  when (negb (id_proc id =? ET_SYS))
    (let* p := ld_proc (id_proc id) in
     str_proc (id_proc id) (set_pr_nattachments (pr_nattachments p + 1)) ;;;
     str_proc (id_proc id) (fun p => set_pr_att (<[my_index := my_index]> (pr_att p)) p)).

(** The station gets one attachment more and becomes active. *)
Definition attach_station (stat_id my_index : Z) : M unit :=
  let* ps := ld_stat stat_id in
  str_stat stat_id (in_data (set_sd_nattachments (sd_nattachments (st_data ps) + 1))) ;;;
  str_stat stat_id (in_data (fun d => set_sd_att (<[my_index := my_index]> (sd_att d)) d)) ;;;
  let unlockit := (sc_flow_mode (st_config ps) =? ET_STATION_PARALLEL) &&
                  negb (sd_status (st_data ps) =? ET_STATION_ACTIVE) in
  when unlockit et_transfer_lock_all ;;;
  str_stat stat_id (in_data (set_sd_status ET_STATION_ACTIVE)) ;;;
  when unlockit et_transfer_unlock_all.

(** [given]: the pointer for the attachment is not NULL. *)
Definition et_station_attach (id : et_id) (stat_id : Z) (given : bool) : M (Z * option Z) :=
  if (stat_id <? 0) || negb given then ret (ET_ERROR, None)
  else if negb (id_locality id =? ET_LOCAL) then etr_station_attach id stat_id
  else
    alive_call id (fun e => (e, None))
      (let* y := ld_sys in
       if cf_nstations (sys_config y) <=? stat_id then ret (ET_ERROR, None)
       else
         et_station_lock ;;;
         let* ps := ld_stat stat_id in
         if negb (sd_status (st_data ps) =? ET_STATION_ACTIVE) &&
            negb (sd_status (st_data ps) =? ET_STATION_IDLE)
         then et_station_unlock ;;; ret (ET_ERROR, None)
         else if (0 <? sc_user_mode (st_config ps)) &&
                 (sc_user_mode (st_config ps) <=? sd_nattachments (st_data ps))
         then et_station_unlock ;;; ret (ET_ERROR_TOOMANY, None)
         else
           et_system_lock ;;;
           let* y := ld_sys in
           if cf_nattachments (sys_config y) <=? sys_nattachments y then
             et_system_unlock ;;; et_station_unlock ;;; ret (ET_ERROR_TOOMANY, None)
           else
             let* my_index := find_attach (Z.to_nat (cf_nattachments (sys_config y))) 0 in
             if my_index <? 0 then et_system_unlock ;;; et_station_unlock ;;; ret (ET_ERROR, None)
             else
               attach_setup id stat_id my_index ;;;
               et_system_unlock ;;;
               attach_station stat_id my_index ;;;
               et_station_unlock ;;;
               ret (ET_OK, Some my_index)).

(** The last attachment of a station other than GrandCentral makes it idle. *)
Definition detach_idle (id : et_id) (att stat_id : Z) : M unit :=
  let* ps := ld_stat stat_id in
  when ((sd_nattachments (st_data ps) =? 1) && negb (stat_id =? ET_GRANDCENTRAL))
    (when (negb (id_cleanup id =? 1)) et_transfer_lock_all ;;;
     str_stat stat_id (in_data (set_sd_status ET_STATION_IDLE)) ;;;
     when (negb (id_cleanup id =? 1)) et_transfer_unlock_all ;;;
     et_flush_events id att stat_id).

(** The attachment leaves the lists of its station and of its process. *)
Definition detach_forget (id : et_id) (att stat_id : Z) : M unit :=
  let* ps := ld_stat stat_id in
  str_stat stat_id (in_data (set_sd_nattachments (sd_nattachments (st_data ps) - 1))) ;;;
  str_stat stat_id (in_data (fun d => set_sd_att (<[att := -1]> (sd_att d)) d)) ;;;
  when (negb (id_cleanup id =? 1))
    (when (negb (id_proc id =? ET_SYS))
       (let* p := ld_proc (id_proc id) in
        str_proc (id_proc id) (set_pr_nattachments (pr_nattachments p - 1)) ;;;
        str_proc (id_proc id) (fun p => set_pr_att (<[att := -1]> (pr_att p)) p)) ;;;
     et_system_unlock ;;;
     et_station_unlock).

(** The body of et_station_detach under the write lock of the memory. *)
Definition detach_body (id : et_id) (att : Z) : M Z :=
  let* y := ld_sys in
  if cf_nattachments (sys_config y) <=? att then ret ET_ERROR
  else
    when (negb (id_cleanup id =? 1)) et_station_lock ;;;
    let* a := ld_attach att in
    if at_stat a <? 0 then et_station_unlock ;;; ret ET_ERROR
    else
      let stat_id := at_stat a in
      when (negb (id_cleanup id =? 1)) et_system_lock ;;;
      str_attachs att [set_at_num (-1); set_at_status ET_ATT_UNUSED] ;;;
      let* y := ld_sys in
      str_sys (set_sys_nattachments (sys_nattachments y - 1)) ;;;
      detach_idle id att stat_id ;;;
      let* _ := et_restore_events id att stat_id in
      detach_forget id att stat_id ;;;
      ret ET_OK.

Definition et_station_detach (id : et_id) (att : Z) : M Z :=
  if (att <? 0) || (ET_ATTACHMENTS_MAX <=? att) then ret ET_ERROR
  else if negb (id_locality id =? ET_LOCAL) then etr_station_detach id att
  else
    let* alive := et_alive id in
    if alive =? 0 then ret ET_ERROR_DEAD
    else
      et_memWrite_lock ;;;
      if negb (id_closed id =? 0) then et_mem_unlock ;;; ret ET_ERROR_CLOSED
      else
        let* r := detach_body id att in
        et_mem_unlock ;;;
        ret r.

(** ** Positions *)

(** A function on the chain: the station is in it, and no event is transferred. *)
Definition chain_call {A} (id : et_id) (err : Z -> A) (stat_id : Z) (body : M A) : M A :=
  alive_call id err
    (let* y := ld_sys in
     if cf_nstations (sys_config y) <=? stat_id then ret (err ET_ERROR)
     else
       et_station_lock ;;;
       let* ps := ld_stat stat_id in
       if negb (sd_status (st_data ps) =? ET_STATION_IDLE) &&
          negb (sd_status (st_data ps) =? ET_STATION_ACTIVE)
       then et_station_unlock ;;; ret (err ET_ERROR)
       else
         et_transfer_lock_all ;;;
         let* r := body in
         et_transfer_unlock_all ;;;
         et_station_unlock ;;;
         ret r).

(** The station leaves its place and goes to the new one, or back when that fails. *)
Definition move_station (stat_id position parallelposition : Z) : M Z :=
  let* (_, currentPosition, currentParallelPosition) := station_find stat_id in
  station_remove stat_id ;;;
  let* err := station_insert stat_id position parallelposition in
  if negb (err =? ET_OK) then
    let* _ := station_insert stat_id currentPosition currentParallelPosition in ret err
  else ret err.

Definition et_station_setposition (id : et_id) (stat_id position parallelposition : Z) : M Z :=
  if stat_id <? 0 then ret ET_ERROR
  else if stat_id =? ET_GRANDCENTRAL then ret (if position =? 0 then ET_OK else ET_ERROR)
  else if negb (position =? ET_END) && (position <? 0) then ret ET_ERROR
  else if position =? 0 then ret ET_ERROR
  else if negb (parallelposition =? ET_END) && negb (parallelposition =? ET_NEWHEAD) &&
          (parallelposition <? 0) then ret ET_ERROR
  else if negb (id_locality id =? ET_LOCAL) then etr_station_setposition id stat_id position parallelposition
  else chain_call id (fun e => e) stat_id (move_station stat_id position parallelposition).

(** The status and the positions that are stored through the two pointers; the position in its group
    is not stored for GrandCentral. *)
Definition et_station_getposition (id : et_id) (stat_id : Z) : M (Z * option Z * option Z) :=
  if stat_id <? 0 then ret (ET_ERROR, None, None)
  else if stat_id =? ET_GRANDCENTRAL then ret (ET_OK, Some 0, None)
  else if negb (id_locality id =? ET_LOCAL) then etr_station_getposition id stat_id
  else
    chain_call id (fun e => (e, None, None)) stat_id
      (let* (err, position, parallelposition) := station_find stat_id in
       ret (if err =? ET_OK then (err, Some position, Some parallelposition) else (err, None, None))).
End station.
