(* ===== verification/StationSpec.v ===== *)
(** * Correctness of the operations on the chain of stations

    The invariant of the stations between two calls, that the operations of Station preserve it, and
    what they do to the abstract chain of Chain. *)
From stdpp Require Import base gmap strings list.
From S2P Require Import Prelude Types Machine EvList Sample StatConfig Stats Restore Chain Api StationApi Init Station.
Open Scope Z_scope.

(** ** The transfer mutexes *)

Definition all_transfer (b : bool) (m : et_mem) : et_mem :=
  set_m_stats (set_st_mutex b <$> m_stats m) m.

Definition stations_dom (m : et_mem) : Prop :=
  forall s, is_Some (m_stats m !! s) <-> 0 <= s < cf_nstations (sys_config (m_sys m)).

Definition transfer_upto (b : bool) (i : Z) (m : et_mem) : et_mem :=
  set_m_stats (map_imap (fun s ps => Some (if s <? i then set_st_mutex b ps else ps)) (m_stats m)) m.

Lemma transfer_upto_lookup b i m s :
  m_stats (transfer_upto b i m) !! s = (fun ps => if s <? i then set_st_mutex b ps else ps) <$> m_stats m !! s.
Proof. cbn. rewrite map_lookup_imap. by destruct (m_stats m !! s). Qed.

Lemma transfer_upto_next b i m : upd_stat i (set_st_mutex b) (transfer_upto b i m) = transfer_upto b (i + 1) m.
Proof.
  unfold upd_stat, transfer_upto, set_m_stats. cbn. f_equal. apply map_eq. intros s.
  destruct (decide (i = s)) as [<-|N].
  - rewrite lookup_alter_eq, !map_lookup_imap. destruct (m_stats m !! i); simpl; [|done].
    destruct (Z.ltb_spec i i), (Z.ltb_spec i (i + 1)); done || lia.
  - rewrite lookup_alter_ne, !map_lookup_imap by done. destruct (m_stats m !! s); simpl; [|done].
    destruct (Z.ltb_spec s i), (Z.ltb_spec s (i + 1)); done || lia.
Qed.

Lemma transfer_upto_0 b m : stations_dom m -> transfer_upto b 0 m = m.
Proof.
  intros D. destruct m as [y st h e r]. unfold transfer_upto, set_m_stats. cbn. f_equal. apply map_eq. intros s.
  rewrite map_lookup_imap. destruct (st !! s) as [ps|] eqn:E; simpl; [|done].
  assert (0 <= s) by (apply (D s); cbn; eauto). destruct (Z.ltb_spec s 0); [lia|done].
Qed.

Lemma transfer_upto_all b m :
  stations_dom m -> transfer_upto b (cf_nstations (sys_config (m_sys m))) m = all_transfer b m.
Proof.
  intros D. unfold transfer_upto, all_transfer, set_m_stats. f_equal. apply map_eq. intros s.
  rewrite map_lookup_imap, lookup_fmap. destruct (m_stats m !! s) as [ps|] eqn:E; simpl; [|done].
  assert (s < cf_nstations (sys_config (m_sys m))) by (apply (D s); eauto).
  destruct (Z.ltb_spec s (cf_nstations (sys_config (m_sys m)))); [done|lia].
Qed.

(** A loop that sets the mutex of each station. *)
Lemma wp_transfer_loop b f m (Q : unit -> et_mem -> Prop) n i :
  stations_dom m -> 0 <= i -> i + Z.of_nat n = cf_nstations (sys_config (m_sys m)) ->
  (forall s m0 (Q : unit -> et_mem -> Prop), is_Some (m_stats m !! s) ->
     m_stats m0 !! s = m_stats m !! s ->
     Q tt (upd_stat s (set_st_mutex b) m0) -> wp (f s) Q (fun _ => True) m0) ->
  Q tt (all_transfer b m) -> wp (transfer_loop n f i) Q (fun _ => True) (transfer_upto b i m).
Proof.
  intros D Hi Hn Hf H. revert i Hi Hn. induction n as [|n IH]; intros i Hi Hn; simpl.
  - apply wp_ret. replace i with (cf_nstations (sys_config (m_sys m))) by lia. by rewrite transfer_upto_all.
  - apply wp_bind, Hf.
    + apply D. lia.
    + rewrite transfer_upto_lookup. destruct (m_stats m !! i); simpl; [|done]. by rewrite Z.ltb_irrefl.
    + rewrite transfer_upto_next. apply IH; lia.
Qed.

Lemma wp_transfer_lock_all (Q : unit -> et_mem -> Prop) m :
  stations_dom m -> (forall s ps, m_stats m !! s = Some ps -> st_mutex ps = false) ->
  0 <= cf_nstations (sys_config (m_sys m)) ->
  Q tt (all_transfer true m) -> wp et_transfer_lock_all Q (fun _ => True) m.
Proof.
  intros D F N H. unfold et_transfer_lock_all. apply wp_bind, wps_ld_sys.
  rewrite <- (transfer_upto_0 true m D) at 2. apply wp_transfer_loop; try done; [lia|].
  intros s m0 Q' [ps E] E0 H'. rewrite E in E0. unfold et_transfer_lock. apply wp_bind. eapply wps_ld_stat; [done|].
  rewrite (F s ps E). by eapply wps_str_stat.
Qed.

Lemma wp_transfer_unlock_all (Q : unit -> et_mem -> Prop) m :
  stations_dom m -> 0 <= cf_nstations (sys_config (m_sys m)) ->
  Q tt (all_transfer false m) -> wp et_transfer_unlock_all Q (fun _ => True) m.
Proof.
  intros D N H. unfold et_transfer_unlock_all. apply wp_bind, wps_ld_sys.
  rewrite <- (transfer_upto_0 false m D) at 2. apply wp_transfer_loop; try done; [lia|].
  intros s m0 Q' [ps E] E0 H'. rewrite E in E0. unfold et_transfer_unlock. by eapply wps_str_stat.
Qed.

(** ** What is behind the links *)

Lemma unlinked_mem_upd_stat s f m :
  (forall ps, unlinked (f ps) = f (unlinked ps)) -> unlinked_mem (upd_stat s f m) = upd_stat s f (unlinked_mem m).
Proof.
  intros H. unfold unlinked_mem, upd_stat, upd_sys, set_m_stats, set_m_sys. cbn. f_equal.
  apply map_eq. intros i. rewrite lookup_fmap. destruct (decide (s = i)) as [<-|N].
  - rewrite !lookup_alter_eq, lookup_fmap. destruct (m_stats m !! s); simpl; [by rewrite H|done].
  - by rewrite !lookup_alter_ne, lookup_fmap.
Qed.

Lemma unlinked_mem_upd_sys f m :
  (forall y, set_sys_stat_tail 0 (f y) = f (set_sys_stat_tail 0 y)) -> unlinked_mem (upd_sys f m) = upd_sys f (unlinked_mem m).
Proof. intros H. unfold unlinked_mem, upd_sys, set_m_stats, set_m_sys. cbn. by rewrite H. Qed.

Lemma unlinked_mem_transfer b m : unlinked_mem (all_transfer b m) = all_transfer b (unlinked_mem m).
Proof.
  unfold unlinked_mem, all_transfer, upd_sys, set_m_stats, set_m_sys. cbn. f_equal.
  rewrite <- !map_fmap_compose. by apply map_fmap_ext.
Qed.

Lemma unlinked_mem_rwlock k m : unlinked_mem (set_m_rwlock k m) = set_m_rwlock k (unlinked_mem m).
Proof. done. Qed.

Lemma all_transfer_links b m : same_links (all_transfer b m) m.
Proof.
  split; [|done]. cbn. rewrite <- map_fmap_compose. by apply map_fmap_ext.
Qed.

(** The state of the stations between two calls, but for the links: every id has a station, those of
    the chain are idle or active, the others are unused, and the mutexes are free. *)
Record station_state (m : et_mem) (gs : list (Z * list Z)) : Prop := mkStationState {
  ss_dom : stations_dom m;
  ss_count : sys_nstations (m_sys m) = Z.of_nat (length (members gs));
  ss_used : forall s ps, m_stats m !! s = Some ps -> s ∈ members gs ->
    sd_status (st_data ps) = ET_STATION_IDLE \/ sd_status (st_data ps) = ET_STATION_ACTIVE;
  ss_unused : forall s ps, m_stats m !! s = Some ps -> s ∉ members gs -> sd_status (st_data ps) = ET_STATION_UNUSED;
  ss_free : forall s ps, m_stats m !! s = Some ps -> st_mutex ps = false;
  ss_mutex : sys_stat_mutex (m_sys m) = false;
  ss_num : 0 <= cf_nstations (sys_config (m_sys m))
}.

Definition system_ok (m : et_mem) (gs : list (Z * list Z)) : Prop := station_chain m gs /\ station_state m gs.

Lemma unlinked_stat m m' s :
  unlinked_mem m' = unlinked_mem m -> unlinked <$> m_stats m' !! s = unlinked <$> m_stats m !! s.
Proof.
  intros U. change (m_stats (unlinked_mem m')) with (unlinked <$> m_stats m') in *.
  rewrite <- !lookup_fmap. change (unlinked <$> m_stats m') with (m_stats (unlinked_mem m')).
  by rewrite U.
Qed.

Lemma unlinked_stat_data m m' s ps' :
  unlinked_mem m' = unlinked_mem m -> m_stats m' !! s = Some ps' ->
  exists ps, m_stats m !! s = Some ps /\ unlinked ps' = unlinked ps.
Proof.
  intros U E. pose proof (unlinked_stat m m' s U) as X. rewrite E in X. simpl in X.
  destruct (m_stats m !! s) as [ps|]; [|done]. exists ps. split; [done|]. by apply (inj Some).
Qed.

Lemma unlinked_sys m m' : unlinked_mem m' = unlinked_mem m ->
  set_sys_stat_tail 0 (m_sys m') = set_sys_stat_tail 0 (m_sys m).
Proof. intros U. change (m_sys (unlinked_mem m') = m_sys (unlinked_mem m)). by rewrite U. Qed.

Lemma unlinked_dom m m' : unlinked_mem m' = unlinked_mem m -> stations_dom m -> stations_dom m'.
Proof.
  intros U D s. pose proof (unlinked_sys m m' U) as Y.
  assert (sys_config (m_sys m') = sys_config (m_sys m)) as -> by
    (change (sys_config (set_sys_stat_tail 0 (m_sys m')) = sys_config (set_sys_stat_tail 0 (m_sys m))); congruence).
  rewrite <- (D s). pose proof (unlinked_stat m m' s U) as X.
  destruct (m_stats m' !! s), (m_stats m !! s); simpl in X; try done; split; intros []; by eauto.
Qed.

(** The state does not depend on the links. *)
Lemma unlinked_state m m' gs : unlinked_mem m' = unlinked_mem m -> station_state m gs -> station_state m' gs.
Proof.
  intros U [S1 S2 S3 S4 S5 S6 S7]. pose proof (unlinked_sys m m' U) as Y.
  assert (Hd : forall s ps', m_stats m' !! s = Some ps' -> exists ps, m_stats m !! s = Some ps /\
     st_data ps' = st_data ps /\ st_mutex ps' = st_mutex ps).
  { intros s ps' E. destruct (unlinked_stat_data m m' s ps' U E) as (ps & E' & X). exists ps. split; [done|].
    injection X. auto. }
  assert (Hy : forall {A} (f : et_system -> A), (forall y, f (set_sys_stat_tail 0 y) = f y) -> f (m_sys m') = f (m_sys m)).
  { intros A f Hf. rewrite <- (Hf (m_sys m')), <- (Hf (m_sys m)). by rewrite Y. }
  split.
  - by apply (unlinked_dom m).
  - by rewrite (Hy _ sys_nstations).
  - intros s ps' E Hs. destruct (Hd s ps' E) as (ps & E' & -> & _). by apply (S3 s).
  - intros s ps' E Hs. destruct (Hd s ps' E) as (ps & E' & -> & _). by apply (S4 s).
  - intros s ps' E. destruct (Hd s ps' E) as (ps & E' & _ & ->). by apply (S5 s).
  - by rewrite (Hy _ sys_stat_mutex).
  - by rewrite (Hy _ sys_config).
Qed.

(** Stores to the system structure that leave what the stations depend on. *)
Lemma system_ok_upd_sys f m gs :
  let y := m_sys m in
  sys_stat_tail (f y) = sys_stat_tail y -> sys_nstations (f y) = sys_nstations y ->
  sys_config (f y) = sys_config y -> sys_stat_mutex (f y) = sys_stat_mutex y ->
  system_ok m gs -> system_ok (upd_sys f m) gs.
Proof.
  intros y E1 E2 E3 E4 [C [S1 S2 S3 S4 S5 S6 S7]]. split; [by rewrite same_links_upd_sys|].
  split; cbn [m_sys m_stats upd_sys set_m_sys]; fold y; rewrite ?E2, ?E3, ?E4; try done.
  intros s. cbn [m_sys m_stats upd_sys set_m_sys]. fold y. rewrite E3. apply S1.
Qed.

(** ** The frame of the functions on the chain *)

(** The memory while the locks are held, and after they are released. *)
Definition chain_locked (m : et_mem) : et_mem :=
  all_transfer true (upd_sys (set_sys_stat_mutex true) (set_m_rwlock (m_rwlock m + 1) m)).
Definition chain_unlocked (k : Z) (m : et_mem) : et_mem :=
  set_m_rwlock k (upd_sys (set_sys_stat_mutex false) (all_transfer false m)).

Lemma unlinked_chain_unlocked k m : unlinked_mem (chain_unlocked k m) = chain_unlocked k (unlinked_mem m).
Proof.
  unfold chain_unlocked. by rewrite unlinked_mem_rwlock, unlinked_mem_upd_sys, unlinked_mem_transfer.
Qed.

Lemma chain_unlocked_free m :
  (forall s ps, m_stats m !! s = Some ps -> st_mutex ps = false) -> sys_stat_mutex (m_sys m) = false ->
  chain_unlocked (m_rwlock m) (chain_locked m) = m.
Proof.
  intros F1 F2. destruct m as [[] st h e r]. unfold chain_unlocked, chain_locked, all_transfer, upd_sys, set_m_sys, set_m_stats, set_m_rwlock.
  cbn in *. subst. f_equal. apply map_eq. intros s. rewrite !lookup_fmap.
  destruct (st !! s) as [ps|] eqn:E; simpl; [|done]. f_equal. specialize (F1 s ps E). destruct ps. cbn in *. by subst.
Qed.

Lemma chain_unlocked_locked m gs : station_state m gs -> chain_unlocked (m_rwlock m) (chain_locked m) = m.
Proof. intros [_ _ _ _ F1 F2 _]. by apply chain_unlocked_free. Qed.

Lemma chain_locked_links m : same_links (chain_locked m) m.
Proof. unfold chain_locked. by rewrite all_transfer_links, same_links_upd_sys. Qed.

Lemma chain_unlocked_links k m : same_links (chain_unlocked k m) m.
Proof.
  unfold chain_unlocked. transitivity (upd_sys (set_sys_stat_mutex false) (all_transfer false m)); [done|].
  by rewrite same_links_upd_sys, all_transfer_links.
Qed.

(** After a change of the links under the locks. *)
Lemma chain_unlocked_back m m2 gs :
  station_state m gs -> unlinked_mem m2 = unlinked_mem (chain_locked m) ->
  unlinked_mem (chain_unlocked (m_rwlock m) m2) = unlinked_mem m.
Proof.
  intros S U. rewrite unlinked_chain_unlocked, U, <- unlinked_chain_unlocked.
  by rewrite (chain_unlocked_locked m gs S).
Qed.

Lemma locked_dom m : stations_dom m -> stations_dom (chain_locked m).
Proof. intros D s. rewrite <- (D s). cbn. rewrite lookup_fmap. destruct (m_stats m !! s); simpl; split; intros []; eauto; done. Qed.

Section frame.
Context `{R0 : Remote} (id : et_id) (m : et_mem) (gs : list (Z * list Z)).
Context (L : local_call id m) (H : system_ok m gs).

Lemma chain_member_stat s : s ∈ members gs ->
  0 <= s < cf_nstations (sys_config (m_sys m)) /\ exists ps, m_stats m !! s = Some ps.
Proof.
  intros Hs. destruct (ch_stat _ _ (proj1 H) s Hs) as (? & ps & E & _). split; [|by exists ps].
  apply (ss_dom _ _ (proj2 H)). eauto.
Qed.

Lemma wp_release_locks m2 (Q : unit -> et_mem -> Prop) :
  unlinked_mem m2 = unlinked_mem (chain_locked m) ->
  Q tt (upd_sys (set_sys_stat_mutex false) (all_transfer false m2)) ->
  wp (et_transfer_unlock_all ;;; et_station_unlock) Q (fun _ => True) m2.
Proof.
  intros U HQ. pose proof (proj2 H) as S.
  assert (D : stations_dom m2) by (apply (unlinked_dom (chain_locked m)); [done|]; apply locked_dom, S).
  assert (N : sys_config (m_sys m2) = sys_config (m_sys m)).
  { pose proof (unlinked_sys _ _ U) as Y.
    change (sys_config (set_sys_stat_tail 0 (m_sys m2)) = sys_config (set_sys_stat_tail 0 (m_sys (chain_locked m)))).
    by rewrite Y. }
  apply wp_bind, wp_transfer_unlock_all; [done|rewrite N; exact (ss_num _ _ S)|]. by apply wps_str_sys.
Qed.

(** The body runs under the locks on a memory with the same chain. *)
Lemma wp_chain_call {A} (err : Z -> A) s (body : M A) (B : A -> et_mem -> Prop) :
  s ∈ members gs -> (forall r m2, B r m2 -> unlinked_mem m2 = unlinked_mem (chain_locked m)) ->
  wp body B (fun _ => True) (chain_locked m) ->
  wp (chain_call id err s body)
    (fun r m' => match call_error id with
                 | Some e => r = err e /\ m' = m
                 | None => exists m2, B r m2 /\ m' = chain_unlocked (m_rwlock m) m2
                 end) (fun _ => True) m.
Proof.
  intros Hs HB Hb. unfold chain_call. apply (wp_alive_call id m L). destruct (call_error id); [done|].
  destruct (chain_member_stat s Hs) as ([_ Hr] & ps & E). pose proof (proj2 H) as S.
  apply wp_bind, wps_ld_sys. cbn [m_sys set_m_rwlock]. destruct (Z.leb_spec (cf_nstations (sys_config (m_sys m))) s); [lia|].
  apply wp_bind. unfold et_station_lock. apply wp_bind, wps_ld_sys. cbn [m_sys set_m_rwlock].
  rewrite (ss_mutex _ _ S). apply wps_str_sys; [done|].
  apply wp_bind. eapply wps_ld_stat; [done|].
  assert (negb (sd_status (st_data ps) =? ET_STATION_IDLE) && negb (sd_status (st_data ps) =? ET_STATION_ACTIVE) = false) as ->.
  { destruct (ss_used _ _ S s ps E Hs) as [-> | ->]; reflexivity. }
  apply wp_bind, wp_transfer_lock_all; [exact (ss_dom _ _ S)|exact (ss_free _ _ S)|exact (ss_num _ _ S)|].
  apply wp_bind. eapply wp_mono; [exact Hb| |done]. intros r m2 Hp. pose proof (HB r m2 Hp) as U.
  assert (W : wp (et_transfer_unlock_all ;;; et_station_unlock) (fun _ m' =>
    m' = upd_sys (set_sys_stat_mutex false) (all_transfer false m2)) (fun _ => True) m2) by by apply wp_release_locks.
  assert (K : m_rwlock m2 = m_rwlock m + 1).
  { change (m_rwlock (unlinked_mem m2) = m_rwlock (unlinked_mem (chain_locked m))). by rewrite U. }
  apply (wp_assoc et_transfer_unlock_all (fun _ => et_station_unlock)). apply wp_bind.
  eapply wp_mono; [exact W| |done]. intros [] m' ->. apply wp_ret. split; [done|]. by exists m2.
Qed.

Lemma locked_chain : station_chain (chain_locked m) gs.
Proof. rewrite chain_locked_links. apply H. Qed.

Lemma locked_lookup s ps : m_stats m !! s = Some ps -> m_stats (chain_locked m) !! s = Some (set_st_mutex true ps).
Proof. intros E. cbn. by rewrite lookup_fmap, E. Qed.
End frame.

(** ** The position of a station *)

(** The result of et_station_getposition for a station of the chain. *)
Definition position_result (gs : list (Z * list Z)) (s : Z) : Z * option Z * option Z :=
  if s =? ET_GRANDCENTRAL then (ET_OK, Some 0, None)
  else match chain_find s gs 0 with
       | Some (i, j) => (ET_OK, Some i, Some j)
       | None => (ET_ERROR, None, None)
       end.

Lemma wp_getposition `{R0 : Remote} id m gs s :
  local_call id m -> system_ok m gs -> s ∈ members gs ->
  wp (et_station_getposition id s)
    (fun r m' => m' = m /\
       r = if s =? ET_GRANDCENTRAL then (ET_OK, Some 0, None)
           else match call_error id with Some e => (e, None, None) | None => position_result gs s end)
    (fun _ => True) m.
Proof.
  intros L H Hs. unfold et_station_getposition, position_result.
  destruct (chain_member_stat m gs H s Hs) as ([Hr _] & ps & E). destruct (Z.ltb_spec s 0); [lia|].
  destruct (s =? ET_GRANDCENTRAL); [by apply wp_ret|]. rewrite (lc_local _ _ L). simpl.
  eapply wp_mono; [apply (wp_chain_call id m gs L H _ s _ (fun r m2 => r = match chain_find s gs 0 with
       | Some (i, j) => (ET_OK, Some i, Some j) | None => (ET_ERROR, None, None) end /\ m2 = chain_locked m) Hs)| |done].
  - by intros r m2 [_ ->].
  - apply wp_bind. eapply wp_mono; [apply (wp_station_find (chain_locked m) gs s)| |done].
    + by apply locked_chain.
    + apply (ss_count _ _ (proj2 H)).
    + intros r m2 [-> ->]. unfold find_result. destruct (chain_find s gs 0) as [[i j]|]; by apply wp_ret.
  - intros r m' X. destruct (call_error id); [by destruct X as [-> ->]|].
    destruct X as (m2 & [-> ->] & ->). split; [|done]. apply (chain_unlocked_locked m gs), H.
Qed.

(** ** Moving a station *)

Lemma unlinked_config m m' : unlinked_mem m' = unlinked_mem m -> forall s,
  flow_parallel m' s = flow_parallel m s /\ forall h, fits m' h s = fits m h s.
Proof.
  intros U. assert (X : forall s, st_config <$> m_stats m' !! s = st_config <$> m_stats m !! s).
  { intros s. pose proof (unlinked_stat m m' s U) as X.
    destruct (m_stats m' !! s), (m_stats m !! s); simpl in *; try done. injection X. congruence. }
  intros s. unfold flow_parallel, fits, stf. split; [|intros h; specialize (X h) as Xh]; specialize (X s).
  - destruct (m_stats m' !! s), (m_stats m !! s); simpl in *; congruence.
  - destruct (m_stats m' !! s), (m_stats m !! s), (m_stats m' !! h), (m_stats m !! h); simpl in *; congruence.
Qed.

Lemma chain_insert_unlinked m m' s position pp gs :
  unlinked_mem m' = unlinked_mem m -> chain_insert m' s position pp gs = chain_insert m s position pp gs.
Proof.
  intros U. unfold chain_insert. destruct (if _ <=? _ then _ else _) as [[h ms]|]; [|done].
  destruct (unlinked_config m m' U s) as [-> Hf]. destruct (unlinked_config m m' U h) as [-> _]. by rewrite Hf.
Qed.

Lemma serial_insert m s position pp gs : flow_parallel m s = false -> exists gs', chain_insert m s position pp gs = Some gs'.
Proof.
  intros F. unfold chain_insert. destruct (if _ <=? _ then _ else _) as [[h ms]|]; [|eauto].
  rewrite F. simpl. eauto.
Qed.

(** The body: a serial station that is the last one, or that goes to a position that is taken. *)
Lemma wp_move_station m gs s position pp gs' :
  station_chain m gs -> sys_nstations (m_sys m) = Z.of_nat (length (members gs)) ->
  (s, []) ∈ gs -> s <> ET_GRANDCENTRAL -> flow_parallel m s = false ->
  stf st_next m s = -1 \/ 1 <= position < Z.of_nat (length (chain_remove s gs)) ->
  chain_insert m s position pp (chain_remove s gs) = Some gs' ->
  wp (move_station s position pp)
    (fun st m2 => st = ET_OK /\ station_chain m2 gs' /\ unlinked_mem m2 = unlinked_mem m) (fun _ => True) m.
Proof.
  intros H N Hg Ns F Hp Ei. assert (Hs : s ∈ members gs) by (apply (elem_of_members s (s, [])); [done|by left]).
  destruct (ch_stat _ _ H s Hs) as (Hs0 & ps & Es & Nums).
  unfold move_station. apply wp_bind. eapply wp_mono; [by apply (wp_station_find m gs s)| |done].
  intros [[st i] j] m1 [_ ->]. apply wp_bind.
  eapply wp_mono; [by apply (wp_station_remove_alone m gs s ps)| |done]. intros [] m1 [[H1 U1] E1].
  pose proof (chain_remove_perm m gs s H Hs Ns) as P.
  assert (N1 : sys_nstations (m_sys m1) = Z.of_nat (length (members (chain_remove s gs))) + 1).
  { pose proof (unlinked_sys m m1 U1) as Y.
    change (sys_nstations (set_sys_stat_tail 0 (m_sys m1)) = Z.of_nat (length (members (chain_remove s gs))) + 1).
    rewrite Y. cbn. rewrite N, <- P. simpl. lia. }
  apply wp_bind. eapply wp_mono; [apply (wp_station_insert (stf st_next m s = -1) m1 (chain_remove s gs) s ps position pp H1)| |done].
  - pose proof (ch_groups _ _ H (s, []) Hg) as [G1 _ _ _].
    destruct G1 as (G1 & G2 & _). rewrite (stf_lookup _ _ _ _ Es) in G1. rewrite (stf_lookup _ _ _ _ Es) in G2.
    split; try done.
    + pose proof (ch_nodup _ _ H) as ND. rewrite <- P in ND. by apply NoDup_cons in ND as [ND _].
    + by rewrite (stf_lookup _ _ _ _ Es).
    + intros (ps' & E' & X). rewrite E1 in E'. injection E' as <-. exfalso.
      unfold flow_parallel in F. rewrite (stf_lookup _ _ _ _ Es), X in F. done.
  - intros Ne. destruct Hp; [done|]. lia.
  - done.
  - intros st' m2. unfold insert_result. rewrite (chain_insert_unlinked m m1) by done. rewrite Ei.
    intros (-> & H2 & U2). simpl. apply wp_ret. split_and!; [done|done|congruence].
Qed.

(** What the function demands of its position arguments. *)
Definition valid_position (position pp : Z) : Prop :=
  (position = ET_END \/ 1 <= position) /\ (pp = ET_END \/ pp = ET_NEWHEAD \/ 0 <= pp).

Lemma chain_insert_perm m s position pp gs gs' :
  s ∉ members gs -> chain_insert m s position pp gs = Some gs' -> members gs' ≡ₚ s :: members gs.
Proof. intros N E. by destruct (chain_insert_find m gs s position pp gs' N E) as [P _]. Qed.

Lemma station_state_perm m gs gs' : members gs' ≡ₚ members gs -> station_state m gs -> station_state m gs'.
Proof.
  intros P [S1 S2 S3 S4 S5 S6 S7]. split; try done.
  - by rewrite P.
  - intros s ps E. rewrite P. by apply S3.
  - intros s ps E. rewrite P. by apply S4.
Qed.

Lemma valid_position_checks position pp : valid_position position pp ->
  negb (position =? ET_END) && (position <? 0) = false /\ (position =? 0) = false /\
  negb (pp =? ET_END) && negb (pp =? ET_NEWHEAD) && (pp <? 0) = false.
Proof.
  intros [P1 P2]. split_and!.
  - destruct P1 as [->|P1]; [done|]. destruct (Z.ltb_spec position 0); [lia|]. by rewrite andb_false_r.
  - destruct P1 as [->|P1]; [done|]. apply Z.eqb_neq. lia.
  - destruct P2 as [->|[->|P2]]; [done..|]. destruct (Z.ltb_spec pp 0); [lia|]. by rewrite andb_false_r.
Qed.

Lemma wp_setposition `{R0 : Remote} id m gs s position pp gs' :
  local_call id m -> system_ok m gs -> (s, []) ∈ gs -> s <> ET_GRANDCENTRAL -> flow_parallel m s = false ->
  stf st_next m s = -1 \/ 1 <= position < Z.of_nat (length (chain_remove s gs)) ->
  valid_position position pp ->
  chain_insert m s position pp (chain_remove s gs) = Some gs' ->
  wp (et_station_setposition id s position pp)
    (fun st m' => match call_error id with
       | Some e => st = e /\ m' = m
       | None => st = ET_OK /\ system_ok m' gs' /\ unlinked_mem m' = unlinked_mem m
       end) (fun _ => True) m.
Proof.
  intros L H Hg Ns F Hp V Ei. assert (Hs : s ∈ members gs) by (apply (elem_of_members s (s, [])); [done|by left]).
  destruct (chain_member_stat m gs H s Hs) as ([Hr _] & ps & E). unfold et_station_setposition.
  destruct (Z.ltb_spec s 0); [lia|]. destruct (Z.eqb_spec s ET_GRANDCENTRAL); [done|].
  destruct (valid_position_checks position pp V) as (-> & -> & ->). rewrite (lc_local _ _ L). simpl.
  pose proof (proj1 H) as Hc. pose proof (chain_locked_links m) as Hl.
  assert (Hst : forall f, (forall ps ps', links ps = links ps' -> f ps = f ps') -> stf f (chain_locked m) s = stf f m s).
  { intros f Hf. by apply same_links_stf. }
  assert (Ei' : chain_insert (chain_locked m) s position pp (chain_remove s gs) = Some gs').
  { rewrite <- Ei. unfold chain_insert. destruct (if 1 <=? position then _ else _) as [[h ms]|]; [|done].
    unfold flow_parallel. rewrite !(same_links_stf (fun ps => sc_flow_mode (st_config ps)) m (chain_locked m))
      by (done || (unfold links; congruence)).
    change (stf _ m s =? ET_STATION_PARALLEL) with (flow_parallel m s). by rewrite F. }
  eapply wp_mono; [apply (wp_chain_call id m gs L H _ s _ (fun st m2 => st = ET_OK /\ station_chain m2 gs' /\
    unlinked_mem m2 = unlinked_mem (chain_locked m)) Hs)| |done].
  - by intros r m2 (_ & _ & U).
  - apply (wp_move_station (chain_locked m) gs); try done.
    + by apply locked_chain.
    + apply (ss_count _ _ (proj2 H)).
    + unfold flow_parallel. rewrite Hst; [exact F|]. unfold links. congruence.
    + rewrite Hst by (unfold links; congruence). done.
  - intros st m' X. destruct (call_error id); [done|]. destruct X as (m2 & (-> & H2 & U2) & ->).
    pose proof (chain_unlocked_back m m2 gs (proj2 H) U2) as U. split_and!; [done| |done]. split.
    + by rewrite chain_unlocked_links.
    + apply (unlinked_state m); [done|]. apply (station_state_perm _ gs); [|apply H].
      pose proof (chain_remove_perm m gs s Hc Hs Ns) as P. rewrite <- P. apply (chain_insert_perm m s position pp); [|done].
      pose proof (ch_nodup _ _ Hc) as ND. rewrite <- P in ND. by apply NoDup_cons in ND as [ND _].
Qed.

(** ** Removing a station *)

(** The station is unused, its conductor is told to end, and there is one station less. *)
Definition retire (ps : et_station) : et_station :=
  in_data (set_sd_status ET_STATION_UNUSED)
    (set_st_list_out (set_l_cread (S (l_cread (st_list_out ps))) (st_list_out ps))
       (set_st_conductor ET_THREAD_KILL ps)).
Definition retired (s : Z) (m : et_mem) : et_mem :=
  upd_sys (set_sys_nstations (sys_nstations (m_sys m) - 1)) (upd_stat s retire m).

Lemma retired_state m gs gs' s :
  station_state m gs -> s :: members gs' ≡ₚ members gs -> NoDup (members gs) -> station_state (retired s m) gs'.
Proof.
  intros [S1 S2 S3 S4 S5 S6 S7] P N. rewrite <- P in N. apply NoDup_cons in N as [N _].
  assert (Hl : forall a ps', m_stats (retired s m) !! a = Some ps' -> exists ps, m_stats m !! a = Some ps /\
    ps' = if decide (s = a) then retire ps else ps).
  { intros a ps'. cbn. destruct (decide (s = a)) as [<-|Na].
    - rewrite lookup_alter_eq. destruct (m_stats m !! s) as [ps|]; [|done]. intros [= <-]. eauto.
    - rewrite lookup_alter_ne by done. eauto. }
  split; try done.
  - intros a. rewrite <- (S1 a). cbn. destruct (decide (s = a)) as [<-|Na].
    + rewrite lookup_alter_eq. destruct (m_stats m !! s); split; intros []; by eauto.
    + by rewrite lookup_alter_ne.
  - cbn. rewrite S2, <- P. simpl. lia.
  - intros a ps' E Ha. destruct (Hl a ps' E) as (ps & E' & ->). destruct (decide (s = a)) as [<-|Na]; [done|].
    apply (S3 a); [done|]. rewrite <- P. by right.
  - intros a ps' E Ha. destruct (Hl a ps' E) as (ps & E' & ->). destruct (decide (s = a)) as [<-|Na]; [done|].
    apply (S4 a); [done|]. rewrite <- P. by intros [->|]%elem_of_cons.
  - intros a ps' E. destruct (Hl a ps' E) as (ps & E' & ->). destruct (decide (s = a)); exact (S5 a ps E').
Qed.

(** The stores on the station while all transfers are stopped. *)
Lemma wp_retire {A} s m ps (c : M A) (Q : A -> et_mem -> Prop) :
  m_stats m !! s = Some ps -> st_mutex ps = true -> wp c Q (fun _ => True) (upd_stat s retire m) ->
  wp (et_transfer_unlock s ;;;
      let* pl := ld_list (LOut s) in
      when (0 <? l_cnt pl) nanosleep ;;;
      et_transfer_lock s ;;;
      str_stat s (set_st_conductor ET_THREAD_KILL) ;;;
      signal_cread (LOut s) ;;;
      str_stat s (in_data (set_sd_status ET_STATION_UNUSED)) ;;;
      c) Q (fun _ => True) m.
Proof.
  intros E Em HQ. unfold et_transfer_unlock, et_transfer_lock, signal_cread.
  apply wp_bind. eapply wps_str_stat; [done..|]. apply wp_bind. eapply (wps_ld_list _ (LOut s)); [by eapply upd_stat_eq|].
  apply wp_bind, wp_when.
  assert (K : wp (et_transfer_lock s ;;; str_stat s (set_st_conductor ET_THREAD_KILL) ;;; signal_cread (LOut s) ;;;
      str_stat s (in_data (set_sd_status ET_STATION_UNUSED)) ;;; c) Q (fun _ => True) (upd_stat s (set_st_mutex false) m)).
  { unfold et_transfer_lock, signal_cread. do 2 apply wp_bind. eapply wps_ld_stat; [by eapply upd_stat_eq|]. simpl.
    eapply wps_str_stat; [by eapply upd_stat_eq|done|]. apply wp_bind.
    eapply wps_str_stat; [by do 2 eapply upd_stat_eq|done|]. apply wp_bind.
    eapply (wps_str_list _ (LOut s)); [by do 3 eapply upd_stat_eq|done|]. unfold upd_list. cbn [lstat]. apply wp_bind.
    eapply wps_str_stat; [by do 4 eapply upd_stat_eq|done|]. rewrite !upd_stat_compose.
    erewrite upd_stat_ext; [exact HQ|done|]. destruct ps. cbn in *. by subst. }
  destruct (0 <? _); [by apply wp_nanosleep|done].
Qed.

Definition remove_result (id : et_id) (s : Z) (gs : list (Z * list Z)) (m : et_mem) (st : Z) (m' : et_mem) : Prop :=
  match call_error id, m_stats m !! s with
  | Some e, _ => st = e /\ m' = m
  | None, Some ps =>
      if 0 <? sd_nattachments (st_data ps) then st = ET_ERROR /\ m' = m
      else st = ET_OK /\ system_ok m' (chain_remove s gs) /\ unlinked_mem m' = unlinked_mem (retired s m)
  | None, None => False
  end.

Lemma unlinked_retire ps : unlinked (retire ps) = retire (unlinked ps).
Proof. done. Qed.

Lemma retired_unlocked m gs s :
  station_state m gs ->
  set_m_rwlock (m_rwlock m) (upd_sys (set_sys_stat_mutex false)
    (upd_sys (set_sys_nstations (sys_nstations (m_sys m) - 1)) (all_transfer false (upd_stat s retire (chain_locked m))))) =
  retired s m.
Proof.
  intros [_ _ _ _ F1 F2 _]. destruct m as [[] st h e r].
  unfold retired, chain_locked, all_transfer, upd_sys, upd_stat, set_m_sys, set_m_stats, set_m_rwlock.
  cbn in *. subst. f_equal. apply map_eq. intros a. rewrite lookup_fmap. destruct (decide (s = a)) as [<-|N].
  - rewrite !lookup_alter_eq, lookup_fmap. destruct (st !! s) as [ps|] eqn:E; simpl; [|done]. f_equal.
    specialize (F1 s ps E). destruct ps. cbn in *. by subst.
  - rewrite !lookup_alter_ne, lookup_fmap by done. destruct (st !! a) as [ps|] eqn:E; simpl; [|done]. f_equal.
    specialize (F1 a ps E). destruct ps. cbn in *. by subst.
Qed.

Lemma wp_station_remove_op `{R0 : Remote} id m gs s :
  local_call id m -> system_ok m gs -> s ∈ members gs -> s <> ET_GRANDCENTRAL ->
  wp (et_station_remove id s) (remove_result id s gs m) (fun _ => True) m.
Proof.
  intros L H Hs Ns. destruct (chain_member_stat m gs H s Hs) as ([Hr1 Hr2] & ps & E). pose proof (proj2 H) as S.
  unfold et_station_remove. destruct (Z.ltb_spec s 0); [lia|]. destruct (Z.eqb_spec s ET_GRANDCENTRAL); [done|].
  rewrite (lc_local _ _ L). simpl. apply (wp_alive_call id m L). unfold remove_result. rewrite E.
  destruct (call_error id); [done|].
  apply wp_bind, wps_ld_sys. cbn [m_sys set_m_rwlock]. destruct (Z.leb_spec (cf_nstations (sys_config (m_sys m))) s); [lia|].
  apply wp_bind. unfold et_station_lock. apply wp_bind, wps_ld_sys. cbn [m_sys set_m_rwlock].
  rewrite (ss_mutex _ _ S). apply wps_str_sys; [done|]. apply wp_bind. eapply wps_ld_stat; [done|].
  destruct (0 <? _).
  { unfold et_station_unlock. apply wp_bind, wps_str_sys; [done|]. apply wp_ret. split_and!; [done|done|].
    destruct m as [[]]. pose proof (ss_mutex _ _ S). cbn in *. by subst. }
  apply wp_bind, wp_transfer_lock_all; [exact (ss_dom _ _ S)|exact (ss_free _ _ S)|exact (ss_num _ _ S)|].
  change (all_transfer true _) with (chain_locked m).
  apply wp_bind. eapply wp_mono; [apply (wp_station_remove (chain_locked m) gs s); [by apply (locked_chain m gs)|done..]| |done].
  intros [] m2 [H2 U2].
  assert (exists ps2, m_stats m2 !! s = Some ps2 /\ st_mutex ps2 = true) as (ps2 & E2 & Em2).
  { pose proof (unlinked_stat _ _ s U2) as X. rewrite (locked_lookup m s ps E) in X.
    destruct (m_stats m2 !! s) as [ps2|]; [|done]. exists ps2. split; [done|]. simpl in X. injection X. congruence. }
  assert (D3 : stations_dom (upd_stat s retire m2)).
  { intros a. pose proof (unlinked_dom _ _ U2 (locked_dom m (ss_dom _ _ S)) a) as X. cbn in *.
    rewrite <- X. destruct (decide (s = a)) as [<-|Na]; [|by rewrite lookup_alter_ne].
    rewrite lookup_alter_eq. rewrite E2. split; eauto. }
  pose proof (unlinked_sys _ _ U2) as Y.
  assert (Yc : sys_config (m_sys m2) = sys_config (m_sys m) /\ sys_nstations (m_sys m2) = sys_nstations (m_sys m)).
  { change (sys_config (set_sys_stat_tail 0 (m_sys m2)) = sys_config (m_sys m) /\
      sys_nstations (set_sys_stat_tail 0 (m_sys m2)) = sys_nstations (m_sys m)). by rewrite Y. }
  destruct Yc as [Yc Yn].
  eapply wp_retire; [exact E2|exact Em2|].
  apply wp_bind, wp_transfer_unlock_all; [done|cbn; rewrite Yc; exact (ss_num _ _ S)|].
  apply wp_bind. unfold add_nstations. apply wp_bind, wps_ld_sys, wps_str_sys; [done|].
  apply wp_bind, wps_str_sys; [done|]. apply wp_ret. cbn [sys_nstations m_sys all_transfer upd_stat set_m_stats]. rewrite Yn.
  assert (K : m_rwlock m2 = m_rwlock m + 1).
  { change (m_rwlock (unlinked_mem m2) = m_rwlock (unlinked_mem (chain_locked m))). by rewrite U2. }
  split_and!; [exact K|done|..]; set (m' := set_m_rwlock _ _);
    assert (U : unlinked_mem m' = unlinked_mem (retired s m)).
  1, 3: rewrite <- (retired_unlocked m gs s S); unfold m'; rewrite !unlinked_mem_rwlock;
    do 2 (rewrite unlinked_mem_upd_sys by done; symmetry); rewrite !unlinked_mem_upd_sys by done;
    rewrite !unlinked_mem_transfer; rewrite !unlinked_mem_upd_stat by done; by rewrite U2.
  - split.
    + apply (same_links_chain m2); [|done]. symmetry. unfold m'.
      transitivity (all_transfer false (upd_stat s retire m2)); [done|].
      rewrite all_transfer_links. by apply same_links_upd_stat.
    + apply (unlinked_state (retired s m)); [done|]. apply (retired_state m gs); [done| |apply (ch_nodup _ _ (proj1 H))].
      by apply (chain_remove_perm m gs s (proj1 H)).
  - done.
Qed.

(** ** The properties *)

(** C38: et_station_remove of a station of the chain without attachments takes it out of the chain,
    marks it unused, tells its conductor to end and counts it off, and changes nothing else; with
    attachments, or when the system is dead or closed, it returns an error and changes nothing.  The
    invariant of the stations holds afterwards. *)
Theorem et_station_remove_spec `{R0 : Remote} id m gs s :
  local_call id m -> system_ok m gs -> s ∈ members gs -> s <> ET_GRANDCENTRAL ->
  exists st x m', run (et_station_remove id s) m = Ok st x m' /\ remove_result id s gs m st m'.
Proof. intros L H Hs Ns. by apply (wp_run _ _ (fun _ => True)), wp_station_remove_op. Qed.

(** Et_station_setposition takes a serial station that is the last of the chain, or that goes to
    a position that is taken, out of the chain and inserts it at its new position; it changes nothing
    but the links, and the invariant of the stations holds afterwards. *)
Theorem et_station_setposition_spec `{R0 : Remote} id m gs s position pp gs' :
  local_call id m -> system_ok m gs -> (s, []) ∈ gs -> s <> ET_GRANDCENTRAL -> flow_parallel m s = false ->
  stf st_next m s = -1 \/ 1 <= position < Z.of_nat (length (chain_remove s gs)) ->
  valid_position position pp ->
  chain_insert m s position pp (chain_remove s gs) = Some gs' ->
  wp (et_station_setposition id s position pp)
    (fun st m' => match call_error id with
       | Some e => st = e /\ m' = m
       | None => st = ET_OK /\ system_ok m' gs' /\ unlinked_mem m' = unlinked_mem m
       end) (fun _ => True) m.
Proof. apply wp_setposition. Qed.

(** Et_station_getposition then gives the position that et_station_setposition was given, or the
    last position when that one was not taken. *)
Theorem et_station_setposition_getposition `{R0 : Remote} id m gs s position pp gs' :
  local_call id m -> system_ok m gs -> (s, []) ∈ gs -> s <> ET_GRANDCENTRAL -> flow_parallel m s = false ->
  stf st_next m s = -1 \/ 1 <= position < Z.of_nat (length (chain_remove s gs)) ->
  valid_position position pp -> call_error id = None ->
  chain_insert m s position pp (chain_remove s gs) = Some gs' ->
  wp (let* _ := et_station_setposition id s position pp in et_station_getposition id s)
    (fun r _ => exists j, r = (ET_OK,
       Some (if (1 <=? position) && (position <? Z.of_nat (length (chain_remove s gs))) then position
             else Z.of_nat (length (chain_remove s gs))), Some j)) (fun _ => True) m.
Proof.
  intros L H Hg Ns F Hp V Ee Ei. assert (Hs : s ∈ members gs) by (apply (elem_of_members s (s, [])); [done|by left]).
  pose proof (chain_remove_perm m gs s (proj1 H) Hs Ns) as P.
  assert (Nr : s ∉ members (chain_remove s gs)).
  { pose proof (ch_nodup _ _ (proj1 H)) as ND. rewrite <- P in ND. by apply NoDup_cons in ND as [ND _]. }
  destruct (chain_insert_find m _ s position pp gs' Nr Ei) as (P' & j & _ & Fd).
  apply wp_bind. eapply wp_mono; [by apply (wp_setposition id m gs s position pp gs')| |done].
  intros st m' X. rewrite Ee in X. destruct X as (-> & H' & U).
  assert (L' : local_call id m').
  { destruct L as [L1 L2 L3]. split; [done|..].
    - change (sys_mutex (m_sys (unlinked_mem m')) = false). by rewrite U.
    - change (0 <= m_rwlock (unlinked_mem m')). by rewrite U. }
  eapply wp_mono; [apply (wp_getposition id m' gs' s L' H')| |done]; [rewrite P'; by left|].
  intros r m'' [_ ->]. rewrite Ee. unfold position_result. rewrite Fd.
  destruct (Z.eqb_spec s ET_GRANDCENTRAL); [done|]. by exists j.
Qed.

(** ** A concrete system *)

(** Stations 0 to 3 of [chain0], station 4 is not used. *)
Definition system1 : et_mem :=
  upd_stat 4 (in_data (set_sd_status ET_STATION_UNUSED))
    (upd_sys (fun y => set_sys_config (set_cf_nstations 5 (sys_config y)) (set_sys_nstations 4 y)) chain0).

Lemma system1_ok : system_ok system1 groups0.
Proof.
  assert (D : forall s ps, m_stats system1 !! s = Some ps -> s = 0 \/ s = 1 \/ s = 2 \/ s = 3 \/ s = 4).
  { intros s ps E. assert (s ∈ map fst (map_to_list (m_stats system1))) as X.
    { apply list_elem_of_fmap. exists (s, ps). split; [done|]. by apply elem_of_map_to_list. }
    let l := eval vm_compute in (map fst (map_to_list (m_stats system1))) in change (s ∈ l) in X.
    each_elem; auto. }
  split.
  - unfold system1. rewrite same_links_upd_stat by done. rewrite same_links_upd_sys by done. apply chain0_ok.
  - split; try done.
    + intros s. split.
      * intros [ps E]. destruct (D s ps E) as [->|[->|[->|[->| ->]]]]; done.
      * intros B. assert (s = 0 \/ s = 1 \/ s = 2 \/ s = 3 \/ s = 4) as X by (cbn in B; lia).
        destruct X as [->|[->|[->|[->| ->]]]]; by eexists.
    + intros s ps E Hs. right. change (s ∈ [0; 1; 2; 3]) in Hs. each_elem; injection E as <-; reflexivity.
    + intros s ps E Hs. change (s ∉ [0; 1; 2; 3]) in Hs.
      destruct (D s ps E) as [->|[->|[->|[->| ->]]]]; try (exfalso; apply Hs; set_solver). injection E as <-. reflexivity.
    + intros s ps E. destruct (D s ps E) as [->|[->|[->|[->| ->]]]]; injection E as <-; reflexivity.
Qed.

Lemma system1_local : local_call id0 system1.
Proof. by split. Qed.

Lemma et_station_remove_spec_witness :
  exists st x m', run (et_station_remove id0 3) system1 = Ok st x m' /\ remove_result id0 3 groups0 system1 st m'.
Proof. apply (et_station_remove_spec id0 system1 groups0 3 system1_local system1_ok); by_eval. Defined.

Lemma valid_position1 : valid_position 1 ET_END.
Proof. split; [right; lia|by left]. Qed.

(** Station 3 goes before the group of the stations 1 and 2. *)
Lemma et_station_setposition_spec_witness :
  exists st x m', run (et_station_setposition id0 3 1 ET_END) system1 = Ok st x m' /\
    st = ET_OK /\ system_ok m' [(0, []); (3, []); (1, [2])].
Proof.
  destruct (wp_run _ _ _ _ (et_station_setposition_spec id0 system1 groups0 3 1 ET_END [(0, []); (3, []); (1, [2])]
    system1_local system1_ok ltac:(by_eval) ltac:(done) eq_refl (or_introl eq_refl)
    valid_position1 eq_refl)) as (st & x & m' & E & X & Y & _).
  exists st, x, m'. split_and!; [exact E|exact X|exact Y].
Defined.

Lemma et_station_setposition_getposition_witness :
  exists x m' j, run (let* _ := et_station_setposition id0 3 1 ET_END in et_station_getposition id0 3) system1 =
    Ok (ET_OK, Some 1, Some j) x m'.
Proof.
  destruct (wp_run _ _ _ _ (et_station_setposition_getposition id0 system1 groups0 3 1 ET_END [(0, []); (3, []); (1, [2])]
    system1_local system1_ok ltac:(by_eval) ltac:(done) eq_refl (or_introl eq_refl)
    valid_position1 eq_refl eq_refl)) as (r & x & m' & E & j & ->).
  exists x, m', j. exact E.
Defined.

(** ** What goes wrong

    A station keeps the links of its old place when it is moved: station_insert sets only some of
    them.  Moving a station to the end that was not last leaves a cycle, in which the search for the
    end of the list never ends. *)
Lemma setposition_end_cycle :
  exists x m', run (et_station_setposition id0 1 ET_END ET_END) system1 = Ok ET_OK x m' /\
    stf st_next m' 3 = 1 /\ stf st_next m' 1 = 3 /\ run (station_insert 4 ET_END ET_END) m' = Diverged.
Proof. do 2 eexists. split; [vm_compute; reflexivity|]. split_and!; vm_compute; reflexivity. Qed.

(** The head of a parallel group that cannot go to its new place cannot go back either: it is lost
    from the chain although it is active. *)
Lemma setposition_loses_head :
  exists x m', run (et_station_setposition id0 1 1 0) system1 = Ok ET_ERROR x m' /\
    map (stf st_next m') [0; 2; 3] = [2; 3; -1] /\ map (stf st_nextparallel m') [0; 2; 3] = [-1; -1; -1] /\
    stf (fun ps => sd_status (st_data ps)) m' 1 = ET_STATION_ACTIVE.
Proof. do 2 eexists. split; [vm_compute; reflexivity|]. split_and!; vm_compute; reflexivity. Qed.
