(* ===== verification/Attach.v ===== *)
(** * Attaching to a station

    The counts and lists of attachments in the system, the stations and the processes agree with the
    array of attachments, and et_station_attach keeps it so. *)
From stdpp Require Import base gmap strings list.
From S2P Require Import Prelude Types Machine EvList Sample StatConfig Stats Chain Api StationApi Init Station StationSpec.
Open Scope Z_scope.

(** ** The invariant of the attachments *)

Definition in_use (m : et_mem) (i : Z) : bool :=
  match sys_attach (m_sys m) !! i with Some a => negb (at_num a =? -1) | None => false end.
(** Attachment [i] is in use and belongs to what [f] selects. *)
Definition belongs (f : et_attach -> bool) (m : et_mem) (i : Z) : bool :=
  match sys_attach (m_sys m) !! i with Some a => negb (at_num a =? -1) && f a | None => false end.

(** The number of such attachments. *)
Definition count (p : Z -> bool) (n : Z) : Z := Z.of_nat (length (List.filter p (upto n))).

Definition at_station (s : Z) (a : et_attach) : bool := at_stat a =? s.
Definition at_process (p : Z) (a : et_attach) : bool := at_proc a =? p.

Record attach_ok (m : et_mem) : Prop := mkAttachOk {
  ao_dom : forall i, 0 <= i < cf_nattachments (sys_config (m_sys m)) -> is_Some (sys_attach (m_sys m) !! i);
  ao_count : sys_nattachments (m_sys m) = count (in_use m) (cf_nattachments (sys_config (m_sys m)));
  ao_stat : forall s ps, m_stats m !! s = Some ps ->
    sd_nattachments (st_data ps) = count (belongs (at_station s) m) (cf_nattachments (sys_config (m_sys m)));
  ao_att : forall s ps i, m_stats m !! s = Some ps -> 0 <= i < cf_nattachments (sys_config (m_sys m)) ->
    default (-1) (sd_att (st_data ps) !! i) = if belongs (at_station s) m i then i else -1;
  ao_proc : forall p pr, sys_proc (m_sys m) !! p = Some pr -> p <> ET_SYS ->
    pr_nattachments pr = count (belongs (at_process p) m) (cf_nattachments (sys_config (m_sys m)));
  ao_active : forall s ps, m_stats m !! s = Some ps -> 0 < sd_nattachments (st_data ps) ->
    sd_status (st_data ps) = ET_STATION_ACTIVE
}.

(** The lists of attachments of the processes, an invariant of its own (arrays_ok in FixAtt has it too, with
    the exception of an attachment that is being made). *)
Definition process_lists (m : et_mem) : Prop :=
  forall p pr i, sys_proc (m_sys m) !! p = Some pr -> p <> ET_SYS -> 0 <= i < cf_nattachments (sys_config (m_sys m)) ->
    default (-1) (pr_att pr !! i) = if belongs (at_process p) m i then i else -1.

(** ** Counting *)

Lemma elem_of_upto i n : i ∈ upto n <-> 0 <= i < n.
Proof.
  unfold upto. rewrite list_elem_of_fmap. split.
  - intros (k & -> & Hk%elem_of_seq). lia.
  - intros H. exists (Z.to_nat i). split; [lia|]. apply elem_of_seq. lia.
Qed.

Lemma NoDup_upto n : NoDup (upto n).
Proof. unfold upto. apply NoDup_fmap_2; [intros x y; lia|]. apply NoDup_seq. Qed.

Lemma count_ext p q n : (forall i, 0 <= i < n -> p i = q i) -> count p n = count q n.
Proof.
  intros H. unfold count. do 2 f_equal. assert (X : forall l, (forall i, i ∈ l -> p i = q i) -> List.filter p l = List.filter q l).
  { induction l as [|a l IH]; intros Hl; simpl; [done|]. rewrite (Hl a), IH by set_solver. done. }
  apply X. intros i Hi%elem_of_upto. auto.
Qed.

(** One element more. *)
Lemma count_add p q n i :
  0 <= i < n -> q i = false -> p i = true -> (forall j, j <> i -> p j = q j) -> count p n = count q n + 1.
Proof.
  intros Hi Qi Pi H. unfold count. apply elem_of_upto, list_elem_of_split in Hi as (l1 & l2 & E).
  pose proof (NoDup_upto n) as N. rewrite E in *. apply NoDup_app in N as (_ & N1 & N2). apply NoDup_cons in N2 as [N2 _].
  assert (X : forall l, i ∉ l -> List.filter p l = List.filter q l).
  { induction l as [|a l IH]; intros Hl; simpl; [done|]. rewrite (H a), IH by set_solver. done. }
  rewrite !List.filter_app. simpl. rewrite Pi, Qi, (X l1), (X l2) by set_solver.
  rewrite !length_app. simpl. lia.
Qed.

Lemma count_le p n : count p n <= Z.max 0 n.
Proof.
  unfold count. assert (X : forall l : list Z, (length (List.filter p l) <= length l)%nat).
  { induction l as [|a l IH]; simpl; [done|]. destruct (p a); simpl; lia. }
  specialize (X (upto n)). unfold upto in *. rewrite length_map, length_seq in X. lia.
Qed.

(** Not all elements are counted: there is a first one that is not. *)
Lemma count_free p n : count p n < n -> exists i, 0 <= i < n /\ p i = false /\ forall j, 0 <= j < i -> p j = true.
Proof.
  intros H. unfold count, upto in H. assert (X : forall k j, (Z.of_nat (length (List.filter p (map Z.of_nat (seq j k)))) < Z.of_nat k) ->
    exists i, Z.of_nat j <= i < Z.of_nat (j + k) /\ p i = false /\ forall a, Z.of_nat j <= a < i -> p a = true).
  { induction k as [|k IH]; intros j Hk; simpl in *; [lia|]. destruct (p (Z.of_nat j)) eqn:E.
    - destruct (IH (S j)) as (i & Hi & Pi & Hj); [simpl in Hk; lia|]. exists i. split_and!; [lia..|done|].
      intros a Ha. destruct (decide (a = Z.of_nat j)) as [->|]; [done|]. apply Hj. lia.
    - exists (Z.of_nat j). split_and!; [lia..|done|]. intros a. lia. }
  assert (n = Z.of_nat (Z.to_nat n)) as En by lia.
  destruct (X (Z.to_nat n) 0%nat) as (i & Hi & Pi & Hj); [lia|]. exists i. split_and!; [lia..|done|].
  intros j Hj'. apply Hj. lia.
Qed.

(** ** What et_station_attach does *)

Section attach.
Context `{R0 : Remote} `{O0 : Os}.

Definition new_attach (id : et_id) (s i : Z) : et_attach :=
  mkAttach i (id_proc id) s ET_ATT_ACTIVE ET_ATT_UNBLOCKED ET_ATT_CONTINUE ET_ATT_NOSLEEP 0 0 0 0 getpid
    (default "CANNOT_FIND_HOST"%string etNetLocalHost) EmptyString.

Definition station_attached (i : Z) : et_station -> et_station :=
  in_data (fun d => mkStatData ET_STATION_ACTIVE (sd_pid_create d) (sd_nattachments d + 1) (<[i := i]> (sd_att d))).
Definition proc_attached (i : Z) (p : et_proc) : et_proc :=
  set_pr_att (<[i := i]> (pr_att p)) (set_pr_nattachments (pr_nattachments p + 1) p).
Definition sys_attached (id : et_id) (s i : Z) (y : et_system) : et_system :=
  set_sys_proc (if id_proc id =? ET_SYS then sys_proc y else alter (proc_attached i) (id_proc id) (sys_proc y))
    (set_sys_attach (alter (fun _ => new_attach id s i) i (sys_attach y))
       (set_sys_nattachments (sys_nattachments y + 1) y)).

Definition attached (id : et_id) (s i : Z) (m : et_mem) : et_mem :=
  upd_stat s (station_attached i) (upd_sys (sys_attached id s i) m).

Lemma wp_find_attach m (n : nat) i :
  (forall j, i <= j < i + Z.of_nat n -> is_Some (sys_attach (m_sys m) !! j)) ->
  wp (find_attach n i)
    (fun r m' => m' = m /\ ((r = -1 /\ forall j, i <= j < i + Z.of_nat n -> in_use m j = true) \/
       (i <= r < i + Z.of_nat n /\ in_use m r = false /\ forall j, i <= j < r -> in_use m j = true))) (fun _ => True) m.
Proof.
  revert i. induction n as [|n IH]; intros i D; simpl.
  - apply wp_ret. split; [done|]. left. split; [done|]. lia.
  - destruct (D i) as [a Ea]; [lia|]. apply wp_bind. unfold ld_attach. apply wp_bind, wps_ld_sys.
    eapply wp_of_option; [done|]. assert (U : in_use m i = negb (at_num a =? -1)) by (unfold in_use; by rewrite Ea).
    destruct (at_num a =? -1).
    + apply wp_ret. split; [done|]. right. split_and!; [lia..|done|]. lia.
    + eapply wp_mono; [apply IH; intros j Hj; apply D; lia| |done]. intros r m' [-> H]. split; [done|].
      destruct H as [[-> H]|(Hr & Ur & H)]; [left|right]; split_and!; try done; try lia;
        intros j Hj; (destruct (decide (j = i)) as [->|]; [by rewrite U|apply H; lia]).
Qed.

Lemma wps_str_proc p f pr (Q : unit -> et_mem -> Prop) m :
  sys_proc (m_sys m) !! p = Some pr ->
  Q tt (upd_sys (fun y => set_sys_proc (alter f p (sys_proc y)) y) m) -> wp (str_proc p f) Q (fun _ => True) m.
Proof.
  intros E H. unfold str_proc, ld_proc. apply wp_bind, wp_bind, wps_ld_sys. eapply wp_of_option; [done|].
  by apply wps_str_sys.
Qed.

(** The stores on the system structure. *)
Lemma wp_attach_setup id s i m (Q : unit -> et_mem -> Prop) :
  is_Some (sys_attach (m_sys m) !! i) -> (id_proc id = ET_SYS \/ is_Some (sys_proc (m_sys m) !! id_proc id)) ->
  Q tt (upd_sys (sys_attached id s i) m) -> wp (attach_setup id s i) Q (fun _ => True) m.
Proof.
  intros [a Ea] Hp HQ. unfold attach_setup. apply wp_bind, wps_ld_sys.
  apply wp_bind, wps_str_sys; [done|]. apply wp_bind. eapply wp_init_attachment; [exact Ea|].
  apply wp_bind. eapply wp_str_attachs; [by apply upd_attach_eq|]. rewrite upd_attach_compose.
  set (m1 := upd_attach _ _ _).
  assert (E1 : m1 = upd_sys (fun y => set_sys_attach (alter (fun _ => new_attach id s i) i (sys_attach y))
       (set_sys_nattachments (sys_nattachments y + 1) y)) m).
  { unfold m1, upd_attach, upd_sys, set_m_sys. cbn. do 2 f_equal. unfold new_attach.
    by destruct etNetLocalHost. }
  clearbody m1. subst m1. apply wp_when. unfold sys_attached in HQ. destruct (Z.eqb_spec (id_proc id) ET_SYS) as [Es|Es]; simpl.
  - erewrite <- (f_equal (fun f => upd_sys f m)); [exact HQ|]. done.
  - destruct Hp as [?|[pr Ep]]; [done|]. apply wp_bind. unfold ld_proc. apply wp_bind, wps_ld_sys.
    eapply wp_of_option; [exact Ep|]. apply wp_bind. eapply wps_str_proc; [exact Ep|].
    eapply wps_str_proc; [cbn; rewrite lookup_alter_eq, Ep; done|].
    assert (X : alter (fun p => set_pr_att (<[i := i]> (pr_att p)) p) (id_proc id)
        (alter (set_pr_nattachments (pr_nattachments pr + 1)) (id_proc id) (sys_proc (m_sys m))) =
      alter (proc_attached i) (id_proc id) (sys_proc (m_sys m))).
    { apply map_eq. intros p. destruct (decide (id_proc id = p)) as [<-|N].
      - by rewrite !lookup_alter_eq, Ep.
      - by rewrite !lookup_alter_ne. }
    unfold upd_sys, set_m_sys, set_sys_proc in *. cbn in *. rewrite X. exact HQ.
Qed.
(** Stopping the transfers around a store changes nothing else. *)
Lemma all_transfer_around s f m :
  (forall a ps, m_stats m !! a = Some ps -> st_mutex ps = false) ->
  (forall b ps, set_st_mutex b (f ps) = f (set_st_mutex b ps)) ->
  all_transfer false (upd_stat s f (all_transfer true m)) = upd_stat s f m.
Proof.
  intros F Hf. unfold all_transfer, upd_stat, set_m_stats. cbn. f_equal. apply map_eq. intros a.
  rewrite lookup_fmap. destruct (decide (s = a)) as [<-|N].
  - rewrite !lookup_alter_eq, lookup_fmap. destruct (m_stats m !! s) as [ps|] eqn:E; simpl; [|done].
    rewrite Hf. f_equal. specialize (F s ps E). destruct ps. cbn in *. by subst.
  - rewrite !lookup_alter_ne, lookup_fmap by done. destruct (m_stats m !! a) as [ps|] eqn:E; simpl; [|done].
    specialize (F a ps E). destruct ps. cbn in *. by subst.
Qed.

Lemma upd_stat_dom s f m : stations_dom m -> stations_dom (upd_stat s f m).
Proof.
  intros D a. rewrite <- (D a). cbn. destruct (decide (s = a)) as [<-|N]; [|by rewrite lookup_alter_ne].
  rewrite lookup_alter_eq. destruct (m_stats m !! s); split; intros []; by eauto.
Qed.

Lemma upd_stat_free s f m :
  (forall ps, st_mutex (f ps) = st_mutex ps) -> (forall a ps, m_stats m !! a = Some ps -> st_mutex ps = false) ->
  forall a ps, m_stats (upd_stat s f m) !! a = Some ps -> st_mutex ps = false.
Proof.
  intros Hf F a ps. cbn. destruct (decide (s = a)) as [<-|N]; [|rewrite lookup_alter_ne by done; apply F].
  rewrite lookup_alter_eq. destruct (m_stats m !! s) as [ps0|] eqn:E; simpl; [|done]. intros [= <-]. rewrite Hf. by apply (F s).
Qed.

Lemma all_transfer_dom b m : stations_dom m -> stations_dom (all_transfer b m).
Proof.
  intros D a. rewrite <- (D a). cbn. rewrite lookup_fmap. destruct (m_stats m !! a); split; intros []; by eauto.
Qed.

Lemma wp_attach_station s i m ps (Q : unit -> et_mem -> Prop) :
  m_stats m !! s = Some ps -> stations_dom m -> (forall a ps, m_stats m !! a = Some ps -> st_mutex ps = false) ->
  Q tt (upd_stat s (station_attached i) m) -> wp (attach_station s i) Q (fun _ => True) m.
Proof.
  intros E D F HQ. unfold attach_station.
  assert (N : 0 <= cf_nstations (sys_config (m_sys m))) by (assert (0 <= s < cf_nstations (sys_config (m_sys m))) by (apply D; eauto); lia). apply wp_bind. eapply wps_ld_stat; [done|].
  apply wp_bind. eapply wps_str_stat; [done..|]. apply wp_bind. eapply wps_str_stat; [by apply upd_stat_eq|done|].
  rewrite upd_stat_compose. set (m1 := upd_stat s _ m).
  assert (D1 : stations_dom m1) by by apply upd_stat_dom.
  assert (F1 : forall a ps, m_stats m1 !! a = Some ps -> st_mutex ps = false) by by apply upd_stat_free.
  assert (E1 : is_Some (m_stats m1 !! s)) by (apply is_Some_upd_stat; eauto).
  assert (HQ' : Q tt (upd_stat s (in_data (set_sd_status ET_STATION_ACTIVE)) m1)).
  { unfold m1. rewrite upd_stat_compose. erewrite upd_stat_ext; [exact HQ|done|done]. }
  destruct E1 as [ps1 E1]. change (0 <= cf_nstations (sys_config (m_sys m1))) in N. clearbody m1. apply wp_bind, wp_when. destruct (_ && _).
  - apply wp_transfer_lock_all; try done.
    apply wp_bind. eapply wps_str_stat; [cbn; rewrite lookup_fmap, E1; done|done|].
    apply wp_when, wp_transfer_unlock_all; [by apply upd_stat_dom, all_transfer_dom|done|].
    by rewrite all_transfer_around.
  - apply wp_bind. eapply wps_str_stat; [done..|]. by apply wp_when.
Qed.

(** The result: an error without a change, or the attachment with the lowest number that is free. *)
Definition attach_result (id : et_id) (s : Z) (m : et_mem) (r : Z * option Z) (m' : et_mem) : Prop :=
  match call_error id, m_stats m !! s with
  | Some e, _ => r = (e, None) /\ m' = m
  | None, None => r = (ET_ERROR, None) /\ m' = m
  | None, Some ps =>
      if negb (sd_status (st_data ps) =? ET_STATION_ACTIVE) && negb (sd_status (st_data ps) =? ET_STATION_IDLE)
      then r = (ET_ERROR, None) /\ m' = m
      else if ((0 <? sc_user_mode (st_config ps)) && (sc_user_mode (st_config ps) <=? sd_nattachments (st_data ps))) ||
              (cf_nattachments (sys_config (m_sys m)) <=? sys_nattachments (m_sys m))
      then r = (ET_ERROR_TOOMANY, None) /\ m' = m
      else exists i, r = (ET_OK, Some i) /\ 0 <= i < cf_nattachments (sys_config (m_sys m)) /\
             in_use m i = false /\ (forall j, 0 <= j < i -> in_use m j = true) /\ m' = attached id s i m
  end.

Definition proc_known (id : et_id) (m : et_mem) : Prop :=
  id_proc id = ET_SYS \/ is_Some (sys_proc (m_sys m) !! id_proc id).

Lemma wp_attach id s m gs :
  local_call id m -> system_ok m gs -> attach_ok m -> proc_known id m -> 0 <= s ->
  wp (et_station_attach id s true) (attach_result id s m) (fun _ => True) m.
Proof.
  intros L [_ S] A K Hs. pose proof (ss_dom _ _ S) as D. unfold et_station_attach, attach_result. simpl.
  destruct (Z.ltb_spec s 0); [lia|]. simpl.
  rewrite (lc_local _ _ L). simpl. apply (wp_alive_call id m L).
  destruct (call_error id); [done|].
  apply wp_bind, wps_ld_sys. cbn [m_sys set_m_rwlock].
  destruct (Z.leb_spec (cf_nstations (sys_config (m_sys m))) s) as [Hs'|Hs'].
  { apply wp_ret. split; [done|]. destruct (m_stats m !! s) as [ps|] eqn:E.
    - assert (0 <= s < cf_nstations (sys_config (m_sys m))) by (apply D; eauto). lia.
    - by rewrite set_m_rwlock_back. }
  destruct (proj2 (D s)) as [ps E]; [lia|]. rewrite E.
  pose proof (ss_mutex _ _ S) as Fs. pose proof (lc_mutex _ _ L) as Fy.
  assert (Hend : set_m_rwlock (m_rwlock m) (upd_sys (set_sys_stat_mutex false) (upd_sys (set_sys_stat_mutex true)
      (set_m_rwlock (m_rwlock m + 1) m))) = m) by (by destruct m as [[]]; cbn in *; subst).
  apply wp_bind. unfold et_station_lock. apply wp_bind, wps_ld_sys. cbn [m_sys set_m_rwlock]. rewrite Fs.
  apply wps_str_sys; [done|]. apply wp_bind. eapply wps_ld_stat; [exact E|].
  destruct (_ && _).
  { unfold et_station_unlock. apply wp_bind, wps_str_sys; [done|]. apply wp_ret.
    by rewrite Hend. }
  destruct ((0 <? _) && _); simpl.
  { unfold et_station_unlock. apply wp_bind, wps_str_sys; [done|]. apply wp_ret.
    by rewrite Hend. }
  unfold et_system_lock. apply wp_bind, wp_bind, wps_ld_sys. cbn. rewrite Fy. apply wps_str_sys; [done|].
  apply wp_bind, wps_ld_sys. cbn. destruct (Z.leb_spec (cf_nattachments (sys_config (m_sys m))) (sys_nattachments (m_sys m))) as [Hn|Hn].
  { unfold et_system_unlock, et_station_unlock. apply wp_bind, wps_str_sys; [done|].
    apply wp_bind, wps_str_sys; [done|]. apply wp_ret. split_and!; [done|done|].
    by destruct m as [[]]; cbn in *; subst. }
  set (m3 := upd_sys _ _).
  assert (Hu : forall j, in_use m3 j = in_use m j) by done.
  apply wp_bind. eapply wp_mono; [apply (wp_find_attach m3); intros j Hj; apply A; lia| |done].
  intros i m' [-> Hi]. destruct Hi as [[-> Hi]|(Hi & Ui & Hj)].
  { exfalso. rewrite (ao_count _ A) in Hn. destruct (count_free _ _ Hn) as (i & Hi' & Ui & _).
    rewrite <- Hu, Hi in Ui; [done|lia]. }
  destruct (Z.ltb_spec i 0); [lia|]. apply wp_bind. apply wp_attach_setup; [apply A; lia|exact K|].
  unfold et_system_unlock, et_station_unlock. apply wp_bind, wps_str_sys; [done|].
  apply wp_bind. eapply (wp_attach_station s i _ ps); [exact E|exact D|exact (ss_free _ _ S)|].
  apply wp_bind, wps_str_sys; [done|]. apply wp_ret. split; [done|].
  exists i. split_and!; [done|lia|lia|done|done|].
  unfold m3. by destruct m as [[]]; cbn in *; subst.
Qed.

Section attached.
Context (id : et_id) (m : et_mem) (gs : list (Z * list Z)) (s i : Z) (ps : et_station).
Context (S : system_ok m gs) (A : attach_ok m) (K : proc_known id m).
Context (E : m_stats m !! s = Some ps).
Context (Hi : 0 <= i < cf_nattachments (sys_config (m_sys m))) (Ui : in_use m i = false).
Context (St : sd_status (st_data ps) = ET_STATION_ACTIVE \/ sd_status (st_data ps) = ET_STATION_IDLE).
Abbreviation m' := (attached id s i m).

Lemma attached_attach j :
  sys_attach (m_sys m') !! j = if decide (j = i) then Some (new_attach id s i) else sys_attach (m_sys m) !! j.
Proof.
  cbn. unfold sys_attached. cbn. destruct (decide (j = i)) as [->|N].
  - rewrite lookup_alter_eq. by destruct (ao_dom _ A i Hi) as [a ->].
  - by rewrite lookup_alter_ne.
Qed.

Lemma attached_config : sys_config (m_sys m') = sys_config (m_sys m).
Proof. done. Qed.

Lemma attached_stat t : m_stats m' !! t = if decide (t = s) then Some (station_attached i ps) else m_stats m !! t.
Proof.
  cbn. destruct (decide (t = s)) as [->|N]; [by rewrite lookup_alter_eq, E|by rewrite lookup_alter_ne].
Qed.

Lemma attached_in_use j : in_use m' j = if decide (j = i) then true else in_use m j.
Proof.
  unfold in_use. rewrite attached_attach. destruct (decide (j = i)) as [->|N]; [|done]. simpl.
  destruct (Z.eqb_spec i (-1)); [lia|done].
Qed.

Lemma attached_belongs f j : belongs f m' j = if decide (j = i) then f (new_attach id s i) else belongs f m j.
Proof.
  unfold belongs. rewrite attached_attach. destruct (decide (j = i)) as [->|N]; [|done]. simpl.
  destruct (Z.eqb_spec i (-1)); [lia|done].
Qed.

Lemma not_belongs f : belongs f m i = false.
Proof. unfold in_use in Ui. unfold belongs. destruct (sys_attach (m_sys m) !! i); [|done]. by rewrite Ui. Qed.

Lemma attached_count f : count (belongs f m') (cf_nattachments (sys_config (m_sys m))) =
  count (belongs f m) (cf_nattachments (sys_config (m_sys m))) + if f (new_attach id s i) then 1 else 0.
Proof.
  destruct (f (new_attach id s i)) eqn:F.
  - apply (count_add _ _ _ i); [done|apply not_belongs|by rewrite attached_belongs, decide_True|].
    intros j N. by rewrite attached_belongs, decide_False.
  - rewrite Z.add_0_r. apply count_ext. intros j _. rewrite attached_belongs.
    destruct (decide (j = i)) as [->|N]; [|done]. by rewrite F, not_belongs.
Qed.

Lemma attached_ok : attach_ok m'.
Proof.
  split; rewrite ?attached_config.
  - intros j Hj. rewrite attached_attach. destruct (decide _); [by eexists|]. by apply A.
  - cbn [m_sys attached upd_sys upd_stat set_m_stats set_m_sys]. cbn. rewrite (ao_count _ A).
    symmetry. apply (count_add _ _ _ i); [done|done|by rewrite attached_in_use, decide_True|].
    intros j N. by rewrite attached_in_use, decide_False.
  - intros t pt. rewrite attached_stat, attached_count. unfold at_station at 2. cbn [at_stat new_attach].
    destruct (decide (t = s)) as [->|N].
    + intros [= <-]. rewrite Z.eqb_refl. cbn. by rewrite (ao_stat _ A s ps E).
    + intros Et. destruct (Z.eqb_spec s t); [congruence|]. rewrite Z.add_0_r. by apply A.
  - intros t pt j. rewrite attached_stat, attached_belongs. intros Et Hj.
    destruct (decide (t = s)) as [->|N].
    + injection Et as <-. cbn. destruct (decide (j = i)) as [->|Nj].
      * rewrite lookup_insert_eq. unfold at_station. cbn. by rewrite Z.eqb_refl.
      * rewrite lookup_insert_ne by done. by apply (ao_att _ A s ps).
    + rewrite (ao_att _ A t pt j Et Hj). destruct (decide (j = i)) as [->|Nj]; [|done].
      rewrite not_belongs. unfold at_station. cbn. by destruct (Z.eqb_spec s t); [congruence|].
  - intros p pr Ep Np. rewrite attached_count. unfold at_process at 2. cbn [at_proc new_attach].
    cbn in Ep. unfold sys_attached in Ep. cbn in Ep.
    destruct (Z.eqb_spec (id_proc id) ET_SYS) as [Es|Es], (Z.eqb_spec (id_proc id) p) as [Ei|Ei]; try congruence.
    + rewrite Z.add_0_r. by apply A.
    + subst p. rewrite lookup_alter_eq in Ep. destruct (sys_proc (m_sys m) !! id_proc id) as [pr0|] eqn:E0; [|done].
      injection Ep as <-. cbn. by rewrite (ao_proc _ A _ pr0 E0 Np).
    + rewrite lookup_alter_ne in Ep by done. rewrite Z.add_0_r. by apply A.
  - intros t pt. rewrite attached_stat. destruct (decide (t = s)) as [->|N]; [by intros [= <-]|]. by apply A.
Qed.

Lemma attached_lists : process_lists m -> process_lists m'.
Proof.
  intros P p pr j. rewrite attached_belongs, attached_config. cbn. unfold sys_attached. cbn. unfold at_process at 1. cbn [at_proc new_attach].
  intros Ep Np Hj. destruct (Z.eqb_spec (id_proc id) ET_SYS) as [Es|Es]; [|destruct (Z.eqb_spec (id_proc id) p) as [<-|Ei]].
  - rewrite (P p pr j Ep Np Hj). destruct (decide (j = i)) as [->|]; [|done]. rewrite not_belongs. by destruct (Z.eqb_spec (id_proc id) p); [congruence|].
  - rewrite lookup_alter_eq in Ep. destruct (sys_proc (m_sys m) !! id_proc id) as [pr0|] eqn:E0; [|done]. injection Ep as <-. cbn.
    destruct (decide (j = i)) as [->|Nj]; [by rewrite lookup_insert_eq|]. rewrite lookup_insert_ne by done. by apply P.
  - rewrite lookup_alter_ne in Ep by done. rewrite (P p pr j Ep Np Hj). destruct (decide (j = i)) as [->|]; [|done]. by rewrite not_belongs.
Qed.

Lemma attached_system : system_ok m' gs.
Proof.
  destruct S as [C [S1 S2 S3 S4 S5 S6 S7]]. split.
  - unfold attached. rewrite same_links_upd_stat by done. by rewrite same_links_upd_sys.
  - split; try done.
    + by apply upd_stat_dom.
    + intros t pt. rewrite attached_stat. destruct (decide (t = s)) as [->|N]; [intros [= <-] _; by right|by apply S3].
    + intros t pt. rewrite attached_stat. destruct (decide (t = s)) as [->|N]; [|by apply S4].
      intros _ Hn. rewrite (S4 s ps E Hn) in St. destruct St; done.
    + intros t pt. rewrite attached_stat. destruct (decide (t = s)) as [->|N]; [intros [= <-]; apply (S5 s ps E)|by apply S5].
Qed.
End attached.
End attach.

(** C39: et_station_attach returns an error and changes nothing, or gives the process the attachment
    with the lowest number that is free and makes the station active; it is refused exactly when the
    station is not in use, has as many users as it allows, or the system has no attachment left. *)
Theorem et_station_attach_spec `{R0 : Remote} `{O0 : Os} id s m gs :
  local_call id m -> system_ok m gs -> attach_ok m -> proc_known id m -> 0 <= s ->
  wp (et_station_attach id s true) (attach_result id s m) (fun _ => True) m.
Proof. apply wp_attach. Qed.

(** C40: the counts of attachments of the system, the stations and the processes, and the lists of
    attachments of the stations, agree with the array of attachments after et_station_attach when they
    did before; so do the lists of attachments of the processes, and the invariant of the stations. *)
Theorem et_station_attach_invariant `{R0 : Remote} `{O0 : Os} id s m gs :
  local_call id m -> system_ok m gs -> attach_ok m -> proc_known id m -> 0 <= s ->
  exists r x m', run (et_station_attach id s true) m = Ok r x m' /\
    system_ok m' gs /\ attach_ok m' /\ (process_lists m -> process_lists m').
Proof.
  intros L S A K Hs. eapply wp_run. eapply wp_mono; [by apply (wp_attach id s m gs)| |done].
  intros r m' X. unfold attach_result in X. destruct (call_error id); [by destruct X as [_ ->]|].
  destruct (m_stats m !! s) as [ps|] eqn:E; [|by destruct X as [_ ->]].
  destruct (negb _ && negb _) eqn:B; [by destruct X as [_ ->]|]. destruct (_ || _); [by destruct X as [_ ->]|].
  destruct X as (i & _ & Hi & Ui & _ & ->).
  assert (sd_status (st_data ps) = ET_STATION_ACTIVE \/ sd_status (st_data ps) = ET_STATION_IDLE) as St.
  { apply andb_false_iff in B as [B|B]; apply negb_false_iff, Z.eqb_eq in B; auto. }
  split_and!; [by eapply attached_system|by eapply attached_ok|by eapply attached_lists].
Qed.

(** ** A concrete system *)

Definition os0 : Os := {| getpid := 99; etNetLocalHost := Some "host"%string |}.

(** [system1] without attachments. *)
Definition system2 : et_mem :=
  upd_sys (fun y => set_sys_nattachments 0
    (set_sys_attach {[ 0 := init_attach; 1 := init_attach; 2 := init_attach; 3 := init_attach ]} y)) system1.

Lemma system2_ok : system_ok system2 groups0.
Proof. apply system_ok_upd_sys; try reflexivity. apply system1_ok. Qed.

Lemma system2_local : local_call id0 system2.
Proof. by split. Qed.

Lemma system2_unused j : in_use system2 j = false.
Proof.
  unfold in_use. assert (H : map_Forall (fun _ a => at_num a = -1) (sys_attach (m_sys system2))).
  { repeat (apply map_Forall_insert_2; [done|]). apply map_Forall_empty. }
  destruct (sys_attach (m_sys system2) !! j) as [a|] eqn:E; [|done]. by rewrite (H j a E).
Qed.

Lemma system2_none f j : belongs f system2 j = false.
Proof. apply not_belongs, system2_unused. Qed.

Lemma count_none p n : (forall j, p j = false) -> count p n = 0.
Proof.
  intros H. unfold count. assert (X : forall l, List.filter p l = []); [|by rewrite X].
  induction l as [|a l IH]; simpl; [done|]. by rewrite H.
Qed.

Lemma system2_attach : attach_ok system2.
Proof.
  assert (D : map_Forall (fun _ ps => sd_nattachments (st_data ps) = 0 /\ sd_att (st_data ps) = ∅) (m_stats system2)).
  { intros s ps E. destruct (proj1 (ss_dom _ _ (proj2 system2_ok) s)) as [H1 H2]; [eauto|].
    assert (s = 0 \/ s = 1 \/ s = 2 \/ s = 3 \/ s = 4) as X by (cbn in H2; lia).
    destruct X as [->|[->|[->|[->| ->]]]]; injection E as <-; done. }
  split.
  - intros i Hi. assert (i = 0 \/ i = 1 \/ i = 2 \/ i = 3) as X by (cbn in Hi; lia).
    destruct X as [->|[->|[->| ->]]]; by eexists.
  - rewrite count_none; [done|]. apply system2_unused.
  - intros s ps E. rewrite count_none by apply system2_none. by apply (D s ps).
  - intros s ps i E _. rewrite system2_none. by rewrite (proj2 (D s ps E)).
  - intros p pr E _. rewrite count_none by apply system2_none.
    assert (P : map_Forall (fun _ pr => pr_nattachments pr = 0) (sys_proc (m_sys system2))).
    { apply (map_Forall_singleton (fun _ pr => pr_nattachments pr = 0) 0 (proc0 0)). done. }
    by apply (P p).
  - intros s ps E. rewrite (proj1 (D s ps E)). lia.
Qed.

Lemma et_station_attach_spec_witness :
  exists x m', run (et_station_attach (O0 := os0) id0 3 true) system2 = Ok (ET_OK, Some 0) x m' /\
    m' = attached (O0 := os0) id0 3 0 system2.
Proof.
  destruct (wp_run _ _ _ _ (et_station_attach_spec (O0 := os0) id0 3 system2 groups0 system2_local system2_ok
    system2_attach (or_intror (ex_intro _ (proc0 0) eq_refl)) ltac:(lia))) as (r & x & m' & E & i & -> & Hi & _ & Hj & ->).
  assert (i = 0) as ->.
  { destruct (decide (i = 0)) as [|N]; [done|]. specialize (Hj 0 ltac:(lia)). by rewrite system2_unused in Hj. }
  eauto.
Defined.

Lemma system2_lists : process_lists system2.
Proof.
  intros p pr i E _ _. rewrite system2_none.
  assert (P : map_Forall (fun _ pr => pr_att pr = ∅) (sys_proc (m_sys system2))) by (by apply (map_Forall_singleton (fun _ pr => pr_att pr = ∅) 0 (proc0 0))).
  by rewrite (P p pr E).
Qed.

Lemma et_station_attach_invariant_witness :
  exists r x m', run (et_station_attach (O0 := os0) id0 3 true) system2 = Ok r x m' /\
    system_ok m' groups0 /\ attach_ok m' /\ process_lists m'.
Proof.
  destruct (et_station_attach_invariant (O0 := os0) id0 3 system2 groups0 system2_local system2_ok
    system2_attach (or_intror (ex_intro _ (proc0 0) eq_refl)) ltac:(lia)) as (r & x & m' & E & S & A & P).
  exists r, x, m'. split_and!; [exact E|exact S|exact A|exact (P system2_lists)].
Defined.
