(* ===== verification/Fix.v ===== *)
(** * Cleaning up after a process that died

    The et_fix functions of et_system.c and the thread et_sys_heartmonitor that calls them: it watches
    the heartbeats of the processes and, when one stopped, frees the mutexes, repairs the chain of
    stations, the stations, the attachments and the counts, and detaches the process. *)
From stdpp Require Import base gmap strings list.
From S2P Require Import Prelude Types Machine EvList Repair Restore Stats Chain Api StationApi Init Station.
Open Scope Z_scope.

(** ** Mutexes *)

Definition sys_mptr (get : et_system -> bool) (set : bool -> et_system -> et_system) : mptr :=
  mkMptr (let* y := ld_sys in ret (get y)) (fun b => str_sys (set b)).
Definition transfer_mptr (ps : Z) : mptr :=
  mkMptr (let* s := ld_stat ps in ret (st_mutex s)) (fun b => str_stat ps (set_st_mutex b)).

Definition fix_mutex (pmutex : mptr) (unlock : M unit) : M unit :=
  let* st := et_mutex_locked pmutex in when (st =? ET_MUTEX_LOCKED) unlock.

Definition et_fix_mutexes : M unit :=
  fix_mutex (sys_mptr sys_mutex set_sys_mutex) et_system_unlock ;;;
  fix_mutex (sys_mptr sys_stat_mutex set_sys_stat_mutex) et_station_unlock ;;;
  fix_mutex (sys_mptr sys_statadd_mutex set_sys_statadd_mutex) et_statadd_unlock ;;;
  let* y := ld_sys in
  transfer_loop (Z.to_nat (cf_nstations (sys_config y))) (fun ps => fix_mutex (transfer_mptr ps) (et_transfer_unlock ps)) 0.

(** ** The chain of stations *)

(** while (pstat->nextparallel > -1): [n] bounds the stations that exist. *)
Fixpoint fix_parallel (n : nat) (pstat : Z) : M unit :=
  match n with
  | O => diverge
  | S n' =>
      let* p := ld_stat pstat in
      let nextparallel := st_nextparallel p in
      if -1 <? nextparallel then
        str_stat nextparallel (set_st_prevparallel (st_num p)) ;;;
        str_stat nextparallel (set_st_prev (-1)) ;;;
        str_stat nextparallel (set_st_next (-1)) ;;;
        fix_parallel n' nextparallel
      else ret tt
  end.

(** while (ps->next > -1), and the tail of the list. *)
Fixpoint fix_chain (n : nat) (ps : Z) : M unit :=
  match n with
  | O => diverge
  | S n' =>
      let* p := ld_stat ps in
      let pnext := st_next p in
      if -1 <? pnext then
        str_stat pnext (set_st_prev (st_num p)) ;;;
        let* q := ld_stat pnext in
        (if sc_flow_mode (st_config q) =? ET_STATION_PARALLEL then
           str_stat pnext (set_st_prevparallel (-1)) ;;;
           let* m := getm in
           fix_parallel (S (size (m_stats m))) pnext
         else
           str_stat pnext (set_st_prevparallel (-1)) ;;;
           str_stat pnext (set_st_nextparallel (-1))) ;;;
        fix_chain n' pnext
      else str_sys (set_sys_stat_tail (st_num p))
  end.

Definition et_fix_linkedlist : M unit :=
  let* y := ld_sys in
  let* m := getm in
  fix_chain (S (size (m_stats m))) (sys_stat_head y).

(** ** Stations *)

(** The station with the number [num] is behind [pstat2] in its group. *)
Fixpoint in_group_of (n : nat) (num pstat2 : Z) : M bool :=
  match n with
  | O => diverge
  | S n' =>
      let* p := ld_stat pstat2 in
      let nextparallel := st_nextparallel p in
      if -1 <? nextparallel then
        let* q := ld_stat nextparallel in
        if st_num q =? num then ret true else in_group_of n' num nextparallel
      else ret false
  end.

(** It is behind [pstat] in the chain. *)
Fixpoint in_chain_of (n : nat) (num pstat : Z) : M bool :=
  match n with
  | O => diverge
  | S n' =>
      let* p := ld_stat pstat in
      let pnext := st_next p in
      if -1 <? pnext then
        let* q := ld_stat pnext in
        if st_num q =? num then ret true
        else
          let* m := getm in
          let* found :=
            if sc_flow_mode (st_config q) =? ET_STATION_PARALLEL
            then in_group_of (S (size (m_stats m))) num pnext else ret false in
          if found then ret true else in_chain_of n' num pnext
      else ret false
  end.

(** The stations from [ps] on; the result is nstats. *)
Fixpoint fix_stations_loop (n : nat) (ps nstats : Z) : M Z :=
  match n with
  | O => ret nstats
  | S n' =>
      let* s := ld_stat ps in
      let status := sd_status (st_data s) in
      if status =? ET_STATION_CREATING then
        et_init_station ps ;;; fix_stations_loop n' (ps + 1) nstats
      else if negb (status =? ET_STATION_UNUSED) then
        let* m := getm in
        let* inlist := in_chain_of (S (size (m_stats m))) (st_num s) ET_GRANDCENTRAL in
        when (negb inlist)
          (str_stat ps (set_st_conductor ET_THREAD_KILL) ;;;
           signal_cread (LOut ps) ;;;
           et_init_station ps) ;;;
        fix_stations_loop n' (ps + 1) (nstats + 1)
      else fix_stations_loop n' (ps + 1) nstats
  end.

Definition et_fix_stations : M unit :=
  let* y := ld_sys in
  let* nstats := fix_stations_loop (Z.to_nat (cf_nstations (sys_config y) - 1)) 1 1 in
  let* y := ld_sys in
  when (negb (nstats =? sys_nstations y)) (str_sys (set_sys_nstations nstats)).

(** ** Attachments and counts *)

(** The first active station from [j] on that knows attachment [i], or -1. *)
Fixpoint find_attached (n : nat) (j i : Z) : M Z :=
  match n with
  | O => ret (-1)
  | S n' =>
      let* ps := ld_stat j in
      if (default (-1) (sd_att (st_data ps) !! i) =? i) && (sd_status (st_data ps) =? ET_STATION_ACTIVE)
      then ret j else find_attached n' (j + 1) i
  end.

(** sys->proc[j].att[i] = -1 for the processes from [j] on. *)
Fixpoint forget_att (n : nat) (j i : Z) : M unit :=
  match n with
  | O => ret tt
  | S n' => str_proc j (fun p => set_pr_att (<[i := -1]> (pr_att p)) p) ;;; forget_att n' (j + 1) i
  end.

Fixpoint fix_attachments_loop (n : nat) (i : Z) : M unit :=
  match n with
  | O => ret tt
  | S n' =>
      let* a := ld_attach i in
      let* y := ld_sys in
      (if negb (at_num a =? -1) then
         let* stat := find_attached (Z.to_nat (cf_nstations (sys_config y))) 0 i in
         when (stat =? -1)
           (forget_att (Z.to_nat (cf_nprocesses (sys_config y))) 0 i ;;;
            et_init_attachment i ;;;
            str_sys (fun y => set_sys_nattachments (sys_nattachments y - 1) y))
       else ret tt) ;;;
      fix_attachments_loop n' (i + 1)
  end.

Definition et_fix_attachments : M unit :=
  let* y := ld_sys in
  fix_attachments_loop (Z.to_nat (cf_nattachments (sys_config y))) 0.

(** ps->data.nattachments++ for the attachments of the station from [j] on. *)
Fixpoint station_natts (n : nat) (ps j : Z) : M unit :=
  match n with
  | O => ret tt
  | S n' =>
      let* s := ld_stat ps in
      when (default (-1) (sd_att (st_data s) !! j) =? j)
        (str_stat ps (in_data (fun d => set_sd_nattachments (sd_nattachments d + 1) d))) ;;;
      station_natts n' ps (j + 1)
  end.

(** The stations from [i] on; the result is natts. *)
Fixpoint natts_stations (n : nat) (i natts nattachments : Z) : M Z :=
  match n with
  | O => ret natts
  | S n' =>
      let* s := ld_stat i in
      if negb (sd_status (st_data s) =? ET_STATION_ACTIVE) then natts_stations n' (i + 1) natts nattachments
      else
        str_stat i (in_data (set_sd_nattachments 0)) ;;;
        station_natts (Z.to_nat nattachments) i 0 ;;;
        let* s := ld_stat i in
        natts_stations n' (i + 1) (natts + sd_nattachments (st_data s)) nattachments
  end.

Fixpoint proc_natts (n : nat) (i j : Z) : M unit :=
  match n with
  | O => ret tt
  | S n' =>
      let* p := ld_proc i in
      when (default (-1) (pr_att p !! j) =? j)
        (str_proc i (fun p => set_pr_nattachments (pr_nattachments p + 1) p)) ;;;
      proc_natts n' i (j + 1)
  end.

Fixpoint natts_procs (n : nat) (i nattachments : Z) : M unit :=
  match n with
  | O => ret tt
  | S n' =>
      let* p := ld_proc i in
      when (pr_status p =? ET_PROC_OPEN)
        (str_proc i (set_pr_nattachments 0) ;;;
         proc_natts (Z.to_nat nattachments) i 0) ;;;
      natts_procs n' (i + 1) nattachments
  end.

Definition et_fix_natts : M unit :=
  let* y := ld_sys in
  let c := sys_config y in
  let* natts := natts_stations (Z.to_nat (cf_nstations c)) 0 0 (cf_nattachments c) in
  str_sys (set_sys_nattachments natts) ;;;
  natts_procs (Z.to_nat (cf_nprocesses c)) 0 (cf_nattachments c).

Fixpoint count_open (n : nat) (i nprocs : Z) : M Z :=
  match n with
  | O => ret nprocs
  | S n' =>
      let* p := ld_proc i in
      count_open n' (i + 1) (if pr_status p =? ET_PROC_OPEN then nprocs + 1 else nprocs)
  end.

Definition et_fix_nprocs : M unit :=
  let* y := ld_sys in
  let* nprocs := count_open (Z.to_nat (cf_nprocesses (sys_config y))) 0 0 in
  str_sys (set_sys_nprocesses nprocs).

(** ** The monitor of heartbeats *)

(** The arrays of et_sys_heartmonitor: what it read of the heartbeat and the start time of each
    process in this turn and before. *)
Record monitor := mkMonitor {
  oldheartbt : gmap Z Z; newheartbt : gmap Z Z; oldTime : gmap Z Z; newTime : gmap Z Z
}.

(** memset(oldheartbt, -1) makes every old heartbeat UINT_MAX; the new arrays are not initialised. *)
Definition monitor_init : monitor :=
  mkMonitor (list_to_map (map (fun i => (i, 2 ^ 32 - 1)) (upto ET_PROCESSES_MAX))) ∅
    (list_to_map (map (fun i => (i, 0)) (upto ET_PROCESSES_MAX))) ∅.

(** Reading the heartbeats of the processes from [i] on. *)
Fixpoint read_beats (n : nat) (i : Z) (t : monitor) : M monitor :=
  match n with
  | O => ret t
  | S n' =>
      let* p := ld_proc i in
      read_beats n' (i + 1)
        (if negb (pr_status p =? ET_PROC_OPEN) then t
         else mkMonitor (oldheartbt t) (<[i := pr_heartbeat p]> (newheartbt t)) (oldTime t) (<[i := pr_time p]> (newTime t)))
  end.

(** The first part of the clean-up: the mutexes, the chain and the stations; the mutexes of the
    stations are held afterwards. *)
Definition fix_chain_and_stations : M unit :=
  et_fix_mutexes ;;;
  et_station_lock ;;;
  et_transfer_lock_all ;;;
  et_fix_linkedlist ;;;
  et_fix_stations.

Section monitor.
Context `{R0 : Remote}.

(** The attachments of process [i] from [j] on are detached, with id->cleanup set. *)
Fixpoint detach_atts (n : nat) (id : et_id) (i j : Z) : M unit :=
  match n with
  | O => ret tt
  | S n' =>
      let* p := ld_proc i in
      (if default (-1) (pr_att p !! j) =? -1 then ret tt
       else
         let* a := ld_attach j in
         let* _ := et_repair_station id (at_stat a) in
         let* _ := et_station_detach id j in
         ret tt) ;;;
      detach_atts n' id i (j + 1)
  end.

(** Eliminating process [i] from the ET system. *)
Definition kill_process (id : et_id) (i : Z) : M unit :=
  let id := set_id_cleanup 1 id in
  fix_chain_and_stations ;;;
  et_system_lock ;;;
  et_fix_attachments ;;;
  et_repair_gc id ;;;
  let* y := ld_sys in
  detach_atts (Z.to_nat (cf_nattachments (sys_config y))) id i 0 ;;;
  et_init_process i ;;;
  str_sys (fun y => set_sys_nprocesses (sys_nprocesses y - 1) y) ;;;
  et_fix_nprocs ;;;
  et_fix_natts ;;;
  et_transfer_unlock_all ;;;
  et_system_unlock ;;;
  et_station_unlock.

(** Looking at the processes from [i] on. *)
Fixpoint check_beats (n : nat) (id : et_id) (i : Z) (t : monitor) : M monitor :=
  match n with
  | O => ret t
  | S n' =>
      let* p := ld_proc i in
      if negb (pr_status p =? ET_PROC_OPEN) then check_beats n' id (i + 1) t
      else
        let* new := of_option (newheartbt t !! i) in
        let* time := of_option (newTime t !! i) in
        if negb (default 0 (oldheartbt t !! i) =? new) then
          check_beats n' id (i + 1)
            (mkMonitor (<[i := new]> (oldheartbt t)) (newheartbt t) (<[i := time]> (oldTime t)) (newTime t))
        else if negb (default 0 (oldTime t !! i) =? time) then
          check_beats n' id (i + 1)
            (mkMonitor (oldheartbt t) (newheartbt t) (<[i := time]> (oldTime t)) (newTime t))
        else
          kill_process id i ;;;
          check_beats n' id (i + 1)
            (mkMonitor (<[i := 0]> (oldheartbt t)) (newheartbt t) (oldTime t) (newTime t))
  end.

(** One turn of the endless loop of et_sys_heartmonitor; numprocs is read before the loop. *)
Definition monitor_turn (id : et_id) (numprocs : Z) (t : monitor) : M monitor :=
  nanosleep ;;;
  et_system_lock ;;;
  let* t := read_beats (Z.to_nat numprocs) 0 t in
  et_system_unlock ;;;
  check_beats (Z.to_nat numprocs) id 0 t.
End monitor.
