(* ===== verification/FixChain.v ===== *)
(** * The correctness of the repair of the chain

    Whenever a process dies in station_insert or station_remove, et_fix_linkedlist makes the chain of
    stations whole again, as it was before or as it was to become. *)
From stdpp Require Import base gmap strings list.
From S2P Require Import Prelude Types Machine EvList Sample StatConfig Stats Chain Fix.
Open Scope Z_scope.

(** The stations [l] exist and know their numbers. *)
Definition numbered (m : et_mem) (l : list Z) : Prop :=
  forall s, s ∈ l -> 0 <= s /\ exists ps, m_stats m !! s = Some ps /\ st_num ps = s.

Lemma numbered_unlinked m m' l : unlinked_mem m' = unlinked_mem m -> numbered m l -> numbered m' l.
Proof.
  intros U H s Hs. destruct (H s Hs) as (? & ps & E & N). split; [done|].
  destruct (unlinked_lookup m m' s ps U E) as (ps' & ? & ? & ?). exists ps'. split; congruence.
Qed.

Lemma numbered_sub m l l' : numbered m l -> (forall s, s ∈ l' -> s ∈ l) -> numbered m l'.
Proof. intros H S s Hs. auto. Qed.

(** Only links of the stations [l] changed. *)
Record relinked_only (l : list Z) (m m' : et_mem) : Prop := mkRelinked {
  ro_unlinked : unlinked_mem m' = unlinked_mem m;
  ro_other : forall b, b ∉ l -> stf st_next m' b = stf st_next m b /\ stf st_prev m' b = stf st_prev m b /\
    stf st_nextparallel m' b = stf st_nextparallel m b /\ stf st_prevparallel m' b = stf st_prevparallel m b
}.

Lemma relinked_only_refl l m : relinked_only l m m.
Proof. by split. Qed.

Lemma relinked_only_trans l m1 m2 m3 : relinked_only l m1 m2 -> relinked_only l m2 m3 -> relinked_only l m1 m3.
Proof.
  intros [U1 O1] [U2 O2]. split; [congruence|]. intros b Hb.
  destruct (O1 b Hb) as (? & ? & ? & ?), (O2 b Hb) as (? & ? & ? & ?). split_and!; congruence.
Qed.

Lemma relinked_only_sub l l' m m' : relinked_only l m m' -> (forall b, b ∈ l -> b ∈ l') -> relinked_only l' m m'.
Proof. intros [U O] S. split; [done|]. intros b Hb. apply O. auto. Qed.

Lemma relinked_only_stat l m s g :
  s ∈ l -> (forall ps, unlinked (g ps) = unlinked ps) -> relinked_only l m (upd_stat s g m).
Proof.
  intros Hs U. split; [by apply unlinked_upd_stat|]. intros b Hb. assert (s <> b) by (intros <-; done).
  rewrite !stf_ne by done. done.
Qed.

(** What a chain of forward links depends on. *)
Lemma same_links_forward m m' gs : same_links m m' -> forward_chain m gs -> forward_chain m' gs.
Proof.
  intros L [H1 H2 H3 [H4 H4'] H5 H6 H7].
  assert (S : forall f s, (forall ps ps', links ps = links ps' -> f ps = f ps') -> stf f m' s = stf f m s)
    by (intros; by apply same_links_stf).
  assert (P : forall s, parallel m s -> parallel m' s).
  { intros s (ps & E & F). destruct (same_links_lookup m m' s ps L E) as (ps' & E' & X).
    exists ps'. split; [done|]. unfold links in X. congruence. }
  split; try done.
  - intros s Hs. destruct (H2 s Hs) as (? & ps & E & N). split; [done|].
    destruct (same_links_lookup m m' s ps L E) as (ps' & E' & X). exists ps'. unfold links in X. split; congruence.
  - rewrite !S by (unfold links; congruence). done.
  - apply (linked_ext _ _ _ _ H5). intros a _. apply S. unfold links. congruence.
  - intros g Hg. apply (linked_ext _ _ _ _ (H6 g Hg)). intros a _. apply S. unfold links. congruence.
  - intros g Hg. destruct (H7 g Hg) as [G1 G2]. split; [auto|].
    intros s Hs. destruct (G2 s Hs) as [Pm (ph & ps & Eh & Es & C)]. split; [auto|].
    destruct (same_links_lookup m m' _ ph L Eh) as (ph' & Eh' & Xh).
    destruct (same_links_lookup m m' _ ps L Es) as (ps' & Es' & Xs).
    exists ph', ps'. split_and!; [done..|]. unfold links in *. congruence.
Qed.

#[export] Instance forward_chain_proper : Proper (same_links ==> eq ==> iff) forward_chain.
Proof. intros m m' L gs gs' <-. split; apply same_links_forward; [done|by symmetry]. Qed.

(** The loop along a parallel group behind [a]. *)
Lemma wp_fix_parallel n a l m :
  linked (stf st_nextparallel m) (a :: l) (-1) -> NoDup (a :: l) -> numbered m (a :: l) -> (length l < n)%nat ->
  wp (fix_parallel n a)
    (fun _ m' => relinked_only l m m' /\ m_sys m' = m_sys m /\
       (forall b, stf st_nextparallel m' b = stf st_nextparallel m b) /\
       (forall b, b ∈ l -> stf st_prev m' b = -1) /\
       dll (stf st_nextparallel m') (stf st_prevparallel m') (stf st_prevparallel m a) (a :: l) (-1))
    (fun _ => True) m.
Proof.
  revert a l m. induction n as [|n IH]; intros a l m K N St Ln; [lia|]. cbn [fix_parallel].
  destruct (St a) as (_ & pa & Ea & Na); [by left|]. apply wp_bind. eapply wps_ld_stat; [done|].
  destruct K as [K1 K2]. rewrite (stf_lookup _ _ _ _ Ea) in K1. cbv zeta. rewrite K1, Na.
  destruct l as [|b l]; simpl hd.
  { apply wp_ret. split_and!; [apply relinked_only_refl|done|done|set_solver|].
    simpl. split_and!; [done| |done]. by rewrite (stf_lookup _ _ _ _ Ea). }
  destruct (St b) as (Hb & pb & Eb & Nb); [by right; left|]. destruct (Z.ltb_spec (-1) b); [|lia].
  apply NoDup_cons in N as [N1 N2]. apply NoDup_cons in N2 as N2'. destruct N2' as [N3 _]. assert (a <> b) by set_solver.
  apply wp_bind. eapply wps_str_stat; [done|done|].
  apply wp_bind. eapply wps_str_stat; [by apply upd_stat_eq|done|].
  apply wp_bind. eapply wps_str_stat; [by apply upd_stat_eq, upd_stat_eq|done|].
  set (m1 := upd_stat b _ _).
  assert (U1 : relinked_only (b :: l) m m1).
  { unfold m1. eapply relinked_only_trans; [apply relinked_only_stat|eapply relinked_only_trans; apply relinked_only_stat]; (by left) || done. }
  assert (E1 : forall c, stf st_nextparallel m1 c = stf st_nextparallel m c) by (intros c; unfold m1; stf; done).
  eapply wp_mono; [apply (IH b l m1)| |done].
  - apply (linked_ext (stf st_nextparallel m)); [done|]. intros c _. apply E1.
  - done.
  - eapply numbered_unlinked; [apply U1|]. eapply numbered_sub; [exact St|]. intros s. by right.
  - simpl in Ln. lia.
  - intros _ m' (R & Y & E2 & Pv & D). split_and!.
    + eapply relinked_only_trans; [exact U1|]. eapply relinked_only_sub; [exact R|]. intros c. by right.
    + by rewrite Y.
    + intros c. by rewrite E2, E1.
    + intros c [->|Hc]%elem_of_cons; [|auto]. destruct (ro_other _ _ _ R b N3) as (_ & -> & _).
      unfold m1. stf. done.
    + assert (X : a ∉ b :: l) by done.
      destruct (ro_other _ _ _ R a ltac:(set_solver)) as (_ & _ & A1 & A2).
      destruct (ro_other _ _ _ U1 a X) as (_ & _ & A3 & A4). split; [|split].
      * by rewrite A2, A4.
      * rewrite A1, A3. by rewrite (stf_lookup _ _ _ _ Ea).
      * replace (stf st_prevparallel m1 b) with a in D by (unfold m1; stf; done). exact D.
Qed.

(** What the loop makes of the group [g] behind [p] in the main list. *)
Lemma group_fixed m g :
  (snd g <> [] -> parallel m (fst g)) -> (forall s, s ∈ snd g -> parallel m s /\ compatible m (fst g) s) ->
  dll (stf st_nextparallel m) (stf st_prevparallel m) (-1) (group_members g) (-1) ->
  (forall s, s ∈ snd g -> stf st_prev m s = -1) -> group_ok m g.
Proof. by split. Qed.

Definition groups_agree (m : et_mem) (gs : list group) : Prop :=
  forall g, g ∈ gs -> (snd g <> [] -> parallel m (fst g)) /\ forall s, s ∈ snd g -> parallel m s /\ compatible m (fst g) s.

Lemma groups_agree_unlinked m m' gs : unlinked_mem m' = unlinked_mem m -> groups_agree m gs -> groups_agree m' gs.
Proof.
  intros U H g Hg. destruct (H g Hg) as [X Y]. split; [intros Z1; apply (parallel_unlinked m); auto|].
  intros s Hs. destruct (Y s Hs). split; [by apply (parallel_unlinked m)|by apply (compatible_unlinked m)].
Qed.

(** One group: its head [q] gets its predecessor, and the members their links. *)
Definition fix_group (q : Z) : M unit :=
  let* s := ld_stat q in
  (if sc_flow_mode (st_config s) =? ET_STATION_PARALLEL then
     str_stat q (set_st_prevparallel (-1)) ;;;
     let* m := getm in
     fix_parallel (S (size (m_stats m))) q
   else
     str_stat q (set_st_prevparallel (-1)) ;;;
     str_stat q (set_st_nextparallel (-1))).

Lemma numbered_size m l : numbered m l -> NoDup l -> (length l <= size (m_stats m))%nat.
Proof.
  intros St N. rewrite <- (size_list_to_set (C := gset Z) l) by done. rewrite <- size_dom.
  apply subseteq_size. intros s Hs%elem_of_list_to_set.
  destruct (St s Hs) as (_ & ps & E & _). by apply elem_of_dom_2 in E.
Qed.

Lemma wp_fix_group q ns m :
  linked (stf st_nextparallel m) (q :: ns) (-1) -> NoDup (q :: ns) -> numbered m (q :: ns) ->
  groups_agree m [(q, ns)] ->
  wp (fix_group q)
    (fun _ m' => relinked_only (q :: ns) m m' /\ m_sys m' = m_sys m /\ stf st_next m' q = stf st_next m q /\
       stf st_prev m' q = stf st_prev m q /\ group_ok m' (q, ns)) (fun _ => True) m.
Proof.
  intros K N St Ag. destruct (St q) as (_ & pq & Eq & Nq); [by left|].
  destruct (Ag (q, ns)) as [P1 P2]; [by left|]. apply NoDup_cons in N as N'. destruct N' as [N1 _].
  unfold fix_group. apply wp_bind. eapply wps_ld_stat; [done|].
  destruct (Z.eqb_spec (sc_flow_mode (st_config pq)) ET_STATION_PARALLEL) as [F|F].
  - apply wp_bind. eapply wps_str_stat; [done|done|]. apply wp_bind, wp_getm. set (m1 := upd_stat q _ _).
    assert (U1 : relinked_only [q] m m1) by (apply relinked_only_stat; [by left|done]).
    assert (St1 : numbered m1 (q :: ns)) by (eapply numbered_unlinked; [apply U1|done]).
    eapply wp_mono; [apply (wp_fix_parallel _ q ns m1)| |done].
    + apply (linked_ext (stf st_nextparallel m)); [done|]. intros c _. unfold m1. stf. done.
    + done.
    + done.
    + pose proof (numbered_size m1 _ St1 N) as L. cbn [length] in L. lia.
    + intros _ m' (R & Y & E2 & Pv & D).
      assert (R' : relinked_only (q :: ns) m m').
      { eapply relinked_only_trans; [eapply relinked_only_sub; [exact U1|set_solver]|].
        eapply relinked_only_sub; [exact R|set_solver]. }
      destruct (ro_other _ _ _ R q N1) as (Q1 & Q2 & _). split_and!; [done|by rewrite Y|..].
      * rewrite Q1. unfold m1. stf. done.
      * rewrite Q2. unfold m1. stf. done.
      * destruct (groups_agree_unlinked m m' [(q, ns)] (ro_unlinked _ _ _ R') Ag (q, ns)) as [X1 X2]; [by left|].
        apply group_fixed; [done|done| |done].
        replace (stf st_prevparallel m1 q) with (-1) in D by (unfold m1; stf; done). exact D.
  - destruct ns as [|b ns]; [|exfalso; apply F; destruct P1 as (pq' & Eq' & F'); [done|]; simpl in Eq'; congruence].
    apply wp_bind. eapply wps_str_stat; [done|done|]. eapply wps_str_stat; [by apply upd_stat_eq|done|].
    set (m' := upd_stat q _ _).
    split_and!; [|done|unfold m'; stf; done|unfold m'; stf; done|].
    + eapply relinked_only_trans; apply relinked_only_stat; (by left) || done.
    + apply group_ok_single; unfold m'; stf; done.
Qed.

(** The loop along the main list behind [p]. *)
Lemma wp_fix_chain n p gs m :
  linked (stf st_next m) (p :: heads gs) (-1) -> (forall g, g ∈ gs -> linked (stf st_nextparallel m) (group_members g) (-1)) ->
  NoDup (p :: members gs) -> numbered m (p :: members gs) -> groups_agree m gs -> (length gs < n)%nat ->
  wp (fix_chain n p)
    (fun _ m' => relinked_only (members gs) m m' /\
       sys_stat_tail (m_sys m') = List.last (p :: heads gs) (-1) /\
       dll (stf st_next m') (stf st_prev m') (stf st_prev m p) (p :: heads gs) (-1) /\
       forall g, g ∈ gs -> group_ok m' g) (fun _ => True) m.
Proof.
  revert p gs m. induction n as [|n IH]; intros p gs m K Kg N St Ag Ln; [lia|]. cbn [fix_chain].
  destruct (St p) as (_ & pp & Ep & Np); [by left|]. apply wp_bind. eapply wps_ld_stat; [done|].
  destruct K as [K1 K2]. rewrite (stf_lookup _ _ _ _ Ep) in K1. cbv zeta. rewrite K1, Np.
  apply NoDup_cons in N as [N0 N].
  destruct gs as [|[q ns] gs]; simpl hd.
  { apply wps_str_sys; [done|]. split_and!; [by split|done| |set_solver]. simpl.
    split_and!; [done|by rewrite stf_sys, (stf_lookup _ _ _ _ Ep)|done]. }
  rewrite members_cons in *. unfold group_members in N, N0; cbn [fst snd] in N, N0. 
  destruct (St q) as (Hq & pq & Eq & Nq); [right; by left|]. destruct (Z.ltb_spec (-1) q); [|lia].
  assert (p <> q) by set_solver.
  apply wp_bind. eapply wps_str_stat; [done|done|]. set (m1 := upd_stat q _ m).
  assert (U1 : relinked_only [q] m m1) by (apply relinked_only_stat; [by left|done]).
  assert (E1 : forall c, stf st_nextparallel m1 c = stf st_nextparallel m c) by (intros c; unfold m1; stf; done).
  assert (E1n : forall c, stf st_next m1 c = stf st_next m c) by (intros c; unfold m1; stf; done).
  apply wp_assoc. apply wp_bind. fold (fix_group q).
  apply NoDup_app in N as (Ng & Nd & Nr).
  eapply wp_mono; [apply (wp_fix_group q ns m1)| |done].
  { apply (linked_ext (stf st_nextparallel m)); [apply (Kg (q, ns)); by left|]. intros c _. apply E1. }
  { done. }
  { eapply numbered_unlinked; [apply U1|]. eapply numbered_sub; [exact St|]. intros s Hs. right. rewrite elem_of_app. by left. }
  { eapply groups_agree_unlinked; [apply U1|]. intros g Hg. apply Ag. apply list_elem_of_singleton in Hg as ->. by left. }
  intros _ m2 (R2 & Y2 & Q1 & Q2 & G2).
  assert (R : relinked_only (q :: ns) m m2).
  { eapply relinked_only_trans; [eapply relinked_only_sub; [exact U1|set_solver]|exact R2]. }
  assert (Hh : forall c, c ∈ heads gs -> c ∉ q :: ns) by (intros c Hc X; by apply (Nd c X), elem_of_heads).
  assert (Nxt : forall c, c ∈ p :: q :: heads gs -> stf st_next m2 c = stf st_next m c).
  { intros c Hc. destruct (decide (c = q)) as [->|Nc]; [by rewrite Q1|]. destruct (ro_other _ _ _ R c) as (-> & _); [|done].
    revert Hc. rewrite !elem_of_cons. intros [->|[->|Hc]]; [|done|by rewrite <- elem_of_cons; apply Hh]. rewrite <- elem_of_cons. set_solver. }
  eapply wp_mono; [apply (IH q gs m2)| |done].
  { apply (linked_ext (stf st_next m)); [exact K2|]. intros c Hc. apply Nxt. by right. }
  { intros g Hg. apply (linked_ext (stf st_nextparallel m)); [apply Kg; by right|]. intros c Hc.
    apply (ro_other _ _ _ R). intros X. apply (Nd c X). by apply (elem_of_members c g). }
  { apply NoDup_cons. split; [|done]. intros X. apply (Nd q); [by left|done]. }
  { eapply numbered_unlinked; [apply R|]. eapply numbered_sub; [exact St|]. intros s. rewrite !elem_of_cons, elem_of_app. unfold group_members. simpl. rewrite elem_of_cons. tauto. }
  { eapply groups_agree_unlinked; [apply R|]. intros g Hg. apply Ag. by right. }
  { simpl in Ln. lia. }
  intros _ m' (R3 & T & D & G).
  assert (Np' : p ∉ (q :: ns) ++ members gs) by done.
  assert (R' : relinked_only ((q :: ns) ++ members gs) m m').
  { eapply relinked_only_trans; (eapply relinked_only_sub; [eassumption|]); intros c; rewrite elem_of_app; tauto. }
  split_and!.
  - exact R'.
  - rewrite T. cbn [heads map fst]. fold (heads gs). rewrite !last_cons_default. done.
  - destruct (ro_other _ _ _ R' p Np') as (P1 & P2 & _). split; [|split].
    + done.
    + rewrite P1, (stf_lookup _ _ _ _ Ep), K1. done.
    + assert (stf st_prev m2 q = p) as X by (rewrite Q2; unfold m1; stf; done). rewrite X in D. exact D.
  - intros g [->|Hg]%elem_of_cons; [|auto].
    assert (Nq' : forall c, c ∈ q :: ns -> c ∉ members gs) by (intros c Hc X; by apply (Nd c)).
    apply (group_ok_ext m2); [apply R3|..|done]; intros c Hc; apply (ro_other _ _ _ R3), Nq'; [exact Hc|by right].
Qed.

Lemma wp_fix_linkedlist gs m :
  forward_chain m gs -> sys_stat_head (m_sys m) = ET_GRANDCENTRAL ->
  wp et_fix_linkedlist (fun _ m' => station_chain m' gs /\ unlinked_mem m' = unlinked_mem m) (fun _ => True) m.
Proof.
  intros [H1 H2 [gs' ->] [H4 H4'] H5 H6 H7] Hd. unfold et_fix_linkedlist. apply wp_bind, wps_ld_sys. apply wp_bind, wp_getm.
  rewrite Hd. assert (L : (length ((ET_GRANDCENTRAL, []) :: gs') <= size (m_stats m))%nat).
  { etransitivity; [apply length_heads_le|]. by apply numbered_size. }
  eapply wp_mono; [apply (wp_fix_chain _ ET_GRANDCENTRAL gs' m)| |done].
  { exact H5. }
  { intros g Hg. apply H6. by right. }
  { exact H1. }
  { exact H2. }
  { intros g Hg. apply H7. by right. }
  { simpl in L. lia. }
  intros _ m' ([U O] & T & D & G). split; [|done]. apply NoDup_cons in H1 as N. destruct N as [N _].
  destruct (O ET_GRANDCENTRAL N) as (_ & O2 & O3 & O4).
  split.
  - done.
  - exact (numbered_unlinked m m' _ U H2).
  - by exists gs'.
  - rewrite H4 in D. exact D.
  - exact T.
  - intros g [->|Hg]%elem_of_cons; [|auto].
    destruct (H6 (ET_GRANDCENTRAL, [])) as [X _]; [by left|]. apply group_ok_single; [rewrite O3|rewrite O4]; done.
Qed.

(** ** Looking for a station in the chain *)

Lemma wp_in_group_of n num a l m :
  linked (stf st_nextparallel m) (a :: l) (-1) -> numbered m (a :: l) -> (length l < n)%nat ->
  wp (in_group_of n num a) (fun b m' => m' = m /\ b = bool_decide (num ∈ l)) (fun _ => True) m.
Proof.
  revert a l. induction n as [|n IH]; intros a l [K1 K2] St Ln; [lia|]. cbn [in_group_of].
  destruct (St a) as (_ & pa & Ea & _); [by left|]. apply wp_bind. eapply wps_ld_stat; [done|].
  rewrite (stf_lookup _ _ _ _ Ea) in K1. cbv zeta. rewrite K1. destruct l as [|b l]; simpl hd; [by apply wp_ret|].
  destruct (St b) as (Hb & pb & Eb & Nb); [by right; left|]. destruct (Z.ltb_spec (-1) b); [|lia].
  apply wp_bind. eapply wps_ld_stat; [done|]. rewrite Nb. destruct (Z.eqb_spec b num) as [->|N].
  - apply wp_ret. split; [done|]. rewrite bool_decide_true; [done|by left].
  - eapply wp_mono; [apply (IH b l)| |done]; [done|by eapply numbered_sub; [exact St|intros s; right]|simpl in Ln; lia|].
    intros r m' [-> ->]. split; [done|]. apply bool_decide_ext. rewrite elem_of_cons. intuition congruence.
Qed.

Lemma wp_in_chain_of n num p gs m :
  linked (stf st_next m) (p :: heads gs) (-1) -> (forall g, g ∈ gs -> group_ok m g) ->
  numbered m (p :: members gs) -> NoDup (members gs) -> (length gs < n)%nat ->
  wp (in_chain_of n num p) (fun b m' => m' = m /\ b = bool_decide (num ∈ members gs)) (fun _ => True) m.
Proof.
  revert p gs. induction n as [|n IH]; intros p gs [K1 K2] G St N Ln; [lia|]. cbn [in_chain_of].
  destruct (St p) as (_ & pp & Ep & _); [by left|]. apply wp_bind. eapply wps_ld_stat; [done|].
  rewrite (stf_lookup _ _ _ _ Ep) in K1. cbv zeta. rewrite K1. destruct gs as [|[q ns] gs]; simpl hd; [by apply wp_ret|].
  rewrite members_cons in *. unfold group_members in *; cbn [fst snd] in *.
  destruct (St q) as (Hq & pq & Eq & Nq); [set_solver|]. destruct (Z.ltb_spec (-1) q); [|lia].
  apply wp_bind. eapply wps_ld_stat; [done|]. rewrite Nq. destruct (Z.eqb_spec q num) as [->|Nn].
  { apply wp_ret. split; [done|]. rewrite bool_decide_true; [done|set_solver]. }
  apply wp_bind, wp_getm. apply wp_bind. apply NoDup_app in N as (Ng & Nd & Nr).
  assert (St' : numbered m (q :: ns)).
  { eapply numbered_sub; [exact St|]. intros s Hs. right. rewrite elem_of_app. by left. }
  destruct (G (q, ns)) as [G1 G2 G3 G4]; [by left|]. cbn [fst snd] in *.
  eapply wp_mono with (C := fun _ => True) (Q := fun b m' => m' = m /\ b = bool_decide (num ∈ ns)); [| |done].
  { destruct (Z.eqb_spec (sc_flow_mode (st_config pq)) ET_STATION_PARALLEL) as [F|F].
    - apply wp_in_group_of; [by eapply dll_linked|done|]. pose proof (numbered_size m _ St' Ng) as L. cbn [length] in L. lia.
    - apply wp_ret. split; [done|]. destruct ns as [|b ns]; [done|]. exfalso. apply F.
      destruct G3 as (pq' & Eq' & F'); [done|]. congruence. }
  intros b m' [-> ->]. case_bool_decide as B.
  { apply wp_ret. split; [done|]. rewrite bool_decide_true; [done|]. rewrite elem_of_app, elem_of_cons. tauto. }
  eapply wp_mono; [apply (IH q gs)| |done]; try done.
  - intros g Hg. apply G. by right.
  - eapply numbered_sub; [exact St|]. intros s. rewrite !elem_of_cons, elem_of_app, elem_of_cons. tauto.
  - simpl in Ln. lia.
  - intros r m' [-> ->]. split; [done|]. apply bool_decide_ext. rewrite elem_of_app, elem_of_cons. intuition congruence.
Qed.

Lemma wp_in_chain m gs num : station_chain m gs -> num <> ET_GRANDCENTRAL ->
  wp (in_chain_of (S (size (m_stats m))) num ET_GRANDCENTRAL)
    (fun b m' => m' = m /\ b = bool_decide (num ∈ members gs)) (fun _ => True) m.
Proof.
  intros H Nn. destruct (ch_gc _ _ H) as [gs' ->]. pose proof (ch_nodup _ _ H) as N. rewrite members_cons in N.
  apply NoDup_app in N as (_ & _ & N).
  eapply wp_mono; [apply (wp_in_chain_of _ num ET_GRANDCENTRAL gs' m)| |done].
  - eapply dll_linked, (ch_main _ _ H).
  - intros g Hg. apply (ch_groups _ _ H). by right.
  - exact (ch_stat _ _ H).
  - done.
  - pose proof (length_members_le _ _ H) as L. pose proof (length_heads_le gs'). cbn [members map concat group_members fst snd app length] in L.
    change (concat (map group_members gs')) with (members gs') in L. lia.
  - intros b m' [-> ->]. split; [done|]. apply bool_decide_ext. rewrite members_cons, elem_of_app. unfold group_members. cbn [fst snd].
    rewrite list_elem_of_singleton. intuition congruence.
Qed.

(** Changes of stations that are not in the chain. *)
Lemma chain_outside m m' gs :
  station_chain m gs -> (forall s, s ∈ members gs -> m_stats m' !! s = m_stats m !! s) ->
  sys_stat_tail (m_sys m') = sys_stat_tail (m_sys m) -> station_chain m' gs.
Proof.
  intros [H1 H2 H3 H4 H5 H6] E T.
  assert (X : forall f s, s ∈ members gs -> stf f m' s = stf f m s) by (intros f s Hs; unfold stf; by rewrite E).
  split; try done.
  - intros s Hs. rewrite E by done. auto.
  - apply (dll_ext _ _ _ _ _ _ _ H4). intros a Ha%elem_of_heads. by rewrite !X.
  - by rewrite T.
  - intros g Hg. destruct (H6 g Hg) as [G1 G2 G3 G4].
    assert (M : forall s, s ∈ group_members g -> s ∈ members gs) by (intros s; by apply elem_of_members).
    assert (P : forall s, s ∈ group_members g -> parallel m s -> parallel m' s).
    { intros s Hs (ps & Es & F). exists ps. by rewrite E by auto. }
    split.
    + apply (dll_ext _ _ _ _ _ _ _ G1). intros a Ha. rewrite !X by auto. done.
    + intros s Hs. rewrite X; [auto|]. apply M. by right.
    + intros Ns. apply P; [by left|auto].
    + intros s Hs. destruct (G4 s Hs) as [P1 (ph & ps & Eh & Es & F)]. split; [apply P; [by right|done]|].
      exists ph, ps. rewrite !E by (apply M; (by left) || by right). done.
Qed.
