(* ===== verification/FixStat.v ===== *)
(** * The correctness of the clean-up of stations

    et_fix_stations makes the stations that a dead process left half created or outside of the chain
    unused, and leaves the stations of the chain alone. *)
From stdpp Require Import base gmap strings list.
From S2P Require Import Prelude Types Machine EvList Repair Sample StatConfig Stats Chain Api StationApi Init Station StationSpec Attach Fix FixChain.
Open Scope Z_scope.

(** The stations after the links were repaired. *)
Record stations_left (m : et_mem) (gs : list (Z * list Z)) : Prop := mkStationsLeft {
  sl_chain : station_chain m gs;
  sl_dom : stations_dom m;
  sl_used : forall s ps, m_stats m !! s = Some ps -> s ∈ members gs ->
    sd_status (st_data ps) = ET_STATION_IDLE \/ sd_status (st_data ps) = ET_STATION_ACTIVE;
  sl_num : forall s ps, m_stats m !! s = Some ps -> sd_status (st_data ps) <> ET_STATION_CREATING ->
    sd_status (st_data ps) <> ET_STATION_UNUSED -> st_num ps = s;
  sl_select : forall s ps, m_stats m !! s = Some ps ->
    length (sc_select (st_config ps)) = Z.to_nat ET_STATION_SELECT_INTS
}.

(** What et_fix_stations makes of station [i]. *)
Definition fixed_station (gs : list (Z * list Z)) (i : Z) (ps : et_station) : et_station :=
  let status := sd_status (st_data ps) in
  if status =? ET_STATION_CREATING then init_station ps
  else if (status =? ET_STATION_UNUSED) || bool_decide (i ∈ members gs) then ps
  else init_station (in_list (LOut i) (fun L => set_l_cread (Datatypes.S (l_cread L)) L) (set_st_conductor ET_THREAD_KILL ps)).

Definition fixed_upto (gs : list (Z * list Z)) (i : Z) (m : et_mem) : et_mem :=
  set_m_stats (map_imap (fun j ps => Some (if (1 <=? j) && (j <? i) then fixed_station gs j ps else ps)) (m_stats m)) m.

(** A station that is neither unused nor half created. *)
Definition counted (m : et_mem) (i : Z) : bool :=
  match m_stats m !! i with
  | Some ps => negb (sd_status (st_data ps) =? ET_STATION_CREATING) && negb (sd_status (st_data ps) =? ET_STATION_UNUSED)
  | None => false
  end.

Section fix_stations.
Context (m : et_mem) (gs : list (Z * list Z)).
Context (H : stations_left m gs).

Lemma fixed_lookup i j : m_stats (fixed_upto gs i m) !! j =
  (fun ps => if (1 <=? j) && (j <? i) then fixed_station gs j ps else ps) <$> m_stats m !! j.
Proof. unfold fixed_upto. cbn. rewrite map_lookup_imap. by destruct (m_stats m !! j). Qed.

Lemma fixed_next i : 1 <= i -> upd_stat i (fixed_station gs i) (fixed_upto gs i m) = fixed_upto gs (i + 1) m.
Proof.
  intros Hi. unfold upd_stat, fixed_upto, set_m_stats. cbn. f_equal. apply map_eq. intros j.
  destruct (decide (i = j)) as [<-|N].
  - rewrite lookup_alter_eq, !map_lookup_imap. destruct (m_stats m !! i); cbn; [|done].
    by rewrite (proj2 (Z.leb_le 1 i)), Z.ltb_irrefl, (proj2 (Z.ltb_lt i (i + 1))) by lia.
  - rewrite lookup_alter_ne by done. rewrite !map_lookup_imap. destruct (m_stats m !! j); cbn; [|done].
    assert ((j <? i + 1) = (j <? i)) as -> by (apply eq_true_iff_eq; rewrite !Z.ltb_lt; lia). done.
Qed.

Lemma fixed_1 : fixed_upto gs 1 m = m.
Proof.
  unfold fixed_upto. destruct m as [y st hi ev rw]. unfold set_m_stats. cbn. f_equal. apply map_eq. intros j.
  rewrite map_lookup_imap. destruct (st !! j); cbn; [|done].
  by destruct (Z.leb_spec 1 j), (Z.ltb_spec j 1); try lia.
Qed.

Lemma fixed_member s ps : m_stats m !! s = Some ps -> s ∈ members gs -> fixed_station gs s ps = ps.
Proof.
  intros E Hs. unfold fixed_station. rewrite (bool_decide_true _ Hs), orb_true_r.
  by destruct (sl_used _ _ H s ps E Hs) as [-> | ->].
Qed.

Lemma fixed_chain i : station_chain (fixed_upto gs i m) gs.
Proof.
  apply (chain_outside m); [apply H| |done]. intros s Hs. rewrite fixed_lookup.
  destruct (m_stats m !! s) as [ps|] eqn:E; [|done]. cbn. rewrite (fixed_member s ps) by done. by destruct (_ && _).
Qed.

Lemma wp_fix_stations_loop n i nstats : 1 <= i -> i + Z.of_nat n = cf_nstations (sys_config (m_sys m)) ->
  wp (fix_stations_loop n i nstats)
    (fun r m' => m' = fixed_upto gs (i + Z.of_nat n) m /\
       r = nstats + Z.of_nat (length (List.filter (counted m) (seqZ i (Z.of_nat n))))) (fun _ => True) (fixed_upto gs i m).
Proof.
  revert i nstats. induction n as [|n IH]; intros i nstats Hi En; cbn [fix_stations_loop].
  { apply wp_ret. split; [by rewrite Z.add_0_r|]. rewrite seqZ_nil by done. cbn. lia. }
  destruct (proj2 (sl_dom _ _ H i)) as [ps E]; [lia|].
  assert (E' : m_stats (fixed_upto gs i m) !! i = Some ps).
  { rewrite fixed_lookup, E. cbn. by rewrite Z.ltb_irrefl, andb_false_r. }
  assert (F : forall c r, (forall c', wp (fix_stations_loop n (i + 1) c') (fun r m' => m' = fixed_upto gs (i + 1 + Z.of_nat n) m /\
       r = c' + Z.of_nat (length (List.filter (counted m) (seqZ (i + 1) (Z.of_nat n))))) (fun _ => True) (fixed_upto gs (i + 1) m)) ->
     c = nstats + Z.b2z (counted m i) -> r = upd_stat i (fixed_station gs i) (fixed_upto gs i m) ->
     wp (fix_stations_loop n (i + 1) c)
     (fun r m' => m' = fixed_upto gs (i + Z.of_nat (S n)) m /\
       r = nstats + Z.of_nat (length (List.filter (counted m) (seqZ i (Z.of_nat (S n)))))) (fun _ => True) r).
  { intros c r W -> ->. rewrite fixed_next by done. eapply wp_mono; [apply W| |done]. intros r m' [-> ->].
    split; [f_equal; lia|]. rewrite (seqZ_cons i) by lia. replace (Z.pred (Z.of_nat (S n))) with (Z.of_nat n) by lia. cbn [List.filter].
    replace (Z.succ i) with (i + 1) by lia. destruct (counted m i); cbn [Z.b2z length]; lia. }
  specialize (fun c r => F c r (fun c' => IH (i + 1) c' ltac:(lia) ltac:(lia))).
  apply wp_bind. eapply wps_ld_stat; [done|]. cbv zeta. unfold counted in F at 1. rewrite E in F.
  unfold fixed_station in F. pose proof (sl_select _ _ H i ps E) as Sel.
  destruct (Z.eqb_spec (sd_status (st_data ps)) ET_STATION_CREATING) as [S1|S1].
  { apply wp_bind. eapply wp_init_station; [done|done|]. apply F; [cbn; lia|].
    eapply upd_stat_ext; [done|]. by rewrite S1. }
  destruct (Z.eqb_spec (sd_status (st_data ps)) ET_STATION_UNUSED) as [S2|S2]; cbn [negb andb] in *.
  { apply F; [cbn; lia|]. symmetry. eapply upd_stat_id; [done|]. rewrite S2. done. }
  rewrite (sl_num _ _ H i ps E S1 S2). apply wp_bind, wp_getm. apply wp_bind.
  assert (Hs : 0 <= i < cf_nstations (sys_config (m_sys m))) by lia.
  eapply wp_mono; [apply (wp_in_chain _ gs); [apply fixed_chain|]; unfold ET_GRANDCENTRAL; lia| |done].
  intros b m' [-> ->]. apply wp_bind, wp_when. case_bool_decide as B; cbn [negb].
  - apply F; [cbn; lia|]. symmetry. eapply upd_stat_id; [done|]. rewrite orb_true_r.
    by destruct (Z.eqb_spec (sd_status (st_data ps)) ET_STATION_CREATING).
  - apply wp_bind. eapply wps_str_stat; [done|done|]. apply wp_bind.
    eapply wps_str_list; [by apply upd_stat_eq|done|]. eapply wp_init_station; [by apply upd_stat_eq, upd_stat_eq|done|].
    apply F; [cbn; lia|]. unfold upd_list. rewrite !upd_stat_compose. eapply upd_stat_ext; [done|].
    destruct (Z.eqb_spec (sd_status (st_data ps)) ET_STATION_CREATING); [done|].
    by destruct (Z.eqb_spec (sd_status (st_data ps)) ET_STATION_UNUSED).
Qed.
End fix_stations.

(** ** The mutexes *)

Lemma wp_mutex_held (p : mptr) n m :
  (forall (Q : bool -> et_mem -> Prop), Q true m -> wp (mx_ld p) Q (fun _ => True) m) ->
  wp (mutex_locked_loop n p) (fun r m' => r = ET_MUTEX_LOCKED /\ m' = m) (fun _ => True) m.
Proof.
  intros H. induction n as [|n IH]; cbn [mutex_locked_loop]; [by apply wp_ret|].
  apply wp_bind, H. by apply wp_bind, wp_nanosleep.
Qed.

(** A mutex that can be read and set is free after it was fixed, and nothing else changed. *)
Lemma wp_fix_mutex (p : mptr) unlock b (upd : bool -> et_mem -> et_mem) m (Q : unit -> et_mem -> Prop) :
  (forall (Q : bool -> et_mem -> Prop), Q b m -> wp (mx_ld p) Q (fun _ => True) m) ->
  (forall c m1 (Q : unit -> et_mem -> Prop), m1 = m \/ m1 = upd true m -> Q tt (upd c m1) -> wp (mx_str p c) Q (fun _ => True) m1) ->
  (forall (Q : unit -> et_mem -> Prop), Q tt (upd false m) -> wp unlock Q (fun _ => True) m) ->
  (forall c, upd c (upd true m) = upd c m) -> Q tt (upd false m) -> wp (fix_mutex p unlock) Q (fun _ => True) m.
Proof.
  intros Hl Hs Hu Hc HQ. unfold fix_mutex. apply wp_bind. destruct b.
  - eapply wp_mono; [by apply wp_mutex_held| |done]. intros r m' [-> ->]. apply wp_when. cbn. by apply Hu.
  - unfold et_mutex_locked. change 40%nat with (S 39). cbn [mutex_locked_loop].
    apply wp_bind, Hl. apply wp_bind, Hs; [by left|]. apply wp_bind, Hs; [by right|]. rewrite Hc.
    apply wp_ret. apply wp_when. done.
Qed.

Lemma wp_fix_sys get set unlock m (Q : unit -> et_mem -> Prop) :
  (forall b c y, set b (set c y) = set b y) -> unlock = str_sys (set false) ->
  Q tt (upd_sys (set false) m) -> wp (fix_mutex (sys_mptr get set) unlock) Q (fun _ => True) m.
Proof.
  intros Hc -> HQ. apply (wp_fix_mutex _ _ (get (m_sys m)) (fun b => upd_sys (set b))); cbn [mx_ld mx_str sys_mptr].
  - intros Q' H. apply wp_bind, wps_ld_sys. by apply wp_ret.
  - intros c m1 Q' _ H. by apply wps_str_sys.
  - intros Q' H. by apply wps_str_sys.
  - intros c. unfold upd_sys. cbn. by rewrite Hc.
  - done.
Qed.

(** The memory with all the mutexes of stations and system free. *)
Definition mutexes_free (m : et_mem) : et_mem :=
  all_transfer false (upd_sys (fun y => set_sys_statadd_mutex false (set_sys_stat_mutex false (set_sys_mutex false y))) m).

Lemma wp_fix_mutexes (Q : unit -> et_mem -> Prop) m :
  stations_dom m -> 0 <= cf_nstations (sys_config (m_sys m)) ->
  Q tt (mutexes_free m) -> wp et_fix_mutexes Q (fun _ => True) m.
Proof.
  intros D N HQ. unfold et_fix_mutexes.
  do 3 (apply wp_bind; apply wp_fix_sys; [done|done|]). apply wp_bind, wps_ld_sys.
  set (m1 := upd_sys _ _). assert (E1 : m_stats m1 = m_stats m) by done.
  change (wp (transfer_loop (Z.to_nat (cf_nstations (sys_config (m_sys m1)))) (fun ps => fix_mutex (transfer_mptr ps) (et_transfer_unlock ps)) 0) Q (fun _ => True) m1).
  assert (D1 : stations_dom m1) by (intros s; rewrite E1; apply D).
  rewrite <- (transfer_upto_0 false m1 D1) at 2. apply wp_transfer_loop; try done; [change (cf_nstations (sys_config (m_sys m1))) with (cf_nstations (sys_config (m_sys m))); lia|].
  intros s m0 Q' [ps E] E0 H'. rewrite E in E0.
  apply (wp_fix_mutex _ _ (st_mutex ps) (fun b => upd_stat s (set_st_mutex b))); cbn [mx_ld mx_str transfer_mptr].
  - intros Q2 H2. apply wp_bind. eapply wps_ld_stat; [done|]. by apply wp_ret.
  - intros c m2 Q2 [-> | ->] H2; (eapply wps_str_stat; [|done|exact H2]); [done|by apply upd_stat_eq].
  - intros Q2 H2. by eapply wps_str_stat.
  - intros c. by rewrite upd_stat_compose.
  - done.
Qed.

(** ** The clean-up after a crash *)

(** What always holds of the stations, between the steps of any function that changes the chain. *)
Record stations_base (m : et_mem) : Prop := mkStationsBase {
  sb_dom : stations_dom m;
  sb_pos : 1 <= cf_nstations (sys_config (m_sys m));
  sb_head : sys_stat_head (m_sys m) = ET_GRANDCENTRAL;
  sb_num : forall s ps, m_stats m !! s = Some ps -> sd_status (st_data ps) <> ET_STATION_CREATING ->
    sd_status (st_data ps) <> ET_STATION_UNUSED -> st_num ps = s;
  sb_select : forall s ps, m_stats m !! s = Some ps ->
    length (sc_select (st_config ps)) = Z.to_nat ET_STATION_SELECT_INTS
}.

(** The stations of the chain are idle or active. *)
Definition used_chain (m : et_mem) (gs : list (Z * list Z)) : Prop :=
  forall s ps, m_stats m !! s = Some ps -> s ∈ members gs ->
    sd_status (st_data ps) = ET_STATION_IDLE \/ sd_status (st_data ps) = ET_STATION_ACTIVE.

(** A station without its links and its mutex. *)
Definition bare (ps : et_station) : et_station := unlinked (set_st_mutex false ps).

(** Two memories whose stations differ in links and mutexes only. *)
Definition same_stations (m m' : et_mem) : Prop :=
  sys_config (m_sys m') = sys_config (m_sys m) /\ sys_stat_head (m_sys m') = sys_stat_head (m_sys m) /\
  forall s, bare <$> m_stats m' !! s = bare <$> m_stats m !! s.

Lemma same_stations_trans m1 m2 m3 : same_stations m1 m2 -> same_stations m2 m3 -> same_stations m1 m3.
Proof. intros (A & B & C) (A' & B' & C'). split_and!; [congruence|congruence|]. intros s. by rewrite C', C. Qed.

Lemma same_stations_unlinked m m' : unlinked_mem m' = unlinked_mem m -> same_stations m m'.
Proof.
  intros U. pose proof (unlinked_sys m m' U) as Y. split_and!.
  - change (sys_config (set_sys_stat_tail 0 (m_sys m')) = sys_config (set_sys_stat_tail 0 (m_sys m))). by rewrite Y.
  - change (sys_stat_head (set_sys_stat_tail 0 (m_sys m')) = sys_stat_head (set_sys_stat_tail 0 (m_sys m))). by rewrite Y.
  - intros s. pose proof (unlinked_stat m m' s U) as X.
    destruct (m_stats m' !! s) as [ps'|], (m_stats m !! s) as [ps|]; try done. apply (inj Some) in X. cbn. f_equal.
    change (set_st_mutex false (unlinked ps') = set_st_mutex false (unlinked ps)). by rewrite X.
Qed.

Lemma same_stations_transfer b m : same_stations m (all_transfer b m).
Proof.
  split_and!; [done|done|]. intros s. cbn. rewrite lookup_fmap. destruct (m_stats m !! s); done.
Qed.

Lemma same_stations_sys f m : sys_config (f (m_sys m)) = sys_config (m_sys m) -> sys_stat_head (f (m_sys m)) = sys_stat_head (m_sys m) ->
  same_stations m (upd_sys f m).
Proof. intros. by split_and!. Qed.

Lemma same_stations_lookup m m' s ps' : same_stations m m' -> m_stats m' !! s = Some ps' ->
  exists ps, m_stats m !! s = Some ps /\ st_data ps' = st_data ps /\ st_num ps' = st_num ps /\ st_config ps' = st_config ps.
Proof.
  intros (_ & _ & E) E'. specialize (E s). rewrite E' in E. destruct (m_stats m !! s) as [ps|]; [|done]. exists ps.
  apply (inj Some) in E. split; [done|].
  split_and!; [exact (f_equal st_data E)|exact (f_equal st_num E)|exact (f_equal st_config E)].
Qed.

Lemma same_stations_dom m m' : same_stations m m' -> stations_dom m -> stations_dom m'.
Proof.
  intros (E & _ & X) D s. rewrite E, <- (D s). specialize (X s).
  destruct (m_stats m' !! s), (m_stats m !! s); try done; split; intros []; eauto.
Qed.

Lemma same_stations_base m m' : same_stations m m' -> stations_base m -> stations_base m'.
Proof.
  intros S [H1 H2 H3 H4 H5]. pose proof S as (C & Hd & _). split.
  - by apply (same_stations_dom m).
  - by rewrite C.
  - by rewrite Hd.
  - intros s ps' E. destruct (same_stations_lookup m m' s ps' S E) as (ps & E0 & -> & -> & _). by apply H4.
  - intros s ps' E. destruct (same_stations_lookup m m' s ps' S E) as (ps & E0 & _ & _ & ->). by apply (H5 s).
Qed.

Lemma same_stations_used m m' gs : same_stations m m' -> used_chain m gs -> used_chain m' gs.
Proof. intros S H s ps' E. destruct (same_stations_lookup m m' s ps' S E) as (ps & E0 & -> & _). by apply H. Qed.

Lemma same_stations_counted m m' i : same_stations m m' -> counted m' i = counted m i.
Proof.
  intros S. unfold counted. destruct (m_stats m' !! i) as [ps'|] eqn:E.
  - destruct (same_stations_lookup m m' i ps' S E) as (ps & -> & -> & _). done.
  - destruct S as (_ & _ & X). specialize (X i). rewrite E in X. by destruct (m_stats m !! i).
Qed.

Lemma fixed_bare gs s ps : bare (fixed_station gs s ps) = bare (fixed_station gs s (bare ps)).
Proof.
  unfold fixed_station. change (st_data (bare ps)) with (st_data ps). destruct (_ =? ET_STATION_CREATING); [done|].
  by destruct (_ || _).
Qed.

Lemma fixed_mutex gs s ps : st_mutex (fixed_station gs s ps) = st_mutex ps.
Proof. unfold fixed_station. destruct (_ =? ET_STATION_CREATING); [done|]. by destruct (_ || _). Qed.

(** What the first part of the clean-up makes of the memory [m]. *)
Record cleaned (gs : list (Z * list Z)) (m m' : et_mem) : Prop := mkCleaned {
  cl_chain : station_chain m' gs;
  cl_stations : forall s ps, m_stats m !! s = Some ps ->
    exists ps', m_stats m' !! s = Some ps' /\ st_mutex ps' = true /\ bare ps' = bare (fixed_station gs s ps);
  cl_used : forall s ps, m_stats m' !! s = Some ps ->
    if bool_decide (s ∈ members gs) then sd_status (st_data ps) = ET_STATION_IDLE \/ sd_status (st_data ps) = ET_STATION_ACTIVE
    else sd_status (st_data ps) = ET_STATION_UNUSED;
  cl_count : sys_nstations (m_sys m') = count (counted m) (cf_nstations (sys_config (m_sys m)));
  cl_mutex : sys_stat_mutex (m_sys m') = true /\ sys_mutex (m_sys m') = false;
  cl_events : m_events m' = m_events m
}.

Lemma mutexes_free_links m : same_links (mutexes_free m) m.
Proof. unfold mutexes_free. by rewrite all_transfer_links, same_links_upd_sys. Qed.

Lemma mutexes_free_stations m : same_stations m (mutexes_free m).
Proof. eapply same_stations_trans; [|apply same_stations_transfer]. by apply same_stations_sys. Qed.

Lemma wp_fix_stations gs m : stations_left m gs -> 1 <= cf_nstations (sys_config (m_sys m)) ->
  wp et_fix_stations (fun _ m' => m_stats m' = m_stats (fixed_upto gs (cf_nstations (sys_config (m_sys m))) m) /\
    m_sys m' = set_sys_nstations (sys_nstations (m_sys m')) (m_sys m) /\ m_events m' = m_events m /\
    sys_nstations (m_sys m') = 1 + Z.of_nat (length (List.filter (counted m) (seqZ 1 (cf_nstations (sys_config (m_sys m)) - 1)))))
    (fun _ => True) m.
Proof.
  intros H N. unfold et_fix_stations. apply wp_bind, wps_ld_sys. apply wp_bind.
  pose proof (wp_fix_stations_loop m gs H (Z.to_nat (cf_nstations (sys_config (m_sys m)) - 1)) 1 1) as W.
  rewrite fixed_1 in W by done. eapply wp_mono; [apply W; lia| |done].
  replace (1 + Z.of_nat (Z.to_nat (cf_nstations (sys_config (m_sys m)) - 1))) with (cf_nstations (sys_config (m_sys m))) by lia.
  rewrite Z2Nat.id by lia. intros r m' [-> ->]. apply wp_bind, wps_ld_sys. apply wp_when.
  set (k := 1 + _). destruct (Z.eqb_spec k (sys_nstations (m_sys (fixed_upto gs (cf_nstations (sys_config (m_sys m))) m)))) as [E|E]; cbn [negb].
  - split_and!; [done| |done|by rewrite <- E]. cbn. by destruct (m_sys m).
  - apply wps_str_sys; [done|]. by split_and!.
Qed.

Lemma count_first p n : 1 <= n -> p 0 = true -> count p n = 1 + Z.of_nat (length (List.filter p (seqZ 1 (n - 1)))).
Proof.
  intros Hn H0. unfold count, upto.
  assert (E : map Z.of_nat (seq 0 (Z.to_nat n)) = 0 :: seqZ 1 (n - 1)).
  { replace (Z.to_nat n) with (S (Z.to_nat (n - 1))) by lia. cbn [seq map]. f_equal. unfold seqZ.
    rewrite <- fmap_S_seq, <- !list_fmap_compose. apply list_fmap_ext. intros i x _. unfold compose. lia. }
  rewrite E. cbn [List.filter]. rewrite H0. cbn [length]. lia.
Qed.

Section clean.
Context (m : et_mem) (gs : list (Z * list Z)).
Context (F : forward_chain m gs) (B : stations_base m) (U : used_chain m gs).

Lemma counted_gc : counted m 0 = true.
Proof.
  assert (Hin : 0 ∈ members gs) by (destruct (fw_gc _ _ F) as [gs' ->]; by left).
  destruct (fw_stat _ _ F 0 Hin) as (_ & ps & E & _). unfold counted. rewrite E.
  by destruct (U 0 ps E Hin) as [-> | ->].
Qed.

Lemma wp_fix_chain_and_stations : wp fix_chain_and_stations (fun _ m' => cleaned gs m m') (fun _ => True) m.
Proof.
  unfold fix_chain_and_stations. pose proof B as [D N Hd Nu Se].
  apply wp_bind, wp_fix_mutexes; [done|lia|]. set (m1 := mutexes_free m).
  assert (S1 : same_stations m m1) by apply mutexes_free_stations.
  apply wp_bind. unfold et_station_lock. apply wp_bind, wps_ld_sys. change (sys_stat_mutex (m_sys m1)) with false. cbv iota.
  apply wps_str_sys; [done|]. set (m2 := upd_sys _ m1).
  assert (S2 : same_stations m m2) by (eapply same_stations_trans; [exact S1|by apply same_stations_sys]).
  pose proof (same_stations_base _ _ S2 B) as B2.
  apply wp_bind, wp_transfer_lock_all; [apply B2| |pose proof (sb_pos _ B2); lia|].
  { intros s ps E. change (m_stats m2) with (set_st_mutex false <$> m_stats m) in E. rewrite lookup_fmap in E.
    destruct (m_stats m !! s); [|done]. by injection E as <-. }
  set (m3 := all_transfer true m2).
  assert (S3 : same_stations m m3) by (eapply same_stations_trans; [exact S2|apply same_stations_transfer]).
  assert (L3 : same_links m3 m) by (unfold m3, m2, m1; by rewrite all_transfer_links, same_links_upd_sys, mutexes_free_links).
  apply wp_bind. eapply wp_mono; [apply (wp_fix_linkedlist gs m3)| |done].
  { by rewrite L3. }
  { by apply (same_stations_base _ _ S3). }
  intros [] m4 [C4 U4]. pose proof (same_stations_trans _ _ _ S3 (same_stations_unlinked _ _ U4)) as S4.
  pose proof (same_stations_base _ _ S4 B) as [D4 N4 _ Nu4 Se4]. pose proof (same_stations_used _ _ gs S4 U) as U4'.
  assert (H4 : stations_left m4 gs) by (split; [done|done|exact U4'|exact Nu4|exact Se4]).
  assert (E4 : sys_config (m_sys m4) = sys_config (m_sys m)) by apply S4.
  eapply wp_mono; [apply (wp_fix_stations gs m4 H4 N4)| |done].
  intros [] m5 (X1 & X2 & X3 & X4). rewrite E4 in *.
  assert (Mx : forall s ps, m_stats m4 !! s = Some ps -> st_mutex ps = true).
  { intros s ps E. destruct (unlinked_stat_data m3 m4 s ps U4 E) as (ps3 & E3 & Y).
    change (m_stats m3) with (set_st_mutex true <$> m_stats m2) in E3. rewrite lookup_fmap in E3.
    destruct (m_stats m2 !! s); [|done]. injection E3 as <-. exact (f_equal st_mutex Y). }
  assert (Look : forall s, m_stats m5 !! s = fixed_station gs s <$> m_stats m4 !! s).
  { intros s. rewrite X1, fixed_lookup. destruct (m_stats m4 !! s) as [ps|] eqn:E; [|done]. cbn. f_equal.
    assert (0 <= s < cf_nstations (sys_config (m_sys m))) as Hs by (rewrite <- E4; apply D4; eauto).
    destruct (Z.leb_spec 1 s), (Z.ltb_spec s (cf_nstations (sys_config (m_sys m)))); try lia; [done|].
    symmetry. apply (fixed_member m4 gs H4); [done|]. assert (s = 0) as -> by lia.
    destruct (ch_gc _ _ C4) as [gs' ->]. by left. }
  split.
  - apply (chain_outside m4); [done| |by rewrite X2]. intros s Hs. rewrite Look.
    destruct (m_stats m4 !! s) as [ps|] eqn:E; [|done]. cbn. by rewrite (fixed_member m4 gs H4 s ps).
  - intros s ps E. destruct S4 as (_ & _ & X). specialize (X s). rewrite E in X.
    destruct (m_stats m4 !! s) as [ps4|] eqn:E'; [|done]. apply (inj Some) in X.
    exists (fixed_station gs s ps4). split; [by rewrite Look, E'|]. split; [rewrite fixed_mutex; by apply (Mx s)|].
    by rewrite fixed_bare, X, <- fixed_bare.
  - intros s ps E. rewrite Look in E. destruct (m_stats m4 !! s) as [ps4|] eqn:E'; [|done]. injection E as <-.
    case_bool_decide as In.
    + rewrite (fixed_member m4 gs H4) by done. by apply (U4' s).
    + unfold fixed_station. rewrite (bool_decide_false _ In), orb_false_r.
      destruct (_ =? ET_STATION_CREATING); [done|]. destruct (Z.eqb_spec (sd_status (st_data ps4)) ET_STATION_UNUSED); [done|]. done.
  - rewrite X4. erewrite count_ext; [rewrite (count_first (counted m4)); [done|done|]|].
    + rewrite (same_stations_counted _ _ 0 S4). apply counted_gc.
    + intros i _. symmetry. by apply same_stations_counted.
  - rewrite X2. pose proof (unlinked_sys m3 m4 U4) as Y. cbn.
    split; [exact (f_equal sys_stat_mutex Y)|exact (f_equal sys_mutex Y)].
  - rewrite X3. exact (f_equal m_events U4).
Qed.
End clean.

Lemma cleaned_same gs m m1 m2 : same_stations m m1 -> m_events m1 = m_events m -> cleaned gs m1 m2 -> cleaned gs m m2.
Proof.
  intros S Ev [H1 H2 H3 H4 H5 H6]. split; try done.
  - intros s ps E. pose proof S as (_ & _ & X). specialize (X s). rewrite E in X.
    destruct (m_stats m1 !! s) as [ps1|] eqn:E1; [|done]. apply (inj Some) in X.
    destruct (H2 s ps1 E1) as (ps' & E' & Mx & Y). exists ps'. split_and!; [done|done|].
    by rewrite Y, fixed_bare, X, <- fixed_bare.
  - rewrite H4. pose proof S as (-> & _ & _). apply count_ext. intros i _. by apply same_stations_counted.
  - by rewrite H6.
Qed.

(** ** The operations on the chain *)

Inductive chain_op := OpInsert (s position pp : Z) | OpRemove (s : Z).

Definition run_op (op : chain_op) : M Z :=
  match op with
  | OpInsert s position pp => station_insert s position pp
  | OpRemove s => station_remove s ;;; ret ET_OK
  end.

Definition op_ok (m : et_mem) (gs : list (Z * list Z)) (op : chain_op) : Prop :=
  match op with
  | OpInsert s _ _ => (exists ps, fresh m gs s ps) /\ sys_nstations (m_sys m) = Z.of_nat (length (members gs)) + 1
  | OpRemove s => s ∈ members gs /\ s <> ET_GRANDCENTRAL
  end.

(** The groups after the operation, if it succeeds. *)
Definition op_after (m : et_mem) (gs : list (Z * list Z)) (op : chain_op) (gs' : list (Z * list Z)) : Prop :=
  match op with
  | OpInsert s position pp => chain_insert m s position pp gs = Some gs'
  | OpRemove s => gs' = chain_remove s gs
  end.

Lemma wp_op_crash m gs op : station_chain m gs -> op_ok m gs op ->
  wp (run_op op) (fun _ _ => True)
    (fun m1 => exists gs', (gs' = gs \/ op_after m gs op gs') /\ (forall s, s ∈ members gs' -> s ∈ members gs) /\ chain_left m gs' m1) m.
Proof.
  intros H Ok. destruct op as [s position pp|s]; cbn [run_op op_ok] in *.
  - destruct Ok as [[ps F] N]. eapply wp_mono; [by apply (wp_station_insert True m gs s ps)|done|].
    intros m1 X. exists gs. auto.
  - destruct Ok as [Hs Ns]. apply wp_bind. eapply wp_mono; [by apply (wp_station_remove m gs s)|intros; by apply wp_ret|].
    intros m1 [X|X]; [exists gs|exists (chain_remove s gs)]; cbn; split_and!; auto.
    intros t Ht. rewrite <- (chain_remove_perm m gs s) by done. by right.
Qed.

(** C8: when a process dies at any point while it puts a station into the chain or takes one out, the
    clean-up makes the chain whole again, as it was before or as it was to become.  The stations of
    the chain keep their state but for links, every other station is unused, all locks that the dead
    process held are in the hands of the clean-up, and no event changes. *)
Theorem chain_op_crash_cleanup m gs op k :
  station_chain m gs -> stations_base m -> used_chain m gs -> op_ok m gs op ->
  (exists st x m', run_crash k (run_op op) m = Ok st x m') \/
  exists m1 gs' x m2, run_crash k (run_op op) m = Crashed m1 /\ run fix_chain_and_stations m1 = Ok tt x m2 /\
    (gs' = gs \/ op_after m gs op gs') /\ cleaned gs' m m2.
Proof.
  intros H B U Ok. destruct (wp_crash _ _ _ _ k (wp_op_crash m gs op H Ok)) as [(st & x & m' & E & _)|(m1 & E & gs' & G & Sub & F & Un)].
  { left. eauto. }
  right. pose proof (same_stations_unlinked m m1 Un) as S.
  assert (U1 : used_chain m1 gs').
  { eapply same_stations_used; [exact S|]. intros s ps Es Hs. apply (U s ps Es). auto. }
  destruct (wp_run _ _ _ _ (wp_fix_chain_and_stations m1 gs' F (same_stations_base _ _ S B) U1)) as ([] & x & m2 & E2 & C).
  exists m1, gs', x, m2. split_and!; [done|done|done|]. eapply cleaned_same; [exact S|exact (f_equal m_events Un)|exact C].
Qed.

(** ** A concrete crash *)

(** Station 4 of [system1], which is to be put into the chain, is idle. *)
Definition system4 : et_mem :=
  upd_sys (set_sys_nstations 5) (upd_stat 4 (in_data (set_sd_status ET_STATION_IDLE)) system1).

Lemma system4_stations s ps : m_stats system4 !! s = Some ps -> s = 0 \/ s = 1 \/ s = 2 \/ s = 3 \/ s = 4.
Proof.
  intros E. assert (s ∈ map fst (map_to_list (m_stats system4))) as X.
  { apply list_elem_of_fmap. exists (s, ps). split; [done|]. by apply elem_of_map_to_list. }
  let l := eval vm_compute in (map fst (map_to_list (m_stats system4))) in change (s ∈ l) in X.
  each_elem; auto.
Qed.

Lemma system4_chain : station_chain system4 groups0.
Proof. unfold system4. rewrite same_links_upd_sys, same_links_upd_stat by done. apply system1_ok. Qed.

Lemma system4_base : stations_base system4.
Proof.
  split; [|done|done|..].
  - intros s. split.
    + intros [ps E]. destruct (system4_stations s ps E) as [->|[->|[->|[->| ->]]]]; done.
    + intros B. assert (s = 0 \/ s = 1 \/ s = 2 \/ s = 3 \/ s = 4) as X by (cbn in B; lia).
      destruct X as [->|[->|[->|[->| ->]]]]; by eexists.
  - intros s ps E _ _. destruct (system4_stations s ps E) as [->|[->|[->|[->| ->]]]]; injection E as <-; reflexivity.
  - intros s ps E. destruct (system4_stations s ps E) as [->|[->|[->|[->| ->]]]]; injection E as <-; reflexivity.
Qed.

Lemma system4_used : used_chain system4 groups0.
Proof.
  intros s ps E Hs. right. change (s ∈ [0; 1; 2; 3]) in Hs. each_elem; injection E as <-; reflexivity.
Qed.

Lemma system4_op : op_ok system4 groups0 (OpInsert 4 1 1).
Proof.
  split; [|done]. exists (in_data (set_sd_status ET_STATION_IDLE) (in_data (set_sd_status ET_STATION_UNUSED)
    (chain0_station 4 (-1) (-1) (-1) (-1) ET_STATION_PARALLEL))). split; try done. by_eval.
Qed.

(** The process dies before its fourth store of four. *)
Lemma chain_op_crash_cleanup_witness :
  exists m1 gs' x m2, run_crash 3 (run_op (OpInsert 4 1 1)) system4 = Crashed m1 /\ run fix_chain_and_stations m1 = Ok tt x m2 /\
    (gs' = groups0 \/ op_after system4 groups0 (OpInsert 4 1 1) gs') /\ cleaned gs' system4 m2.
Proof.
  destruct (chain_op_crash_cleanup system4 groups0 (OpInsert 4 1 1) 3 system4_chain system4_base system4_used system4_op)
    as [(st & x & m' & E)|X]; [|exact X].
  exfalso. assert (Y : match run_crash 3 (run_op (OpInsert 4 1 1)) system4 with Crashed _ => true | _ => false end = true)
    by (vm_compute; reflexivity). by rewrite E in Y.
Defined.

(** et_fix_stations counts a station that it removes: afterwards there are four stations in the chain
    and the system believes there are five. *)
Example fix_stations_counts_removed :
  exists m1 x m2, run_crash 3 (run_op (OpInsert 4 1 1)) system4 = Crashed m1 /\ run fix_chain_and_stations m1 = Ok tt x m2 /\
    stf (fun ps => sd_status (st_data ps)) m2 4 = ET_STATION_UNUSED /\ sys_nstations (m_sys m2) = 5.
Proof. do 3 eexists. split; [vm_compute; reflexivity|]. split; [vm_compute; reflexivity|]. split; vm_compute; reflexivity. Qed.

(** The conductor of a removed station is told to end and at once, by et_init_station, to go on. *)
Lemma fix_stations_keeps_conductor gs i ps :
  sd_status (st_data ps) <> ET_STATION_UNUSED -> i ∉ members gs -> st_conductor (fixed_station gs i ps) = ET_THREAD_KEEP.
Proof.
  intros S N. unfold fixed_station. rewrite (bool_decide_false _ N), orb_false_r.
  destruct (_ =? ET_STATION_CREATING); [done|]. by destruct (Z.eqb_spec (sd_status (st_data ps)) ET_STATION_UNUSED).
Qed.
