(* ===== verification/FixAtt.v ===== *)
(** * The correctness of the clean-up of attachments

    et_fix_attachments and et_fix_natts restore the invariant of the attachments after a process died
    while it made an attachment to an active station. *)
From stdpp Require Import base gmap strings list.
From S2P Require Import Prelude Types Machine EvList Repair Sample StatConfig Stats Chain Api StationApi Init Station StationSpec Attach Fix.
Open Scope Z_scope.

(** ** Counting again *)

(** The attachments from [j] to [j + n - 1] that the array [att] knows. *)
Definition hits (att : gmap Z Z) (j n : Z) : Z :=
  Z.of_nat (length (List.filter (fun k => default (-1) (att !! k) =? k) (seqZ j n))).

Lemma hits_0 att j : hits att j 0 = 0.
Proof. unfold hits. by rewrite seqZ_nil. Qed.

Lemma hits_S att j n : 0 <= n -> hits att j (n + 1) = Z.b2z (default (-1) (att !! j) =? j) + hits att (j + 1) n.
Proof.
  intros Hn. unfold hits. rewrite (seqZ_cons j) by lia. replace (Z.pred (n + 1)) with n by lia.
  replace (Z.succ j) with (j + 1) by lia. cbn [List.filter]. destruct (_ =? j); cbn [length Z.b2z]; lia.
Qed.

Lemma upto_seqZ n : upto n = seqZ 0 n.
Proof. unfold upto, seqZ. apply list_fmap_ext. intros i x _. lia. Qed.

Lemma hits_count att n : hits att 0 n = count (fun k => default (-1) (att !! k) =? k) n.
Proof. unfold hits, count. by rewrite upto_seqZ. Qed.

Definition add_natts (c : Z) : et_station -> et_station := in_data (fun d => set_sd_nattachments (sd_nattachments d + c) d).

Lemma wp_station_natts n t j ps m (Q : unit -> et_mem -> Prop) :
  m_stats m !! t = Some ps -> Q tt (upd_stat t (add_natts (hits (sd_att (st_data ps)) j (Z.of_nat n))) m) ->
  wp (station_natts n t j) Q (fun _ => True) m.
Proof.
  revert j ps m. induction n as [|n IH]; intros j ps m E HQ; cbn [station_natts].
  { apply wp_ret. rewrite hits_0 in HQ. erewrite upd_stat_id in HQ; [exact HQ|exact E|].
    unfold add_natts, in_data. destruct ps as [? ? ? ? ? ? ? ? ? ? []]. unfold set_st_data, set_sd_nattachments. cbn. by rewrite Z.add_0_r. }
  replace (Z.of_nat (S n)) with (Z.of_nat n + 1) in HQ by lia. rewrite hits_S in HQ by lia.
  apply wp_bind. eapply wps_ld_stat; [done|]. apply wp_bind, wp_when.
  destruct (_ =? j); cbn [Z.b2z] in HQ.
  - eapply wps_str_stat; [done|done|]. eapply IH; [by apply upd_stat_eq|].
    rewrite upd_stat_compose. erewrite upd_stat_ext; [exact HQ|exact E|].
    unfold add_natts, in_data, set_st_data, set_sd_nattachments. cbn. by rewrite Z.add_assoc.
  - eapply IH; [done|]. by rewrite Z.add_0_l in HQ.
Qed.

(** What et_fix_natts makes of a station, with [n] attachments in the system. *)
Definition counted_station (n : Z) (ps : et_station) : et_station :=
  if sd_status (st_data ps) =? ET_STATION_ACTIVE
  then in_data (set_sd_nattachments (hits (sd_att (st_data ps)) 0 n)) ps else ps.
Definition active_hits (n : Z) (ps : et_station) : Z :=
  if sd_status (st_data ps) =? ET_STATION_ACTIVE then hits (sd_att (st_data ps)) 0 n else 0.

Definition natts_upto (n i : Z) (m : et_mem) : et_mem :=
  set_m_stats (map_imap (fun j ps => Some (if j <? i then counted_station n ps else ps)) (m_stats m)) m.

Lemma natts_upto_lookup n i m j :
  m_stats (natts_upto n i m) !! j = (fun ps => if j <? i then counted_station n ps else ps) <$> m_stats m !! j.
Proof. unfold natts_upto. cbn. rewrite map_lookup_imap. by destruct (m_stats m !! j). Qed.

Lemma natts_upto_next n i m : upd_stat i (counted_station n) (natts_upto n i m) = natts_upto n (i + 1) m.
Proof.
  unfold upd_stat, natts_upto, set_m_stats. cbn. f_equal. apply map_eq. intros j.
  destruct (decide (i = j)) as [<-|N].
  - rewrite lookup_alter_eq, !map_lookup_imap. destruct (m_stats m !! i); cbn; [|done].
    by rewrite Z.ltb_irrefl, (proj2 (Z.ltb_lt i (i + 1))) by lia.
  - rewrite lookup_alter_ne by done. rewrite !map_lookup_imap. destruct (m_stats m !! j); cbn; [|done].
    assert ((j <? i + 1) = (j <? i)) as -> by (apply eq_true_iff_eq; rewrite !Z.ltb_lt; lia). done.
Qed.

Lemma natts_upto_0 n m : stations_dom m -> natts_upto n 0 m = m.
Proof.
  intros D. unfold natts_upto. destruct m as [y st hi ev rw]. unfold set_m_stats. cbn. f_equal. apply map_eq. intros j.
  rewrite map_lookup_imap. destruct (st !! j) as [ps|] eqn:E; cbn; [|done].
  assert (0 <= j) by (apply (D j); cbn; eauto). by destruct (Z.ltb_spec j 0); [lia|].
Qed.

(** The sum over the stations from [i] to [i + k - 1]. *)
Definition stations_hits (n : Z) (m : et_mem) (i k : Z) : Z :=
  sumZ (map (fun j => match m_stats m !! j with Some ps => active_hits n ps | None => 0 end) (seqZ i k)).

Lemma wp_natts_stations k n m i natts (Q : Z -> et_mem -> Prop) :
  0 <= n -> stations_dom m -> 0 <= i -> i + Z.of_nat k = cf_nstations (sys_config (m_sys m)) ->
  Q (natts + stations_hits n m i (Z.of_nat k)) (natts_upto n (cf_nstations (sys_config (m_sys m))) m) ->
  wp (natts_stations k i natts n) Q (fun _ => True) (natts_upto n i m).
Proof.
  intros Hn D. revert i natts. induction k as [|k IH]; intros i natts Hi En HQ; cbn [natts_stations].
  { apply wp_ret. unfold stations_hits in HQ. rewrite seqZ_nil in HQ by lia. cbn in HQ.
    replace (natts + 0) with natts in HQ by lia. by replace (cf_nstations (sys_config (m_sys m))) with i in HQ by lia. }
  destruct (proj2 (D i)) as [ps E]; [lia|].
  assert (E' : m_stats (natts_upto n i m) !! i = Some ps) by (rewrite natts_upto_lookup, E; cbn; by rewrite Z.ltb_irrefl).
  assert (X : stations_hits n m i (Z.of_nat (S k)) = active_hits n ps + stations_hits n m (i + 1) (Z.of_nat k)).
  { unfold stations_hits. rewrite (seqZ_cons i) by lia. replace (Z.pred (Z.of_nat (S k))) with (Z.of_nat k) by lia.
    replace (Z.succ i) with (i + 1) by lia. cbn [map sumZ foldr]. by rewrite E. }
  rewrite X in HQ. pose proof (natts_upto_next n i m) as Y.
  apply wp_bind. eapply wps_ld_stat; [done|].
  destruct (Z.eqb_spec (sd_status (st_data ps)) ET_STATION_ACTIVE) as [Ac|Ac]; cbn [negb].
  - apply wp_bind. eapply wps_str_stat; [done|done|]. apply wp_bind. eapply wp_station_natts; [by apply upd_stat_eq|].
    apply wp_bind. eapply wps_ld_stat; [by apply upd_stat_eq, upd_stat_eq|].
    rewrite upd_stat_compose. rewrite (upd_stat_ext i _ (counted_station n) _ ps E').
    + rewrite Y. cbn. rewrite Z2Nat.id by lia. apply IH; [lia|lia|].
      unfold active_hits in HQ. rewrite Ac in HQ. cbn in HQ. by rewrite <- Z.add_assoc.
    + unfold counted_station, add_natts, in_data, set_st_data, set_sd_nattachments. rewrite Ac. cbn.
      by rewrite Z2Nat.id by lia.
  - rewrite (upd_stat_id i _ _ ps E') in Y.
    + rewrite Y. apply IH; [lia|lia|]. unfold active_hits in HQ.
      by destruct (Z.eqb_spec (sd_status (st_data ps)) ET_STATION_ACTIVE).
    + unfold counted_station. by destruct (Z.eqb_spec (sd_status (st_data ps)) ET_STATION_ACTIVE).
Qed.

(** ** Processes *)

Definition upd_proc (p : Z) (f : et_proc -> et_proc) : et_mem -> et_mem :=
  upd_sys (fun y => set_sys_proc (alter f p (sys_proc y)) y).
Definition with_procs (procs : gmap Z et_proc) : et_mem -> et_mem := upd_sys (set_sys_proc procs).

Lemma upd_proc_with p f procs m : upd_proc p f (with_procs procs m) = with_procs (alter f p procs) m.
Proof. done. Qed.

Lemma wp_proc_natts n p j procs pr m (Q : unit -> et_mem -> Prop) :
  procs !! p = Some pr ->
  Q tt (with_procs (<[p := set_pr_nattachments (pr_nattachments pr + hits (pr_att pr) j (Z.of_nat n)) pr]> procs) m) ->
  wp (proc_natts n p j) Q (fun _ => True) (with_procs procs m).
Proof.
  revert j procs pr. induction n as [|n IH]; intros j procs pr E HQ; cbn [proc_natts].
  { apply wp_ret. rewrite hits_0, Z.add_0_r in HQ. rewrite insert_id in HQ; [done|]. by destruct pr. }
  replace (Z.of_nat (S n)) with (Z.of_nat n + 1) in HQ by lia. rewrite hits_S in HQ by lia.
  apply wp_bind. unfold ld_proc. apply wp_bind, wps_ld_sys. eapply wp_of_option; [exact E|].
  apply wp_bind, wp_when. destruct (_ =? j); cbn [Z.b2z] in HQ.
  - eapply wps_str_proc; [exact E|]. fold (upd_proc p (fun q => set_pr_nattachments (pr_nattachments q + 1) q) (with_procs procs m)).
    rewrite upd_proc_with. eapply IH; [by rewrite lookup_alter_eq, E|].
    rewrite Z.add_assoc in HQ. replace (<[p:=_]> (alter _ p procs)) with (<[p := set_pr_nattachments (pr_nattachments pr + 1 + hits (pr_att pr) (j + 1) (Z.of_nat n)) pr]> procs); [exact HQ|].
    apply map_eq. intros q. destruct (decide (p = q)) as [<-|Nq]; [by rewrite !lookup_insert_eq|].
    by rewrite !lookup_insert_ne, lookup_alter_ne by done.
  - eapply IH; [done|]. by rewrite Z.add_0_l in HQ.
Qed.

(** What et_fix_natts makes of a process. *)
Definition counted_proc (n : Z) (pr : et_proc) : et_proc :=
  if pr_status pr =? ET_PROC_OPEN then set_pr_nattachments (hits (pr_att pr) 0 n) pr else pr.

Definition procs_upto (n i : Z) (procs : gmap Z et_proc) : gmap Z et_proc :=
  map_imap (fun j pr => Some (if (0 <=? j) && (j <? i) then counted_proc n pr else pr)) procs.

Lemma procs_upto_lookup n i procs j :
  procs_upto n i procs !! j = (fun pr => if (0 <=? j) && (j <? i) then counted_proc n pr else pr) <$> procs !! j.
Proof. unfold procs_upto. rewrite map_lookup_imap. by destruct (procs !! j). Qed.

Lemma procs_upto_next n i procs pr : 0 <= i -> procs !! i = Some pr ->
  <[i := counted_proc n pr]> (procs_upto n i procs) = procs_upto n (i + 1) procs.
Proof.
  intros Hi E. apply map_eq. intros j. destruct (decide (i = j)) as [<-|N].
  - rewrite lookup_insert_eq, procs_upto_lookup, E. cbn.
    by rewrite (proj2 (Z.leb_le 0 i)), (proj2 (Z.ltb_lt i (i + 1))) by lia.
  - rewrite lookup_insert_ne, !procs_upto_lookup by done. destruct (procs !! j); cbn; [|done].
    assert ((j <? i + 1) = (j <? i)) as -> by (apply eq_true_iff_eq; rewrite !Z.ltb_lt; lia). done.
Qed.

Lemma wp_natts_procs k n procs m i (Q : unit -> et_mem -> Prop) :
  0 <= n -> 0 <= i -> (forall p, i <= p < i + Z.of_nat k -> is_Some (procs !! p)) ->
  Q tt (with_procs (procs_upto n (i + Z.of_nat k) procs) m) ->
  wp (natts_procs k i n) Q (fun _ => True) (with_procs (procs_upto n i procs) m).
Proof.
  intros Hn. revert i. induction k as [|k IH]; intros i Hi D HQ; cbn [natts_procs].
  { apply wp_ret. by rewrite Z.add_0_r in HQ. }
  destruct (D i) as [pr E]; [lia|].
  assert (E' : procs_upto n i procs !! i = Some pr) by (rewrite procs_upto_lookup, E; cbn; by rewrite Z.ltb_irrefl, andb_false_r).
  pose proof (procs_upto_next n i procs pr Hi E) as Y.
  assert (Next : wp (natts_procs k (i + 1) n) Q (fun _ => True) (with_procs (procs_upto n (i + 1) procs) m)).
  { apply IH; [lia| |by replace (i + 1 + Z.of_nat k) with (i + Z.of_nat (S k)) by lia]. intros p Hp. apply D. lia. }
  apply wp_bind. unfold ld_proc. apply wp_bind, wps_ld_sys. eapply wp_of_option; [exact E'|].
  unfold counted_proc in Y. apply wp_bind, wp_when. destruct (Z.eqb_spec (pr_status pr) ET_PROC_OPEN) as [O|O].
  - apply wp_bind. eapply wps_str_proc; [exact E'|].
    fold (upd_proc i (set_pr_nattachments 0) (with_procs (procs_upto n i procs) m)). rewrite upd_proc_with.
    eapply wp_proc_natts; [by rewrite lookup_alter_eq, E'|]. cbn [pr_nattachments pr_att set_pr_nattachments].
    rewrite Z2Nat.id, Z.add_0_l by lia.
    replace (<[i:=_]> (alter _ i _)) with (procs_upto n (i + 1) procs); [done|]. rewrite <- Y.
    apply map_eq. intros q. destruct (decide (i = q)) as [<-|Nq]; [by rewrite !lookup_insert_eq|].
    by rewrite !lookup_insert_ne, lookup_alter_ne by done.
  - rewrite insert_id in Y by done. by rewrite Y.
Qed.

Lemma procs_upto_0 n procs : procs_upto n 0 procs = procs.
Proof.
  apply map_eq. intros j. rewrite procs_upto_lookup. destruct (procs !! j); cbn; [|done].
  by destruct (Z.leb_spec 0 j), (Z.ltb_spec j 0); try lia.
Qed.

(** ** The effect of et_fix_natts *)

Section natts.
Context (m : et_mem) (D : stations_dom m).
Abbreviation cf := (sys_config (m_sys m)).
Context (Hn : 0 <= cf_nattachments cf) (Hs : 0 <= cf_nstations cf) (Hp : 0 <= cf_nprocesses cf).
Context (Dp : forall p, 0 <= p < cf_nprocesses cf -> is_Some (sys_proc (m_sys m) !! p)).

(** The memory with the counts that the arrays say. *)
Definition recounted : et_mem :=
  with_procs (procs_upto (cf_nattachments cf) (cf_nprocesses cf) (sys_proc (m_sys m)))
    (upd_sys (set_sys_nattachments (stations_hits (cf_nattachments cf) m 0 (cf_nstations cf)))
       (natts_upto (cf_nattachments cf) (cf_nstations cf) m)).

Lemma wp_fix_natts : wp et_fix_natts (fun _ m' => m' = recounted) (fun _ => True) m.
Proof.
  unfold et_fix_natts. apply wp_bind, wps_ld_sys. apply wp_bind.
  pose proof (wp_natts_stations (Z.to_nat (cf_nstations cf)) (cf_nattachments cf) m 0 0) as W.
  rewrite natts_upto_0 in W by done. apply W; [done|done|lia|lia|]. clear W.
  rewrite Z2Nat.id, Z.add_0_l by done. apply wp_bind, wps_str_sys; [done|].
  set (m1 := upd_sys _ _). assert (E : m1 = with_procs (procs_upto (cf_nattachments cf) 0 (sys_proc (m_sys m))) m1).
  { by rewrite procs_upto_0. }
  rewrite E. apply wp_natts_procs; [done|lia| |].
  - intros p H. apply Dp. lia.
  - by rewrite Z2Nat.id, Z.add_0_l by done.
Qed.
End natts.

(** ** The arrays of the attachments *)

(** The arrays of stations and processes agree with the attachments, but for the attachment [X], which
    no station knows. *)
Record arrays_ok (X : option Z) (m : et_mem) : Prop := mkArraysOk {
  ar_pos : 0 <= cf_nattachments (sys_config (m_sys m)) /\ 0 <= cf_nstations (sys_config (m_sys m)) /\
    0 <= cf_nprocesses (sys_config (m_sys m));
  ar_dom : forall i, 0 <= i < cf_nattachments (sys_config (m_sys m)) -> is_Some (sys_attach (m_sys m) !! i);
  ar_stations : stations_dom m;
  ar_procs : forall p, 0 <= p < cf_nprocesses (sys_config (m_sys m)) -> is_Some (sys_proc (m_sys m) !! p);
  ar_known : forall i a, 0 <= i < cf_nattachments (sys_config (m_sys m)) -> X <> Some i ->
    sys_attach (m_sys m) !! i = Some a -> at_num a <> -1 -> 0 <= at_stat a < cf_nstations (sys_config (m_sys m));
  ar_att : forall t ps i, m_stats m !! t = Some ps -> 0 <= i < cf_nattachments (sys_config (m_sys m)) ->
    default (-1) (sd_att (st_data ps) !! i) =
    if bool_decide (X = Some i) then -1 else if belongs (at_station t) m i then i else -1;
  ar_idle : forall t ps, m_stats m !! t = Some ps -> sd_status (st_data ps) <> ET_STATION_ACTIVE ->
    sd_nattachments (st_data ps) = 0 /\
    forall i, 0 <= i < cf_nattachments (sys_config (m_sys m)) -> default (-1) (sd_att (st_data ps) !! i) = -1;
  ar_proc : forall p pr i, sys_proc (m_sys m) !! p = Some pr -> p <> ET_SYS ->
    0 <= i < cf_nattachments (sys_config (m_sys m)) -> X <> Some i ->
    default (-1) (pr_att pr !! i) = if belongs (at_process p) m i then i else -1;
  ar_closed : forall p pr, sys_proc (m_sys m) !! p = Some pr -> p <> ET_SYS ->
    (pr_status pr = ET_PROC_OPEN /\ 0 <= p < cf_nprocesses (sys_config (m_sys m))) \/
    (pr_nattachments pr = 0 /\ forall i, 0 <= i < cf_nattachments (sys_config (m_sys m)) -> default (-1) (pr_att pr !! i) = -1)
}.

Lemma sum_indicator c j k : 0 <= k ->
  sumZ (map (fun t => Z.b2z (c =? t)) (seqZ j k)) = Z.b2z ((j <=? c) && (c <? j + k)).
Proof.
  intros Hk. revert j. pattern k. apply natlike_ind; [|clear k Hk; intros k Hk IH j|done].
  - intros j. rewrite seqZ_nil by lia. cbn. by destruct (Z.leb_spec j c), (Z.ltb_spec c (j + 0)); try lia.
  - rewrite seqZ_cons by lia. replace (Z.pred (Z.succ k)) with k by lia. cbn [map sumZ foldr]. fold (sumZ (map (fun t => Z.b2z (c =? t)) (seqZ (Z.succ j) k))).
    rewrite IH. destruct (Z.eqb_spec c j) as [->|N].
    + destruct (Z.leb_spec (Z.succ j) j), (Z.leb_spec j j), (Z.ltb_spec j (j + Z.succ k)); cbn; lia.
    + destruct (Z.leb_spec (Z.succ j) c), (Z.leb_spec j c), (Z.ltb_spec c (Z.succ j + k)), (Z.ltb_spec c (j + Z.succ k)); cbn; lia.
Qed.

Lemma sumZ_map_add {A} (f g : A -> Z) l : sumZ (map (fun t => f t + g t) l) = sumZ (map f l) + sumZ (map g l).
Proof. induction l as [|a l IH]; [done|]. cbn [map sumZ foldr] in *. fold (sumZ (map (fun t => f t + g t) l)) (sumZ (map f l)) (sumZ (map g l)). lia. Qed.

Lemma sumZ_map_ext {A} (f g : A -> Z) l : (forall t, t ∈ l -> f t = g t) -> sumZ (map f l) = sumZ (map g l).
Proof. intros H. f_equal. apply map_ext_in. intros a Ha%list_elem_of_In. auto. Qed.

(** Each attachment that is in use belongs to exactly one station. *)
Lemma sum_belongs m ns l :
  0 <= ns -> (forall i a, i ∈ l -> sys_attach (m_sys m) !! i = Some a -> at_num a <> -1 -> 0 <= at_stat a < ns) ->
  sumZ (map (fun t => Z.of_nat (length (List.filter (belongs (at_station t) m) l))) (seqZ 0 ns)) =
  Z.of_nat (length (List.filter (in_use m) l)).
Proof.
  intros Hns. induction l as [|i l IH]; intros K.
  { cbn [List.filter length]. induction (seqZ 0 ns) as [|t ts IH]; [done|]. exact IH. }
  rewrite (sumZ_map_ext _ (fun t => Z.b2z (belongs (at_station t) m i) + Z.of_nat (length (List.filter (belongs (at_station t) m) l)))).
  2:{ intros t _. cbn [List.filter]. destruct (belongs _ m i); cbn [length Z.b2z]; lia. }
  rewrite sumZ_map_add, IH by (intros j a Hj; apply K; by right).
  rewrite (sumZ_map_ext _ (fun t => match sys_attach (m_sys m) !! i with
    Some a => if at_num a =? -1 then 0 else Z.b2z (at_stat a =? t) | None => 0 end)).
  2:{ intros t _. unfold belongs, at_station. destruct (sys_attach (m_sys m) !! i); [|done]. by destruct (at_num _ =? -1). }
  assert (Zero : forall ts : list Z, sumZ (map (fun _ => 0) ts) = 0).
  { induction ts as [|t ts IHt]; [done|]. exact IHt. }
  cbn [List.filter]. unfold in_use at 2. destruct (sys_attach (m_sys m) !! i) as [a|] eqn:E; [|rewrite Zero; done].
  destruct (Z.eqb_spec (at_num a) (-1)) as [Na|Na]; cbn [negb]; [rewrite Zero; done|].
  rewrite sum_indicator by done. destruct (K i a) as [K1 K2]; [by left|done|done|].
  rewrite (proj2 (Z.leb_le _ _) K1), (proj2 (Z.ltb_lt _ _) (K2 : at_stat a < 0 + ns)). cbn [andb Z.b2z length]. lia.
Qed.

Section recount.
Context (m : et_mem) (A : arrays_ok None m).
Abbreviation n := (cf_nattachments (sys_config (m_sys m))).

Lemma att_belongs t ps i : m_stats m !! t = Some ps -> 0 <= i < n ->
  default (-1) (sd_att (st_data ps) !! i) = if belongs (at_station t) m i then i else -1.
Proof. intros E Hi. rewrite (ar_att _ _ A t ps i E Hi). by rewrite bool_decide_false. Qed.

Lemma hits_belongs t ps : m_stats m !! t = Some ps -> hits (sd_att (st_data ps)) 0 n = count (belongs (at_station t) m) n.
Proof.
  intros E. rewrite hits_count. apply count_ext. intros i Hi. rewrite (att_belongs t ps i E Hi).
  destruct (belongs _ m i); [apply Z.eqb_refl|]. destruct (Z.eqb_spec (-1) i); [lia|done].
Qed.

Lemma count_false p k : (forall i, 0 <= i < k -> p i = false) -> count p k = 0.
Proof. intros H. rewrite (count_ext p (fun _ => false) k H). by apply count_none. Qed.

Lemma idle_belongs t ps : m_stats m !! t = Some ps -> sd_status (st_data ps) <> ET_STATION_ACTIVE ->
  count (belongs (at_station t) m) n = 0.
Proof.
  intros E S. apply count_false. intros i Hi. pose proof (att_belongs t ps i E Hi) as X.
  destruct (ar_idle _ _ A t ps E S) as [_ Y]. rewrite (Y i Hi) in X. destruct (belongs _ m i); [lia|done].
Qed.

Lemma active_hits_belongs t ps : m_stats m !! t = Some ps -> active_hits n ps = count (belongs (at_station t) m) n.
Proof.
  intros E. unfold active_hits. destruct (Z.eqb_spec (sd_status (st_data ps)) ET_STATION_ACTIVE) as [S|S].
  - by apply hits_belongs.
  - symmetry. by eapply idle_belongs.
Qed.

Lemma stations_hits_count : stations_hits n m 0 (cf_nstations (sys_config (m_sys m))) = count (in_use m) n.
Proof.
  unfold stations_hits. destruct (ar_pos _ _ A) as (P1 & P2 & _).
  rewrite (sumZ_map_ext _ (fun t => Z.of_nat (length (List.filter (belongs (at_station t) m) (upto n))))).
  2:{ intros t Ht%elem_of_seqZ. destruct (proj2 (ar_stations _ _ A t)) as [ps E]; [lia|]. rewrite E. by apply active_hits_belongs. }
  rewrite (sum_belongs m _ (upto n)); [done|done|]. intros i a Hi%elem_of_upto. by apply (ar_known _ _ A).
Qed.

Lemma recounted_ok : attach_ok (recounted m).
Proof.
  assert (Hst : forall t ps', m_stats (recounted m) !! t = Some ps' -> exists ps, m_stats m !! t = Some ps /\ ps' = counted_station n ps).
  { intros t ps' E. change (m_stats (recounted m)) with (m_stats (natts_upto n (cf_nstations (sys_config (m_sys m))) m)) in E.
    rewrite natts_upto_lookup in E. destruct (m_stats m !! t) as [ps|] eqn:E0; [|done]. injection E as <-. exists ps. split; [done|].
    assert (0 <= t < cf_nstations (sys_config (m_sys m))) as Ht by (apply (ar_stations _ _ A); eauto).
    by rewrite (proj2 (Z.ltb_lt _ _) (proj2 Ht)). }
  split.
  - apply (ar_dom _ _ A).
  - apply stations_hits_count.
  - intros t ps' E. destruct (Hst t ps' E) as (ps & E0 & ->). change (belongs (at_station t) (recounted m)) with (belongs (at_station t) m).
    unfold counted_station. destruct (Z.eqb_spec (sd_status (st_data ps)) ET_STATION_ACTIVE) as [S|S].
    + by apply hits_belongs.
    + rewrite (proj1 (ar_idle _ _ A t ps E0 S)). symmetry. by eapply idle_belongs.
  - intros t ps' i E Hi. destruct (Hst t ps' E) as (ps & E0 & ->). pose proof (att_belongs t ps i E0 Hi) as X.
    unfold counted_station. by destruct (_ =? _).
  - intros p pr' E Np. change (sys_proc (m_sys (recounted m))) with (procs_upto n (cf_nprocesses (sys_config (m_sys m))) (sys_proc (m_sys m))) in E.
    rewrite procs_upto_lookup in E. destruct (sys_proc (m_sys m) !! p) as [pr|] eqn:E0; [|done]. injection E as <-.
    change (belongs (at_process p) (recounted m)) with (belongs (at_process p) m).
    destruct (ar_closed _ _ A p pr E0 Np) as [[O Hp]|[C1 C2]].
    + rewrite (proj2 (Z.leb_le _ _) (proj1 Hp)), (proj2 (Z.ltb_lt _ _) (proj2 Hp)). unfold counted_proc. rewrite O. cbn.
      rewrite hits_count. apply count_ext. intros i Hi. rewrite (ar_proc _ _ A p pr i E0 Np Hi) by done.
      destruct (belongs _ m i); [apply Z.eqb_refl|]. destruct (Z.eqb_spec (-1) i); [lia|done].
    + assert (Zero : count (belongs (at_process p) m) n = 0).
      { apply count_false. intros i Hi. pose proof (ar_proc _ _ A p pr i E0 Np Hi) as X. rewrite (C2 i Hi) in X.
        destruct (belongs _ m i); [specialize (X ltac:(done)); lia|done]. }
      change (cf_nattachments (sys_config (m_sys (recounted m)))) with n. rewrite Zero. destruct (_ && _); [|done].
      unfold counted_proc. destruct (_ =? _); [|done]. cbn. rewrite hits_count. apply count_false. intros i Hi.
      rewrite (C2 i Hi). destruct (Z.eqb_spec (-1) i); [lia|done].
  - intros t ps' E. destruct (Hst t ps' E) as (ps & E0 & ->). unfold counted_station.
    destruct (Z.eqb_spec (sd_status (st_data ps)) ET_STATION_ACTIVE) as [S|S]; [done|].
    rewrite (proj1 (ar_idle _ _ A t ps E0 S)). lia.
Qed.
End recount.

(** ** The effect of et_fix_attachments *)

(** An active station that knows attachment [i]. *)
Definition knows (i : Z) (ps : et_station) : bool :=
  (default (-1) (sd_att (st_data ps) !! i) =? i) && (sd_status (st_data ps) =? ET_STATION_ACTIVE).

Lemma wp_find_attached (n : nat) j i m :
  0 <= j -> (forall t, j <= t < j + Z.of_nat n -> is_Some (m_stats m !! t)) ->
  wp (find_attached n j i)
    (fun r m' => m' = m /\ (r = -1 <-> forall t ps, j <= t < j + Z.of_nat n -> m_stats m !! t = Some ps -> knows i ps = false))
    (fun _ => True) m.
Proof.
  revert j. induction n as [|n IH]; intros j Hj D; cbn [find_attached].
  { apply wp_ret. split; [done|]. split; [intros _ t ps|done]. lia. }
  destruct (D j) as [ps E]; [lia|]. apply wp_bind. eapply wps_ld_stat; [done|]. fold (knows i ps). destruct (knows i ps) eqn:K.
  - apply wp_ret. split; [done|]. split; [lia|]. intros H. specialize (H j ps ltac:(lia) E). congruence.
  - eapply wp_mono; [apply IH; [lia|]; intros t Ht; apply D; lia| |done]. intros r m' [-> H]. split; [done|]. rewrite H. split.
    + intros F t pt Ht Et. destruct (decide (t = j)) as [->|N]; [congruence|]. apply (F t); [lia|done].
    + intros F t pt Ht. apply F. lia.
Qed.

Definition forgotten_proc (i : Z) (pr : et_proc) : et_proc := set_pr_att (<[i := -1]> (pr_att pr)) pr.
Definition forgotten (i n : Z) (procs : gmap Z et_proc) : gmap Z et_proc :=
  map_imap (fun p pr => Some (if (0 <=? p) && (p <? n) then forgotten_proc i pr else pr)) procs.

Lemma forgotten_lookup i n procs p :
  forgotten i n procs !! p = (fun pr => if (0 <=? p) && (p <? n) then forgotten_proc i pr else pr) <$> procs !! p.
Proof. unfold forgotten. rewrite map_lookup_imap. by destruct (procs !! p). Qed.

Lemma forgotten_next i j procs : 0 <= j -> alter (forgotten_proc i) j (forgotten i j procs) = forgotten i (j + 1) procs.
Proof.
  intros Hj. apply map_eq. intros p. destruct (decide (j = p)) as [<-|N].
  - rewrite lookup_alter_eq, !forgotten_lookup. destruct (procs !! j); cbn; [|done].
    by rewrite Z.ltb_irrefl, andb_false_r, (proj2 (Z.leb_le 0 j)), (proj2 (Z.ltb_lt j (j + 1))) by lia.
  - rewrite lookup_alter_ne, !forgotten_lookup by done. destruct (procs !! p); cbn; [|done].
    assert ((p <? j + 1) = (p <? j)) as -> by (apply eq_true_iff_eq; rewrite !Z.ltb_lt; lia). done.
Qed.

Lemma forgotten_0 i procs : forgotten i 0 procs = procs.
Proof.
  apply map_eq. intros p. rewrite forgotten_lookup. destruct (procs !! p); cbn; [|done].
  by destruct (Z.leb_spec 0 p), (Z.ltb_spec p 0); try lia.
Qed.

Lemma wp_forget_att (n : nat) j i procs m (Q : unit -> et_mem -> Prop) :
  0 <= j -> (forall p, j <= p < j + Z.of_nat n -> is_Some (procs !! p)) ->
  Q tt (with_procs (forgotten i (j + Z.of_nat n) procs) m) ->
  wp (forget_att n j i) Q (fun _ => True) (with_procs (forgotten i j procs) m).
Proof.
  revert j. induction n as [|n IH]; intros j Hj D HQ; cbn [forget_att].
  { apply wp_ret. by rewrite Z.add_0_r in HQ. }
  destruct (D j) as [pr E]; [lia|]. apply wp_bind. eapply wps_str_proc.
  { cbn. rewrite forgotten_lookup, E. done. }
  fold (forgotten_proc i). fold (upd_proc j (forgotten_proc i) (with_procs (forgotten i j procs) m)).
  rewrite upd_proc_with, forgotten_next by done. apply IH; [lia| |by replace (j + 1 + Z.of_nat n) with (j + Z.of_nat (S n)) by lia].
  intros p Hp. apply D. lia.
Qed.

(** Attachment [i] is wiped out. *)
Definition wiped (i : Z) (m : et_mem) : et_mem :=
  upd_sys (fun y => set_sys_nattachments (sys_nattachments y - 1) y)
    (upd_attach i (fun _ => init_attach)
       (with_procs (forgotten i (cf_nprocesses (sys_config (m_sys m))) (sys_proc (m_sys m))) m)).

Section fix_step.
Context (m : et_mem) (D : stations_dom m).
Abbreviation cf := (sys_config (m_sys m)).
Context (Dp : forall p, 0 <= p < cf_nprocesses cf -> is_Some (sys_proc (m_sys m) !! p)) (Hp : 0 <= cf_nprocesses cf).

Lemma wp_fix_known (n : nat) j (Q : unit -> et_mem -> Prop) :
  is_Some (sys_attach (m_sys m) !! j) ->
  (in_use m j = true -> exists t ps, m_stats m !! t = Some ps /\ knows j ps = true) ->
  wp (fix_attachments_loop n (j + 1)) Q (fun _ => True) m -> wp (fix_attachments_loop (S n) j) Q (fun _ => True) m.
Proof.
  intros [a E] K H. cbn [fix_attachments_loop]. apply wp_bind. unfold ld_attach. apply wp_bind, wps_ld_sys.
  eapply wp_of_option; [done|]. apply wp_bind, wps_ld_sys. apply wp_bind.
  unfold in_use in K. rewrite E in K. destruct (at_num a =? -1); cbn [negb] in *; [by apply wp_ret|].
  apply wp_bind. eapply wp_mono; [apply (wp_find_attached _ 0 j m); [lia|]|..|done].
  { intros t Ht. apply D. lia. }
  intros r m' [-> R]. apply wp_when. destruct (Z.eqb_spec r (-1)) as [Er|Er]; [|done]. exfalso.
  destruct (K eq_refl) as (t & ps & Et & Kt). assert (0 <= t < cf_nstations cf) as Ht by (apply D; eauto).
  rewrite (proj1 R Er t ps) in Kt; [done|lia|done].
Qed.

Lemma wp_fix_unknown (n : nat) i (Q : unit -> et_mem -> Prop) :
  is_Some (sys_attach (m_sys m) !! i) -> (forall t ps, m_stats m !! t = Some ps -> knows i ps = false) -> in_use m i = true ->
  wp (fix_attachments_loop n (i + 1)) Q (fun _ => True) (wiped i m) -> wp (fix_attachments_loop (S n) i) Q (fun _ => True) m.
Proof.
  intros [a E] K U H. cbn [fix_attachments_loop]. apply wp_bind. unfold ld_attach. apply wp_bind, wps_ld_sys.
  eapply wp_of_option; [done|]. apply wp_bind, wps_ld_sys. apply wp_bind.
  unfold in_use in U. rewrite E in U. rewrite U.
  apply wp_bind. eapply wp_mono; [apply (wp_find_attached _ 0 i m); [lia|]|..|done].
  { intros t Ht. apply D. lia. }
  intros r m' [-> R]. rewrite (proj2 R) by (intros t ps _; apply K). apply wp_when. rewrite Z.eqb_refl.
  pose proof (wp_forget_att (Z.to_nat (cf_nprocesses cf)) 0 i (sys_proc (m_sys m)) m) as W. rewrite forgotten_0 in W.
  assert (with_procs (sys_proc (m_sys m)) m = m) as Ep by by destruct m as [[]].
  rewrite Ep in W. apply wp_bind, W; [lia|intros p Hp'; apply Dp; lia|]. rewrite Z2Nat.id, Z.add_0_l by done.
  apply wp_bind. eapply wp_init_attachment; [exact E|]. by apply wps_str_sys.
Qed.
End fix_step.

(** What et_fix_attachments does when no station knows the attachment [X]. *)
Definition wiped_if (X : option Z) (m : et_mem) : et_mem :=
  match X with Some i => if in_use m i then wiped i m else m | None => m end.

Section fix_attachments.
Context (X : option Z) (m : et_mem) (A : arrays_ok X m).
Abbreviation cf := (sys_config (m_sys m)).
Context (HX : forall i, X = Some i -> 0 <= i < cf_nattachments cf).

Lemma known_attach j : 0 <= j < cf_nattachments cf -> X <> Some j -> in_use m j = true ->
  exists t ps, m_stats m !! t = Some ps /\ knows j ps = true.
Proof.
  intros Hj N U. unfold in_use in U. destruct (sys_attach (m_sys m) !! j) as [a|] eqn:E; [|done].
  apply negb_true_iff, Z.eqb_neq in U as U'. pose proof (ar_known _ _ A j a Hj N E U') as Ht.
  destruct (proj2 (ar_stations _ _ A (at_stat a)) Ht) as [ps Es]. exists (at_stat a), ps. split; [done|].
  pose proof (ar_att _ _ A (at_stat a) ps j Es Hj) as F. rewrite bool_decide_false in F by done.
  assert (belongs (at_station (at_stat a)) m j = true) as B by (unfold belongs, at_station; by rewrite E, U, Z.eqb_refl).
  rewrite B in F. unfold knows. rewrite F, Z.eqb_refl. cbn [andb].
  destruct (Z.eqb_spec (sd_status (st_data ps)) ET_STATION_ACTIVE) as [S|S]; [done|].
  destruct (ar_idle _ _ A _ ps Es S) as [_ I]. rewrite (I j Hj) in F. lia.
Qed.

Lemma unknown_attach i : X = Some i -> forall t ps, m_stats m !! t = Some ps -> knows i ps = false.
Proof.
  intros E t ps Et. pose proof (HX i E) as Hi. unfold knows. rewrite (ar_att _ _ A t ps i Et Hi), bool_decide_true by done.
  by destruct (Z.eqb_spec (-1) i); [lia|].
Qed.

Lemma wiped_in_use i j : j <> i -> in_use (wiped i m) j = in_use m j.
Proof. intros N. unfold in_use. cbn. by rewrite lookup_alter_ne. Qed.

Lemma wp_fix_attachments_loop (n : nat) j (Q : unit -> et_mem -> Prop) :
  0 <= j -> j + Z.of_nat n = cf_nattachments cf -> Q tt (wiped_if X m) ->
  wp (fix_attachments_loop n j) Q (fun _ => True)
    (if match X with Some i => i <? j | None => false end then wiped_if X m else m).
Proof.
  intros Hj Hn HQ. revert j Hj Hn. induction n as [|n IH]; intros j Hj Hn.
  { cbn [fix_attachments_loop]. apply wp_ret. destruct X as [i|]; [|done].
    specialize (HX i eq_refl). by rewrite (proj2 (Z.ltb_lt i j)) by lia. }
  assert (Hr : 0 <= j < cf_nattachments cf) by lia. specialize (IH (j + 1) ltac:(lia) ltac:(lia)).
  destruct (ar_pos _ _ A) as (_ & _ & Hp). destruct (decide (X = Some j)) as [E|N].
  - pose proof (unknown_attach j E) as K. clear HX. rewrite E in *. rewrite Z.ltb_irrefl. rewrite (proj2 (Z.ltb_lt j (j + 1))) in IH by lia. cbn [wiped_if] in *.
    destruct (in_use m j) eqn:U.
    + apply wp_fix_unknown; [apply (ar_stations _ _ A)|apply (ar_procs _ _ A)|done|by apply (ar_dom _ _ A)|done|done|done].
    + apply wp_fix_known; [apply (ar_stations _ _ A)|by apply (ar_dom _ _ A)|by rewrite U|done].
  - assert (Eb : match X with Some i => i <? j + 1 | None => false end = match X with Some i => i <? j | None => false end).
    { destruct X as [i|]; [|done]. assert (i <> j) by congruence. apply eq_true_iff_eq. rewrite !Z.ltb_lt. lia. }
    rewrite Eb in IH. clear Eb. pose proof (known_attach j Hr N) as K. pose proof (ar_dom _ _ A j Hr) as Da.
    destruct X as [i|]; [|by apply wp_fix_known; [apply (ar_stations _ _ A)|..]].
    assert (Ni : j <> i) by congruence. destruct (i <? j); [|by apply wp_fix_known; [apply (ar_stations _ _ A)|..]].
    cbn [wiped_if] in *. destruct (in_use m i); [|by apply wp_fix_known; [apply (ar_stations _ _ A)|..]].
    apply wp_fix_known; [apply (ar_stations _ _ A)|cbn; by rewrite lookup_alter_ne by congruence| |done].
    by rewrite wiped_in_use.
Qed.

Lemma wp_fix_attachments (Q : unit -> et_mem -> Prop) :
  Q tt (wiped_if X m) -> wp et_fix_attachments Q (fun _ => True) m.
Proof.
  intros HQ. unfold et_fix_attachments. apply wp_bind, wps_ld_sys. destruct (ar_pos _ _ A) as (P & _).
  pose proof (wp_fix_attachments_loop (Z.to_nat (cf_nattachments cf)) 0 Q) as W.
  assert (E : (if match X with Some i => i <? 0 | None => false end then wiped_if X m else m) = m); [|rewrite E in W; apply W; lia || done].
  destruct X as [i|]; [|done]. specialize (HX i eq_refl). by destruct (Z.ltb_spec i 0); [lia|].
Qed.
End fix_attachments.

Section wiped.
Context (i : Z) (m : et_mem) (A : arrays_ok (Some i) m) (Hi : 0 <= i < cf_nattachments (sys_config (m_sys m))).

Lemma belongs_upd_attach f g j m' : j <> i -> belongs f (upd_attach i g m') j = belongs f m' j.
Proof. intros N. unfold belongs. cbn. by rewrite lookup_alter_ne. Qed.

(** An attachment that nobody uses is not known to a process. *)
Lemma wiped_ok : in_use m i = true -> arrays_ok None (wiped i m).
Proof.
  intros U. pose proof (ar_dom _ _ A i Hi) as [a Ea].
  assert (Fi : forall f, belongs f (wiped i m) i = false).
  { intros f. unfold belongs. cbn. by rewrite lookup_alter_eq, Ea. }
  assert (Fj : forall f j, j <> i -> belongs f (wiped i m) j = belongs f m j).
  { intros f j N. exact (belongs_upd_attach f (fun _ => init_attach) j m N). }
  assert (Pj : forall p pr', sys_proc (m_sys (wiped i m)) !! p = Some pr' -> exists pr, sys_proc (m_sys m) !! p = Some pr /\
    pr' = if (0 <=? p) && (p <? cf_nprocesses (sys_config (m_sys m))) then forgotten_proc i pr else pr).
  { intros p pr'. cbn. rewrite forgotten_lookup. destruct (sys_proc (m_sys m) !! p) as [pr|]; [|done]. intros [= <-]. eauto. }
  split.
  - apply (ar_pos _ _ A).
  - intros j Hj. cbn. destruct (decide (i = j)) as [<-|N]; [rewrite lookup_alter_eq, Ea; by eexists|].
    rewrite lookup_alter_ne by done. by apply (ar_dom _ _ A).
  - apply (ar_stations _ _ A).
  - intros p Hp. cbn. rewrite forgotten_lookup. destruct (ar_procs _ _ A p Hp) as [pr ->]. by eexists.
  - intros j b Hj _ E Nb. cbn in E. destruct (decide (i = j)) as [<-|N].
    + rewrite lookup_alter_eq, Ea in E. by injection E as <-.
    + rewrite lookup_alter_ne in E by done. apply (ar_known _ _ A j b Hj); [congruence|done|done].
  - intros t ps j Et Hj. rewrite bool_decide_false by done. rewrite (ar_att _ _ A t ps j Et Hj).
    destruct (decide (i = j)) as [<-|N]; [by rewrite bool_decide_true, Fi|]. by rewrite bool_decide_false, Fj by congruence.
  - apply (ar_idle _ _ A).
  - intros p pr' j E Np Hj _. destruct (Pj p pr' E) as (pr & E0 & ->).
    destruct (decide (i = j)) as [<-|N].
    + rewrite Fi. destruct (ar_closed _ _ A p pr E0 Np) as [[O Hp]|[C1 C2]].
      * rewrite (proj2 (Z.leb_le _ _) (proj1 Hp)), (proj2 (Z.ltb_lt _ _) (proj2 Hp)). cbn. by rewrite lookup_insert_eq.
      * destruct (_ && _); [cbn; by rewrite lookup_insert_eq|]. by apply C2.
    + rewrite Fj by done. assert (X : default (-1) (pr_att pr !! j) = if belongs (at_process p) m j then j else -1).
      { apply (ar_proc _ _ A p pr j); [done|done|done|congruence]. }
      rewrite <- X. destruct (_ && _); [|done]. cbn. by rewrite lookup_insert_ne.
  - intros p pr' E Np. destruct (Pj p pr' E) as (pr & E0 & ->).
    destruct (ar_closed _ _ A p pr E0 Np) as [[O Hp]|[C1 C2]].
    + left. split; [|done]. by destruct (_ && _).
    + right. split; [by destruct (_ && _)|]. intros j Hj. change (cf_nattachments (sys_config (m_sys (wiped i m)))) with (cf_nattachments (sys_config (m_sys m))) in Hj.
      destruct (_ && _); [|by apply C2]. cbn. destruct (decide (i = j)) as [<-|N]; [by rewrite lookup_insert_eq|].
      rewrite lookup_insert_ne by done. by apply C2.
Qed.
End wiped.
