(* ===== verification/Crash.v ===== *)
(** * Triples for runs that may crash

    What holds of the memory when a process ends or dies, whatever it waits for or reads: the partial
    triple [pt] beside the total one [wp] of the machine.  A total triple says that a run ends well, a
    partial one adds what every memory between two of its stores looks like. *)
From stdpp Require Import base gmap strings list.
From S2P Require Import Prelude Types Machine EvList Repair Sample StatConfig Stats Api StationApi Init Station.
Open Scope Z_scope.

(** Run from [m] without interference: if [c] ends, [Q] holds, if the process dies, [C] holds. *)
Definition pt {A} (c : M A) (Q : A -> et_mem -> Prop) (C : et_mem -> Prop) (m : et_mem) : Prop :=
  forall x, cx_wakes x = [] ->
    match c x m with
    | Ok a x' m' => cx_wakes x' = [] /\ Q a m'
    | Crashed m' => C m'
    | _ => True
    end.

(** The invariant [I] holds between all stores. *)
Definition keeps {A} (I : et_mem -> Prop) (c : M A) : Prop := forall m, I m -> pt c (fun _ => I) I m.

Create HintDb keeps.

Section pt.
Context (C : et_mem -> Prop).

Lemma pt_ret {A} (a : A) (Q : A -> et_mem -> Prop) m : Q a m -> pt (ret a) Q C m.
Proof. intros H x Hx. by split. Qed.

Lemma pt_bind {A B} (c : M A) (f : A -> M B) (Q : B -> et_mem -> Prop) m :
  pt c (fun a m' => pt (f a) Q C m') C m -> pt (bind c f) Q C m.
Proof.
  intros H x Hx. specialize (H x Hx). unfold bind. destruct (c x m) as [a x' m'|m'|m'| |]; try done.
  destruct H as (W & H). by apply H.
Qed.

Lemma pt_store f (Q : unit -> et_mem -> Prop) m : C m -> Q tt (f m) -> pt (store f) Q C m.
Proof. intros HC HQ x Hx. unfold store. by destruct (cx_crash x) as [[|k]|]. Qed.

Lemma pt_getm (Q : et_mem -> et_mem -> Prop) m : Q m m -> pt getm Q C m.
Proof. by intros H x. Qed.

Lemma pt_of_option {A} (o : option A) (Q : A -> et_mem -> Prop) m :
  (forall a, o = Some a -> Q a m) -> pt (of_option o) Q C m.
Proof. destruct o as [a|]; intros H x Hx; [|done]. split; [done|]. by apply H. Qed.

Lemma pt_when (b : bool) c (Q : unit -> et_mem -> Prop) m :
  (b = true -> pt c Q C m) -> (b = false -> Q tt m) -> pt (when b c) Q C m.
Proof. intros H1 H2. destruct b; [by apply H1|by apply pt_ret, H2]. Qed.

Lemma pt_block {A} (Q : A -> et_mem -> Prop) m : pt block Q C m.
Proof. by intros x. Qed.

Lemma pt_diverge {A} (Q : A -> et_mem -> Prop) m : pt diverge Q C m.
Proof. by intros x. Qed.

Lemma pt_nanosleep (Q : unit -> et_mem -> Prop) m : Q tt m -> pt nanosleep Q C m.
Proof. intros H x Hx. unfold nanosleep. by rewrite Hx. Qed.

Lemma pt_ld_stat s (Q : et_station -> et_mem -> Prop) m :
  (forall ps, m_stats m !! s = Some ps -> Q ps m) -> pt (ld_stat s) Q C m.
Proof. intros H. apply pt_bind, pt_getm. by apply pt_of_option. Qed.

Lemma pt_str_stat s f (Q : unit -> et_mem -> Prop) m :
  C m -> (forall ps, m_stats m !! s = Some ps -> Q tt (upd_stat s f m)) -> pt (str_stat s f) Q C m.
Proof. intros HC H. apply pt_bind, pt_ld_stat. intros ps E. apply pt_store; eauto. Qed.

Lemma pt_ld_sys (Q : et_system -> et_mem -> Prop) m : Q (m_sys m) m -> pt ld_sys Q C m.
Proof. intros H. apply pt_bind, pt_getm. by apply pt_ret. Qed.

Lemma pt_str_sys f (Q : unit -> et_mem -> Prop) m : C m -> Q tt (upd_sys f m) -> pt (str_sys f) Q C m.
Proof. apply pt_store. Qed.

Lemma pt_ld_attach i (Q : et_attach -> et_mem -> Prop) m :
  (forall a, sys_attach (m_sys m) !! i = Some a -> Q a m) -> pt (ld_attach i) Q C m.
Proof. intros H. apply pt_bind, pt_ld_sys. by apply pt_of_option. Qed.

Lemma pt_str_attach i f (Q : unit -> et_mem -> Prop) m :
  C m -> (forall a, sys_attach (m_sys m) !! i = Some a -> Q tt (upd_attach i f m)) -> pt (str_attach i f) Q C m.
Proof. intros HC H. apply pt_bind, pt_ld_attach. intros a E. apply pt_store; eauto. Qed.

Lemma pt_ld_proc p (Q : et_proc -> et_mem -> Prop) m :
  (forall pr, sys_proc (m_sys m) !! p = Some pr -> Q pr m) -> pt (ld_proc p) Q C m.
Proof. intros H. apply pt_bind, pt_ld_sys. by apply pt_of_option. Qed.
End pt.

Lemma pt_mono {A} (c : M A) (Q Q' : A -> et_mem -> Prop) (C C' : et_mem -> Prop) m :
  pt c Q C m -> (forall a m', Q a m' -> Q' a m') -> (forall m', C m' -> C' m') -> pt c Q' C' m.
Proof.
  intros H HQ HC x Hx. specialize (H x Hx). destruct (c x m); try done; [|by apply HC].
  destruct H. auto.
Qed.

(** A total triple and a partial one. *)
Lemma wp_pt {A} (c : M A) (Q : A -> et_mem -> Prop) (C : et_mem -> Prop) m : wp c Q C m -> pt c Q C m.
Proof. intros H x Hx. specialize (H x Hx). destruct (c x m); try done; [|by destruct H]. by destruct H as (? & _ & ?). Qed.

Lemma pt_and {A} (c : M A) (Q Q' : A -> et_mem -> Prop) (C C' : et_mem -> Prop) m :
  pt c Q C m -> pt c Q' C' m -> pt c (fun a m' => Q a m' /\ Q' a m') (fun m' => C m' /\ C' m') m.
Proof.
  intros H H' x Hx. specialize (H x Hx). specialize (H' x Hx). destruct (c x m); try done.
  destruct H, H'. auto.
Qed.

(** A process that dies leaves what the partial triple says, and it does not hang. *)
Lemma wp_pt_crash {A} (c : M A) (Q Q' : A -> et_mem -> Prop) (C C' : et_mem -> Prop) m k :
  wp c Q C m -> pt c Q' C' m ->
  (exists a x m', run_crash k c m = Ok a x m' /\ Q a m' /\ Q' a m') \/
  (exists m', run_crash k c m = Crashed m' /\ C' m').
Proof.
  intros W P. specialize (P (mkCtx (Some k) []) eq_refl).
  destruct (wp_crash c Q C m k W) as [(a & x & m' & E & H)|(m' & E & H)]; unfold run_crash in *; rewrite E in P.
  - left. destruct P. eauto 7.
  - right. eauto.
Qed.

(** ** Invariants *)

Section keeps.
Context (I : et_mem -> Prop).

Lemma keeps_ret {A} (a : A) : keeps I (ret a).
Proof. intros m H. by apply pt_ret. Qed.
Lemma keeps_bind {A B} (c : M A) (f : A -> M B) : keeps I c -> (forall a, keeps I (f a)) -> keeps I (bind c f).
Proof. intros H1 H2 m H. apply pt_bind. eapply pt_mono; [by apply H1| |done]. intros a m'. apply H2. Qed.
Lemma keeps_when b c : keeps I c -> keeps I (when b c).
Proof. intros H m Hm. apply pt_when; [by intros _; apply H|done]. Qed.
Lemma keeps_if {A} (b : bool) (c d : M A) : keeps I c -> keeps I d -> keeps I (if b then c else d).
Proof. by destruct b. Qed.
Lemma keeps_block {A} : keeps I (@block A).
Proof. intros m _. apply pt_block. Qed.
Lemma keeps_getm : keeps I getm.
Proof. intros m H. by apply pt_getm. Qed.
Lemma keeps_ld_sys : keeps I ld_sys.
Proof. intros m H. by apply pt_ld_sys. Qed.
Lemma keeps_ld_stat s : keeps I (ld_stat s).
Proof. intros m H. by apply pt_ld_stat. Qed.
Lemma keeps_ld_attach i : keeps I (ld_attach i).
Proof. intros m H. by apply pt_ld_attach. Qed.
Lemma keeps_ld_proc p : keeps I (ld_proc p).
Proof. intros m H. by apply pt_ld_proc. Qed.
Lemma keeps_store f : (forall m, I m -> I (f m)) -> keeps I (store f).
Proof. intros F m H. apply pt_store; auto. Qed.
Lemma keeps_str_sys f : (forall m, I m -> I (upd_sys f m)) -> keeps I (str_sys f).
Proof. intros F m H. apply pt_str_sys; auto. Qed.
Lemma keeps_str_stat s f : (forall m, I m -> I (upd_stat s f m)) -> keeps I (str_stat s f).
Proof. intros F m H. apply pt_str_stat; auto. Qed.
End keeps.

#[export] Hint Resolve keeps_ret keeps_bind keeps_when keeps_if keeps_block keeps_getm keeps_ld_sys keeps_ld_stat
  keeps_ld_attach keeps_ld_proc keeps_store keeps_str_sys keeps_str_stat : keeps.

(** ** Locks *)

(** What does not depend on the mutexes and the read-write lock. *)
Class Unlocked (I : et_mem -> Prop) : Prop := mkUnlocked {
  un_sys b m : I m -> I (upd_sys (set_sys_mutex b) m);
  un_stat b m : I m -> I (upd_sys (set_sys_stat_mutex b) m);
  un_transfer s b m : I m -> I (upd_stat s (set_st_mutex b) m);
  un_rwlock k m : I m -> I (set_m_rwlock k m)
}.

Ltac keep_steps un :=
  repeat first [apply keeps_bind; [|intros ?] | apply keeps_when | apply keeps_if];
  first [apply keeps_str_sys; intros ?; by apply un | by auto with keeps].

Section locks.
Context (I : et_mem -> Prop) {U : Unlocked I}.

Lemma keeps_system_lock : keeps I et_system_lock.
Proof. unfold et_system_lock. keep_steps un_sys. Qed.
Lemma keeps_system_unlock : keeps I et_system_unlock.
Proof. unfold et_system_unlock. keep_steps un_sys. Qed.
Lemma keeps_station_lock : keeps I et_station_lock.
Proof. unfold et_station_lock. keep_steps un_stat. Qed.
Lemma keeps_station_unlock : keeps I et_station_unlock.
Proof. unfold et_station_unlock. keep_steps un_stat. Qed.
Lemma keeps_memRead_lock : keeps I et_memRead_lock.
Proof.
  unfold et_memRead_lock. apply keeps_bind; [apply keeps_getm|]. intros m0. apply keeps_if; [apply keeps_block|].
  apply keeps_store. intros m. apply un_rwlock.
Qed.
Lemma keeps_mem_unlock : keeps I et_mem_unlock.
Proof.
  unfold et_mem_unlock. apply keeps_bind; [apply keeps_getm|]. intros m0.
  apply keeps_store. intros m. apply un_rwlock.
Qed.

End locks.

(** A function for users: the body starts with [I] and leaves [C], which is weaker. *)
Lemma pt_alive_call (I C : et_mem -> Prop) {UI : Unlocked I} {UC : Unlocked C} `{R0 : Remote} {A} id (err : Z -> A) (body : M A) m :
  id_locality id = ET_LOCAL -> (forall m, I m -> C m) -> I m -> (forall m, I m -> pt body (fun _ => C) C m) ->
  pt (alive_call id err body) (fun _ => C) C m.
Proof.
  intros L IC H B. unfold alive_call, et_alive. rewrite L.
  change (ET_LOCAL =? ET_REMOTE) with false. change (ET_LOCAL =? ET_LOCAL_NOSHARE) with false. cbv iota.
  assert (K : keeps I (etl_alive id)).
  { unfold etl_alive. auto using keeps_system_lock, keeps_system_unlock with keeps. }
  apply pt_bind. eapply pt_mono; [by apply K| |done]. intros alive m1 H1. cbn beta.
  destruct (alive =? 0); [by apply pt_ret, IC|]. unfold locked_call. apply pt_bind.
  eapply pt_mono; [by apply (keeps_memRead_lock I)| |done]. intros [] m2 H2. cbn beta. destruct (negb _).
  - apply pt_bind. eapply pt_mono; [by apply (keeps_mem_unlock I)| |done]. intros [] m3 H3. by apply pt_ret, IC.
  - apply pt_bind. eapply pt_mono; [by apply B| |done]. intros r m3 H3. apply pt_bind.
    eapply pt_mono; [by apply (keeps_mem_unlock C)| |done]. intros [] m4 H4. by apply pt_ret.
Qed.
