(* ===== verification/AttachCrash.v ===== *)
(** * Crashes while attaching

    What a process leaves that dies in et_station_attach, and what the clean-up makes of it. *)
From stdpp Require Import base gmap strings list.
From S2P Require Import Prelude Types Machine EvList Repair Sample StatConfig Stats Chain Api StationApi Init Station StationSpec Attach Fix FixAtt Crash.
Open Scope Z_scope.

(** ** The arrays and the stores of the program *)

(** The arrays are the same. *)
Definition same_arrays (m m' : et_mem) : Prop :=
  sys_attach (m_sys m') = sys_attach (m_sys m) /\ sys_config (m_sys m') = sys_config (m_sys m) /\
  sys_proc (m_sys m') = sys_proc (m_sys m) /\ st_data <$> m_stats m' = st_data <$> m_stats m.

Lemma same_arrays_lookup m m' s ps' : same_arrays m m' -> m_stats m' !! s = Some ps' ->
  exists ps, m_stats m !! s = Some ps /\ st_data ps' = st_data ps.
Proof.
  intros (_ & _ & _ & S) E. apply (f_equal (fun f => f !! s)) in S. rewrite !lookup_fmap, E in S.
  destruct (m_stats m !! s) as [ps|]; [|done]. injection S as S. eauto.
Qed.

Lemma same_arrays_dom m m' s : same_arrays m m' -> is_Some (m_stats m' !! s) <-> is_Some (m_stats m !! s).
Proof.
  intros (_ & _ & _ & S). apply (f_equal (fun f => f !! s)) in S. rewrite !lookup_fmap in S.
  destruct (m_stats m !! s), (m_stats m' !! s); cbn in S; try done; split; intros []; by eauto.
Qed.

Lemma same_arrays_belongs m m' f i : same_arrays m m' -> belongs f m' i = belongs f m i.
Proof. intros (E & _). unfold belongs. by rewrite E. Qed.

Lemma arrays_ok_same X m m' : same_arrays m m' -> arrays_ok X m -> arrays_ok X m'.
Proof.
  intros S A. pose proof S as (Ea & Ec & Ep & _). split; rewrite ?Ec, ?Ea, ?Ep.
  - apply (ar_pos _ _ A).
  - apply (ar_dom _ _ A).
  - intros s. rewrite (same_arrays_dom m m' s S), Ec. apply (ar_stations _ _ A).
  - apply (ar_procs _ _ A).
  - apply (ar_known _ _ A).
  - intros t ps' i E Hi. destruct (same_arrays_lookup _ _ _ _ S E) as (ps & E0 & ->).
    rewrite (same_arrays_belongs m m') by done. by apply (ar_att _ _ A).
  - intros t ps' E. destruct (same_arrays_lookup _ _ _ _ S E) as (ps & E0 & ->). exact (ar_idle _ _ A t ps E0).
  - intros p pr i. rewrite (same_arrays_belongs m m') by done. apply (ar_proc _ _ A).
  - apply (ar_closed _ _ A).
Qed.

Lemma same_arrays_sys f m :
  (forall y, sys_attach (f y) = sys_attach y) -> (forall y, sys_config (f y) = sys_config y) ->
  (forall y, sys_proc (f y) = sys_proc y) -> same_arrays m (upd_sys f m).
Proof. intros H1 H2 H3. by split_and!; cbn. Qed.

Lemma same_arrays_stat s f m : (forall ps, st_data (f ps) = st_data ps) -> same_arrays m (upd_stat s f m).
Proof.
  intros H. split_and!; try done. cbn. apply map_eq. intros t. rewrite !lookup_fmap.
  destruct (decide (s = t)) as [<-|N]; [rewrite lookup_alter_eq|by rewrite lookup_alter_ne].
  destruct (m_stats m !! s); cbn; [by rewrite H|done].
Qed.

(** A store on an attachment that is not in use before and after. *)
Lemma arrays_ok_attach X i g m :
  X = None \/ X = Some i -> arrays_ok X m ->
  (X = None -> in_use m i = false /\ in_use (upd_attach i g m) i = false) -> arrays_ok X (upd_attach i g m).
Proof.
  intros HX A U. assert (Fj : forall f j, j <> i -> belongs f (upd_attach i g m) j = belongs f m j).
  { intros f j N. by apply belongs_upd_attach. }
  assert (Fi : forall f, X = None -> belongs f (upd_attach i g m) i = belongs f m i).
  { intros f E. destruct (U E) as [U1 U2]. by rewrite !not_belongs. }
  assert (F : forall f j, X <> Some j -> belongs f (upd_attach i g m) j = belongs f m j).
  { intros f j N. destruct (decide (j = i)) as [->|]; [|auto]. destruct HX as [->| ->]; [auto|done]. }
  split.
  - apply (ar_pos _ _ A).
  - intros j Hj. cbn. destruct (decide (i = j)) as [<-|N]; [|rewrite lookup_alter_ne by done; by apply (ar_dom _ _ A)].
    rewrite lookup_alter_eq. destruct (ar_dom _ _ A i Hj) as [a ->]. by eexists.
  - apply (ar_stations _ _ A).
  - apply (ar_procs _ _ A).
  - intros j a Hj N E Na. cbn in E. destruct (decide (i = j)) as [<-|Nj].
    + destruct HX as [HX|HX]; [|done]. destruct (U HX) as [_ U2]. unfold in_use in U2. cbn in U2. rewrite E in U2.
      by apply negb_false_iff, Z.eqb_eq in U2.
    + rewrite lookup_alter_ne in E by done. by apply (ar_known _ _ A j a).
  - intros t ps j E Hj. rewrite (ar_att _ _ A t ps j E Hj). case_bool_decide; [done|]. by rewrite F.
  - apply (ar_idle _ _ A).
  - intros p pr j E Np Hj N. rewrite F by done. by apply (ar_proc _ _ A).
  - apply (ar_closed _ _ A).
Qed.

(** From the moment that the attachment is in use until its station knows it. *)
Lemma arrays_ok_begin i m :
  0 <= i < cf_nattachments (sys_config (m_sys m)) -> in_use m i = false -> arrays_ok None m -> arrays_ok (Some i) m.
Proof.
  intros Hi U A. split.
  - apply (ar_pos _ _ A).
  - apply (ar_dom _ _ A).
  - apply (ar_stations _ _ A).
  - apply (ar_procs _ _ A).
  - intros j a Hj _. by apply (ar_known _ _ A).
  - intros t ps j E Hj. rewrite (ar_att _ _ A t ps j E Hj), (bool_decide_false (None = Some j)) by done.
    case_bool_decide as B; [|done]. injection B as <-. by rewrite not_belongs.
  - apply (ar_idle _ _ A).
  - intros p pr j E Np Hj _. by apply (ar_proc _ _ A).
  - apply (ar_closed _ _ A).
Qed.

Lemma arrays_ok_proc i p f m :
  arrays_ok (Some i) m ->
  (forall pr, sys_proc (m_sys m) !! p = Some pr -> pr_status pr = ET_PROC_OPEN /\ 0 <= p < cf_nprocesses (sys_config (m_sys m))) ->
  (forall pr, pr_status (f pr) = pr_status pr /\ forall j, j <> i -> pr_att (f pr) !! j = pr_att pr !! j) ->
  arrays_ok (Some i) (upd_proc p f m).
Proof.
  intros A O F. assert (L : forall q pr', sys_proc (m_sys (upd_proc p f m)) !! q = Some pr' ->
    exists pr, sys_proc (m_sys m) !! q = Some pr /\ (pr' = pr /\ p <> q \/ pr' = f pr /\ p = q)).
  { intros q pr' E. cbn in E. destruct (decide (p = q)) as [<-|N]; [|rewrite lookup_alter_ne in E by done; eauto].
    rewrite lookup_alter_eq in E. destruct (sys_proc (m_sys m) !! p) as [pr|]; [|done]. injection E as <-. eauto. }
  split.
  - apply (ar_pos _ _ A).
  - apply (ar_dom _ _ A).
  - apply (ar_stations _ _ A).
  - intros q Hq. cbn. destruct (ar_procs _ _ A q Hq) as [pr E]. destruct (decide (p = q)) as [<-|N].
    + rewrite lookup_alter_eq, E. by eexists.
    + rewrite lookup_alter_ne by done. by exists pr.
  - apply (ar_known _ _ A).
  - apply (ar_att _ _ A).
  - apply (ar_idle _ _ A).
  - intros q pr' j E Nq Hj N. destruct (L q pr' E) as (pr & E0 & [[-> _]|[-> <-]]).
    + by apply (ar_proc _ _ A q pr j).
    + rewrite (proj2 (F pr)) by congruence. by apply (ar_proc _ _ A p pr j).
  - intros q pr' E Nq. destruct (L q pr' E) as (pr & E0 & [[-> _]|[-> <-]]).
    + by apply (ar_closed _ _ A q pr).
    + left. rewrite (proj1 (F pr)). by apply O.
Qed.

(** A store on the number of attachments of an active station. *)
Lemma arrays_ok_natts X s f m ps :
  arrays_ok X m -> m_stats m !! s = Some ps -> sd_status (st_data ps) = ET_STATION_ACTIVE ->
  sd_status (st_data (f ps)) = sd_status (st_data ps) -> sd_att (st_data (f ps)) = sd_att (st_data ps) ->
  arrays_ok X (upd_stat s f m).
Proof.
  intros A E St F1 F2. assert (L : forall t pt', m_stats (upd_stat s f m) !! t = Some pt' ->
    t <> s /\ m_stats m !! t = Some pt' \/ t = s /\ pt' = f ps).
  { intros t pt' Et. cbn in Et. destruct (decide (s = t)) as [<-|N]; [|rewrite lookup_alter_ne in Et by done; eauto].
    rewrite lookup_alter_eq, E in Et. injection Et as <-. eauto. }
  split.
  - apply (ar_pos _ _ A).
  - apply (ar_dom _ _ A).
  - apply upd_stat_dom, (ar_stations _ _ A).
  - apply (ar_procs _ _ A).
  - apply (ar_known _ _ A).
  - intros t pt' j Et Hj. destruct (L t pt' Et) as [[_ E0]|[-> ->]]; [by apply (ar_att _ _ A)|].
    rewrite F2. by apply (ar_att _ _ A s ps j).
  - intros t pt' Et S. destruct (L t pt' Et) as [[_ E0]|[-> ->]]; [exact (ar_idle _ _ A t pt' E0 S)|congruence].
  - apply (ar_proc _ _ A).
  - apply (ar_closed _ _ A).
Qed.

(** The station gets to know the attachment. *)
Lemma arrays_ok_end i s m ps a :
  arrays_ok (Some i) m -> 0 <= i < cf_nattachments (sys_config (m_sys m)) ->
  m_stats m !! s = Some ps -> sd_status (st_data ps) = ET_STATION_ACTIVE ->
  sys_attach (m_sys m) !! i = Some a -> at_num a <> -1 -> at_stat a = s ->
  (forall p pr, sys_proc (m_sys m) !! p = Some pr -> p <> ET_SYS ->
    default (-1) (pr_att pr !! i) = if at_proc a =? p then i else -1) ->
  arrays_ok None (upd_stat s (in_data (fun d => set_sd_att (<[i := i]> (sd_att d)) d)) m).
Proof.
  intros A Hi E St Ea Na Sa P. set (f := in_data _).
  assert (L : forall t pt', m_stats (upd_stat s f m) !! t = Some pt' ->
    t <> s /\ m_stats m !! t = Some pt' \/ t = s /\ pt' = f ps).
  { intros t pt' Et. cbn in Et. destruct (decide (s = t)) as [<-|N]; [|rewrite lookup_alter_ne in Et by done; eauto].
    rewrite lookup_alter_eq, E in Et. injection Et as <-. eauto. }
  assert (B : forall g, belongs g m i = g a).
  { intros g. unfold belongs. rewrite Ea. by destruct (Z.eqb_spec (at_num a) (-1)). }
  split.
  - apply (ar_pos _ _ A).
  - apply (ar_dom _ _ A).
  - apply upd_stat_dom, (ar_stations _ _ A).
  - apply (ar_procs _ _ A).
  - intros j b Hj _ Eb Nb. destruct (decide (i = j)) as [<-|N]; [|apply (ar_known _ _ A j b); [done|congruence|done|done]].
    change (sys_attach (m_sys (upd_stat s f m))) with (sys_attach (m_sys m)) in Eb. rewrite Ea in Eb. injection Eb as <-.
    rewrite Sa. apply (ar_stations _ _ A). by eexists.
  - intros t pt' j Et Hj. rewrite bool_decide_false by done. change (belongs (at_station t) (upd_stat s f m) j) with (belongs (at_station t) m j).
    destruct (L t pt' Et) as [[Nt E0]|[-> ->]].
    + rewrite (ar_att _ _ A t pt' j E0 Hj). case_bool_decide as X; [|done]. injection X as <-. rewrite B. unfold at_station. rewrite Sa.
      by destruct (Z.eqb_spec s t); [congruence|].
    + cbn. destruct (decide (i = j)) as [<-|N].
      * rewrite lookup_insert_eq, B. unfold at_station. by rewrite Sa, Z.eqb_refl.
      * rewrite lookup_insert_ne, (ar_att _ _ A s ps j E Hj) by done. by rewrite bool_decide_false by congruence.
  - intros t pt' Et S. destruct (L t pt' Et) as [[_ E0]|[-> ->]]; [exact (ar_idle _ _ A t pt' E0 S)|].
    unfold f, in_data in S. cbn in S. congruence.
  - intros p pr j Ep Np Hj _. change (belongs (at_process p) (upd_stat s f m) j) with (belongs (at_process p) m j).
    destruct (decide (i = j)) as [<-|N]; [|apply (ar_proc _ _ A p pr j); [done|done|done|congruence]].
    rewrite B. by apply P.
  - apply (ar_closed _ _ A).
Qed.

(** ** What a crash leaves *)

(** The process that calls is open, or it is the one of the ET system. *)
Definition proc_open (id : et_id) (m : et_mem) : Prop :=
  id_proc id = ET_SYS \/
  exists pr, sys_proc (m_sys m) !! id_proc id = Some pr /\ pr_status pr = ET_PROC_OPEN /\
    0 <= id_proc id < cf_nprocesses (sys_config (m_sys m)).

Section crash.
Context `{R0 : Remote} `{O0 : Os} (id : et_id) (s : Z) (m : et_mem).

(** The memory outside of attachment [i], but for counts and lists, is that of [m]. *)
Definition around (i : Z) (m1 : et_mem) : Prop :=
  m_events m1 = m_events m /\ sys_config (m_sys m1) = sys_config (m_sys m) /\
  forall j, j <> i -> sys_attach (m_sys m1) !! j = sys_attach (m_sys m) !! j.

(** Attachment [i] is free, or it is in use and its station does not know it, or it is complete. *)
Inductive attaching (i : Z) (m1 : et_mem) : Prop :=
| att_free : arrays_ok None m1 -> in_use m1 i = false -> attaching i m1
| att_begun : arrays_ok (Some i) m1 -> in_use m1 i = true -> attaching i m1
| att_done : arrays_ok None m1 -> sys_attach (m_sys m1) !! i = Some (new_attach id s i) -> attaching i m1.

Definition attach_left (m1 : et_mem) : Prop :=
  m_events m1 = m_events m /\
  (same_arrays m m1 \/
   exists i, 0 <= i < cf_nattachments (sys_config (m_sys m)) /\ in_use m i = false /\ around i m1 /\ attaching i m1).

Lemma around_sys i f m1 :
  (forall y, sys_config (f y) = sys_config y) -> (forall y, sys_attach (f y) = sys_attach y) ->
  around i m1 -> around i (upd_sys f m1).
Proof. intros H1 H2 (E & Ec & Ea). split_and!; cbn; [done|by rewrite H1|by rewrite H2]. Qed.

Lemma around_attach i f m1 : around i m1 -> around i (upd_attach i f m1).
Proof. intros (E & Ec & Ea). split_and!; [done|done|]. intros j N. cbn. rewrite lookup_alter_ne by done. by apply Ea. Qed.

Lemma pt_str_attachs (I : et_mem -> Prop) i fs m1 :
  I m1 -> (forall f m1, f ∈ fs -> I m1 -> I (upd_attach i f m1)) -> pt (str_attachs i fs) (fun _ => I) I m1.
Proof.
  revert m1. induction fs as [|f fs IH]; intros m1 H F; cbn [str_attachs]; [by apply pt_ret|].
  apply pt_bind, pt_str_attach; [done|]. intros a _. apply IH; [apply F; [by left|done]|].
  intros g m2 Hg. apply F. by right.
Qed.

(** The two phases of the stores on the system structure. *)
Definition free_phase (i : Z) (m1 : et_mem) : Prop :=
  around i m1 /\ arrays_ok None m1 /\ in_use m1 i = false /\ sys_proc (m_sys m1) = sys_proc (m_sys m).
Definition begun_phase (i : Z) (m1 : et_mem) : Prop :=
  around i m1 /\ arrays_ok (Some i) m1 /\ in_use m1 i = true /\ proc_open id m1.

Lemma free_phase_store i f m1 :
  (forall a, at_num (f a) = at_num a \/ at_num (f a) = -1) -> free_phase i m1 -> free_phase i (upd_attach i f m1).
Proof.
  intros F (R & A & U & P). assert (U' : in_use (upd_attach i f m1) i = false).
  { unfold in_use in *. cbn. rewrite lookup_alter_eq. destruct (sys_attach (m_sys m1) !! i) as [a|]; cbn; [|done].
    by destruct (F a) as [->| ->]. }
  split_and!; [by apply around_attach| |done|done]. apply arrays_ok_attach; auto.
Qed.

Lemma begun_phase_store i f m1 :
  (forall a, at_num (f a) = at_num a) -> begun_phase i m1 -> begun_phase i (upd_attach i f m1).
Proof.
  intros F (R & A & U & P). split_and!; [by apply around_attach|apply arrays_ok_attach; auto; done| |done].
  unfold in_use in *. cbn. rewrite lookup_alter_eq. destruct (sys_attach (m_sys m1) !! i) as [a|]; cbn; [|done].
  by rewrite F.
Qed.

Lemma phase_begin i m1 a :
  0 <= i < cf_nattachments (sys_config (m_sys m1)) -> sys_attach (m_sys m1) !! i = Some a -> proc_open id m ->
  free_phase i m1 -> begun_phase i (upd_attach i (set_at_num i) m1).
Proof.
  intros Hi E O (R & A & U & P). split_and!; [by apply around_attach| | |].
  - apply arrays_ok_attach; [by right|by apply arrays_ok_begin|done].
  - unfold in_use. cbn. rewrite lookup_alter_eq, E. cbn. by destruct (Z.eqb_spec i (-1)); [lia|].
  - unfold proc_open in *. cbn. rewrite P. by rewrite (proj1 (proj2 R)).
Qed.

Lemma free_left i m1 : 0 <= i < cf_nattachments (sys_config (m_sys m)) -> in_use m i = false -> free_phase i m1 -> attach_left m1.
Proof. intros Hi U (R & A & U' & _). split; [apply R|]. right. exists i. split_and!; [lia|lia|done|done|]. by apply att_free. Qed.

Lemma begun_left i m1 : 0 <= i < cf_nattachments (sys_config (m_sys m)) -> in_use m i = false -> begun_phase i m1 -> attach_left m1.
Proof. intros Hi U (R & A & U' & _). split; [apply R|]. right. exists i. split_and!; [lia|lia|done|done|]. by apply att_begun. Qed.

Lemma begun_proc i f m1 :
  id_proc id <> ET_SYS -> (forall pr, pr_status (f pr) = pr_status pr /\ forall j, j <> i -> pr_att (f pr) !! j = pr_att pr !! j) ->
  begun_phase i m1 -> begun_phase i (upd_proc (id_proc id) f m1).
Proof.
  intros N F (R & A & U & O). destruct O as [?|(pr & E & O & Hp)]; [done|]. split_and!.
  - by apply around_sys.
  - apply arrays_ok_proc; [done| |done]. intros pr' E'. rewrite E in E'. injection E' as <-. done.
  - done.
  - right. exists (f pr). cbn. rewrite lookup_alter_eq, E. split_and!; [done|by rewrite (proj1 (F pr))|lia|lia].
Qed.

Lemma pt_attach_setup i m1 :
  0 <= i < cf_nattachments (sys_config (m_sys m)) -> in_use m i = false -> proc_open id m -> free_phase i m1 ->
  pt (attach_setup id s i) (fun _ => begun_phase i) attach_left m1.
Proof.
  intros Hi U O F. unfold attach_setup. apply pt_bind, pt_ld_sys. apply pt_bind, pt_str_sys; [by apply (free_left i)|].
  assert (F1 : free_phase i (upd_sys (set_sys_nattachments (sys_nattachments (m_sys m1) + 1)) m1)).
  { destruct F as (R & A & U' & P). split_and!; [by apply around_sys| |done|done].
    by apply (arrays_ok_same _ m1); [apply same_arrays_sys|]. }
  clear F. apply pt_bind.
  eapply (pt_mono _ (fun _ => free_phase i) _ (free_phase i)); [|intros [] m2 F2|intros m2; by apply free_left].
  { apply pt_str_attachs; [done|]. intros f m2 Hf. apply free_phase_store. intros a.
    repeat (apply elem_of_cons in Hf as [->|Hf]; [first [by left|by right]|]). by apply elem_of_nil in Hf. }
  apply pt_bind. cbn [app str_attachs]. apply pt_bind, pt_str_attach; [by apply (free_left i)|]. intros a Ea.
  assert (F3 : begun_phase i (upd_attach i (set_at_num i) m2)).
  { apply (phase_begin i m2 a); [|done|done|done]. by rewrite (proj1 (proj2 (proj1 F2))). }
  clear F1 F2. eapply (pt_mono _ (fun _ => begun_phase i) _ (begun_phase i)); [|intros [] m3 F4|intros m3; by apply begun_left].
  { apply (pt_str_attachs _ i ([set_at_proc (id_proc id); set_at_stat s; set_at_status ET_ATT_ACTIVE; set_at_pid getpid] ++
      match etNetLocalHost with Some host => [set_at_host host] | None => [] end)); [done|]. intros f m3 Hf. apply begun_phase_store. intros b.
    cbn [app] in Hf. do 4 (apply elem_of_cons in Hf as [->|Hf]; [done|]).
    destruct etNetLocalHost; [apply list_elem_of_singleton in Hf as ->; done|by apply elem_of_nil in Hf]. }
  apply pt_when; [|done]. intros N%negb_true_iff%Z.eqb_neq. apply pt_bind, pt_ld_proc. intros pr Ep.
  apply pt_bind. unfold str_proc. apply pt_bind, pt_ld_proc. intros _ _. apply pt_str_sys; [by apply (begun_left i)|].
  apply pt_bind, pt_ld_proc. intros _ _. apply pt_str_sys.
  - apply (begun_left i); [done|done|]. by apply (begun_proc i).
  - apply (begun_proc i); [done| |by apply (begun_proc i)]. intros pr'. split; [done|]. intros j Nj. cbn. by rewrite lookup_insert_ne.
Qed.

(** The station and the process know the attachment. *)
Lemma pt_attach_station i m1 ps :
  0 <= i < cf_nattachments (sys_config (m_sys m)) -> in_use m i = false -> begun_phase i m1 ->
  m_stats m1 !! s = Some ps -> sd_status (st_data ps) = ET_STATION_ACTIVE ->
  sys_attach (m_sys m1) !! i = Some (new_attach id s i) ->
  (forall p pr, sys_proc (m_sys m1) !! p = Some pr -> p <> ET_SYS -> default (-1) (pr_att pr !! i) = if id_proc id =? p then i else -1) ->
  pt (attach_station s i) (fun _ => attach_left) attach_left m1.
Proof.
  intros Hi U F E St Ea P. unfold attach_station. apply pt_bind, pt_ld_stat. intros ps0 E0. rewrite E in E0. injection E0 as <-.
  apply pt_bind, pt_str_stat; [by apply (begun_left i)|]. intros _ _.
  set (m2 := upd_stat s _ m1). assert (E2 : m_stats m2 !! s = Some (in_data (set_sd_nattachments (sd_nattachments (st_data ps) + 1)) ps)).
  { by apply upd_stat_eq. }
  assert (F2 : begun_phase i m2).
  { destruct F as (R & A & U' & O). split_and!; [exact R|by apply (arrays_ok_natts _ s _ m1 ps)|exact U'|exact O]. }
  assert (Ea2 : sys_attach (m_sys m2) !! i = Some (new_attach id s i)) by done.
  assert (P2 : forall p pr, sys_proc (m_sys m2) !! p = Some pr -> p <> ET_SYS -> default (-1) (pr_att pr !! i) = if id_proc id =? p then i else -1) by done.
  set (ps2 := in_data _ ps) in E2. assert (St2 : sd_status (st_data ps2) = ET_STATION_ACTIVE) by done.
  clearbody m2. apply pt_bind, pt_str_stat; [by apply (begun_left i)|]. intros _ _.
  destruct F2 as (R & A & U' & O). assert (Hi2 : 0 <= i < cf_nattachments (sys_config (m_sys m2))) by by rewrite (proj1 (proj2 R)).
  assert (A3 := arrays_ok_end i s m2 ps2 _ A Hi2 E2 St2 Ea2 ltac:(cbn; lia) eq_refl P2).
  set (m3 := upd_stat s _ m2) in *. assert (E3 : exists ps3, m_stats m3 !! s = Some ps3 /\ sd_status (st_data ps3) = ET_STATION_ACTIVE).
  { eexists. split; [by apply upd_stat_eq|done]. }
  assert (L : forall m4, around i m4 -> arrays_ok None m4 -> sys_attach (m_sys m4) !! i = Some (new_attach id s i) -> attach_left m4).
  { intros m4 R4 A4 E4. split; [apply R4|]. right. exists i. split_and!; [lia|lia|done|done|]. by apply att_done. }
  assert (R3 : around i m3) by exact R. assert (Ea3 : sys_attach (m_sys m3) !! i = Some (new_attach id s i)) by done.
  clearbody m3. rewrite St, andb_false_r. apply pt_bind. apply pt_when; [done|]. intros _.
  destruct E3 as (ps3 & E3 & St3). apply pt_bind, pt_str_stat; [by apply L|]. intros _ _.
  apply pt_when; [done|]. intros _. apply L; [done| |done]. by apply (arrays_ok_natts _ s _ m3 ps3).
Qed.

(** Before the first of these stores only locks changed. *)
Definition attach_start (m1 : et_mem) : Prop := m_events m1 = m_events m /\ same_arrays m m1.

Lemma start_left m1 : attach_start m1 -> attach_left m1.
Proof. intros [E S]. split; [done|by left]. Qed.

Lemma same_arrays_trans m1 m2 : same_arrays m m1 -> same_arrays m1 m2 -> same_arrays m m2.
Proof. intros (A & B & C & D) (A' & B' & C' & D'). split_and!; congruence. Qed.

#[export] Instance start_unlocked : Unlocked attach_start.
Proof.
  split.
  - intros b m1 [E S]. split; [done|]. eapply same_arrays_trans; [exact S|by apply same_arrays_sys].
  - intros b m1 [E S]. split; [done|]. eapply same_arrays_trans; [exact S|by apply same_arrays_sys].
  - intros t b m1 [E S]. split; [done|]. eapply same_arrays_trans; [exact S|by apply same_arrays_stat].
  - intros k m1 [E S]. split; [done|]. eapply same_arrays_trans; [exact S|]. by split_and!.
Qed.

Lemma attaching_same i m1 m2 : same_arrays m1 m2 -> attaching i m1 -> attaching i m2.
Proof.
  intros S [A U|A U|A E].
  - apply att_free; [by apply (arrays_ok_same _ m1)|]. unfold in_use. by rewrite (proj1 S).
  - apply att_begun; [by apply (arrays_ok_same _ m1)|]. unfold in_use. by rewrite (proj1 S).
  - apply att_done; [by apply (arrays_ok_same _ m1)|]. by rewrite (proj1 S).
Qed.

Lemma left_same m1 m2 : m_events m2 = m_events m1 -> same_arrays m1 m2 -> attach_left m1 -> attach_left m2.
Proof.
  intros E S [Ev [S'|(i & Hi & U & (R1 & R2 & R3) & A)]].
  - split; [congruence|]. left. by eapply same_arrays_trans.
  - split; [congruence|]. right. exists i. split_and!; [lia|lia|done| |by eapply attaching_same].
    destruct S as (Sa & Sc & _). split_and!; [congruence|congruence|]. intros j N. rewrite Sa. by apply R3.
Qed.

#[export] Instance left_unlocked : Unlocked attach_left.
Proof.
  split.
  - intros b m1. apply left_same; [done|by apply same_arrays_sys].
  - intros b m1. apply left_same; [done|by apply same_arrays_sys].
  - intros t b m1. apply left_same; [done|by apply same_arrays_stat].
  - intros k m1. apply left_same; [done|by split_and!].
Qed.

Lemma pt_find_attach (k : nat) i C m1 : 0 <= i ->
  pt (find_attach k i) (fun r m2 => m2 = m1 /\ (r = -1 \/ (i <= r < i + Z.of_nat k /\ in_use m1 r = false))) C m1.
Proof.
  revert i. induction k as [|k IH]; intros i Hi; cbn [find_attach]; [apply pt_ret; auto|].
  apply pt_bind, pt_ld_attach. intros a E. destruct (Z.eqb_spec (at_num a) (-1)) as [N|N].
  - apply pt_ret. split; [done|]. right. split; [lia|]. unfold in_use. rewrite E. by rewrite N.
  - eapply pt_mono; [apply (IH (i + 1)); lia| |done]. intros r m2 [-> [->|[Hr U]]]; split; auto. right. split; [lia|done].
Qed.

Lemma pt_unlock_ret {A} (c : M unit) (r : A) m1 : keeps attach_left c -> attach_left m1 -> pt (c ;;; ret r) (fun _ => attach_left) attach_left m1.
Proof. intros K H. apply pt_bind. eapply pt_mono; [by apply K| |done]. intros [] m2 H2. by apply pt_ret. Qed.

(** A body that starts with a lock. *)
Lemma pt_start_bind {A} (c : M unit) (d : M A) m1 :
  keeps attach_start c -> attach_start m1 -> (forall m2, attach_start m2 -> pt d (fun _ => attach_left) attach_left m2) ->
  pt (c ;;; d) (fun _ => attach_left) attach_left m1.
Proof. intros K H D. apply pt_bind. eapply pt_mono; [by apply K| |by apply start_left]. intros [] m2 H2. by apply D. Qed.

Lemma pt_attach ps :
  id_locality id = ET_LOCAL -> arrays_ok None m -> proc_open id m -> m_stats m !! s = Some ps -> sd_status (st_data ps) = ET_STATION_ACTIVE ->
  pt (et_station_attach id s true) (fun _ => attach_left) attach_left m.
Proof.
  intros L A O Es St. unfold et_station_attach. assert (H0 : attach_start m) by by split; [|split_and!].
  destruct (_ || _); [by apply pt_ret, start_left|]. rewrite L. cbn [Z.eqb negb].
  change (ET_LOCAL =? ET_LOCAL) with true. cbn [negb].
  apply (pt_alive_call attach_start attach_left); [done|by apply start_left|done|]. clear H0. intros m1 H1.
  apply pt_bind, pt_ld_sys. destruct (_ <=? _); [by apply pt_ret, start_left|].
  apply pt_start_bind; [apply keeps_station_lock, _|done|]. clear m1 H1. intros m1 H1.
  apply pt_bind, pt_ld_stat. intros ps1 E1. destruct (_ && _); [apply pt_unlock_ret; [apply keeps_station_unlock, _|by apply start_left]|].
  destruct (_ && _); [apply pt_unlock_ret; [apply keeps_station_unlock, _|by apply start_left]|]. clear ps1 E1.
  apply pt_start_bind; [apply keeps_system_lock, _|done|]. clear m1 H1. intros m1 H1.
  apply pt_bind, pt_ld_sys. assert (K : keeps attach_left (et_system_unlock ;;; et_station_unlock)).
  { apply keeps_bind; [apply keeps_system_unlock, _|intros _; apply keeps_station_unlock, _]. }
  assert (K' : forall r : Z * option Z, keeps attach_left (et_system_unlock ;;; et_station_unlock ;;; ret r)).
  { intros r. apply keeps_bind; [apply keeps_system_unlock, _|intros _; apply keeps_bind; [apply keeps_station_unlock, _|intros _; apply keeps_ret]]. }
  destruct (_ <=? _); [by apply K', start_left|].
  apply pt_bind. eapply pt_mono; [by apply pt_find_attach| |by apply start_left]. intros i m2 [-> Hi]. cbn beta.
  destruct (Z.ltb_spec i 0) as [Ni|Ni]; [by apply K', start_left|]. destruct Hi as [->|[Hi U]]; [lia|].
  destruct H1 as [Ev S]. pose proof S as (Sa & Sc & Sp & _).
  assert (U0 : in_use m i = false) by (unfold in_use in *; by rewrite <- Sa).
  assert (Hi0 : 0 <= i < cf_nattachments (sys_config (m_sys m))) by (rewrite <- Sc; lia).
  assert (F : free_phase i m1).
  { split_and!; [by split_and!; [| |intros j _; rewrite Sa]|by apply (arrays_ok_same _ m)|done|done]. }
  assert (W : wp (attach_setup id s i) (fun _ m2 => m2 = upd_sys (sys_attached id s i) m1) (fun _ => True) m1).
  { apply wp_attach_setup; [|..|done].
    - rewrite Sa. by apply (ar_dom _ _ A).
    - destruct O as [?|(pr & ? & _)]; [by left|right; exists pr; by rewrite Sp]. }
  pose proof (pt_and _ _ _ _ _ _ (wp_pt _ _ _ _ W) (pt_attach_setup i m1 Hi0 U0 O F)) as P. clear W.
  apply pt_bind. eapply pt_mono; [exact P| |by intros m2 []]. intros [] m2 [-> B]. clear P. apply pt_bind. unfold et_system_unlock at 1. apply pt_str_sys; [by apply (begun_left i)|].
  set (m2 := upd_sys (set_sys_mutex false) _).
  assert (B2 : begun_phase i m2).
  { destruct B as (R & A' & U' & O'). split_and!; [by apply around_sys|eapply arrays_ok_same; [by apply same_arrays_sys|exact A']|done|done]. }
  apply pt_bind. destruct (same_arrays_lookup m1 m s ps) as (ps1 & E1 & D1).
  { destruct S as (? & ? & ? & ?). by split_and!. }
  { done. }
  eapply pt_mono; [apply (pt_attach_station i m2 ps1)| |done]; try done.
  - by rewrite <- D1.
  - cbn. rewrite lookup_alter_eq, Sa. by destruct (ar_dom _ _ A i Hi0) as [a ->].
  - intros p pr E Np. cbn in E. rewrite Sp in E.
    assert (X : forall pr0, sys_proc (m_sys m) !! p = Some pr0 -> default (-1) (pr_att pr0 !! i) = -1).
    { intros pr0 E0. rewrite (ar_proc _ _ A p pr0 i E0 Np Hi0) by done. by rewrite not_belongs. }
    destruct (Z.eqb_spec (id_proc id) ET_SYS) as [Q|Q].
    + destruct (Z.eqb_spec (id_proc id) p); [congruence|]. by apply X.
    + destruct (Z.eqb_spec (id_proc id) p) as [<-|Q'].
      * rewrite lookup_alter_eq in E. destruct (sys_proc (m_sys m) !! id_proc id); [|done]. injection E as <-. cbn. by rewrite lookup_insert_eq.
      * rewrite lookup_alter_ne in E by done. by apply X.
  - intros [] m3 H3. cbn beta. apply pt_unlock_ret; [apply keeps_station_unlock, _|done].
Qed.
End crash.

(** ** Recovery *)

Lemma recounted_arrays m : arrays_ok None m -> arrays_ok None (recounted m).
Proof.
  intros A. assert (Hst : forall t ps', m_stats (recounted m) !! t = Some ps' -> exists ps, m_stats m !! t = Some ps /\
    sd_att (st_data ps') = sd_att (st_data ps) /\ sd_status (st_data ps') = sd_status (st_data ps) /\
    (sd_status (st_data ps) <> ET_STATION_ACTIVE -> ps' = ps)).
  { intros t ps' E. change (m_stats (recounted m)) with (m_stats (natts_upto (cf_nattachments (sys_config (m_sys m))) (cf_nstations (sys_config (m_sys m))) m)) in E.
    rewrite natts_upto_lookup in E. destruct (m_stats m !! t) as [ps|]; [|done]. injection E as <-. exists ps. split; [done|].
    unfold counted_station. destruct (t <? _); [|done]. by destruct (Z.eqb_spec (sd_status (st_data ps)) ET_STATION_ACTIVE). }
  assert (Hpr : forall p pr', sys_proc (m_sys (recounted m)) !! p = Some pr' -> exists pr, sys_proc (m_sys m) !! p = Some pr /\
    pr_att pr' = pr_att pr /\ pr_status pr' = pr_status pr /\ (pr_status pr <> ET_PROC_OPEN -> pr' = pr)).
  { intros p pr' E. change (sys_proc (m_sys (recounted m))) with (procs_upto (cf_nattachments (sys_config (m_sys m))) (cf_nprocesses (sys_config (m_sys m))) (sys_proc (m_sys m))) in E.
    rewrite procs_upto_lookup in E. destruct (sys_proc (m_sys m) !! p) as [pr|]; [|done]. injection E as <-. exists pr. split; [done|].
    unfold counted_proc. destruct (_ && _); [|done]. by destruct (Z.eqb_spec (pr_status pr) ET_PROC_OPEN). }
  split.
  - apply (ar_pos _ _ A).
  - apply (ar_dom _ _ A).
  - intros t. rewrite <- (ar_stations _ _ A t).
    change (m_stats (recounted m)) with (m_stats (natts_upto (cf_nattachments (sys_config (m_sys m))) (cf_nstations (sys_config (m_sys m))) m)).
    rewrite natts_upto_lookup. apply fmap_is_Some.
  - intros p Hp. change (sys_proc (m_sys (recounted m))) with (procs_upto (cf_nattachments (sys_config (m_sys m))) (cf_nprocesses (sys_config (m_sys m))) (sys_proc (m_sys m))).
    rewrite procs_upto_lookup. apply fmap_is_Some. by apply (ar_procs _ _ A).
  - apply (ar_known _ _ A).
  - intros t ps' i E Hi. destruct (Hst t ps' E) as (ps & E0 & -> & _). by apply (ar_att _ _ A).
  - intros t ps' E S. destruct (Hst t ps' E) as (ps & E0 & _ & S' & R). rewrite S' in S. rewrite (R S). exact (ar_idle _ _ A t ps E0 S).
  - intros p pr' i E Np Hi N. destruct (Hpr p pr' E) as (pr & E0 & -> & _). by apply (ar_proc _ _ A p pr i).
  - intros p pr' E Np. destruct (Hpr p pr' E) as (pr & E0 & Ea & Es & R).
    destruct (ar_closed _ _ A p pr E0 Np) as [[O Hp]|C]; [left; rewrite Es; done|].
    destruct (decide (pr_status pr = ET_PROC_OPEN)) as [O|O]; [|rewrite (R O); by right].
    destruct (decide (0 <= p < cf_nprocesses (sys_config (m_sys m)))) as [Hp|Hp]; [left; by rewrite Es|].
    right. assert (pr' = pr) as ->; [|done].
    change (sys_proc (m_sys (recounted m))) with (procs_upto (cf_nattachments (sys_config (m_sys m))) (cf_nprocesses (sys_config (m_sys m))) (sys_proc (m_sys m))) in E.
    rewrite procs_upto_lookup, E0 in E. injection E as <-.
    by destruct (Z.leb_spec 0 p), (Z.ltb_spec p (cf_nprocesses (sys_config (m_sys m)))); try lia.
Qed.

(** The counts and arrays agree again, all attachments of [m] are there, and at most one was added,
    that of the caller to station [s]. *)
Definition attach_recovered `{O0 : Os} (id : et_id) (s : Z) (m m' : et_mem) : Prop :=
  attach_ok m' /\ arrays_ok None m' /\ m_events m' = m_events m /\
  (forall j, in_use m j = true -> sys_attach (m_sys m') !! j = sys_attach (m_sys m) !! j) /\
  ((forall j, in_use m' j = in_use m j) \/
   exists i, in_use m i = false /\ sys_attach (m_sys m') !! i = Some (new_attach id s i) /\
     forall j, j <> i -> in_use m' j = in_use m j).

Lemma wp_recover_attachments X m1 :
  arrays_ok X m1 -> (forall i, X = Some i -> 0 <= i < cf_nattachments (sys_config (m_sys m1)) /\ in_use m1 i = true) ->
  wp (et_fix_attachments ;;; et_fix_natts)
    (fun _ m2 => m2 = recounted (wiped_if X m1) /\ attach_ok m2 /\ arrays_ok None m2) (fun _ => True) m1.
Proof.
  intros A HX. apply wp_bind. apply (wp_fix_attachments X m1 A); [intros i E; by apply HX|].
  assert (A' : arrays_ok None (wiped_if X m1)).
  { destruct X as [i|]; [|done]. destruct (HX i eq_refl) as [Hi U]. cbn. rewrite U. by apply wiped_ok. }
  destruct (ar_pos _ _ A') as (P1 & P2 & P3).
  eapply wp_mono; [apply wp_fix_natts; [apply (ar_stations _ _ A')|done..|apply (ar_procs _ _ A')]| |done].
  intros [] m2 ->. split; [done|]. split; [by apply recounted_ok|by apply recounted_arrays].
Qed.

Lemma wp_recover_left `{O0 : Os} id s m m1 :
  arrays_ok None m -> attach_left id s m m1 ->
  wp (et_fix_attachments ;;; et_fix_natts) (fun _ m2 => attach_recovered id s m m2) (fun _ => True) m1.
Proof.
  intros A0 [Ev L]. assert (N : forall m2, arrays_ok None m2 -> m_events m2 = m_events m ->
    (forall m3, attach_ok m3 -> arrays_ok None m3 -> m_events m3 = m_events m -> sys_attach (m_sys m3) = sys_attach (m_sys m2) -> attach_recovered id s m m3) ->
    wp (et_fix_attachments ;;; et_fix_natts) (fun _ m2 => attach_recovered id s m m2) (fun _ => True) m2).
  { intros m2 A E H. eapply wp_mono; [by apply (wp_recover_attachments None)| |done].
    intros [] m3 (-> & O & A3). by apply H. }
  destruct L as [S|(i & Hi & U & (_ & Ec & R) & [A Ui|A Ui|A Ea])].
  - apply N; [by apply (arrays_ok_same _ m)|done|]. intros m3 O A3 E3 Ea. rewrite (proj1 S) in Ea.
    split_and!; try done; [by intros j _; rewrite Ea|left]. intros j. unfold in_use. by rewrite Ea.
  - apply N; [done|done|]. intros m3 O A3 E3 Ea. split_and!; try done.
    + intros j Uj. rewrite Ea. apply R. congruence.
    + left. intros j. unfold in_use in *. rewrite Ea. destruct (decide (j = i)) as [->|Nj]; [congruence|by rewrite R].
  - eapply wp_mono; [apply (wp_recover_attachments (Some i)); [done|]| |done].
    { intros i' [= <-]. by rewrite Ec. }
    intros [] m3 (-> & O & A3). cbn [wiped_if] in *. rewrite Ui in *.
    assert (L : forall j, j <> i -> sys_attach (m_sys (recounted (wiped i m1))) !! j = sys_attach (m_sys m) !! j).
    { intros j Nj. cbn. rewrite lookup_alter_ne by done. by apply R. }
    split_and!; try done.
    + intros j Uj. apply L. congruence.
    + left. intros j. destruct (decide (j = i)) as [->|Nj]; [|unfold in_use; by rewrite L]. rewrite U. unfold in_use. cbn.
      rewrite lookup_alter_eq. by destruct (sys_attach (m_sys m1) !! i).
  - apply N; [done|done|]. intros m3 O A3 E3 Ea3. split_and!; try done.
    + intros j Uj. rewrite Ea3. apply R. congruence.
    + right. exists i. split_and!; [done|by rewrite Ea3|]. intros j Nj. unfold in_use. by rewrite Ea3, R.
Qed.

(** C9: when a process dies at any point of et_station_attach to an active station, et_fix_attachments
    and et_fix_natts end and make all counts and arrays agree with the attachments again: every
    attachment there was is kept as it was, and the new one is either complete or removed. *)
Theorem et_station_attach_crash_cleanup `{R0 : Remote} `{O0 : Os} id s ps m gs k :
  local_call id m -> system_ok m gs -> attach_ok m -> arrays_ok None m -> proc_open id m -> 0 <= s ->
  m_stats m !! s = Some ps -> sd_status (st_data ps) = ET_STATION_ACTIVE ->
  (exists r x m', run_crash k (et_station_attach id s true) m = Ok r x m') \/
  exists m1 x m2, run_crash k (et_station_attach id s true) m = Crashed m1 /\
    run (et_fix_attachments ;;; et_fix_natts) m1 = Ok tt x m2 /\ attach_recovered id s m m2.
Proof.
  intros L S A Ar O Hs E St. assert (K : proc_known id m) by (destruct O as [?|(pr & ? & _)]; [by left|right; by exists pr]).
  destruct (wp_pt_crash _ _ _ _ _ _ k (wp_attach id s m gs L S A K Hs) (pt_attach id s m ps (lc_local _ _ L) Ar O E St))
    as [(r & x & m' & E' & _)|(m1 & E1 & H1)]; [left; eauto|right].
  destruct (wp_run _ _ _ _ (wp_recover_left id s m m1 Ar H1)) as ([] & x & m2 & E2 & H2). exists m1, x, m2. auto.
Qed.

(** ** A concrete crash *)

Section procs.
Context (procs : gmap Z et_proc) (m : et_mem).

Lemma with_procs_system gs : system_ok m gs -> system_ok (with_procs procs m) gs.
Proof. by apply system_ok_upd_sys. Qed.

Lemma with_procs_attach :
  attach_ok m -> (forall j, in_use m j = false) -> (forall p pr, procs !! p = Some pr -> pr_nattachments pr = 0) ->
  attach_ok (with_procs procs m).
Proof.
  intros [H1 H2 H3 H4 _ H6] U N. split; [exact H1|exact H2|exact H3|exact H4| |exact H6].
  intros p pr E _. rewrite (N p pr E). symmetry. apply count_none. intros j. apply not_belongs, U.
Qed.

Lemma with_procs_arrays gs :
  system_ok m gs -> attach_ok m -> (forall j, in_use m j = false) ->
  0 <= cf_nattachments (sys_config (m_sys m)) -> 0 <= cf_nstations (sys_config (m_sys m)) -> 0 <= cf_nprocesses (sys_config (m_sys m)) ->
  (forall p, 0 <= p < cf_nprocesses (sys_config (m_sys m)) -> is_Some (procs !! p)) ->
  (forall p pr, procs !! p = Some pr -> pr_att pr = ∅ /\ pr_nattachments pr = 0) ->
  (forall t ps, m_stats m !! t = Some ps -> sd_att (st_data ps) = ∅ /\ sd_nattachments (st_data ps) = 0) ->
  arrays_ok None (with_procs procs m).
Proof.
  intros [_ S] A U P1 P2 P3 D Pp Ps. split; [done|exact (ao_dom _ A)|exact (ss_dom _ _ S)|exact D|..].
  - intros i a _ _ E N. specialize (U i). unfold in_use in U. cbn in E. rewrite E in U.
    by apply negb_false_iff, Z.eqb_eq in U.
  - intros t ps i E Hi. rewrite bool_decide_false by done. exact (ao_att _ A t ps i E Hi).
  - intros t ps E _. destruct (Ps t ps E) as [-> ->]. auto.
  - intros p pr i E _ _ _. destruct (Pp p pr E) as [-> _]. by rewrite (not_belongs (with_procs procs m) i (U i)).
  - intros p pr E _. right. destruct (Pp p pr E) as [-> ->]. auto.
Qed.
End procs.

(** [system2] with all its processes. *)
Definition procs5 : gmap Z et_proc :=
  {[ 0 := proc0 0; 1 := set_pr_status ET_PROC_CLOSED (proc0 1);
     2 := set_pr_status ET_PROC_CLOSED (proc0 2); 3 := set_pr_status ET_PROC_CLOSED (proc0 3) ]}.
Definition system5 : et_mem := with_procs procs5 system2.

Lemma procs5_none p pr : procs5 !! p = Some pr -> pr_att pr = ∅ /\ pr_nattachments pr = 0.
Proof.
  assert (H : map_Forall (fun _ pr => pr_att pr = ∅ /\ pr_nattachments pr = 0) procs5).
  { repeat (apply map_Forall_insert_2; [done|]). by apply map_Forall_empty. }
  apply H.
Qed.

Lemma system2_stations s ps : m_stats system2 !! s = Some ps -> sd_att (st_data ps) = ∅ /\ sd_nattachments (st_data ps) = 0.
Proof.
  intros E. destruct (proj1 (ss_dom _ _ (proj2 system2_ok) s)) as [H1 H2]; [eauto|].
  assert (s = 0 \/ s = 1 \/ s = 2 \/ s = 3 \/ s = 4) as X by (cbn in H2; lia).
  destruct X as [->|[->|[->|[->| ->]]]]; injection E as <-; auto.
Qed.

Lemma system5_ok : system_ok system5 groups0.
Proof. exact (with_procs_system procs5 system2 groups0 system2_ok). Qed.

Lemma system5_attach : attach_ok system5.
Proof. exact (with_procs_attach procs5 system2 system2_attach system2_unused (fun p pr E => proj2 (procs5_none p pr E))). Qed.

Lemma system5_arrays : arrays_ok None system5.
Proof.
  apply (with_procs_arrays procs5 system2 groups0 system2_ok system2_attach system2_unused); [done..| |exact procs5_none|exact system2_stations].
  intros p Hp. assert (p = 0 \/ p = 1 \/ p = 2 \/ p = 3) as X by (cbn in Hp; lia).
  destruct X as [->|[->|[->| ->]]]; by eexists.
Qed.

(** The process dies before the store on the list of the station. *)
Lemma et_station_attach_crash_cleanup_witness :
  exists m1 x m2, run_crash 28 (et_station_attach (O0 := os0) id0 3 true) system5 = Crashed m1 /\
    run (et_fix_attachments ;;; et_fix_natts) m1 = Ok tt x m2 /\ attach_recovered (O0 := os0) id0 3 system5 m2.
Proof.
  assert (O : proc_open id0 system5) by (right; exists (proc0 0); split_and!; done).
  destruct (et_station_attach_crash_cleanup (O0 := os0) id0 3 (default (stat0 3) (m_stats system5 !! 3)) system5 groups0 28
    (mkLocalCall id0 system5 eq_refl eq_refl ltac:(done)) system5_ok system5_attach system5_arrays O ltac:(lia) eq_refl eq_refl)
    as [(st & x & m' & E)|X]; [|exact X].
  exfalso. assert (Y : match run_crash 28 (et_station_attach (O0 := os0) id0 3 true) system5 with Crashed _ => true | _ => false end = true)
    by (vm_compute; reflexivity). by rewrite E in Y.
Defined.

(** To an idle station: a process that dies before it makes the station active leaves it with one
    attachment that no longer exists, since et_fix_natts passes over stations that are not active. *)
Example attach_idle_crash_stale :
  let m0 := upd_stat 3 (in_data (set_sd_status ET_STATION_IDLE)) system5 in
  exists m1 x m2, run_crash 31 (et_station_attach (O0 := os0) id0 3 true) m0 = Crashed m1 /\
    run (et_fix_attachments ;;; et_fix_natts) m1 = Ok tt x m2 /\
    sys_nattachments (m_sys m2) = 0 /\ in_use m2 0 = false /\
    stf (fun ps => sd_status (st_data ps)) m2 3 = ET_STATION_IDLE /\
    stf (fun ps => sd_nattachments (st_data ps)) m2 3 = 1.
Proof. do 3 eexists. split; [vm_compute; reflexivity|]. split; [vm_compute; reflexivity|]. split_and!; vm_compute; reflexivity. Qed.
