(* ===== verification/Attachment.v ===== *)
(** * Waking up attachments and counting their events

    et_attachment.c: the functions that wake up one attachment or all attachments of a station that
    wait for events, and those that give the numbers of events an attachment put, got, dumped and
    made. *)
From stdpp Require Import base gmap strings list.
From S2P Require Import Prelude Types Machine EvList Sample StatConfig Stats Chain Api StationApi Init Station StationSpec Attach.
Open Scope Z_scope.

Section attachment.
Context `{R0 : Remote}.

(** ** Waking up *)

(** The attachment waits for events, or its remote reader sleeps between two tries. *)
Definition waiting (a : et_attach) : bool :=
  (at_blocked a =? ET_ATT_BLOCKED) || (at_sleep a =? ET_ATT_SLEEP).

(** The broadcasts wake up the readers of the station and of GrandCentral. *)
Definition wake_lists (stat_id : Z) : M unit :=
  signal_cread (LIn stat_id) ;;;
  signal_cread (LIn ET_GRANDCENTRAL).

Definition et_wakeup_attachment (id : et_id) (att : Z) : M Z :=
  if att <? 0 then ret ET_ERROR
  else if negb (id_locality id =? ET_LOCAL) then etr_wakeup_attachment id att
  else
    locked_call id (fun e => e)
      (let* a := ld_attach att in
       let stat_id := at_stat a in
       let* y := ld_sys in
       if cf_nattachments (sys_config y) <=? att then ret ET_ERROR
       else if (at_blocked a =? ET_ATT_UNBLOCKED) && (at_sleep a =? ET_ATT_NOSLEEP) then ret ET_OK
       else
         str_attach att (set_at_quit ET_ATT_QUIT) ;;;
         wake_lists stat_id ;;;
         ret ET_OK).

(** for (i=0; i < nattachments; i++): the attachments of the station that wait shall quit. *)
Fixpoint wakeup_loop (n : nat) (stat_id i : Z) : M unit :=
  match n with
  | O => ret tt
  | S n' =>
      let* ps := ld_stat stat_id in
      let att := default (-1) (sd_att (st_data ps) !! i) in
      (if -1 <? att then
         let* a := ld_attach att in
         when (waiting a) (str_attach att (set_at_quit ET_ATT_QUIT))
       else ret tt) ;;;
      wakeup_loop n' stat_id (i + 1)
  end.

Definition et_wakeup_all (id : et_id) (stat_id : Z) : M Z :=
  if stat_id <? 0 then ret ET_ERROR
  else if negb (id_locality id =? ET_LOCAL) then etr_wakeup_all id stat_id
  else
    locked_call id (fun e => e)
      (let* y := ld_sys in
       if cf_nstations (sys_config y) <=? stat_id then ret ET_ERROR
       else
         wakeup_loop (Z.to_nat (cf_nattachments (sys_config y))) stat_id 0 ;;;
         wake_lists stat_id ;;;
         ret ET_OK).

(** ** The numbers of events *)

Definition attach_read (remote : et_id -> Z -> M (Z * option Z)) (get : et_attach -> Z)
    (id : et_id) (att_id : Z) (given : bool) : M (Z * option Z) :=
  if id_locality id =? ET_REMOTE then remote id att_id
  else
    alive_call id (fun e => (e, None))
      (let* y := ld_sys in
       if (att_id <? 0) || (cf_nattachments (sys_config y) <=? att_id) then ret (ET_ERROR, None)
       else if given then let* a := ld_attach att_id in ret (ET_OK, Some (get a))
       else ret (ET_OK, None)).

Definition et_attach_geteventsput := attach_read etr_attach_geteventsput at_events_put.
Definition et_attach_geteventsget := attach_read etr_attach_geteventsget at_events_get.
Definition et_attach_geteventsdump := attach_read etr_attach_geteventsdump at_events_dump.
Definition et_attach_geteventsmake := attach_read etr_attach_geteventsmake at_events_make.

(** ** Correctness *)

(** The attachments of the station below [n] that wait shall quit. *)
Definition woken_attach (s : Z) (n : Z) (j : Z) (a : et_attach) : et_attach :=
  if (0 <=? j) && (j <? n) && negb (at_num a =? -1) && at_station s a && waiting a
  then set_at_quit ET_ATT_QUIT a else a.
Definition woken (s : Z) (n : Z) (m : et_mem) : et_mem :=
  upd_sys (fun y => set_sys_attach (map_imap (fun j a => Some (woken_attach s n j a)) (sys_attach y)) y) m.

Definition signalled (s : Z) : et_mem -> et_mem :=
  upd_list (LIn s) (fun L => set_l_cread (S (l_cread L)) L).

Lemma woken_lookup s n m j :
  sys_attach (m_sys (woken s n m)) !! j = woken_attach s n j <$> sys_attach (m_sys m) !! j.
Proof. cbn. rewrite map_lookup_imap. by destruct (sys_attach (m_sys m) !! j). Qed.

Lemma woken_ext s m m1 n :
  (forall j, sys_attach (m_sys m1) !! j = woken_attach s n j <$> sys_attach (m_sys m) !! j) ->
  woken s n m = upd_sys (set_sys_attach (sys_attach (m_sys m1))) m.
Proof.
  intros H. unfold woken, upd_sys. do 2 f_equal. apply map_eq. intros j. rewrite H, map_lookup_imap.
  by destruct (sys_attach (m_sys m) !! j).
Qed.

Lemma woken_next_same s i m :
  (forall a, sys_attach (m_sys m) !! i = Some a -> woken_attach s (i + 1) i a = a) -> woken s (i + 1) m = woken s i m.
Proof.
  intros H. unfold woken, upd_sys. do 2 f_equal. apply map_eq. intros j. rewrite !map_lookup_imap.
  destruct (sys_attach (m_sys m) !! j) as [a|] eqn:E; simpl; [|done]. f_equal.
  destruct (decide (j = i)) as [->|N].
  - rewrite (H a E). unfold woken_attach. by rewrite Z.ltb_irrefl, andb_false_r.
  - unfold woken_attach. by replace (j <? i + 1) with (j <? i) by (destruct (Z.ltb_spec j i), (Z.ltb_spec j (i + 1)); lia || done).
Qed.

Lemma woken_next s i m a :
  0 <= i -> sys_attach (m_sys m) !! i = Some a -> at_num a <> -1 -> at_stat a = s -> waiting a = true ->
  upd_attach i (set_at_quit ET_ATT_QUIT) (woken s i m) = woken s (i + 1) m.
Proof.
  intros Hi E N St W.
  enough (X : alter (set_at_quit ET_ATT_QUIT) i (map_imap (fun j a => Some (woken_attach s i j a)) (sys_attach (m_sys m))) =
    map_imap (fun j a => Some (woken_attach s (i + 1) j a)) (sys_attach (m_sys m))).
  { unfold woken, upd_attach, upd_sys, set_m_sys, set_sys_attach. cbn. by rewrite X. }
  apply map_eq. intros j. rewrite map_lookup_imap. destruct (decide (i = j)) as [<-|Nj].
  - rewrite lookup_alter_eq, map_lookup_imap, E. simpl. f_equal. unfold woken_attach, at_station.
    rewrite Z.ltb_irrefl, andb_false_r. simpl. rewrite W, St, Z.eqb_refl.
    destruct (Z.leb_spec 0 i), (Z.ltb_spec i (i + 1)), (Z.eqb_spec (at_num a) (-1)); done || lia.
  - rewrite lookup_alter_ne, map_lookup_imap by done. destruct (sys_attach (m_sys m) !! j) as [b|]; simpl; [|done].
    f_equal. unfold woken_attach.
    by replace (j <? i + 1) with (j <? i) by (destruct (Z.ltb_spec j i), (Z.ltb_spec j (i + 1)); lia || done).
Qed.

Lemma wp_wakeup_loop s ps m (n : nat) i (Q : unit -> et_mem -> Prop) :
  attach_ok m -> m_stats m !! s = Some ps -> 0 <= i ->
  i + Z.of_nat n = cf_nattachments (sys_config (m_sys m)) ->
  Q tt (woken s (cf_nattachments (sys_config (m_sys m))) m) ->
  wp (wakeup_loop n s i) Q (fun _ => True) (woken s i m).
Proof.
  intros A E Hi Hn HQ. revert i Hi Hn. induction n as [|n IH]; intros i Hi Hn; simpl.
  - apply wp_ret. by replace i with (cf_nattachments (sys_config (m_sys m))) by lia.
  - apply wp_bind. eapply wps_ld_stat; [exact E|].
    assert (Hr : 0 <= i < cf_nattachments (sys_config (m_sys m))) by lia.
    destruct (ao_dom _ A i Hr) as [a Ea]. rewrite (ao_att _ A s ps i E Hr).
    assert (B : belongs (at_station s) m i = negb (at_num a =? -1) && at_station s a) by (unfold belongs; by rewrite Ea).
    assert (Wi : sys_attach (m_sys (woken s i m)) !! i = Some a).
    { rewrite woken_lookup, Ea. simpl. unfold woken_attach. by rewrite Z.ltb_irrefl, andb_false_r. }
    apply wp_bind. destruct (belongs _ m i).
    + symmetry in B. apply andb_true_iff in B as [B1 B2]. destruct (Z.ltb_spec (-1) i); [|lia].
      apply wp_bind. unfold ld_attach. apply wp_bind, wps_ld_sys. eapply wp_of_option; [exact Wi|].
      apply wp_when. destruct (waiting a) eqn:Wa.
      * eapply wps_str_attach; [exact Wi|done|]. rewrite (woken_next s i m a); try done.
        -- apply IH; lia.
        -- by apply negb_true_iff, Z.eqb_neq in B1.
        -- by apply Z.eqb_eq.
      * rewrite <- woken_next_same; [apply IH; lia|]. intros a' Ea'. rewrite Ea in Ea'. injection Ea' as <-.
        unfold woken_attach. by rewrite Wa, andb_false_r.
    + simpl. apply wp_ret. rewrite <- woken_next_same; [apply IH; lia|]. intros a' Ea'. rewrite Ea in Ea'. injection Ea' as <-.
      unfold woken_attach. rewrite <- (andb_assoc _ (negb _)), <- B. by rewrite andb_false_r.
Qed.

Lemma wp_wake_lists s m (Q : unit -> et_mem -> Prop) :
  is_Some (m_stats m !! s) -> is_Some (m_stats m !! ET_GRANDCENTRAL) ->
  Q tt (signalled ET_GRANDCENTRAL (signalled s m)) -> wp (wake_lists s) Q (fun _ => True) m.
Proof.
  intros [ps E] G H. unfold wake_lists, signal_cread. apply wp_bind. eapply (wps_str_list _ (LIn s)); [exact E|done|].
  destruct (is_Some_upd_stat s (fun S => set_st_list (LIn s) ((fun L => set_l_cread (Datatypes.S (l_cread L)) L) (st_list (LIn s) S)) S)
    m ET_GRANDCENTRAL G) as [pg Eg].
  eapply (wps_str_list _ (LIn ET_GRANDCENTRAL)); [exact Eg|done|]. exact H.
Qed.


Lemma woken_0 s m : woken s 0 m = m.
Proof.
  unfold woken, upd_sys. destruct m as [[] st h e r]. cbn. unfold set_m_sys, set_sys_attach. cbn. do 2 f_equal.
  apply map_eq. intros j. rewrite map_lookup_imap. destruct (_ !! j) as [a|]; simpl; [|done].
  unfold woken_attach. destruct (Z.leb_spec 0 j), (Z.ltb_spec j 0); done || lia.
Qed.

Lemma attach_ok_rwlock k m : attach_ok m -> attach_ok (set_m_rwlock k m).
Proof. intros [A1 A2 A3 A4 A5 A6]. by split. Qed.

Lemma wp_wakeup_all id s m gs :
  local_call id m -> system_ok m gs -> attach_ok m -> 0 <= s < cf_nstations (sys_config (m_sys m)) ->
  0 <= cf_nattachments (sys_config (m_sys m)) ->
  wp (et_wakeup_all id s)
    (fun st m' =>
       if negb (id_closed id =? 0) then st = ET_ERROR_CLOSED /\ m' = m
       else st = ET_OK /\
         m' = signalled ET_GRANDCENTRAL (signalled s (woken s (cf_nattachments (sys_config (m_sys m))) m)))
    (fun _ => True) m.
Proof.
  intros L [C S] A Hs Hn. unfold et_wakeup_all. destruct (Z.ltb_spec s 0); [lia|]. rewrite (lc_local _ _ L). simpl.
  apply (wp_locked_call id m L). destruct (negb _); [done|].
  set (m1 := set_m_rwlock (m_rwlock m + 1) m). destruct (proj2 (ss_dom _ _ S s) Hs) as [ps E].
  apply wp_bind, wps_ld_sys. cbn [m_sys m1 set_m_rwlock]. destruct (Z.leb_spec (cf_nstations (sys_config (m_sys m))) s); [lia|].
  apply wp_bind. rewrite <- (woken_0 s m1). apply (wp_wakeup_loop s ps); [by apply attach_ok_rwlock|exact E|lia|simpl; lia|].
  assert (G : is_Some (m_stats m !! ET_GRANDCENTRAL)).
  { destruct (ch_gc _ _ C) as [gs' Eg]. destruct (ch_stat _ _ C ET_GRANDCENTRAL) as (_ & pg & X & _); [|by exists pg].
    rewrite Eg. by left. }
  apply wp_bind, wp_wake_lists; [by exists ps|exact G|]. apply wp_ret. split; [done|]. split; [done|].
  cbn [m_sys m1 set_m_rwlock]. by destruct m.
Qed.

Lemma wp_wakeup_attachment id i a m gs :
  local_call id m -> system_ok m gs -> attach_ok m -> 0 <= i < cf_nattachments (sys_config (m_sys m)) ->
  sys_attach (m_sys m) !! i = Some a -> at_stat a ∈ members gs ->
  wp (et_wakeup_attachment id i)
    (fun st m' =>
       if negb (id_closed id =? 0) then st = ET_ERROR_CLOSED /\ m' = m
       else st = ET_OK /\
         m' = if (at_blocked a =? ET_ATT_UNBLOCKED) && (at_sleep a =? ET_ATT_NOSLEEP) then m
              else signalled ET_GRANDCENTRAL (signalled (at_stat a) (upd_attach i (set_at_quit ET_ATT_QUIT) m)))
    (fun _ => True) m.
Proof.
  intros L [C S] A Hi E Hs. unfold et_wakeup_attachment. destruct (Z.ltb_spec i 0); [lia|]. rewrite (lc_local _ _ L). simpl.
  apply (wp_locked_call id m L). destruct (negb _); [done|].
  apply wp_bind. unfold ld_attach. apply wp_bind, wps_ld_sys. eapply wp_of_option; [exact E|].
  apply wp_bind, wps_ld_sys. cbn [m_sys set_m_rwlock]. destruct (Z.leb_spec (cf_nattachments (sys_config (m_sys m))) i); [lia|].
  destruct (_ && _).
  - apply wp_ret. split_and!; [done|done|]. by rewrite set_m_rwlock_back.
  - apply wp_bind. eapply wps_str_attach; [exact E|done|].
    destruct (ch_stat _ _ C _ Hs) as (_ & ps & Es & _).
    assert (G : is_Some (m_stats m !! ET_GRANDCENTRAL)).
    { destruct (ch_gc _ _ C) as [gs' Eg]. destruct (ch_stat _ _ C ET_GRANDCENTRAL) as (_ & pg & X & _); [|by exists pg].
      rewrite Eg. by left. }
    apply wp_bind, wp_wake_lists; [by exists ps|exact G|]. apply wp_ret. split_and!; [done|done|].
    by destruct m.
Qed.
End attachment.

(** Et_wakeup_all tells exactly the attachments of the station that wait to quit, and wakes up the
    readers of the station and of GrandCentral; it changes nothing else. *)
Theorem et_wakeup_all_spec `{R0 : Remote} id s m gs :
  local_call id m -> system_ok m gs -> attach_ok m -> 0 <= s < cf_nstations (sys_config (m_sys m)) ->
  0 <= cf_nattachments (sys_config (m_sys m)) ->
  wp (et_wakeup_all id s)
    (fun st m' =>
       if negb (id_closed id =? 0) then st = ET_ERROR_CLOSED /\ m' = m
       else st = ET_OK /\
         m' = signalled ET_GRANDCENTRAL (signalled s (woken s (cf_nattachments (sys_config (m_sys m))) m)))
    (fun _ => True) m.
Proof. apply wp_wakeup_all. Qed.

(** Et_wakeup_attachment tells the attachment to quit and wakes up the readers of its station and
    of GrandCentral if it waits; otherwise it changes nothing, so that no later read is disturbed. *)
Theorem et_wakeup_attachment_spec `{R0 : Remote} id i a m gs :
  local_call id m -> system_ok m gs -> attach_ok m -> 0 <= i < cf_nattachments (sys_config (m_sys m)) ->
  sys_attach (m_sys m) !! i = Some a -> at_stat a ∈ members gs ->
  wp (et_wakeup_attachment id i)
    (fun st m' =>
       if negb (id_closed id =? 0) then st = ET_ERROR_CLOSED /\ m' = m
       else st = ET_OK /\
         m' = if (at_blocked a =? ET_ATT_UNBLOCKED) && (at_sleep a =? ET_ATT_NOSLEEP) then m
              else signalled ET_GRANDCENTRAL (signalled (at_stat a) (upd_attach i (set_at_quit ET_ATT_QUIT) m)))
    (fun _ => True) m.
Proof. apply wp_wakeup_attachment. Qed.

(** [system2] with attachment 0 at station 3, which waits for events. *)
Definition system3 : et_mem :=
  upd_attach 0 (set_at_blocked ET_ATT_BLOCKED) (attached (O0 := os0) id0 3 0 system2).

(** Stores that leave who an attachment belongs to. *)
Lemma attach_ok_upd i f m :
  (forall a, at_num (f a) = at_num a /\ at_stat (f a) = at_stat a /\ at_proc (f a) = at_proc a) ->
  attach_ok m -> attach_ok (upd_attach i f m).
Proof.
  intros Hf [A1 A2 A3 A4 A5 A6].
  assert (Hl : forall j, sys_attach (m_sys (upd_attach i f m)) !! j =
    (if decide (i = j) then f else fun a => a) <$> sys_attach (m_sys m) !! j).
  { intros j. cbn. destruct (decide (i = j)) as [<-|N]; [by rewrite lookup_alter_eq|rewrite lookup_alter_ne by done].
    by destruct (_ !! j). }
  assert (Hb : forall g j, (forall a, g (f a) = g a) -> belongs g (upd_attach i f m) j = belongs g m j).
  { intros g j Hg. unfold belongs. rewrite Hl. destruct (sys_attach (m_sys m) !! j) as [a|]; simpl; [|done].
    destruct (decide (i = j)); [|done]. destruct (Hf a) as (-> & _). by rewrite Hg. }
  assert (Hu : forall j, in_use (upd_attach i f m) j = in_use m j).
  { intros j. unfold in_use. rewrite Hl. destruct (sys_attach (m_sys m) !! j) as [a|]; simpl; [|done].
    destruct (decide (i = j)); [|done]. by destruct (Hf a) as (-> & _). }
  assert (Hs : forall s j, belongs (at_station s) (upd_attach i f m) j = belongs (at_station s) m j).
  { intros s j. apply Hb. intros a. unfold at_station. by destruct (Hf a) as (_ & -> & _). }
  split.
  - intros j Hj. rewrite Hl. destruct (A1 j Hj) as [a ->]. by eexists.
  - rewrite (count_ext _ _ _ (fun j _ => Hu j)). exact A2.
  - intros s ps E. rewrite (count_ext _ _ _ (fun j _ => Hs s j)). by apply A3.
  - intros s ps j E Hj. rewrite Hs. by apply A4.
  - intros p pr E Np. rewrite (count_ext _ (belongs (at_process p) m)); [by apply A5|].
    intros j _. apply Hb. intros a. unfold at_process. by destruct (Hf a) as (_ & _ & ->).
  - exact A6.
Qed.

Lemma system_ok_upd_attach i f m gs : system_ok m gs -> system_ok (upd_attach i f m) gs.
Proof. intros H. by apply system_ok_upd_sys. Qed.

Lemma system2_stat3 : m_stats system2 !! 3 = Some (chain0_station 3 (-1) 1 (-1) (-1) ET_STATION_SERIAL).
Proof. vm_compute. reflexivity. Qed.

Lemma system3_ok : system_ok system3 groups0.
Proof.
  apply system_ok_upd_attach.
  apply (attached_system (O0 := os0) id0 system2 groups0 3 0 _ system2_ok system2_stat3 (or_introl eq_refl)).
Qed.

Lemma system3_attach : attach_ok system3.
Proof.
  apply attach_ok_upd; [by intros []|].
  apply (attached_ok (O0 := os0) id0 system2 3 0 _ system2_attach system2_stat3); [cbn; lia|apply system2_unused].
Qed.

Lemma system3_local : local_call id0 system3.
Proof. split; vm_compute; congruence. Qed.

Lemma et_wakeup_all_spec_witness :
  exists x m', run (et_wakeup_all id0 3) system3 = Ok ET_OK x m' /\
    (at_quit <$> sys_attach (m_sys m') !! 0) = Some ET_ATT_QUIT.
Proof.
  destruct (wp_run _ _ _ _ (et_wakeup_all_spec id0 3 system3 groups0 system3_local system3_ok system3_attach
    ltac:(by_eval) ltac:(by_eval))) as (st & x & m' & E & -> & ->).
  eexists _, _. split; [exact E|vm_compute; reflexivity].
Defined.

Lemma et_wakeup_attachment_spec_witness :
  exists x m', run (et_wakeup_attachment id0 0) system3 = Ok ET_OK x m' /\
    (at_quit <$> sys_attach (m_sys m') !! 0) = Some ET_ATT_QUIT.
Proof.
  destruct (wp_run _ _ _ _ (et_wakeup_attachment_spec id0 0 (set_at_blocked ET_ATT_BLOCKED (new_attach (O0 := os0) id0 3 0))
    system3 groups0 system3_local system3_ok system3_attach ltac:(by_eval) eq_refl ltac:(by_eval))) as (st & x & m' & E & -> & ->).
  eexists _, _. split; [exact E|vm_compute; reflexivity].
Defined.
