(* ===== verification/SysConfig.v ===== *)
(** * Configurations of ET systems

    et_sysconfig.c: the configuration object that a user fills before starting a system, the check
    that the system makes on it (et_system_config_check of et_system.c), and the functions that give
    information about a running system.  A handle that may be NULL is an option; a setter returns its
    status and the object afterwards. *)
From stdpp Require Import base gmap strings list.
From Stdlib Require Import Ascii.
From S2P Require Import Prelude Types Machine EvList Sample StatConfig Stats Api StationApi.
Open Scope Z_scope.

(** ** The configuration object *)

(** A setter: a good handle, then the test and the assignments of [set], or [None] for an error that
    leaves the object as it is. *)
Definition sy_set (set : et_sys_config -> option et_sys_config) (sconfig : option et_sys_config) :
    Z * option et_sys_config :=
  match sconfig with
  | None => (ET_ERROR, sconfig)
  | Some sc =>
      if negb (cf_init sc =? ET_STRUCT_OK) then (ET_ERROR, sconfig)
      else match set sc with
           | Some sc' => (ET_OK, Some sc')
           | None => (ET_ERROR, sconfig)
           end
  end.

Definition sy_get {V} (get : et_sys_config -> V) (sconfig : option et_sys_config) (val_given : bool) : Z * option V :=
  match sconfig with
  | None => (ET_ERROR, None)
  | Some sc =>
      if negb val_given || negb (cf_init sc =? ET_STRUCT_OK) then (ET_ERROR, None) else (ET_OK, Some (get sc))
  end.

(** calloc and memset: the array of groups is filled with zeros. *)
Definition groups_zero : list Z := replicate (Z.to_nat ET_EVENT_GROUPS_MAX) 0.

(** The default configuration: all the events are in one group. *)
Definition sysconfig_default : et_sys_config :=
  mkSysConfig ET_SYSTEM_ESIZE ET_STRUCT_OK ET_SYSTEM_EVENTS ET_SYSTEM_NTEMPS
    ET_SYSTEM_NSTATS ET_PROCESSES_MAX ET_ATTACHMENTS_MAX 1 (<[0%nat := ET_SYSTEM_EVENTS]> groups_zero)
    EmptyString ET_UDP_PORT ET_SERVER_PORT 0 0 1 [].

(** [calloc_ok]: the allocation succeeded; [bcast_count]: the number of broadcast addresses that
    etNetGetBroadcastAddrs found. *)
Definition et_system_config_init (calloc_ok : bool) (bcast_count : Z) : Z * option et_sys_config :=
  if negb calloc_ok then (ET_ERROR, None)
  else if ET_MAXADDRESSES <=? bcast_count then (ET_ERROR_NOMEM, None)
  else (ET_OK, Some sysconfig_default).

Definition et_system_config_setevents (sconfig : option et_sys_config) (val : Z) :=
  sy_set (fun sc =>
    if val <? 1 then None
    else
      let sc := set_cf_nevents val sc in
      let sc := if cf_groupCount sc =? 1 then set_cf_groups (<[0%nat := val]> (cf_groups sc)) sc else sc in
      Some (if val <? cf_ntemps sc then set_cf_ntemps val sc else sc)) sconfig.
Definition et_system_config_getevents := sy_get cf_nevents.

Definition et_system_config_setsize (sconfig : option et_sys_config) (val : Z) :=
  sy_set (fun sc => if val <? 1 then None else Some (set_cf_event_size val sc)) sconfig.
Definition et_system_config_getsize := sy_get cf_event_size.

Definition et_system_config_settemps (sconfig : option et_sys_config) (val : Z) :=
  sy_set (fun sc => if (val <? 1) || (cf_nevents sc <? val) then None else Some (set_cf_ntemps val sc)) sconfig.
Definition et_system_config_gettemps := sy_get cf_ntemps.

Definition et_system_config_setstations (sconfig : option et_sys_config) (val : Z) :=
  sy_set (fun sc => if val <? 1 then None else Some (set_cf_nstations val sc)) sconfig.
Definition et_system_config_getstations := sy_get cf_nstations.

Definition et_system_config_setprocs (sconfig : option et_sys_config) (val : Z) :=
  sy_set (fun sc => if val <? 1 then None
                    else Some (set_cf_nprocesses (if ET_PROCESSES_MAX <? val then ET_PROCESSES_MAX else val) sc)) sconfig.
Definition et_system_config_getprocs := sy_get cf_nprocesses.

Definition et_system_config_setattachments (sconfig : option et_sys_config) (val : Z) :=
  sy_set (fun sc => if val <? 1 then None
                    else Some (set_cf_nattachments (if ET_ATTACHMENTS_MAX <? val then ET_ATTACHMENTS_MAX else val) sc)) sconfig.
Definition et_system_config_getattachments := sy_get cf_nattachments.

Definition bad_port (val : Z) : bool := (val <? 1024) || (65535 <? val).
Definition et_system_config_setport (sconfig : option et_sys_config) (val : Z) :=
  sy_set (fun sc => if bad_port val then None else Some (set_cf_port val sc)) sconfig.
Definition et_system_config_getport := sy_get cf_port.
Definition et_system_config_setserverport (sconfig : option et_sys_config) (val : Z) :=
  sy_set (fun sc => if bad_port val then None else Some (set_cf_serverport val sc)) sconfig.
Definition et_system_config_getserverport := sy_get cf_serverport.

(** groups[i] is copied until one is less than 1: the array and whether all were copied. *)
Fixpoint copy_groups (i : nat) (groups : list Z) (old : list Z) : list Z * bool :=
  match groups with
  | [] => (old, true)
  | g :: groups' => if g <? 1 then (old, false) else copy_groups (S i) groups' (<[i := g]> old)
  end.

(** The first [size] elements of [groups] are there; [None] is NULL.  An error in an element leaves
    the groups before it changed. *)
Definition et_system_config_setgroups (sconfig : option et_sys_config) (groups : option (list Z)) (size : Z) :
    Z * option et_sys_config :=
  match sconfig with
  | None => (ET_ERROR, sconfig)
  | Some sc =>
      if negb (cf_init sc =? ET_STRUCT_OK) then (ET_ERROR, sconfig)
      else if size =? 1 then (ET_OK, Some (set_cf_groupCount 1 (set_cf_groups groups_zero sc)))
      else
        match groups with
        | None => (ET_ERROR, sconfig)
        | Some gs =>
            if (ET_EVENT_GROUPS_MAX <? size) || (size <? 1) then (ET_ERROR, sconfig)
            else
              let (copied, ok) := copy_groups 0 (take (Z.to_nat size) gs) (cf_groups sc) in
              if ok then
                (ET_OK, Some (set_cf_groupCount size (set_cf_groups
                   (take (Z.to_nat size) copied ++ replicate (Z.to_nat (ET_EVENT_GROUPS_MAX - size)) 0) sc)))
              else (ET_ERROR, Some (set_cf_groups copied sc))
        end
  end.

Definition et_system_config_settcp (sconfig : option et_sys_config) (rBufSize sBufSize noDelay : Z) :=
  sy_set (fun sc =>
    if (rBufSize <? 0) || (sBufSize <? 0) then None
    else Some (set_cf_tcpNoDelay (if noDelay =? 0 then 0 else 1)
                 (set_cf_tcpSendBufSize sBufSize (set_cf_tcpRecvBufSize rBufSize sc)))) sconfig.
(** The values of the pointers that are not NULL. *)
Definition et_system_config_gettcp (sconfig : option et_sys_config) (r s n : bool) :
    Z * option Z * option Z * option Z :=
  match sconfig with
  | None => (ET_ERROR, None, None, None)
  | Some sc =>
      if negb (cf_init sc =? ET_STRUCT_OK) then (ET_ERROR, None, None, None)
      else (ET_OK, if r then Some (cf_tcpRecvBufSize sc) else None,
                   if s then Some (cf_tcpSendBufSize sc) else None,
                   if n then Some (cf_tcpNoDelay sc) else None)
  end.

(** ** Multicast addresses *)

(** atoi: blanks, a sign, digits. *)
Definition is_space (c : ascii) : bool :=
  let n := Z.of_nat (nat_of_ascii c) in (n =? 32) || ((9 <=? n) && (n <=? 13)).
Definition digit (c : ascii) : option Z :=
  let n := Z.of_nat (nat_of_ascii c) in if (48 <=? n) && (n <=? 57) then Some (n - 48) else None.
Fixpoint atoi_digits (acc : Z) (s : string) : Z :=
  match s with
  | EmptyString => acc
  | String c s' => match digit c with Some d => atoi_digits (acc * 10 + d) s' | None => acc end
  end.
Fixpoint atoi (s : string) : Z :=
  match s with
  | EmptyString => 0
  | String c s' =>
      if is_space c then atoi s'
      else if Ascii.eqb c "-" then - atoi_digits 0 s'
      else if Ascii.eqb c "+" then atoi_digits 0 s'
      else atoi_digits 0 s
  end.

(** The part of [val] before its first period. *)
Fixpoint before_period (val : string) : string :=
  match val with
  | EmptyString => EmptyString
  | String c s => if Ascii.eqb c "." then EmptyString else String c (before_period s)
  end.

(** The test of a multicast address: its first number is copied to a buffer of four bytes, which a
    longer one overflows ([None]). *)
Definition mcast_valid (val : string) : option bool :=
  if (ET_IPADDRSTRLEN <=? strlen val) || (strlen val <? 7) then Some false
  else
    let firstint := before_period val in
    if 3 <? strlen firstint then None
    else let n := atoi firstint in Some (negb ((n <? 224) || (239 <? n))).

(** [None]: a write behind the buffer. *)
Definition mcast_change (change : string -> list string -> option (list string))
    (sconfig : option et_sys_config) (val : option string) : option (Z * option et_sys_config) :=
  match sconfig with
  | None => Some (ET_ERROR, sconfig)
  | Some sc =>
      if negb (cf_init sc =? ET_STRUCT_OK) then Some (ET_ERROR, sconfig)
      else
        match val with
        | None => Some (ET_ERROR, sconfig)
        | Some v =>
            match mcast_valid v with
            | None => None
            | Some false => Some (ET_ERROR, sconfig)
            | Some true =>
                match change v (cf_mcastaddrs sc) with
                | None => Some (ET_ERROR, sconfig)
                | Some addrs => Some (ET_OK, Some (set_cf_mcastaddrs addrs sc))
                end
            end
        end
  end.

Definition mcast_in (v : string) (addrs : list string) : bool := existsb (String.eqb v) addrs.

Definition et_system_config_addmulticast :=
  mcast_change (fun v addrs =>
    if mcast_in v addrs then Some addrs
    else if Z.of_nat (length addrs) =? ET_MAXADDRESSES then None
    else Some (addrs ++ [v])).

(** The first address that is equal goes, the later ones move up. *)
Fixpoint remove_first (v : string) (addrs : list string) : list string :=
  match addrs with
  | [] => []
  | a :: addrs' => if String.eqb v a then addrs' else a :: remove_first v addrs'
  end.
Definition et_system_config_removemulticast := mcast_change (fun v addrs => Some (remove_first v addrs)).

Definition et_system_config_setfile (sconfig : option et_sys_config) (val : option string) :=
  sy_set (fun sc => match val with
                    | None => None
                    | Some v => if ET_FILENAME_LENGTH - 1 <? strlen v then None else Some (set_cf_filename v sc)
                    end) sconfig.
Definition et_system_config_getfile := sy_get cf_filename.

(** ** The check when the system starts *)


Definition et_system_config_check (config : et_sys_config) : Z :=
  if cf_nevents config <? 1 then ET_ERROR
  else if cf_event_size config <? 1 then ET_ERROR
  else if negb (sumZ (take (Z.to_nat (cf_groupCount config)) (cf_groups config)) =? cf_nevents config) then ET_ERROR
  else if cf_ntemps config <? 1 then ET_ERROR
  else if cf_nevents config <? cf_ntemps config then ET_ERROR
  else if cf_nstations config <? 1 then ET_ERROR
  else if cf_nattachments config <? 1 then ET_ERROR
  else if ET_ATTACHMENTS_MAX <? cf_nattachments config then ET_ERROR
  else if cf_nprocesses config <? 1 then ET_ERROR
  else if ET_PROCESSES_MAX <? cf_nprocesses config then ET_ERROR
  else ET_OK.

(** ** Information about a running system *)

Section system.
Context `{R0 : Remote}.

(** The status and the private data of the process afterwards. *)
Definition et_system_setgroup (id : et_id) (group : Z) : M (Z * et_id) :=
  if negb (id_init id =? ET_STRUCT_OK) then ret (ET_ERROR, id)
  else if group =? 0 then ret (ET_OK, set_id_group 0 id)
  else if group <? 0 then ret (ET_ERROR, id)
  else
    let* (err, groupCount) :=
      (if negb (id_locality id =? ET_LOCAL) then etr_system_getgroupcount id
       else let* y := ld_sys in ret (ET_OK, Some (cf_groupCount (sys_config y)))) in
    if negb (err =? ET_OK) then ret (err, id)
    else if default 0 groupCount <? group then ret (ET_ERROR, id)
    else ret (ET_OK, set_id_group group id).

(** The functions that read the private data of the process. *)
Definition id_get {V} (get : et_id -> V) (id : et_id) (given : bool) : Z * option V :=
  if negb given || negb (id_init id =? ET_STRUCT_OK) then (ET_ERROR, None) else (ET_OK, Some (get id)).
Definition et_system_getgroup := id_get id_group.
Definition et_system_getdebug := id_get id_debug.
Definition et_system_getlocality := id_get id_locality.
Definition et_system_getnumevents := id_get id_nevents.
Definition et_system_geteventsize := id_get id_esize.
Definition et_system_getserverport := id_get id_port.
Definition et_system_gethost := id_get id_ethost.
Definition et_system_getlocaladdress := id_get id_localAddr.

Definition et_system_setdebug (id : et_id) (debug : Z) : Z * et_id :=
  if negb (id_init id =? ET_STRUCT_OK) then (ET_ERROR, id)
  else if negb (debug =? ET_DEBUG_NONE) && negb (debug =? ET_DEBUG_SEVERE) && negb (debug =? ET_DEBUG_ERROR) &&
          negb (debug =? ET_DEBUG_WARN) && negb (debug =? ET_DEBUG_INFO) then (ET_ERROR, id)
  else (ET_OK, set_id_debug debug id).

(** The functions that read the system structure; the count of groups is read whatever the locality. *)
Definition sys_get (remote : option (et_id -> M (Z * option Z))) (get : et_system -> Z) (id : et_id)
    (given : bool) : M (Z * option Z) :=
  if negb given || negb (id_init id =? ET_STRUCT_OK) then ret (ET_ERROR, None)
  else
    match (if negb (id_locality id =? ET_LOCAL) then remote else None) with
    | Some etr => etr id
    | None => let* y := ld_sys in ret (ET_OK, Some (get y))
    end.
Definition et_system_getgroupcount := sys_get None (fun y => cf_groupCount (sys_config y)).
Definition et_system_gettempsmax := sys_get (Some etr_system_gettempsmax) (fun y => cf_ntemps (sys_config y)).
Definition et_system_getstationsmax := sys_get (Some etr_system_getstationsmax) (fun y => cf_nstations (sys_config y)).
Definition et_system_getprocsmax := sys_get (Some etr_system_getprocsmax) (fun y => cf_nprocesses (sys_config y)).
Definition et_system_getattsmax := sys_get (Some etr_system_getattsmax) (fun y => cf_nattachments (sys_config y)).
Definition et_system_getheartbeat := sys_get (Some etr_system_getheartbeat) sys_heartbeat.
Definition et_system_getpid := sys_get (Some etr_system_getpid) sys_mainpid.
Definition et_system_getprocs := sys_get (Some etr_system_getprocs) sys_nprocesses.
Definition et_system_getattachments := sys_get (Some etr_system_getattachments) sys_nattachments.
Definition et_system_getstations := sys_get (Some etr_system_getstations) sys_nstations.
Definition et_system_gettemps := sys_get (Some etr_system_gettemps) sys_ntemps.
End system.

(** ** Correctness *)

(** The calls that change a configuration. *)
Inductive sy_op :=
| SyEvents (val : Z) | SySize (val : Z) | SyTemps (val : Z) | SyStations (val : Z) | SyProcs (val : Z)
| SyAttachments (val : Z) | SyPort (val : Z) | SyServerport (val : Z)
| SyGroups (groups : option (list Z)) (size : Z) | SyTcp (rBufSize sBufSize noDelay : Z)
| SyAddMulticast (val : option string) | SyRemoveMulticast (val : option string) | SyFile (val : option string).

(** The object after the call; [None] after a write behind a buffer. *)
Definition sy_run (op : sy_op) (sc : option et_sys_config) : option (option et_sys_config) :=
  match op with
  | SyEvents v => Some (snd (et_system_config_setevents sc v))
  | SySize v => Some (snd (et_system_config_setsize sc v))
  | SyTemps v => Some (snd (et_system_config_settemps sc v))
  | SyStations v => Some (snd (et_system_config_setstations sc v))
  | SyProcs v => Some (snd (et_system_config_setprocs sc v))
  | SyAttachments v => Some (snd (et_system_config_setattachments sc v))
  | SyPort v => Some (snd (et_system_config_setport sc v))
  | SyServerport v => Some (snd (et_system_config_setserverport sc v))
  | SyGroups gs n => Some (snd (et_system_config_setgroups sc gs n))
  | SyTcp r s n => Some (snd (et_system_config_settcp sc r s n))
  | SyAddMulticast v => snd <$> et_system_config_addmulticast sc v
  | SyRemoveMulticast v => snd <$> et_system_config_removemulticast sc v
  | SyFile v => Some (snd (et_system_config_setfile sc v))
  end.

Fixpoint sy_runs (ops : list sy_op) (sc : option et_sys_config) : option (option et_sys_config) :=
  match ops with
  | [] => Some sc
  | op :: ops' => match sy_run op sc with Some sc' => sy_runs ops' sc' | None => None end
  end.

Record sy_ok (sc : et_sys_config) : Prop := mkSyOk {
  yk_init : cf_init sc = ET_STRUCT_OK;
  yk_nevents : 1 <= cf_nevents sc;
  yk_size : 1 <= cf_event_size sc;
  yk_ntemps : 1 <= cf_ntemps sc <= cf_nevents sc;
  yk_nstations : 1 <= cf_nstations sc;
  yk_nprocesses : 1 <= cf_nprocesses sc <= ET_PROCESSES_MAX;
  yk_nattachments : 1 <= cf_nattachments sc <= ET_ATTACHMENTS_MAX;
  yk_port : 1024 <= cf_port sc <= 65535;
  yk_serverport : 1024 <= cf_serverport sc <= 65535;
  yk_groups : length (cf_groups sc) = Z.to_nat ET_EVENT_GROUPS_MAX;
  yk_groupCount : 1 <= cf_groupCount sc <= ET_EVENT_GROUPS_MAX;
  yk_mcast : NoDup (cf_mcastaddrs sc) /\ Z.of_nat (length (cf_mcastaddrs sc)) <= ET_MAXADDRESSES;
  yk_filename : strlen (cf_filename sc) < ET_FILENAME_LENGTH
}.

(** An address whose first number is longer than three characters. *)
Definition overflows (op : sy_op) : Prop :=
  match op with
  | SyAddMulticast (Some v) | SyRemoveMulticast (Some v) => mcast_valid v = None
  | _ => False
  end.

Lemma length_copy_groups i gs old : length (fst (copy_groups i gs old)) = length old.
Proof.
  revert i old. induction gs as [|g gs IH]; intros i old; simpl; [done|].
  destruct (g <? 1); [done|]. by rewrite IH, length_insert.
Qed.

Lemma mcast_in_false v addrs : mcast_in v addrs = false -> v ∉ addrs.
Proof.
  unfold mcast_in. induction addrs as [|a addrs IH]; simpl; [set_solver|].
  rewrite orb_false_iff. intros [H1 H2]. apply String.eqb_neq in H1. apply IH in H2. set_solver.
Qed.

Lemma remove_first_sublist v addrs : sublist (remove_first v addrs) addrs.
Proof.
  induction addrs as [|a addrs IH]; simpl; [constructor|]. destruct (String.eqb v a); by constructor.
Qed.

(** A setter keeps the invariant when its update does. *)
Lemma sy_set_ok set sc :
  sy_ok sc -> (forall sc', set sc = Some sc' -> sy_ok sc') ->
  exists sc', snd (sy_set set (Some sc)) = Some sc' /\ sy_ok sc'.
Proof.
  intros H Hs. unfold sy_set. rewrite (yk_init _ H). simpl. destruct (set sc) as [sc'|]; eauto.
Qed.

Lemma mcast_ok change sc val :
  sy_ok sc -> (forall v addrs, change v (cf_mcastaddrs sc) = Some addrs ->
    NoDup addrs /\ Z.of_nat (length addrs) <= ET_MAXADDRESSES) ->
  (exists v, val = Some v /\ mcast_valid v = None /\ mcast_change change (Some sc) val = None) \/
  exists st sc', mcast_change change (Some sc) val = Some (st, Some sc') /\ sy_ok sc'.
Proof.
  intros H Hc. unfold mcast_change. rewrite (yk_init _ H). simpl. destruct val as [v|]; [|eauto].
  destruct (mcast_valid v) as [[]|] eqn:E; [| |left; eauto]; [|eauto].
  destruct (change v (cf_mcastaddrs sc)) as [addrs|] eqn:Ea; [|eauto].
  right. do 2 eexists. split; [done|]. destruct H. split; try done. cbn. by apply (Hc v).
Qed.

Lemma setgroups_ok sc gs n : sy_ok sc -> exists sc', snd (et_system_config_setgroups (Some sc) gs n) = Some sc' /\ sy_ok sc'.
Proof.
  intros H. unfold et_system_config_setgroups. rewrite (yk_init _ H). simpl.
  destruct (n =? 1). { eexists. split; [done|]. destruct H. split; try done. }
  destruct gs as [gs|]; [|eauto]. destruct (_ || _) eqn:B; [eauto|]. apply orb_false_iff in B as [B1 B2]. zbool.
  pose proof (length_copy_groups 0 (take (Z.to_nat n) gs) (cf_groups sc)) as L.
  destruct (copy_groups 0 _ _) as [copied []]; simpl in L; eexists; (split; [reflexivity|]); destruct H; split; try done; cbn.
  - rewrite length_app, length_take, length_replicate, L, yk_groups0. lia.
  - lia.
Qed.

Lemma setevents_ok sc v : sy_ok sc -> exists sc', snd (et_system_config_setevents (Some sc) v) = Some sc' /\ sy_ok sc'.
Proof.
  intros [H1 H2 H3 H4 H5 H6 H7 H8 H9 H10 H11 H12 H13]. apply sy_set_ok; [by split|]. intros sc'.
  destruct (Z.ltb_spec v 1); [done|]. cbv zeta. cbn [cf_groupCount set_cf_nevents].
  destruct (cf_groupCount sc =? 1); cbn; destruct (Z.ltb_spec v (cf_ntemps sc)); intros [= <-];
    split; cbn; rewrite ?length_insert; done || lia.
Qed.

Lemma sy_run_ok op sc :
  sy_ok sc -> (overflows op /\ sy_run op (Some sc) = None) \/ exists sc', sy_run op (Some sc) = Some (Some sc') /\ sy_ok sc'.
Proof.
  intros H. pose proof H as [H1 H2 H3 H4 H5 H6 H7 H8 H9 H10 H11 [H12 H12'] H13].
  destruct op as [v|v|v|v|v|v|v|v|gs n|r s n|v|v|v]; cbn [sy_run overflows].
  1: right; destruct (setevents_ok sc v H) as (sc' & -> & Ok); eauto.
  8: right; destruct (setgroups_ok sc gs n H) as (sc' & -> & Ok); eauto.
  all: try (right; edestruct sy_set_ok as (sc' & E & Ok); [exact H| |exists sc'; split; [f_equal; exact E|exact Ok]];
    intros sc'; repeat (case_match; try done); intros [= <-]; unfold bad_port in *; bprop; split; cbn; done || etlia).
  - right. edestruct sy_set_ok as (sc' & E & Ok); [exact H| |exists sc'; split; [f_equal; exact E|exact Ok]].
    intros sc'. destruct (Z.ltb_spec v 1), (Z.ltb_spec (cf_nevents sc) v); try done. intros [= <-]. by split.
  - unfold et_system_config_addmulticast. edestruct (mcast_ok (fun v addrs => if mcast_in v addrs then Some addrs
      else if Z.of_nat (length addrs) =? ET_MAXADDRESSES then None else Some (addrs ++ [v]))) as [(v' & -> & E & En)|(st & sc' & E & Ok)]; [exact H| |left|right].
    + intros v' addrs. cbv beta. destruct (mcast_in v' (cf_mcastaddrs sc)) eqn:Ei; [by intros [= <-]|]. destruct (Z.eqb_spec (Z.of_nat (length (cf_mcastaddrs sc))) ET_MAXADDRESSES); [done|].
      intros [= <-]. apply mcast_in_false in Ei. rewrite length_app. simpl. split; [|lia].
      apply NoDup_app. split_and!; [done|set_solver|apply NoDup_singleton].
    + by rewrite En.
    + rewrite E. by exists sc'.
  - unfold et_system_config_removemulticast. edestruct (mcast_ok (fun v addrs => Some (remove_first v addrs))) as [(v' & -> & E & En)|(st & sc' & E & Ok)]; [exact H| |left|right].
    + intros v' addrs X. injection X as <-. pose proof (remove_first_sublist v' (cf_mcastaddrs sc)) as S. split.
      * by eapply sublist_NoDup.
      * apply sublist_length in S. lia.
    + by rewrite En.
    + rewrite E. by exists sc'.
Qed.

Lemma init_sy_ok n : n < ET_MAXADDRESSES -> exists sc, snd (et_system_config_init true n) = Some sc /\ sy_ok sc.
Proof.
  intros H. unfold et_system_config_init. cbn [negb]. destruct (Z.leb_spec ET_MAXADDRESSES n); [lia|].
  exists sysconfig_default. split; [done|]. split; try done.
  - split; [constructor|done].
Qed.

Lemma sy_runs_ok ops sc : sy_ok sc -> Forall (fun op => ~ overflows op) ops ->
  exists sc', sy_runs ops (Some sc) = Some (Some sc') /\ sy_ok sc'.
Proof.
  revert sc. induction ops as [|op ops IH]; intros sc H F; simpl; [by exists sc|].
  apply Forall_cons in F as [F1 F2]. destruct (sy_run_ok op sc H) as [[X _]|(sc' & -> & H')]; [done|]. by apply IH.
Qed.

(** The events of the groups are all the events. *)
Definition groups_full (sc : et_sys_config) : Prop :=
  sumZ (take (Z.to_nat (cf_groupCount sc)) (cf_groups sc)) = cf_nevents sc.

Lemma check_ok_iff sc : sy_ok sc -> et_system_config_check sc = ET_OK <-> groups_full sc.
Proof.
  intros [H1 H2 H3 H4 H5 H6 H7 H8 H9 H10 H11 H12 H13]. unfold et_system_config_check, groups_full.
  destruct (Z.ltb_spec (cf_nevents sc) 1); [lia|]. destruct (Z.ltb_spec (cf_event_size sc) 1); [lia|].
  destruct (Z.eqb_spec (sumZ (take (Z.to_nat (cf_groupCount sc)) (cf_groups sc))) (cf_nevents sc)) as [E|E]; simpl; [|by split].
  destruct (Z.ltb_spec (cf_ntemps sc) 1), (Z.ltb_spec (cf_nevents sc) (cf_ntemps sc)), (Z.ltb_spec (cf_nstations sc) 1),
    (Z.ltb_spec (cf_nattachments sc) 1), (Z.ltb_spec ET_ATTACHMENTS_MAX (cf_nattachments sc)),
    (Z.ltb_spec (cf_nprocesses sc) 1), (Z.ltb_spec ET_PROCESSES_MAX (cf_nprocesses sc)); lia.
Qed.

(** One group with all the events. *)
Definition one_group (sc : et_sys_config) : Prop :=
  cf_groupCount sc = 1 /\ nth 0 (cf_groups sc) 0 = cf_nevents sc.

Definition is_groups (op : sy_op) : bool := match op with SyGroups _ _ => true | _ => false end.

Lemma sy_set_one_group set sc sc' :
  one_group sc -> (forall sc', set sc = Some sc' -> one_group sc') -> snd (sy_set set (Some sc)) = Some sc' -> one_group sc'.
Proof.
  intros H Hs. unfold sy_set. destruct (negb _); [by intros [= <-]|]. destruct (set sc) as [sc1|] eqn:E; intros [= <-]; auto.
Qed.

Lemma mcast_one_group change sc val st sc' :
  one_group sc -> mcast_change change (Some sc) val = Some (st, Some sc') -> one_group sc'.
Proof. intros H. unfold mcast_change. repeat case_match; intros [= ? <-]; try done. Qed.

Lemma some_eq {A} (a b : A) : Some a = Some b -> a = b.
Proof. congruence. Qed.

Lemma setevents_one_group sc v sc' :
  sy_ok sc -> one_group sc -> snd (et_system_config_setevents (Some sc) v) = Some sc' -> one_group sc'.
Proof.
  intros Ok H. unfold et_system_config_setevents. apply sy_set_one_group; [done|].
  intros sc1. destruct H as [E1 E2].
  destruct (v <? 1); [done|]. cbv zeta. cbn [cf_groupCount set_cf_nevents]. rewrite E1.
  change (1 =? 1) with true. cbv iota.
  assert (Hn : nth 0 (<[0%nat:=v]> (cf_groups sc)) 0 = v).
  { pose proof (yk_groups _ Ok) as L. destruct (cf_groups sc) as [|g gs]; [discriminate L|done]. }
  destruct (v <? _); intros E; injection E as <-; (split; [exact E1|exact Hn]).
Qed.

Lemma sy_run_one_group op sc sc' :
  sy_ok sc -> is_groups op = false -> one_group sc -> sy_run op (Some sc) = Some (Some sc') -> one_group sc'.
Proof.
  intros Ok G H. destruct op as [v|v|v|v|v|v|v|v|gs n|r s n|v|v|v]; cbn [sy_run]; try done;
    try (intros E; apply some_eq in E; revert E; first [by apply setevents_one_group|apply sy_set_one_group; [done|];
         intros sc1; repeat (case_match; try done); by intros [= <-]]).
  - unfold et_system_config_addmulticast. destruct (mcast_change _ _ v) as [[st o]|] eqn:E; [|done]. intros [= ->]. by eapply mcast_one_group.
  - unfold et_system_config_removemulticast. destruct (mcast_change _ _ v) as [[st o]|] eqn:E; [|done]. intros [= ->]. by eapply mcast_one_group.
Qed.

Lemma one_group_full sc : sy_ok sc -> one_group sc -> groups_full sc.
Proof.
  intros Ok [E1 E2]. unfold groups_full. rewrite E1. pose proof (yk_groups _ Ok) as L.
  destruct (cf_groups sc) as [|g gs]; [discriminate L|]. simpl in *. lia.
Qed.

Lemma sy_runs_one_group ops sc sc' :
  sy_ok sc -> Forall (fun op => is_groups op = false) ops -> one_group sc ->
  sy_runs ops (Some sc) = Some (Some sc') -> one_group sc'.
Proof.
  revert sc. induction ops as [|op ops IH]; intros sc Ok F H; simpl; [by intros [= <-]|].
  apply Forall_cons in F as [F1 F2]. destruct (sy_run_ok op sc Ok) as [[_ ->]|(sc1 & E & Ok1)]; [done|]. rewrite E.
  apply IH; [done|done|]. exact (sy_run_one_group op sc sc1 Ok F1 H E).
Qed.

(** Whatever setters a user calls on a new configuration of a system, with whatever arguments
    except addresses whose first number is too long, all its values stay within their bounds, and the
    check when the system starts accepts it exactly when the groups hold all the events. *)
Theorem system_config_invariant n ops :
  n < ET_MAXADDRESSES -> Forall (fun op => ~ overflows op) ops ->
  exists sc, sy_runs ops (snd (et_system_config_init true n)) = Some (Some sc) /\ sy_ok sc /\
    (et_system_config_check sc = ET_OK <-> groups_full sc).
Proof.
  intros Hn F. destruct (init_sy_ok n Hn) as (sc0 & -> & H0). destruct (sy_runs_ok ops sc0 H0 F) as (sc & E & H).
  exists sc. split_and!; [done|done|by apply check_ok_iff].
Qed.

(** A configuration made without calls of et_system_config_setgroups always passes the check when
    the system starts. *)
Theorem system_config_accepted n ops :
  n < ET_MAXADDRESSES -> Forall (fun op => ~ overflows op) ops -> Forall (fun op => is_groups op = false) ops ->
  exists sc, sy_runs ops (snd (et_system_config_init true n)) = Some (Some sc) /\ et_system_config_check sc = ET_OK.
Proof.
  intros Hn F G. destruct (init_sy_ok n Hn) as (sc0 & E0 & H0). destruct (sy_runs_ok ops sc0 H0 F) as (sc & E & H).
  rewrite E0. exists sc. split; [done|]. apply check_ok_iff; [done|]. apply one_group_full; [done|].
  eapply sy_runs_one_group; [exact H0|exact G| |exact E].
  unfold et_system_config_init in E0. cbn [negb] in E0. destruct (Z.leb_spec ET_MAXADDRESSES n); [lia|].
  injection E0 as <-. by split.
Qed.

Definition sy_ops0 : list sy_op := [SyTemps 200; SyEvents 100; SyAddMulticast (Some "239.200.0.0"%string)].

Lemma sy_ops0_ok : Forall (fun op => ~ overflows op) sy_ops0.
Proof. repeat (constructor; [by vm_compute|]). constructor. Qed.

Lemma system_config_invariant_witness :
  exists sc, sy_runs sy_ops0 (snd (et_system_config_init true 1)) = Some (Some sc) /\ sy_ok sc /\
    (et_system_config_check sc = ET_OK <-> groups_full sc).
Proof. apply (system_config_invariant 1 sy_ops0); [reflexivity|apply sy_ops0_ok]. Defined.

Lemma system_config_accepted_witness :
  exists sc, sy_runs sy_ops0 (snd (et_system_config_init true 1)) = Some (Some sc) /\ et_system_config_check sc = ET_OK.
Proof. apply (system_config_accepted 1 sy_ops0); [reflexivity|apply sy_ops0_ok|]. repeat (constructor; [done|]). constructor. Defined.

(** With one group, et_system_config_setgroups empties it: the check refuses the configuration
    although nothing else was changed. *)
Lemma setgroups_one_refused :
  exists sc, snd (et_system_config_setgroups (snd (et_system_config_init true 1)) (Some [300]) 1) = Some sc /\
    et_system_config_check sc = ET_ERROR.
Proof. eexists. split; [reflexivity|]. vm_compute. reflexivity. Qed.

(** An address with a long first number is written behind the buffer. *)
Lemma addmulticast_overflow :
  et_system_config_addmulticast (snd (et_system_config_init true 1)) (Some "1234567"%string) = None.
Proof. reflexivity. Qed.

(** ** The group of a process *)

Definition group_ok (id : et_id) (m : et_mem) : Prop :=
  0 <= id_group id <= Z.max 0 (cf_groupCount (sys_config (m_sys m))).

(** Et_system_setgroup accepts 0 and the numbers of the groups of the system, and refuses the rest;
    the group of the process stays 0 or the number of a group. *)
Theorem et_system_setgroup_spec `{R0 : Remote} id group m :
  id_locality id = ET_LOCAL -> group_ok id m ->
  wp (et_system_setgroup id group)
    (fun r m' => m' = m /\ group_ok (snd r) m /\
       (fst r = ET_OK <-> id_init id = ET_STRUCT_OK /\ (group = 0 \/ 1 <= group <= cf_groupCount (sys_config (m_sys m)))) /\
       snd r = if fst r =? ET_OK then set_id_group group id else id)
    (fun _ => True) m.
Proof.
  intros L G. unfold et_system_setgroup. destruct (Z.eqb_spec (id_init id) ET_STRUCT_OK) as [Ei|Ei]; simpl.
  2: { apply wp_ret. split_and!; [done|done| |done]. split; [done|]. by intros []. }
  destruct (Z.eqb_spec group 0) as [->|N0].
  { apply wp_ret. split_and!; [done|unfold group_ok in *; cbn; lia| |done]. split; [auto|done]. }
  destruct (Z.ltb_spec group 0).
  { apply wp_ret. split_and!; [done|done| |done]. split; [done|]. simpl. lia. }
  rewrite L. simpl. apply wp_bind, wp_bind, wps_ld_sys, wp_ret. simpl.
  destruct (Z.ltb_spec (cf_groupCount (sys_config (m_sys m))) group).
  - apply wp_ret. split_and!; [done|done| |done]. split; [done|]. simpl. lia.
  - apply wp_ret. split_and!; [done|unfold group_ok; cbn; lia| |done]. split; [|done]. simpl. lia.
Qed.

Lemma et_system_setgroup_spec_witness :
  exists x id', run (et_system_setgroup id0 1) mem0 = Ok (ET_OK, id') x mem0 /\ id' = set_id_group 1 id0.
Proof.
  destruct (wp_run _ _ _ _ (et_system_setgroup_spec id0 1 mem0 eq_refl (ltac:(by_eval) : group_ok id0 mem0)))
    as ([st id'] & x & m' & E & -> & _ & [_ Hs] & Hi).
  simpl in Hs, Hi. rewrite Hs in Hi, E by (split; [done|right; vm_compute; split; congruence]). exists x, id'. by split.
Defined.
