(* ===== verification/Select.v ===== *)
(** * Choosing the stations of the events

    The parts of et_system.c that decide which station gets which event: the selection by control
    words (et_condition), the sort of the stations by the lengths of their input lists (shellSort),
    and the numbers of events that the conductor gives to the stations of a parallel group
    (ET_STATION_SELECT_EQUALCUE and ET_STATION_SELECT_RROBIN).  A read or write outside of an array
    is [None]. *)
From stdpp Require Import base gmap strings list sorting.
From S2P Require Import Prelude Types Machine.
Open Scope Z_scope.

(** ** Selection by control words *)

(** The words i, i+1, ... of the station and of the event. *)
Fixpoint condition_from (i : nat) (select control : list Z) : bool :=
  match select, control with
  | s :: select', c :: control' =>
      (if Nat.even i then negb (s =? -1) && (s =? c)
       else negb (s =? -1) && negb (Z.land s c =? 0)) || condition_from (S i) select' control'
  | _, _ => false
  end.

Definition et_condition (config : et_stat_config) (pe : et_event) : bool :=
  condition_from 0 (sc_select config) (ev_control pe).

(** ** Shell sort *)

(** The arrays begin at index 1. *)
Definition aget (a : list Z) (k : nat) : option Z :=
  match k with O => None | S k' => a !! k' end.
Definition aset (a : list Z) (k : nat) (v : Z) : list Z :=
  match k with O => a | S k' => <[k' := v]> a end.

Definition u32 (z : Z) : Z := z mod 2 ^ 32.

(** while (a[j-inc] > v): the arrays and the place [j] that the loop leaves. *)
Fixpoint sort_shift (fuel inc : nat) (v : Z) (a b : list Z) (j : nat) : option (list Z * list Z * nat) :=
  match fuel with
  | O => None
  | S fuel' =>
    match aget a (j - inc) with
    | None => None
    | Some x =>
      if v <? x then
        match aget b (j - inc) with
        | None => None
        | Some y =>
          let j' := (j - inc)%nat in
          if (j' <=? inc)%nat then Some (aset a j x, aset b j y, j')
          else sort_shift fuel' inc v (aset a j x) (aset b j y) j'
        end
      else Some (a, b, j)
    end
  end.

(** for (i=inc+1; i<=n; i++), for [k] more values of [i]. *)
Fixpoint sort_pass (k inc i : nat) (a b : list Z) : option (list Z * list Z) :=
  match k with
  | O => Some (a, b)
  | S k' =>
    match aget a i, aget b i with
    | Some v, Some w =>
      match sort_shift i inc v a b i with
      | Some (a', b', j) => sort_pass k' inc (S i) (aset a' j v) (aset b' j w)
      | None => None
      end
    | _, _ => None
    end
  end.

(** do { inc *= 3; inc++; } while (inc <= n). *)
Fixpoint sort_first_inc (fuel : nat) (n inc : Z) : option Z :=
  match fuel with
  | O => None
  | S fuel' =>
      let inc' := u32 (u32 (inc * 3) + 1) in
      if inc' <=? n then sort_first_inc fuel' n inc' else Some inc'
  end.

(** do { inc /= 3; ... } while (inc > 1). *)
Fixpoint sort_loop (fuel : nat) (n : nat) (inc : Z) (a b : list Z) : option (list Z * list Z) :=
  match fuel with
  | O => None
  | S fuel' =>
      let inc' := inc / 3 in
      match sort_pass (n - Z.to_nat inc') (Z.to_nat inc') (S (Z.to_nat inc')) a b with
      | Some (a', b') => if 1 <? inc' then sort_loop fuel' n inc' a' b' else Some (a', b')
      | None => None
      end
  end.

(** [a] and [b] are the arrays from their first element. *)
Definition shellSort (n : nat) (a b : list Z) : option (list Z * list Z) :=
  match sort_first_inc (S n) (Z.of_nat n) 1 with
  | Some inc => sort_loop (Z.to_nat inc) n inc a b
  | None => None
  end.

(** ** Equal cues

    [cues] and [place] are the sorted lengths of the input lists and the places of their stations,
    [nums] the numbers of events for the stations (numEvents). *)

(** The stations of the smallest cue: stationsWithSameCue and nextHigherCue. *)
Fixpoint count_same (n i : nat) (cues place nums : list Z) (min same nextHigherCue : Z) : option (Z * Z) :=
  match n with
  | O => Some (same, nextHigherCue)
  | S n' =>
    match cues !! i, place !! i with
    | Some c, Some p =>
      match nums !! Z.to_nat (p - 1) with
      | Some x =>
          if min =? c + x then count_same n' (S i) cues place nums min (same + 1) nextHigherCue
          else Some (same, c)
      | None => None
      end
    | _, _ => None
    end
  end.

(** numEvents[place[i]-1] += eventsPerStation, one more for the first [extra] stations. *)
Fixpoint add_events (n i : nat) (place nums : list Z) (eventsPerStation extra : Z) : option (list Z) :=
  match n with
  | O => Some nums
  | S n' =>
    match place !! i with
    | Some p =>
      match nums !! Z.to_nat (p - 1) with
      | Some x =>
          add_events n' (S i) place
            (<[Z.to_nat (p - 1) := x + (if Z.of_nat i <? extra then eventsPerStation + 1 else eventsPerStation)]> nums)
            eventsPerStation extra
      | None => None
      end
    | None => None
    end
  end.

(** while (eventsDoledOut < events_left). *)
Fixpoint dole_out (fuel n : nat) (events_left : Z) (cues place nums : list Z)
    (min nextHigherCue eventsDoledOut : Z) : option (list Z) :=
  if eventsDoledOut <? events_left then
    match fuel with
    | O => None
    | S fuel' =>
      match count_same n 0 cues place nums min 0 nextHigherCue with
      | None => None
      | Some (same, nextHigherCue') =>
        if (same =? Z.of_nat n) || (events_left - eventsDoledOut <? (nextHigherCue' - min) * same) then
          if same =? 0 then None
          else
            let events_toput := events_left - eventsDoledOut in
            add_events (Z.to_nat same) 0 place nums (events_toput / same) (events_toput mod same)
        else
          let eventsPerStation := nextHigherCue' - min in
          match add_events (Z.to_nat same) 0 place nums eventsPerStation 0 with
          | Some nums' => dole_out fuel' n events_left cues place nums' nextHigherCue' nextHigherCue'
                            (eventsDoledOut + eventsPerStation * same)
          | None => None
          end
      end
    end
  else Some nums.

(** The numbers of events for stations with input lists of the lengths [inListCount]; [nstations]
    is the size of the array place. *)
Definition equal_cue (nstations : nat) (inListCount : list Z) (events_left : Z) : option (list Z) :=
  let n := length inListCount in
  let place := map (fun i => Z.of_nat i + 1) (seq 0 nstations) in
  match shellSort n inListCount place with
  | Some (cues, place') =>
    match cues with
    | min :: _ => dole_out (S n) n events_left cues place' (replicate n 0) min 0 0
    | [] => None
    end
  | None => None
  end.

(** ** Round robin *)

(** numEvents: the first [extra] stations get one event more. *)
Definition rrobin_nums (numActiveStations events_left : Z) : list Z :=
  map (fun i => if Z.of_nat i <? events_left mod numActiveStations
                then events_left / numActiveStations + 1 else events_left / numActiveStations)
      (seq 0 (Z.to_nat numActiveStations)).
Definition rrobin_last (numActiveStations events_left : Z) : Z :=
  let extra := events_left mod numActiveStations in
  if extra =? 0 then numActiveStations - 1 else extra - 1.

(** allevents[index], allevents[index + n], ...: [k] events. *)
Fixpoint rrobin_stride (k : nat) (n index : nat) (allevents : list Z) : option (list Z) :=
  match k with
  | O => Some []
  | S k' =>
    match allevents !! index, rrobin_stride k' n (index + n) allevents with
    | Some a, Some l => Some (a :: l)
    | _, _ => None
    end
  end.

(** The same when some events were put into other stations before: from allevents[j] on, every n-th
    of the events that were not, until numOfEvents becomes 0. *)
Fixpoint rrobin_skip (allevents : list Z) (event_put : list bool) (n skip numOfEvents : Z) : list Z :=
  match allevents, event_put with
  | a :: allevents', p :: event_put' =>
      if p then rrobin_skip allevents' event_put' n skip numOfEvents
      else if 0 <? skip then rrobin_skip allevents' event_put' n (skip - 1) numOfEvents
      else a :: (if numOfEvents - 1 =? 0 then []
                 else rrobin_skip allevents' event_put' n (n - 1) (numOfEvents - 1))
  | _, _ => []
  end.

(** putevents: the events of the first station, then those of the second, ... *)
Fixpoint rrobin_deal (first : bool) (n : nat) (i : nat) (nums : list Z)
    (allevents : list Z) (event_put : list bool) : option (list Z) :=
  match nums with
  | [] => Some []
  | num :: nums' =>
    match (if first then rrobin_stride (Z.to_nat num) n i allevents
           else Some (rrobin_skip (drop i allevents) (drop i event_put) (Z.of_nat n) 0 num)),
          rrobin_deal first n (S i) nums' allevents event_put with
    | Some l, Some l' => Some (l ++ l')
    | _, _ => None
    end
  end.

(** ** The sort is a sort *)

Lemma aget_aset_eq a k v : is_Some (aget a k) -> aget (aset a k v) k = Some v.
Proof. destruct k as [|k]; simpl; [by intros []|]. intros H%lookup_lt_is_Some. by apply list_lookup_insert_eq. Qed.

Lemma aget_aset_ne a k k' v : k <> k' -> aget (aset a k v) k' = aget a k'.
Proof. intros N. destruct k as [|k], k' as [|k']; simpl; try done. apply list_lookup_insert_ne. lia. Qed.

Lemma aset_aset a k v w : aset (aset a k v) k w = aset a k w.
Proof. destruct k as [|k]; simpl; [done|]. apply list_insert_insert_eq. Qed.

Lemma length_aset a k v : length (aset a k v) = length a.
Proof. destruct k; simpl; [done|]. apply length_insert. Qed.

Lemma aget_some a k : (1 <= k <= length a)%nat -> exists v, aget a k = Some v.
Proof. intros H. destruct k as [|k]; [lia|]. simpl. apply lookup_lt_is_Some. lia. Qed.

Lemma zip_aset (a b : list Z) k v w : zip (aset a k v) (aset b k w) = match k with O => zip a b | S k' => <[k' := (v, w)]> (zip a b) end.
Proof. destruct k as [|k]; [done|]. simpl. symmetry. apply insert_zip_with. Qed.

(** Moving the value at [k] to the place [j] of a hole, and the hole to [k]. *)
Lemma zip_swap (a b : list Z) j k v w x y :
  j <> k -> (length a <= length b)%nat -> is_Some (aget a j) -> aget a k = Some x -> aget b k = Some y ->
  zip (aset (aset a j x) k v) (aset (aset b j y) k w) ≡ₚ zip (aset a j v) (aset b j w).
Proof.
  intros N L Hj Hx Hy. rewrite !zip_aset. destruct j as [|j]; [by destruct Hj|]. destruct k as [|k]; [done|]. simpl in *.
  apply lookup_lt_is_Some in Hj.
  set (l := zip a b).
  assert (Hl : l !! k = Some (x, y)) by (unfold l; apply lookup_zip_Some; done).
  assert (Hj' : (j < length l)%nat) by (unfold l; rewrite length_zip; lia).
  apply Permutation_inj. split; [by rewrite !length_insert|].
  exists (fun i => if decide (i = j) then k else if decide (i = k) then j else i). split.
  - intros i1 i2. repeat case_decide; lia.
  - intros i. repeat case_decide; subst; try lia.
    + rewrite list_lookup_insert_ne by lia. rewrite list_lookup_insert_eq by done.
      rewrite list_lookup_insert_ne by lia. done.
    + rewrite list_lookup_insert_eq by (rewrite length_insert; by apply lookup_lt_Some in Hl).
      by rewrite list_lookup_insert_eq by done.
    + by rewrite !list_lookup_insert_ne by lia.
Qed.

(** What the inner loop does with the value [v] of the hole: it moves others up. *)
Lemma sort_shift_perm fuel inc v w a b j :
  (1 <= inc)%nat -> (inc < j)%nat -> (j <= fuel)%nat -> (j <= length a <= length b)%nat ->
  exists a' b' j', sort_shift fuel inc v a b j = Some (a', b', j') /\
    zip (aset a' j' v) (aset b' j' w) ≡ₚ zip (aset a j v) (aset b j w) /\
    length a' = length a /\ length b' = length b.
Proof.
  intros Hi. revert a b j. induction fuel as [|fuel IH]; intros a b j Hj Hf L; [lia|]. cbn [sort_shift].
  destruct (aget_some a (j - inc)) as [x Hx]; [lia|]. destruct (aget_some b (j - inc)) as [y Hy]; [lia|].
  rewrite Hx, Hy. destruct (v <? x); [|by eexists _, _, _].
  assert (S1 : zip (aset (aset a j x) (j - inc) v) (aset (aset b j y) (j - inc) w) ≡ₚ zip (aset a j v) (aset b j w)).
  { apply zip_swap; try done; [lia|lia|]. destruct (aget_some a j) as [z ->]; [lia|done]. }
  destruct (Nat.leb_spec (j - inc) inc).
  - eexists _, _, _. split; [done|]. by rewrite !length_aset.
  - destruct (IH (aset a j x) (aset b j y) (j - inc)%nat) as (a' & b' & j' & E & P & L1 & L2); [lia|lia|rewrite !length_aset; lia|].
    exists a', b', j'. rewrite !length_aset in *. split; [done|]. split; [|done]. by rewrite P.
Qed.

Lemma aset_id a k v : aget a k = Some v -> aset a k v = a.
Proof. destruct k; simpl; [done|]. apply list_insert_id. Qed.

Lemma sort_pass_perm k inc i a b :
  (1 <= inc)%nat -> (inc < i)%nat -> (k = 0 \/ i + k <= S (length a))%nat -> (length a <= length b)%nat ->
  exists a' b', sort_pass k inc i a b = Some (a', b') /\ zip a' b' ≡ₚ zip a b /\ length a' = length a /\ length b' = length b.
Proof.
  intros Hi. revert i a b. induction k as [|k IH]; intros i a b Hj Hk L; [by eexists _, _|]. cbn [sort_pass].
  destruct (aget_some a i) as [v Hv]; [lia|]. destruct (aget_some b i) as [w Hw]; [lia|]. rewrite Hv, Hw.
  destruct (sort_shift_perm i inc v w a b i Hi Hj) as (a1 & b1 & j & -> & P & L1 & L2); [lia|lia|].
  rewrite (aset_id a i v), (aset_id b i w) in P by done.
  destruct (IH (S i) (aset a1 j v) (aset b1 j w)) as (a' & b' & -> & P' & L1' & L2'); [lia|rewrite length_aset; lia|rewrite !length_aset; lia|].
  exists a', b'. rewrite !length_aset in *. split; [done|]. rewrite P', P, L1', L2', L1, L2. done.
Qed.

(** *** The last pass is an insertion sort *)

(** Puts [v] before the greatest elements at the end of [l]; [l] is reversed. *)
Fixpoint rinsert (v : Z) (r : list Z) : list Z :=
  match r with
  | [] => [v]
  | x :: r' => if v <? x then x :: rinsert v r' else v :: r
  end.

Lemma aset_middle (p q : list Z) x v : aset (p ++ x :: q) (S (length p)) v = p ++ v :: q.
Proof. simpl. by rewrite insert_app_r_alt, Nat.sub_diag. Qed.

Lemma aget_middle (p q : list Z) x : aget (p ++ x :: q) (S (length p)) = Some x.
Proof. simpl. by apply list_lookup_middle. Qed.

Lemma sort_shift_insert fuel v p h q b a' b' j' :
  sort_shift fuel 1 v (reverse p ++ h :: q) b (S (length p)) = Some (a', b', j') -> p <> [] ->
  aset a' j' v = reverse (rinsert v p) ++ q.
Proof.
  revert p h q b. induction fuel as [|fuel IH]; intros p h q b; [done|]. cbn [sort_shift].
  destruct p as [|x p]; [done|]. intros E _. cbn [length] in E.
  replace (S (S (length p)) - 1)%nat with (S (length p)) in E by lia.
  rewrite reverse_cons, <- app_assoc in E. cbn [app] in E.
  pose proof (aget_middle (reverse p) (h :: q) x) as G. rewrite length_reverse in G. rewrite G in E. clear G.
  cbn [rinsert]. destruct (v <? x).
  - destruct (aget b (S (length p))) as [y|]; [|done].
    assert (Ea : aset (reverse p ++ x :: h :: q) (S (S (length p))) x = reverse p ++ x :: x :: q).
    { pose proof (aset_middle (reverse p ++ [x]) q h x) as G. rewrite length_app, length_reverse, <- !app_assoc in G.
      cbn [app length] in G. rewrite Nat.add_1_r in G. exact G. }
    rewrite Ea in E. rewrite reverse_cons, <- app_assoc. cbn [app].
    destruct p as [|x' p].
    + cbn in E. injection E as <- <- <-. done.
    + change (S (length (x' :: p)) <=? 1)%nat with false in E. by apply IH in E.
  - injection E as <- <- <-. rewrite !reverse_cons, <- !app_assoc. cbn [app].
    pose proof (aset_middle (reverse p ++ [x]) q h v) as G. rewrite length_app, length_reverse, <- !app_assoc in G.
    cbn [app length] in G. rewrite Nat.add_1_r in G. exact G.
Qed.

Lemma rinsert_perm v r : rinsert v r ≡ₚ v :: r.
Proof. induction r as [|x r IH]; simpl; [done|]. destruct (v <? x); [|done]. rewrite IH. constructor. Qed.

Lemma rinsert_sorted v r : StronglySorted Z.ge r -> StronglySorted Z.ge (rinsert v r).
Proof.
  induction r as [|x r IH]; intros H; simpl; [repeat constructor|]. apply StronglySorted_inv in H as [H F].
  destruct (Z.ltb_spec v x).
  - constructor; [by apply IH|]. rewrite rinsert_perm. constructor; [lia|done].
  - constructor; [by constructor|]. constructor; [lia|]. eapply Forall_impl; [done|]. simpl. lia.
Qed.

Lemma sort_pass_sorts k r q b a' b' :
  sort_pass k 1 (S (length r)) (reverse r ++ q) b = Some (a', b') -> r <> [] -> length q = k ->
  StronglySorted Z.ge r -> StronglySorted Z.ge (reverse a').
Proof.
  revert r q b. induction k as [|k IH]; intros r q b; cbn [sort_pass].
  - intros [= <- <-] _ Hq. destruct q; [|done]. by rewrite app_nil_r, reverse_involutive.
  - intros E Hr Hq. destruct q as [|v q]; [done|]. pose proof (aget_middle (reverse r) q v) as G.
    rewrite length_reverse in G. rewrite G in E. destruct (aget b _) as [w|]; [|done].
    destruct (sort_shift _ _ _ _ _ _) as [[[a1 b1] j]|] eqn:Es; [|done].
    apply sort_shift_insert in Es; [|done]. rewrite Es in E. intros So.
    assert (Hl : S (S (length r)) = S (length (rinsert v r))) by (by rewrite rinsert_perm). rewrite Hl in E.
    eapply IH; [exact E| |simpl in Hq; lia|by apply rinsert_sorted].
    intros X. apply (f_equal length) in X. by rewrite rinsert_perm in X.
Qed.

(** *** The sequence of increments *)

Fixpoint increment (k : nat) : Z := match k with O => 1 | S k' => 3 * increment k' + 1 end.

Lemma increment_pos k : 1 <= increment k.
Proof. induction k; simpl; lia. Qed.

Lemma increment_div k : increment (S k) / 3 = increment k.
Proof. simpl. rewrite Z.mul_comm, Z.div_add_l by lia. by rewrite Z.add_0_r. Qed.

Lemma sort_first_inc_ok fuel n k :
  increment k <= n + 1 -> n < 2 ^ 30 -> (Z.to_nat (n - increment k + 1) < fuel)%nat ->
  exists k', sort_first_inc fuel n (increment k) = Some (increment (S k')).
Proof.
  revert k. induction fuel as [|fuel IH]; intros k H1 H2 H3; [lia|]. cbn [sort_first_inc].
  pose proof (increment_pos k) as Hp.
  assert (E : u32 (u32 (increment k * 3) + 1) = increment (S k)).
  { unfold u32. simpl. rewrite (Z.mod_small (increment k * 3)) by lia. rewrite Z.mod_small; lia. }
  rewrite E. destruct (Z.leb_spec (increment (S k)) n); [|by eexists]. apply IH; simpl in *; lia.
Qed.

Lemma sort_loop_ok fuel n k a b :
  (k < fuel)%nat -> n = length a -> (length a <= length b)%nat ->
  exists a' b', sort_loop fuel n (increment (S k)) a b = Some (a', b') /\ zip a' b' ≡ₚ zip a b /\
    length a' = length a /\ length b' = length b /\ StronglySorted Z.ge (reverse a').
Proof.
  revert k a b. induction fuel as [|fuel IH]; intros k a b Hf Hn L; [lia|]. cbn [sort_loop]. rewrite increment_div.
  pose proof (increment_pos k) as Hp. set (inc := Z.to_nat (increment k)).
  destruct (sort_pass_perm (n - inc) inc (S inc) a b) as (a1 & b1 & E & P & L1 & L2); [lia|lia|lia|lia|].
  rewrite E. destruct k as [|k].
  - exists a1, b1. split_and!; try done. destruct a as [|x a].
    + destruct a1; [|done]. constructor.
    + eapply (sort_pass_sorts _ [x] a); [exact E|done|simpl in *; lia|repeat constructor].
  - pose proof (increment_pos k). destruct (Z.ltb_spec 1 (increment (S k))); [|simpl in *; lia].
    destruct (IH k a1 b1) as (a' & b' & -> & P' & L1' & L2' & S'); [lia|congruence|lia|].
    exists a', b'. rewrite L1', L2', P', P. done.
Qed.

Lemma increment_ge k : Z.of_nat k < increment k.
Proof. induction k; simpl; lia. Qed.

(** ShellSort ends, sorts the lengths of the input lists, and keeps every length with its
    station. *)
Theorem shellSort_spec (a b : list Z) :
  (length a <= length b)%nat -> Z.of_nat (length a) < 2 ^ 30 ->
  exists a' b', shellSort (length a) a b = Some (a', b') /\
    length a' = length a /\ length b' = length b /\
    StronglySorted Z.le a' /\ zip a' b' ≡ₚ zip a b.
Proof.
  intros L N. unfold shellSort. destruct (sort_first_inc_ok (S (length a)) (Z.of_nat (length a)) 0) as [k E];
    [simpl; lia|done|simpl; lia|]. change (increment 0) with 1 in E. rewrite E.
  pose proof (increment_ge (S k)) as G.
  destruct (sort_loop_ok (Z.to_nat (increment (S k))) (length a) k a b) as (a1 & b1 & -> & P & L1 & L2 & So); [lia|done|lia|].
  exists a1, b1. split_and!; try done. clear -So. rewrite <- (reverse_involutive a1). induction So as [|x r So IH F].
  - constructor.
  - rewrite reverse_cons. apply StronglySorted_app_2; [|done|by repeat constructor].
    intros y z Hy Hz. rewrite elem_of_reverse in Hy. apply list_elem_of_singleton in Hz as ->.
    rewrite Forall_forall in F. specialize (F y Hy). lia.
Qed.

(** ** Equal cues: the events are spread like water *)

(** The numbers [x] of events fill the cues [c] up to the level [L]: a station that gets events ends
    at [L] or [L]+1, one that gets none was not below [L]. *)
Definition filled (n : nat) (c x : nat -> Z) (L : Z) : Prop :=
  forall i, (i < n)%nat -> (x i = 0 /\ L <= c i) \/ (0 < x i /\ L <= c i + x i <= L + 1).

Section equal_cue.
Context (n : nat) (cues place : list Z).
(** The place of the [i]-th station in the sorted order. *)
Definition spot (i : nat) : nat := Z.to_nat (place !!! i - 1).
Context (Lc : (n <= length cues)%nat) (Lp : (n <= length place)%nat).
Context (spot_lt : forall i, (i < n)%nat -> (spot i < n)%nat).
Context (spot_inj : forall i j, (i < n)%nat -> (j < n)%nat -> spot i = spot j -> i = j).
Context (sorted : forall i j, (i <= j < n)%nat -> cues !!! i <= cues !!! j).

Definition xs (nums : list Z) (i : nat) : Z := nums !!! spot i.

Lemma nums_at nums i : length nums = n -> (i < n)%nat -> nums !! spot i = Some (xs nums i).
Proof. intros L H. apply list_lookup_lookup_total_lt. rewrite L. auto. Qed.

Lemma cues_at i : (i < n)%nat -> cues !! i = Some (cues !!! i).
Proof. intros H. apply list_lookup_lookup_total_lt. lia. Qed.

Lemma place_at i : (i < n)%nat -> place !! i = Some (place !!! i).
Proof. intros H. apply list_lookup_lookup_total_lt. lia. Qed.

Lemma spots_perm : map spot (seq 0 n) ≡ₚ seq 0 n.
Proof.
  apply submseteq_length_Permutation; [|by rewrite length_map].
  apply NoDup_submseteq.
  - apply NoDup_fmap_2_strong; [|apply NoDup_seq]. intros i j Hi Hj. rewrite !elem_of_seq in *. apply spot_inj; lia.
  - intros i (j & -> & Hj)%list_elem_of_fmap. rewrite elem_of_seq in *. assert (j < n)%nat by lia. pose proof (spot_lt j). lia.
Qed.

Lemma sum_spots nums : length nums = n -> sumZ nums = sum_upto n (xs nums).
Proof.
  intros L. transitivity (sumZ (map (fun i => nums !!! i) (map spot (seq 0 n)))).
  - change (map (fun i => nums !!! i) (map spot (seq 0 n))) with ((fun i => nums !!! i) <$> map spot (seq 0 n)).
    rewrite spots_perm, <- L. f_equal. apply list_eq. intros i. rewrite list_lookup_fmap.
    destruct (decide (i < length nums)%nat) as [H|H].
    + rewrite lookup_seq_lt by done. simpl. by apply list_lookup_lookup_total_lt.
    + rewrite lookup_ge_None_2 by lia. rewrite lookup_seq_ge by lia. done.
  - unfold sum_upto. by rewrite map_map.
Qed.

Lemma count_same_ok k i nums min same nh :
  length nums = n -> (i + k = n)%nat ->
  exists m nh', count_same k i cues place nums min same nh = Some (same + Z.of_nat (m - i), nh') /\
    (i <= m <= n)%nat /\ (forall j, (i <= j < m)%nat -> min = cues !!! j + xs nums j) /\
    ((m < n)%nat -> min <> cues !!! m + xs nums m /\ nh' = cues !!! m).
Proof.
  intros L. revert i same. induction k as [|k IH]; intros i same E; cbn [count_same].
  - exists i, nh. rewrite Nat.sub_diag, Z.add_0_r. split_and!; [done|lia|lia| |]; intros; lia.
  - rewrite cues_at, place_at by lia. fold (spot i). rewrite (nums_at nums i) by (done || lia).
    destruct (Z.eqb_spec min (cues !!! i + xs nums i)) as [Em|Em].
    + destruct (IH (S i) (same + 1)) as (m & nh' & -> & H1 & H2 & H3); [lia|]. exists m, nh'. split_and!; [|lia|lia| |done].
      * do 2 f_equal. lia.
      * intros j Hj. destruct (decide (j = i)) as [->|]; [done|]. apply H2. lia.
    + exists i, (cues !!! i). rewrite Nat.sub_diag, Z.add_0_r. split_and!; [done|lia|lia| |done]. intros; lia.
Qed.

Lemma add_events_ok k i nums e extra :
  length nums = n -> (i + k <= n)%nat ->
  exists nums', add_events k i place nums e extra = Some nums' /\ length nums' = n /\
    forall j, (j < n)%nat -> xs nums' j =
      xs nums j + (if decide (i <= j < i + k)%nat then (if Z.of_nat j <? extra then e + 1 else e) else 0).
Proof.
  revert i nums. induction k as [|k IH]; intros i nums L H; cbn [add_events].
  - exists nums. split_and!; [done|done|]. intros j Hj. case_decide; lia.
  - rewrite place_at by lia. fold (spot i). rewrite (nums_at nums i) by (done || lia).
    edestruct (IH (S i)) as (nums' & -> & L' & H'); [by rewrite length_insert|lia|]. exists nums'. split_and!; [done|done|].
    intros j Hj. rewrite H' by done. unfold xs at 1. destruct (decide (j = i)) as [->|N].
    + rewrite list_lookup_total_insert_eq by (rewrite L; auto). rewrite (decide_False (P := (S i <= i < _)%nat)) by lia.
      rewrite decide_True by lia. lia.
    + rewrite list_lookup_total_insert_ne; [|intros X; apply N; apply spot_inj; [lia|lia|done]]. fold (xs nums j).
      destruct (decide (S i <= j < _)%nat), (decide (i <= j < _)%nat); lia.
Qed.

Lemma sum_added m e extra k :
  0 <= extra <= Z.of_nat m -> (m <= k)%nat ->
  sum_upto k (fun j => if decide (0 <= j < 0 + m)%nat then (if Z.of_nat j <? extra then e + 1 else e) else 0) = e * Z.of_nat m + extra.
Proof.
  intros He. enough (G : forall k, sum_upto k (fun j => if decide (0 <= j < 0 + m)%nat then (if Z.of_nat j <? extra then e + 1 else e) else 0)
    = e * Z.min (Z.of_nat k) (Z.of_nat m) + Z.min (Z.of_nat k) extra).
  { intros Hk. rewrite G. rewrite !Z.min_r by lia. done. }
  clear k. induction k as [|k IH]; [rewrite !Z.min_l by lia; unfold sum_upto; simpl; lia|]. rewrite sum_upto_S, IH. case_decide as D.
  - replace (Z.min (Z.of_nat (S k)) (Z.of_nat m)) with (Z.of_nat k + 1) by lia.
    replace (Z.min (Z.of_nat k) (Z.of_nat m)) with (Z.of_nat k) by lia.
    rewrite Z.mul_add_distr_l. destruct (Z.ltb_spec (Z.of_nat k) extra); lia.
  - replace (Z.min (Z.of_nat (S k)) (Z.of_nat m)) with (Z.min (Z.of_nat k) (Z.of_nat m)) by lia. lia.
Qed.

(** The invariant of the loop: the first [k] cues are at [min], the others got nothing yet. *)
Definition doled (k : nat) (nums : list Z) (min total : Z) : Prop :=
  length nums = n /\ (1 <= k <= n)%nat /\ sum_upto n (xs nums) = total /\
  (forall i, (i < k)%nat -> 0 <= xs nums i /\ cues !!! i + xs nums i = min) /\
  (forall i, (k <= i < n)%nat -> xs nums i = 0 /\ min <= cues !!! i).

Lemma doled_filled k nums min total : doled k nums min total -> filled n (fun i => cues !!! i) (xs nums) min.
Proof.
  intros (L & Hk & _ & H1 & H2) i Hi. destruct (decide (i < k)%nat) as [H|H].
  - destruct (H1 i H). destruct (decide (xs nums i = 0)); [left|right]; lia.
  - left. apply H2. lia.
Qed.

Lemma dole_out_ok fuel k nums min nh total left :
  (n - k < fuel)%nat -> doled k nums min total -> total <= left ->
  exists nums' L, dole_out fuel n left cues place nums min nh total = Some nums' /\
    length nums' = n /\ sumZ nums' = left /\ filled n (fun i => cues !!! i) (xs nums') L.
Proof.
  revert k nums min nh total. induction fuel as [|fuel IH]; intros k nums min nh total Hf D Ht; [lia|]. cbn [dole_out].
  pose proof D as (L & Hk & Es & H1 & H2).
  destruct (Z.ltb_spec total left) as [Hlt|].
  2: { exists nums, min. split_and!; [done|done| |by eapply doled_filled]. rewrite sum_spots by done. lia. }
  destruct (count_same_ok n 0 nums min 0 nh L eq_refl) as (m & nh' & -> & Hm & M1 & M2).
  rewrite Z.add_0_l, Nat.sub_0_r in *.
  assert (Hkm : (k <= m)%nat).
  { destruct (decide (k <= m)%nat); [done|]. destruct M2 as [X _]; [lia|]. destruct (H1 m); lia. }
  assert (Mx : forall i, (i < m)%nat -> 0 <= xs nums i /\ cues !!! i + xs nums i = min).
  { intros i Hi. split; [|rewrite (M1 i); lia]. destruct (decide (i < k)%nat); [by apply H1|]. rewrite (proj1 (H2 i ltac:(lia))). lia. }
  assert (Mn : forall i, (m <= i < n)%nat -> xs nums i = 0 /\ min < nh' <= cues !!! i).
  { intros i Hi. destruct (M2 ltac:(lia)) as [X ->]. destruct (H2 m ltac:(lia)) as [Y1 Y2]. split; [apply H2; lia|].
    rewrite Y1 in X. split; [lia|]. apply sorted. lia. }
  destruct ((Z.of_nat m =? Z.of_nat n) || _) eqn:T.
  - destruct (Z.eqb_spec (Z.of_nat m) 0); [lia|]. rewrite Nat2Z.id.
    set (e := (left - total) / Z.of_nat m). set (extra := (left - total) mod Z.of_nat m).
    pose proof (Z.mod_pos_bound (left - total) (Z.of_nat m) ltac:(lia)) as Hex. fold extra in Hex.
    pose proof (Z.div_mod (left - total) (Z.of_nat m) ltac:(lia)) as Hdm. fold e extra in Hdm.
    assert (He : 0 <= e) by (apply Z.div_pos; lia).
    destruct (add_events_ok m 0 nums e extra L) as (nums' & -> & L' & H'); [lia|].
    exists nums', (min + e). split_and!; [done|done| |].
    + rewrite sum_spots by done. rewrite (sum_upto_ext _ _ _ H'), sum_upto_add, sum_added by lia. lia.
    + intros i Hi. rewrite H' by done. case_decide as Hd.
      * destruct (Mx i ltac:(lia)) as [X1 X2]. set (d := if Z.of_nat i <? extra then e + 1 else e).
        assert (e <= d <= e + 1) by (unfold d; destruct (Z.ltb_spec (Z.of_nat i) extra); lia).
        destruct (decide (xs nums i + d = 0)); [left|right]; lia.
      * destruct (Mn i ltac:(lia)) as [X1 X2]. left. split; [lia|].
        apply orb_true_iff in T as [T|T]; zbool; [lia|]. enough (e <= nh' - min) by lia.
        apply Z.div_le_upper_bound; lia.
  - apply orb_false_iff in T as [T1 T2]; zbool. rewrite Nat2Z.id.
    destruct (Mn m ltac:(lia)) as [_ [Hmin _]].
    destruct (add_events_ok m 0 nums (nh' - min) 0 L) as (nums' & -> & L' & H'); [lia|].
    assert (H'' : forall j, (j < n)%nat -> xs nums' j = xs nums j + (if decide (j < m)%nat then nh' - min else 0)).
    { intros j Hj. rewrite H' by done. destruct (decide (0 <= j < _)%nat), (decide (j < m)%nat), (Z.ltb_spec (Z.of_nat j) 0); lia. }
    apply (IH (S m)); [lia| |lia]. split_and!; [done|lia|lia| | |].
    + rewrite (sum_upto_ext _ _ _ H'), sum_upto_add, sum_added by lia. lia.
    + intros i Hi. rewrite H'' by lia. case_decide as Hd.
      * destruct (Mx i Hd). lia.
      * replace i with m by lia. destruct (Mn m ltac:(lia)) as [-> _]. destruct (M2 ltac:(lia)) as [_ ->]. lia.
    + intros i Hi. rewrite H'' by lia. rewrite decide_False by lia. destruct (Mn i ltac:(lia)) as [-> ?]. lia.
Qed.
End equal_cue.

(** The sort gives every station a place in the order. *)
Lemma sorted_spots (cnts cues place' : list Z) (ns : nat) :
  let n := length cnts in
  let place := map (fun i => Z.of_nat i + 1) (seq 0 ns) in
  (n <= ns)%nat -> length cues = n -> length place' = length place -> zip cues place' ≡ₚ zip cnts place ->
  (forall i, (i < n)%nat -> (spot place' i < n)%nat /\ cues !!! i = cnts !!! spot place' i) /\
  (forall i j, (i < n)%nat -> (j < n)%nat -> spot place' i = spot place' j -> i = j).
Proof.
  intros n place Hn L1 L2 P. apply Permutation_inj in P as [Lz (f & Hinj & Hf)].
  assert (Lp : length place = ns) by (unfold place; by rewrite length_map, length_seq).
  assert (Hs : forall i, (i < n)%nat -> exists c, cues !! i = Some c /\ cnts !! f i = Some c /\ spot place' i = f i).
  { intros i Hi. destruct (lookup_lt_is_Some_2 cues i) as [c Hc]; [lia|].
    destruct (lookup_lt_is_Some_2 place' i) as [p Hp]; [lia|]. exists c. split; [done|].
    assert (Z1 : zip cues place' !! i = Some (c, p)) by (by apply lookup_zip_Some).
    rewrite Hf in Z1. apply lookup_zip_Some in Z1 as [Z1 Z2]. split; [done|].
    unfold spot. rewrite (list_lookup_total_correct _ _ _ Hp). unfold place in Z2. rewrite list_lookup_fmap in Z2.
    apply fmap_Some in Z2 as (k & Z2 & ->). apply lookup_seq in Z2 as [-> _]. lia. }
  split.
  - intros i Hi. destruct (Hs i Hi) as (c & E1 & E2 & ->). pose proof (lookup_lt_Some _ _ _ E2). split; [done|].
    by rewrite (list_lookup_total_correct _ _ _ E1), (list_lookup_total_correct _ _ _ E2).
  - intros i j Hi Hj E. destruct (Hs i Hi) as (c & _ & _ & X). destruct (Hs j Hj) as (c' & _ & _ & Y). apply Hinj. congruence.
Qed.

Lemma sorted_lookup (l : list Z) i j : StronglySorted Z.le l -> (i <= j < length l)%nat -> l !!! i <= l !!! j.
Proof.
  intros H. revert i j. induction H as [|x l H IH F]; intros i j Hij; simpl in *; [lia|].
  destruct j as [|j]; [by replace i with O by lia|]. destruct i as [|i]; simpl.
  - rewrite Forall_forall in F. apply F. apply list_elem_of_lookup_total_2. lia.
  - apply IH. lia.
Qed.

(** The whole algorithm. *)
Lemma equal_cue_levels nstations cnts left :
  let n := length cnts in
  (1 <= n <= nstations)%nat -> Z.of_nat n < 2 ^ 30 -> 0 <= left ->
  exists nums L, equal_cue nstations cnts left = Some nums /\ length nums = n /\ sumZ nums = left /\
    filled n (fun i => cnts !!! i) (fun i => nums !!! i) L.
Proof.
  intros n Hn Hb Hl. unfold equal_cue. set (place := map _ _).
  assert (Lp : length place = nstations) by (unfold place; by rewrite length_map, length_seq).
  destruct (shellSort_spec cnts place) as (cues & place' & -> & L1 & L2 & So & P); [lia|done|]. fold n in L1.
  destruct (sorted_spots cnts cues place' nstations) as [S1 S2]; [lia|done|done|done|]. fold n in S1, S2.
  destruct cues as [|min cues']; [simpl in L1; lia|]. set (cues0 := min :: cues') in *.
  assert (E0 : cues0 !!! 0%nat = min) by done. cbv zeta. fold n.
  destruct (dole_out_ok n cues0 place' ltac:(lia) ltac:(lia) (fun i Hi => proj1 (S1 i Hi)) S2
    (fun i j H => sorted_lookup cues0 i j So ltac:(lia)) (S n) 1 (replicate n 0) min 0 0 left) as (nums & L & -> & Ln & Es & F); [lia| |done|].
  { assert (X0 : forall i, (i < n)%nat -> xs place' (replicate n 0) i = 0).
    { intros i Hi. unfold xs. apply list_lookup_total_correct, lookup_replicate_2, S1, Hi. }
    split_and!; [apply length_replicate|lia|lia| | |].
    - rewrite (sum_upto_ext n _ (fun _ => 0)) by done. clear. induction n as [|n IH]; [done|]. by rewrite sum_upto_S, IH.
    - intros i Hi. replace i with O by lia. rewrite X0 by lia. lia.
    - intros i Hi. rewrite X0 by lia. split; [done|]. rewrite <- E0. apply sorted_lookup; [done|lia]. }
  exists nums, L. split_and!; [done|done|done|]. intros j Hj.
  pose proof (spots_perm n cues0 place' ltac:(lia) ltac:(lia) (fun i Hi => proj1 (S1 i Hi)) S2) as Sp.
  assert (Hin : j ∈ map (spot place') (seq 0 n)) by (rewrite Sp; apply elem_of_seq; lia).
  apply list_elem_of_fmap in Hin as (i & -> & Hi). apply elem_of_seq in Hi. rewrite <- (proj2 (S1 i ltac:(lia))).
  apply (F i). lia.
Qed.

(** C24: the equal-cue algorithm ends and gives out exactly all events, so that the input lists of the
    parallel stations end up as equal as possible: there is a level that every station that gets
    events ends at, or one event above it, and no station that gets none was below it. *)
Theorem equal_cue_spec nstations cnts left :
  let n := length cnts in
  (1 <= n <= nstations)%nat -> Z.of_nat n < 2 ^ 30 -> 0 <= left ->
  exists nums L, equal_cue nstations cnts left = Some nums /\ length nums = n /\ sumZ nums = left /\
    filled n (fun i => cnts !!! i) (fun i => nums !!! i) L.
Proof. apply equal_cue_levels. Qed.

(** Three stations with 5, 0 and 3 events get 7 more. *)
Lemma equal_cue_spec_witness :
  exists nums L, equal_cue 4 [5; 0; 3] 7 = Some nums /\ length nums = 3%nat /\ sumZ nums = 7 /\
    filled 3 (fun i => [5; 0; 3] !!! i) (fun i => nums !!! i) L.
Proof. apply (equal_cue_spec 4 [5; 0; 3] 7); simpl; lia. Defined.

Example equal_cue_357 : equal_cue 4 [5; 0; 3] 7 = Some [0; 5; 2].
Proof. reflexivity. Qed.

Lemma shellSort_spec_witness :
  exists a' b', shellSort 5 [5; 0; 3; 9; 1] [1; 2; 3; 4; 5; 6] = Some (a', b') /\
    length a' = 5%nat /\ length b' = 6%nat /\ StronglySorted Z.le a' /\
    zip a' b' ≡ₚ zip [5; 0; 3; 9; 1] [1; 2; 3; 4; 5; 6].
Proof. apply (shellSort_spec [5; 0; 3; 9; 1] [1; 2; 3; 4; 5; 6]); simpl; lia. Defined.

(** ** Round robin: the events are dealt like cards *)

Lemma stride_lookup k n i (all : list Z) :
  (forall j, (j < k)%nat -> (i + j * n < length all)%nat) ->
  rrobin_stride k n i all = Some (map (fun j => all !!! (i + j * n)%nat) (seq 0 k)).
Proof.
  revert i. induction k as [|k IH]; intros i H; [done|]. cbn [rrobin_stride].
  rewrite (list_lookup_lookup_total_lt all i) by (specialize (H O); lia).
  rewrite IH by (intros j Hj; specialize (H (S j)); lia). rewrite <- cons_seq. cbn [map]. do 2 f_equal; [f_equal; lia|].
  rewrite <- fmap_S_seq. change (S <$> seq 0 k) with (map S (seq 0 k)). rewrite map_map. apply map_ext. intros j. f_equal. lia.
Qed.

Lemma stride_sublist k n i (all l : list Z) :
  (1 <= n)%nat -> rrobin_stride k n i all = Some l -> l `sublist_of` drop i all.
Proof.
  intros Hn. revert i l. induction k as [|k IH]; intros i l; cbn [rrobin_stride].
  - intros [= <-]. apply sublist_nil_l.
  - destruct (all !! i) as [a|] eqn:E; [|done]. destruct (rrobin_stride k n (i + n) all) as [l'|] eqn:E'; [|done]. intros [= <-].
    rewrite (drop_S _ _ _ E). apply sublist_skip. rewrite (IH _ _ E').
    replace (i + n)%nat with (S i + (n - 1))%nat by lia. rewrite <- drop_drop. apply sublist_drop.
Qed.

Lemma deal_groups n i nums (all : list Z) put :
  (forall j num, nums !! j = Some num -> exists g, rrobin_stride (Z.to_nat num) n (i + j) all = Some g) ->
  exists gs, rrobin_deal true n i nums all put = Some (concat gs) /\ length gs = length nums /\
    forall j num g, nums !! j = Some num -> gs !! j = Some g -> rrobin_stride (Z.to_nat num) n (i + j) all = Some g.
Proof.
  revert i. induction nums as [|num nums IH]; intros i H.
  - exists []. split_and!; [done|done|]. intros j num g. by rewrite lookup_nil.
  - destruct (H O num eq_refl) as [g E]. rewrite Nat.add_0_r in E. cbn [rrobin_deal].
    destruct (IH (S i)) as (gs & E' & L & Hg).
    { intros j num' Hj. destruct (H (S j) num' Hj) as [g' Eg]. exists g'. rewrite <- Eg. f_equal. lia. }
    rewrite E, E'. exists (g :: gs). split_and!; [done|by simpl; rewrite L|]. intros [|j] num' g'; cbn.
    + intros [= <-] [= <-]. by rewrite Nat.add_0_r.
    + intros H1 H2. rewrite <- (Hg j num' g' H1 H2). f_equal. lia.
Qed.

Section rrobin.
Context (all : list Z) (n : nat) (Hn : (1 <= n)%nat).
Abbreviation len := (Z.of_nat (length all)).
Abbreviation nums := (rrobin_nums (Z.of_nat n) len).

Lemma rrobin_nums_lookup i : (i < n)%nat -> nums !! i =
  Some (if Z.of_nat i <? len mod Z.of_nat n then len / Z.of_nat n + 1 else len / Z.of_nat n).
Proof. intros H. unfold rrobin_nums. rewrite list_lookup_fmap, lookup_seq_lt by lia. done. Qed.

Lemma length_rrobin_nums : length nums = n.
Proof. unfold rrobin_nums. rewrite length_map, length_seq. lia. Qed.

(** The [j]-th event of the [i]-th station is the event number i + j * n. *)
Lemma rrobin_index i num : nums !! i = Some num ->
  forall j, Z.of_nat j < num <-> (i + j * n < length all)%nat.
Proof.
  intros E. pose proof (lookup_lt_Some _ _ _ E) as Hi. rewrite length_rrobin_nums in Hi.
  rewrite rrobin_nums_lookup in E by done. injection E as <-. intros j.
  pose proof (Z.div_mod len (Z.of_nat n) ltac:(lia)) as D. pose proof (Z.mod_pos_bound len (Z.of_nat n) ltac:(lia)) as B.
  set (q := len / Z.of_nat n) in *. set (r := len mod Z.of_nat n) in *. clearbody q r.
  destruct (Z.ltb_spec (Z.of_nat i) r); split; intros H'; nia.
Qed.

Lemma rrobin_nums_nonneg i num : nums !! i = Some num -> 0 <= num.
Proof.
  intros E. pose proof (lookup_lt_Some _ _ _ E) as Hi. rewrite length_rrobin_nums in Hi.
  rewrite rrobin_nums_lookup in E by done. injection E as <-.
  assert (0 <= len / Z.of_nat n) by (apply Z.div_pos; lia). destruct (_ <? _); lia.
Qed.

Lemma sum_rrobin_nums : sumZ nums = len.
Proof.
  assert (G : forall q r k, 0 <= r -> sumZ (map (fun i => if Z.of_nat i <? r then q + 1 else q) (seq 0 k)) =
    q * Z.of_nat k + Z.min (Z.of_nat k) r).
  { intros q r k Hr. induction k as [|k IH]; [simpl; lia|]. rewrite seq_S, map_app, sumZ_app, IH. simpl.
    destruct (Z.ltb_spec (Z.of_nat k) r); lia. }
  pose proof (Z.div_mod len (Z.of_nat n) ltac:(lia)). pose proof (Z.mod_pos_bound len (Z.of_nat n) ltac:(lia)).
  unfold rrobin_nums. rewrite G, Nat2Z.id, Z.min_r by lia. lia.
Qed.

Lemma length_concat_Z (gs : list (list Z)) : Z.of_nat (length (concat gs)) = sumZ (map (fun g => Z.of_nat (length g)) gs).
Proof. induction gs as [|g gs IH]; simpl; [done|]. rewrite length_app. lia. Qed.

Lemma rrobin_groups_perm gs :
  length gs = n ->
  (forall i g, gs !! i = Some g -> exists num, nums !! i = Some num /\ num = Z.of_nat (length g) /\
    g = map (fun k => all !!! (i + k * n)%nat) (seq 0 (length g)) /\ g `sublist_of` all) ->
  concat gs ≡ₚ all.
Proof.
  intros L H. set (idxs := map (fun i => map (fun k => (i + k * n)%nat) (seq 0 (length (gs !!! i)))) (seq 0 n)).
  assert (E : gs = map (map (fun t => all !!! t)) idxs).
  { apply list_eq. intros i. unfold idxs. rewrite map_map, list_lookup_fmap. destruct (decide (i < n)%nat) as [Hi|Hi].
    - rewrite lookup_seq_lt by done. simpl. rewrite map_map. rewrite (list_lookup_lookup_total_lt gs i) by lia. f_equal.
      destruct (H i (gs !!! i)) as (num & _ & _ & Eg & _); [apply list_lookup_lookup_total_lt; lia|exact Eg].
    - rewrite lookup_seq_ge by lia. by apply lookup_ge_None_2; lia. }
  assert (En : map (fun g => Z.of_nat (length g)) gs = nums).
  { apply list_eq. intros i. rewrite list_lookup_fmap. destruct (gs !! i) as [g|] eqn:Eg; simpl.
    - by destruct (H i g Eg) as (num & -> & -> & _).
    - symmetry. apply lookup_ge_None. apply lookup_ge_None in Eg. rewrite length_rrobin_nums. lia. }
  assert (P : concat idxs ≡ₚ seq 0 (length all)).
  { symmetry. apply submseteq_length_Permutation.
    - apply NoDup_submseteq; [apply NoDup_seq|]. intros t Ht. apply elem_of_seq in Ht.
      apply list_elem_of_In, List.in_concat. set (i := (t mod n)%nat). set (j := (t / n)%nat).
      pose proof (Nat.mod_upper_bound t n ltac:(lia)) as Hm. fold i in Hm.
      pose proof (Nat.div_mod t n ltac:(lia)) as D. fold i j in D.
      exists (map (fun k => (i + k * n)%nat) (seq 0 (length (gs !!! i)))). split.
      + apply List.in_map_iff. exists i. split; [done|]. apply List.in_seq. lia.
      + apply List.in_map_iff. exists j. split; [lia|]. apply List.in_seq. split; [lia|].
        destruct (H i (gs !!! i)) as (num & Ei & -> & _); [apply list_lookup_lookup_total_lt; lia|].
        pose proof (proj2 (rrobin_index i _ Ei j)). lia.
    - rewrite length_seq. apply Nat.eq_le_incl. apply Nat2Z.inj. rewrite <- sum_rrobin_nums, <- En, <- length_concat_Z.
      rewrite E, <- concat_map, length_map. done. }
  assert (Ea : map (fun t => all !!! t) (seq 0 (length all)) = all).
  { apply list_eq. intros i. rewrite list_lookup_fmap. destruct (decide (i < length all)%nat).
    - rewrite lookup_seq_lt by done. simpl. symmetry. by apply list_lookup_lookup_total_lt.
    - rewrite lookup_seq_ge by lia. symmetry. apply lookup_ge_None_2. lia. }
  rewrite E, <- concat_map. etransitivity; [apply Permutation_map, P|]. by rewrite Ea.
Qed.

(** The first deal. *)
Lemma rrobin_first put :
  exists gs, rrobin_deal true n 0 nums all put = Some (concat gs) /\ length gs = n /\ concat gs ≡ₚ all /\
    forall i g, gs !! i = Some g ->
      g `sublist_of` all /\ nums !! i = Some (Z.of_nat (length g)) /\
      len / Z.of_nat n <= Z.of_nat (length g) <= len / Z.of_nat n + 1 /\
      forall j, (j < length g)%nat -> g !! j = all !! (i + j * n)%nat.
Proof.
  assert (H : forall j num, nums !! j = Some num -> rrobin_stride (Z.to_nat num) n j all =
    Some (map (fun k => all !!! (j + k * n)%nat) (seq 0 (Z.to_nat num)))).
  { intros j num E. apply stride_lookup. intros k Hk. apply (rrobin_index j num E). lia. }
  destruct (deal_groups n 0 nums all put) as (gs & E & L & Hg); [intros j num Ej; eexists; by apply H|].
  assert (Hg' : forall i g, gs !! i = Some g -> exists num, nums !! i = Some num /\ num = Z.of_nat (length g) /\
    g = map (fun k => all !!! (i + k * n)%nat) (seq 0 (length g)) /\ g `sublist_of` all).
  { intros i g Ei. destruct (lookup_lt_is_Some_2 nums i) as [num En]; [rewrite <- L; by eapply lookup_lt_Some|].
    pose proof (Hg i num g En Ei) as Es. pose proof (rrobin_nums_nonneg i num En) as Nn. exists num. split; [done|].
    rewrite Nat.add_0_l, (H i num En) in Es. apply (inj Some) in Es.
    assert (El : length g = Z.to_nat num) by (by rewrite <- Es, length_map, length_seq).
    split_and!; [lia|by rewrite El|]. pose proof (Hg i num g En Ei) as X. rewrite Nat.add_0_l in X. apply stride_sublist in X; [|done].
    rewrite X. apply sublist_drop. }
  exists gs. split_and!; [done|by rewrite L, length_rrobin_nums|by apply rrobin_groups_perm; [rewrite L; apply length_rrobin_nums|]|].
  intros i g Ei. destruct (Hg' i g Ei) as (num & En & -> & Eg & Sg). split; [done|]. split; [done|]. split.
  - pose proof (lookup_lt_Some _ _ _ En) as Hi. rewrite length_rrobin_nums in Hi. rewrite rrobin_nums_lookup in En by done.
    injection En as En. destruct (_ <? _) in En; lia.
  - intros j Hj. rewrite Eg at 1. rewrite list_lookup_fmap, lookup_seq_lt by done. simpl. symmetry.
    apply list_lookup_lookup_total_lt. apply (rrobin_index i _ En). lia.
Qed.

(** C25: while no station behind the conductor's has got events before, the round-robin algorithm gives
    every one of the events to exactly one of the [n] stations: the [i]-th station gets the events number i,
    i + n, i + 2n, ... in this order, and no station gets more than one event more than another.  Behind
    stations that got some of the events, as later groups are, it does not divide the events that are left:
    with the event 10 gone it deals 20 twice and 30 never. *)
Theorem rrobin_spec put :
  (exists gs, rrobin_deal true n 0 nums all put = Some (concat gs) /\ length gs = n /\ concat gs ≡ₚ all /\
    forall i g, gs !! i = Some g ->
      g `sublist_of` all /\ nums !! i = Some (Z.of_nat (length g)) /\
      len / Z.of_nat n <= Z.of_nat (length g) <= len / Z.of_nat n + 1 /\
      forall j, (j < length g)%nat -> g !! j = all !! (i + j * n)%nat) /\
  rrobin_deal false 2 0 (rrobin_nums 2 3) [10; 20; 30; 40] [true; false; false; false] = Some [20; 40; 20].
Proof. split; [apply rrobin_first|reflexivity]. Qed.
End rrobin.

(** Seven events for three stations. *)
Lemma rrobin_spec_witness :
  exists gs, rrobin_deal true 3 0 (rrobin_nums 3 7) [10; 20; 30; 40; 50; 60; 70] [] = Some (concat gs) /\
    length gs = 3%nat /\ concat gs ≡ₚ [10; 20; 30; 40; 50; 60; 70].
Proof.
  destruct (rrobin_spec [10; 20; 30; 40; 50; 60; 70] 3 ltac:(lia) []) as [(gs & E & L & P & _) _]. by exists gs.
Defined.

Example rrobin_7 : rrobin_deal true 3 0 (rrobin_nums 3 7) [10; 20; 30; 40; 50; 60; 70] [] = Some [10; 40; 70; 20; 50; 30; 60].
Proof. reflexivity. Qed.
