(* ===== verification/Conductor.v ===== *)
(** * The conductor of a station

    et_conductor of et_system.c, the thread of the ET system process that takes the events off the
    output list of its station and puts each into the input list of a station further down the
    chain, in the end into GrandCentral's.

    The local variables that outlive one station are [locals].  The pointers ps, pstat and so on are
    numbers of stations.  The walks along the chain get as fuel the number of the stations that
    exist: a longer walk goes in a circle and never ends.  The files of temporary events are not
    part of the model. *)
From stdpp Require Import base gmap strings list.
From S2P Require Import Prelude Types Machine EvList LList Station Select.
Open Scope Z_scope.

(** The selection functions of the users, in the library [lib] under the name [fname]: whether they
    can be loaded, and their result for a station and an event. *)
Class Selector := {
  dlopen_ok : string -> bool;
  dlsym_ok : string -> string -> bool;
  user_select : string -> string -> Z -> et_event -> Z
}.

Record locals := mkLocals {
  lo_left : Z;         (* events_left *)
  lo_put : list bool;  (* event_put *)
  lo_first : bool;     (* firstimethruloop *)
  lo_temps : list Z    (* temps, as far as it was ever written *)
}.
Definition set_lo_first (b : bool) (lo : locals) : locals :=
  mkLocals (lo_left lo) (lo_put lo) b (lo_temps lo).

(** The fuel of a walk along the stations. *)
Definition stations_fuel : M nat := let* m := getm in ret (S (size (m_stats m))).

Section conductor.
Context `{Selector}.

(** ** Choosing events for one station *)

(** ps->data.func, as the conductor of the station sets it. *)
Definition select_event (ps : et_station) (pe : Z) : M bool :=
  let config := st_config ps in
  if sc_select_mode config =? ET_STATION_SELECT_MATCH then
    let* q := ld_stat (st_num ps) in
    let* e := ld_ev 0 pe in
    ret (et_condition (st_config q) e)
  else if sc_select_mode config =? ET_STATION_SELECT_USER then
    let* e := ld_ev 0 pe in
    ret (negb (user_select (sc_lib config) (sc_fname config) (st_num ps) e =? 0))
  else fault.
Definition select_all (pe : Z) : M bool := ret true.

(** The loop of a blocking station: every prescale-th event that is selected. *)
Fixpoint choose_blocking (select : Z -> M bool) (pl : lptr) (prescale : Z)
    (allevents : list Z) (event_put : list bool) : M (list Z * list bool) :=
  match allevents, event_put with
  | pe :: allevents', p :: event_put' =>
      if p then
        let* (es, ps) := choose_blocking select pl prescale allevents' event_put' in
        ret (es, p :: ps)
      else
        let* s := select pe in
        let* take :=
          (if s then
             let* L := ld_list pl in
             str_list pl (fun L => set_l_events_try (u64 (l_events_try L + 1)) L) ;;;
             if prescale =? 0 then fault else ret (l_events_try L mod prescale =? 0)
           else ret false) in
        let* (es, ps) := choose_blocking select pl prescale allevents' event_put' in
        ret (if take then (pe :: es, true :: ps) else (es, p :: ps))
  | _, _ => ret ([], [])
  end.

(** The loop of a nonblocking station: [j] more events fit into its cue. *)
Fixpoint choose_cue (select : Z -> M bool) (j : Z)
    (allevents : list Z) (event_put : list bool) : M (list Z * list bool) :=
  match allevents, event_put with
  | pe :: allevents', p :: event_put' =>
      if p then
        let* (es, ps) := choose_cue select j allevents' event_put' in ret (es, p :: ps)
      else
        let* s := select pe in
        if s then
          if j - 1 =? 0 then ret ([pe], true :: event_put')
          else
            let* (es, ps) := choose_cue select (j - 1) allevents' event_put' in
            ret (pe :: es, true :: ps)
        else
          let* (es, ps) := choose_cue select j allevents' event_put' in ret (es, p :: ps)
  | _, _ => ret ([], [])
  end.

(** ** Putting events into one station *)

(** The write to a locked input list, the check of its result and the signal. *)
Definition write_list (pl : lptr) (pes : list Z) : M bool :=
  let* numwritten := et_llist_write pl pes in
  et_llist_unlock pl ;;;
  if (numwritten =? ET_ERROR) || (numwritten <? Z.of_nat (length pes)) then ret false
  else signal_cread pl ;;; ret true.

Definition add_events_try (pl : lptr) (n : Z) : M unit :=
  str_list pl (fun L => set_l_events_try (u64 (l_events_try L + n)) L).

(** The events that were not put into a station yet. *)
Fixpoint unput (allevents : list Z) (event_put : list bool) : list Z :=
  match allevents, event_put with
  | pe :: allevents', p :: event_put' =>
      if p then unput allevents' event_put' else pe :: unput allevents' event_put'
  | _, _ => []
  end.

Fixpoint find_temps (pes : list Z) : M (list Z) :=
  match pes with
  | [] => ret []
  | pe :: pes' =>
      let* e := ld_ev 0 pe in
      let* temps := find_temps pes' in
      ret (if ev_temp e =? ET_EVENT_TEMP then pe :: temps else temps)
  end.

(** sys->ntemps-- for every temporary event. *)
Fixpoint forget_temps (n : nat) : M unit :=
  match n with
  | O => ret tt
  | S n' => str_sys (fun y => set_sys_ntemps (sys_ntemps y - 1) y) ;;; forget_temps n'
  end.

Definition serve_gc (allevents : list Z) (lo : locals) : M (option locals) :=
  let pl := LIn ET_GRANDCENTRAL in
  let toput := if lo_first lo then allevents else unput allevents (lo_put lo) in
  let* found := find_temps toput in
  let temps := found ++ drop (length found) (lo_temps lo) in
  match toput with
  | [] => ret (Some (mkLocals (lo_left lo) (lo_put lo) (lo_first lo) temps))
  | _ =>
      (match temps with
       | [] => ret tt
       | _ => et_system_lock ;;; forget_temps (length found) ;;; et_system_unlock
       end) ;;;
      et_llist_lock pl ;;;
      let* status := et_llist_write_gc toput in
      et_llist_unlock pl ;;;
      if status =? ET_ERROR then ret None
      else signal_cread pl ;;; ret (Some (mkLocals 0 (lo_put lo) (lo_first lo) temps))
  end.

(** After the choice, with the list locked. *)
Definition serve_chosen (pl : lptr) (lo : locals) (chosen : list Z * list bool) : M (option locals) :=
  let (toput, put') := chosen in
  match toput with
  | [] => et_llist_unlock pl ;;; ret (Some (mkLocals (lo_left lo) put' (lo_first lo) (lo_temps lo)))
  | _ =>
      let* ok := write_list pl toput in
      ret (if (ok : bool)
           then Some (mkLocals (lo_left lo - Z.of_nat (length toput)) put' (lo_first lo) (lo_temps lo))
           else None)
  end.

(** One station, by its selection and block modes; [None] is the jump to the end of the thread. *)
Definition serve (ps : Z) (allevents : list Z) (lo : locals) : M (option locals) :=
  if ps =? ET_GRANDCENTRAL then serve_gc allevents lo
  else
    let pl := LIn ps in
    let* s := ld_stat ps in
    let config := st_config s in
    let all := sc_select_mode config =? ET_STATION_SELECT_ALL in
    let select := if all then select_all else select_event s in
    if sc_block_mode config =? ET_STATION_BLOCKING then
      if all && lo_first lo && (sc_prescale config =? 1) then
        et_llist_lock pl ;;;
        add_events_try pl (Z.of_nat (length allevents)) ;;;
        let* ok := write_list pl allevents in
        ret (if (ok : bool) then Some (mkLocals 0 (lo_put lo) (lo_first lo) (lo_temps lo)) else None)
      else
        et_llist_lock pl ;;;
        let* chosen := choose_blocking select pl (sc_prescale config) allevents (lo_put lo) in
        serve_chosen pl lo chosen
    else if sc_block_mode config =? ET_STATION_NONBLOCKING then
      et_llist_lock pl ;;;
      let* L := ld_list pl in
      let* chosen :=
        (if l_cnt L <? sc_cue config
         then choose_cue select (sc_cue config - l_cnt L) allevents (lo_put lo)
         else ret ([], lo_put lo)) in
      serve_chosen pl lo chosen
    else ret (Some lo).

(** ** The stations of a parallel group *)

Definition is_active (s : et_station) : bool := sd_status (st_data s) =? ET_STATION_ACTIVE.

Fixpoint first_active (n : nat) (pstat : Z) : M (option Z) :=
  match n with
  | O => diverge
  | S n' =>
      let* s := ld_stat pstat in
      if is_active s then ret (Some pstat)
      else if st_nextparallel s <? 0 then ret None
      else first_active n' (st_nextparallel s)
  end.

(** The next active station of the group behind [ps]. *)
Fixpoint next_active (n : nat) (ps : Z) : M (option Z) :=
  match n with
  | O => diverge
  | S n' =>
      let* s := ld_stat ps in
      if -1 <? st_nextparallel s then
        let* q := ld_stat (st_nextparallel s) in
        if is_active q then ret (Some (st_nextparallel s)) else next_active n' (st_nextparallel s)
      else ret None
  end.

(** All active stations of the group from [ps] on, while events are left. *)
Fixpoint serve_parallel (n : nat) (ps : Z) (allevents : list Z) (lo : locals) : M (option locals) :=
  match n with
  | O => diverge
  | S n' =>
      let* r := serve ps allevents lo in
      match r with
      | None => ret None
      | Some lo =>
          let* fuel := stations_fuel in
          let* nx := next_active fuel ps in
          match nx with
          | None => ret (Some lo)
          | Some ps' =>
              let lo := set_lo_first false lo in
              if 0 <? lo_left lo then serve_parallel n' ps' allevents lo else ret (Some lo)
          end
      end
  end.

(** *** Round robin *)

(** The station behind the last one to get an event, and the number of active stations. *)
Fixpoint rrobin_scan (n : nat) (pstat : Z) (startLooking : bool) (startStation : option Z)
    (numActiveStations : Z) : M (option Z * Z) :=
  match n with
  | O => diverge
  | S n' =>
      let* s := ld_stat pstat in
      let active := is_active s in
      let startStation := if active && startLooking then Some pstat else startStation in
      let startLooking := if active then false else startLooking in
      let numActiveStations := if active then numActiveStations + 1 else numActiveStations in
      when (st_waslast s =? 1) (str_stat pstat (set_st_waslast 0)) ;;;
      let startLooking := (st_waslast s =? 1) || startLooking in
      if -1 <? st_nextparallel s
      then rrobin_scan n' (st_nextparallel s) startLooking startStation numActiveStations
      else ret (startStation, numActiveStations)
  end.

(** [dealt]: putevents from eventsAlreadyPut on. *)
Fixpoint rrobin_put (n : nat) (pstat firstActive : Z) (numEvents : list Z) (count lastEventIndex : Z)
    (dealt : list Z) (lo : locals) : M (option locals) :=
  match n with
  | O => diverge
  | S n' =>
      let* s := ld_stat pstat in
      let* r :=
        (if is_active s then
           when (count =? lastEventIndex) (str_stat pstat (set_st_waslast 1)) ;;;
           let* events_toput := of_option (numEvents !! Z.to_nat count) in
           if 0 <? events_toput then
             let pl := LIn pstat in
             et_llist_lock pl ;;;
             add_events_try pl events_toput ;;;
             let* ok := write_list pl (take (Z.to_nat events_toput) dealt) in
             ret (if (ok : bool)
                  then Some (count + 1, drop (Z.to_nat events_toput) dealt,
                         mkLocals (lo_left lo - events_toput) (lo_put lo) (lo_first lo) (lo_temps lo))
                  else None)
           else ret (Some (count + 1, dealt, lo))
         else ret (Some (count, dealt, lo))) in
      match r with
      | None => ret None
      | Some (count, dealt, lo) =>
          if Z.of_nat (length numEvents) <=? count then ret (Some lo)
          else rrobin_put n' (if -1 <? st_nextparallel s then st_nextparallel s else firstActive) firstActive
                 numEvents count lastEventIndex dealt lo
      end
  end.

Definition serve_rrobin (depth ps firstActive : Z) (allevents : list Z) (lo : locals) : M (option locals) :=
  let* fuel := stations_fuel in
  let* (startStation, numActiveStations) := rrobin_scan fuel ps false None 0 in
  let startStation := default firstActive startStation in
  let numEvents := rrobin_nums numActiveStations (lo_left lo) in
  let* putevents := of_option (rrobin_deal (lo_first lo) (Z.to_nat numActiveStations) 0 numEvents allevents (lo_put lo)) in
  if depth <? Z.of_nat (length putevents) then fault
  else rrobin_put (fuel + fuel) startStation firstActive numEvents 0
         (rrobin_last numActiveStations (lo_left lo)) putevents lo.

(** *** Equal cues *)

(** inListCount: the lengths of the input lists of the active stations. *)
Fixpoint cue_counts (n : nat) (pstat : Z) : M (list Z) :=
  match n with
  | O => diverge
  | S n' =>
      let* s := ld_stat pstat in
      let* counts := (if -1 <? st_nextparallel s then cue_counts n' (st_nextparallel s) else ret []) in
      ret (if is_active s then l_cnt (st_list_in s) :: counts else counts)
  end.

(** The next [k] events that were not put into a station yet, which are marked. *)
Fixpoint take_unput (k : nat) (allevents : list Z) (event_put : list bool) : option (list Z * list bool) :=
  match k with
  | O => Some ([], event_put)
  | S k' =>
      match allevents, event_put with
      | pe :: allevents', p :: event_put' =>
          if p then match take_unput k allevents' event_put' with
                    | Some (es, ps) => Some (es, p :: ps) | None => None end
          else match take_unput k' allevents' event_put' with
               | Some (es, ps) => Some (pe :: es, true :: ps) | None => None end
      | _, _ => None
      end
  end.

(** [numEvents]: the numbers for the station [pstat] if it is active and those behind it. *)
Fixpoint equal_put (n : nat) (pstat : Z) (numEvents : list Z) (allevents : list Z)
    (eventsAlreadyPut : Z) (lo : locals) : M (option locals) :=
  match n with
  | O => diverge
  | S n' =>
      let* s := ld_stat pstat in
      let* r :=
        (if is_active s then
           let* events_toput := of_option (head numEvents) in
           if events_toput <? 1 then ret (Some (tail numEvents, eventsAlreadyPut, lo))
           else
             let* (pes, put') := of_option
               (if lo_first lo
                then Some (take (Z.to_nat events_toput) (drop (Z.to_nat eventsAlreadyPut) allevents), lo_put lo)
                else take_unput (Z.to_nat events_toput) allevents (lo_put lo)) in
             let pl := LIn pstat in
             et_llist_lock pl ;;;
             add_events_try pl events_toput ;;;
             let* ok := write_list pl pes in
             ret (if (ok : bool)
                  then Some (tail numEvents, eventsAlreadyPut + events_toput,
                         mkLocals (lo_left lo - events_toput) put' (lo_first lo) (lo_temps lo))
                  else None)
         else ret (Some (numEvents, eventsAlreadyPut, lo))) in
      match r with
      | None => ret None
      | Some (numEvents, eventsAlreadyPut, lo) =>
          if -1 <? st_nextparallel s
          then equal_put n' (st_nextparallel s) numEvents allevents eventsAlreadyPut lo
          else ret (Some lo)
      end
  end.

Definition serve_equal (firstActive : Z) (allevents : list Z) (lo : locals) : M (option locals) :=
  let* y := ld_sys in
  let* fuel := stations_fuel in
  let* inListCount := cue_counts fuel firstActive in
  let* numEvents := of_option (equal_cue (Z.to_nat (cf_nstations (sys_config y))) inListCount (lo_left lo)) in
  equal_put fuel firstActive numEvents allevents 0 lo.

(** ** One round *)

(** The station of the main list: [ps] and its group. *)
Definition serve_main (depth ps : Z) (s : et_station) (allevents : list Z) (lo : locals) : M (option locals) :=
  let parallel := sc_flow_mode (st_config s) =? ET_STATION_PARALLEL in
  let mode := sc_select_mode (st_config s) in
  let* fuel := stations_fuel in
  let* firstActive := (if parallel then first_active fuel ps else ret None) in
  match firstActive with
  | Some fa =>
      if mode =? ET_STATION_SELECT_RROBIN then serve_rrobin depth ps fa allevents lo
      else if mode =? ET_STATION_SELECT_EQUALCUE then serve_equal fa allevents lo
      else serve_parallel fuel fa allevents lo
  | None =>
      if negb (is_active s) then ret (Some lo)
      else if parallel then fault
      else serve ps allevents lo
  end.

(** while (events_left > 0). *)
Fixpoint conduct (n : nat) (depth ps : Z) (allevents : list Z) (lo : locals) : M (option locals) :=
  match n with
  | O => diverge
  | S n' =>
      if 0 <? lo_left lo then
        let* s := ld_stat ps in
        let* r := serve_main depth ps s allevents lo in
        match r with
        | None => ret None
        | Some lo =>
            if ps =? ET_GRANDCENTRAL then ret (Some lo)
            else conduct n' depth (if st_next s <? 0 then ET_GRANDCENTRAL else st_next s) allevents (set_lo_first false lo)
        end
      else ret (Some lo)
  end.

(** The head of the group of [ps]. *)
Fixpoint group_head (n : nat) (ps : Z) : M Z :=
  match n with
  | O => diverge
  | S n' =>
      let* s := ld_stat ps in
      if -1 <? st_prevparallel s then group_head n' (st_prevparallel s) else ret ps
  end.

(** The station that gets the events of the station [me] first. *)
Definition first_station (me : Z) : M Z :=
  let* s := ld_stat me in
  let* fuel := stations_fuel in
  let* h := (if sc_flow_mode (st_config s) =? ET_STATION_PARALLEL then group_head fuel me else ret me) in
  let* p := ld_stat h in
  ret (if st_next p <? 0 then ET_GRANDCENTRAL else st_next p).

(** Waiting for events: false if the thread shall end. *)
Fixpoint wait_events (n : nat) (me : Z) : M bool :=
  match n with
  | O => diverge
  | S n' =>
      let* L := ld_list (LOut me) in
      if l_cnt L <? 1 then
        let* status := cond_wait (LOut me) in
        if negb (status =? 0) then err_abort
        else
          let* s := ld_stat me in
          if st_conductor s =? ET_THREAD_KILL then et_llist_unlock (LOut me) ;;; ret false
          else wait_events n' me
      else ret true
  end.

(** The events that were read go down the chain; [depth] is the size of the arrays of events. *)
Definition distribute (depth me : Z) (allevents temps : list Z) : M (option locals) :=
  et_transfer_lock me ;;;
  let* ps := first_station me in
  let* fuel := stations_fuel in
  let* r := conduct fuel depth ps allevents
    (mkLocals (Z.of_nat (length allevents)) (replicate (length allevents) false) true temps) in
  et_transfer_unlock me ;;;
  ret r.

(** One turn of the endless loop: the array temps for the next one, or [None] if the thread ends. *)
Definition conductor_round (depth me : Z) (temps : list Z) : M (option (list Z)) :=
  et_llist_lock (LOut me) ;;;
  let* go := with_wakes (fun n => wait_events n me) in
  if negb go then ret None
  else
    let* L := ld_list (LOut me) in
    if depth <? l_cnt L then fault
    else
      let* (events_total, allevents) := et_llist_read (LOut me) in
      et_llist_unlock (LOut me) ;;;
      if events_total <? 0 then et_transfer_unlock me ;;; ret None
      else
        let* r := distribute depth me allevents temps in
        ret (lo_temps <$> r).

(** ** The thread *)

(** The station that is being created. *)
Fixpoint find_creating (n : nat) (ps : Z) : M (option Z) :=
  match n with
  | O => ret None
  | S n' =>
      let* s := ld_stat ps in
      if sd_status (st_data s) =? ET_STATION_CREATING then ret (Some ps) else find_creating n' (ps + 1)
  end.

(** Telling et_station_create that the thread is done; statadd_mutex may be locked already. *)
Definition conductor_fails : M unit :=
  let* y := ld_sys in
  let locked := sys_statadd_mutex y in
  when (negb locked) (str_sys (set_sys_statadd_mutex true)) ;;;
  str_sys (set_sys_statDone 1) ;;;
  when (negb locked) (str_sys (set_sys_statadd_mutex false)).

(** [calloc_ok]: the arrays were allocated. *)
Definition conductor_start (calloc_ok : bool) : M (option Z) :=
  let* y := ld_sys in
  let* found := find_creating (Z.to_nat (cf_nstations (sys_config y))) ET_GRANDCENTRAL in
  match found with
  | None => ret None
  | Some ps =>
      let* s := ld_stat ps in
      let config := st_config s in
      let loaded := negb (sc_select_mode config =? ET_STATION_SELECT_USER) ||
                    (dlopen_ok (sc_lib config) && dlsym_ok (sc_lib config) (sc_fname config)) in
      if negb (loaded && calloc_ok) then conductor_fails ;;; ret None
      else
        let status := if ps =? ET_GRANDCENTRAL then ET_STATION_ACTIVE else ET_STATION_IDLE in
        str_stat ps (fun s => set_st_data (set_sd_status status (st_data s)) s) ;;;
        et_statadd_lock ;;;
        str_sys (set_sys_statDone 1) ;;;
        et_statadd_unlock ;;;
        ret (Some ps)
  end.

(** The thread for at most [rounds] turns of its endless loop. *)
Fixpoint conductor_loop (rounds : nat) (depth me : Z) (temps : list Z) : M unit :=
  match rounds with
  | O => ret tt
  | S rounds' =>
      let* r := conductor_round depth me temps in
      match r with
      | Some temps' => conductor_loop rounds' depth me temps'
      | None => ret tt
      end
  end.

Definition et_conductor (rounds : nat) (calloc_ok : bool) : M unit :=
  let* y := ld_sys in
  let* me := conductor_start calloc_ok in
  match me with
  | Some me => conductor_loop rounds (cf_nevents (sys_config y)) me []
  | None => ret tt
  end.

End conductor.
