(* ===== verification/Wake.v ===== *)
(** * Triples for runs with wake-ups

    The total triple of the machine is about a process that is alone.  The triple [wpk] is about one
    that waits: its context holds the wake-ups that its waits will see.  A computation that does not
    wait ([nowake]) takes none of them, so that what is known of it when it is alone holds as well. *)
From stdpp Require Import base gmap strings list.
From S2P Require Import Prelude Types Machine EvList Repair StatConfig Stats Api StationApi Init Station.
Open Scope Z_scope.

(** Run from [m] with the wake-ups [w], [c] returns and [Q] holds of its result, of the wake-ups that
    are left and of the memory. *)
Definition wpk {A} (w : list wakeup) (c : M A) (Q : A -> list wakeup -> et_mem -> Prop) (m : et_mem) : Prop :=
  match c (mkCtx None w) m with
  | Ok a x' m' => cx_crash x' = None /\ Q a (cx_wakes x') m'
  | _ => False
  end.

(** [c] does the same with and without wake-ups and keeps them. *)
Definition nowake {A} (c : M A) : Prop :=
  forall k w m,
    match c (mkCtx k []) m with
    | Ok a x' m' => cx_wakes x' = [] /\ c (mkCtx k w) m = Ok a (mkCtx (cx_crash x') w) m'
    | o => c (mkCtx k w) m = o
    end.

Create HintDb nowake.

Lemma nowake_ret {A} (a : A) : nowake (ret a).
Proof. by intros k w m. Qed.
Lemma nowake_bind {A B} (c : M A) (f : A -> M B) : nowake c -> (forall a, nowake (f a)) -> nowake (bind c f).
Proof.
  intros Hc Hf k w m. specialize (Hc k w m). unfold bind. destruct (c (mkCtx k []) m) as [a [k' w'] m'|m'|m'| |]; try by rewrite Hc.
  destruct Hc as [W ->]. cbn in W. subst w'. exact (Hf a k' w m').
Qed.
Lemma nowake_getm : nowake getm.
Proof. by intros k w m. Qed.
Lemma nowake_store f : nowake (store f).
Proof. intros [[|k]|] w m; by cbn. Qed.
Lemma nowake_of_option {A} (o : option A) : nowake (of_option o).
Proof. destruct o; by intros k w m. Qed.
Lemma nowake_when b c : nowake c -> nowake (when b c).
Proof. intros H. destruct b; [exact H|apply nowake_ret]. Qed.
Lemma nowake_if {A} (b : bool) (c d : M A) : nowake c -> nowake d -> nowake (if b then c else d).
Proof. by destruct b. Qed.
Lemma nowake_block {A} : nowake (@block A).
Proof. by intros k w m. Qed.

#[export] Hint Resolve nowake_ret nowake_bind nowake_getm nowake_store nowake_of_option nowake_when nowake_if nowake_block : nowake.

(** Opens the definition of a computation and follows its structure. *)
Ltac nowake_steps :=
  repeat first
    [ by auto with nowake
    | apply nowake_bind; [|intros ?]
    | apply nowake_when
    | apply nowake_if
    | progress cbv beta zeta
    | match goal with |- nowake (match ?o with _ => _ end) => destruct o end ].

Lemma nowake_ld_stat s : nowake (ld_stat s).
Proof. unfold ld_stat. nowake_steps. Qed.
Lemma nowake_ld_sys : nowake ld_sys.
Proof. unfold ld_sys. nowake_steps. Qed.
#[export] Hint Resolve nowake_ld_stat nowake_ld_sys : nowake.
Lemma nowake_str_stat s f : nowake (str_stat s f).
Proof. unfold str_stat. nowake_steps. Qed.
Lemma nowake_str_sys f : nowake (str_sys f).
Proof. unfold str_sys. nowake_steps. Qed.
#[export] Hint Resolve nowake_str_stat nowake_str_sys : nowake.
Lemma nowake_str_stats s fs : nowake (str_stats s fs).
Proof. induction fs as [|f fs IH]; cbn [str_stats]; nowake_steps. Qed.
#[export] Hint Resolve nowake_str_stats : nowake.

(** ** Locks and the frame of a function *)

Lemma nowake_system_lock : nowake et_system_lock.
Proof. unfold et_system_lock. nowake_steps. Qed.
Lemma nowake_system_unlock : nowake et_system_unlock.
Proof. unfold et_system_unlock. nowake_steps. Qed.
Lemma nowake_station_lock : nowake et_station_lock.
Proof. unfold et_station_lock. nowake_steps. Qed.
Lemma nowake_station_unlock : nowake et_station_unlock.
Proof. unfold et_station_unlock. nowake_steps. Qed.
Lemma nowake_statadd_lock : nowake et_statadd_lock.
Proof. unfold et_statadd_lock. nowake_steps. Qed.
Lemma nowake_statadd_unlock : nowake et_statadd_unlock.
Proof. unfold et_statadd_unlock. nowake_steps. Qed.
Lemma nowake_memRead_lock : nowake et_memRead_lock.
Proof. unfold et_memRead_lock. nowake_steps. Qed.
Lemma nowake_mem_unlock : nowake et_mem_unlock.
Proof. unfold et_mem_unlock. nowake_steps. Qed.
#[export] Hint Resolve nowake_system_lock nowake_system_unlock nowake_station_lock nowake_station_unlock
  nowake_statadd_lock nowake_statadd_unlock nowake_memRead_lock nowake_mem_unlock : nowake.

Lemma nowake_etl_alive id : nowake (etl_alive id).
Proof. unfold etl_alive. nowake_steps. Qed.
#[export] Hint Resolve nowake_etl_alive : nowake.

Lemma nowake_alive_call `{R0 : Remote} {A} id (err : Z -> A) (body : M A) :
  id_locality id = ET_LOCAL -> nowake body -> nowake (alive_call id err body).
Proof.
  intros L B. unfold alive_call, et_alive, locked_call. rewrite L.
  change (ET_LOCAL =? ET_REMOTE) with false. change (ET_LOCAL =? ET_LOCAL_NOSHARE) with false. cbv iota. nowake_steps.
Qed.

Lemma nowake_exists_loop n num name : nowake (exists_loop n num name).
Proof. revert num. induction n as [|n IH]; intros num; cbn [exists_loop]; nowake_steps. Qed.
#[export] Hint Resolve nowake_exists_loop : nowake.

Lemma nowake_station_exists `{R0 : Remote} id given name : id_locality id = ET_LOCAL -> nowake (et_station_exists id given name).
Proof.
  intros L. unfold et_station_exists. destruct name; [|apply nowake_ret]. rewrite L.
  change (ET_LOCAL =? ET_REMOTE) with false. cbv iota. apply nowake_alive_call; [done|]. nowake_steps.
Qed.

Lemma nowake_find_unused n i : nowake (find_unused n i).
Proof. revert i. induction n as [|n IH]; intros i; cbn [find_unused]; nowake_steps. Qed.
Lemma nowake_init_station s : nowake (et_init_station s).
Proof. unfold et_init_station, et_init_llist. nowake_steps. Qed.
Lemma nowake_add_nstations k : nowake (add_nstations k).
Proof. unfold add_nstations. nowake_steps. Qed.
#[export] Hint Resolve nowake_find_unused nowake_init_station nowake_add_nstations : nowake.
Lemma nowake_create_setup `{O0 : Os} name sc s : nowake (create_setup name sc s).
Proof. unfold create_setup. nowake_steps. Qed.
#[export] Hint Resolve nowake_create_setup : nowake.

(** ** Rules *)

Section wpk.
Context {A : Type}.

Lemma wpk_ret w (a : A) (Q : A -> list wakeup -> et_mem -> Prop) m : Q a w m -> wpk w (ret a) Q m.
Proof. by intros H. Qed.

Lemma wpk_bind {B} w (c : M B) (f : B -> M A) (Q : A -> list wakeup -> et_mem -> Prop) m :
  wpk w c (fun a w' m' => wpk w' (f a) Q m') m -> wpk w (bind c f) Q m.
Proof.
  unfold wpk, bind. destruct (c (mkCtx None w) m) as [a [k' w'] m'|m'|m'| |]; try done.
  cbn. by intros [-> H].
Qed.

Lemma wpk_nowake w (c : M A) (Q' : A -> et_mem -> Prop) (Q : A -> list wakeup -> et_mem -> Prop) C m :
  nowake c -> wp c Q' C m -> (forall a m', Q' a m' -> Q a w m') -> wpk w c Q m.
Proof.
  intros N H HQ. specialize (N None w m). specialize (H (mkCtx None []) eq_refl). unfold wpk.
  destruct (c (mkCtx None []) m) as [a x' m'|m'|m'| |]; try done.
  - destruct N as [_ ->]. destruct H as (_ & Hc & H). cbn in *. auto.
  - by destruct H as [[] _].
Qed.

(** When all wake-ups are used up. *)
Lemma wpk_alone (c : M A) (Q' : A -> et_mem -> Prop) (Q : A -> list wakeup -> et_mem -> Prop) C m :
  wp c Q' C m -> (forall a m', Q' a m' -> Q a [] m') -> wpk [] c Q m.
Proof.
  intros H HQ. specialize (H (mkCtx None []) eq_refl). unfold wpk.
  destruct (c (mkCtx None []) m) as [a x' m'|m'|m'| |]; try done.
  - destruct H as (W & Hc & H). rewrite W. split; [by apply Hc|]. by apply HQ.
  - by destruct H as [[] _].
Qed.

Lemma wpk_run w (c : M A) (Q : A -> list wakeup -> et_mem -> Prop) m :
  wpk w c Q m -> exists a x m', run_wakes w c m = Ok a x m' /\ Q a (cx_wakes x) m'.
Proof.
  unfold wpk, run_wakes. destruct (c (mkCtx None w) m) as [a x m'|m'|m'| |]; try done. intros [_ H]. eauto.
Qed.
End wpk.
