(* ===== verification/Create.v ===== *)
(** * Making a station

    et_station_create_at composes the check of the configuration, the initialisation of a station, the
    thread that adds stations, which starts a conductor, and the chain.  The process waits for that
    thread: it is the wake-up of its run. *)
From stdpp Require Import base gmap strings list.
From S2P Require Import Prelude Types Machine EvList Repair Sample StatConfig Stats Chain Api StationApi Init Station StationSpec Attach FixChain Wake Conductor.
Open Scope Z_scope.

(** ** Looking for a station *)

(** No station in use has this name. *)
Definition name_free (name : string) (m : et_mem) : Prop :=
  forall s ps, m_stats m !! s = Some ps -> sd_status (st_data ps) <> ET_STATION_UNUSED -> st_name ps <> name.

Lemma wp_exists_loop name (n : nat) num m :
  (forall s, num <= s < num + Z.of_nat n -> is_Some (m_stats m !! s)) -> name_free name m ->
  wp (exists_loop n num name) (fun r m' => r = None /\ m' = m) (fun _ => True) m.
Proof.
  intros D F. revert num D. induction n as [|n IH]; intros num D; cbn [exists_loop]; [by apply wp_ret|].
  destruct (D num) as [ps E]; [lia|]. apply wp_bind. eapply wps_ld_stat; [done|].
  destruct (Z.eqb_spec (sd_status (st_data ps)) ET_STATION_UNUSED) as [U|U]; cbn [negb andb].
  - apply IH. intros s Hs. apply D. lia.
  - destruct (String.eqb_spec (st_name ps) name) as [X|X]; [by apply (F num ps) in X|]. apply IH. intros s Hs. apply D. lia.
Qed.

Lemma wp_station_exists `{R0 : Remote} id name m :
  local_call id m -> call_error id = None -> stations_dom m -> name_free name m ->
  wp (et_station_exists id true (Some name)) (fun r m' => r = (0, None) /\ m' = m) (fun _ => True) m.
Proof.
  intros L Ce D F. unfold et_station_exists. rewrite (lc_local _ _ L). change (ET_LOCAL =? ET_REMOTE) with false. cbv iota.
  apply (wp_alive_call id m L). rewrite Ce. apply wp_bind, wps_ld_sys. apply wp_bind.
  eapply wp_mono; [apply (wp_exists_loop name); [|done]| |done].
  { intros s Hs. apply D. cbn in Hs. lia. }
  intros r m' [-> ->]. apply wp_ret. split; [done|]. split; [done|]. by rewrite set_m_rwlock_back.
Qed.

(** The first station that is not used. *)
Definition first_unused (m : et_mem) (i : Z) : Prop :=
  0 <= i /\ (exists ps, m_stats m !! i = Some ps /\ sd_status (st_data ps) = ET_STATION_UNUSED) /\
  forall j ps, 0 <= j < i -> m_stats m !! j = Some ps -> sd_status (st_data ps) <> ET_STATION_UNUSED.

Lemma wp_find_unused (n : nat) k i m :
  0 <= k <= i -> i < k + Z.of_nat n -> (forall s, k <= s < k + Z.of_nat n -> is_Some (m_stats m !! s)) -> first_unused m i ->
  wp (find_unused n k) (fun r m' => r = i /\ m' = m) (fun _ => True) m.
Proof.
  intros Hk Hn D F. revert k Hk Hn D. induction n as [|n IH]; intros k Hk Hn D; cbn [find_unused]; [lia|].
  destruct (D k) as [ps E]; [lia|]. apply wp_bind. eapply wps_ld_stat; [done|].
  destruct F as (F0 & (pi & Ei & Ui) & F2). destruct (Z.eqb_spec (sd_status (st_data ps)) ET_STATION_UNUSED) as [U|U].
  - apply wp_ret. split; [|done]. destruct (decide (k = i)) as [|N]; [done|]. exfalso. apply (F2 k ps); [lia|done|done].
  - apply IH; [|lia|intros s Hs; apply D; lia]. destruct (decide (k = i)) as [->|N]; [congruence|lia].
Qed.

Section room.
Context (m : et_mem) (gs : list (Z * list Z)) (S : station_state m gs).

(** There is one when the chain has fewer stations than there may be. *)
Lemma unused_exists : NoDup (members gs) -> Z.of_nat (length (members gs)) < cf_nstations (sys_config (m_sys m)) ->
  exists i, first_unused m i /\ i ∉ members gs.
Proof.
  intros ND H. set (p i := bool_decide (i ∈ members gs)).
  assert (C : count p (cf_nstations (sys_config (m_sys m))) <= Z.of_nat (length (members gs))).
  { unfold count. apply Nat2Z.inj_le. apply submseteq_length. apply NoDup_submseteq.
    - apply NoDup_ListNoDup, List.NoDup_filter, NoDup_ListNoDup, NoDup_upto.
    - intros i Hi%list_elem_of_In%List.filter_In. destruct Hi as [_ Hi]. by apply bool_decide_eq_true in Hi. }
  destruct (count_free p (cf_nstations (sys_config (m_sys m))) ltac:(lia)) as (i & Hi & Pi & Hj). unfold p in Pi. apply bool_decide_eq_false in Pi.
  exists i. split; [|done]. split; [lia|]. split.
  - destruct (proj2 (ss_dom _ _ S i) Hi) as [ps E]. exists ps. split; [done|]. by apply (ss_unused _ _ S i ps).
  - intros j ps Hji E. specialize (Hj j Hji). apply bool_decide_eq_true in Hj.
    by destruct (ss_used _ _ S j ps E Hj) as [-> | ->].
Qed.
End room.

(** ** The conductor of the new station *)

Section wpk_rules.
Context (w : list wakeup) (m : et_mem).
Lemma wpk_ld_sys (Q : et_system -> list wakeup -> et_mem -> Prop) : Q (m_sys m) w m -> wpk w ld_sys Q m.
Proof. by intros H. Qed.
Lemma wpk_ld_stat s ps (Q : et_station -> list wakeup -> et_mem -> Prop) :
  m_stats m !! s = Some ps -> Q ps w m -> wpk w (ld_stat s) Q m.
Proof. intros E H. unfold wpk, ld_stat, bind, getm. by rewrite E. Qed.
Lemma wpk_str_sys f (Q : unit -> list wakeup -> et_mem -> Prop) : Q tt w (upd_sys f m) -> wpk w (str_sys f) Q m.
Proof. by intros H. Qed.
End wpk_rules.

(** The new station before and after its conductor started. *)
Definition creating `{O0 : Os} (name : string) (sc : et_stat_config) (i : Z) (ps : et_station) : et_station :=
  stores [set_st_num i; set_st_name name; set_st_config sc; in_data (set_sd_pid_create getpid); in_data (set_sd_status ET_STATION_CREATING)]
    (init_station ps).
Definition created `{O0 : Os} (name : string) (sc : et_stat_config) (i : Z) (ps : et_station) : et_station :=
  in_data (set_sd_status ET_STATION_IDLE) (creating name sc i ps).

(** The selection function of the user can be loaded. *)
Definition loads `{S0 : Selector} (sc : et_stat_config) : bool :=
  negb (sc_select_mode sc =? ET_STATION_SELECT_USER) || (dlopen_ok (sc_lib sc) && dlsym_ok (sc_lib sc) (sc_fname sc)).

(** The thread that adds stations starts the conductor, sets its flag back and waits again; the conductor
    wakes up the process that waits. *)
Definition conductor_wake `{S0 : Selector} : wakeup :=
  mkWake 0 (fun m => match run (str_sys (set_sys_statAdd 0) ;;; conductor_start true) m with Ok _ _ m' => m' | _ => m end).

Section start.
Context `{R0 : Remote} `{O0 : Os} `{S0 : Selector}.

Lemma wp_find_creating (n : nat) k i m :
  k <= i < k + Z.of_nat n -> (forall s, k <= s < k + Z.of_nat n -> is_Some (m_stats m !! s)) ->
  (forall s ps, k <= s -> m_stats m !! s = Some ps -> sd_status (st_data ps) = ET_STATION_CREATING <-> s = i) ->
  wp (find_creating n k) (fun r m' => r = Some i /\ m' = m) (fun _ => True) m.
Proof.
  revert k. induction n as [|n IH]; intros k Hk D F; cbn [find_creating]; [lia|].
  destruct (D k) as [ps E]; [lia|]. apply wp_bind. eapply wps_ld_stat; [done|].
  destruct (Z.eqb_spec (sd_status (st_data ps)) ET_STATION_CREATING) as [C|C].
  - apply wp_ret. apply (F k ps) in C as ->; [done|lia|done].
  - apply IH; [|intros s Hs; apply D; lia|intros s pt Hs; apply F; lia].
    destruct (decide (k = i)) as [->|]; [|lia]. exfalso. apply C, (F i ps); [lia|done|done].
Qed.

(** The status of the station after the start of its conductor. *)
Definition started_status (i : Z) : Z := if i =? ET_GRANDCENTRAL then ET_STATION_ACTIVE else ET_STATION_IDLE.

Lemma wp_conductor_start i ps m :
  stations_dom m -> sys_statadd_mutex (m_sys m) = false -> m_stats m !! i = Some ps ->
  (forall s pt, m_stats m !! s = Some pt -> sd_status (st_data pt) = ET_STATION_CREATING <-> s = i) ->
  wp (conductor_start true)
    (fun r m' => m' = upd_sys (set_sys_statDone 1)
                        (if loads (st_config ps) then upd_stat i (in_data (set_sd_status (started_status i))) m else m))
    (fun _ => True) m.
Proof.
  intros D Mx E F. unfold conductor_start. apply wp_bind, wps_ld_sys. assert (0 <= i < cf_nstations (sys_config (m_sys m))) as Hi by (apply D; eauto).
  apply wp_bind. eapply wp_mono; [apply (wp_find_creating _ _ i)| |done].
  - unfold ET_GRANDCENTRAL. lia.
  - intros s Hs. apply D. unfold ET_GRANDCENTRAL in Hs. lia.
  - intros s pt _. apply F.
  - intros r m' [-> ->]. apply wp_bind. eapply wps_ld_stat; [done|]. fold (loads (st_config ps)). rewrite andb_true_r.
    destruct (loads (st_config ps)); cbn [negb].
    + apply wp_bind. eapply wps_str_stat; [done|done|]. unfold et_statadd_lock. apply wp_bind, wp_bind, wps_ld_sys.
      cbn [m_sys upd_stat set_m_stats]. rewrite Mx. apply wps_str_sys; [done|]. apply wp_bind, wps_str_sys; [done|].
      unfold et_statadd_unlock. apply wp_bind, wps_str_sys; [done|]. apply wp_ret.
      unfold upd_stat, in_data. destruct m as [[]]. cbn in Mx. by subst.
    + unfold conductor_fails. apply wp_bind, wp_bind, wps_ld_sys. rewrite Mx. cbn [negb when].
      apply wp_bind, wps_str_sys; [done|]. apply wp_bind, wps_str_sys; [done|]. apply wps_str_sys; [done|]. apply wp_ret.
      destruct m as [[]]. cbn in Mx. by subst.
Qed.

(** Waiting for it. *)
Lemma statdone_woken k m m3 :
  sys_statDone (m_sys m) <> 1 -> wk_status k = 0 -> wk_env k (upd_sys (set_sys_statadd_mutex false) m) = m3 ->
  sys_statDone (m_sys m3) = 1 ->
  with_wakes statdone_loop (mkCtx None [k]) m = Ok tt (mkCtx None []) (upd_sys (set_sys_statadd_mutex true) m3).
Proof.
  intros N St E D. unfold with_wakes. cbn [cx_wakes length statdone_loop].
  assert (L : forall x m, ld_sys x m = Ok (m_sys m) x m) by done.
  erewrite bind_ok by apply L. rewrite (proj2 (Z.eqb_neq _ _) N).
  erewrite bind_ok by reflexivity. rewrite St, E. cbn [Z.eqb negb].
  erewrite bind_ok by apply L. cbn [m_sys upd_sys set_m_sys sys_statDone set_sys_statadd_mutex]. by rewrite D.
Qed.

Lemma wpk_create_conductor i ps m (Q : unit -> list wakeup -> et_mem -> Prop) :
  stations_dom m -> sys_statadd_mutex (m_sys m) = false -> m_stats m !! i = Some ps ->
  (forall s pt, m_stats m !! s = Some pt -> sd_status (st_data pt) = ET_STATION_CREATING <-> s = i) ->
  Q tt [] (upd_sys (fun y => set_sys_statDone 1 (set_sys_statAdd 0 y))
             (if loads (st_config ps) then upd_stat i (in_data (set_sd_status (started_status i))) m else m)) ->
  wpk [conductor_wake] create_conductor Q m.
Proof.
  intros D Mx E F HQ. unfold create_conductor, et_statadd_lock. apply wpk_bind, wpk_bind, wpk_ld_sys. rewrite Mx. apply wpk_str_sys.
  apply wpk_bind, wpk_str_sys. apply wpk_bind, wpk_str_sys. set (m1 := upd_sys (set_sys_statDone 0) _).
  set (m2 := upd_sys (set_sys_statAdd 0) (upd_sys (set_sys_statadd_mutex false) m1)).
  destruct (wp_run _ _ _ _ (wp_conductor_start i ps m2 D eq_refl E F)) as (r & x & m3 & Er & E3).
  assert (W : with_wakes statdone_loop (mkCtx None [conductor_wake]) m1 = Ok tt (mkCtx None []) (upd_sys (set_sys_statadd_mutex true) m3)).
  { apply statdone_woken; [done|done| |by rewrite E3]. unfold conductor_wake. cbn [wk_env].
    change (run (str_sys (set_sys_statAdd 0) ;;; conductor_start true) _) with (run (conductor_start true) m2). by rewrite Er. }
  apply wpk_bind. unfold wpk at 1. rewrite W. split; [done|]. cbn [cx_wakes].
  unfold et_statadd_unlock. apply wpk_str_sys. subst m3 m2 m1.
  enough (X : upd_sys (set_sys_statadd_mutex false) (upd_sys (set_sys_statadd_mutex true)
     (upd_sys (set_sys_statDone 1) (if loads (st_config ps) then upd_stat i (in_data (set_sd_status (started_status i)))
        (upd_sys (set_sys_statAdd 0) (upd_sys (set_sys_statadd_mutex false) (upd_sys (set_sys_statDone 0) (upd_sys (set_sys_statAdd 1) (upd_sys (set_sys_statadd_mutex true) m)))))
      else upd_sys (set_sys_statAdd 0) (upd_sys (set_sys_statadd_mutex false) (upd_sys (set_sys_statDone 0) (upd_sys (set_sys_statAdd 1) (upd_sys (set_sys_statadd_mutex true) m))))))) =
    upd_sys (fun y => set_sys_statDone 1 (set_sys_statAdd 0 y)) (if loads (st_config ps) then upd_stat i (in_data (set_sd_status (started_status i))) m else m)).
  { by rewrite X. }
  destruct m as [[]]. cbn in Mx. subst. by destruct (loads (st_config ps)).
Qed.
End start.

(** ** Into the chain *)

Section insert.
Context `{R0 : Remote} `{O0 : Os}.
Context (m : et_mem) (gs : list (Z * list Z)) (i : Z) (ps : et_station).
Context (D : stations_dom m) (Free : forall s pt, m_stats m !! s = Some pt -> st_mutex pt = false).
Context (Mx : sys_stat_mutex (m_sys m) = false) (Nn : 0 <= cf_nstations (sys_config (m_sys m))).
Context (H : station_chain m gs) (F : fresh m gs i ps).
Context (N : sys_nstations (m_sys m) = Z.of_nat (length (members gs)) + 1).
Context (St : sd_status (st_data ps) = ET_STATION_IDLE).

Lemma retired_locked :
  set_m_rwlock (m_rwlock m) (upd_sys (set_sys_stat_mutex false)
    (upd_sys (set_sys_nstations (sys_nstations (m_sys m) - 1)) (upd_stat i retire (all_transfer false (chain_locked m))))) =
  retired i m.
Proof.
  pose proof (chain_unlocked_free m Free Mx) as U. unfold chain_unlocked in U.
  replace (retired i m) with (retired i (set_m_rwlock (m_rwlock m) (upd_sys (set_sys_stat_mutex false) (all_transfer false (chain_locked m))))) by by rewrite U.
  done.
Qed.

Lemma wp_create_insert position pp :
  wp (create_insert i position pp)
    (fun r m' => m_rwlock m' = m_rwlock m + 1 /\
       match chain_insert m i position pp gs with
       | Some gs' => r = (ET_OK, Some i) /\ station_chain (set_m_rwlock (m_rwlock m) m') gs' /\
           unlinked_mem (set_m_rwlock (m_rwlock m) m') = unlinked_mem m
       | None => r = (ET_ERROR, None) /\ set_m_rwlock (m_rwlock m) m' = retired i m
       end) (fun _ => True)
    (upd_sys (set_sys_stat_mutex true) (set_m_rwlock (m_rwlock m + 1) m)).
Proof.
  unfold create_insert. pose proof (fr_stat _ _ _ _ _ F) as E. apply wp_bind. eapply wps_ld_stat; [exact E|]. rewrite St. cbn [Z.eqb negb].
  change (negb (ET_STATION_IDLE =? ET_STATION_IDLE)) with false. cbv iota.
  apply wp_bind, wp_transfer_lock_all; [done..|]. fold (chain_locked m).
  assert (HL : station_chain (chain_locked m) gs) by by rewrite chain_locked_links.
  assert (FL : fresh (chain_locked m) gs i (set_st_mutex true ps)).
  { destruct F as [F1 F2 F3 F4 F5 F6 F7 F8]. split; try done.
    - cbn. rewrite lookup_fmap. by rewrite F2.
    - intros (p & Ep & Pp). apply F6. cbn in Ep. rewrite lookup_fmap, F2 in Ep. injection Ep as <-. by exists ps. }
  apply wp_bind. eapply wp_mono; [by apply (wp_station_insert True _ gs i _ position pp HL FL)| |done].
  intros st m2. assert (Ei : chain_insert (chain_locked m) i position pp gs = chain_insert m i position pp gs).
  { unfold chain_insert. destruct (if _ <=? _ then _ else _) as [[h ms]|]; [|done].
    assert (X : forall s, flow_parallel (chain_locked m) s = flow_parallel m s).
    { intros s. unfold flow_parallel, stf. cbn. rewrite lookup_fmap. by destruct (m_stats m !! s). }
    rewrite !X. unfold fits. cbn. rewrite !lookup_fmap. by destruct (m_stats m !! h), (m_stats m !! i). }
  unfold insert_result. rewrite Ei. clear Ei.
  assert (DL : stations_dom (chain_locked m)) by by apply locked_dom.
  destruct (chain_insert m i position pp gs) as [gs'|].
  - intros (-> & H2 & U2). change (negb (ET_OK =? ET_OK)) with false. cbv iota.
    assert (D2 : stations_dom m2) by by apply (unlinked_dom (chain_locked m)).
    assert (C2 : sys_config (m_sys m2) = sys_config (m_sys m)).
    { pose proof (unlinked_sys _ _ U2) as Y.
      change (sys_config (set_sys_stat_tail 0 (m_sys m2)) = sys_config (set_sys_stat_tail 0 (m_sys (chain_locked m)))). by rewrite Y. }
    apply wp_bind, wp_transfer_unlock_all; [done|by rewrite C2|]. unfold et_station_unlock. apply wp_bind, wps_str_sys; [done|].
    apply wp_ret. split; [|split; [done|split]].
    + change (m_rwlock (unlinked_mem m2) = m_rwlock m + 1). by rewrite U2.
    + fold (chain_unlocked (m_rwlock m) m2). by rewrite chain_unlocked_links.
    + fold (chain_unlocked (m_rwlock m) m2). rewrite unlinked_chain_unlocked, U2, <- unlinked_chain_unlocked.
      by rewrite chain_unlocked_free.
  - intros (-> & ->). change (negb (ET_ERROR =? ET_OK)) with true. cbv iota.
    apply wp_bind, wp_transfer_unlock_all; [done|done|].
    assert (E2 : m_stats (all_transfer false (chain_locked m)) !! i = Some (set_st_mutex false (set_st_mutex true ps))).
    { cbn. by rewrite !lookup_fmap, E. }
    apply wp_bind. eapply wps_str_stat; [exact E2|done|]. unfold signal_cread. apply wp_bind.
    eapply (wps_str_list _ (LOut i)); [by eapply upd_stat_eq|done|]. unfold upd_list. cbn [lstat].
    apply wp_bind. eapply wps_str_stat; [by do 2 eapply upd_stat_eq|done|]. unfold add_nstations. apply wp_bind, wp_bind, wps_ld_sys.
    apply wps_str_sys; [done|]. unfold et_station_unlock. apply wp_bind, wps_str_sys; [done|]. apply wp_ret.
    split; [done|]. split; [done|]. rewrite <- retired_locked, !upd_stat_compose. done.
Qed.
End insert.

(** ** The whole function *)

Lemma upd_sys_ext f g m : f (m_sys m) = g (m_sys m) -> upd_sys f m = upd_sys g m.
Proof. unfold upd_sys. by intros ->. Qed.

Lemma unlocked_sys y : sys_stat_mutex y = false ->
  set_sys_stat_mutex false (set_sys_nstations (sys_nstations y + 1 + -1) (set_sys_statDone 1 (set_sys_statAdd 0
    (set_sys_nstations (sys_nstations y + 1) (set_sys_stat_mutex true y))))) = set_sys_statDone 1 (set_sys_statAdd 0 y).
Proof. intros E. replace (sys_nstations y + 1 + -1) with (sys_nstations y) by lia. destruct y. cbn in E. by subst. Qed.

Section create.
Context `{R0 : Remote} `{O0 : Os} `{S0 : Selector}.
Context (id : et_id) (name : string) (sc : et_stat_config) (i : Z) (m : et_mem).

(** The memory with the new station, before it is in the chain. *)
Definition with_station : et_mem :=
  upd_sys (fun y => set_sys_statDone 1 (set_sys_statAdd 0 (set_sys_nstations (sys_nstations (m_sys m) + 1) y)))
    (upd_stat i (created name sc i) m).
(** The memory when the conductor could not be started. *)
Definition not_started : et_mem :=
  upd_sys (fun y => set_sys_statDone 1 (set_sys_statAdd 0 y)) (upd_stat i (fun ps => init_station (creating name sc i ps)) m).

(** The result and the memory after a new station was made. *)
Definition create_result (gs : list (Z * list Z)) (position pp : Z) (r : Z * option Z) (m' : et_mem) : Prop :=
  if loads sc then
    match chain_insert with_station i position pp gs with
    | Some gs' => r = (ET_OK, Some i) /\ station_chain m' gs' /\ unlinked_mem m' = unlinked_mem with_station
    | None => r = (ET_ERROR, None) /\ m' = retired i with_station
    end
  else r = (ET_ERROR, None) /\ m' = not_started.

Context (gs : list (Z * list Z)) (L : local_call id m) (H : system_ok m gs) (Ce : call_error id = None).
Context (Add : sys_statadd_mutex (m_sys m) = false).
Context (W : forall s ps, m_stats m !! s = Some ps -> length (sc_select (st_config ps)) = Z.to_nat ET_STATION_SELECT_INTS).
Context (Wsc : length (sc_select sc) = Z.to_nat ET_STATION_SELECT_INTS).
Context (Free : name_free name m) (U : first_unused m i) (Ni : i ∉ members gs).
Context (Room : Z.of_nat (length (members gs)) < cf_nstations (sys_config (m_sys m))).

Lemma unused_lookup : exists ps, m_stats m !! i = Some ps /\ sd_status (st_data ps) = ET_STATION_UNUSED.
Proof. apply U. Qed.

Lemma with_station_lookup ps s : m_stats m !! i = Some ps ->
  m_stats with_station !! s = if decide (s = i) then Some (created name sc i ps) else m_stats m !! s.
Proof.
  intros E. cbn. destruct (decide (s = i)) as [->|Ns]; [by rewrite lookup_alter_eq, E|by rewrite lookup_alter_ne].
Qed.

Lemma with_station_facts ps : m_stats m !! i = Some ps ->
  stations_dom with_station /\ (forall s pt, m_stats with_station !! s = Some pt -> st_mutex pt = false) /\
  station_chain with_station gs /\ fresh with_station gs i (created name sc i ps) /\
  sys_nstations (m_sys with_station) = Z.of_nat (length (members gs)) + 1.
Proof.
  intros E. destruct H as [C S]. pose proof (with_station_lookup ps) as Lk. split_and!.
  - intros s. change (cf_nstations (sys_config (m_sys with_station))) with (cf_nstations (sys_config (m_sys m))).
    rewrite <- (ss_dom _ _ S s), (Lk s E). destruct (decide (s = i)) as [->|]; [rewrite E; split; by eexists|done].
  - intros s pt. rewrite (Lk s E). destruct (decide (s = i)) as [->|Ns]; [|by apply (ss_free _ _ S)].
    intros [= <-]. exact (ss_free _ _ S i ps E).
  - apply (chain_outside m); [done| |done]. intros s Hs. rewrite (Lk s E). destruct (decide (s = i)) as [->|]; [done|done].
  - split; try done; [|apply U]. rewrite (Lk i E). by rewrite decide_True.
  - cbn. by rewrite (ss_count _ _ S).
Qed.

(** The part under the lock of the stations, from the store on the number of stations. *)
Lemma wpk_create_new position pp :
  wpk [conductor_wake] (create_new name sc false position pp)
    (fun r w m' => w = [] /\ m_rwlock m' = m_rwlock m + 1 /\ create_result gs position pp r (set_m_rwlock (m_rwlock m) m'))
    (upd_sys (set_sys_stat_mutex true) (set_m_rwlock (m_rwlock m + 1) m)).
Proof.
  destruct unused_lookup as (ps & E & Un). destruct (with_station_facts ps E) as (D & Fr & C & F & N). pose proof (proj2 H) as S.
  unfold create_new. apply wpk_bind, wpk_ld_sys. cbn [m_sys upd_sys set_m_sys sys_nstations sys_config set_sys_stat_mutex set_m_rwlock].
  rewrite (ss_count _ _ S). destruct (Z.leb_spec (cf_nstations (sys_config (m_sys m))) (Z.of_nat (length (members gs)))); [lia|].
  apply wpk_bind. unfold add_nstations at 1. apply wpk_bind, wpk_ld_sys, wpk_str_sys.
  set (m1 := upd_sys (set_sys_nstations _) _). apply wpk_bind.
  assert (Hi : 0 <= i < cf_nstations (sys_config (m_sys m))) by (apply (ss_dom _ _ S); eauto).
  eapply wpk_nowake; [apply nowake_find_unused|apply (wp_find_unused _ 0 i m1); [lia|lia| |exact U]|].
  { intros s Hs. apply (ss_dom _ _ S). lia. }
  intros i' m' [-> ->]. destruct (Z.eqb_spec i (-1)); [lia|]. apply wpk_bind.
  eapply (wpk_nowake _ _ (fun _ m' => m' = upd_stat i (creating name sc i) m1)); [apply nowake_create_setup| |].
  { unfold create_setup. apply wp_bind. eapply wp_init_station; [exact E|by apply (W i)|]. eapply wp_str_stats; [by apply upd_stat_eq|].
    by rewrite upd_stat_compose. }
  intros [] m' ->. set (m2 := upd_stat i (creating name sc i) m1).
  assert (E2 : m_stats m2 !! i = Some (creating name sc i ps)) by by apply upd_stat_eq.
  assert (Cr : forall s pt, m_stats m2 !! s = Some pt -> sd_status (st_data pt) = ET_STATION_CREATING <-> s = i).
  { intros s pt Es. destruct (decide (s = i)) as [->|Ns]; [rewrite E2 in Es; by injection Es as <-|].
    split; [|done]. intros X. exfalso. unfold m2 in Es. cbn in Es. rewrite lookup_alter_ne in Es by done.
    destruct (decide (s ∈ members gs)) as [Hs|Hs].
    - destruct (ss_used _ _ S s pt Es Hs) as [Y|Y]; by rewrite X in Y.
    - pose proof (ss_unused _ _ S s pt Es Hs) as Y. by rewrite X in Y. }
  assert (D2 : stations_dom m2) by (apply (upd_stat_dom i (creating name sc i) m1), S).
  cbn [negb]. apply wpk_bind. apply (wpk_create_conductor i (creating name sc i ps)); [done|exact Add|exact E2|exact Cr|].
  assert (i <> ET_GRANDCENTRAL) as Ng.
  { intros ->. apply Ni. destruct (ch_gc _ _ (proj1 H)) as [gs' ->]. by left. }
  unfold create_result, started_status. rewrite (proj2 (Z.eqb_neq _ _) Ng).
  change (st_config (creating name sc i ps)) with sc. destruct (loads sc).
  - replace (upd_sys _ (upd_stat i _ m2)) with (upd_sys (set_sys_stat_mutex true) (set_m_rwlock (m_rwlock with_station + 1) with_station)).
    2:{ unfold m2, m1, with_station. rewrite upd_stat_compose. done. }
    eapply wpk_alone; [apply (wp_create_insert with_station gs i (created name sc i ps)); [done|done|exact (ss_mutex _ _ S)|exact (ss_num _ _ S)|done..]|].
    intros r m' [K X]. split; [done|]. split; [exact K|]. exact X.
  - set (m3 := upd_sys _ m2). unfold create_insert. apply wpk_bind. eapply wpk_ld_stat; [exact E2|].
    change (sd_status (st_data (creating name sc i ps)) =? ET_STATION_IDLE) with false. cbn [negb].
    unfold add_nstations. apply wpk_bind, wpk_bind, wpk_ld_sys, wpk_str_sys. apply wpk_bind.
    eapply (wpk_alone _ (fun _ m' => m' = upd_stat i init_station (upd_sys (set_sys_nstations (sys_nstations (m_sys m3) + -1)) m3))).
    { eapply wp_init_station; [exact E2|exact Wsc|done]. }
    intros [] m' ->. unfold et_station_unlock. apply wpk_bind, wpk_str_sys, wpk_ret. split; [done|]. split; [done|]. split; [done|].
    unfold m3, m2, m1, not_started. rewrite <- (upd_stat_compose i init_station (creating name sc i) m). set (m4 := upd_stat i init_station (upd_stat i (creating name sc i) m)).
    change (upd_sys (fun y => set_sys_stat_mutex false (set_sys_nstations (sys_nstations y + 1 + -1) (set_sys_statDone 1 (set_sys_statAdd 0
      (set_sys_nstations (sys_nstations y + 1) (set_sys_stat_mutex true y)))))) m4 = upd_sys (fun y => set_sys_statDone 1 (set_sys_statAdd 0 y)) m4).
    apply upd_sys_ext. apply unlocked_sys, (ss_mutex _ _ S).
Qed.

(** ** The invariant *)

Lemma with_station_state ps gs' : m_stats m !! i = Some ps -> members gs' ≡ₚ i :: members gs -> station_state with_station gs'.
Proof.
  intros E P. destruct (with_station_facts ps E) as (D & Fr & _ & _ & N). pose proof (proj2 H) as S. split.
  - exact D.
  - rewrite N, P. cbn [length]. lia.
  - intros s pt. rewrite (with_station_lookup ps s E), P. destruct (decide (s = i)) as [->|Ns]; [intros [= <-] _; by left|].
    intros Es [->|Hs]%elem_of_cons; [done|]. by apply (ss_used _ _ S s pt).
  - intros s pt. rewrite (with_station_lookup ps s E), P. destruct (decide (s = i)) as [->|Ns]; [intros _ []; by left|].
    intros Es Hs. apply (ss_unused _ _ S s pt Es). intros X. apply Hs. by right.
  - exact Fr.
  - exact (ss_mutex _ _ S).
  - exact (ss_num _ _ S).
Qed.

Lemma not_started_ok ps : m_stats m !! i = Some ps -> system_ok not_started gs.
Proof.
  intros E. destruct H as [C S].
  assert (Lk : forall s, m_stats not_started !! s = if decide (s = i) then Some (init_station (creating name sc i ps)) else m_stats m !! s).
  { intros s. cbn. destruct (decide (s = i)) as [->|Ns]; [by rewrite lookup_alter_eq, E|by rewrite lookup_alter_ne]. }
  split.
  - apply (chain_outside m); [done| |done]. intros s Hs. rewrite Lk. by destruct (decide (s = i)) as [->|].
  - split; try exact (ss_num _ _ S).
    + by apply (upd_stat_dom i (fun ps => init_station (creating name sc i ps)) m), S.
    + exact (ss_count _ _ S).
    + intros s pt. rewrite Lk. destruct (decide (s = i)) as [->|Ns]; [done|by apply S].
    + intros s pt. rewrite Lk. destruct (decide (s = i)) as [->|Ns]; [by intros [= <-]|by apply S].
    + intros s pt. rewrite Lk. destruct (decide (s = i)) as [->|Ns]; [intros [= <-]; exact (ss_free _ _ S i ps E)|by apply S].
    + exact (ss_mutex _ _ S).
Qed.

(** The invariant of the stations is kept, with the new station at its place or without it. *)
Lemma create_result_ok position pp r m' : create_result gs position pp r m' ->
  match snd r with
  | Some j => j = i /\ exists gs', chain_insert with_station i position pp gs = Some gs' /\ system_ok m' gs'
  | None => system_ok m' gs
  end.
Proof.
  destruct unused_lookup as (ps & E & _). destruct (with_station_facts ps E) as (D & Fr & C & F & N).
  unfold create_result. destruct (loads sc); [|intros [-> ->]; by apply (not_started_ok ps)].
  destruct (chain_insert with_station i position pp gs) as [gs'|] eqn:Ei.
  - intros (-> & C' & U'). split; [done|]. exists gs'. split; [done|]. split; [done|].
    apply (unlinked_state with_station); [done|]. apply (with_station_state ps); [done|].
    by apply (chain_insert_perm with_station i position pp).
  - intros (-> & ->). cbn [snd]. split.
    + apply (chain_outside with_station); [done| |done]. intros s Hs. cbn. by rewrite lookup_alter_ne by congruence.
    + assert (P : members (gs ++ [(i, [])]) ≡ₚ i :: members gs).
      { rewrite members_app. cbn. symmetry. apply Permutation_cons_append. }
      eapply retired_state; [by apply (with_station_state ps)|by rewrite P|]. rewrite P. apply NoDup_cons. split; [done|].
      apply (ch_nodup _ _ (proj1 H)).
Qed.
End create.

Lemma wpk_create_at `{R0 : Remote} `{O0 : Os} `{S0 : Selector} id name mo sc0 sc i position pp m gs :
  local_call id m -> call_error id = None -> system_ok m gs -> sys_statadd_mutex (m_sys m) = false ->
  (forall s ps, m_stats m !! s = Some ps -> length (sc_select (st_config ps)) = Z.to_nat ET_STATION_SELECT_INTS) ->
  strlen name <= ET_STATNAME_LENGTH - 1 -> name <> "GRAND_CENTRAL"%string -> name_free name m ->
  valid_position position pp -> sc_init sc0 = ET_STRUCT_OK -> length (sc_select sc) = Z.to_nat ET_STATION_SELECT_INTS ->
  et_station_config_check (m_sys m) sc0 = (ET_OK, sc) ->
  first_unused m i -> i ∉ members gs -> Z.of_nat (length (members gs)) < cf_nstations (sys_config (m_sys m)) ->
  wpk [conductor_wake] (et_station_create_at id (Some name) mo (Some sc0) position pp)
    (fun r w m' => w = [] /\ create_result name sc i m gs position pp r m') m.
Proof.
  intros L Ce H Add W Ln Ng Free VP In Wsc Ck U Ni Room. unfold et_station_create_at.
  destruct (Z.ltb_spec (ET_STATNAME_LENGTH - 1) (strlen name)); [lia|].
  destruct (valid_position_checks position pp VP) as (-> & P0 & ->). rewrite In. change (negb (ET_STRUCT_OK =? ET_STRUCT_OK)) with false.
  cbv zeta iota. assert (("GRAND_CENTRAL" =? name)%string = false) as -> by (apply String.eqb_neq; congruence). rewrite P0. cbn [negb andb].
  rewrite (lc_local _ _ L). change (negb (ET_LOCAL =? ET_LOCAL)) with false. cbv iota.
  unfold et_alive. rewrite (lc_local _ _ L). change (ET_LOCAL =? ET_REMOTE) with false. change (ET_LOCAL =? ET_LOCAL_NOSHARE) with false. cbv iota.
  apply wpk_bind. eapply (wpk_nowake _ _ (fun r m' => r = id_alive id /\ m' = m)); [apply nowake_etl_alive|by apply (wp_etl_alive id m L _ (fun _ => True))|].
  intros alive m' [-> ->]. unfold call_error in Ce. destruct (id_alive id =? 0) eqn:Al; [done|]. cbn [andb].
  destruct (negb (id_closed id =? 0)) eqn:Cl; [done|]. unfold locked_call. pose proof (lc_rwlock _ _ L) as Rw.
  apply wpk_bind. set (m1 := set_m_rwlock (m_rwlock m + 1) m).
  eapply (wpk_nowake _ _ (fun _ m' => m' = m1) _ (fun _ => True)); [apply nowake_memRead_lock| |].
  { unfold et_memRead_lock. apply wp_bind, wp_getm. destruct (Z.ltb_spec (m_rwlock m) 0); [lia|]. by apply wp_store. }
  intros [] m' ->. rewrite Cl. apply wpk_bind, wpk_bind, wpk_ld_sys. change (m_sys m1) with (m_sys m). rewrite Ck.
  change (ET_OK =? ET_ERROR) with false. cbv iota. set (m2 := upd_sys (set_sys_stat_mutex true) m1).
  apply wpk_bind. eapply (wpk_nowake _ _ (fun _ m' => m' = m2) _ (fun _ => True)); [apply nowake_station_lock| |].
  { unfold et_station_lock. apply wp_bind, wps_ld_sys. change (m_sys m1) with (m_sys m). rewrite (ss_mutex _ _ (proj2 H)). by apply wps_str_sys. }
  intros [] m' ->. apply wpk_bind. eapply wpk_nowake; [apply nowake_station_exists, L|apply (wp_station_exists id name m2)|].
  - split; [apply L|apply L|cbn; lia].
  - unfold call_error. by rewrite Al, Cl.
  - exact (ss_dom _ _ (proj2 H)).
  - exact Free.
  - intros r m' [-> ->]. change (0 =? 1) with false. cbv iota.
    pose proof (wpk_create_new name sc i m gs H Add W Wsc U Ni Room position pp) as X. fold m1 in X. fold m2 in X.
    unfold wpk in X |- *. destruct (create_new _ _ _ _ _ _ _) as [r x' m'|m'|m'| |]; try done.
    destruct X as (Hc & Hw & K & X). split; [done|]. rewrite Hw.
    unfold et_mem_unlock, bind, getm, store, ret. cbn [cx_crash cx_wakes]. split; [done|]. split; [done|].
    rewrite K. destruct (Z.ltb_spec (m_rwlock m + 1) 0); [lia|]. by rewrite Z.add_simpl_r.
Qed.

(** C11: et_station_create_at with a name that is not taken and a configuration that is accepted, while a
    station is free, makes the first free station the new one: it waits for the thread that adds
    stations and returns with the station at its place in the chain, idle, with its name and
    configuration, or with an error and the chain as it was when the conductor cannot load the
    selection function or the station does not fit its parallel group.  The invariant of the stations
    is kept in all cases. *)
Theorem et_station_create_at_spec `{R0 : Remote} `{O0 : Os} `{S0 : Selector} id name mo sc0 sc position pp m gs :
  local_call id m -> call_error id = None -> system_ok m gs -> sys_statadd_mutex (m_sys m) = false ->
  (forall s ps, m_stats m !! s = Some ps -> length (sc_select (st_config ps)) = Z.to_nat ET_STATION_SELECT_INTS) ->
  strlen name <= ET_STATNAME_LENGTH - 1 -> name <> "GRAND_CENTRAL"%string -> name_free name m ->
  valid_position position pp -> sc_init sc0 = ET_STRUCT_OK -> length (sc_select sc) = Z.to_nat ET_STATION_SELECT_INTS ->
  et_station_config_check (m_sys m) sc0 = (ET_OK, sc) ->
  Z.of_nat (length (members gs)) < cf_nstations (sys_config (m_sys m)) ->
  exists i r x m', run_wakes [conductor_wake] (et_station_create_at id (Some name) mo (Some sc0) position pp) m = Ok r x m' /\
    first_unused m i /\ create_result name sc i m gs position pp r m' /\
    match snd r with
    | Some j => j = i /\ exists gs', chain_insert (with_station name sc i m) i position pp gs = Some gs' /\ system_ok m' gs'
    | None => system_ok m' gs
    end.
Proof.
  intros L Ce H Add W Ln Ng Free VP In Wsc Ck Room.
  destruct (unused_exists m gs (proj2 H) (ch_nodup _ _ (proj1 H)) Room) as (i & U & Ni).
  destruct (wpk_run _ _ _ _ (wpk_create_at id name mo sc0 sc i position pp m gs L Ce H Add W Ln Ng Free VP In Wsc Ck U Ni Room))
    as (r & x & m' & E & _ & X).
  exists i, r, x, m'. split; [done|]. split; [done|]. split; [done|]. by apply (create_result_ok name sc i m gs H Wsc U Ni position pp).
Qed.

(** ** A concrete station *)

#[local] Instance selector0 : Selector := {| dlopen_ok _ := true; dlsym_ok _ _ := true; user_select _ _ _ _ := 1 |}.

Lemma system1_words s ps : m_stats system1 !! s = Some ps -> length (sc_select (st_config ps)) = Z.to_nat ET_STATION_SELECT_INTS.
Proof.
  intros E. destruct (proj1 (ss_dom _ _ (proj2 system1_ok) s)) as [H1 H2]; [eauto|].
  assert (s = 0 \/ s = 1 \/ s = 2 \/ s = 3 \/ s = 4) as X by (cbn in H2; lia).
  destruct X as [->|[->|[->|[->| ->]]]]; injection E as <-; reflexivity.
Qed.

Lemma system1_name : name_free "NEW" system1.
Proof.
  intros s ps E _. destruct (proj1 (ss_dom _ _ (proj2 system1_ok) s)) as [H1 H2]; [eauto|].
  assert (s = 0 \/ s = 1 \/ s = 2 \/ s = 3 \/ s = 4) as X by (cbn in H2; lia).
  destruct X as [->|[->|[->|[->| ->]]]]; injection E as <-; done.
Qed.

(** The station joins the parallel group at position 1. *)
Definition parallel_config : et_stat_config := set_sc_flow_mode ET_STATION_PARALLEL config0.

Lemma et_station_create_at_spec_witness :
  exists i r x m', run_wakes [conductor_wake] (et_station_create_at (O0 := os0) id0 (Some "NEW"%string) true (Some parallel_config) 1 ET_END) system1 = Ok r x m' /\
    first_unused system1 i /\ create_result (O0 := os0) "NEW" parallel_config i system1 groups0 1 ET_END r m' /\
    match snd r with
    | Some j => j = i /\ exists gs', chain_insert (with_station (O0 := os0) "NEW" parallel_config i system1) i 1 ET_END groups0 = Some gs' /\ system_ok m' gs'
    | None => system_ok m' groups0
    end.
Proof.
  apply (et_station_create_at_spec (O0 := os0) id0 "NEW" true parallel_config parallel_config 1 ET_END system1 groups0);
    [exact system1_local|reflexivity|exact system1_ok|reflexivity|exact system1_words|by_eval|done|exact system1_name| |reflexivity|reflexivity|by_eval|by_eval].
  split; [right; lia|by left].
Defined.

Example create_parallel :
  exists x m', run_wakes [conductor_wake] (et_station_create_at (O0 := os0) id0 (Some "NEW"%string) true (Some parallel_config) 1 ET_END) system1 =
    Ok (ET_OK, Some 4) x m' /\ stf st_nextparallel m' 2 = 4.
Proof. do 2 eexists. split; [vm_compute; reflexivity|vm_compute; reflexivity]. Qed.
