(* ===== verification/Start.v ===== *)
(** * Starting an ET system

    The part of et_system_start that makes the contents of the shared memory (et_system.c):
    et_system_config_check, et_init_mem_sys, et_init_mem_station, et_init_histogram, et_init_mem_event
    and et_grandcentral_station_create.  Whatever the memory held before, all invariants of the other
    files hold afterwards.

    The attributes for mutexes and conditions that are shared between processes do not change the
    model, and they are not part of it. *)
From stdpp Require Import base gmap strings list pretty.
From S2P Require Import Prelude Types Machine EvList Local Write Repair Sample LList StatConfig Stats Chain Api StationApi Init Station StationSpec Attach FixAtt SysConfig Conductor Create.
Open Scope Z_scope.

Definition ET_VERSION : Z := 16.
Definition ET_BIT64_MASK : Z := 1.

(** ** The system structure *)

Fixpoint str_syss (fs : list (et_system -> et_system)) : M unit :=
  match fs with
  | [] => ret tt
  | f :: fs' => str_sys f ;;; str_syss fs'
  end.

(** for (i=0; i < n; i++). *)
Definition for_upto (n : Z) (f : Z -> M unit) : M unit := foldr (fun i c => f i ;;; c) (ret tt) (upto n).

Section start.
Context `{R0 : Remote} `{O0 : Os}.

(** [hz] is sysconf(_SC_CLK_TCK); without the name of the host the process ends. *)
Definition et_init_mem_sys (hz : Z) (config : et_sys_config) : M unit :=
  str_syss [set_sys_mutex false; set_sys_stat_mutex false; set_sys_statadd_mutex false] ;;;
  str_syss [set_sys_version ET_VERSION; set_sys_nselects ET_STATION_SELECT_INTS; set_sys_hz hz; set_sys_asthread ET_THREAD_KEEP;
    set_sys_bitInfo ET_BIT64_MASK; set_sys_heartbeat 0; set_sys_mainpid getpid; set_sys_nstations 0; set_sys_ntemps 0;
    set_sys_nprocesses 0; set_sys_nattachments 0; set_sys_statAdd 0; set_sys_statDone 0; set_sys_port 0; set_sys_host EmptyString] ;;;
  match etNetLocalHost with
  | None => err_abort
  | Some host =>
      str_syss [set_sys_host host; set_sys_stat_head ET_GRANDCENTRAL; set_sys_stat_tail ET_GRANDCENTRAL] ;;;
      for_upto ET_PROCESSES_MAX et_init_process ;;;
      for_upto ET_ATTACHMENTS_MAX et_init_attachment ;;;
      str_sys (set_sys_config config)
  end.

(** ** Stations and events *)

Definition et_init_mem_station : M unit :=
  let* y := ld_sys in
  for_upto (cf_nstations (sys_config y)) (fun i =>
    str_stats i [in_list (LIn i) (set_l_mutex false); in_list (LOut i) (set_l_mutex false);
                 in_list (LIn i) (set_l_cread 0); in_list (LOut i) (set_l_cread 0)] ;;;
    et_init_station i ;;;
    str_stat i (set_st_mutex false)).

(** The event headers from number [i] at [pe] on, each [size] bytes long; the data of the event are at
    [pmem]. *)
Fixpoint init_event_loop (n : nat) (config : et_sys_config) (size i pe pmem : Z) : M unit :=
  match n with
  | O => ret tt
  | S n' =>
      et_init_event 0 pe ;;;
      str_evs 0 pe [set_ev_filename (cf_filename config +:+ "_temp" +:+ pretty i); set_ev_data pmem; set_ev_place i] ;;;
      init_event_loop n' config size (i + 1) (pe + size) (pmem + cf_event_size config)
  end.

(** [events] and [data] are the pointers of the id; the data are set to 0. *)
Definition et_init_mem_event (size events data : Z) : M unit :=
  let* y := ld_sys in
  init_event_loop (Z.to_nat (cf_nevents (sys_config y))) (sys_config y) size 0 events data.

(** ** GrandCentral *)

Definition gc_config (malloc_ok : bool) : option et_stat_config :=
  let sconfig := snd (et_station_config_init malloc_ok) in
  let sconfig := snd (et_station_config_setuser sconfig ET_STATION_USER_MULTI) in
  let sconfig := snd (et_station_config_setrestore sconfig ET_STATION_RESTORE_GC) in
  let sconfig := snd (et_station_config_setselect sconfig ET_STATION_SELECT_ALL) in
  let sconfig := snd (et_station_config_setblock sconfig ET_STATION_BLOCKING) in
  snd (et_station_config_setprescale sconfig 1).

(** The events get the numbers of their groups and go into the input list of GrandCentral. *)
Fixpoint fill_gc (n : nat) (size pe index count : Z) : M Z :=
  match n with
  | O => ret ET_OK
  | S n' =>
      let* y := ld_sys in
      let* (index, count) :=
        if count =? 0 then
          let* g := of_option (cf_groups (sys_config y) !! Z.to_nat index) in ret (index + 1, g)
        else ret (index, count) in
      str_ev 0 pe (set_ev_group index) ;;;
      let* st := et_llist_write_gc [pe] in
      if negb (st =? ET_OK) then ret ET_ERROR
      else fill_gc n' size (pe + size) index (count - 1)
  end.

(** Afterwards the thread et_conductor is started. *)
Definition et_grandcentral_station_create (id : et_id) (malloc_ok : bool) (size events : Z) : M Z :=
  let* (status, _) := et_station_create id (Some "GRAND_CENTRAL"%string) malloc_ok (gc_config malloc_ok) in
  if negb (status =? ET_OK) then ret ET_ERROR
  else
    let* y := ld_sys in
    let* st := fill_gc (Z.to_nat (cf_nevents (sys_config y))) size events 0 0 in
    if negb (st =? ET_OK) then ret ET_ERROR
    else
      et_init_stats_station ET_GRANDCENTRAL ;;;
      ret ET_OK.

(** et_system_start, but for the mapping of the memory and the other threads. *)
Definition start_memory (hz : Z) (id : et_id) (config : et_sys_config) (malloc_ok : bool) (size events data : Z) : M Z :=
  if negb (et_system_config_check config =? ET_OK) then ret ET_ERROR
  else
    et_init_mem_sys hz config ;;;
    et_init_mem_station ;;;
    et_init_histogram id ;;;
    et_init_mem_event size events data ;;;
    et_grandcentral_station_create id malloc_ok size events.

(** ** Loops *)

Lemma wp_for_upto (f : Z -> M unit) (P : Z -> et_mem -> Prop) n (Q : unit -> et_mem -> Prop) C m :
  P 0 m -> (forall i m, 0 <= i < n -> P i m -> wp (f i) (fun _ m' => P (i + 1) m') C m) ->
  (forall m, P (Z.max 0 n) m -> Q tt m) -> wp (for_upto n f) Q C m.
Proof.
  intros H0 Hs HQ. unfold for_upto, upto.
  assert (X : forall k j m, (j + k = Z.to_nat n)%nat -> P (Z.of_nat j) m ->
    wp (foldr (fun i c => f i ;;; c) (ret tt) (map Z.of_nat (seq j k))) Q C m).
  { induction k as [|k IH]; intros j m0 E HP; cbn [seq map foldr].
    - apply wp_ret, HQ. by replace (Z.max 0 n) with (Z.of_nat j) by lia.
    - apply wp_bind. eapply wp_mono; [apply Hs; [lia|exact HP]| |done]. intros [] m' H'. apply IH; [lia|].
      by replace (Z.of_nat (S j)) with (Z.of_nat j + 1) by lia. }
  by apply (X (Z.to_nat n) 0%nat).
Qed.

Lemma wp_str_syss fs m (Q : unit -> et_mem -> Prop) :
  Q tt (upd_sys (stores fs) m) -> wp (str_syss fs) Q (fun _ => True) m.
Proof.
  revert m. induction fs as [|f fs IH]; intros m H; cbn [str_syss]; [apply wp_ret; by destruct m|].
  apply wp_bind, wps_str_sys; [done|]. by apply IH.
Qed.

(** ** The system structure is initialised *)

Definition closed_proc (pr : et_proc) : Prop :=
  (pr_num pr = -1 /\ pr_status pr = ET_PROC_CLOSED) /\ pr_nattachments pr = 0 /\
  forall i, 0 <= i < ET_ATTACHMENTS_MAX -> pr_att pr !! i = Some (-1).

Lemma foldl_insert_att (l : list Z) (a : gmap Z Z) i : i ∈ l -> foldl (fun a i => <[i := -1]> a) a l !! i = Some (-1).
Proof.
  revert a. induction l as [|j l IH]; intros a H; [by apply elem_of_nil in H|]. cbn [foldl].
  destruct (decide (i ∈ l)) as [Hl|Hl]; [by apply IH|]. apply elem_of_cons in H as [->|?]; [|done].
  assert (X : forall (l : list Z) (a : gmap Z Z), j ∉ l -> foldl (fun a i => <[i := -1]> a) a l !! j = a !! j).
  { clear. induction l as [|k l IH]; intros a H; [done|]. cbn [foldl]. rewrite IH by set_solver. by rewrite lookup_insert_ne by set_solver. }
  rewrite X by done. by rewrite lookup_insert_eq.
Qed.

Lemma stores_proc_att l pr :
  stores (map (fun i p => set_pr_att (<[i := -1]> (pr_att p)) p) l) pr = set_pr_att (foldl (fun a i => <[i := -1]> a) (pr_att pr) l) pr.
Proof.
  revert pr. unfold stores. induction l as [|i l IH]; intros pr; simpl; [by destruct pr|]. by rewrite IH.
Qed.

Lemma wp_str_procs p fs pr (Q : unit -> et_mem -> Prop) m :
  sys_proc (m_sys m) !! p = Some pr -> Q tt (with_procs (alter (stores fs) p (sys_proc (m_sys m))) m) ->
  wp (str_procs p fs) Q (fun _ => True) m.
Proof.
  revert pr m. induction fs as [|f fs IH]; intros pr m E H; cbn [str_procs].
  - apply wp_ret. unfold with_procs, upd_sys in H. rewrite alter_id in H by done. by destruct m as [[]].
  - apply wp_bind. eapply wps_str_proc; [done|]. eapply IH; [cbn; by rewrite lookup_alter_eq, E|].
    unfold with_procs, upd_sys, set_m_sys in *. cbn in *.
    replace (alter (stores fs) p (alter f p (sys_proc (m_sys m)))) with (alter (stores (f :: fs)) p (sys_proc (m_sys m))); [done|].
    apply map_eq. intros q. destruct (decide (p = q)) as [<-|N]; [by rewrite !lookup_alter_eq, E|by rewrite !lookup_alter_ne].
Qed.

Lemma wp_init_process p pr (Q : unit -> et_mem -> Prop) m :
  sys_proc (m_sys m) !! p = Some pr ->
  (forall pr', closed_proc pr' -> Q tt (with_procs (<[p := pr']> (sys_proc (m_sys m))) m)) ->
  wp (et_init_process p) Q (fun _ => True) m.
Proof.
  intros E H. unfold et_init_process. eapply wp_str_procs; [done|].
  set (fs := _ ++ _ ++ _). replace (alter (stores fs) p (sys_proc (m_sys m))) with (<[p := stores fs pr]> (sys_proc (m_sys m))).
  - apply H. unfold fs. rewrite !stores_app, stores_proc_att. split; [done|]. split; [done|]. intros i Hi. cbn.
    apply foldl_insert_att. by apply elem_of_upto.
  - apply map_eq. intros q. destruct (decide (p = q)) as [<-|N]; [by rewrite lookup_insert_eq, lookup_alter_eq, E|].
    by rewrite lookup_insert_ne, lookup_alter_ne by done.
Qed.

(** What the allocation of the memory provides: the structures are there, with any contents. *)
Record allocated (config : et_sys_config) (size events : Z) (m : et_mem) : Prop := mkAllocated {
  al_stats : forall s, is_Some (m_stats m !! s) <-> 0 <= s < cf_nstations config;
  al_select : forall s ps, m_stats m !! s = Some ps -> length (sc_select (st_config ps)) = Z.to_nat ET_STATION_SELECT_INTS;
  al_events : forall i, 0 <= i < cf_nevents config -> is_Some (m_events m !! (events + i * size));
  al_only : forall a, is_Some (m_events m !! a) -> exists i, 0 <= i < cf_nevents config /\ a = events + i * size;
  al_addr : 0 < events /\ 0 < size;
  al_procs : forall p, is_Some (sys_proc (m_sys m) !! p) <-> 0 <= p < ET_PROCESSES_MAX;
  al_attach : forall i, is_Some (sys_attach (m_sys m) !! i) <-> 0 <= i < ET_ATTACHMENTS_MAX;
  al_rwlock : m_rwlock m = 0
}.

(** The system structure at the start. *)
Record sys_started (config : et_sys_config) (y : et_system) : Prop := mkSysStarted {
  sy_mutex : sys_mutex y = false;
  sy_stat_mutex : sys_stat_mutex y = false;
  sy_statadd : sys_statadd_mutex y = false;
  sy_nstations : sys_nstations y = 0;
  sy_counts : sys_ntemps y = 0 /\ sys_nprocesses y = 0 /\ sys_nattachments y = 0;
  sy_ends : sys_stat_head y = ET_GRANDCENTRAL /\ sys_stat_tail y = ET_GRANDCENTRAL;
  sy_config : sys_config y = config;
  sy_proc : forall p, is_Some (sys_proc y !! p) <-> 0 <= p < ET_PROCESSES_MAX;
  sy_closed : forall p pr, sys_proc y !! p = Some pr -> closed_proc pr;
  sy_attach : forall i, is_Some (sys_attach y !! i) <-> 0 <= i < ET_ATTACHMENTS_MAX;
  sy_unused : forall i a, sys_attach y !! i = Some a -> a = init_attach
}.

Lemma is_Some_insert_dom {A} (f : gmap Z A) p v n :
  0 <= p < n -> (forall q, is_Some (f !! q) <-> 0 <= q < n) -> forall q, is_Some (<[p := v]> f !! q) <-> 0 <= q < n.
Proof.
  intros Hp D q. rewrite <- (D q). destruct (decide (p = q)) as [<-|N]; [rewrite lookup_insert_eq|by rewrite lookup_insert_ne].
  split; [intros _; by apply D|by eexists].
Qed.

Lemma wp_init_processes m (Q : unit -> et_mem -> Prop) :
  (forall p, is_Some (sys_proc (m_sys m) !! p) <-> 0 <= p < ET_PROCESSES_MAX) ->
  (forall procs, (forall p, is_Some (procs !! p) <-> 0 <= p < ET_PROCESSES_MAX) -> (forall p pr, procs !! p = Some pr -> closed_proc pr) ->
     Q tt (with_procs procs m)) ->
  wp (for_upto ET_PROCESSES_MAX et_init_process) Q (fun _ => True) m.
Proof.
  intros D H. apply (wp_for_upto _ (fun i m' => exists procs, m' = with_procs procs m /\
    (forall p, is_Some (procs !! p) <-> 0 <= p < ET_PROCESSES_MAX) /\ forall p pr, p < i -> procs !! p = Some pr -> closed_proc pr)).
  - exists (sys_proc (m_sys m)). split; [by destruct m as [[]]|]. split; [done|]. intros p pr Hp E.
    assert (0 <= p) by (apply D; eauto). lia.
  - intros i m' Hi (procs & -> & D' & F). destruct (proj2 (D' i) Hi) as [pr E]. eapply wp_init_process; [exact E|].
    intros pr' C. exists (<[i := pr']> procs). split; [done|]. split; [by apply is_Some_insert_dom|].
    intros p q Hp. destruct (decide (i = p)) as [<-|N]; [rewrite lookup_insert_eq; by intros [= <-]|].
    rewrite lookup_insert_ne by done. apply F. lia.
  - intros m' (procs & -> & D' & F). apply H; [done|]. intros p pr E. apply (F p); [|done].
    assert (0 <= p < ET_PROCESSES_MAX) by (apply D'; eauto). lia.
Qed.

Lemma wp_init_attachments m (Q : unit -> et_mem -> Prop) :
  (forall i, is_Some (sys_attach (m_sys m) !! i) <-> 0 <= i < ET_ATTACHMENTS_MAX) ->
  (forall atts, (forall i, is_Some (atts !! i) <-> 0 <= i < ET_ATTACHMENTS_MAX) -> (forall i a, atts !! i = Some a -> a = init_attach) ->
     Q tt (upd_sys (set_sys_attach atts) m)) ->
  wp (for_upto ET_ATTACHMENTS_MAX et_init_attachment) Q (fun _ => True) m.
Proof.
  intros D H. apply (wp_for_upto _ (fun i m' => exists atts, m' = upd_sys (set_sys_attach atts) m /\
    (forall p, is_Some (atts !! p) <-> 0 <= p < ET_ATTACHMENTS_MAX) /\ forall p a, p < i -> atts !! p = Some a -> a = init_attach)).
  - exists (sys_attach (m_sys m)). split; [by destruct m as [[]]|]. split; [done|]. intros p pr Hp E.
    assert (0 <= p) by (apply D; eauto). lia.
  - intros i m' Hi (atts & -> & D' & F). destruct (proj2 (D' i) Hi) as [a E]. eapply wp_init_attachment; [exact E|].
    exists (<[i := init_attach]> atts). split.
    { unfold upd_attach, upd_sys, set_m_sys, set_sys_attach. cbn. do 2 f_equal. apply map_eq. intros q.
      destruct (decide (i = q)) as [<-|N]; [by rewrite lookup_alter_eq, lookup_insert_eq, E|by rewrite lookup_alter_ne, lookup_insert_ne]. }
    split; [by apply is_Some_insert_dom|].
    intros p q Hp. destruct (decide (i = p)) as [<-|N]; [rewrite lookup_insert_eq; by intros [= <-]|].
    rewrite lookup_insert_ne by done. apply F. lia.
  - intros m' (atts & -> & D' & F). apply H; [done|]. intros p a E. apply (F p); [|done].
    assert (0 <= p < ET_ATTACHMENTS_MAX) by (apply D'; eauto). lia.
Qed.

Lemma wp_init_mem_sys hz config size events m (Q : unit -> et_mem -> Prop) :
  allocated config size events m -> is_Some etNetLocalHost ->
  (forall y, sys_started config y -> Q tt (set_m_sys y m)) ->
  wp (et_init_mem_sys hz config) Q (fun _ => True) m.
Proof.
  intros A [host Hh] H. unfold et_init_mem_sys. rewrite Hh. apply wp_bind, wp_str_syss. apply wp_bind, wp_str_syss. apply wp_bind, wp_str_syss.
  apply wp_bind, wp_init_processes; [apply (al_procs _ _ _ _ A)|]. intros procs Dp Cp.
  apply wp_bind, wp_init_attachments; [apply (al_attach _ _ _ _ A)|]. intros atts Da Ca. apply wps_str_sys; [done|].
  match goal with |- Q tt ?m' => change m' with (set_m_sys (m_sys m') m) end. apply H. by split.
Qed.

(** ** The stations are initialised *)

Definition empty_list : et_list := mkList 0 0 0 0 0 NULL NULL false 0.

Record blank (ps : et_station) : Prop := mkBlank {
  bl_status : sd_status (st_data ps) = ET_STATION_UNUSED;
  bl_natts : sd_nattachments (st_data ps) = 0;
  bl_att : forall i, 0 <= i < ET_ATTACHMENTS_MAX -> sd_att (st_data ps) !! i = Some (-1);
  bl_mutex : st_mutex ps = false;
  bl_select : length (sc_select (st_config ps)) = Z.to_nat ET_STATION_SELECT_INTS;
  bl_lists : st_list_in ps = empty_list /\ st_list_out ps = empty_list
}.

Lemma init_station_select ps : length (sc_select (st_config ps)) = Z.to_nat ET_STATION_SELECT_INTS ->
  length (sc_select (st_config (init_station ps))) = Z.to_nat ET_STATION_SELECT_INTS.
Proof. intros W. cbn [st_config init_station sc_select]. by rewrite length_inserts. Qed.

Lemma wp_init_one i ps m (Q : unit -> et_mem -> Prop) :
  m_stats m !! i = Some ps -> length (sc_select (st_config ps)) = Z.to_nat ET_STATION_SELECT_INTS ->
  (forall ps', blank ps' -> Q tt (set_m_stats (<[i := ps']> (m_stats m)) m)) ->
  wp (str_stats i [in_list (LIn i) (set_l_mutex false); in_list (LOut i) (set_l_mutex false);
                 in_list (LIn i) (set_l_cread 0); in_list (LOut i) (set_l_cread 0)] ;;;
    et_init_station i ;;;
    str_stat i (set_st_mutex false)) Q (fun _ => True) m.
Proof.
  intros E W H. apply wp_bind. eapply wp_str_stats; [exact E|]. set (fs := [_; _; _; _]).
  apply wp_bind. eapply wp_init_station; [by apply upd_stat_eq|exact W|].
  eapply wps_str_stat; [by apply upd_stat_eq, upd_stat_eq|done|]. rewrite !upd_stat_compose.
  set (g := fun _ => _). replace (upd_stat i g m) with (set_m_stats (<[i := g ps]> (m_stats m)) m).
  2:{ unfold upd_stat. f_equal. apply map_eq. intros s. destruct (decide (i = s)) as [<-|N].
      - by rewrite lookup_insert_eq, lookup_alter_eq, E.
      - by rewrite lookup_insert_ne, lookup_alter_ne. }
  apply H. unfold g. split; try done.
  - intros j Hj. cbn. apply foldl_insert_att. by apply elem_of_upto.
  - by apply (init_station_select (stores fs ps)).
Qed.

Lemma wp_init_mem_station m (Q : unit -> et_mem -> Prop) :
  (forall s, is_Some (m_stats m !! s) <-> 0 <= s < cf_nstations (sys_config (m_sys m))) ->
  (forall s ps, m_stats m !! s = Some ps -> length (sc_select (st_config ps)) = Z.to_nat ET_STATION_SELECT_INTS) ->
  (forall st, (forall s, is_Some (st !! s) <-> 0 <= s < cf_nstations (sys_config (m_sys m))) ->
     (forall s ps, st !! s = Some ps -> blank ps) -> Q tt (set_m_stats st m)) ->
  wp et_init_mem_station Q (fun _ => True) m.
Proof.
  intros D W H. unfold et_init_mem_station. apply wp_bind, wps_ld_sys. set (n := cf_nstations (sys_config (m_sys m))) in *.
  apply (wp_for_upto _ (fun i m' => exists st, m' = set_m_stats st m /\ (forall s, is_Some (st !! s) <-> 0 <= s < n) /\
    forall s ps, st !! s = Some ps -> length (sc_select (st_config ps)) = Z.to_nat ET_STATION_SELECT_INTS /\ (s < i -> blank ps))).
  - exists (m_stats m). split; [by destruct m|]. split; [done|]. intros s ps E. split; [by apply (W s)|]. intros Hs.
    assert (0 <= s) by (apply D; eauto). lia.
  - intros i m' Hi (st & -> & D' & F). destruct (proj2 (D' i) Hi) as [ps E]. eapply wp_init_one; [exact E|exact (proj1 (F i ps E))|].
    intros ps' B. exists (<[i := ps']> st). split; [done|]. split; [by apply is_Some_insert_dom|].
    intros s q. destruct (decide (i = s)) as [<-|N].
    + rewrite lookup_insert_eq. intros [= <-]. split; [apply B|done].
    + rewrite lookup_insert_ne by done. intros Es. destruct (F s q Es) as [F1 F2]. split; [done|]. intros Hs. apply F2. lia.
  - intros m' (st & -> & D' & F). apply H; [done|]. intros s ps E. apply (F s); [done|].
    assert (0 <= s < n) by (apply D'; eauto). lia.
Qed.

Lemma wp_init_histogram id m (Q : unit -> et_mem -> Prop) :
  (forall h, Q tt (set_m_histogram h m)) -> wp (et_init_histogram id) Q (fun _ => True) m.
Proof.
  intros H. unfold et_init_histogram. fold (for_upto (id_nevents id + 1) (fun i => str_histogram i 0)).
  apply (wp_for_upto _ (fun _ m' => exists h, m' = set_m_histogram h m)).
  - exists (m_histogram m). by destruct m.
  - intros i m' _ (h & ->). unfold str_histogram. apply wp_store; [done|]. by exists (<[i := 0]> h).
  - intros m' (h & ->). apply H.
Qed.

(** ** The events are initialised *)

(** The event number [i] at the start, but for its group. *)
Record new_event (config : et_sys_config) (data i : Z) (e : et_event) : Prop := mkNewEvent {
  ne_owner : ev_owner e = ET_SYS;
  ne_priority : ev_priority e = ET_LOW;
  ne_temp : ev_temp e = ET_EVENT_NORMAL;
  ne_age : ev_age e = ET_EVENT_NEW;
  ne_data : ev_data e = data + i * cf_event_size config;
  ne_place : ev_place e = i;
  ne_length : ev_length e = 0 /\ ev_pointer e = 0 /\ ev_datastatus e = ET_DATA_OK;
  ne_filename : ev_filename e = cf_filename config +:+ "_temp" +:+ pretty i
}.

Lemma wp_str_new_evs p fs e m (Q : unit -> et_mem -> Prop) :
  m_events m !! p = Some e -> Q tt (set_m_events (<[p := stores fs e]> (m_events m)) m) ->
  wp (str_evs 0 p fs) Q (fun _ => True) m.
Proof.
  revert e m. induction fs as [|f fs IH]; intros e m E H; unfold str_evs; cbn [foldr].
  - apply wp_ret. unfold stores in H. cbn in H. rewrite insert_id in H by done. by destruct m.
  - apply wp_bind. unfold str_ev, ld_ev. apply wp_bind, wp_bind, wp_getm. eapply wp_of_option; [by rewrite Z.sub_0_r|].
    apply wp_store; [done|]. apply (IH (f e)); [unfold upd_ev; cbn; rewrite Z.sub_0_r, lookup_alter_eq; by rewrite E|].
    unfold upd_ev. cbn [m_events set_m_events]. rewrite Z.sub_0_r.
    replace (<[p := stores fs (f e)]> (alter f p (m_events m))) with (<[p := stores (f :: fs) e]> (m_events m)); [exact H|].
    apply map_eq. intros a. destruct (decide (p = a)) as [<-|N]; [by rewrite !lookup_insert_eq|].
    by rewrite !lookup_insert_ne, lookup_alter_ne by done.
Qed.

Lemma wp_init_event_loop config size data events (n : nat) i m (Q : unit -> et_mem -> Prop) :
  0 < size -> 0 <= i -> (forall j, i <= j < i + Z.of_nat n -> is_Some (m_events m !! (events + j * size))) ->
  (forall evs, (forall a, is_Some (evs !! a) <-> is_Some (m_events m !! a)) ->
     (forall a, (forall j, i <= j < i + Z.of_nat n -> a <> events + j * size) -> evs !! a = m_events m !! a) ->
     (forall j e, i <= j < i + Z.of_nat n -> evs !! (events + j * size) = Some e -> new_event config data j e) ->
     Q tt (set_m_events evs m)) ->
  wp (init_event_loop n config size i (events + i * size) (data + i * cf_event_size config)) Q (fun _ => True) m.
Proof.
  intros Hs. revert i m. induction n as [|n IH]; intros i m Hi D H; cbn [init_event_loop].
  - apply wp_ret. replace m with (set_m_events (m_events m) m) by by destruct m. apply H; [done|done|]. intros j e. lia.
  - destruct (D i) as [e E]; [lia|]. apply wp_bind. unfold et_init_event. eapply wp_str_new_evs; [exact E|]. set (fs := [_; _; _; _; _; _; _; _; _; _; _; _; _; _; _]).
    apply wp_bind. eapply wp_str_new_evs; [cbn; by rewrite lookup_insert_eq|]. cbn [m_events set_m_events]. rewrite insert_insert_eq.
    set (e' := stores _ _).
    replace (events + i * size + size) with (events + (i + 1) * size) by lia.
    replace (data + i * cf_event_size config + cf_event_size config) with (data + (i + 1) * cf_event_size config) by lia.
    apply IH; [lia| |].
    + intros j Hj. cbn. rewrite lookup_insert_ne by nia. apply D. lia.
    + intros evs D' O F. cbn [m_events set_m_events] in *.
      change (set_m_events evs (set_m_events _ (set_m_events _ m))) with (set_m_events evs m). apply H.
      * intros a. rewrite D'. destruct (decide (events + i * size = a)) as [<-|N]; [rewrite lookup_insert_eq, E; split; by eexists|].
        by rewrite lookup_insert_ne.
      * intros a Ha. rewrite O by (intros j Hj; apply Ha; lia). apply lookup_insert_ne. specialize (Ha i ltac:(lia)). congruence.
      * intros j ej Hj Ej. destruct (decide (j = i)) as [->|N]; [|apply F; [lia|done]].
        rewrite O in Ej by (intros k Hk; nia). rewrite lookup_insert_eq in Ej. injection Ej as <-. by split.
Qed.

(** ** GrandCentral is made *)

Definition gc_sconfig : et_stat_config :=
  mkStatConfig ET_STRUCT_OK ET_STATION_SERIAL ET_STATION_USER_MULTI ET_STATION_RESTORE_GC ET_STATION_BLOCKING 1 ET_STATION_CUE
    ET_STATION_SELECT_ALL (replicate (Z.to_nat ET_STATION_SELECT_INTS) (-1)) EmptyString EmptyString EmptyString.

Lemma gc_config_ok : gc_config true = Some gc_sconfig.
Proof. reflexivity. Qed.

Lemma gc_config_check y : 0 <= cf_nattachments (sys_config y) -> et_station_config_check y gc_sconfig = (ET_OK, gc_sconfig).
Proof.
  intros H. unfold et_station_config_check. cbn -[Z.ltb]. change ET_STATION_USER_MULTI with 0.
  destruct (Z.ltb_spec (cf_nattachments (sys_config y)) 0); [lia|]. reflexivity.
Qed.

(** Looking for GrandCentral finds nothing, or the system is not alive yet. *)
Lemma wp_exists_start id name m :
  local_call id m -> stations_dom m -> name_free name m ->
  wp (et_station_exists id true (Some name)) (fun r m' => fst r <> 1 /\ m' = m) (fun _ => True) m.
Proof.
  intros L D F. destruct (call_error id) as [e|] eqn:Ce.
  - unfold et_station_exists. rewrite (lc_local _ _ L). change (ET_LOCAL =? ET_REMOTE) with false. cbv iota.
    apply (wp_alive_call id m L). rewrite Ce. split; [|done]. cbn. unfold call_error in Ce.
    destruct (id_alive id =? 0); [by injection Ce as <-|]. destruct (negb _); [by injection Ce as <-|done].
  - eapply wp_mono; [by apply wp_station_exists| |done]. intros r m' [-> ->]. done.
Qed.

(** The memory with GrandCentral. *)
Definition with_gc (m : et_mem) : et_mem :=
  upd_sys (set_sys_nstations 1) (upd_stat ET_GRANDCENTRAL (creating "GRAND_CENTRAL" gc_sconfig ET_GRANDCENTRAL) m).

Lemma wp_create_gc id m (Q : Z * option Z -> et_mem -> Prop) :
  local_call id m -> id_closed id = 0 -> stations_dom m -> (forall s ps, m_stats m !! s = Some ps -> blank ps) ->
  sys_stat_mutex (m_sys m) = false -> sys_nstations (m_sys m) = 0 ->
  1 <= cf_nstations (sys_config (m_sys m)) -> 0 <= cf_nattachments (sys_config (m_sys m)) ->
  Q (ET_OK, None) (with_gc m) ->
  wp (et_station_create id (Some "GRAND_CENTRAL"%string) true (gc_config true)) Q (fun _ => True) m.
Proof.
  intros L Cl D B Mx N Hn Ha HQ. unfold et_station_create, et_station_create_at. rewrite gc_config_ok.
  assert (Name : name_free "GRAND_CENTRAL" m) by (intros s ps E U; by rewrite (bl_status _ (B s ps E)) in U).
  cbn -[gc_sconfig et_station_exists create_new et_alive locked_call et_station_config_check]. change (sc_init gc_sconfig =? ET_STRUCT_OK) with true. cbn [negb andb]. rewrite (lc_local _ _ L).
  change (ET_LOCAL =? ET_LOCAL) with true. cbn [negb]. unfold et_alive. rewrite (lc_local _ _ L).
  change (ET_LOCAL =? ET_REMOTE) with false. change (ET_LOCAL =? ET_LOCAL_NOSHARE) with false. cbv iota.
  apply wp_bind, (wp_etl_alive id m L); [done..|]. rewrite andb_false_r. apply (wp_locked_call id m L). rewrite Cl. cbn [Z.eqb negb].
  set (m1 := set_m_rwlock (m_rwlock m + 1) m). apply wp_bind, wps_ld_sys. change (m_sys m1) with (m_sys m). rewrite gc_config_check by done.
  change (ET_OK =? ET_ERROR) with false. cbv iota. apply wp_bind. unfold et_station_lock. apply wp_bind, wps_ld_sys. change (m_sys m1) with (m_sys m).
  rewrite Mx. apply wps_str_sys; [done|]. set (m2 := upd_sys (set_sys_stat_mutex true) m1).
  apply wp_bind. eapply wp_mono; [apply (wp_exists_start id "GRAND_CENTRAL" m2)| |done].
  { destruct L as [L1 L2 L3]. split; [done|done|cbn; lia]. }
  { exact D. }
  { exact Name. }
  intros [ex num] m' [Ne ->]. cbn [fst] in Ne. rewrite (proj2 (Z.eqb_neq _ _) Ne). unfold create_new.
  apply wp_bind, wps_ld_sys. change (m_sys m2) with (set_sys_stat_mutex true (m_sys m)). cbn [sys_nstations sys_config set_sys_stat_mutex]. rewrite N.
  destruct (Z.leb_spec (cf_nstations (sys_config (m_sys m))) 0); [lia|]. unfold add_nstations. apply wp_bind, wp_bind, wps_ld_sys.
  apply wps_str_sys; [done|]. change (sys_nstations (m_sys m2)) with (sys_nstations (m_sys m)). rewrite N. cbn [Z.add].
  destruct (proj2 (D 0)) as [ps E]; [lia|]. set (m3 := upd_sys (set_sys_nstations 1) m2).
  apply wp_bind. eapply wp_mono; [apply (wp_find_unused _ 0 0 m3); [lia|lia| |]| |done].
  { intros s Hs. apply D. lia. }
  { split; [lia|]. split; [exists ps; split; [exact E|apply (B 0 ps E)]|]. intros j pj. lia. }
  intros i m' [-> ->]. change (0 =? -1) with false. cbv iota. unfold create_setup.
  assert (K : wp (et_station_unlock ;;; ret (ET_OK, None : option Z)) (fun r m' => m_rwlock m' = m_rwlock m + 1 /\ Q r (set_m_rwlock (m_rwlock m) m'))
    (fun _ => True) (upd_stat 0 (creating "GRAND_CENTRAL" gc_sconfig 0) m3)).
  { unfold et_station_unlock. apply wp_bind, wps_str_sys; [done|]. apply wp_ret. split; [done|].
    assert (X : set_m_rwlock (m_rwlock m) (upd_sys (set_sys_stat_mutex false) (upd_stat 0 (creating "GRAND_CENTRAL" gc_sconfig 0) m3)) = with_gc m).
    { unfold m3, m2, m1, with_gc, ET_GRANDCENTRAL. destruct m as [[] st h ev r]. cbn in Mx. by subst. }
    by rewrite X. }
  apply wp_bind, wp_bind. eapply wp_init_station; [exact E|by apply (B 0)|]. eapply wp_str_stats; [by apply upd_stat_eq|].
  rewrite upd_stat_compose. exact K.
Qed.

(** ** GrandCentral is filled *)

Section fill.
Context (config : et_sys_config) (size events data : Z) (Hsize : 0 < size) (Hevents : 0 < events).
Abbreviation groups := (cf_groups config).
Context (Gp : forall n g, (n < Z.to_nat (cf_groupCount config))%nat -> groups !! n = Some g -> 1 <= g).
Context (Gl : (Z.to_nat (cf_groupCount config) <= length groups)%nat).
Context (Gs : sumZ (take (Z.to_nat (cf_groupCount config)) groups) = cf_nevents config).

(** Event number [j] belongs to group [g], which counts from 1: the groups before have the events
    before it. *)
Definition in_group (j g : Z) : Prop :=
  1 <= g <= cf_groupCount config /\ sumZ (take (Z.to_nat (g - 1)) groups) <= j < sumZ (take (Z.to_nat g) groups).

(** The locals index and count before event [k]. *)
Definition tracks (k index count : Z) : Prop :=
  0 <= index <= cf_groupCount config /\ 0 <= count /\ k + count = sumZ (take (Z.to_nat index) groups) /\
  (0 < count -> 1 <= index /\ sumZ (take (Z.to_nat (index - 1)) groups) <= k).

Lemma sum_take_S i g : groups !! i = Some g -> sumZ (take (S i) groups) = sumZ (take i groups) + g.
Proof. intros E. rewrite (take_S_r _ _ g) by done. rewrite sumZ_app. cbn. lia. Qed.

Lemma tracks_next k index : tracks k index 0 -> 0 <= k < cf_nevents config ->
  exists g, groups !! Z.to_nat index = Some g /\ tracks k (index + 1) g /\ 0 < g.
Proof.
  intros (Hi & _ & Ek & _) Hk. rewrite Z.add_0_r in Ek.
  assert (index <> cf_groupCount config) as N by (intros ->; lia).
  destruct (lookup_lt_is_Some_2 groups (Z.to_nat index)) as [g E]; [lia|]. exists g. split; [done|].
  assert (1 <= g) by (apply (Gp (Z.to_nat index)); [lia|done]). split; [|lia]. split; [lia|]. split; [lia|].
  replace (Z.to_nat (index + 1)) with (S (Z.to_nat index)) by lia. rewrite (sum_take_S _ g) by done. split; [lia|].
  intros _. split; [lia|]. replace (index + 1 - 1) with index by lia. lia.
Qed.

Lemma tracks_step k index count : tracks k index count -> 0 < count -> in_group k index /\ tracks (k + 1) index (count - 1).
Proof.
  intros (Hi & Hc & Ek & H) P. destruct (H P) as [H1 H2]. split; [split; lia|]. split; [lia|]. split; [lia|]. split; [lia|]. lia.
Qed.

Lemma tracks_0 : 0 <= cf_groupCount config -> tracks 0 0 0.
Proof. intros H. split; [lia|]. split; [lia|]. split; [done|lia]. Qed.

Abbreviation addr := (fun j => events + j * size).

(** The memory after [k] events. *)
Definition filled (m : et_mem) (ps : et_station) (k : Z) (m' : et_mem) : Prop :=
  exists L evs,
    m' = set_m_events evs (set_m_stats (<[ET_GRANDCENTRAL := set_st_list_in L ps]> (m_stats m)) m) /\
    list_rep evs L (map addr (upto k)) /\ l_mutex L = false /\ l_cread L = 0%nat /\ l_lasthigh L = 0 /\
    (forall a, is_Some (evs !! a) <-> is_Some (m_events m !! a)) /\
    (forall j e, 0 <= j < cf_nevents config -> evs !! (addr j) = Some e -> new_event config data j e /\ (j < k -> in_group j (ev_group e))).

Lemma new_event_core j e e' : ev_core e' = ev_core e -> ev_owner e' = ev_owner e -> new_event config data j e -> new_event config data j e' /\ ev_group e' = ev_group e.
Proof.
  intros C O [H1 H2 H3 H4 H5 H6 H7 H8]. destruct e, e'. unfold ev_core in C. injection C. cbn in *. intros. subst. split; [by split|done].
Qed.

Lemma addr_inj j j' : addr j = addr j' -> j = j'.
Proof. cbn. nia. Qed.

Lemma upto_S k : 0 <= k -> upto (k + 1) = upto k ++ [k].
Proof.
  intros Hk. unfold upto. replace (Z.to_nat (k + 1)) with (S (Z.to_nat k)) by lia. rewrite seq_S, map_app. cbn. by rewrite Z2Nat.id.
Qed.

Lemma wp_fill_step m ps k g m1 (Q : Z -> et_mem -> Prop) :
  m_stats m !! ET_GRANDCENTRAL = Some ps -> cf_nevents (sys_config (m_sys m)) = cf_nevents config -> m_events m !! 0 = None ->
  (forall j, 0 <= j < cf_nevents config -> is_Some (m_events m !! (addr j))) ->
  0 <= k < cf_nevents config -> in_group k g -> filled m ps k m1 ->
  (forall m2, filled m ps (k + 1) m2 -> Q ET_OK m2) ->
  wp (str_ev 0 (addr k) (set_ev_group g) ;;; et_llist_write_gc [addr k]) Q (fun _ => True) m1.
Proof.
  intros Es En E0 D Hk Gk (L & evs & -> & Lr & Lm & Lc & Lh & De & F) HQ.
  destruct (proj2 (De (addr k)) (D k Hk)) as [e E]. destruct (F k e Hk E) as [Ne _].
  set (evs1 := <[addr k := set_ev_group g e]> evs). set (ps1 := set_st_list_in L ps).
  set (m2 := set_m_events evs1 (set_m_stats (<[ET_GRANDCENTRAL := ps1]> (m_stats m)) m)).
  apply wp_bind. unfold str_ev, ld_ev. apply wp_bind, wp_bind, wp_getm. eapply wp_of_option; [rewrite Z.sub_0_r; exact E|].
  apply wp_store; [done|]. unfold upd_ev. rewrite Z.sub_0_r. cbn [m_events set_m_events].
  replace (alter (set_ev_group g) (addr k) evs) with evs1.
  2:{ unfold evs1. apply map_eq. intros a. destruct (decide (addr k = a)) as [<-|N]; [by rewrite lookup_insert_eq, lookup_alter_eq, E|].
      by rewrite lookup_insert_ne, lookup_alter_ne. }
  change (set_m_events evs1 _) with m2.
  assert (O1 : forall a, owner evs1 a = owner evs a).
  { intros a. unfold owner, evs1. destruct (decide (addr k = a)) as [<-|N]; [by rewrite lookup_insert_eq, E|by rewrite lookup_insert_ne]. }
  assert (Nk : addr k ∉ map addr (upto k)).
  { intros X%list_elem_of_fmap. destruct X as (j & X & Hj%elem_of_upto). apply addr_inj in X. lia. }
  assert (Lr1 : list_rep evs1 L (map addr (upto k))).
  { eapply list_rep_frame; [|exact Lr]. intros a Ha. unfold evs1. apply lookup_insert_ne. intros <-. done. }
  assert (P : move_pre m2 ET_GRANDCENTRAL ps1 (map addr (upto k)) [addr k]).
  { split.
    - cbn. by rewrite lookup_insert_eq.
    - exact Lr1.
    - cbn. unfold evs1. rewrite lookup_insert_ne by (cbn; nia). destruct (evs !! 0) eqn:X; [|done].
      assert (is_Some (m_events m !! 0)) as [] by (apply De; eauto). congruence.
    - apply NoDup_app. split; [|split; [|apply NoDup_singleton]].
      + apply NoDup_fmap_2; [intros x y; apply addr_inj|apply NoDup_upto].
      + intros x Hx Hk'%list_elem_of_singleton. by subst.
    - apply Forall_singleton. cbn [m_events m2 set_m_events]. rewrite O1. unfold owner. rewrite E. cbn. by rewrite (ne_owner _ _ _ _ Ne). }
  eapply wp_mono; [apply (wp_llist_write_gc m2 ET_GRANDCENTRAL ps1 _ _ P (addr k) [] eq_refl eq_refl)| |done].
  { cbn [m2 m_sys set_m_events set_m_stats]. rewrite En. unfold upto. rewrite !length_map, length_seq. cbn [length]. lia. }
  intros r m3 (-> & f & la & evs2 & -> & Lr2 & [[Fc Ff] Fo]). apply HQ.
  set (L' := set_l_cnt _ _) in *. exists L', evs2. split_and!.
  - unfold lview. cbn [m2 m_stats m_events set_m_events set_m_stats]. rewrite insert_insert_eq. unfold ps1. by destruct ps, m.
  - rewrite upto_S by lia. rewrite map_app. exact Lr2.
  - exact Lm.
  - exact Lc.
  - exact Lh.
  - intros a. rewrite <- (De a). assert (X : is_Some (evs2 !! a) <-> is_Some (evs1 !! a)).
    { split; apply same_core_is_Some; [by symmetry|done]. }
    rewrite X. unfold evs1. destruct (decide (addr k = a)) as [<-|N]; [rewrite lookup_insert_eq, E; split; by eexists|by rewrite lookup_insert_ne].
  - intros j e2 Hj Ej. cbn [m2 m_events set_m_events] in Fc, Fo.
    pose proof (same_core_lookup _ _ (addr j) Fc) as C. cbv beta in C, Ej. rewrite Ej in C.
    assert (Oj : owner evs2 (addr j) = owner evs1 (addr j)) by apply Fo. unfold owner in Oj. cbv beta in Oj. rewrite Ej in Oj.
    unfold evs1 in C, Oj. destruct (decide (j = k)) as [->|N].
    + rewrite lookup_insert_eq in C, Oj. apply (inj Some) in C. injection Oj as Oj.
      assert (Ne' : new_event config data k (set_ev_group g e)) by by destruct Ne.
      destruct (new_event_core k _ e2 (eq_sym C) Oj Ne') as [X1 X2]. split; [done|]. intros _. by rewrite X2.
    + rewrite lookup_insert_ne in C, Oj by (intros X; apply addr_inj in X; congruence).
      destruct (evs !! addr j) as [ej|] eqn:Ee; [|done]. apply (inj Some) in C. injection Oj as Oj.
      destruct (F j ej Hj Ee) as [Nj Gj]. destruct (new_event_core j ej e2 (eq_sym C) Oj Nj) as [X1 X2].
      split; [done|]. intros Hjk. rewrite X2. apply Gj. lia.
Qed.

Lemma wp_fill_gc m ps (n : nat) k index count m1 (Q : Z -> et_mem -> Prop) :
  m_stats m !! ET_GRANDCENTRAL = Some ps -> sys_config (m_sys m) = config -> m_events m !! 0 = None ->
  (forall j, 0 <= j < cf_nevents config -> is_Some (m_events m !! (addr j))) ->
  0 <= k -> k + Z.of_nat n = cf_nevents config -> tracks k index count -> filled m ps k m1 ->
  (forall m2, filled m ps (cf_nevents config) m2 -> Q ET_OK m2) ->
  wp (fill_gc n size (addr k) index count) Q (fun _ => True) m1.
Proof.
  intros Es Ec E0 D. revert k index count m1. induction n as [|n IH]; intros k index count m1 Hk Hn T F HQ; cbn [fill_gc].
  { apply wp_ret. replace (cf_nevents config) with k in HQ by lia. by apply HQ. }
  assert (C1 : sys_config (m_sys m1) = config) by (destruct F as (L & evs & -> & _); done).
  assert (Next : forall index count, tracks k index count -> 0 < count ->
    wp (str_ev 0 (addr k) (set_ev_group index) ;;; let* st := et_llist_write_gc [addr k] in
        if negb (st =? ET_OK) then ret ET_ERROR else fill_gc n size (addr k + size) index (count - 1)) Q (fun _ => True) m1).
  { intros ix c T' P. destruct (tracks_step k ix c T' P) as [G T'']. apply wp_assoc. apply wp_bind.
    eapply (wp_fill_step m ps k ix); [done|by rewrite Ec|done|done|lia|done|exact F|]. intros m2 F2.
    change (negb (ET_OK =? ET_OK)) with false. cbv iota. replace (addr k + size) with (addr (k + 1)) by (cbn; lia).
    apply IH; [lia|lia|done|done|done]. }
  apply wp_bind, wps_ld_sys. rewrite C1. apply wp_bind. destruct (Z.eqb_spec count 0) as [->|Nc].
  - destruct (tracks_next k index T ltac:(lia)) as (g & Eg & T' & Hg). apply wp_bind. eapply wp_of_option; [exact Eg|]. apply wp_ret. by apply Next.
  - apply wp_ret. apply Next; [done|]. destruct T as (_ & ? & _). lia.
Qed.
End fill.
End start.
