(* ===== verification/Started.v ===== *)
(** * The memory after the start of an ET system

    Whatever the shared memory held before, a start with a configuration that the check accepts ends
    with the invariants of all the other files, and with all events in GrandCentral. *)
From stdpp Require Import base gmap strings list pretty.
From S2P Require Import Prelude Types Machine EvList Local Write Sample LList StatConfig Stats Chain Api StationApi Init Station StationSpec Attach FixAtt SysConfig Conductor Create Start.
Open Scope Z_scope.

Section started.
Context `{R0 : Remote} `{O0 : Os} `{S0 : Selector}.
Context (config : et_sys_config) (size events data : Z).

(** What a start promises. *)
Record started (m : et_mem) : Prop := mkStarted {
  up_system : system_ok m [(ET_GRANDCENTRAL, [])];
  up_attach : attach_ok m;
  up_arrays : arrays_ok None m;
  up_sys : sys_config (m_sys m) = config /\ sys_nstations (m_sys m) = 1 /\ sys_nattachments (m_sys m) = 0 /\
    sys_nprocesses (m_sys m) = 0 /\ sys_ntemps (m_sys m) = 0;
  up_mutexes : sys_mutex (m_sys m) = false /\ sys_stat_mutex (m_sys m) = false /\ sys_statadd_mutex (m_sys m) = false /\ m_rwlock m = 0;
  up_gc : exists ps, m_stats m !! ET_GRANDCENTRAL = Some ps /\ sd_status (st_data ps) = ET_STATION_ACTIVE /\
    st_name ps = "GRAND_CENTRAL"%string /\ st_config ps = gc_sconfig /\
    list_rep (m_events m) (st_list_in ps) (map (fun j => events + j * size) (upto (cf_nevents config))) /\
    l_mutex (st_list_in ps) = false /\ st_list_out ps = empty_list;
  up_events : forall j e, 0 <= j < cf_nevents config -> m_events m !! (events + j * size) = Some e ->
    new_event config data j e /\ in_group config j (ev_group e)
}.

(** ** The station GrandCentral *)

(** GrandCentral after it was made, the list was filled and its statistics were reset, and then when the
    conductor has started. *)
Definition gc_made (L : et_list) (ps : et_station) : et_station :=
  stores (map (in_list (LIn ET_GRANDCENTRAL)) [set_l_events_try 0; set_l_events_out 0; set_l_events_in 0] ++
          map (in_list (LOut ET_GRANDCENTRAL)) [set_l_events_try 0; set_l_events_out 0; set_l_events_in 0])
    (set_st_list_in L (creating "GRAND_CENTRAL" gc_sconfig ET_GRANDCENTRAL ps)).
Definition gc_running (L : et_list) (ps : et_station) : et_station :=
  in_data (set_sd_status (started_status ET_GRANDCENTRAL)) (gc_made L ps).

Lemma gc_made_loads L ps : loads (st_config (gc_made L ps)) = true.
Proof. reflexivity. Qed.
Lemma gc_made_status L ps : sd_status (st_data (gc_made L ps)) = ET_STATION_CREATING.
Proof. reflexivity. Qed.

Section memory.
Context (y : et_system) (st : gmap Z et_station) (ps : et_station) (L : et_list) (m : et_mem).
Context (Y : sys_started config y) (Ms : m_sys m = set_sys_statDone 1 (set_sys_nstations 1 y)).
Context (D : forall s, is_Some (st !! s) <-> 0 <= s < cf_nstations config) (B : forall s ps, st !! s = Some ps -> blank ps).
Context (E : st !! ET_GRANDCENTRAL = Some ps) (Mt : m_stats m = <[ET_GRANDCENTRAL := gc_running L ps]> st).
Context (Hs : 1 <= cf_nstations config) (Ha : 1 <= cf_nattachments config <= ET_ATTACHMENTS_MAX)
  (Hp : 1 <= cf_nprocesses config <= ET_PROCESSES_MAX).

Lemma fin_config : sys_config (m_sys m) = config.
Proof. rewrite Ms. apply Y. Qed.

Lemma fin_stat s pt : m_stats m !! s = Some pt ->
  st_mutex pt = false /\ sd_nattachments (st_data pt) = 0 /\
  (forall i, 0 <= i < ET_ATTACHMENTS_MAX -> sd_att (st_data pt) !! i = Some (-1)) /\
  (s = ET_GRANDCENTRAL /\ pt = gc_running L ps \/ s <> ET_GRANDCENTRAL /\ sd_status (st_data pt) = ET_STATION_UNUSED).
Proof.
  rewrite Mt. destruct (decide (ET_GRANDCENTRAL = s)) as [<-|N].
  - rewrite lookup_insert_eq. intros X. apply (inj Some) in X. subst pt. destruct (B _ _ E) as [B1 B2 B3 B4 B5 B6].
    split; [exact B4|]. split; [done|]. split; [|by left]. intros i Hi. cbn. apply foldl_insert_att. by apply elem_of_upto.
  - rewrite lookup_insert_ne by done. intros X. destruct (B _ _ X) as [B1 B2 B3 B4 B5 B6]. split_and!; try done. by right.
Qed.

Lemma fin_gc : m_stats m !! ET_GRANDCENTRAL = Some (gc_running L ps).
Proof. rewrite Mt. by rewrite lookup_insert_eq. Qed.

Lemma fin_dom : stations_dom m.
Proof. intros s. rewrite fin_config, Mt, <- (D s). destruct (decide (ET_GRANDCENTRAL = s)) as [<-|N]; [rewrite lookup_insert_eq, E; split; by eexists|by rewrite lookup_insert_ne]. Qed.

Lemma fin_system : system_ok m [(ET_GRANDCENTRAL, [])].
Proof.
  assert (F : forall f : et_station -> Z, stf f m ET_GRANDCENTRAL = f (gc_running L ps)) by (intros f; unfold stf; by rewrite fin_gc).
  split; split.
  - apply NoDup_singleton.
  - intros s Hx. apply list_elem_of_singleton in Hx. subst s. split; [done|]. exists (gc_running L ps). split; [apply fin_gc|done].
  - by exists [].
  - cbn [heads map fst dll]. rewrite !F. split_and!; done.
  - rewrite Ms. cbn. apply Y.
  - intros g Hg. apply list_elem_of_singleton in Hg. subst g. split; try done.
    + intros s Hx. by apply elem_of_nil in Hx.
    + intros s Hx. by apply elem_of_nil in Hx.
  - apply fin_dom.
  - by rewrite Ms.
  - intros s pt Es Hx. apply list_elem_of_singleton in Hx. destruct (fin_stat s pt Es) as (_ & _ & _ & [[_ ->]|[X _]]); [by right|by destruct X].
  - intros s pt Es Hx. destruct (fin_stat s pt Es) as (_ & _ & _ & [[-> _]|[_ ?]]); [|done]. exfalso. apply Hx. by left.
  - intros s pt Es. by destruct (fin_stat s pt Es).
  - rewrite Ms. cbn. apply Y.
  - rewrite fin_config. lia.
Qed.

Lemma fin_unused i : in_use m i = false.
Proof.
  unfold in_use. rewrite Ms. cbn [sys_attach set_sys_statDone set_sys_nstations]. destruct (sys_attach y !! i) as [a|] eqn:X; [|done].
  by rewrite (sy_unused _ _ Y i a X).
Qed.

Lemma fin_belongs f i : belongs f m i = false.
Proof. pose proof (fin_unused i) as U. unfold belongs. unfold in_use in U. destruct (sys_attach (m_sys m) !! i) as [a|]; [by rewrite U|done]. Qed.

Lemma fin_attach : attach_ok m.
Proof.
  split; rewrite ?fin_config.
  - intros i Hi. rewrite Ms. apply (sy_attach _ _ Y). lia.
  - rewrite count_none by apply fin_unused. rewrite Ms. apply Y.
  - intros s pt Es. rewrite count_none by apply fin_belongs. by apply (fin_stat s pt).
  - intros s pt i Es Hi. rewrite fin_belongs. destruct (fin_stat s pt Es) as (_ & _ & X & _). by rewrite X by lia.
  - intros p pr Ep _. rewrite count_none by apply fin_belongs. rewrite Ms in Ep. by destruct (sy_closed _ _ Y p pr Ep) as (_ & ? & _).
  - intros s pt Es P. destruct (fin_stat s pt Es) as (_ & X & _). lia.
Qed.

Lemma fin_arrays : arrays_ok None m.
Proof.
  split; rewrite ?fin_config.
  - lia.
  - intros i Hi. rewrite Ms. apply (sy_attach _ _ Y). lia.
  - apply fin_dom.
  - intros p Hq. rewrite Ms. apply (sy_proc _ _ Y). lia.
  - intros i a Hi _ Ea N. exfalso. apply N. rewrite Ms in Ea. by rewrite (sy_unused _ _ Y i a Ea).
  - intros t pt i Es Hi. rewrite bool_decide_false by done. rewrite fin_belongs. destruct (fin_stat t pt Es) as (_ & _ & X & _). by rewrite X by lia.
  - intros t pt Es _. destruct (fin_stat t pt Es) as (_ & X0 & X & _). split; [done|]. intros i Hi. by rewrite X by lia.
  - intros p pr i Ep _ Hi _. rewrite fin_belongs. rewrite Ms in Ep. destruct (sy_closed _ _ Y p pr Ep) as (_ & _ & X). by rewrite X by lia.
  - intros p pr Ep _. right. rewrite Ms in Ep. destruct (sy_closed _ _ Y p pr Ep) as (_ & X0 & X). split; [done|]. intros i Hi. by rewrite X by lia.
Qed.

Lemma fin_started :
  list_rep (m_events m) L (map (fun j => events + j * size) (upto (cf_nevents config))) -> l_mutex L = false ->
  (forall j e, 0 <= j < cf_nevents config -> m_events m !! (events + j * size) = Some e -> new_event config data j e /\ in_group config j (ev_group e)) ->
  m_rwlock m = 0 -> started m.
Proof.
  intros Lr Lm F W. split; [apply fin_system|apply fin_attach|apply fin_arrays| | | |done].
  - rewrite Ms. destruct Y. cbn. tauto.
  - rewrite Ms. destruct Y. cbn. tauto.
  - exists (gc_running L ps). split; [apply fin_gc|]. split; [done|]. split; [done|]. split; [done|].
    split; [by destruct Lr|]. split; [done|]. pose proof (bl_lists _ (B _ _ E)) as [_ X]. unfold gc_running, creating. cbn. by rewrite X.
Qed.
End memory.

(** ** The start *)

Lemma check_ok : et_system_config_check config = ET_OK ->
  1 <= cf_nevents config /\ sumZ (take (Z.to_nat (cf_groupCount config)) (cf_groups config)) = cf_nevents config /\
  1 <= cf_nstations config /\ 1 <= cf_nattachments config <= ET_ATTACHMENTS_MAX /\ 1 <= cf_nprocesses config <= ET_PROCESSES_MAX.
Proof.
  unfold et_system_config_check. destruct (Z.ltb_spec (cf_nevents config) 1); [done|]. destruct (cf_event_size config <? 1); [done|].
  destruct (Z.eqb_spec (sumZ (take (Z.to_nat (cf_groupCount config)) (cf_groups config))) (cf_nevents config)); [|done]. cbn [negb].
  destruct (cf_ntemps config <? 1), (cf_nevents config <? cf_ntemps config); try done.
  destruct (Z.ltb_spec (cf_nstations config) 1), (Z.ltb_spec (cf_nattachments config) 1), (Z.ltb_spec ET_ATTACHMENTS_MAX (cf_nattachments config)),
    (Z.ltb_spec (cf_nprocesses config) 1), (Z.ltb_spec ET_PROCESSES_MAX (cf_nprocesses config)); try done; lia.
Qed.

Section run.
Context (hz : Z) (id : et_id) (m : et_mem) (A : allocated config size events m) (Hc : et_system_config_check config = ET_OK).
Context (Gp : forall n g, (n < Z.to_nat (cf_groupCount config))%nat -> cf_groups config !! n = Some g -> 1 <= g).
Context (Gl : (Z.to_nat (cf_groupCount config) <= length (cf_groups config))%nat).

Lemma no_null (evs : gmap Z et_event) : (forall a, is_Some (evs !! a) <-> is_Some (m_events m !! a)) -> evs !! 0 = None.
Proof.
  intros H. destruct (evs !! 0) eqn:X; [|done]. destruct (al_only _ _ _ _ A 0) as (i & ? & ?); [apply H; eauto|].
  destruct (al_addr _ _ _ _ A). nia.
Qed.

(** What et_conductor finds when it starts. *)
Definition prepared (m' : et_mem) : Prop :=
  exists y st ps L evs h, sys_started config y /\
    (forall s, is_Some (st !! s) <-> 0 <= s < cf_nstations config) /\ (forall s ps, st !! s = Some ps -> blank ps) /\
    st !! ET_GRANDCENTRAL = Some ps /\
    m' = set_m_events evs (set_m_histogram h (set_m_stats (<[ET_GRANDCENTRAL := gc_made L ps]> st)
           (set_m_sys (set_sys_nstations 1 y) m))) /\
    list_rep evs L (map (fun j => events + j * size) (upto (cf_nevents config))) /\ l_mutex L = false /\
    (forall j e, 0 <= j < cf_nevents config -> evs !! (events + j * size) = Some e -> new_event config data j e /\ in_group config j (ev_group e)).

Lemma wp_grandcentral y st h evs :
  id_locality id = ET_LOCAL -> id_closed id = 0 -> sys_started config y ->
  (forall s, is_Some (st !! s) <-> 0 <= s < cf_nstations config) -> (forall s ps, st !! s = Some ps -> blank ps) ->
  (forall a, is_Some (evs !! a) <-> is_Some (m_events m !! a)) ->
  (forall j e, 0 <= j < cf_nevents config -> evs !! (events + j * size) = Some e -> new_event config data j e) ->
  wp (et_grandcentral_station_create id true size events) (fun r m' => r = ET_OK /\ prepared m') (fun _ => True)
    (set_m_events evs (set_m_histogram h (set_m_stats st (set_m_sys y m)))).
Proof.
  intros Loc Cl Y D B De F. destruct (check_ok Hc) as (H1 & H2 & H3 & H4 & H5). set (m1 := set_m_events _ _).
  pose proof (sy_config _ _ Y) as Cf. destruct (al_addr _ _ _ _ A) as [A1 A2].
  assert (L : local_call id m1) by (split; [done|apply Y|cbn; by rewrite (al_rwlock _ _ _ _ A)]).
  unfold et_grandcentral_station_create. apply wp_bind.
  apply (wp_create_gc id m1); [done|done| |exact B|apply Y|apply Y|cbn; rewrite Cf; lia|cbn; rewrite Cf; lia|].
  { intros s. cbn. rewrite Cf. apply D. }
  change (negb (ET_OK =? ET_OK)) with false. cbv iota. destruct (proj2 (D ET_GRANDCENTRAL)) as [ps E]; [unfold ET_GRANDCENTRAL; lia|].
  set (ps1 := creating "GRAND_CENTRAL" gc_sconfig ET_GRANDCENTRAL ps).
  assert (Eg : m_stats (with_gc m1) !! ET_GRANDCENTRAL = Some ps1) by (cbn; by rewrite lookup_alter_eq, E).
  assert (Cg : sys_config (m_sys (with_gc m1)) = config) by exact Cf.
  apply wp_bind, wps_ld_sys. rewrite Cg. apply wp_bind.
  pose proof (wp_fill_gc config size events data A2 A1 Gp Gl H2 (with_gc m1) ps1 (Z.to_nat (cf_nevents config)) 0 0 0 (with_gc m1)) as W.
  cbv beta in W. rewrite Z.mul_0_l, Z.add_0_r in W. apply W; clear W; [exact Eg|exact Cg|by apply no_null| |lia|lia| | |].
  { intros j Hj. cbn. apply De, (al_events _ _ _ _ A). lia. }
  { apply tracks_0; [exact Gl|]. destruct (Z.le_gt_cases 0 (cf_groupCount config)) as [?|X]; [done|]. rewrite Z2Nat.nonpos in H2 by lia. rewrite take_0 in H2. cbn in H2. lia. }
  { destruct (B _ _ E) as [B1 B2 B3 B4 B5 [B6 B7]]. exists (st_list_in ps1), evs. split_and!; [| |cbn; by rewrite B6|cbn; by rewrite B6|done|done|].
    - replace (set_st_list_in (st_list_in ps1) ps1) with ps1 by by destruct ps1. rewrite insert_id by done. by destruct m.
    - by apply list_rep_empty.
    - intros j e Hj Ej. split; [by apply F|lia]. }
  intros m2 (L2 & evs2 & -> & Lr & Lm & Lc & Lh & De2 & F2). change (negb (ET_OK =? ET_OK)) with false. cbv iota.
  unfold et_init_stats_station. apply wp_bind. eapply wp_str_stats; [cbn; by rewrite lookup_insert_eq|]. apply wp_ret. split; [done|].
  exists y, st, ps, L2, evs2, h. split_and!; try done.
  - unfold upd_stat, with_gc, upd_sys, set_m_stats, set_m_sys, set_m_histogram, set_m_events. cbn. f_equal. apply map_eq. intros s.
    destruct (decide (ET_GRANDCENTRAL = s)) as [<-|N]; [by rewrite lookup_alter_eq, !lookup_insert_eq|by rewrite !lookup_alter_ne, !lookup_insert_ne, lookup_alter_ne].
  - intros j e Hj Ej. destruct (F2 j e Hj Ej) as [X1 X2]. split; [done|]. apply X2. lia.
Qed.

Lemma wp_start_memory :
  is_Some etNetLocalHost -> id_locality id = ET_LOCAL -> id_closed id = 0 ->
  wp (start_memory hz id config true size events data) (fun r m' => r = ET_OK /\ prepared m') (fun _ => True) m.
Proof.
  intros Hh Loc Cl. destruct (check_ok Hc) as (H1 & H2 & H3 & H4 & H5). destruct (al_addr _ _ _ _ A) as [A1 A2].
  unfold start_memory. rewrite Hc. cbn [negb Z.eqb]. apply wp_bind. eapply wp_init_mem_sys; [exact A|exact Hh|]. intros y Y.
  pose proof (sy_config _ _ Y) as Cf.
  apply wp_bind, wp_init_mem_station; [cbn; rewrite Cf; apply A|apply A|]. intros st D B. cbn [m_sys set_m_sys] in D. rewrite Cf in D.
  apply wp_bind, wp_init_histogram. intros h. apply wp_bind. unfold et_init_mem_event. apply wp_bind, wps_ld_sys.
  cbn [m_sys set_m_sys set_m_stats set_m_histogram]. rewrite Cf.
  pose proof (wp_init_event_loop config size data events (Z.to_nat (cf_nevents config)) 0) as W. cbn [Z.mul] in W. rewrite !Z.add_0_r in W.
  apply W; clear W; [done|done| |].
  { intros j Hj. apply (al_events _ _ _ _ A). lia. }
  intros evs De _ F. cbn [m_events set_m_histogram set_m_stats set_m_sys] in De. apply (wp_grandcentral y st h evs); try done.
  intros j e Hj. apply F. lia.
Qed.

Section running.
Context (y : et_system) (st : gmap Z et_station) (ps : et_station) (L : et_list) (m1 : et_mem).
Context (Y : sys_started config y) (D : forall s, is_Some (st !! s) <-> 0 <= s < cf_nstations config).
Context (B : forall s ps, st !! s = Some ps -> blank ps) (E : st !! ET_GRANDCENTRAL = Some ps).
Context (Mt : m_stats m1 = <[ET_GRANDCENTRAL := gc_made L ps]> st) (Ms : m_sys m1 = set_sys_nstations 1 y) (Mr : m_rwlock m1 = 0).

Abbreviation m2 := (set_m_stats (<[ET_GRANDCENTRAL := gc_running L ps]> st) (upd_sys (set_sys_statDone 1) m1)).

Lemma wp_gc_conductor (Q : option Z -> et_mem -> Prop) :
  (forall r, Q r m2) -> wp (conductor_start true) Q (fun _ => True) m1.
Proof.
  intros HQ. destruct (check_ok Hc) as (H1 & H2 & H3 & H4 & H5). assert (Dm : stations_dom m1).
  { unfold stations_dom. rewrite Mt, Ms. change (sys_config (set_sys_nstations 1 y)) with (sys_config y). rewrite (sy_config _ _ Y).
    apply is_Some_insert_dom; [unfold ET_GRANDCENTRAL; lia|exact D]. }
  assert (Eg : m_stats m1 !! ET_GRANDCENTRAL = Some (gc_made L ps)) by (rewrite Mt; apply lookup_insert_eq).
  eapply wp_mono; [apply (wp_conductor_start ET_GRANDCENTRAL (gc_made L ps) m1 Dm)| |done].
  - rewrite Ms. apply Y.
  - exact Eg.
  - intros s pt Es. destruct (decide (s = ET_GRANDCENTRAL)) as [->|N].
    + rewrite Eg in Es. apply (inj Some) in Es. subst pt. by rewrite gc_made_status.
    + split; [|done]. intros X. rewrite Mt, lookup_insert_ne in Es by congruence. by rewrite (bl_status _ (B _ _ Es)) in X.
  - intros r m' ->. rewrite gc_made_loads. unfold upd_stat. rewrite Mt, alter_insert_eq. apply HQ.
Qed.

Lemma running_started :
  list_rep (m_events m1) L (map (fun j => events + j * size) (upto (cf_nevents config))) -> l_mutex L = false ->
  (forall j e, 0 <= j < cf_nevents config -> m_events m1 !! (events + j * size) = Some e -> new_event config data j e /\ in_group config j (ev_group e)) ->
  started m2.
Proof.
  intros Lr Lm F. destruct (check_ok Hc) as (H1 & H2 & H3 & H4 & H5).
  assert (Ms2 : m_sys m2 = set_sys_statDone 1 (set_sys_nstations 1 y)) by (rewrite <- Ms; reflexivity).
  exact (fin_started y st ps L m2 Y Ms2 D B E eq_refl H3 H4 H5 Lr Lm F Mr).
Qed.
End running.

Lemma prepared_started m1 :
  prepared m1 -> wp (conductor_start true) (fun _ m' => started m') (fun _ => True) m1.
Proof.
  intros (y & st & ps & L & evs & h & Y & D & B & E & -> & Lr & Lm & F).
  set (m1 := set_m_events _ _). assert (Mt : m_stats m1 = <[ET_GRANDCENTRAL := gc_made L ps]> st) by reflexivity.
  assert (Ms : m_sys m1 = set_sys_nstations 1 y) by reflexivity.
  apply (wp_gc_conductor y st ps L m1 Y D B Mt Ms). intros r.
  exact (running_started y st ps L m1 Y D B E Ms (al_rwlock _ _ _ _ A) Lr Lm F).
Qed.
End run.

(** C10: a start establishes the invariants.  The shared memory has the structures of the configuration
    with any contents, the check accepts the configuration, and its groups are not empty.  Then the
    initialisation succeeds, and when the conductor of GrandCentral has started, GrandCentral is the
    only station of the chain, all processes, attachments and other stations are free, and the list of
    GrandCentral holds every event once, in order, each with its data, its file name and the number of
    the group that the configuration gives it. *)
Theorem et_system_start_spec hz id m :
  allocated config size events m -> et_system_config_check config = ET_OK ->
  (forall n g, (n < Z.to_nat (cf_groupCount config))%nat -> cf_groups config !! n = Some g -> 1 <= g) ->
  (Z.to_nat (cf_groupCount config) <= length (cf_groups config))%nat ->
  is_Some etNetLocalHost -> id_locality id = ET_LOCAL -> id_closed id = 0 ->
  exists x m1 r y m2, run (start_memory hz id config true size events data) m = Ok ET_OK x m1 /\
    run (conductor_start true) m1 = Ok r y m2 /\ started m2.
Proof.
  intros A Hc Gp Gl Hh Loc Cl. destruct (wp_run _ _ _ _ (wp_start_memory hz id m A Hc Gp Gl Hh Loc Cl)) as (r & x & m1 & E1 & -> & P).
  destruct (wp_run _ _ _ _ (prepared_started m A Hc Gl m1 P)) as (r & z & m2 & E2 & S). by exists x, m1, r, z, m2.
Qed.
End started.

(** ** A concrete start *)

#[local] Instance selector0 : Selector := {| dlopen_ok _ := true; dlsym_ok _ _ := true; user_select _ _ _ _ := 1 |}.

(** Memory for a configuration whose structures all hold the same values. *)
Definition raw_memory (config : et_sys_config) (size events : Z) : et_mem :=
  mkMem (set_sys_proc (gset_to_gmap (proc0 7) (list_to_set (upto ET_PROCESSES_MAX)))
          (set_sys_attach (gset_to_gmap (attach0 5 3) (list_to_set (upto ET_ATTACHMENTS_MAX))) system0))
    (gset_to_gmap (station0 9 9 9 "OLD" (list0 4 4 4 4) (list0 4 4 4 4)) (list_to_set (upto (cf_nstations config))))
    ∅ (gset_to_gmap (event0 9 ET_HIGH 3 9) (list_to_set (map (fun i => events + i * size) (upto (cf_nevents config))))) 0.

Lemma is_Some_gset_to_gmap {A} (v : A) (X : gset Z) k : is_Some (gset_to_gmap v X !! k) <-> k ∈ X.
Proof.
  split.
  - intros [x E]. by apply lookup_gset_to_gmap_Some in E as [? _].
  - intros H. exists v. by apply lookup_gset_to_gmap_Some.
Qed.

Lemma is_Some_upto {A} (v : A) n k : is_Some (gset_to_gmap v (list_to_set (upto n)) !! k) <-> 0 <= k < n.
Proof. by rewrite is_Some_gset_to_gmap, elem_of_list_to_set, elem_of_upto. Qed.

Lemma raw_allocated config size events : 0 < events -> 0 < size -> allocated config size events (raw_memory config size events).
Proof.
  intros H1 H2. split; [by apply is_Some_upto| | | |done|by apply is_Some_upto|by apply is_Some_upto|done].
  - intros s ps E. apply lookup_gset_to_gmap_Some in E as [_ <-]. done.
  - intros i Hi. apply is_Some_gset_to_gmap, elem_of_list_to_set, list_elem_of_fmap. exists i. split; [done|]. by apply elem_of_upto.
  - intros a Ha%is_Some_gset_to_gmap%elem_of_list_to_set%list_elem_of_fmap. destruct Ha as (i & -> & Hi%elem_of_upto). by exists i.
Qed.

(** Three events in two groups. *)
Definition config3 : et_sys_config := mkSysConfig 1000 ET_STRUCT_OK 3 3 2 4 4 2 [1; 2; 0] "sys" 0 0 0 0 0 [].

Lemma et_system_start_spec_witness :
  exists x m1 r y m2, run (start_memory (O0 := os0) 100 id0 config3 true 200 1000 9000) (raw_memory config3 200 1000) = Ok ET_OK x m1 /\
    run (conductor_start true) m1 = Ok r y m2 /\ started config3 200 1000 9000 m2.
Proof.
  apply (et_system_start_spec (O0 := os0) config3 200 1000 9000 100 id0 (raw_memory config3 200 1000));
    [by apply raw_allocated|reflexivity| |cbn; lia|by eexists|reflexivity|reflexivity].
  intros [|[|n]] g Hn; [intros [= <-]; lia|intros [= <-]; lia|cbn in Hn; lia].
Defined.
