(* ===== verification/Process.v ===== *)
(** * Opening and closing a system on the same node

    et_local.c: how a process gets its place in the array of processes, its heartbeat, the thread that
    watches the heartbeat of the ET system, and how the process closes or kills the system; the
    dispatch of et_common.c; and of et_system.c the heartbeat of the ET system, the thread that adds
    stations and et_system_close.

    The threads themselves, the mapping of the file and the sockets are not part of the state: a loop
    of a thread is one turn here, and what the starts of the threads return is an argument.  Of an id that
    et_id_destroy frees nothing is left. *)
From stdpp Require Import base gmap strings list.
From S2P Require Import Prelude Types Machine EvList Write Repair Restore Sample StatConfig Stats Chain Api StationApi Init Station StationSpec Attach Fix FixAtt Attachment Start.
Open Scope Z_scope.

Definition ET_HBMODULO : Z := 2 ^ 32 - 1.
Definition ET_KILL_MASK : Z := 2.
Definition ET_GET_KILL (x : Z) : Z := Z.land x ET_KILL_MASK.
Definition ET_SET_KILL (x : Z) : Z := Z.lor x ET_KILL_MASK.

(** The functions for systems that are not local. *)
Class RemoteClose := {
  etr_close : et_id -> M (Z * option et_id);
  etr_forcedclose : et_id -> M (Z * option et_id);
  etr_kill : et_id -> M (Z * option et_id);
  etn_close : et_id -> M (Z * option et_id);
  etn_forcedclose : et_id -> M (Z * option et_id);
  etn_kill : et_id -> M (Z * option et_id)
}.

(** ** A place for the process *)

(** The first process from [i] on whose structure is not used. *)
Fixpoint find_proc (n : nat) (i : Z) : M Z :=
  match n with
  | O => ret (-1)
  | S n' => let* p := ld_proc i in if pr_num p =? -1 then ret i else find_proc n' (i + 1)
  end.

(** The process leaves its place again. *)
Definition forget_proc (my_index : Z) : M unit :=
  et_system_lock ;;;
  et_init_process my_index ;;;
  let* y := ld_sys in
  str_sys (set_sys_nprocesses (sys_nprocesses y - 1)) ;;;
  et_system_unlock.

(** etl_open once the memory is mapped and the ET system is alive.  [dstart] is the time of the call,
    [my_pid] a variable that is never assigned, [hbeat] and [hmon] what the starts of the two threads
    return. *)
Definition open_process (id : et_id) (dstart my_pid hbeat hmon : Z) : M (Z * et_id) :=
  et_system_lock ;;;
  let* y := ld_sys in
  let* my_index := find_proc (Z.to_nat (cf_nprocesses (sys_config y))) 0 in
  if my_index =? -1 then et_system_unlock ;;; ret (ET_ERROR, id)
  else
    str_sys (set_sys_nprocesses (sys_nprocesses y + 1)) ;;;
    let id := set_id_proc my_index id in
    str_procs my_index [set_pr_time dstart; set_pr_num my_index; set_pr_pid my_pid; set_pr_et_status ET_PROC_ETOK] ;;;
    et_system_unlock ;;;
    if negb (hbeat =? ET_OK) then forget_proc my_index ;;; ret (hbeat, id)
    else if negb (hmon =? ET_OK) then forget_proc my_index ;;; ret (hmon, id)
    else
      et_system_lock ;;;
      str_proc my_index (set_pr_status ET_PROC_OPEN) ;;;
      et_system_unlock ;;;
      ret (ET_OK, id).

(** One turn of the loop of et_heartbeat. *)
Definition et_heartbeat (id : et_id) : M unit :=
  let me := id_proc id in
  et_system_lock ;;;
  let* p := ld_proc me in
  str_proc me (set_pr_heartbeat ((pr_heartbeat p + 1) mod ET_HBMODULO)) ;;;
  et_system_unlock ;;;
  nanosleep.

(** The locals of et_heartmonitor. *)
Record watch := mkWatch { wt_disconnected : bool; wt_oldheartbt : Z }.
Definition watch_start : watch := mkWatch false (-1).

Section process.
Context `{R0 : Remote}.

(** The mutexes of the lists of the attachment's station are released and its reader is woken up. *)
Definition free_attachment (id : et_id) (i : Z) : M unit :=
  let* a := ld_attach i in
  let stat := at_stat a in
  let* locked := et_mutex_locked (list_mutex (LOut stat)) in
  when (locked =? ET_MUTEX_LOCKED) (et_llist_unlock (LOut stat)) ;;;
  let* locked := et_mutex_locked (list_mutex (LIn stat)) in
  when (locked =? ET_MUTEX_LOCKED) (et_llist_unlock (LIn stat)) ;;;
  let* _ := et_wakeup_attachment id i in
  ret tt.

(** for (i=0; i < nattachments; i++): the attachments of process [me], those whose entry is not -1. *)
Fixpoint each_attachment (n : nat) (me i : Z) (f : Z -> M unit) : M unit :=
  match n with
  | O => ret tt
  | S n' =>
      let* p := ld_proc me in
      (if negb (default (-1) (pr_att p !! i) =? -1) then f i else ret tt) ;;;
      each_attachment n' me (i + 1) f
  end.

(** One turn of the loop of et_heartmonitor; [offset] is the distance between the mapping of the process
    and that of the ET system. *)
Definition et_heartmonitor (id : et_id) (offset : Z) (t : watch) : M (et_id * watch) :=
  nanosleep ;;;
  let me := id_proc id in
  et_system_lock ;;;
  let* y := ld_sys in
  let newheartbt := sys_heartbeat y in
  et_system_unlock ;;;
  if wt_oldheartbt t =? newheartbt then
    if wt_disconnected t then ret (id, t)
    else
      let id := set_id_alive 0 id in
      str_proc me (set_pr_et_status ET_PROC_ETDEAD) ;;;
      let* y := ld_sys in
      each_attachment (Z.to_nat (cf_nattachments (sys_config y))) me 0 (free_attachment id) ;;;
      ret (id, mkWatch true (wt_oldheartbt t))
  else if wt_disconnected t then
    str_proc me (set_pr_et_status ET_PROC_ETOK) ;;;
    ret (set_id_alive 1 (set_id_offset offset id), mkWatch false newheartbt)
  else ret (id, mkWatch false newheartbt).

(** ** The end of the ET system *)

(** for (i=0; i < nstations; i++): the conductors shall end. *)
Fixpoint stop_conductors (n : nat) (i : Z) : M unit :=
  match n with
  | O => ret tt
  | S n' =>
      let* ps := ld_stat i in
      (if negb (sd_status (st_data ps) =? ET_STATION_UNUSED) then
         str_stat i (set_st_conductor ET_THREAD_KILL) ;;; signal_cread (LOut i)
       else ret tt) ;;;
      stop_conductors n' (i + 1)
  end.

Definition et_system_close (id : et_id) : M (Z * option et_id) :=
  if negb (id_proc id =? ET_SYS) then ret (ET_ERROR, Some id)
  else
    str_sys (set_sys_asthread ET_THREAD_KILL) ;;;
    nanosleep ;;;
    let* y := ld_sys in
    stop_conductors (Z.to_nat (cf_nstations (sys_config y))) 0 ;;;
    nanosleep ;;;
    ret (ET_OK, None).

(** One turn of the loop of et_sys_heartbeat: [true] when the ET system shall go on, [false] when it was
    commanded to end. *)
Definition et_sys_heartbeat : M bool :=
  nanosleep ;;;
  et_system_lock ;;;
  let* y := ld_sys in
  str_sys (set_sys_heartbeat ((sys_heartbeat y + 1) mod ET_HBMODULO)) ;;;
  if negb (ET_GET_KILL (sys_bitInfo y) =? 0) then et_system_unlock ;;; ret false
  else et_system_unlock ;;; ret true.

(** ** Closing *)

Section close.
Context `{O0 : Os}.

(** The process gives up its place. *)
Definition leave (id : et_id) : M unit :=
  let* y := ld_sys in
  str_sys (set_sys_nprocesses (sys_nprocesses y - 1)) ;;;
  et_init_process (id_proc id).

Definition locked_status (id : et_id) (status : Z) : M unit :=
  et_system_lock ;;;
  str_proc (id_proc id) (set_pr_status status) ;;;
  et_system_unlock.

(** The process has an attachment from number [i] on. *)
Fixpoint still_attached (n : nat) (me i : Z) : M bool :=
  match n with
  | O => ret false
  | S n' =>
      let* p := ld_proc me in
      if negb (default (-1) (pr_att p !! i) =? -1) then ret true else still_attached n' me (i + 1)
  end.

Definition etl_close (id : et_id) : M (Z * option et_id) :=
  et_memWrite_lock ;;;
  let id := set_id_closed 1 id in
  if id_proc id =? ET_SYS then et_mem_unlock ;;; et_system_close id
  else
    locked_status id ET_PROC_CLOSED ;;;
    locked_status id ET_PROC_OPEN ;;;
    let* alive := etl_alive id in
    if negb (alive =? 0) then
      let* y := ld_sys in
      let* still := still_attached (Z.to_nat (cf_nattachments (sys_config y))) (id_proc id) 0 in
      if still then et_mem_unlock ;;; ret (ET_ERROR, Some id)
      else
        et_system_lock ;;;
        leave id ;;;
        et_system_unlock ;;;
        et_mem_unlock ;;;
        ret (ET_OK, None)
    else
      leave id ;;;
      et_mem_unlock ;;;
      ret (ET_OK, None).

Context `{C0 : RemoteClose}.

Definition et_close (id : et_id) : M (Z * option et_id) :=
  if id_locality id =? ET_REMOTE then etr_close id
  else if id_locality id =? ET_LOCAL_NOSHARE then etn_close id
  else etl_close id.

(** The attachments of the process are detached while the system is alive. *)
Definition detach_all (id : et_id) : M unit :=
  let* alive := etl_alive id in
  if negb (alive =? 0) then
    let* y := ld_sys in
    each_attachment (Z.to_nat (cf_nattachments (sys_config y))) (id_proc id) 0 (fun i =>
      let* _ := et_station_detach id i in ret tt)
  else ret tt.

Definition etl_forcedclose (id : et_id) : M (Z * option et_id) :=
  if id_proc id =? ET_SYS then et_system_close id
  else
    detach_all id ;;;
    et_close id.

Definition et_forcedclose (id : et_id) : M (Z * option et_id) :=
  if id_locality id =? ET_REMOTE then etr_forcedclose id
  else if id_locality id =? ET_LOCAL_NOSHARE then etn_forcedclose id
  else etl_forcedclose id.

Definition set_kill : M unit :=
  let* y := ld_sys in str_sys (set_sys_bitInfo (ET_SET_KILL (sys_bitInfo y))).

Definition etl_kill (id : et_id) : M (Z * option et_id) :=
  if id_proc id =? ET_SYS then
    et_system_lock ;;;
    set_kill ;;;
    et_system_unlock ;;;
    ret (ET_OK, Some id)
  else
    detach_all id ;;;
    et_memWrite_lock ;;;
    let id := set_id_closed 1 id in
    let* alive := etl_alive id in
    (if negb (alive =? 0) then
       et_system_lock ;;;
       set_kill ;;;
       leave id ;;;
       et_system_unlock
     else
       set_kill ;;;
       leave id) ;;;
    et_mem_unlock ;;;
    ret (ET_OK, None).

Definition et_kill (id : et_id) : M (Z * option et_id) :=
  if id_locality id =? ET_REMOTE then etr_kill id
  else if id_locality id =? ET_LOCAL_NOSHARE then etn_kill id
  else etl_kill id.
End close.
End process.
