(* ===== verification/ProcessSpec.v ===== *)
(** * Correctness of opening and closing

    A process gets the lowest free place, and gives it back when it closes the system.  A process that
    calls et_close while it has attachments gets an error, and can then neither detach nor close. *)
From stdpp Require Import base gmap strings list.
From S2P Require Import Prelude Types Machine EvList Write Sample StatConfig Stats Chain Api StationApi Init Temp EventApi Station StationSpec Attach Fix FixAtt AttachCrash Attachment Start Process.
Open Scope Z_scope.

Definition with_nprocesses (k : Z) : et_mem -> et_mem := upd_sys (set_sys_nprocesses k).
(** The memory with other processes. *)
Definition processes (procs : gmap Z et_proc) (k : Z) (m : et_mem) : et_mem := with_nprocesses k (with_procs procs m).

Lemma processes_same m : processes (sys_proc (m_sys m)) (sys_nprocesses (m_sys m)) m = m.
Proof. by destruct m as [[]]. Qed.

Lemma alter_known {A} (f : A -> A) (ps : gmap Z A) p v : ps !! p = Some v -> alter f p ps = <[p := f v]> ps.
Proof.
  intros E. apply map_eq. intros j. destruct (decide (p = j)) as [<-|N]; [by rewrite lookup_insert_eq, lookup_alter_eq, E|].
  by rewrite lookup_insert_ne, lookup_alter_ne.
Qed.

(** ** Under the mutex of the system *)

(** The memory with the mutex of the system. *)
Definition sys_locked (m : et_mem) : et_mem := upd_sys (set_sys_mutex true) m.

Lemma wp_system_lock (Q : unit -> et_mem -> Prop) m :
  sys_mutex (m_sys m) = false -> Q tt (sys_locked m) -> wp et_system_lock Q (fun _ => True) m.
Proof. intros L H. unfold et_system_lock. apply wp_bind, wps_ld_sys. rewrite L. by apply wps_str_sys. Qed.

Lemma wp_system_unlock (Q : unit -> et_mem -> Prop) procs k m :
  sys_mutex (m_sys m) = false -> Q tt (processes procs k m) ->
  wp et_system_unlock Q (fun _ => True) (processes procs k (sys_locked m)).
Proof. intros L H. apply wps_str_sys; [done|]. destruct m as [[]]. cbn in L. by subst. Qed.

Definition procs_dom (m : et_mem) : Prop :=
  forall p, 0 <= p < cf_nprocesses (sys_config (m_sys m)) -> is_Some (sys_proc (m_sys m) !! p).

(** [i] is the lowest free place. *)
Definition first_free (m : et_mem) (i : Z) : Prop :=
  0 <= i < cf_nprocesses (sys_config (m_sys m)) /\
  (exists pr, sys_proc (m_sys m) !! i = Some pr /\ pr_num pr = -1) /\
  forall j pr, 0 <= j < i -> sys_proc (m_sys m) !! j = Some pr -> pr_num pr <> -1.
Definition no_free (m : et_mem) : Prop :=
  forall j pr, 0 <= j < cf_nprocesses (sys_config (m_sys m)) -> sys_proc (m_sys m) !! j = Some pr -> pr_num pr <> -1.

Lemma wps_ld_proc p pr (Q : et_proc -> et_mem -> Prop) m :
  sys_proc (m_sys m) !! p = Some pr -> Q pr m -> wp (ld_proc p) Q (fun _ => True) m.
Proof. intros E H. unfold ld_proc. apply wp_bind, wps_ld_sys. by eapply wp_of_option. Qed.

Lemma wp_find_proc (n : nat) i m m0 :
  sys_proc (m_sys m) = sys_proc (m_sys m0) -> sys_config (m_sys m) = sys_config (m_sys m0) ->
  procs_dom m0 -> 0 <= i -> i + Z.of_nat n = cf_nprocesses (sys_config (m_sys m0)) ->
  (forall j pr, 0 <= j < i -> sys_proc (m_sys m0) !! j = Some pr -> pr_num pr <> -1) ->
  wp (find_proc n i) (fun r m' => m' = m /\ ((r = -1 /\ no_free m0) \/ first_free m0 r)) (fun _ => True) m.
Proof.
  intros P Cf D. revert i. induction n as [|n IH]; intros i Hi Hn B; cbn [find_proc].
  - apply wp_ret. split; [done|]. left. split; [done|]. intros j pr Hj. apply B. lia.
  - destruct (D i) as [pr E]; [lia|]. apply wp_bind. eapply wps_ld_proc; [by rewrite P|].
    destruct (Z.eqb_spec (pr_num pr) (-1)) as [N|N].
    + apply wp_ret. split; [done|]. right. split; [lia|]. split; [by exists pr|done].
    + apply IH; [lia|lia|]. intros j pj Hj Ej. destruct (decide (j = i)) as [->|]; [congruence|]. apply (B j); [lia|done].
Qed.

(** ** Opening *)

Definition opened_proc (i dstart pid : Z) (pr : et_proc) : et_proc :=
  set_pr_status ET_PROC_OPEN (stores [set_pr_time dstart; set_pr_num i; set_pr_pid pid; set_pr_et_status ET_PROC_ETOK] pr).

Section open.
Context (id : et_id) (dstart pid : Z) (m : et_mem).
Context (Mx : sys_mutex (m_sys m) = false) (D : procs_dom m).
Abbreviation procs := (sys_proc (m_sys m)).
Abbreviation k := (sys_nprocesses (m_sys m)).

(** The changes of one process structure under the mutex. *)
Lemma wp_alter_proc p f pr ps n (Q : unit -> et_mem -> Prop) :
  ps !! p = Some pr -> Q tt (processes (<[p := f pr]> ps) n (sys_locked m)) ->
  wp (str_proc p f) Q (fun _ => True) (processes ps n (sys_locked m)).
Proof.
  intros E H. eapply wps_str_proc; [exact E|].
  change (upd_sys _ (processes ps n (sys_locked m))) with (processes (alter f p ps) n (sys_locked m)). by rewrite (alter_known _ _ _ pr).
Qed.

Lemma wp_alter_procs p fs pr ps n (Q : unit -> et_mem -> Prop) :
  ps !! p = Some pr -> Q tt (processes (<[p := stores fs pr]> ps) n (sys_locked m)) ->
  wp (str_procs p fs) Q (fun _ => True) (processes ps n (sys_locked m)).
Proof.
  revert pr ps. induction fs as [|f fs IH]; intros pr ps E H; cbn [str_procs].
  - apply wp_ret. unfold stores in H. cbn [foldl] in H. by rewrite insert_id in H.
  - apply wp_bind. eapply wp_alter_proc; [exact E|]. apply (IH (f pr)); [apply lookup_insert_eq|]. by rewrite insert_insert_eq.
Qed.

Lemma wp_open_process (Q : Z * et_id -> et_mem -> Prop) :
  (no_free m -> Q (ET_ERROR, id) m) ->
  (forall i pr, first_free m i -> procs !! i = Some pr ->
     Q (ET_OK, set_id_proc i id) (processes (<[i := opened_proc i dstart pid pr]> procs) (k + 1) m)) ->
  wp (open_process id dstart pid ET_OK ET_OK) Q (fun _ => True) m.
Proof.
  intros HN HF. assert (N : 0 <= cf_nprocesses (sys_config (m_sys m)) \/ cf_nprocesses (sys_config (m_sys m)) < 0) by lia.
  unfold open_process. apply wp_bind, wp_system_lock; [done|]. apply wp_bind, wps_ld_sys. apply wp_bind.
  change (sys_config (m_sys (sys_locked m))) with (sys_config (m_sys m)).
  assert (F : wp (find_proc (Z.to_nat (cf_nprocesses (sys_config (m_sys m)))) 0)
     (fun r m' => m' = sys_locked m /\ ((r = -1 /\ no_free m) \/ first_free m r)) (fun _ => True) (sys_locked m)).
  { destruct N as [N|N]; [apply wp_find_proc; try done; lia|]. rewrite Z2Nat.nonpos by lia. apply wp_ret. split; [done|]. left. split; [done|]. intros j pr. lia. }
  eapply wp_mono; [exact F| |done]. intros r m' [-> [[-> X]|X]].
  - change (-1 =? -1) with true. cbv iota. apply wp_bind. unfold et_system_unlock. apply wps_str_sys; [done|]. apply wp_ret.
    replace (upd_sys (set_sys_mutex false) (sys_locked m)) with m; [by apply HN|]. destruct m as [[]]. cbn in Mx. by subst.
  - pose proof X as [Hr [(pr & E & _) _]]. rewrite (proj2 (Z.eqb_neq r (-1))) by lia.
    apply wp_bind, wps_str_sys; [done|]. change (upd_sys (set_sys_nprocesses _) (sys_locked m)) with (processes procs (k + 1) (sys_locked m)).
    apply wp_bind. eapply wp_alter_procs; [exact E|]. set (p1 := stores _ pr). apply wp_bind, wp_system_unlock; [done|].
    cbn [negb Z.eqb]. set (m1 := processes (<[r := p1]> procs) (k + 1) m). apply wp_bind, wp_system_lock; [done|].
    change (sys_locked m1) with (processes (<[r := p1]> procs) (k + 1) (sys_locked m)).
    apply wp_bind. eapply wp_alter_proc; [apply lookup_insert_eq|]. apply wp_bind, wp_system_unlock; [done|]. apply wp_ret.
    rewrite insert_insert_eq. by apply HF.
Qed.
End open.

(** A process without attachments, open or not, agrees with the arrays. *)
Definition idle_proc (pr : et_proc) (n : Z) : Prop :=
  pr_nattachments pr = 0 /\ forall i, 0 <= i < n -> default (-1) (pr_att pr !! i) = -1.

Section invariants.
Context (m : et_mem) (i : Z) (pr : et_proc) (n : Z).
Abbreviation m' := (processes (<[i := pr]> (sys_proc (m_sys m))) n m).
Abbreviation natt := (cf_nattachments (sys_config (m_sys m))).

Lemma processes_attach_ok old :
  sys_proc (m_sys m) !! i = Some old -> pr_nattachments pr = pr_nattachments old -> attach_ok m -> attach_ok m'.
Proof.
  intros E N [A1 A2 A3 A4 A5 A6]. split; try done. intros p q Ep Np. change (sys_proc (m_sys m')) with (<[i := pr]> (sys_proc (m_sys m))) in Ep.
  destruct (decide (i = p)) as [<-|X].
  - rewrite lookup_insert_eq in Ep. apply (inj Some) in Ep. subst q. rewrite N. by apply (A5 i old).
  - rewrite lookup_insert_ne in Ep by done. by apply (A5 p q).
Qed.

Lemma processes_arrays_ok X old :
  sys_proc (m_sys m) !! i = Some old ->
  (forall j, 0 <= j < natt -> default (-1) (pr_att pr !! j) = default (-1) (pr_att old !! j)) ->
  (pr_status pr = ET_PROC_OPEN /\ 0 <= i < cf_nprocesses (sys_config (m_sys m)) \/ idle_proc pr natt) ->
  arrays_ok X m -> arrays_ok X m'.
Proof.
  intros E N S [A1 A2 A3 A4 A5 A6 A7 A8 A9]. split; try done.
  - intros p Hp. change (sys_proc (m_sys m')) with (<[i := pr]> (sys_proc (m_sys m))).
    destruct (decide (i = p)) as [<-|Y]; [rewrite lookup_insert_eq; by eexists|rewrite lookup_insert_ne by done; by apply A4].
  - intros p q j Ep Np Hj Nx. change (sys_proc (m_sys m')) with (<[i := pr]> (sys_proc (m_sys m))) in Ep.
    destruct (decide (i = p)) as [<-|Y].
    + rewrite lookup_insert_eq in Ep. apply (inj Some) in Ep. subst q. rewrite N by done. by apply (A8 i old).
    + rewrite lookup_insert_ne in Ep by done. by apply (A8 p q).
  - intros p q Ep Np. change (sys_proc (m_sys m')) with (<[i := pr]> (sys_proc (m_sys m))) in Ep.
    destruct (decide (i = p)) as [<-|Y].
    + rewrite lookup_insert_eq in Ep. apply (inj Some) in Ep. subst q. exact S.
    + rewrite lookup_insert_ne in Ep by done. by apply (A9 p q).
Qed.
End invariants.

(** ** Closing *)

Lemma wp_etl_alive_mutex id (Q : Z -> et_mem -> Prop) m :
  sys_mutex (m_sys m) = false -> Q (id_alive id) m -> wp (etl_alive id) Q (fun _ => True) m.
Proof.
  intros L HQ. unfold etl_alive. apply wp_bind, wp_when. destruct (negb (id_cleanup id =? 1)).
  - apply wp_system_lock; [done|]. apply wp_bind, wp_when. unfold et_system_unlock. apply wps_str_sys; [done|].
    apply wp_ret. unfold sys_locked. by rewrite upd_sys_mutex_id.
  - apply wp_bind, wp_when. by apply wp_ret.
Qed.

(** The process knows an attachment. *)
Definition has_attachment (pr : et_proc) (n : Z) : Prop := exists i, 0 <= i < n /\ default (-1) (pr_att pr !! i) <> -1.

Lemma wp_attached (n : nat) me i pr m :
  sys_proc (m_sys m) !! me = Some pr -> 0 <= i ->
  wp (still_attached n me i) (fun r m' => m' = m /\
    (r = true <-> exists j, i <= j < i + Z.of_nat n /\ default (-1) (pr_att pr !! j) <> -1)) (fun _ => True) m.
Proof.
  intros E. revert i. induction n as [|n IH]; intros i Hi; cbn [still_attached].
  - apply wp_ret. split; [done|]. split; [done|]. intros (j & ? & _). lia.
  - apply wp_bind. eapply wps_ld_proc; [done|]. destruct (Z.eqb_spec (default (-1) (pr_att pr !! i)) (-1)) as [N|N]; cbn [negb].
    + eapply wp_mono; [apply IH; lia| |done]. intros r m' [-> H]. split; [done|]. rewrite H. split.
      * intros (j & ? & ?). exists j. split; [lia|done].
      * intros (j & Hj & ?). exists j. split; [|done]. destruct (decide (j = i)) as [->|]; [congruence|lia].
    + apply wp_ret. split; [done|]. split; [|done]. intros _. exists i. split; [lia|done].
Qed.

Section close.
Context `{R0 : Remote} `{O0 : Os} (id : et_id) (pr : et_proc) (m : et_mem).
Context (Loc : id_locality id = ET_LOCAL) (Me : id_proc id <> ET_SYS) (Mx : sys_mutex (m_sys m) = false) (Rw : m_rwlock m = 0).
Context (E : sys_proc (m_sys m) !! id_proc id = Some pr).
Abbreviation procs := (sys_proc (m_sys m)).
Abbreviation k := (sys_nprocesses (m_sys m)).
Abbreviation natt := (cf_nattachments (sys_config (m_sys m))).

Definition write_locked (m : et_mem) : et_mem := set_m_rwlock (-1) m.

Lemma wp_locked_status s q ps (Q : unit -> et_mem -> Prop) :
  ps !! id_proc id = Some q -> Q tt (processes (<[id_proc id := set_pr_status s q]> ps) k (write_locked m)) ->
  wp (locked_status id s) Q (fun _ => True) (processes ps k (write_locked m)).
Proof.
  intros Eq H. unfold locked_status. apply wp_bind, wp_system_lock; [done|].
  change (sys_locked (processes ps k (write_locked m))) with (processes ps k (sys_locked (write_locked m))).
  apply wp_bind. eapply wp_alter_proc; [exact Eq|]. by apply wp_system_unlock.
Qed.

Lemma wp_mem_unlock ps n (Q : unit -> et_mem -> Prop) :
  Q tt (processes ps n m) -> wp et_mem_unlock Q (fun _ => True) (processes ps n (write_locked m)).
Proof.
  intros H. unfold et_mem_unlock. apply wp_bind, wp_getm. apply wp_store; [done|]. cbn [m_rwlock processes with_nprocesses with_procs upd_sys set_m_sys write_locked set_m_rwlock].
  change (-1 <? 0) with true. cbv iota. rewrite <- Rw.
  change (set_m_rwlock (m_rwlock m) (processes ps n (write_locked m))) with (processes ps n (set_m_rwlock (m_rwlock m) (write_locked m))).
  unfold write_locked. by rewrite set_m_rwlock_back.
Qed.

Lemma leave_locked n ps m0 (Q : unit -> et_mem -> Prop) :
  is_Some (ps !! id_proc id) ->
  (forall pr', closed_proc pr' -> Q tt (processes (<[id_proc id := pr']> ps) (n - 1) m0)) ->
  wp (leave id) Q (fun _ => True) (processes ps n m0).
Proof.
  intros [q Eq] H. unfold leave. apply wp_bind, wps_ld_sys. apply wp_bind, wps_str_sys; [done|].
  change (upd_sys _ (processes ps n m0)) with (processes ps (n - 1) m0).
  eapply wp_init_process; [exact Eq|]. intros pr' C. exact (H pr' C).
Qed.

Lemma processes_again ps ps' n n' : processes ps n (processes ps' n' m) = processes ps n m.
Proof. done. Qed.

(** The parts of et_close before the attachments are looked at. *)
Definition reopened (q : et_proc) : et_proc := set_pr_status ET_PROC_OPEN (set_pr_status ET_PROC_CLOSED q).

Lemma wp_etl_close (Q : Z * option et_id -> et_mem -> Prop) :
  id_alive id <> 0 ->
  (has_attachment pr natt -> Q (ET_ERROR, Some (set_id_closed 1 id)) (processes (<[id_proc id := reopened pr]> procs) k m)) ->
  (~ has_attachment pr natt -> forall pr', closed_proc pr' -> Q (ET_OK, None) (processes (<[id_proc id := pr']> procs) (k - 1) m)) ->
  wp (etl_close id) Q (fun _ => True) m.
Proof.
  intros Al HA HN. unfold etl_close, et_memWrite_lock. apply wp_bind, wp_bind, wp_getm. rewrite Rw. cbn [Z.eqb negb].
  apply wp_store; [done|]. rewrite <- (processes_same m) at 1. change (set_m_rwlock (-1) (processes procs k m)) with (processes procs k (write_locked m)).
  change (id_proc (set_id_closed 1 id)) with (id_proc id). rewrite (proj2 (Z.eqb_neq _ _) Me).
  apply wp_bind. eapply wp_locked_status; [exact E|]. apply wp_bind. eapply wp_locked_status; [apply lookup_insert_eq|].
  rewrite insert_insert_eq. change (set_pr_status ET_PROC_OPEN _) with (reopened pr). set (m1 := processes _ k (write_locked m)).
  apply wp_bind, wp_etl_alive_mutex; [exact Mx|]. change (id_alive (set_id_closed 1 id)) with (id_alive id).
  rewrite (proj2 (Z.eqb_neq _ _) Al). cbn [negb]. apply wp_bind, wps_ld_sys. change (cf_nattachments (sys_config (m_sys m1))) with natt.
  apply wp_bind. eapply wp_mono; [apply (wp_attached _ _ 0 (reopened pr)); [apply lookup_insert_eq|lia]| |done].
  intros still m' [-> H]. assert (H' : still = true <-> has_attachment pr natt).
  { rewrite H. split; intros (j & Hj & Nj); exists j; (split; [lia|exact Nj]). }
  destruct still.
  - apply wp_bind. apply wp_mem_unlock. apply wp_ret. by apply HA, H'.
  - apply wp_bind, wp_system_lock; [exact Mx|].
    change (sys_locked m1) with (processes (<[id_proc id := reopened pr]> procs) k (sys_locked (write_locked m))).
    change (leave (set_id_closed 1 id)) with (leave id). apply wp_bind. eapply leave_locked; [exists (reopened pr); apply lookup_insert_eq|]. intros pr' C. rewrite insert_insert_eq. apply wp_bind, wp_system_unlock; [exact Mx|]. apply wp_bind, wp_mem_unlock.
    apply wp_ret. apply HN; [|done]. intros X. apply H' in X. done.
Qed.
End close.

(** ** A closed id *)

(** The call fails, and the memory is as it was. *)
Definition fails {A} (status : A -> Z) (f : M A) (m : et_mem) : Prop :=
  exists r y, run f m = Ok r y m /\ status r <> ET_OK.

(** With this id no call of the interface does anything: neither those for stations, attachments and
    events, nor whatever else starts with the test that they share. *)
Record shut_out `{R0 : Remote} `{O0 : Os} `{R1 : RemoteEvents} `{K0 : Kernel} (id : et_id) (m : et_mem) : Prop := mkShutOut {
  so_alive : forall A (err : Z -> A) body, exists y, run (alive_call id err body) m = Ok (err ET_ERROR_CLOSED) y m;
  so_locked : forall A (err : Z -> A) body, exists y, run (locked_call id err body) m = Ok (err ET_ERROR_CLOSED) y m;
  so_attach : forall s given, fails fst (et_station_attach id s given) m;
  so_detach : forall att, fails (fun r => r) (et_station_detach id att) m;
  so_create : forall nm ok sc pos ppos, fails fst (et_station_create_at id nm ok sc pos ppos) m;
  so_remove : forall s, fails (fun r => r) (et_station_remove id s) m;
  so_wakeup : forall att, fails (fun r => r) (et_wakeup_attachment id att) m;
  so_wakeup_all : forall s, fails (fun r => r) (et_wakeup_all id s) m;
  so_new : forall att given mode dt size num, num <> 0 -> fails (fun r => r.1.1) (et_events_new id att given mode dt size num) m;
  so_get : forall att given mode dt num, num <> 0 -> fails (fun r => r.1.1) (et_events_get id att given mode dt num) m;
  so_put : forall att given pes num, num <> 0 -> fails (fun r => r) (et_events_put id att given pes num) m;
  so_dump : forall att given pes num, num <> 0 -> fails (fun r => r) (et_events_dump id att given pes num) m
}.

Section closed.
Context `{R0 : Remote} `{O0 : Os} `{C0 : RemoteClose} (id : et_id) (m : et_mem).
Context (Loc : id_locality id = ET_LOCAL) (Mx : sys_mutex (m_sys m) = false) (Rw : m_rwlock m = 0) (Cl : id_closed id = 1).

Lemma wp_detach_closed att (Q : Z -> et_mem -> Prop) :
  (forall r, r <> ET_OK -> Q r m) -> wp (et_station_detach id att) Q (fun _ => True) m.
Proof.
  intros H. unfold et_station_detach. destruct (_ || _); [apply wp_ret; by apply H|]. rewrite Loc.
  change (negb (ET_LOCAL =? ET_LOCAL)) with false. cbv iota. apply wp_bind. unfold et_alive. rewrite Loc.
  change (ET_LOCAL =? ET_REMOTE) with false. change (ET_LOCAL =? ET_LOCAL_NOSHARE) with false. cbv iota.
  apply wp_etl_alive_mutex; [done|]. destruct (id_alive id =? 0); [apply wp_ret; by apply H|].
  unfold et_memWrite_lock, et_mem_unlock. apply wp_bind, wp_bind, wp_getm. rewrite Rw. cbn [Z.eqb negb].
  apply wp_store; [done|]. rewrite Cl. cbn [Z.eqb negb]. apply wp_bind, wp_bind, wp_getm. apply wp_store; [done|].
  apply wp_ret. change (m_rwlock (set_m_rwlock (-1) m) <? 0) with true. cbv iota. rewrite <- Rw, set_m_rwlock_back. by apply H.
Qed.

Lemma wp_each_same (n : nat) me i pr f (Q : unit -> et_mem -> Prop) :
  sys_proc (m_sys m) !! me = Some pr ->
  (forall j (Q : unit -> et_mem -> Prop), Q tt m -> wp (f j) Q (fun _ => True) m) ->
  Q tt m -> wp (each_attachment n me i f) Q (fun _ => True) m.
Proof.
  intros E F. revert i. induction n as [|n IH]; intros i HQ; cbn [each_attachment]; [by apply wp_ret|].
  apply wp_bind. eapply wps_ld_proc; [done|]. apply wp_bind. destruct (negb _); [apply F|apply wp_ret]; by apply IH.
Qed.

Lemma wp_detach_all_closed pr (Q : unit -> et_mem -> Prop) :
  sys_proc (m_sys m) !! id_proc id = Some pr -> Q tt m -> wp (detach_all id) Q (fun _ => True) m.
Proof.
  intros E HQ. unfold detach_all. apply wp_bind, wp_etl_alive_mutex; [done|]. destruct (negb _); [|by apply wp_ret].
  apply wp_bind, wps_ld_sys. eapply wp_each_same; [exact E| |exact HQ]. intros j Q' H. apply wp_bind.
  apply wp_detach_closed. intros r _. by apply wp_ret.
Qed.

(** What comes after the test of the id in the functions of the interface is never reached. *)
Context (Al : id_alive id <> 0).

Lemma closed_local : local_call id m.
Proof. constructor; [done|done|lia]. Qed.
Lemma closed_error : call_error id = Some ET_ERROR_CLOSED.
Proof. unfold call_error. rewrite (proj2 (Z.eqb_neq _ _) Al). by rewrite Cl. Qed.

Lemma wp_alive_closed {A} (err : Z -> A) (body : M A) (Q : A -> et_mem -> Prop) :
  Q (err ET_ERROR_CLOSED) m -> wp (alive_call id err body) Q (fun _ => True) m.
Proof. intros H. apply (wp_alive_call id m closed_local). by rewrite closed_error. Qed.
Lemma wp_locked_closed {A} (err : Z -> A) (body : M A) (Q : A -> et_mem -> Prop) :
  Q (err ET_ERROR_CLOSED) m -> wp (locked_call id err body) Q (fun _ => True) m.
Proof. intros H. apply (wp_locked_call id m closed_local). by rewrite Cl. Qed.
Lemma wp_reading_closed {A} (err : Z -> A) (body : M (Z + A)) (Q : A -> et_mem -> Prop) :
  Q (err ET_ERROR_CLOSED) m -> wp (reading_call id err body) Q (fun _ => True) m.
Proof. intros H. apply wp_bind, wp_alive_closed. by apply wp_ret. Qed.

Lemma fails_wp {A} (status : A -> Z) (f : M A) :
  wp f (fun r m' => status r <> ET_OK /\ m' = m) (fun _ => True) m -> fails status f m.
Proof. intros W. destruct (wp_run _ _ _ _ W) as (r & y & m' & E & N & ->). by exists r, y. Qed.

Ltac if_branch := match goal with |- wp (if ?b then _ else _) _ _ _ => destruct b end.
(** The steps of a call with the closed id up to its test. *)
Ltac refused :=
  rewrite ?Loc; cbv zeta;
  change (ET_LOCAL =? ET_REMOTE) with false; change (ET_LOCAL =? ET_LOCAL_NOSHARE) with false;
  change (negb (ET_LOCAL =? ET_LOCAL)) with false; cbv iota;
  match goal with
  | |- wp (ret _) _ _ _ => by apply wp_ret
  | |- wp (alive_call _ _ _) _ _ _ => by apply wp_alive_closed
  | |- wp (locked_call _ _ _) _ _ _ => by apply wp_locked_closed
  | |- wp (reading_call _ _ _) _ _ _ => by apply wp_reading_closed
  | |- wp (if ?b then _ else _) _ _ _ => destruct b; refused
  | |- wp (match ?b with Some _ => _ | None => _ end) _ _ _ => destruct b; refused
  end.

Lemma closed_shut_out `{R1 : RemoteEvents} `{K0 : Kernel} : shut_out id m.
Proof.
  split.
  - intros A err body. assert (W : wp (alive_call id err body) (fun r m' => r = err ET_ERROR_CLOSED /\ m' = m) (fun _ => True) m)
      by by apply wp_alive_closed. destruct (wp_run _ _ _ _ W) as (r & y & m' & E & -> & ->). by exists y.
  - intros A err body. assert (W : wp (locked_call id err body) (fun r m' => r = err ET_ERROR_CLOSED /\ m' = m) (fun _ => True) m)
      by by apply wp_locked_closed. destruct (wp_run _ _ _ _ W) as (r & y & m' & E & -> & ->). by exists y.
  - intros s given. apply fails_wp. unfold et_station_attach. refused.
  - intros att. apply fails_wp, wp_detach_closed. done.
  - intros nm ok sc pos ppos. apply fails_wp. unfold et_station_create_at.
    destruct nm; [|refused]. do 3 (if_branch; [refused|]). destruct (match sc with Some _ => _ | None => _ end); [|refused].
    cbv zeta. do 2 (if_branch; [refused|]). rewrite Loc. change (negb (ET_LOCAL =? ET_LOCAL)) with false. cbv iota.
    apply wp_bind. unfold et_alive. rewrite Loc. change (ET_LOCAL =? ET_REMOTE) with false. change (ET_LOCAL =? ET_LOCAL_NOSHARE) with false. cbv iota.
    apply wp_etl_alive_mutex; [done|]. refused.
  - intros s. apply fails_wp. unfold et_station_remove. refused.
  - intros att. apply fails_wp. unfold et_wakeup_attachment. refused.
  - intros s. apply fails_wp. unfold et_wakeup_all. refused.
  - intros att given mode dt size num N. apply fails_wp. unfold et_events_new, et_events_new_group.
    rewrite (proj2 (Z.eqb_neq _ _) N). refused.
  - intros att given mode dt num N. apply fails_wp. unfold et_events_get. rewrite (proj2 (Z.eqb_neq _ _) N). refused.
  - intros att given pes num N. apply fails_wp. unfold et_events_put. rewrite (proj2 (Z.eqb_neq _ _) N). refused.
  - intros att given pes num N. apply fails_wp. unfold et_events_dump. rewrite (proj2 (Z.eqb_neq _ _) N). refused.
Qed.
End closed.

(** ** The theorems *)

(** A place that is not used belongs to no open process. *)
Definition places_ok (m : et_mem) : Prop :=
  forall p pr, sys_proc (m_sys m) !! p = Some pr -> p <> ET_SYS -> pr_num pr = -1 -> pr_status pr = ET_PROC_CLOSED.

Section theorems.
Context `{R0 : Remote} `{O0 : Os} `{C0 : RemoteClose}.

Lemma idle_none pr n : idle_proc pr n -> ~ has_attachment pr n.
Proof. intros [_ H] (i & Hi & N). by apply N, H. Qed.

(** C13: a process that opens a system gets the lowest free place, and the invariants of the attachments
    are kept; when it then closes the system it succeeds, the count of processes is the one from before,
    its place is free again, and nothing else has changed. *)
Theorem open_close_process id dstart pid m i :
  id_locality id = ET_LOCAL -> id_alive id <> 0 -> sys_mutex (m_sys m) = false -> m_rwlock m = 0 ->
  attach_ok m -> arrays_ok None m -> places_ok m -> first_free m i ->
  exists x m1 y m2 pr',
    run (open_process id dstart pid ET_OK ET_OK) m = Ok (ET_OK, set_id_proc i id) x m1 /\
    attach_ok m1 /\ arrays_ok None m1 /\ proc_open (set_id_proc i id) m1 /\
    sys_nprocesses (m_sys m1) = sys_nprocesses (m_sys m) + 1 /\
    run (et_close (set_id_proc i id)) m1 = Ok (ET_OK, None) y m2 /\ closed_proc pr' /\
    m2 = with_procs (<[i := pr']> (sys_proc (m_sys m))) m.
Proof.
  intros Loc Al Mx Rw A R P F. pose proof (ar_procs _ _ R) as D. pose proof F as (Hi & (pr & E & Nm) & _).
  assert (Si : i <> ET_SYS) by (unfold ET_SYS; lia).
  destruct (wp_run _ _ _ _ (wp_open_process id dstart pid m Mx D (fun r m' => r = (ET_OK, set_id_proc i id) /\
    m' = processes (<[i := opened_proc i dstart pid pr]> (sys_proc (m_sys m))) (sys_nprocesses (m_sys m) + 1) m)
    (fun N => False_ind _ (N i pr Hi E Nm))
    (fun j pj Fj Ej => ltac:(assert (j = i) as -> by (destruct F as (_ & _ & F), Fj as (? & (q & Eq & Nq) & Fj);
       destruct (Z.lt_trichotomy i j) as [L|[?|L]]; [exfalso; apply (Fj i pr); [lia|done|done]|done|exfalso; apply (F j q); [lia|done|done]]);
       assert (pj = pr) as -> by congruence; done)))) as (r & x & m1 & R1 & -> & E1).
  assert (I : idle_proc pr (cf_nattachments (sys_config (m_sys m)))).
  { destruct (ar_closed _ _ R i pr E Si) as [[S _]|S]; [|exact S]. rewrite (P i pr E Si Nm) in S. done. }
  assert (A1 : attach_ok m1) by (subst m1; by eapply processes_attach_ok).
  assert (R2 : arrays_ok None m1) by (subst m1; eapply processes_arrays_ok; [exact E|done|by left|done]).
  assert (E2 : sys_proc (m_sys m1) !! i = Some (opened_proc i dstart pid pr)) by (subst m1; apply lookup_insert_eq).
  assert (W : wp (et_close (set_id_proc i id)) (fun r m2 => r = (ET_OK, None) /\ exists pr', closed_proc pr' /\
     m2 = with_procs (<[i := pr']> (sys_proc (m_sys m))) m) (fun _ => True) m1).
  { unfold et_close. change (id_locality (set_id_proc i id)) with (id_locality id). rewrite Loc.
    change (ET_LOCAL =? ET_REMOTE) with false. change (ET_LOCAL =? ET_LOCAL_NOSHARE) with false. cbv iota.
    apply (wp_etl_close (set_id_proc i id) (opened_proc i dstart pid pr) m1); [done|by subst m1|by subst m1|exact E2|done| |].
    - intros X. exfalso. apply (idle_none pr (cf_nattachments (sys_config (m_sys m)))); [done|by subst m1].
    - intros _ pr' C. split; [done|]. exists pr'. split; [done|]. subst m1. rewrite processes_again.
      change (sys_proc (m_sys (processes ?a ?b ?c))) with a. rewrite insert_insert_eq.
      change (sys_nprocesses (m_sys (processes ?a ?b ?c))) with b. replace (sys_nprocesses (m_sys m) + 1 - 1) with (sys_nprocesses (m_sys m)) by lia.
      by destruct m as [[]]. }
  destruct (wp_run _ _ _ _ W) as (r & y & m2 & R3 & -> & pr' & C & E3). exists x, m1, y, m2, pr'. split_and!; try done.
  - right. exists (opened_proc i dstart pid pr). split; [exact E2|]. split; [done|]. by subst m1.
  - by subst m1.
Qed.

(** C15: et_close marks the id as closed before it looks for attachments.  So a process that still has an
    attachment gets ET_ERROR with the closed id, and from then on it is shut out: whatever it calls to
    attach, detach, create or remove a station, wake up readers, make, get, put or dump events fails
    without a change, as does every call that begins with the common test of the id, and et_close and
    et_forcedclose fail like the first et_close: it can never close the system. *)
Theorem et_close_strands `{R1 : RemoteEvents} `{K0 : Kernel} id pr m :
  id_locality id = ET_LOCAL -> id_alive id <> 0 -> id_proc id <> ET_SYS ->
  sys_mutex (m_sys m) = false -> m_rwlock m = 0 ->
  sys_proc (m_sys m) !! id_proc id = Some pr -> has_attachment pr (cf_nattachments (sys_config (m_sys m))) ->
  exists x m1, run (et_close id) m = Ok (ET_ERROR, Some (set_id_closed 1 id)) x m1 /\
    shut_out (set_id_closed 1 id) m1 /\
    (exists y, run (et_close (set_id_closed 1 id)) m1 = Ok (ET_ERROR, Some (set_id_closed 1 id)) y m1) /\
    (exists y, run (et_forcedclose (set_id_closed 1 id)) m1 = Ok (ET_ERROR, Some (set_id_closed 1 id)) y m1).
Proof.
  intros Loc Al Me Mx Rw E H. unfold et_forcedclose.
  set (id' := set_id_closed 1 id). set (m1 := processes (<[id_proc id := reopened pr]> (sys_proc (m_sys m))) (sys_nprocesses (m_sys m)) m).
  assert (W : wp (et_close id) (fun r m' => r = (ET_ERROR, Some id') /\ m' = m1) (fun _ => True) m).
  { unfold et_close. rewrite Loc. change (ET_LOCAL =? ET_REMOTE) with false. change (ET_LOCAL =? ET_LOCAL_NOSHARE) with false. cbv iota.
    apply (wp_etl_close id pr m); try done. }
  assert (E1 : sys_proc (m_sys m1) !! id_proc id' = Some (reopened pr)) by apply lookup_insert_eq.
  assert (W1 : wp (et_close id') (fun r m' => r = (ET_ERROR, Some id') /\ m' = m1) (fun _ => True) m1).
  { unfold et_close. change (id_locality id') with (id_locality id). rewrite Loc.
    change (ET_LOCAL =? ET_REMOTE) with false. change (ET_LOCAL =? ET_LOCAL_NOSHARE) with false. cbv iota.
    apply (wp_etl_close id' (reopened pr) m1); try done.
    intros _. split; [done|]. unfold m1 at 3. rewrite processes_again. change (sys_proc (m_sys m1)) with (<[id_proc id := reopened pr]> (sys_proc (m_sys m))).
    change (id_proc id') with (id_proc id). by rewrite insert_insert_eq. }
  assert (W2 : wp (etl_forcedclose id') (fun r m' => r = (ET_ERROR, Some id') /\ m' = m1) (fun _ => True) m1).
  { unfold etl_forcedclose. change (id_proc id') with (id_proc id). rewrite (proj2 (Z.eqb_neq _ _) Me).
    apply wp_bind. by eapply wp_detach_all_closed. }
  destruct (wp_run _ _ _ _ W) as (r & x & m1' & R & -> & ->). exists x, m1. split; [done|]. split; [by apply closed_shut_out|].
  split; [by destruct (wp_run _ _ _ _ W1) as (r & y & m' & R1' & -> & ->); exists y|].
  change (id_locality id') with (id_locality id). rewrite Loc. change (ET_LOCAL =? ET_REMOTE) with false. change (ET_LOCAL =? ET_LOCAL_NOSHARE) with false. cbv iota.
  destruct (wp_run _ _ _ _ W2) as (r & y & m' & R2 & -> & ->). by exists y.
Qed.
End theorems.

(** ** A concrete system *)

(** Processes without a network cannot close a remote system. *)
#[local] Instance close0 : RemoteClose :=
  let no (id : et_id) : M (Z * option et_id) := ret (ET_ERROR_REMOTE, Some id) in
  {| etr_close := no; etr_forcedclose := no; etr_kill := no; etn_close := no; etn_forcedclose := no; etn_kill := no |}.

Definition free_proc : et_proc := set_pr_num (-1) (set_pr_status ET_PROC_CLOSED (proc0 0)).
Definition procs6 : gmap Z et_proc := {[ 0 := proc0 0; 1 := free_proc; 2 := free_proc; 3 := free_proc ]}.
Definition system6 : et_mem := with_procs procs6 system2.

Lemma procs6_none p pr : procs6 !! p = Some pr ->
  (pr_att pr = ∅ /\ pr_nattachments pr = 0) /\ (pr_num pr = -1 -> pr_status pr = ET_PROC_CLOSED).
Proof.
  assert (H : map_Forall (fun _ pr => (pr_att pr = ∅ /\ pr_nattachments pr = 0) /\ (pr_num pr = -1 -> pr_status pr = ET_PROC_CLOSED)) procs6).
  { repeat (apply map_Forall_insert_2; [done|]). by apply map_Forall_empty. }
  apply H.
Qed.

Lemma system6_attach : attach_ok system6.
Proof. exact (with_procs_attach procs6 system2 system2_attach system2_unused (fun p pr E => proj2 (proj1 (procs6_none p pr E)))). Qed.

Lemma system6_arrays : arrays_ok None system6.
Proof.
  apply (with_procs_arrays procs6 system2 groups0 system2_ok system2_attach system2_unused); [done..| | |exact system2_stations].
  - intros p Hp. assert (p = 0 \/ p = 1 \/ p = 2 \/ p = 3) as X by (cbn in Hp; lia).
    destruct X as [->|[->|[->| ->]]]; by eexists.
  - intros p pr E. by apply (procs6_none p pr).
Qed.

Lemma system6_free : first_free system6 1.
Proof.
  split; [by_eval|]. split; [by exists free_proc|]. intros j pr Hj. replace j with 0 by lia. intros X. by injection X as <-.
Qed.

Lemma open_close_process_witness :
  exists x m1 y m2 pr',
    run (open_process id0 500 88 ET_OK ET_OK) system6 = Ok (ET_OK, set_id_proc 1 id0) x m1 /\
    attach_ok m1 /\ arrays_ok None m1 /\ proc_open (set_id_proc 1 id0) m1 /\
    sys_nprocesses (m_sys m1) = sys_nprocesses (m_sys system6) + 1 /\
    run (et_close (set_id_proc 1 id0)) m1 = Ok (ET_OK, None) y m2 /\ closed_proc pr' /\
    m2 = with_procs (<[1 := pr']> (sys_proc (m_sys system6))) system6.
Proof.
  apply (open_close_process id0 500 88 system6 1); [reflexivity|done|reflexivity|reflexivity|exact system6_attach|exact system6_arrays| |exact system6_free].
  intros p pr E _. by apply (procs6_none p pr).
Defined.

(** The process with attachment 1. *)
Definition proc_attached : et_proc := set_pr_att {[ 1 := 1 ]} (proc0 0).

Lemma et_close_strands_witness :
  let m := with_procs {[ 0 := proc_attached ]} system2 in
  let id' := set_id_closed 1 id0 in
  exists x m1, run (et_close id0) m = Ok (ET_ERROR, Some id') x m1 /\
    shut_out (O0 := os0) (R1 := no_remote_events) (K0 := files0) id' m1 /\
    (exists y, run (et_close id') m1 = Ok (ET_ERROR, Some id') y m1) /\
    (exists y, run (et_forcedclose id') m1 = Ok (ET_ERROR, Some id') y m1).
Proof.
  intros m id'. apply (et_close_strands (O0 := os0) (R1 := no_remote_events) (K0 := files0) id0 proc_attached m); [reflexivity|done|done|reflexivity|reflexivity|reflexivity|].
  exists 1. split; [by_eval|done].
Defined.
