(* ===== verification/AddStations.v ===== *)
(** * The thread that starts conductors

    et_add_stations of et_system.c: the thread of the ET system process that waits until a process has
    made a station, and starts the conductor of the station; and what et_system_close does to it.
    The start of a conductor is the result of a turn: conductor_start of Conductor is what the new thread
    does. *)
From stdpp Require Import base gmap strings list.
From S2P Require Import Prelude Types Machine EvList Sample StatConfig Stats Chain Api StationApi Init Station StationSpec Attach Start Process.
Open Scope Z_scope.

(** pthread_cond_wait(&sys->statadd, &sys->statadd_mutex). *)
Definition statadd_wait : M Z := fun x m =>
  match cx_wakes x with
  | [] => Blocked (upd_sys (set_sys_statadd_mutex false) m)
  | k :: w =>
      Ok (wk_status k) (mkCtx (cx_crash x) w)
        (upd_sys (set_sys_statadd_mutex true) (wk_env k (upd_sys (set_sys_statadd_mutex false) m)))
  end.

(** while (sys->statAdd != 1): the status of the last wait. *)
Fixpoint statadd_loop (status : Z) (n : nat) : M Z :=
  match n with
  | O => diverge
  | S n' =>
      let* y := ld_sys in
      if sys_statAdd y =? 1 then ret status
      else let* status := statadd_wait in statadd_loop status n'
  end.

(** do ... while (sys->nstations > sys->config.nstations): [false] when the thread shall end. *)
Fixpoint add_wait (n : nat) : M bool :=
  match n with
  | O => diverge
  | S n' =>
      str_sys (set_sys_statAdd 0) ;;;
      let* status := with_wakes (statadd_loop 0) in
      if negb (status =? 0) then err_abort
      else
        let* y := ld_sys in
        if sys_asthread y =? ET_THREAD_KILL then ret false
        else if cf_nstations (sys_config y) <? sys_nstations y then add_wait n'
        else ret true
  end.

(** One turn of the endless loop; with [true] a conductor is started and the next turn follows. *)
Definition add_stations_turn : M bool := with_wakes add_wait.

(** The thread for at most [rounds] turns: how many conductors it has started. *)
Fixpoint add_stations_loop (rounds : nat) (started : Z) : M Z :=
  match rounds with
  | O => ret started
  | S rounds' =>
      let* go := add_stations_turn in
      if go then add_stations_loop rounds' (started + 1) else ret started
  end.
Definition et_add_stations (rounds : nat) : M Z := et_statadd_lock ;;; add_stations_loop rounds 0.

(** ** Correctness *)

(** What the other processes do before a wake-up does not ask for a station. *)
Definition no_request (k : wakeup) : Prop :=
  forall m, sys_statAdd (m_sys m) <> 1 -> sys_statAdd (m_sys (wk_env k m)) <> 1.

Lemma statadd_loop_waits ws status n m :
  (length ws < n)%nat -> Forall no_request ws -> sys_statAdd (m_sys m) <> 1 ->
  exists m', statadd_loop status n (mkCtx None ws) m = Blocked m'.
Proof.
  revert status n m. induction ws as [|k ws IH]; intros status n m Hn F N; (destruct n as [|n]; [lia|]);
    cbn [statadd_loop]; (erewrite bind_ok by reflexivity); rewrite (proj2 (Z.eqb_neq _ _) N).
  - eexists. reflexivity.
  - apply Forall_cons in F as [F1 F2]. erewrite bind_ok by reflexivity. apply IH; [cbn in Hn; lia|done|].
    cbn [m_sys upd_sys set_m_sys]. apply F1. exact N.
Qed.

Lemma statadd_loop_returns ws k w status n m :
  (length ws < n)%nat -> Forall no_request ws -> sys_statAdd (m_sys m) <> 1 ->
  (forall m, sys_statAdd (m_sys m) <> 1 -> sys_statAdd (m_sys (wk_env k m)) = 1) ->
  exists m', statadd_loop status (S n) (mkCtx None (ws ++ k :: w)) m =
    Ok (wk_status k) (mkCtx None w) (upd_sys (set_sys_statadd_mutex true) (wk_env k (upd_sys (set_sys_statadd_mutex false) m'))) /\
    sys_statAdd (m_sys m') <> 1.
Proof.
  intros Hn F N R. revert status n m Hn N. induction ws as [|k' ws IH]; intros status n m Hn N.
  - exists m. cbn [statadd_loop app]. erewrite bind_ok by reflexivity. rewrite (proj2 (Z.eqb_neq _ _) N).
    erewrite bind_ok by reflexivity. destruct n as [|n]; [cbn in Hn; lia|]. cbn [statadd_loop]. erewrite bind_ok by reflexivity.
    rewrite (proj2 (Z.eqb_eq _ _)); [done|]. cbn [m_sys upd_sys set_m_sys]. by apply (R (upd_sys (set_sys_statadd_mutex false) m)).
  - apply Forall_cons in F as [F1 F2]. destruct n as [|n]; [cbn in Hn; lia|].
    destruct (IH F2 (wk_status k') n (upd_sys (set_sys_statadd_mutex true) (wk_env k' (upd_sys (set_sys_statadd_mutex false) m)))) as (m' & E & N').
    + cbn in Hn. lia.
    + cbn [m_sys upd_sys set_m_sys]. by apply F1.
    + exists m'. split; [|done]. rewrite <- E. cbn [app]. change (statadd_loop status (S (S n))) with
        (let* y := ld_sys in if sys_statAdd y =? 1 then ret status else let* status := statadd_wait in statadd_loop status (S n)).
      erewrite bind_ok by reflexivity. rewrite (proj2 (Z.eqb_neq _ _) N). by erewrite bind_ok by reflexivity.
Qed.

Lemma sys_upd_sys f m : m_sys (upd_sys f m) = f (m_sys m).
Proof. done. Qed.

(** ** The end of the ET system *)

Section close.
Context `{R0 : Remote}.

(** What et_system_close has done after its first [k] stations. *)
Lemma wp_stop_conductors (n : nat) i m :
  stations_exist m -> 0 <= i -> i + Z.of_nat n <= cf_nstations (sys_config (m_sys m)) ->
  wp (stop_conductors n i) (fun _ m' => m_sys m' = m_sys m) (fun _ => True) m.
Proof.
  revert i m. induction n as [|n IH]; intros i m S Hi Hn; cbn [stop_conductors]; [by apply wp_ret|].
  destruct (S i) as [ps E]; [lia|]. apply wp_bind. eapply wps_ld_stat; [done|]. apply wp_bind. destruct (negb _).
  - apply wp_bind. eapply wps_str_stat; [done|done|]. unfold signal_cread. eapply (wps_str_list _ (LOut i)); [by apply upd_stat_eq|done|].
    eapply wp_mono; [apply IH; [|lia|unfold upd_list, upd_stat; cbn; lia]| |done].
    + by do 2 apply upd_stat_exist.
    + by intros [] m' ->.
  - apply wp_ret, IH; [done|lia|lia].
Qed.

(** Only the flag for the thread that adds stations changes in the structure of the system. *)
Lemma wp_system_close id m :
  id_proc id = ET_SYS -> stations_exist m ->
  wp (et_system_close id) (fun r m' => r = (ET_OK, None) /\ m_sys m' = set_sys_asthread ET_THREAD_KILL (m_sys m)) (fun _ => True) m.
Proof.
  intros P S. unfold et_system_close. rewrite P. change (negb (ET_SYS =? ET_SYS)) with false. cbv iota.
  apply wp_bind, wps_str_sys; [done|]. apply wp_bind, wp_nanosleep. apply wp_bind, wps_ld_sys. apply wp_bind.
  destruct (Z.le_gt_cases 0 (cf_nstations (sys_config (m_sys m)))) as [Hn|Hn].
  - eapply wp_mono; [apply wp_stop_conductors; [exact S|lia|]| |done].
    + rewrite Z2Nat.id by done. done.
    + intros [] m' E. apply wp_bind, wp_nanosleep. by apply wp_ret.
  - change (cf_nstations (sys_config (m_sys (upd_sys (set_sys_asthread ET_THREAD_KILL) m)))) with (cf_nstations (sys_config (m_sys m))).
    rewrite Z2Nat.nonpos by lia. apply wp_ret, wp_bind, wp_nanosleep. by apply wp_ret.
Qed.

(** The wake-up of et_system_close: it signals the condition variable. *)
Definition close_wakeup (id : et_id) : wakeup :=
  mkWake 0 (fun m => match run (et_system_close id) m with Ok _ _ m' => m' | _ => m end).

Lemma close_wakeup_effect id m :
  id_proc id = ET_SYS -> stations_exist m -> m_sys (wk_env (close_wakeup id) m) = set_sys_asthread ET_THREAD_KILL (m_sys m).
Proof.
  intros P S. destruct (wp_run _ _ _ _ (wp_system_close id m P S)) as (r & x & m' & E & _ & H). unfold close_wakeup. cbn [wk_env]. by rewrite E.
Qed.
End close.

(** ** The properties *)

(** Whatever other wake-ups the thread that adds stations sees before, it starts one conductor when a
    process asks for one, with the mutex in its hand, and leaves the wake-ups that come later to its next turn;
    without a request it waits. *)
Theorem add_stations_turn_spec ws k w m :
  Forall no_request ws -> wk_status k = 0 ->
  (forall m, sys_statAdd (m_sys m) <> 1 ->
     sys_statAdd (m_sys (wk_env k m)) = 1 /\ sys_asthread (m_sys (wk_env k m)) <> ET_THREAD_KILL /\
     sys_nstations (m_sys (wk_env k m)) <= cf_nstations (sys_config (m_sys (wk_env k m)))) ->
  (exists m', run_wakes ws add_stations_turn m = Blocked m') /\
  (exists m', add_stations_turn (mkCtx None (ws ++ k :: w)) m = Ok true (mkCtx None w) (upd_sys (set_sys_statadd_mutex true) (wk_env k m')) /\
     sys_statadd_mutex (m_sys m') = false).
Proof.
  intros F S R. split.
  - unfold run_wakes, add_stations_turn, with_wakes. cbn [cx_wakes add_wait]. erewrite bind_ok by reflexivity.
    destruct (statadd_loop_waits ws 0 (Datatypes.S (length ws)) (upd_sys (set_sys_statAdd 0) m)) as [m' E]; [lia|done|done|].
    exists m'. unfold bind, with_wakes. cbn [cx_wakes]. by rewrite E.
  - unfold add_stations_turn, with_wakes. cbn [cx_wakes add_wait]. erewrite bind_ok by reflexivity.
    destruct (statadd_loop_returns ws k w 0 (length (ws ++ k :: w)) (upd_sys (set_sys_statAdd 0) m)) as (m' & E & N');
      [rewrite length_app; cbn; lia|done|done|intros; by apply R|].
    exists (upd_sys (set_sys_statadd_mutex false) m'). split; [|done]. erewrite bind_ok by exact E. rewrite S. cbn [Z.eqb negb].
    erewrite bind_ok by reflexivity. cbn [m_sys upd_sys set_m_sys].
    destruct (R (upd_sys (set_sys_statadd_mutex false) m') N') as (_ & K & L).
    change (sys_asthread (set_sys_statadd_mutex true ?y)) with (sys_asthread y).
    change (sys_nstations (set_sys_statadd_mutex true ?y)) with (sys_nstations y).
    change (sys_config (set_sys_statadd_mutex true ?y)) with (sys_config y).
    rewrite (proj2 (Z.eqb_neq _ _) K), (proj2 (Z.ltb_ge _ _) L). done.
Qed.

(** C16: et_system_close does not end the thread that adds stations: the thread is told to end and woken up,
    but it goes back to wait, because the flag it waits for is not set. *)
Theorem et_system_close_strands_thread `{R0 : Remote} id m :
  id_proc id = ET_SYS -> stations_exist m ->
  exists m', run_wakes [close_wakeup id] add_stations_turn m = Blocked m' /\ sys_asthread (m_sys m') = ET_THREAD_KILL.
Proof.
  intros P S. set (m1 := upd_sys (set_sys_statadd_mutex false) (upd_sys (set_sys_statAdd 0) m)).
  pose proof (close_wakeup_effect id m1 P S) as E. set (m2 := upd_sys (set_sys_statadd_mutex true) (wk_env (close_wakeup id) m1)).
  exists (upd_sys (set_sys_statadd_mutex false) m2). split; [|by unfold m2; rewrite !sys_upd_sys, E].
  unfold run_wakes, add_stations_turn, with_wakes. cbn [cx_wakes length add_wait]. erewrite bind_ok by reflexivity.
  unfold bind at 1, with_wakes. cbn [cx_wakes length statadd_loop]. erewrite bind_ok by reflexivity. cbn [m_sys upd_sys set_m_sys].
  change (sys_statAdd (set_sys_statAdd 0 (m_sys m)) =? 1) with false. cbv iota. erewrite bind_ok by reflexivity. fold m1. fold m2.
  erewrite bind_ok by reflexivity. replace (sys_statAdd (m_sys m2) =? 1) with false; [done|]. unfold m2. by rewrite sys_upd_sys, E.
Qed.

(** The ET system of the samples. *)
Definition sys_id0 : et_id := set_id_proc ET_SYS id0.
Definition request_wakeup : wakeup := mkWake 0 (fun m => upd_sys (fun y => set_sys_asthread ET_THREAD_KEEP (set_sys_nstations 1 (set_sys_config (sys_config (m_sys mem0)) (set_sys_statAdd 1 y)))) m).

Lemma et_system_close_strands_thread_witness :
  exists m', run_wakes [close_wakeup sys_id0] add_stations_turn mem0 = Blocked m' /\ sys_asthread (m_sys m') = ET_THREAD_KILL.
Proof. apply (et_system_close_strands_thread sys_id0 mem0); [reflexivity|exact mem0_exist]. Defined.

Lemma add_stations_turn_spec_witness :
  (exists m', run_wakes [mkWake 0 (fun m => m)] add_stations_turn mem0 = Blocked m') /\
  (exists m', add_stations_turn (mkCtx None [mkWake 0 (fun m => m); request_wakeup]) mem0 =
     Ok true (mkCtx None []) (upd_sys (set_sys_statadd_mutex true) (wk_env request_wakeup m')) /\ sys_statadd_mutex (m_sys m') = false).
Proof.
  apply (add_stations_turn_spec [mkWake 0 (fun m => m)] request_wakeup [] mem0); [constructor; [by intros m H|constructor]|done|].
  intros m _. split_and!; [done|done|]. cbn. lia.
Defined.
