(* ===== verification/OpenConfig.v ===== *)
(** * Configurations for opening a system

    et_openconfig.c: the configuration object that a user fills before opening a system; of
    etCommonNetwork.c codanetIsDottedDecimal, with which the addresses in it are tested, and
    codanetGetBroadcastAddrs, which finds those of the node.  A handle that
    may be NULL is an option; a setter returns its status and the object afterwards, or nothing at all
    when it writes behind an array.  The list of the networks of the node (netinfo) is not part of the
    object here: no function of this file reads it. *)
From stdpp Require Import base strings list sets pretty.
From Stdlib Require Import Ascii Strings.Byte.
From S2P Require Import Prelude Types Machine EvList Sample StatConfig Stats Api StationApi SysConfig Temp EventApi.
Open Scope Z_scope.

Definition ET_MULTICAST_TTL : Z := 32.
Definition ET_HOST_LOCAL : string := ".local".
Definition ET_HOST_AS_LOCAL : Z := 1.
Definition ET_HOST_AS_REMOTE : Z := 0.
Definition ET_POLICY_FIRST : Z := 0.
Definition ET_POLICY_LOCAL : Z := 1.
Definition ET_POLICY_ERROR : Z := 2.
Definition ET_OPEN_NOWAIT : Z := 0.
Definition ET_OPEN_WAIT : Z := 1.
Definition ET_MULTICAST : Z := 0.
Definition ET_BROADCAST : Z := 1.
Definition ET_DIRECT : Z := 2.
Definition ET_BROADANDMULTICAST : Z := 3.
Definition ET_SUBNET_ALL : string := ".subnetsAll".

(** ** Addresses *)

(** sscanf with %d: blanks, a sign, at least one digit; the number and the rest of the string.  (What a
    number too large for an int becomes is not defined in C; here it keeps its value.) *)
Fixpoint skip_space (s : string) : string :=
  match s with
  | String c s' => if is_space c then skip_space s' else s
  | EmptyString => s
  end.
Fixpoint scan_digits (acc : Z) (s : string) : Z * string :=
  match s with
  | String c s' => match digit c with Some d => scan_digits (acc * 10 + d) s' | None => (acc, s) end
  | EmptyString => (acc, s)
  end.
Definition scan_unsigned (s : string) : option (Z * string) :=
  match s with
  | String c s' => match digit c with Some d => Some (scan_digits d s') | None => None end
  | EmptyString => None
  end.
Definition scan_d (s : string) : option (Z * string) :=
  match skip_space s with
  | String c s' =>
      if Ascii.eqb c "-" then (fun r => (- fst r, snd r)) <$> scan_unsigned s'
      else if Ascii.eqb c "+" then scan_unsigned s'
      else scan_unsigned (String c s')
  | EmptyString => None
  end.
Definition scan_period (s : string) : option string :=
  match s with
  | String c s' => if Ascii.eqb c "." then Some s' else None
  | EmptyString => None
  end.

Definition in_byte (i : Z) : bool := negb ((i <? 0) || (255 <? i)).

(** The four numbers of an address in dot-decimal form; what follows the fourth one is not looked at. *)
Definition codanetIsDottedDecimal (ipAddress : string) : option (list Z) :=
  '(i0, s) ← scan_d ipAddress; s ← scan_period s;
  '(i1, s) ← scan_d s; s ← scan_period s;
  '(i2, s) ← scan_d s; s ← scan_period s;
  '(i3, s) ← scan_d s;
  if forallb in_byte [i0; i1; i2; i3] then Some [i0; i1; i2; i3] else None.

Definition dotted (ipAddress : string) : bool :=
  match codanetIsDottedDecimal ipAddress with Some _ => true | None => false end.

(** ** The configuration object *)

Record et_open_config := mkOpenConfig {
  oc_init : Z; oc_wait : Z; oc_cast : Z; oc_ttl : Z; oc_mode : Z; oc_debug_default : Z; oc_udpport : Z;
  oc_serverport : Z; oc_policy : Z; oc_tcpSendBufSize : Z; oc_tcpRecvBufSize : Z; oc_tcpNoDelay : Z;
  oc_timeout : timespec; oc_host : string; oc_interface : string; oc_bcastaddrs : list string;
  oc_mcastaddrs : list string
}.

(** Field updates. *)
Definition set_oc_wait (v : Z) (x : et_open_config) : et_open_config := mkOpenConfig (oc_init x) v (oc_cast x)
  (oc_ttl x) (oc_mode x) (oc_debug_default x) (oc_udpport x) (oc_serverport x) (oc_policy x) (oc_tcpSendBufSize
  x) (oc_tcpRecvBufSize x) (oc_tcpNoDelay x) (oc_timeout x) (oc_host x) (oc_interface x) (oc_bcastaddrs x)
  (oc_mcastaddrs x).
Definition set_oc_cast (v : Z) (x : et_open_config) : et_open_config := mkOpenConfig (oc_init x) (oc_wait x) v
  (oc_ttl x) (oc_mode x) (oc_debug_default x) (oc_udpport x) (oc_serverport x) (oc_policy x) (oc_tcpSendBufSize
  x) (oc_tcpRecvBufSize x) (oc_tcpNoDelay x) (oc_timeout x) (oc_host x) (oc_interface x) (oc_bcastaddrs x)
  (oc_mcastaddrs x).
Definition set_oc_ttl (v : Z) (x : et_open_config) : et_open_config := mkOpenConfig (oc_init x) (oc_wait x)
  (oc_cast x) v (oc_mode x) (oc_debug_default x) (oc_udpport x) (oc_serverport x) (oc_policy x)
  (oc_tcpSendBufSize x) (oc_tcpRecvBufSize x) (oc_tcpNoDelay x) (oc_timeout x) (oc_host x) (oc_interface x)
  (oc_bcastaddrs x) (oc_mcastaddrs x).
Definition set_oc_mode (v : Z) (x : et_open_config) : et_open_config := mkOpenConfig (oc_init x) (oc_wait x)
  (oc_cast x) (oc_ttl x) v (oc_debug_default x) (oc_udpport x) (oc_serverport x) (oc_policy x)
  (oc_tcpSendBufSize x) (oc_tcpRecvBufSize x) (oc_tcpNoDelay x) (oc_timeout x) (oc_host x) (oc_interface x)
  (oc_bcastaddrs x) (oc_mcastaddrs x).
Definition set_oc_debug_default (v : Z) (x : et_open_config) : et_open_config := mkOpenConfig (oc_init x)
  (oc_wait x) (oc_cast x) (oc_ttl x) (oc_mode x) v (oc_udpport x) (oc_serverport x) (oc_policy x)
  (oc_tcpSendBufSize x) (oc_tcpRecvBufSize x) (oc_tcpNoDelay x) (oc_timeout x) (oc_host x) (oc_interface x)
  (oc_bcastaddrs x) (oc_mcastaddrs x).
Definition set_oc_udpport (v : Z) (x : et_open_config) : et_open_config := mkOpenConfig (oc_init x) (oc_wait x)
  (oc_cast x) (oc_ttl x) (oc_mode x) (oc_debug_default x) v (oc_serverport x) (oc_policy x) (oc_tcpSendBufSize
  x) (oc_tcpRecvBufSize x) (oc_tcpNoDelay x) (oc_timeout x) (oc_host x) (oc_interface x) (oc_bcastaddrs x)
  (oc_mcastaddrs x).
Definition set_oc_serverport (v : Z) (x : et_open_config) : et_open_config := mkOpenConfig (oc_init x) (oc_wait
  x) (oc_cast x) (oc_ttl x) (oc_mode x) (oc_debug_default x) (oc_udpport x) v (oc_policy x) (oc_tcpSendBufSize
  x) (oc_tcpRecvBufSize x) (oc_tcpNoDelay x) (oc_timeout x) (oc_host x) (oc_interface x) (oc_bcastaddrs x)
  (oc_mcastaddrs x).
Definition set_oc_policy (v : Z) (x : et_open_config) : et_open_config := mkOpenConfig (oc_init x) (oc_wait x)
  (oc_cast x) (oc_ttl x) (oc_mode x) (oc_debug_default x) (oc_udpport x) (oc_serverport x) v (oc_tcpSendBufSize
  x) (oc_tcpRecvBufSize x) (oc_tcpNoDelay x) (oc_timeout x) (oc_host x) (oc_interface x) (oc_bcastaddrs x)
  (oc_mcastaddrs x).
Definition set_oc_tcpSendBufSize (v : Z) (x : et_open_config) : et_open_config := mkOpenConfig (oc_init x)
  (oc_wait x) (oc_cast x) (oc_ttl x) (oc_mode x) (oc_debug_default x) (oc_udpport x) (oc_serverport x)
  (oc_policy x) v (oc_tcpRecvBufSize x) (oc_tcpNoDelay x) (oc_timeout x) (oc_host x) (oc_interface x)
  (oc_bcastaddrs x) (oc_mcastaddrs x).
Definition set_oc_tcpRecvBufSize (v : Z) (x : et_open_config) : et_open_config := mkOpenConfig (oc_init x)
  (oc_wait x) (oc_cast x) (oc_ttl x) (oc_mode x) (oc_debug_default x) (oc_udpport x) (oc_serverport x)
  (oc_policy x) (oc_tcpSendBufSize x) v (oc_tcpNoDelay x) (oc_timeout x) (oc_host x) (oc_interface x)
  (oc_bcastaddrs x) (oc_mcastaddrs x).
Definition set_oc_tcpNoDelay (v : Z) (x : et_open_config) : et_open_config := mkOpenConfig (oc_init x) (oc_wait
  x) (oc_cast x) (oc_ttl x) (oc_mode x) (oc_debug_default x) (oc_udpport x) (oc_serverport x) (oc_policy x)
  (oc_tcpSendBufSize x) (oc_tcpRecvBufSize x) v (oc_timeout x) (oc_host x) (oc_interface x) (oc_bcastaddrs x)
  (oc_mcastaddrs x).
Definition set_oc_timeout (v : timespec) (x : et_open_config) : et_open_config := mkOpenConfig (oc_init x)
  (oc_wait x) (oc_cast x) (oc_ttl x) (oc_mode x) (oc_debug_default x) (oc_udpport x) (oc_serverport x)
  (oc_policy x) (oc_tcpSendBufSize x) (oc_tcpRecvBufSize x) (oc_tcpNoDelay x) v (oc_host x) (oc_interface x)
  (oc_bcastaddrs x) (oc_mcastaddrs x).
Definition set_oc_host (v : string) (x : et_open_config) : et_open_config := mkOpenConfig (oc_init x) (oc_wait
  x) (oc_cast x) (oc_ttl x) (oc_mode x) (oc_debug_default x) (oc_udpport x) (oc_serverport x) (oc_policy x)
  (oc_tcpSendBufSize x) (oc_tcpRecvBufSize x) (oc_tcpNoDelay x) (oc_timeout x) v (oc_interface x) (oc_bcastaddrs
  x) (oc_mcastaddrs x).
Definition set_oc_interface (v : string) (x : et_open_config) : et_open_config := mkOpenConfig (oc_init x)
  (oc_wait x) (oc_cast x) (oc_ttl x) (oc_mode x) (oc_debug_default x) (oc_udpport x) (oc_serverport x)
  (oc_policy x) (oc_tcpSendBufSize x) (oc_tcpRecvBufSize x) (oc_tcpNoDelay x) (oc_timeout x) (oc_host x) v
  (oc_bcastaddrs x) (oc_mcastaddrs x).
Definition set_oc_bcastaddrs (v : list string) (x : et_open_config) : et_open_config := mkOpenConfig (oc_init x)
  (oc_wait x) (oc_cast x) (oc_ttl x) (oc_mode x) (oc_debug_default x) (oc_udpport x) (oc_serverport x)
  (oc_policy x) (oc_tcpSendBufSize x) (oc_tcpRecvBufSize x) (oc_tcpNoDelay x) (oc_timeout x) (oc_host x)
  (oc_interface x) v (oc_mcastaddrs x).
Definition set_oc_mcastaddrs (v : list string) (x : et_open_config) : et_open_config := mkOpenConfig (oc_init x)
  (oc_wait x) (oc_cast x) (oc_ttl x) (oc_mode x) (oc_debug_default x) (oc_udpport x) (oc_serverport x)
  (oc_policy x) (oc_tcpSendBufSize x) (oc_tcpRecvBufSize x) (oc_tcpNoDelay x) (oc_timeout x) (oc_host x)
  (oc_interface x) (oc_bcastaddrs x) v.

(** What codanetGetInterfaceInfo tells of a network interface: the flags that are looked at, and the
    broadcast address when it has one. *)
Record ifi_info := mkIfi {
  ifi_loopback : bool; ifi_up : bool; ifi_broadcast : bool; ifi_brdaddr : option (byte * byte * byte * byte)
}.

(** inet_ntop for AF_INET: four decimal numbers. *)
Definition sock_ntop_host (sa : byte * byte * byte * byte) : string :=
  let '(a, b, c, d) := sa in
  pretty (Byte.to_N a) +:+ "." +:+ pretty (Byte.to_N b) +:+ "." +:+ pretty (Byte.to_N c) +:+ "." +:+ pretty (Byte.to_N d).

(** The loop over the interfaces: [addrs] are the addresses so far. *)
Fixpoint broadcast_loop (ifis : list ifi_info) (addrs : list string) : list string :=
  match ifis with
  | [] => addrs
  | ifi :: ifis' =>
      if ifi_loopback ifi then broadcast_loop ifis' addrs
      else if ifi_up ifi && ifi_broadcast ifi then
        match ifi_brdaddr ifi with
        | Some sa =>
            let p := sock_ntop_host sa in
            if mcast_in p addrs then broadcast_loop ifis' addrs
            else broadcast_loop ifis' (addrs ++ [String.substring 0 (Z.to_nat (ET_IPADDRSTRLEN - 1)) p])
        | None => broadcast_loop ifis' addrs
        end
      else broadcast_loop ifis' addrs
  end.

(** It fails when nothing is known of the interfaces.  (An allocation that fails is left out.) *)
Definition codanetGetBroadcastAddrs (ifihead : list ifi_info) : option (list string) :=
  match ifihead with [] => None | _ => Some (broadcast_loop ifihead []) end.

(** The subnets' broadcast addresses in a configuration, none when the call failed. *)
Definition found_addrs (ifis : list ifi_info) : list string := default [] (codanetGetBroadcastAddrs ifis).

Definition open_default (ifis : list ifi_info) : et_open_config :=
  mkOpenConfig ET_STRUCT_OK ET_OPEN_NOWAIT ET_BROADCAST ET_MULTICAST_TTL ET_HOST_AS_LOCAL ET_DEBUG_ERROR ET_UDP_PORT
    ET_SERVER_PORT ET_POLICY_FIRST 0 0 1 (mkTimespec 0 0) ET_HOST_LOCAL EmptyString (found_addrs ifis) [].

Definition et_open_config_init (calloc_ok given : bool) (ifis : list ifi_info) : Z * option et_open_config :=
  if negb given || negb calloc_ok then (ET_ERROR, None) else (ET_OK, Some (open_default ifis)).

(** A setter: a good handle, then the test and the assignments of [set], or [None] for an error. *)
Definition open_set (set : et_open_config -> option et_open_config) (sconfig : option et_open_config) :
    Z * option et_open_config :=
  match sconfig with
  | None => (ET_ERROR, sconfig)
  | Some sc =>
      if negb (oc_init sc =? ET_STRUCT_OK) then (ET_ERROR, sconfig)
      else match set sc with
           | Some sc' => (ET_OK, Some sc')
           | None => (ET_ERROR, sconfig)
           end
  end.

Definition open_get {V} (get : et_open_config -> V) (sconfig : option et_open_config) (val_given : bool) : Z * option V :=
  match sconfig with
  | None => (ET_ERROR, None)
  | Some sc =>
      if negb (oc_init sc =? ET_STRUCT_OK) || negb val_given then (ET_ERROR, None) else (ET_OK, Some (get sc))
  end.

(** An assignment of a value that passes a test. *)
Definition set_valid {V} (valid : V -> bool) (set : V -> et_open_config -> et_open_config) (sconfig : option et_open_config)
    (val : V) :=
  open_set (fun sc => if valid val then Some (set val sc) else None) sconfig.
Definition one_of (vals : list Z) (val : Z) : bool := existsb (Z.eqb val) vals.
Definition valid_port (val : Z) : bool := negb ((val <? 1024) || (65535 <? val)).

Definition et_open_config_setwait := set_valid (one_of [ET_OPEN_NOWAIT; ET_OPEN_WAIT]) set_oc_wait.
Definition et_open_config_getwait := open_get oc_wait.
Definition et_open_config_setcast :=
  set_valid (one_of [ET_MULTICAST; ET_BROADCAST; ET_BROADANDMULTICAST; ET_DIRECT]) set_oc_cast.
Definition et_open_config_getcast := open_get oc_cast.
Definition et_open_config_setTTL := set_valid (fun val => negb ((val <? 0) || (254 <? val))) set_oc_ttl.
Definition et_open_config_getTTL := open_get oc_ttl.
Definition et_open_config_setmode := set_valid (one_of [ET_HOST_AS_LOCAL; ET_HOST_AS_REMOTE]) set_oc_mode.
Definition et_open_config_getmode := open_get oc_mode.
Definition et_open_config_setdebugdefault :=
  set_valid (one_of [ET_DEBUG_NONE; ET_DEBUG_SEVERE; ET_DEBUG_ERROR; ET_DEBUG_WARN; ET_DEBUG_INFO]) set_oc_debug_default.
Definition et_open_config_getdebugdefault := open_get oc_debug_default.
Definition et_open_config_setport := set_valid valid_port set_oc_udpport.
Definition et_open_config_getport := open_get oc_udpport.
Definition et_open_config_setserverport := set_valid valid_port set_oc_serverport.
Definition et_open_config_getserverport := open_get oc_serverport.
Definition et_open_config_settimeout := set_valid (fun _ => true) set_oc_timeout.
Definition et_open_config_gettimeout := open_get oc_timeout.
Definition et_open_config_setpolicy := set_valid (one_of [ET_POLICY_FIRST; ET_POLICY_LOCAL; ET_POLICY_ERROR]) set_oc_policy.
Definition et_open_config_getpolicy := open_get oc_policy.

(** A string that may be NULL. *)
Definition given_and (valid : string -> bool) (val : option string) : bool :=
  match val with Some v => valid v | None => false end.
Definition et_open_config_sethost :=
  set_valid (given_and (fun val => negb (ET_FUNCNAME_LENGTH - 1 <? strlen val))) (fun val => set_oc_host (default EmptyString val)).
Definition et_open_config_gethost := open_get oc_host.
Definition et_open_config_setinterface :=
  set_valid (given_and (fun val => dotted val && negb (ET_IPADDRSTRLEN - 1 <? strlen val)))
    (fun val => set_oc_interface (default EmptyString val)).
(** At most fifteen characters are copied; they are all there are. *)
Definition et_open_config_getinterface := open_get (fun sc => String.substring 0 (Z.to_nat (ET_IPADDRSTRLEN - 1)) (oc_interface sc)).

Definition et_open_config_settcp (sconfig : option et_open_config) (rBufSize sBufSize noDelay : Z) :=
  open_set (fun sc =>
    if (rBufSize <? 0) || (sBufSize <? 0) then None
    else Some (set_oc_tcpNoDelay (if noDelay =? 0 then 0 else 1)
                 (set_oc_tcpSendBufSize sBufSize (set_oc_tcpRecvBufSize rBufSize sc)))) sconfig.
Definition et_open_config_gettcp (sconfig : option et_open_config) (r s n : bool) :
    Z * option Z * option Z * option Z :=
  match sconfig with
  | None => (ET_ERROR, None, None, None)
  | Some sc =>
      if negb (oc_init sc =? ET_STRUCT_OK) then (ET_ERROR, None, None, None)
      else (ET_OK, if r then Some (oc_tcpRecvBufSize sc) else None,
                   if s then Some (oc_tcpSendBufSize sc) else None,
                   if n then Some (oc_tcpNoDelay sc) else None)
  end.

(** ** The lists of addresses *)

(** The frame: a good handle and a string, then the status and the object, or nothing for a write behind
    an array. *)
Definition open_addr (change : string -> et_open_config -> option (Z * et_open_config))
    (sconfig : option et_open_config) (val : option string) : option (Z * option et_open_config) :=
  match sconfig, val with
  | Some sc, Some v =>
      if negb (oc_init sc =? ET_STRUCT_OK) then Some (ET_ERROR, sconfig)
      else match change v sc with
           | Some (st, sc') => Some (st, Some sc')
           | None => None
           end
  | _, _ => Some (ET_ERROR, sconfig)
  end.

(** A new element at the end of the list: its array has ET_IPADDRSTRLEN bytes. *)
Definition append_bcast (calloc_ok : bool) (v : string) (sc : et_open_config) : option (Z * et_open_config) :=
  if negb calloc_ok then Some (ET_ERROR, sc)
  else if ET_IPADDRSTRLEN - 1 <? strlen v then None
  else Some (ET_OK, set_oc_bcastaddrs (oc_bcastaddrs sc ++ [v]) sc).

Definition et_open_config_addbroadcast (calloc_ok : bool) (ifis : list ifi_info) :=
  open_addr (fun v sc =>
    if String.eqb v ET_SUBNET_ALL then Some (ET_OK, set_oc_bcastaddrs (found_addrs ifis) sc)
    else if negb (dotted v) then Some (ET_ERROR, sc)
    else if mcast_in v (oc_bcastaddrs sc) then Some (ET_OK, sc)
    else append_bcast calloc_ok v sc).

Definition et_open_config_removebroadcast :=
  open_addr (fun v sc =>
    match oc_bcastaddrs sc with
    | [] => Some (ET_OK, sc)
    | _ =>
        if String.eqb v ET_SUBNET_ALL then Some (ET_OK, set_oc_bcastaddrs [] sc)
        else if negb (dotted v) then Some (ET_ERROR, sc)
        else Some (ET_OK, set_oc_bcastaddrs (remove_first v (oc_bcastaddrs sc)) sc)
    end).

Definition et_open_config_addmulticast :=
  open_addr (fun v sc =>
    if (ET_IPADDRSTRLEN <=? strlen v) || (strlen v <? 7) then Some (ET_ERROR, sc)
    else
      match codanetIsDottedDecimal v with
      | None => Some (ET_ERROR, sc)
      | Some intVals =>
          if (hd 0 intVals <? 224) || (239 <? hd 0 intVals) then Some (ET_ERROR, sc)
          else if mcast_in v (oc_mcastaddrs sc) then Some (ET_OK, sc)
          else if Z.of_nat (length (oc_mcastaddrs sc)) =? ET_MAXADDRESSES then Some (ET_ERROR, sc)
          else Some (ET_OK, set_oc_mcastaddrs (oc_mcastaddrs sc ++ [v]) sc)
      end).

Definition et_open_config_removemulticast :=
  open_addr (fun v sc =>
    match mcast_valid v with
    | None => None
    | Some false => Some (ET_ERROR, sc)
    | Some true => Some (ET_OK, set_oc_mcastaddrs (remove_first v (oc_mcastaddrs sc)) sc)
    end).

(** ** Correctness *)

(** The calls that change a configuration.  The network interfaces that the node has at the time of the
    call and the success of an allocation are part of a call. *)
Inductive open_op :=
| OpWait (val : Z) | OpCast (val : Z) | OpTTL (val : Z) | OpMode (val : Z) | OpDebugdefault (val : Z)
| OpPort (val : Z) | OpServerport (val : Z) | OpTimeout (val : timespec) | OpPolicy (val : Z)
| OpHost (val : option string) | OpInterface (val : option string) | OpTcp (rBufSize sBufSize noDelay : Z)
| OpAddBroadcast (calloc_ok : bool) (ifis : list ifi_info) (val : option string)
| OpRemoveBroadcast (val : option string)
| OpAddMulticast (val : option string) | OpRemoveMulticast (val : option string).

Definition open_call (op : open_op) (sc : option et_open_config) : option (Z * option et_open_config) :=
  match op with
  | OpWait v => Some (et_open_config_setwait sc v)
  | OpCast v => Some (et_open_config_setcast sc v)
  | OpTTL v => Some (et_open_config_setTTL sc v)
  | OpMode v => Some (et_open_config_setmode sc v)
  | OpDebugdefault v => Some (et_open_config_setdebugdefault sc v)
  | OpPort v => Some (et_open_config_setport sc v)
  | OpServerport v => Some (et_open_config_setserverport sc v)
  | OpTimeout v => Some (et_open_config_settimeout sc v)
  | OpPolicy v => Some (et_open_config_setpolicy sc v)
  | OpHost v => Some (et_open_config_sethost sc v)
  | OpInterface v => Some (et_open_config_setinterface sc v)
  | OpTcp r s n => Some (et_open_config_settcp sc r s n)
  | OpAddBroadcast b ifis v => et_open_config_addbroadcast b ifis sc v
  | OpRemoveBroadcast v => et_open_config_removebroadcast sc v
  | OpAddMulticast v => et_open_config_addmulticast sc v
  | OpRemoveMulticast v => et_open_config_removemulticast sc v
  end.

Fixpoint open_calls (ops : list open_op) (sc : option et_open_config) : option (option et_open_config) :=
  match ops with
  | [] => Some sc
  | op :: ops' => match open_call op sc with Some (_, sc') => open_calls ops' sc' | None => None end
  end.

(** A list of addresses without doubles whose elements fit into their arrays. *)
Definition addrs_ok (addrs : list string) : Prop := NoDup addrs /\ Forall (fun a => strlen a < ET_IPADDRSTRLEN) addrs.

Record open_ok (sc : et_open_config) : Prop := mkOpenOk {
  ok_init : oc_init sc = ET_STRUCT_OK;
  ok_wait : 0 <= oc_wait sc <= 1;
  ok_cast : 0 <= oc_cast sc <= 3;
  ok_ttl : 0 <= oc_ttl sc <= 254;
  ok_mode : 0 <= oc_mode sc <= 1;
  ok_debug : 0 <= oc_debug_default sc <= 4;
  ok_udpport : 1024 <= oc_udpport sc <= 65535;
  ok_serverport : 1024 <= oc_serverport sc <= 65535;
  ok_policy : 0 <= oc_policy sc <= 2;
  ok_buffers : 0 <= oc_tcpSendBufSize sc /\ 0 <= oc_tcpRecvBufSize sc;
  ok_delay : 0 <= oc_tcpNoDelay sc <= 1;
  ok_host : strlen (oc_host sc) < ET_FUNCNAME_LENGTH;
  ok_interface : strlen (oc_interface sc) < ET_IPADDRSTRLEN;
  ok_bcast : addrs_ok (oc_bcastaddrs sc);
  ok_mcast : addrs_ok (oc_mcastaddrs sc) /\ Z.of_nat (length (oc_mcastaddrs sc)) <= ET_MAXADDRESSES
}.

(** The two ways to write behind an array.  A new broadcast address that sscanf takes for a dotted one, but
    that has more characters than its array; a multicast address to remove whose first number, up to the
    period, has more than three characters. *)
Definition overflows (sc : et_open_config) (op : open_op) : Prop :=
  match op with
  | OpAddBroadcast calloc_ok _ (Some v) =>
      calloc_ok = true /\ v <> ET_SUBNET_ALL /\ (exists nums, codanetIsDottedDecimal v = Some nums) /\
      ~ (v ∈ oc_bcastaddrs sc) /\ ET_IPADDRSTRLEN <= strlen v
  | OpRemoveMulticast (Some v) => 7 <= strlen v < ET_IPADDRSTRLEN /\ 3 < strlen (before_period v)
  | _ => False
  end.

(** What becomes of a call: a status and a good configuration, or the end of the program. *)
Definition call_ends (op : open_op) (sc : et_open_config) : Prop :=
  (exists st sc', open_call op (Some sc) = Some (st, Some sc') /\ open_ok sc' /\ ~ overflows sc op) \/
  (open_call op (Some sc) = None /\ overflows sc op).

(** *** The addresses of the node *)

Lemma byte_text b : strlen (pretty (Byte.to_N b)) <= 3.
Proof. destruct b; vm_compute; discriminate. Qed.

Lemma strlen_app s t : strlen (s +:+ t) = strlen s + strlen t.
Proof.
  unfold strlen. rewrite <- Nat2Z.inj_add. f_equal. induction s as [|c s IH]; [done|]. simpl. by f_equal.
Qed.

Lemma ntop_short sa : strlen (sock_ntop_host sa) < ET_IPADDRSTRLEN.
Proof.
  destruct sa as [[[a b] c] d]. unfold sock_ntop_host. rewrite !strlen_app. change (strlen ".") with 1.
  pose proof (byte_text a). pose proof (byte_text b). pose proof (byte_text c). pose proof (byte_text d).
  unfold ET_IPADDRSTRLEN. lia.
Qed.

Lemma substring_all n s : (String.length s <= n)%nat -> String.substring 0 n s = s.
Proof. revert n. induction s as [|c s IH]; intros [|n] L; cbn in *; [done..|lia|]. rewrite IH; [done|lia]. Qed.

Lemma one_of_in vals val : one_of vals val = true -> In val vals.
Proof. unfold one_of. rewrite existsb_exists. intros (v & H & E). apply Z.eqb_eq in E. by subst. Qed.

Lemma addrs_ok_app v addrs :
  mcast_in v addrs = false -> strlen v < ET_IPADDRSTRLEN -> addrs_ok addrs -> addrs_ok (addrs ++ [v]).
Proof.
  intros H L [N F]. apply mcast_in_false in H. split.
  - apply NoDup_app. split_and!; [done|set_solver|apply NoDup_singleton].
  - apply Forall_app. split; [done|]. by constructor.
Qed.

Lemma addrs_ok_remove v addrs : addrs_ok addrs -> addrs_ok (remove_first v addrs).
Proof.
  intros [N F]. split; [eapply sublist_NoDup; [|by apply remove_first_sublist]; done|]. clear N.
  induction addrs as [|a addrs IH]; [done|]. apply Forall_cons in F as [F1 F2]. cbn. destruct (String.eqb v a); [done|].
  constructor; [done|by apply IH].
Qed.

Lemma open_set_ok set sc : open_ok sc -> (forall sc', set sc = Some sc' -> open_ok sc') ->
  exists st sc', open_set set (Some sc) = (st, Some sc') /\ open_ok sc'.
Proof.
  intros H Hs. unfold open_set. rewrite (ok_init _ H). cbn. destruct (set sc) as [sc'|] eqn:E; eauto.
Qed.

Lemma open_addr_ok change sc val : open_ok sc ->
  (forall v, val = Some v -> exists st sc', change v sc = Some (st, sc') /\ open_ok sc') ->
  exists st sc', open_addr change (Some sc) val = Some (st, Some sc') /\ open_ok sc'.
Proof.
  intros H Hc. unfold open_addr. destruct val as [v|]; [|eauto]. rewrite (ok_init _ H). cbn.
  destruct (Hc v) as (st & sc' & -> & Ok); eauto.
Qed.

Lemma bcast_ok sc addrs : open_ok sc -> addrs_ok addrs -> open_ok (set_oc_bcastaddrs addrs sc).
Proof. intros [] H. by split. Qed.
Lemma mcast_set_ok sc addrs :
  open_ok sc -> addrs_ok addrs -> Z.of_nat (length addrs) <= ET_MAXADDRESSES -> open_ok (set_oc_mcastaddrs addrs sc).
Proof. intros [] H L. by split. Qed.

Lemma broadcast_loop_ok ifis addrs : addrs_ok addrs -> addrs_ok (broadcast_loop ifis addrs).
Proof.
  revert addrs. induction ifis as [|ifi ifis IH]; intros addrs H; cbn [broadcast_loop]; [done|].
  destruct (ifi_loopback ifi); [by apply IH|]. destruct (_ && _); [|by apply IH].
  destruct (ifi_brdaddr ifi) as [sa|]; [|by apply IH]. cbv zeta. destruct (mcast_in _ addrs) eqn:I; [by apply IH|].
  pose proof (ntop_short sa) as L. rewrite substring_all by (unfold strlen, ET_IPADDRSTRLEN in *; lia). by apply IH, addrs_ok_app.
Qed.

Lemma found_ok ifis : addrs_ok (found_addrs ifis).
Proof.
  assert (N : addrs_ok []) by (split; constructor). unfold found_addrs, codanetGetBroadcastAddrs.
  destruct ifis; [done|]. by apply broadcast_loop_ok.
Qed.

(** *** One call *)

Lemma dotted_some v : dotted v = true <-> exists nums, codanetIsDottedDecimal v = Some nums.
Proof. unfold dotted. destruct (codanetIsDottedDecimal v); split; [eauto|done|done|by intros [? ?]]. Qed.

Lemma call_ok op sc st sc' :
  open_call op (Some sc) = Some (st, Some sc') -> open_ok sc' -> ~ overflows sc op -> call_ends op sc.
Proof. left. eauto. Qed.

Lemma open_addbroadcast_ends b ifis v sc : open_ok sc -> call_ends (OpAddBroadcast b ifis v) sc.
Proof.
  intros H. assert (K : forall st sc', et_open_config_addbroadcast b ifis (Some sc) v = Some (st, Some sc') -> open_ok sc' ->
    ~ overflows sc (OpAddBroadcast b ifis v) -> call_ends (OpAddBroadcast b ifis v) sc) by (intros; by eapply call_ok).
  unfold et_open_config_addbroadcast, open_addr in K. destruct v as [w|]; [|by eapply K; [| |intros []]]. rewrite (ok_init _ H) in K. cbn in K.
  destruct (String.eqb w ET_SUBNET_ALL) eqn:A.
  { apply String.eqb_eq in A. eapply K; [done|by apply bcast_ok, found_ok|]. intros (_ & N & _); exact (N A). }
  destruct (dotted w) eqn:D; cbn in K; [|eapply K; [done..|]; intros (_ & _ & X%dotted_some & _); congruence].
  destruct (mcast_in w (oc_bcastaddrs sc)) eqn:I.
  { eapply K; [done..|]. intros (_ & _ & _ & N & _). apply N. unfold mcast_in in I. apply existsb_exists in I as (x & I & E).
    apply String.eqb_eq in E as <-. by apply list_elem_of_In in I. }
  unfold append_bcast in K. destruct b; cbn in K; [|eapply K; [done..|]; by intros (? & _)].
  destruct (Z.ltb_spec (ET_IPADDRSTRLEN - 1) (strlen w)) as [L|L].
  - right. split.
    + cbn. unfold et_open_config_addbroadcast, open_addr. rewrite (ok_init _ H), A, D, I. cbn. unfold append_bcast. cbn.
      by rewrite (proj2 (Z.ltb_lt _ _) L).
    + split_and!; [done|intros ->; done|by apply dotted_some|by apply mcast_in_false|lia].
  - eapply K; [done| |intros (_ & _ & _ & _ & X); lia]. apply bcast_ok; [done|]. apply addrs_ok_app; [done|lia|by apply ok_bcast].
Qed.

Lemma open_removebroadcast_ok v sc : open_ok sc ->
  exists st sc', et_open_config_removebroadcast (Some sc) v = Some (st, Some sc') /\ open_ok sc'.
Proof.
  intros H. apply open_addr_ok; [done|]. intros w ->. cbv beta. destruct (oc_bcastaddrs sc) eqn:E; [eauto|]. rewrite <- E.
  destruct (String.eqb w ET_SUBNET_ALL).
  - do 2 eexists. split; [done|]. apply bcast_ok; [done|]. split; [constructor|done].
  - destruct (dotted w); cbn [negb]; [|eauto]. do 2 eexists. split; [done|]. apply bcast_ok; [done|]. by apply addrs_ok_remove, ok_bcast.
Qed.

Lemma open_addmulticast_ok v sc : open_ok sc ->
  exists st sc', et_open_config_addmulticast (Some sc) v = Some (st, Some sc') /\ open_ok sc'.
Proof.
  intros H. pose proof (ok_mcast _ H) as [M1 M2]. apply open_addr_ok; [done|]. intros w ->. cbv beta.
  destruct (Z.leb_spec ET_IPADDRSTRLEN (strlen w)); cbn [orb]; [eauto|]. destruct (strlen w <? 7); [eauto|].
  destruct (codanetIsDottedDecimal w) as [nums|]; [|eauto]. destruct (_ || _); [eauto|]. destruct (mcast_in w _) eqn:I; [eauto|].
  destruct (Z.eqb_spec (Z.of_nat (length (oc_mcastaddrs sc))) ET_MAXADDRESSES); [eauto|]. do 2 eexists. split; [done|].
  apply mcast_set_ok; [done|by apply addrs_ok_app|]. rewrite length_app. cbn [length]. lia.
Qed.

Lemma open_removemulticast_ends v sc : open_ok sc -> call_ends (OpRemoveMulticast v) sc.
Proof.
  intros H. pose proof (ok_mcast _ H) as [M1 M2]. destruct v as [w|]; [|left; do 2 eexists; split_and!; [done..|by intros []]].
  unfold call_ends. cbn [open_call overflows]. unfold et_open_config_removemulticast, open_addr. rewrite (ok_init _ H). cbn [negb Z.eqb].
  change (negb (ET_STRUCT_OK =? ET_STRUCT_OK)) with false. cbv iota. unfold mcast_valid.
  destruct (Z.leb_spec ET_IPADDRSTRLEN (strlen w)); cbn [orb]; [left; do 2 eexists; split_and!; [done..|lia]|].
  destruct (Z.ltb_spec (strlen w) 7); [left; do 2 eexists; split_and!; [done..|lia]|].
  destruct (Z.ltb_spec 3 (strlen (before_period w))); [right; split; [done|lia]|]. left.
  destruct (negb _); [|do 2 eexists; split_and!; [done..|lia]]. do 2 eexists. split_and!; [done| |lia].
  apply mcast_set_ok; [done|by apply addrs_ok_remove|].
  pose proof (sublist_length _ _ (remove_first_sublist w (oc_mcastaddrs sc))). lia.
Qed.

Lemma open_call_ends op sc : open_ok sc -> call_ends op sc.
Proof.
  intros H. destruct op.
  13: by apply open_addbroadcast_ends.
  15: by apply open_removemulticast_ends.
  13: destruct (open_removebroadcast_ok val sc H) as (st & sc' & E & Ok); apply (call_ok _ _ st sc'); [done|done|intros []].
  13: destruct (open_addmulticast_ok val sc H) as (st & sc' & E & Ok); apply (call_ok _ _ st sc'); [done|done|intros []].
  all: edestruct open_set_ok as (st & sc' & E & Ok); [exact H| |left; exists st, sc'; split_and!; [cbn [open_call]; f_equal; exact E|exact Ok|intros []]].
  all: intros sc'; cbv beta; match goal with |- (if ?b then _ else _) = _ -> _ => destruct b eqn:V; [|try done] end;
    try done; intros [= <-]; destruct H; split; cbn; try done.
  all: try (apply one_of_in in V; cbn in V; destruct_or?; subst; by split).
  all: try (unfold valid_port in V; bprop; lia).
  all: try (destruct (noDelay =? 0); lia).
  all: destruct val as [val|]; [|done]; cbn in V |- *; bprop; lia.
Qed.

Lemma open_default_ok ifis : open_ok (open_default ifis).
Proof. split; try done; [apply found_ok|]. split; [split; [constructor|done]|done]. Qed.

Lemma remove_first_gone v addrs : NoDup addrs -> v ∉ remove_first v addrs.
Proof.
  induction addrs as [|a addrs IH]; intros N; cbn; [set_solver|]. apply NoDup_cons in N as [N1 N2].
  destruct (String.eqb v a) eqn:E; [apply String.eqb_eq in E; by subst|]. apply String.eqb_neq in E. specialize (IH N2). set_solver.
Qed.

Lemma dotted_not_all v : dotted v = true -> String.eqb v ET_SUBNET_ALL = false.
Proof. intros D. destruct (String.eqb v ET_SUBNET_ALL) eqn:E; [|done]. apply String.eqb_eq in E. by subst. Qed.

(** ** The properties *)

(** C17: whatever setters a user calls on a new configuration, with whatever values.  Either all of them
    return, and every value is within its documented range, every string fits into its array, and the
    lists of addresses have no doubles; or the program writes behind an array, in the first call that adds
    a broadcast address that is too long, or removes a multicast address whose first number is.  No call
    before that one overflows, and the configuration is good up to then. *)
Theorem open_config_invariant ifis ops :
  let start := snd (et_open_config_init true true ifis) in
  (exists sc, open_calls ops start = Some (Some sc) /\ open_ok sc /\
     forall ops1 op ops2 sc1, ops = ops1 ++ op :: ops2 -> open_calls ops1 start = Some (Some sc1) -> ~ overflows sc1 op) \/
  (open_calls ops start = None /\
     exists ops1 op ops2 sc1, ops = ops1 ++ op :: ops2 /\ open_calls ops1 start = Some (Some sc1) /\ open_ok sc1 /\ overflows sc1 op).
Proof.
  cbn [et_open_config_init negb orb snd]. pose proof (open_default_ok ifis) as H. revert H. generalize (open_default ifis) as sc.
  induction ops as [|op ops IH]; intros sc H; cbn [open_calls].
  { left. exists sc. split_and!; [done|done|]. by intros [|? ops1] ? ? ?. }
  destruct (open_call_ends op sc H) as [(st & sc' & E & Ok & N)|[E O]]; rewrite E.
  - destruct (IH sc' Ok) as [(sc1 & E1 & Ok1 & X)|(E1 & ops1 & op1 & ops2 & sc1 & -> & E2 & Ok1 & O1)].
    + left. exists sc1. split_and!; [done|done|]. intros [|op2 ops1] op1 ops2 sc2; cbn.
      * by intros [= <- <-] [= <-].
      * intros [= <- ->]. rewrite E. intros E2. by eapply X.
    + right. split; [done|]. exists (op :: ops1), op1, ops2, sc1. cbn. by rewrite E.
  - right. split; [done|]. exists [], op, ops, sc. by split_and!.
Qed.

(** A broadcast address that is added is in the list, and after it is removed it is not; the other
    addresses stay, and adding an address that is new and removing it again gives back the list. *)
Theorem open_config_broadcast_roundtrip sc v ifis :
  open_ok sc -> dotted v = true -> strlen v < ET_IPADDRSTRLEN ->
  exists sc1 sc2,
    et_open_config_addbroadcast true ifis (Some sc) (Some v) = Some (ET_OK, Some sc1) /\
    et_open_config_removebroadcast (Some sc1) (Some v) = Some (ET_OK, Some sc2) /\
    v ∈ oc_bcastaddrs sc1 /\ v ∉ oc_bcastaddrs sc2 /\
    (forall a, a <> v -> a ∈ oc_bcastaddrs sc2 <-> a ∈ oc_bcastaddrs sc) /\
    (~ (v ∈ oc_bcastaddrs sc) -> sc2 = sc).
Proof.
  intros H D L.
  assert (A : exists addrs, et_open_config_addbroadcast true ifis (Some sc) (Some v) = Some (ET_OK, Some (set_oc_bcastaddrs addrs sc)) /\
    v ∈ addrs /\ NoDup addrs /\ (forall a, a <> v -> a ∈ addrs <-> a ∈ oc_bcastaddrs sc) /\
    (v ∉ oc_bcastaddrs sc -> addrs = oc_bcastaddrs sc ++ [v])).
  { unfold et_open_config_addbroadcast, open_addr. rewrite (ok_init _ H), (dotted_not_all v D), D. cbn.
    destruct (ok_bcast _ H) as [N _]. destruct (mcast_in v (oc_bcastaddrs sc)) eqn:I.
    - exists (oc_bcastaddrs sc). split; [by destruct sc|]. unfold mcast_in in I. apply existsb_exists in I as (w & I & E).
      apply String.eqb_eq in E as <-. apply list_elem_of_In in I. by split_and!.
    - apply mcast_in_false in I. exists (oc_bcastaddrs sc ++ [v]). unfold append_bcast. cbn. destruct (Z.ltb_spec (ET_IPADDRSTRLEN - 1) (strlen v)); [lia|].
      split_and!; [done|set_solver| |set_solver|done]. apply NoDup_app. split_and!; [done|set_solver|apply NoDup_singleton]. }
  destruct A as (addrs & E & I & N & S & X). rewrite E. exists (set_oc_bcastaddrs addrs sc), (set_oc_bcastaddrs (remove_first v addrs) sc).
  split_and!; [done| |done|by apply remove_first_gone| |].
  - unfold et_open_config_removebroadcast, open_addr. cbn. rewrite (ok_init _ H), (dotted_not_all v D), D. cbn. by destruct addrs; [set_solver|].
  - intros a Ha. rewrite <- (S a Ha). cbn. clear -Ha. induction addrs as [|b addrs IH]; [done|]. cbn.
    destruct (String.eqb v b) eqn:Eb; [apply String.eqb_eq in Eb; set_solver|set_solver].
  - intros Nv. rewrite (X Nv). replace (remove_first v (oc_bcastaddrs sc ++ [v])) with (oc_bcastaddrs sc); [by destruct sc|].
    clear -Nv. induction (oc_bcastaddrs sc) as [|b l IH]; cbn; [by rewrite String.eqb_refl|].
    destruct (String.eqb v b) eqn:Eb; [apply String.eqb_eq in Eb; set_solver|]. f_equal. apply IH. set_solver.
Qed.

Definition ifi0 : ifi_info := mkIfi false true true (Some ("192"%byte, "168"%byte, "000"%byte, "255"%byte)).

Definition open_ops0 : list open_op :=
  [OpWait 1; OpTTL 300; OpPort 80; OpHost (Some "clas12"%string); OpTcp 5 6 7; OpAddBroadcast true [] (Some "10.1.2.255"%string);
   OpAddMulticast (Some "239.200.0.0"%string); OpRemoveMulticast (Some "239.200.0.1"%string)].

(** The setters of a usual program all return. *)
Example open_ops0_run :
  match open_calls open_ops0 (snd (et_open_config_init true true [ifi0; ifi0])) with
  | Some (Some sc) => oc_wait sc = 1 /\ oc_ttl sc = ET_MULTICAST_TTL /\ oc_bcastaddrs sc = ["192.168.0.255"; "10.1.2.255"]%string /\
      oc_mcastaddrs sc = ["239.200.0.0"]%string
  | _ => False
  end.
Proof. vm_compute. auto. Qed.

Lemma open_config_broadcast_roundtrip_witness :
  exists sc1 sc2, et_open_config_addbroadcast true [] (Some (open_default [])) (Some "10.1.2.255"%string) = Some (ET_OK, Some sc1) /\
    et_open_config_removebroadcast (Some sc1) (Some "10.1.2.255"%string) = Some (ET_OK, Some sc2) /\ sc2 = open_default [].
Proof.
  destruct (open_config_broadcast_roundtrip (open_default []) "10.1.2.255" []) as (sc1 & sc2 & E1 & E2 & _ & _ & _ & E3);
    [apply open_default_ok|done|done|].
  exists sc1, sc2. split_and!; [done|done|]. apply E3. cbn. set_solver.
Defined.

(** What follows an address in dot-decimal form is not looked at, so that a string that is too long for
    the list of broadcast addresses passes the test. *)
Example dotted_trailing : dotted "1.2.3.4 is where it is" = true.
Proof. reflexivity. Qed.
Example addbroadcast_overflows :
  et_open_config_addbroadcast true [] (Some (open_default [])) (Some "1.2.3.4 is where it is"%string) = None.
Proof. reflexivity. Qed.
(** The first number of a multicast address that is removed goes into an array of four characters. *)
Example removemulticast_overflows :
  et_open_config_removemulticast (Some (open_default [])) (Some "2390000.1"%string) = None.
Proof. reflexivity. Qed.
