(* ===== verification/Wire.v ===== *)
(** * Bytes on the network

    The messages between a remote client (et_remote.c) and the server (et_server.c) are arrays of
    32-bit integers in network byte order, followed by strings with their final zero or by the data of
    events.  htonl before the copy of an integer into a message and ntohl after it make the bytes the
    big-endian ones, whatever the order of the host. *)
From stdpp Require Import base strings list.
From Stdlib Require Import Ascii.
From S2P Require Import Prelude Types.
Open Scope Z_scope.

(** ** Integers *)

Definition uint32 (z : Z) : Z := z mod 2 ^ 32.
(** The conversion of a 32-bit word to int. *)
Definition int32 (z : Z) : Z := if uint32 z <? 2 ^ 31 then uint32 z else uint32 z - 2 ^ 32.
Definition is_int (z : Z) : Prop := - 2 ^ 31 <= z < 2 ^ 31.

(** The four bytes of htonl(z), and ntohl of four bytes. *)
Definition htonl (z : Z) : list Z :=
  [Z.land (Z.shiftr z 24) 255; Z.land (Z.shiftr z 16) 255; Z.land (Z.shiftr z 8) 255; Z.land z 255].
Definition ntohl (bs : list Z) : Z := foldl (fun acc b => Z.lor (Z.shiftl acc 8) b) 0 bs.

(** An array of integers, and the [n] integers at the front of a message as unsigned words. *)
Definition ints (zs : list Z) : list Z := concat (map htonl zs).
Fixpoint words (n : nat) (bs : list Z) : list Z :=
  match n with
  | O => []
  | S n' => ntohl (take 4 bs) :: words n' (drop 4 bs)
  end.

(** et_private.h: the halves of a 64-bit integer. *)
Definition ET_HIGHINT (i : Z) : Z := Z.land (Z.shiftr (u64 i) 32) 4294967295.
Definition ET_LOWINT (i : Z) : Z := Z.land (u64 i) 4294967295.
Definition ET_64BIT_UINT (hi lo : Z) : Z := Z.lor (u64 (Z.shiftl hi 32)) (Z.land lo 4294967295).

(** ** Strings *)

Definition char_byte (c : ascii) : Z := Z.of_N (N_of_ascii c).
Definition byte_char (b : Z) : ascii := ascii_of_N (Z.to_N b).

(** memcpy of strlen(s)+1 bytes. *)
Fixpoint cstring (s : string) : list Z :=
  match s with
  | EmptyString => [0]
  | String c s' => char_byte c :: cstring s'
  end.

(** The string that starts at the front of a buffer; there is none when no byte is zero. *)
Fixpoint strcpy (bs : list Z) : option string :=
  match bs with
  | [] => None
  | b :: bs' => if b =? 0 then Some EmptyString else String (byte_char b) <$> strcpy bs'
  end.

(** A string of C holds no zero. *)
Fixpoint c_string (s : string) : Prop :=
  match s with
  | EmptyString => True
  | String c s' => char_byte c <> 0 /\ c_string s'
  end.

(** ** Round trips *)

Lemma land_255 z : Z.land z 255 = z mod 256.
Proof. change 255 with (Z.ones 8). by rewrite Z.land_ones. Qed.

Lemma shl_or a b : 0 <= b < 256 -> Z.lor (Z.shiftl a 8) b = a * 256 + b.
Proof.
  intros Hb. pose proof (Z.add_lor_land (Z.shiftl a 8) b) as A.
  assert (L : Z.land (Z.shiftl a 8) b = 0).
  { apply Z.bits_inj'. intros n Hn. rewrite Z.land_spec, Z.bits_0. destruct (Z.lt_ge_cases n 8).
    - by rewrite Z.shiftl_spec_low.
    - replace b with (b mod 2 ^ 8) by (rewrite Z.mod_small; [done|lia]). rewrite Z.mod_pow2_bits_high by lia. apply andb_false_r. }
  rewrite L, Z.shiftl_mul_pow2 in A by lia. rewrite Z.shiftl_mul_pow2 by lia. lia.
Qed.

Lemma ntohl_htonl z : ntohl (htonl z) = uint32 z.
Proof.
  unfold ntohl, htonl, uint32. cbn [foldl]. rewrite !land_255, !Z.shiftr_div_pow2 by lia.
  rewrite !shl_or by (apply Z.mod_pos_bound; lia). change (2 ^ 24) with (256 * 256 * 256). change (2 ^ 16) with (256 * 256).
  change (2 ^ 8) with 256. change (2 ^ 32) with (256 * 256 * 256 * 256). rewrite <- !Z.div_div by lia.
  assert (X : z = 256 * (256 * (256 * (256 * (z / 256 / 256 / 256 / 256) + z / 256 / 256 / 256 mod 256) + z / 256 / 256 mod 256) + z / 256 mod 256) + z mod 256)
    by (rewrite <- !Z.div_mod by lia; done).
  apply (Z.mod_unique _ _ (z / 256 / 256 / 256 / 256)); [left|lia].
  pose proof (Z.mod_pos_bound z 256). pose proof (Z.mod_pos_bound (z / 256) 256). pose proof (Z.mod_pos_bound (z / 256 / 256) 256).
  pose proof (Z.mod_pos_bound (z / 256 / 256 / 256) 256). lia.
Qed.

Lemma htonl_length z : length (htonl z) = 4%nat.
Proof. done. Qed.

Lemma ints_length zs : length (ints zs) = (4 * length zs)%nat.
Proof. unfold ints. induction zs as [|z zs IH]; [done|]. cbn [map concat length]. rewrite length_app, IH, htonl_length. lia. Qed.

Lemma words_ints zs n r : n = length zs -> words n (ints zs ++ r) = map uint32 zs.
Proof.
  intros ->. unfold ints. induction zs as [|z zs IH]; [done|]. cbn [map concat length words]. rewrite <- app_assoc.
  rewrite take_app_length', drop_app_length' by done. by rewrite ntohl_htonl, IH.
Qed.

Lemma uint32_int32 z : uint32 (int32 z) = uint32 z.
Proof.
  unfold int32, uint32. destruct (Z.ltb_spec (z mod 2 ^ 32) (2 ^ 31)); [by rewrite Z.mod_mod by lia|].
  replace (z mod 2 ^ 32 - 2 ^ 32) with (z mod 2 ^ 32 + (-1) * 2 ^ 32) by lia. by rewrite Z.mod_add, Z.mod_mod by lia.
Qed.

Lemma int32_uint32 z : int32 (uint32 z) = int32 z.
Proof. unfold int32, uint32. by rewrite Z.mod_mod by lia. Qed.

Lemma int32_id z : is_int z -> int32 z = z.
Proof.
  intros [H1 H2]. unfold int32, uint32. destruct (Z.lt_ge_cases z 0).
  - rewrite <- (Z.mod_unique z (2 ^ 32) (-1) (z + 2 ^ 32)) by lia. destruct (Z.ltb_spec (z + 2 ^ 32) (2 ^ 31)); lia.
  - rewrite Z.mod_small by lia. destruct (Z.ltb_spec z (2 ^ 31)); lia.
Qed.

Lemma int32_is_int z : is_int (int32 z).
Proof.
  unfold is_int, int32, uint32. pose proof (Z.mod_pos_bound z (2 ^ 32)). destruct (Z.ltb_spec (z mod 2 ^ 32) (2 ^ 31)); lia.
Qed.

Lemma uint32_id z : 0 <= z < 2 ^ 32 -> uint32 z = z.
Proof. intros H. by apply Z.mod_small. Qed.

(** The halves of a 64-bit integer through the network. *)
Lemma halves_back i : ET_64BIT_UINT (uint32 (ET_HIGHINT i)) (uint32 (ET_LOWINT i)) = u64 i.
Proof.
  unfold ET_64BIT_UINT, ET_HIGHINT, ET_LOWINT. change 4294967295 with (Z.ones 32). rewrite !Z.land_ones by lia.
  unfold uint32. rewrite !Z.mod_mod by lia. unfold u64.
  assert (B : 0 <= i mod 2 ^ 64 < 2 ^ 64) by (apply Z.mod_pos_bound; lia). set (u := i mod 2 ^ 64) in *.
  rewrite Z.shiftr_div_pow2, Z.shiftl_mul_pow2 by lia.
  assert (H : 0 <= u / 2 ^ 32 < 2 ^ 32) by (split; [apply Z.div_pos; lia|apply Z.div_lt_upper_bound; lia]).
  rewrite (Z.mod_small (u / 2 ^ 32)) by lia. rewrite (Z.mod_small (u / 2 ^ 32 * 2 ^ 32)) by lia.
  assert (L : Z.land (u / 2 ^ 32 * 2 ^ 32) (u mod 2 ^ 32) = 0).
  { apply Z.bits_inj'. intros n Hn. rewrite Z.land_spec, Z.bits_0, <- Z.shiftl_mul_pow2 by lia. destruct (Z.lt_ge_cases n 32).
    - by rewrite Z.shiftl_spec_low.
    - rewrite Z.mod_pow2_bits_high by lia. apply andb_false_r. }
  pose proof (Z.add_lor_land (u / 2 ^ 32 * 2 ^ 32) (u mod 2 ^ 32)). pose proof (Z.div_mod u (2 ^ 32)). lia.
Qed.

Lemma byte_char_byte c : byte_char (char_byte c) = c.
Proof. unfold byte_char, char_byte. by rewrite N2Z.id, ascii_N_embedding. Qed.

Lemma strcpy_cstring s r : c_string s -> strcpy (cstring s ++ r) = Some s.
Proof.
  induction s as [|c s IH]; [done|]. intros [N H]. cbn [cstring app strcpy]. rewrite (proj2 (Z.eqb_neq _ _) N), (IH H).
  cbn. by rewrite byte_char_byte.
Qed.

Lemma cstring_length s : Z.of_nat (length (cstring s)) = Z.of_nat (String.length s) + 1.
Proof. induction s as [|c s IH]; [done|]. cbn [cstring length String.length]. lia. Qed.
