(* ===== verification/Client.v ===== *)
(** * The remote client

    The requests of et_remote.c: what a process on another node writes to its connection with the
    server, what it reads back, and what its function returns, for every behaviour of the network.  The
    functions for events and etr_open are not in this file. *)
From stdpp Require Import base strings list.
From S2P Require Import Prelude Types Machine EvList StatConfig Api StationApi Init Station Wire.
Open Scope Z_scope.

(** ** Conversations *)

(** A conversation over the socket of an id, under its mutex: [Write] tells whether etNetTcpWrite wrote
    all bytes, [Read] gives the bytes if etNetTcpRead got that many. *)
Inductive net (A : Type) : Type :=
| Done (a : A)
| Lock (k : net A)
| Unlock (k : net A)
| Write (bs : list Z) (k : bool -> net A)
| Read (n : Z) (k : option (list Z) -> net A)
| Close (k : net A)
| Overrun.
Arguments Done {A}. Arguments Lock {A}. Arguments Unlock {A}. Arguments Write {A}. Arguments Read {A}.
Arguments Close {A}. Arguments Overrun {A}.

(** Commands of et_private.h. *)
Definition ET_NET_ALIVE : Z := 40.
Definition ET_NET_WAIT : Z := 41.
Definition ET_NET_CLOSE : Z := 42.
Definition ET_NET_FCLOSE : Z := 43.
Definition ET_NET_WAKE_ATT : Z := 44.
Definition ET_NET_WAKE_ALL : Z := 45.
Definition ET_NET_KILL : Z := 46.
Definition ET_NET_STAT_ATT : Z := 60.
Definition ET_NET_STAT_DET : Z := 61.
Definition ET_NET_STAT_CRAT : Z := 62.
Definition ET_NET_STAT_RM : Z := 63.
Definition ET_NET_STAT_SPOS : Z := 64.
Definition ET_NET_STAT_GPOS : Z := 65.
Definition ET_NET_STAT_ISAT : Z := 80.
Definition ET_NET_STAT_EX : Z := 81.
Definition ET_NET_STAT_SSW : Z := 82.
Definition ET_NET_STAT_GSW : Z := 83.
Definition ET_NET_STAT_LIB : Z := 84.
Definition ET_NET_STAT_FUNC : Z := 85.
Definition ET_NET_STAT_CLASS : Z := 86.
Definition ET_NET_STAT_GATTS : Z := 100.
Definition ET_NET_STAT_STATUS : Z := 101.
Definition ET_NET_STAT_INCNT : Z := 102.
Definition ET_NET_STAT_OUTCNT : Z := 103.
Definition ET_NET_STAT_GBLOCK : Z := 104.
Definition ET_NET_STAT_GUSER : Z := 105.
Definition ET_NET_STAT_GRESTORE : Z := 106.
Definition ET_NET_STAT_GPRE : Z := 107.
Definition ET_NET_STAT_GCUE : Z := 108.
Definition ET_NET_STAT_GSELECT : Z := 109.
Definition ET_NET_STAT_SBLOCK : Z := 115.
Definition ET_NET_STAT_SUSER : Z := 116.
Definition ET_NET_STAT_SRESTORE : Z := 117.
Definition ET_NET_STAT_SPRE : Z := 118.
Definition ET_NET_STAT_SCUE : Z := 119.
Definition ET_NET_ATT_PUT : Z := 130.
Definition ET_NET_ATT_GET : Z := 131.
Definition ET_NET_ATT_DUMP : Z := 132.
Definition ET_NET_ATT_MAKE : Z := 133.
Definition ET_NET_SYS_TMP : Z := 150.
Definition ET_NET_SYS_TMPMAX : Z := 151.
Definition ET_NET_SYS_STAT : Z := 152.
Definition ET_NET_SYS_STATMAX : Z := 153.
Definition ET_NET_SYS_PROC : Z := 154.
Definition ET_NET_SYS_PROCMAX : Z := 155.
Definition ET_NET_SYS_ATT : Z := 156.
Definition ET_NET_SYS_ATTMAX : Z := 157.
Definition ET_NET_SYS_HBEAT : Z := 158.
Definition ET_NET_SYS_PID : Z := 159.
Definition ET_NET_SYS_GRP : Z := 160.

(** ** Requests *)

(** Nearly every function: a request of [bs], then an answer of [n] bytes. *)
Definition transact {A} (bs : list Z) (n : Z) (write_error read_error : A) (k : list Z -> A) : net A :=
  Lock (Write bs (fun written =>
    if negb written then Unlock (Done write_error)
    else Read n (fun answer =>
      match answer with
      | None => Unlock (Done read_error)
      | Some buf => Unlock (Done (k buf))
      end))).

(** The integer number [i] of an answer. *)
Definition answer (buf : list Z) (i : nat) : Z := int32 (ntohl (take 4 (drop (4 * i) buf))).

(** An answer that is one int. *)
Definition ask (bs : list Z) : net Z := transact bs 4 ET_ERROR_WRITE ET_ERROR_READ (fun buf => answer buf 0).

(** An answer of a status and an int, which counts when [good] holds for the status. *)
Definition ask_value (good : Z -> bool) (bs : list Z) : net (Z * option Z) :=
  transact bs 8 (ET_ERROR_WRITE, None) (ET_ERROR_READ, None) (fun buf =>
    let err := answer buf 0 in (err, if good err then Some (answer buf 1) else None)).
Definition ok_status (err : Z) : bool := err =? ET_OK.

(** A request without an answer. *)
Definition tell (bs : list Z) : net Z :=
  Lock (Write bs (fun written => if negb written then Unlock (Done ET_ERROR_WRITE) else Unlock (Done ET_OK))).

(** The end of a connection; the id is freed afterwards. *)
Definition hang_up (com : Z) : net Z := Lock (Write (ints [com]) (fun _ => Close (Unlock (Done ET_OK)))).

Module Etr.
Definition etr_close : net Z := hang_up ET_NET_CLOSE.
Definition etr_forcedclose : net Z := hang_up ET_NET_FCLOSE.
Definition etr_kill : net Z :=
  Lock (Write (ints [ET_NET_KILL]) (fun written =>
    if negb written then Done ET_ERROR_WRITE else Close (Unlock (Done ET_OK)))).

Definition etr_alive : net Z := transact (ints [ET_NET_ALIVE]) 4 0 0 (fun buf => answer buf 0).
Definition etr_wait_for_alive : net Z := transact (ints [ET_NET_WAIT]) 4 ET_ERROR_WRITE ET_ERROR_READ (fun _ => ET_OK).
Definition etr_wakeup_attachment (att : Z) : net Z := tell (ints [ET_NET_WAKE_ATT; att]).
Definition etr_wakeup_all (stat_id : Z) : net Z := tell (ints [ET_NET_WAKE_ALL; stat_id]).

(** ** Stations *)

Definition create_at_ints (sc : et_stat_config) (stat_name : string) (position parallelposition : Z) : list Z :=
  [ET_NET_STAT_CRAT; sc_init sc; sc_flow_mode sc; sc_user_mode sc; sc_restore_mode sc; sc_block_mode sc; sc_prescale sc;
   sc_cue sc; sc_select_mode sc] ++
  map (fun i => nth i (sc_select sc) 0) (seq 0 (Z.to_nat ET_STATION_SELECT_INTS)) ++
  [strlen (sc_fname sc) + 1; strlen (sc_lib sc) + 1; strlen (sc_classs sc) + 1; strlen stat_name + 1; position; parallelposition].

Definition etr_station_create_at (malloc_ok : bool) (stat_name : string) (sc : et_stat_config)
    (position parallelposition : Z) : net (Z * option Z) :=
  if negb malloc_ok then Done (ET_ERROR_REMOTE, None)
  else
    ask_value (fun err => (err =? ET_OK) || (err =? ET_ERROR_EXISTS))
      (ints (create_at_ints sc stat_name position parallelposition) ++
       cstring (sc_fname sc) ++ cstring (sc_lib sc) ++ cstring (sc_classs sc) ++ cstring stat_name).

Definition etr_station_create (malloc_ok : bool) (stat_name : string) (sc : et_stat_config) : net (Z * option Z) :=
  etr_station_create_at malloc_ok stat_name sc ET_END ET_END.

Definition etr_station_remove (stat_id : Z) : net Z := ask (ints [ET_NET_STAT_RM; stat_id]).

(** A string that was not found has the length 0 and is not sent. *)
Definition opt_length (s : option string) : Z := match s with Some s => strlen s + 1 | None => 0 end.
Definition opt_bytes (s : option string) : list Z := match s with Some s => cstring s | None => [] end.

(** [ip]: the address of the socket, if etNetLocalSocketAddress finds it. *)
Definition etr_station_attach `{O0 : Os} (malloc_ok : bool) (ip : option string) (stat_id : Z) : net (Z * option Z) :=
  if negb malloc_ok then Done (ET_ERROR_REMOTE, None)
  else
    ask_value ok_status
      (ints [ET_NET_STAT_ATT; stat_id; getpid; opt_length etNetLocalHost; opt_length ip] ++
       opt_bytes etNetLocalHost ++ opt_bytes ip).

Definition etr_station_detach (att : Z) : net Z := ask (ints [ET_NET_STAT_DET; att]).

(** The third integer is assigned twice and the fourth one never: [junk] is what the array held. *)
Definition etr_station_setposition (junk : Z) (stat_id position parallelposition : Z) : net Z :=
  ask (ints [ET_NET_STAT_SPOS; stat_id; parallelposition; junk]).

Definition etr_station_getposition (stat_id : Z) : net (Z * option Z * option Z) :=
  transact (ints [ET_NET_STAT_GPOS; stat_id]) 12 (ET_ERROR_WRITE, None, None) (ET_ERROR_READ, None, None) (fun buf =>
    let err := answer buf 0 in
    if err =? ET_OK then (err, Some (answer buf 1), Some (answer buf 2)) else (err, None, None)).

Definition etr_station_isattached (stat_id att : Z) : net Z := ask (ints [ET_NET_STAT_ISAT; stat_id; att]).

Definition etr_station_exists (malloc_ok : bool) (stat_name : string) : net (Z * option Z) :=
  if negb malloc_ok then Done (ET_ERROR_REMOTE, None)
  else ask_value (fun err => err =? 1) (ints [ET_NET_STAT_EX; strlen stat_name + 1] ++ cstring stat_name).

Definition etr_station_setselectwords (stat_id : Z) (select : list Z) : net Z :=
  ask (ints ([ET_NET_STAT_SSW; stat_id] ++ map (fun i => nth i select 0) (seq 0 (Z.to_nat ET_STATION_SELECT_INTS)))).

Definition etr_station_getselectwords (stat_id : Z) : net (Z * option (list Z)) :=
  transact (ints [ET_NET_STAT_GSW; stat_id]) (4 * (1 + ET_STATION_SELECT_INTS)) (ET_ERROR_WRITE, None) (ET_ERROR_READ, None) (fun buf =>
    let err := answer buf 0 in
    (err, if err =? ET_OK then Some (map (fun i => answer buf (i + 1)) (seq 0 (Z.to_nat ET_STATION_SELECT_INTS))) else None)).

(** The functions that get a string, which they read into an array of [size] bytes. *)
Definition ask_string (com size stat_id : Z) : net (Z * option string) :=
  Lock (Write (ints [com; stat_id]) (fun written =>
    if negb written then Unlock (Done (ET_ERROR_WRITE, None))
    else Read 8 (fun ans =>
      match ans with
      | None => Unlock (Done (ET_ERROR_READ, None))
      | Some buf =>
          let err := answer buf 0 in
          if err =? ET_OK then
            let len := answer buf 1 in
            if size <? len then Overrun
            else Read len (fun ans =>
              match ans with
              | None => Unlock (Done (ET_ERROR_READ, None))
              | Some name =>
                  match strcpy name with
                  | None => Overrun
                  | Some s => Unlock (Done (err, Some s))
                  end
              end)
          else Unlock (Done (err, None))
      end))).
Definition etr_station_getlib := ask_string ET_NET_STAT_LIB ET_FILENAME_LENGTH.
Definition etr_station_getclass := ask_string ET_NET_STAT_CLASS ET_FILENAME_LENGTH.
Definition etr_station_getfunction := ask_string ET_NET_STAT_FUNC ET_FUNCNAME_LENGTH.

Definition etr_station_getstuff (cmd stat_id : Z) : net (Z * option Z) := ask_value ok_status (ints [cmd; stat_id]).
Definition etr_station_getattachments := etr_station_getstuff ET_NET_STAT_GATTS.
Definition etr_station_getstatus := etr_station_getstuff ET_NET_STAT_STATUS.
Definition etr_station_getinputcount := etr_station_getstuff ET_NET_STAT_INCNT.
Definition etr_station_getoutputcount := etr_station_getstuff ET_NET_STAT_OUTCNT.
Definition etr_station_getblock := etr_station_getstuff ET_NET_STAT_GBLOCK.
Definition etr_station_getuser := etr_station_getstuff ET_NET_STAT_GUSER.
Definition etr_station_getrestore := etr_station_getstuff ET_NET_STAT_GRESTORE.
Definition etr_station_getselect := etr_station_getstuff ET_NET_STAT_GSELECT.
Definition etr_station_getcue := etr_station_getstuff ET_NET_STAT_GCUE.
Definition etr_station_getprescale := etr_station_getstuff ET_NET_STAT_GPRE.

Definition etr_station_setstuff (cmd stat_id value : Z) : net Z := ask (ints [cmd; stat_id; value]).
Definition etr_station_setblock := etr_station_setstuff ET_NET_STAT_SBLOCK.
Definition etr_station_setuser := etr_station_setstuff ET_NET_STAT_SUSER.
Definition etr_station_setrestore := etr_station_setstuff ET_NET_STAT_SRESTORE.
Definition etr_station_setprescale := etr_station_setstuff ET_NET_STAT_SPRE.
Definition etr_station_setcue := etr_station_setstuff ET_NET_STAT_SCUE.

(** ** The system and the attachments *)

Definition etr_system_getstuff (cmd : Z) : net (Z * option Z) := ask_value ok_status (ints [cmd]).
Definition etr_system_gettemps := etr_system_getstuff ET_NET_SYS_TMP.
Definition etr_system_gettempsmax := etr_system_getstuff ET_NET_SYS_TMPMAX.
Definition etr_system_getstations := etr_system_getstuff ET_NET_SYS_STAT.
Definition etr_system_getstationsmax := etr_system_getstuff ET_NET_SYS_STATMAX.
Definition etr_system_getprocs := etr_system_getstuff ET_NET_SYS_PROC.
Definition etr_system_getprocsmax := etr_system_getstuff ET_NET_SYS_PROCMAX.
Definition etr_system_getattachments := etr_system_getstuff ET_NET_SYS_ATT.
Definition etr_system_getattsmax := etr_system_getstuff ET_NET_SYS_ATTMAX.
Definition etr_system_getheartbeat := etr_system_getstuff ET_NET_SYS_HBEAT.
Definition etr_system_getpid := etr_system_getstuff ET_NET_SYS_PID.
Definition etr_system_getgroupcount := etr_system_getstuff ET_NET_SYS_GRP.

Definition etr_attach_getstuff (cmd att_id : Z) : net (Z * option Z) :=
  transact (ints [cmd; att_id]) 12 (ET_ERROR_WRITE, None) (ET_ERROR_READ, None) (fun buf =>
    let err := answer buf 0 in
    (err, if err =? ET_OK then Some (ET_64BIT_UINT (uint32 (answer buf 1)) (uint32 (answer buf 2))) else None)).
Definition etr_attach_geteventsput := etr_attach_getstuff ET_NET_ATT_PUT.
Definition etr_attach_geteventsget := etr_attach_getstuff ET_NET_ATT_GET.
Definition etr_attach_geteventsdump := etr_attach_getstuff ET_NET_ATT_DUMP.
Definition etr_attach_geteventsmake := etr_attach_getstuff ET_NET_ATT_MAKE.
End Etr.

(** ** The mutex of the connection *)

(** However the network behaves, the conversation takes the mutex only when it does not hold it, talks
    only while it holds it and returns without it. *)
Fixpoint releases {A} (held : bool) (p : net A) : Prop :=
  match p with
  | Done _ => held = false
  | Lock k => held = false /\ releases true k
  | Unlock k => held = true /\ releases false k
  | Write _ k => held = true /\ forall written, releases held (k written)
  | Read _ k => held = true /\ forall answer, releases held (k answer)
  | Close k => held = true /\ releases held k
  | Overrun => True
  end.

(** The functions of et_remote.c but for etr_kill. *)
Inductive request_of_etr : forall {A}, net A -> Prop :=
| RqClose : request_of_etr Etr.etr_close
| RqForcedclose : request_of_etr Etr.etr_forcedclose
| RqAlive : request_of_etr Etr.etr_alive
| RqWaitForAlive : request_of_etr Etr.etr_wait_for_alive
| RqWakeAtt att : request_of_etr (Etr.etr_wakeup_attachment att)
| RqWakeStation s : request_of_etr (Etr.etr_wakeup_all s)
| RqCreate b name sc pos ppos : request_of_etr (Etr.etr_station_create_at b name sc pos ppos)
| RqAttach `{O0 : Os} b ip s : request_of_etr (Etr.etr_station_attach b ip s)
| RqStation cmd args : request_of_etr (ask (ints (cmd :: args)))
| RqPosition s : request_of_etr (Etr.etr_station_getposition s)
| RqNamed b name : request_of_etr (Etr.etr_station_exists b name)
| RqSelectwords s : request_of_etr (Etr.etr_station_getselectwords s)
| RqString cmd size s : request_of_etr (Etr.ask_string cmd size s)
| RqStationStuff cmd s : request_of_etr (Etr.etr_station_getstuff cmd s)
| RqSystemStuff cmd : request_of_etr (Etr.etr_system_getstuff cmd)
| RqAttachStuff cmd att : request_of_etr (Etr.etr_attach_getstuff cmd att).

Lemma releases_transact {A} bs n (we re : A) k : releases false (transact bs n we re k).
Proof. unfold transact. cbn. split_and!; try done. intros []; cbn; [|done]. split; [done|]. by intros []. Qed.

Lemma releases_ask_string cmd size s : releases false (Etr.ask_string cmd size s).
Proof.
  unfold Etr.ask_string. cbn. split_and!; try done. intros []; cbn; [|done]. split; [done|]. intros [buf|]; [|done].
  destruct (_ =? _); [|done]. destruct (_ <? _); [done|]. cbn. split; [done|]. intros [name|]; [|done]. by destruct (strcpy name).
Qed.

(** Whatever the network does, every request of a remote client but etr_kill takes the mutex of the
    connection once, talks only while it holds it, and returns without it; etr_kill keeps it when the
    request cannot be written. *)
Theorem etr_releases_mutex :
  (forall A (p : net A), request_of_etr p -> releases false p) /\ ~ releases false Etr.etr_kill.
Proof.
  split.
  - intros A p []; try apply releases_transact; try apply releases_ask_string; try (destruct b; [apply releases_transact|done]);
      cbn; split_and!; try done; by intros [].
  - cbn. intros (_ & _ & H). specialize (H false). by cbn in H.
Qed.
