(* ===== verification/Server.v ===== *)
(** * The server's side of a connection

    et_command_loop of et_server.c: each command of a remote client is read from the connection, carried
    out with the id [clientId] that the server opened for this client on its own node, and answered.
    This file has the commands about stations, attachments and the system; et_command_loop_system has the
    same code with the id of the ET system.

    A local that the code sends without having set it holds [junk]. *)
From stdpp Require Import base gmap strings list.
From S2P Require Import Prelude Types Machine EvList Sample StatConfig Stats Chain Api StationApi Init Station Attachment SysConfig Wire Client Process.
Open Scope Z_scope.

(** ** Reading and writing *)

(** What the client has written and the server has not read yet, what the server has written, and
    whether the client's end of the connection is open. *)
Record conn := mkConn { cn_in : list Z; cn_out : list Z; cn_open : bool }.

(** The loop goes on, leaves with goto end, or returns. *)
Inductive command_end (A : Type) := Go (a : A) | GoEnd | Quit.
Arguments Go {A}. Arguments GoEnd {A}. Arguments Quit {A}.

Definition SM (A : Type) : Type := conn -> M (command_end A * conn).
Definition sret {A} (a : A) : SM A := fun c => ret (Go a, c).
Definition sbind {A B} (p : SM A) (f : A -> SM B) : SM B := fun c =>
  let* (r, c) := p c in
  match r with
  | Go a => f a c
  | GoEnd => ret (GoEnd, c)
  | Quit => ret (Quit, c)
  end.
Definition goto_end {A} : SM A := fun c => ret (GoEnd, c).
Definition quit {A} : SM A := fun c => ret (Quit, c).
Definition call {A} (p : M A) : SM A := fun c => let* a := p in ret (Go a, c).

Notation "'let!' x ':=' p 'in' k" := (sbind p (fun x => k))
  (at level 10, x pattern, p at level 100, k at level 200) : et_scope.

(** etNetTcpRead of [n] bytes into an array of [size] bytes: it waits until they arrive, and fails when
    the client closes the connection before. *)
Definition sread (size n : Z) : SM (list Z) := fun c =>
  if n <? 0 then ret (GoEnd, c)
  else
    let have := Z.min n (Z.of_nat (length (cn_in c))) in
    if size <? have then fault
    else if have =? n then
      ret (Go (take (Z.to_nat n) (cn_in c)), mkConn (drop (Z.to_nat n) (cn_in c)) (cn_out c) (cn_open c))
    else if cn_open c then block else ret (GoEnd, c).

Definition swrite (bs : list Z) : SM unit := fun c =>
  if cn_open c then ret (Go tt, mkConn (cn_in c) (cn_out c ++ bs) true) else ret (GoEnd, c).

(** An array of [n] integers, as the words that ntohl gives. *)
Definition sread_ints (n : nat) : SM (list Z) :=
  let! bs := sread (4 * Z.of_nat n) (4 * Z.of_nat n) in sret (words n bs).
(** ntohl(array[i]), assigned to an int. *)
Definition int_at (ws : list Z) (i : nat) : Z := int32 (nth i ws 0).

(** A string of [n] bytes in an array of [size]. *)
Definition sread_string (size n : Z) : SM string :=
  let! bs := sread size n in call (of_option (strcpy bs)).

Section server.
Context `{R0 : Remote} `{O0 : Os} `{C0 : RemoteClose}.
Context (clientId : et_id) (junk : Z).

(** An answer of a status and an int: what was not set is sent as it is. *)
Definition reply_value (r : Z * option Z) : SM unit := swrite (ints [fst r; default junk (snd r)]).

(** ** Commands *)

Definition srv_alive : SM unit := swrite (ints [1]).
Definition srv_wait : SM unit := swrite (ints [ET_OK]).
Definition srv_close : SM unit := let! _ := call (et_forcedclose clientId) in quit.
Definition srv_kill : SM unit := let! _ := call (et_kill clientId) in quit.
Definition srv_wake_att : SM unit :=
  let! ws := sread_ints 1 in let! _ := call (et_wakeup_attachment clientId (int_at ws 0)) in sret tt.
Definition srv_wake_all : SM unit :=
  let! ws := sread_ints 1 in let! _ := call (et_wakeup_all clientId (int_at ws 0)) in sret tt.

(** A string of the client that may be missing. *)
Definition sread_opt (size length : Z) : SM (option string) :=
  if 0 <? length then let! s := sread_string size (int32 length) in sret (Some s) else sret None.

Definition srv_stat_att : SM unit :=
  let! ws := sread_ints 4 in
  let stat_id := int_at ws 0 in
  let pid := int_at ws 1 in
  let! host := sread_opt ET_MAXHOSTNAMELEN (nth 2 ws 0) in
  let! interface := sread_opt ET_IPADDRSTRLEN (nth 3 ws 0) in
  let! (err, att) := call (et_station_attach clientId stat_id true) in
  let att := default junk att in
  let! _ := call (if err =? ET_OK then
                    str_attach att (set_at_pid pid) ;;;
                    (match host with Some h => str_attach att (set_at_host h) | None => ret tt end) ;;;
                    (match interface with Some i => str_attach att (set_at_interface i) | None => ret tt end)
                  else ret tt) in
  swrite (ints [err; att]).

Definition srv_stat_det : SM unit :=
  let! ws := sread_ints 1 in
  let! err := call (et_station_detach clientId (int_at ws 0)) in
  swrite (ints [err]).

Definition srv_stat_crat : SM unit :=
  let! ws := sread_ints (14 + Z.to_nat ET_STATION_SELECT_INTS) in
  let lengthfname := int_at ws (8 + Z.to_nat ET_STATION_SELECT_INTS) in
  let lengthlib := int_at ws (9 + Z.to_nat ET_STATION_SELECT_INTS) in
  let lengthclass := int_at ws (10 + Z.to_nat ET_STATION_SELECT_INTS) in
  let lengthname := int_at ws (11 + Z.to_nat ET_STATION_SELECT_INTS) in
  let position := int_at ws (12 + Z.to_nat ET_STATION_SELECT_INTS) in
  let pposition := int_at ws (13 + Z.to_nat ET_STATION_SELECT_INTS) in
  let! fname := sread_string ET_FUNCNAME_LENGTH lengthfname in
  let! lib := sread_string ET_FILENAME_LENGTH lengthlib in
  let! classs := sread_string ET_FILENAME_LENGTH lengthclass in
  let! stat_name := sread_string ET_STATNAME_LENGTH lengthname in
  let sc := mkStatConfig (int_at ws 0) (int_at ws 1) (int_at ws 2) (int_at ws 3) (int_at ws 4) (int_at ws 5) (int_at ws 6)
    (int_at ws 7) (map (fun i => int_at ws (8 + i)) (seq 0 (Z.to_nat ET_STATION_SELECT_INTS))) fname lib classs in
  let! r := call (et_station_create_at clientId (Some stat_name) true (Some sc) position pposition) in
  reply_value r.

Definition srv_stat_rm : SM unit :=
  let! ws := sread_ints 1 in
  let! err := call (et_station_remove clientId (int_at ws 0)) in
  swrite (ints [err]).

Definition srv_stat_spos : SM unit :=
  let! ws := sread_ints 3 in
  let! err := call (et_station_setposition clientId (int_at ws 0) (int_at ws 1) (int_at ws 2)) in
  swrite (ints [err]).

Definition srv_stat_gpos : SM unit :=
  let! ws := sread_ints 1 in
  let! (err, position, pposition) := call (et_station_getposition clientId (int_at ws 0)) in
  swrite (ints [err; default junk position; default junk pposition]).

Definition srv_stat_isat : SM unit :=
  let! ws := sread_ints 2 in
  let! err := call (et_station_isattached clientId (int_at ws 0) (int_at ws 1)) in
  swrite (ints [err]).

Definition srv_stat_ex : SM unit :=
  let! ws := sread_ints 1 in
  let! stat_name := sread_string ET_STATNAME_LENGTH (int_at ws 0) in
  let! r := call (et_station_exists clientId true (Some stat_name)) in
  reply_value r.

Definition srv_stat_ssw : SM unit :=
  let! ws := sread_ints (1 + Z.to_nat ET_STATION_SELECT_INTS) in
  let select := map (fun i => int_at ws (1 + i)) (seq 0 (Z.to_nat ET_STATION_SELECT_INTS)) in
  let! err := call (et_station_setselectwords clientId (int_at ws 0) select) in
  swrite (ints [err]).

Definition srv_stat_gsw : SM unit :=
  let! ws := sread_ints 1 in
  let! (err, sw) := call (et_station_getselectwords clientId (int_at ws 0) true) in
  swrite (ints (err :: map (fun i => match sw with Some l => nth i l 0 | None => junk end) (seq 0 (Z.to_nat ET_STATION_SELECT_INTS)))).

Definition srv_stat_name (command : Z) : SM unit :=
  let! ws := sread_ints 1 in
  let stat_id := int_at ws 0 in
  let! (err, name) := call (if command =? ET_NET_STAT_LIB then et_station_getlib clientId stat_id true
                            else if command =? ET_NET_STAT_FUNC then et_station_getfunction clientId stat_id true
                            else et_station_getclass clientId stat_id true) in
  if negb (err =? ET_OK) then swrite (ints [err; 0])
  else
    let! name := call (of_option name) in
    swrite (ints [err; strlen name + 1] ++ cstring name).

(** Values of stations. *)
Definition srv_stat_get (command : Z) : SM unit :=
  let! ws := sread_ints 1 in
  let stat_id := int_at ws 0 in
  let answer (get : et_id -> Z -> bool -> M (Z * option Z)) := let! r := call (get clientId stat_id true) in reply_value r in
  if command =? ET_NET_STAT_GATTS then answer et_station_getattachments
  else if command =? ET_NET_STAT_STATUS then answer et_station_getstatus
  else if command =? ET_NET_STAT_INCNT then answer et_station_getinputcount
  else if command =? ET_NET_STAT_OUTCNT then answer et_station_getoutputcount
  else if command =? ET_NET_STAT_GBLOCK then answer et_station_getblock
  else if command =? ET_NET_STAT_GUSER then answer et_station_getuser
  else if command =? ET_NET_STAT_GRESTORE then answer et_station_getrestore
  else if command =? ET_NET_STAT_GPRE then answer et_station_getprescale
  else if command =? ET_NET_STAT_GCUE then answer et_station_getcue
  else if command =? ET_NET_STAT_GSELECT then answer et_station_getselect
  else goto_end.

Definition srv_stat_set (command : Z) : SM unit :=
  let! ws := sread_ints 2 in
  let answer (set : et_id -> Z -> Z -> M Z) := let! err := call (set clientId (int_at ws 0) (int_at ws 1)) in swrite (ints [err]) in
  if command =? ET_NET_STAT_SBLOCK then answer et_station_setblock
  else if command =? ET_NET_STAT_SUSER then answer et_station_setuser
  else if command =? ET_NET_STAT_SRESTORE then answer et_station_setrestore
  else if command =? ET_NET_STAT_SPRE then answer et_station_setprescale
  else if command =? ET_NET_STAT_SCUE then answer et_station_setcue
  else goto_end.

(** Values of attachments. *)
Definition srv_att_get (command : Z) : SM unit :=
  let! ws := sread_ints 1 in
  let answer (get : et_id -> Z -> bool -> M (Z * option Z)) :=
    let! (err, llevents) := call (get clientId (int_at ws 0) true) in
    swrite (ints [err; ET_HIGHINT (default junk llevents); ET_LOWINT (default junk llevents)]) in
  if command =? ET_NET_ATT_PUT then answer et_attach_geteventsput
  else if command =? ET_NET_ATT_GET then answer et_attach_geteventsget
  else if command =? ET_NET_ATT_DUMP then answer et_attach_geteventsdump
  else if command =? ET_NET_ATT_MAKE then answer et_attach_geteventsmake
  else goto_end.

(** Values of the system. *)
Definition srv_sys_get (command : Z) : SM unit :=
  let answer (get : et_id -> bool -> M (Z * option Z)) := let! r := call (get clientId true) in reply_value r in
  if command =? ET_NET_SYS_TMP then answer et_system_gettemps
  else if command =? ET_NET_SYS_TMPMAX then answer et_system_gettempsmax
  else if command =? ET_NET_SYS_STAT then answer et_system_getstations
  else if command =? ET_NET_SYS_STATMAX then answer et_system_getstationsmax
  else if command =? ET_NET_SYS_PROC then answer et_system_getprocs
  else if command =? ET_NET_SYS_PROCMAX then answer et_system_getprocsmax
  else if command =? ET_NET_SYS_ATT then answer et_system_getattachments
  else if command =? ET_NET_SYS_ATTMAX then answer et_system_getattsmax
  else if command =? ET_NET_SYS_HBEAT then answer et_system_getheartbeat
  else if command =? ET_NET_SYS_PID then answer et_system_getpid
  else if command =? ET_NET_SYS_GRP then let! y := call ld_sys in reply_value (ET_OK, Some (cf_groupCount (sys_config y)))
  else goto_end.

(** The commands from ET_NET_ALIVE to ET_NET_STAT_CLASS; an unknown one is passed over. *)
Definition srv_control (command : Z) : SM unit :=
  if command =? ET_NET_ALIVE then srv_alive
  else if command =? ET_NET_WAIT then srv_wait
  else if (command =? ET_NET_CLOSE) || (command =? ET_NET_FCLOSE) then srv_close
  else if command =? ET_NET_WAKE_ATT then srv_wake_att
  else if command =? ET_NET_WAKE_ALL then srv_wake_all
  else if command =? ET_NET_KILL then srv_kill
  else if command =? ET_NET_STAT_ATT then srv_stat_att
  else if command =? ET_NET_STAT_DET then srv_stat_det
  else if command =? ET_NET_STAT_CRAT then srv_stat_crat
  else if command =? ET_NET_STAT_RM then srv_stat_rm
  else if command =? ET_NET_STAT_SPOS then srv_stat_spos
  else if command =? ET_NET_STAT_GPOS then srv_stat_gpos
  else if command =? ET_NET_STAT_ISAT then srv_stat_isat
  else if command =? ET_NET_STAT_EX then srv_stat_ex
  else if command =? ET_NET_STAT_SSW then srv_stat_ssw
  else if command =? ET_NET_STAT_GSW then srv_stat_gsw
  else if (command =? ET_NET_STAT_LIB) || (command =? ET_NET_STAT_FUNC) || (command =? ET_NET_STAT_CLASS) then srv_stat_name command
  else sret tt.
End server.
