(* ===== verification/Session.v ===== *)
(** * A client and its server

    The loop of the server over the commands of one connection, and the conversation of a client with it:
    whenever the client waits for an answer, the server works off what the client has written. *)
From stdpp Require Import base gmap strings list.
From S2P Require Import Prelude Types Machine EvList Sample StatConfig Stats Chain Api StationApi Init Station Attachment SysConfig Wire Client Process Server.
Open Scope Z_scope.

Definition ET_NET_SYS_GRPS : Z := 172.

(** ** Computations with the same outcomes *)

#[export] Instance M_equiv A : Equiv (M A) := fun p q => forall x m, p x m = q x m.
#[export] Instance M_equivalence A : Equivalence (@equiv (M A) _).
Proof.
  split; [done|intros p q H x m; symmetry; apply H|].
  intros p q r H1 H2 x m. etransitivity; [apply H1|apply H2].
Qed.

#[export] Instance bind_proper A B : Proper ((≡) ==> pointwise_relation A (≡) ==> (≡)) (@bind A B).
Proof. intros p q H f g F x m. unfold bind. rewrite (H x m). destruct (q x m); [apply F|done..]. Qed.

Lemma bind_ret {A B} (a : A) (f : A -> M B) : (let* x := ret a in f x) ≡ f a.
Proof. done. Qed.
Lemma bind_bind {A B C} (p : M A) (f : A -> M B) (g : B -> M C) :
  (let* y := (let* x := p in f x) in g y) ≡ (let* x := p in let* y := f x in g y).
Proof. intros x m. unfold bind. by destruct (p x m). Qed.
Lemma bind_ret_r {A} (p : M A) : (let* x := p in ret x) ≡ p.
Proof. intros x m. unfold bind. by destruct (p x m). Qed.

Section session.
Context `{R0 : Remote} `{O0 : Os} `{C0 : RemoteClose}.
Context (clientId : et_id) (junk : Z).
(** The commands about events, and those for data about the whole system. *)
Context (srv_events srv_data : Z -> SM unit).

(** ** The loop *)

(** The command that was read, carried out. *)
Definition command_switch (command : Z) : SM unit :=
  if command <? ET_NET_STAT_GATTS then
    if command <? ET_NET_ALIVE then srv_events command else srv_control clientId junk command
  else if command <? ET_NET_STAT_SBLOCK then srv_stat_get clientId junk command
  else if command <? ET_NET_ATT_PUT then srv_stat_set clientId command
  else if command <? ET_NET_SYS_TMP then srv_att_get clientId junk command
  else if command <=? ET_NET_SYS_GRP then srv_sys_get clientId junk command
  else if command <=? ET_NET_SYS_GRPS then srv_data command
  else goto_end.

(** One turn of the loop. *)
Definition command_step : SM unit :=
  let! ws := sread_ints 1 in command_switch (int_at ws 0).

(** The loop until the next command has not come yet; [false] when the server has left it.  Each turn
    reads at least four bytes, so the fuel is the length of the input. *)
Fixpoint serve_loop (n : nat) (c : conn) : M (bool * conn) :=
  match cn_in c, cn_open c, n with
  | [], true, _ => ret (true, c)
  | _, _, O => diverge
  | _, _, S n' =>
      let* (r, c) := command_step c in
      match r with
      | Go _ => serve_loop n' c
      | GoEnd => let* _ := et_forcedclose clientId in ret (false, c)
      | Quit => ret (false, c)
      end
  end.
Definition serve_all (up : bool) (c : conn) : M (bool * conn) :=
  if up then serve_loop (S (length (cn_in c))) c else ret (false, c).

(** ** The conversation *)

(** [up]: the server is still in its loop. *)
Fixpoint session {A} (p : net A) (up : bool) (c : conn) : M A :=
  match p with
  | Done a => let* _ := serve_all up c in ret a
  | Lock k | Unlock k => session k up c
  | Write bs k => if up then session (k true) up (mkConn (cn_in c ++ bs) (cn_out c) (cn_open c)) else session (k false) up c
  | Read n k =>
      let* (up, c) := serve_all up c in
      if (n <? 0) then session (k None) up c
      else if n <=? Z.of_nat (length (cn_out c)) then
        session (k (Some (take (Z.to_nat n) (cn_out c)))) up (mkConn (cn_in c) (drop (Z.to_nat n) (cn_out c)) (cn_open c))
      else if up then block else session (k None) up c
  | Close k => session k up (mkConn (cn_in c) (cn_out c) false)
  | Overrun => fault
  end.

Definition connected : conn := mkConn [] [] true.
Definition converse {A} (p : net A) : M A := session p true connected.

(** ** One request and its answer *)

(** The message [bs] makes the server run [p] and answer its result with the bytes [out]. *)
Definition serves {V} (bs : list Z) (p : M V) (out : V -> list Z) : Prop :=
  bs <> [] /\ command_step (mkConn bs [] true) ≡ (let* v := p in ret (Go tt, mkConn [] (out v) true)).

Lemma serve_one {V} bs (p : M V) out :
  serves bs p out -> serve_all true (mkConn bs [] true) ≡ (let* v := p in ret (true, mkConn [] (out v) true)).
Proof.
  intros [N H]. unfold serve_all. cbn [cn_in]. destruct bs as [|b bs]; [done|]. cbn [serve_loop cn_in cn_open length].
  rewrite H, bind_bind. intros x m. unfold bind. by destruct (p x m).
Qed.

Lemma serve_none out : serve_all true (mkConn [] out true) ≡ ret (true, mkConn [] out true).
Proof. done. Qed.

Lemma converse_transact {V A} bs n (we re : A) (k : list Z -> A) (p : M V) out :
  serves bs p out -> 0 <= n -> (forall v, Z.of_nat (length (out v)) = n) ->
  converse (transact bs n we re k) ≡ (let* v := p in ret (k (out v))).
Proof.
  intros H Hn L. unfold converse, transact, connected. cbn [session cn_in cn_out cn_open app negb].
  rewrite (serve_one bs p out H), bind_bind. apply bind_proper; [done|]. intros v. rewrite bind_ret.
  destruct (Z.ltb_spec n 0); [lia|]. cbn [cn_out cn_in cn_open]. rewrite L, Z.leb_refl. cbn [session].
  by rewrite take_ge, drop_ge by (specialize (L v); lia).
Qed.

Lemma converse_tell {V} bs (p : M V) :
  serves bs p (fun _ => []) -> converse (tell bs) ≡ (let* _ := p in ret ET_OK).
Proof.
  intros H. unfold converse, tell, connected. cbn [session cn_in cn_out cn_open app negb].
  rewrite (serve_one bs p _ H), bind_bind. done.
Qed.
End session.

(** ** Integers in messages *)

Lemma ints_cons z zs : ints (z :: zs) = htonl z ++ ints zs.
Proof. done. Qed.
Lemma ints_app zs zs' : ints (zs ++ zs') = ints zs ++ ints zs'.
Proof. unfold ints. by rewrite map_app, concat_app. Qed.

Lemma sread_app bs r o b size : Z.of_nat (length bs) <= size ->
  sread size (Z.of_nat (length bs)) (mkConn (bs ++ r) o b) = ret (Go bs, mkConn r o b).
Proof.
  intros H. unfold sread. cbn [cn_in cn_out cn_open]. rewrite length_app. destruct (Z.ltb_spec (Z.of_nat (length bs)) 0); [lia|].
  rewrite Z.min_l by lia. destruct (Z.ltb_spec size (Z.of_nat (length bs))); [lia|]. rewrite Z.eqb_refl, Nat2Z.id.
  by rewrite take_app_length, drop_app_length.
Qed.

Lemma sread_ints_app zs r o b n : n = length zs ->
  sread_ints n (mkConn (ints zs ++ r) o b) = ret (Go (map uint32 zs), mkConn r o b).
Proof.
  intros ->. unfold sread_ints, sbind. replace (4 * Z.of_nat (length zs)) with (Z.of_nat (length (ints zs))) by (rewrite ints_length; lia).
  rewrite sread_app by lia. unfold bind, ret, sret. unfold ret. replace (ints zs) with (ints zs ++ []) by apply app_nil_r. by rewrite words_ints.
Qed.

Lemma int_at_uint32 zs i : (i < length zs)%nat -> int_at (map uint32 zs) i = int32 (nth i zs 0).
Proof.
  intros H. unfold int_at. rewrite (nth_indep _ 0 (uint32 0)) by (by rewrite length_map). by rewrite map_nth, int32_uint32.
Qed.

Lemma answer_ints zs i r : (i < length zs)%nat -> answer (ints zs ++ r) i = int32 (nth i zs 0).
Proof.
  revert i. induction zs as [|z zs IH]; intros i H; cbn [length] in H; [lia|]. rewrite ints_cons. destruct i as [|i]; unfold answer.
  - change (4 * 0)%nat with 0%nat. rewrite drop_0, <- app_assoc, take_app_length', ntohl_htonl by done. apply int32_uint32.
  - replace (4 * S i)%nat with (4 + 4 * i)%nat by lia. rewrite <- drop_drop, <- app_assoc, (drop_app_length' (htonl z)) by done. apply IH. lia.
Qed.
