(* ===== verification/RemoteSpec.v ===== *)
(** * A remote client gets what a local one would get

    The functions of the interface, called with the id of a remote client, do what they do when the server
    calls them with its own id for that client: every request is parsed into the arguments that were sent,
    and every answer into the result.  [networked] makes the requests of et_remote.c, carried by a network
    that works to the loop of the server, an instance of the interface of the remote clients. *)
From stdpp Require Import base gmap strings list.
From S2P Require Import Prelude Types Machine EvList Sample StatConfig Stats Chain Api StationApi Init Station Attachment SysConfig Wire Client Process Server Session.
Open Scope Z_scope.

(** ** The requests *)

Inductive counting := CtPut | CtGet | CtDump | CtMake.
Definition count_call `{R1 : Remote} (q : counting) : et_id -> Z -> bool -> M (Z * option Z) :=
  match q with
  | CtPut => et_attach_geteventsput
  | CtGet => et_attach_geteventsget
  | CtDump => et_attach_geteventsdump
  | CtMake => et_attach_geteventsmake
  end.

Inductive totalling := TtTemps | TtTempsmax | TtStations | TtStationsmax | TtProcs | TtProcsmax | TtAttachments | TtAttsmax | TtHeartbeat | TtPid.
Definition total_call `{R1 : Remote} (q : totalling) : et_id -> bool -> M (Z * option Z) :=
  match q with
  | TtTemps => et_system_gettemps
  | TtTempsmax => et_system_gettempsmax
  | TtStations => et_system_getstations
  | TtStationsmax => et_system_getstationsmax
  | TtProcs => et_system_getprocs
  | TtProcsmax => et_system_getprocsmax
  | TtAttachments => et_system_getattachments
  | TtAttsmax => et_system_getattsmax
  | TtHeartbeat => et_system_getheartbeat
  | TtPid => et_system_getpid
  end.

(** The calls of the interface that go through the network, with their results. *)
Inductive request : Type -> Type :=
| RqGet {A} (q : getting A) (stat_id : Z) : request (Z * option A)
| RqSet (op : setting) (stat_id : Z) : request Z
| RqCount (q : counting) (att : Z) : request (Z * option Z)
| RqTotal (q : totalling) : request (Z * option Z)
| RqRemove (stat_id : Z) : request Z
| RqDetach (att : Z) : request Z
| RqIsattached (stat_id att : Z) : request Z
| RqGetposition (stat_id : Z) : request (Z * option Z * option Z)
| RqExists (stat_name : string) : request (Z * option Z)
| RqCreateAt (stat_name : string) (sc : et_stat_config) (position parallelposition : Z) : request (Z * option Z)
| RqWakeAttachment (att : Z) : request Z
| RqWakeAll (stat_id : Z) : request Z.

Definition request_call `{R1 : Remote} `{O1 : Os} {A} (rq : request A) (id : et_id) : M A :=
  match rq with
  | RqGet q s => get_call q id s true
  | RqSet op s => set_call op id s
  | RqCount q att => count_call q id att true
  | RqTotal q => total_call q id true
  | RqRemove s => et_station_remove id s
  | RqDetach att => et_station_detach id att
  | RqIsattached s att => et_station_isattached id s att
  | RqGetposition s => et_station_getposition id s
  | RqExists name => et_station_exists id true (Some name)
  | RqCreateAt name sc pos ppos => et_station_create_at id (Some name) true (Some sc) pos ppos
  | RqWakeAttachment att => et_wakeup_attachment id att
  | RqWakeAll s => et_wakeup_all id s
  end.
(** Setting selection words sends exactly six. *)
Definition setting_sendable (op : setting) : Prop :=
  match op with
  | StBlock v | StUser v | StRestore v | StPrescale v | StCue v => is_int v
  | StSelectwords v => length v = Z.to_nat ET_STATION_SELECT_INTS /\ Forall is_int v
  end.

(** A string that fits into an array of [size] characters. *)
Definition string_sendable (size : Z) (s : string) : Prop := c_string s /\ strlen s < size.

Record config_sendable (sc : et_stat_config) : Prop := mkConfigSendable {
  cs_ints : Forall is_int [sc_init sc; sc_flow_mode sc; sc_user_mode sc; sc_restore_mode sc; sc_block_mode sc;
                           sc_prescale sc; sc_cue sc; sc_select_mode sc];
  cs_select : length (sc_select sc) = Z.to_nat ET_STATION_SELECT_INTS;
  cs_words : Forall is_int (sc_select sc);
  cs_fname : string_sendable ET_FUNCNAME_LENGTH (sc_fname sc);
  cs_lib : string_sendable ET_FILENAME_LENGTH (sc_lib sc);
  cs_class : string_sendable ET_FILENAME_LENGTH (sc_classs sc)
}.

(** The arguments are values of their types: ints, and strings that fit into the arrays of the server.  The
    position of GrandCentral is not asked for through the network. *)
Definition sendable {A} (rq : request A) : Prop :=
  match rq with
  | RqGet _ s | RqRemove s | RqWakeAll s => is_int s
  | RqSet op s => is_int s /\ setting_sendable op
  | RqCount _ att | RqDetach att | RqWakeAttachment att => is_int att
  | RqTotal _ => True
  | RqIsattached s att => is_int s /\ is_int att
  | RqGetposition s => is_int s /\ s <> ET_GRANDCENTRAL
  | RqExists name => string_sendable ET_STATNAME_LENGTH name
  | RqCreateAt name sc pos ppos => c_string name /\ config_sendable sc /\ is_int pos /\ is_int ppos
  end.

Lemma nth_map_seq {A} (f : nat -> A) n i d : (i < n)%nat -> nth i (map f (seq 0 n)) d = f i.
Proof.
  intros H. rewrite (nth_indep _ d (f 0%nat)) by (by rewrite length_map, length_seq). by rewrite map_nth, seq_nth.
Qed.

Section remote_spec.
Context `{R0 : Remote} `{O0 : Os} `{C0 : RemoteClose}.
Context (sid : et_id) (junk : Z) (srv_events srv_data : Z -> SM unit).
(** The process of the client, its node, the address of its socket, and what an array of the client held. *)
Context (pid : Z) (host ip : option string) (sent : Z).

(** ** The network as an implementation of the remote functions *)

Definition through {A} (p : net A) : M A := converse sid junk srv_events srv_data p.

Definition networked : Remote := {|
  Api.etr_alive := fun _ => through Etr.etr_alive;
  Api.etn_alive := fun id => etn_alive id;
  Api.etr_station_create_at := fun _ name sc pos ppos => through (Etr.etr_station_create_at true name sc pos ppos);
  Api.etr_station_remove := fun _ s => through (Etr.etr_station_remove s);
  Api.etr_station_attach := fun _ s => through (Etr.etr_station_attach (O0 := {| getpid := pid; etNetLocalHost := host |}) true ip s);
  Api.etr_station_detach := fun _ att => through (Etr.etr_station_detach att);
  Api.etr_station_setposition := fun _ s pos ppos => through (Etr.etr_station_setposition sent s pos ppos);
  Api.etr_station_getposition := fun _ s => through (Etr.etr_station_getposition s);
  Api.etr_station_isattached := fun _ s att => through (Etr.etr_station_isattached s att);
  Api.etr_station_exists := fun _ name => through (Etr.etr_station_exists true name);
  Api.etr_station_getattachments := fun _ s => through (Etr.etr_station_getattachments s);
  Api.etr_station_getstatus := fun _ s => through (Etr.etr_station_getstatus s);
  Api.etr_station_getinputcount := fun _ s => through (Etr.etr_station_getinputcount s);
  Api.etr_station_getoutputcount := fun _ s => through (Etr.etr_station_getoutputcount s);
  Api.etr_station_getblock := fun _ s => through (Etr.etr_station_getblock s);
  Api.etr_station_setblock := fun _ s v => through (Etr.etr_station_setblock s v);
  Api.etr_station_getuser := fun _ s => through (Etr.etr_station_getuser s);
  Api.etr_station_setuser := fun _ s v => through (Etr.etr_station_setuser s v);
  Api.etr_station_getrestore := fun _ s => through (Etr.etr_station_getrestore s);
  Api.etr_station_setrestore := fun _ s v => through (Etr.etr_station_setrestore s v);
  Api.etr_station_getprescale := fun _ s => through (Etr.etr_station_getprescale s);
  Api.etr_station_setprescale := fun _ s v => through (Etr.etr_station_setprescale s v);
  Api.etr_station_getcue := fun _ s => through (Etr.etr_station_getcue s);
  Api.etr_station_setcue := fun _ s v => through (Etr.etr_station_setcue s v);
  Api.etr_station_getselectwords := fun _ s => through (Etr.etr_station_getselectwords s);
  Api.etr_station_setselectwords := fun _ s v => through (Etr.etr_station_setselectwords s v);
  Api.etr_station_getselect := fun _ s => through (Etr.etr_station_getselect s);
  Api.etr_station_getlib := fun _ s => through (Etr.etr_station_getlib s);
  Api.etr_station_getclass := fun _ s => through (Etr.etr_station_getclass s);
  Api.etr_station_getfunction := fun _ s => through (Etr.etr_station_getfunction s);
  Api.etr_system_gettemps := fun _ => through Etr.etr_system_gettemps;
  Api.etr_system_gettempsmax := fun _ => through Etr.etr_system_gettempsmax;
  Api.etr_system_getstations := fun _ => through Etr.etr_system_getstations;
  Api.etr_system_getstationsmax := fun _ => through Etr.etr_system_getstationsmax;
  Api.etr_system_getprocs := fun _ => through Etr.etr_system_getprocs;
  Api.etr_system_getprocsmax := fun _ => through Etr.etr_system_getprocsmax;
  Api.etr_system_getattachments := fun _ => through Etr.etr_system_getattachments;
  Api.etr_system_getattsmax := fun _ => through Etr.etr_system_getattsmax;
  Api.etr_system_getheartbeat := fun _ => through Etr.etr_system_getheartbeat;
  Api.etr_system_getpid := fun _ => through Etr.etr_system_getpid;
  Api.etr_system_getgroupcount := fun _ => through Etr.etr_system_getgroupcount;
  Api.etr_wakeup_attachment := fun _ att => through (Etr.etr_wakeup_attachment att);
  Api.etr_wakeup_all := fun _ s => through (Etr.etr_wakeup_all s);
  Api.etr_attach_geteventsput := fun _ att => through (Etr.etr_attach_geteventsput att);
  Api.etr_attach_geteventsget := fun _ att => through (Etr.etr_attach_geteventsget att);
  Api.etr_attach_geteventsdump := fun _ att => through (Etr.etr_attach_geteventsdump att);
  Api.etr_attach_geteventsmake := fun _ att => through (Etr.etr_attach_geteventsmake att)
|}.

(** ** What the answers keep of a result *)

Definition wire_value (good : Z -> bool) (r : Z * option Z) : Z * option Z :=
  let err := int32 (fst r) in (err, if good err then Some (int32 (default junk (snd r))) else None).

Definition wire_count (r : Z * option Z) : Z * option Z :=
  let err := int32 (fst r) in (err, if ok_status err then Some (u64 (default junk (snd r))) else None).
Definition wire_words (r : Z * option (list Z)) : Z * option (list Z) :=
  let err := int32 (fst r) in
  (err, if ok_status err
        then Some (map (fun i => int32 (match snd r with Some l => nth i l 0 | None => junk end)) (seq 0 (Z.to_nat ET_STATION_SELECT_INTS)))
        else None).
Definition wire_get {A} (q : getting A) : Z * option A -> Z * option A :=
  match q with GtSelectwords => wire_words | _ => wire_value ok_status end.
Definition wire_position (r : Z * option Z * option Z) : Z * option Z * option Z :=
  let '(err, position, pposition) := r in
  let err := int32 err in
  if err =? ET_OK then (err, Some (int32 (default junk position)), Some (int32 (default junk pposition))) else (err, None, None).

(** The server does not answer the two requests that wake attachments up. *)
Definition wire {A} (rq : request A) : A -> A :=
  match rq with
  | RqGet q _ => wire_get q
  | RqCount _ _ => wire_count
  | RqTotal _ => wire_value ok_status
  | RqSet _ _ | RqRemove _ | RqDetach _ | RqIsattached _ _ => int32
  | RqGetposition _ => wire_position
  | RqExists _ => wire_value (fun err => err =? 1)
  | RqCreateAt _ _ _ _ => wire_value (fun err => (err =? ET_OK) || (err =? ET_ERROR_EXISTS))
  | RqWakeAttachment n | RqWakeAll n => fun r => if n <? 0 then r else ET_OK
  end.

(** The count of input events under the mutex of the list is not offered to remote clients. *)
Definition asked {A} (q : getting A) : getting A :=
  match q with GtInputcountRt => GtInputcount | q' => q' end.
Definition served_call {A} (rq : request A) : M A :=
  match rq with
  | RqGet q s => get_call (asked q) sid s true
  | rq' => request_call rq' sid
  end.

(** ** The server parses what the client sent *)

Lemma sbind_read {B} zs r o b n (f : list Z -> SM B) : n = length zs ->
  sbind (sread_ints n) f (mkConn (ints zs ++ r) o b) = f (map uint32 zs) (mkConn r o b).
Proof. intros H. unfold sbind. by rewrite sread_ints_app. Qed.

Lemma sbind_call {A B} (p : M A) (f : A -> SM B) c : sbind (call p) f c ≡ (let* v := p in f v c).
Proof. unfold sbind, call. by rewrite bind_bind. Qed.

Lemma serves_ints {V} cmd args bs (p : M V) out :
  is_int cmd ->
  command_switch sid junk srv_events srv_data cmd (mkConn (ints args ++ bs) [] true)
    ≡ (let* v := p in ret (Go tt, mkConn [] (out v) true)) ->
  serves sid junk srv_events srv_data (ints (cmd :: args) ++ bs) p out.
Proof.
  intros I H. split; [by rewrite ints_cons|]. unfold command_step.
  change (cmd :: args) with ([cmd] ++ args). rewrite ints_app, <- app_assoc, sbind_read by done.
  rewrite int_at_uint32 by (cbn; lia). cbn [nth]. by rewrite int32_id.
Qed.

(** A request without strings. *)
Lemma serves_args {V} cmd args n (p : M V) (q : list Z -> M V) (f : V -> SM unit) out :
  is_int cmd -> n = length args ->
  (forall c, command_switch sid junk srv_events srv_data cmd c = (let! ws := sread_ints n in let! v := call (q ws) in f v) c) ->
  (forall v c, f v c = swrite (out v) c) ->
  q (map uint32 args) = p ->
  serves sid junk srv_events srv_data (ints (cmd :: args)) p out.
Proof.
  intros I -> H F E. rewrite <- (app_nil_r (ints _)). apply serves_ints; [done|].
  rewrite H, sbind_read by done. rewrite E, sbind_call. apply bind_proper; [done|]. intros v. by rewrite F.
Qed.

(** ** Requests with their answers *)

(** An answer is a list of integers. *)
Lemma through_ints {V A} bs n (we re : A) (k : list Z -> A) (p : M V) (out : V -> list Z) :
  serves sid junk srv_events srv_data bs p (fun v => ints (out v)) -> 0 <= n ->
  (forall v, 4 * Z.of_nat (length (out v)) = n) ->
  through (transact bs n we re k) ≡ (let* v := p in ret (k (ints (out v)))).
Proof.
  intros H Hn L. eapply converse_transact; [done|done|]. intros v. rewrite <- (L v), ints_length. lia.
Qed.

Lemma answer_int zs i : (i < length zs)%nat -> answer (ints zs) i = int32 (nth i zs 0).
Proof. intros H. rewrite <- (app_nil_r (ints zs)). by apply answer_ints. Qed.

Lemma through_ask bs (p : M Z) :
  serves sid junk srv_events srv_data bs p (fun err => ints [err]) ->
  through (ask bs) ≡ (let* err := p in ret (int32 err)).
Proof.
  intros H. unfold ask. rewrite (through_ints _ _ _ _ _ p (fun err => [err])) by done.
  apply bind_proper; [done|]. intros err. by rewrite answer_int by (cbn; lia).
Qed.

Lemma through_value good bs (p : M (Z * option Z)) :
  serves sid junk srv_events srv_data bs p (fun r => ints [fst r; default junk (snd r)]) ->
  through (ask_value good bs) ≡ (let* r := p in ret (wire_value good r)).
Proof.
  intros H. unfold ask_value. rewrite (through_ints _ _ _ _ _ p (fun r => [fst r; default junk (snd r)])) by done.
  apply bind_proper; [done|]. intros r. by rewrite !answer_int by (cbn; lia).
Qed.

Lemma through_tell bs (p : M Z) :
  serves sid junk srv_events srv_data bs p (fun _ => []) -> through (tell bs) ≡ (let* _ := p in ret ET_OK).
Proof. apply converse_tell. Qed.

(** ** The server's commands *)

Lemma serves_stat_get cmd get s :
  is_int cmd -> is_int s ->
  (forall c, command_switch sid junk srv_events srv_data cmd c =
     (let! ws := sread_ints 1 in let! r := call (get sid (int_at ws 0) true) in reply_value junk r) c) ->
  through (ask_value ok_status (ints [cmd; s])) ≡ (let* r := get sid s true in ret (wire_value ok_status r)).
Proof.
  intros I1 I2 H. apply through_value. eapply (serves_args cmd [s]); [done|reflexivity|exact H|done|]. cbv beta.
  rewrite int_at_uint32 by (cbn; lia). cbn [nth]. by rewrite int32_id.
Qed.

(** A request that is answered with a status. *)
Lemma serves_status cmd args (p : M Z) (q : list Z -> M Z) :
  is_int cmd ->
  (forall c, command_switch sid junk srv_events srv_data cmd c =
     (let! ws := sread_ints (length args) in let! err := call (q ws) in swrite (ints [err])) c) ->
  q (map uint32 args) = p ->
  through (ask (ints (cmd :: args))) ≡ (let* err := p in ret (int32 err)).
Proof. intros I H E. apply through_ask. by eapply serves_args; [..|exact H| |]. Qed.

(** ** Through the interface *)

Context (rid : et_id) (Lr : id_locality rid = ET_REMOTE) (Ir : id_init rid = id_init sid).

Lemma station_read_remote {A} (remote : et_id -> Z -> M (Z * option A)) refuse read s given :
  station_read (R0 := networked) remote refuse read rid s given = remote rid s.
Proof. unfold station_read. by rewrite Lr, Z.eqb_refl. Qed.

Lemma through_words s : is_int s ->
  through (Etr.etr_station_getselectwords s) ≡ (let* r := et_station_getselectwords sid s true in ret (wire_words r)).
Proof.
  intros I. unfold Etr.etr_station_getselectwords.
  rewrite (through_ints _ _ _ _ _ (et_station_getselectwords sid s true) (fun r => fst r :: map (fun i => match snd r with Some l => nth i l 0 | None => junk end)
    (seq 0 (Z.to_nat ET_STATION_SELECT_INTS)))); [|..|done|done].
  - apply bind_proper; [done|]. intros [e w]. unfold wire_words. rewrite answer_int by (cbn; lia). cbn [fst snd nth].
    unfold ok_status. destruct (int32 e =? ET_OK); [|done].
    apply reflexive_eq. do 3 f_equal. apply map_ext_in. intros i Hi. apply in_seq in Hi. rewrite Nat.add_1_r.
    rewrite answer_int by (cbn [length]; rewrite length_map, length_seq; lia). cbn [nth]. f_equal.
    by rewrite nth_map_seq by lia.
  - eapply (serves_args _ [s] 1 _ (fun ws => et_station_getselectwords sid (int_at ws 0) true)); [done|done| | |].
    + intros c. apply (eq_refl (srv_stat_gsw sid junk c)).
    + by intros [].
    + rewrite int_at_uint32 by (cbn; lia). cbn [nth]. by rewrite int32_id.
Qed.

Lemma get_through {A} (q : getting A) s : is_int s ->
  get_call (R0 := networked) q rid s true ≡ (let* r := get_call (asked q) sid s true in ret (wire_get q r)).
Proof.
  intros I. destruct q; (etransitivity; [apply reflexive_eq, station_read_remote|]);
    first [by apply through_words|by apply serves_stat_get].
Qed.

Lemma remote_locality : negb (id_locality rid =? ET_LOCAL) = true.
Proof. by rewrite Lr. Qed.

(** Two tests before the request that the server's function makes as well. *)
Lemma guarded_twice {A} (b : bool) (e : A) (w : A -> A) (p q r : M A) :
  w e = e -> q = (if b then ret e else r) -> p ≡ (let* v := q in ret (w v)) ->
  (if b then ret e else p) ≡ (let* v := q in ret (w v)).
Proof. intros W -> H. destruct b; [|done]. intros x m. unfold bind, ret. by rewrite W. Qed.

Lemma change_through {V} remote valid refuse (change : Z -> V -> M unit) get s (v : V) :
  remote rid s v ≡ (let* st := station_change get valid refuse change sid s v in ret (int32 st)) ->
  station_change (R0 := networked) remote valid refuse change rid s v
    ≡ (let* st := station_change get valid refuse change sid s v in ret (int32 st)).
Proof.
  intros H. unfold station_change at 1. eapply guarded_twice; [done|reflexivity|].
  destruct (negb (valid v)) eqn:E.
  - unfold station_change. rewrite E. by destruct (s =? ET_GRANDCENTRAL).
  - by rewrite remote_locality.
Qed.

Lemma serves_stat_set cmd set s v :
  is_int cmd -> is_int s -> is_int v ->
  (forall c, command_switch sid junk srv_events srv_data cmd c =
     (let! ws := sread_ints 2 in let! err := call (set sid (int_at ws 0) (int_at ws 1)) in swrite (ints [err])) c) ->
  through (ask (ints [cmd; s; v])) ≡ (let* st := set sid s v in ret (int32 st)).
Proof.
  intros I1 I2 I3 H. eapply (serves_status cmd [s; v]); [done|exact H|]. cbv beta.
  rewrite !int_at_uint32 by (cbn; lia). cbn [nth]. by rewrite !int32_id.
Qed.

Lemma int_at_words cmd args i : (i < length args)%nat -> Forall is_int args ->
  int_at (map uint32 (cmd :: args)) (1 + i) = nth i args 0.
Proof.
  intros H F. rewrite int_at_uint32 by (cbn; lia). cbn [nth Nat.add]. apply int32_id.
  eapply Forall_forall; [done|]. apply list_elem_of_In. by apply nth_In.
Qed.

Lemma nth_all (l : list Z) n : length l = n -> map (fun i => nth i l 0) (seq 0 n) = l.
Proof.
  intros <-. apply (nth_ext _ _ 0 0); [by rewrite length_map, length_seq|]. intros i H.
  rewrite length_map, length_seq in H. by rewrite nth_map_seq.
Qed.

Lemma words_through s v : is_int s -> length v = Z.to_nat ET_STATION_SELECT_INTS -> Forall is_int v ->
  through (Etr.etr_station_setselectwords s v) ≡ (let* st := et_station_setselectwords sid s v in ret (int32 st)).
Proof.
  intros I L F. unfold Etr.etr_station_setselectwords. rewrite nth_all by done.
  eapply (serves_status _ (s :: v) _ (fun ws => et_station_setselectwords sid (int_at ws 0)
    (map (fun i => int_at ws (1 + i)) (seq 0 (Z.to_nat ET_STATION_SELECT_INTS))))); [done| |].
  - intros c. cbn [length]. rewrite L. apply (eq_refl (srv_stat_ssw sid c)).
  - f_equal.
    + rewrite int_at_uint32 by (cbn; lia). by apply int32_id.
    + etransitivity; [|by apply nth_all]. apply map_ext_in. intros i Hi. apply in_seq in Hi. apply int_at_words; [lia|done].
Qed.

Lemma set_through op s : is_int s -> setting_sendable op ->
  set_call (R0 := networked) op rid s ≡ (let* st := set_call op sid s in ret (int32 st)).
Proof.
  intros I W. destruct op as [v|v|v|v|v|v].
  - apply change_through. apply (serves_stat_set ET_NET_STAT_SBLOCK et_station_setblock); try done.
  - apply change_through. apply (serves_stat_set ET_NET_STAT_SUSER et_station_setuser); try done.
  - apply change_through. apply (serves_stat_set ET_NET_STAT_SRESTORE et_station_setrestore); try done.
  - apply change_through. apply (serves_stat_set ET_NET_STAT_SPRE et_station_setprescale); try done.
  - apply change_through. apply (serves_stat_set ET_NET_STAT_SCUE et_station_setcue); try done.
  - apply change_through. by apply words_through; destruct W.
Qed.

Lemma serves_att_get cmd get att :
  is_int cmd -> is_int att ->
  (forall c, command_switch sid junk srv_events srv_data cmd c =
     (let! ws := sread_ints 1 in let! (err, llevents) := call (get sid (int_at ws 0) true) in
      swrite (ints [err; ET_HIGHINT (default junk llevents); ET_LOWINT (default junk llevents)])) c) ->
  through (Etr.etr_attach_getstuff cmd att) ≡ (let* r := get sid att true in ret (wire_count r)).
Proof.
  intros I1 I2 H. unfold Etr.etr_attach_getstuff.
  rewrite (through_ints _ _ _ _ _ (get sid att true) (fun r => [fst r; ET_HIGHINT (default junk (snd r)); ET_LOWINT (default junk (snd r))])); [|..|done|done].
  - apply bind_proper; [done|]. intros r. rewrite !answer_int by (cbn; lia). cbn [nth]. unfold wire_count, ok_status.
    by rewrite !uint32_int32, halves_back.
  - eapply (serves_args cmd [att]); [done|reflexivity|exact H|by intros []|]. cbv beta.
    rewrite int_at_uint32 by (cbn; lia). cbn [nth]. by rewrite int32_id.
Qed.

Lemma count_through q att : is_int att ->
  count_call (R1 := networked) q rid att true ≡ (let* r := count_call q sid att true in ret (wire_count r)).
Proof.
  intros I. assert (E : forall remote get, attach_read (R0 := networked) remote get rid att true = remote rid att)
    by (intros; unfold attach_read; by rewrite Lr, Z.eqb_refl).
  destruct q; (etransitivity; [apply reflexive_eq, E|]).
  - by apply (serves_att_get ET_NET_ATT_PUT et_attach_geteventsput).
  - by apply (serves_att_get ET_NET_ATT_GET et_attach_geteventsget).
  - by apply (serves_att_get ET_NET_ATT_DUMP et_attach_geteventsdump).
  - by apply (serves_att_get ET_NET_ATT_MAKE et_attach_geteventsmake).
Qed.

Lemma serves_sys_get cmd get :
  is_int cmd ->
  (forall c, command_switch sid junk srv_events srv_data cmd c = (let! r := call (get sid true) in reply_value junk r) c) ->
  through (ask_value ok_status (ints [cmd])) ≡ (let* r := get sid true in ret (wire_value ok_status r)).
Proof.
  intros I H. apply through_value. rewrite <- (app_nil_r (ints [cmd])). apply (serves_ints cmd []); [done|].
  rewrite H. apply sbind_call.
Qed.

Lemma sys_get_through remote etr get :
  remote rid ≡ (let* r := sys_get etr get sid true in ret (wire_value ok_status r)) ->
  sys_get (Some remote) get rid true ≡ (let* r := sys_get etr get sid true in ret (wire_value ok_status r)).
Proof.
  intros H. unfold sys_get at 1. rewrite remote_locality, Ir. cbn [negb orb].
  destruct (negb (id_init sid =? ET_STRUCT_OK)) eqn:E; [|done]. unfold sys_get. by rewrite E.
Qed.

Lemma total_through q :
  total_call (R1 := networked) q rid true ≡ (let* r := total_call q sid true in ret (wire_value ok_status r)).
Proof.
  destruct q; apply sys_get_through.
  - by apply (serves_sys_get ET_NET_SYS_TMP et_system_gettemps).
  - by apply (serves_sys_get ET_NET_SYS_TMPMAX et_system_gettempsmax).
  - by apply (serves_sys_get ET_NET_SYS_STAT et_system_getstations).
  - by apply (serves_sys_get ET_NET_SYS_STATMAX et_system_getstationsmax).
  - by apply (serves_sys_get ET_NET_SYS_PROC et_system_getprocs).
  - by apply (serves_sys_get ET_NET_SYS_PROCMAX et_system_getprocsmax).
  - by apply (serves_sys_get ET_NET_SYS_ATT et_system_getattachments).
  - by apply (serves_sys_get ET_NET_SYS_ATTMAX et_system_getattsmax).
  - by apply (serves_sys_get ET_NET_SYS_HBEAT et_system_getheartbeat).
  - by apply (serves_sys_get ET_NET_SYS_PID et_system_getpid).
Qed.

(** A request with one argument and a status as its answer. *)
Lemma serves_one_status cmd (f : et_id -> Z -> M Z) a :
  is_int cmd -> is_int a ->
  (forall c, command_switch sid junk srv_events srv_data cmd c =
     (let! ws := sread_ints 1 in let! err := call (f sid (int_at ws 0)) in swrite (ints [err])) c) ->
  through (ask (ints [cmd; a])) ≡ (let* err := f sid a in ret (int32 err)).
Proof.
  intros I1 I2 H. eapply (serves_status cmd [a]); [done|exact H|]. cbv beta.
  rewrite int_at_uint32 by (cbn; lia). cbn [nth]. by rewrite int32_id.
Qed.

Lemma remove_through s : is_int s ->
  et_station_remove (R0 := networked) rid s ≡ (let* st := et_station_remove sid s in ret (int32 st)).
Proof.
  intros I. unfold et_station_remove at 1. eapply guarded_twice; [done|reflexivity|].
  destruct (s =? ET_GRANDCENTRAL) eqn:E; [unfold et_station_remove; rewrite E; by destruct (s <? 0)|].
  rewrite remote_locality. by apply (serves_one_status ET_NET_STAT_RM et_station_remove).
Qed.

Lemma detach_through att : is_int att ->
  et_station_detach (R0 := networked) rid att ≡ (let* st := et_station_detach sid att in ret (int32 st)).
Proof.
  intros I. unfold et_station_detach at 1. eapply guarded_twice; [done|reflexivity|].
  rewrite remote_locality. by apply (serves_one_status ET_NET_STAT_DET et_station_detach).
Qed.

Lemma isattached_through s att : is_int s -> is_int att ->
  et_station_isattached (R0 := networked) rid s att ≡ (let* st := et_station_isattached sid s att in ret (int32 st)).
Proof.
  intros I1 I2. unfold et_station_isattached at 1. rewrite Lr, Z.eqb_refl.
  eapply (serves_status ET_NET_STAT_ISAT [s; att] _ (fun ws => et_station_isattached sid (int_at ws 0) (int_at ws 1))); [done|done|].
  rewrite !int_at_uint32 by (cbn; lia). cbn [nth]. by rewrite !int32_id.
Qed.

Lemma getposition_through s : is_int s -> s <> ET_GRANDCENTRAL ->
  et_station_getposition (R0 := networked) rid s ≡ (let* r := et_station_getposition sid s in ret (wire_position r)).
Proof.
  intros I N. unfold et_station_getposition at 1. eapply guarded_twice; [done|reflexivity|].
  rewrite (proj2 (Z.eqb_neq s ET_GRANDCENTRAL) N), remote_locality. unfold networked, Api.etr_station_getposition, Etr.etr_station_getposition.
  rewrite (through_ints _ _ _ _ _ (et_station_getposition sid s)
    (fun r : Z * option Z * option Z => [fst (fst r); default junk (snd (fst r)); default junk (snd r)])); [|..|done|done].
  - apply bind_proper; [done|]. intros [[err pos] ppos]. by rewrite !answer_int by (cbn; lia).
  - eapply (serves_args ET_NET_STAT_GPOS [s] 1 _ (fun ws => et_station_getposition sid (int_at ws 0))); [done|done| | |].
    + intros c. apply (eq_refl (srv_stat_gpos sid junk c)).
    + by intros [[err pos] ppos] c.
    + rewrite int_at_uint32 by (cbn; lia). cbn [nth]. by rewrite int32_id.
Qed.

Lemma serves_wake cmd (f : et_id -> Z -> M Z) a :
  is_int cmd -> is_int a ->
  (forall c, command_switch sid junk srv_events srv_data cmd c =
     (let! ws := sread_ints 1 in let! _ := call (f sid (int_at ws 0)) in sret tt) c) ->
  through (tell (ints [cmd; a])) ≡ (let* _ := f sid a in ret ET_OK).
Proof.
  intros I1 I2 H. apply through_tell. rewrite <- (app_nil_r (ints _)). apply serves_ints; [done|].
  rewrite H, sbind_read by done. rewrite sbind_call. apply bind_proper; [|done].
  rewrite int_at_uint32 by (cbn; lia). cbn [nth]. by rewrite int32_id.
Qed.

(** The request that wakes up is not sent for a negative number. *)
Lemma wake_through (n : Z) (p q r : M Z) :
  q = (if n <? 0 then ret ET_ERROR else r) -> p ≡ (let* _ := q in ret ET_OK) ->
  (if n <? 0 then ret ET_ERROR else p) ≡ (let* v := q in ret (if n <? 0 then v else ET_OK)).
Proof. intros -> H. by destruct (n <? 0). Qed.

Lemma wake_attachment_through att : is_int att ->
  et_wakeup_attachment (R0 := networked) rid att ≡ (let* v := et_wakeup_attachment sid att in ret (if att <? 0 then v else ET_OK)).
Proof.
  intros I. unfold et_wakeup_attachment at 1. eapply wake_through; [reflexivity|].
  rewrite remote_locality. by apply (serves_wake ET_NET_WAKE_ATT et_wakeup_attachment).
Qed.

Lemma wake_all_through s : is_int s ->
  et_wakeup_all (R0 := networked) rid s ≡ (let* v := et_wakeup_all sid s in ret (if s <? 0 then v else ET_OK)).
Proof.
  intros I. unfold et_wakeup_all at 1. eapply wake_through; [reflexivity|].
  rewrite remote_locality. by apply (serves_wake ET_NET_WAKE_ALL et_wakeup_all).
Qed.

(** ** Strings *)

Lemma strlen_length s : Z.of_nat (length (cstring s)) = strlen s + 1.
Proof. apply cstring_length. Qed.

Lemma sbind_string {B} size s n r o b (f : string -> SM B) :
  string_sendable size s -> n = strlen s + 1 ->
  sbind (sread_string size n) f (mkConn (cstring s ++ r) o b) ≡ f s (mkConn r o b).
Proof.
  intros [Hs Hl] ->. unfold sread_string. unfold sbind. rewrite <- strlen_length, sread_app by (rewrite strlen_length; lia).
  intros x m. unfold bind, ret at 1, call. rewrite <- (app_nil_r (cstring s)), strcpy_cstring by done. done.
Qed.

Lemma strlen_int size s : size <= 1000 -> string_sendable size s -> is_int (strlen s + 1).
Proof. intros H [_ L]. unfold is_int, strlen in *. lia. Qed.

Lemma exists_through name : string_sendable ET_STATNAME_LENGTH name ->
  et_station_exists (R0 := networked) rid true (Some name)
    ≡ (let* r := et_station_exists sid true (Some name) in ret (wire_value (fun err => err =? 1) r)).
Proof.
  intros H. unfold et_station_exists at 1. rewrite Lr, Z.eqb_refl. apply through_value. apply serves_ints; [done|].
  change (command_switch _ _ _ _ _) with (srv_stat_ex sid junk). unfold srv_stat_ex. rewrite sbind_read by done.
  rewrite int_at_uint32 by (cbn; lia). cbn [nth]. rewrite int32_id by (by apply (strlen_int ET_STATNAME_LENGTH)).
  rewrite <- (app_nil_r (cstring name)), sbind_string by done. by rewrite sbind_call.
Qed.

Lemma create_served name sc pos ppos :
  string_sendable ET_STATNAME_LENGTH name -> config_sendable sc -> is_int pos -> is_int ppos ->
  through (Etr.etr_station_create_at true name sc pos ppos) ≡
    (let* r := et_station_create_at sid (Some name) true (Some sc) pos ppos in
     ret (wire_value (fun err => (err =? ET_OK) || (err =? ET_ERROR_EXISTS)) r)).
Proof.
  intros Hn [F L W H1 H2 H3] Ip Iq. apply through_value. rewrite <- (app_nil_r (cstring name)).
  destruct sc as [init flow user rest block pre cue mode sw fname lib classs]. cbn [sc_select sc_fname sc_lib sc_classs sc_init sc_flow_mode sc_user_mode sc_restore_mode sc_block_mode sc_prescale sc_cue sc_select_mode] in *.
  destruct sw as [|w0 [|w1 [|w2 [|w3 [|w4 [|w5 [|? ?]]]]]]]; try done.
  repeat match goal with H : Forall _ (_ :: _) |- _ => apply Forall_cons in H as [? H] end.
  assert (is_int (strlen fname + 1)) by (by apply (strlen_int ET_FUNCNAME_LENGTH)).
  assert (is_int (strlen lib + 1)) by (by apply (strlen_int ET_FILENAME_LENGTH)).
  assert (is_int (strlen classs + 1)) by (by apply (strlen_int ET_FILENAME_LENGTH)).
  assert (is_int (strlen name + 1)) by (by apply (strlen_int ET_STATNAME_LENGTH)).
  apply (serves_ints ET_NET_STAT_CRAT [init; flow; user; rest; block; pre; cue; mode; w0; w1; w2; w3; w4; w5;
    strlen fname + 1; strlen lib + 1; strlen classs + 1; strlen name + 1; pos; ppos]); [done|].
  change (command_switch _ _ _ _ _) with (srv_stat_crat sid junk). unfold srv_stat_crat. rewrite sbind_read by done.
  change (Z.to_nat ET_STATION_SELECT_INTS) with 6%nat. unfold int_at. cbv zeta. cbn [Nat.add seq map nth].
  rewrite !int32_uint32, !int32_id by done.
  do 4 rewrite sbind_string by done. by rewrite sbind_call.
Qed.

Lemma create_through name sc pos ppos :
  c_string name -> config_sendable sc -> is_int pos -> is_int ppos ->
  et_station_create_at (R0 := networked) rid (Some name) true (Some sc) pos ppos ≡
    (let* r := et_station_create_at sid (Some name) true (Some sc) pos ppos in
     ret (wire_value (fun err => (err =? ET_OK) || (err =? ET_ERROR_EXISTS)) r)).
Proof.
  intros Hn Hs I1 I2. pose proof (create_served name sc pos ppos) as H. unfold et_station_create_at in H at 1. unfold et_station_create_at at 1 2.
  destruct (Z.ltb_spec (ET_STATNAME_LENGTH - 1) (strlen name)); [done|]. assert (string_sendable ET_STATNAME_LENGTH name) by (split; [done|lia]).
  repeat (match goal with |- (if ?b then _ else _) ≡ _ => destruct b; [done|] end). cbv zeta in *.
  rewrite remote_locality. by apply H.
Qed.

Lemma request_through {A} (rq : request A) :
  sendable rq -> request_call (R1 := networked) rq rid ≡ (let* r := served_call rq in ret (wire rq r)).
Proof.
  destruct rq; cbn [sendable request_call served_call wire]; intros H; destruct_and?.
  - by apply get_through.
  - by apply set_through.
  - by apply count_through.
  - apply total_through.
  - by apply remove_through.
  - by apply detach_through.
  - by apply isattached_through.
  - by apply getposition_through.
  - by apply exists_through.
  - by apply create_through.
  - by apply wake_attachment_through.
  - by apply wake_all_through.
Qed.

(** ** Results that the answers keep *)

(** The value is there when the status is [good], and both have their types. *)
Definition fits_value {V} (good : Z -> bool) (fit : V -> Prop) (r : Z * option V) : Prop :=
  is_int (fst r) /\ match snd r with Some v => good (fst r) = true /\ fit v | None => good (fst r) = false end.
Definition fits_words (l : list Z) : Prop := length l = Z.to_nat ET_STATION_SELECT_INTS /\ Forall is_int l.
Definition fits_get {A} (q : getting A) : Z * option A -> Prop :=
  match q with GtSelectwords => fits_value ok_status fits_words | _ => fits_value ok_status is_int end.
Definition fits_position (r : Z * option Z * option Z) : Prop :=
  let '(err, position, pposition) := r in
  fits_value ok_status is_int (err, position) /\ fits_value ok_status is_int (err, pposition).
Definition result_fits {A} (rq : request A) : A -> Prop :=
  match rq with
  | RqGet q _ => fits_get q
  | RqCount _ _ => fits_value ok_status (fun v => 0 <= v < 2 ^ 64)
  | RqTotal _ => fits_value ok_status is_int
  | RqSet _ _ | RqRemove _ | RqDetach _ | RqIsattached _ _ => is_int
  | RqGetposition _ => fits_position
  | RqExists _ => fits_value (fun err => err =? 1) is_int
  | RqCreateAt _ _ _ _ => fits_value (fun err => (err =? ET_OK) || (err =? ET_ERROR_EXISTS)) is_int
  | RqWakeAttachment n | RqWakeAll n => fun r => n < 0 \/ r = ET_OK
  end.

Lemma wire_value_fits good r : fits_value good is_int r -> wire_value good r = r.
Proof.
  destruct r as [err [v|]]; intros [I H]; unfold wire_value; cbn [fst snd] in *; rewrite int32_id by done.
  - destruct H as [-> H]. cbn. by rewrite int32_id.
  - by rewrite H.
Qed.

Lemma wire_count_fits r : fits_value ok_status (fun v => 0 <= v < 2 ^ 64) r -> wire_count r = r.
Proof.
  destruct r as [err [v|]]; intros [I H]; unfold wire_count; cbn [fst snd] in *; rewrite int32_id by done.
  - destruct H as [-> H]. cbn. unfold u64. by rewrite Z.mod_small.
  - by rewrite H.
Qed.

Lemma wire_words_fits r : fits_value ok_status fits_words r -> wire_words r = r.
Proof.
  destruct r as [err [v|]]; intros [I H]; unfold wire_words; cbn [fst snd] in *; rewrite int32_id by done.
  - destruct H as [-> [L F]]. do 2 f_equal. etransitivity; [|by apply nth_all]. apply map_ext_in. intros i Hi.
    apply in_seq in Hi. apply int32_id. eapply Forall_forall; [done|]. apply list_elem_of_In, nth_In. lia.
  - by rewrite H.
Qed.

Lemma wire_position_fits r : fits_position r -> wire_position r = r.
Proof.
  destruct r as [[err pos] ppos]. intros [[I H1] [_ H2]]. unfold wire_position, ok_status in *. cbn [fst snd] in *. rewrite int32_id by done.
  destruct (err =? ET_OK), pos, ppos; destruct_and?; try done. cbn. by rewrite !int32_id.
Qed.

Lemma wire_fits {A} (rq : request A) r : result_fits rq r -> wire rq r = r.
Proof.
  destruct rq; cbn [result_fits wire]; intros H.
  - destruct q; first [by apply wire_value_fits|by apply wire_words_fits].
  - by apply int32_id.
  - by apply wire_count_fits.
  - by apply wire_value_fits.
  - by apply int32_id.
  - by apply int32_id.
  - by apply int32_id.
  - by apply wire_position_fits.
  - by apply wire_value_fits.
  - by apply wire_value_fits.
  - destruct H as [H| ->]; [by rewrite (proj2 (Z.ltb_lt _ _) H)|by destruct (_ <? 0)].
  - destruct H as [H| ->]; [by rewrite (proj2 (Z.ltb_lt _ _) H)|by destruct (_ <? 0)].
Qed.

(** ** What the position of a station becomes *)

Lemma setposition_through s position pposition :
  is_int s -> is_int pposition -> is_int sent -> 0 < s -> position = ET_END \/ 0 < position ->
  pposition = ET_END \/ pposition = ET_NEWHEAD \/ 0 <= pposition ->
  et_station_setposition (R0 := networked) rid s position pposition
    ≡ (let* st := et_station_setposition sid s pposition sent in ret (int32 st)).
Proof.
  intros I1 I2 I3 Hs Hp Hq. unfold et_station_setposition at 1.
  destruct (Z.ltb_spec s 0); [lia|]. destruct (Z.eqb_spec s ET_GRANDCENTRAL) as [E|_]; [unfold ET_GRANDCENTRAL in E; lia|].
  replace (negb (position =? ET_END) && (position <? 0)) with false
    by (destruct Hp as [->|Hp]; [done|destruct (Z.ltb_spec position 0); [lia|by rewrite andb_false_r]]).
  replace (position =? 0) with false by (destruct Hp as [->|Hp]; [done|destruct (Z.eqb_spec position 0); [lia|done]]).
  replace (negb (pposition =? ET_END) && negb (pposition =? ET_NEWHEAD) && (pposition <? 0)) with false
    by (destruct Hq as [->|[->|Hq]]; [done..|destruct (Z.ltb_spec pposition 0); [lia|by rewrite andb_false_r]]).
  rewrite remote_locality.
  eapply (serves_status ET_NET_STAT_SPOS [s; pposition; sent] _ (fun ws => et_station_setposition sid (int_at ws 0) (int_at ws 1) (int_at ws 2))); [done|done|].
  rewrite !int_at_uint32 by (cbn; lia). cbn [nth]. by rewrite !int32_id.
Qed.
End remote_spec.

(** ** The properties *)

(** C12: a remote client gets what a local one would get, with the requests of [request]: those that read or
    set a value of a station, count events, detach, make, find or remove a station, ask for its position, and
    wake up.  Such a call with the id of a remote client whose requests the server works off acts on the
    memory as the same call with the server's id of this client does, for every behaviour of that call, and
    returns its result; the arguments are values of their types, and the result comes back unchanged when it
    is a value of its type.  The calls that wake up are an exception: they return ET_OK whatever the
    server's call returned, as the code says and their documentation does not.  Not among these requests are
    et_station_setposition (C14), attaching, the names of selection functions, and the events. *)
Theorem remote_transparency `{R0 : Remote} `{O0 : Os} `{C0 : RemoteClose} (sid rid : et_id) junk srv_events srv_data
    pid host ip sent {A} (rq : request A) :
  id_locality rid = ET_REMOTE -> id_init rid = id_init sid -> sendable rq ->
  request_call (R1 := networked sid junk srv_events srv_data pid host ip sent) rq rid
    ≡ (let* r := served_call sid rq in ret (wire junk rq r)) /\
  (forall r, result_fits rq r -> wire junk rq r = r) /\
  (forall n, is_int n -> 0 <= n ->
     et_wakeup_attachment (R0 := networked sid junk srv_events srv_data pid host ip sent) rid n
       ≡ (et_wakeup_attachment sid n ;;; ret ET_OK) /\
     et_wakeup_all (R0 := networked sid junk srv_events srv_data pid host ip sent) rid n
       ≡ (et_wakeup_all sid n ;;; ret ET_OK)).
Proof.
  intros L I H. split_and!; [by apply request_through|intros r; apply wire_fits|]. intros n In Hn.
  assert (X : forall v, (if n <? 0 then v else ET_OK) = ET_OK) by (intros v; by destruct (Z.ltb_spec n 0); [lia|]).
  split; [etransitivity; [by apply wake_attachment_through|]|etransitivity; [by apply wake_all_through|]];
    (apply bind_proper; [done|]; intros v; by rewrite X).
Qed.

(** C14: a remote client cannot move a station to the position it asks for: the request carries the position
    in the group in the place of the position, and a word of the stack in the place of the position in the
    group. *)
Theorem remote_setposition_misplaces `{R0 : Remote} `{O0 : Os} `{C0 : RemoteClose} (sid rid : et_id) junk srv_events srv_data
    pid host ip sent s position pposition :
  id_locality rid = ET_REMOTE -> is_int s -> is_int pposition -> is_int sent -> 0 < s ->
  position = ET_END \/ 0 < position -> pposition = ET_END \/ pposition = ET_NEWHEAD \/ 0 <= pposition ->
  et_station_setposition (R0 := networked sid junk srv_events srv_data pid host ip sent) rid s position pposition
    ≡ (let* st := et_station_setposition sid s pposition sent in ret (int32 st)).
Proof. intros L. by apply setposition_through. Qed.

(** A client on another node than the system of the samples. *)
#[local] Instance os0 : Os := {| getpid := 7; etNetLocalHost := Some "server"%string |}.
#[local] Instance close0 : RemoteClose :=
  let no := fun _ : et_id => ret (ET_ERROR_REMOTE, None) in
  {| etr_close := no; etr_forcedclose := no; etr_kill := no; etn_close := no; etn_forcedclose := no; etn_kill := no |}.
Definition rid0 : et_id := set_id_locality ET_REMOTE id0.
Definition no_commands (command : Z) : SM unit := goto_end.
Definition network0 : Remote := networked id0 (-77) no_commands no_commands 4321 (Some "client"%string) None 99.

Lemma remote_transparency_witness :
  (exists x, run (request_call (R1 := network0) (RqGet GtCue 1) rid0) mem0 = Ok (ET_OK, Some 10) x mem0) /\
  (exists x, run (request_call (R1 := network0) (RqExists "nothing") rid0) mem0 = Ok (0, None) x mem0) /\
  (exists x m', run (request_call (R1 := network0) (RqSet (StCue 7) 1) rid0) mem0 = Ok ET_OK x m' /\
     m' = upd_stat 1 (set_st_config (set_sc_cue 7 config0)) mem0).
Proof.
  split_and!.
  - destruct (remote_transparency id0 rid0 (-77) no_commands no_commands 4321 (Some "client"%string) None 99 (RqGet GtCue 1)) as [E _]; [done|done|done|].
    unfold run, network0. rewrite (E _ _). by eexists.
  - destruct (remote_transparency id0 rid0 (-77) no_commands no_commands 4321 (Some "client"%string) None 99 (RqExists "nothing")) as [E _]; [done|done| |].
    { split; [cbn; split_and!; done|done]. }
    unfold run, network0. rewrite (E _ _). by eexists.
  - destruct (remote_transparency id0 rid0 (-77) no_commands no_commands 4321 (Some "client"%string) None 99 (RqSet (StCue 7) 1)) as [E _]; [done|done|done|].
    unfold run, network0. rewrite (E _ _). eexists _, _. split; [reflexivity|by vm_compute].
Defined.

Lemma remote_setposition_misplaces_witness :
  run (et_station_setposition (R0 := network0) rid0 1 2 ET_END) mem0 =
  run (let* st := et_station_setposition id0 1 ET_END 99 in ret (int32 st)) mem0.
Proof.
  assert (E : is_int 1 /\ is_int ET_END /\ is_int 99) by (unfold is_int, ET_END; lia). destruct E as (I1 & I2 & I3).
  refine (remote_setposition_misplaces id0 rid0 (-77) no_commands no_commands 4321 (Some "client"%string) None 99 1 2 ET_END
    eq_refl I1 I2 I3 _ (or_intror _) (or_introl eq_refl) _ _); lia.
Defined.
