(* ===== verification/ServerEvents.v ===== *)
(** * The server's commands for clients on its own node

    Where processes cannot share mutexes, a client maps the shared memory for the data of the events,
    and the server of the ET system takes and puts the events for it (et_command_loop_system of et_server.c,
    the commands that end in _L).  [sid] is the id of the ET system.  The integers and pointers of these
    messages are copied as they are in memory; the client runs on the same node, so that only the width of
    the words counts, and the order of their bytes is that of a little-endian machine with pointers of
    eight bytes. *)
From stdpp Require Import base gmap strings list.
From S2P Require Import Prelude Types Machine EvList Sample Stats Api Temp EventApi Wire Client Server.
Open Scope Z_scope.

Definition ET_NET_EV_GET_L : Z := 0.
Definition ET_NET_EVS_GET_L : Z := 1.
Definition ET_NET_EV_PUT_L : Z := 2.
Definition ET_NET_EVS_PUT_L : Z := 3.
Definition ET_NET_EV_NEW_L : Z := 4.
Definition ET_NET_EVS_NEW_L : Z := 5.
Definition ET_NET_EV_DUMP_L : Z := 6.
Definition ET_NET_EVS_DUMP_L : Z := 7.
Definition ET_NET_EVS_NEW_GRP_L : Z := 8.

(** ** Words as they are in memory *)

Definition native (z : Z) : list Z := rev (htonl z).
Definition natives (zs : list Z) : list Z := concat (map native zs).
(** The int number [i] of a message. *)
Definition native_at (bs : list Z) (i : nat) : Z := int32 (ntohl (rev (take 4 (drop (4 * i) bs)))).

(** A pointer, whose low half comes first. *)
Definition pointer (p : Z) : list Z := native (ET_LOWINT p) ++ native (ET_HIGHINT p).
Definition pointers (ps : list Z) : list Z := concat (map pointer ps).
Definition pointer_of (bs : list Z) : Z := ET_64BIT_UINT (ntohl (rev (take 4 (drop 4 bs)))) (ntohl (rev (take 4 bs))).
Fixpoint pointers_of (n : nat) (bs : list Z) : list Z :=
  match n with
  | O => []
  | S n' => pointer_of (take 8 bs) :: pointers_of n' (drop 8 bs)
  end.

(** Two ints of a message that are the halves of a pointer or of a size. *)
Definition ET_64BIT_P (hi lo : Z) : Z := ET_64BIT_UINT hi lo.

Section server_events.
Context `{R0 : Remote} `{R1 : RemoteEvents} `{K0 : Kernel}.
Context (sid : et_id).

(** ** Waiting on behalf of a client *)

(** The attachment does not sleep any more. *)
Definition awake (att : Z) : M unit :=
  str_attach att (set_at_sleep ET_ATT_NOSLEEP) ;;; str_attach att (set_at_quit ET_ATT_CONTINUE).

(** [true] if the attachment shall wake up; then it is told so. *)
Definition to_wake (att : Z) : M bool :=
  let* a := ld_attach att in
  if at_quit a =? ET_ATT_QUIT then awake att ;;; ret true else ret false.

(** select on the socket: there is something to read, or the connection is closed. *)
Definition readable : SM bool := fun c =>
  ret (Go (negb (match cn_in c with [] => true | _ => false end) || negb (cn_open c)), c).

Definition three_seconds : timespec := mkTimespec 3 0.

(** while (err == ET_ERROR_TIMEOUT); [f] is the call, with its way to wait and the time. *)
Fixpoint served_sleep {A} (n : nat) (att : Z) (none : A) (f : Z -> option timespec -> M (Z * A)) : SM (Z * A) :=
  match n with
  | O => call diverge
  | S n' =>
      let! wake := call (to_wake att) in
      if (wake : bool) then sret (ET_ERROR_WAKEUP, none)
      else
        let! r := call (f ET_TIMED (Some three_seconds)) in
        if fst r =? ET_ERROR_TIMEOUT then
          let! broken := readable in
          if (broken : bool) then goto_end else served_sleep n' att none f
        else let! _ := call (awake att) in sret r
  end.

(** Each round but the last uses up a wake-up of the context. *)
Definition sleep_rounds {A} (att : Z) (none : A) (f : Z -> option timespec -> M (Z * A)) : SM (Z * A) :=
  fun c x m => served_sleep (S (length (cx_wakes x))) att none f c x m.

(** The three ways to wait; [none] is what the variables hold when nothing is called. *)
Definition served_wait {A} (att mode : Z) (deltatime : timespec) (none : A)
    (f : Z -> option timespec -> M (Z * A)) : SM (Z * A) :=
  if mode =? ET_TIMED then
    let! _ := call (str_attach att (set_at_sleep ET_ATT_SLEEP)) in
    let! wake := call (to_wake att) in
    if (wake : bool) then sret (ET_ERROR_WAKEUP, none) else call (f mode (Some deltatime))
  else if mode =? ET_SLEEP then
    let! _ := call (str_attach att (set_at_sleep ET_ATT_SLEEP)) in sleep_rounds att none f
  else call (f mode None).

(** ** The commands *)

(** An array of [n] ints. *)
Definition sread_natives (n : nat) : SM (list Z) :=
  let! bs := sread (4 * Z.of_nat n) (4 * Z.of_nat n) in sret (map (native_at bs) (seq 0 n)).
Definition at_ (ws : list Z) (i : nat) : Z := nth i ws 0.

(** The pointer to an event, NULL when there is none. *)
Definition one_event (es : list Z) : Z := hd NULL es.

Definition srv_ev_get_l : SM unit :=
  let! ws := sread_natives 4 in
  let att := at_ ws 0 in
  let! (err, es) := served_wait att (at_ ws 1) (mkTimespec (at_ ws 2) (at_ ws 3)) []
    (fun wait deltatime => et_event_get sid att true wait deltatime) in
  swrite (natives [err; ET_HIGHINT (one_event es); ET_LOWINT (one_event es)]).

(** A status that is negative is sent alone, the events after their number. *)
Definition reply_events (r : Z * (list Z * Z)) : SM unit :=
  let '(err, (events, nevents)) := r in
  if err <? 0 then swrite (native err)
  else swrite (native nevents ++ pointers (take (Z.to_nat nevents) events)).

(** The results of the functions for several events. *)
Definition several (p : M (Z * list Z * Z)) : M (Z * (list Z * Z)) :=
  let* (status, pes, nread) := p in ret (status, (pes, nread)).

Definition srv_evs_get_l : SM unit :=
  let! ws := sread_natives 5 in
  let att := at_ ws 0 in
  let num := at_ ws 2 in
  let! r := served_wait att (at_ ws 1) (mkTimespec (at_ ws 3) (at_ ws 4)) ([], 0)
    (fun wait deltatime => several (et_events_get sid att true wait deltatime num)) in
  reply_events r.

Definition not_null (p : Z) : option Z := if p =? NULL then None else Some p.

(** The array of pointers has as many elements as the system has events. *)
Definition sread_events (nevents : Z) : SM (list Z) :=
  let! y := call ld_sys in
  let! bs := sread (8 * cf_nevents (sys_config y)) (8 * nevents) in
  sret (pointers_of (Z.to_nat nevents) bs).

Definition srv_ev_put_l : SM unit :=
  let! ws := sread_natives 3 in
  let! err := call (et_event_put sid (at_ ws 0) (not_null (ET_64BIT_P (at_ ws 1) (at_ ws 2)))) in
  swrite (native err).

Definition srv_evs_put_l : SM unit :=
  let! ws := sread_natives 2 in
  let! events := sread_events (at_ ws 1) in
  let! err := call (et_events_put sid (at_ ws 0) true events (at_ ws 1)) in
  swrite (native err).

Definition srv_ev_new_l : SM unit :=
  let! ws := sread_natives 6 in
  let att := at_ ws 0 in
  let size := ET_64BIT_UINT (at_ ws 2) (at_ ws 3) in
  let! (err, es) := served_wait att (at_ ws 1) (mkTimespec (at_ ws 4) (at_ ws 5)) []
    (fun mode deltatime => et_event_new sid att true mode deltatime size) in
  let event := if err =? ET_OK then one_event es else 0 in
  swrite (natives [err; ET_HIGHINT event; ET_LOWINT event]).

Definition srv_evs_new_l : SM unit :=
  let! ws := sread_natives 7 in
  let att := at_ ws 0 in
  let size := ET_64BIT_UINT (at_ ws 2) (at_ ws 3) in
  let num := at_ ws 4 in
  let! r := served_wait att (at_ ws 1) (mkTimespec (at_ ws 5) (at_ ws 6)) ([], 0)
    (fun mode deltatime => several (et_events_new sid att true mode deltatime size num)) in
  reply_events r.

Definition srv_evs_new_grp_l : SM unit :=
  let! ws := sread_natives 8 in
  let att := at_ ws 0 in
  let size := ET_64BIT_UINT (at_ ws 2) (at_ ws 3) in
  let num := at_ ws 4 in
  let group := at_ ws 5 in
  let! r := served_wait att (at_ ws 1) (mkTimespec (at_ ws 6) (at_ ws 7)) ([], 0)
    (fun mode deltatime => several (et_events_new_group sid att true mode deltatime size num group)) in
  reply_events r.

Definition srv_ev_dump_l : SM unit :=
  let! ws := sread_natives 3 in
  let! err := call (et_event_dump sid (at_ ws 0) (not_null (ET_64BIT_P (at_ ws 1) (at_ ws 2)))) in
  swrite (native err).

Definition srv_evs_dump_l : SM unit :=
  let! ws := sread_natives 2 in
  let! events := sread_events (at_ ws 1) in
  let! err := call (et_events_dump sid (at_ ws 0) true events (at_ ws 1)) in
  swrite (native err).

(** The commands for clients on the same node; [others] are those for events over the network. *)
Definition srv_local_events (others : Z -> SM unit) (command : Z) : SM unit :=
  if command =? ET_NET_EV_GET_L then srv_ev_get_l
  else if command =? ET_NET_EVS_GET_L then srv_evs_get_l
  else if command =? ET_NET_EV_PUT_L then srv_ev_put_l
  else if command =? ET_NET_EVS_PUT_L then srv_evs_put_l
  else if command =? ET_NET_EV_NEW_L then srv_ev_new_l
  else if command =? ET_NET_EVS_NEW_L then srv_evs_new_l
  else if command =? ET_NET_EVS_NEW_GRP_L then srv_evs_new_grp_l
  else if command =? ET_NET_EV_DUMP_L then srv_ev_dump_l
  else if command =? ET_NET_EVS_DUMP_L then srv_evs_dump_l
  else others command.
End server_events.
