(* ===== verification/NoShare.v ===== *)
(** * Clients that share the memory but not its mutexes

    et_noshare.c: the functions for events of a process that maps the shared memory and asks the server of
    the ET system on the same node for everything that needs a mutex.  The requests are conversations, as in
    Client; [through] carries them out.  Afterwards the process sets up the data of the events itself.
    etn_open is not in this file. *)
From stdpp Require Import base gmap strings list.
From S2P Require Import Prelude Types Machine EvList Sample Stats Api Temp EventApi Wire Client Process Server ServerEvents.
Open Scope Z_scope.

Definition ET_PDATA2ET (p offset : Z) : Z := p - offset.

(** ** Requests *)

(** A request whose answer is a status and the halves of a pointer. *)
Definition ask_event (bs : list Z) : net (Z * Z) :=
  transact bs 12 (ET_ERROR_WRITE, NULL) (ET_ERROR_READ, NULL) (fun incoming =>
    let err := native_at incoming 0 in
    if negb (err =? ET_OK) then (err, NULL) else (err, ET_64BIT_P (native_at incoming 1) (native_at incoming 2))).

(** A request whose answer is a negative status, or the number of events and their pointers. *)
Definition ask_events (bs : list Z) : net (Z * list Z) :=
  Lock (Write bs (fun written =>
    if negb written then Unlock (Done (ET_ERROR_WRITE, []))
    else Read 4 (fun answer =>
      match answer with
      | None => Unlock (Done (ET_ERROR_READ, []))
      | Some buf =>
          let err := native_at buf 0 in
          if err <? 0 then Unlock (Done (err, []))
          else
            let nevents := err in
            Read (8 * nevents) (fun answer =>
              match answer with
              | None => Unlock (Done (ET_ERROR_READ, []))
              | Some evs => Unlock (Done (ET_OK, pointers_of (Z.to_nat nevents) evs))
              end)
      end))).

(** A request with a status as its answer; the network's own errors are told apart. *)
Definition ask_native (bs : list Z) : net (Z + Z) :=
  transact bs 4 (inl ET_ERROR_WRITE) (inl ET_ERROR_READ) (fun buf => inr (native_at buf 0)).

(** The time, zeros when there is none. *)
Definition sent_time (deltatime : option timespec) : list Z :=
  match deltatime with Some d => [tv_sec d; tv_nsec d] | None => [0; 0] end.

Definition etn_request (com : Z) (args : list Z) : list Z := htonl com ++ natives args.

(** ** The data of events *)

Section noshare.
Context `{K0 : Kernel}.
Context (through : forall A, net A -> M A) (malloc_ok : bool).
Arguments through {A}.

(** The event at [p] of this process: its data are in the memory that is mapped already, or in a file to
    map; [false] if it cannot be. *)
Definition map_data (off p : Z) : M bool :=
  let* e := ld_ev off p in
  if negb (ev_temp e =? ET_EVENT_TEMP) then
    str_ev off p (set_ev_pdata (ET_PDATA2USR (ev_data e) off)) ;;; ret true
  else
    str_ev off p (set_ev_tempdata (ev_pdata e)) ;;;
    let* pdata := et_temp_attach (ev_filename e) (ev_memsize e) in
    if pdata =? NULL then ret false
    else str_ev off p (set_ev_pdata pdata) ;;; ret true.

(** The pointers are in the ET system's space; [false] and the array as it is when data cannot be mapped. *)
Fixpoint map_loop (off : Z) (ps : list Z) : M (bool * list Z) :=
  match ps with
  | [] => ret (true, [])
  | p :: ps' =>
      let p' := ET_PEVENT2USR p off in
      let* ok := map_data off p' in
      if negb ok then ret (false, p' :: ps')
      else let* (ok, qs) := map_loop off ps' in ret (ok, p' :: qs)
  end.

Definition one_mapped (id : et_id) (r : Z * Z) : M (Z * list Z) :=
  let '(err, p) := r in
  if negb (err =? ET_OK) then ret (err, [])
  else
    let ev := ET_PEVENT2USR p (id_offset id) in
    let* ok := map_data (id_offset id) ev in
    ret (if ok then ET_OK else ET_ERROR_REMOTE, [ev]).

Definition all_mapped (id : et_id) (r : Z * list Z) : M (Z * list Z * Z) :=
  let '(err, ps) := r in
  if negb (err =? ET_OK) then ret (err, [], 0)
  else
    let* (ok, evs) := map_loop (id_offset id) ps in
    ret (if ok then (ET_OK, evs, Z.of_nat (length ps)) else (ET_ERROR_REMOTE, evs, 0)).

Definition etn_event_get (id : et_id) (att mode : Z) (deltatime : option timespec) : M (Z * list Z) :=
  let* r := through (ask_event (etn_request ET_NET_EV_GET_L ([att; mode] ++ sent_time deltatime))) in
  one_mapped id r.
Definition etn_events_get (id : et_id) (att mode : Z) (deltatime : option timespec) (num : Z) : M (Z * list Z * Z) :=
  let* r := through (ask_events (etn_request ET_NET_EVS_GET_L ([att; mode; num] ++ sent_time deltatime))) in
  all_mapped id r.
Definition etn_event_new (id : et_id) (att mode : Z) (deltatime : option timespec) (size : Z) : M (Z * list Z) :=
  let* r := through (ask_event (etn_request ET_NET_EV_NEW_L ([att; mode; ET_HIGHINT size; ET_LOWINT size] ++ sent_time deltatime))) in
  one_mapped id r.
Definition etn_events_new (id : et_id) (att mode : Z) (deltatime : option timespec) (size num : Z) : M (Z * list Z * Z) :=
  let* r := through (ask_events (etn_request ET_NET_EVS_NEW_L
    ([att; mode; ET_HIGHINT size; ET_LOWINT size; num] ++ sent_time deltatime))) in
  all_mapped id r.
Definition etn_events_new_group (id : et_id) (att mode : Z) (deltatime : option timespec) (size num group : Z) :
    M (Z * list Z * Z) :=
  let* r := through (ask_events (etn_request ET_NET_EVS_NEW_GRP_L
    ([att; mode; ET_HIGHINT size; ET_LOWINT size; num; group] ++ sent_time deltatime))) in
  all_mapped id r.

(** ** Giving events back *)

(** The data pointer of the ET system is restored; [false] if a temporary event cannot be unmapped. *)
Definition unmap_data (off p : Z) : M bool :=
  let* e := ld_ev off p in
  if negb (ev_temp e =? ET_EVENT_TEMP) then
    str_ev off p (set_ev_pdata (ET_PDATA2ET (ev_pdata e) off)) ;;; ret true
  else
    let* st := sys_munmap (ev_pdata e) (ev_memsize e) in
    if negb (st =? 0) then ret false
    else str_ev off p (fun e => set_ev_pdata (ev_tempdata e) e) ;;; ret true.

Fixpoint unmap_loop (off : Z) (evs : list Z) : M bool :=
  match evs with
  | [] => ret true
  | p :: evs' => let* ok := unmap_data off p in if negb ok then ret false else unmap_loop off evs'
  end.

(** The data pointers of the process again, but for those of temporary events. *)
Fixpoint remap_loop (off : Z) (evs : list Z) : M unit :=
  match evs with
  | [] => ret tt
  | p :: evs' =>
      let* e := ld_ev off p in
      (if negb (ev_temp e =? ET_EVENT_TEMP) then str_ev off p (set_ev_pdata (ET_PDATA2USR (ev_pdata e) off)) else ret tt) ;;;
      remap_loop off evs'
  end.

(** The end of the functions: the server's status, or an error of the network after the data pointers
    are restored. *)
Definition given_back (off : Z) (evs : list Z) (r : Z + Z) : M Z :=
  match r with
  | inl err => remap_loop off evs ;;; ret err
  | inr err => ret err
  end.

(** The data are not longer than the memory for them. *)
Fixpoint lengths_fit (off : Z) (evs : list Z) : M bool :=
  match evs with
  | [] => ret true
  | p :: evs' => let* e := ld_ev off p in if ev_memsize e <? ev_length e then ret false else lengths_fit off evs'
  end.

Definition give_one (id : et_id) (com att ev : Z) : M Z :=
  let off := id_offset id in
  let* ok := unmap_data off ev in
  if negb ok then ret ET_ERROR_REMOTE
  else
    let p := ET_PEVENT2ET ev off in
    let* r := through (ask_native (etn_request com [att; ET_HIGHINT p; ET_LOWINT p])) in
    given_back off [ev] r.

Definition give_all (id : et_id) (com att : Z) (evs : list Z) : M Z :=
  let off := id_offset id in
  if negb malloc_ok then ret ET_ERROR_REMOTE
  else
    let* ok := unmap_loop off evs in
    if negb ok then ret ET_ERROR_REMOTE
    else
      let* r := through (ask_native (etn_request com [att; Z.of_nat (length evs)] ++
        pointers (map (fun ev => ET_PEVENT2ET ev off) evs))) in
      given_back off evs r.

Definition etn_event_put (id : et_id) (att ev : Z) : M Z :=
  let* ok := lengths_fit (id_offset id) [ev] in
  if negb ok then ret ET_ERROR else give_one id ET_NET_EV_PUT_L att ev.
Definition etn_events_put (id : et_id) (att : Z) (evs : list Z) : M Z :=
  let* ok := lengths_fit (id_offset id) evs in
  if negb ok then ret ET_ERROR else give_all id ET_NET_EVS_PUT_L att evs.
Definition etn_event_dump (id : et_id) (att ev : Z) : M Z := give_one id ET_NET_EV_DUMP_L att ev.
Definition etn_events_dump (id : et_id) (att : Z) (evs : list Z) : M Z := give_all id ET_NET_EVS_DUMP_L att evs.
End noshare.

(** ** Is the system alive? *)

(** The conversation of etn_alive: after a request that could not be written, the mutex is released a
    second time; nothing when the socket fails. *)
Definition ask_alive : net (option Z) :=
  Lock (Write (ints [ET_NET_ALIVE]) (fun written =>
    let read : net (option Z) := Read 4 (fun ans =>
      match ans with
      | None => Unlock (Unlock (Done None))
      | Some alive => Unlock (Done (if written then Some (answer alive 0) else None))
      end) in
    if negb written then Unlock read else read)).

(** Without an answer the heartbeat is watched in the shared memory. *)
Definition etn_alive (through : forall A, net A -> M A) : M Z :=
  let* r := through _ ask_alive in
  match r with
  | Some alive => ret alive
  | None =>
      let* y := ld_sys in
      let oldheartbt := sys_heartbeat y in
      nanosleep ;;;
      let* y := ld_sys in
      let newheartbt := sys_heartbeat y in
      ret (if oldheartbt =? newheartbt then 0 else 1)
  end.

(** Even without a failure of the first write the mutex is released twice after a read that failed. *)
Lemma ask_alive_releases_twice : ~ releases false ask_alive.
Proof. cbn. intros (_ & _ & H). destruct (H true) as [_ H1]. destruct (H1 None) as [_ [X _]]. done. Qed.

(** ** Closing *)

(** The mapping of the shared memory is at [pmap], [memsize] bytes long; then the connection is closed. *)
Module Etn.
Section close.
Context `{K0 : Kernel} `{C0 : RemoteClose} (pmap memsize : et_id -> Z).

Definition unmapped_then (id : et_id) (close : et_id -> M (Z * option et_id)) : M (Z * option et_id) :=
  let* st := sys_munmap (pmap id) (memsize id) in
  if negb (st =? 0) then ret (ET_ERROR_REMOTE, Some id) else close id.

Definition etn_close (id : et_id) : M (Z * option et_id) := unmapped_then id etr_close.
Definition etn_forcedclose (id : et_id) : M (Z * option et_id) := unmapped_then id etr_forcedclose.
Definition etn_kill (id : et_id) : M (Z * option et_id) := unmapped_then id etr_kill.
End close.
End Etn.
