(* ===== verification/NoShareSpec.v ===== *)
(** * Events through the server of the own node

    A client that shares the memory but not its mutexes gets the events that the server takes for it, with
    addresses of its own mapping and their data within its reach, and the events that it gives back reach
    the server. *)
From stdpp Require Import base gmap strings list.
From S2P Require Import Prelude Types Machine EvList Sample StatConfig Stats Chain Api StationApi Init Station Attachment SysConfig Temp EventApi EventSpec Wire Client Process Server Session RemoteSpec ServerEvents NoShare.
Open Scope Z_scope.

(** ** Words and pointers *)

Lemma native_length z : length (native z) = 4%nat.
Proof. done. Qed.
Lemma natives_length zs : length (natives zs) = (4 * length zs)%nat.
Proof. unfold natives. induction zs as [|z zs IH]; [done|]. cbn [map concat length]. rewrite length_app, IH, native_length. lia. Qed.
Lemma natives_cons z zs : natives (z :: zs) = native z ++ natives zs.
Proof. done. Qed.

Lemma native_back z : ntohl (rev (native z)) = uint32 z.
Proof. unfold native. by rewrite rev_involutive, ntohl_htonl. Qed.

Lemma native_at_natives zs i r : (i < length zs)%nat -> native_at (natives zs ++ r) i = int32 (nth i zs 0).
Proof.
  revert i. induction zs as [|z zs IH]; intros i H; cbn [length] in H; [lia|]. rewrite natives_cons. destruct i as [|i]; unfold native_at.
  - change (4 * 0)%nat with 0%nat. rewrite drop_0, <- app_assoc, take_app_length', native_back by done. apply int32_uint32.
  - replace (4 * S i)%nat with (4 + 4 * i)%nat by lia. rewrite <- drop_drop, <- app_assoc, (drop_app_length' (native z)) by done. apply IH. lia.
Qed.

Lemma native_at_one z : native_at (native z) 0 = int32 z.
Proof. rewrite <- (app_nil_r (native z)). apply (native_at_natives [z] 0 []). cbn. lia. Qed.

Lemma sbind_natives {B} zs r o b n (f : list Z -> SM B) : n = length zs ->
  sbind (sread_natives n) f (mkConn (natives zs ++ r) o b) = f (map int32 zs) (mkConn r o b).
Proof.
  intros ->. unfold sread_natives, sbind. replace (4 * Z.of_nat (length zs)) with (Z.of_nat (length (natives zs))) by (rewrite natives_length; lia).
  rewrite sread_app by lia. unfold bind, ret, sret. unfold ret. replace (map (native_at (natives zs)) (seq 0 (length zs))) with (map int32 zs); [done|].
  transitivity (map (fun i => int32 (nth i zs 0)) (seq 0 (length zs))).
  - rewrite <- (map_map (fun i => nth i zs 0) int32). by rewrite nth_all.
  - apply map_ext_in. intros i Hi. apply in_seq in Hi. rewrite <- (app_nil_r (natives zs)). by rewrite native_at_natives by lia.
Qed.

Lemma pointer_length p : length (pointer p) = 8%nat.
Proof. done. Qed.
Lemma pointers_length ps : length (pointers ps) = (8 * length ps)%nat.
Proof. unfold pointers. induction ps as [|p ps IH]; [done|]. cbn [map concat length]. rewrite length_app, IH, pointer_length. lia. Qed.

Lemma pointer_back p : pointer_of (pointer p) = u64 p.
Proof.
  unfold pointer_of, pointer. rewrite drop_app_length', (take_app_length' (native (ET_LOWINT p))) by done.
  rewrite <- (app_nil_r (native (ET_HIGHINT p))), take_app_length', !native_back by done. apply halves_back.
Qed.

Lemma pointers_back ps r n : n = length ps -> pointers_of n (pointers ps ++ r) = map u64 ps.
Proof.
  intros ->. unfold pointers. induction ps as [|p ps IH]; [done|]. cbn [map concat length pointers_of]. rewrite <- app_assoc.
  rewrite take_app_length', drop_app_length' by done. by rewrite pointer_back, IH.
Qed.

Lemma sbind_assoc {A B C} (p : SM A) (g : A -> SM B) (f : B -> SM C) c :
  sbind (sbind p g) f c ≡ sbind p (fun a => sbind (g a) f) c.
Proof. intros x m. unfold sbind, bind. by destruct (p c x m) as [[[] ?] ? ?|?|?| |]. Qed.

(** ** A result that the client makes something of *)

(** [q] goes on with [f] where [p] returns something with [P], and does the same as [p] where that does not
    return. *)
Definition follows {A B} (p : M A) (P : A -> Prop) (f : A -> M B) (q : M B) : Prop :=
  forall x m,
    match p x m with
    | Ok a x' m' => P a -> q x m = f a x' m'
    | Crashed m' => q x m = Crashed m'
    | Blocked m' => q x m = Blocked m'
    | Fault => q x m = Fault
    | Diverged => q x m = Diverged
    end.

Lemma follows_bind {A B C} (p : M A) P (f : A -> M B) q (g : B -> M C) :
  follows p P f q -> follows p P (fun a => let* b := f a in g b) (let* b := q in g b).
Proof. intros H x m. specialize (H x m). unfold bind. destruct (p x m); try (by rewrite H). intros Pa. by rewrite H. Qed.

Lemma follows_equiv {A B} (p p' : M A) P (f : A -> M B) q q' : p ≡ p' -> q ≡ q' -> follows p P f q -> follows p' P f q'.
Proof. intros E1 E2 H x m. specialize (H x m). rewrite (E1 x m) in H. destruct (p' x m); by rewrite <- (E2 x m). Qed.

(** ** Waiting while the client is silent *)

Section waited.
Context `{R0 : Remote}.

(** [served_sleep] without the look at the socket. *)
Fixpoint waited_loop {A} (n : nat) (att : Z) (none : A) (f : Z -> option timespec -> M (Z * A)) : M (Z * A) :=
  match n with
  | O => diverge
  | S n' =>
      let* wake := to_wake att in
      if (wake : bool) then ret (ET_ERROR_WAKEUP, none)
      else
        let* r := f ET_TIMED (Some three_seconds) in
        if fst r =? ET_ERROR_TIMEOUT then waited_loop n' att none f
        else awake att ;;; ret r
  end.

(** What the server calls for a client that waits for the answer. *)
Definition waited {A} (att mode : Z) (deltatime : timespec) (none : A) (f : Z -> option timespec -> M (Z * A)) : M (Z * A) :=
  if mode =? ET_TIMED then
    str_attach att (set_at_sleep ET_ATT_SLEEP) ;;;
    let* wake := to_wake att in
    if (wake : bool) then ret (ET_ERROR_WAKEUP, none) else f mode (Some deltatime)
  else if mode =? ET_SLEEP then
    str_attach att (set_at_sleep ET_ATT_SLEEP) ;;; with_wakes (fun n => waited_loop n att none f)
  else f mode None.

Lemma served_sleep_waited {A} n att (none : A) f o :
  served_sleep n att none f (mkConn [] o true) ≡ (let* r := waited_loop n att none f in ret (Go r, mkConn [] o true)).
Proof.
  induction n as [|n IH]; [done|]. cbn [served_sleep waited_loop]. rewrite sbind_call, bind_bind. apply bind_proper; [done|].
  intros []; [done|]. rewrite sbind_call, bind_bind. apply bind_proper; [done|]. intros r. destruct (fst r =? ET_ERROR_TIMEOUT); [exact IH|].
  by rewrite sbind_call, bind_bind.
Qed.

Lemma served_wait_waited {A} att mode dt (none : A) f o :
  served_wait att mode dt none f (mkConn [] o true) ≡ (let* r := waited att mode dt none f in ret (Go r, mkConn [] o true)).
Proof.
  unfold served_wait, waited. destruct (mode =? ET_TIMED); [|destruct (mode =? ET_SLEEP); [|done]].
  - rewrite sbind_call, bind_bind. apply bind_proper; [done|]. intros _. rewrite sbind_call, bind_bind. apply bind_proper; [done|]. by intros [].
  - rewrite sbind_call, bind_bind. apply bind_proper; [done|]. intros _ x m. unfold sleep_rounds. rewrite (served_sleep_waited _ _ _ _ _ x m).
    by unfold with_wakes, bind.
Qed.

Lemma sbind_waited {A B} att mode dt (none : A) f (g : Z * A -> SM B) o :
  sbind (served_wait att mode dt none f) g (mkConn [] o true) ≡ (let* r := waited att mode dt none f in g r (mkConn [] o true)).
Proof. unfold sbind. rewrite (served_wait_waited att mode dt none f o), bind_bind. by apply bind_proper. Qed.
End waited.

Section noshare_spec.
Context `{R0 : Remote} `{R1 : RemoteEvents} `{O0 : Os} `{K0 : Kernel} `{C0 : RemoteClose}.
Context (sid : et_id) (junk : Z) (others srv_data : Z -> SM unit).

(** The loop of the server with the commands for clients on its own node. *)
Definition nearby {A} (p : net A) : M A := converse sid junk (srv_local_events sid others) srv_data p.

#[local] Abbreviation serves_here := (serves sid junk (srv_local_events sid others) srv_data).

Lemma serves_natives {V} cmd args bs (p : M V) out :
  is_int cmd ->
  command_switch sid junk (srv_local_events sid others) srv_data cmd (mkConn (natives args ++ bs) [] true)
    ≡ (let* v := p in ret (Go tt, mkConn [] (out v) true)) ->
  serves_here (etn_request cmd args ++ bs) p out.
Proof.
  intros I H. split; [done|]. unfold command_step. replace (etn_request cmd args ++ bs) with (ints [cmd] ++ (natives args ++ bs)) by
    (unfold etn_request, ints; cbn [map concat]; by rewrite app_nil_r, <- app_assoc).
  rewrite sbind_read by done. rewrite int_at_uint32 by (cbn; lia). cbn [nth]. by rewrite int32_id.
Qed.

(** ** Getting *)

(** The number of the events of a result is that of its pointers, and its status is an error or ET_OK. *)
Definition good_events (r : Z * (list Z * Z)) : Prop :=
  let '(err, (pes, nread)) := r in
  (err < 0 /\ is_int err) \/ (err = ET_OK /\ nread = Z.of_nat (length pes) /\ is_int nread).

Definition reply_bytes (r : Z * (list Z * Z)) : list Z :=
  let '(err, (events, nevents)) := r in
  if err <? 0 then native err else native nevents ++ pointers (take (Z.to_nat nevents) events).

(** What the client gets of it. *)
Definition sent_events (r : Z * (list Z * Z)) : Z * list Z :=
  let '(err, (pes, _)) := r in if err <? 0 then (err, []) else (ET_OK, map u64 pes).

Lemma nearby_events bs (p : M (Z * (list Z * Z))) :
  serves_here bs p reply_bytes -> follows p good_events (fun r => ret (sent_events r)) (nearby (ask_events bs)).
Proof.
  intros H x m. unfold nearby, converse, ask_events, connected. cbn [session cn_in cn_out cn_open app negb].
  pose proof (serve_one _ _ _ _ bs p _ H x m) as E. unfold bind at 1 in E.
  destruct (p x m) as [[err [pes nread]] x' m'|m'|m'| |]; try (by unfold bind at 1; rewrite E).
  intros G. unfold bind at 1. rewrite E. unfold ret at 1. cbv iota beta. destruct G as [[Hn I]|(-> & -> & I)].
  - unfold reply_bytes, sent_events. rewrite (proj2 (Z.ltb_lt err 0)) by done. change (4 <? 0) with false. cbn [cn_out cn_in cn_open].
    change (4 <=? Z.of_nat (length (native err))) with true. cbv iota. change (take (Z.to_nat 4) (native err)) with (native err).
    cbn [session]. rewrite native_at_one, int32_id, (proj2 (Z.ltb_lt err 0)) by done. done.
  - unfold reply_bytes, sent_events. change (ET_OK <? 0) with false. change (4 <? 0) with false. cbn [cn_out cn_in cn_open]. rewrite Nat2Z.id.
    rewrite (take_ge pes) by done. destruct (Z.leb_spec 4 (Z.of_nat (length (native (Z.of_nat (length pes)) ++ pointers pes)))) as [_|L];
      [|rewrite length_app, native_length in L; lia].
    change (Z.to_nat 4) with 4%nat. rewrite take_app_length', drop_app_length' by done. cbn [session]. rewrite native_at_one, int32_id by done.
    destruct (Z.ltb_spec (Z.of_nat (length pes)) 0); [lia|]. cbn [session]. unfold bind at 1. rewrite (serve_none _ _ _ _ (pointers pes) x' m').
    unfold ret at 1. cbv iota beta. destruct (Z.ltb_spec (8 * Z.of_nat (length pes)) 0); [lia|]. cbn [cn_out cn_in cn_open].
    assert (L : Z.of_nat (length (pointers pes)) = 8 * Z.of_nat (length pes)) by (rewrite pointers_length; lia). rewrite L, Z.leb_refl.
    rewrite take_ge by lia. rewrite Nat2Z.id. rewrite <- (app_nil_r (pointers pes)), pointers_back by done. done.
Qed.

(** One event, or none: the status and the pointer. *)
Definition good_event (r : Z * list Z) : Prop := is_int (fst r).
Definition sent_event (r : Z * list Z) : Z * Z :=
  if negb (fst r =? ET_OK) then (fst r, NULL) else (ET_OK, u64 (one_event (snd r))).

Lemma halves_int p : ET_64BIT_UINT (int32 (ET_HIGHINT p)) (int32 (ET_LOWINT p)) = u64 p.
Proof.
  rewrite <- (halves_back p). unfold ET_64BIT_UINT. f_equal.
  - unfold u64. rewrite !Z.shiftl_mul_pow2 by lia. change (2 ^ 64) with (2 ^ 32 * 2 ^ 32). rewrite !Z.mul_mod_distr_r by lia. f_equal.
    unfold int32, uint32. destruct (_ <? _); [done|]. rewrite Zminus_mod, Z_mod_same_full, Z.sub_0_r, !Z.mod_mod by lia. done.
  - change 4294967295 with (Z.ones 32). rewrite !Z.land_ones by lia. unfold int32, uint32. destruct (_ <? _); [done|].
    rewrite Zminus_mod, Z_mod_same_full, Z.sub_0_r, !Z.mod_mod by lia. done.
Qed.

Lemma nearby_event bs (p : M (Z * list Z)) (ev : Z * list Z -> Z) :
  serves_here bs p (fun r => natives [fst r; ET_HIGHINT (ev r); ET_LOWINT (ev r)]) ->
  (forall r, fst r = ET_OK -> ev r = one_event (snd r)) ->
  follows p good_event (fun r => ret (sent_event r)) (nearby (ask_event bs)).
Proof.
  intros H Hev x m. pose proof (converse_transact _ _ _ _ bs 12 (ET_ERROR_WRITE, NULL) (ET_ERROR_READ, NULL) (fun incoming =>
    let err := native_at incoming 0 in
    if negb (err =? ET_OK) then (err, NULL) else (err, ET_64BIT_P (native_at incoming 1) (native_at incoming 2))) p _ H) as E.
  specialize (E ltac:(lia) ltac:(done) x m). unfold bind in E. unfold nearby, ask_event.
  destruct (p x m) as [[err es] x' m'|m'|m'| |]; try exact E. intros G. rewrite E. clear E. unfold good_event, sent_event in *. cbn [fst snd] in *.
  rewrite <- (app_nil_r (natives _)), !native_at_natives by (cbn; lia). cbn [nth]. rewrite (int32_id err) by done.
  destruct (Z.eqb_spec err ET_OK) as [->|N]; [|done]. cbn [negb]. rewrite (Hev (ET_OK, es)) by done. cbn [snd].
  unfold ET_64BIT_P. by rewrite halves_int.
Qed.

(** The calls that get several events. *)
Inductive taking :=
| TkGets (num : Z)
| TkNews (size num : Z)
| TkNewsGroup (size num group : Z).

Definition take_call (q : taking) (id : et_id) (att mode : Z) (deltatime : option timespec) : M (Z * list Z * Z) :=
  match q with
  | TkGets num => et_events_get id att true mode deltatime num
  | TkNews size num => et_events_new id att true mode deltatime size num
  | TkNewsGroup size num group => et_events_new_group id att true mode deltatime size num group
  end.
Definition take_ints (q : taking) : Prop :=
  match q with
  | TkGets num => is_int num
  | TkNews size num => is_int num /\ 0 <= size < 2 ^ 64
  | TkNewsGroup size num group => is_int num /\ is_int group /\ 0 <= size < 2 ^ 64
  end.

(** The time that reaches the server. *)
Definition time_sent (deltatime : option timespec) : timespec := default (mkTimespec 0 0) deltatime.
Definition time_ints (deltatime : option timespec) : Prop :=
  is_int (tv_sec (time_sent deltatime)) /\ is_int (tv_nsec (time_sent deltatime)).

Lemma time_eta d : mkTimespec (tv_sec d) (tv_nsec d) = d.
Proof. by destruct d. Qed.

Lemma sent_time_ints deltatime : sent_time deltatime = [tv_sec (time_sent deltatime); tv_nsec (time_sent deltatime)].
Proof. by destruct deltatime. Qed.

(** What the server does for it. *)
Definition take_served (q : taking) (att mode : Z) (deltatime : option timespec) : M (Z * (list Z * Z)) :=
  waited att mode (time_sent deltatime) ([], 0) (fun m d => several (take_call q sid att m d)).

Definition etn_take (q : taking) (id : et_id) (att mode : Z) (deltatime : option timespec) : M (Z * list Z * Z) :=
  match q with
  | TkGets num => NoShare.etn_events_get (fun A => nearby) id att mode deltatime num
  | TkNews size num => NoShare.etn_events_new (fun A => nearby) id att mode deltatime size num
  | TkNewsGroup size num group => NoShare.etn_events_new_group (fun A => nearby) id att mode deltatime size num group
  end.

Lemma reply_events_bytes r o : reply_events r (mkConn [] o true) = ret (Go tt, mkConn [] (o ++ reply_bytes r) true).
Proof. destruct r as [err [pes n]]. unfold reply_events, reply_bytes. by destruct (err <? 0). Qed.

Lemma waited_served {A} att mode dt (none : A) f (reply : Z * A -> SM unit) bytes :
  (forall r, reply r (mkConn [] [] true) = ret (Go tt, mkConn [] (bytes r) true)) ->
  (let! r := served_wait att mode dt none f in reply r) (mkConn [] [] true)
    ≡ (let* r := waited att mode dt none f in ret (Go tt, mkConn [] (bytes r) true)).
Proof. intros H. rewrite sbind_waited. apply bind_proper; [done|]. intros r. by rewrite H. Qed.

Lemma size_back size : 0 <= size < 2 ^ 64 -> ET_64BIT_UINT (int32 (ET_HIGHINT size)) (int32 (ET_LOWINT size)) = size.
Proof. intros H. rewrite halves_int. unfold u64. by apply Z.mod_small. Qed.

Lemma take_follows q id att mode deltatime :
  is_int att -> is_int mode -> take_ints q -> time_ints deltatime ->
  follows (take_served q att mode deltatime) good_events (fun r => all_mapped id (sent_events r)) (etn_take q id att mode deltatime).
Proof.
  intros I1 I2 Iq [I3 I4].
  assert (W : forall bs, serves_here bs (take_served q att mode deltatime) reply_bytes ->
    follows (take_served q att mode deltatime) good_events (fun r => all_mapped id (sent_events r))
      (let* r := nearby (ask_events bs) in all_mapped id r)).
  { intros bs H. apply nearby_events in H. apply (follows_bind _ _ _ _ (all_mapped id)) in H. exact H. }
  destruct q as [num|size num|size num group]; cbn [take_ints etn_take] in *; destruct_and?; apply W; rewrite sent_time_ints;
    match goal with |- serves_here ?bs _ _ => rewrite <- (app_nil_r bs) end; apply serves_natives; try done.
  - change (command_switch _ _ _ _ _) with (srv_evs_get_l sid). unfold srv_evs_get_l. rewrite sbind_natives by done.
    unfold at_. cbn [map nth app]. rewrite !int32_id, time_eta by done. apply waited_served. intros r. apply reply_events_bytes.
  - change (command_switch _ _ _ _ _) with (srv_evs_new_l sid). unfold srv_evs_new_l. rewrite sbind_natives by done.
    unfold at_. cbn [map nth app]. rewrite size_back, !int32_id, time_eta by done. apply waited_served. intros r. apply reply_events_bytes.
  - change (command_switch _ _ _ _ _) with (srv_evs_new_grp_l sid). unfold srv_evs_new_grp_l. rewrite sbind_natives by done.
    unfold at_. cbn [map nth app]. rewrite size_back, !int32_id, time_eta by done. apply waited_served. intros r. apply reply_events_bytes.
Qed.

(** The calls that get one event. *)
Inductive taking_one :=
| TkGet
| TkNew (size : Z).

Definition take_one_call (q : taking_one) (id : et_id) (att mode : Z) (deltatime : option timespec) : M (Z * list Z) :=
  match q with
  | TkGet => et_event_get id att true mode deltatime
  | TkNew size => et_event_new id att true mode deltatime size
  end.
Definition take_one_ints (q : taking_one) : Prop :=
  match q with TkGet => True | TkNew size => 0 <= size < 2 ^ 64 end.
Definition take_one_served (q : taking_one) (att mode : Z) (deltatime : option timespec) : M (Z * list Z) :=
  waited att mode (time_sent deltatime) [] (fun m d => take_one_call q sid att m d).
Definition etn_take_one (q : taking_one) (id : et_id) (att mode : Z) (deltatime : option timespec) : M (Z * list Z) :=
  match q with
  | TkGet => NoShare.etn_event_get (fun A => nearby) id att mode deltatime
  | TkNew size => NoShare.etn_event_new (fun A => nearby) id att mode deltatime size
  end.

Lemma take_one_follows q id att mode deltatime :
  is_int att -> is_int mode -> take_one_ints q -> time_ints deltatime ->
  follows (take_one_served q att mode deltatime) good_event (fun r => one_mapped id (sent_event r)) (etn_take_one q id att mode deltatime).
Proof.
  intros I1 I2 Iq [I3 I4].
  assert (W : forall bs ev, serves_here bs (take_one_served q att mode deltatime) (fun r => natives [fst r; ET_HIGHINT (ev r); ET_LOWINT (ev r)]) ->
    (forall r : Z * list Z, fst r = ET_OK -> ev r = one_event (snd r)) ->
    follows (take_one_served q att mode deltatime) good_event (fun r => one_mapped id (sent_event r))
      (let* r := nearby (ask_event bs) in one_mapped id r)).
  { intros bs ev H Hev. apply (nearby_event _ _ _ H) in Hev. apply (follows_bind _ _ _ _ (one_mapped id)) in Hev. exact Hev. }
  destruct q as [|size]; cbn [take_one_ints etn_take_one] in *.
  - apply (W _ (fun r => one_event (snd r))); [|done]. rewrite sent_time_ints.
    match goal with |- serves_here ?bs _ _ => rewrite <- (app_nil_r bs) end. apply serves_natives; [done|].
    change (command_switch _ _ _ _ _) with (srv_ev_get_l sid). unfold srv_ev_get_l. rewrite sbind_natives by done.
    unfold at_. cbn [map nth app]. rewrite !int32_id, time_eta by done. apply waited_served. by intros [].
  - apply (W _ (fun r => if fst r =? ET_OK then one_event (snd r) else 0)); [|intros r ->; done]. rewrite sent_time_ints.
    match goal with |- serves_here ?bs _ _ => rewrite <- (app_nil_r bs) end. apply serves_natives; [done|].
    change (command_switch _ _ _ _ _) with (srv_ev_new_l sid). unfold srv_ev_new_l. rewrite sbind_natives by done.
    unfold at_. cbn [map nth app]. rewrite size_back, !int32_id, time_eta by done. apply waited_served. by intros [].
Qed.

(** ** Giving back *)

Lemma nearby_native bs (p : M Z) :
  serves_here bs p (fun err => native err) -> nearby (ask_native bs) ≡ (let* err := p in ret (inr (int32 err))).
Proof.
  intros H. unfold nearby, ask_native. rewrite (converse_transact _ _ _ _ bs 4 _ _ _ p _ H) by done.
  apply bind_proper; [done|]. intros err. by rewrite native_at_one.
Qed.

Lemma serves_one_back com (give : Z -> option Z -> M Z) att p :
  is_int com -> is_int att ->
  (forall c, command_switch sid junk (srv_local_events sid others) srv_data com c =
     (let! ws := sread_natives 3 in let! err := call (give (at_ ws 0) (not_null (ET_64BIT_P (at_ ws 1) (at_ ws 2)))) in swrite (native err)) c) ->
  nearby (ask_native (etn_request com [att; ET_HIGHINT p; ET_LOWINT p])) ≡ (let* err := give att (not_null (u64 p)) in ret (inr (int32 err))).
Proof.
  intros I1 I2 H. apply nearby_native. rewrite <- (app_nil_r (etn_request _ _)). apply serves_natives; [done|].
  rewrite H, sbind_natives by done. unfold at_. cbn [map nth]. unfold ET_64BIT_P. rewrite halves_int, int32_id by done. by rewrite sbind_call.
Qed.

(** The server's array has as many elements as the system has events. *)
Definition with_room (n : Z) (p : M Z) : M Z :=
  let* y := ld_sys in if cf_nevents (sys_config y) <? n then fault else p.

Lemma sbind_events {B} ps r o b n (f : list Z -> SM B) : n = Z.of_nat (length ps) ->
  sbind (sread_events n) f (mkConn (pointers ps ++ r) o b) ≡
    (let* y := ld_sys in if cf_nevents (sys_config y) <? n then fault else f (map u64 ps) (mkConn r o b)).
Proof.
  intros ->. unfold sread_events. rewrite sbind_assoc, sbind_call. apply bind_proper; [done|]. intros y. rewrite sbind_assoc.
  destruct (Z.ltb_spec (cf_nevents (sys_config y)) (Z.of_nat (length ps))) as [L|L].
  - unfold sbind at 1. unfold sread. cbn [cn_in]. destruct (Z.ltb_spec (8 * Z.of_nat (length ps)) 0); [lia|].
    rewrite Z.min_l by (rewrite length_app, pointers_length; lia).
    destruct (Z.ltb_spec (8 * cf_nevents (sys_config y)) (8 * Z.of_nat (length ps))); [done|lia].
  - replace (8 * Z.of_nat (length ps)) with (Z.of_nat (length (pointers ps))) by (rewrite pointers_length; lia).
    unfold sbind at 1. rewrite sread_app by (rewrite pointers_length; lia). rewrite bind_ret. cbv iota beta. unfold sbind, sret. rewrite bind_ret.
    cbv iota beta. by rewrite Nat2Z.id, <- (app_nil_r (pointers ps)), pointers_back by done.
Qed.

Lemma serves_all_back com (give : Z -> list Z -> Z -> M Z) att ps :
  is_int com -> is_int att -> is_int (Z.of_nat (length ps)) ->
  (forall c, command_switch sid junk (srv_local_events sid others) srv_data com c =
     (let! ws := sread_natives 2 in let! events := sread_events (at_ ws 1) in
      let! err := call (give (at_ ws 0) events (at_ ws 1)) in swrite (native err)) c) ->
  nearby (ask_native (etn_request com [att; Z.of_nat (length ps)] ++ pointers ps)) ≡
    (let* err := with_room (Z.of_nat (length ps)) (give att (map u64 ps) (Z.of_nat (length ps))) in ret (inr (int32 err))).
Proof.
  intros I1 I2 I3 H. apply nearby_native. apply serves_natives; [done|].
  rewrite H, sbind_natives by done. unfold at_. cbn [map nth]. rewrite !int32_id by done.
  rewrite <- (app_nil_r (pointers ps)), sbind_events by done. unfold with_room. rewrite bind_bind. apply bind_proper; [done|]. intros y.
  destruct (_ <? _); [done|]. by rewrite sbind_call.
Qed.

(** The calls that give events back; [malloc_ok]: the array of the translated pointers was allocated. *)
Inductive giving :=
| GvPut (ev : Z)
| GvPuts (evs : list Z)
| GvDump (ev : Z)
| GvDumps (evs : list Z).

Definition etn_give (q : giving) (id : et_id) (att : Z) : M Z :=
  match q with
  | GvPut ev => NoShare.etn_event_put (fun A => nearby) id att ev
  | GvPuts evs => NoShare.etn_events_put (fun A => nearby) true id att evs
  | GvDump ev => NoShare.etn_event_dump (fun A => nearby) id att ev
  | GvDumps evs => NoShare.etn_events_dump (fun A => nearby) true id att evs
  end.
Definition given_events (q : giving) : list Z :=
  match q with GvPut ev | GvDump ev => [ev] | GvPuts evs | GvDumps evs => evs end.

(** What the server does for it: the pointers are those of its mapping. *)
Definition give_served (q : giving) (id : et_id) (att : Z) : M Z :=
  let there := fun ev => u64 (ev - id_offset id) in
  match q with
  | GvPut ev => et_event_put sid att (not_null (there ev))
  | GvPuts evs => with_room (Z.of_nat (length evs)) (et_events_put sid att true (map there evs) (Z.of_nat (length evs)))
  | GvDump ev => et_event_dump sid att (not_null (there ev))
  | GvDumps evs => with_room (Z.of_nat (length evs)) (et_events_dump sid att true (map there evs) (Z.of_nat (length evs)))
  end.

(** The process checks the lengths of events that it puts, and takes the data out of its reach. *)
Definition give_prepared (q : giving) (id : et_id) : M (option Z) :=
  let* fit := match q with GvPut _ | GvPuts _ => lengths_fit (id_offset id) (given_events q) | _ => ret true end in
  if negb fit then ret (Some ET_ERROR)
  else let* ok := unmap_loop (id_offset id) (given_events q) in ret (if ok then None else Some ET_ERROR_REMOTE).

Lemma given_back_served off evs (p : M Z) :
  (let* r := (let* err := p in ret (inr (int32 err))) in given_back off evs r) ≡ (let* err := p in ret (int32 err)).
Proof. by rewrite bind_bind. Qed.

Lemma give_one_served id com att ev (p : M Z) :
  nearby (ask_native (etn_request com [att; ET_HIGHINT (ET_PEVENT2ET ev (id_offset id)); ET_LOWINT (ET_PEVENT2ET ev (id_offset id))]))
    ≡ (let* err := p in ret (inr (int32 err))) ->
  give_one (fun A => nearby) id com att ev ≡
    (let* ok := unmap_loop (id_offset id) [ev] in if negb ok then ret ET_ERROR_REMOTE else let* err := p in ret (int32 err)).
Proof.
  intros H. unfold give_one. cbv zeta. cbn [unmap_loop]. rewrite bind_bind. apply bind_proper; [done|].
  intros []; [|done]. cbn [negb]. rewrite bind_ret. cbn [negb]. by rewrite H, given_back_served.
Qed.

Lemma give_all_served id com att evs (p : M Z) :
  nearby (ask_native (etn_request com [att; Z.of_nat (length evs)] ++ pointers (map (fun ev => ET_PEVENT2ET ev (id_offset id)) evs)))
    ≡ (let* err := p in ret (inr (int32 err))) ->
  give_all (fun A => nearby) true id com att evs ≡
    (let* ok := unmap_loop (id_offset id) evs in if negb ok then ret ET_ERROR_REMOTE else let* err := p in ret (int32 err)).
Proof.
  intros H. unfold give_all. cbn [negb]. apply bind_proper; [done|]. intros []; [|done]. cbn [negb]. by rewrite H, given_back_served.
Qed.

Lemma prepared_then (fit unmap : M bool) (served : M Z) :
  (let* ok := fit in if negb ok then ret ET_ERROR else
     let* ok := unmap in if negb ok then ret ET_ERROR_REMOTE else let* err := served in ret (int32 err)) ≡
  (let* r := (let* fit := fit in if negb fit then ret (Some ET_ERROR) else let* ok := unmap in ret (if ok then None else Some ET_ERROR_REMOTE)) in
   match r with Some err => ret err | None => let* err := served in ret (int32 err) end).
Proof.
  rewrite bind_bind. apply bind_proper; [done|]. intros []; [|done]. cbn [negb]. rewrite bind_bind. apply bind_proper; [done|]. by intros [].
Qed.

Lemma give_through q id att :
  is_int att -> is_int (Z.of_nat (length (given_events q))) ->
  etn_give q id att ≡ (let* r := give_prepared q id in
    match r with Some err => ret err | None => let* err := give_served q id att in ret (int32 err) end).
Proof.
  intros I1 I2. destruct q as [ev|evs|ev|evs]; cbn [given_events etn_give] in *; unfold give_prepared; cbn [given_events];
    (etransitivity; [|apply prepared_then]).
  - apply bind_proper; [done|]. intros []; [|done]. cbn [negb]. apply give_one_served. by apply (serves_one_back ET_NET_EV_PUT_L (et_event_put sid)).
  - apply bind_proper; [done|]. intros []; [|done]. cbn [negb]. apply give_all_served.
    rewrite <- (length_map (fun ev => ET_PEVENT2ET ev (id_offset id)) evs) in I2 |- *. unfold give_served. rewrite <- (length_map (fun ev => ET_PEVENT2ET ev (id_offset id)) evs), <- map_map.
    by apply (serves_all_back ET_NET_EVS_PUT_L (fun att => et_events_put sid att true)).
  - rewrite bind_ret. cbn [negb]. apply give_one_served. by apply (serves_one_back ET_NET_EV_DUMP_L (et_event_dump sid)).
  - rewrite bind_ret. cbn [negb]. apply give_all_served.
    rewrite <- (length_map (fun ev => ET_PEVENT2ET ev (id_offset id)) evs) in I2 |- *. unfold give_served. rewrite <- (length_map (fun ev => ET_PEVENT2ET ev (id_offset id)) evs), <- map_map.
    by apply (serves_all_back ET_NET_EVS_DUMP_L (fun att => et_events_dump sid att true)).
Qed.
End noshare_spec.

(** ** The data of ordinary events, in the process and back *)

(** The memory [m] in which the data pointers of some events are those of mappings with these offsets. *)
Definition data_event (bases : gmap Z Z) (p : Z) (e : et_event) : et_event :=
  match bases !! p with Some off => set_ev_pdata (ET_PDATA2USR (ev_data e) off) e | None => e end.
Definition data_at (bases : gmap Z Z) (m : et_mem) : et_mem :=
  set_m_events (map_imap (fun p e => Some (data_event bases p e)) (m_events m)) m.

Lemma data_at_lookup bases m p : m_events (data_at bases m) !! p = data_event bases p <$> m_events m !! p.
Proof. cbn. rewrite map_lookup_imap. by destruct (m_events m !! p). Qed.

Lemma data_at_none m : data_at ∅ m = m.
Proof.
  unfold data_at. replace (map_imap _ (m_events m)) with (m_events m); [by destruct m|].
  apply map_eq. intros p. rewrite map_lookup_imap. by destruct (m_events m !! p).
Qed.

(** A data pointer is stored. *)
Lemma data_at_store bases m p e off f : m_events m !! p = Some e ->
  f (data_event bases p e) = set_ev_pdata (ET_PDATA2USR (ev_data e) off) e ->
  upd_ev p f (data_at bases m) = data_at (<[p := off]> bases) m.
Proof.
  intros E F. unfold upd_ev, data_at, set_m_events. cbn. f_equal. apply map_eq. intros q. destruct (decide (p = q)) as [<-|N].
  - rewrite lookup_alter_eq, !map_lookup_imap, E. cbn. rewrite F. unfold data_event. by rewrite lookup_insert_eq.
  - rewrite lookup_alter_ne, !map_lookup_imap by done. destruct (m_events m !! q); [|done]. cbn. unfold data_event.
    by rewrite lookup_insert_ne.
Qed.

Definition no_crash : et_mem -> Prop := fun _ => True.

Lemma wp_load_data bases m off p e (Q : et_event -> et_mem -> Prop) : m_events m !! p = Some e ->
  Q (data_event bases p e) (data_at bases m) -> wp (ld_ev off (p + off)) Q no_crash (data_at bases m).
Proof.
  intros E H. unfold ld_ev. apply wp_bind, wp_getm. eapply wp_of_option; [|exact H]. by rewrite Z.add_simpl_r, data_at_lookup, E.
Qed.

Lemma wp_store_data bases m off p e base f (Q : unit -> et_mem -> Prop) : m_events m !! p = Some e ->
  f (data_event bases p e) = set_ev_pdata (ET_PDATA2USR (ev_data e) base) e ->
  Q tt (data_at (<[p := base]> bases) m) -> wp (str_ev off (p + off) f) Q no_crash (data_at bases m).
Proof.
  intros E F H. unfold str_ev. apply wp_bind. eapply wp_load_data; [done|]. apply wp_store; [done|].
  by rewrite Z.add_simpl_r, (data_at_store _ _ _ e base).
Qed.

(** Events whose data are not in files. *)
Definition ordinary (m : et_mem) (p : Z) : Prop := exists e, m_events m !! p = Some e /\ ev_temp e <> ET_EVENT_TEMP.

Lemma data_event_temp bases p e : ev_temp (data_event bases p e) = ev_temp e.
Proof. unfold data_event. by destruct (bases !! p). Qed.
Lemma data_event_data bases p e : ev_data (data_event bases p e) = ev_data e.
Proof. unfold data_event. by destruct (bases !! p). Qed.
Lemma data_event_set bases p e v : set_ev_pdata v (data_event bases p e) = set_ev_pdata v e.
Proof. unfold data_event. by destruct (bases !! p). Qed.

Definition all_at (off : Z) (ps : list Z) (bases : gmap Z Z) : gmap Z Z := fold_left (fun b p => <[p := off]> b) ps bases.

Lemma all_at_lookup off ps bases p : all_at off ps bases !! p = if bool_decide (p ∈ ps) then Some off else bases !! p.
Proof.
  unfold all_at. revert bases. induction ps as [|q ps IH]; intros bases; [done|]. cbn [fold_left]. rewrite IH.
  repeat case_bool_decide; try done; try (exfalso; set_solver).
  - assert (q = p) as -> by set_solver. by rewrite lookup_insert_eq.
  - rewrite lookup_insert_ne by set_solver. done.
Qed.

Lemma all_at_twice off off' ps bases : all_at off' ps (all_at off ps bases) = all_at off' ps bases.
Proof. apply map_eq. intros p. rewrite !all_at_lookup. by case_bool_decide. Qed.

Lemma wp_map_data `{K0 : Kernel} bases m off p (Q : bool -> et_mem -> Prop) : ordinary m p ->
  Q true (data_at (<[p := off]> bases) m) -> wp (map_data off (p + off)) Q no_crash (data_at bases m).
Proof.
  intros (e & E & T) H. unfold map_data. apply wp_bind. eapply wp_load_data; [done|].
  rewrite data_event_temp, data_event_data, (proj2 (Z.eqb_neq _ _) T). cbn [negb]. apply wp_bind.
  eapply wp_store_data; [done|apply data_event_set|]. by apply wp_ret.
Qed.

Lemma wp_map_loop `{K0 : Kernel} m off ps bases (Q : bool * list Z -> et_mem -> Prop) : Forall (ordinary m) ps ->
  Q (true, map (fun p => ET_PEVENT2USR p off) ps) (data_at (all_at off ps bases) m) ->
  wp (map_loop off ps) Q no_crash (data_at bases m).
Proof.
  intros F. revert bases Q. induction F as [|p ps O F IH]; intros bases Q H; cbn [map_loop]; [by apply wp_ret|].
  apply wp_bind, wp_map_data; [done|]. cbn [negb]. apply wp_bind, IH, wp_ret. exact H.
Qed.

Lemma wp_unmap_data `{K0 : Kernel} bases m off p (Q : bool -> et_mem -> Prop) : ordinary m p -> bases !! p = Some off ->
  Q true (data_at (<[p := 0]> bases) m) -> wp (unmap_data off (p + off)) Q no_crash (data_at bases m).
Proof.
  intros (e & E & T) B H. unfold unmap_data. apply wp_bind. eapply wp_load_data; [done|].
  rewrite data_event_temp, (proj2 (Z.eqb_neq _ _) T). cbn [negb]. apply wp_bind. eapply (wp_store_data _ _ _ _ e 0); [done| |by apply wp_ret].
  rewrite data_event_set. unfold data_event. rewrite B. cbn. f_equal. unfold ET_PDATA2ET, ET_PDATA2USR. lia.
Qed.

Lemma wp_unmap_loop `{K0 : Kernel} m off ps bases (Q : bool -> et_mem -> Prop) : Forall (ordinary m) ps -> NoDup ps ->
  (forall p, p ∈ ps -> bases !! p = Some off) -> Q true (data_at (all_at 0 ps bases) m) ->
  wp (unmap_loop off (map (fun p => ET_PEVENT2USR p off) ps)) Q no_crash (data_at bases m).
Proof.
  intros F. revert bases Q. induction F as [|p ps O F IH]; intros bases Q D B H; cbn [map unmap_loop]; [by apply wp_ret|].
  apply NoDup_cons in D as [N D]. apply wp_bind, wp_unmap_data; [done|apply B; set_solver|]. cbn [negb]. apply IH; [done| |exact H].
  intros q Hq. rewrite lookup_insert_ne by set_solver. apply B. set_solver.
Qed.

(** ** What the process makes of the events *)

Lemma changed_cons_fresh (f : et_event -> et_event -> Prop) x xs evs e e' evs' :
  x ∉ xs -> evs !! x = Some e -> f e e' -> changed f xs (<[x := e']> evs) evs' -> changed f (x :: xs) evs evs'.
Proof.
  intros N E F H a. specialize (H a). destruct (decide (a = x)) as [->|Na].
  - rewrite lookup_insert_eq in H. rewrite E. destruct H as (e2 & E2 & H). rewrite decide_False in H by done. subst e2.
    exists e'. by rewrite decide_True by set_solver.
  - rewrite lookup_insert_ne in H by done. destruct (evs !! a) as [e1|]; [|done]. destruct H as (e2 & E2 & H).
    exists e2. split; [done|]. case_decide as D; case_decide as D'; try done; set_solver.
Qed.

(** The events [xs] are there. *)
Definition known (m : et_mem) (xs : list Z) : Prop := NoDup xs /\ forall x, x ∈ xs -> is_Some (m_events m !! x).

(** A run that nobody disturbs ends without a change of its context. *)
Lemma wp_run_calm {A} (c : M A) Q C m :
  wp c Q C m -> exists a m', run c m = Ok a (mkCtx None []) m' /\ Q a m'.
Proof.
  intros H. specialize (H (mkCtx None []) eq_refl). unfold run. destruct (c _ m) as [a x' m'|m'|m'| |]; try done.
  - destruct H as (W & C' & ?). exists a, m'. split; [|done]. destruct x' as [k w]. cbn in *. by rewrite (C' eq_refl), W.
  - by destruct H as [[] _].
Qed.

Section results.
Context `{K0 : Kernel} `{QK : !QuietKernel}.

(** An event as the process gets it.  Its data are in the memory that is mapped with [off]; or in a file,
    which is mapped, and then the server's pointer is kept. *)
Definition at_hand (off : Z) (e e' : et_event) : Prop :=
  if decide (ev_temp e = ET_EVENT_TEMP)
  then exists p, mapped_at (ev_filename e) (ev_memsize e) p /\ e' = set_ev_pdata p (set_ev_tempdata (ev_pdata e) e)
  else e' = set_ev_pdata (ev_data e + off) e.

(** Getting the events [xs]: all of them at their addresses in the process; or an error and no number, the
    array with some of the addresses, because the data of [z] cannot be mapped. *)
Definition got (off : Z) (xs : list Z) (m : et_mem) (r : Z * list Z * Z) (m' : et_mem) : Prop :=
  (exists evs, m' = set_m_events evs m /\ changed (at_hand off) xs (m_events m) evs /\
     r = (ET_OK, map (fun x => x + off) xs, Z.of_nat (length xs))) \/
  (exists ys z zs e evs, m' = set_m_events (<[z := set_ev_tempdata (ev_pdata e) e]> evs) m /\
     xs = ys ++ z :: zs /\ changed (at_hand off) ys (m_events m) evs /\
     m_events m !! z = Some e /\ ev_temp e = ET_EVENT_TEMP /\ not_mapped (ev_filename e) (ev_memsize e) /\
     r = (ET_ERROR_REMOTE, map (fun x => x + off) (ys ++ [z]) ++ zs, 0)).

(** An event as the process gives it back: the pointer to its data is the ET system's again. *)
Definition released (off : Z) (e e' : et_event) : Prop :=
  if decide (ev_temp e = ET_EVENT_TEMP)
  then munmap_says 0 (ev_pdata e) (ev_memsize e) /\ e' = set_ev_pdata (ev_tempdata e) e
  else e' = set_ev_pdata (ev_pdata e - off) e.

(** The event [z] of the list cannot be unmapped; those before it were released. *)
Definition stays_mapped (off : Z) (xs : list Z) (m m' : et_mem) : Prop :=
  exists ys z zs e evs st, m' = set_m_events evs m /\ xs = ys ++ z :: zs /\ changed (released off) ys (m_events m) evs /\
    m_events m !! z = Some e /\ ev_temp e = ET_EVENT_TEMP /\ munmap_says st (ev_pdata e) (ev_memsize e) /\ st <> 0.

(** The data of an event are longer than its memory. *)
Definition too_long (m : et_mem) (xs : list Z) : Prop :=
  exists x e, x ∈ xs /\ m_events m !! x = Some e /\ ev_memsize e < ev_length e.

Lemma set_events_same m : set_m_events (m_events m) m = m.
Proof. by destruct m. Qed.
Lemma set_events_twice a b m : set_m_events a (set_m_events b m) = set_m_events a m.
Proof. done. Qed.

Lemma known_cons m x xs e evs : known m (x :: xs) -> evs = <[x := e]> (m_events m) ->
  x ∉ xs /\ known (set_m_events evs m) xs.
Proof.
  intros [D H] ->. apply NoDup_cons in D as [N D]. split; [done|]. split; [done|]. intros y Hy. cbn.
  rewrite lookup_insert_is_Some'. right. apply H. set_solver.
Qed.

Lemma got_cons off x xs e e' m st qs n m' :
  x ∉ xs -> m_events m !! x = Some e -> at_hand off e e' ->
  got off xs (set_m_events (<[x := e']> (m_events m)) m) (st, qs, n) m' ->
  got off (x :: xs) m (st, x + off :: qs, if st =? ET_OK then Z.of_nat (length (x :: xs)) else 0) m'.
Proof.
  intros N E F [(evs & -> & Ch & [= -> -> ->])|(ys & z & zs & e1 & evs & -> & -> & Ch & Ez & T & Nm & [= -> -> ->])].
  - left. exists evs. split; [done|]. split; [by eapply changed_cons_fresh|done].
  - right. exists (x :: ys), z, zs, e1, evs. cbn in Ez. rewrite lookup_insert_ne in Ez by set_solver.
    split_and!; try done. eapply changed_cons_fresh; [set_solver|done..].
Qed.

Lemma wp_map_loop_any off xs : forall m (Q : bool * list Z -> et_mem -> Prop), known m xs ->
  (forall (ok : bool) qs m', got off xs m (if ok then ET_OK else ET_ERROR_REMOTE, qs, if ok then Z.of_nat (length xs) else 0) m' -> Q (ok, qs) m') ->
  wp (map_loop off xs) Q nc m.
Proof.
  induction xs as [|x xs IH]; intros m Q K HQ; cbn [map_loop].
  { apply wp_ret, HQ. left. exists (m_events m). split; [by rewrite set_events_same|]. split; [apply changed_nil|done]. }
  destruct (proj2 K x) as [e E]; [set_solver|]. apply wp_bind. unfold map_data. apply wp_bind.
  unfold ET_PEVENT2USR. eapply wps_ld_ev; [exact E|].
  assert (Next : forall e', at_hand off e e' ->
    wp (let* (ok, qs) := map_loop off xs in ret (ok, x + off :: qs)) Q nc (set_m_events (<[x := e']> (m_events m)) m)).
  { intros e' F. destruct (known_cons m x xs e' _ K eq_refl) as [N K']. apply wp_bind, IH; [done|]. intros ok qs m' R.
    apply wp_ret, HQ. apply (got_cons off x xs e e') in R; [|done..]. by destruct ok. }
  destruct (Z.eqb_spec (ev_temp e) ET_EVENT_TEMP) as [T|T]; cbn [negb].
  - apply wp_bind. eapply wps_str_ev; [exact E|done|]. apply wp_bind, wp_quiet_result; [auto with quiet|]. intros p x0 m0 x1 m1 Ep.
    destruct (Z.eqb_spec p NULL) as [->|Np].
    + apply wp_ret. cbn [negb]. apply wp_ret. apply (HQ false). right. exists [], x, xs, e, (m_events m).
      split_and!; try done; [apply changed_nil|by exists x0, m0, x1, m1].
    + apply wp_bind. eapply wps_str_ev; [apply lookup_insert_eq|done|]. apply wp_ret. cbn [negb].
      cbn [m_events set_m_events]. rewrite insert_insert_eq, set_events_twice. apply Next. unfold at_hand. rewrite decide_True by done.
      exists p. split; [|done]. split; [done|by exists x0, m0, x1, m1].
  - apply wp_bind. eapply wps_str_ev; [exact E|done|]. apply wp_ret. cbn [negb]. apply Next. unfold at_hand. by rewrite decide_False.
Qed.

Lemma wp_unmap_loop_any off xs : forall m (Q : bool -> et_mem -> Prop), known m xs ->
  (forall evs, changed (released off) xs (m_events m) evs -> Q true (set_m_events evs m)) ->
  (forall m', stays_mapped off xs m m' -> Q false m') ->
  wp (unmap_loop off (map (fun x => x + off) xs)) Q nc m.
Proof.
  induction xs as [|x xs IH]; intros m Q K H1 H2; cbn [map unmap_loop].
  { apply wp_ret. rewrite <- set_events_same. apply H1, changed_nil. }
  destruct (proj2 K x) as [e E]; [set_solver|]. apply wp_bind. unfold unmap_data. apply wp_bind. eapply wps_ld_ev; [exact E|].
  assert (Next : forall e', released off e e' ->
    wp (unmap_loop off (map (fun x => x + off) xs)) Q nc (set_m_events (<[x := e']> (m_events m)) m)).
  { intros e' F. destruct (known_cons m x xs e' _ K eq_refl) as [N K']. apply IH; [done| |].
    - intros evs Ch. rewrite set_events_twice. apply H1. by eapply changed_cons_fresh.
    - intros m' (ys & z & zs & e1 & evs & st & -> & -> & Ch & Ez & T & U & Ns). apply H2. cbn in Ez.
      rewrite lookup_insert_ne in Ez by set_solver. exists (x :: ys), z, zs, e1, evs, st. split_and!; try done.
      eapply changed_cons_fresh; [set_solver|done..]. }
  destruct (Z.eqb_spec (ev_temp e) ET_EVENT_TEMP) as [T|T]; cbn [negb].
  - apply wp_bind, wp_quiet_result; [auto with quiet|]. intros st x0 m0 x1 m1 Es.
    destruct (Z.eqb_spec st 0) as [->|Ns]; cbn [negb].
    + apply wp_bind. eapply wps_str_ev; [exact E|done|]. apply wp_ret. cbn [negb]. apply Next. unfold released. rewrite decide_True by done.
      split; [by exists x0, m0, x1, m1|done].
    + apply wp_ret. cbn [negb]. apply wp_ret, H2. exists [], x, xs, e, (m_events m), st. rewrite set_events_same.
      split_and!; try done; [apply changed_nil|by exists x0, m0, x1, m1].
  - apply wp_bind. eapply wps_str_ev; [exact E|done|]. apply wp_ret. cbn [negb]. apply Next. unfold released. by rewrite decide_False.
Qed.

Lemma wp_lengths_fit off xs m : known m xs ->
  wp (lengths_fit off (map (fun x => x + off) xs)) (fun ok m' => m' = m /\ (ok = false <-> too_long m xs)) nc m.
Proof.
  intros [_ K]. induction xs as [|x xs IH]; cbn [map lengths_fit].
  { apply wp_ret. split; [done|]. split; [done|]. intros (y & _ & Hy & _). by apply elem_of_nil in Hy. }
  destruct (K x) as [e E]; [set_solver|]. apply wp_bind. eapply wps_ld_ev; [exact E|]. destruct (Z.ltb_spec (ev_memsize e) (ev_length e)).
  - apply wp_ret. split; [done|]. split; [|done]. intros _. exists x, e. split; [set_solver|done].
  - eapply wp_mono; [apply IH; set_solver| |done]. intros ok m' [-> B]. split; [done|]. rewrite B. unfold too_long. split.
    + intros (y & ey & Hy & Ey). exists y, ey. split; [set_solver|done].
    + intros (y & ey & Hy & Ey & Ly). exists y, ey. apply elem_of_cons in Hy as [->|Hy]; [|done]. rewrite E in Ey. injection Ey as <-. lia.
Qed.
End results.

(** ** The properties *)

(** The process's call [q] takes what the server's call [p] takes, with [post] where it returns. *)
Definition answers {A B} (p : M A) (pre : A -> et_mem -> Prop) (q : M B) (post : A -> et_mem -> B -> et_mem -> Prop) : Prop :=
  forall x m,
    match p x m with
    | Ok a x1 m1 => pre a m1 -> x1 = mkCtx None [] -> exists b m2, q x m = Ok b x1 m2 /\ post a m1 b m2
    | Crashed m' => q x m = Crashed m'
    | Blocked m' => q x m = Blocked m'
    | Fault => q x m = Fault
    | Diverged => q x m = Diverged
    end.

Lemma follows_answers {A B} (p : M A) (P : A -> Prop) (f : A -> M B) (q : M B) pre post :
  follows p P f q -> (forall a m1, pre a m1 -> P a /\ wp (f a) (post a m1) nc m1) -> answers p pre q post.
Proof.
  intros F H x m. specialize (F x m). destruct (p x m) as [a x1 m1|m'|m'| |]; try exact F. intros Pre ->.
  destruct (H a m1 Pre) as [Pa W]. rewrite (F Pa). destruct (wp_run_calm _ _ _ _ W) as (b & m2 & E & Po). by exists b, m2.
Qed.

(** The server's result: an error, or so many events as it says, which exist, under their addresses in the
    ET system. *)
Definition good_taken (r : Z * (list Z * Z)) (m : et_mem) : Prop :=
  let '(err, (pes, nread)) := r in
  (err < 0 /\ is_int err) \/
  (err = ET_OK /\ nread = Z.of_nat (length pes) /\ is_int nread /\ known m (map u64 pes)).
Definition taken_as `{K0 : Kernel} (off : Z) (r : Z * (list Z * Z)) (m : et_mem) (s : Z * list Z * Z) (m' : et_mem) : Prop :=
  let '(err, (pes, _)) := r in
  (err < 0 /\ s = (err, [], 0) /\ m' = m) \/ (err = ET_OK /\ got off (map u64 pes) m s m').

Definition good_one (r : Z * list Z) (m : et_mem) : Prop :=
  is_int (fst r) /\ (fst r = ET_OK -> exists p, snd r = [p] /\ is_Some (m_events m !! u64 p)).
Definition one_as `{K0 : Kernel} (off : Z) (r : Z * list Z) (m : et_mem) (s : Z * list Z) (m' : et_mem) : Prop :=
  (fst r <> ET_OK /\ s = (fst r, []) /\ m' = m) \/
  (fst r = ET_OK /\ exists n, got off (map u64 (snd r)) m (fst s, snd s, n) m').

Lemma all_mapped_as `{K0 : Kernel} `{QK : !QuietKernel} id r m : good_taken r m ->
  good_events r /\ wp (all_mapped id (sent_events r)) (taken_as (id_offset id) r m) nc m.
Proof.
  destruct r as [err [pes nread]]. intros [[L I]|(-> & -> & I & K)].
  - split; [by left|]. unfold sent_events, all_mapped. rewrite (proj2 (Z.ltb_lt _ _) L). destruct (Z.eqb_spec err ET_OK) as [->|N]; [done|].
    apply wp_ret. by left.
  - split; [by right|]. unfold sent_events, all_mapped. cbn [Z.ltb Z.eqb negb]. change (ET_OK <? 0) with false. change (ET_OK =? ET_OK) with true. cbv iota. cbn [negb].
    apply wp_bind, wp_map_loop_any; [done|]. intros ok qs m' R. apply wp_ret. right. split; [done|]. rewrite length_map in *. by destruct ok.
Qed.

Lemma one_mapped_as `{K0 : Kernel} `{QK : !QuietKernel} id r m : good_one r m ->
  good_event r /\ wp (one_mapped id (sent_event r)) (one_as (id_offset id) r m) nc m.
Proof.
  destruct r as [err pes]. intros [I H]. split; [done|]. unfold sent_event, one_mapped. cbn [fst snd] in *.
  destruct (Z.eqb_spec err ET_OK) as [->|N]; cbn [negb].
  - change (ET_OK =? ET_OK) with true. cbn [negb]. destruct (H eq_refl) as (p & -> & E). change (one_event [p]) with p.
    assert (W : wp (map_loop (id_offset id) [u64 p]) (fun r m' => got (id_offset id) [u64 p] m
      (if fst r : bool then ET_OK else ET_ERROR_REMOTE, snd r, if fst r : bool then 1 else 0) m') nc m).
    { apply wp_map_loop_any; [split; [apply NoDup_singleton|intros x ->%list_elem_of_singleton; done]|]. intros ok qs m' R. exact R. }
    cbn [map_loop] in W. unfold wp in W |- *. intros x Hx. specialize (W x Hx). unfold bind in W |- *. unfold ET_PEVENT2USR in *.
    destruct (map_data _ _ _ _) as [ok x1 m1|?|?| |]; try done. destruct ok; cbn [negb] in W; unfold ret in W |- *; destruct W as (W1 & W2 & W);
      (split_and!; [done|done|]); right; (split; [done|]); eexists; exact W.
  - destruct (Z.eqb_spec err ET_OK); [done|]. cbn [negb]. apply wp_ret. by left.
Qed.

(** The calls that put events look at the lengths of their data. *)
Definition refused_length (q : giving) (m : et_mem) (xs : list Z) : Prop :=
  match q with GvPut _ | GvPuts _ => too_long m xs | GvDump _ | GvDumps _ => False end.

Lemma give_prepared_as `{K0 : Kernel} `{QK : !QuietKernel} q id m xs :
  given_events q = map (fun x => x + id_offset id) xs -> known m xs ->
  wp (give_prepared q id) (fun r m' =>
    (refused_length q m xs /\ r = Some ET_ERROR /\ m' = m) \/
    (~ refused_length q m xs /\ r = Some ET_ERROR_REMOTE /\ stays_mapped (id_offset id) xs m m') \/
    (~ refused_length q m xs /\ r = None /\ exists evs, changed (released (id_offset id)) xs (m_events m) evs /\ m' = set_m_events evs m)) nc m.
Proof.
  intros G K. unfold give_prepared. rewrite G. apply wp_bind.
  assert (W : wp (match q with GvPut _ | GvPuts _ => lengths_fit (id_offset id) (map (fun x => x + id_offset id) xs) | _ => ret true end)
     (fun ok m' => m' = m /\ (ok = false <-> refused_length q m xs)) nc m) by (destruct q; [by apply wp_lengths_fit..|by apply wp_ret|by apply wp_ret]).
  eapply wp_mono; [exact W| |done]. intros ok m' [-> B]. destruct ok; cbn [negb].
  - assert (N : ~ refused_length q m xs) by (intros N; by apply B in N). apply wp_bind, wp_unmap_loop_any; [done| |].
    + intros evs Ch. apply wp_ret. right. right. eauto.
    + intros m' St. apply wp_ret. right. by left.
  - apply wp_ret. left. split; [by apply B|done].
Qed.


(** C22: the data of events survive the way to a process without the mutexes and back.  Ordinary events
    that such a process gets have their data at the place of the event's memory in its mapping, and nothing
    else changes; when the process gives them back their data pointers are again those of the ET system, so
    that a memory with these is as it was before. *)
Theorem noshare_data_roundtrip `{K0 : Kernel} m off ps :
  Forall (ordinary m) ps -> NoDup ps ->
  (exists x, run (map_loop off ps) m = Ok (true, map (fun p => ET_PEVENT2USR p off) ps) x (data_at (all_at off ps ∅) m)) /\
  (exists x, run (unmap_loop off (map (fun p => ET_PEVENT2USR p off) ps)) (data_at (all_at off ps ∅) m) = Ok true x (data_at (all_at 0 ps ∅) m)) /\
  ((forall p e, p ∈ ps -> m_events m !! p = Some e -> ev_pdata e = ev_data e) -> data_at (all_at 0 ps ∅) m = m).
Proof.
  intros F D. split_and!.
  - destruct (wp_run (map_loop off ps) (fun r m' => r = (true, map (fun p => ET_PEVENT2USR p off) ps) /\ m' = data_at (all_at off ps ∅) m) no_crash m)
      as (? & x & ? & E & -> & ->); [|by exists x].
    rewrite <- (data_at_none m) at 1. by apply wp_map_loop.
  - edestruct (wp_run (unmap_loop off (map (fun p => ET_PEVENT2USR p off) ps)) (fun r m' => r = true /\ m' = data_at (all_at 0 ps ∅) m) no_crash)
      as (? & x & ? & E & -> & ->); [|by exists x].
    apply wp_unmap_loop; [done|done| |by rewrite all_at_twice]. intros p Hp. rewrite all_at_lookup. by rewrite bool_decide_true.
  - intros H. rewrite <- (data_at_none m) at 2. unfold data_at. f_equal. apply map_eq. intros p. rewrite !map_lookup_imap.
    destruct (m_events m !! p) as [e|] eqn:E; [|done]. cbn. unfold data_event. rewrite all_at_lookup, lookup_empty. case_bool_decide; [|done].
    unfold ET_PDATA2USR. rewrite Z.add_0_r, <- (H p) by done. by destruct e.
Qed.

(** ** Concrete calls *)

(** The server, whose addresses are those of the ET system, and a process beside it. *)
#[local] Instance os_beside : Os := {| getpid := 7; etNetLocalHost := Some "server"%string |}.
#[local] Instance close_beside : RemoteClose :=
  let no := fun _ : et_id => ret (ET_ERROR_REMOTE, None) in
  {| etr_close := no; etr_forcedclose := no; etr_kill := no; etn_close := no; etn_forcedclose := no; etn_kill := no |}.
Definition sid_beside : et_id := set_id_offset 0 id0.
Definition nid0 : et_id := set_id_locality ET_LOCAL_NOSHARE id0.
Definition silent (command : Z) : SM unit := goto_end.

#[local] Abbreviation taken_beside := (etn_take (R1 := no_remote_events) (K0 := files0) sid_beside (-77) silent silent).
#[local] Abbreviation given_beside := (etn_give (R1 := no_remote_events) (K0 := files0) sid_beside (-77) silent silent).

Example taken0 : outcome_of (run (taken_beside (TkGets 5) nid0 0 ET_SLEEP None) mem0) = Some ((ET_OK, [200 + off0; 100 + off0], 2), 0).
Proof. vm_compute. reflexivity. Qed.
Example given0 : option_map fst (outcome_of (run (given_beside (GvPuts [500 + off0; 600 + off0]) nid0 0) mem0)) = Some ET_OK.
Proof. vm_compute. reflexivity. Qed.

(** A timed request leaves the attachment marked as sleeping: a wake-up that comes when nothing waits, and
    should be without effect, makes the next timed request fail, though there are events. *)
Definition timed_sequence (wakeup : bool) : M (Z * Z) :=
  let* (st1, _, _) := taken_beside (TkGets 1) nid0 0 ET_TIMED (Some three_seconds) in
  (if wakeup then et_wakeup_attachment sid_beside 0 else ret ET_OK) ;;;
  let* (st2, _, _) := taken_beside (TkGets 1) nid0 0 ET_TIMED (Some three_seconds) in
  ret (st1, st2).

Example timed_request_woken_late :
  option_map fst (outcome_of (run (timed_sequence false) mem0)) = Some (ET_OK, ET_OK) /\
  option_map fst (outcome_of (run (timed_sequence true) mem0)) = Some (ET_OK, ET_ERROR_WAKEUP).
Proof. split; vm_compute; reflexivity. Qed.

(** The run returned, saw no wake-ups, and its memory has these events. *)
Definition calm_with {A} (xs : list Z) (o : outcome A) : bool :=
  match o with
  | Ok _ (mkCtx None []) m => forallb (fun y => bool_decide (is_Some (m_events m !! y))) xs
  | _ => false
  end.

Lemma calm_with_ok {A} xs (c : M A) m a : calm_with xs (run c m) = true -> option_map fst (outcome_of (run c m)) = Some a ->
  exists m1, run c m = Ok a (mkCtx None []) m1 /\ forall y, y ∈ xs -> is_Some (m_events m1 !! y).
Proof.
  destruct (run c m) as [b [[|] [|]] m1|?|?| |]; try done. cbn. intros F [= ->]. exists m1. split; [done|]. intros y Hy.
  rewrite forallb_forall in F. apply list_elem_of_In in Hy. by apply F, bool_decide_eq_true in Hy.
Qed.


Lemma noshare_data_roundtrip_witness :
  (exists x, run (unmap_loop (K0 := files0) off0 [200 + off0; 100 + off0]) (data_at (all_at off0 [200; 100] ∅) mem0) =
     Ok true x (data_at (all_at 0 [200; 100] ∅) mem0)) /\
  (exists x, run (map_loop (K0 := files0) off0 [200; 100]) mem0 = Ok (true, [200 + off0; 100 + off0]) x (data_at (all_at off0 [200; 100] ∅) mem0)).
Proof.
  assert (F : Forall (ordinary mem0) [200; 100]) by (repeat constructor; eexists; (split; [reflexivity|done])).
  assert (D : NoDup [200; 100]) by (apply (bool_decide_unpack _); vm_compute; exact I).
  destruct (noshare_data_roundtrip (K0 := files0) mem0 off0 [200; 100] F D) as (H1 & H2 & _). by split.
Defined.
