(* ===== verification/Fifo.v ===== *)
(** * The ET system as a fifo

    et_fifo.c: a fifo whose entries are arrays of related events.  A producer takes the new events of an
    entry from GrandCentral, a consumer gets them from the station "Users".  The context of a connection is
    a Record; [ff_openId] is the id of the system as it is at the time of a call, since the context has only a
    pointer to it.  An entry is its context and the array of pointers to its events, which are the user's
    pointers into the shared memory: the fifo of a remote user is not modelled.  The mallocs succeed but for
    the one of the context, [malloc_ok]; a producer's array of ids has as many as he says. *)
From stdpp Require Import base gmap strings list.
From S2P Require Import Prelude Types Machine EvList Sample Stats Api StationApi Init Station SysConfig Temp EventApi EventField.
Open Scope Z_scope.

Record et_fifo_ctx := mkFifo {
  ff_evSize : Z; ff_evCount : Z; ff_entries : Z; ff_userEntries : Z; ff_producer : bool; ff_capacity : Z;
  ff_openId : et_id; ff_userStatId : Z; ff_attId : Z; ff_idCount : Z; ff_bufIds : option (list Z)
}.

Record et_fifo_entry := mkEntry { fe_bufs : list Z; fe_fid : option et_fifo_ctx }.

(** ** Words of the control array *)

Definition control_at (i : nat) (e : et_event) : Z := nth i (ev_control e) 0.
Definition set_control_at (i : nat) (v : Z) (e : et_event) : et_event := set_ev_control (<[i := v]> (ev_control e)) e.

Section fifo.
Context `{R0 : Remote} `{R1 : RemoteEvents} `{O0 : Os} `{K0 : Kernel}.

(** ** Opening *)

Definition Users : string := "Users".

(** What the system says about its events: their size, their number and that of the groups, which are the
    entries.  A group count of zero is a division by zero. *)
Definition fifo_look (id : et_id) : M (Z + Z * Z * Z) :=
  let (err, evSize) := et_system_geteventsize id true in
  if negb (err =? ET_OK) then ret (inl err)
  else
    let (_, evCount) := et_system_getnumevents id true in
    let* (_, entries) := et_system_getgroupcount id true in
    let evCount := default 0 evCount in
    let entries := default 0 entries in
    if entries =? 0 then fault
    else if negb (Z.rem evCount entries =? 0) then ret (inl ET_ERROR)
    else ret (inr (default 0 evSize, evCount, entries)).

(** The ids of the buffers, which a producer gives: none for a consumer, or an error. *)
Definition fifo_ids (isProducer : bool) (bufIds : option (list Z)) (bidCount capacity : Z) : Z + Z * option (list Z) :=
  if isProducer then
    match bufIds with
    | None => inl ET_ERROR_BADARG
    | Some ids =>
        if bidCount <? 1 then inl ET_ERROR_BADARG
        else if capacity <? bidCount then inl ET_ERROR_TOOMANY
        else inr (bidCount, Some (take (Z.to_nat bidCount) ids))
    end
  else inr (0, None).

(** The station "Users" and its cue. *)
Definition fifo_users (id : et_id) : M (Z + Z * Z) :=
  let* (err, statId) := et_station_name_to_id id true (Some Users) in
  if err <? 0 then ret (inl err)
  else
    let statId := default 0 statId in
    let* (err, cue) := et_station_getcue id statId true in
    if err <? 0 then ret (inl err) else ret (inr (statId, default 0 cue)).

(** A producer is attached to GrandCentral, a consumer to the station "Users". *)
Definition fifo_attach (id : et_id) (isProducer : bool) (statId : Z) : M (Z + Z) :=
  let* (err, att) := et_station_attach id (if isProducer then ET_GRANDCENTRAL else statId) true in
  if err <? 0 then ret (inl err) else ret (inr (default (-1) att)).

Definition et_fifo_open (malloc_ok : bool) (id : et_id) (isProducer : bool) (bufIds : option (list Z)) (bidCount : Z) :
    M (Z * option et_fifo_ctx) :=
  if negb malloc_ok then ret (ET_ERROR_NOMEM, None)
  else
    let* r := fifo_look id in
    match r with
    | inl err => ret (err, None)
    | inr (evSize, evCount, entries) =>
        let capacity := Z.quot evCount entries in
        match fifo_ids isProducer bufIds bidCount capacity with
        | inl err => ret (err, None)
        | inr (idCount, ids) =>
            let* r := fifo_users id in
            match r with
            | inl err => ret (err, None)
            | inr (statId, cue) =>
                let* r := fifo_attach id isProducer statId in
                match r with
                | inl err => ret (err, None)
                | inr attId =>
                    let* (_, stationCount) := et_system_getstations id true in
                    if 2 <? default 0 stationCount then ret (ET_ERROR_TOOMANY, None)
                    else ret (ET_OK, Some (mkFifo evSize evCount entries cue isProducer capacity id statId attId idCount ids))
                end
            end
        end
    end.

Definition et_fifo_openProducer (malloc_ok : bool) (id : et_id) (bufIds : option (list Z)) (idCount : Z) :=
  et_fifo_open malloc_ok id true bufIds idCount.
Definition et_fifo_openConsumer (malloc_ok : bool) (id : et_id) := et_fifo_open malloc_ok id false None 0.

Definition et_fifo_close (fid : option et_fifo_ctx) : M unit :=
  match fid with
  | None => ret tt
  | Some ctx =>
      if -1 <? ff_attId ctx then let* _ := et_station_detach (ff_openId ctx) (ff_attId ctx) in ret tt else ret tt
  end.

(** The pointers of a new entry are those that the memory happened to hold. *)
Definition et_fifo_entryCreate (ctx : et_fifo_ctx) (junk : nat -> Z) : et_fifo_entry :=
  mkEntry (map junk (seq 0 (Z.to_nat (ff_capacity ctx)))) (Some ctx).

(** ** Entries *)

(** The array after the pointers [pes] were written into it. *)
Definition written_bufs (entry : et_fifo_entry) (pes : list Z) : et_fifo_entry :=
  mkEntry (pes ++ drop (length pes) (fe_bufs entry)) (fe_fid entry).

(** The loops over the events of a new entry: the ids in their first control words, and no data. *)
Fixpoint label_bufs (off : Z) (bufs ids : list Z) {struct ids} : M unit :=
  match ids with
  | [] => ret tt
  | c :: ids' =>
      match bufs with
      | [] => fault
      | p :: bufs' =>
          str_ev off p (set_control_at 0 c) ;;;
          str_ev off p (set_ev_length 0) ;;;
          label_bufs off bufs' ids'
      end
  end.

(** The ids for the events of an entry. *)
Definition entry_ids (ctx : et_fifo_ctx) : list Z :=
  default [] (ff_bufIds ctx) ++ repeat (-1) (Z.to_nat (ff_capacity ctx - ff_idCount ctx)).

Definition new_entry (mode : Z) (deltatime : option timespec) (fid : option et_fifo_ctx) (entry : option et_fifo_entry) :
    M (Z * option et_fifo_entry) :=
  match fid, entry with
  | Some ctx, Some en =>
      if negb (ff_producer ctx) then ret (ET_ERROR, entry)
      else
        let* (err, pes, nread) := et_events_new (ff_openId ctx) (ff_attId ctx) true mode deltatime (ff_evSize ctx) (ff_capacity ctx) in
        let en := written_bufs en pes in
        if negb (err =? ET_OK) then ret (err, Some en)
        else if negb (nread =? ff_capacity ctx) then ret (ET_ERROR, Some en)
        else
          label_bufs (id_offset (ff_openId ctx)) (fe_bufs en) (entry_ids ctx) ;;;
          ret (ET_OK, Some en)
  | _, _ => ret (ET_ERROR, entry)
  end.
Definition et_fifo_newEntry := new_entry ET_SLEEP None.
Definition et_fifo_newEntryTO (fid : option et_fifo_ctx) (entry : option et_fifo_entry) (deltatime : option timespec) :=
  new_entry ET_TIMED deltatime fid entry.

Definition get_entry (mode : Z) (deltatime : option timespec) (fid : option et_fifo_ctx) (entry : option et_fifo_entry) :
    M (Z * option et_fifo_entry) :=
  match fid, entry with
  | Some ctx, Some en =>
      if ff_producer ctx then ret (ET_ERROR, entry)
      else
        let* (err, pes, nread) := et_events_get (ff_openId ctx) (ff_attId ctx) true mode deltatime (ff_capacity ctx) in
        let en := written_bufs en pes in
        if negb (err =? ET_OK) then ret (err, Some en)
        else if negb (nread =? ff_capacity ctx) then ret (ET_ERROR, Some en)
        else ret (ET_OK, Some en)
  | _, _ => ret (ET_ERROR, entry)
  end.
Definition et_fifo_getEntry := get_entry ET_SLEEP None.
Definition et_fifo_getEntryTO (fid : option et_fifo_ctx) (entry : option et_fifo_entry) (deltatime : option timespec) :=
  get_entry ET_TIMED deltatime fid entry.

Definition et_fifo_putEntry (entry : option et_fifo_entry) : M Z :=
  match entry with
  | None => ret ET_ERROR
  | Some en =>
      match fe_fid en with
      | None => ret ET_ERROR
      | Some ctx =>
          let* err := et_events_put (ff_openId ctx) (ff_attId ctx) true (fe_bufs en) (ff_capacity ctx) in
          if negb (err =? ET_OK) then ret err else ret ET_OK
      end
  end.

(** ** Values *)

Definition et_fifo_getBufs (entry : option et_fifo_entry) : option (list Z) := fe_bufs <$> entry.
Definition fifo_get {V} (err : V) (get : et_fifo_ctx -> V) (fid : option et_fifo_ctx) : V := from_option get err fid.
Definition et_fifo_getEntryCount := fifo_get ET_ERROR ff_userEntries.
(** The error becomes a size_t. *)
Definition et_fifo_getBufSize := fifo_get (u64 ET_ERROR) ff_evSize.
Definition et_fifo_getEntryCapacity := fifo_get ET_ERROR ff_capacity.
Definition et_fifo_getIdCount := fifo_get ET_ERROR ff_idCount.
(** [given]: the array for the ids is not NULL. *)
Definition et_fifo_getBufIds (fid : option et_fifo_ctx) (given : bool) : Z * option (list Z) :=
  match fid with
  | None => (ET_ERROR, None)
  | Some ctx =>
      match ff_bufIds ctx with
      | Some ids => if given then (ff_idCount ctx, Some (take (Z.to_nat (ff_idCount ctx)) ids)) else (ET_ERROR, None)
      | None => (ET_ERROR, None)
      end
  end.

Definition et_fifo_getFillLevel (fid : option et_fifo_ctx) : M Z :=
  match fid with
  | None => ret ET_ERROR
  | Some ctx =>
      let* (status, inputListCount) := et_station_getinputcount_rt (ff_openId ctx) (ff_userStatId ctx) true in
      if negb (status =? ET_OK) then ret status else ret (default 0 inputListCount)
  end.

(** ** Events of an entry *)

(** Through the pointer of a user whose mapping has the offset [off]; NULL is [None]. *)
Definition set_word (off : Z) (ev : option Z) (i : nat) (v : Z) : M unit :=
  match ev with None => ret tt | Some p => str_ev off p (set_control_at i v) end.
Definition get_word (off : Z) (ev : option Z) (i : nat) : M Z :=
  match ev with None => ret ET_ERROR | Some p => let* e := ld_ev off p in ret (control_at i e) end.
Definition et_fifo_setId (off : Z) (ev : option Z) (id : Z) : M unit := set_word off ev 0 id.
Definition et_fifo_getId (off : Z) (ev : option Z) : M Z := get_word off ev 0.
Definition et_fifo_setHasData (off : Z) (ev : option Z) (hasData : Z) : M unit := set_word off ev 1 hasData.
Definition et_fifo_hasData (off : Z) (ev : option Z) : M Z := get_word off ev 1.

(** The events with an id: whether all have data, how many have not, and the bytes of these. *)
Fixpoint have_data_loop (off : Z) (n : nat) (bufs : list Z) (haveData : bool) (iBufs iBytes : Z) : M (bool * Z * Z) :=
  match n with
  | O => ret (haveData, iBufs, iBytes)
  | S n' =>
      match bufs with
      | [] => fault
      | p :: bufs' =>
          let* e := ld_ev off p in
          let hData := control_at 1 e in
          let len := default 0 (snd (et_event_getlength (Some e) true)) in
          let (iBufs, iBytes) := if hData =? 0 then (iBufs + 1, u64 (iBytes + len)) else (iBufs, iBytes) in
          have_data_loop off n' bufs' (haveData && negb (hData =? 0)) iBufs iBytes
      end
  end.

(** The result and, when the arguments are good, the two counts. *)
Definition et_fifo_allHaveData (fid : option et_fifo_ctx) (entry : option et_fifo_entry) : M (Z * option (Z * Z)) :=
  match fid, entry with
  | Some ctx, Some en =>
      let* (haveData, iBufs, iBytes) :=
        have_data_loop (id_offset (ff_openId ctx)) (Z.to_nat (ff_idCount ctx)) (fe_bufs en) true 0 0 in
      ret (if haveData : bool then 1 else 0, Some (iBufs, iBytes))
  | _, _ => ret (ET_ERROR, None)
  end.

Fixpoint buf_loop (off id : Z) (n : nat) (bufs : list Z) : M (option Z) :=
  match n with
  | O => ret None
  | S n' =>
      match bufs with
      | [] => fault
      | p :: bufs' =>
          let* e := ld_ev off p in
          let c0 := control_at 0 e in
          if c0 =? id then ret (Some p)
          else if c0 =? -1 then str_ev off p (set_control_at 0 id) ;;; ret (Some p)
          else buf_loop off id n' bufs'
      end
  end.

(** The context of the entry is not compared with NULL. *)
Definition et_fifo_getBuf (id : Z) (entry : option et_fifo_entry) : M (option Z) :=
  match entry with
  | None => ret None
  | Some en =>
      match fe_fid en with
      | None => fault
      | Some ctx => buf_loop (id_offset (ff_openId ctx)) id (Z.to_nat (ff_capacity ctx)) (fe_bufs en)
      end
  end.
End fifo.
