(* ===== verification/FifoSpec.v ===== *)
(** * Correctness of the fifo

    What opening a fifo does on every branch, which events a new entry has and how they are labelled, and
    how a buffer of an entry is found or reserved for an id. *)
From stdpp Require Import base gmap strings list.
From S2P Require Import Prelude Types Machine EvList Local Sample StatConfig Stats Chain Api StationApi Init Station Read StationSpec Attach SysConfig Temp EventApi EventField EventSpec Create Fifo.
Open Scope Z_scope.

#[local] Abbreviation nc := (fun _ : et_mem => True).

(** ** Opening *)

(** [u] is the first station in use with the name of the consumers' station. *)
Definition users_at (u : Z) (pu : et_station) (m : et_mem) : Prop :=
  m_stats m !! u = Some pu /\ sd_status (st_data pu) <> ET_STATION_UNUSED /\ st_name pu = Users /\
  forall s ps, 0 <= s < u -> m_stats m !! s = Some ps -> sd_status (st_data ps) <> ET_STATION_UNUSED -> st_name ps <> Users.

Lemma wp_exists_found u pu m (n : nat) k :
  users_at u pu m -> 0 <= k <= u -> u < k + Z.of_nat n -> (forall s, k <= s < k + Z.of_nat n -> is_Some (m_stats m !! s)) ->
  wp (exists_loop n k Users) (fun r m' => r = Some u /\ m' = m) nc m.
Proof.
  intros (E & Us & Nm & F). revert k. induction n as [|n IH]; intros k Hk Hn D; cbn [exists_loop]; [lia|].
  destruct (D k) as [ps Ek]; [lia|]. apply wp_bind. eapply wps_ld_stat; [done|].
  destruct (decide (k = u)) as [->|N].
  - rewrite E in Ek. injection Ek as <-. rewrite (proj2 (Z.eqb_neq _ _) Us), Nm. by apply wp_ret.
  - destruct (Z.eqb_spec (sd_status (st_data ps)) ET_STATION_UNUSED) as [U|U]; cbn [negb andb]; [apply IH; [lia..|intros s Hs; apply D; lia]|].
    destruct (String.eqb_spec (st_name ps) Users) as [X|X]; [exfalso; apply (F k ps); [lia|done|done|done]|].
    apply IH; [lia..|intros s Hs; apply D; lia].
Qed.

Section open.
Context `{R0 : Remote} `{O0 : Os} (id : et_id) (m : et_mem) (gs : list (Z * list Z)) (u : Z) (pu : et_station).
Context (L : local_call id m) (Ce : call_error id = None) (Hi : id_init id = ET_STRUCT_OK).
Context (S : system_ok m gs) (A : attach_ok m) (K : proc_known id m) (Un : station_unlocked u m) (Us : users_at u pu m).

Abbreviation groups := (cf_groupCount (sys_config (m_sys m))).
Abbreviation capacity := (Z.quot (id_nevents id) groups).

Lemma users_range : 0 <= u < cf_nstations (sys_config (m_sys m)).
Proof. apply (ss_dom _ _ (proj2 S)). destruct Us as [E _]. eauto. Qed.

Lemma wp_fifo_look : groups <> 0 ->
  wp (fifo_look id) (fun r m' => m' = m /\
    r = if Z.rem (id_nevents id) groups =? 0 then inr (id_esize id, id_nevents id, groups) else inl ET_ERROR) nc m.
Proof.
  intros G. unfold fifo_look, et_system_geteventsize, et_system_getnumevents, et_system_getgroupcount, id_get, sys_get.
  rewrite Hi, (lc_local _ _ L). cbn. apply wp_bind. destruct (negb true || negb (id_init id =? ET_STRUCT_OK)) eqn:B;
    [rewrite Hi in B; done|]. apply wp_bind, wps_ld_sys, wp_ret. cbn. rewrite (proj2 (Z.eqb_neq _ _) G).
  destruct (Z.rem (id_nevents id) groups =? 0); by apply wp_ret.
Qed.

Lemma wp_fifo_users : wp (fifo_users id) (fun r m' => m' = m /\ r = inr (u, sc_cue (st_config pu))) nc m.
Proof.
  pose proof users_range as Hu. unfold fifo_users, et_station_name_to_id, et_station_exists.
  rewrite (lc_local _ _ L). change (ET_LOCAL =? ET_REMOTE) with false. cbv iota. apply wp_bind, wp_bind, (wp_alive_call id m L). rewrite Ce.
  apply wp_bind, wps_ld_sys. apply wp_bind. eapply wp_mono; [eapply (wp_exists_found u pu); [exact Us|cbn; lia..|]| |done].
  { intros s Hs. apply (ss_dom _ _ (proj2 S)). cbn in Hs. lia. }
  intros r m' [-> ->]. apply wp_ret. split; [done|]. rewrite set_m_rwlock_back. change (1 <? 0) with false. change (1 =? 1) with true. cbv iota.
  apply wp_ret. change (ET_OK <? 0) with false. cbv iota. cbn [default]. apply wp_bind.
  eapply wp_mono; [apply (wp_get_call GtCue id m u true L); [|exact Un]| |done].
  { intros s Hs. by apply (ss_dom _ _ (proj2 S)). }
  intros r m' [-> ->]. destruct Us as (E & U0 & _). unfold read_result. rewrite Ce, E. cbn [get_refuse]. unfold unused.
  rewrite (proj2 (not_bad_station _ _)) by done. rewrite (proj2 (Z.eqb_neq _ _) U0). cbv iota. by apply wp_ret.
Qed.

(** The ids that a user gives: a producer has to give at least one and at most as many as an entry has
    events; a consumer's are not looked at. *)
Definition ids_bad (isProducer : bool) (bufIds : option (list Z)) (bidCount : Z) : Prop :=
  isProducer = true /\ (bufIds = None \/ bidCount < 1).
Definition ids_many (isProducer : bool) (bufIds : option (list Z)) (bidCount : Z) : Prop :=
  isProducer = true /\ bufIds <> None /\ 1 <= bidCount /\ capacity < bidCount.
Definition ids_good (isProducer : bool) (bufIds : option (list Z)) (bidCount : Z) : Prop :=
  isProducer = false \/ (bufIds <> None /\ 1 <= bidCount <= capacity).

(** What opening does: an error before anything changed, an error of the attachment, or an attachment;
    with it the context, unless there are more than two stations. *)
Definition opened (isProducer : bool) (bufIds : option (list Z)) (bidCount : Z) (r : Z * option et_fifo_ctx) (m' : et_mem) : Prop :=
  (Z.rem (id_nevents id) groups <> 0 /\ r = (ET_ERROR, None) /\ m' = m) \/
  (Z.rem (id_nevents id) groups = 0 /\
   ((ids_bad isProducer bufIds bidCount /\ r = (ET_ERROR_BADARG, None) /\ m' = m) \/
    (ids_many isProducer bufIds bidCount /\ r = (ET_ERROR_TOOMANY, None) /\ m' = m) \/
    (ids_good isProducer bufIds bidCount /\
     exists err att, attach_result id (if isProducer then ET_GRANDCENTRAL else u) m (err, att) m' /\
       if err <? 0 then r = (err, None)
       else if 2 <? sys_nstations (m_sys m) then r = (ET_ERROR_TOOMANY, None)
       else r = (ET_OK, Some (mkFifo (id_esize id) (id_nevents id) groups (sc_cue (st_config pu)) isProducer capacity id u
                   (default (-1) att) (if isProducer then bidCount else 0)
                   (if isProducer then take (Z.to_nat bidCount) <$> bufIds else None)))))).

(** The four answers to the ids. *)
Lemma fifo_ids_cases isProducer bufIds bidCount :
  (ids_bad isProducer bufIds bidCount /\ fifo_ids isProducer bufIds bidCount capacity = inl ET_ERROR_BADARG) \/
  (ids_many isProducer bufIds bidCount /\ fifo_ids isProducer bufIds bidCount capacity = inl ET_ERROR_TOOMANY) \/
  (ids_good isProducer bufIds bidCount /\ fifo_ids isProducer bufIds bidCount capacity =
     inr (if isProducer then bidCount else 0, if isProducer then take (Z.to_nat bidCount) <$> bufIds else None)).
Proof.
  unfold ids_bad, ids_many, ids_good, fifo_ids. destruct isProducer; [|by right; right; split; [left|]].
  destruct bufIds as [ids|]; [|by left; split_and!; auto]. destruct (Z.ltb_spec bidCount 1); [left; split; [auto|done]|].
  destruct (Z.ltb_spec capacity bidCount); right; [left|right]; (split; [|done]); [by split_and!|by right].
Qed.

Lemma attach_result_nstations s r m' : attach_result id s m r m' -> sys_nstations (m_sys m') = sys_nstations (m_sys m).
Proof.
  unfold attach_result. destruct (call_error id); [by intros [_ ->]|]. destruct (m_stats m !! s); [|by intros [_ ->]].
  destruct (_ && _); [by intros [_ ->]|]. destruct (_ || _); [by intros [_ ->]|]. by intros (i & _ & _ & _ & _ & ->).
Qed.

Lemma wp_fifo_open isProducer bufIds bidCount : groups <> 0 ->
  wp (et_fifo_open true id isProducer bufIds bidCount) (opened isProducer bufIds bidCount) nc m.
Proof.
  intros G. unfold et_fifo_open, opened. cbn [negb]. apply wp_bind. eapply wp_mono; [by apply wp_fifo_look| |done].
  intros r m1 [-> ->]. destruct (Z.eqb_spec (Z.rem (id_nevents id) groups) 0) as [D|D]; [|by apply wp_ret; left].
  destruct (fifo_ids_cases isProducer bufIds bidCount) as [[B F]|[[B F]|[B F]]]; cbv zeta; rewrite F;
    [by apply wp_ret; right; split; [|left]|by apply wp_ret; right; split; [|right; left]|].
  apply wp_bind. eapply wp_mono; [apply wp_fifo_users| |done].
  intros r m1 [-> ->]. apply wp_bind. unfold fifo_attach. apply wp_bind. pose proof users_range as Hu.
  eapply wp_mono; [apply (wp_attach id _ m gs); [done..|destruct isProducer; [done|lia]]| |done].
  intros [err att] m1 H. pose proof (attach_result_nstations _ _ _ H) as Ns. destruct (err <? 0) eqn:Er.
  - apply wp_ret, wp_ret. right. split; [done|]. right. right. split; [done|]. exists err, att. by rewrite Er.
  - apply wp_ret. apply wp_bind. unfold et_system_getstations, sys_get. rewrite Hi, (lc_local _ _ L). cbn.
    apply wp_bind, wps_ld_sys, wp_ret. rewrite Ns. cbn. destruct (2 <? sys_nstations (m_sys m)) eqn:N2; apply wp_ret; right; (split; [done|]); right; right; (split; [done|]); exists err, att; by rewrite Er, ?N2.
Qed.
End open.

(** ** The labels of a new entry *)

Definition label_event (c : Z) (e : et_event) : et_event := set_ev_length 0 (set_control_at 0 c e).
Fixpoint label_events (xs ids : list Z) (evs : gmap Z et_event) : gmap Z et_event :=
  match xs, ids with
  | x :: xs', c :: ids' => label_events xs' ids' (alter (label_event c) x evs)
  | _, _ => evs
  end.

Lemma label_events_other xs ids evs x : x ∉ xs -> label_events xs ids evs !! x = evs !! x.
Proof.
  revert ids evs. induction xs as [|y xs IH]; intros [|c ids] evs H; cbn [label_events]; try done.
  rewrite IH by set_solver. apply lookup_alter_ne. set_solver.
Qed.

Lemma label_events_lookup xs ids evs i x c : NoDup xs -> xs !! i = Some x -> ids !! i = Some c ->
  label_events xs ids evs !! x = label_event c <$> evs !! x.
Proof.
  intros D. revert i ids evs. induction D as [|y xs N D IH]; intros i ids evs Hx Hc; [done|].
  destruct ids as [|d ids]; [done|]. cbn [label_events]. destruct i as [|i]; cbn in Hx, Hc.
  - injection Hx as ->. injection Hc as ->. rewrite label_events_other by done. apply lookup_alter_eq.
  - rewrite (IH i) by done. rewrite lookup_alter_ne; [done|]. intros ->. apply N. by eapply list_elem_of_lookup_2.
Qed.

Lemma alter_as_insert (f : et_event -> et_event) x e (evs : gmap Z et_event) : evs !! x = Some e -> alter f x evs = <[x := f e]> evs.
Proof.
  intros E. apply map_eq. intros y. destruct (decide (x = y)) as [<-|N]; [by rewrite lookup_insert_eq, lookup_alter_eq, E|].
  by rewrite lookup_insert_ne, lookup_alter_ne.
Qed.

Lemma label_events_owner xs ids evs x : owner (label_events xs ids evs) x = owner evs x.
Proof.
  revert ids evs. induction xs as [|y xs IH]; intros [|c ids] evs; cbn [label_events]; try done. rewrite IH. unfold owner.
  destruct (decide (y = x)) as [->|N]; [rewrite lookup_alter_eq; by destruct (evs !! x)|by rewrite lookup_alter_ne].
Qed.

Lemma wp_label_bufs off xs : forall ids rest m (Q : unit -> et_mem -> Prop),
  (length ids <= length xs)%nat -> (forall x, x ∈ xs -> is_Some (m_events m !! x)) ->
  Q tt (set_m_events (label_events xs ids (m_events m)) m) ->
  wp (label_bufs off (map (fun x => x + off) xs ++ rest) ids) Q nc m.
Proof.
  induction xs as [|x xs IH]; intros [|c ids] rest m Q Hl D H; cbn [length] in Hl; try lia; cbn [label_bufs map app label_events] in *;
    [apply wp_ret; by destruct m..|].
  destruct (D x) as [e E]; [set_solver|]. apply wp_bind. eapply wps_str_ev; [exact E|done|]. apply wp_bind.
  eapply wps_str_ev; [apply lookup_insert_eq|done|]. cbn [m_events set_m_events]. rewrite insert_insert_eq. apply IH; [lia| |].
  - intros y Hy. cbn [m_events set_m_events]. destruct (decide (x = y)) as [<-|N]; [rewrite lookup_insert_eq; by eexists|].
    rewrite lookup_insert_ne by done. apply D. set_solver.
  - cbn [m_events set_m_events]. replace (<[x := set_ev_length 0 (set_control_at 0 c e)]> (m_events m)) with (alter (label_event c) x (m_events m)) by (rewrite (alter_as_insert _ _ _ _ E); reflexivity). exact H.
Qed.

(** ** New entries *)

(** The event [e] as the producer with the attachment [att] gets it in an entry, with the id [c]. *)
Record fresh_buffer (off att size c : Z) (e e' : et_event) : Prop := mkFreshBuffer {
  fb_id : control_at 0 e' = c;
  fb_data : control_at 1 e' = 0;
  fb_length : ev_length e' = 0;
  fb_memsize : ev_memsize e' = size;
  fb_owner : ev_owner e' = att;
  fb_temp : ev_temp e' = ET_EVENT_NORMAL;
  fb_pdata : ev_pdata e' = ev_data e + off
}.

Lemma fresh_labelled off att size c e e1 :
  plain_event off size size (set_ev_owner att e) e1 -> fresh_buffer off att size c e (label_event c e1).
Proof. intros ->. by split. Qed.

Section new_entry.
Context `{R0 : Remote} `{R1 : RemoteEvents} `{K0 : Kernel} `{QK : !QuietKernel}.
Context (ctx : et_fifo_ctx) (bufs : list Z) (fid : option et_fifo_ctx) (mode : Z) (deltatime : option timespec).
Context (m : et_mem) (a : et_attach) (ps : et_station) (l : list Z).
Abbreviation id := (ff_openId ctx).
Abbreviation att := (ff_attId ctx).
Abbreviation capacity := (ff_capacity ctx).
Abbreviation off := (id_offset id).

(** A producer of a system with events in GrandCentral, with a context as opening makes it. *)
Record may_produce : Prop := mkMayProduce {
  mp_local : local_call id m;
  mp_group : id_group id = 0;
  mp_producer : ff_producer ctx = true;
  mp_ids : length (entry_ids ctx) = Z.to_nat capacity;
  mp_size : ff_evSize ctx = cf_event_size (sys_config (m_sys m));
  mp_attach : sys_attach (m_sys m) !! att = Some a;
  mp_refused : new_refused id m att true mode deltatime capacity = None;
  mp_read : read_pre m ET_GRANDCENTRAL ps l;
  mp_may : may_read m (Z.land mode ET_WAIT_MASK) att;
  mp_some : l <> [];
  mp_temps : 1 <= cf_ntemps (sys_config (m_sys m))
}.

(** What a producer gets: the first events of GrandCentral, as many as an entry has or all of them; only a
    whole entry is labelled and given to the producer. *)
Definition produced (r : Z * option et_fifo_entry) (m' : et_mem) : Prop :=
  let n := Z.to_nat (Z.min capacity (Z.of_nat (length l))) in
  let xs := take n l in
  (exists ps', m_stats m' !! ET_GRANDCENTRAL = Some ps' /\ list_rep (m_events m') (st_list_in ps') (drop n l)) /\
  Forall (fun x => owner (m_events m') x = Some att) xs /\
  snd r = Some (mkEntry (map (fun x => x + off) xs ++ drop n bufs) fid) /\
  if capacity <=? Z.of_nat (length l) then
    fst r = ET_OK /\
    forall i x c, xs !! i = Some x -> entry_ids ctx !! i = Some c ->
      exists e e', m_events m !! x = Some e /\ m_events m' !! x = Some e' /\ fresh_buffer off att (ff_evSize ctx) c e e'
  else fst r = ET_ERROR.

Context (P : may_produce).
Abbreviation n := (Z.to_nat (Z.min capacity (Z.of_nat (length l)))).
Abbreviation xs := (take n l).

Lemma produced_nodup : NoDup l.
Proof. apply (lr_nodup _ _ _ (rd_in _ _ _ _ (mp_read P))). Qed.

(** The memory after the events were made, and after they were labelled. *)
Lemma produced_memory m1 evs labels k :
  have_read m ET_GRANDCENTRAL ps l att n m1 -> changed (plain_event off (ff_evSize ctx) (ff_evSize ctx)) xs (m_events m1) evs ->
  let evs' := label_events xs labels evs in
  let m' := upd_attach att k (set_m_events evs' m1) in
  (exists ps', m_stats m' !! ET_GRANDCENTRAL = Some ps' /\ list_rep (m_events m') (st_list_in ps') (drop n l)) /\
  Forall (fun x => owner (m_events m') x = Some att) xs /\
  (forall i x c, xs !! i = Some x -> labels !! i = Some c ->
     exists e e', m_events m !! x = Some e /\ m_events m' !! x = Some e' /\ fresh_buffer off att (ff_evSize ctx) c e e').
Proof.
  intros (hg & li & fx & -> & Rl & _) Ch. pose proof produced_nodup as Nd. cbn [m_events lview set_m_events] in Ch.
  assert (Dx : NoDup xs) by (rewrite <- (take_drop n l) in Nd; by apply NoDup_app in Nd as [? _]).
  assert (Ex : forall x, x ∈ xs -> exists e e1, m_events m !! x = Some e /\ evs !! x = Some e1 /\
    plain_event off (ff_evSize ctx) (ff_evSize ctx) (set_ev_owner att e) e1).
  { intros x Hx. specialize (Ch x). rewrite set_owners_lookup, decide_True in Ch by done.
    destruct (m_events m !! x) as [e|] eqn:E; cbn in Ch.
    - destruct Ch as (e1 & E1 & F). rewrite decide_True in F by done. by exists e, e1.
    - exfalso. apply elem_of_take in Hx as (i & Hx & _). apply list_elem_of_lookup_2 in Hx.
      destruct (chain_in _ _ _ (lr_chain _ _ _ (rd_in _ _ _ _ (mp_read P))) Hx) as [y Ey]. by rewrite E in Ey. }
  split_and!.
  - eexists. split; [cbn; by rewrite lookup_insert_eq|]. cbn. eapply list_rep_frame; [|exact Rl]. intros b Hb.
    assert (Nb : b ∉ xs) by (intros X; rewrite <- (take_drop n l) in Nd; apply NoDup_app in Nd as (_ & Nd & _); by apply (Nd b)).
    rewrite label_events_other by done. specialize (Ch b). destruct (set_owners att xs (m_events m) !! b) as [e|] eqn:E; [|done].
    destruct Ch as (e1 & -> & X). rewrite decide_False in X by done. by rewrite X.
  - apply Forall_forall. intros x Hx. destruct (Ex x Hx) as (e & e1 & _ & E1 & ->). cbn. rewrite label_events_owner. unfold owner.
    by rewrite E1.
  - intros i x c Hi Hc. destruct (Ex x) as (e & e1 & E & E1 & F); [by eapply list_elem_of_lookup_2|]. exists e, (label_event c e1).
    split_and!; [done| |by apply fresh_labelled]. cbn. rewrite (label_events_lookup _ _ _ i x c) by done. by rewrite E1.
Qed.

Lemma wp_new_entry :
  wp (new_entry mode deltatime (Some ctx) (Some (mkEntry bufs fid))) produced nc m.
Proof.
  destruct P as [L Gr Pr Ids Sz Ea Ref Rd May Ne Nt]. unfold new_entry. rewrite Pr. cbn [negb]. apply wp_bind.
  eapply wp_mono; [by apply (wp_events_new id m att true mode deltatime (ff_evSize ctx) capacity a ps l)| |done].
  unfold at_most_temps. rewrite Sz, Z.ltb_irrefl. intros r m' (m1 & Hr & D).
  destruct (have_read_sys _ _ _ _ _ _ _ Hr) as [Sy _]. unfold new_done in D. rewrite Sy, Z.ltb_irrefl in D.
  destruct D as (st & m2 & [-> (evs & Ch & ->)] & D). change (ET_OK =? ET_OK) with true in D. cbv iota zeta in D. destruct D as [-> ->].
  rewrite <- Sz in Ch. cbn [negb]. change (ET_OK =? ET_OK) with true. cbn [negb]. unfold written_bufs. cbn [fe_bufs fe_fid].
  assert (Hn : 0 < capacity) by (destruct (new_refused_none _ _ _ _ _ _ _ _ Ref Ea) as (N0 & _ & _ & Nn & _); apply Z.ltb_ge in Nn; lia).
  assert (Hl : length xs = n) by (rewrite length_take; lia). rewrite length_map, Hl. destruct (Z.leb_spec capacity (Z.of_nat (length l))) as [F|F].
  - rewrite Z.min_l in * by lia. rewrite Z2Nat.id, Z.eqb_refl by lia. cbn [negb]. apply wp_bind, wp_label_bufs.
    { rewrite Ids, Hl. lia. }
    { intros x Hx. cbn. specialize (Ch x). destruct (m_events m1 !! x) as [e|] eqn:E; [destruct Ch as (e' & -> & _); by eexists|].
      exfalso. destruct (have_read_dom _ _ _ _ _ _ _ x Hr) as [e Ee]; [|by rewrite E in Ee].
      eapply chain_in; [apply (lr_chain _ _ _ (rd_in _ _ _ _ Rd))|]. apply elem_of_take in Hx as (i & Hx & _). by eapply list_elem_of_lookup_2. }
    apply wp_ret. unfold produced. rewrite (proj2 (Z.leb_le _ _)) by lia. rewrite Z.min_l by lia.
    pose proof (produced_memory m1 evs (entry_ids ctx) (fun b => set_at_events_make (u64 (at_events_make b + capacity)) b)) as X.
    rewrite Z.min_l in X by lia. destruct (X Hr Ch) as (X1 & X2 & X3). cbn [fst snd]. by split_and!.
  - rewrite Z.min_r in * by lia. rewrite Nat2Z.id in *. destruct (Z.eqb_spec (Z.of_nat (length l)) capacity); [lia|]. cbn [negb].
    apply wp_ret. unfold produced. rewrite (proj2 (Z.leb_gt _ _)) by lia. rewrite Z.min_r, Nat2Z.id by lia.
    pose proof (produced_memory m1 evs [] (fun b => set_at_events_make (u64 (at_events_make b + Z.of_nat (length l))) b)) as X.
    rewrite Z.min_r, Nat2Z.id in X by lia. assert (Le : forall ys evs, label_events ys [] evs = evs) by (by intros []). rewrite Le in X.
    destruct (X Hr Ch) as (X1 & X2 & _). cbn [fst snd]. by split_and!.
Qed.
End new_entry.

(** ** The buffer for an id *)

(** The first control word of an event. *)
Definition word (m : et_mem) (x : Z) : Z := from_option (control_at 0) 0 (m_events m !! x).

(** The first event that has the id or is not used. *)
Fixpoint buf_for (id : Z) (m : et_mem) (xs : list Z) : option Z :=
  match xs with
  | [] => None
  | x :: xs' => if (word m x =? id) || (word m x =? -1) then Some x else buf_for id m xs'
  end.

Definition reserved (id : Z) (m : et_mem) (x : Z) : et_mem :=
  if word m x =? id then m else upd_ev x (set_control_at 0 id) m.

(** Events with a control array. *)
Definition buffers (m : et_mem) (xs : list Z) : Prop :=
  forall x, x ∈ xs -> exists e, m_events m !! x = Some e /\ ev_control e <> [].

Lemma wp_buf_loop off id xs : forall rest m, buffers m xs ->
  wp (buf_loop off id (length xs) (map (fun x => x + off) xs ++ rest))
    (fun r m' => r = (fun x => x + off) <$> buf_for id m xs /\ m' = from_option (reserved id m) m (buf_for id m xs)) nc m.
Proof.
  induction xs as [|x xs IH]; intros rest m B; cbn [length buf_loop map app buf_for]; [by apply wp_ret|].
  destruct (B x) as (e & E & Ce); [set_solver|]. apply wp_bind. eapply wps_ld_ev; [exact E|].
  assert (W : word m x = control_at 0 e) by (unfold word; by rewrite E). rewrite W.
  destruct (control_at 0 e =? id) eqn:W1; cbn [orb].
  - apply wp_ret. split; [done|]. cbn. unfold reserved. by rewrite W, W1.
  - destruct (control_at 0 e =? -1); [|apply IH; intros y Hy; apply B; set_solver].
    apply wp_bind. eapply wps_str_ev; [exact E|done|]. apply wp_ret. split; [done|]. cbn. unfold reserved, upd_ev. rewrite W, W1.
    by rewrite (alter_as_insert _ _ _ _ E).
Qed.

Lemma buf_for_some id m xs x : buf_for id m xs = Some x -> x ∈ xs /\ (word m x = id \/ word m x = -1).
Proof.
  induction xs as [|y xs IH]; cbn [buf_for]; [done|]. destruct (_ || _) eqn:B.
  - intros [= ->]. split; [set_solver|]. apply orb_true_iff in B as [B|B]; apply Z.eqb_eq in B; auto.
  - intros H. destruct (IH H) as [H1 H2]. split; [set_solver|done].
Qed.

Lemma buf_for_none id m xs : buf_for id m xs = None -> Forall (fun x => word m x <> id /\ word m x <> -1) xs.
Proof.
  induction xs as [|y xs IH]; cbn [buf_for]; [done|]. destruct (_ || _) eqn:B; [done|]. intros H. constructor; [|by apply IH].
  apply orb_false_iff in B as [B1 B2]. apply Z.eqb_neq in B1, B2. done.
Qed.

(** The event [x] has the id or is not used, and none before it has or is. *)
Definition first_for (id : Z) (m : et_mem) (xs : list Z) (x : Z) : Prop :=
  exists i, xs !! i = Some x /\ (word m x = id \/ word m x = -1) /\
    forall j y, (j < i)%nat -> xs !! j = Some y -> word m y <> id /\ word m y <> -1.

Lemma buf_for_first id m xs x : buf_for id m xs = Some x -> first_for id m xs x.
Proof.
  induction xs as [|y xs IH]; cbn [buf_for]; [done|]. destruct (_ || _) eqn:B.
  - intros [= ->]. exists 0%nat. split_and!; [done| |lia]. apply orb_true_iff in B as [B|B]; apply Z.eqb_eq in B; auto.
  - intros H. destruct (IH H) as (i & E & W & F). exists (S i). split_and!; [done|done|]. apply orb_false_iff in B as [B1 B2].
    apply Z.eqb_neq in B1, B2. intros [|j] z Hj Ez; cbn in Ez; [by injection Ez as <-|]. apply (F j); [lia|done].
Qed.

(** All events in use come before those that are not, as they do in a new entry. *)
Definition used_first (m : et_mem) (xs : list Z) : Prop :=
  forall i j x y, xs !! i = Some x -> xs !! j = Some y -> word m x = -1 -> word m y <> -1 -> (j < i)%nat.

Lemma used_first_finds id m xs x y :
  used_first m xs -> first_for id m xs x -> id <> -1 -> y ∈ xs -> word m y = id -> word m x = id.
Proof.
  intros U (i & E & [W|W] & F) N Hy Wy; [done|]. apply list_elem_of_lookup in Hy as [j Ej].
  destruct (F j y) as [X _]; [|done|done]. apply (U i j x y); [done|done|done|congruence].
Qed.

Lemma reserved_word id m x y e : m_events m !! x = Some e -> ev_control e <> [] ->
  word (reserved id m x) y = if decide (y = x) then id else word m y.
Proof.
  intros E Ce. unfold reserved. destruct (Z.eqb_spec (word m x) id) as [W|W]; [case_decide; [by subst|done]|].
  unfold word, upd_ev. cbn. case_decide as D; [|by rewrite lookup_alter_ne]. subst. rewrite lookup_alter_eq, E. cbn.
  unfold control_at. cbn. by destruct (ev_control e).
Qed.

Lemma used_first_kept id m xs x : NoDup xs -> buffers m xs -> used_first m xs -> first_for id m xs x -> id <> -1 ->
  used_first (reserved id m x) xs.
Proof.
  intros D B U (i & E & W & F) N. destruct (B x) as (e & Ee & Ce); [by eapply list_elem_of_lookup_2|].
  intros p q a b Ea Eb. rewrite (reserved_word id m x a e Ee Ce), (reserved_word id m x b e Ee Ce). destruct (decide (a = x)) as [->|Na]; [done|]. intros Wa.
  destruct (decide (b = x)) as [->|Nb]; [|by apply (U p q a b)]. intros _. rewrite (NoDup_lookup xs q i x D Eb E).
  destruct (lt_eq_lt_dec i p) as [[L| ->]|L]; [done|congruence|]. by destruct (F p a L Ea).
Qed.

(** Once reserved, an event is found again by its id and by no other. *)
Lemma reserved_again id m x xs : buffers m xs -> buf_for id m xs = Some x -> buf_for id (reserved id m x) xs = Some x.
Proof.
  intros B H. destruct (buf_for_some _ _ _ _ H) as [Hx _]. destruct (B x Hx) as (e & E & Ce). clear B Hx.
  induction xs as [|y xs IH]; cbn [buf_for] in *; [done|]. rewrite (reserved_word id m x y e) by done. case_decide as D.
  - by rewrite D, Z.eqb_refl.
  - destruct (_ || _); [by injection H as ->|]. by apply IH.
Qed.

Lemma reserved_other id id' m x xs : buffers m xs -> buf_for id m xs = Some x -> id <> -1 -> id' <> id ->
  buf_for id' (reserved id m x) xs <> Some x /\
  (buf_for id' m xs <> Some x -> buf_for id' (reserved id m x) xs = buf_for id' m xs).
Proof.
  intros B H N1 N2. destruct (buf_for_some _ _ _ _ H) as [Hx _]. destruct (B x Hx) as (e & E & Ce). clear B Hx H.
  assert (W : forall y, word (reserved id m x) y = if decide (y = x) then id else word m y) by (intros y; by apply reserved_word with e).
  assert (Wx : word (reserved id m x) x = id) by (rewrite W; by rewrite decide_True). split.
  - intros H. destruct (buf_for_some _ _ _ _ H) as [_ [X|X]]; congruence.
  - induction xs as [|y xs IH]; cbn [buf_for] in *; [done|]. rewrite W. case_decide as D.
    + subst y. rewrite (proj2 (Z.eqb_neq id id')), (proj2 (Z.eqb_neq id (-1))) by congruence. cbn [orb].
      destruct (_ || _); [done|]. exact IH.
    + destruct (_ || _); [done|]. exact IH.
Qed.

(** ** Buffers without data *)

Definition has_data (m : et_mem) (x : Z) : bool := negb (from_option (control_at 1) 0 (m_events m !! x) =? 0).
Definition data_length (m : et_mem) (x : Z) : Z := from_option ev_length 0 (m_events m !! x).
(** The events without data. *)
Definition incomplete (m : et_mem) (xs : list Z) : list Z := List.filter (fun x => negb (has_data m x)) xs.

Lemma wp_have_data off m rest xs : forall have b y,
  (forall x, x ∈ xs -> is_Some (m_events m !! x)) ->
  wp (have_data_loop off (length xs) (map (fun x => x + off) xs ++ rest) have b (u64 y))
    (fun r m' => m' = m /\ r = (have && forallb (has_data m) xs, b + Z.of_nat (length (incomplete m xs)),
       u64 (y + sumZ (map (data_length m) (incomplete m xs))))) nc m.
Proof.
  induction xs as [|x xs IH]; intros have b y D; cbn [length have_data_loop map app forallb incomplete List.filter].
  - apply wp_ret. rewrite andb_true_r. cbn. by rewrite !Z.add_0_r.
  - destruct (D x) as [e E]; [set_solver|]. apply wp_bind. eapply wps_ld_ev; [exact E|]. cbn [et_event_getlength ev_get snd default id].
    assert (Hd : has_data m x = negb (control_at 1 e =? 0)) by (unfold has_data; by rewrite E).
    assert (Ln : data_length m x = ev_length e) by (unfold data_length; by rewrite E). rewrite Hd.
    destruct (control_at 1 e =? 0); cbn [negb andb].
    + replace (u64 (u64 y + ev_length e)) with (u64 (y + ev_length e)) by (unfold u64; by rewrite Zplus_mod_idemp_l). eapply wp_mono; [apply IH; intros z Hz; apply D; set_solver| |done]. intros r m' [-> ->]. split; [done|].
      cbn [length map sumZ foldr]. rewrite Ln, andb_false_r. cbn [andb]. f_equal; [f_equal; fold (incomplete m xs); lia|].
      fold (incomplete m xs). f_equal. unfold sumZ. cbn [foldr]. lia.
    + eapply wp_mono; [apply IH; intros z Hz; apply D; set_solver| |done]. intros r m' [-> ->]. split; [done|].
      by rewrite andb_true_r.
Qed.

(** All events with ids have data, or it counts those without and their bytes. *)
Lemma et_fifo_allHaveData_spec ctx rest fid m xs :
  ff_idCount ctx = Z.of_nat (length xs) -> (forall x, x ∈ xs -> is_Some (m_events m !! x)) ->
  wp (et_fifo_allHaveData (Some ctx) (Some (mkEntry (map (fun x => x + id_offset (ff_openId ctx)) xs ++ rest) fid)))
    (fun r m' => m' = m /\ r = (if forallb (has_data m) xs then 1 else 0,
       Some (Z.of_nat (length (incomplete m xs)), u64 (sumZ (map (data_length m) (incomplete m xs)))))) nc m.
Proof.
  intros Ic D. unfold et_fifo_allHaveData. cbn [fe_bufs]. rewrite Ic, Nat2Z.id. apply wp_bind. change 0 with (u64 0) at 2.
  eapply wp_mono; [by apply wp_have_data| |done]. intros r m' [-> ->]. by apply wp_ret.
Qed.

(** ** The properties *)

(** C19: opening a fifo, where there is a station "Users".  It fails and changes nothing when the events cannot
    be divided into entries or the ids are not those of a producer; otherwise a producer is attached to
    GrandCentral and a consumer to "Users", or the error of the attachment is returned.  The context then has
    the size of an entry and the ids.  With more than two stations the attachment is made, the call fails,
    and the process does not learn which attachment it has. *)
Theorem et_fifo_open_spec `{R0 : Remote} `{O0 : Os} (id : et_id) m gs u pu isProducer bufIds bidCount :
  local_call id m -> call_error id = None -> id_init id = ET_STRUCT_OK -> system_ok m gs -> attach_ok m -> proc_known id m ->
  station_unlocked u m -> users_at u pu m -> cf_groupCount (sys_config (m_sys m)) <> 0 ->
  exists r x m', run (et_fifo_open true id isProducer bufIds bidCount) m = Ok r x m' /\
    opened id m u pu isProducer bufIds bidCount r m'.
Proof. intros. eapply wp_run. by eapply wp_fifo_open. Qed.

(** C18: a producer gets entries, whole ones only.  With events in GrandCentral it takes the first of them, as
    many as an entry has; each is empty, has its id in its first control word and no mark that it has data,
    belongs to the attachment and has its data in reach.  When there are fewer events all of them are taken
    and belong to the attachment, but the result is ET_ERROR.  The rest of the list stays in its order. *)
Theorem et_fifo_newEntry_spec `{R0 : Remote} `{R1 : RemoteEvents} `{K0 : Kernel} `{QK : !QuietKernel} ctx bufs fid mode deltatime m a ps l :
  may_produce ctx mode deltatime m a ps l ->
  exists r x m', run (new_entry mode deltatime (Some ctx) (Some (mkEntry bufs fid))) m = Ok r x m' /\
    produced ctx bufs fid m l r m'.
Proof. intros P. eapply wp_run. by eapply wp_new_entry. Qed.

(** C20: the buffers of an entry and their ids.  et_fifo_getBuf returns the first event of the entry that has
    the id or is not used, and NULL only when all are used by others.  The event is found again by this id,
    which changes nothing; no other id finds it, and an id that would have found another event still finds
    that one.  The comment in the code promises the event with the id if there is one: this holds as long as
    the events in use come first, as in a new entry, and the call keeps it so; but an unused event in
    front of the one with the id is returned instead of it. *)
Theorem et_fifo_getBuf_spec ctx rest m xs id :
  ff_capacity ctx = Z.of_nat (length xs) -> buffers m xs -> id <> -1 ->
  let off := id_offset (ff_openId ctx) in
  let en := mkEntry (map (fun x => x + off) xs ++ rest) (Some ctx) in
  exists r c m', run (et_fifo_getBuf id (Some en)) m = Ok r c m' /\
    match buf_for id m xs with
    | None => r = None /\ m' = m /\ Forall (fun x => word m x <> id /\ word m x <> -1) xs
    | Some x =>
        r = Some (x + off) /\ first_for id m xs x /\ m' = reserved id m x /\
        (NoDup xs -> used_first m xs -> used_first m' xs /\ forall y, y ∈ xs -> word m y = id -> word m x = id) /\
        buf_for id m' xs = Some x /\ reserved id m' x = m' /\
        forall id', id' <> id -> buf_for id' m' xs <> Some x /\
          (buf_for id' m xs <> Some x -> buf_for id' m' xs = buf_for id' m xs)
    end.
Proof.
  intros Cap B N off en. destruct (wp_run (et_fifo_getBuf id (Some en)) (fun r m' => r = (fun x => x + off) <$> buf_for id m xs /\
    m' = from_option (reserved id m) m (buf_for id m xs)) nc m) as (r & c & m' & E & -> & ->).
  { unfold et_fifo_getBuf. cbn [fe_fid fe_bufs en]. rewrite Cap, Nat2Z.id. by apply wp_buf_loop. }
  eexists _, c, _. split; [exact E|]. destruct (buf_for id m xs) as [x|] eqn:F; cbn; [|split_and!; [done|done|by apply buf_for_none]].
  pose proof (buf_for_first _ _ _ _ F) as Fx. destruct (buf_for_some _ _ _ _ F) as [Hx Hw]. destruct (B x Hx) as (e & Ee & Ce).
  split_and!; [done..| |by apply reserved_again| |].
  - intros D U. split; [by apply used_first_kept|]. intros y. by apply used_first_finds with (xs := xs).
  - unfold reserved at 1. by rewrite (reserved_word id m x x e), decide_True, Z.eqb_refl.
  - intros id' N'. by apply reserved_other.
Qed.

(** ** Concrete calls *)

(** The events of the sample system have their control arrays. *)
Definition mem_fifo : et_mem := set_m_events (set_ev_control control0 <$> m_events mem0) mem0.
Definition fifo0 (capacity : Z) : et_fifo_ctx := mkFifo 1000 8 4 10 true capacity id1 1 0 1 (Some [31]).

Lemma fifo0_may capacity : capacity = 2 \/ capacity = 3 ->
  may_produce (fifo0 capacity) ET_SLEEP None mem_fifo (attach0 0 1) (stat0 0) [700; 800].
Proof.
  intros C. assert (R : list_rep (m_events mem_fifo) (st_list_in (stat0 0)) [700; 800]).
  { split; [done|apply chain_bool; vm_compute; reflexivity|by_eval|by intros b [= <-]|by intros b [= <-]|repeat constructor; by vm_compute]. }
  split; try done; try (destruct C as [->| ->]; by_eval); try (by left).
Qed.

Lemma et_fifo_newEntry_spec_witness :
  (exists r x m', run (new_entry (R1 := no_remote_events) (K0 := files0) ET_SLEEP None (Some (fifo0 2)) (Some (mkEntry [0; 0] None))) mem_fifo =
     Ok r x m' /\ r = (ET_OK, Some (mkEntry [700 + off0; 800 + off0] None)) /\
     exists e e', m_events mem_fifo !! 800 = Some e /\ m_events m' !! 800 = Some e' /\ fresh_buffer off0 0 1000 (-1) e e') /\
  (exists r x m', run (new_entry (R1 := no_remote_events) (K0 := files0) ET_SLEEP None (Some (fifo0 3)) (Some (mkEntry [0; 0; 0] None))) mem_fifo =
     Ok r x m' /\ fst r = ET_ERROR /\ Forall (fun x => owner (m_events m') x = Some 0) [700; 800]).
Proof.
  split.
  - destruct (et_fifo_newEntry_spec (R1 := no_remote_events) (K0 := files0) (QK := quiet_files0) (fifo0 2) [0; 0] None ET_SLEEP None mem_fifo
      (attach0 0 1) (stat0 0) [700; 800] (fifo0_may 2 (or_introl eq_refl))) as ([st en] & x & m' & E & _ & _ & H1 & H2 & H3).
    cbn in H1, H2. exists (st, en), x, m'. split; [exact E|]. split; [by rewrite H1, H2|]. by apply (H3 1%nat).
  - destruct (et_fifo_newEntry_spec (R1 := no_remote_events) (K0 := files0) (QK := quiet_files0) (fifo0 3) [0; 0; 0] None ET_SLEEP None mem_fifo
      (attach0 0 1) (stat0 0) [700; 800] (fifo0_may 3 (or_intror eq_refl))) as (r & x & m' & E & _ & H & _ & St).
    exists r, x, m'. split; [exact E|]. split; [exact St|exact H].
Defined.

Lemma et_fifo_getBuf_spec_witness :
  exists c m', run (et_fifo_getBuf 7 (Some (mkEntry [700 + off0; 800 + off0] (Some (fifo0 2)))))
      (upd_ev 700 (set_control_at 0 31) (upd_ev 800 (set_control_at 0 (-1)) mem_fifo)) = Ok (Some (800 + off0)) c m' /\
    buf_for 31 m' [700; 800] = Some 700 /\ buf_for 7 m' [700; 800] = Some 800 /\ buf_for 8 m' [700; 800] = None.
Proof.
  set (m := upd_ev 700 _ _). destruct (et_fifo_getBuf_spec (fifo0 2) [] m [700; 800] 7 eq_refl) as (r & c & m' & E & H); [|done|].
  { intros x Hx. rewrite !elem_of_cons in Hx. destruct Hx as [->|[->|Hx]]; [eexists; split; [vm_compute; reflexivity|done]..|].
    by apply elem_of_nil in Hx. }
  replace (buf_for 7 m [700; 800]) with (Some 800) in H by (vm_compute; reflexivity). destruct H as (-> & _ & -> & _ & F & _ & O).
  exists c, (reserved 7 m 800). split; [exact E|]. split_and!; [|exact F|vm_compute; reflexivity].
  rewrite (proj2 (O 31 ltac:(done)) ltac:(vm_compute; congruence)). vm_compute. reflexivity.
Defined.

(** The second event has the id 31, but the first one is not used: it is taken, and then has the id too. *)
Example getBuf_takes_unused :
  let m := upd_ev 700 (set_control_at 0 (-1)) (upd_ev 800 (set_control_at 0 31) mem_fifo) in
  match run (et_fifo_getBuf 31 (Some (mkEntry [700 + off0; 800 + off0] (Some (fifo0 2))))) m with
  | Ok r _ m' => r = Some (700 + off0) /\ word m' 700 = 31 /\ word m' 800 = 31
  | _ => False
  end.
Proof. vm_compute. done. Qed.

(** The system of Attach with a station for the consumers, which has four stations. *)
Definition system_users : et_mem := upd_stat 1 (set_st_name Users) system2.

Lemma renamed_stat m t s ps : m_stats (upd_stat t (set_st_name Users) m) !! s = Some ps ->
  exists ps', m_stats m !! s = Some ps' /\ st_data ps = st_data ps' /\ st_mutex ps = st_mutex ps' /\ st_list_in ps = st_list_in ps'.
Proof.
  unfold upd_stat. cbn [m_stats set_m_stats]. destruct (decide (t = s)) as [->|N]; [|rewrite lookup_alter_ne by done; eauto].
  rewrite lookup_alter_eq. destruct (m_stats m !! s) as [ps'|]; [|done]. intros [= <-]. by exists ps'.
Qed.

Lemma renamed_ok m t gs : system_ok m gs -> attach_ok m ->
  system_ok (upd_stat t (set_st_name Users) m) gs /\ attach_ok (upd_stat t (set_st_name Users) m).
Proof.
  intros [C [S1 S2 S3 S4 S5 S6 S7]] [A1 A2 A3 A4 A5 A6]. split; [split|].
  - by rewrite same_links_upd_stat.
  - split; try assumption; [by apply upd_stat_dom|..]; intros s ps E; destruct (renamed_stat m t s ps E) as (ps' & E' & D & Mx & _);
      rewrite ?D, ?Mx; eauto.
  - split; try assumption; intros s ps; intros; (edestruct (renamed_stat m t s ps) as (ps' & E' & D & _); [eassumption|]);
      rewrite D in *; eauto.
Qed.

Lemma system_users_ok : system_ok system_users groups0 /\ attach_ok system_users.
Proof. exact (renamed_ok system2 1 groups0 system2_ok system2_attach). Qed.

(** With two stations a producer opens the fifo. *)
Example fifo_opens :
  match run (et_fifo_open (O0 := os0) true id0 true (Some [5; 6; 7]) 2) (upd_sys (set_sys_nstations 2) system_users) with
  | Ok r _ m' => r = (ET_OK, Some (mkFifo 1000 8 1 10 true 8 id0 1 0 2 (Some [5; 6]))) /\ at_stat <$> sys_attach (m_sys m') !! 0 = Some 0
  | _ => False
  end.
Proof. vm_compute. done. Qed.

(** A consumer is refused after it was attached, and stays attached. *)
Lemma et_fifo_open_spec_witness :
  exists x m', run (et_fifo_open (O0 := os0) true id0 false None 0) system_users = Ok (ET_ERROR_TOOMANY, None) x m' /\
    in_use m' 0 = true /\ sys_nattachments (m_sys m') = 1.
Proof.
  destruct system_users_ok as [S A].
  assert (Us : users_at 1 (set_st_name Users (default (stat0 1) (m_stats system2 !! 1))) system_users).
  { split_and!; [reflexivity|done|reflexivity|]. intros s ps Hs E. assert (s = 0) as -> by lia. injection E as <-. done. }
  destruct (et_fifo_open_spec (O0 := os0) id0 system_users groups0 1 _ false None 0 ltac:(by split) eq_refl eq_refl S A
    (or_intror (ex_intro _ (proc0 0) eq_refl)) ltac:(split; [done|by intros ps [= <-]]) Us ltac:(done)) as (r & x & m' & E & H).
  destruct H as [(N & _)|(_ & [[[N _] _]|[[[N _] _]|(_ & err & att & R & H)]])]; [vm_compute in N; congruence|done..|]. cbn in H.
  destruct R as (i & [= -> ->] & Hi & Hu & Hj & ->). cbn in H. subst r.
  assert (i = 0) as ->.
  { destruct (decide (i = 0)) as [|N]; [done|]. specialize (Hj 0 ltac:(lia)). vm_compute in Hj. congruence. }
  exists x. eexists. split; [exact E|]. split; vm_compute; reflexivity.
Defined.
