(* ===== verification/Delivery.v ===== *)
(** * Events on their way down the chain

    While a conductor hands out the events [all] that it took off its station's output list, every
    event is either in the input list of a station of the chain or still in the hands of the
    conductor.  [delivery] is this invariant; its lemmas are the steps of the conductor. *)
From stdpp Require Import base functions gmap strings list.
From S2P Require Import Prelude Types Machine EvList Local Write LList StatConfig Stats Chain Select Conductor.
Open Scope Z_scope.

(** ** Lists that follow the priorities *)

Lemma pri_sorted_sublist {A} (h : A -> bool) l k : l `sublist_of` k -> pri_sorted h k -> pri_sorted h l.
Proof.
  intros S E%pri_sorted_inv. rewrite E in S. apply sublist_app_r in S as (l1 & l2 & -> & S1 & S2).
  apply pri_sorted_intro.
  - apply Forall_forall. intros a Ha. pose proof (all_high_highs h k) as F. unfold all_high in F. rewrite Forall_forall in F.
    apply F. by eapply elem_of_sublist.
  - apply Forall_forall. intros a Ha. pose proof (all_low_lows h k) as F. unfold all_low in F. rewrite Forall_forall in F.
    apply F. by eapply elem_of_sublist.
Qed.

Lemma unput_sublist all put : unput all put `sublist_of` all.
Proof.
  revert put. induction all as [|a all IH]; intros put; [done|]. destruct put as [|p put]; [apply sublist_nil_l|].
  simpl. destruct p; [by apply sublist_cons|by apply sublist_skip].
Qed.

(** ** The invariant *)

(** What the conductor leaves of a station: all but its input list and the mark of the round robin. *)
Definition station_core (ps : et_station) : et_station :=
  set_st_list_in (mkList 0 0 0 0 0 0 0 false 0) (set_st_waslast 0 ps).

Section delivery.
Context `{Selector} (m0 : et_mem) (gs : list group) (all : list Z) (ins0 : Z -> list Z).
Abbreviation evs0 := (m_events m0).

(** The events that the select mode of a station lets in. *)
Definition accepts (ps : et_station) (a : Z) : Prop :=
  let config := st_config ps in
  (sc_select_mode config = ET_STATION_SELECT_MATCH ->
     exists e, evs0 !! a = Some e /\ et_condition config e = true) /\
  (sc_select_mode config = ET_STATION_SELECT_USER ->
     exists e e', evs0 !! a = Some e /\ ev_core e' = ev_core e /\
       user_select (sc_lib config) (sc_fname config) (st_num ps) e' <> 0).

(** A station that got the events [g] and then holds [n] events: GrandCentral gets any, another
    station only if it is active, only events that it selects, and a nonblocking one no more than
    its cue holds. *)
Definition may_get (s : Z) (g : list Z) (n : nat) : Prop :=
  s = ET_GRANDCENTRAL \/
  exists ps, m_stats m0 !! s = Some ps /\ is_active ps = true /\ Forall (accepts ps) g /\
    (shares (st_config ps) = 0 -> sc_block_mode (st_config ps) <> ET_STATION_BLOCKING -> Z.of_nat n <= sc_cue (st_config ps)).

(** The input list of [s] after the events [g] came to the events [old]. *)
Definition arrived (s : Z) (old g : list Z) : list Z :=
  if s =? ET_GRANDCENTRAL then old ++ g else pri_sort (hi evs0) (old ++ g).

Definition received (s : Z) (old new : list Z) : Prop :=
  exists g, new = arrived s old g /\ (g <> [] -> may_get s g (length new)).

Record delivery (lk : option Z) (ins : Z -> list Z) (rest : list Z) (m : et_mem) : Prop := mkDelivery {
  dv_stats : station_core <$> m_stats m = station_core <$> m_stats m0;
  dv_sys : set_sys_ntemps 0 (m_sys m) = set_sys_ntemps 0 (m_sys m0);
  dv_in : forall s ps, s ∈ members gs -> m_stats m !! s = Some ps -> list_rep (m_events m) (st_list_in ps) (ins s);
  dv_lock : forall s ps, s ∈ members gs -> m_stats m !! s = Some ps -> l_mutex (st_list_in ps) = bool_decide (lk = Some s);
  dv_core : same_core evs0 (m_events m);
  dv_owner : forall a, owner (m_events m) a = owner evs0 a;
  dv_perm : concat (map ins (members gs)) ++ rest ≡ₚ concat (map ins0 (members gs)) ++ all;
  dv_got : forall s, s ∈ members gs -> received s (ins0 s) (ins s)
}.

(** The state in which the conductor starts. *)
Record delivery_pre : Prop := mkDeliveryPre {
  dp_chain : station_chain m0 gs;
  dp_ev : ev_ok evs0;
  dp_nodup : NoDup (concat (map ins0 (members gs)) ++ all);
  dp_room : Z.of_nat (length (concat (map ins0 (members gs)) ++ all)) <= cf_nevents (sys_config (m_sys m0));
  dp_owner : Forall (fun a => owner evs0 a = Some ET_SYS) (concat (map ins0 (members gs)) ++ all);
  dp_sorted : pri_sorted (hi evs0) all;
  dp_in_sorted : forall s, s ∈ members gs -> s <> ET_GRANDCENTRAL -> pri_sorted (hi evs0) (ins0 s)
}.

Hypothesis P : delivery_pre.
#[local] Abbreviation nc := (fun _ : et_mem => True).

Lemma delivery_start m :
  (forall s ps, s ∈ members gs -> m_stats m0 !! s = Some ps ->
     list_rep evs0 (st_list_in ps) (ins0 s) /\ l_mutex (st_list_in ps) = false) ->
  m = m0 -> delivery None ins0 all m.
Proof.
  intros Hin ->. split; try done.
  - intros s ps Hs E. by apply Hin.
  - intros s ps Hs E. rewrite bool_decide_eq_false_2 by done. by apply (Hin s ps).
  - intros s Hs. exists []. split; [|done]. unfold arrived. destruct (Z.eqb_spec s ET_GRANDCENTRAL); rewrite app_nil_r; [done|].
    symmetry. by apply P.
Qed.

(** *** Consequences *)

Section facts.
Context (lk : option Z) (ins : Z -> list Z) (rest : list Z) (m : et_mem).
Hypothesis D : delivery lk ins rest m.

Lemma dv_nodup : NoDup (concat (map ins (members gs)) ++ rest).
Proof. rewrite (dv_perm _ _ _ _ D). apply P. Qed.

Lemma dv_lookup s ps : m_stats m0 !! s = Some ps -> exists ps', m_stats m !! s = Some ps' /\ station_core ps' = station_core ps.
Proof.
  intros E. assert (X : station_core <$> m_stats m !! s = Some (station_core ps)).
  { rewrite <- lookup_fmap, (dv_stats _ _ _ _ D), lookup_fmap, E. done. }
  apply fmap_Some in X as (ps' & ? & ?). eauto.
Qed.

Lemma dv_lookup_back s ps : m_stats m !! s = Some ps -> exists ps', m_stats m0 !! s = Some ps' /\ station_core ps' = station_core ps.
Proof.
  intros E. assert (X : station_core <$> m_stats m0 !! s = Some (station_core ps)).
  { rewrite <- lookup_fmap, <- (dv_stats _ _ _ _ D), lookup_fmap, E. done. }
  apply fmap_Some in X as (ps' & ? & ?). eauto.
Qed.

Lemma dv_size : size (m_stats m) = size (m_stats m0).
Proof. rewrite <- (map_size_fmap station_core (m_stats m)), <- (map_size_fmap station_core (m_stats m0)). by rewrite (dv_stats _ _ _ _ D). Qed.

Lemma dv_config : sys_config (m_sys m) = sys_config (m_sys m0).
Proof. exact (f_equal sys_config (dv_sys _ _ _ _ D)). Qed.

Lemma dv_hi a : hi (m_events m) a = hi evs0 a.
Proof. symmetry. apply same_core_hi, D. Qed.

Lemma dv_pri_sort l : pri_sort (hi (m_events m)) l = pri_sort (hi evs0) l.
Proof. apply pri_sort_ext. intros a _. apply dv_hi. Qed.

Lemma dv_pri_sorted l : pri_sorted (hi evs0) l -> pri_sorted (hi (m_events m)) l.
Proof. unfold pri_sorted. by rewrite dv_pri_sort. Qed.

Lemma dv_in_sorted s : s ∈ members gs -> s <> ET_GRANDCENTRAL -> pri_sorted (hi evs0) (ins s).
Proof.
  intros Hs N. destruct (dv_got _ _ _ _ D s Hs) as (g & -> & _). unfold arrived.
  rewrite (proj2 (Z.eqb_neq _ _) N). apply pri_sort_sorted.
Qed.

Lemma dv_member s : s ∈ members gs -> exists ps, m_stats m !! s = Some ps /\ st_num ps = s /\
  exists ps0, m_stats m0 !! s = Some ps0 /\ station_core ps = station_core ps0.
Proof.
  intros Hs. destruct (ch_stat _ _ (dp_chain P) s Hs) as (_ & ps0 & E & En). destruct (dv_lookup s ps0 E) as (ps & E' & Ec).
  exists ps. split; [done|]. split; [|by exists ps0]. pose proof (f_equal st_num Ec) as X. cbn in X. congruence.
Qed.

(** A split of what is left: these events are nowhere else. *)
Lemma dv_disjoint s pes rest' : s ∈ members gs -> rest ≡ₚ pes ++ rest' -> NoDup (ins s ++ pes).
Proof.
  intros Hs E. pose proof dv_nodup as N. rewrite E in N. apply list_elem_of_split in Hs as (l1 & l2 & Em).
  rewrite Em, map_app, concat_app in N. cbn [map concat] in N.
  rewrite !NoDup_app in *. set_solver.
Qed.

Lemma dv_other s s' a pes rest' :
  s ∈ members gs -> s' ∈ members gs -> s <> s' -> rest ≡ₚ pes ++ rest' -> a ∈ ins s' -> a ∉ ins s ++ pes.
Proof.
  intros Hs Hs' Ne E Ha. pose proof dv_nodup as N. rewrite E in N. apply list_elem_of_split in Hs as (l1 & l2 & Em).
  assert (Hin : s' ∈ l1 ++ l2) by (rewrite Em in Hs'; set_solver).
  rewrite Em, map_app, concat_app in N. cbn [map concat] in N.
  assert (Ha' : a ∈ concat (map ins l1) \/ a ∈ concat (map ins l2)).
  { apply elem_of_app in Hin as [Hin|Hin]; [left|right]; apply list_elem_of_In, List.in_concat;
      exists (ins s'); (split; [apply List.in_map, list_elem_of_In, Hin|by apply list_elem_of_In]). }
  rewrite !NoDup_app in N. set_solver.
Qed.

Lemma dv_length s pes rest' : s ∈ members gs -> rest ≡ₚ pes ++ rest' ->
  Z.of_nat (length (ins s) + length pes) <= cf_nevents (sys_config (m_sys m)).
Proof.
  intros Hs E. rewrite dv_config. pose proof (dp_room P) as R. rewrite <- (dv_perm _ _ _ _ D), E in R.
  apply list_elem_of_split in Hs as (l1 & l2 & Em). rewrite Em, map_app, concat_app in R. cbn [map concat] in R.
  rewrite !length_app in R. lia.
Qed.

Lemma dv_rest_owner : Forall (fun a => owner (m_events m) a = Some ET_SYS) rest.
Proof.
  apply Forall_forall. intros a Ha. rewrite (dv_owner _ _ _ _ D). pose proof (dp_owner P) as O. rewrite Forall_forall in O.
  apply O. rewrite <- (dv_perm _ _ _ _ D). set_solver.
Qed.
End facts.

(** *** Steps that move no event *)

Lemma core_upd s f m : (forall ps, station_core (f ps) = station_core ps) ->
  station_core <$> m_stats (upd_stat s f m) = station_core <$> m_stats m.
Proof.
  intros E. apply map_eq. intros i. rewrite !lookup_fmap. destruct (decide (s = i)) as [<-|N].
  - simpl. rewrite lookup_alter_eq. destruct (m_stats m !! s); simpl; [by rewrite E|done].
  - by rewrite upd_stat_ne.
Qed.

Lemma list_rep_ext evs L L' l :
  l_cnt L' = l_cnt L -> l_firstevent L' = l_firstevent L -> l_lastevent L' = l_lastevent L -> list_rep evs L l -> list_rep evs L' l.
Proof. intros E1 E2 E3 []. split; congruence || (intros; rewrite ?E2, ?E3; auto). Qed.

Lemma delivery_upd_list lk lk' ins rest s f m :
  delivery lk ins rest m ->
  (forall L, l_cnt (f L) = l_cnt L /\ l_firstevent (f L) = l_firstevent L /\ l_lastevent (f L) = l_lastevent L) ->
  (forall L, l_mutex L = bool_decide (lk = Some s) -> l_mutex (f L) = bool_decide (lk' = Some s)) ->
  (forall s', s' <> s -> bool_decide (lk = Some s') = bool_decide (lk' = Some s')) ->
  delivery lk' ins rest (upd_list (LIn s) f m).
Proof.
  intros [H1 H2 H3 H4 H5 H6 H7 H8] Hf Hm Ho. split; try done.
  - unfold upd_list. rewrite core_upd; [done|]. by intros [].
  - intros s' ps Hs E. unfold upd_list in E. cbn [lstat] in E. destruct (decide (s' = s)) as [->|N].
    + destruct (m_stats m !! s) as [ps0|] eqn:E0; [|simpl in E; by rewrite lookup_alter_eq, E0 in E].
      rewrite (upd_stat_eq _ _ _ _ E0) in E. apply (inj Some) in E. subst ps.
      destruct (Hf (st_list_in ps0)) as (F1 & F2 & F3). exact (list_rep_ext _ _ _ _ F1 F2 F3 (H3 _ _ Hs E0)).
    + rewrite upd_stat_ne in E by done. by apply H3.
  - intros s' ps Hs E. unfold upd_list in E. cbn [lstat] in E. destruct (decide (s' = s)) as [->|N].
    + destruct (m_stats m !! s) as [ps0|] eqn:E0; [|simpl in E; by rewrite lookup_alter_eq, E0 in E].
      rewrite (upd_stat_eq _ _ _ _ E0) in E. apply (inj Some) in E. subst ps. apply Hm. by apply H4.
    + rewrite upd_stat_ne in E by done. rewrite <- Ho by done. by apply H4.
Qed.

Lemma delivery_waslast lk ins rest s v m :
  delivery lk ins rest m -> delivery lk ins rest (upd_stat s (set_st_waslast v) m).
Proof.
  intros [H1 H2 H3 H4 H5 H6 H7 H8]. split; try done.
  - rewrite core_upd; [done|]. by intros [].
  - intros s' ps Hs E. destruct (decide (s' = s)) as [->|N]; [|rewrite upd_stat_ne in E by done; by apply H3].
    destruct (m_stats m !! s) as [ps0|] eqn:E0; [|simpl in E; by rewrite lookup_alter_eq, E0 in E].
    rewrite (upd_stat_eq _ _ _ _ E0) in E. apply (inj Some) in E. subst ps. exact (H3 _ _ Hs E0).
  - intros s' ps Hs E. destruct (decide (s' = s)) as [->|N]; [|rewrite upd_stat_ne in E by done; by apply H4].
    destruct (m_stats m !! s) as [ps0|] eqn:E0; [|simpl in E; by rewrite lookup_alter_eq, E0 in E].
    rewrite (upd_stat_eq _ _ _ _ E0) in E. apply (inj Some) in E. subst ps. exact (H4 _ _ Hs E0).
Qed.

Lemma delivery_sys lk ins rest y m :
  set_sys_ntemps 0 y = set_sys_ntemps 0 (m_sys m) -> delivery lk ins rest m -> delivery lk ins rest (set_m_sys y m).
Proof. intros E [H1 H2 H3 H4 H5 H6 H7 H8]. split; try done. cbn. congruence. Qed.

(** *** Monadic steps *)

Lemma wp_dv_lock ins rest s (Q : unit -> et_mem -> Prop) m :
  delivery None ins rest m -> s ∈ members gs -> (forall m', delivery (Some s) ins rest m' -> Q tt m') ->
  wp (et_llist_lock (LIn s)) Q nc m.
Proof.
  intros D Hs HQ. destruct (dv_member _ _ _ _ D s Hs) as (ps & E & _). unfold et_llist_lock.
  apply wp_bind. eapply wps_ld_list; [done|]. simpl. rewrite (dv_lock _ _ _ _ D s ps Hs E), bool_decide_eq_false_2 by done.
  eapply wps_str_list; [done|done|]. apply HQ, (delivery_upd_list None); try done.
  - intros L _. by rewrite bool_decide_eq_true_2.
  - intros s' N. rewrite !bool_decide_eq_false_2 by congruence. done.
Qed.

Lemma wp_dv_unlock ins rest s (Q : unit -> et_mem -> Prop) m :
  delivery (Some s) ins rest m -> s ∈ members gs -> (forall m', delivery None ins rest m' -> Q tt m') ->
  wp (et_llist_unlock (LIn s)) Q nc m.
Proof.
  intros D Hs HQ. destruct (dv_member _ _ _ _ D s Hs) as (ps & E & _). unfold et_llist_unlock.
  eapply wps_str_list; [done|done|]. apply HQ, (delivery_upd_list (Some s)); try done.
  intros s' N. rewrite !bool_decide_eq_false_2 by congruence. done.
Qed.

(** A store to the list that keeps its events and its lock. *)
Lemma wp_dv_str lk ins rest s f (Q : unit -> et_mem -> Prop) m :
  delivery lk ins rest m -> s ∈ members gs ->
  (forall L, l_cnt (f L) = l_cnt L /\ l_firstevent (f L) = l_firstevent L /\ l_lastevent (f L) = l_lastevent L /\ l_mutex (f L) = l_mutex L) ->
  (forall m', delivery lk ins rest m' -> Q tt m') ->
  wp (str_list (LIn s) f) Q nc m.
Proof.
  intros D Hs Hf HQ. destruct (dv_member _ _ _ _ D s Hs) as (ps & E & _).
  eapply wps_str_list; [done|done|]. apply HQ, (delivery_upd_list lk); try done.
  - intros L. destruct (Hf L) as (? & ? & ? & ?). done.
  - intros L <-. by destruct (Hf L) as (? & ? & ? & ->).
Qed.

Lemma wp_dv_try lk ins rest s n (Q : unit -> et_mem -> Prop) m :
  delivery lk ins rest m -> s ∈ members gs -> (forall m', delivery lk ins rest m' -> Q tt m') ->
  wp (add_events_try (LIn s) n) Q nc m.
Proof. intros D Hs HQ. by eapply wp_dv_str. Qed.

Lemma wp_dv_signal lk ins rest s (Q : unit -> et_mem -> Prop) m :
  delivery lk ins rest m -> s ∈ members gs -> (forall m', delivery lk ins rest m' -> Q tt m') ->
  wp (signal_cread (LIn s)) Q nc m.
Proof. intros D Hs HQ. by eapply wp_dv_str. Qed.

Lemma wp_dv_stat lk ins rest s (Q : et_station -> et_mem -> Prop) m :
  delivery lk ins rest m -> s ∈ members gs ->
  (forall ps ps0, m_stats m !! s = Some ps -> m_stats m0 !! s = Some ps0 -> station_core ps = station_core ps0 -> st_num ps = s -> Q ps m) ->
  wp (ld_stat s) Q nc m.
Proof.
  intros D Hs HQ. destruct (dv_member _ _ _ _ D s Hs) as (ps & E & En & ps0 & E0 & Ec).
  eapply wps_ld_stat; [done|]. by eapply HQ.
Qed.

(** *** Events arrive at a station *)

Lemma arrived_app s old g k : arrived s (arrived s old g) k = arrived s old (g ++ k).
Proof. unfold arrived. destruct (s =? ET_GRANDCENTRAL); [by rewrite app_assoc|]. by rewrite pri_sort_app_l, app_assoc. Qed.

Lemma arrived_perm s old g : arrived s old g ≡ₚ old ++ g.
Proof. unfold arrived. destruct (s =? ET_GRANDCENTRAL); [done|]. apply pri_sort_perm. Qed.

Lemma received_arrived s old new g :
  received s old new -> may_get s g (length (arrived s new g)) -> g <> [] -> received s old (arrived s new g).
Proof.
  intros (g0 & -> & Hg) M N. rewrite arrived_app in *. exists (g0 ++ g). split; [done|]. intros _.
  destruct M as [->|(ps & E & A & F & C)]; [by left|]. destruct g0 as [|x g0]; [right; by exists ps|].
  destruct (Hg ltac:(done)) as [->|(ps' & E' & _ & F' & _)]; [by left|]. right. exists ps. split_and!; try done.
  apply Forall_app. split; [|done]. by simplify_eq.
Qed.

Lemma concat_insert (ins : Z -> list Z) s v pes l :
  NoDup l -> s ∈ l -> v ≡ₚ ins s ++ pes -> concat (map (<[s := v]> ins) l) ≡ₚ concat (map ins l) ++ pes.
Proof.
  intros N Hs Ev. apply list_elem_of_split in Hs as (l1 & l2 & ->). apply NoDup_app in N as (_ & N1 & N2).
  apply NoDup_cons in N2 as [N2 _].
  assert (E : forall k, s ∉ k -> map (<[s := v]> ins) k = map ins k).
  { intros k Hk. apply map_ext_in. intros a Ha. apply list_elem_of_In in Ha. apply fn_lookup_insert_ne. by intros <-. }
  rewrite !map_app, !concat_app. cbn [map concat]. rewrite fn_lookup_insert, !E; [|done|]; [|intros X; by apply (N1 s X); left].
  rewrite Ev, <- !app_assoc. apply Permutation_app_head. solve_Permutation.
Qed.

(** What a write to the list of [s] means for the invariant. *)
Lemma delivery_moved lk ins rest rest' s ps pes num m m' :
  delivery lk ins rest m -> s ∈ members gs -> m_stats m !! s = Some ps -> rest ≡ₚ pes ++ rest' -> pes <> [] ->
  may_get s pes (length (arrived s (ins s) pes)) ->
  moved m s ps (ins s ++ pes) (arrived s (ins s) pes) num m' ->
  delivery lk (<[s := arrived s (ins s) pes]> ins) rest' m'.
Proof.
  intros D Hs E Er Ne Mg (f & la & evs & -> & R & Rl & Ro). destruct Rl as [Rc Rf]. cbv zeta in R.
  set (li' := set_l_cnt _ _) in *. split; try done.
  - rewrite <- (dv_stats _ _ _ _ D). cbn. rewrite fmap_insert. apply insert_id. rewrite lookup_fmap, E. by destruct ps.
  - apply D.
  - intros s' ps' Hs' E'. cbn in E'. destruct (decide (s' = s)) as [->|N].
    + rewrite lookup_insert_eq in E'. apply (inj Some) in E'. subst ps'. by rewrite fn_lookup_insert.
    + rewrite lookup_insert_ne in E' by done. rewrite fn_lookup_insert_ne by done.
      eapply list_rep_frame; [|by apply (dv_in _ _ _ _ D s' ps')]. intros a Ha. apply Rf.
      by eapply (dv_other _ _ _ _ D s s').
  - intros s' ps' Hs' E'. cbn in E'. destruct (decide (s' = s)) as [->|N].
    + rewrite lookup_insert_eq in E'. apply (inj Some) in E'. subst ps'. exact (dv_lock _ _ _ _ D s ps Hs E).
    + rewrite lookup_insert_ne in E' by done. by apply D.
  - cbn. etransitivity; [apply D|done].
  - intros a. cbn. rewrite Ro. apply D.
  - rewrite <- (dv_perm _ _ _ _ D), Er, app_assoc. apply Permutation_app_tail. apply concat_insert; [|done|apply arrived_perm].
    apply (ch_nodup _ _ (dp_chain P)).
  - intros s' Hs'. destruct (decide (s' = s)) as [->|N].
    + rewrite fn_lookup_insert. apply received_arrived; [by apply D|done|done].
    + rewrite fn_lookup_insert_ne by done. by apply D.
Qed.

Lemma dv_move_pre lk ins rest rest' s ps pes m :
  delivery lk ins rest m -> s ∈ members gs -> m_stats m !! s = Some ps -> rest ≡ₚ pes ++ rest' ->
  move_pre m s ps (ins s) pes.
Proof.
  intros D Hs E Er. split; [done|by apply (dv_in _ _ _ _ D)| |by eapply (dv_disjoint _ _ _ _ D)|].
  - apply (eo_null _ (same_core_ev_ok _ _ (dv_core _ _ _ _ D) (dp_ev P))).
  - pose proof (dv_rest_owner _ _ _ _ D) as O. rewrite Er in O. by apply Forall_app in O as [O _].
Qed.

(** The write of the events [pes] to the locked list of a user station. *)
Lemma wp_write_list ins rest rest' s pes (Q : bool -> et_mem -> Prop) m :
  delivery (Some s) ins rest m -> s ∈ members gs -> s <> ET_GRANDCENTRAL -> rest ≡ₚ pes ++ rest' -> pes <> [] ->
  pri_sorted (hi evs0) pes -> may_get s pes (length (ins s) + length pes) ->
  (forall m', delivery None (<[s := arrived s (ins s) pes]> ins) rest' m' -> Q true m') ->
  wp (write_list (LIn s) pes) Q nc m.
Proof.
  intros D Hs N Er Ne So Mg HQ. destruct (dv_member _ _ _ _ D s Hs) as (ps & E & _).
  pose proof (dv_length _ _ _ _ D s pes rest' Hs Er) as Ln. unfold write_list. apply wp_bind.
  assert (Hl : (1 <= length pes)%nat) by (destruct pes; simpl; [done|lia]).
  eapply wp_mono; [eapply (wp_llist_write m s ps (ins s) pes)| |done].
  - by eapply dv_move_pre.
  - apply (dv_pri_sorted _ _ _ _ D). by apply (dv_in_sorted _ _ _ _ D).
  - by apply (dv_pri_sorted _ _ _ _ D).
  - exact (same_core_ev_ok _ _ (dv_core _ _ _ _ D) (dp_ev P)).
  - lia.
  - done.
  - symmetry. apply take_ge. lia.
  - cbv beta. intros r m' [-> M]. rewrite (dv_pri_sort _ _ _ _ D) in M.
    assert (Ea : pri_sort (hi evs0) (ins s ++ pes) = arrived s (ins s) pes)
      by (unfold arrived; by rewrite (proj2 (Z.eqb_neq _ _) N)).
    rewrite Ea in M. eapply delivery_moved in M; [|exact D|done..|].
    2: { by rewrite arrived_perm, length_app. }
    apply wp_bind. eapply wp_dv_unlock; [exact M|done|]. intros m1 D1.
    destruct (Z.eqb_spec (Z.of_nat (length pes)) ET_ERROR) as [X|_]; [unfold ET_ERROR in X; lia|].
    rewrite Z.ltb_irrefl. cbn [orb]. apply wp_bind. eapply wp_dv_signal; [exact D1|done|]. intros m2 D2. apply wp_ret. by apply HQ.
Qed.
End delivery.
