(* ===== verification/Distribute.v ===== *)
(** * What a round of the conductor does

    Every event that the conductor takes off its station's output list arrives in exactly one input
    list further down the chain. *)
From stdpp Require Import base functions gmap strings list.
From S2P Require Import Prelude Types Machine EvList Local Sample Write LList StatConfig Stats Chain Select Conductor Delivery.
Open Scope Z_scope.

Section distribute.
Context `{Selector} (m0 : et_mem) (gs : list group) (all : list Z) (ins0 : Z -> list Z).
Hypothesis P : delivery_pre m0 gs all ins0.
#[local] Abbreviation nc := (fun _ : et_mem => True).
#[local] Abbreviation dv := (delivery m0 gs all ins0).
#[local] Abbreviation evs0 := (m_events m0).

(** ** The choice of events *)

Lemma all_event lk ins rest a m : dv lk ins rest m -> a ∈ all ->
  exists e e0, m_events m !! a = Some e /\ evs0 !! a = Some e0 /\ ev_core e = ev_core e0.
Proof.
  intros D Ha. pose proof (dp_owner _ _ _ _ P) as O. rewrite Forall_forall in O. specialize (O a). unfold owner in O.
  destruct (evs0 !! a) as [e0|] eqn:E0; [|discriminate O; set_solver].
  pose proof (same_core_lookup _ _ a (dv_core _ _ _ _ _ _ _ _ D)) as X. rewrite E0 in X. simpl in X.
  destruct (m_events m !! a) as [e|]; [|done]. exists e, e0. split_and!; [done|done|]. simpl in X. congruence.
Qed.

(** What a selection function promises about the events [l]. *)
Definition selects (acc : Z -> Prop) (select : Z -> M bool) (l : list Z) : Prop :=
  forall lk ins rest a (Q : bool -> et_mem -> Prop) m, dv lk ins rest m -> a ∈ l ->
    (forall b, (b = true -> acc a) -> Q b m) -> wp (select a) Q nc m.

Lemma selects_tail acc select a l : selects acc select (a :: l) -> selects acc select l.
Proof. intros S lk ins rest b Q m D Hb. apply (S lk ins rest); [done|by right]. Qed.

Lemma wp_choose_blocking acc select s prescale evs put lk ins rest (Q : list Z * list bool -> et_mem -> Prop) m :
  dv lk ins rest m -> s ∈ members gs -> 1 <= prescale -> length put = length evs -> selects acc select evs ->
  (forall es put' m', dv lk ins rest m' -> length put' = length evs -> es `sublist_of` unput evs put ->
     unput evs put ≡ₚ es ++ unput evs put' -> Forall acc es -> Q (es, put') m') ->
  wp (choose_blocking select (LIn s) prescale evs put) Q nc m.
Proof.
  intros D Hs Hp. revert put Q m D. induction evs as [|a evs IH]; intros [|p put] Q m D L Sel HQ; try done; cbn [choose_blocking].
  - apply wp_ret. by apply HQ.
  - simpl in L. injection L as L. pose proof (selects_tail _ _ _ _ Sel) as Sel'. destruct p.
    + apply wp_bind. apply IH; [done..|]. intros es put' m' D' L' Sub Pm F. apply wp_ret. apply HQ; try done. simpl. by rewrite L'.
    + apply wp_bind. apply (Sel lk ins rest); [done|by left|]. intros b Hb. destruct b.
      * apply wp_bind, wp_bind. destruct (dv_member _ _ _ _ P _ _ _ _ D s Hs) as (ps & E & _).
        eapply wps_ld_list; [done|]. simpl. apply wp_bind. eapply wp_dv_str; [done|exact D|done|done|]. intros m1 D1.
        rewrite (proj2 (Z.eqb_neq prescale 0)) by lia. apply wp_ret. apply wp_bind.
        apply IH; [done..|]. intros es put' m' D' L' Sub Pm F. apply wp_ret. destruct (_ =? 0).
        -- apply HQ; [done|by simpl; rewrite L'|by apply sublist_skip|simpl; by constructor|constructor; auto].
        -- apply HQ; [done|by simpl; rewrite L'|by apply sublist_cons| |done]. simpl. rewrite Pm. solve_Permutation.
      * apply wp_bind, wp_ret, wp_bind. apply IH; [done..|]. intros es put' m' D' L' Sub Pm F. apply wp_ret.
        apply HQ; [done|by simpl; rewrite L'|by apply sublist_cons| |done]. simpl. rewrite Pm. solve_Permutation.
Qed.

Lemma wp_choose_cue acc select j evs put lk ins rest (Q : list Z * list bool -> et_mem -> Prop) m :
  dv lk ins rest m -> 1 <= j -> length put = length evs -> selects acc select evs ->
  (forall es put', length put' = length evs -> es `sublist_of` unput evs put ->
     unput evs put ≡ₚ es ++ unput evs put' -> Forall acc es -> Z.of_nat (length es) <= j -> Q (es, put') m) ->
  wp (choose_cue select j evs put) Q nc m.
Proof.
  intros D. revert j put Q. induction evs as [|a evs IH]; intros j [|p put] Q Hj L Sel HQ; try done; cbn [choose_cue].
  - apply wp_ret. apply HQ; try done. simpl. lia.
  - simpl in L. injection L as L. pose proof (selects_tail _ _ _ _ Sel) as Sel'. destruct p.
    + apply wp_bind. apply IH; [done..|]. intros es put' L' Sub Pm F Lj. apply wp_ret. apply HQ; try done. simpl. by rewrite L'.
    + apply wp_bind. apply (Sel lk ins rest); [done|by left|]. intros b Hb. destruct b.
      * destruct (Z.eqb_spec (j - 1) 0).
        -- apply wp_ret. apply HQ; [by simpl; rewrite L|apply sublist_skip, sublist_nil_l|done|constructor; auto|simpl; lia].
        -- apply wp_bind. apply IH; [lia|done..|]. intros es put' L' Sub Pm F Lj. apply wp_ret.
           apply HQ; [by simpl; rewrite L'|by apply sublist_skip|simpl; by constructor|constructor; auto|simpl; lia].
      * apply wp_bind. apply IH; [done..|]. intros es put' L' Sub Pm F Lj. apply wp_ret.
        apply HQ; [by simpl; rewrite L'|by apply sublist_cons| |done|done]. simpl. rewrite Pm. solve_Permutation.
Qed.

(** The selection function that a station of the chain uses. *)
Definition selector (ps : et_station) : Z -> M bool :=
  if sc_select_mode (st_config ps) =? ET_STATION_SELECT_ALL then select_all else select_event ps.

Lemma core_condition c e e' : ev_core e = ev_core e' -> et_condition c e = et_condition c e'.
Proof. intros E. pose proof (f_equal ev_control E) as X. cbn in X. unfold et_condition. by rewrite X. Qed.

Lemma accepts_all ps a : sc_select_mode (st_config ps) = ET_STATION_SELECT_ALL -> accepts m0 ps a.
Proof. intros E. unfold accepts. cbv zeta. rewrite E. done. Qed.

Lemma selector_selects s ps :
  s ∈ members gs -> m_stats m0 !! s = Some ps -> shares (st_config ps) = 0 ->
  1 <= sc_select_mode (st_config ps) <= ET_STATION_SELECT_EQUALCUE -> selects (accepts m0 ps) (selector ps) all.
Proof.
  intros Hs E0 Hm Hv lk ins rest a Q m D Ha HQ. unfold selector. destruct (Z.eqb_spec (sc_select_mode (st_config ps)) ET_STATION_SELECT_ALL) as [A|A].
  { apply wp_ret, HQ. intros _. by apply accepts_all. }
  destruct (all_event _ _ _ _ _ D Ha) as (e & e0 & Ee & Ee0 & Ec).
  destruct (dv_lookup _ _ _ _ _ _ _ _ D s ps E0) as (ps' & E' & Es). destruct (ch_stat _ _ (dp_chain _ _ _ _ P) s Hs) as (_ & q & Eq & En).
  rewrite E0 in Eq. apply (inj Some) in Eq. subst q.
  pose proof (f_equal st_config Es) as Esc. cbn in Esc.
  assert (Le : forall Q, (Q e m : Prop) -> wp (ld_ev 0 a) Q nc m).
  { intros Q' HQ'. unfold ld_ev. apply wp_bind, wp_getm. rewrite Z.sub_0_r. by eapply wp_of_option. }
  unfold select_event. cbv zeta. destruct (Z.eqb_spec (sc_select_mode (st_config ps)) ET_STATION_SELECT_MATCH) as [B|B].
  - apply wp_bind. rewrite En. eapply wps_ld_stat; [done|]. apply wp_bind, Le, wp_ret, HQ. intros Hc. split; intros X; [|by rewrite B in X].
    exists e0. split; [done|]. rewrite <- Esc. by rewrite <- (core_condition _ _ _ Ec).
  - destruct (Z.eqb_spec (sc_select_mode (st_config ps)) ET_STATION_SELECT_USER) as [U|U].
    + apply wp_bind, Le, wp_ret, HQ. intros Hc. split; intros X; [by rewrite U in X|]. exists e0, e. split_and!; [done|done|].
      by destruct (Z.eqb_spec (user_select (sc_lib (st_config ps)) (sc_fname (st_config ps)) (st_num ps) e) 0).
    + exfalso. unfold shares in Hm. revert Hm A B U Hv. generalize (sc_select_mode (st_config ps)). intros z.
      unfold ET_STATION_SELECT_ALL, ET_STATION_SELECT_MATCH, ET_STATION_SELECT_USER, ET_STATION_SELECT_RROBIN, ET_STATION_SELECT_EQUALCUE.
      destruct (Z.eqb_spec z 4), (Z.eqb_spec z 5); simpl; lia.
Qed.

Lemma selector_core a b : station_core a = station_core b -> selector a = selector b.
Proof.
  intros E. pose proof (f_equal st_config E) as Ec. pose proof (f_equal st_num E) as En. cbn in Ec, En.
  unfold selector, select_event. by rewrite Ec, En.
Qed.

(** ** One station *)

(** The local variables while the events [rest] are left: [ready] before a station, [kept] after it. *)
Record kept (lo : locals) (rest : list Z) : Prop := mkKept {
  kp_left : lo_left lo = Z.of_nat (length rest);
  kp_put : length (lo_put lo) = length all;
  kp_rest : rest <> [] -> rest = unput all (lo_put lo)
}.
Definition ready (lo : locals) (rest : list Z) : Prop := kept lo rest /\ rest <> [] /\ (lo_first lo = true -> rest = all).

Definition served (r : option locals) (m : et_mem) : Prop :=
  exists lo ins rest, r = Some lo /\ dv None ins rest m /\ kept lo rest.

Lemma kept_ready lo rest : kept lo rest -> 0 < lo_left lo -> ready (set_lo_first false lo) rest.
Proof.
  intros [K1 K2 K3] L. split; [by split|]. split; [|done]. intros ->. simpl in K1. lia.
Qed.

Lemma served_intro lo ins rest m : dv None ins rest m -> kept lo rest -> served (Some lo) m.
Proof. intros. by exists lo, ins, rest. Qed.

(** The state of an active user station. *)
Record server (s : Z) (ps : et_station) : Prop := mkServer {
  sv_mem : s ∈ members gs;
  sv_gc : s <> ET_GRANDCENTRAL;
  sv_stat : m_stats m0 !! s = Some ps;
  sv_active : is_active ps = true;
  sv_prescale : 1 <= sc_prescale (st_config ps);
  sv_select : ET_STATION_SELECT_ALL <= sc_select_mode (st_config ps) <= ET_STATION_SELECT_EQUALCUE
}.

Lemma unput_sorted put : pri_sorted (hi evs0) (unput all put).
Proof. eapply pri_sorted_sublist; [apply unput_sublist|apply P]. Qed.

Lemma wp_serve_chosen s ps lo rest ins es put' m :
  dv (Some s) ins rest m -> server s ps -> kept lo rest -> rest <> [] -> length put' = length all ->
  es `sublist_of` unput all (lo_put lo) -> unput all (lo_put lo) ≡ₚ es ++ unput all put' ->
  Forall (accepts m0 ps) es ->
  (es <> [] -> shares (st_config ps) = 0 -> sc_block_mode (st_config ps) <> ET_STATION_BLOCKING ->
     Z.of_nat (length (ins s) + length es) <= sc_cue (st_config ps)) ->
  wp (serve_chosen (LIn s) lo (es, put')) served nc m.
Proof.
  intros D Sv [K1 K2 K3] Nr L Sub Pm F Cap. pose proof (sv_mem _ _ Sv) as Hs. specialize (K3 Nr). unfold serve_chosen.
  destruct es as [|a es].
  - apply wp_bind. eapply wp_dv_unlock; [exact P|exact D|done|]. intros m' D'. apply wp_ret.
    assert (D2 : dv None ins (unput all put') m').
    { destruct D' as [H1 H2 H3 H4 H5 H6 H7 H8]. split; try done. rewrite <- H7, K3. apply Permutation_app_head. by symmetry. }
    eapply served_intro; [exact D2|]. split; simpl; [|done|done]. by rewrite K1, K3, Pm.
  - apply wp_bind. eapply (wp_write_list _ _ _ _ P ins rest (unput all put') s (a :: es)); [exact D|done|apply Sv| |done| | |].
    + by rewrite K3.
    + eapply pri_sorted_sublist; [exact Sub|apply unput_sorted].
    + right. exists ps. split_and!; [apply Sv|apply Sv|done|]. intros; by apply Cap.
    + intros m' D'. apply wp_ret. eapply served_intro; [exact D'|]. split; cbn [lo_left lo_put]; [|done|done].
      rewrite K1, K3, Pm, length_app. lia.
Qed.

Lemma wp_serve s ps lo ins rest m :
  dv None ins rest m -> server s ps -> shares (st_config ps) = 0 -> ready lo rest -> wp (serve s all lo) served nc m.
Proof.
  intros D Sv Sh (K & Nr & Fi). pose proof (sv_mem _ _ Sv) as Hs. unfold serve.
  rewrite (proj2 (Z.eqb_neq _ _) (sv_gc _ _ Sv)). apply wp_bind. eapply wp_dv_stat; [exact P|exact D|done|].
  intros q q0 Eq Eq0 Ec _. rewrite (sv_stat _ _ Sv) in Eq0. apply (inj Some) in Eq0. subst q0. cbv zeta.
  fold (selector q). rewrite (selector_core _ _ Ec). pose proof (f_equal st_config Ec) as Esc. cbn in Esc. rewrite Esc.
  assert (Sel : selects (accepts m0 ps) (selector ps) all).
  { eapply selector_selects; [done|apply Sv|done|]. pose proof (sv_select _ _ Sv). unfold ET_STATION_SELECT_ALL in *. lia. }
  destruct (Z.eqb_spec (sc_block_mode (st_config ps)) ET_STATION_BLOCKING) as [B|B].
  - destruct (_ && lo_first lo && _) eqn:T.
    + apply andb_true_iff in T as [T _]. apply andb_true_iff in T as [T1 T2]. zbool. specialize (Fi T2). subst rest.
      apply wp_bind. eapply wp_dv_lock; [exact P|exact D|done|]. intros m1 D1.
      apply wp_bind. eapply wp_dv_try; [exact P|exact D1|done|]. intros m2 D2.
      apply wp_bind. eapply (wp_write_list _ _ _ _ P ins all [] s all); [exact D2|done|apply Sv|by rewrite app_nil_r|done|apply P| |].
      * right. exists ps. split_and!; [apply Sv|apply Sv| |done]. apply Forall_forall. intros a _. by apply accepts_all.
      * intros m3 D3. apply wp_ret. eapply served_intro; [exact D3|]. split; simpl; [done|apply K|done].
    + apply wp_bind. eapply wp_dv_lock; [exact P|exact D|done|]. intros m1 D1. apply wp_bind.
      eapply (wp_choose_blocking (accepts m0 ps)); [exact D1|done|apply Sv|apply K|done|].
      intros es put' m2 D2 L Sub Pm F. eapply wp_serve_chosen; try done.
  - destruct (Z.eqb_spec (sc_block_mode (st_config ps)) ET_STATION_NONBLOCKING) as [N|N].
    2: { apply wp_ret. by eapply served_intro. }
    apply wp_bind. eapply wp_dv_lock; [exact P|exact D|done|]. intros m1 D1. apply wp_bind.
    destruct (dv_member _ _ _ _ P _ _ _ _ D1 s Hs) as (q1 & E1 & _). eapply wps_ld_list; [done|]. simpl.
    rewrite (lr_cnt _ _ _ (dv_in _ _ _ _ _ _ _ _ D1 s q1 Hs E1)). apply wp_bind.
    destruct (Z.ltb_spec (Z.of_nat (length (ins s))) (sc_cue (st_config ps))).
    + eapply (wp_choose_cue (accepts m0 ps)); [exact D1|lia|apply K|done|].
      intros es put' L Sub Pm F Lj. eapply wp_serve_chosen; try done. intros _ _ _. lia.
    + apply wp_ret. eapply wp_serve_chosen; try done; [apply K|apply sublist_nil_l].
Qed.

(** *** GrandCentral *)

(** Nothing is left. *)
Definition delivered (r : option locals) (m : et_mem) : Prop :=
  exists lo ins, r = Some lo /\ dv None ins [] m.

Lemma wp_find_temps pes lk ins rest (Q : list Z -> et_mem -> Prop) m :
  dv lk ins rest m -> pes ⊆ all -> (forall l, Q l m) -> wp (find_temps pes) Q nc m.
Proof.
  intros D. revert Q. induction pes as [|a pes IH]; intros Q S HQ; cbn [find_temps]; [by apply wp_ret|].
  destruct (all_event _ _ _ a _ D) as (e & _ & E & _); [set_solver|]. apply wp_bind. unfold ld_ev. apply wp_bind, wp_getm.
  rewrite Z.sub_0_r. eapply wp_of_option; [done|]. apply wp_bind, IH; [set_solver|]. intros l. by apply wp_ret.
Qed.

Lemma wp_forget_temps n (Q : unit -> et_mem -> Prop) m :
  (forall y, set_sys_ntemps 0 y = set_sys_ntemps 0 (m_sys m) -> Q tt (set_m_sys y m)) -> wp (forget_temps n) Q nc m.
Proof.
  revert m. induction n as [|n IH]; intros m HQ; cbn [forget_temps].
  - apply wp_ret. destruct m as [y st h e r]. exact (HQ y eq_refl).
  - apply wp_bind. apply wps_str_sys; [done|]. apply IH. intros y Ey. apply (HQ y). rewrite Ey. done.
Qed.

Lemma wp_forget n lk ins rest (Q : unit -> et_mem -> Prop) m :
  dv lk ins rest m -> sys_mutex (m_sys m0) = false -> (forall m', dv lk ins rest m' -> Q tt m') ->
  wp (et_system_lock ;;; forget_temps n ;;; et_system_unlock) Q nc m.
Proof.
  intros D F HQ. pose proof (f_equal sys_mutex (dv_sys _ _ _ _ _ _ _ _ D)) as X. cbn in X. rewrite F in X.
  unfold et_system_lock, et_system_unlock. apply wp_bind, wp_bind, wps_ld_sys. rewrite X. apply wps_str_sys; [done|].
  apply wp_bind, wp_forget_temps. intros y Ey. apply wps_str_sys; [done|]. apply HQ.
  change (dv lk ins rest (set_m_sys (set_sys_mutex false y) m)). apply delivery_sys; [|done].
  etransitivity; [exact (f_equal (set_sys_mutex false) Ey)|]. clear -X. unfold upd_sys, set_m_sys. cbn [m_sys]. destruct (m_sys m). simpl in X. by subst.
Qed.

Lemma wp_serve_gc lo ins rest m :
  dv None ins rest m -> ready lo rest -> sys_mutex (m_sys m0) = false -> wp (serve ET_GRANDCENTRAL all lo) delivered nc m.
Proof.
  intros D (K & Nr & Fi) Sm. change (serve ET_GRANDCENTRAL all lo) with (serve_gc all lo). unfold serve_gc.
  assert (Hs : ET_GRANDCENTRAL ∈ members gs).
  { destruct (ch_gc _ _ (dp_chain _ _ _ _ P)) as [gs' ->]. by left. }
  assert (E : (if lo_first lo then all else unput all (lo_put lo)) = rest).
  { destruct (lo_first lo); [symmetry; auto|symmetry; by apply K]. }
  rewrite E. assert (Sub : rest ⊆ all).
  { rewrite (kp_rest _ _ K Nr). intros a Ha. eapply elem_of_sublist; [exact Ha|apply unput_sublist]. }
  apply wp_bind. eapply wp_find_temps; [exact D|done|]. intros found. cbv zeta.
  destruct rest as [|a rest1] eqn:Er; [done|]. rewrite <- Er in *. apply wp_bind.
  assert (G : forall m', dv None ins rest m' -> wp (et_llist_lock (LIn ET_GRANDCENTRAL) ;;;
    let* status := et_llist_write_gc rest in et_llist_unlock (LIn ET_GRANDCENTRAL) ;;;
      if status =? ET_ERROR then ret None
      else signal_cread (LIn ET_GRANDCENTRAL) ;;; ret (Some (mkLocals 0 (lo_put lo) (lo_first lo) (found ++ drop (length found) (lo_temps lo)))))
    delivered nc m').
  { intros m1 D1. apply wp_bind. eapply wp_dv_lock; [exact P|exact D1|done|]. intros m2 D2. apply wp_bind.
    destruct (dv_member _ _ _ _ P _ _ _ _ D2 _ Hs) as (q & Eq & _). assert (Pm : rest ≡ₚ rest ++ []) by (by rewrite app_nil_r).
    assert (W : wp (et_llist_write_gc rest) (fun r m' => r = ET_OK /\
      moved m2 ET_GRANDCENTRAL q (ins ET_GRANDCENTRAL ++ rest) (ins ET_GRANDCENTRAL ++ rest) (Z.of_nat (length rest)) m') nc m2).
    { rewrite Er at 1. eapply (wp_llist_write_gc m2 ET_GRANDCENTRAL q (ins ET_GRANDCENTRAL) rest); [|done|done|].
      - eapply dv_move_pre; [exact P|exact D2|done|done|exact Pm].
      - pose proof (dv_length _ _ _ _ P _ _ _ _ D2 _ _ _ Hs Pm). lia. }
    eapply wp_mono; [exact W| |done].
    - cbv beta. intros r m3 [-> M]. change (ins ET_GRANDCENTRAL ++ rest) with (arrived m0 ET_GRANDCENTRAL (ins ET_GRANDCENTRAL) rest) in M at 2.
      eapply delivery_moved in M; [|exact P|exact D2|done|done|exact Pm|done|by left].
      apply wp_bind. eapply wp_dv_unlock; [exact P|exact M|done|]. intros m4 D4.
      change (ET_OK =? ET_ERROR) with false. cbv iota. apply wp_bind. eapply wp_dv_signal; [exact P|exact D4|done|]. intros m5 D5.
      apply wp_ret. by eexists _, _. }
  rewrite Er. rewrite Er in G. destruct (found ++ _) as [|t temps].
  - apply wp_ret. apply G. by rewrite <- Er.
  - eapply wp_forget; [exact D|done|]. intros m' D'. apply G. by rewrite <- Er.
Qed.

(** ** The stations of a group *)

(** The configurations that the setters allow, GrandCentral, and the size of the chain. *)
Record dist_ok : Prop := mkDistOk {
  do_config : forall s ps, s ∈ members gs -> s <> ET_GRANDCENTRAL -> m_stats m0 !! s = Some ps ->
    1 <= sc_prescale (st_config ps) /\ ET_STATION_SELECT_ALL <= sc_select_mode (st_config ps) <= ET_STATION_SELECT_EQUALCUE /\
    (shares (st_config ps) <> 0 -> sc_flow_mode (st_config ps) = ET_STATION_PARALLEL);
  do_gc : exists ps, m_stats m0 !! ET_GRANDCENTRAL = Some ps /\ is_active ps = true /\ sc_flow_mode (st_config ps) <> ET_STATION_PARALLEL;
  do_mutex : sys_mutex (m_sys m0) = false;
  do_stations : Z.of_nat (length (members gs)) <= cf_nstations (sys_config (m_sys m0)) < 2 ^ 30
}.
Hypothesis O : dist_ok.

Definition active (s : Z) : bool :=
  match m_stats m0 !! s with Some ps => is_active ps | None => false end.
Definition actives (l : list Z) : list Z := List.filter active l.

Section group.
Context (g : group) (Hg : g ∈ gs) (Ngc : ET_GRANDCENTRAL ∉ group_members g).

Lemma group_in a : a ∈ group_members g -> a ∈ members gs.
Proof. intros Ha. by apply (elem_of_members a g). Qed.

Lemma group_size : (length (group_members g) <= size (m_stats m0))%nat.
Proof.
  pose proof (length_members_le _ _ (dp_chain _ _ _ _ P)) as L. apply list_elem_of_split in Hg as (l1 & l2 & E).
  rewrite E, members_app, members_cons, !length_app in L. lia.
Qed.

Lemma group_length : (length (group_members g) <= length (members gs))%nat.
Proof. apply list_elem_of_split in Hg as (l1 & l2 & E). rewrite E, members_app, members_cons, !length_app. lia. Qed.

(** Reading a station of the group. *)
Lemma wp_member l1 a l2 lk ins rest (Q : et_station -> et_mem -> Prop) m :
  group_members g = l1 ++ a :: l2 -> dv lk ins rest m ->
  (forall q ps, m_stats m !! a = Some q -> m_stats m0 !! a = Some ps -> station_core q = station_core ps ->
     is_active q = active a -> st_nextparallel q = hd (-1) l2 -> (forall b, b ∈ l2 -> 0 <= b) -> Q q m) ->
  wp (ld_stat a) Q nc m.
Proof.
  intros E D HQ. assert (Ha : a ∈ members gs) by (apply group_in; rewrite E; set_solver).
  eapply wp_dv_stat; [exact P|exact D|done|]. intros q ps Eq E0 Ec _.
  pose proof (f_equal is_active Ec) as A. pose proof (f_equal st_nextparallel Ec) as N. cbn in A, N.
  apply (HQ q ps); try done.
  - unfold active. rewrite E0. exact A.
  - pose proof (gr_dll _ _ (ch_groups _ _ (dp_chain _ _ _ _ P) g Hg)) as Dl. rewrite E in Dl. apply dll_app in Dl as [_ (_ & Dl & _)].
    rewrite (stf_lookup _ _ _ _ E0) in Dl. congruence.
  - intros b Hb. apply (ch_stat _ _ (dp_chain _ _ _ _ P)), group_in. rewrite E. set_solver.
Qed.

Lemma hd_nonneg (l : list Z) : (forall b, b ∈ l -> 0 <= b) ->
  (hd (-1) l <? 0) = match l with [] => true | _ => false end /\ (-1 <? hd (-1) l) = match l with [] => false | _ => true end.
Proof. intros Hl. destruct l as [|b l]; [done|]. specialize (Hl b ltac:(set_solver)). simpl. split; [apply Z.ltb_ge|apply Z.ltb_lt]; lia. Qed.

Lemma actives_cons a l : actives (a :: l) = if active a then a :: actives l else actives l.
Proof. done. Qed.

Lemma wp_first_active n l1 a l2 lk ins rest m :
  group_members g = l1 ++ a :: l2 -> (length l2 < n)%nat -> dv lk ins rest m ->
  wp (first_active n a) (fun r m' => m' = m /\
    match r with
    | Some f => exists k1 k2, a :: l2 = k1 ++ f :: k2 /\ active f = true /\ actives k1 = []
    | None => actives (a :: l2) = []
    end) nc m.
Proof.
  revert l1 a l2. induction n as [|n IH]; intros l1 a l2 E L D; [lia|]. cbn [first_active]. apply wp_bind.
  eapply wp_member; [exact E|exact D|]. intros q ps Eq E0 _ -> -> Nn. destruct (active a) eqn:A.
  - apply wp_ret. split; [done|]. by exists [], l2.
  - destruct (hd_nonneg _ Nn) as [-> _]. destruct l2 as [|b l2].
    + apply wp_ret. split; [done|]. by rewrite actives_cons, A.
    + eapply wp_mono; [apply (IH (l1 ++ [a]) b l2); [by rewrite <- app_assoc|simpl in L; lia|done]| |done]. cbv beta.
      intros [f|] m' [-> F]; (split; [done|]).
      * destruct F as (k1 & k2 & -> & Af & N). exists (a :: k1), k2. split_and!; [done|done|]. by rewrite actives_cons, A.
      * by rewrite actives_cons, A.
Qed.

Lemma wp_next_active n l1 a l2 lk ins rest m :
  group_members g = l1 ++ a :: l2 -> (length l2 < n)%nat -> dv lk ins rest m ->
  wp (next_active n a) (fun r m' => m' = m /\
    match r with Some f => exists k1 k2, l2 = k1 ++ f :: k2 /\ active f = true | None => True end) nc m.
Proof.
  revert l1 a l2. induction n as [|n IH]; intros l1 a l2 E L D; [lia|]. cbn [next_active]. apply wp_bind.
  eapply wp_member; [exact E|exact D|]. intros q ps Eq E0 _ _ -> Nn. destruct (hd_nonneg _ Nn) as [_ ->]. destruct l2 as [|b l2].
  - apply wp_ret. done.
  - simpl. apply wp_bind. eapply (wp_member (l1 ++ [a]) b l2); [by rewrite <- app_assoc|exact D|].
    intros q' ps' _ _ _ -> _ _. destruct (active b) eqn:A.
    + apply wp_ret. split; [done|]. by exists [], l2.
    + eapply wp_mono; [apply (IH (l1 ++ [a]) b l2); [by rewrite <- app_assoc|simpl in L; lia|done]| |done]. cbv beta.
      intros [f|] m' [-> F]; (split; [done|]); [|done]. destruct F as (k1 & k2 & -> & Af). by exists (b :: k1), k2.
Qed.

Lemma member_server a : a ∈ group_members g -> active a = true -> exists ps, server a ps.
Proof.
  intros Ha Aa. pose proof (group_in a Ha) as Hm. unfold active in Aa. destruct (m_stats m0 !! a) as [ps|] eqn:E; [|done].
  assert (N : a <> ET_GRANDCENTRAL) by (intros ->; done). destruct (do_config O a ps Hm N E) as (C1 & C2 & _).
  exists ps. by split.
Qed.

(** The members of a group share the way of getting events with its head. *)
Lemma member_shares a ph ps :
  m_stats m0 !! fst g = Some ph -> a ∈ group_members g -> m_stats m0 !! a = Some ps -> shares (st_config ps) = shares (st_config ph).
Proof.
  intros Eh Ha Ea. apply elem_of_cons in Ha as [->|Ha]; [by simplify_eq|].
  destruct (gr_parallel _ _ (ch_groups _ _ (dp_chain _ _ _ _ P) g Hg) a Ha) as [_ (ph' & ps' & Eh' & Ea' & C)].
  rewrite Eh in Eh'. rewrite Ea in Ea'. simplify_eq. apply compare_parallel_iff in C as (_ & C & _). done.
Qed.

Lemma wp_stations_fuel lk ins rest (Q : nat -> et_mem -> Prop) m :
  dv lk ins rest m -> Q (S (size (m_stats m0))) m -> wp stations_fuel Q nc m.
Proof. intros D HQ. unfold stations_fuel. apply wp_bind, wp_getm, wp_ret. by rewrite (dv_size _ _ _ _ _ _ _ _ D). Qed.

Lemma wp_serve_parallel n l1 a l2 ph lo ins rest m :
  m_stats m0 !! fst g = Some ph -> shares (st_config ph) = 0 ->
  group_members g = l1 ++ a :: l2 -> (length l2 < n)%nat -> active a = true -> dv None ins rest m -> ready lo rest ->
  wp (serve_parallel n a all lo) served nc m.
Proof.
  intros Eh Sh. revert l1 a l2 lo ins rest m. induction n as [|n IH]; intros l1 a l2 lo ins rest m E L A D R; [lia|]. cbn [serve_parallel].
  assert (Ha : a ∈ group_members g) by (rewrite E; set_solver). destruct (member_server a Ha A) as [ps Sv].
  apply wp_bind. eapply wp_mono; [eapply wp_serve; [exact D|exact Sv| |exact R]| |done].
  { rewrite <- Sh. by apply (member_shares a ph ps); [| |apply Sv]. }
  cbv beta. intros r m1 (lo1 & ins1 & rest1 & -> & D1 & K1). apply wp_bind. eapply wp_stations_fuel; [exact D1|]. apply wp_bind.
  pose proof group_size as Gs. rewrite E, length_app in Gs. simpl in Gs.
  eapply wp_mono; [eapply wp_next_active; [exact E| |exact D1]; lia| |done]. cbv beta.
  intros nx m2 [-> F]. destruct nx as [f|].
  - destruct F as (k1 & k2 & -> & Af). cbn [lo_left set_lo_first]. destruct (Z.ltb_spec 0 (lo_left lo1)).
    + apply (IH (l1 ++ a :: k1) f k2 _ ins1 rest1); [by rewrite E, <- app_assoc|rewrite length_app in L; simpl in L; lia|done|done|].
      by apply kept_ready.
    + apply wp_ret. eapply served_intro; [exact D1|]. by destruct K1; split.
  - apply wp_ret. by eapply served_intro.
Qed.

(** A write to an active station of a group that shares its events. *)
Lemma wp_write_shared a ph ins rest rest' pes (Q : bool -> et_mem -> Prop) m :
  m_stats m0 !! fst g = Some ph -> shares (st_config ph) <> 0 -> a ∈ group_members g -> active a = true ->
  dv (Some a) ins rest m -> rest ≡ₚ pes ++ rest' -> pes <> [] -> pes `sublist_of` all ->
  (forall ins' m', dv None ins' rest' m' -> Q true m') ->
  wp (write_list (LIn a) pes) Q nc m.
Proof.
  intros Eh Sh Ha A D Pm Ne Sub HQ. destruct (member_server a Ha A) as [ps Sv].
  pose proof (member_shares a ph ps Eh Ha (sv_stat _ _ Sv)) as Es.
  eapply (wp_write_list _ _ _ _ P ins rest rest' a pes); [exact D|apply Sv|apply Sv|done|done| | |].
  - eapply pri_sorted_sublist; [exact Sub|apply P].
  - right. exists ps. split_and!; [apply Sv|apply Sv| |congruence]. apply Forall_forall. intros b _.
    unfold accepts. cbv zeta. unfold shares in Es, Sh. rewrite <- Es in Sh. revert Sh. generalize (sc_select_mode (st_config ps)). intros z Sh.
    split; intros ->; done.
  - intros m' D'. by eapply HQ.
Qed.

(** *** Equal cues *)

Lemma wp_cue_counts n l1 a l2 lk ins rest m :
  group_members g = l1 ++ a :: l2 -> (length l2 < n)%nat -> dv lk ins rest m ->
  wp (cue_counts n a) (fun r m' => m' = m /\ length r = length (actives (a :: l2))) nc m.
Proof.
  revert l1 a l2. induction n as [|n IH]; intros l1 a l2 E L D; [lia|]. cbn [cue_counts]. apply wp_bind.
  eapply wp_member; [exact E|exact D|]. intros q ps Eq E0 _ -> -> Nn. destruct (hd_nonneg _ Nn) as [_ ->]. apply wp_bind.
  eapply (wp_mono _ (fun r m' => m' = m /\ length r = length (actives l2))); [| |done].
  - destruct l2 as [|b l2]; [by apply wp_ret|]. apply (IH (l1 ++ [a])); [by rewrite <- app_assoc|simpl in L; lia|done].
  - cbv beta. intros r m' [-> F]. apply wp_ret. split; [done|]. rewrite actives_cons. destruct (active a); simpl; by rewrite F.
Qed.

Lemma take_unput_ok k evs put :
  length put = length evs -> (k <= length (unput evs put))%nat ->
  exists put', take_unput k evs put = Some (take k (unput evs put), put') /\ length put' = length evs /\
    unput evs put' = drop k (unput evs put).
Proof.
  revert k put. induction evs as [|a evs IH]; intros k [|p put] L Hk; try done.
  - destruct k; simpl in *; [by exists []|lia].
  - simpl in L. injection L as L. destruct p.
    + destruct (IH k put L Hk) as (put' & E & L' & U). destruct k as [|k]; cbn [take_unput].
      * exists (true :: put). split_and!; [by rewrite take_0|by simpl; rewrite L|done].
      * exists (true :: put'). rewrite E. split_and!; [done|by simpl; rewrite L'|done].
    + destruct k as [|k]; cbn [take_unput].
      * exists (false :: put). split_and!; [done|by simpl; rewrite L|done].
      * simpl in Hk. destruct (IH k put L ltac:(lia)) as (put' & E & L' & U). exists (true :: put'). rewrite E.
        split_and!; [done|by simpl; rewrite L'|done].
Qed.

(** What is left while the stations get their numbers of events. *)
Definition pending (lo : locals) (already : Z) (rest : list Z) : Prop :=
  lo_left lo = Z.of_nat (length rest) /\ length (lo_put lo) = length all /\ 0 <= already /\
  rest = if lo_first lo then drop (Z.to_nat already) all else unput all (lo_put lo).

Lemma pending_sublist lo already rest : pending lo already rest -> rest `sublist_of` all.
Proof. intros (_ & _ & _ & ->). destruct (lo_first lo); [apply sublist_drop|apply unput_sublist]. Qed.

Lemma pending_take lo already rest x :
  pending lo already rest -> 0 <= x <= lo_left lo ->
  exists put', (if lo_first lo then Some (take (Z.to_nat x) (drop (Z.to_nat already) all), lo_put lo)
     else take_unput (Z.to_nat x) all (lo_put lo)) = Some (take (Z.to_nat x) rest, put') /\
    pending (mkLocals (lo_left lo - x) put' (lo_first lo) (lo_temps lo)) (already + x) (drop (Z.to_nat x) rest).
Proof.
  intros (P1 & P2 & P3 & P4) Hx. rewrite P1 in Hx. unfold pending. cbn [lo_left lo_put lo_first]. rewrite length_drop.
  destruct (lo_first lo).
  - exists (lo_put lo). subst rest. rewrite drop_drop. split; [done|]. split_and!; [lia|done|lia|]. f_equal. lia.
  - subst rest. destruct (take_unput_ok (Z.to_nat x) all (lo_put lo) P2) as (put' & E & L & U); [lia|].
    exists put'. rewrite E. split; [done|]. split_and!; [lia|done|lia|done].
Qed.

Lemma sumZ_nonneg l : Forall (fun x => 0 <= x) l -> 0 <= sumZ l.
Proof. induction 1; simpl; lia. Qed.

Lemma wp_equal_put n l1 a l2 ph nums already lo ins rest m :
  m_stats m0 !! fst g = Some ph -> shares (st_config ph) <> 0 ->
  group_members g = l1 ++ a :: l2 -> (length l2 < n)%nat -> dv None ins rest m ->
  length nums = length (actives (a :: l2)) -> Forall (fun x => 0 <= x) nums -> sumZ nums = Z.of_nat (length rest) ->
  pending lo already rest ->
  wp (equal_put n a nums all already lo) served nc m.
Proof.
  intros Eh Sh. revert l1 a l2 nums already lo ins rest m. induction n as [|n IH]; intros l1 a l2 nums already lo ins rest m E L D Ln Nn Su Pe; [lia|].
  cbn [equal_put]. assert (Ha : a ∈ group_members g) by (rewrite E; set_solver).
  apply wp_bind. eapply wp_member; [exact E|exact D|]. intros q ps Eq E0 _ -> -> Nng. destruct (hd_nonneg _ Nng) as [_ ->].
  (* what follows this station *)
  assert (Next : forall nums already lo ins rest m, dv None ins rest m ->
    length nums = length (actives l2) -> Forall (fun x => 0 <= x) nums -> sumZ nums = Z.of_nat (length rest) -> pending lo already rest ->
    wp (if match l2 with [] => false | _ => true end then equal_put n (hd (-1) l2) nums all already lo else ret (Some lo)) served nc m).
  { clear nums already lo ins rest m D Ln Nn Su Pe Eq. intros nums already lo ins rest m D Ln Nn Su Pe. destruct l2 as [|b l2].
    - destruct nums; [|done]. destruct rest; [|simpl in Su; lia]. apply wp_ret. eapply served_intro; [exact D|].
      destruct Pe as (P1 & P2 & _). by split.
    - apply (IH (l1 ++ [a]) b l2 nums already lo ins rest); try done; [by rewrite <- app_assoc|simpl in L; lia]. }
  rewrite actives_cons in Ln. apply wp_bind. destruct (active a) eqn:A.
  2: { apply wp_ret. by apply (Next nums already lo ins rest). }
  destruct nums as [|x nums]; [done|]. simpl in Ln. injection Ln as Ln. apply Forall_cons in Nn as [N1 N2]. cbn [head tail sumZ foldr] in *.
  pose proof (sumZ_nonneg nums N2) as Sn. change (foldr Z.add 0 nums) with (sumZ nums) in Su.
  apply wp_bind, wp_ret. destruct (Z.ltb_spec x 1).
  { apply wp_ret. apply (Next nums already lo ins rest); try done. lia. }
  destruct (pending_take lo already rest x Pe) as (put' & -> & Pe'); [destruct Pe as (-> & _); lia|].
  apply wp_bind, wp_ret. apply wp_bind. eapply wp_dv_lock; [exact P|exact D|by apply group_in|]. intros m1 D1.
  apply wp_bind. eapply wp_dv_try; [exact P|exact D1|by apply group_in|]. intros m2 D2. apply wp_bind.
  eapply (wp_write_shared a ph ins rest (drop (Z.to_nat x) rest)); [done|done|done|done|exact D2|by rewrite take_drop| | |].
  - intros X. apply (f_equal length) in X. rewrite length_take in X. simpl in X. lia.
  - rewrite sublist_take. by eapply pending_sublist.
  - intros ins' m3 D3. apply wp_ret. eapply Next; [exact D3|done|done| |exact Pe']. rewrite length_drop. lia.
Qed.

Lemma wp_serve_equal k1 fa k2 ph lo ins rest m :
  m_stats m0 !! fst g = Some ph -> shares (st_config ph) <> 0 ->
  group_members g = k1 ++ fa :: k2 -> active fa = true -> dv None ins rest m -> ready lo rest ->
  wp (serve_equal fa all lo) served nc m.
Proof.
  intros Eh Sh E A D (K & Nr & Fi). unfold serve_equal. apply wp_bind, wps_ld_sys. rewrite (dv_config _ _ _ _ _ _ _ _ D).
  apply wp_bind. eapply wp_stations_fuel; [exact D|]. pose proof group_size as Gs. rewrite E, length_app in Gs. simpl in Gs.
  apply wp_bind. eapply wp_mono; [eapply wp_cue_counts; [exact E| |exact D]; lia| |done]. cbv beta. intros cnts m1 [-> Lc].
  assert (La : (1 <= length (actives (fa :: k2)) <= length (members gs))%nat).
  { split; [rewrite actives_cons, A; simpl; lia|]. pose proof group_length as Gl. rewrite E, length_app in Gl.
    unfold actives. pose proof (List.filter_length_le active (fa :: k2)). lia. }
  pose proof (do_stations O) as [Os1 Os2].
  destruct (equal_cue_levels (Z.to_nat (cf_nstations (sys_config (m_sys m0)))) cnts (lo_left lo)) as (nums & L & -> & Ln & Su & Fl);
    [lia|lia|rewrite (kp_left _ _ K); lia|].
  apply wp_bind, wp_ret. eapply wp_equal_put; [exact Eh|done|exact E|lia|exact D|by rewrite Ln| |by rewrite Su, (kp_left _ _ K)|].
  - apply Forall_forall. intros x Hx. apply list_elem_of_lookup_1 in Hx as [i Hi]. pose proof (lookup_lt_Some _ _ _ Hi) as Li.
    rewrite Ln in Li. specialize (Fl i Li). cbv beta in Fl. rewrite (list_lookup_total_correct _ _ _ Hi) in Fl. lia.
  - split_and!; [apply K|apply K|lia|]. destruct (lo_first lo); [by rewrite Fi|by apply K].
Qed.

(** *** Round robin *)

Lemma wp_when_waslast (b : bool) v a q lk ins rest (Q : unit -> et_mem -> Prop) m :
  m_stats m !! a = Some q -> dv lk ins rest m -> (forall m', dv lk ins rest m' -> Q tt m') ->
  wp (when b (str_stat a (set_st_waslast v))) Q nc m.
Proof.
  intros E D HQ. apply wp_when. destruct b; [|by apply HQ]. eapply wps_str_stat; [done|done|]. apply HQ. by apply delivery_waslast.
Qed.

Lemma wp_rrobin_scan n l1 a l2 look start num ins rest m :
  group_members g = l1 ++ a :: l2 -> (length l2 < n)%nat -> dv None ins rest m ->
  wp (rrobin_scan n a look start num) (fun r m' => dv None ins rest m' /\
    snd r = num + Z.of_nat (length (actives (a :: l2))) /\
    (fst r = start \/ exists b, fst r = Some b /\ b ∈ a :: l2 /\ active b = true)) nc m.
Proof.
  revert l1 a l2 look start num m. induction n as [|n IH]; intros l1 a l2 look start num m E L D; [lia|]. cbn [rrobin_scan]. apply wp_bind.
  eapply wp_member; [exact E|exact D|]. intros q ps Eq E0 _ -> -> Nn. destruct (hd_nonneg _ Nn) as [_ ->]. cbv zeta. apply wp_bind. eapply wp_when_waslast; [done|exact D|].
  intros m' D'. rewrite actives_cons. set (start' := if active a && look then Some a else start).
  assert (Hs : start' = start \/ exists b, start' = Some b /\ b ∈ a :: l2 /\ active b = true).
  { unfold start'. destruct (active a) eqn:A; simpl; [|by left]. destruct look; [right; exists a; set_solver|by left]. }
  destruct l2 as [|b l2].
  - apply wp_ret. split; [done|]. cbn [fst snd]. split; [|done]. destruct (active a); simpl; lia.
  - eapply wp_mono; [apply (IH (l1 ++ [a]) b l2); [by rewrite <- app_assoc|simpl in L; lia|done]| |done]. cbv beta.
    intros r m2 (D2 & -> & Hr). split; [done|]. split; [destruct (active a); simpl length; lia|].
    destruct Hr as [->|(c & Ec & Hc & Ac)]; [exact Hs|]. right. exists c. split_and!; [done|by right|done].
Qed.

Lemma wp_rrobin_put n l1 a l2 k1 fa k2 ph nums hands (c : nat) last lo ins m :
  m_stats m0 !! fst g = Some ph -> shares (st_config ph) <> 0 ->
  group_members g = k1 ++ fa :: k2 -> length nums = length (actives (fa :: k2)) ->
  length hands = length nums ->
  (forall i h, hands !! i = Some h -> h `sublist_of` all /\ nums !! i = Some (Z.of_nat (length h))) ->
  group_members g = l1 ++ a :: l2 -> (c < length nums)%nat ->
  ((length nums - c <= length (actives (a :: l2)) /\ length l2 < n)%nat \/
   (length l2 + 1 + length (group_members g) <= n)%nat) ->
  dv None ins (concat (drop c hands)) m -> lo_left lo = Z.of_nat (length (concat (drop c hands))) -> length (lo_put lo) = length all ->
  wp (rrobin_put n a fa nums (Z.of_nat c) last (concat (drop c hands)) lo) served nc m.
Proof.
  intros Eh Sh Ek Lk Lh Hh. revert l1 a l2 c lo ins m. induction n as [|n IH]; intros l1 a l2 c lo ins m E Hc Fu D Ll Lp; [lia|].
  cbn [rrobin_put]. assert (Ha : a ∈ group_members g) by (rewrite E; set_solver).
  apply wp_bind. eapply wp_member; [exact E|exact D|]. intros q ps Eq E0 _ -> -> Nng. destruct (hd_nonneg _ Nng) as [_ ->].
  (* what follows this station, after [c'] hands *)
  assert (Next : forall c' lo ins m, c' = (if active a then S c else c) -> dv None ins (concat (drop c' hands)) m ->
    lo_left lo = Z.of_nat (length (concat (drop c' hands))) -> length (lo_put lo) = length all ->
    wp (if Z.of_nat (length nums) <=? Z.of_nat c' then ret (Some lo)
        else rrobin_put n (if match l2 with [] => false | _ => true end then hd (-1) l2 else fa) fa nums (Z.of_nat c') last
               (concat (drop c' hands)) lo) served nc m).
  { clear lo ins m D Ll Lp Eq. intros c' lo ins m Ec D Ll Lp. destruct (Z.leb_spec (Z.of_nat (length nums)) (Z.of_nat c')).
    - apply wp_ret. rewrite drop_ge in D, Ll by lia. eapply served_intro; [exact D|]. by split.
    - rewrite actives_cons in Fu. destruct l2 as [|b l2].
      + apply (IH k1 fa k2 c' lo ins); try done; [lia|]. left. rewrite Ek, length_app in Fu. change (actives []) with (@nil Z) in Fu. cbn [length] in Fu.
        destruct (active a); cbn [length] in Fu; lia.
      + apply (IH (l1 ++ [a]) b l2 c' lo ins); try done; [by rewrite <- app_assoc|lia|]. cbn [length] in Fu.
        destruct (active a); cbn [length] in Fu; lia. }
  apply wp_bind. destruct (active a) eqn:A.
  2: { apply wp_ret. by apply (Next c lo ins). }
  destruct (lookup_lt_is_Some_2 hands c) as [h Ehd]; [lia|]. destruct (Hh c h Ehd) as [Sub En].
  apply wp_bind. eapply wp_when_waslast; [done|exact D|]. intros m1 D1. rewrite Nat2Z.id, En. apply wp_bind, wp_ret.
  assert (Ed : concat (drop c hands) = h ++ concat (drop (S c) hands)) by (by rewrite (drop_S _ _ _ Ehd)).
  destruct (Z.ltb_spec 0 (Z.of_nat (length h))) as [Hp|Hp].
  - rewrite Nat2Z.id, Ed. apply wp_bind. eapply wp_dv_lock; [exact P|exact D1|by apply group_in|]. intros m2 D2.
    apply wp_bind. eapply wp_dv_try; [exact P|exact D2|by apply group_in|]. intros m3 D3. apply wp_bind.
    rewrite take_app_length, drop_app_length.
    eapply (wp_write_shared a ph ins _ (concat (drop (S c) hands)) h); [done|done|done|done|exact D3|by rewrite Ed| |done|].
    + intros ->. simpl in Hp. lia.
    + intros ins' m4 D4. apply wp_ret. replace (Z.of_nat c + 1) with (Z.of_nat (S c)) by lia. apply (Next (S c) _ ins'); [done|done| |done].
      cbn [lo_left]. rewrite Ll, Ed, length_app. lia.
  - assert (Eh0 : h = []) by (destruct h; [done|simpl in Hp; lia]). rewrite Eh0 in Ed. simpl in Ed. apply wp_ret.
    replace (Z.of_nat c + 1) with (Z.of_nat (S c)) by lia. rewrite Ed in *. by apply (Next (S c) lo ins).
Qed.

Lemma wp_serve_rrobin depth k1 fa k2 ph lo ins rest m :
  m_stats m0 !! fst g = Some ph -> shares (st_config ph) <> 0 ->
  group_members g = k1 ++ fa :: k2 -> actives k1 = [] -> active fa = true -> dv None ins rest m -> ready lo rest ->
  lo_first lo = true -> Z.of_nat (length all) <= depth ->
  wp (serve_rrobin depth (fst g) fa all lo) served nc m.
Proof.
  intros Eh Sh E K1 A D (K & Nr & Fi) F1 Hd. specialize (Fi F1). subst rest. unfold serve_rrobin.
  pose proof group_size as Gs. apply wp_bind. eapply wp_stations_fuel; [exact D|]. apply wp_bind.
  assert (Lg : length (group_members g) = S (length (snd g))) by done.
  eapply wp_mono; [eapply (wp_rrobin_scan _ [] (fst g) (snd g)); [done| |exact D]; lia| |done]. cbv beta.
  intros [start num] m1 (D1 & En & Hs). cbn [fst snd] in En, Hs. change (fst g :: snd g) with (group_members g) in *.
  assert (Ea : actives (group_members g) = actives (fa :: k2)).
  { rewrite E. unfold actives. rewrite List.filter_app. unfold actives in K1. by rewrite K1. }
  rewrite Ea in En. rewrite Z.add_0_l in En. set (N := length (actives (fa :: k2))) in *.
  assert (HN : (1 <= N)%nat) by (unfold N; rewrite actives_cons, A; simpl; lia). subst num.
  cbv zeta. rewrite Nat2Z.id, F1, (kp_left _ _ K).
  destruct (rrobin_first all N HN (lo_put lo)) as (hands & -> & Lh & Pm & Hh). apply wp_bind, wp_ret.
  assert (Ldp : (depth <? Z.of_nat (length (concat hands))) = false) by (apply Z.ltb_ge; by rewrite Pm). rewrite Ldp.
  assert (Ln : length (rrobin_nums (Z.of_nat N) (Z.of_nat (length all))) = N) by (by apply length_rrobin_nums).
  assert (Hst : exists l1 l2, group_members g = l1 ++ default fa start :: l2).
  { destruct Hs as [->|(b & -> & Hb & _)]; [by exists k1, k2|]. by apply list_elem_of_split in Hb as (l1 & l2 & ->); exists l1, l2. }
  destruct Hst as (l1 & l2 & El). assert (D2 : dv None ins (concat (drop 0 hands)) m1).
  { destruct D1 as [H1 H2 H3 H4 H5 H6 H7 H8]. split; try done. by rewrite Pm. }
  change 0 with (Z.of_nat 0) at 1. change (concat hands) with (concat (drop 0 hands)).
  eapply (wp_rrobin_put _ l1 _ l2 k1 fa k2 ph _ hands 0); [done|done|done|by rewrite Ln|by rewrite Lh, Ln| |done|lia| |exact D2| |apply K].
  - intros i h Hi. destruct (Hh i h Hi) as (S1 & S2 & _). done.
  - right. pose proof (f_equal length El) as X. rewrite length_app in X. simpl in X. lia.
  - rewrite (kp_left _ _ K). simpl. by rewrite Pm.
Qed.

(** *** A station of the main list *)

Definition rrobin (h : Z) : Prop := exists ph, m_stats m0 !! h = Some ph /\ sc_select_mode (st_config ph) = ET_STATION_SELECT_RROBIN.

Lemma shares_zero c : sc_select_mode c <> ET_STATION_SELECT_RROBIN -> sc_select_mode c <> ET_STATION_SELECT_EQUALCUE -> shares c = 0.
Proof. intros N1 N2. unfold shares. by rewrite (proj2 (Z.eqb_neq _ _) N1), (proj2 (Z.eqb_neq _ _) N2). Qed.

Lemma wp_serve_main depth q lo ins rest m :
  m_stats m !! fst g = Some q -> dv None ins rest m -> ready lo rest -> (rrobin (fst g) -> lo_first lo = true) ->
  Z.of_nat (length all) <= depth -> wp (serve_main depth (fst g) q all lo) served nc m.
Proof.
  intros Eq D R Hr Hd. assert (Hm : fst g ∈ group_members g) by (by left). pose proof group_size as Gs.
  assert (Lg : length (group_members g) = S (length (snd g))) by done.
  destruct (dv_member _ _ _ _ P _ _ _ _ D _ (group_in _ Hm)) as (q' & Eq' & _ & ph & Eh & Ec).
  rewrite Eq in Eq'. apply (inj Some) in Eq'. subst q'.
  pose proof (f_equal st_config Ec) as Es. pose proof (f_equal is_active Ec) as Ea. cbn in Es, Ea.
  change (is_active q = is_active ph) in Ea.
  assert (Ha : active (fst g) = is_active ph) by (unfold active; by rewrite Eh).
  unfold serve_main. rewrite Es, Ea. cbv zeta. apply wp_bind. eapply wp_stations_fuel; [exact D|]. apply wp_bind.
  destruct (Z.eqb_spec (sc_flow_mode (st_config ph)) ET_STATION_PARALLEL) as [F|F].
  - eapply wp_mono; [eapply (wp_first_active _ [] (fst g) (snd g)); [done| |exact D]; lia| |done]. cbv beta.
    intros [fa|] m' [-> Hf].
    + destruct Hf as (k1 & k2 & E & Af & K1). destruct (Z.eqb_spec (sc_select_mode (st_config ph)) ET_STATION_SELECT_RROBIN) as [B|B].
      { eapply wp_serve_rrobin; [exact Eh| |exact E|done|done|exact D|exact R| |done]; [unfold shares; by rewrite B|apply Hr; by exists ph]. }
      destruct (Z.eqb_spec (sc_select_mode (st_config ph)) ET_STATION_SELECT_EQUALCUE) as [B'|B'].
      { eapply wp_serve_equal; [exact Eh| |exact E|done|exact D|exact R]. unfold shares. by rewrite B'. }
      eapply (wp_serve_parallel _ k1 fa k2); [exact Eh|by apply shares_zero|exact E| |done|exact D|exact R].
      pose proof (f_equal length E) as X. rewrite length_app in X. simpl in X. lia.
    + rewrite actives_cons, Ha in Hf. destruct (is_active ph); [done|]. apply wp_ret. eapply served_intro; [exact D|apply R].
  - apply wp_ret. destruct (is_active ph) eqn:A; [|apply wp_ret; eapply served_intro; [exact D|apply R]].
    destruct (member_server (fst g) Hm) as [ps Sv]; [by rewrite Ha|]. pose proof (sv_stat _ _ Sv) as E2. rewrite Eh in E2. apply (inj Some) in E2. subst ps.
    eapply wp_serve; [exact D|exact Sv| |exact R].
    destruct (do_config O _ _ (sv_mem _ _ Sv) (sv_gc _ _ Sv) Eh) as (_ & _ & C). destruct (decide (shares (st_config ph) = 0)); [done|].
    exfalso. by apply F, C.
Qed.
End group.

Lemma served_delivered lo ins rest m : dv None ins rest m -> kept lo rest -> lo_left lo <= 0 -> delivered (Some lo) m.
Proof. intros D K L. exists lo, ins. split; [done|]. rewrite (kp_left _ _ K) in L. destruct rest; [done|simpl in L; lia]. Qed.

Lemma gc_member : ET_GRANDCENTRAL ∈ members gs.
Proof. destruct (ch_gc _ _ (dp_chain _ _ _ _ P)) as [gs' ->]. by left. Qed.

(** GrandCentral takes whatever is left. *)
Lemma wp_serve_main_gc depth q lo ins rest m :
  m_stats m !! ET_GRANDCENTRAL = Some q -> dv None ins rest m -> ready lo rest ->
  wp (serve_main depth ET_GRANDCENTRAL q all lo) delivered nc m.
Proof.
  intros Eq D R. destruct (do_gc O) as (ph & Eh & A & F).
  destruct (dv_lookup _ _ _ _ _ _ _ _ D _ _ Eh) as (q' & Eq' & Ec).
  rewrite Eq in Eq'. apply (inj Some) in Eq'. subst q'.
  pose proof (f_equal st_config Ec) as Es. pose proof (f_equal is_active Ec) as Ea. cbn in Es, Ea.
  change (is_active q = is_active ph) in Ea. unfold serve_main. rewrite Es, Ea, A. cbv zeta.
  apply wp_bind. eapply wp_stations_fuel; [exact D|]. rewrite (proj2 (Z.eqb_neq _ _) F). apply wp_bind, wp_ret. cbv iota. simpl.
  eapply wp_serve_gc; [exact D|done|apply O].
Qed.

(** *** The chain *)

Lemma wp_conduct n gs1 k depth lo ins rest m :
  gs = gs1 ++ k -> ET_GRANDCENTRAL ∉ members k -> (length k < n)%nat ->
  dv None ins rest m -> kept lo rest -> (lo_first lo = true -> rest = all) ->
  Forall (fun g => ~ rrobin (fst g)) (if lo_first lo then tail k else k) ->
  Z.of_nat (length all) <= depth ->
  wp (conduct n depth (hd ET_GRANDCENTRAL (heads k)) all lo) delivered nc m.
Proof.
  intros E Nk L D K Fi Hr Hd. revert gs1 k lo ins rest m E Nk L D K Fi Hr.
  induction n as [|n IH]; intros gs1 k lo ins rest m E Nk L D K Fi Hr; [lia|]. cbn [conduct].
  destruct (Z.ltb_spec 0 (lo_left lo)) as [Hl|Hl]; [|apply wp_ret; by eapply served_delivered].
  assert (R : ready lo rest).
  { split; [done|]. split; [|done]. intros ->. rewrite (kp_left _ _ K) in Hl. simpl in Hl. lia. }
  apply wp_bind. destruct k as [|g k].
  - simpl. eapply wp_dv_stat; [exact P|exact D|apply gc_member|]. intros q ps Eq _ _ _. apply wp_bind.
    eapply wp_mono; [eapply wp_serve_main_gc; [exact Eq|exact D|done]| |done]. cbv beta. intros r m' (lo' & ins' & -> & D').
    apply wp_ret. by exists lo', ins'.
  - assert (Hg : g ∈ gs) by (rewrite E; set_solver). rewrite members_cons in Nk. cbn [heads map hd].
    assert (Ng : ET_GRANDCENTRAL ∉ group_members g) by set_solver.
    assert (Hm : fst g ∈ members gs) by (apply (elem_of_members _ g); [done|by left]).
    eapply wp_dv_stat; [exact P|exact D|done|]. intros q ps Eq E0 Ec _. apply wp_bind.
    eapply wp_mono; [eapply wp_serve_main; [exact Hg|exact Ng|exact Eq|exact D|exact R| |done]| |done].
    { intros Hrr. destruct (lo_first lo); [done|]. by apply Forall_cons in Hr as [Hr _]. }
    cbv beta. intros r m' (lo' & ins' & rest' & -> & D' & K'). destruct (Z.eqb_spec (fst g) ET_GRANDCENTRAL) as [X|_].
    { exfalso. apply Ng. rewrite <- X. by left. }
    pose proof (f_equal st_next Ec) as En. cbn in En.
    pose proof (ch_main _ _ (dp_chain _ _ _ _ P)) as Dl. rewrite E, heads_app in Dl. cbn [heads map] in Dl. apply dll_app in Dl as [_ (_ & Dl & _)].
    rewrite (stf_lookup _ _ _ _ E0) in Dl. rewrite En, Dl.
    assert (Nx : (if hd (-1) (heads k) <? 0 then ET_GRANDCENTRAL else hd (-1) (heads k)) = hd ET_GRANDCENTRAL (heads k)).
    { destruct k as [|g' k]; [done|]. simpl. destruct (ch_stat _ _ (dp_chain _ _ _ _ P) (fst g')) as [Hn _].
      { apply (elem_of_members _ g'); [rewrite E; set_solver|by left]. }
      destruct (Z.ltb_spec (fst g') 0); [lia|done]. }
    change (map fst k) with (heads k). rewrite Nx.
    eapply (IH (gs1 ++ [g]) k (set_lo_first false lo') ins' rest'); [by rewrite <- app_assoc|set_solver|simpl in L; lia|done| |done|].
    + by destruct K'; split.
    + cbn [lo_first set_lo_first]. destruct (lo_first lo); [done|]. by apply Forall_cons in Hr as [_ Hr].
Qed.
End distribute.
