(* ===== verification/Round.v ===== *)
(** * One turn of the conductor's loop

    et_conductor waits for events in the output list of its station, takes them all, and hands them
    out.  The theorem: every event ends in the input list of exactly one station. *)
From stdpp Require Import base functions gmap strings list.
From S2P Require Import Prelude Types Machine EvList Local Sample Write LList StatConfig Stats Chain Select Conductor Delivery Distribute.
Open Scope Z_scope.

#[local] Abbreviation nc := (fun _ : et_mem => True).

(** ** The first station to get the events *)

Lemma wp_group_head m gs g n l1 a l2 :
  station_chain m gs -> g ∈ gs -> group_members g = l1 ++ a :: l2 -> (length l1 < n)%nat ->
  wp (group_head n a) (fun r m' => r = fst g /\ m' = m) nc m.
Proof.
  intros H Hg. revert l1 a l2. induction n as [|n IH]; intros l1 a l2 E L; [lia|]. cbn [group_head].
  assert (In : forall b, b ∈ group_members g -> 0 <= b /\ exists pb, m_stats m !! b = Some pb /\ st_num pb = b).
  { intros b Hb. apply (ch_stat _ _ H). by apply (elem_of_members b g). }
  destruct (In a) as (_ & pa & Ea & _); [rewrite E; set_solver|].
  apply wp_bind. eapply wps_ld_stat; [done|]. pose proof (gr_dll _ _ (ch_groups _ _ H g Hg)) as D. rewrite E in D.
  apply dll_app in D as [_ (D & _)]. rewrite (stf_lookup _ _ _ _ Ea) in D. rewrite D.
  destruct (decide (l1 = [])) as [->|N].
  - simpl. apply wp_ret. split; [|done]. by injection E as ->.
  - destruct (exists_last N) as (k & b & ->). rewrite List.last_last. destruct (In b) as [Hb _]; [rewrite E; set_solver|].
    destruct (Z.ltb_spec (-1) b); [|lia]. apply (IH k b (a :: l2)); [by rewrite <- app_assoc in E|rewrite length_app in L; simpl in L; lia].
Qed.

Lemma next_head m gs gs1 g k ph :
  station_chain m gs -> gs = gs1 ++ g :: k -> m_stats m !! fst g = Some ph ->
  (if st_next ph <? 0 then ET_GRANDCENTRAL else st_next ph) = hd ET_GRANDCENTRAL (heads k).
Proof.
  intros H E Eh. pose proof (ch_main _ _ H) as D. rewrite E, heads_app in D. cbn [heads map] in D. apply dll_app in D as [_ (_ & D & _)].
  rewrite (stf_lookup _ _ _ _ Eh) in D. rewrite D. destruct k as [|g' k]; [done|]. simpl.
  destruct (ch_stat _ _ H (fst g')) as [Hn _]; [apply (elem_of_members _ g'); [rewrite E; set_solver|by left]|].
  destruct (Z.ltb_spec (fst g') 0); [lia|done].
Qed.

Lemma wp_first_station m gs gs1 g k me :
  station_chain m gs -> gs = gs1 ++ g :: k -> me ∈ group_members g ->
  wp (first_station me) (fun r m' => r = hd ET_GRANDCENTRAL (heads k) /\ m' = m) nc m.
Proof.
  intros H E Hm. assert (Hg : g ∈ gs) by (rewrite E; set_solver). unfold first_station.
  destruct (ch_stat _ _ H me) as (_ & pm & Em & _); [by apply (elem_of_members me g)|].
  destruct (ch_stat _ _ H (fst g)) as (_ & ph & Eh & _); [apply (elem_of_members _ g); [done|by left]|].
  apply wp_bind. eapply wps_ld_stat; [done|]. apply wp_bind. unfold stations_fuel. apply wp_bind, wp_getm, wp_ret. apply wp_bind.
  eapply (wp_mono _ (fun r m' => r = fst g /\ m' = m)); [| |done].
  - destruct (Z.eqb_spec (sc_flow_mode (st_config pm)) ET_STATION_PARALLEL) as [F|F].
    + pose proof (length_members_le _ _ H) as Lm. rewrite E, members_app, members_cons, !length_app in Lm.
      apply list_elem_of_split in Hm as (l1 & l2 & El). rewrite El, length_app in Lm. simpl in Lm.
      eapply wp_group_head; [done|done|exact El|lia].
    + apply wp_ret. split; [|done]. apply elem_of_cons in Hm as [->|Hm]; [done|].
      destruct (gr_parallel _ _ (ch_groups _ _ H g Hg) me Hm) as [(p & Ep & X) _]. rewrite Em in Ep. apply (inj Some) in Ep. by subst p.
  - cbv beta. intros r m' [-> ->]. apply wp_bind. eapply wps_ld_stat; [done|]. apply wp_ret. split; [|done]. by eapply next_head.
Qed.

(** ** Before and after *)

Section round.
Context `{Selector}.

(** The conductor of [me] finds the events [all] in the output list; [ins0]: the input lists. *)
Record round_pre (M : et_mem) (gs : list group) (me : Z) (all : list Z) (ins0 : Z -> list Z) : Prop := mkRoundPre {
  rp_pre : delivery_pre M gs all ins0;
  rp_ok : dist_ok M gs;
  rp_in : forall s ps, s ∈ members gs -> m_stats M !! s = Some ps ->
    list_rep (m_events M) (st_list_in ps) (ins0 s) /\ l_mutex (st_list_in ps) = false;
  rp_out : exists ps, m_stats M !! me = Some ps /\ list_rep (m_events M) (st_list_out ps) all /\
    l_mutex (st_list_out ps) = false /\ st_mutex ps = false;
  rp_some : all <> []
}.

(** The events are in the input lists [ins]; the output list is empty, the locks are free again, the
    chain is the same, and the events changed only in their links. *)
Record distributed (M : et_mem) (gs : list group) (me : Z) (all : list Z) (ins0 ins : Z -> list Z) (M' : et_mem) : Prop := mkDistributed {
  ds_perm : concat (map ins (members gs)) ≡ₚ concat (map ins0 (members gs)) ++ all;
  ds_in : forall s, s ∈ members gs -> exists ps, m_stats M' !! s = Some ps /\ l_mutex (st_list_in ps) = false /\
    list_rep (m_events M') (st_list_in ps) (ins s) /\ received M s (ins0 s) (ins s);
  ds_out : exists ps, m_stats M' !! me = Some ps /\ l_cnt (st_list_out ps) = 0 /\ l_mutex (st_list_out ps) = false /\ st_mutex ps = false;
  ds_links : same_links M M';
  ds_core : same_core (m_events M) (m_events M');
  ds_owner : forall a, owner (m_events M') a = owner (m_events M) a
}.

(** The memory when the conductor has taken the events and holds its transfer lock. *)
Record taken (M : et_mem) (me : Z) (m0 : et_mem) : Prop := mkTaken {
  tk_sys : m_sys m0 = m_sys M;
  tk_events : m_events m0 = m_events M;
  tk_stats : exists ps lo, m_stats M !! me = Some ps /\ l_cnt lo = 0 /\ l_mutex lo = false /\
    m_stats m0 = <[me := set_st_mutex true (set_st_list_out lo ps)]> (m_stats M)
}.

(** The fields of the stations that do not change meanwhile. *)
Definition kept_fields (ps : et_station) := (st_num ps, st_data ps, st_config ps, st_list_in ps).

Lemma taken_lookup M me m0 s ps : taken M me m0 -> m_stats M !! s = Some ps ->
  exists ps', m_stats m0 !! s = Some ps' /\ kept_fields ps' = kept_fields ps /\ links ps' = links ps.
Proof.
  intros [_ _ (q & lo & Eq & _ & _ & ->)] E. destruct (decide (s = me)) as [->|N].
  - rewrite lookup_insert_eq. eexists. split; [done|]. rewrite Eq in E. by injection E as ->.
  - rewrite lookup_insert_ne by done. by exists ps.
Qed.

Lemma taken_lookup_back M me m0 s ps : taken M me m0 -> m_stats m0 !! s = Some ps ->
  exists ps', m_stats M !! s = Some ps' /\ kept_fields ps' = kept_fields ps /\ links ps' = links ps.
Proof.
  intros [_ _ (q & lo & Eq & _ & _ & ->)] E. destruct (decide (s = me)) as [->|N].
  - rewrite lookup_insert_eq in E. apply (inj Some) in E. subst ps. by exists q.
  - rewrite lookup_insert_ne in E by done. by exists ps.
Qed.

Lemma taken_links M me m0 : taken M me m0 -> same_links M m0.
Proof.
  intros T. split; [|by rewrite (tk_sys _ _ _ T)]. apply map_eq. intros s. rewrite !lookup_fmap.
  destruct (m_stats M !! s) as [ps|] eqn:E.
  - destruct (taken_lookup _ _ _ _ _ T E) as (ps' & -> & _ & L). simpl. by rewrite L.
  - destruct (m_stats m0 !! s) as [ps|] eqn:E'; [|done]. destruct (taken_lookup_back _ _ _ _ _ T E') as (ps' & X & _). congruence.
Qed.

Lemma taken_pre M gs me all ins0 m0 : taken M me m0 -> round_pre M gs me all ins0 ->
  delivery_pre m0 gs all ins0 /\ dist_ok m0 gs /\ delivery m0 gs all ins0 None ins0 all m0.
Proof.
  intros T [[C1 C2 C3 C4 C5 C6 C7] [O1 O2 O3 O4] I _ _].
  assert (P : delivery_pre m0 gs all ins0).
  { split; rewrite ?(tk_events _ _ _ T), ?(tk_sys _ _ _ T); try done. eapply same_links_chain; [by eapply taken_links|done]. }
  split; [done|]. split.
  - split; rewrite ?(tk_sys _ _ _ T); try done.
    + intros s ps Hs N E. destruct (taken_lookup_back _ _ _ _ _ T E) as (ps' & E' & K & _). injection K as _ _ K _.
      rewrite <- K. by apply (O1 s).
    + destruct O2 as (ps & E & A & F). destruct (taken_lookup _ _ _ _ _ T E) as (ps' & E' & K & _). injection K as _ K1 K2 _.
      exists ps'. split; [done|]. unfold is_active in *. by rewrite K1, K2.
  - apply delivery_start; [done| |done]. intros s ps Hs E. rewrite (tk_events _ _ _ T).
    destruct (taken_lookup_back _ _ _ _ _ T E) as (ps' & E' & K & _). injection K as _ _ _ K. rewrite <- K. by apply I.
Qed.

Lemma taken_received M me m0 s old new : taken M me m0 -> received m0 s old new -> received M s old new.
Proof.
  intros T (g & -> & Hg). exists g. split; [unfold arrived; by rewrite (tk_events _ _ _ T)|].
  unfold arrived in *. rewrite (tk_events _ _ _ T) in Hg. intros N. destruct (Hg N) as [->|(ps & E & A & F & C)]; [by left|].
  right. destruct (taken_lookup_back _ _ _ _ _ T E) as (ps' & E' & K & _). injection K as K1 K2 K3 _. exists ps'.
  unfold is_active in *. rewrite K2, K3. rewrite (tk_events _ _ _ T). split_and!; [done|done| |exact C]. eapply Forall_impl; [exact F|]. cbv beta. intros a.
  unfold accepts. by rewrite K1, K3, (tk_events _ _ _ T).
Qed.

(** ** The round *)

Lemma wp_distribute M gs gs1 g k me all ins0 depth temps m1 ps lo :
  round_pre M gs me all ins0 -> gs = gs1 ++ g :: k -> me ∈ group_members g ->
  Forall (fun g => ~ rrobin M (fst g)) (tail k) -> Z.of_nat (length all) <= depth ->
  m_stats M !! me = Some ps -> st_mutex ps = false -> l_cnt lo = 0 -> l_mutex lo = false ->
  m_sys m1 = m_sys M -> m_events m1 = m_events M -> m_stats m1 = <[me := set_st_list_out lo ps]> (m_stats M) ->
  wp (distribute depth me all temps)
    (fun r M' => exists lo' ins, r = Some lo' /\ distributed M gs me all ins0 ins M') nc m1.
Proof.
  intros R E Hm Rr Hd Em Mx Lc Lm Ey Ee Es. unfold distribute.
  apply wp_bind. unfold et_transfer_lock. apply wp_bind. eapply wps_ld_stat; [rewrite Es; apply lookup_insert_eq|]. cbn [st_mutex set_st_list_out].
  rewrite Mx. eapply wps_str_stat; [rewrite Es; apply lookup_insert_eq|done|].
  set (m0 := upd_stat me _ m1). assert (T : taken M me m0).
  { split; [done|done|]. exists ps, lo. split_and!; try done. unfold m0. cbn. rewrite Es. apply map_eq. intros i.
    destruct (decide (i = me)) as [->|N]; [by rewrite lookup_alter_eq, !lookup_insert_eq|by rewrite lookup_alter_ne, !lookup_insert_ne]. }
  clearbody m0. destruct (taken_pre _ _ _ _ _ _ T R) as (P & O & D). apply wp_bind.
  assert (Gk : ET_GRANDCENTRAL ∉ members k).
  { pose proof (ch_nodup _ _ (dp_chain _ _ _ _ P)) as N. destruct (ch_gc _ _ (dp_chain _ _ _ _ P)) as [gs' Eg]. rewrite E in Eg, N.
    rewrite members_app, members_cons in N. destruct gs1 as [|g1 gs1]; injection Eg as Eg1 Eg2.
    - apply NoDup_app in N as (_ & _ & N). apply NoDup_app in N as (_ & N & _). apply N. rewrite Eg1. by left.
    - apply NoDup_app in N as (_ & N & _). intros X. apply (N ET_GRANDCENTRAL); [rewrite Eg1; by left|]. set_solver. }
  eapply wp_mono; [eapply wp_first_station; [apply P|exact E|exact Hm]| |done]. cbv beta. intros r m' [-> ->].
  apply wp_bind. unfold stations_fuel. apply wp_bind, wp_getm, wp_ret. apply wp_bind.
  pose proof (length_members_le _ _ (dp_chain _ _ _ _ P)) as Lg. pose proof (length_heads_le gs) as Lh.
  rewrite E in Lh at 1. rewrite length_app in Lh. simpl in Lh.
  eapply wp_mono; [eapply (wp_conduct m0 gs all ins0 P O _ (gs1 ++ [g]) k _ _ ins0 all)| |done]; [by rewrite <- app_assoc|done|lia|done| |done| |done|].
  - split; simpl; [done|by rewrite length_replicate|]. intros _. clear. induction all as [|a l IH]; [done|]. simpl. by rewrite <- IH.
  - cbn [lo_first]. eapply Forall_impl; [exact Rr|]. cbv beta. intros g' N (ph & Eh & Sm). apply N.
    destruct (taken_lookup_back _ _ _ _ _ T Eh) as (ph' & Eh' & K & _). injection K as _ _ K _. exists ph'. by rewrite K.
  - cbv beta. intros r m' (lo' & ins & -> & D').
    destruct (tk_stats _ _ _ T) as (ps' & lo2 & Em' & Lc' & Lm' & Es'). 
    destruct (dv_lookup _ _ _ _ _ _ _ _ D' me (set_st_mutex true (set_st_list_out lo2 ps'))) as (q & Eq & Ec); [rewrite Es'; apply lookup_insert_eq|].
    apply wp_bind. unfold et_transfer_unlock. eapply wps_str_stat; [exact Eq|done|]. apply wp_ret. exists lo', ins. split; [done|].
    assert (Hmem : me ∈ members gs) by (apply (elem_of_members me g); [rewrite E; set_solver|done]). split.
    + pose proof (dv_perm _ _ _ _ _ _ _ _ D') as X. by rewrite app_nil_r in X.
    + intros s Hs. destruct (dv_member _ _ _ _ P _ _ _ _ D' s Hs) as (qs & Eqs & _).
      pose proof (dv_in _ _ _ _ _ _ _ _ D' s qs Hs Eqs) as X1. pose proof (dv_lock _ _ _ _ _ _ _ _ D' s qs Hs Eqs) as X2.
      rewrite bool_decide_eq_false_2 in X2 by done.
      pose proof (taken_received _ _ _ _ _ _ T (dv_got _ _ _ _ _ _ _ _ D' s Hs)) as X3.
      destruct (decide (s = me)) as [->|N].
      * rewrite (upd_stat_eq _ _ _ _ Eqs). by eexists.
      * rewrite upd_stat_ne by done. by exists qs.
    + rewrite (upd_stat_eq _ _ _ _ Eq). eexists. split; [done|]. cbn. pose proof (f_equal st_list_out Ec) as X. cbn in X. by rewrite X.
    + transitivity m0; [by apply taken_links with me|]. transitivity m'; [|symmetry; by apply same_links_upd_stat].
      split; [|exact (f_equal sys_stat_tail (eq_sym (dv_sys _ _ _ _ _ _ _ _ D')))].
      pose proof (dv_stats _ _ _ _ _ _ _ _ D') as X. apply map_eq. intros s. apply (f_equal (.!! s)) in X. rewrite !lookup_fmap in *.
      destruct (m_stats m' !! s) as [a|], (m_stats m0 !! s) as [b|]; try done. simpl in *. apply (inj Some) in X. f_equal.
      exact (f_equal links (eq_sym X)).
    + cbn. rewrite <- (tk_events _ _ _ T). apply D'.
    + intros a. cbn. rewrite <- (tk_events _ _ _ T). apply D'.
Qed.

Lemma wp_round M gs gs1 g k me all ins0 depth temps :
  round_pre M gs me all ins0 -> gs = gs1 ++ g :: k -> me ∈ group_members g ->
  Forall (fun g => ~ rrobin M (fst g)) (tail k) -> Z.of_nat (length all) <= depth ->
  wp (conductor_round depth me temps)
    (fun r M' => exists temps' ins, r = Some temps' /\ distributed M gs me all ins0 ins M') nc M.
Proof.
  intros R E Hm Rr Hd. destruct (rp_out _ _ _ _ _ R) as (ps & Em & Ro & Lm & Mx). pose proof (rp_some _ _ _ _ _ R) as Ne.
  assert (Hl : 1 <= Z.of_nat (length all)) by (destruct all; simpl; [done|lia]).
  unfold conductor_round. apply wp_bind. unfold et_llist_lock. apply wp_bind. eapply wps_ld_list; [done|]. simpl. rewrite Lm.
  eapply wps_str_list; [done|done|]. set (m1 := upd_list (LOut me) (set_l_mutex true) M).
  set (ps1 := set_st_list_out (set_l_mutex true (st_list_out ps)) ps).
  assert (E1 : m_stats m1 !! me = Some ps1) by exact (upd_stat_eq _ _ _ _ Em).
  assert (R1 : list_rep (m_events m1) (st_list_out ps1) all) by by apply (list_rep_ext _ (st_list_out ps)).
  pose proof (lr_cnt _ _ _ R1) as Cn.
  apply wp_bind, wp_with_wakes. cbn [wait_events]. apply wp_bind. eapply wps_ld_list; [done|]. cbn [st_list]. rewrite Cn.
  destruct (Z.ltb_spec (Z.of_nat (length all)) 1); [lia|]. apply wp_ret. cbn [negb]. cbv iota.
  apply wp_bind. eapply wps_ld_list; [done|]. cbn [st_list]. rewrite Cn. destruct (Z.ltb_spec depth (Z.of_nat (length all))); [lia|].
  apply wp_bind. eapply wp_mono; [eapply wp_llist_read; [exact E1|exact R1|done]| |done]. cbv beta. intros r m2 [-> ->].
  apply wp_bind. unfold et_llist_unlock. eapply wps_str_list; [apply lview_stat|done|].
  destruct (Z.ltb_spec (Z.of_nat (length all)) 0); [lia|]. apply wp_bind.
  eapply wp_mono; [eapply (wp_distribute M gs gs1 g k me all ins0 depth temps _ ps
    (set_l_mutex false (set_l_events_out (u64 (l_events_out (st_list_out ps1) + Z.of_nat (length all)))
       (set_l_lasthigh 0 (set_l_cnt 0 (set_l_firstevent NULL (st_list_out ps1)))))))| |done]; try done.
  - cbn. apply map_eq. intros i. destruct (decide (i = me)) as [->|N].
    + by rewrite lookup_alter_eq, !lookup_insert_eq.
    + by rewrite lookup_alter_ne, !lookup_insert_ne, lookup_alter_ne.
  - cbv beta. intros r M' (lo' & ins & -> & D). apply wp_ret. by exists (lo_temps lo'), ins.
Qed.

(** C23: one turn of a conductor's loop ends, and then every event that was in its station's output
    list is in the input list of exactly one station: of GrandCentral in the order of the output list,
    or of an active station that selects it, behind the events of the same priority and in front of
    those of a lower one; a nonblocking station never gets more than its cue holds.  No event is lost
    or doubled, the chain of the stations does not change and all locks are free again.  The next
    group of stations may share the events in any way, those behind it in any way but round robin: in a
    round-robin group that is not the next one the code puts an event twice and loses another (Select). *)
Theorem conductor_round_spec M gs gs1 g k me all ins0 depth temps :
  round_pre M gs me all ins0 -> gs = gs1 ++ g :: k -> me ∈ group_members g ->
  Forall (fun g => ~ rrobin M (fst g)) (tail k) -> Z.of_nat (length all) <= depth ->
  exists temps' x M' ins, run (conductor_round depth me temps) M = Ok (Some temps') x M' /\
    distributed M gs me all ins0 ins M'.
Proof.
  intros R E Hm Rr Hd. destruct (wp_run _ _ _ _ (wp_round M gs gs1 g k me all ins0 depth temps R E Hm Rr Hd))
    as (r & x & M' & Er & temps' & ins & -> & D). by exists temps', x, M', ins.
Qed.
End round.

(** ** A concrete round *)

#[local] Instance selector0 : Selector :=
  {| dlopen_ok := fun _ => true; dlsym_ok := fun _ _ => true; user_select := fun _ _ _ _ => 1 |}.

Definition inputs0 (s : Z) : list Z := if s =? 0 then [700; 800] else if s =? 1 then [200; 100] else [].
Definition groups1 : list group := [(0, []); (1, []); (2, []); (3, [])].

Lemma mem0_chain : station_chain mem0 groups1.
Proof.
  split; [by_eval| |by eexists|vm_compute; repeat split|done|].
  - intros s Hs. change (s ∈ [0; 1; 2; 3]) in Hs. each_elem; (split; [lia|eexists; split; reflexivity]).
  - intros g Hg. unfold groups1 in Hg. each_elem; apply group_ok_single; reflexivity.
Qed.

Lemma round_pre0 : round_pre mem0 groups1 1 [300; 400] inputs0.
Proof.
  split.
  - split; [apply mem0_chain|apply mem0_ev_ok|by_eval|by_eval|by_eval|by_eval|].
    intros s Hs N. change (s ∈ [0; 1; 2; 3]) in Hs. each_elem; by_eval.
  - split; [|by eexists|done|by_eval]. intros s ps Hs N E. change (s ∈ [0; 1; 2; 3]) in Hs.
    each_elem; apply (inj Some) in E; subst ps; by_eval.
  - intros s ps Hs E. change (s ∈ [0; 1; 2; 3]) in Hs. each_elem; apply (inj Some) in E; subst ps; (split; [|done]).
    + apply mem0_gc.
    + apply mem0_in1.
    + by apply list_rep_empty.
    + by apply list_rep_empty.
  - exists (stat0 1). split; [done|]. split; [apply (or_list _ _ _ mem0_out1)|done].
  - done.
Qed.

Lemma conductor_round_spec_witness :
  exists temps' x M' ins, run (conductor_round 8 1 []) mem0 = Ok (Some temps') x M' /\
    distributed mem0 groups1 1 [300; 400] inputs0 ins M'.
Proof.
  apply (conductor_round_spec mem0 groups1 [(0, [])] (1, []) [(2, []); (3, [])] 1 [300; 400] inputs0 8 []).
  - apply round_pre0.
  - done.
  - by left.
  - constructor; [|constructor]. intros (ph & E & X). apply (inj Some) in E. subst ph. discriminate X.
  - by_eval.
Defined.
